(* ===== verification/_CoqProject ===== *)
-Q . S2P
Prelude.v
Bytes.v
AsnTypes.v
AsnParse.v
AsnBuild.v
AsnBuildSpec.v
AsnParseSpec.v
AsnRbuild.v
AsnRbuildSpec.v
VarOp.v
Pdu.v
Codec.v
VarOpSpec.v
PduRing.v
PduSpec.v
AsnSafety.v
Samples.v
AsnProps.v
PduProps.v
Int64.v
Int64Spec.v
Oid.v
Vacm.v
VacmSpec.v
VacmProps.v
Lcd.v
LcdSpec.v
Usm.v
UsmSpec.v
UsmProps.v
Scapi.v
Users.v
UsmMsg.v
UsersSpec.v
UsmMsgSpec.v
UsmWire.v
UsmRound.v
UsmMsgProps.v
Enum.v
UsmForward.v
Session.v
Secmod.v
Message.v
MessageSpec.v
MessageV3.v
MessageProps.v
SecmodProps.v
Alarm.v
AlarmSpec.v
AlarmProps.v
Client.v
Stream.v
StreamProps.v
Keytools.v
KeytoolsProps.v
CString.v
ReadConfig.v
ReadConfigProps.v
UserConfig.v
UserConfigProps.v
Requests.v
RequestsProps.v
ClientProps.v
Container.v
BinaryArray.v
BinaryArrayProps.v
ListContainer.v
Containers.v
ContainersProps.v
OidStash.v
OidStashProps.v
AgentHandler.v
Registry.v
RegistryMap.v
RegistryTree.v
RegistryProps.v
AgentRequest.v
AgentRequestProps.v
AgentGetSet.v
AgentNext.v
