(* ===== verification/Prelude.v ===== *)
(** * A verification library for the SNMP engine of net-snmp 5.7.1

    The repository collects the packages an SIP server is built from; the one
    with the most intricate core of its own is the SNMP engine under
    src/net-snmp-5.7.1.  This library models that core as the C sources write
    it and proves what makes it correct.  Paths below are relative to
    src/net-snmp-5.7.1.

    ** The program and its parts

    An SNMP message carries a protocol data unit (PDU): a few integers and a
    list of variable bindings, each an object identifier with a typed value,
    all in the Basic Encoding Rules.  The layers, bottom up:

    - snmplib/asn1.c: parsers and two families of builders for each type, one
      writing forwards into a fixed buffer, one writing backwards into a
      buffer that grows;
    - snmplib/snmp.c: a variable binding as a sequence of a name and a value;
    - snmplib/snmp_api.c: the PDU, built by [snmp_pdu_build] or
      [snmp_pdu_realloc_rbuild] and parsed by [snmp_pdu_parse]; the order on
      object identifiers;
    - snmplib/int64.c: 64-bit counters in two 32-bit halves;
    - snmplib/vacm.c and agent/mibgroup/mibII/vacm_conf.c: the tables of the
      view-based access control model and the decision about a request;
    - snmplib/lcd_time.c, with the local engine's clock of snmplib/snmpv3.c:
      what is known of the boots and time of other engines, in hashed lists;
    - snmplib/snmpusm.c with snmplib/scapi.c: the user-based security model.
      A sender looks up the user, encrypts the scoped PDU, writes the security
      parameters in front of it and signs the whole; a receiver parses the
      parameters with the routines of asn1.c, finds the user, checks the
      signature and, on the clocks of lcd_time.c, that the message is neither
      late nor replayed, and decrypts;
    - snmplib/snmp_secmod.c with snmplib/snmp_enum.c: the security models that
      are registered, by number, and the lists of labels that name them;
    - snmplib/snmp_api.c again, with snmplib/snmp_auth.c: the whole message.
      [snmp_build] puts a version, a community or the header of version 3, and
      the PDU together, where a security model does part of the work of
      version 3; [snmp_parse] takes a message apart, answers a probe for the
      engine identifier itself, and turns an error into a report;
    - snmplib/snmp_client.c, and the rest of snmplib/snmp_api.c: messages and
      variables made and copied by a client, an open session with the list of
      its requests, their answers, retries and timeouts, and reading from
      transports that are streams;
    - snmplib/keytools.c, snmplib/read_config.c and the end of snmpusm.c: keys
      made from pass phrases, values in the lines of configuration files, and
      the users such lines create, save and read back;
    - snmplib/snmp_alarm.c: the alarms of an application, each called when its
      time has come;
    - snmplib/container*.c, snmplib/oid_stash.c: sorted arrays and lists,
      containers with several indexes, and data by object identifier;
    - agent/agent_registry.c and agent/agent_handler.c: the registrations of
      handlers, each for the part of the tree of object identifiers below its
      name, and the regions that tree is split into;
    - agent/snmp_agent.c: a message in the agent.  The access control is asked
      for each variable, the handlers of the regions are called until all is
      answered, a SET in phases; messages wait for handlers that take their
      time, and for a SET that must run alone.

    ** The files of this library

    - Prelude: machine integers, the tactic [cint], bits as arithmetic, and
      the monad [outcome] of C routines that return, fail, leave their memory
      or keep running.
    - Bytes: memory as a list of bytes, big-endian numbers, minimal two's
      complement octets and base-128 octets.
    - AsnTypes, AsnParse, AsnBuild, AsnRbuild: asn1.c.  A parser gets the
      buffer, an offset and the number of valid bytes, and returns the new
      offset, its outputs and the new count; a forward builder gets the room
      and returns the bytes it stores; a reverse builder transforms the packet
      [rbuf] (pointer, length and offset of the C code in one record).
    - VarOp: snmp.c; a value is the memory its pointer points to.
    - Pdu: the PDU routines of snmp_api.c, with the ring of fifty pointers
      that turns the list of variables round.
    - AsnBuildSpec, AsnParseSpec, AsnRbuildSpec, VarOpSpec, PduRing, PduSpec:
      the encodings as plain functions of the values, and the lemmas that each
      routine computes them.  The forward builders are [take_room], the
      reverse builders satisfy the judgement [wr] (written in front, or
      refused by the allocator), the parsers invert the encoding.
    - Codec: the interface between the value types and everything above: a
      record of an encoding with the laws the two builders, the header parser
      and the value parser obey.  Variable bindings and PDUs are proved
      against the interface; each type is an instance.
    - AsnSafety: the parsers on arbitrary bytes, by the judgement [safe].
    - Samples, AsnProps, PduProps: the properties of these parts.
    - Int64, Int64Spec: int64.c and its properties.
    - Oid: the comparisons of object identifiers and their properties.
    - Vacm, VacmSpec, VacmProps: the access control, the meaning of masks,
      families and index orders, and its properties.
    - Lcd, LcdSpec: the static variables of lcd_time.c and snmpv3.c as one
      state record with a function per routine; the finite map [abs] from
      engines to records it refines, under the invariant [wf].
    - Usm, UsmSpec: the security parameters and the timeliness
      check of snmpusm.c; the check on the map, and [step], the messages and
      queries a run consists of.
    - UsmProps: the parser on arbitrary bytes, and the properties of clocks,
      timeliness and parameters.
    - Scapi: the wrappers of scapi.c around the hashes and ciphers,
      which are the class [Crypto].
    - Users, UsersSpec: the users and their sorted list; the finite map it
      refines, from engine identifiers and names; what the wrappers of scapi.c
      compute, padding included.
    - UsmMsg: the static variables of snmpusm.c as one state record [usm],
      [usm_rgenerate_out_msg] and [usm_process_in_msg].
    - UsmMsgSpec: [accepts], the steps of a call that succeeds, as an
      interface between the routine and its properties; what every call does
      to the clocks; [usm_step], the messages and changes of the user table a
      run consists of.
    - UsmWire, UsmRound: the message as a plain function of its fields, the
      place of the signature in it, and the way from sender to receiver.
    - UsmMsgProps: the properties of these messages.
    - UsmForward: [usm_generate_out_msg], the builder that writes forwards to
      places computed beforehand.
    - Enum, Secmod: the enumerations and the registry of security models.  The
      record [snmp_secmod_def] of Secmod, with the routines of a model as its
      fields, is what the message layer knows of a model; [usm_secmod_def] is the
      user-based model as one.
    - Session: the fields of a message around its PDU, the session, the
      counters behind request, message and transaction identifiers, the
      comparison of an answer with its request, and reports.
    - Message: [snmp_build] and [snmp_parse] with what they call.
    - MessageSpec, MessageV3: the bytes of a message as plain functions of its
      fields, and the way from [snmp_build] to [snmp_parse].
    - MessageProps: what a message that is accepted has passed, as an
      interface ([let_through], [well_formed]) between [snmp_parse] and its
      properties; the identifiers after any number of calls; the properties of
      messages.
    - SecmodProps: those of the registry of security models.
    - Alarm: the list of alarms as a state record, a function per routine of
      snmp_alarm.c, and the loop [run_alarms] with the callbacks as a
      parameter.
    - AlarmSpec, AlarmProps: times in microseconds, the invariant of the list,
      runs and their end, and the properties.
    - Client, ClientProps: new messages and variables, copies of messages.
    - Stream, StreamProps: the loop of [_sess_read] over the bytes of a stream,
      and why the pieces they come in do not matter.
    - Requests, RequestsProps: the session with its list of requests; the
      environment (transport, hooks, callbacks, [select]) is a record of
      functions.  The invariant of the list, runs, and what ends them.
    - Keytools, KeytoolsProps: pass phrases, localized keys, KeyChange strings.
    - CString, ReadConfig, ReadConfigProps: strings of the C library, the values
      in a line and their round trips.
    - UserConfig, UserConfigProps: users from lines and from sessions.
    - Container: elements and their comparison, the class [Ordering].
    - BinaryArray, BinaryArrayProps, ListContainer, Containers, ContainersProps:
      the kinds of containers and chains of them; a sorted array is a set.
    - OidStash, OidStashProps: the tree of oid_stash.c and the map it is.
    - AgentHandler: handlers and registrations, with the data of access
      methods as parameters.
    - Registry: contexts, regions and the lookup cache, as agent_registry.c has
      them; a region is a stack of registrations, and the regions of a context are a
      list of stacks in order.
    - RegistryMap, RegistryTree, RegistryProps: [holds], which relates regions
      to a list of registrations, kept by every operation; the context as a map from
      names to their longest registered prefix.
    - AgentRequest: a message in the agent, as a record of the fields of
      netsnmp_agent_session; the calls of handlers and of the access control
      as parameters; the lists of messages that wait, with a log of what
      happened to each.
    - AgentRequestProps: what each operation does to a request and its
      variable ([cell]), the regions the variables are given to ([collected]),
      and the steps of the agent with the invariant [queue_ok].
    - AgentGetSet, AgentNext: the properties of SET, GET, the queue, and
      GETNEXT.

    ** What the theorems show

    Round trips: what either PDU builder writes, [snmp_pdu_parse] restores
    field by field and variable by variable; the two builders of a value agree
    on its bytes; integers are written minimally; decimal output of counters
    is read back.  Safety on arbitrary input: the parsers terminate, read at
    most twelve bytes past the announced ones, accept only objects that lie
    inside them ([asn_parse_null] apart) and never write outside the caller's array.  Orders and
    tables: the comparison of object identifiers is a total order in which a
    subtree is an interval; the access tables stay sorted, and creating and
    destroying entries are inverse.  Access: the winning view family is the
    right one, the answer for a subtree holds for all names in it, and a
    request succeeds only through a complete chain of entries.  Clocks: the
    lists of engines are a map; what an authenticated message said of an
    engine's clock never goes back in any run, so replayed messages are
    refused; the check accepts exactly the messages in time.  Messages: what one
    engine sends at any security level another that shares the keys takes;
    an authenticated message is accepted only with the hash of a user's key,
    be it a user of the table or the user without a name, who has a protocol but no key;
    in no run of messages and changes of the user table is a message of an earlier
    boot accepted after a newer one, nor one of the same boot that is older by more than the
    window; the list of users is a map.  Whole messages: what
    [snmp_build] makes, of the community-based versions and of version 3,
    [snmp_parse] restores; a message of version 3 that is accepted has a
    header in range and flags that are in order, and an authentic one a
    signature made with the key of the user it names; the reports the code
    makes are the ones it recognises; identifiers do not repeat within their
    period.  The registry of security models is a map from numbers.  Alarms:
    the list stays well formed, every alarm is due an interval after its last
    call, by a record of these calls kept beside the state, every alarm that is due
    is called, and the loop ends.  Sessions: an answer goes to the callback of its own request,
    a request is sent a bounded number of times and ends with an answer or a
    timeout, and the pieces a stream comes in do not matter; what is sent and called is a
    trace of events, in which a packet carries the number of its request and
    whether it is sent again.  Users: they
    survive saving and reading back, and the ways to give a password lead to the
    same keys.  Containers: a sorted array is a set, a chain of ordered sets inserts everywhere or
    nowhere, the stash is a map.  The agent: after any history of
    registrations (of single names of two sub-identifiers or more) a lookup finds the longest
    registered prefix, and the search
    with its skipped comparisons is the linear search; a SET is a two-phase
    commit, whose passes are specified by the calls of access methods they make
    and the errors these report; a GET gives the instances of its names in one
    such pass, a GETNEXT the first instances
    after them that are in view, within a bounded number of turns; no GETNEXT
    of version 3 discloses what the access tables do not grant, whatever the
    handlers do, answered at once or after delays (an error in the last pass after a
    delay apart, which does disclose); messages start in the order of arrival, and a SET runs alone.
    Counters: arithmetic on halves is arithmetic modulo 2^64, and a polled counter
    follows its source through wraps.  Divergences: where the code does
    something else than it means to, a theorem states what it does.

    ** Conventions, bounds and fuel

    The platform is LP64 and little-endian, compiled with
    NETSNMP_WITH_OPAQUE_SPECIAL_TYPES and NETSNMP_USE_REVERSE_ASNENCODING.
    Machine integers are [Z] with explicit wrap-around.  Debug output, error
    texts and statistics counters are left out.  The C library's [realloc] and
    [malloc] are the class [Allocator]; what a failing value parser leaves in
    an uninitialised buffer is the parameter [leftover].  The readings of the
    monotonic clock and the digests of OpenSSL are the class [Platform]; the
    code relies on the lengths of the digests only.  The keyed hashes and
    ciphers of OpenSSL are the class [Crypto], with the laws that decryption
    undoes encryption on bytes and that lengths are as documented; nothing is
    assumed of their strength.

    Loops that consume their input run on the length of the input.  The other
    fuels: eight turns for the shifts of a 64-bit word, ten for its groups of
    seven bits, one turn per 256 missing bytes for growing a packet, one round
    per variable for the ring, one turn per byte for the variable bindings;
    that they are enough is part of the theorems, which exclude [Spin].  The
    last loop of [asn_realloc_rbuild_signed_int64] alone takes its fuel as an
    argument: three turns are enough for a value that is not negative, and no
    number is for a negative one; [snmp_build] passes that argument on as
    [fuel64], and [hole] is what an unwritten part of a packet holds.
    [run_alarms] gets one turn more than [budget]: the calls that are due in
    the time the run lasts, for every alarm.

    The list of requests is gone through with a turn per request plus one; a
    table of localized digests takes 16384 blocks plus one; a number has at
    most 20 digits; the characters of an index take a turn each plus two.
    The sort of an array goes as deep as it has elements, its scans
    and searches have a turn per element plus one; the way through a stash has two
    turns per node plus one.  Loading a registration has a turn per region
    plus two, taking one away a turn per registration plus one, a range
    one per value plus one.  A SET has six turns.  The loop of a GETNEXT takes its
    fuel as an argument: (regions + 1) * (instances of a region + 1) turns
    are enough ([passes]), and no number is where [inclusive_retry_spins] applies.
    The queue has a turn per message in it ([turns_enough]).

    The functions of an application are parameters: the hooks of a session,
    the contents of a statistics counter a report carries, and, for an alarm,
    the routines of snmp_alarm.c its callback calls; the environment of a session;
    the comparison of a container's elements, with the laws of [Ordering]; the
    access methods of handlers and the copies of their data.  So are random bytes, and
    what a transport makes of a community.  The callbacks of the access
    control are a parameter of the agent, and that of vacm_conf.c is an
    instance of it.

    ** Not modelled

    Opening and copying sessions, the list of all sessions, listening
    transports and the transports themselves; finding and reading of
    configuration files and their handlers (the values in a line are modelled, object
    identifiers as without loaded MIBs); the default store; the making of the
    local engine identifier; the MIB parser; callbacks that run the alarms or
    requests they are called from; the signal that interrupts the code between
    two instructions; data_list.c and container_iterator.c; variables of the old
    interface of the registry and the joining of regions; saving and scanning
    the access tables.  Of the agent: GETBULK, whose repetitions need variables that
    are added to a message while it is processed, and the phases of a SET as
    messages of their own (AgentX); the requests of a session that is closed,
    which are found by links of earlier passes; statistics and traps, the
    cache of addresses, the main loop, and the MIB modules.  The other
    packages of the repository are not looked at. *)

From stdpp Require Export prelude.
From Stdlib Require Export ZArith Lia.

#[export] Set Default Goal Selector "!".
Open Scope Z_scope.

(** ** Machine integers

    The code is compiled for LP64: [int] has 32 bits, [long], [u_long],
    [size_t] and [oid] have 64.  A machine integer is a [Z]; a conversion or
    an operation that can leave the range of its type is followed by the
    wrap-around of that type. *)

Definition u8 (z : Z) : Z := z mod 2 ^ 8.
Definition u32 (z : Z) : Z := z mod 2 ^ 32.
Definition u64 (z : Z) : Z := z mod 2 ^ 64.
Definition s32 (z : Z) : Z := (z + 2 ^ 31) mod 2 ^ 32 - 2 ^ 31.
Definition s64 (z : Z) : Z := (z + 2 ^ 63) mod 2 ^ 64 - 2 ^ 63.

Definition is_u8 (z : Z) : Prop := 0 <= z < 2 ^ 8.
Definition is_u32 (z : Z) : Prop := 0 <= z < 2 ^ 32.
Definition is_u64 (z : Z) : Prop := 0 <= z < 2 ^ 64.
Definition is_s32 (z : Z) : Prop := - 2 ^ 31 <= z < 2 ^ 31.
Definition is_s64 (z : Z) : Prop := - 2 ^ 63 <= z < 2 ^ 63.

(** [sizeof(long)] and [sizeof(oid)]. *)
Definition sizeof_long : Z := 8.

Create HintDb cint.
Create Rewrite HintDb cint.
Create Rewrite HintDb outcome.

(** [cint] unfolds the machine-integer ranges and wraps, and closes the goal
    by linear arithmetic once every [div] and [mod] by a constant is turned
    into its equations. *)
Ltac cint_unfold :=
  unfold is_u8, is_u32, is_u64, is_s32, is_s64, u8, u32, u64, s32, s64, sizeof_long in *.
Ltac cint_consts :=
  change (2 ^ 8) with 256 in *; change (2 ^ 16) with 65536 in *;
  change (2 ^ 31) with 2147483648 in *; change (2 ^ 32) with 4294967296 in *;
  change (2 ^ 63) with 9223372036854775808 in *;
  change (2 ^ 64) with 18446744073709551616 in *.
Ltac cint := cint_unfold; cint_consts; Z.div_mod_to_equations; lia.

Lemma u8_range z : is_u8 (u8 z).
Proof. cint. Qed.
Lemma u32_range z : is_u32 (u32 z).
Proof. cint. Qed.
Lemma u64_range z : is_u64 (u64 z).
Proof. cint. Qed.
Lemma s32_range z : is_s32 (s32 z).
Proof. cint. Qed.
Lemma s64_range z : is_s64 (s64 z).
Proof. cint. Qed.

Lemma u8_id z : is_u8 z -> u8 z = z.
Proof. cint. Qed.
Lemma u32_id z : is_u32 z -> u32 z = z.
Proof. cint. Qed.
Lemma u64_id z : is_u64 z -> u64 z = z.
Proof. cint. Qed.
Lemma s32_id z : is_s32 z -> s32 z = z.
Proof. cint. Qed.
Lemma s64_id z : is_s64 z -> s64 z = z.
Proof. cint. Qed.

#[export] Hint Resolve u8_range u32_range u64_range s32_range s64_range : cint.
#[export] Hint Rewrite u8_id u32_id u64_id s32_id s64_id using (cint || assumption) : cint.

(** ** Bits as arithmetic *)

Lemma shl_mul x n : 0 <= n -> Z.shiftl x n = x * 2 ^ n.
Proof. intros. by apply Z.shiftl_mul_pow2. Qed.

Lemma shr_div x n : 0 <= n -> Z.shiftr x n = x / 2 ^ n.
Proof. intros. by apply Z.shiftr_div_pow2. Qed.

(** A mask of [n] low ones is a remainder. *)
Lemma land_low x n : 0 <= n -> Z.land x (Z.ones n) = x mod 2 ^ n.
Proof. apply Z.land_ones. Qed.

(** A mask of [n] ones at bit [k] selects a field. *)
Lemma land_field x k n :
  0 <= k -> 0 <= n ->
  Z.land x (Z.shiftl (Z.ones n) k) = (x / 2 ^ k) mod 2 ^ n * 2 ^ k.
Proof.
  intros Hk Hn.
  rewrite <- (shr_div x k), <- land_low, <- (shl_mul _ k) by lia.
  apply Z.bits_inj'. intros i Hi.
  rewrite Z.land_spec, !Z.shiftl_spec, Z.land_spec by lia.
  destruct (decide (k <= i)) as [H|H].
  - rewrite Z.shiftr_spec by lia. by replace (i - k + k) with i by lia.
  - rewrite !(Z.testbit_neg_r _ (i - k)) by lia. by rewrite !andb_false_r.
Qed.

(** Or-ing a low field under a shifted value adds it. *)
Lemma lor_add x b n :
  0 <= n -> 0 <= b < 2 ^ n -> Z.lor (x * 2 ^ n) b = x * 2 ^ n + b.
Proof.
  intros Hn Hb. rewrite <- Z.lxor_lor, <- Z.add_nocarry_lxor; [done| |].
  all: apply Z.bits_inj'; intros i Hi; rewrite Z.bits_0, Z.land_spec.
  all: destruct (decide (i < n)) as [H|H];
    [by rewrite Z.mul_pow2_bits_low by lia|].
  all: rewrite <- (Z.mod_small b (2 ^ n)) by lia.
  all: rewrite Z.mod_pow2_bits_high by lia; apply andb_false_r.
Qed.

Lemma lor_add_r x b n :
  0 <= n -> 0 <= b < 2 ^ n -> Z.lor b (x * 2 ^ n) = x * 2 ^ n + b.
Proof. intros. rewrite Z.lor_comm. by apply lor_add. Qed.

(** Setting the high bit of a byte whose high bit is clear. *)
Lemma lor_bit8 z : 0 <= z < 128 -> Z.lor z 128 = z + 128.
Proof.
  intros. change 128 with (1 * 2 ^ 7) at 1. rewrite lor_add_r by lia. lia.
Qed.

(** The sign test [b & 0x80] of a byte. *)
Lemma land_128 b : is_u8 b -> Z.land b 128 = if b <? 128 then 0 else 128.
Proof.
  intros Hb. change 128 with (Z.shiftl (Z.ones 1) 7) at 1.
  rewrite land_field by lia. cint_unfold. cint_consts.
  change (2 ^ 7) with 128. change (2 ^ 1) with 2.
  destruct (Z.ltb_spec b 128); Z.div_mod_to_equations; lia.
Qed.

Lemma land_bit8 b : is_u8 b -> (Z.land b 128 =? 0) = (b <? 128).
Proof. intros. rewrite land_128 by done. by destruct (b <? 128). Qed.

(** ** Outcomes of the C routines

    [Ret a]: the routine returns normally with the outputs [a].
    [Null]: it reports failure (a NULL pointer, a zero return code); the text
    left in [snmp_detail] by [ERROR_MSG] is not modelled.
    [Overrun]: it reads or writes outside the memory it was given, which C
    leaves undefined.
    [Spin]: the loop is still running when the fuel of the model is used up;
    each looping definition has a theorem saying how much fuel is enough, or
    that none is. *)

Inductive outcome (A : Type) : Type :=
  | Ret (a : A)
  | Null
  | Overrun
  | Spin.
Arguments Ret {A} a.
Arguments Null {A}.
Arguments Overrun {A}.
Arguments Spin {A}.

#[export] Instance outcome_ret : MRet outcome := @Ret.
#[export] Instance outcome_bind : MBind outcome := fun A B f m =>
  match m with
  | Ret a => f a
  | Null => Null
  | Overrun => Overrun
  | Spin => Spin
  end.
#[export] Instance outcome_fmap : FMap outcome := fun A B f m => m ≫= (fun a => Ret (f a)).

#[export] Instance outcome_eq_dec {A} `{EqDecision A} : EqDecision (outcome A).
Proof. solve_decision. Defined.

Lemma bind_ret {A B} (a : A) (f : A -> outcome B) : Ret a ≫= f = f a.
Proof. done. Qed.

Lemma bind_assoc {A B C} (m : outcome A) (f : A -> outcome B) (g : B -> outcome C) :
  (m ≫= f) ≫= g = m ≫= (fun a => f a ≫= g).
Proof. by destruct m. Qed.

Lemma bind_Ret_inv {A B} (m : outcome A) (f : A -> outcome B) b :
  m ≫= f = Ret b -> exists a, m = Ret a /\ f a = Ret b.
Proof. destruct m; cbn; intros; try done. eauto. Qed.

#[export] Hint Rewrite @bind_ret : outcome.
