(* ===== verification/Bytes.v ===== *)
(** * Byte buffers, big-endian integers and base-128 groups

    The read-only memory the parsers walk over, the write-once output of the
    builders, and the two positional notations of BER contents: minimal
    two's-complement integers ([int_octets]) and base-128 subidentifiers
    ([sub_octets]).  These are the abstract encodings the routines of asn1.c
    are compared with. *)

From S2P Require Import Prelude.

(** ** Reading memory

    A buffer is the list of its bytes; a [u_char *] into it is an offset. *)

Abbreviation mem := (list Z).

Definition rd (m : mem) (p : Z) : outcome Z :=
  if p <? 0 then Overrun
  else match m !! Z.to_nat p with
       | Some b => Ret b
       | None => Overrun
       end.

(** [bytes_at m p l]: the bytes [l] stand at offset [p] of [m]. *)
Fixpoint bytes_at (m : mem) (p : Z) (l : list Z) : Prop :=
  match l with
  | [] => True
  | b :: l' => rd m p = Ret b /\ bytes_at m (p + 1) l'
  end.

(** [rd_n m p n]: the [n] bytes at [p], as [memmove] fetches them. *)
Fixpoint rd_n (m : mem) (p : Z) (n : nat) : outcome (list Z) :=
  match n with
  | O => Ret []
  | S n' => b ← rd m p; l ← rd_n m (p + 1) n'; Ret (b :: l)
  end.

(** Every byte of the buffer is a byte. *)
Definition bytes_ok (l : list Z) : Prop := Forall is_u8 l.

Lemma rd_Ret m p b : rd m p = Ret b <-> 0 <= p /\ m !! Z.to_nat p = Some b.
Proof.
  unfold rd. destruct (Z.ltb_spec p 0).
  - split; [done|lia].
  - destruct (m !! Z.to_nat p); split.
    + intros [= ->]. done.
    + by intros [_ [= ->]].
    + done.
    + by intros [_ ?].
Qed.

(** A read is inside the buffer exactly when it does not overrun. *)
Lemma rd_in_bounds m p : 0 <= p < Z.of_nat (length m) -> exists b, rd m p = Ret b.
Proof.
  intros H. destruct (lookup_lt_is_Some_2 m (Z.to_nat p)) as [b Hb]; [lia|].
  exists b. apply rd_Ret. split; [lia|done].
Qed.

Lemma rd_cases m p : (exists b, rd m p = Ret b) \/ rd m p = Overrun.
Proof. unfold rd. destruct (p <? 0); eauto. destruct (m !! _); eauto. Qed.

Lemma rd_bound m p b : rd m p = Ret b -> 0 <= p < Z.of_nat (length m).
Proof. intros [H1 H2%lookup_lt_Some]%rd_Ret. lia. Qed.

Lemma rd_u8 m p b : bytes_ok m -> rd m p = Ret b -> is_u8 b.
Proof. intros Hm [_ H]%rd_Ret. by eapply Forall_lookup_1 in Hm. Qed.

Lemma rd_shift l m p : 0 <= p -> rd (l ++ m) (Z.of_nat (length l) + p) = rd m p.
Proof.
  intros Hp. unfold rd. destruct (Z.ltb_spec (Z.of_nat (length l) + p) 0); [lia|].
  destruct (Z.ltb_spec p 0); [lia|].
  rewrite lookup_app_r by lia. by replace (_ - _)%nat with (Z.to_nat p) by lia.
Qed.

(** What has been read stays when bytes are put behind the buffer. *)
Lemma rd_app_l m m' p b : rd m p = Ret b -> rd (m ++ m') p = Ret b.
Proof. rewrite !rd_Ret. intros [H1 H2]. split; [done|by apply lookup_app_l_Some]. Qed.

Lemma bytes_at_app m p l1 l2 :
  bytes_at m p (l1 ++ l2) <->
  bytes_at m p l1 /\ bytes_at m (p + Z.of_nat (length l1)) l2.
Proof.
  revert p. induction l1 as [|b l1 IH]; intros p; cbn [app bytes_at length].
  - rewrite Z.add_0_r. tauto.
  - rewrite IH. replace (p + 1 + _) with (p + Z.of_nat (S (length l1))) by lia. tauto.
Qed.

Lemma bytes_at_self_shift pre l : bytes_at (pre ++ l) (Z.of_nat (length pre)) l.
Proof.
  revert pre. induction l as [|b l IH]; intros pre; cbn; [done|]. split.
  - rewrite <- (Z.add_0_r (Z.of_nat _)), rd_shift by lia. done.
  - specialize (IH (pre ++ [b])). rewrite <- app_assoc, length_app in IH. cbn in IH.
    by replace (Z.of_nat (length pre) + 1) with (Z.of_nat (length pre + 1)) by lia.
Qed.

(** The bytes of a buffer stand where the buffer says they do. *)
Lemma bytes_at_middle pre l post :
  bytes_at (pre ++ l ++ post) (Z.of_nat (length pre)) l.
Proof.
  apply (bytes_at_app _ _ l post). apply bytes_at_self_shift.
Qed.

Lemma bytes_at_start l post : bytes_at (l ++ post) 0 l.
Proof. apply (bytes_at_middle [] l post). Qed.

Lemma rd_n_bytes_at m p l : bytes_at m p l -> rd_n m p (length l) = Ret l.
Proof.
  revert p. induction l as [|b l IH]; intros p; cbn; [done|].
  intros [-> H]. cbn. by rewrite (IH _ H).
Qed.

Lemma rd_n_in_bounds m p n :
  0 <= p -> p + Z.of_nat n <= Z.of_nat (length m) ->
  exists l, rd_n m p n = Ret l /\ length l = n /\ bytes_at m p l.
Proof.
  revert p. induction n as [|n IH]; intros p Hp Hn; cbn.
  - by exists [].
  - destruct (rd_in_bounds m p) as [b Hb]; [lia|]. rewrite Hb. cbn.
    destruct (IH (p + 1)) as (l & -> & Hl & Hat); [lia..|]. cbn.
    exists (b :: l). cbn. rewrite Hl. done.
Qed.

(** ** Big-endian two's complement *)

(** The value of a big-endian byte string, the way the decoders shift it in. *)
Definition be_val (a : Z) (l : list Z) : Z := fold_left (fun v b => v * 2 ^ 8 + b) l a.

(** The [n] low bytes of [v], most significant first. *)
Fixpoint be_bytes (n : nat) (v : Z) : list Z :=
  match n with
  | O => []
  | S n' => (v / 2 ^ (8 * Z.of_nat n')) mod 2 ^ 8 :: be_bytes n' v
  end.

Lemma length_be_bytes n v : length (be_bytes n v) = n.
Proof. induction n; cbn; congruence. Qed.

Lemma be_bytes_ok n v : bytes_ok (be_bytes n v).
Proof.
  induction n as [|n IH]; cbn; constructor; [|done].
  apply Z.mod_pos_bound. lia.
Qed.
#[export] Hint Resolve be_bytes_ok : cint.

Lemma pow8_succ n : 2 ^ (8 * Z.of_nat (S n)) = 2 ^ 8 * 2 ^ (8 * Z.of_nat n).
Proof. rewrite <- Z.pow_add_r by lia. f_equal. lia. Qed.

Lemma pow8_pos n : 0 < 2 ^ (8 * Z.of_nat n).
Proof. apply Z.pow_pos_nonneg; lia. Qed.

Lemma be_val_app a l1 l2 : be_val a (l1 ++ l2) = be_val (be_val a l1) l2.
Proof. apply fold_left_app. Qed.

Lemma be_val_shift a l :
  be_val a l = a * 2 ^ (8 * Z.of_nat (length l)) + be_val 0 l.
Proof.
  revert a. induction l as [|b l IH]; intros a.
  - cbn. lia.
  - cbn [be_val fold_left length]. fold (be_val (a * 2 ^ 8 + b) l) (be_val (0 * 2 ^ 8 + b) l).
    rewrite (IH (a * 2 ^ 8 + b)), (IH (0 * 2 ^ 8 + b)), pow8_succ. ring.
Qed.

(** Reading back the [n] low bytes of [v] onto the bits above them. *)
Lemma be_val_be_bytes n v :
  be_val (v / 2 ^ (8 * Z.of_nat n)) (be_bytes n v) = v.
Proof.
  induction n as [|n IH].
  - cbn. apply Z.div_1_r.
  - cbn [be_bytes]. unfold be_val in *. cbn [fold_left].
    rewrite <- IH at 4. f_equal.
    rewrite pow8_succ, (Z.mul_comm (2 ^ 8)), <- Z.div_div by (pose proof (pow8_pos n); lia).
    rewrite Z.mul_comm. symmetry. apply Z.div_mod. lia.
Qed.

Lemma be_val_mod n v : be_val 0 (be_bytes n v) = v mod 2 ^ (8 * Z.of_nat n).
Proof.
  pose proof (be_val_be_bytes n v) as H. rewrite be_val_shift, length_be_bytes in H.
  pose proof (pow8_pos n). pose proof (Z.div_mod v (2 ^ (8 * Z.of_nat n))). lia.
Qed.

Lemma be_val_bound l : bytes_ok l -> 0 <= be_val 0 l < 2 ^ (8 * Z.of_nat (length l)).
Proof.
  induction 1 as [|b l Hb Hl IH]; [cbn; lia|].
  change (be_val 0 (b :: l)) with (be_val (0 * 2 ^ 8 + b) l).
  rewrite be_val_shift. cbn [length]. rewrite pow8_succ. unfold is_u8 in Hb. nia.
Qed.

Lemma be_bytes_be_val a l : bytes_ok l -> be_bytes (length l) (be_val a l) = l.
Proof.
  intros Hl. revert a. induction Hl as [|b l Hb Hl IH]; intros a; [done|].
  change (be_val a (b :: l)) with (be_val (a * 2 ^ 8 + b) l). cbn [length be_bytes].
  rewrite IH. f_equal. pose proof (be_val_bound l Hl). pose proof (pow8_pos (length l)).
  rewrite be_val_shift, Z.div_add_l, (Z.div_small (be_val 0 l)) by lia. cint.
Qed.

(** The byte a left-aligned shift register of 64 bits has at its top. *)
Lemma top_byte v a b :
  0 <= a -> 0 <= b -> a + b = 56 ->
  (v * 2 ^ a) mod 2 ^ 64 / 2 ^ 56 = (v / 2 ^ b) mod 2 ^ 8.
Proof.
  intros Ha Hb Hab. apply Z.bits_inj'. intros i Hi.
  rewrite Z.div_pow2_bits by lia.
  destruct (decide (i < 8)) as [H|H].
  - rewrite !Z.mod_pow2_bits_low, Z.mul_pow2_bits, Z.div_pow2_bits by lia.
    f_equal. lia.
  - by rewrite !Z.mod_pow2_bits_high by lia.
Qed.

(** *** Minimal sizes *)

(** [v] fits in [n] bytes of two's complement. *)
Definition fits (n : nat) (v : Z) : bool :=
  match n with
  | O => false
  | S n' => (- 2 ^ (8 * Z.of_nat n' + 7) <=? v) && (v <? 2 ^ (8 * Z.of_nat n' + 7))
  end.

(** The least size in [1..k] that fits, [k] when none does. *)
Fixpoint least_size (k : nat) (v : Z) : nat :=
  match k with
  | O => O
  | S k' => if fits k' v then least_size k' v else k
  end.

(** The BER contents octets of an INTEGER: the shortest two's complement.
    Nine bytes hold every value of a 64-bit type, signed or not. *)
Definition int_size (v : Z) : nat := least_size 9 v.
Definition int_octets (v : Z) : list Z := be_bytes (int_size v) v.

Lemma fits_mono n m v : (n <= m)%nat -> fits n v = true -> fits m v = true.
Proof.
  destruct n as [|n], m as [|m]; cbn [fits]; try done; [lia|].
  intros H [H1%Z.leb_le H2%Z.ltb_lt]%andb_prop.
  assert (2 ^ (8 * Z.of_nat n + 7) <= 2 ^ (8 * Z.of_nat m + 7)) by (apply Z.pow_le_mono_r; lia).
  apply andb_true_intro. split; [apply Z.leb_le|apply Z.ltb_lt]; lia.
Qed.

Lemma least_size_le k v : (least_size k v <= k)%nat.
Proof. induction k; cbn; [done|]. destruct (fits k v); lia. Qed.

Lemma least_size_pos k v : (0 < k -> 0 < least_size k v)%nat.
Proof.
  induction k as [|k IH]; cbn; [lia|]. destruct (fits k v) eqn:E; [|lia].
  destruct k; [done|]. lia.
Qed.

Lemma least_size_fits k v : fits k v = true -> fits (least_size k v) v = true.
Proof. induction k; cbn [least_size]; [done|]. destruct (fits k v) eqn:E; auto. Qed.

Lemma least_size_minimal k v n : fits n v = true -> (n < least_size k v)%nat -> False.
Proof.
  intros Hn. induction k as [|k IH]; cbn; [lia|].
  destruct (fits k v) eqn:E; [done|]. intros H.
  by rewrite (fits_mono n k) in E by (lia || done).
Qed.

(** The least size does not depend on where the search starts. *)
Lemma least_size_start k j v : fits k v = true -> (k <= j)%nat -> least_size j v = least_size k v.
Proof.
  intros Hk. induction j as [|j IH]; intros Hj; [by assert (k = O) as -> by lia|].
  destruct (decide (k = S j)) as [->|]; [done|].
  cbn [least_size]. rewrite (fits_mono k j) by (lia || done). apply IH. lia.
Qed.

Lemma fits_9 v : - 2 ^ 63 <= v < 2 ^ 64 -> fits 9 v = true.
Proof.
  intros H. cbn [fits]. apply andb_true_intro.
  change (2 ^ (8 * Z.of_nat 8 + 7)) with (2 ^ 71).
  split; [apply Z.leb_le|apply Z.ltb_lt]; lia.
Qed.

Lemma fits_8 v : is_s64 v -> fits 8 v = true.
Proof.
  unfold is_s64. intros H. cbn [fits]. apply andb_true_intro.
  change (2 ^ (8 * Z.of_nat 7 + 7)) with (2 ^ 63).
  split; [apply Z.leb_le|apply Z.ltb_lt]; lia.
Qed.

Lemma int_size_8 v : is_s64 v -> int_size v = least_size 8 v.
Proof. intros. apply least_size_start; [by apply fits_8|lia]. Qed.

Lemma int_size_bounds v : (0 < int_size v <= 9)%nat.
Proof. split; [by apply least_size_pos, Nat.lt_0_succ|apply least_size_le]. Qed.

Lemma int_octets_ok v : bytes_ok (int_octets v).
Proof. apply be_bytes_ok. Qed.
#[export] Hint Resolve int_octets_ok : cint.

Lemma length_int_octets v : length (int_octets v) = int_size v.
Proof. apply length_be_bytes. Qed.

(** The sign of the value is the high bit of its first byte. *)
Lemma be_bytes_sign n v :
  fits (S n) v = true ->
  ((v / 2 ^ (8 * Z.of_nat n)) mod 2 ^ 8 <? 128) = (0 <=? v).
Proof.
  cbn [fits]. intros [H1%Z.leb_le H2%Z.ltb_lt]%andb_prop.
  rewrite Z.pow_add_r in H1, H2 by lia. change (2 ^ 7) with 128 in *.
  pose proof (pow8_pos n) as Hp. revert H1 H2 Hp. generalize (2 ^ (8 * Z.of_nat n)) as w.
  intros w H1 H2 Hp. change (2 ^ 8) with 256.
  assert (-128 <= v / w < 128).
  { split; [apply Z.div_le_lower_bound; lia|apply Z.div_lt_upper_bound; lia]. }
  destruct (Z.leb_spec 0 v) as [H0|H0].
  - pose proof (Z.div_pos v w). rewrite Z.mod_small by lia. apply Z.ltb_lt. lia.
  - assert (v / w < 0) by (apply Z.div_lt_upper_bound; lia).
    rewrite <- (Z.mod_add _ 1), Z.mod_small by lia. apply Z.ltb_ge. lia.
Qed.

(** Sign-extending the contents octets gives the value back. *)
Lemma be_val_sign n v :
  fits (S n) v = true ->
  be_val (if (v / 2 ^ (8 * Z.of_nat n)) mod 2 ^ 8 <? 128 then 0 else -1) (be_bytes (S n) v) = v.
Proof.
  intros H. rewrite be_bytes_sign by done.
  replace (if 0 <=? v then 0 else -1) with (v / 2 ^ (8 * Z.of_nat (S n))).
  { apply be_val_be_bytes. }
  cbn [fits] in H. apply andb_prop in H as [H1%Z.leb_le H2%Z.ltb_lt].
  assert (2 ^ (8 * Z.of_nat n + 7) < 2 ^ (8 * Z.of_nat (S n))) by (apply Z.pow_lt_mono_r; lia).
  destruct (Z.leb_spec 0 v); [apply Z.div_small; lia|].
  symmetry. apply Z.div_unique with (v + 2 ^ (8 * Z.of_nat (S n))); lia.
Qed.

(** ** Base-128 groups *)

(** [n] groups of seven bits of [v], every one but the last marked with bit 8. *)
Fixpoint b128 (n : nat) (v : Z) : list Z :=
  match n with
  | O => []
  | S n' =>
      let group := (v / 2 ^ (7 * Z.of_nat n')) mod 2 ^ 7 in
      (match n' with O => group | _ => group + 128 end) :: b128 n' v
  end.

(** The number of groups of a 32-bit subidentifier. *)
Definition sub_size (v : Z) : nat :=
  if v <? 0x80 then 1 else if v <? 0x4000 then 2 else if v <? 0x200000 then 3
  else if v <? 0x10000000 then 4 else 5.

Definition sub_octets (v : Z) : list Z := b128 (sub_size v) v.

Lemma length_b128 n v : length (b128 n v) = n.
Proof. induction n; cbn; congruence. Qed.

Lemma b128_ok n v : bytes_ok (b128 n v).
Proof.
  induction n as [|n IH]; cbn; constructor; [|done].
  pose proof (Z.mod_pos_bound (v / 2 ^ (7 * Z.of_nat n)) (2 ^ 7)). destruct n; cint.
Qed.

Lemma sub_size_bound v : (1 <= sub_size v <= 5)%nat.
Proof. unfold sub_size. repeat destruct (_ <? _); lia. Qed.

Lemma sub_size_fits v : is_u32 v -> v < 2 ^ (7 * Z.of_nat (sub_size v)).
Proof.
  intros. unfold sub_size.
  repeat match goal with |- context [v <? ?b] => destruct (Z.ltb_spec v b) end; cbn; cint.
Qed.
