(* ===== verification/AsnTypes.v ===== *)
(** * Tags, limits and consistency checks of asn1.c

    The constants of [include/net-snmp/library/asn1.h] and [snmp_impl.h], the
    overflow macros, and the small checks every routine of asn1.c shares. *)

From S2P Require Import Prelude Bytes.

(** ** Tags *)

Definition ASN_INTEGER : Z := 0x02.
Definition ASN_BIT_STR : Z := 0x03.
Definition ASN_OCTET_STR : Z := 0x04.
Definition ASN_NULL : Z := 0x05.
Definition ASN_OBJECT_ID : Z := 0x06.
Definition ASN_SEQUENCE : Z := 0x10.

Definition ASN_APPLICATION : Z := 0x40.
Definition ASN_CONTEXT : Z := 0x80.
Definition ASN_CONSTRUCTOR : Z := 0x20.
Definition ASN_LONG_LEN : Z := 0x80.
Definition ASN_EXTENSION_ID : Z := 0x1F.
Definition ASN_BIT8 : Z := 0x80.

Definition ASN_IPADDRESS : Z := Z.lor ASN_APPLICATION 0.
Definition ASN_COUNTER : Z := Z.lor ASN_APPLICATION 1.
Definition ASN_GAUGE : Z := Z.lor ASN_APPLICATION 2.
Definition ASN_TIMETICKS : Z := Z.lor ASN_APPLICATION 3.
Definition ASN_OPAQUE : Z := Z.lor ASN_APPLICATION 4.
Definition ASN_NSAP : Z := Z.lor ASN_APPLICATION 5.
Definition ASN_COUNTER64 : Z := Z.lor ASN_APPLICATION 6.
Definition ASN_UINTEGER : Z := Z.lor ASN_APPLICATION 7.

(** The special values carried inside an Opaque. *)
Definition ASN_OPAQUE_TAG1 : Z := Z.lor ASN_CONTEXT ASN_EXTENSION_ID.
Definition ASN_OPAQUE_TAG2 : Z := 0x30.
Definition ASN_OPAQUE_COUNTER64 : Z := ASN_OPAQUE_TAG2 + Z.lor ASN_APPLICATION 6.
Definition ASN_OPAQUE_FLOAT : Z := ASN_OPAQUE_TAG2 + Z.lor ASN_APPLICATION 8.
Definition ASN_OPAQUE_DOUBLE : Z := ASN_OPAQUE_TAG2 + Z.lor ASN_APPLICATION 9.
Definition ASN_OPAQUE_I64 : Z := ASN_OPAQUE_TAG2 + Z.lor ASN_APPLICATION 10.
Definition ASN_OPAQUE_U64 : Z := ASN_OPAQUE_TAG2 + Z.lor ASN_APPLICATION 11.
Definition ASN_OPAQUE_COUNTER64_MX_BER_LEN : Z := 12.
Definition ASN_OPAQUE_FLOAT_BER_LEN : Z := 7.
Definition ASN_OPAQUE_DOUBLE_BER_LEN : Z := 11.

(** The exception values of SNMPv2 variable bindings. *)
Definition SNMP_NOSUCHOBJECT : Z := Z.lor ASN_CONTEXT 0.
Definition SNMP_NOSUCHINSTANCE : Z := Z.lor ASN_CONTEXT 1.
Definition SNMP_ENDOFMIBVIEW : Z := Z.lor ASN_CONTEXT 2.

(** The cases the type [switch]es group together. *)
Definition is_uint_type (type : Z) : bool :=
  (type =? ASN_COUNTER) || (type =? ASN_GAUGE) || (type =? ASN_TIMETICKS) || (type =? ASN_UINTEGER).

Definition is_string_type (type : Z) : bool :=
  (type =? ASN_OCTET_STR) || (type =? ASN_IPADDRESS) || (type =? ASN_OPAQUE) || (type =? ASN_NSAP).
Definition is_null_type (t : Z) : bool :=
  (t =? ASN_NULL) || (t =? SNMP_NOSUCHOBJECT) || (t =? SNMP_NOSUCHINSTANCE)
  || (t =? SNMP_ENDOFMIBVIEW).
Definition is_uint64_type (t : Z) : bool :=
  (t =? ASN_OPAQUE_COUNTER64) || (t =? ASN_OPAQUE_U64) || (t =? ASN_COUNTER64).

Definition MAX_OID_LEN : Z := 128.
Definition MAX_SUBID : Z := 0xFFFFFFFF.

Definition IS_EXTENSION_ID (byte : Z) : bool :=
  Z.land byte ASN_EXTENSION_ID =? ASN_EXTENSION_ID.

(** [byte & 0x80], as the condition of an [if]. *)
Definition bit8 (byte : Z) : bool := negb (Z.land byte 0x80 =? 0).

(** ** Overflow macros (the [SIZEOF_LONG != 4] branch) *)

Definition INT32_MAX : Z := 2147483647.
Definition INT32_MIN : Z := -2147483648.

Definition CHECK_OVERFLOW_S (x : Z) : Z :=
  if x >? INT32_MAX then Z.land x 0xffffffff
  else if x <? INT32_MIN then 0 - Z.land x 0xffffffff
  else x.

Definition CHECK_OVERFLOW_U (x : Z) : Z :=
  if x >? 0xffffffff then Z.land x 0xffffffff else x.

(** ** The checks after a header was read or written

    A result [true] is the C result 1, an error.  A NULL pointer is [None]. *)

Definition _asn_parse_length_check (bufp : option Z) (data : Z) (plen dlen : Z) : bool :=
  match bufp with
  | None => true
  | Some bufp =>
      let header_len := u64 (bufp - data) in
      (0x7fffffff <? plen) || (0x7fffffff <? header_len) || (dlen <? u64 (plen + header_len))
  end.

Definition _asn_build_header_check (datalen typedlen : Z) : bool :=
  datalen <? typedlen.

Definition _asn_bitstring_check (asn_length : Z) (datum : Z) : bool :=
  asn_length <? 1.

(** A struct counter64: two [u_long]s that hold 32 bits each. *)
Record counter64 := { high : Z; low : Z }.

#[export] Instance counter64_eq_dec : EqDecision counter64.
Proof. solve_decision. Defined.

(** The number a counter64 stands for, and the one a number is stored as. *)
Definition c64_val (c : counter64) : Z := high c * 2 ^ 32 + low c.
Definition c64_of (v : Z) : counter64 := {| high := v / 2 ^ 32; low := v mod 2 ^ 32 |}.
Definition c64_ok (c : counter64) : Prop := is_u32 (high c) /\ is_u32 (low c).

Definition sizeof_counter64 : Z := 16.

(** ** What the macros do *)

Lemma land_ffffffff x : Z.land x 0xffffffff = u32 x.
Proof. apply (Z.land_ones x 32). lia. Qed.

Lemma CHECK_OVERFLOW_U_u32 x : 0 <= x -> CHECK_OVERFLOW_U x = u32 x.
Proof.
  intros. unfold CHECK_OVERFLOW_U. rewrite land_ffffffff.
  destruct (Z.gtb_spec x 0xffffffff); [done|]. symmetry. apply u32_id. cint.
Qed.

Lemma CHECK_OVERFLOW_S_id x : INT32_MIN <= x < 2 ^ 32 -> CHECK_OVERFLOW_S x = x.
Proof.
  unfold CHECK_OVERFLOW_S, INT32_MIN, INT32_MAX. rewrite land_ffffffff. intros.
  destruct (Z.gtb_spec x 2147483647), (Z.ltb_spec x (-2147483648)); try lia; cint.
Qed.

Lemma CHECK_OVERFLOW_S_range x : - 2 ^ 32 < CHECK_OVERFLOW_S x < 2 ^ 32.
Proof.
  unfold CHECK_OVERFLOW_S, INT32_MIN, INT32_MAX. rewrite land_ffffffff.
  pose proof (u32_range x). unfold is_u32 in *.
  destruct (Z.gtb_spec x 2147483647), (Z.ltb_spec x (-2147483648)); cint.
Qed.

Lemma bit8_spec b : is_u8 b -> bit8 b = (128 <=? b).
Proof.
  intros. unfold bit8. rewrite land_bit8 by done.
  destruct (Z.ltb_spec b 128), (Z.leb_spec 128 b); done || lia.
Qed.

Lemma parse_length_check_spec bufp data plen dlen :
  0 <= bufp - data < 2 ^ 31 -> is_u64 plen ->
  _asn_parse_length_check (Some bufp) data plen dlen = false <->
  plen < 2 ^ 31 /\ plen + (bufp - data) <= dlen.
Proof.
  intros H Hp. cbn. rewrite u64_id by cint.
  destruct (Z.ltb_spec 0x7fffffff plen); cbn; [split; [done|lia]|].
  destruct (Z.ltb_spec 0x7fffffff (bufp - data)); cbn; [split; [done|lia]|].
  rewrite u64_id by cint.
  destruct (Z.ltb_spec dlen (plen + (bufp - data))); split; done || lia.
Qed.

Lemma c64_of_val v : c64_val (c64_of v) = v.
Proof. unfold c64_val, c64_of. cbn [high low]. cint. Qed.

Lemma c64_val_of c : c64_ok c -> c64_of (c64_val c) = c.
Proof.
  destruct c as [h l]. unfold c64_ok, c64_of, c64_val. cbn [high low]. intros.
  f_equal; cint.
Qed.

Lemma c64_val_range c : c64_ok c -> is_u64 (c64_val c).
Proof. destruct c. unfold c64_ok, c64_val. cbn [high low]. cint. Qed.
