(* ===== verification/AsnParse.v ===== *)
(** * The parsing half of snmplib/asn1.c

    Each parser reads at offset [data] of the buffer [m] and gets the number
    of valid bytes [datalength]; on success it returns the offset after the
    object, the outputs ([type], the value) and the new [datalength].  The
    outputs left behind by a failing call are not modelled. *)

From S2P Require Import Prelude Bytes AsnTypes.

(** ** Lengths and headers *)

(** [while (lengthbyte--) *length = ( *length << 8) | *data++] *)
Fixpoint parse_length_loop (m : mem) (data length : Z) (lengthbyte : nat) : outcome (Z * Z) :=
  match lengthbyte with
  | O => Ret (data, length)
  | S lengthbyte' =>
      b ← rd m data;
      parse_length_loop m (data + 1) (Z.lor (u64 (Z.shiftl length 8)) b) lengthbyte'
  end.

(** [length] is the content of the caller's variable before the call; the
    result pairs the returned pointer with its content after the call. *)
Definition asn_parse_length (m : mem) (data length : Z) : outcome (option Z * Z) :=
  lengthbyte ← rd m data;
  if negb (Z.land lengthbyte ASN_LONG_LEN =? 0) then
    let lengthbyte := Z.land lengthbyte (Z.lnot ASN_LONG_LEN) in
    if lengthbyte =? 0 then Ret (None, length)              (* indefinite length *)
    else if sizeof_long <? lengthbyte then Ret (None, length)
    else
      '(data, length) ← parse_length_loop m (data + 1) 0 (Z.to_nat lengthbyte);
      if s64 length <? 0 then Ret (None, length) else Ret (Some data, length)
  else Ret (Some (data + 1), lengthbyte).

(** The calls [bufp = asn_parse_length(bufp, &asn_length);
    if (_asn_parse_length_check(.., bufp, data, asn_length, *datalength)) return NULL;]
    every parser makes.  [asn_length] is an uninitialised local, which the
    check never lets through. *)
Definition parse_length_checked (m : mem) (bufp data datalength : Z) : outcome (Z * Z) :=
  '(bufp, asn_length) ← asn_parse_length m bufp 0;
  if _asn_parse_length_check bufp data asn_length datalength then Null
  else match bufp with
       | Some bufp => Ret (bufp, asn_length)
       | None => Null
       end.

(** [len] and the result are C [int]s; [uninit] is the content of the
    uninitialised [asn_length], which a failing [asn_parse_length] leaves. *)
Definition asn_check_packet (pkt : mem) (len : Z) (uninit : Z) : outcome Z :=
  if len <? 2 then Ret 0
  else
    tag ← rd pkt 0;
    if negb (tag =? Z.lor ASN_SEQUENCE ASN_CONSTRUCTOR) then Ret (-1)
    else
      b ← rd pkt 1;
      if negb (Z.land b 0x80 =? 0) then
        if s32 len <? Z.land b (Z.lnot 0x80) + 2 then Ret 0
        else
          '(_, asn_length) ← asn_parse_length pkt 1 uninit;
          Ret (s32 (u64 (asn_length + 2 + Z.land b (Z.lnot 0x80))))
      else Ret (b + 2).

(** The Opaque tags that [asn_parse_header] looks into. *)
Definition is_opaque_special (b : Z) : bool :=
  (b =? ASN_OPAQUE_COUNTER64) || (b =? ASN_OPAQUE_U64) || (b =? ASN_OPAQUE_FLOAT)
  || (b =? ASN_OPAQUE_DOUBLE) || (b =? ASN_OPAQUE_I64).

(** Result: start of the contents, type, number of bytes of contents. *)
Definition asn_parse_header (m : mem) (data datalength : Z) : outcome (Z * Z * Z) :=
  b0 ← rd m data;
  if IS_EXTENSION_ID b0 then Null
  else
    let type := b0 in
    '(bufp, asn_length) ← parse_length_checked m (data + 1) data datalength;
    if type =? ASN_OPAQUE then
      b1 ← rd m bufp;
      if b1 =? ASN_OPAQUE_TAG1 then
        b2 ← rd m (bufp + 1);
        if is_opaque_special b2 then
          '(bufp, asn_length) ← parse_length_checked m (bufp + 2) data datalength;
          Ret (bufp, b2, u64 (s32 asn_length))
        else Ret (bufp, type, u64 (s32 asn_length))
      else Ret (bufp, type, u64 (s32 asn_length))
    else Ret (bufp, type, u64 (s32 asn_length)).

Definition asn_parse_sequence (m : mem) (data datalength expected_type : Z) : outcome (Z * Z * Z) :=
  '(data, type, datalength) ← asn_parse_header m data datalength;
  if negb (type =? expected_type) then Null else Ret (data, type, datalength).

(** ** Integers *)

(** [while (asn_length--) value = (value << 8) | *bufp++], on [long] and on [u_long]. *)
Fixpoint shift_in_s (m : mem) (bufp value : Z) (asn_length : nat) : outcome (Z * Z) :=
  match asn_length with
  | O => Ret (bufp, value)
  | S n =>
      b ← rd m bufp;
      shift_in_s m (bufp + 1) (Z.lor (s64 (Z.shiftl value 8)) b) n
  end.

Fixpoint shift_in_u (m : mem) (bufp value : Z) (asn_length : nat) : outcome (Z * Z) :=
  match asn_length with
  | O => Ret (bufp, value)
  | S n =>
      b ← rd m bufp;
      shift_in_u m (bufp + 1) (Z.lor (u64 (Z.shiftl value 8)) b) n
  end.

Definition asn_parse_int (m : mem) (data datalength intsize : Z) : outcome (Z * Z * Z * Z) :=
  if negb (intsize =? sizeof_long) then Null
  else
    type ← rd m data;
    if negb (type =? ASN_INTEGER) then Null
    else
      '(bufp, asn_length) ← parse_length_checked m (data + 1) data datalength;
      if intsize <? asn_length then Null
      else
        let datalength := u64 (datalength - (s32 asn_length + (bufp - data))) in
        b ← rd m bufp;
        let value := if bit8 b then -1 else 0 in
        '(bufp, value) ← shift_in_s m bufp value (Z.to_nat asn_length);
        Ret (bufp, type, CHECK_OVERFLOW_S value, datalength).

Definition asn_parse_unsigned_int (m : mem) (data datalength intsize : Z) : outcome (Z * Z * Z * Z) :=
  if negb (intsize =? sizeof_long) then Null
  else
    type ← rd m data;
    if negb (type =? ASN_COUNTER) && negb (type =? ASN_GAUGE) && negb (type =? ASN_TIMETICKS)
       && negb (type =? ASN_UINTEGER) then Null
    else
      '(bufp, asn_length) ← parse_length_checked m (data + 1) data datalength;
      if intsize + 1 <? asn_length then Null
      else
        too_long ← (if asn_length =? intsize + 1
                    then b ← rd m bufp; Ret (negb (b =? 0x00))
                    else Ret false);
        if (too_long : bool) then Null
        else
          let datalength := u64 (datalength - (s32 asn_length + (bufp - data))) in
          b ← rd m bufp;
          let value := if bit8 b then u64 (Z.lnot 0) else 0 in
          '(bufp, value) ← shift_in_u m bufp value (Z.to_nat asn_length);
          Ret (bufp, type, CHECK_OVERFLOW_U value, datalength).

(** The 64-bit shift register kept in two 32-bit halves. *)
Fixpoint shift_in_64 (m : mem) (bufp high low : Z) (asn_length : nat) : outcome (Z * Z * Z) :=
  match asn_length with
  | O => Ret (bufp, high, low)
  | S n =>
      let high := Z.lor (Z.shiftl (Z.land 0x00FFFFFF high) 8)
                        (Z.shiftr (Z.land low 0xFF000000) 24) in
      b ← rd m bufp;
      let low := Z.lor (Z.shiftl (Z.land low 0x00FFFFFF) 8) b in
      shift_in_64 m (bufp + 1) high low n
  end.

(** The size test the two 64-bit parsers share. *)
Definition int64_too_long (m : mem) (bufp asn_length sizelimit : Z) : outcome bool :=
  if sizelimit <? s32 asn_length then Ret true
  else if s32 asn_length =? sizelimit then b ← rd m bufp; Ret (negb (b =? 0x00))
  else Ret false.

Definition asn_parse_unsigned_int64 (m : mem) (data datalength countersize : Z)
    : outcome (Z * Z * counter64 * Z) :=
  let uint64sizelimit := (4 * 2) + 1 in
  if negb (countersize =? sizeof_counter64) then Null
  else
    type ← rd m data;
    if negb (type =? ASN_COUNTER64) && negb (type =? ASN_OPAQUE_COUNTER64)
       && negb (type =? ASN_OPAQUE_U64) then Null
    else
      '(bufp, asn_length) ← parse_length_checked m (data + 1) data datalength;
      '(type, bufp, asn_length) ←
        (if (type =? ASN_OPAQUE) && (asn_length <=? ASN_OPAQUE_COUNTER64_MX_BER_LEN) then
           b1 ← rd m bufp;
           if b1 =? ASN_OPAQUE_TAG1 then
             b2 ← rd m (bufp + 1);
             if (b2 =? ASN_OPAQUE_COUNTER64) || (b2 =? ASN_OPAQUE_U64) then
               '(bufp, asn_length) ← parse_length_checked m (bufp + 2) data datalength;
               Ret (b2, bufp, asn_length)
             else Ret (type, bufp, asn_length)
           else Ret (type, bufp, asn_length)
         else Ret (type, bufp, asn_length));
      too_long ← int64_too_long m bufp asn_length uint64sizelimit;
      if (too_long : bool) then Null
      else
        let datalength := u64 (datalength - (s32 asn_length + (bufp - data))) in
        '(bufp, high, low) ← shift_in_64 m bufp 0 0 (Z.to_nat asn_length);
        Ret (bufp, type, {| high := CHECK_OVERFLOW_U high; low := CHECK_OVERFLOW_U low |},
             datalength).

Definition asn_parse_signed_int64 (m : mem) (data datalength countersize : Z)
    : outcome (Z * Z * counter64 * Z) :=
  let int64sizelimit := (4 * 2) + 1 in
  if negb (countersize =? sizeof_counter64) then Null
  else
    type ← rd m data;
    '(bufp, asn_length) ← parse_length_checked m (data + 1) data datalength;
    if (type =? ASN_OPAQUE) && (asn_length <=? ASN_OPAQUE_COUNTER64_MX_BER_LEN) then
      b1 ← rd m bufp;
      if b1 =? ASN_OPAQUE_TAG1 then
        b2 ← rd m (bufp + 1);
        if b2 =? ASN_OPAQUE_I64 then
          let type := b2 in
          '(bufp, asn_length) ← parse_length_checked m (bufp + 2) data datalength;
          too_long ← int64_too_long m bufp asn_length int64sizelimit;
          if (too_long : bool) then Null
          else
            let datalength := u64 (datalength - (s32 asn_length + (bufp - data))) in
            b ← rd m bufp;
            let low := if bit8 b then 0xFFFFFFFF else 0 in
            let high := if bit8 b then 0xFFFFFF else 0 in
            '(bufp, high, low) ← shift_in_64 m bufp high low (Z.to_nat asn_length);
            Ret (bufp, type, {| high := CHECK_OVERFLOW_U high; low := CHECK_OVERFLOW_U low |},
                 datalength)
        else _ ← rd m bufp; _ ← rd m (bufp + 1); Null
      else _ ← rd m bufp; _ ← rd m (bufp + 1); Null
    else _ ← rd m bufp; _ ← rd m (bufp + 1); Null.     (* the message prints two bytes *)

(** ** Strings, NULL and floating point

    A [float] is its 32-bit pattern, a [double] its 64-bit pattern; the host
    is little-endian, so [ntohl] reverses the four bytes of its argument. *)

Definition asn_parse_string (m : mem) (data datalength strlength : Z)
    : outcome (Z * Z * list Z * Z) :=
  type ← rd m data;
  if negb (type =? ASN_OCTET_STR) && negb (type =? ASN_IPADDRESS) && negb (type =? ASN_OPAQUE)
     && negb (type =? ASN_NSAP) then Null
  else
    '(bufp, asn_length) ← parse_length_checked m (data + 1) data datalength;
    if strlength <? asn_length then Null
    else
      str ← rd_n m bufp (Z.to_nat asn_length);
      let datalength := u64 (datalength - (asn_length + (bufp - data))) in
      Ret (bufp + asn_length, type, str, datalength).

Definition asn_parse_null (m : mem) (data datalength : Z) : outcome (Z * Z * Z) :=
  type ← rd m data;
  '(bufp, asn_length) ← asn_parse_length m (data + 1) 0;
  match bufp with
  | None => Null
  | Some bufp =>
      if negb (asn_length =? 0) then Null
      else Ret (bufp + asn_length, type, u64 (datalength - (bufp - data)))
  end.

Definition asn_parse_bitstring (m : mem) (data datalength strlength : Z)
    : outcome (Z * Z * list Z * Z) :=
  type ← rd m data;
  if negb (type =? ASN_BIT_STR) then Null
  else
    '(bufp, asn_length) ← parse_length_checked m (data + 1) data datalength;
    if strlength <? asn_length then Null
    else
      datum ← rd m bufp;
      if _asn_bitstring_check asn_length datum then Null
      else
        str ← rd_n m bufp (Z.to_nat asn_length);
        let datalength := u64 (datalength - (s32 asn_length + (bufp - data))) in
        Ret (bufp + asn_length, type, str, datalength).

(** The number whose memory image on the host is the bytes [l]. *)
Definition le_val (l : list Z) : Z := be_val 0 (rev l).
Definition ntohl (x : Z) : Z := le_val (be_bytes 4 x).

Definition sizeof_float : Z := 4.
Definition sizeof_double : Z := 8.

(** The unwrapping of an Opaque the two floating-point parsers share:
    [special] is the tag looked for, [ber_len] the only length accepted. *)
Definition opaque_unwrap (m : mem) (data datalength special ber_len : Z) (type bufp asn_length : Z)
    : outcome (Z * Z * Z) :=
  if (type =? ASN_OPAQUE) && (asn_length =? ber_len) then
    b1 ← rd m bufp;
    if b1 =? ASN_OPAQUE_TAG1 then
      b2 ← rd m (bufp + 1);
      if b2 =? special then
        '(bufp, asn_length) ← parse_length_checked m (bufp + 2) data datalength;
        Ret (special, bufp, asn_length)
      else Ret (type, bufp, asn_length)
    else Ret (type, bufp, asn_length)
  else Ret (type, bufp, asn_length).

(** The returned pointer is [bufp], the start of the four bytes. *)
Definition asn_parse_float (m : mem) (data datalength floatsize : Z) : outcome (Z * Z * Z * Z) :=
  if negb (floatsize =? sizeof_float) then Null
  else
    type ← rd m data;
    '(bufp, asn_length) ← parse_length_checked m (data + 1) data datalength;
    '(type, bufp, asn_length) ←
      opaque_unwrap m data datalength ASN_OPAQUE_FLOAT ASN_OPAQUE_FLOAT_BER_LEN type bufp asn_length;
    if negb (type =? ASN_OPAQUE_FLOAT) then Null
    else if negb (asn_length =? sizeof_float) then Null
    else
      let datalength := u64 (datalength - (s32 asn_length + (bufp - data))) in
      c ← rd_n m bufp (Z.to_nat asn_length);
      Ret (bufp, type, ntohl (le_val c), datalength).

Definition asn_parse_double (m : mem) (data datalength doublesize : Z) : outcome (Z * Z * Z * Z) :=
  if negb (doublesize =? sizeof_double) then Null
  else
    type ← rd m data;
    '(bufp, asn_length) ← parse_length_checked m (data + 1) data datalength;
    '(type, bufp, asn_length) ←
      opaque_unwrap m data datalength ASN_OPAQUE_DOUBLE ASN_OPAQUE_DOUBLE_BER_LEN type bufp asn_length;
    if negb (type =? ASN_OPAQUE_DOUBLE) then Null
    else if negb (asn_length =? sizeof_double) then Null
    else
      let datalength := u64 (datalength - (s32 asn_length + (bufp - data))) in
      c ← rd_n m bufp (Z.to_nat asn_length);
      let intVal0 := le_val (take 4 c) in
      let intVal1 := le_val (drop 4 c) in
      let tmp := ntohl intVal0 in
      let intVal0 := ntohl intVal1 in
      let intVal1 := tmp in
      Ret (bufp, type, intVal1 * 2 ^ 32 + intVal0, datalength).

(** ** Object identifiers *)

(** The inner [do .. while]: one subidentifier.  [length] counts the bytes
    left and is positive when the loop is entered. *)
Fixpoint objid_subid (m : mem) (bufp : Z) (length : nat) (subidentifier : Z)
    : outcome (Z * nat * Z) :=
  match length with
  | O => Ret (bufp, O, subidentifier)
  | S length =>
      b ← rd m bufp;
      let subidentifier := u64 (u64 (Z.shiftl subidentifier 7) + Z.land b (Z.lnot ASN_BIT8)) in
      if negb (Z.land b ASN_BIT8 =? 0) && (0 <? length)%nat
      then objid_subid m (bufp + 1) length subidentifier
      else Ret (bufp + 1, length, subidentifier)
  end.

(** The outer loop.  [objid] is [objid[1 ..]] as filled so far, [cap] the
    number of elements of the caller's array, [room] the running
    [*objidlength].  Each turn consumes at least one byte, so [length] turns
    are enough. *)
Fixpoint objid_loop (fuel : nat) (m : mem) (cap bufp : Z) (length : nat) (room : Z) (objid : list Z)
    : outcome (Z * nat * list Z) :=
  match fuel with
  | O => if (length =? 0)%nat then Ret (bufp, length, objid) else Spin
  | S fuel =>
      if (0 <? length)%nat && (0 <? room) then
        let room := u64 (room - 1) in
        '(bufp, length, subidentifier) ← objid_subid m bufp length 0;
        bad ← (if (length =? 0)%nat
               then last_byte ← rd m (bufp - 1); Ret (negb (Z.land last_byte ASN_BIT8 =? 0))
               else Ret false);
        if (bad : bool) then Null
        else if MAX_SUBID <? subidentifier then Null
        else if cap <=? Z.of_nat (List.length objid) + 1 then Overrun
        else objid_loop fuel m cap bufp length room (objid ++ [subidentifier])
      else Ret (bufp, length, objid)
  end.

(** [objidlength] is both the capacity of the caller's array and the value
    of [*objidlength] on entry.  Result: pointer, type, the first
    [*objidlength] elements of the array, [datalength]. *)
Definition asn_parse_objid (m : mem) (data datalength objidlength : Z)
    : outcome (Z * Z * list Z * Z) :=
  type ← rd m data;
  if negb (type =? ASN_OBJECT_ID) then Null
  else
    '(bufp, asn_length) ← parse_length_checked m (data + 1) data datalength;
    let datalength := u64 (datalength - (s32 asn_length + (bufp - data))) in
    if (asn_length =? 0) && (objidlength <? 2) then Overrun     (* objid[0] = objid[1] = 0 *)
    else
      let length := Z.to_nat asn_length in
      '(bufp, length, objid) ←
        objid_loop length m objidlength bufp length (u64 (objidlength - 1)) [];
      if negb (length =? 0)%nat then Null
      else
        let subidentifier := match objid with [] => 0 | s :: _ => s end in
        let '(objid0, objid1) :=
          if subidentifier =? 0x2B then (1, 3)
          else if subidentifier <? 40 then (0, subidentifier)
          else if subidentifier <? 80 then (1, subidentifier - 40)
          else (2, subidentifier - 80) in
        Ret (bufp, type,
             match objid with [] => [objid0] | _ :: rest => objid0 :: objid1 :: rest end,
             datalength).
