(* ===== verification/AsnBuild.v ===== *)
(** * The forward building half of snmplib/asn1.c

    A builder is given the number of free bytes [datalength] at the output
    pointer; on success it returns the bytes it wrote from there on (the new
    pointer is the old one plus their number) and the new [datalength].  What
    a failing call has already written is not modelled. *)

From S2P Require Import Prelude Bytes AsnTypes AsnParse.

(** ** Lengths and headers *)

Definition asn_build_length (datalength length : Z) : outcome (list Z * Z) :=
  if length <? 0x80 then
    if datalength <? 1 then Null
    else Ret ([u8 length], u64 (datalength - 1))
  else if length <=? 0xFF then
    if datalength <? 2 then Null
    else Ret ([u8 (Z.lor 0x01 ASN_LONG_LEN); u8 length], u64 (datalength - 2))
  else
    if datalength <? 3 then Null
    else Ret ([u8 (Z.lor 0x02 ASN_LONG_LEN); u8 (Z.land (Z.shiftr length 8) 0xFF);
               u8 (Z.land length 0xFF)], u64 (datalength - 3)).

Definition asn_build_header (datalength type length : Z) : outcome (list Z * Z) :=
  if datalength <? 1 then Null
  else
    let datalength := u64 (datalength - 1) in
    '(out, datalength) ← asn_build_length datalength length;
    Ret (type :: out, datalength).

Definition asn_build_sequence (datalength type length : Z) : outcome (list Z * Z) :=
  if datalength <? 4 then Null
  else Ret ([type; u8 (Z.lor 0x02 ASN_LONG_LEN); u8 (Z.land (Z.shiftr length 8) 0xFF);
             u8 (Z.land length 0xFF)], u64 (datalength - 4)).

(** ** Integers *)

(** [((integer & mask) == 0) || ((integer & mask) == mask)] with the mask of
    the nine top bits of a [long]. *)
Definition top9_equal (integer : Z) : bool :=
  let mask := Z.shiftl 0x1FF ((8 * (sizeof_long - 1)) - 1) in
  (Z.land (u64 integer) mask =? 0) || (Z.land (u64 integer) mask =? mask).

(** The truncation loop, on a signed and on an unsigned [integer]: while it
    holds and [intsize > 1], [intsize--; integer <<= 8]. *)
Fixpoint truncate_s (intsize : nat) (integer : Z) : nat * Z :=
  match intsize with
  | S intsize' =>
      if top9_equal integer && (1 <? intsize)%nat
      then truncate_s intsize' (s64 (Z.shiftl integer 8))
      else (intsize, integer)
  | O => (O, integer)
  end.

Fixpoint truncate_u (intsize : nat) (integer : Z) : nat * Z :=
  match intsize with
  | S intsize' =>
      if top9_equal integer && (1 <? intsize)%nat
      then truncate_u intsize' (u64 (Z.shiftl integer 8))
      else (intsize, integer)
  | O => (O, integer)
  end.

(** [(u_char) ((integer & mask) >> (8 * (sizeof(long) - 1)))] with
    [mask = 0xFF << (8 * (sizeof(long) - 1))]. *)
Definition top_octet (integer : Z) : Z :=
  let mask := Z.shiftl 0xFF (8 * (sizeof_long - 1)) in
  u8 (Z.shiftr (Z.land (u64 integer) mask) (8 * (sizeof_long - 1))).

(** [while (intsize--)] write the top octet, [integer <<= 8]. *)
Fixpoint shift_out_s (intsize : nat) (integer : Z) : list Z :=
  match intsize with
  | O => []
  | S n => top_octet integer :: shift_out_s n (s64 (Z.shiftl integer 8))
  end.

Fixpoint shift_out_u (intsize : nat) (integer : Z) : list Z :=
  match intsize with
  | O => []
  | S n => top_octet integer :: shift_out_u n (u64 (Z.shiftl integer 8))
  end.

Definition asn_build_int (datalength type integer intsize : Z) : outcome (list Z * Z) :=
  if negb (intsize =? sizeof_long) then Null
  else
    let integer := CHECK_OVERFLOW_S integer in
    let '(intsize, integer) := truncate_s (Z.to_nat intsize) integer in
    '(hdr, datalength) ← asn_build_header datalength type (Z.of_nat intsize);
    if _asn_build_header_check datalength (Z.of_nat intsize) then Null
    else Ret (hdr ++ shift_out_s intsize integer, u64 (datalength - Z.of_nat intsize)).

Definition asn_build_unsigned_int (datalength type integer intsize : Z) : outcome (list Z * Z) :=
  if negb (intsize =? sizeof_long) then Null
  else
    let integer := CHECK_OVERFLOW_U integer in
    let '(add_null_byte, intsize, integer) :=
      if bit8 (top_octet integer) then (true, S (Z.to_nat intsize), integer)
      else let '(intsize, integer) := truncate_u (Z.to_nat intsize) integer in
           (false, intsize, integer) in
    '(hdr, datalength) ← asn_build_header datalength type (Z.of_nat intsize);
    if _asn_build_header_check datalength (Z.of_nat intsize) then Null
    else
      let datalength := u64 (datalength - Z.of_nat intsize) in
      let '(null, intsize) := if (add_null_byte : bool) then ([0], Nat.pred intsize) else ([], intsize) in
      Ret (hdr ++ null ++ shift_out_u intsize integer, datalength).

(** The two-word shift register of the 64-bit builders. *)
Definition shl64 (high low : Z) : Z * Z :=
  (Z.lor (Z.shiftl (Z.land high 0x00ffffff) 8) (Z.shiftr (Z.land low 0xff000000) 24),
   Z.shiftl (Z.land low 0x00ffffff) 8).

Fixpoint truncate_64 (intsize : nat) (high low : Z) : nat * Z * Z :=
  let mask2 := 0xff800000 in
  match intsize with
  | S intsize' =>
      if ((Z.land high mask2 =? 0) || (Z.land high mask2 =? mask2)) && (1 <? intsize)%nat
      then let '(high, low) := shl64 high low in truncate_64 intsize' high low
      else (intsize, high, low)
  | O => (O, high, low)
  end.

Fixpoint shift_out_64 (intsize : nat) (high low : Z) : list Z :=
  match intsize with
  | O => []
  | S n =>
      let byte := u8 (Z.shiftr high 24) in
      let '(high, low) := shl64 high low in
      byte :: shift_out_64 n high low
  end.

Definition asn_build_unsigned_int64 (datalength type : Z) (cp : counter64) (countersize : Z)
    : outcome (list Z * Z) :=
  if negb (countersize =? sizeof_counter64) then Null
  else
    let high := CHECK_OVERFLOW_U (high cp) in
    let low := CHECK_OVERFLOW_U (low cp) in
    let '(add_null_byte, intsize, high, low) :=
      if negb (Z.land high 0x80000000 =? 0) then (true, 9%nat, high, low)
      else let '(intsize, high, low) := truncate_64 8 high low in
           (false, intsize, high, low) in
    '(hdr, datalength) ←
      (if (type =? ASN_OPAQUE_COUNTER64) || (type =? ASN_OPAQUE_U64) then
         '(hdr, datalength) ← asn_build_header datalength ASN_OPAQUE (Z.of_nat intsize + 3);
         if _asn_build_header_check datalength (Z.of_nat intsize + 3) then Null
         else Ret (hdr ++ [ASN_OPAQUE_TAG1; type; u8 (Z.of_nat intsize)], u64 (datalength - 3))
       else
         '(hdr, datalength) ← asn_build_header datalength type (Z.of_nat intsize);
         if _asn_build_header_check datalength (Z.of_nat intsize) then Null
         else Ret (hdr, datalength));
    let datalength := u64 (datalength - Z.of_nat intsize) in
    let '(null, intsize) := if (add_null_byte : bool) then ([0], Nat.pred intsize) else ([], intsize) in
    Ret (hdr ++ null ++ shift_out_64 intsize high low, datalength).

Definition asn_build_signed_int64 (datalength type : Z) (cp : counter64) (countersize : Z)
    : outcome (list Z * Z) :=
  if negb (countersize =? sizeof_counter64) then Null
  else
    let low := CHECK_OVERFLOW_U (low cp) in
    let high := CHECK_OVERFLOW_S (s64 (high cp)) in
    let '(intsize, high, low) := truncate_64 8 high low in
    '(hdr, datalength) ← asn_build_header datalength ASN_OPAQUE (Z.of_nat intsize + 3);
    if _asn_build_header_check datalength (Z.of_nat intsize + 3) then Null
    else Ret (hdr ++ [ASN_OPAQUE_TAG1; ASN_OPAQUE_I64; u8 (Z.of_nat intsize)]
              ++ shift_out_64 intsize high low,
              u64 (datalength - (3 + Z.of_nat intsize))).

(** ** Strings, NULL and floating point *)

(** [str] is [None] for a NULL pointer, else the memory it points to. *)
Definition asn_build_string (datalength type : Z) (str : option mem) (strlength : Z)
    : outcome (list Z * Z) :=
  '(hdr, datalength) ← asn_build_header datalength type strlength;
  if _asn_build_header_check datalength strlength then Null
  else
    content ← match str with
              | None => Ret (replicate (Z.to_nat strlength) 0)
              | Some str => rd_n str 0 (Z.to_nat strlength)
              end;
    Ret (hdr ++ content, u64 (datalength - strlength)).

Definition asn_build_null (datalength type : Z) : outcome (list Z * Z) :=
  asn_build_header datalength type 0.

Definition asn_build_bitstring (datalength type : Z) (str : option mem) (strlength : Z)
    : outcome (list Z * Z) :=
  datum ← match str with Some str => rd str 0 | None => Ret 0 end;
  if _asn_bitstring_check strlength datum then Null
  else
    '(hdr, datalength) ← asn_build_header datalength type strlength;
    if _asn_build_header_check datalength strlength then Null
    else
      match str with
      | Some str =>
          content ← rd_n str 0 (Z.to_nat strlength);
          Ret (hdr ++ content, u64 (datalength - strlength))
      | None => Null
      end.

(** [htonl] and the memory image of a 32-bit word, on a little-endian host. *)
Definition htonl (x : Z) : Z := ntohl x.
Definition le_bytes (n : nat) (x : Z) : list Z := rev (be_bytes n x).

Definition asn_build_float (datalength type float_bits floatsize : Z) : outcome (list Z * Z) :=
  if negb (floatsize =? sizeof_float) then Null
  else
    '(hdr, datalength) ← asn_build_header datalength ASN_OPAQUE (floatsize + 3);
    if _asn_build_header_check datalength (floatsize + 3) then Null
    else
      let datalength := u64 (datalength - 3) in
      let intVal := htonl float_bits in
      Ret (hdr ++ [ASN_OPAQUE_TAG1; ASN_OPAQUE_FLOAT; u8 floatsize] ++ le_bytes 4 intVal,
           u64 (datalength - floatsize)).

Definition asn_build_double (datalength type double_bits doublesize : Z) : outcome (list Z * Z) :=
  if negb (doublesize =? sizeof_double) then Null
  else
    '(hdr, datalength) ← asn_build_header datalength ASN_OPAQUE (doublesize + 3);
    if _asn_build_header_check datalength (doublesize + 3) then Null
    else
      let datalength := u64 (datalength - 3) in
      let intVal0 := u32 double_bits in
      let intVal1 := double_bits / 2 ^ 32 in
      let tmp := htonl intVal0 in
      let intVal0 := htonl intVal1 in
      let intVal1 := tmp in
      Ret (hdr ++ [ASN_OPAQUE_TAG1; ASN_OPAQUE_DOUBLE; u8 doublesize]
           ++ le_bytes 4 intVal0 ++ le_bytes 4 intVal1,
           u64 (datalength - doublesize)).

(** ** Object identifiers *)

(** [objid_size[i]] for the (already truncated) value [objid_val]. *)
Definition objid_size (objid_val : Z) : Z :=
  if objid_val <? 0x80 then 1
  else if objid_val <? 0x4000 then 2
  else if objid_val <? 0x200000 then 3
  else if objid_val <? 0x10000000 then 4
  else 5.

(** The [switch] that stores one subidentifier. *)
Definition objid_store (size objid_val : Z) : list Z :=
  let last := u8 (Z.land objid_val 0x07f) in
  let mid k := u8 (Z.lor (Z.land (Z.shiftr objid_val k) 0x7f) 0x80) in
  if size =? 1 then [u8 objid_val]
  else if size =? 2 then [u8 (Z.lor (Z.shiftr objid_val 7) 0x80); last]
  else if size =? 3 then [u8 (Z.lor (Z.shiftr objid_val 14) 0x80); mid 7; last]
  else if size =? 4 then [u8 (Z.lor (Z.shiftr objid_val 21) 0x80); mid 14; mid 7; last]
  else [u8 (Z.lor (Z.shiftr objid_val 28) 0x80); mid 21; mid 14; mid 7; last].

(** The value the first two subidentifiers are combined into and the
    [objidlength] used from there on. *)
Definition objid_first (objid : list Z) (objidlength : Z) : outcome (Z * Z) :=
  if objidlength =? 0 then Ret (0, 2)
  else
    op0 ← rd objid 0;
    if 2 <? op0 then Null
    else if objidlength =? 1 then Ret (u64 (op0 * 40), 2)
    else
      op1 ← rd objid 1;
      if (40 <? op1) && (op0 <? 2) then Null
      else Ret (u64 (u64 (op0 * 40) + op1), objidlength).

(** The sizing loop adds up the sizes of the first value and of the
    subidentifiers [objid[2 ..]]; the storing loop writes them, the first one
    untruncated. *)
Definition asn_build_objid (datalength type : Z) (objid : list Z) (objidlength : Z)
    : outcome (list Z * Z) :=
  '(first_objid_val, objidlength) ← objid_first objid objidlength;
  if MAX_OID_LEN <? objidlength then Null
  else
    rest ← rd_n objid 2 (Z.to_nat (objidlength - 2));
    let first_size := objid_size (CHECK_OVERFLOW_U first_objid_val) in
    let rest_sizes := map (fun v => objid_size (CHECK_OVERFLOW_U v)) rest in
    let asnlength := foldl Z.add first_size rest_sizes in
    '(hdr, datalength) ← asn_build_header datalength type asnlength;
    if _asn_build_header_check datalength asnlength then Null
    else
      let out := objid_store first_size first_objid_val
                 ++ concat (zip_with objid_store rest_sizes (map u32 rest)) in
      Ret (hdr ++ out, u64 (datalength - asnlength)).
