(* ===== verification/AsnBuildSpec.v ===== *)
(** * What the forward builders write

    Every builder of AsnBuild.v writes the BER encoding of its argument: the
    tag, the length octets and the contents octets of Bytes.v.  The lemmas
    here say so for the headers, the truncation and shift-out loops and the
    integer, string and object-identifier builders. *)

From S2P Require Import Prelude Bytes AsnTypes AsnParse AsnBuild.

(** ** Lengths *)

(** The length octets, in the three forms the code has. *)
Definition len_octets (length : Z) : list Z :=
  if length <? 128 then [length]
  else if length <? 256 then [129; length]
  else [130; length / 256; length mod 256].

(** The definite lengths the forward builders can express. *)
Definition len_ok (length : Z) : Prop := 0 <= length < 65536.

(** A tag, a length and contents. *)
Definition tlv (tag : Z) (content : list Z) : list Z :=
  tag :: len_octets (Z.of_nat (List.length content)) ++ content.

Lemma length_len_octets length : (1 <= List.length (len_octets length) <= 3)%nat.
Proof. unfold len_octets. destruct (length <? 128), (length <? 256); cbn; lia. Qed.

Lemma len_octets_ok length : len_ok length -> bytes_ok (len_octets length).
Proof.
  unfold len_ok, len_octets. intros.
  destruct (Z.ltb_spec length 128); [|destruct (Z.ltb_spec length 256)].
  all: repeat constructor; cint.
Qed.

(** [take_room out datalength]: [out] if it fits in [datalength] bytes. *)
Definition take_room (out : list Z) (datalength : Z) : outcome (list Z * Z) :=
  if datalength <? Z.of_nat (length out) then Null
  else Ret (out, datalength - Z.of_nat (length out)).

Lemma u64_sub dl n : is_u64 dl -> 0 <= n <= dl -> u64 (dl - n) = dl - n.
Proof. unfold u64, is_u64. intros. apply Z.mod_small. lia. Qed.

Lemma asn_build_length_spec dl length :
  is_u64 dl -> len_ok length -> asn_build_length dl length = take_room (len_octets length) dl.
Proof.
  unfold len_ok, asn_build_length, take_room, len_octets. intros Hdl Hl.
  destruct (Z.ltb_spec length 128); cbn [List.length].
  { destruct (Z.ltb_spec dl 1), (Z.ltb_spec dl (Z.of_nat 1)); try lia; [done|].
    rewrite u64_sub, u8_id by (done || lia || cint). done. }
  destruct (Z.leb_spec length 0xFF), (Z.ltb_spec length 256); try lia; cbn [List.length].
  { destruct (Z.ltb_spec dl 2), (Z.ltb_spec dl (Z.of_nat 2)); try lia; [done|].
    rewrite u64_sub, (u8_id length) by (done || lia || cint). done. }
  destruct (Z.ltb_spec dl 3), (Z.ltb_spec dl (Z.of_nat 3)); try lia; [done|].
  rewrite u64_sub by (done || lia). change 0xFF with (Z.ones 8).
  rewrite !land_low, shr_div by lia.
  rewrite (Z.mod_small (length / 2 ^ 8) (2 ^ 8)), (u8_id (length / _)), (u8_id (length mod _)) by cint.
  done.
Qed.

Lemma take_room_Ret out dl r :
  take_room out dl = Ret r <-> Z.of_nat (length out) <= dl /\ r = (out, dl - Z.of_nat (length out)).
Proof.
  unfold take_room. destruct (Z.ltb_spec dl (Z.of_nat (length out))); split.
  - done.
  - intros [? _]. lia.
  - by intros [= <-].
  - by intros [_ ->].
Qed.

(** The header, then contents of [n] bytes: the shape shared by all builders. *)
Lemma build_header_spec dl type length :
  is_u64 dl -> len_ok length ->
  asn_build_header dl type length = take_room (type :: len_octets length) dl.
Proof.
  intros Hdl Hl. unfold asn_build_header.
  destruct (Z.ltb_spec dl 1).
  { unfold take_room. cbn [List.length].
    destruct (Z.ltb_spec dl (Z.of_nat (S (List.length (len_octets length))))); [done|lia]. }
  rewrite u64_sub, asn_build_length_spec by (done || unfold is_u64 in *; lia).
  unfold take_room. cbn [List.length].
  destruct (Z.ltb_spec (dl - 1) (Z.of_nat (List.length (len_octets length)))),
    (Z.ltb_spec dl (Z.of_nat (S (List.length (len_octets length))))); try done || lia.
  cbn. do 2 f_equal. lia.
Qed.

(** Header, room check for [n] more bytes, then the [n] bytes [content]. *)
Lemma build_tlv_spec dl type content :
  is_u64 dl -> len_ok (Z.of_nat (length content)) ->
  ('(hdr, dl') ← asn_build_header dl type (Z.of_nat (length content));
   if _asn_build_header_check dl' (Z.of_nat (length content)) then Null
   else Ret (hdr ++ content, u64 (dl' - Z.of_nat (length content))))
  = take_room (tlv type content) dl.
Proof.
  intros Hdl Hl. rewrite build_header_spec by done. unfold take_room, tlv.
  rewrite app_comm_cons, length_app. generalize (type :: len_octets (Z.of_nat (length content))) as hdr. intros hdr.
  destruct (Z.ltb_spec dl (Z.of_nat (length hdr))); cbn.
  { destruct (Z.ltb_spec dl (Z.of_nat (length hdr + length content))); [done|lia]. }
  unfold _asn_build_header_check.
  destruct (Z.ltb_spec (dl - Z.of_nat (length hdr)) (Z.of_nat (length content))),
    (Z.ltb_spec dl (Z.of_nat (length hdr + length content))); try done || lia.
  rewrite u64_sub by (unfold is_u64 in *; lia). do 2 f_equal. lia.
Qed.

(** ** The shift registers of the integer builders *)

Lemma top9_equal_range x :
  top9_equal x = (u64 x <? 2 ^ 55) || (2 ^ 64 - 2 ^ 55 <=? u64 x).
Proof.
  unfold top9_equal. change (Z.shiftl 0x1FF _) with (Z.shiftl (Z.ones 9) 55).
  rewrite land_field by lia. pose proof (u64_range x) as Hx. unfold is_u64 in Hx.
  rewrite (Z.mod_small (u64 x / 2 ^ 55)).
  2:{ split; [apply Z.div_pos; lia|apply Z.div_lt_upper_bound; lia]. }
  change (Z.shiftl (Z.ones 9) 55) with (511 * 2 ^ 55).
  f_equal; [destruct (Z.eqb_spec (u64 x / 2 ^ 55 * 2 ^ 55) 0), (Z.ltb_spec (u64 x) (2 ^ 55))
           |destruct (Z.eqb_spec (u64 x / 2 ^ 55 * 2 ^ 55) (511 * 2 ^ 55)),
              (Z.leb_spec (2 ^ 64 - 2 ^ 55) (u64 x))]; try done; exfalso; revert Hx;
    change (2 ^ 55) with 36028797018963968 in *; intros; cint_consts;
    Z.div_mod_to_equations; lia.
Qed.

(** A register holding [v] shifted to the left end of 64 bits: its nine top
    bits agree exactly when [v] fits in one byte less. *)
Lemma top9_fits k x v :
  (S k <= 8)%nat -> fits (S k) v = true ->
  u64 x = u64 (v * 2 ^ (8 * Z.of_nat (8 - S k))) ->
  top9_equal x && (1 <? S k)%nat = fits k v.
Proof.
  intros Hk Hfit Hx. rewrite top9_equal_range, Hx. clear x Hx.
  cbn [fits] in Hfit. apply andb_prop in Hfit as [H1%Z.leb_le H2%Z.ltb_lt].
  do 8 (destruct k as [|k];
    [cbn [fits Nat.ltb Nat.leb Nat.sub andb];
     match goal with |- context [2 ^ (8 * Z.of_nat ?n)] =>
       let p := eval vm_compute in (2 ^ (8 * Z.of_nat n)) in
       change (2 ^ (8 * Z.of_nat n)) with p end;
     repeat match goal with
       | _ : context [2 ^ (8 * Z.of_nat ?n + 7)] |- _ =>
         let p := eval vm_compute in (2 ^ (8 * Z.of_nat n + 7)) in
         change (2 ^ (8 * Z.of_nat n + 7)) with p in *
       | |- context [2 ^ (8 * Z.of_nat ?n + 7)] =>
         let p := eval vm_compute in (2 ^ (8 * Z.of_nat n + 7)) in
         change (2 ^ (8 * Z.of_nat n + 7)) with p
       end;
     change (2 ^ 55) with 36028797018963968; unfold u64; cint_consts;
     rewrite ?andb_false_r, ?andb_true_r; try done;
     match goal with |- (?a <? ?b) || (?c <=? _) = (?d <=? _) && (_ <? ?e) =>
       destruct (Z.ltb_spec a b), (Z.leb_spec c a), (Z.leb_spec d v), (Z.ltb_spec v e);
       cbn; try done; exfalso; Z.div_mod_to_equations; lia end|]).
  lia.
Qed.

Lemma u64_shl8 x v n :
  (S n <= 8)%nat -> u64 x = u64 (v * 2 ^ (8 * Z.of_nat (8 - S n))) ->
  u64 (x * 2 ^ 8) = u64 (v * 2 ^ (8 * Z.of_nat (8 - n))).
Proof.
  intros Hn H. replace (8 - n)%nat with (S (8 - S n)) by lia. rewrite pow8_succ.
  replace (v * (2 ^ 8 * 2 ^ (8 * Z.of_nat (8 - S n))))
    with (v * 2 ^ (8 * Z.of_nat (8 - S n)) * 2 ^ 8) by ring.
  unfold u64 in *. rewrite <- Z.mul_mod_idemp_l, H, Z.mul_mod_idemp_l by lia. done.
Qed.

Lemma u64_s64 x : u64 (s64 x) = u64 x.
Proof. cint. Qed.
Lemma u64_u64 x : u64 (u64 x) = u64 x.
Proof. cint. Qed.

(** The register [x] holds [v] at the left end, [k] bytes of it. *)
Definition reg (x v : Z) (k : nat) : Prop := u64 x = u64 (v * 2 ^ (8 * Z.of_nat (8 - k))).

Lemma truncate_s_spec k x v :
  (k <= 8)%nat -> fits k v = true -> reg x v k ->
  exists y, truncate_s k x = (least_size k v, y) /\ reg y v (least_size k v).
Proof.
  revert x. induction k as [|k IH]; intros x Hk Hfit Hx; [done|].
  cbn [truncate_s least_size]. rewrite (top9_fits k x v) by done.
  destruct (fits k v) eqn:E; [|by exists x].
  apply IH; [lia|done|]. unfold reg. rewrite shl_mul, u64_s64 by lia. by apply u64_shl8.
Qed.

Lemma truncate_u_spec k x v :
  (k <= 8)%nat -> fits k v = true -> reg x v k ->
  exists y, truncate_u k x = (least_size k v, y) /\ reg y v (least_size k v).
Proof.
  revert x. induction k as [|k IH]; intros x Hk Hfit Hx; [done|].
  cbn [truncate_u least_size]. rewrite (top9_fits k x v) by done.
  destruct (fits k v) eqn:E; [|by exists x].
  apply IH; [lia|done|]. unfold reg. rewrite shl_mul, u64_u64 by lia. by apply u64_shl8.
Qed.

Lemma top_octet_spec x v n :
  (S n <= 8)%nat -> reg x v (S n) -> top_octet x = (v / 2 ^ (8 * Z.of_nat n)) mod 2 ^ 8.
Proof.
  intros Hn Hx. unfold top_octet. change (Z.shiftl 0xFF _) with (Z.shiftl (Z.ones 8) 56).
  change (8 * (sizeof_long - 1)) with 56.
  rewrite land_field, shr_div, Z.div_mul by lia. rewrite Hx.
  unfold u8, u64. rewrite Z.mod_mod by lia.
  rewrite (top_byte v (8 * Z.of_nat (8 - S n)) (8 * Z.of_nat n)) by lia.
  apply Z.mod_mod. lia.
Qed.

Lemma shift_out_s_spec n x v : (n <= 8)%nat -> reg x v n -> shift_out_s n x = be_bytes n v.
Proof.
  revert x. induction n as [|n IH]; intros x Hn Hx; cbn [shift_out_s be_bytes]; [done|].
  rewrite (top_octet_spec x v n) by done. f_equal. apply IH; [lia|].
  unfold reg. rewrite shl_mul, u64_s64 by lia. by apply u64_shl8.
Qed.

Lemma shift_out_u_spec n x v : (n <= 8)%nat -> reg x v n -> shift_out_u n x = be_bytes n v.
Proof.
  revert x. induction n as [|n IH]; intros x Hn Hx; cbn [shift_out_u be_bytes]; [done|].
  rewrite (top_octet_spec x v n) by done. f_equal. apply IH; [lia|].
  unfold reg. rewrite shl_mul, u64_u64 by lia. by apply u64_shl8.
Qed.

(** ** The two-word register of the 64-bit builders *)

Definition halves (h l : Z) : Z := h * 2 ^ 32 + l.

Lemma shl64_spec h l :
  is_u32 h -> is_u32 l ->
  let '(h', l') := shl64 h l in
  is_u32 h' /\ is_u32 l' /\ halves h' l' = u64 (halves h l * 2 ^ 8).
Proof.
  intros Hh Hl. unfold shl64, halves.
  change 0x00ffffff with (Z.ones 24). change 0xff000000 with (Z.shiftl (Z.ones 8) 24).
  rewrite land_field, !land_low, !shl_mul, shr_div, Z.div_mul by lia.
  rewrite (lor_add _ _ 8) by cint. cint.
Qed.

Lemma top9_halves h l :
  is_u32 h -> is_u32 l ->
  (Z.land h 0xff800000 =? 0) || (Z.land h 0xff800000 =? 0xff800000) = top9_equal (halves h l).
Proof.
  intros Hh Hl. rewrite top9_equal_range. unfold halves.
  change 0xff800000 with (Z.shiftl (Z.ones 9) 23) at 1 2. rewrite land_field by lia.
  change (2 ^ 55) with 36028797018963968. change (2 ^ 23) with 8388608. change (2 ^ 9) with 512.
  rewrite u64_id by cint. cint_unfold. cint_consts.
  match goal with |- (?a =? 0) || (_ =? ?b) = (?x <? ?c) || (?d <=? _) =>
    destruct (Z.eqb_spec a 0), (Z.eqb_spec a b), (Z.ltb_spec x c), (Z.leb_spec d x) end;
  cbn; try done; exfalso; Z.div_mod_to_equations; lia.
Qed.

Lemma truncate_64_spec k h l v :
  (k <= 8)%nat -> fits k v = true -> is_u32 h -> is_u32 l -> reg (halves h l) v k ->
  exists h' l', truncate_64 k h l = (least_size k v, h', l') /\
    is_u32 h' /\ is_u32 l' /\ reg (halves h' l') v (least_size k v).
Proof.
  revert h l. induction k as [|k IH]; intros h l Hk Hfit Hh Hl Hx; [done|].
  cbn [truncate_64 least_size]. cbv zeta. rewrite (top9_halves h l), (top9_fits k _ v) by done.
  destruct (fits k v) eqn:E; [|by exists h, l].
  pose proof (shl64_spec h l Hh Hl) as Hs. destruct (shl64 h l) as [h' l'].
  destruct Hs as (? & ? & Hv). apply IH; try done; [lia|].
  unfold reg. rewrite Hv, u64_u64. by apply u64_shl8.
Qed.

Lemma top_octet_halves h l : is_u32 h -> is_u32 l -> u8 (Z.shiftr h 24) = top_octet (halves h l).
Proof.
  intros Hh Hl. unfold top_octet. change (Z.shiftl 0xFF _) with (Z.shiftl (Z.ones 8) 56).
  change (8 * (sizeof_long - 1)) with 56.
  rewrite land_field, !shr_div, Z.div_mul by lia. unfold halves.
  change (2 ^ 56) with 72057594037927936. change (2 ^ 24) with 16777216. cint.
Qed.

Lemma shift_out_64_spec n h l v :
  (n <= 8)%nat -> is_u32 h -> is_u32 l -> reg (halves h l) v n -> shift_out_64 n h l = be_bytes n v.
Proof.
  revert h l. induction n as [|n IH]; intros h l Hn Hh Hl Hx; cbn [shift_out_64 be_bytes]; [done|].
  rewrite (top_octet_halves h l), (top_octet_spec _ v n) by done.
  pose proof (shl64_spec h l Hh Hl) as Hs. destruct (shl64 h l) as [h' l'].
  destruct Hs as (? & ? & Hv). f_equal. apply IH; try done; [lia|].
  unfold reg. rewrite Hv, u64_u64. by apply u64_shl8.
Qed.

(** ** The integer builders *)

Lemma int_octets_len_ok v : len_ok (Z.of_nat (length (int_octets v))).
Proof. rewrite length_int_octets. pose proof (int_size_bounds v). unfold len_ok. lia. Qed.

Lemma reg_8 x v : u64 x = u64 v -> reg x v 8.
Proof. unfold reg. cbn. by rewrite Z.mul_1_r. Qed.

Lemma check_s_is_s64 v : is_s64 (CHECK_OVERFLOW_S v).
Proof. pose proof (CHECK_OVERFLOW_S_range v). cint. Qed.

Lemma asn_build_int_spec dl type v :
  is_u64 dl ->
  asn_build_int dl type v sizeof_long = take_room (tlv type (int_octets (CHECK_OVERFLOW_S v))) dl.
Proof.
  intros Hdl. unfold asn_build_int. cbn [Z.eqb negb sizeof_long Pos.eqb].
  set (i := CHECK_OVERFLOW_S v). assert (Hi : is_s64 i) by apply check_s_is_s64.
  destruct (truncate_s_spec (Z.to_nat sizeof_long) i i) as (y & -> & Hy);
    [done|by apply fits_8|by apply reg_8|].
  change (Z.to_nat sizeof_long) with 8%nat in *. rewrite <- int_size_8 in * by done.
  rewrite (shift_out_s_spec _ y i).
  - fold (int_octets i). rewrite <- (length_int_octets i). by apply build_tlv_spec, int_octets_len_ok.
  - rewrite int_size_8 by done. apply least_size_le.
  - done.
Qed.

Lemma asn_build_unsigned_int_spec dl type v :
  is_u64 dl -> is_u64 v ->
  asn_build_unsigned_int dl type v sizeof_long = take_room (tlv type (int_octets (u32 v))) dl.
Proof.
  intros Hdl Hv. unfold asn_build_unsigned_int. cbn [Z.eqb negb sizeof_long Pos.eqb].
  rewrite CHECK_OVERFLOW_U_u32 by cint. set (i := u32 v).
  assert (Hi : is_u32 i) by apply u32_range. assert (Hs : is_s64 i) by cint.
  rewrite (top_octet_spec i i 7) by (done || by apply reg_8).
  change (2 ^ (8 * Z.of_nat 7)) with (2 ^ 56). rewrite (Z.div_small i (2 ^ 56)) by cint.
  change (bit8 (0 mod 2 ^ 8)) with false.
  destruct (truncate_u_spec (Z.to_nat sizeof_long) i i) as (y & -> & Hy);
    [done|by apply fits_8|by apply reg_8|].
  change (Z.to_nat sizeof_long) with 8%nat in *. rewrite <- int_size_8 in * by done.
  cbn [app]. rewrite (shift_out_u_spec _ y i).
  - fold (int_octets i). rewrite <- (length_int_octets i). by apply build_tlv_spec, int_octets_len_ok.
  - rewrite int_size_8 by done. apply least_size_le.
  - done.
Qed.

(** An unsigned 64-bit value: eight bytes left in the register, or nine with
    a leading zero. *)
Lemma int_size_msb v : is_u64 v -> 2 ^ 63 <= v -> int_size v = 9%nat.
Proof.
  intros Hv H. unfold int_size. cbn [least_size].
  destruct (fits 8 v) eqn:E; [|done]. exfalso.
  cbn [fits] in E. apply andb_prop in E as [_ E%Z.ltb_lt].
  change (8 * Z.of_nat 7 + 7) with 63 in E. lia.
Qed.

Lemma c64_contents c :
  c64_ok c ->
  (let '(add_null_byte, intsize, h, l) :=
     if negb (Z.land (high c) 0x80000000 =? 0) then (true, 9%nat, high c, low c)
     else let '(intsize, h, l) := truncate_64 8 (high c) (low c) in (false, intsize, h, l) in
   let '(null, n) := if (add_null_byte : bool) then ([0], Nat.pred intsize) else ([], intsize) in
   (intsize, null ++ shift_out_64 n h l))
  = (int_size (c64_val c), int_octets (c64_val c)).
Proof.
  intros Hc. pose proof (c64_val_range c Hc) as Hv. destruct Hc as [Hh Hl].
  assert (Hr : reg (halves (high c) (low c)) (c64_val c) 8) by by apply reg_8.
  change 0x80000000 with (Z.shiftl (Z.ones 1) 31). rewrite land_field by lia.
  change (2 ^ 31) with 2147483648. change (2 ^ 1) with 2.
  destruct (Z.eqb_spec ((high c / 2147483648) mod 2 * 2147483648) 0) as [E|E]; cbn [negb].
  - assert (is_s64 (c64_val c)) by (unfold c64_val in *; cint).
    destruct (truncate_64_spec 8 (high c) (low c) (c64_val c)) as (h & l & -> & ? & ? & Hx);
      [done|by apply fits_8|done..|].
    rewrite <- int_size_8 in * by done. cbn [app].
    rewrite (shift_out_64_spec _ h l (c64_val c)); [done| |done..].
    rewrite int_size_8 by done. apply least_size_le.
  - assert (2 ^ 63 <= c64_val c) by (unfold c64_val in *; cint).
    cbn [Nat.pred app]. rewrite (shift_out_64_spec 8 _ _ (c64_val c)) by done.
    unfold int_octets. rewrite int_size_msb by done. f_equal.
    change (be_bytes 9 (c64_val c))
      with ((c64_val c / 2 ^ (8 * Z.of_nat 8)) mod 2 ^ 8 :: be_bytes 8 (c64_val c)).
    rewrite Z.div_small by (unfold is_u64 in *; change (8 * Z.of_nat 8) with 64; lia). done.
Qed.

(** The contents of an Opaque that carries a special value. *)
Definition opaque_wrap (special : Z) (content : list Z) : list Z :=
  ASN_OPAQUE_TAG1 :: special :: Z.of_nat (length content) :: content.

(** What the 64-bit builders do once the contents are known. *)
Lemma build_opaque_spec dl special content :
  is_u64 dl -> (length content <= 100)%nat ->
  ('(hdr, dl') ← asn_build_header dl ASN_OPAQUE (Z.of_nat (length content) + 3);
   if _asn_build_header_check dl' (Z.of_nat (length content) + 3) then Null
   else Ret (hdr ++ ASN_OPAQUE_TAG1 :: special :: Z.of_nat (length content) :: content,
             u64 (dl' - (3 + Z.of_nat (length content)))))
  = take_room (tlv ASN_OPAQUE (opaque_wrap special content)) dl.
Proof.
  intros Hdl Hl. rewrite <- build_tlv_spec; [|done|unfold len_ok; cbn; lia].
  unfold opaque_wrap. cbn [length].
  replace (Z.of_nat (S (S (S (length content))))) with (Z.of_nat (length content) + 3) by lia.
  destruct (asn_build_header _ _ _) as [[hdr dl']| | |]; cbn; try done.
  destruct (_asn_build_header_check _ _); [done|]. do 3 f_equal. lia.
Qed.

Lemma asn_build_unsigned_int64_spec dl type c :
  is_u64 dl -> c64_ok c ->
  asn_build_unsigned_int64 dl type c sizeof_counter64
  = take_room (if (type =? ASN_OPAQUE_COUNTER64) || (type =? ASN_OPAQUE_U64)
               then tlv ASN_OPAQUE (opaque_wrap type (int_octets (c64_val c)))
               else tlv type (int_octets (c64_val c))) dl.
Proof.
  intros Hdl Hc. unfold asn_build_unsigned_int64. cbn [Z.eqb negb sizeof_counter64 Pos.eqb].
  rewrite !CHECK_OVERFLOW_U_u32, !u32_id by (destruct Hc; cint).
  pose proof (c64_contents c Hc) as Hcont.
  destruct (if negb _ then _ else _) as [[[add n] h] l].
  set (oct := int_octets (c64_val c)) in *.
  assert (Hn : n = length oct).
  { unfold oct. rewrite length_int_octets. destruct (if add then _ else _); congruence. }
  assert (Hoct : (length oct <= 9)%nat).
  { unfold oct. rewrite length_int_octets. apply int_size_bounds. }
  replace (if (type =? ASN_OPAQUE_COUNTER64) || (type =? ASN_OPAQUE_U64) then tlv _ _ else _)
    with (if (type =? ASN_OPAQUE_COUNTER64) || (type =? ASN_OPAQUE_U64)
          then tlv ASN_OPAQUE (opaque_wrap type oct) else tlv type oct) by done.
  destruct (if add then _ else _) as [null n'].
  injection Hcont as _ Ho. rewrite Hn. clear n Hn.
  destruct ((type =? ASN_OPAQUE_COUNTER64) || (type =? ASN_OPAQUE_U64)).
  - rewrite <- build_opaque_spec by (done || lia).
    destruct (asn_build_header _ _ _) as [[hdr dl']| | |]; rewrite ?bind_ret; try done.
    destruct (_asn_build_header_check _ _); [done|].
    rewrite bind_ret, Ho, <- app_assoc, u8_id by cint. do 2 f_equal. cint.
  - rewrite <- build_tlv_spec by (done || (unfold len_ok; lia)).
    destruct (asn_build_header _ _ _) as [[hdr dl']| | |]; rewrite ?bind_ret; try done.
    destruct (_asn_build_header_check _ _); [done|]. by rewrite bind_ret, Ho.
Qed.

Lemma asn_build_signed_int64_spec dl type c :
  is_u64 dl -> c64_ok c ->
  asn_build_signed_int64 dl type c sizeof_counter64
  = take_room (tlv ASN_OPAQUE (opaque_wrap ASN_OPAQUE_I64 (int_octets (s64 (c64_val c))))) dl.
Proof.
  intros Hdl Hc. pose proof (c64_val_range c Hc) as Hv. destruct Hc as [Hh Hl].
  unfold asn_build_signed_int64. cbn [Z.eqb negb sizeof_counter64 Pos.eqb].
  rewrite CHECK_OVERFLOW_U_u32, u32_id, s64_id, CHECK_OVERFLOW_S_id by (unfold INT32_MIN; cint).
  set (v := s64 (c64_val c)). assert (is_s64 v) by apply s64_range.
  destruct (truncate_64_spec 8 (high c) (low c) v) as (h & l & -> & ? & ? & Hx);
    [done|by apply fits_8|done..| |].
  { apply reg_8. unfold v, halves. fold (c64_val c). by rewrite u64_s64. }
  rewrite <- int_size_8 in * by done.
  rewrite (shift_out_64_spec _ h l v);
    [|by rewrite int_size_8 by done; apply least_size_le|done..].
  fold (int_octets v). rewrite <- (length_int_octets v).
  assert (Hoct : (length (int_octets v) <= 9)%nat).
  { rewrite length_int_octets. apply int_size_bounds. }
  rewrite <- build_opaque_spec by (done || lia).
  rewrite (u8_id (Z.of_nat _)) by cint. done.
Qed.

(** ** Strings, NULL and floating point *)

Lemma rd_n_whole l : rd_n l 0 (length l) = Ret l.
Proof.
  apply rd_n_bytes_at. pose proof (bytes_at_start l []) as H. by rewrite app_nil_r in H.
Qed.

Lemma asn_build_string_spec dl type s :
  is_u64 dl -> len_ok (Z.of_nat (length s)) ->
  asn_build_string dl type (Some s) (Z.of_nat (length s)) = take_room (tlv type s) dl.
Proof.
  intros. rewrite <- build_tlv_spec by done. unfold asn_build_string.
  destruct (asn_build_header _ _ _) as [[hdr dl']| | |]; rewrite ?bind_ret; try done.
  destruct (_asn_build_header_check _ _); [done|]. by rewrite Nat2Z.id, rd_n_whole.
Qed.

Lemma asn_build_null_spec dl type :
  is_u64 dl -> asn_build_null dl type = take_room (tlv type []) dl.
Proof. intros. unfold asn_build_null. by rewrite build_header_spec by done. Qed.

Lemma asn_build_bitstring_spec dl type b s :
  is_u64 dl -> len_ok (Z.of_nat (length (b :: s))) ->
  asn_build_bitstring dl type (Some (b :: s)) (Z.of_nat (length (b :: s)))
  = take_room (tlv type (b :: s)) dl.
Proof.
  intros. rewrite <- build_tlv_spec by done. unfold asn_build_bitstring.
  change (rd (b :: s) 0) with (Ret b). rewrite bind_ret. unfold _asn_bitstring_check.
  destruct (Z.ltb_spec (Z.of_nat (length (b :: s))) 1); [cbn in *; lia|].
  destruct (asn_build_header _ _ _) as [[hdr dl']| | |]; rewrite ?bind_ret; try done.
  destruct (_asn_build_header_check _ _); [done|].
  by rewrite Nat2Z.id, rd_n_whole.
Qed.

Lemma le_bytes_ntohl x : le_bytes 4 (ntohl x) = be_bytes 4 x.
Proof.
  unfold le_bytes, ntohl, le_val.
  replace 4%nat with (length (rev (be_bytes 4 x))) at 1 by done.
  rewrite be_bytes_be_val; [by rewrite rev_involutive|]. apply Forall_rev, be_bytes_ok.
Qed.

Lemma asn_build_float_spec dl type f :
  is_u64 dl ->
  asn_build_float dl type f sizeof_float
  = take_room (tlv ASN_OPAQUE (opaque_wrap ASN_OPAQUE_FLOAT (be_bytes 4 f))) dl.
Proof.
  intros Hdl. rewrite <- build_opaque_spec; [|done|cbn; lia]. unfold asn_build_float, htonl.
  rewrite le_bytes_ntohl, length_be_bytes. change (Z.of_nat 4) with sizeof_float.
  cbn [negb sizeof_float Z.eqb Pos.eqb].
  destruct (asn_build_header _ _ _) as [[hdr dl']| | |]; rewrite ?bind_ret; try done.
  destruct (_asn_build_header_check _ _); [done|]. do 2 f_equal. cint.
Qed.

Lemma be_bytes_split v : be_bytes 8 v = be_bytes 4 (v / 2 ^ 32) ++ be_bytes 4 (u32 v).
Proof.
  unfold u32. cbn [be_bytes app].
  change (2 ^ (8 * Z.of_nat 7)) with 72057594037927936. change (2 ^ (8 * Z.of_nat 6)) with 281474976710656.
  change (2 ^ (8 * Z.of_nat 5)) with 1099511627776. change (2 ^ (8 * Z.of_nat 4)) with 4294967296.
  change (2 ^ (8 * Z.of_nat 3)) with 16777216. change (2 ^ (8 * Z.of_nat 2)) with 65536.
  change (2 ^ (8 * Z.of_nat 1)) with 256. change (2 ^ (8 * Z.of_nat 0)) with 1. cint_consts.
  repeat (f_equal; [Z.div_mod_to_equations; lia|]). f_equal. Z.div_mod_to_equations; lia.
Qed.

Lemma asn_build_double_spec dl type d :
  is_u64 dl ->
  asn_build_double dl type d sizeof_double
  = take_room (tlv ASN_OPAQUE (opaque_wrap ASN_OPAQUE_DOUBLE (be_bytes 8 d))) dl.
Proof.
  intros Hdl. rewrite <- build_opaque_spec; [|done|cbn; lia]. unfold asn_build_double, htonl.
  rewrite !le_bytes_ntohl, length_be_bytes, be_bytes_split. change (Z.of_nat 8) with sizeof_double.
  cbn [negb sizeof_double Z.eqb Pos.eqb].
  destruct (asn_build_header _ _ _) as [[hdr dl']| | |]; rewrite ?bind_ret; try done.
  destruct (_asn_build_header_check _ _); [done|]. do 2 f_equal. cint.
Qed.

(** ** Object identifiers *)

Lemma objid_size_sub_size v : objid_size v = Z.of_nat (sub_size v).
Proof. unfold objid_size, sub_size. by repeat destruct (_ <? _). Qed.

Lemma objid_store_spec v : is_u32 v -> objid_store (objid_size v) v = sub_octets v.
Proof.
  intros Hv. unfold objid_store, sub_octets. rewrite objid_size_sub_size.
  change 0x7f with (Z.ones 7). rewrite !land_low, !shr_div by lia.
  unfold sub_size. change (2 ^ 7) with 128. change (2 ^ 14) with 16384.
  change (2 ^ 21) with 2097152. change (2 ^ 28) with 268435456.
  assert (Hmid : forall k, u8 (Z.lor (v / k mod 128) 0x80) = v / k mod 128 + 128).
  { intros k. rewrite lor_bit8 by (apply Z.mod_pos_bound; lia). apply u8_id.
    pose proof (Z.mod_pos_bound (v / k) 128). cint. }
  assert (Htop : forall k, 0 < k -> v < 128 * k -> u8 (Z.lor (v / k) 0x80) = v / k mod 128 + 128).
  { intros k Hk Hvk. rewrite <- (Hmid k), (Z.mod_small (v / k)); [done|].
    split; [apply Z.div_pos; cint|apply Z.div_lt_upper_bound; lia]. }
  repeat match goal with |- context [v <? ?b] => destruct (Z.ltb_spec v b) end.
  all: repeat match goal with |- context [Z.of_nat ?a =? ?b] =>
    let r := eval vm_compute in (Z.of_nat a =? b) in change (Z.of_nat a =? b) with r end.
  all: cbv iota; rewrite ?Hmid, ?Htop by cint; rewrite ?(u8_id (v mod 128)) by cint; cbn [b128].
  all: repeat match goal with |- context [2 ^ (7 * Z.of_nat ?n)] =>
    let r := eval vm_compute in (2 ^ (7 * Z.of_nat n)) in change (2 ^ (7 * Z.of_nat n)) with r end.
  all: rewrite Z.div_1_r; try done. rewrite u8_id, Z.mod_small by cint. done.
Qed.

(** An object identifier as a mathematical object: what BER can carry.  The
    code also lets [Y = 40] through, which no decoder can give back. *)
Definition oid_ok (l : list Z) : Prop :=
  match l with
  | x :: y :: rest =>
      0 <= x <= 2 /\ 0 <= y /\ (x < 2 -> y < 40) /\ x * 40 + y < 2 ^ 32 /\
      Forall is_u32 rest /\ Z.of_nat (length l) <= MAX_OID_LEN
  | _ => False
  end.

(** The contents octets: the first two subidentifiers share a group. *)
Definition oid_octets (l : list Z) : list Z :=
  match l with
  | x :: y :: rest => sub_octets (x * 40 + y) ++ concat (map sub_octets rest)
  | _ => []
  end.

Lemma length_sub_octets v : length (sub_octets v) = sub_size v.
Proof. apply length_b128. Qed.

Lemma length_concat_subs l : (length (concat (map sub_octets l)) <= 5 * length l)%nat.
Proof.
  induction l as [|v l IH]; cbn; [lia|].
  rewrite length_app, length_sub_octets. pose proof (sub_size_bound v). lia.
Qed.

Lemma oid_octets_len_ok l : oid_ok l -> len_ok (Z.of_nat (length (oid_octets l))).
Proof.
  destruct l as [|x [|y rest]]; try done. cbn [oid_ok oid_octets length]. unfold MAX_OID_LEN, len_ok.
  intros (_ & _ & _ & _ & _ & ?). rewrite length_app, length_sub_octets.
  pose proof (sub_size_bound (x * 40 + y)). pose proof (length_concat_subs rest). lia.
Qed.

Lemma foldl_sizes a l :
  Forall is_u32 l ->
  foldl Z.add a (map (fun v => objid_size (CHECK_OVERFLOW_U v)) l)
  = a + Z.of_nat (length (concat (map sub_octets l))).
Proof.
  intros Hl. revert a. induction Hl as [|v l Hv Hl IH]; intros a; cbn; [lia|].
  rewrite IH, CHECK_OVERFLOW_U_u32, u32_id, objid_size_sub_size by cint.
  rewrite length_app, length_sub_octets. lia.
Qed.

Lemma store_rest l :
  Forall is_u32 l ->
  concat (zip_with objid_store (map (fun v => objid_size (CHECK_OVERFLOW_U v)) l) (map u32 l))
  = concat (map sub_octets l).
Proof.
  induction 1 as [|v l Hv Hl IH]; cbn; [done|].
  by rewrite IH, CHECK_OVERFLOW_U_u32, !u32_id, objid_store_spec by (done || cint).
Qed.

Lemma bytes_at_self l : bytes_at l 0 l.
Proof. pose proof (bytes_at_start l []) as H. by rewrite app_nil_r in H. Qed.

Lemma rd_n_drop2 x y (l : list Z) : rd_n (x :: y :: l) 2 (length l) = Ret l.
Proof. apply rd_n_bytes_at, (bytes_at_self_shift [x; y] l). Qed.

Lemma asn_build_objid_spec dl type l :
  is_u64 dl -> oid_ok l ->
  asn_build_objid dl type l (Z.of_nat (length l)) = take_room (tlv type (oid_octets l)) dl.
Proof.
  intros Hdl Hok. pose proof (oid_octets_len_ok l Hok) as Hlen.
  rewrite <- build_tlv_spec by done.
  destruct l as [|x [|y rest]]; try done. cbn [oid_ok] in Hok.
  destruct Hok as (Hx & Hy & Hxy & Hsum & Hrest & Hn).
  unfold asn_build_objid, objid_first.
  destruct (Z.eqb_spec (Z.of_nat (length (x :: y :: rest))) 0) as [E|_]; [cbn in E; lia|].
  change (rd (x :: y :: rest) 0) with (Ret x). change (rd (x :: y :: rest) 1) with (Ret y).
  rewrite !bind_ret. destruct (Z.ltb_spec 2 x); [lia|].
  destruct (Z.eqb_spec (Z.of_nat (length (x :: y :: rest))) 1) as [E|_]; [cbn in E; lia|].
  replace ((40 <? y) && (x <? 2)) with false.
  2:{ destruct (Z.ltb_spec 40 y), (Z.ltb_spec x 2); cbn; lia. }
  rewrite bind_ret. destruct (Z.ltb_spec MAX_OID_LEN (Z.of_nat (length (x :: y :: rest)))); [lia|].
  replace (Z.to_nat _) with (length rest) by (cbn [length]; lia).
  rewrite rd_n_drop2, bind_ret, foldl_sizes, store_rest by done.
  rewrite (u64_id (x * 40)), u64_id, CHECK_OVERFLOW_U_u32, u32_id by cint.
  rewrite objid_store_spec, objid_size_sub_size, <- length_sub_octets by cint.
  rewrite <- Nat2Z.inj_add, <- length_app. done.
Qed.
