(* ===== verification/AsnParseSpec.v ===== *)
(** * What the parsers read back

    On the encodings of AsnBuildSpec.v every parser of AsnParse.v succeeds,
    returns the encoded value and consumes exactly the encoding. *)

From S2P Require Import Prelude Bytes AsnTypes AsnParse AsnBuild AsnBuildSpec.

(** ** Lengths and headers *)

Lemma parse_len_octets m p n x :
  len_ok n -> bytes_at m p (len_octets n) ->
  asn_parse_length m p x = Ret (Some (p + Z.of_nat (length (len_octets n))), n).
Proof.
  unfold len_ok, len_octets, asn_parse_length. intros Hn.
  destruct (Z.ltb_spec n 128).
  { cbn [bytes_at length]. intros [-> _]. rewrite bind_ret.
    unfold ASN_LONG_LEN. rewrite land_bit8 by cint.
    destruct (Z.ltb_spec n 128); [|lia]. done. }
  destruct (Z.ltb_spec n 256); cbn [bytes_at length].
  { intros (-> & Hb & _). rewrite bind_ret.
    change (negb (Z.land 129 ASN_LONG_LEN =? 0)) with true.
    change (Z.land 129 (Z.lnot ASN_LONG_LEN)) with 1. cbn [Z.eqb]. change (sizeof_long <? 1) with false.
    cbv iota. change (Z.to_nat 1) with 1%nat. cbn [parse_length_loop]. rewrite Hb, !bind_ret.
    change (u64 (Z.shiftl 0 8)) with 0. rewrite Z.lor_0_l, s64_id by cint.
    destruct (Z.ltb_spec n 0); [lia|]. do 3 f_equal. lia. }
  intros (-> & Hb1 & Hb2 & _). rewrite bind_ret.
  change (negb (Z.land 130 ASN_LONG_LEN =? 0)) with true.
  change (Z.land 130 (Z.lnot ASN_LONG_LEN)) with 2. cbn [Z.eqb]. change (sizeof_long <? 2) with false.
  cbv iota. change (Z.to_nat 2) with 2%nat. cbn [parse_length_loop].
  rewrite Hb1, !bind_ret. cbn [parse_length_loop]. rewrite Hb2, !bind_ret.
  change (u64 (Z.shiftl 0 8)) with 0. rewrite Z.lor_0_l, shl_mul, u64_id by cint.
  rewrite (lor_add _ _ 8) by cint. change (2 ^ 8) with 256.
  replace (n / 256 * 256 + n mod 256) with n by (Z.div_mod_to_equations; lia).
  rewrite s64_id by cint. destruct (Z.ltb_spec n 0); [lia|]. do 3 f_equal. lia.
Qed.

(** The bytes before the contents of an object. *)
Definition hdr_len (n : Z) : Z := 1 + Z.of_nat (length (len_octets n)).

Lemma hdr_len_bound n : 2 <= hdr_len n <= 4.
Proof. unfold hdr_len. pose proof (length_len_octets n). lia. Qed.

Lemma length_tlv t c : Z.of_nat (length (tlv t c)) = hdr_len (Z.of_nat (length c)) + Z.of_nat (length c).
Proof. unfold tlv, hdr_len. cbn [length]. rewrite length_app. lia. Qed.

Lemma tlv_at m data t c :
  bytes_at m data (tlv t c) <->
  rd m data = Ret t /\ bytes_at m (data + 1) (len_octets (Z.of_nat (length c)))
  /\ bytes_at m (data + hdr_len (Z.of_nat (length c))) c.
Proof.
  unfold tlv, hdr_len. cbn [bytes_at]. rewrite bytes_at_app.
  by replace (data + 1 + _) with (data + (1 + Z.of_nat (length (len_octets (Z.of_nat (length c)))))) by lia.
Qed.

Lemma parse_checked_spec m p data dl n :
  len_ok n -> bytes_at m p (len_octets n) -> 0 <= p - data < 100 ->
  n + (p - data) + Z.of_nat (length (len_octets n)) <= dl ->
  parse_length_checked m p data dl = Ret (p + Z.of_nat (length (len_octets n)), n).
Proof.
  intros Hn Hat Hp Hdl. unfold parse_length_checked.
  rewrite (parse_len_octets m p n) by done. rewrite bind_ret.
  pose proof (length_len_octets n).
  destruct (_asn_parse_length_check _ _ _ _) eqn:E; [|done]. exfalso.
  assert (_asn_parse_length_check (Some (p + Z.of_nat (length (len_octets n)))) data n dl = false).
  { apply parse_length_check_spec; unfold len_ok, is_u64 in *; lia. }
  congruence.
Qed.

(** The header of an encoded object, at its start. *)
Lemma parse_checked_tlv m data dl t c :
  len_ok (Z.of_nat (length c)) -> bytes_at m data (tlv t c) -> Z.of_nat (length (tlv t c)) <= dl ->
  parse_length_checked m (data + 1) data dl
  = Ret (data + hdr_len (Z.of_nat (length c)), Z.of_nat (length c)).
Proof.
  intros Hc (_ & Hl & _)%tlv_at Hdl. rewrite length_tlv in Hdl. unfold hdr_len in Hdl.
  rewrite (parse_checked_spec m (data + 1) data dl (Z.of_nat (length c))) by (done || lia).
  unfold hdr_len. do 2 f_equal. lia.
Qed.

(** [*datalength -= (int) asn_length + (bufp - data)] after a full object. *)
Lemma datalength_after dl n data h :
  is_u64 dl -> len_ok n -> 2 <= h <= 100 -> h + n <= dl ->
  u64 (dl - (s32 n + (data + h - data))) = dl - (h + n).
Proof. unfold len_ok. intros. rewrite s32_id by cint. rewrite u64_sub by (unfold is_u64 in *; lia). lia. Qed.

(** ** The shift loops *)

Lemma u64_be_val a b l : u64 a = u64 b -> u64 (be_val a l) = u64 (be_val b l).
Proof.
  unfold u64. intros E. rewrite (be_val_shift a), (be_val_shift b).
  rewrite <- Z.add_mod_idemp_l, <- Z.mul_mod_idemp_l, E by lia.
  by rewrite Z.mul_mod_idemp_l, Z.add_mod_idemp_l by lia.
Qed.

Lemma shift_in_s_spec m p v l :
  bytes_ok l -> bytes_at m p l -> is_s64 v ->
  exists r, shift_in_s m p v (length l) = Ret (p + Z.of_nat (length l), r)
            /\ is_s64 r /\ u64 r = u64 (be_val v l).
Proof.
  intros Hl. revert p v. induction Hl as [|b l Hb Hl IH]; intros p v; cbn [bytes_at shift_in_s length].
  - intros _ Hv. exists v. rewrite Z.add_0_r. done.
  - intros [-> Hat] Hv. rewrite bind_ret, shl_mul by lia.
    assert (Hlor : Z.lor (s64 (v * 2 ^ 8)) b = s64 (v * 2 ^ 8) + b).
    { replace (s64 (v * 2 ^ 8)) with (s64 (v * 2 ^ 8) / 2 ^ 8 * 2 ^ 8) by cint.
      apply lor_add; cint. }
    rewrite Hlor. destruct (IH (p + 1) (s64 (v * 2 ^ 8) + b)) as (r & -> & Hr & Hu); [done|cint|].
    exists r. split; [do 2 f_equal; lia|]. split; [done|]. rewrite Hu.
    change (be_val v (b :: l)) with (be_val (v * 2 ^ 8 + b) l).
    apply u64_be_val. cint.
Qed.

Lemma shift_in_u_spec m p v l :
  bytes_ok l -> bytes_at m p l -> is_u64 v ->
  shift_in_u m p v (length l) = Ret (p + Z.of_nat (length l), u64 (be_val v l)).
Proof.
  intros Hl. revert p v. induction Hl as [|b l Hb Hl IH]; intros p v; cbn [bytes_at shift_in_u length].
  - intros _ Hv. cbn. by rewrite Z.add_0_r, u64_id.
  - intros [-> Hat] Hv. rewrite bind_ret, shl_mul by lia.
    assert (Hlor : Z.lor (u64 (v * 2 ^ 8)) b = u64 (v * 2 ^ 8) + b).
    { replace (u64 (v * 2 ^ 8)) with (u64 (v * 2 ^ 8) / 2 ^ 8 * 2 ^ 8) by cint.
      apply lor_add; cint. }
    rewrite Hlor, IH by (done || cint).
    change (be_val v (b :: l)) with (be_val (v * 2 ^ 8 + b) l).
    do 2 f_equal; [lia|]. apply u64_be_val. cint.
Qed.

Lemma shift_in_64_spec m p h lo l :
  bytes_ok l -> bytes_at m p l -> is_u32 h -> is_u32 lo ->
  exists h' l', shift_in_64 m p h lo (length l) = Ret (p + Z.of_nat (length l), h', l')
    /\ is_u32 h' /\ is_u32 l' /\ halves h' l' = u64 (be_val (halves h lo) l).
Proof.
  intros Hl. revert p h lo. induction Hl as [|b l Hb Hl IH]; intros p h lo;
    cbn [bytes_at shift_in_64 length].
  - intros _ Hh Hlo. exists h, lo. rewrite Z.add_0_r. cbn [be_val fold_left].
    repeat split; try cint. unfold halves. rewrite u64_id by cint. done.
  - intros [-> Hat] Hh Hlo. rewrite bind_ret.
    rewrite (Z.land_comm 0x00FFFFFF h).
    change 0x00FFFFFF with (Z.ones 24). change 0xFF000000 with (Z.shiftl (Z.ones 8) 24).
    rewrite land_field, !land_low, !shl_mul, shr_div, Z.div_mul by lia.
    rewrite !(lor_add _ _ 8) by cint.
    destruct (IH (p + 1) (h mod 2 ^ 24 * 2 ^ 8 + (lo / 2 ^ 24) mod 2 ^ 8)
                 (lo mod 2 ^ 24 * 2 ^ 8 + b)) as (h' & l' & -> & ? & ? & Hv); [done|cint|cint|].
    exists h', l'. split; [do 3 f_equal; lia|]. split; [done|]. split; [done|]. rewrite Hv.
    change (be_val (halves h lo) (b :: l)) with (be_val (halves h lo * 2 ^ 8 + b) l).
    apply u64_be_val. unfold halves. change (2 ^ 24) with 16777216. cint.
Qed.

(** ** The integer parsers *)

(** The contents of an integer, seen as its first byte and the sign it gives. *)
Lemma int_octets_head m p v :
  - 2 ^ 63 <= v < 2 ^ 64 -> bytes_at m p (int_octets v) ->
  exists b, rd m p = Ret b /\ is_u8 b /\ bit8 b = (v <? 0)
    /\ be_val (if bit8 b then -1 else 0) (int_octets v) = v.
Proof.
  intros Hv. unfold int_octets. pose proof (least_size_fits 9 v (fits_9 v Hv)) as Hfit.
  fold (int_size v) in Hfit. destruct (int_size v) as [|n]; [done|].
  pose proof (be_bytes_sign n v Hfit) as Hs. pose proof (be_val_sign n v Hfit) as Hval.
  cbn [be_bytes bytes_at]. set (b := (v / 2 ^ (8 * Z.of_nat n)) mod 2 ^ 8) in *.
  intros [Hrd _]. exists b. assert (Hb : is_u8 b) by (apply Z.mod_pos_bound; lia).
  rewrite bit8_spec by done.
  destruct (Z.ltb_spec b 128), (Z.leb_spec 128 b), (Z.leb_spec 0 v), (Z.ltb_spec v 0);
    try done || lia.
Qed.

Lemma int_size_s64 v : is_s64 v -> (1 <= int_size v <= 8)%nat.
Proof.
  intros Hv. split; [apply int_size_bounds|]. rewrite int_size_8 by done. apply least_size_le.
Qed.

(** What is left of the proof of a parser once it is known where its object
    ends and how much room the object takes. *)
Lemma object_end (h n : Z) (data : Z) : data + h + n = data + (h + n).
Proof. lia. Qed.

Lemma asn_parse_int_spec m data dl v :
  is_u64 dl -> is_s64 v -> bytes_at m data (tlv ASN_INTEGER (int_octets v)) ->
  let n := Z.of_nat (length (tlv ASN_INTEGER (int_octets v))) in
  n <= dl ->
  asn_parse_int m data dl sizeof_long = Ret (data + n, ASN_INTEGER, CHECK_OVERFLOW_S v, dl - n).
Proof.
  intros Hdl Hv Hat n Hn. pose proof (int_octets_len_ok v) as Hlen.
  pose proof (int_size_s64 v Hv) as Hsz. rewrite <- length_int_octets in Hsz.
  unfold asn_parse_int, sizeof_long. cbn [negb Z.eqb Pos.eqb].
  rewrite (parse_checked_tlv m data dl _ _ Hlen Hat Hn).
  apply tlv_at in Hat as (-> & _ & Hat). rewrite bind_ret. cbn [negb Z.eqb Pos.eqb ASN_INTEGER].
  rewrite bind_ret. subst n. rewrite length_tlv in *.
  destruct (Z.ltb_spec 8 (Z.of_nat (length (int_octets v)))); [lia|].
  destruct (int_octets_head m _ v ltac:(cint) Hat) as (b & -> & _ & _ & Hval). rewrite bind_ret.
  rewrite Nat2Z.id.
  destruct (shift_in_s_spec m _ (if bit8 b then -1 else 0) _ (int_octets_ok v) Hat)
    as (r & -> & Hr & Hu); [destruct (bit8 b); cint|].
  rewrite bind_ret. replace r with v by (rewrite Hval in Hu; cint).
  pose proof (hdr_len_bound (Z.of_nat (length (int_octets v)))).
  rewrite datalength_after, object_end by (done || lia). done.
Qed.

Lemma asn_parse_unsigned_int_spec m data dl type v :
  is_u64 dl -> is_u32 v -> is_uint_type type = true ->
  bytes_at m data (tlv type (int_octets v)) ->
  let n := Z.of_nat (length (tlv type (int_octets v))) in
  n <= dl ->
  asn_parse_unsigned_int m data dl sizeof_long = Ret (data + n, type, v, dl - n).
Proof.
  intros Hdl Hv Ht Hat n Hn. pose proof (int_octets_len_ok v) as Hlen.
  assert (Hs : is_s64 v) by cint.
  pose proof (int_size_s64 v Hs) as Hsz. rewrite <- length_int_octets in Hsz.
  unfold asn_parse_unsigned_int, sizeof_long. cbn [negb Z.eqb Pos.eqb].
  rewrite (parse_checked_tlv m data dl _ _ Hlen Hat Hn).
  apply tlv_at in Hat as (-> & _ & Hat). rewrite bind_ret.
  replace (negb (type =? ASN_COUNTER) && _ && _ && _) with false.
  2:{ unfold is_uint_type in Ht. by destruct (_ =? ASN_COUNTER), (_ =? ASN_GAUGE),
        (_ =? ASN_TIMETICKS), (_ =? ASN_UINTEGER). }
  rewrite bind_ret. subst n. rewrite length_tlv in *.
  destruct (Z.ltb_spec (8 + 1) (Z.of_nat (length (int_octets v)))); [lia|].
  destruct (Z.eqb_spec (Z.of_nat (length (int_octets v))) (8 + 1)); [lia|]. rewrite bind_ret.
  destruct (int_octets_head m _ v ltac:(cint) Hat) as (b & -> & _ & Hneg & Hval). rewrite bind_ret.
  assert (Hb0 : bit8 b = false) by (rewrite Hneg; apply Z.ltb_ge; cint). rewrite Hb0 in Hval |- *.
  rewrite Nat2Z.id, shift_in_u_spec, bind_ret, Hval, (u64_id v), CHECK_OVERFLOW_U_u32, u32_id
    by (done || cint || apply int_octets_ok).
  pose proof (hdr_len_bound (Z.of_nat (length (int_octets v)))).
  rewrite datalength_after, object_end by (done || lia). done.
Qed.

(** The size test of the 64-bit parsers passes every encoded 64-bit value. *)
Lemma int64_too_long_spec m p v :
  is_u64 v \/ is_s64 v -> bytes_at m p (int_octets v) ->
  int64_too_long m p (Z.of_nat (length (int_octets v))) 9 = Ret false.
Proof.
  intros Hv Hat. unfold int64_too_long. pose proof (int_size_bounds v) as Hsz.
  rewrite <- length_int_octets in Hsz. rewrite s32_id by cint.
  destruct (Z.ltb_spec 9 (Z.of_nat (length (int_octets v)))); [lia|].
  destruct (Z.eqb_spec (Z.of_nat (length (int_octets v))) 9) as [E|]; [|done].
  assert (Hs : int_size v = 9%nat) by (rewrite length_int_octets in E; lia).
  destruct Hv as [Hv|Hv]; [|pose proof (int_size_s64 v Hv); lia].
  unfold int_octets in Hat. rewrite Hs in Hat.
  change (be_bytes 9 v) with ((v / 2 ^ (8 * Z.of_nat 8)) mod 2 ^ 8 :: be_bytes 8 v) in Hat.
  destruct Hat as [-> _]. rewrite bind_ret, Z.div_small; [done|].
  change (8 * Z.of_nat 8) with 64. exact Hv.
Qed.

Lemma halves_c64 h l : is_u32 h -> is_u32 l -> {| high := h; low := l |} = c64_of (halves h l).
Proof. intros. symmetry. apply (c64_val_of {| high := h; low := l |}). done. Qed.

Lemma asn_parse_unsigned_int64_spec m data dl v :
  is_u64 dl -> is_u64 v -> bytes_at m data (tlv ASN_COUNTER64 (int_octets v)) ->
  let n := Z.of_nat (length (tlv ASN_COUNTER64 (int_octets v))) in
  n <= dl ->
  asn_parse_unsigned_int64 m data dl sizeof_counter64
  = Ret (data + n, ASN_COUNTER64, c64_of v, dl - n).
Proof.
  intros Hdl Hv Hat n Hn. pose proof (int_octets_len_ok v) as Hlen.
  unfold asn_parse_unsigned_int64, sizeof_counter64. cbn [negb Z.eqb Pos.eqb].
  rewrite (parse_checked_tlv m data dl _ _ Hlen Hat Hn).
  apply tlv_at in Hat as (-> & _ & Hat). rewrite bind_ret.
  change (negb (ASN_COUNTER64 =? ASN_COUNTER64)) with false. cbn [andb].
  rewrite bind_ret. change (ASN_COUNTER64 =? ASN_OPAQUE) with false. cbn [andb].
  rewrite bind_ret. change (4 * 2 + 1) with 9. rewrite int64_too_long_spec by (done || by left).
  rewrite bind_ret, Nat2Z.id. subst n. rewrite length_tlv in *.
  destruct (int_octets_head m _ v ltac:(cint) Hat) as (b & _ & _ & Hneg & Hval).
  assert (Hb0 : bit8 b = false) by (rewrite Hneg; apply Z.ltb_ge; cint). rewrite Hb0 in Hval.
  destruct (shift_in_64_spec m _ 0 0 _ (int_octets_ok v) Hat) as (h & l & -> & Hh & Hl & Hx);
    [cint..|].
  rewrite bind_ret, !CHECK_OVERFLOW_U_u32, !u32_id, halves_c64, Hx by cint.
  change (halves 0 0) with 0. rewrite Hval, u64_id by done.
  pose proof (hdr_len_bound (Z.of_nat (length (int_octets v)))).
  rewrite datalength_after, object_end by (done || lia). done.
Qed.

(** ** Special values inside an Opaque *)

Lemma len_octets_small n : 0 <= n < 128 -> len_octets n = [n].
Proof. intros. unfold len_octets. by destruct (Z.ltb_spec n 128); [|lia]. Qed.

Section opaque.
Context (m : mem) (data dl special : Z) (content : list Z).
Let wrapped := opaque_wrap special content.
Let h := hdr_len (Z.of_nat (length wrapped)).
Hypothesis Hdl : is_u64 dl.
Hypothesis Hlen : (length content <= 100)%nat.
Hypothesis Hat : bytes_at m data (tlv ASN_OPAQUE wrapped).
Hypothesis Hroom : Z.of_nat (length (tlv ASN_OPAQUE wrapped)) <= dl.

Lemma length_wrapped : Z.of_nat (length wrapped) = 3 + Z.of_nat (length content).
Proof using Hlen. unfold wrapped, opaque_wrap. cbn [length]. lia. Qed.

Lemma opaque_h : h = 2.
Proof using Hlen.
  unfold h, hdr_len. rewrite length_wrapped, len_octets_small by lia. done.
Qed.

Lemma opaque_tag : rd m data = Ret ASN_OPAQUE.
Proof using Hat. by apply tlv_at in Hat as [? _]. Qed.

Lemma opaque_outer : parse_length_checked m (data + 1) data dl = Ret (data + 2, Z.of_nat (length wrapped)).
Proof using Hlen Hat Hroom.
  rewrite (parse_checked_tlv m data dl ASN_OPAQUE wrapped); [|unfold len_ok; rewrite length_wrapped; lia|done..].
  fold h. by rewrite opaque_h.
Qed.

Lemma opaque_inside :
  rd m (data + 2) = Ret ASN_OPAQUE_TAG1 /\ rd m (data + 2 + 1) = Ret special
  /\ bytes_at m (data + 2 + 2) (len_octets (Z.of_nat (length content)))
  /\ bytes_at m (data + 5) content.
Proof using Hlen Hat.
  pose proof Hat as (_ & _ & H)%tlv_at. fold h in H. rewrite opaque_h in H.
  unfold wrapped, opaque_wrap in H. cbn [bytes_at] in H. destruct H as (H1 & H2 & H3 & H4).
  rewrite len_octets_small by lia. cbn [bytes_at].
  replace (data + 2 + 1 + 1) with (data + 2 + 2) in * by lia.
  replace (data + 2 + 2 + 1) with (data + 5) in * by lia. done.
Qed.

Lemma opaque_inner :
  parse_length_checked m (data + 2 + 2) data dl = Ret (data + 5, Z.of_nat (length content)).
Proof using Hlen Hat Hroom.
  destruct opaque_inside as (_ & _ & H & _).
  rewrite length_tlv in Hroom. fold h in Hroom. rewrite opaque_h, length_wrapped in Hroom.
  rewrite (parse_checked_spec m (data + 2 + 2) data dl (Z.of_nat (length content)));
    [|unfold len_ok; lia|done|lia|rewrite len_octets_small by lia; cbn; lia].
  rewrite len_octets_small by lia. cbn [length]. do 2 f_equal. lia.
Qed.

Lemma opaque_datalength :
  u64 (dl - (s32 (Z.of_nat (length content)) + (data + 5 - data)))
  = dl - Z.of_nat (length (tlv ASN_OPAQUE wrapped)).
Proof using Hdl Hlen Hroom.
  rewrite length_tlv in Hroom |- *. fold h in Hroom |- *.
  rewrite opaque_h, length_wrapped in Hroom |- *.
  rewrite datalength_after; [lia|done|unfold len_ok; lia|lia|lia].
Qed.

Lemma opaque_end :
  data + 5 + Z.of_nat (length content) = data + Z.of_nat (length (tlv ASN_OPAQUE wrapped)).
Proof using Hlen. rewrite length_tlv. fold h. rewrite opaque_h, length_wrapped. lia. Qed.
End opaque.

Lemma asn_parse_signed_int64_spec m data dl v :
  is_u64 dl -> is_s64 v ->
  let enc := tlv ASN_OPAQUE (opaque_wrap ASN_OPAQUE_I64 (int_octets v)) in
  bytes_at m data enc -> let n := Z.of_nat (length enc) in n <= dl ->
  asn_parse_signed_int64 m data dl sizeof_counter64
  = Ret (data + n, ASN_OPAQUE_I64, c64_of (u64 v), dl - n).
Proof.
  intros Hdl Hv enc Hat n Hn. pose proof (int_size_s64 v Hv) as Hsz. rewrite <- length_int_octets in Hsz.
  assert (Hlen : (length (int_octets v) <= 100)%nat) by lia.
  destruct (opaque_inside _ _ _ _ Hlen Hat) as (H1 & H2 & _ & H4).
  unfold asn_parse_signed_int64, sizeof_counter64. cbn [negb Z.eqb Pos.eqb].
  rewrite (opaque_tag _ _ _ _ Hat), bind_ret, (opaque_outer _ _ _ _ _ Hlen Hat Hn), bind_ret.
  rewrite length_wrapped by done. change (ASN_OPAQUE =? ASN_OPAQUE) with true. cbn [andb].
  destruct (Z.leb_spec (3 + Z.of_nat (length (int_octets v))) ASN_OPAQUE_COUNTER64_MX_BER_LEN);
    [|unfold ASN_OPAQUE_COUNTER64_MX_BER_LEN in *; lia].
  rewrite H1, bind_ret, Z.eqb_refl, H2, bind_ret, Z.eqb_refl.
  rewrite (opaque_inner _ _ _ _ _ Hlen Hat Hn), bind_ret. change (4 * 2 + 1) with 9.
  rewrite int64_too_long_spec by (done || by right). rewrite bind_ret.
  destruct (int_octets_head m _ v ltac:(cint) H4) as (b & Hb & _ & Hneg & Hval).
  rewrite Hb, bind_ret, Nat2Z.id, Hneg.
  destruct (shift_in_64_spec m _ (if v <? 0 then 0xFFFFFF else 0) (if v <? 0 then 0xFFFFFFFF else 0)
              _ (int_octets_ok v) H4) as (h & l & -> & Hh & Hl & Hx); [destruct (v <? 0); cint..|].
  rewrite bind_ret, !CHECK_OVERFLOW_U_u32, !u32_id, halves_c64, Hx by cint.
  rewrite (opaque_datalength _ _ _ _ Hdl Hlen Hn), (opaque_end _ ASN_OPAQUE_I64 _ Hlen).
  do 4 f_equal. rewrite <- Hval at 4. rewrite Hneg. destruct (v <? 0); [|done].
  destruct (int_octets v) as [|c l']; [cbn in Hsz; lia|].
  apply (u64_be_val (_ * 2 ^ 8 + c) (_ * 2 ^ 8 + c) l'). unfold halves. cint.
Qed.

(** ** Strings, NULL and floating point *)

Lemma u64_datalength_string dl n data h :
  is_u64 dl -> 0 <= n -> 0 <= h -> h + n <= dl -> u64 (dl - (n + (data + h - data))) = dl - (h + n).
Proof. intros. rewrite u64_sub by (done || lia). lia. Qed.

Lemma asn_parse_string_spec m data dl type s strlength :
  is_u64 dl -> len_ok (Z.of_nat (length s)) -> is_string_type type = true ->
  Z.of_nat (length s) <= strlength ->
  bytes_at m data (tlv type s) -> let n := Z.of_nat (length (tlv type s)) in n <= dl ->
  asn_parse_string m data dl strlength = Ret (data + n, type, s, dl - n).
Proof.
  intros Hdl Hlen Ht Hcap Hat n Hn. unfold asn_parse_string.
  rewrite (parse_checked_tlv m data dl _ _ Hlen Hat Hn).
  apply tlv_at in Hat as (-> & _ & Hat). rewrite bind_ret.
  replace (negb (type =? ASN_OCTET_STR) && _ && _ && _) with false.
  2:{ unfold is_string_type in Ht. by destruct (_ =? ASN_OCTET_STR), (_ =? ASN_IPADDRESS),
        (_ =? ASN_OPAQUE), (_ =? ASN_NSAP). }
  rewrite bind_ret. destruct (Z.ltb_spec strlength (Z.of_nat (length s))); [lia|].
  rewrite Nat2Z.id, (rd_n_bytes_at _ _ _ Hat), bind_ret. subst n. rewrite length_tlv in *.
  pose proof (hdr_len_bound (Z.of_nat (length s))).
  rewrite u64_datalength_string, object_end by (done || lia). done.
Qed.

Lemma asn_parse_null_spec m data dl type :
  is_u64 dl -> bytes_at m data (tlv type []) -> 2 <= dl ->
  asn_parse_null m data dl = Ret (data + 2, type, dl - 2).
Proof.
  intros Hdl (Ht & Hl & _)%tlv_at Hn. unfold asn_parse_null. rewrite Ht, bind_ret.
  rewrite (parse_len_octets m (data + 1) 0) by done. rewrite bind_ret. cbn [Z.eqb negb].
  change (Z.of_nat (length (len_octets 0))) with 1. rewrite u64_sub by (done || lia).
  do 3 f_equal; lia.
Qed.

Lemma asn_parse_bitstring_spec m data dl b s strlength :
  is_u64 dl -> len_ok (Z.of_nat (length (b :: s))) -> Z.of_nat (length (b :: s)) <= strlength ->
  bytes_at m data (tlv ASN_BIT_STR (b :: s)) ->
  let n := Z.of_nat (length (tlv ASN_BIT_STR (b :: s))) in n <= dl ->
  asn_parse_bitstring m data dl strlength = Ret (data + n, ASN_BIT_STR, b :: s, dl - n).
Proof.
  intros Hdl Hlen Hcap Hat n Hn. unfold asn_parse_bitstring.
  rewrite (parse_checked_tlv m data dl _ _ Hlen Hat Hn).
  apply tlv_at in Hat as (-> & _ & Hat). rewrite bind_ret, Z.eqb_refl. cbn [negb]. rewrite bind_ret.
  destruct (Z.ltb_spec strlength (Z.of_nat (length (b :: s)))); [lia|].
  pose proof Hat as [Hb _]. rewrite Hb, bind_ret. unfold _asn_bitstring_check.
  destruct (Z.ltb_spec (Z.of_nat (length (b :: s))) 1); [cbn in *; lia|].
  rewrite Nat2Z.id, (rd_n_bytes_at _ _ _ Hat), bind_ret. subst n. rewrite length_tlv in *.
  pose proof (hdr_len_bound (Z.of_nat (length (b :: s)))).
  rewrite datalength_after, object_end by (done || lia). done.
Qed.

Lemma ntohl_le_val c : bytes_ok c -> length c = 4%nat -> ntohl (le_val c) = be_val 0 c.
Proof.
  intros Hc Hl. unfold ntohl, le_val. replace 4%nat with (length (rev c)) by (by rewrite length_rev).
  by rewrite be_bytes_be_val, rev_involutive by by apply Forall_rev.
Qed.

(** The unwrapping of a float or a double finds the value. *)
Lemma opaque_unwrap_spec m data dl special content ber_len :
  (length content <= 100)%nat ->
  bytes_at m data (tlv ASN_OPAQUE (opaque_wrap special content)) ->
  Z.of_nat (length (tlv ASN_OPAQUE (opaque_wrap special content))) <= dl ->
  ber_len = 3 + Z.of_nat (length content) ->
  opaque_unwrap m data dl special ber_len ASN_OPAQUE (data + 2)
    (Z.of_nat (length (opaque_wrap special content)))
  = Ret (special, data + 5, Z.of_nat (length content)).
Proof.
  intros Hlen Hat Hn ->. destruct (opaque_inside _ _ _ _ Hlen Hat) as (H1 & H2 & _ & _).
  unfold opaque_unwrap. rewrite length_wrapped, !Z.eqb_refl by done. cbn [andb].
  rewrite H1, bind_ret, Z.eqb_refl, H2, bind_ret, Z.eqb_refl.
  by rewrite (opaque_inner _ _ _ _ _ Hlen Hat Hn), bind_ret.
Qed.

Lemma asn_parse_float_spec m data dl f :
  is_u64 dl -> is_u32 f ->
  let enc := tlv ASN_OPAQUE (opaque_wrap ASN_OPAQUE_FLOAT (be_bytes 4 f)) in
  bytes_at m data enc -> let n := Z.of_nat (length enc) in n <= dl ->
  asn_parse_float m data dl sizeof_float = Ret (data + 5, ASN_OPAQUE_FLOAT, f, dl - n).
Proof.
  intros Hdl Hf enc Hat n Hn.
  assert (Hlen : (length (be_bytes 4 f) <= 100)%nat) by (rewrite length_be_bytes; lia).
  destruct (opaque_inside _ _ _ _ Hlen Hat) as (_ & _ & _ & H4).
  unfold asn_parse_float. rewrite Z.eqb_refl. cbn [negb].
  rewrite (opaque_tag _ _ ASN_OPAQUE_FLOAT _ Hat), bind_ret, (opaque_outer _ _ _ ASN_OPAQUE_FLOAT _ Hlen Hat Hn), bind_ret.
  rewrite opaque_unwrap_spec by (done || by rewrite length_be_bytes). rewrite bind_ret, Z.eqb_refl.
  rewrite (length_be_bytes 4 f) at 1. change (Z.of_nat 4 =? sizeof_float) with true. cbn [negb].
  rewrite Nat2Z.id, (rd_n_bytes_at _ _ _ H4), bind_ret, (opaque_datalength _ _ ASN_OPAQUE_FLOAT _ Hdl Hlen Hn).
  rewrite ntohl_le_val, be_val_mod by (apply be_bytes_ok || done).
  rewrite (Z.mod_small f) by done. done.
Qed.

Lemma asn_parse_double_spec m data dl d :
  is_u64 dl -> is_u64 d ->
  let enc := tlv ASN_OPAQUE (opaque_wrap ASN_OPAQUE_DOUBLE (be_bytes 8 d)) in
  bytes_at m data enc -> let n := Z.of_nat (length enc) in n <= dl ->
  asn_parse_double m data dl sizeof_double = Ret (data + 5, ASN_OPAQUE_DOUBLE, d, dl - n).
Proof.
  intros Hdl Hd enc Hat n Hn.
  assert (Hlen : (length (be_bytes 8 d) <= 100)%nat) by (rewrite length_be_bytes; lia).
  destruct (opaque_inside _ _ _ _ Hlen Hat) as (_ & _ & _ & H4).
  unfold asn_parse_double. rewrite Z.eqb_refl. cbn [negb].
  rewrite (opaque_tag _ _ ASN_OPAQUE_DOUBLE _ Hat), bind_ret, (opaque_outer _ _ _ ASN_OPAQUE_DOUBLE _ Hlen Hat Hn), bind_ret.
  rewrite opaque_unwrap_spec by (done || by rewrite length_be_bytes). rewrite bind_ret, Z.eqb_refl.
  rewrite (length_be_bytes 8 d) at 1. change (Z.of_nat 8 =? sizeof_double) with true. cbn [negb].
  rewrite Nat2Z.id, (rd_n_bytes_at _ _ _ H4), bind_ret, (opaque_datalength _ _ ASN_OPAQUE_DOUBLE _ Hdl Hlen Hn).
  rewrite be_bytes_split. rewrite take_app_length', drop_app_length' by done.
  rewrite !ntohl_le_val, !be_val_mod by (apply be_bytes_ok || done).
  change (2 ^ (8 * Z.of_nat 4)) with (2 ^ 32). do 3 f_equal. cint.
Qed.

(** ** Object identifiers *)

Lemma land_low7 b : is_u8 b -> Z.land b (Z.lnot ASN_BIT8) = b mod 128.
Proof.
  intros Hb. change 128 with (2 ^ 7). rewrite <- land_low by lia.
  apply Z.bits_inj'. intros i Hi. rewrite !Z.land_spec.
  destruct (decide (i < 8)) as [H8|H8].
  - f_equal. assert (i = 0 \/ i = 1 \/ i = 2 \/ i = 3 \/ i = 4 \/ i = 5 \/ i = 6 \/ i = 7)
      as [->|[->|[->|[->|[->|[->|[->| ->]]]]]]] by lia; done.
  - rewrite <- (Z.mod_small b (2 ^ 8)), Z.mod_pow2_bits_high by (done || lia). done.
Qed.

Lemma objid_subid_S m bufp k acc :
  objid_subid m bufp (S k) acc =
  b ← rd m bufp;
  let acc := u64 (u64 (Z.shiftl acc 7) + Z.land b (Z.lnot ASN_BIT8)) in
  if negb (Z.land b ASN_BIT8 =? 0) && (0 <? k)%nat then objid_subid m (bufp + 1) k acc
  else Ret (bufp + 1, k, acc).
Proof. done. Qed.

(** One group-coded value, followed or not by more bytes. *)
Lemma objid_subid_spec m p n v more acc :
  bytes_at m p (b128 (S n) v) ->
  objid_subid m p (S n + more) acc
  = Ret (p + Z.of_nat (S n), more, u64 (acc * 2 ^ (7 * Z.of_nat (S n)) + v mod 2 ^ (7 * Z.of_nat (S n)))).
Proof.
  revert p acc. induction n as [|n IH]; intros p acc Hat.
  - destruct Hat as [Hrd _]. cbn [Nat.add]. rewrite objid_subid_S, Hrd, bind_ret.
    rewrite Z.div_1_r in *. set (g := v mod 2 ^ 7) in *.
    assert (Hg : 0 <= g < 128) by (apply Z.mod_pos_bound; lia).
    unfold ASN_BIT8 at 2. rewrite land_bit8 by cint.
    destruct (Z.ltb_spec g 128); [|lia]. cbn [negb andb].
    rewrite land_low7, (Z.mod_small g), shl_mul by (done || cint).
    change (7 * Z.of_nat 1) with 7. fold g. apply f_equal, f_equal2; [done|].
    change (2 ^ 7) with 128. cint.
  - change (b128 (S (S n)) v)
      with ((v / 2 ^ (7 * Z.of_nat (S n))) mod 2 ^ 7 + 128 :: b128 (S n) v) in Hat.
    destruct Hat as [Hrd Hat]. cbn [Nat.add]. rewrite objid_subid_S, Hrd, bind_ret.
    set (g := (v / 2 ^ (7 * Z.of_nat (S n))) mod 2 ^ 7) in *.
    assert (Hg : 0 <= g < 128) by (apply Z.mod_pos_bound; lia).
    unfold ASN_BIT8 at 2. rewrite land_bit8 by cint.
    destruct (Z.ltb_spec (g + 128) 128); [lia|]. cbn [negb andb]. change (0 <? S (n + more))%nat with true.
    cbv iota zeta. specialize (fun acc => IH (p + 1) acc Hat) as IH'. cbn [Nat.add] in IH'. rewrite IH'.
    rewrite land_low7 by cint. replace ((g + 128) mod 128) with g by (Z.div_mod_to_equations; lia).
    apply f_equal, f_equal2; [f_equal; lia|]. rewrite shl_mul by lia.
    replace (7 * Z.of_nat (S (S n))) with (7 + 7 * Z.of_nat (S n)) by lia.
    rewrite Z.pow_add_r by lia. set (w := 2 ^ (7 * Z.of_nat (S n))) in *.
    assert (0 < w) by (apply Z.pow_pos_nonneg; lia).
    rewrite (Z.mul_comm (2 ^ 7) w), Z.rem_mul_r by lia. fold g.
    assert (E : u64 (u64 (acc * 2 ^ 7) + g) = u64 (acc * 2 ^ 7 + g)) by cint.
    rewrite E. unfold u64. rewrite <- Z.add_mod_idemp_l, Z.mul_mod_idemp_l, Z.add_mod_idemp_l by lia.
    f_equal. ring.
Qed.

Lemma objid_subid_octets m p v more :
  is_u32 v -> bytes_at m p (sub_octets v) ->
  objid_subid m p (sub_size v + more) 0 = Ret (p + Z.of_nat (sub_size v), more, v).
Proof.
  intros Hv Hat. unfold sub_octets in Hat. pose proof (sub_size_bound v).
  pose proof (sub_size_fits v Hv) as Hfit. destruct (sub_size v) as [|n]; [lia|].
  rewrite (objid_subid_spec m p n v) by done. rewrite Z.mod_small by (unfold is_u32 in Hv; lia).
  do 2 f_equal. cint.
Qed.

Lemma b128_last m p n v :
  bytes_at m p (b128 (S n) v) -> rd m (p + Z.of_nat n) = Ret (v mod 2 ^ 7).
Proof.
  revert p. induction n as [|n IH]; intros p Hat.
  - destruct Hat as [Hrd _]. by rewrite Z.add_0_r, Hrd, Z.div_1_r.
  - change (b128 (S (S n)) v)
      with ((v / 2 ^ (7 * Z.of_nat (S n))) mod 2 ^ 7 + 128 :: b128 (S n) v) in Hat.
    destruct Hat as [_ Hat]. rewrite <- (IH _ Hat). f_equal. lia.
Qed.

Lemma objid_loop_S fuel m cap bufp length room objid :
  objid_loop (S fuel) m cap bufp length room objid =
  if (0 <? length)%nat && (0 <? room) then
    '(bufp, length, subidentifier) ← objid_subid m bufp length 0;
    bad ← (if (length =? 0)%nat
           then last_byte ← rd m (bufp - 1); Ret (negb (Z.land last_byte ASN_BIT8 =? 0))
           else Ret false);
    if (bad : bool) then Null
    else if MAX_SUBID <? subidentifier then Null
    else if cap <=? Z.of_nat (List.length objid) + 1 then Overrun
    else objid_loop fuel m cap bufp length (u64 (room - 1)) (objid ++ [subidentifier])
  else Ret (bufp, length, objid).
Proof. done. Qed.

(** The test that the last byte of the object ends a subidentifier passes. *)
Lemma last_byte_ok m p v :
  bytes_at m p (sub_octets v) ->
  (last_byte ← rd m (p + Z.of_nat (sub_size v) - 1); Ret (negb (Z.land last_byte ASN_BIT8 =? 0)))
  = Ret false.
Proof.
  unfold sub_octets. pose proof (sub_size_bound v). destruct (sub_size v) as [|n]; [lia|].
  intros Hat. replace (p + Z.of_nat (S n) - 1) with (p + Z.of_nat n) by lia.
  rewrite (b128_last _ _ _ _ Hat), bind_ret. unfold ASN_BIT8.
  pose proof (Z.mod_pos_bound v (2 ^ 7)). rewrite land_bit8 by cint.
  by destruct (Z.ltb_spec (v mod 2 ^ 7) 128); [|lia].
Qed.

Lemma objid_loop_spec m cap vs fuel p room acc :
  Forall is_u32 vs -> bytes_at m p (concat (map sub_octets vs)) ->
  let n := length (concat (map sub_octets vs)) in
  (n <= fuel)%nat -> is_u64 room -> Z.of_nat (length vs) <= room ->
  Z.of_nat (length acc + length vs) < cap ->
  objid_loop fuel m cap p n room acc = Ret (p + Z.of_nat n, O, acc ++ vs).
Proof.
  intros Hvs. revert fuel p room acc.
  induction Hvs as [|v vs Hv Hvs IH]; intros fuel p room acc; cbn [map concat length].
  { intros _ _ _ _ _. rewrite Z.add_0_r, app_nil_r. destruct fuel; done. }
  rewrite length_app, length_sub_octets. intros Hat Hfuel Hroom Hr Hcap.
  apply bytes_at_app in Hat as [Hat1 Hat2]. rewrite length_sub_octets in Hat2.
  pose proof (sub_size_bound v). set (n := length (concat (map sub_octets vs))) in *.
  destruct fuel as [|fuel]; [lia|]. rewrite objid_loop_S.
  destruct (Nat.ltb_spec 0 (sub_size v + n)); [|lia]. destruct (Z.ltb_spec 0 room); [|lia].
  cbn [andb]. rewrite (objid_subid_octets m p v n) by done. rewrite bind_ret.
  replace (if (n =? 0)%nat then _ else _) with (Ret false)
    by (rewrite last_byte_ok by done; by destruct (n =? 0)%nat).
  rewrite bind_ret. destruct (Z.ltb_spec MAX_SUBID v); [unfold MAX_SUBID in *; cint|].
  destruct (Z.leb_spec cap (Z.of_nat (length acc) + 1)); [lia|].
  rewrite u64_sub, IH by (done || rewrite ?length_app; cbn [length]; unfold is_u64 in *; lia).
  rewrite <- app_assoc. do 3 f_equal. lia.
Qed.

Lemma asn_parse_objid_spec m data dl l cap :
  is_u64 dl -> is_u64 cap -> oid_ok l -> Z.of_nat (length l) <= cap ->
  bytes_at m data (tlv ASN_OBJECT_ID (oid_octets l)) ->
  let n := Z.of_nat (length (tlv ASN_OBJECT_ID (oid_octets l))) in n <= dl ->
  asn_parse_objid m data dl cap = Ret (data + n, ASN_OBJECT_ID, l, dl - n).
Proof.
  intros Hdl Hcap Hok Hl Hat n Hn. pose proof (oid_octets_len_ok l Hok) as Hlen.
  unfold asn_parse_objid. rewrite (parse_checked_tlv m data dl _ _ Hlen Hat Hn).
  apply tlv_at in Hat as (-> & _ & Hat). rewrite bind_ret, Z.eqb_refl. cbn [negb]. rewrite bind_ret.
  subst n. rewrite length_tlv in *. pose proof (hdr_len_bound (Z.of_nat (length (oid_octets l)))).
  rewrite datalength_after by (done || lia).
  destruct l as [|x [|y rest]]; try done. cbn [oid_ok] in Hok.
  destruct Hok as (Hx & Hy & Hxy & Hsum & Hrest & Hmax). cbn [length] in Hl.
  set (first := x * 40 + y) in *.
  assert (Hoct : oid_octets (x :: y :: rest) = concat (map sub_octets (first :: rest))) by done.
  rewrite Hoct in *. set (oct := concat (map sub_octets (first :: rest))) in *.
  destruct (Z.ltb_spec cap 2); [lia|]. rewrite andb_false_r, Nat2Z.id.
  rewrite (objid_loop_spec m cap (first :: rest)); [|constructor; [cint|done]|done|unfold oct; lia| | |].
  2:{ apply u64_range. }
  2:{ rewrite u64_id by cint. cbn [length]. lia. }
  2:{ cbn [length]. lia. }
  rewrite bind_ret. cbn [app Nat.eqb negb]. fold oct. rewrite object_end.
  assert (Hsplit : (if first =? 0x2B then (1, 3)
    else if first <? 40 then (0, first)
    else if first <? 80 then (1, first - 40) else (2, first - 80)) = (x, y)).
  { destruct (Z.eqb_spec first 0x2B); [f_equal; lia|].
    destruct (Z.ltb_spec first 40); [f_equal; lia|].
    destruct (Z.ltb_spec first 80); f_equal; lia. }
  by rewrite Hsplit.
Qed.
