(* ===== verification/AsnRbuild.v ===== *)
(** * The reverse, re-allocating builders of snmplib/asn1.c

    These builders fill a packet buffer from its end towards its start and
    may ask [realloc] for a larger one.  [Null] is the return value 0 (what a
    failing call leaves in the buffer is not modelled), [Overrun] a store
    outside the buffer. *)

From S2P Require Import Prelude Bytes AsnTypes AsnParse AsnBuild.

(** ** The packet buffer and its growth *)

(** [*pkt] (with [*pkt_len] its length) and [*offset]. *)
Record rbuf := { pkt : list Z; offset : Z }.

Definition pkt_len (s : rbuf) : Z := Z.of_nat (length (pkt s)).

(** [realloc] belongs to the C library: [alloc n] tells whether it can give
    [n] bytes; no object is larger than [PTRDIFF_MAX]. *)
Class Allocator := {
  alloc : Z -> bool;
  alloc_bound : forall n, alloc n = true -> n < 2 ^ 63;
}.

(** The size [snmp_realloc] asks for. *)
Definition snmp_realloc_size (buf_len : Z) : Z :=
  if buf_len <=? 255 then buf_len + 256
  else if (255 <? buf_len) && (buf_len <=? 8191) then buf_len * 2
  else buf_len + 8192.

Section rbuild.
Context `{Allocator}.
(** The argument [r]: whether the buffer may be re-allocated. *)
Context (r : bool).

(** The old contents move to the end of the new buffer, the front is filled
    with blanks; [*offset] counts from the end and stays. *)
Definition asn_realloc (s : rbuf) : outcome rbuf :=
  let old_pkt_len := pkt_len s in
  let new_pkt_len := snmp_realloc_size old_pkt_len in
  if alloc new_pkt_len then
    Ret {| pkt := replicate (Z.to_nat (new_pkt_len - old_pkt_len)) 32 ++ pkt s;
           offset := offset s |}
  else Null.

(** [if (( *pkt_len - *offset) < 1 && !(r && asn_realloc(pkt, pkt_len))) return 0;] *)
Definition rb_room1 (s : rbuf) : outcome rbuf :=
  if u64 (pkt_len s - offset s) <? 1 then (if r then asn_realloc s else Null) else Ret s.

(** [while (( *pkt_len - *offset) < n) if (!(r && asn_realloc(pkt, pkt_len))) return 0;]
    Each turn gains 256 bytes at least. *)
Fixpoint rb_room_loop (fuel : nat) (n : Z) (s : rbuf) : outcome rbuf :=
  if u64 (pkt_len s - offset s) <? n then
    match fuel with
    | O => Spin
    | S fuel => if r then s ← asn_realloc s; rb_room_loop fuel n s else Null
    end
  else Ret s.

Definition rb_room (n : Z) (s : rbuf) : outcome rbuf :=
  rb_room_loop (S (Z.to_nat (n / 256))) n s.

(** [*( *pkt + *pkt_len - (++*offset)) = b] *)
Definition rb_put (b : Z) (s : rbuf) : outcome rbuf :=
  let offset := offset s + 1 in
  let i := pkt_len s - offset in
  if (0 <=? i) && (i <? pkt_len s)
  then Ret {| pkt := <[Z.to_nat i := b]> (pkt s); offset := offset |}
  else Overrun.

Definition rb_push (b : Z) (s : rbuf) : outcome rbuf := s ← rb_room1 s; rb_put b s.

(** [*offset += strlength; memcpy( *pkt + *pkt_len - *offset, str, strlength)] *)
Definition rb_copy (str : list Z) (s : rbuf) : outcome rbuf :=
  let offset := offset s + Z.of_nat (length str) in
  let i := pkt_len s - offset in
  if 0 <=? i
  then Ret {| pkt := take (Z.to_nat i) (pkt s) ++ str ++ drop (Z.to_nat (i + Z.of_nat (length str))) (pkt s);
              offset := offset |}
  else Overrun.

(** The byte written last, [*( *pkt + *pkt_len - *offset)]. *)
Definition rb_first (s : rbuf) : outcome Z := rd (pkt s) (pkt_len s - offset s).

Definition _asn_realloc_build_header_check (s : rbuf) (typedlen : Z) : bool :=
  pkt_len s <? typedlen.

(** ** Lengths and headers *)

(** [while (length > 0xff)] *)
Fixpoint rbuild_length_loop (fuel : nat) (length : Z) (s : rbuf) : outcome (Z * rbuf) :=
  if 0xff <? length then
    match fuel with
    | O => Spin
    | S fuel =>
        s ← rb_push (Z.land length 0xff) s;
        rbuild_length_loop fuel (Z.shiftr length 8) s
    end
  else Ret (length, s).

Definition asn_realloc_rbuild_length (length : Z) (s : rbuf) : outcome rbuf :=
  let start_offset := offset s in
  if length <=? 0x7f then rb_push (u8 length) s
  else
    '(length, s) ← rbuild_length_loop 8 length s;
    s ← rb_room 2 s;
    s ← rb_put (Z.land length 0xff) s;
    let tmp_int := s32 (offset s - start_offset) in
    rb_put (u8 (Z.lor tmp_int 0x80)) s.

Definition asn_realloc_rbuild_header (type length : Z) (s : rbuf) : outcome rbuf :=
  s ← asn_realloc_rbuild_length length s;
  rb_push type s.

Definition asn_realloc_rbuild_sequence (type length : Z) (s : rbuf) : outcome rbuf :=
  asn_realloc_rbuild_header type length s.

(** The header of what was written since [start_offset], then the check. *)
Definition rbuild_finish (type start_offset : Z) (s : rbuf) : outcome rbuf :=
  s' ← asn_realloc_rbuild_header type (offset s - start_offset) s;
  if _asn_realloc_build_header_check s' (offset s' - start_offset) then Null else Ret s'.

(** ** Integers *)

(** [while (integer != testvalue)] store the low byte, [integer >>= 8]. *)
Fixpoint rbuild_int_loop (fuel : nat) (testvalue integer : Z) (s : rbuf) : outcome rbuf :=
  if integer =? testvalue then Ret s
  else
    match fuel with
    | O => Spin
    | S fuel =>
        s ← rb_push (u8 integer) s;
        rbuild_int_loop fuel testvalue (Z.shiftr integer 8) s
    end.

(** The byte that makes the sign of the contents that of the value. *)
Definition rbuild_sign (testvalue pad : Z) (s : rbuf) : outcome rbuf :=
  b ← rb_first s;
  if negb (Z.land b 0x80 =? Z.land testvalue 0x80) then rb_push pad s else Ret s.

Definition asn_realloc_rbuild_int (type integer intsize : Z) (s : rbuf) : outcome rbuf :=
  let start_offset := offset s in
  if negb (intsize =? sizeof_long) then Null
  else
    let integer := CHECK_OVERFLOW_S integer in
    let testvalue := if integer <? 0 then -1 else 0 in
    s ← rb_push (u8 integer) s;
    s ← rbuild_int_loop 8 testvalue (Z.shiftr integer 8) s;
    s ← rbuild_sign testvalue (Z.land testvalue 0xff) s;
    rbuild_finish type start_offset s.

Definition asn_realloc_rbuild_unsigned_int (type integer intsize : Z) (s : rbuf) : outcome rbuf :=
  let start_offset := offset s in
  if negb (intsize =? sizeof_long) then Null
  else
    let integer := CHECK_OVERFLOW_U integer in
    s ← rb_push (u8 integer) s;
    s ← rbuild_int_loop 8 0 (Z.shiftr integer 8) s;
    s ← rbuild_sign 0 0 s;
    rbuild_finish type start_offset s.

(** ** Strings and NULL *)

Definition asn_realloc_rbuild_string (type : Z) (str : mem) (strlength : Z) (s : rbuf) : outcome rbuf :=
  s ← rb_room strlength s;
  content ← rd_n str 0 (Z.to_nat strlength);
  s ← rb_copy content s;
  s ← asn_realloc_rbuild_header type strlength s;
  if _asn_realloc_build_header_check s strlength then Null else Ret s.

Definition asn_realloc_rbuild_bitstring (type : Z) (str : mem) (strlength : Z) (s : rbuf) : outcome rbuf :=
  s ← rb_room strlength s;
  content ← rd_n str 0 (Z.to_nat strlength);
  s ← rb_copy content s;
  s ← asn_realloc_rbuild_header type strlength s;
  if _asn_realloc_build_header_check s strlength then Null else Ret s.

Definition asn_realloc_rbuild_null (type : Z) (s : rbuf) : outcome rbuf :=
  asn_realloc_rbuild_header type 0 s.

(** ** Object identifiers *)

(** [while (tmpint > 0)] store [(tmpint & 0x7f) | 0x80], [tmpint >>= 7]. *)
Fixpoint rbuild_groups (fuel : nat) (tmpint : Z) (s : rbuf) : outcome rbuf :=
  if 0 <? tmpint then
    match fuel with
    | O => Spin
    | S fuel =>
        s ← rb_push (Z.lor (Z.land tmpint 0x7f) 0x80) s;
        rbuild_groups fuel (Z.shiftr tmpint 7) s
    end
  else Ret s.

(** One subidentifier: the last group, then the others. *)
Definition rbuild_subid (tmpint : Z) (s : rbuf) : outcome rbuf :=
  s ← rb_push (Z.land (u8 tmpint) 0x7f) s;
  rbuild_groups 10 (Z.shiftr tmpint 7) s.

(** [for (i = objidlength; i > 2; i--)] *)
Fixpoint rbuild_subids (n : nat) (objid : list Z) (s : rbuf) : outcome rbuf :=
  match n with
  | O => Ret s
  | S n =>
      tmpint ← rd objid (2 + Z.of_nat n);
      s ← rbuild_subid (CHECK_OVERFLOW_U tmpint) s;
      rbuild_subids n objid s
  end.

Definition asn_realloc_rbuild_objid (type : Z) (objid : list Z) (objidlength : Z) (s : rbuf)
    : outcome rbuf :=
  let start_offset := offset s in
  s ← (if objidlength =? 0 then
         s ← rb_room 2 s; s ← rb_put 0 s; rb_put 0 s
       else
         objid0 ← rd objid 0;
         if 2 <? objid0 then Null
         else if objidlength =? 1 then rb_push (u8 objid0) s
         else
           s ← rbuild_subids (Z.to_nat (objidlength - 2)) objid s;
           objid1 ← rd objid 1;
           if (40 <? objid1) && (objid0 <? 2) then Null
           else rbuild_subid (u64 (u64 (objid0 * 40) + objid1)) s);
  rbuild_finish type start_offset s.

(** ** 64-bit values *)

(** [for (; count < 4; count++)] store [pad]. *)
Definition rbuild_pad (count : Z) (pad : Z) (s : rbuf) : outcome rbuf :=
  (fix go (n : nat) (s : rbuf) : outcome rbuf :=
     match n with
     | O => Ret s
     | S n => s ← rb_push pad s; go n s
     end) (Z.to_nat (4 - count)) s.

(** [while (low != 0) { count++; .. }] *)
Fixpoint rbuild_low_u (fuel : nat) (count low : Z) (s : rbuf) : outcome (Z * rbuf) :=
  if low =? 0 then Ret (count, s)
  else
    match fuel with
    | O => Spin
    | S fuel =>
        s ← rb_push (u8 low) s;
        rbuild_low_u fuel (count + 1) (Z.shiftr low 8) s
    end.

(** The wrapper of a special value: its length, its tag, [ASN_OPAQUE_TAG1]. *)
Definition rbuild_opaque (special intsize : Z) (s : rbuf) : outcome rbuf :=
  s ← rb_put (u8 intsize) s;
  s ← rb_put special s;
  s ← rb_put ASN_OPAQUE_TAG1 s;
  s ← asn_realloc_rbuild_header ASN_OPAQUE (intsize + 3) s;
  if _asn_realloc_build_header_check s (intsize + 3) then Null else Ret s.

Definition asn_realloc_rbuild_unsigned_int64 (type : Z) (cp : counter64) (countersize : Z)
    (s : rbuf) : outcome rbuf :=
  let start_offset := offset s in
  if negb (countersize =? sizeof_counter64) then Null
  else
    let high := CHECK_OVERFLOW_U (high cp) in
    let low := CHECK_OVERFLOW_U (low cp) in
    s ← rb_push (u8 low) s;
    '(count, s) ← rbuild_low_u 8 1 (Z.shiftr low 8) s;
    s ← (if negb (high =? 0) then
           s ← rbuild_pad count 0 s;
           s ← rb_push (u8 high) s;
           rbuild_int_loop 8 0 (Z.shiftr high 8) s
         else Ret s);
    s ← rbuild_sign 0 0 s;
    let intsize := offset s - start_offset in
    if (type =? ASN_OPAQUE_COUNTER64) || (type =? ASN_OPAQUE_U64) then
      s ← rb_room 5 s;
      rbuild_opaque type intsize s
    else
      s ← asn_realloc_rbuild_header type intsize s;
      if _asn_realloc_build_header_check s intsize then Null else Ret s.

(** [while ((int) low != testvalue && count < 4)] *)
Fixpoint rbuild_low_s (fuel : nat) (testvalue count low : Z) (s : rbuf) : outcome (Z * rbuf) :=
  if negb (s32 low =? testvalue) && (count <? 4) then
    match fuel with
    | O => Spin
    | S fuel =>
        s ← rb_push (u8 low) s;
        rbuild_low_s fuel testvalue (count + 1) (Z.shiftr low 8) s
    end
  else Ret (count, s).

(** [while ((int) high != testvalue)] *)
Fixpoint rbuild_high_s (fuel : nat) (testvalue high : Z) (s : rbuf) : outcome rbuf :=
  if s32 high =? testvalue then Ret s
  else
    match fuel with
    | O => Spin
    | S fuel =>
        s ← rb_push (u8 high) s;
        rbuild_high_s fuel testvalue (Z.shiftr high 8) s
    end.

(** [fuel] bounds the turns of the last loop only. *)
Definition asn_realloc_rbuild_signed_int64 (fuel : nat) (type : Z) (cp : counter64)
    (countersize : Z) (s : rbuf) : outcome rbuf :=
  let low := s64 (low cp) in
  let high := s64 (high cp) in
  let start_offset := offset s in
  let testvalue := if negb (Z.land high 0x80000000 =? 0) then -1 else 0 in
  let pad := if testvalue =? 0 then 0 else 0xff in
  if negb (countersize =? sizeof_counter64) then Null
  else
    let high := CHECK_OVERFLOW_S high in
    let low := CHECK_OVERFLOW_U low in
    s ← rb_push (u8 low) s;
    '(count, s) ← rbuild_low_s 4 testvalue 1 (Z.shiftr low 8) s;
    s ← (if negb (high =? testvalue) then
           s ← rbuild_pad count pad s;
           s ← rb_push (u8 high) s;
           rbuild_high_s fuel testvalue (Z.shiftr high 8) s
         else Ret s);
    s ← rbuild_sign testvalue pad s;
    let intsize := offset s - start_offset in
    s ← rb_room 5 s;
    rbuild_opaque ASN_OPAQUE_I64 intsize s.

(** ** Floating point *)

Definition asn_realloc_rbuild_float (type float_bits floatsize : Z) (s : rbuf) : outcome rbuf :=
  if negb (floatsize =? sizeof_float) || (122 <? floatsize) then Null
  else
    s ← rb_room (floatsize + 3) s;
    let intVal := htonl float_bits in
    s ← rb_copy (le_bytes 4 intVal) s;
    rbuild_opaque ASN_OPAQUE_FLOAT floatsize s.

Definition asn_realloc_rbuild_double (type double_bits doublesize : Z) (s : rbuf) : outcome rbuf :=
  if negb (doublesize =? sizeof_double) || (122 <? doublesize) then Null
  else
    s ← rb_room (doublesize + 3) s;
    let intVal0 := u32 double_bits in
    let intVal1 := double_bits / 2 ^ 32 in
    let tmp := htonl intVal0 in
    let intVal0 := htonl intVal1 in
    let intVal1 := tmp in
    s ← rb_copy (le_bytes 4 intVal0 ++ le_bytes 4 intVal1) s;
    rbuild_opaque ASN_OPAQUE_DOUBLE doublesize s.
End rbuild.
