(* ===== verification/AsnRbuildSpec.v ===== *)
(** * What the reverse builders write

    A reverse builder puts bytes in front of those already in the packet.
    [wr n m s l] is the judgement the whole file is about: the run [m], started
    in [s], either puts [l] in front of what [s] held, or reports failure
    because [n] more bytes were refused.  It never leaves the buffer and never
    spins.  The builders write the same encodings as the forward ones. *)

From S2P Require Import Prelude Bytes AsnTypes AsnParse AsnBuild AsnBuildSpec AsnRbuild.

(** The buffer is well formed: no more written than there is room, and within
    the largest object of the platform. *)
Definition rb_ok (s : rbuf) : Prop := 0 <= offset s <= pkt_len s /\ pkt_len s < 2 ^ 63.

(** What has been written: the last [offset] bytes. *)
Definition written (s : rbuf) : list Z := drop (Z.to_nat (pkt_len s - offset s)) (pkt s).

Lemma length_written s : rb_ok s -> Z.of_nat (length (written s)) = offset s.
Proof. unfold rb_ok, written, pkt_len. intros. rewrite length_drop. lia. Qed.

Lemma written_eq s p off :
  pkt s = p -> offset s = off -> written s = drop (length p - Z.to_nat off) p.
Proof.
  intros <- <-. unfold written, pkt_len. destruct (decide (0 <= offset s)).
  - f_equal. lia.
  - rewrite !drop_ge by lia. done.
Qed.

Lemma snmp_realloc_size_bounds n : 0 <= n -> n + 256 <= snmp_realloc_size n <= n + 8192.
Proof.
  unfold snmp_realloc_size. intros.
  destruct (Z.leb_spec n 255), (Z.ltb_spec 255 n), (Z.leb_spec n 8191); cbn; lia.
Qed.

Section judgement.
Context `{Allocator} (r : bool).

(** [n] more bytes cannot be had: a fixed buffer is too small for them, or
    [realloc] refused a size of at most 8192 more than needed. *)
Definition refused (s : rbuf) (n : Z) : Prop :=
  if r then exists k, alloc k = false /\ k < offset s + n + 8192
  else pkt_len s < offset s + n.

Definition wr (n : Z) (m : outcome rbuf) (s : rbuf) (l : list Z) : Prop :=
  (exists s', m = Ret s' /\ rb_ok s' /\ written s' = l ++ written s
              /\ (r = false -> pkt_len s' = pkt_len s))
  \/ (m = Null /\ refused s n).

Lemma refused_mono s n n' : n <= n' -> refused s n -> refused s n'.
Proof using Type.
  unfold refused. destruct r; [intros ? (k & ? & ?); exists k; split; [done|lia]|lia].
Qed.

Lemma wr_mono n n' m s l : n <= n' -> wr n m s l -> wr n' m s l.
Proof using Type. intros Hn [?|[? ?]]; [by left|right; split; [done|by eapply refused_mono]]. Qed.

Lemma wr_ret s : rb_ok s -> wr 0 (Ret s) s [].
Proof using Type. left. by exists s. Qed.

Lemma written_offset s s' l :
  rb_ok s -> rb_ok s' -> written s' = l ++ written s -> offset s' = offset s + Z.of_nat (length l).
Proof using Type.
  intros Hs Hs' Hw. rewrite <- (length_written s'), <- (length_written s), Hw, length_app by done. lia.
Qed.

(** Sequencing: the later bytes go in front. *)
Lemma wr_bind n n2 m g s l1 l2 :
  rb_ok s -> wr n m s l1 -> Z.of_nat (length l1) + n2 <= n ->
  (forall s', rb_ok s' -> written s' = l1 ++ written s -> (r = false -> pkt_len s' = pkt_len s) ->
              wr n2 (g s') s' l2) ->
  wr n (m ≫= g) s (l2 ++ l1).
Proof using Type.
  intros Hs [(s' & -> & Hs' & Hw & Hp)|[-> Hr]] Hn Hg; [|by right].
  destruct (Hg s' Hs' Hw Hp) as [(s'' & Hgs & Hs'' & Hw' & Hp')|[Hgs Hr]]; cbn; rewrite Hgs.
  - left. exists s''. split; [done|]. split; [done|]. split.
    + by rewrite Hw', Hw, app_assoc.
    + intros E. by rewrite Hp', Hp.
  - right. split; [done|]. pose proof (written_offset s s' l1 Hs Hs' Hw) as Ho.
    revert Hr. unfold refused. destruct r.
    + intros (k & ? & ?). exists k. split; [done|lia].
    + rewrite Hp by done. lia.
Qed.

(** *** One byte, several bytes, reserved room *)

Lemma asn_realloc_spec s n :
  rb_ok s -> pkt_len s < offset s + n ->
  (exists s', asn_realloc s = Ret s' /\ rb_ok s' /\ written s' = written s
              /\ pkt_len s + 256 <= pkt_len s' /\ offset s' = offset s)
  \/ (asn_realloc s = Null /\ exists k, alloc k = false /\ k < offset s + n + 8192).
Proof using Type.
  intros Hs Hn. unfold asn_realloc.
  pose proof (snmp_realloc_size_bounds (pkt_len s) ltac:(unfold rb_ok in Hs; lia)) as Hb.
  destruct (alloc _) eqn:E.
  - left. eexists. split; [done|]. pose proof (alloc_bound _ E) as Hmax.
    unfold rb_ok, written, pkt_len in *. cbn [pkt offset] in *.
    rewrite length_app, length_replicate. split; [lia|]. split; [|lia].
    rewrite drop_app_ge by (rewrite length_replicate; lia). f_equal. rewrite length_replicate. lia.
  - right. split; [done|]. eexists. split; [done|]. lia.
Qed.

Lemma rb_free s n : rb_ok s -> (u64 (pkt_len s - offset s) <? n) = (pkt_len s - offset s <? n).
Proof using Type. unfold rb_ok. intros. by rewrite u64_id by cint. Qed.

(** Reserving [n] bytes changes nothing but the room. *)
Definition room (n : Z) (m : outcome rbuf) (s : rbuf) : Prop :=
  (exists s', m = Ret s' /\ rb_ok s' /\ written s' = written s /\ n <= pkt_len s' - offset s'
              /\ (r = false -> pkt_len s' = pkt_len s))
  \/ (m = Null /\ refused s n).

Lemma rb_room_loop_spec fuel n s :
  rb_ok s -> n - (pkt_len s - offset s) <= 256 * Z.of_nat fuel -> room n (rb_room_loop r fuel n s) s.
Proof using Type.
  revert s. induction fuel as [|fuel IH]; intros s Hs Hf; cbn [rb_room_loop]; rewrite rb_free by done.
  all: destruct (Z.ltb_spec (pkt_len s - offset s) n); [|by left; exists s].
  { lia. }
  unfold room, refused in *. destruct r eqn:Er; [|right; split; [done|lia]].
  destruct (asn_realloc_spec s n Hs ltac:(lia)) as [(s' & -> & Hs' & Hw & Hp & Ho)|(-> & ?)];
    [|by right]. rewrite bind_ret.
  destruct (IH s' Hs' ltac:(lia)) as [(s'' & -> & ? & Hw' & ? & _)|(-> & k & ? & ?)].
  - left. exists s''. split; [done|]. split; [done|]. split; [congruence|]. done.
  - right. split; [done|]. exists k. split; [done|lia].
Qed.

Lemma rb_room_spec n s : rb_ok s -> 0 <= n -> room n (rb_room r n s) s.
Proof using Type.
  intros Hs Hn. apply rb_room_loop_spec; [done|]. unfold rb_ok in Hs.
  rewrite Nat2Z.inj_succ, Z2Nat.id by (apply Z.div_pos; lia). Z.div_mod_to_equations; lia.
Qed.

Lemma rb_room1_spec s : rb_ok s -> room 1 (rb_room1 r s) s.
Proof using Type.
  intros Hs. unfold rb_room1. rewrite rb_free by done.
  destruct (Z.ltb_spec (pkt_len s - offset s) 1); [|by left; exists s].
  unfold room, refused. destruct r; [|right; split; [done|lia]].
  destruct (asn_realloc_spec s 1 Hs ltac:(lia)) as [(s' & -> & Hs' & Hw & Hp & Ho)|(-> & ?)];
    [|by right].
  left. exists s'. unfold rb_ok in Hs. repeat (split; [done || lia|]). done.
Qed.

(** A write of the whole of [l] in front, in reserved room. *)
Lemma rb_copy_spec l s :
  rb_ok s -> Z.of_nat (length l) <= pkt_len s - offset s ->
  exists s', rb_copy l s = Ret s' /\ rb_ok s' /\ written s' = l ++ written s /\ pkt_len s' = pkt_len s.
Proof using Type.
  intros Hs Hl. unfold rb_copy. destruct (Z.leb_spec 0 (pkt_len s - (offset s + Z.of_nat (length l)))); [|lia].
  eexists. split; [done|]. unfold rb_ok, written, pkt_len in *. cbn [pkt offset].
  rewrite !length_app, length_take, length_drop. split; [lia|]. split; [|lia].
  rewrite drop_app_ge by (rewrite length_take; lia). rewrite length_take.
  match goal with |- drop ?n _ = _ => replace n with 0%nat by lia end.
  rewrite drop_0. do 2 f_equal. lia.
Qed.

Lemma rb_put_copy b s : rb_ok s -> rb_put b s = rb_copy [b] s.
Proof using Type.
  intros Hs. unfold rb_put, rb_copy. cbn [length].
  change (Z.of_nat 1) with 1. set (i := pkt_len s - (offset s + 1)).
  destruct (Z.leb_spec 0 i); [|done]. destruct (Z.ltb_spec i (pkt_len s)); cbn [andb];
    [|unfold rb_ok in Hs; lia].
  do 2 f_equal. unfold rb_ok, pkt_len in *.
  rewrite insert_take_drop by lia. cbn [app]. do 2 f_equal. f_equal. lia.
Qed.

(** A step that needs no more room. *)
Definition st (m : outcome rbuf) (s : rbuf) (l : list Z) : Prop :=
  exists s', m = Ret s' /\ rb_ok s' /\ written s' = l ++ written s /\ pkt_len s' = pkt_len s.

Lemma rb_put_spec b s : rb_ok s -> 1 <= pkt_len s - offset s -> st (rb_put b s) s [b].
Proof using Type. intros. rewrite rb_put_copy by done. by apply rb_copy_spec. Qed.

Lemma st_wr_bind n n2 m g s l1 l2 :
  rb_ok s -> st m s l1 -> Z.of_nat (length l1) + n2 <= n ->
  (forall s', rb_ok s' -> written s' = l1 ++ written s -> pkt_len s' = pkt_len s ->
              offset s' = offset s + Z.of_nat (length l1) -> wr n2 (g s') s' l2) ->
  wr n (m ≫= g) s (l2 ++ l1).
Proof using Type.
  intros Hs (s' & -> & Hs' & Hw & Hp) Hn Hg. pose proof (written_offset _ _ _ Hs Hs' Hw) as Ho.
  rewrite bind_ret. destruct (Hg s' Hs' Hw Hp Ho) as [(s'' & -> & Hs'' & Hw' & Hp')|[-> Hr]].
  - left. exists s''. rewrite Hw', Hw, app_assoc. repeat (split; [done|]).
    intros E. by rewrite Hp'.
  - right. split; [done|]. revert Hr. unfold refused. rewrite Ho, Hp. destruct r; [|lia].
    intros (k & ? & ?). exists k. split; [done|lia].
Qed.

Lemma st_wr n m s l : 0 <= n -> st m s l -> wr n m s l.
Proof using Type. intros _ (s' & ? & ? & ? & ?). left. by exists s'. Qed.

Lemma wr_room n n2 m g s l :
  room n m s ->
  (forall s', rb_ok s' -> written s' = written s -> n <= pkt_len s' - offset s' ->
              wr n2 (g s') s' l) ->
  n <= n2 -> rb_ok s -> wr n2 (m ≫= g) s l.
Proof using Type.
  intros [(s1 & -> & Hs1 & Hw1 & Hroom & Hp1)|[-> Hr]] Hg Hn Hs.
  2:{ right. split; [done|]. by eapply refused_mono. }
  assert (Ho : offset s1 = offset s) by (rewrite <- !length_written, Hw1; done).
  rewrite bind_ret. destruct (Hg s1) as [(s2 & -> & ? & Hw2 & Hp2)|[-> Hr]]; try done.
  - left. exists s2. rewrite Hw2, Hw1. repeat (split; [done|]).
    intros E. rewrite Hp2 by done. by apply Hp1.
  - right. split; [done|]. revert Hr. unfold refused. rewrite Ho.
    destruct r; [done|]. by rewrite Hp1.
Qed.

Lemma rb_push_spec b s : rb_ok s -> wr 1 (rb_push r b s) s [b].
Proof using Type.
  intros Hs. unfold rb_push.
  destruct (rb_room1_spec s Hs) as [(s1 & -> & Hs1 & Hw1 & Hroom & Hp1)|[-> Hr]]; [|by right].
  rewrite bind_ret, rb_put_copy by done.
  destruct (rb_copy_spec [b] s1 Hs1) as (s2 & Hc & Hs2 & Hw2 & Hp2); [cbn; lia|].
  left. exists s2. rewrite Hw2, Hw1. repeat (split; [done|]). intros E. rewrite Hp2. by apply Hp1.
Qed.

(** A list of bytes pushed one by one, the last byte of the list first. *)
Fixpoint pushes (l : list Z) (s : rbuf) : outcome rbuf :=
  match l with
  | [] => Ret s
  | b :: l => s ← pushes l s; rb_push r b s
  end.

Lemma pushes_spec l s : rb_ok s -> wr (Z.of_nat (length l)) (pushes l s) s l.
Proof using Type.
  intros Hs. induction l as [|b l IH]; cbn [pushes]; [by apply wr_ret|].
  apply (wr_bind _ 1 _ _ _ l [b]); [done| |cbn [length]; lia|intros; by apply rb_push_spec].
  eapply wr_mono; [|exact IH]. cbn [length]. lia.
Qed.

Lemma rb_first_spec s b l : rb_ok s -> written s = b :: l -> rb_first s = Ret b.
Proof using Type.
  intros Hs Hw. unfold rb_first. apply rd_Ret. unfold rb_ok in Hs. split; [lia|].
  rewrite <- (Nat.add_0_r (Z.to_nat _)), <- lookup_drop. fold (written s). by rewrite Hw.
Qed.
End judgement.

(** ** Lengths and headers *)

(** The base-256 digits of a length, and its length octets: the reverse
    builder uses as many octets as the length needs. *)
Fixpoint base256 (fuel : nat) (n : Z) : list Z :=
  if n <? 256 then [n]
  else match fuel with
       | O => []
       | S fuel => base256 fuel (n / 256) ++ [n mod 256]
       end.

Definition len_octets_r (n : Z) : list Z :=
  if n <? 128 then [n]
  else 128 + Z.of_nat (length (base256 8 n)) :: base256 8 n.

Definition tlv_r (tag : Z) (content : list Z) : list Z :=
  tag :: len_octets_r (Z.of_nat (length content)) ++ content.

(** Up to 65535 they are the octets of the forward builder. *)
Lemma len_octets_r_eq n : len_ok n -> len_octets_r n = len_octets n.
Proof.
  unfold len_ok, len_octets_r, len_octets. intros Hn. destruct (Z.ltb_spec n 128); [done|].
  cbn [base256]. destruct (Z.ltb_spec n 256); [done|].
  destruct (Z.ltb_spec (n / 256) 256); [done|]. Z.div_mod_to_equations; lia.
Qed.

Lemma tlv_r_eq tag content : len_ok (Z.of_nat (length content)) -> tlv_r tag content = tlv tag content.
Proof. intros. unfold tlv_r, tlv. by rewrite len_octets_r_eq. Qed.

(** [fuel] more digits are enough for a length below [256 ^ (fuel + 1)]. *)
Lemma base256_length fuel n :
  0 <= n < 2 ^ (8 * Z.of_nat (S fuel)) -> (1 <= length (base256 fuel n) <= S fuel)%nat.
Proof.
  revert n. induction fuel as [|fuel IH]; intros n Hn; cbn [base256];
    destruct (Z.ltb_spec n 256); cbn [length]; try lia.
  rewrite length_app. cbn [length].
  rewrite pow8_succ in Hn. pose proof (IH (n / 256)) as IH'.
  assert (0 <= n / 256 < 2 ^ (8 * Z.of_nat (S fuel))).
  { split; [apply Z.div_pos; lia|apply Z.div_lt_upper_bound; lia]. }
  specialize (IH' ltac:(done)). lia.
Qed.

Lemma base256_value fuel n :
  0 <= n < 2 ^ (8 * Z.of_nat (S fuel)) -> be_val 0 (base256 fuel n) = n /\ bytes_ok (base256 fuel n).
Proof.
  revert n. induction fuel as [|fuel IH]; intros n Hn; cbn [base256];
    destruct (Z.ltb_spec n 256).
  1,3: split; [cbn; lia|repeat constructor; cint].
  { change (2 ^ (8 * Z.of_nat 1)) with 256 in Hn. lia. }
  rewrite pow8_succ in Hn. destruct (IH (n / 256)) as [Hv Hok].
  { split; [apply Z.div_pos; lia|apply Z.div_lt_upper_bound; lia]. }
  rewrite be_val_app, Hv. split; [cbn; change (2 ^ 8) with 256; Z.div_mod_to_equations; lia|].
  apply Forall_app. split; [done|]. repeat constructor; cint.
Qed.

Lemma base256_low n : 0 <= n -> Z.land n 0xff = n mod 256.
Proof. intros. change 0xff with (Z.ones 8). by rewrite land_low by lia. Qed.

Section builders.
Context `{Allocator} (r : bool).
Local Abbreviation wr := (wr r).

(** The loop stores all the digits but the first, which it returns. *)
Lemma rbuild_length_loop_spec fuel n s :
  0 <= n < 2 ^ (8 * Z.of_nat (S fuel)) ->
  exists d ds, base256 fuel n = d :: ds /\ is_u8 d /\
    rbuild_length_loop r fuel n s = s ← pushes r ds s; Ret (d, s).
Proof using Type.
  revert n s. induction fuel as [|fuel IH]; intros n s Hn; cbn [base256 rbuild_length_loop];
    destruct (Z.ltb_spec 0xff n), (Z.ltb_spec n 256); try lia.
  1,3: exists n, []; cbn; repeat split; try done; cint.
  rewrite pow8_succ in Hn.
  assert (Hd : 0 <= n / 256 < 2 ^ (8 * Z.of_nat (S fuel))).
  { split; [apply Z.div_pos; lia|apply Z.div_lt_upper_bound; lia]. }
  destruct (IH (n / 256) s Hd) as (d & ds & E & Hu & _).
  exists d, (ds ++ [n mod 256]). rewrite E. split; [done|]. split; [done|].
  rewrite base256_low, shr_div by lia. change (2 ^ 8) with 256.
  assert (Hpush : forall l b s, pushes r (l ++ [b]) s = s ← rb_push r b s; pushes r l s).
  { intros l b. induction l as [|x l IHl]; intros s0; cbn [app pushes].
    - cbn. by destruct (rb_push r b s0).
    - rewrite IHl. by destruct (rb_push r b s0). }
  rewrite Hpush. destruct (rb_push r (n mod 256) s) as [s1| | |]; try done. rewrite !bind_ret.
  destruct (IH (n / 256) s1 Hd) as (d' & ds' & E' & _ & ->). rewrite E in E'.
  by injection E' as -> ->.
Qed.

Lemma asn_realloc_rbuild_length_spec n s :
  rb_ok s -> 0 <= n < 2 ^ 63 ->
  wr (Z.of_nat (length (len_octets_r n))) (asn_realloc_rbuild_length r n s) s (len_octets_r n).
Proof using Type.
  intros Hs Hn. unfold asn_realloc_rbuild_length, len_octets_r.
  destruct (Z.leb_spec n 0x7f), (Z.ltb_spec n 128); try lia.
  { rewrite u8_id by cint. by apply rb_push_spec. }
  destruct (rbuild_length_loop_spec 8 n s) as (d & ds & E & Hd & ->).
  { change (2 ^ (8 * Z.of_nat 9)) with (2 ^ 72). lia. }
  pose proof (base256_length 8 n) as Hlen. change (2 ^ (8 * Z.of_nat 9)) with (2 ^ 72) in Hlen.
  specialize (Hlen ltac:(lia)). rewrite E in Hlen |- *. cbn [length] in Hlen |- *.
  set (k := 128 + Z.of_nat (S (length ds))).
  change (k :: d :: ds) with ([k; d] ++ ds). rewrite bind_assoc.
  eapply (wr_bind _ _ 2); [done|eapply wr_mono; [|by apply pushes_spec]; lia|lia|].
  intros s1 Hs1 Hw1 _. pose proof (written_offset _ _ _ Hs Hs1 Hw1) as Ho1. rewrite bind_ret.
  eapply (wr_room _ 2); [by apply rb_room_spec| |done|done].
  intros s2 Hs2 Hw2 Hroom.
  assert (Ho2 : offset s2 = offset s1) by (rewrite <- !length_written, Hw2; done).
  change 0xff with (Z.ones 8). rewrite land_low, Z.mod_small by (done || lia).
  apply (st_wr_bind _ _ 1 _ _ _ [d] [k]);
    [done|by apply rb_put_spec; [|lia]|done|].
  intros s3 Hs3 Hw3 Hp3 Ho3. cbn [length] in Ho3.
  rewrite s32_id, lor_bit8, u8_id by cint.
  replace (offset s3 - offset s + 128) with k by lia.
  apply st_wr; [done|]. apply rb_put_spec; [done|lia].
Qed.

Lemma asn_realloc_rbuild_header_spec type n s :
  rb_ok s -> 0 <= n < 2 ^ 63 ->
  wr (Z.of_nat (S (length (len_octets_r n)))) (asn_realloc_rbuild_header r type n s) s
     (type :: len_octets_r n).
Proof using Type.
  intros Hs Hn. unfold asn_realloc_rbuild_header.
  apply (wr_bind _ _ 1 _ _ _ (len_octets_r n) [type]); [done| |lia|].
  - eapply wr_mono; [|by apply asn_realloc_rbuild_length_spec]. lia.
  - intros. by apply rb_push_spec.
Qed.

(** The last check of every builder never fails. *)
Lemma wr_check n m s l typedlen :
  wr n m s l -> (forall s', rb_ok s' -> written s' = l ++ written s -> typedlen s' <= offset s') ->
  wr n (s' ← m; if _asn_realloc_build_header_check s' (typedlen s') then Null else Ret s') s l.
Proof using Type.
  intros [(s' & -> & Hs' & Hw & Hp)|[-> Hr]] Ht; [|by right]. rewrite bind_ret. left. exists s'.
  unfold _asn_realloc_build_header_check. specialize (Ht s' Hs' Hw).
  destruct (Z.ltb_spec (pkt_len s') (typedlen s')); [unfold rb_ok in Hs'; lia|done].
Qed.

(** From contents to the whole object: [m] writes the contents. *)
Lemma rbuild_finish_spec type m s c :
  rb_ok s -> wr (Z.of_nat (length c)) m s c ->
  wr (Z.of_nat (length (tlv_r type c))) (m ≫= rbuild_finish r type (offset s)) s (tlv_r type c).
Proof using Type.
  intros Hs Hm. unfold tlv_r. rewrite app_comm_cons.
  eapply (wr_bind _ _ (Z.of_nat (S (length (len_octets_r (Z.of_nat (length c)))))));
    [done|eapply wr_mono; [|exact Hm]; rewrite length_app; lia|rewrite length_app; cbn [length]; lia|].
  intros s1 Hs1 Hw1 _. pose proof (written_offset _ _ _ Hs Hs1 Hw1) as Ho1.
  unfold rbuild_finish. replace (offset s1 - offset s) with (Z.of_nat (length c)) by lia.
  apply (wr_check _ _ _ _ (fun s' => offset s' - offset s)); [|unfold rb_ok in Hs; lia].
  apply asn_realloc_rbuild_header_spec; [done|]. unfold rb_ok in *. lia.
Qed.
End builders.

(** ** Integers *)

Lemma be_bytes_snoc n i : be_bytes (S n) i = be_bytes n (i / 256) ++ [i mod 256].
Proof.
  induction n as [|n IH]; [cbn; by rewrite Z.div_1_r|].
  cbn [be_bytes app] in *. f_equal; [|exact IH].
  rewrite pow8_succ. change (2 ^ 8) with 256. pose proof (pow8_pos n).
  by rewrite Z.div_div by lia.
Qed.

(** The number of turns of the loop [while (integer != testvalue)]. *)
Fixpoint turns (fuel : nat) (test i : Z) : nat :=
  match fuel with
  | O => O
  | S fuel => if i =? test then O else S (turns fuel test (i / 256))
  end.

Lemma div_pow8_succ i n : i / 256 / 2 ^ (8 * Z.of_nat n) = i / 2 ^ (8 * Z.of_nat (S n)).
Proof. rewrite pow8_succ. pose proof (pow8_pos n). by rewrite Z.div_div by lia. Qed.

(** It stops at the first quotient equal to the test value. *)
Lemma turns_spec fuel test i :
  i / 2 ^ (8 * Z.of_nat fuel) = test ->
  let n := turns fuel test i in
  (n <= fuel)%nat /\ i / 2 ^ (8 * Z.of_nat n) = test
  /\ forall k, (k < n)%nat -> i / 2 ^ (8 * Z.of_nat k) <> test.
Proof.
  revert i. induction fuel as [|fuel IH]; intros i Hi; cbn [turns].
  { split; [done|]. split; [done|]. lia. }
  destruct (Z.eqb_spec i test) as [->|Hne].
  { split; [lia|]. split; [apply Z.div_1_r|]. lia. }
  rewrite <- div_pow8_succ in Hi. destruct (IH _ Hi) as (H1 & H2 & H3).
  split; [lia|]. split; [by rewrite <- div_pow8_succ|].
  intros [|k] Hk; [by rewrite Z.div_1_r|]. rewrite <- div_pow8_succ. apply H3. lia.
Qed.

Definition sign_word (i : Z) : Z := if i <? 0 then -1 else 0.

(** A value fits in [n + 1] bytes when only its sign is left above them and
    the top bit of the highest agrees. *)
Lemma fits_iff n i :
  fits (S n) i = true <->
  i / 2 ^ (8 * Z.of_nat (S n)) = sign_word i
  /\ ((i / 2 ^ (8 * Z.of_nat n)) mod 256 <? 128) = (0 <=? i).
Proof.
  split.
  - intros Hf. split; [|by apply be_bytes_sign].
    cbn [fits] in Hf. apply andb_prop in Hf as [H1%Z.leb_le H2%Z.ltb_lt].
    assert (2 ^ (8 * Z.of_nat n + 7) < 2 ^ (8 * Z.of_nat (S n))) by (apply Z.pow_lt_mono_r; lia).
    unfold sign_word. destruct (Z.ltb_spec i 0); [|apply Z.div_small; lia].
    symmetry. apply Z.div_unique with (i + 2 ^ (8 * Z.of_nat (S n))); lia.
  - rewrite <- div_pow8_succ, Z.div_div, Z.mul_comm, <- Z.div_div
      by (pose proof (pow8_pos n); lia).
    cbn [fits]. rewrite Z.pow_add_r by lia. change (2 ^ 7) with 128. unfold sign_word.
    pose proof (pow8_pos n) as Hp. revert Hp. generalize (2 ^ (8 * Z.of_nat n)) as w. intros w Hp [H1 H2].
    assert (Hq : - 128 <= i / w < 128).
    { revert H1 H2. generalize (i / w) as q. intros q.
      destruct (Z.ltb_spec i 0), (Z.leb_spec 0 i), (Z.ltb_spec (q mod 256) 128);
        try done || lia; intros Hq1 _; Z.div_mod_to_equations; lia. }
    pose proof (Z.div_mod i w ltac:(lia)). pose proof (Z.mod_pos_bound i w Hp).
    apply andb_true_intro. split; [apply Z.leb_le|apply Z.ltb_lt]; nia.
Qed.

Lemma int_size_unique n i :
  (n < 9)%nat -> fits (S n) i = true -> (fits n i = false) -> int_size i = S n.
Proof.
  intros Hn Hf Hnf. unfold int_size. rewrite (least_size_start (S n)) by (done || lia).
  cbn [least_size]. by rewrite Hnf.
Qed.

(** The contents end after [n + 1] bytes or need one more for the sign. *)
Lemma int_octets_turns n i :
  (n < 8)%nat -> i / 2 ^ (8 * Z.of_nat (S n)) = sign_word i ->
  (forall k, (0 < k < S n)%nat -> i / 2 ^ (8 * Z.of_nat k) <> sign_word i) ->
  int_octets i =
    if eqb ((i / 2 ^ (8 * Z.of_nat n)) mod 256 <? 128) (0 <=? i)
    then be_bytes (S n) i
    else Z.land (sign_word i) 0xff :: be_bytes (S n) i.
Proof.
  intros Hn Hq Hmin. destruct (eqb _ _) eqn:E.
  - apply eqb_prop in E. unfold int_octets. rewrite (int_size_unique n); [done|lia|by apply fits_iff|].
    destruct n as [|n]; [done|]. apply not_true_iff_false. intros [Hf _]%fits_iff.
    apply (Hmin (S n)); [lia|done].
  - apply eqb_false_iff in E. unfold int_octets. rewrite (int_size_unique (S n)); [|lia| |].
    + cbn [be_bytes]. f_equal. rewrite Hq. unfold sign_word. by destruct (i <? 0).
    + apply fits_iff. rewrite <- div_pow8_succ, Z.div_div, Z.mul_comm, <- Z.div_div, Hq
        by (pose proof (pow8_pos (S n)); lia).
      unfold sign_word. by destruct (Z.ltb_spec i 0), (Z.leb_spec 0 i); try lia.
    + apply not_true_iff_false. intros [_ Hf]%fits_iff. done.
Qed.

Section integers.
Context `{Allocator} (r : bool).
Local Abbreviation wr := (wr r).

Lemma pushes_app l1 l2 s : pushes r (l1 ++ l2) s = s ← pushes r l2 s; pushes r l1 s.
Proof using Type.
  induction l1 as [|b l1 IH]; cbn [app pushes]; [by destruct (pushes r l2 s)|].
  by rewrite IH, bind_assoc.
Qed.

Lemma u8_mod i : u8 i = i mod 256.
Proof using Type. done. Qed.

(** The loop stores the low bytes of the value. *)
Lemma rbuild_int_loop_spec fuel test i s :
  i / 2 ^ (8 * Z.of_nat fuel) = test ->
  rbuild_int_loop r fuel test i s = pushes r (be_bytes (turns fuel test i) i) s.
Proof using Type.
  revert i s. induction fuel as [|fuel IH]; intros i s Hi; cbn [rbuild_int_loop turns].
  - change (2 ^ (8 * Z.of_nat 0)) with 1 in Hi. rewrite Z.div_1_r in Hi. subst. by rewrite Z.eqb_refl.
  - destruct (Z.eqb_spec i test); [done|].
    rewrite be_bytes_snoc, pushes_app. cbn [pushes]. rewrite bind_ret, u8_mod.
    destruct (rb_push r (i mod 256) s) as [s1| | |]; try done. rewrite !bind_ret, shr_div by lia.
    change (2 ^ 8) with 256. apply IH. by rewrite div_pow8_succ.
Qed.

(** The first byte, the loop and the sign byte: the contents octets. *)
Definition rbuild_contents (test pad i : Z) (s : rbuf) : outcome rbuf :=
  s ← rb_push r (u8 i) s;
  s ← rbuild_int_loop r 8 test (Z.shiftr i 8) s;
  rbuild_sign r test pad s.

(** The bytes [be_bytes (S n) i] are in front; the sign byte follows. *)
Lemma rbuild_sign_spec n i s w :
  rb_ok s -> written s = be_bytes (S n) i ++ w ->
  (n < 8)%nat -> i / 2 ^ (8 * Z.of_nat (S n)) = sign_word i ->
  (forall k, (0 < k < S n)%nat -> i / 2 ^ (8 * Z.of_nat k) <> sign_word i) ->
  exists l, l ++ be_bytes (S n) i = int_octets i /\
    wr (Z.of_nat (length l)) (rbuild_sign r (sign_word i) (Z.land (sign_word i) 0xff) s) s l.
Proof using Type.
  intros Hs Hw Hn Hq Hmin. rewrite (int_octets_turns n i) by done.
  unfold rbuild_sign. rewrite (rb_first_spec s _ (be_bytes n i ++ w) Hs Hw), bind_ret.
  assert (Hb : negb (Z.land ((i / 2 ^ (8 * Z.of_nat n)) mod 2 ^ 8) 128 =? Z.land (sign_word i) 128)
               = negb (eqb ((i / 2 ^ (8 * Z.of_nat n)) mod 256 <? 128) (0 <=? i))).
  { f_equal. change (2 ^ 8) with 256. set (b := (i / 2 ^ (8 * Z.of_nat n)) mod 256).
    rewrite (land_128 b) by (apply Z.mod_pos_bound; lia). unfold sign_word.
    by destruct (Z.ltb_spec b 128), (Z.ltb_spec i 0), (Z.leb_spec 0 i); try lia. }
  rewrite Hb. destruct (eqb _ _); cbn [negb].
  - exists []. split; [done|]. by apply wr_ret.
  - exists [Z.land (sign_word i) 0xff]. split; [done|]. by apply rb_push_spec.
Qed.

Lemma contents_sign n i s :
  rb_ok s -> (n < 8)%nat -> i / 2 ^ (8 * Z.of_nat (S n)) = sign_word i ->
  (forall k, (0 < k < S n)%nat -> i / 2 ^ (8 * Z.of_nat k) <> sign_word i) ->
  wr (Z.of_nat (length (int_octets i)))
     (pushes r (be_bytes (S n) i) s ≫= rbuild_sign r (sign_word i) (Z.land (sign_word i) 0xff))
     s (int_octets i).
Proof using Type.
  intros Hs Hn Hq Hmin.
  destruct (pushes_spec r (be_bytes (S n) i) s Hs) as [(s1 & E & Hs1 & Hw1 & Hp1)|[E Hr]].
  - destruct (rbuild_sign_spec n i s1 _ Hs1 Hw1 Hn Hq Hmin) as (l & Hl & _). rewrite <- Hl.
    eapply (wr_bind _ _ (Z.of_nat (length l))); [done|eapply wr_mono; [|by apply pushes_spec]| |].
    1,2: rewrite length_app; lia.
    intros s2 Hs2 Hw2 _. destruct (rbuild_sign_spec n i s2 _ Hs2 Hw2 Hn Hq Hmin) as (l' & Hl' & Hwr').
    rewrite <- Hl in Hl'. apply app_inv_tail in Hl' as ->. done.
  - rewrite E. right. split; [done|]. eapply refused_mono; [|exact Hr].
    rewrite (int_octets_turns n i) by done. destruct (eqb _ _); cbn [length]; lia.
Qed.

Lemma rbuild_contents_spec i s :
  rb_ok s -> - 2 ^ 63 <= i < 2 ^ 64 ->
  wr (Z.of_nat (length (int_octets i)))
     (rbuild_contents (sign_word i) (Z.land (sign_word i) 0xff) i s) s (int_octets i).
Proof using Type.
  intros Hs Hi. unfold rbuild_contents. rewrite shr_div by lia. change (2 ^ 8) with 256.
  assert (H8 : i / 256 / 2 ^ (8 * Z.of_nat 8) = sign_word i).
  { rewrite div_pow8_succ. change (2 ^ (8 * Z.of_nat 9)) with (2 ^ 72). unfold sign_word.
    destruct (Z.ltb_spec i 0); [|apply Z.div_small; lia].
    symmetry. apply Z.div_unique with (i + 2 ^ 72); lia. }
  destruct (turns_spec 8 (sign_word i) (i / 256) H8) as (Hle & Hq & Hmin).
  set (n := turns 8 (sign_word i) (i / 256)) in *.
  assert (Hn8 : (n < 8)%nat).
  { destruct (decide (n = 8%nat)) as [E|]; [|lia]. exfalso.
    apply (Hmin 7%nat); [lia|]. rewrite div_pow8_succ. change (2 ^ (8 * Z.of_nat 8)) with (2 ^ 64).
    unfold sign_word. destruct (Z.ltb_spec i 0); [|apply Z.div_small; lia].
    symmetry. apply Z.div_unique with (i + 2 ^ 64); lia. }
  rewrite div_pow8_succ in Hq.
  assert (Hpre : forall s, (s ← rb_push r (u8 i) s; rbuild_int_loop r 8 (sign_word i) (i / 256) s)
                           = pushes r (be_bytes (S n) i) s).
  { intros s0. rewrite be_bytes_snoc, pushes_app. cbn [pushes]. rewrite bind_ret, u8_mod.
    destruct (rb_push r (i mod 256) s0); try done. rewrite !bind_ret.
    by rewrite rbuild_int_loop_spec. }
  rewrite <- bind_assoc, Hpre.
  assert (Hmin' : forall k, (0 < k < S n)%nat -> i / 2 ^ (8 * Z.of_nat k) <> sign_word i).
  { intros [|k] Hk; [lia|]. rewrite <- div_pow8_succ. apply Hmin. lia. }
  by apply contents_sign.
Qed.

Lemma asn_realloc_rbuild_int_spec type v s :
  rb_ok s ->
  let c := int_octets (CHECK_OVERFLOW_S v) in
  wr (Z.of_nat (length (tlv type c))) (asn_realloc_rbuild_int r type v sizeof_long s) s (tlv type c).
Proof using Type.
  intros Hs c. rewrite <- tlv_r_eq by apply int_octets_len_ok.
  pose proof (check_s_is_s64 v) as Hi. unfold is_s64 in Hi.
  pose proof (rbuild_finish_spec r type _ s c Hs (rbuild_contents_spec (CHECK_OVERFLOW_S v) s Hs ltac:(lia))) as Hf.
  unfold rbuild_contents in Hf. rewrite !bind_assoc in Hf.
  unfold asn_realloc_rbuild_int. rewrite Z.eqb_refl. cbn [negb].
  fold (sign_word (CHECK_OVERFLOW_S v)). revert Hf. subst c.
  destruct (rb_push r (u8 (CHECK_OVERFLOW_S v)) s) as [s1| | |]; try done. rewrite !bind_ret.
  by rewrite bind_assoc.
Qed.

Lemma asn_realloc_rbuild_unsigned_int_spec type v s :
  rb_ok s -> is_u64 v ->
  let c := int_octets (u32 v) in
  wr (Z.of_nat (length (tlv type c))) (asn_realloc_rbuild_unsigned_int r type v sizeof_long s) s
     (tlv type c).
Proof using Type.
  intros Hs Hv c. rewrite <- tlv_r_eq by apply int_octets_len_ok.
  pose proof (u32_range v) as Hi. unfold is_u32 in Hi.
  pose proof (rbuild_finish_spec r type _ s c Hs (rbuild_contents_spec (u32 v) s Hs ltac:(lia))) as Hf.
  unfold rbuild_contents in Hf. rewrite !bind_assoc in Hf.
  unfold asn_realloc_rbuild_unsigned_int. rewrite Z.eqb_refl. cbn [negb].
  rewrite CHECK_OVERFLOW_U_u32 by cint. replace (sign_word (u32 v)) with 0 in Hf.
  2:{ unfold sign_word. destruct (Z.ltb_spec (u32 v) 0); lia. }
  revert Hf. subst c. destruct (rb_push r (u8 (u32 v)) s) as [s1| | |]; try done. rewrite !bind_ret.
  by rewrite bind_assoc.
Qed.
End integers.

(** ** Strings and NULL *)

Section strings.
Context `{Allocator} (r : bool).
Local Abbreviation wr := (wr r).

Lemma asn_realloc_rbuild_null_spec type s :
  rb_ok s -> wr 2 (asn_realloc_rbuild_null r type s) s (tlv type []).
Proof using Type. intros Hs. by apply (asn_realloc_rbuild_header_spec r type 0 s Hs). Qed.

(** The strings that fit the largest object of the platform. *)
Lemma asn_realloc_rbuild_string_spec type str s :
  rb_ok s -> Z.of_nat (length str) < 2 ^ 63 ->
  wr (Z.of_nat (length (tlv_r type str)))
     (asn_realloc_rbuild_string r type str (Z.of_nat (length str)) s) s (tlv_r type str).
Proof using Type.
  intros Hs Hlen. unfold asn_realloc_rbuild_string.
  set (n := Z.of_nat (length str)). unfold tlv_r. fold n. rewrite app_comm_cons.
  eapply (wr_room r n); [apply rb_room_spec; [done|lia]| |rewrite length_app; lia|done].
  intros s1 Hs1 Hw1 Hroom.
  replace (rd_n str 0 (Z.to_nat n)) with (Ret str) by (unfold n; by rewrite Nat2Z.id, rd_n_whole).
  rewrite bind_ret.
  eapply (st_wr_bind r _ (Z.of_nat (S (length (len_octets_r n)))));
    [done|by apply rb_copy_spec|rewrite length_app; cbn [length]; lia|].
  intros s2 Hs2 Hw2 _ Ho2. apply (wr_check r _ _ _ _ (fun _ => n)).
  - apply asn_realloc_rbuild_header_spec; [done|lia].
  - intros s3 Hs3 Hw3. pose proof (written_offset _ _ _ Hs2 Hs3 Hw3).
    unfold rb_ok in *. lia.
Qed.

Lemma asn_realloc_rbuild_bitstring_spec type str s :
  rb_ok s -> Z.of_nat (length str) < 2 ^ 63 ->
  wr (Z.of_nat (length (tlv_r type str)))
     (asn_realloc_rbuild_bitstring r type str (Z.of_nat (length str)) s) s (tlv_r type str).
Proof using Type. exact (asn_realloc_rbuild_string_spec type str s). Qed.
End strings.

(** ** Object identifiers *)

(** The groups above the last of a subidentifier. *)
Fixpoint groups (fuel : nat) (t : Z) : list Z :=
  match fuel with
  | O => []
  | S fuel => if 0 <? t then groups fuel (t / 128) ++ [t mod 128 + 128] else []
  end.

Lemma sub_octets_groups v : is_u32 v -> sub_octets v = groups 10 (v / 128) ++ [v mod 128].
Proof.
  intros Hv. unfold is_u32 in Hv. cint_consts. unfold sub_octets, sub_size.
  cbn [groups]. rewrite !Z.div_div by lia. cbn [Z.mul Pos.mul Pos.add].
  assert (Hg : forall k, 0 < k -> (0 <? v / k) = (k <=? v)).
  { intros k Hk. destruct (Z.ltb_spec 0 (v / k)), (Z.leb_spec k v); try done; exfalso.
    - rewrite Z.div_small in *; lia.
    - pose proof (Z.div_le_mono k v k Hk ltac:(lia)). rewrite Z.div_same in *; lia. }
  rewrite !Hg by lia.
  repeat match goal with |- context [?a <? ?b] => destruct (Z.ltb_spec a b) end;
    repeat (match goal with |- context [?a <=? ?b] => destruct (Z.leb_spec a b); try lia end).
  all: cbn [b128 app Z.of_nat]. all: change (2 ^ 7) with 128.
  all: repeat (match goal with |- context [2 ^ (7 * ?k)] =>
         let x := eval vm_compute in (2 ^ (7 * k)) in change (2 ^ (7 * k)) with x end).
  all: rewrite ?Z.div_1_r; repeat f_equal.
Qed.

Section objids.
Context `{Allocator} (r : bool).
Local Abbreviation wr := (wr r).

Lemma rbuild_groups_spec fuel t s :
  0 <= t < 2 ^ (7 * Z.of_nat fuel) -> rbuild_groups r fuel t s = pushes r (groups fuel t) s.
Proof using Type.
  revert t s. induction fuel as [|fuel IH]; intros t s Ht; cbn [rbuild_groups groups].
  - change (2 ^ (7 * Z.of_nat 0)) with 1 in Ht. destruct (Z.ltb_spec 0 t); [lia|done].
  - destruct (Z.ltb_spec 0 t); [|done]. rewrite pushes_app. cbn [pushes]. rewrite bind_ret.
    change 0x7f with (Z.ones 7). rewrite land_low, lor_bit8, shr_div
      by (lia || (apply Z.mod_pos_bound; lia)).
    change (2 ^ 7) with 128. destruct (rb_push r (t mod 128 + 128) s); try done. rewrite !bind_ret.
    apply IH. replace (7 * Z.of_nat (S fuel)) with (7 + 7 * Z.of_nat fuel) in Ht by lia.
    rewrite Z.pow_add_r in Ht by lia. change (2 ^ 7) with 128 in Ht.
    split; [apply Z.div_pos; lia|apply Z.div_lt_upper_bound; lia].
Qed.

Lemma rbuild_subid_spec v s : is_u32 v -> rbuild_subid r v s = pushes r (sub_octets v) s.
Proof using Type.
  intros Hv. rewrite sub_octets_groups, pushes_app by done. cbn [pushes]. rewrite bind_ret.
  unfold rbuild_subid. change 0x7f with (Z.ones 7). rewrite land_low, shr_div by lia.
  change (2 ^ 7) with 128. replace (u8 v mod 128) with (v mod 128) by cint.
  destruct (rb_push r (v mod 128) s); try done. rewrite !bind_ret. apply rbuild_groups_spec.
  change (2 ^ (7 * Z.of_nat 10)) with (2 ^ 70). cint.
Qed.

Lemma rbuild_subids_spec pre rest s :
  length pre = 2%nat -> Forall is_u32 rest ->
  rbuild_subids r (length rest) (pre ++ rest) s = pushes r (concat (map sub_octets rest)) s.
Proof using Type.
  intros Hpre. revert s. induction rest as [|v rest IH] using rev_ind; intros s Hrest; [done|].
  apply Forall_app in Hrest as [Hrest Hv]. apply Forall_inv in Hv.
  rewrite length_app, Nat.add_1_r. cbn [rbuild_subids].
  replace (rd (pre ++ rest ++ [v]) (2 + Z.of_nat (length rest))) with (Ret v).
  2:{ symmetry. apply rd_Ret. split; [lia|].
      rewrite lookup_app_r by lia. rewrite lookup_app_r by lia.
      by replace (_ - _ - _)%nat with 0%nat by lia. }
  rewrite bind_ret, CHECK_OVERFLOW_U_u32, u32_id, rbuild_subid_spec by (done || cint).
  rewrite map_app, concat_app, pushes_app. cbn [map concat]. rewrite app_nil_r.
  destruct (pushes r (sub_octets v) s) as [s1| | |]; try done. rewrite !bind_ret.
  assert (Hext : forall n l x s, (Z.of_nat n + 2 <= Z.of_nat (length l)) ->
            rbuild_subids r n (l ++ x) s = rbuild_subids r n l s).
  { induction n as [|n IHn]; intros l x s0 Hn; [done|]. cbn [rbuild_subids].
    replace (rd (l ++ x) (2 + Z.of_nat n)) with (rd l (2 + Z.of_nat n)).
    - destruct (rd l _); try done. rewrite !bind_ret.
      destruct (rbuild_subid _ _ _); try done. rewrite !bind_ret. apply IHn. lia.
    - unfold rd. destruct (_ <? 0); [done|]. by rewrite lookup_app_l by lia. }
  rewrite app_assoc, Hext by (rewrite length_app; lia). by apply IH.
Qed.

Lemma asn_realloc_rbuild_objid_spec type l s :
  rb_ok s -> oid_ok l ->
  wr (Z.of_nat (length (tlv type (oid_octets l))))
     (asn_realloc_rbuild_objid r type l (Z.of_nat (length l)) s) s (tlv type (oid_octets l)).
Proof using Type.
  intros Hs Hok. rewrite <- tlv_r_eq by by apply oid_octets_len_ok.
  destruct l as [|x [|y rest]]; try done. pose proof Hok as (Hx & Hy & Hxy & Hsum & Hrest & Hn).
  pose proof (rbuild_finish_spec r type _ s _ Hs (pushes_spec r (oid_octets (x :: y :: rest)) s Hs)) as Hf.
  revert Hf. cbn [oid_octets]. set (c := sub_octets _ ++ _). intros Hf.
  assert (Hm : pushes r c s = s ← rbuild_subids r (length rest) (x :: y :: rest) s;
                              rbuild_subid r (x * 40 + y) s).
  { unfold c. rewrite pushes_app, (rbuild_subids_spec [x; y]) by done.
    destruct (pushes r (concat _) s); try done. rewrite !bind_ret. symmetry. apply rbuild_subid_spec. cint. }
  rewrite Hm, bind_assoc in Hf. unfold asn_realloc_rbuild_objid.
  destruct (Z.eqb_spec (Z.of_nat (length (x :: y :: rest))) 0) as [E|_]; [cbn in E; lia|].
  change (rd (x :: y :: rest) 0) with (Ret x). rewrite bind_ret.
  destruct (Z.ltb_spec 2 x); [lia|].
  destruct (Z.eqb_spec (Z.of_nat (length (x :: y :: rest))) 1) as [E|_]; [cbn in E; lia|].
  replace (Z.to_nat _) with (length rest) by (cbn [length]; lia).
  change (rd (x :: y :: rest) 1) with (Ret y). rewrite bind_assoc.
  destruct (rbuild_subids r (length rest) (x :: y :: rest) s) as [s1| | |]; try done.
  rewrite bind_ret in Hf. rewrite bind_ret. rewrite (bind_ret y).
  replace ((40 <? y) && (x <? 2)) with false.
  2:{ destruct (Z.ltb_spec 40 y), (Z.ltb_spec x 2); cbn; lia. }
  rewrite (u64_id (x * 40)), u64_id by cint. exact Hf.
Qed.
End objids.

(** ** 64-bit and floating-point values *)

Lemma be_bytes_app a b i : be_bytes (a + b) i = be_bytes a (i / 2 ^ (8 * Z.of_nat b)) ++ be_bytes b i.
Proof.
  induction a as [|a IH]; cbn [Nat.add be_bytes app]; [done|]. f_equal; [|done].
  pose proof (pow8_pos a). pose proof (pow8_pos b). rewrite Z.div_div, <- Z.pow_add_r by lia.
  do 3 f_equal. lia.
Qed.

Lemma be_bytes_low n i : be_bytes n (i mod 2 ^ (8 * Z.of_nat n)) = be_bytes n i.
Proof.
  rewrite <- be_val_mod. rewrite <- (length_be_bytes n i) at 1. apply be_bytes_be_val, be_bytes_ok.
Qed.

Lemma be_bytes_0 n : be_bytes n 0 = replicate n 0.
Proof. induction n as [|n IH]; cbn; [done|]. by rewrite IH, Z.div_0_l by (pose proof (pow8_pos n); lia). Qed.

Lemma div_pow8_0 i n m : 0 <= i -> (n <= m)%nat -> i / 2 ^ (8 * Z.of_nat n) = 0 -> i / 2 ^ (8 * Z.of_nat m) = 0.
Proof.
  intros Hi Hn Hq. pose proof (pow8_pos n). apply Z.div_small_iff in Hq; [|lia].
  apply Z.div_small. assert (2 ^ (8 * Z.of_nat n) <= 2 ^ (8 * Z.of_nat m)) by (apply Z.pow_le_mono_r; lia). lia.
Qed.

Lemma turns_small fuel k i :
  0 <= i < 2 ^ (8 * Z.of_nat k) -> (k <= fuel)%nat ->
  let n := turns fuel 0 i in
  (n <= k)%nat /\ i / 2 ^ (8 * Z.of_nat n) = 0
  /\ forall j, (j < n)%nat -> i / 2 ^ (8 * Z.of_nat j) <> 0.
Proof.
  intros Hi Hk. destruct (turns_spec fuel 0 i) as (_ & Hq & Hmin).
  { apply (div_pow8_0 i k); [lia|done|by apply Z.div_small]. }
  split; [|done]. destruct (decide (turns fuel 0 i <= k)%nat); [done|].
  exfalso. apply (Hmin k); [lia|]. by apply Z.div_small.
Qed.

Section words.
Context `{Allocator} (r : bool).
Local Abbreviation wr := (wr r).

(** What the two 64-bit builders store before the sign byte. *)
Definition rbuild_words (h l : Z) (s : rbuf) : outcome rbuf :=
  s ← rb_push r (u8 l) s;
  '(count, s) ← rbuild_low_u r 8 1 (Z.shiftr l 8) s;
  if negb (h =? 0) then
    s ← rbuild_pad r count 0 s;
    s ← rb_push r (u8 h) s;
    rbuild_int_loop r 8 0 (Z.shiftr h 8) s
  else Ret s.

Lemma rbuild_low_u_spec fuel count l s :
  l / 2 ^ (8 * Z.of_nat fuel) = 0 ->
  rbuild_low_u r fuel count l s
  = s ← pushes r (be_bytes (turns fuel 0 l) l) s; Ret (count + Z.of_nat (turns fuel 0 l), s).
Proof using Type.
  revert count l s. induction fuel as [|fuel IH]; intros count l s Hl; cbn [rbuild_low_u turns].
  - rewrite Z.div_1_r in Hl. subst. cbn. by rewrite Z.add_0_r.
  - destruct (Z.eqb_spec l 0); [cbn; by rewrite Z.add_0_r|].
    rewrite be_bytes_snoc, pushes_app. cbn [pushes]. rewrite bind_ret, u8_mod.
    destruct (rb_push r (l mod 256) s) as [s1| | |]; try done. rewrite !bind_ret, shr_div by lia.
    change (2 ^ 8) with 256. rewrite IH by by rewrite div_pow8_succ.
    destruct (pushes _ _ s1); try done. rewrite !bind_ret. do 2 f_equal. lia.
Qed.

Lemma rbuild_pad_spec count pad s :
  rbuild_pad r count pad s = pushes r (replicate (Z.to_nat (4 - count)) pad) s.
Proof using Type.
  unfold rbuild_pad. generalize (Z.to_nat (4 - count)) as n. intros n. revert s.
  induction n as [|n IH]; intros s; [done|].
  rewrite replicate_S_end, pushes_app. cbn [pushes]. rewrite bind_ret.
  destruct (rb_push r pad s); try done. rewrite !bind_ret. apply IH.
Qed.

(** A first byte, then the loop on the rest. *)
Lemma push_loop i s :
  0 <= i < 2 ^ 64 ->
  (s ← rb_push r (u8 i) s; rbuild_int_loop r 8 0 (Z.shiftr i 8) s)
  = pushes r (be_bytes (S (turns 8 0 (i / 256))) i) s.
Proof using Type.
  intros Hi. rewrite be_bytes_snoc, pushes_app, shr_div by lia. change (2 ^ 8) with 256.
  cbn [pushes]. rewrite bind_ret, u8_mod. destruct (rb_push r (i mod 256) s); try done.
  rewrite !bind_ret. apply rbuild_int_loop_spec. rewrite div_pow8_succ. apply Z.div_small.
  change (2 ^ (8 * Z.of_nat 9)) with (2 ^ 72). lia.
Qed.

Lemma push_low_u i s :
  0 <= i < 2 ^ 64 ->
  let n := turns 8 0 (i / 256) in
  (s ← rb_push r (u8 i) s; rbuild_low_u r 8 1 (Z.shiftr i 8) s)
  = s ← pushes r (be_bytes (S n) i) s; Ret (1 + Z.of_nat n, s).
Proof using Type.
  intros Hi n. rewrite be_bytes_snoc, pushes_app, shr_div by lia. change (2 ^ 8) with 256.
  cbn [pushes]. rewrite bind_ret, u8_mod. destruct (rb_push r (i mod 256) s); try done.
  rewrite !bind_ret. apply rbuild_low_u_spec. rewrite div_pow8_succ. apply Z.div_small.
  change (2 ^ (8 * Z.of_nat 9)) with (2 ^ 72). lia.
Qed.

Lemma four_bytes l k :
  is_u32 l -> (k <= 3)%nat -> l / 2 ^ (8 * Z.of_nat (S k)) = 0 ->
  replicate (3 - k) 0 ++ be_bytes (S k) l = be_bytes 4 l.
Proof using Type.
  intros Hl Hk Hq. replace 4%nat with ((3 - k) + S k)%nat by lia.
  by rewrite be_bytes_app, Hq, be_bytes_0.
Qed.

(** The two words are stored as one value, without leading zero bytes. *)
Lemma rbuild_words_spec h l :
  is_u32 h -> is_u32 l ->
  let v := h * 2 ^ 32 + l in
  exists n, (n < 8)%nat /\ v / 2 ^ (8 * Z.of_nat (S n)) = 0
    /\ (forall k, (0 < k < S n)%nat -> v / 2 ^ (8 * Z.of_nat k) <> 0)
    /\ forall s, rbuild_words h l s = pushes r (be_bytes (S n) v) s.
Proof using Type.
  intros Hh Hl v.
  destruct (turns_small 8 3 (l / 256)) as (Hk & Hq & Hmin).
  { change (2 ^ (8 * Z.of_nat 3)) with 16777216. cint. } { lia. }
  set (k := turns 8 0 (l / 256)) in *. rewrite div_pow8_succ in Hq.
  assert (Hlow : forall A (g : Z * rbuf -> outcome A) s,
    (s ← rb_push r (u8 l) s; rbuild_low_u r 8 1 (Z.shiftr l 8) s) ≫= g
    = s ← pushes r (be_bytes (S k) l) s; g (1 + Z.of_nat k, s)).
  { intros A g s. rewrite push_low_u by cint. fold k. by rewrite bind_assoc. }
  destruct (Z.eqb_spec h 0) as [->|Hne].
  { exists k. subst v. rewrite Z.mul_0_l, Z.add_0_l. split; [lia|]. split; [done|]. split.
    - intros [|j] Hj; [lia|]. rewrite <- div_pow8_succ. apply Hmin. lia.
    - intros s. unfold rbuild_words. rewrite <- bind_assoc, Hlow. cbn [negb Z.eqb].
      by destruct (pushes _ _ s). }
  destruct (turns_small 8 3 (h / 256)) as (Hj & Hqh & Hminh).
  { change (2 ^ (8 * Z.of_nat 3)) with 16777216. cint. } { lia. }
  set (j := turns 8 0 (h / 256)) in *. rewrite div_pow8_succ in Hqh.
  assert (Hv : forall m, v / 2 ^ (8 * Z.of_nat (m + 4)) = h / 2 ^ (8 * Z.of_nat m)).
  { intros m. replace (8 * Z.of_nat (m + 4)) with (32 + 8 * Z.of_nat m) by lia.
    rewrite Z.pow_add_r, <- Z.div_div by (pose proof (pow8_pos m); lia). f_equal.
    subst v. rewrite Z.div_add_l, Z.div_small by cint. lia. }
  exists (j + 4)%nat. split; [lia|]. change (S (j + 4)) with (S j + 4)%nat.
  rewrite Hv. split; [done|]. split.
  - intros m Hm. destruct (decide (m <= 4)%nat) as [Hm4|Hm4].
    + assert (Hpos : 0 < v / 2 ^ (8 * Z.of_nat m)); [|lia]. apply Z.div_str_pos. split; [apply pow8_pos|].
      assert (2 ^ (8 * Z.of_nat m) <= 2 ^ 32) by (apply Z.pow_le_mono_r; lia). subst v. cint.
    + replace m with (S (m - 5) + 4)%nat by lia. rewrite Hv, <- div_pow8_succ. apply Hminh. lia.
  - intros s. unfold rbuild_words. rewrite <- bind_assoc, Hlow. destruct (Z.eqb_spec h 0); [done|].
    cbn [negb]. rewrite be_bytes_app, <- (be_bytes_low 4 v).
    replace (v / 2 ^ (8 * Z.of_nat 4)) with h by (symmetry; rewrite <- (Z.div_1_r h); exact (Hv 0%nat)).
    replace (v mod 2 ^ (8 * Z.of_nat 4)) with l
      by (subst v; change (2 ^ (8 * Z.of_nat 4)) with (2 ^ 32); cint).
    rewrite <- (four_bytes l k), !pushes_app by done.
    destruct (pushes r (be_bytes (S k) l) s) as [s1| | |]; try done. rewrite !bind_ret, rbuild_pad_spec.
    replace (Z.to_nat (4 - (1 + Z.of_nat k))) with (3 - k)%nat by lia.
    destruct (pushes r (replicate _ 0) s1) as [s2| | |]; try done. rewrite !bind_ret.
    rewrite push_loop by cint. done.
Qed.

(** The contents of a 64-bit value. *)
Lemma rbuild_words_sign h l s :
  rb_ok s -> is_u32 h -> is_u32 l ->
  let v := h * 2 ^ 32 + l in
  wr (Z.of_nat (length (int_octets v))) (rbuild_words h l s ≫= rbuild_sign r 0 0) s (int_octets v).
Proof using Type.
  intros Hs Hh Hl v. destruct (rbuild_words_spec h l Hh Hl) as (n & Hn & Hq & Hmin & ->). fold v in Hq, Hmin |- *.
  assert (Hsw : sign_word v = 0) by (unfold sign_word; destruct (Z.ltb_spec v 0); [subst v; cint|done]).
  pose proof (contents_sign r n v s Hs Hn) as Hc. rewrite Hsw in Hc. by apply Hc.
Qed.

(** The wrapper of a special value of [n] bytes already in place. *)
Lemma rbuild_opaque_spec special n s :
  rb_ok s -> 0 <= n <= 100 -> n <= offset s -> 3 <= pkt_len s - offset s ->
  wr 5 (rbuild_opaque r special n s) s [ASN_OPAQUE; n + 3; ASN_OPAQUE_TAG1; special; n].
Proof using Type.
  intros Hs Hn Hoff Hroom. unfold rbuild_opaque. rewrite u8_id by cint.
  apply (st_wr_bind r 5 4 _ _ s [n] [_; _; _; _]); [done|apply rb_put_spec; [done|lia]|done|].
  intros s1 Hs1 _ Hp1 Ho1. cbn [length] in Ho1.
  apply (st_wr_bind r 4 3 _ _ s1 [special] [_; _; _]); [done|apply rb_put_spec; [done|lia]|done|].
  intros s2 Hs2 _ Hp2 Ho2. cbn [length] in Ho2.
  apply (st_wr_bind r 3 2 _ _ s2 [ASN_OPAQUE_TAG1] [_; _]); [done|apply rb_put_spec; [done|lia]|done|].
  intros s3 Hs3 _ Hp3 Ho3. cbn [length] in Ho3.
  apply (wr_check r _ _ _ _ (fun _ => n + 3)).
  - pose proof (asn_realloc_rbuild_header_spec r ASN_OPAQUE (n + 3) s3 Hs3 ltac:(lia)) as Hw.
    unfold len_octets_r in Hw. destruct (Z.ltb_spec (n + 3) 128); [exact Hw|lia].
  - intros s4 Hs4 Hw4. pose proof (written_offset _ _ _ Hs3 Hs4 Hw4) as Ho4. cbn [length] in Ho4. lia.
Qed.

Lemma tlv_opaque special c :
  (length c <= 100)%nat ->
  tlv ASN_OPAQUE (opaque_wrap special c)
  = [ASN_OPAQUE; Z.of_nat (length c) + 3; ASN_OPAQUE_TAG1; special; Z.of_nat (length c)] ++ c.
Proof using Type.
  intros Hc. unfold tlv, opaque_wrap. cbn [length].
  replace (Z.of_nat (S (S (S (length c))))) with (Z.of_nat (length c) + 3) by lia.
  unfold len_octets. destruct (Z.ltb_spec (Z.of_nat (length c) + 3) 128); [done|lia].
Qed.
End words.

Section values.
Context `{Allocator} (r : bool).
Local Abbreviation wr := (wr r).

(** Contents written by [m], then the wrapper once five bytes are there. *)
Lemma wrap_spec special c m s :
  rb_ok s -> (length c <= 100)%nat -> wr (Z.of_nat (length c)) m s c ->
  wr (Z.of_nat (length (tlv ASN_OPAQUE (opaque_wrap special c))))
     (s1 ← m; s2 ← rb_room r 5 s1; rbuild_opaque r special (offset s1 - offset s) s2) s
     (tlv ASN_OPAQUE (opaque_wrap special c)).
Proof using Type.
  intros Hs Hc Hm. rewrite tlv_opaque by done.
  apply (wr_bind r _ 5); [done|eapply wr_mono; [|exact Hm]| |].
  1,2: rewrite length_app; cbn [length]; lia.
  intros s1 Hs1 Hw1 _. pose proof (written_offset _ _ _ Hs Hs1 Hw1) as Ho1.
  replace (offset s1 - offset s) with (Z.of_nat (length c)) by lia.
  apply (wr_room r 5); [by apply rb_room_spec| |done|done].
  intros s2 Hs2 Hw2 Hroom.
  assert (Ho2 : offset s2 = offset s1) by (rewrite <- !length_written, Hw2; done).
  apply rbuild_opaque_spec; [done|lia| |lia]. unfold rb_ok in Hs. lia.
Qed.

(** Contents written by [m], then their header. *)
Lemma tag_spec type c m s :
  rb_ok s -> len_ok (Z.of_nat (length c)) -> wr (Z.of_nat (length c)) m s c ->
  wr (Z.of_nat (length (tlv type c)))
     (s1 ← m; s2 ← asn_realloc_rbuild_header r type (offset s1 - offset s) s1;
      if _asn_realloc_build_header_check s2 (offset s1 - offset s) then Null else Ret s2) s
     (tlv type c).
Proof using Type.
  intros Hs Hc Hm. rewrite <- tlv_r_eq by done. unfold tlv_r. rewrite app_comm_cons.
  apply (wr_bind r _ (Z.of_nat (S (length (len_octets_r (Z.of_nat (length c)))))));
    [done|eapply wr_mono; [|exact Hm]; rewrite length_app; lia|rewrite length_app; cbn [length]; lia|].
  intros s1 Hs1 Hw1 _. pose proof (written_offset _ _ _ Hs Hs1 Hw1) as Ho1.
  replace (offset s1 - offset s) with (Z.of_nat (length c)) by lia.
  apply (wr_check r _ _ _ _ (fun _ => Z.of_nat (length c))).
  - apply asn_realloc_rbuild_header_spec; [done|]. unfold len_ok in Hc. lia.
  - intros s2 Hs2 Hw2. pose proof (written_offset _ _ _ Hs1 Hs2 Hw2). unfold rb_ok in Hs. lia.
Qed.

Lemma asn_realloc_rbuild_unsigned_int64_spec type c s :
  rb_ok s -> c64_ok c ->
  let out := if (type =? ASN_OPAQUE_COUNTER64) || (type =? ASN_OPAQUE_U64)
             then tlv ASN_OPAQUE (opaque_wrap type (int_octets (c64_val c)))
             else tlv type (int_octets (c64_val c)) in
  wr (Z.of_nat (length out)) (asn_realloc_rbuild_unsigned_int64 r type c sizeof_counter64 s) s out.
Proof using Type.
  intros Hs [Hh Hl] out. pose proof (rbuild_words_sign r (high c) (low c) s Hs Hh Hl) as Hw.
  cbv zeta in Hw. fold (c64_val c) in Hw.
  assert (Hsz : (length (int_octets (c64_val c)) <= 100)%nat).
  { rewrite length_int_octets. pose proof (int_size_bounds (c64_val c)). lia. }
  unfold asn_realloc_rbuild_unsigned_int64. rewrite Z.eqb_refl. cbn [negb].
  rewrite !CHECK_OVERFLOW_U_u32, !u32_id by cint. unfold rbuild_words in Hw.
  subst out. destruct ((type =? ASN_OPAQUE_COUNTER64) || (type =? ASN_OPAQUE_U64));
    [pose proof (wrap_spec type _ _ s Hs Hsz Hw) as Hf
    |pose proof (tag_spec type _ _ s Hs (int_octets_len_ok _) Hw) as Hf]; revert Hf.
  all: destruct (rb_push r (u8 (low c)) s) as [s1| | |]; try done; rewrite !bind_ret.
  all: destruct (rbuild_low_u r 8 1 (Z.shiftr (low c) 8) s1) as [[count s2]| | |]; try done.
  all: rewrite !bind_ret, !bind_assoc; done.
Qed.

(** *** The signed builder *)

(** On a nonnegative value both loops are those of the unsigned builder. *)
Lemma rbuild_low_s_u k f f' count l s :
  0 <= l < 2 ^ (8 * Z.of_nat k) -> count + Z.of_nat k = 4 -> (k <= 3)%nat -> (k <= f)%nat -> (k <= f')%nat ->
  rbuild_low_s r f 0 count l s = rbuild_low_u r f' count l s.
Proof using Type.
  revert f f' count l s. induction k as [|k IH]; intros f f' count l s Hl Hc H3 Hf Hf'.
  - change (2 ^ (8 * Z.of_nat 0)) with 1 in Hl. assert (l = 0) as -> by lia. by destruct f, f'.
  - destruct f as [|f], f' as [|f']; try lia. cbn [rbuild_low_s rbuild_low_u].
    rewrite s32_id; [|assert (2 ^ (8 * Z.of_nat (S k)) <= 2 ^ 24) by (apply Z.pow_le_mono_r; lia); cint].
    destruct (Z.eqb_spec l 0); [done|]. cbn [negb andb].
    destruct (Z.ltb_spec count 4); [|lia]. destruct (rb_push r (u8 l) s); try done.
    rewrite !bind_ret, shr_div by lia. apply IH; [|lia..]. rewrite pow8_succ in Hl.
    split; [apply Z.div_pos; lia|apply Z.div_lt_upper_bound; lia].
Qed.

Lemma rbuild_high_s_u k f f' h s :
  0 <= h < 2 ^ (8 * Z.of_nat k) -> (k <= 3)%nat -> (k <= f)%nat -> (k <= f')%nat ->
  rbuild_high_s r f 0 h s = rbuild_int_loop r f' 0 h s.
Proof using Type.
  revert f f' h s. induction k as [|k IH]; intros f f' h s Hh H3 Hf Hf'.
  - change (2 ^ (8 * Z.of_nat 0)) with 1 in Hh. assert (h = 0) as -> by lia. by destruct f, f'.
  - destruct f as [|f], f' as [|f']; try lia. cbn [rbuild_high_s rbuild_int_loop].
    rewrite s32_id; [|assert (2 ^ (8 * Z.of_nat (S k)) <= 2 ^ 24) by (apply Z.pow_le_mono_r; lia); cint].
    destruct (Z.eqb_spec h 0); [done|]. destruct (rb_push r (u8 h) s); try done.
    rewrite !bind_ret, shr_div by lia. apply IH; [|lia..]. rewrite pow8_succ in Hh.
    split; [apply Z.div_pos; lia|apply Z.div_lt_upper_bound; lia].
Qed.

Lemma asn_realloc_rbuild_signed_int64_spec fuel type c s :
  rb_ok s -> c64_ok c -> high c < 2 ^ 31 -> (3 <= fuel)%nat ->
  let out := tlv ASN_OPAQUE (opaque_wrap ASN_OPAQUE_I64 (int_octets (c64_val c))) in
  wr (Z.of_nat (length out)) (asn_realloc_rbuild_signed_int64 r fuel type c sizeof_counter64 s) s out.
Proof using Type.
  intros Hs [Hh Hl] Hpos Hf out. pose proof (rbuild_words_sign r (high c) (low c) s Hs Hh Hl) as Hw.
  cbv zeta in Hw. fold (c64_val c) in Hw.
  assert (Hsz : (length (int_octets (c64_val c)) <= 100)%nat).
  { rewrite length_int_octets. pose proof (int_size_bounds (c64_val c)). lia. }
  pose proof (wrap_spec ASN_OPAQUE_I64 _ _ s Hs Hsz Hw) as Hfin. subst out. revert Hfin.
  unfold asn_realloc_rbuild_signed_int64, rbuild_words. rewrite Z.eqb_refl, !s64_id by cint. cbn [negb].
  assert (Hbit : Z.land (high c) 0x80000000 = 0).
  { change 0x80000000 with (Z.shiftl (Z.ones 1) 31). rewrite land_field by lia.
    rewrite Z.div_small by cint. done. }
  rewrite Hbit, CHECK_OVERFLOW_U_u32, u32_id, CHECK_OVERFLOW_S_id by (unfold INT32_MIN; cint).
  cbn [negb Z.eqb]. destruct (rb_push r (u8 (low c)) s) as [s1| | |]; try done. rewrite !bind_ret.
  assert (H24 : forall x, is_u32 x -> 0 <= Z.shiftr x 8 < 2 ^ (8 * Z.of_nat 3)).
  { intros x Hx. rewrite shr_div by lia. change (2 ^ (8 * Z.of_nat 3)) with 16777216. cint. }
  rewrite (rbuild_low_s_u 3 4 8) by (done || lia || by apply H24).
  destruct (rbuild_low_u r 8 1 (Z.shiftr (low c) 8) s1) as [[count s2]| | |]; try done.
  rewrite !bind_ret. destruct (negb (high c =? 0)); [|done].
  destruct (rbuild_pad r count 0 s2) as [s3| | |]; try done. rewrite !bind_ret.
  destruct (rb_push r (u8 (high c)) s3) as [s4| | |]; try done. rewrite !bind_ret.
  rewrite (rbuild_high_s_u 3 fuel 8) by (done || lia || by apply H24). by rewrite !bind_assoc.
Qed.

(** A negative value: the loop waits for [-1] on a nonnegative word. *)
Lemma rbuild_high_s_never fuel h s s' :
  0 <= h < 2 ^ 31 -> rbuild_high_s r fuel (-1) h s <> Ret s'.
Proof using Type.
  revert h s. induction fuel as [|fuel IH]; intros h s Hh; cbn [rbuild_high_s].
  all: rewrite s32_id by cint; destruct (Z.eqb_spec h (-1)); [lia|]. { done. }
  destruct (rb_push r (u8 h) s) as [s1| | |]; try done. rewrite bind_ret, shr_div by lia.
  apply IH. cint.
Qed.

Lemma asn_realloc_rbuild_signed_int64_negative fuel type c s s' :
  c64_ok c -> 2 ^ 31 <= high c ->
  asn_realloc_rbuild_signed_int64 r fuel type c sizeof_counter64 s <> Ret s'.
Proof using Type.
  intros [Hh Hl] Hneg. unfold asn_realloc_rbuild_signed_int64. rewrite Z.eqb_refl, !s64_id by cint. cbn [negb].
  assert (Hbit : Z.land (high c) 0x80000000 = 2 ^ 31).
  { change 0x80000000 with (Z.shiftl (Z.ones 1) 31). rewrite land_field by lia.
    replace (high c / 2 ^ 31) with 1 by cint. done. }
  rewrite Hbit, CHECK_OVERFLOW_S_id by (unfold INT32_MIN; cint). change (negb (2 ^ 31 =? 0)) with true. cbv iota.
  destruct (rb_push r _ s) as [s1| | |]; try done. rewrite bind_ret.
  destruct (rbuild_low_s r 4 _ 1 _ s1) as [[count s2]| | |]; try done. rewrite bind_ret.
  destruct (Z.eqb_spec (high c) (-1)); [cint|]. cbn [negb].
  destruct (rbuild_pad r count _ s2) as [s3| | |]; try done. rewrite bind_ret.
  destruct (rb_push r _ s3) as [s4| | |]; try done. rewrite bind_ret.
  assert (H24 : 0 <= Z.shiftr (high c) 8 < 2 ^ 31) by (rewrite shr_div by lia; cint).
  destruct (rbuild_high_s r fuel (-1) (Z.shiftr (high c) 8) s4) as [s5| | |] eqn:E; [|done..].
  by apply rbuild_high_s_never in E.
Qed.

(** *** Floating point *)

Lemma rbuild_float_like special n c s :
  rb_ok s -> 0 <= n <= 100 -> Z.of_nat (length c) = n ->
  wr (Z.of_nat (length (tlv ASN_OPAQUE (opaque_wrap special c))))
     (s ← rb_room r (n + 3) s; s ← rb_copy c s; rbuild_opaque r special n s) s
     (tlv ASN_OPAQUE (opaque_wrap special c)).
Proof using Type.
  intros Hs Hn Hc. rewrite tlv_opaque by lia. rewrite Hc.
  apply (wr_room r (n + 3)); [apply rb_room_spec; [done|lia]| |rewrite length_app; cbn [length]; lia|done].
  intros s1 Hs1 Hw1 Hroom.
  apply (st_wr_bind r _ 5); [done|apply rb_copy_spec; [done|lia]|rewrite length_app; cbn [length]; lia|].
  intros s2 Hs2 Hw2 Hp2 Ho2. unfold rb_ok in Hs1. apply rbuild_opaque_spec; [done|lia..].
Qed.

Lemma asn_realloc_rbuild_float_spec type f s :
  rb_ok s ->
  let out := tlv ASN_OPAQUE (opaque_wrap ASN_OPAQUE_FLOAT (be_bytes 4 f)) in
  wr (Z.of_nat (length out)) (asn_realloc_rbuild_float r type f sizeof_float s) s out.
Proof using Type.
  intros Hs out. unfold asn_realloc_rbuild_float, htonl. cbn [negb orb Z.eqb Z.ltb sizeof_float].
  rewrite le_bytes_ntohl. by apply rbuild_float_like.
Qed.

Lemma asn_realloc_rbuild_double_spec type d s :
  rb_ok s ->
  let out := tlv ASN_OPAQUE (opaque_wrap ASN_OPAQUE_DOUBLE (be_bytes 8 d)) in
  wr (Z.of_nat (length out)) (asn_realloc_rbuild_double r type d sizeof_double s) s out.
Proof using Type.
  intros Hs out. unfold asn_realloc_rbuild_double, htonl. cbn [negb orb Z.eqb Z.ltb sizeof_double].
  rewrite !le_bytes_ntohl, <- be_bytes_split. by apply rbuild_float_like.
Qed.
End values.
