(* ===== verification/VarOp.v ===== *)
(** * Variable bindings: the var-op routines of snmplib/snmp.c

    [snmp_build_var_op], [snmp_realloc_rbuild_var_op] and [snmp_parse_var_op].
    A value is the memory [var_val] points to, as the code has it: the
    [switch] on the type decides how its bytes are read. *)

From S2P Require Import Prelude Bytes AsnTypes AsnParse AsnBuild AsnRbuild.

(** ** Reading a value through its pointer *)

Definition sizeof_oid : Z := 8.

(** The 64-bit words of a memory area, on a little-endian host. *)
Fixpoint words_of (m : mem) : list Z :=
  match m with
  | b0 :: b1 :: b2 :: b3 :: b4 :: b5 :: b6 :: b7 :: m =>
      le_val [b0; b1; b2; b3; b4; b5; b6; b7] :: words_of m
  | _ => []
  end.

Definition as_long (m : mem) : outcome Z := s64 <$> rd (words_of m) 0.
Definition as_u_long (m : mem) : outcome Z := rd (words_of m) 0.
Definition as_counter64 (m : mem) : outcome counter64 :=
  high ← rd (words_of m) 0; low ← rd (words_of m) 1; Ret {| high := high; low := low |}.
Definition as_float (m : mem) : outcome Z := le_val <$> rd_n m 0 4.
Definition as_double (m : mem) : outcome Z := rd (words_of m) 0.

(** The dereference of a typed pointer.  The forward builders look at the size
    first and do not touch the value when it is wrong; [dummy] is not used then.
    The reverse builders read the value before they look at the size, and do not use it when
    the size is wrong: that this read may leave a shorter value is not
    modelled. *)
Definition deref {A} (size : Z) (dummy : A) (f : mem -> outcome A) (var_val : option mem)
    (var_val_len : Z) : outcome A :=
  if var_val_len =? size then
    match var_val with Some m => f m | None => Overrun end
  else Ret dummy.

Definition bytes_of (var_val : option mem) : mem := default [] var_val.

(** ** Building *)

(** The [switch] of [snmp_build_var_op]. *)
Definition build_value (listlength t : Z) (var_val : option mem) (var_val_len : Z)
    : outcome (list Z * Z) :=
  if t =? ASN_INTEGER then
    v ← deref sizeof_long 0 as_long var_val var_val_len;
    asn_build_int listlength t v var_val_len
  else if is_uint_type t then
    v ← deref sizeof_long 0 as_u_long var_val var_val_len;
    asn_build_unsigned_int listlength t v var_val_len
  else if is_uint64_type t then
    c ← deref sizeof_counter64 (c64_of 0) as_counter64 var_val var_val_len;
    asn_build_unsigned_int64 listlength t c var_val_len
  else if is_string_type t then asn_build_string listlength t var_val var_val_len
  else if t =? ASN_OBJECT_ID then
    asn_build_objid listlength t (words_of (bytes_of var_val)) (var_val_len / sizeof_oid)
  else if is_null_type t then asn_build_null listlength t
  else if t =? ASN_BIT_STR then asn_build_bitstring listlength t var_val var_val_len
  else if t =? ASN_OPAQUE_FLOAT then
    f ← deref sizeof_float 0 as_float var_val var_val_len;
    asn_build_float listlength t f var_val_len
  else if t =? ASN_OPAQUE_DOUBLE then
    d ← deref sizeof_double 0 as_double var_val var_val_len;
    asn_build_double listlength t d var_val_len
  else if t =? ASN_OPAQUE_I64 then
    c ← deref sizeof_counter64 (c64_of 0) as_counter64 var_val var_val_len;
    asn_build_signed_int64 listlength t c var_val_len
  else Null.

(** [hole] is what the four bytes kept for the sequence header hold before;
    the result of the last call is not looked at. *)
Definition snmp_build_var_op (hole : list Z) (var_name : list Z) (var_name_len : Z)
    (var_val_type : Z) (var_val_len : Z) (var_val : option mem) (listlength : Z)
    : outcome (list Z * Z) :=
  let dummyLen := listlength in
  if dummyLen <? 4 then Null
  else
    let headerLen := 4 in
    let listlength := u64 (listlength - headerLen) in
    '(name, listlength) ← asn_build_objid listlength ASN_OBJECT_ID var_name var_name_len;
    '(value, listlength) ← build_value listlength var_val_type var_val var_val_len;
    let dummyLen := Z.of_nat (length (name ++ value)) in
    let header := match asn_build_sequence dummyLen (Z.lor ASN_SEQUENCE ASN_CONSTRUCTOR) dummyLen with
                  | Ret (header, _) => header
                  | _ => hole
                  end in
    Ret (header ++ name ++ value, listlength).

Section rbuild.
Context `{Allocator} (allow_realloc : bool).

(** The [switch] of [snmp_realloc_rbuild_var_op]; [fuel] is that of
    [asn_realloc_rbuild_signed_int64]. *)
Definition rbuild_value (fuel : nat) (t : Z) (var_val : option mem) (var_val_len : Z) (s : rbuf)
    : outcome rbuf :=
  let r := allow_realloc in
  if t =? ASN_INTEGER then
    v ← deref sizeof_long 0 as_long var_val var_val_len;
    asn_realloc_rbuild_int r t v var_val_len s
  else if is_uint_type t then
    v ← deref sizeof_long 0 as_u_long var_val var_val_len;
    asn_realloc_rbuild_unsigned_int r t v var_val_len s
  else if is_uint64_type t then
    c ← deref sizeof_counter64 (c64_of 0) as_counter64 var_val var_val_len;
    asn_realloc_rbuild_unsigned_int64 r t c var_val_len s
  else if is_string_type t then asn_realloc_rbuild_string r t (bytes_of var_val) var_val_len s
  else if t =? ASN_OBJECT_ID then
    asn_realloc_rbuild_objid r t (words_of (bytes_of var_val)) (var_val_len / sizeof_oid) s
  else if is_null_type t then asn_realloc_rbuild_null r t s
  else if t =? ASN_BIT_STR then
    asn_realloc_rbuild_bitstring r t (bytes_of var_val) var_val_len s
  else if t =? ASN_OPAQUE_FLOAT then
    f ← deref sizeof_float 0 as_float var_val var_val_len;
    asn_realloc_rbuild_float r t f var_val_len s
  else if t =? ASN_OPAQUE_DOUBLE then
    d ← deref sizeof_double 0 as_double var_val var_val_len;
    asn_realloc_rbuild_double r t d var_val_len s
  else if t =? ASN_OPAQUE_I64 then
    c ← deref sizeof_counter64 (c64_of 0) as_counter64 var_val var_val_len;
    asn_realloc_rbuild_signed_int64 r fuel t c var_val_len s
  else Null.

Definition snmp_realloc_rbuild_var_op (fuel : nat) (var_name : list Z) (var_name_len : Z)
    (var_val_type : Z) (var_val : option mem) (var_val_len : Z) (s : rbuf) : outcome rbuf :=
  let start_offset := offset s in
  s ← rbuild_value fuel var_val_type var_val var_val_len s;
  s ← asn_realloc_rbuild_objid allow_realloc ASN_OBJECT_ID var_name var_name_len s;
  asn_realloc_rbuild_sequence allow_realloc (Z.lor ASN_SEQUENCE ASN_CONSTRUCTOR)
    (offset s - start_offset) s.
End rbuild.

(** ** Parsing *)

(** The outputs of [snmp_parse_var_op]. *)
Record var_op := {
  var_end : Z;            (* the returned pointer *)
  var_name : list Z;
  var_val_type : Z;
  var_val_len : Z;
  var_val : Z;            (* where the encoded value starts *)
  listlength : Z;
}.

Definition snmp_parse_var_op (m : mem) (data var_name_len listlength : Z) : outcome var_op :=
  let var_op_start := data in
  '(data, _, var_op_len) ← asn_parse_sequence m data listlength (Z.lor ASN_SEQUENCE ASN_CONSTRUCTOR);
  '(data, var_op_type, var_name, var_op_len) ← asn_parse_objid m data var_op_len var_name_len;
  if negb (var_op_type =? ASN_OBJECT_ID) then Null
  else
    let var_val := data in
    '(data, var_val_type, var_op_len) ← asn_parse_header m data var_op_len;
    let data := data + var_op_len in
    Ret {| var_end := data; var_name := var_name; var_val_type := var_val_type;
           var_val_len := var_op_len; var_val := var_val;
           listlength := u64 (listlength - s32 (data - var_op_start)) |}.
