(* ===== verification/Pdu.v ===== *)
(** * Protocol data units: building and parsing in snmplib/snmp_api.c

    [snmp_pdu_build], [snmp_pdu_realloc_rbuild] with its ring of variable
    pointers, and [snmp_pdu_parse]. *)

From S2P Require Import Prelude Bytes AsnTypes AsnParse AsnBuild AsnRbuild VarOp.

(** ** Data *)

Definition SNMP_MSG_GET : Z := Z.lor (Z.lor ASN_CONTEXT ASN_CONSTRUCTOR) 0x0.
Definition SNMP_MSG_GETNEXT : Z := Z.lor (Z.lor ASN_CONTEXT ASN_CONSTRUCTOR) 0x1.
Definition SNMP_MSG_RESPONSE : Z := Z.lor (Z.lor ASN_CONTEXT ASN_CONSTRUCTOR) 0x2.
Definition SNMP_MSG_SET : Z := Z.lor (Z.lor ASN_CONTEXT ASN_CONSTRUCTOR) 0x3.
Definition SNMP_MSG_TRAP : Z := Z.lor (Z.lor ASN_CONTEXT ASN_CONSTRUCTOR) 0x4.
Definition SNMP_MSG_GETBULK : Z := Z.lor (Z.lor ASN_CONTEXT ASN_CONSTRUCTOR) 0x5.
Definition SNMP_MSG_INFORM : Z := Z.lor (Z.lor ASN_CONTEXT ASN_CONSTRUCTOR) 0x6.
Definition SNMP_MSG_TRAP2 : Z := Z.lor (Z.lor ASN_CONTEXT ASN_CONSTRUCTOR) 0x7.
Definition SNMP_MSG_REPORT : Z := Z.lor (Z.lor ASN_CONTEXT ASN_CONSTRUCTOR) 0x8.

Definition UCD_MSG_FLAG_RESPONSE_PDU : Z := 0x100.
Definition MAX_PACKET_LENGTH : Z := 0x7fffffff.

(** One element of the list of variables: [val] is the memory the value
    pointer points to, [None] for a NULL pointer. *)
Record variable_list := {
  name : list Z;
  type : Z;
  val : option mem;
  val_len : Z;
}.

(** The fields of [netsnmp_pdu] these routines touch; [errstat] and
    [errindex] are also the [non_repeaters] and [max_repetitions] of a
    GETBULK. *)
Record snmp_pdu := {
  command : Z;
  reqid : Z;
  errstat : Z;
  errindex : Z;
  time : Z;
  flags : Z;
  variables : list variable_list;
  enterprise : list Z;
  trap_type : Z;
  specific_type : Z;
  agent_addr : list Z;
}.

(** ** Forward building *)

Definition build_var (hole : list Z) (out_length : Z) (vp : variable_list) : outcome (list Z * Z) :=
  snmp_build_var_op hole (name vp) (Z.of_nat (length (name vp))) (type vp) (val_len vp) (val vp)
    out_length.

(** [for (vp = pdu->variables; vp; vp = vp->next_variable)] *)
Fixpoint build_vars (hole : list Z) (out_length : Z) (vars : list variable_list)
    : outcome (list Z * Z) :=
  match vars with
  | [] => Ret ([], out_length)
  | vp :: vars =>
      '(out, out_length) ← build_var hole out_length vp;
      '(rest, out_length) ← build_vars hole out_length vars;
      Ret (out ++ rest, out_length)
  end.

(** The fields before the variable-bindings sequence. *)
Definition build_fields (out_length : Z) (pdu : snmp_pdu) : outcome (list Z * Z) :=
  if negb (command pdu =? SNMP_MSG_TRAP) then
    '(o1, out_length) ← asn_build_int out_length ASN_INTEGER (reqid pdu) sizeof_long;
    '(o2, out_length) ← asn_build_int out_length ASN_INTEGER (errstat pdu) sizeof_long;
    '(o3, out_length) ← asn_build_int out_length ASN_INTEGER (errindex pdu) sizeof_long;
    Ret (o1 ++ o2 ++ o3, out_length)
  else
    '(o1, out_length) ← asn_build_objid out_length ASN_OBJECT_ID (enterprise pdu)
                          (Z.of_nat (length (enterprise pdu)));
    '(o2, out_length) ← asn_build_string out_length ASN_IPADDRESS (Some (agent_addr pdu)) 4;
    '(o3, out_length) ← asn_build_int out_length ASN_INTEGER (trap_type pdu) sizeof_long;
    '(o4, out_length) ← asn_build_int out_length ASN_INTEGER (specific_type pdu) sizeof_long;
    '(o5, out_length) ← asn_build_unsigned_int out_length ASN_TIMETICKS (time pdu) sizeof_long;
    Ret (o1 ++ o2 ++ o3 ++ o4 ++ o5, out_length).

(** A call whose result is not looked at, on a place that holds [old]. *)
Definition overwrite_sequence (length type len : Z) (old : list Z) : list Z * Z :=
  match asn_build_sequence length type len with
  | Ret (header, length) => (header, length)
  | _ => (old, length)
  end.

(** [hole]: see [snmp_build_var_op]. *)
Definition snmp_pdu_build (hole : list Z) (pdu : snmp_pdu) (out_length : Z) : outcome (list Z * Z) :=
  let length := out_length in
  '(h1, out_length) ← asn_build_sequence out_length (u8 (command pdu)) 0;
  '(fields, out_length) ← build_fields out_length pdu;
  '(h2, out_length) ← asn_build_sequence out_length (Z.lor ASN_SEQUENCE ASN_CONSTRUCTOR) 0;
  '(vars, out_length) ← build_vars hole out_length (variables pdu);
  let '(h2, length) := overwrite_sequence length (Z.lor ASN_SEQUENCE ASN_CONSTRUCTOR)
                         (Z.of_nat (List.length vars)) h2 in
  let '(h1, length) := overwrite_sequence length (u8 (command pdu))
                         (Z.of_nat (List.length (fields ++ h2 ++ vars))) h1 in
  Ret (h1 ++ fields ++ h2 ++ vars, out_length).

(** ** Reverse building *)

Definition VPCACHE_SIZE : Z := 50.

(** A [netsnmp_variable_list *] is the position of the variable in the list;
    an entry of [vpcache] that was never stored is [None]. *)
Abbreviation vpcache := (list (option nat)).

(** [for (vp = .., i = VPCACHE_SIZE - 1; vp; vp = vp->next_variable, i--)] *)
Fixpoint vpcache_fill (vps : list nat) (i : Z) (wrapped : bool) (cache : vpcache) : Z * bool * vpcache :=
  match vps with
  | [] => (i, wrapped, cache)
  | vp :: vps =>
      let '(i, wrapped) := if i <? 0 then (VPCACHE_SIZE - 1, true) else (i, wrapped) in
      vpcache_fill vps (i - 1) wrapped (<[Z.to_nat i := Some vp]> cache)
  end.

(** The variables before the pointer [tmpvp]. *)
Fixpoint until (tmpvp : nat) (vps : list nat) : list nat :=
  match vps with
  | [] => []
  | vp :: vps => if decide (vp = tmpvp) then [] else vp :: until tmpvp vps
  end.

Section rbuild.
Context `{Allocator} (fuel64 : nat).

Definition rbuild_var (vp : variable_list) (s : rbuf) : outcome rbuf :=
  snmp_realloc_rbuild_var_op true fuel64 (name vp) (Z.of_nat (length (name vp))) (type vp) (val vp)
    (val_len vp) s.

(** [for (i = first; i < first + n; i++)]: the variables of these entries. *)
Fixpoint rbuild_entries (vars : list variable_list) (cache : vpcache) (first n : nat) (s : rbuf)
    : outcome rbuf :=
  match n with
  | O => Ret s
  | S n =>
      match cache !! first with
      | Some (Some i) =>
          match vars !! i with
          | Some vp => s ← rbuild_var vp s; rbuild_entries vars cache (S first) n s
          | None => Overrun
          end
      | _ => Overrun
      end
  end.

(** [do { .. } while (notdone)]; [final] is [i + 1] after the last filling. *)
Fixpoint rbuild_rounds (fuel : nat) (vars : list variable_list) (cache : vpcache) (final : nat)
    (wrapped : bool) (s : rbuf) : outcome rbuf :=
  match fuel with
  | O => Spin
  | S fuel =>
      s ← rbuild_entries vars cache final (Z.to_nat VPCACHE_SIZE - final) s;
      if wrapped then
        s ← rbuild_entries vars cache 0 final s;
        match cache !! (if (final =? 0)%nat then Z.to_nat VPCACHE_SIZE - 1 else final - 1)%nat with
        | Some (Some tmpvp) =>
            let '(i, wrapped, cache) :=
              vpcache_fill (until tmpvp (seq 0 (length vars))) (VPCACHE_SIZE - 1) false cache in
            rbuild_rounds fuel vars cache (Z.to_nat (i + 1)) wrapped s
        | _ => Overrun
        end
      else Ret s
  end.

Definition rbuild_vars (vars : list variable_list) (s : rbuf) : outcome rbuf :=
  let '(i, wrapped, cache) :=
    vpcache_fill (seq 0 (length vars)) (VPCACHE_SIZE - 1) false
      (replicate (Z.to_nat VPCACHE_SIZE) None) in
  rbuild_rounds (S (length vars)) vars cache (Z.to_nat (i + 1)) wrapped s.

Definition rbuild_fields (pdu : snmp_pdu) (s : rbuf) : outcome rbuf :=
  if negb (command pdu =? SNMP_MSG_TRAP) then
    s ← asn_realloc_rbuild_int true ASN_INTEGER (errindex pdu) sizeof_long s;
    s ← asn_realloc_rbuild_int true ASN_INTEGER (errstat pdu) sizeof_long s;
    asn_realloc_rbuild_int true ASN_INTEGER (reqid pdu) sizeof_long s
  else
    s ← asn_realloc_rbuild_unsigned_int true ASN_TIMETICKS (time pdu) sizeof_long s;
    s ← asn_realloc_rbuild_int true ASN_INTEGER (specific_type pdu) sizeof_long s;
    s ← asn_realloc_rbuild_int true ASN_INTEGER (trap_type pdu) sizeof_long s;
    s ← asn_realloc_rbuild_string true ASN_IPADDRESS (agent_addr pdu) 4 s;
    asn_realloc_rbuild_objid true ASN_OBJECT_ID (enterprise pdu)
      (Z.of_nat (length (enterprise pdu))) s.

(** The result of the first [asn_realloc_rbuild_sequence] is overwritten
    unread.  It fails only for lack of memory, and the fields that follow
    then fail for the same reason. *)
Definition snmp_pdu_realloc_rbuild (pdu : snmp_pdu) (s : rbuf) : outcome rbuf :=
  let start_offset := offset s in
  s ← rbuild_vars (variables pdu) s;
  s ← asn_realloc_rbuild_sequence true (Z.lor ASN_SEQUENCE ASN_CONSTRUCTOR) (offset s - start_offset) s;
  s ← rbuild_fields pdu s;
  asn_realloc_rbuild_sequence true (u8 (command pdu)) (offset s - start_offset) s.
End rbuild.

(** ** Parsing *)

Definition sizeof_variable_list : Z := 1136.
Definition sizeof_buf : Z := 40.

Section parse.
Context `{Allocator}.
(** The results of the value parsers are not looked at.  What a failing one
    leaves in the type, the value and its length of the variable at
    [var_val] is unspecified: the buffers are not initialised. *)
Context (leftover : Z -> Z * option mem * Z).

Definition kept {A} (var_val : Z) (r : outcome A) (f : A -> Z * option mem * Z)
    : outcome (Z * option mem * Z) :=
  match r with
  | Ret a => Ret (f a)
  | Null => Ret (leftover var_val)
  | Overrun => Overrun
  | Spin => Spin
  end.

(** The [switch] on the type; the flag is [badtype]. *)
Definition parse_value (m : mem) (var_val type val_len : Z) : outcome (Z * option mem * Z * bool) :=
  let len := MAX_PACKET_LENGTH in
  let ok (r : outcome (Z * option mem * Z)) := r ≫= (fun v => Ret (v, false)) in
  if type =? ASN_INTEGER then
    ok (kept var_val (asn_parse_int m var_val len sizeof_long)
          (fun '(_, type, v, _) => (type, Some (le_bytes 8 v), sizeof_long)))
  else if is_uint_type type then
    ok (kept var_val (asn_parse_unsigned_int m var_val len sizeof_long)
          (fun '(_, type, v, _) => (type, Some (le_bytes 8 v), sizeof_long)))
  else if is_uint64_type type then
    ok (kept var_val (asn_parse_unsigned_int64 m var_val len sizeof_counter64)
          (fun '(_, type, c, _) =>
             (type, Some (le_bytes 8 (high c) ++ le_bytes 8 (low c)), sizeof_counter64)))
  else if type =? ASN_OPAQUE_FLOAT then
    ok (kept var_val (asn_parse_float m var_val len sizeof_float)
          (fun '(_, type, f, _) => (type, Some (le_bytes 4 f), sizeof_float)))
  else if type =? ASN_OPAQUE_DOUBLE then
    ok (kept var_val (asn_parse_double m var_val len sizeof_double)
          (fun '(_, type, d, _) => (type, Some (le_bytes 8 d), sizeof_double)))
  else if type =? ASN_OPAQUE_I64 then
    ok (kept var_val (asn_parse_signed_int64 m var_val len sizeof_counter64)
          (fun '(_, type, c, _) =>
             (type, Some (le_bytes 8 (high c) ++ le_bytes 8 (low c)), sizeof_counter64)))
  else if is_string_type type then
    if negb (val_len <? sizeof_buf) && negb (alloc val_len) then Null
    else
      ok (kept var_val (asn_parse_string m var_val len val_len)
            (fun '(_, type, str, _) => (type, Some str, Z.of_nat (length str))))
  else if type =? ASN_OBJECT_ID then
    v ← kept var_val (asn_parse_objid m var_val len MAX_OID_LEN)
          (fun '(_, type, objid, _) =>
             (type, Some (concat (map (le_bytes 8) objid)), Z.of_nat (length objid) * sizeof_oid));
    let '(_, _, val_len) := v in
    if alloc val_len then Ret (v, false) else Null
  else if is_null_type type then Ret (type, None, val_len, false)
  else if type =? ASN_BIT_STR then
    if alloc val_len then
      ok (kept var_val (asn_parse_bitstring m var_val len val_len)
            (fun '(_, type, str, _) => (type, Some str, Z.of_nat (length str))))
    else Null
  else Ret (type, None, val_len, true).

(** One turn of the loop: the next variable binding. *)
Definition parse_var (m : mem) (data length : Z) : outcome (variable_list * bool * Z * Z) :=
  if negb (alloc sizeof_variable_list) then Null
  else
    v ← snmp_parse_var_op m data MAX_OID_LEN length;
    '(type, val, val_len, bad) ← parse_value m (var_val v) (var_val_type v) (var_val_len v);
    Ret ({| name := var_name v; type := type; val := val; val_len := val_len |},
         bad, var_end v, listlength v).

(** [while ((int) *length > 0)]; each turn consumes two bytes at least. *)
Fixpoint parse_vars (fuel : nat) (m : mem) (data length : Z) (badtype : bool)
    : outcome (list variable_list * bool) :=
  if 0 <? s32 length then
    match fuel with
    | O => Spin
    | S fuel =>
        '(vp, bad, data, length) ← parse_var m data length;
        '(vars, badtype) ← parse_vars fuel m data length (badtype || bad);
        Ret (vp :: vars, badtype)
    end
  else Ret ([], badtype).

(** [strlength] bytes were stored at the start of an array. *)
Definition store_prefix (str old : list Z) : list Z := str ++ drop (length str) old.

(** The commands of the second group of cases. *)
Definition is_v2_command (c : Z) : bool :=
  (c =? SNMP_MSG_RESPONSE) || (c =? SNMP_MSG_REPORT) || (c =? SNMP_MSG_GET)
  || (c =? SNMP_MSG_GETNEXT) || (c =? SNMP_MSG_GETBULK) || (c =? SNMP_MSG_SET)
  || (c =? SNMP_MSG_TRAP2) || (c =? SNMP_MSG_INFORM).

(** The fields before the variable bindings: the [switch] on the command. *)
Definition parse_fields (m : mem) (data length msg_type : Z) (pdu : snmp_pdu)
    : outcome (snmp_pdu * Z * Z) :=
  let flags := Z.land (flags pdu) (Z.lnot UCD_MSG_FLAG_RESPONSE_PDU) in
  if msg_type =? SNMP_MSG_TRAP then
    '(data, _, enterprise, length) ← asn_parse_objid m data length MAX_OID_LEN;
    if negb (alloc (Z.of_nat (List.length enterprise) * sizeof_oid)) then Null
    else
      '(data, _, addr, length) ← asn_parse_string m data length 4;
      '(data, _, trap_type, length) ← asn_parse_int m data length sizeof_long;
      '(data, _, specific_type, length) ← asn_parse_int m data length sizeof_long;
      '(data, _, time, length) ← asn_parse_unsigned_int m data length sizeof_long;
      Ret ({| command := msg_type; reqid := reqid pdu; errstat := errstat pdu;
              errindex := errindex pdu; time := time; flags := flags;
              variables := variables pdu; enterprise := enterprise; trap_type := trap_type;
              specific_type := specific_type;
              agent_addr := store_prefix addr (agent_addr pdu) |}, data, length)
  else if is_v2_command msg_type then
    let flags := if (msg_type =? SNMP_MSG_RESPONSE) || (msg_type =? SNMP_MSG_REPORT)
                 then Z.lor flags UCD_MSG_FLAG_RESPONSE_PDU else flags in
    '(data, _, reqid, length) ← asn_parse_int m data length sizeof_long;
    '(data, _, errstat, length) ← asn_parse_int m data length sizeof_long;
    '(data, _, errindex, length) ← asn_parse_int m data length sizeof_long;
    Ret ({| command := msg_type; reqid := reqid; errstat := errstat; errindex := errindex;
            time := time pdu; flags := flags; variables := variables pdu;
            enterprise := enterprise pdu; trap_type := trap_type pdu;
            specific_type := specific_type pdu; agent_addr := agent_addr pdu |}, data, length)
  else Null.

Definition set_variables (pdu : snmp_pdu) (vars : list variable_list) : snmp_pdu :=
  {| command := command pdu; reqid := reqid pdu; errstat := errstat pdu; errindex := errindex pdu;
     time := time pdu; flags := flags pdu; variables := vars; enterprise := enterprise pdu;
     trap_type := trap_type pdu; specific_type := specific_type pdu; agent_addr := agent_addr pdu |}.

(** The flag is [badtype], returned as -1 or 0; [Null] is the other -1. *)
Definition snmp_pdu_parse (m : mem) (pdu : snmp_pdu) (data length : Z) : outcome (snmp_pdu * bool) :=
  '(data, msg_type, length) ← asn_parse_header m data length;
  '(pdu, data, length) ← parse_fields m data length msg_type pdu;
  '(data, _, length) ← asn_parse_sequence m data length (Z.lor ASN_SEQUENCE ASN_CONSTRUCTOR);
  '(vars, badtype) ← parse_vars (Z.to_nat length) m data length false;
  Ret (match vars with [] => pdu | _ => set_variables pdu vars end, badtype).
End parse.
