(* ===== verification/Codec.v ===== *)
(** * The interface between the BER routines and their clients

    A [codec A] is what asn1.c promises to the variable bindings and the PDUs
    for values of one kind: the memory image of a value, its encoding, and
    the laws of the two builders, of the header parser and of the value
    parser.  The components above are proved against this record only; the
    codecs of the SNMP value types discharge it. *)

From S2P Require Import Prelude Bytes AsnTypes AsnParse AsnBuild AsnBuildSpec AsnParseSpec.
From S2P Require Import AsnRbuild AsnRbuildSpec VarOp Pdu.

Record codec (A : Type) := {
  mem_of : A -> option mem;
  len_of : A -> Z;
  enc : Z -> A -> list Z;
  valid : Z -> A -> Prop;

  enc_bounds : forall t a, valid t a -> 2 <= Z.of_nat (length (enc t a)) < 65536;

  build_ok : forall dl t a,
    is_u64 dl -> valid t a ->
    build_value dl t (mem_of a) (len_of a) = take_room (enc t a) dl;

  rbuild_ok : forall `{Allocator} r fuel t a s,
    rb_ok s -> (3 <= fuel)%nat -> valid t a ->
    wr r (Z.of_nat (length (enc t a))) (rbuild_value r fuel t (mem_of a) (len_of a) s) s (enc t a);

  header_ok : forall m p dl t a,
    is_u64 dl -> valid t a -> bytes_at m p (enc t a) -> Z.of_nat (length (enc t a)) <= dl ->
    exists q n, asn_parse_header m p dl = Ret (q, t, n) /\ q + n = p + Z.of_nat (length (enc t a))
                /\ 0 <= n;

  parse_ok : forall `{Allocator} leftover m p dl t a q n,
    is_u64 dl -> valid t a -> bytes_at m p (enc t a) -> Z.of_nat (length (enc t a)) <= dl ->
    asn_parse_header m p dl = Ret (q, t, n) ->
    (forall k, k <= 1024 \/ k <= Z.of_nat (length (enc t a)) -> alloc k = true) ->
    parse_value leftover m p t n = Ret (t, mem_of a, len_of a, false);
}.
Arguments mem_of {A} c.
Arguments len_of {A} c.
Arguments enc {A} c.
Arguments valid {A} c.
Arguments enc_bounds {A} c.
Arguments build_ok {A} c.
Arguments rbuild_ok {A} c {_}.
Arguments header_ok {A} c.
Arguments parse_ok {A} c {_}.

(** ** Memory images *)

Lemma le_val_le_bytes n x : le_val (le_bytes n x) = x mod 2 ^ (8 * Z.of_nat n).
Proof. unfold le_val, le_bytes. by rewrite rev_involutive, be_val_mod. Qed.

Lemma length_le_bytes n x : length (le_bytes n x) = n.
Proof. unfold le_bytes. by rewrite length_rev, length_be_bytes. Qed.

(** The words of an area whose bytes are those of a word and of more words. *)
Lemma words_of_cons x m : is_u64 x -> words_of (le_bytes 8 x ++ m) = x :: words_of m.
Proof.
  intros Hx. pose proof (le_val_le_bytes 8 x) as Hv. change (8 * Z.of_nat 8) with 64 in Hv.
  rewrite Z.mod_small in Hv by (unfold is_u64 in Hx; lia).
  pose proof (length_le_bytes 8 x) as Hl. revert Hv Hl. generalize (le_bytes 8 x) as l.
  intros l Hv Hl. do 8 (destruct l as [|? l]; [done|]). destruct l; [|done]. cbn [app words_of]. by rewrite Hv.
Qed.

Lemma words_of_map l : Forall is_u64 l -> words_of (concat (map (le_bytes 8) l)) = l.
Proof. induction 1 as [|x l Hx Hl IH]; [done|]. cbn [map concat]. by rewrite words_of_cons, IH. Qed.

Lemma words_of_one x : is_u64 x -> words_of (le_bytes 8 x) = [x].
Proof. intros. by rewrite <- (app_nil_r (le_bytes 8 x)), words_of_cons. Qed.

Lemma le_bytes_u64 x : le_bytes 8 x = le_bytes 8 (u64 x).
Proof.
  unfold le_bytes. f_equal. symmetry. exact (be_bytes_low 8 x).
Qed.

Lemma as_long_spec v : is_s64 v -> as_long (le_bytes 8 v) = Ret v.
Proof.
  intros. unfold as_long. rewrite le_bytes_u64, words_of_one by apply u64_range.
  change (Ret (s64 (u64 v)) = Ret v). f_equal. cint.
Qed.

Lemma as_u_long_spec v : is_u64 v -> as_u_long (le_bytes 8 v) = Ret v.
Proof. intros. unfold as_u_long. by rewrite words_of_one. Qed.

Lemma as_counter64_spec c : c64_ok c -> as_counter64 (le_bytes 8 (high c) ++ le_bytes 8 (low c)) = Ret c.
Proof.
  intros [Hh Hl]. unfold as_counter64. rewrite words_of_cons, words_of_one by cint.
  by destruct c.
Qed.

Lemma as_float_spec f : is_u32 f -> as_float (le_bytes 4 f) = Ret f.
Proof.
  intros Hf. unfold as_float. rewrite <- (length_le_bytes 4 f) at 2.
  rewrite rd_n_whole. change (Ret (le_val (le_bytes 4 f)) = Ret f). rewrite le_val_le_bytes. change (8 * Z.of_nat 4) with 32.
  by rewrite Z.mod_small by exact Hf.
Qed.

(** ** Headers *)

(** The header of a plain object: neither an extension tag nor an Opaque. *)
Lemma header_plain m p dl t c :
  is_u64 dl -> IS_EXTENSION_ID t = false -> t <> ASN_OPAQUE -> len_ok (Z.of_nat (length c)) ->
  bytes_at m p (tlv t c) -> Z.of_nat (length (tlv t c)) <= dl ->
  asn_parse_header m p dl
  = Ret (p + hdr_len (Z.of_nat (length c)), t, Z.of_nat (length c)).
Proof.
  intros Hdl Hext Hop Hc Hat Hn. unfold asn_parse_header.
  rewrite (parse_checked_tlv m p dl _ _ Hc Hat Hn).
  apply tlv_at in Hat as (-> & _ & _). rewrite bind_ret, Hext, bind_ret.
  destruct (Z.eqb_spec t ASN_OPAQUE); [done|]. unfold len_ok in Hc.
  by rewrite s32_id, u64_id by cint.
Qed.

(** The header of a special value: the one inside the Opaque. *)
Lemma header_opaque m p dl special c :
  is_u64 dl -> is_opaque_special special = true -> (length c <= 100)%nat ->
  let out := tlv ASN_OPAQUE (opaque_wrap special c) in
  bytes_at m p out -> Z.of_nat (length out) <= dl ->
  asn_parse_header m p dl = Ret (p + 5, special, Z.of_nat (length c))
  /\ p + 5 + Z.of_nat (length c) = p + Z.of_nat (length out).
Proof.
  intros Hdl Hs Hc out Hat Hn. split; [|by apply opaque_end].
  unfold asn_parse_header. rewrite (opaque_tag _ _ _ _ Hat), bind_ret.
  change (IS_EXTENSION_ID ASN_OPAQUE) with false. cbv iota.
  rewrite (opaque_outer _ _ _ _ _ Hc Hat Hn), bind_ret. change (ASN_OPAQUE =? ASN_OPAQUE) with true.
  destruct (opaque_inside _ _ _ _ Hc Hat) as (-> & -> & _ & _). rewrite bind_ret, Z.eqb_refl, bind_ret, Hs.
  rewrite (opaque_inner _ _ _ _ _ Hc Hat Hn), bind_ret. by rewrite s32_id, u64_id by cint.
Qed.

(** ** The codecs of the value types *)

Lemma max_packet_u64 : is_u64 MAX_PACKET_LENGTH.
Proof. unfold MAX_PACKET_LENGTH. cint. Qed.

Lemma enc_fits_packet (out : list Z) :
  2 <= Z.of_nat (length out) < 65536 -> Z.of_nat (length out) <= MAX_PACKET_LENGTH.
Proof. unfold MAX_PACKET_LENGTH. lia. Qed.

Lemma tlv_int_small t v : 2 <= Z.of_nat (length (tlv t (int_octets v))) < 65536.
Proof.
  rewrite length_tlv, length_int_octets. pose proof (int_size_bounds v).
  pose proof (hdr_len_bound (Z.of_nat (int_size v))). lia.
Qed.

Lemma tlv_opaque_small special c :
  (length c <= 100)%nat -> 2 <= Z.of_nat (length (tlv ASN_OPAQUE (opaque_wrap special c))) < 65536.
Proof. intros. rewrite tlv_opaque, length_app by done. cbn [length]. lia. Qed.

#[local] Hint Resolve max_packet_u64 enc_fits_packet tlv_int_small tlv_opaque_small : cint.
#[local] Hint Resolve int_octets_len_ok : cint.

(** A plain header, as the law states it. *)
Lemma header_plain_law m p dl t c :
  is_u64 dl -> IS_EXTENSION_ID t = false -> t <> ASN_OPAQUE -> len_ok (Z.of_nat (length c)) ->
  bytes_at m p (tlv t c) -> Z.of_nat (length (tlv t c)) <= dl ->
  exists q n, asn_parse_header m p dl = Ret (q, t, n)
              /\ q + n = p + Z.of_nat (length (tlv t c)) /\ 0 <= n.
Proof.
  intros. do 2 eexists. split; [by apply header_plain|]. rewrite length_tlv. lia.
Qed.

Lemma header_opaque_law m p dl special c :
  is_u64 dl -> is_opaque_special special = true -> (length c <= 100)%nat ->
  let out := tlv ASN_OPAQUE (opaque_wrap special c) in
  bytes_at m p out -> Z.of_nat (length out) <= dl ->
  exists q n, asn_parse_header m p dl = Ret (q, special, n)
              /\ q + n = p + Z.of_nat (length out) /\ 0 <= n.
Proof.
  intros Hdl Hs Hc out Hat Hn. destruct (header_opaque m p dl special c) as [H1 H2]; try done.
  do 2 eexists. split; [exact H1|]. split; [exact H2|]. lia.
Qed.

Lemma deref_ok {A} size (d : A) f m : deref size d f (Some m) size = f m.
Proof. unfold deref. by rewrite Z.eqb_refl. Qed.

#[local] Obligation Tactic := cbv beta.

(** INTEGER: a [long] that 32 bits can hold, signed or not. *)
Program Definition int_codec : codec Z := {|
  mem_of v := Some (le_bytes 8 v);
  len_of _ := sizeof_long;
  enc t v := tlv t (int_octets v);
  valid t v := t = ASN_INTEGER /\ INT32_MIN <= v < 2 ^ 32;
|}.
Next Obligation. intros. auto with cint. Qed.
Next Obligation.
  intros dl t v Hdl [-> Hv]. unfold build_value. rewrite Z.eqb_refl, deref_ok.
  unfold INT32_MIN in *. rewrite as_long_spec by cint. rewrite bind_ret, asn_build_int_spec, CHECK_OVERFLOW_S_id by (done || unfold INT32_MIN; lia). done.
Qed.
Next Obligation.
  intros ? r fuel t v s Hs _ [-> Hv]. unfold rbuild_value. rewrite Z.eqb_refl, deref_ok.
  unfold INT32_MIN in *. rewrite as_long_spec by cint.
  rewrite bind_ret. pose proof (asn_realloc_rbuild_int_spec r ASN_INTEGER v s Hs) as Hw.
  cbv zeta in Hw. rewrite CHECK_OVERFLOW_S_id in Hw by (unfold INT32_MIN; lia). exact Hw.
Qed.
Next Obligation. intros m p dl t v Hdl [-> Hv]. apply header_plain_law; auto with cint. Qed.
Next Obligation.
  intros ? lo m p dl t v q n Hdl [-> Hv] Hat Hn _ _. unfold parse_value, INT32_MIN in *.
  change (ASN_INTEGER =? ASN_INTEGER) with true. cbv iota.
  rewrite (asn_parse_int_spec m p MAX_PACKET_LENGTH v) by (auto with cint || cint).
  cbn. by rewrite CHECK_OVERFLOW_S_id by (unfold INT32_MIN; lia).
Qed.

(** A test on the type, as the list of its cases. *)
Ltac tag_cases H :=
  unfold is_uint_type, is_uint64_type, is_string_type, is_null_type in H;
  repeat (apply orb_prop in H as [H|H]); apply Z.eqb_eq in H; subst.

(** Counter32, Gauge32, TimeTicks, UInteger32. *)
Program Definition uint_codec : codec Z := {|
  mem_of v := Some (le_bytes 8 v);
  len_of _ := sizeof_long;
  enc t v := tlv t (int_octets v);
  valid t v := is_uint_type t = true /\ is_u32 v;
|}.
Next Obligation. intros. auto with cint. Qed.
Next Obligation.
  intros dl t v Hdl [Ht Hv].
  transitivity (asn_build_unsigned_int dl t v sizeof_long).
  - unfold build_value. rewrite !deref_ok, as_u_long_spec by cint. by tag_cases Ht.
  - by rewrite asn_build_unsigned_int_spec, u32_id by cint.
Qed.
Next Obligation.
  intros ? r fuel t v s Hs _ [Ht Hv].
  replace (rbuild_value r fuel t _ _ s) with (asn_realloc_rbuild_unsigned_int r t v sizeof_long s).
  - pose proof (asn_realloc_rbuild_unsigned_int_spec r t v s Hs ltac:(cint)) as Hw.
    cbv zeta in Hw. by rewrite u32_id in Hw by cint.
  - unfold rbuild_value. rewrite !deref_ok, as_u_long_spec by cint. by tag_cases Ht.
Qed.
Next Obligation.
  intros m p dl t v Hdl [Ht Hv]. apply header_plain_law; auto with cint; by tag_cases Ht.
Qed.
Next Obligation.
  intros ? lo m p dl t v q n Hdl [Ht Hv] Hat Hn _ _.
  pose proof (asn_parse_unsigned_int_spec m p MAX_PACKET_LENGTH t v) as Hp. cbv zeta in Hp.
  specialize (Hp ltac:(auto with cint) Hv Ht Hat ltac:(auto with cint)).
  unfold parse_value. rewrite Hp. by tag_cases Ht.
Qed.

(** Counter64.  The Opaque variants build but do not parse, see AsnProps.v. *)
Program Definition counter64_codec : codec counter64 := {|
  mem_of c := Some (le_bytes 8 (high c) ++ le_bytes 8 (low c));
  len_of _ := sizeof_counter64;
  enc t c := tlv t (int_octets (c64_val c));
  valid t c := t = ASN_COUNTER64 /\ c64_ok c;
|}.
Next Obligation. intros. auto with cint. Qed.
Next Obligation.
  intros dl t c Hdl [-> Hc]. unfold build_value. rewrite !deref_ok, !as_counter64_spec by done.
  exact (asn_build_unsigned_int64_spec dl ASN_COUNTER64 c Hdl Hc).
Qed.
Next Obligation.
  intros ? r fuel t c s Hs _ [-> Hc]. unfold rbuild_value. rewrite !deref_ok, !as_counter64_spec by done.
  exact (asn_realloc_rbuild_unsigned_int64_spec r ASN_COUNTER64 c s Hs Hc).
Qed.
Next Obligation. intros m p dl t c Hdl [-> Hc]. apply header_plain_law; auto with cint. Qed.
Next Obligation.
  intros ? lo m p dl t c q n Hdl [-> Hc] Hat Hn _ _. unfold parse_value.
  rewrite (asn_parse_unsigned_int64_spec m p MAX_PACKET_LENGTH (c64_val c))
    by (auto using c64_val_range with cint). by rewrite c64_val_of.
Qed.

(** The signed 64-bit value in an Opaque; the reverse builder is right on
    nonnegative values only, see AsnProps.v. *)
Program Definition int64_codec : codec counter64 := {|
  mem_of c := Some (le_bytes 8 (high c) ++ le_bytes 8 (low c));
  len_of _ := sizeof_counter64;
  enc t c := tlv ASN_OPAQUE (opaque_wrap ASN_OPAQUE_I64 (int_octets (c64_val c)));
  valid t c := t = ASN_OPAQUE_I64 /\ c64_ok c /\ high c < 2 ^ 31;
|}.
Next Obligation.
  intros. apply tlv_opaque_small. rewrite length_int_octets. pose proof (int_size_bounds (c64_val a)). lia.
Qed.
Next Obligation.
  intros dl t c Hdl (-> & Hc & Hpos). unfold build_value. rewrite !deref_ok, !as_counter64_spec by done.
  pose proof (asn_build_signed_int64_spec dl ASN_OPAQUE_I64 c Hdl Hc) as Hb.
  rewrite s64_id in Hb; [exact Hb|]. destruct Hc. unfold c64_val. cint.
Qed.
Next Obligation.
  intros ? r fuel t c s Hs Hf (-> & Hc & Hpos). unfold rbuild_value. rewrite !deref_ok, !as_counter64_spec by done.
  exact (asn_realloc_rbuild_signed_int64_spec r fuel ASN_OPAQUE_I64 c s Hs Hc Hpos Hf).
Qed.
Next Obligation.
  intros m p dl t c Hdl (-> & Hc & Hpos). apply header_opaque_law; try done.
  rewrite length_int_octets. pose proof (int_size_bounds (c64_val c)). lia.
Qed.
Next Obligation.
  intros ? lo m p dl t c q n Hdl (-> & Hc & Hpos) Hat Hn _ _. unfold parse_value.
  assert (Hv : is_s64 (c64_val c)) by (destruct Hc; unfold c64_val; cint).
  rewrite (asn_parse_signed_int64_spec m p MAX_PACKET_LENGTH (c64_val c)); [|auto with cint..|].
  - rewrite u64_id by by apply c64_val_range. by rewrite c64_val_of.
  - apply enc_fits_packet, tlv_opaque_small. rewrite length_int_octets.
    pose proof (int_size_bounds (c64_val c)). lia.
Qed.

(** OCTET STRING, IpAddress, NsapAddress, and the Opaque values that do not
    look like a special one. *)
Definition octets_valid (t : Z) (s : list Z) : Prop :=
  is_string_type t = true /\ Z.of_nat (length s) <= 65531
  /\ (t = ASN_OPAQUE -> exists b s', s = b :: s' /\ b <> ASN_OPAQUE_TAG1).

Lemma tlv_small t c : Z.of_nat (length c) <= 65531 -> 2 <= Z.of_nat (length (tlv t c)) < 65536.
Proof. intros. rewrite length_tlv. pose proof (hdr_len_bound (Z.of_nat (length c))). lia. Qed.

Lemma header_octets m p dl t s :
  is_u64 dl -> octets_valid t s -> bytes_at m p (tlv t s) -> Z.of_nat (length (tlv t s)) <= dl ->
  asn_parse_header m p dl = Ret (p + hdr_len (Z.of_nat (length s)), t, Z.of_nat (length s)).
Proof.
  intros Hdl (Ht & Hs & Hop) Hat Hn.
  assert (Hc : len_ok (Z.of_nat (length s))) by (unfold len_ok; lia).
  destruct (decide (t = ASN_OPAQUE)) as [->|Hne].
  - destruct (Hop eq_refl) as (b & s' & -> & Hb). unfold asn_parse_header.
    rewrite (parse_checked_tlv m p dl _ _ Hc Hat Hn). apply tlv_at in Hat as (-> & _ & Hc').
    destruct Hc' as [Hrd _]. rewrite bind_ret. change (IS_EXTENSION_ID ASN_OPAQUE) with false.
    cbv iota. rewrite bind_ret, Z.eqb_refl, Hrd, bind_ret. destruct (Z.eqb_spec b ASN_OPAQUE_TAG1); [done|].
    unfold len_ok in Hc. by rewrite s32_id, u64_id by cint.
  - apply header_plain; try done. by tag_cases Ht.
Qed.

Program Definition octets_codec : codec (list Z) := {|
  mem_of s := Some s;
  len_of s := Z.of_nat (length s);
  enc t s := tlv t s;
  valid := octets_valid;
|}.
Next Obligation. intros t s (_ & Hs & _). by apply tlv_small. Qed.
Next Obligation.
  intros dl t s Hdl (Ht & Hs & _). transitivity (asn_build_string dl t (Some s) (Z.of_nat (length s))).
  - unfold build_value. by tag_cases Ht.
  - apply asn_build_string_spec; [done|]. unfold len_ok. lia.
Qed.
Next Obligation.
  intros ? r fuel t s st Hst _ (Ht & Hs & _).
  replace (rbuild_value r fuel t _ _ st) with (asn_realloc_rbuild_string r t s (Z.of_nat (length s)) st)
    by (unfold rbuild_value; by tag_cases Ht).
  rewrite <- tlv_r_eq by (unfold len_ok; lia). apply asn_realloc_rbuild_string_spec; [done|lia].
Qed.
Next Obligation.
  intros m p dl t s Hdl Hv Hat Hn. do 2 eexists. split; [by apply header_octets|].
  rewrite length_tlv. lia.
Qed.
Next Obligation.
  intros ? lo m p dl t s q n Hdl Hv Hat Hn Hh Ha. rewrite (header_octets m p dl t s) in Hh by done.
  destruct Hv as (Ht & Hs & _). injection Hh as _ <-.
  pose proof (asn_parse_string_spec m p MAX_PACKET_LENGTH t s (Z.of_nat (length s))) as Hp. cbv zeta in Hp.
  assert (Hal : alloc (Z.of_nat (length s)) = true).
  { apply Ha. right. rewrite length_tlv. pose proof (hdr_len_bound (Z.of_nat (length s))). lia. }
  unfold parse_value. rewrite Hp; [|auto using tlv_small with cint..].
  2:{ unfold len_ok. lia. } 2:{ lia. }
  rewrite Hal, andb_false_r. by tag_cases Ht.
Qed.

(** BIT STRING: at least the octet that counts the unused bits. *)
Program Definition bits_codec : codec (list Z) := {|
  mem_of s := Some s;
  len_of s := Z.of_nat (length s);
  enc t s := tlv t s;
  valid t s := t = ASN_BIT_STR /\ Z.of_nat (length s) <= 65531 /\ s <> [];
|}.
Next Obligation. intros t s (_ & Hs & _). by apply tlv_small. Qed.
Next Obligation.
  intros dl t s Hdl (-> & Hs & Hne). destruct s as [|b s]; [done|].
  apply (asn_build_bitstring_spec dl ASN_BIT_STR b s Hdl). unfold len_ok. lia.
Qed.
Next Obligation.
  intros ? r fuel t s st Hst _ (-> & Hs & _). rewrite <- tlv_r_eq by (unfold len_ok; lia).
  apply (asn_realloc_rbuild_bitstring_spec r ASN_BIT_STR s st Hst). lia.
Qed.
Next Obligation.
  intros m p dl t s Hdl (-> & Hs & _). apply header_plain_law; auto with cint. unfold len_ok. lia.
Qed.
Next Obligation.
  intros ? lo m p dl t s q n Hdl (-> & Hs & Hne) Hat Hn Hh Ha.
  rewrite (header_plain m p dl ASN_BIT_STR s) in Hh by (done || unfold len_ok; lia). injection Hh as _ <-.
  assert (Hal : alloc (Z.of_nat (length s)) = true).
  { apply Ha. right. rewrite length_tlv. pose proof (hdr_len_bound (Z.of_nat (length s))). lia. }
  unfold parse_value. rewrite Hal. destruct s as [|b s]; [done|].
  rewrite (asn_parse_bitstring_spec m p MAX_PACKET_LENGTH b s); [done|auto using tlv_small with cint..].
  - unfold len_ok. lia.
  - lia.
Qed.

(** NULL and the exception values: no value at all. *)
Program Definition null_codec : codec unit := {|
  mem_of _ := None;
  len_of _ := 0;
  enc t _ := tlv t [];
  valid t _ := is_null_type t = true;
|}.
Next Obligation. intros. by apply tlv_small. Qed.
Next Obligation.
  intros dl t u Hdl Ht. transitivity (asn_build_null dl t); [|by apply asn_build_null_spec].
  unfold build_value. by tag_cases Ht.
Qed.
Next Obligation.
  intros ? r fuel t u s Hs _ Ht.
  replace (rbuild_value r fuel t _ _ s) with (asn_realloc_rbuild_null r t s)
    by (unfold rbuild_value; by tag_cases Ht).
  by apply asn_realloc_rbuild_null_spec.
Qed.
Next Obligation.
  intros m p dl t u Hdl Ht. apply header_plain_law; auto with cint; by tag_cases Ht.
Qed.
Next Obligation.
  intros ? lo m p dl t u q n Hdl Ht Hat Hn Hh _.
  rewrite (header_plain m p dl t []) in Hh by (done || by tag_cases Ht). injection Hh as _ <-.
  unfold parse_value. by tag_cases Ht.
Qed.

(** OBJECT IDENTIFIER *)
Lemma bytes_of_Some m : bytes_of (Some m) = m.
Proof. done. Qed.

Lemma oid_ok_u64 l : oid_ok l -> Forall is_u64 l.
Proof.
  destruct l as [|x [|y rest]]; try done. intros (Hx & Hy & Hxy & Hsum & Hrest & _).
  constructor; [cint|]. constructor; [cint|]. eapply Forall_impl; [exact Hrest|]. cint.
Qed.

Lemma oid_octets_small l : oid_ok l -> Z.of_nat (length (oid_octets l)) <= 65531.
Proof.
  destruct l as [|x [|y rest]]; try done. cbn [oid_ok oid_octets length]. unfold MAX_OID_LEN.
  intros (_ & _ & _ & _ & _ & ?). rewrite length_app, length_sub_octets.
  pose proof (sub_size_bound (x * 40 + y)). pose proof (length_concat_subs rest). lia.
Qed.

Lemma oid_ok_length l : oid_ok l -> Z.of_nat (length l) <= MAX_OID_LEN.
Proof. destruct l as [|x [|y rest]]; try done. by intros (_ & _ & _ & _ & _ & ?). Qed.

Program Definition objid_codec : codec (list Z) := {|
  mem_of l := Some (concat (map (le_bytes 8) l));
  len_of l := Z.of_nat (length l) * sizeof_oid;
  enc t l := tlv t (oid_octets l);
  valid t l := t = ASN_OBJECT_ID /\ oid_ok l;
|}.
Next Obligation. intros t l [_ Hok]. by apply tlv_small, oid_octets_small. Qed.
Next Obligation.
  intros dl t l Hdl [-> Hok]. unfold build_value. rewrite bytes_of_Some, words_of_map, Z.div_mul by (done || by apply oid_ok_u64).
  by apply (asn_build_objid_spec dl ASN_OBJECT_ID l).
Qed.
Next Obligation.
  intros ? r fuel t l s Hs _ [-> Hok]. unfold rbuild_value. rewrite bytes_of_Some, words_of_map, Z.div_mul by (done || by apply oid_ok_u64).
  by apply (asn_realloc_rbuild_objid_spec r ASN_OBJECT_ID l s).
Qed.
Next Obligation.
  intros m p dl t l Hdl [-> Hok]. apply header_plain_law; auto with cint. by apply oid_octets_len_ok.
Qed.
Next Obligation.
  intros ? lo m p dl t l q n Hdl [-> Hok] Hat Hn _ Ha. unfold parse_value.
  rewrite (asn_parse_objid_spec m p MAX_PACKET_LENGTH l MAX_OID_LEN);
    [|first [done|by apply oid_ok_length|by apply enc_fits_packet, tlv_small, oid_octets_small
            |unfold MAX_OID_LEN, MAX_PACKET_LENGTH; cint]..].
  - assert (Hal : alloc (Z.of_nat (length l) * sizeof_oid) = true).
    { apply Ha. left. pose proof (oid_ok_length l Hok). unfold MAX_OID_LEN, sizeof_oid in *. lia. }
    transitivity (if alloc (Z.of_nat (length l) * sizeof_oid)
                  then Ret (ASN_OBJECT_ID, Some (concat (map (le_bytes 8) l)),
                            Z.of_nat (length l) * sizeof_oid, false) else Null); [done|].
    by rewrite Hal.
Qed.

(** Float and Double in an Opaque. *)
Program Definition float_codec : codec Z := {|
  mem_of f := Some (le_bytes 4 f);
  len_of _ := sizeof_float;
  enc t f := tlv ASN_OPAQUE (opaque_wrap ASN_OPAQUE_FLOAT (be_bytes 4 f));
  valid t f := t = ASN_OPAQUE_FLOAT /\ is_u32 f;
|}.
Next Obligation. intros. apply tlv_opaque_small. rewrite length_be_bytes. lia. Qed.
Next Obligation.
  intros dl t f Hdl [-> Hf]. unfold build_value. rewrite !deref_ok, as_float_spec by done.
  exact (asn_build_float_spec dl ASN_OPAQUE_FLOAT f Hdl).
Qed.
Next Obligation.
  intros ? r fuel t f s Hs _ [-> Hf]. unfold rbuild_value. rewrite !deref_ok, as_float_spec by done.
  exact (asn_realloc_rbuild_float_spec r ASN_OPAQUE_FLOAT f s Hs).
Qed.
Next Obligation.
  intros m p dl t f Hdl [-> Hf]. apply header_opaque_law; try done. rewrite length_be_bytes. lia.
Qed.
Next Obligation.
  intros ? lo m p dl t f q n Hdl [-> Hf] Hat Hn _ _. unfold parse_value.
  rewrite (asn_parse_float_spec m p MAX_PACKET_LENGTH f); [done|auto with cint..].
  apply enc_fits_packet, tlv_opaque_small. rewrite length_be_bytes. lia.
Qed.

Program Definition double_codec : codec Z := {|
  mem_of d := Some (le_bytes 8 d);
  len_of _ := sizeof_double;
  enc t d := tlv ASN_OPAQUE (opaque_wrap ASN_OPAQUE_DOUBLE (be_bytes 8 d));
  valid t d := t = ASN_OPAQUE_DOUBLE /\ is_u64 d;
|}.
Next Obligation. intros. apply tlv_opaque_small. rewrite length_be_bytes. lia. Qed.
Next Obligation.
  intros dl t d Hdl [-> Hd]. unfold build_value, as_double. rewrite !deref_ok, words_of_one by done.
  exact (asn_build_double_spec dl ASN_OPAQUE_DOUBLE d Hdl).
Qed.
Next Obligation.
  intros ? r fuel t d s Hs _ [-> Hd]. unfold rbuild_value, as_double. rewrite !deref_ok, words_of_one by done.
  exact (asn_realloc_rbuild_double_spec r ASN_OPAQUE_DOUBLE d s Hs).
Qed.
Next Obligation.
  intros m p dl t d Hdl [-> Hd]. apply header_opaque_law; try done. rewrite length_be_bytes. lia.
Qed.
Next Obligation.
  intros ? lo m p dl t d q n Hdl [-> Hd] Hat Hn _ _. unfold parse_value.
  rewrite (asn_parse_double_spec m p MAX_PACKET_LENGTH d); [done|auto with cint..].
  apply enc_fits_packet, tlv_opaque_small. rewrite length_be_bytes. lia.
Qed.

(** ** A value of any kind *)

Inductive value : Type :=
  | VInt (v : Z)
  | VUnsigned (t : Z) (v : Z)
  | VCounter64 (c : counter64)
  | VInt64 (c : counter64)
  | VOctets (t : Z) (s : list Z)
  | VBits (s : list Z)
  | VNull (t : Z)
  | VObjid (l : list Z)
  | VFloat (f : Z)
  | VDouble (d : Z).

(** A value with the codec of its kind. *)
Definition with_codec {R} (v : value) (k : forall A, codec A -> Z -> A -> R) : R :=
  match v with
  | VInt v => k _ int_codec ASN_INTEGER v
  | VUnsigned t v => k _ uint_codec t v
  | VCounter64 c => k _ counter64_codec ASN_COUNTER64 c
  | VInt64 c => k _ int64_codec ASN_OPAQUE_I64 c
  | VOctets t s => k _ octets_codec t s
  | VBits s => k _ bits_codec ASN_BIT_STR s
  | VNull t => k _ null_codec t tt
  | VObjid l => k _ objid_codec ASN_OBJECT_ID l
  | VFloat f => k _ float_codec ASN_OPAQUE_FLOAT f
  | VDouble d => k _ double_codec ASN_OPAQUE_DOUBLE d
  end.

Definition value_type (v : value) : Z := with_codec v (fun _ _ t _ => t).
Definition value_mem (v : value) : option mem := with_codec v (fun _ c _ a => mem_of c a).
Definition value_len (v : value) : Z := with_codec v (fun _ c _ a => len_of c a).
Definition value_enc (v : value) : list Z := with_codec v (fun _ c t a => enc c t a).
Definition value_ok (v : value) : Prop := with_codec v (fun _ c t a => valid c t a).

(** What holds of every codec holds of every value. *)
Lemma value_codec (P : Z -> option mem -> Z -> list Z -> Prop) v :
  value_ok v ->
  (forall A (c : codec A) t a, valid c t a -> P t (mem_of c a) (len_of c a) (enc c t a)) ->
  P (value_type v) (value_mem v) (value_len v) (value_enc v).
Proof. intros Hok HP. destruct v; by apply HP. Qed.
