(* ===== verification/VarOpSpec.v ===== *)
(** * Variable bindings: what is built is what is parsed

    Proved against the interface [codec] alone. *)

From S2P Require Import Prelude Bytes AsnTypes AsnParse AsnBuild AsnBuildSpec AsnParseSpec.
From S2P Require Import AsnRbuild AsnRbuildSpec VarOp Pdu Codec.

(** ** Writing one piece after another *)

Lemma take_room_cases out dl :
  (Z.of_nat (length out) <= dl /\ take_room out dl = Ret (out, dl - Z.of_nat (length out)))
  \/ (dl < Z.of_nat (length out) /\ take_room out dl = Null).
Proof. unfold take_room. destruct (Z.ltb_spec dl (Z.of_nat (length out))); [right|left]; done || lia. Qed.

Lemma take_room_app a b dl :
  ('(x, dl) ← take_room a dl; '(y, dl) ← take_room b dl; Ret (x ++ y, dl)) = take_room (a ++ b) dl.
Proof.
  destruct (take_room_cases (a ++ b) dl) as [[Hab ->]|[Hab ->]]; rewrite length_app in *;
    destruct (take_room_cases a dl) as [[Ha ->]|[Ha ->]]; try lia; try done; rewrite bind_ret;
    destruct (take_room_cases b (dl - Z.of_nat (length a))) as [[Hb ->]|[Hb ->]]; try lia; try done.
  rewrite bind_ret. do 2 f_equal. lia.
Qed.

Lemma take_room_nil dl : 0 <= dl -> take_room [] dl = Ret ([], dl).
Proof. intros. unfold take_room. change (Z.of_nat (length [])) with 0.
  destruct (Z.ltb_spec dl 0); [lia|]. by rewrite Z.sub_0_r.
Qed.

(** A step that takes room, and its continuation. *)
Lemma take_room_bind {B} a dl (k : list Z * Z -> outcome B) :
  take_room a dl ≫= k = if dl <? Z.of_nat (length a) then Null else k (a, dl - Z.of_nat (length a)).
Proof. unfold take_room. by destruct (_ <? _). Qed.

(** ** The sequence header of the forward builders: always two length octets *)

Definition seq4 (t n : Z) : list Z := [t; 130; n / 256; n mod 256].

Lemma asn_build_sequence_spec dl t n :
  is_u64 dl -> len_ok n -> asn_build_sequence dl t n = take_room (seq4 t n) dl.
Proof.
  unfold len_ok, asn_build_sequence, take_room. intros Hdl Hn. cbn [length seq4].
  destruct (Z.ltb_spec dl 4), (Z.ltb_spec dl (Z.of_nat 4)); try lia; [done|].
  rewrite u64_sub by (done || lia). change 0xFF with (Z.ones 8).
  rewrite !land_low, shr_div by lia.
  rewrite (Z.mod_small (n / 2 ^ 8) (2 ^ 8)), (u8_id (n / _)), (u8_id (n mod _)) by cint.
  done.
Qed.

(** The header of a constructed object, whichever builder wrote it. *)
Definition reads_len (hdr : list Z) (n : Z) : Prop :=
  (1 <= length hdr <= 10)%nat /\
  forall m p x, bytes_at m p hdr -> asn_parse_length m p x = Ret (Some (p + Z.of_nat (length hdr)), n).

Lemma reads_len_octets n : len_ok n -> reads_len (len_octets n) n.
Proof.
  intros Hn. split; [pose proof (length_len_octets n); lia|]. intros. by apply parse_len_octets.
Qed.

Lemma reads_len_seq4 n : len_ok n -> reads_len [130; n / 256; n mod 256] n.
Proof.
  unfold len_ok. intros Hn. split; [cbn; lia|]. intros m p x (H1 & H2 & H3 & _).
  unfold asn_parse_length. rewrite H1, bind_ret.
  change (negb (Z.land 130 ASN_LONG_LEN =? 0)) with true.
  change (Z.land 130 (Z.lnot ASN_LONG_LEN)) with 2. cbn [Z.eqb]. change (sizeof_long <? 2) with false.
  cbv iota. change (Z.to_nat 2) with 2%nat. cbn [parse_length_loop].
  rewrite H2, !bind_ret, H3, !bind_ret.
  change (u64 (Z.shiftl 0 8)) with 0. rewrite Z.lor_0_l, shl_mul, u64_id by cint.
  rewrite (lor_add _ _ 8) by cint. change (2 ^ 8) with 256.
  replace (n / 256 * 256 + n mod 256) with n by (Z.div_mod_to_equations; lia).
  rewrite s64_id by cint. destruct (Z.ltb_spec n 0); [lia|]. do 3 f_equal. cbn. lia.
Qed.

(** A constructed object: tag, length octets, contents. *)
Definition constructed (t : Z) (hdr body : list Z) : list Z := t :: hdr ++ body.

Lemma header_constructed m p dl t hdr body :
  is_u64 dl -> IS_EXTENSION_ID t = false -> t <> ASN_OPAQUE ->
  let n := Z.of_nat (length body) in
  n < 2 ^ 31 -> reads_len hdr n ->
  bytes_at m p (constructed t hdr body) -> Z.of_nat (length (constructed t hdr body)) <= dl ->
  asn_parse_header m p dl = Ret (p + 1 + Z.of_nat (length hdr), t, n).
Proof.
  intros Hdl Hext Hop n Hn [Hl Hr] Hat Hd. unfold constructed in *. cbn [bytes_at length] in Hat, Hd.
  rewrite length_app in Hd. destruct Hat as [Hrd [Hhdr _]%bytes_at_app].
  unfold asn_parse_header. rewrite Hrd, bind_ret, Hext. unfold parse_length_checked.
  rewrite (Hr m (p + 1) 0 Hhdr), bind_ret.
  destruct (_asn_parse_length_check _ _ _ _) eqn:E.
  { exfalso. assert (Hf : _asn_parse_length_check (Some (p + 1 + Z.of_nat (length hdr))) p n dl = false);
      [|congruence]. apply parse_length_check_spec; cint. }
  rewrite bind_ret. destruct (Z.eqb_spec t ASN_OPAQUE); [done|]. by rewrite s32_id, u64_id by cint.
Qed.

(** ** The three routines *)

Section var_op.
Context {A : Type} (c : codec A).

Definition var_body (name : list Z) (t : Z) (a : A) : list Z :=
  tlv ASN_OBJECT_ID (oid_octets name) ++ enc c t a.

Lemma snmp_build_var_op_spec hole dl name t a :
  is_u64 dl -> oid_ok name -> valid c t a -> len_ok (Z.of_nat (length (var_body name t a))) ->
  snmp_build_var_op hole name (Z.of_nat (length name)) t (len_of c a) (mem_of c a) dl
  = take_room (seq4 0x30 (Z.of_nat (length (var_body name t a))) ++ var_body name t a) dl.
Proof using Type.
  intros Hdl Hname Hv Hlen. unfold snmp_build_var_op.
  assert (Hoid : (2 <= length (tlv ASN_OBJECT_ID (oid_octets name)))%nat).
  { pose proof (length_tlv ASN_OBJECT_ID (oid_octets name)).
    pose proof (hdr_len_bound (Z.of_nat (length (oid_octets name)))). lia. }
  set (body := var_body name t a) in *.
  rewrite <- (take_room_app (seq4 _ _)), take_room_bind. change (Z.of_nat (length (seq4 _ _))) with 4.
  destruct (Z.ltb_spec dl 4); [done|]. cbv beta iota. rewrite u64_sub by (done || lia).
  rewrite asn_build_objid_spec by (done || unfold is_u64 in *; lia).
  unfold body at 2, var_body. rewrite <- take_room_app. rewrite bind_assoc, !take_room_bind.
  destruct (Z.ltb_spec (dl - 4) (Z.of_nat (length (tlv ASN_OBJECT_ID (oid_octets name))))); [done|].
  cbv beta iota. rewrite build_ok by (done || unfold is_u64 in *; lia). rewrite !take_room_bind.
  destruct (_ <? Z.of_nat (length (enc c t a))); [done|]. cbv beta iota. rewrite bind_ret.
  fold (var_body name t a). fold body.
  rewrite asn_build_sequence_spec by (done || unfold is_u64, len_ok in *; lia).
  pose proof (enc_bounds c t a Hv) as He. unfold take_room.
  change (Z.of_nat (length (seq4 _ _))) with 4.
  destruct (Z.ltb_spec (Z.of_nat (length body)) 4); [|done].
  unfold body, var_body in *. rewrite length_app in *. lia.
Qed.

Lemma snmp_realloc_rbuild_var_op_spec `{Allocator} r fuel name t a s :
  rb_ok s -> (3 <= fuel)%nat -> oid_ok name -> valid c t a ->
  wr r (Z.of_nat (length (tlv_r 0x30 (var_body name t a))))
     (snmp_realloc_rbuild_var_op r fuel name (Z.of_nat (length name)) t (mem_of c a) (len_of c a) s)
     s (tlv_r 0x30 (var_body name t a)).
Proof using Type.
  intros Hs Hf Hname Hv. unfold snmp_realloc_rbuild_var_op. pose proof (enc_bounds c t a Hv) as He.
  unfold tlv_r. rewrite app_comm_cons. set (n := Z.of_nat (length (var_body name t a))).
  set (h := 0x30 :: len_octets_r n). unfold var_body. rewrite app_assoc.
  set (o := tlv ASN_OBJECT_ID (oid_octets name)).
  assert (Hn : n = Z.of_nat (length o) + Z.of_nat (length (enc c t a)))
    by (unfold n, var_body; rewrite length_app; fold o; lia).
  assert (Ho : Z.of_nat (length o) < 65536).
  { unfold o. pose proof (tlv_small ASN_OBJECT_ID _ (oid_octets_small name Hname)). lia. }
  apply (wr_bind r _ (Z.of_nat (length (h ++ o))));
    [done|eapply wr_mono; [|by apply rbuild_ok]; rewrite length_app; lia|rewrite !length_app; lia|].
  intros s1 Hs1 Hw1 _. pose proof (written_offset _ _ _ Hs Hs1 Hw1) as Ho1.
  apply (wr_bind r _ (Z.of_nat (length h)));
    [done|eapply wr_mono; [|by apply asn_realloc_rbuild_objid_spec]; rewrite length_app; fold o; lia
    |rewrite length_app; lia|].
  intros s2 Hs2 Hw2 _. pose proof (written_offset _ _ _ Hs1 Hs2 Hw2) as Ho2.
  replace (offset s2 - offset s) with n by (subst o; lia).
  apply asn_realloc_rbuild_header_spec; [done|lia].
Qed.

(** The parser reads the name and finds the value, whatever the form of
    the length octets of the sequence. *)
Lemma snmp_parse_var_op_spec m data dl hdr name t a :
  is_u64 dl -> oid_ok name -> valid c t a ->
  let body := var_body name t a in
  let out := constructed 0x30 hdr body in
  reads_len hdr (Z.of_nat (length body)) ->
  bytes_at m data out -> Z.of_nat (length out) <= dl ->
  exists v q, snmp_parse_var_op m data MAX_OID_LEN dl = Ret v
    /\ var_end v = data + Z.of_nat (length out) /\ var_name v = name /\ var_val_type v = t
    /\ listlength v = dl - Z.of_nat (length out)
    /\ bytes_at m (var_val v) (enc c t a)
    /\ asn_parse_header m (var_val v) (Z.of_nat (length (enc c t a))) = Ret (q, t, var_val_len v).
Proof using Type.
  intros Hdl Hname Hv body out Hr Hat Hn. pose proof (enc_bounds c t a Hv) as He.
  set (o := tlv ASN_OBJECT_ID (oid_octets name)).
  assert (Ho : 2 <= Z.of_nat (length o) < 65536) by apply tlv_small, oid_octets_small, Hname.
  assert (Hbody : Z.of_nat (length body) = Z.of_nat (length o) + Z.of_nat (length (enc c t a)))
    by (unfold body, var_body; rewrite length_app; fold o; lia).
  assert (Hout : Z.of_nat (length out) = 1 + Z.of_nat (length hdr) + Z.of_nat (length body))
    by (unfold out, constructed; cbn [length]; rewrite length_app; lia).
  unfold snmp_parse_var_op, asn_parse_sequence.
  rewrite (header_constructed m data dl 0x30 hdr body) by (done || lia). rewrite bind_ret.
  change (negb (0x30 =? Z.lor ASN_SEQUENCE ASN_CONSTRUCTOR)) with false. cbv iota. rewrite bind_ret.
  set (start := data + 1 + Z.of_nat (length hdr)).
  assert (Hbat : bytes_at m start body).
  { unfold out, constructed in Hat. cbn [bytes_at] in Hat. destruct Hat as [_ [_ Hb]%bytes_at_app].
    exact Hb. }
  unfold body, var_body in Hbat. apply bytes_at_app in Hbat as [Hoat Heat]. fold o in Hoat, Heat.
  rewrite (asn_parse_objid_spec m start _ name MAX_OID_LEN);
    [|first [done|by apply oid_ok_length|unfold MAX_OID_LEN, is_u64 in *; fold o; lia]..].
  rewrite bind_ret, Z.eqb_refl. cbn [negb]. fold o.
  replace (Z.of_nat (length body) - Z.of_nat (length o)) with (Z.of_nat (length (enc c t a))) by lia.
  destruct (header_ok c m (start + Z.of_nat (length o)) (Z.of_nat (length (enc c t a))) t a)
    as (q & n & Hh & Hend & Hpos); [unfold is_u64; lia|done|done|lia|].
  match goal with |- context [asn_parse_header m ?p ?d ≫= _] =>
    assert (E0 : asn_parse_header m p d = Ret (q, t, n)) by exact Hh; rewrite E0 end.
  rewrite bind_ret. eexists _, q. split; [done|]. cbn [var_end var_name var_val_type var_val_len var_val listlength].
  assert (E : q + n = data + Z.of_nat (length out)) by (unfold start in *; lia).
  rewrite E. split; [done|]. split; [done|]. split; [done|]. split; [|done].
  replace (data + Z.of_nat (length out) - data) with (Z.of_nat (length out)) by lia.
  destruct Hr as [Hhdr _]. rewrite s32_id, u64_id by cint. done.
Qed.
End var_op.
