(* ===== verification/PduRing.v ===== *)
(** * The ring of variable pointers of [snmp_pdu_realloc_rbuild]

    The packet is written backwards, so the variables are needed last to
    first, and the list is singly linked: the code keeps the last
    [VPCACHE_SIZE] pointers of a pass over the list in a ring, writes those,
    and passes again over the part of the list before them.  The theorem here
    is that any list comes out reversed, whatever its length. *)

From S2P Require Import Prelude Bytes AsnTypes AsnRbuild VarOp Pdu.

(** ** A pass over the list *)

Definition ring_index (n : nat) : Z := match n with O => 49 | S k => 48 - Z.of_nat (k mod 50) end.

(** Division of positions by the size of the ring. *)
Ltac div50 k :=
  pose proof (Nat.div_mod_eq k 50); pose proof (Nat.mod_upper_bound k 50 ltac:(lia)).

(** The ring after a pass over the first [n] variables. *)
Record ring (n : nat) (i : Z) (wrapped : bool) (cache : vpcache) : Prop := {
  ring_i : i = ring_index n;
  ring_wrapped : wrapped = (50 <? n)%nat;
  ring_length : length cache = 50%nat;
  ring_entry : forall j, (j < n <= j + 50)%nat -> cache !! (49 - j mod 50)%nat = Some (Some j);
}.

Lemma ring_0 cache : length cache = 50%nat -> ring 0 (VPCACHE_SIZE - 1) false cache.
Proof. split; [done|done|done|lia]. Qed.

Lemma vpcache_fill_app l1 l2 i w c :
  vpcache_fill (l1 ++ l2) i w c = let '(i, w, c) := vpcache_fill l1 i w c in vpcache_fill l2 i w c.
Proof.
  revert i w c. induction l1 as [|vp l1 IH]; intros i w c; cbn [app vpcache_fill]; [done|].
  destruct (if i <? 0 then _ else _) as [i' w']. apply IH.
Qed.

Lemma ring_index_neg n : (ring_index n <? 0) = negb (n =? 0)%nat && (n mod 50 =? 0)%nat.
Proof.
  destruct n as [|k]; [done|]. cbn [ring_index Nat.eqb negb andb].
  div50 k. div50 (S k).
  destruct (Z.ltb_spec (48 - Z.of_nat (k mod 50)) 0), (Nat.eqb_spec (S k mod 50) 0); done || lia.
Qed.

Lemma ring_slot n : n <> O -> (ring_index n <? 0) = false -> ring_index n = 49 - Z.of_nat (n mod 50).
Proof.
  destruct n as [|k]; [done|]. intros _ Hneg. cbn [ring_index] in *. apply Z.ltb_ge in Hneg.
  div50 k. div50 (S k). lia.
Qed.

(** Storing one more pointer. *)
Lemma ring_store n i w c :
  ring n i w c ->
  let '(i, w, c) := vpcache_fill [n] i w c in ring (S n) i w c.
Proof.
  intros [Hi Hw Hl He]. cbn [vpcache_fill].
  assert (Hslot : exists w', (if i <? 0 then (VPCACHE_SIZE - 1, true) else (i, w))
                             = (49 - Z.of_nat (n mod 50), w') /\ w' = (50 <? S n)%nat).
  { subst i w. destruct (decide (n = O)) as [->|Hn0]; [by eexists|].
    destruct (ring_index n <? 0) eqn:E.
    - rewrite ring_index_neg in E. apply andb_prop in E as [_ E%Nat.eqb_eq]. rewrite E.
      eexists. split; [done|]. symmetry. apply Nat.ltb_lt.
      div50 n. lia.
    - rewrite ring_slot by done. eexists. split; [done|].
      rewrite ring_index_neg in E. apply andb_false_iff in E as [E|E].
      + by apply negb_false_iff, Nat.eqb_eq in E.
      + apply Nat.eqb_neq in E. apply eq_iff_eq_true. rewrite !Nat.ltb_lt.
        split; [lia|]. intros. destruct (decide (n = 50%nat)) as [->|]; [done|lia]. }
  destruct Hslot as (w' & -> & ->). pose proof (Nat.mod_upper_bound n 50 ltac:(lia)) as Hm.
  split.
  - cbn [ring_index]. lia.
  - done.
  - by rewrite length_insert.
  - intros j Hj. replace (Z.to_nat (49 - Z.of_nat (n mod 50))) with (49 - n mod 50)%nat by lia.
    destruct (decide (j = n)) as [->|Hne].
    + apply list_lookup_insert_eq. lia.
    + div50 j. div50 n.
      rewrite list_lookup_insert_ne; [apply He; lia|].
      intros E. lia.
Qed.

Lemma ring_fill n c :
  length c = 50%nat -> let '(i, w, c) := vpcache_fill (seq 0 n) (VPCACHE_SIZE - 1) false c in ring n i w c.
Proof.
  intros Hc. induction n as [|n IH]; [by apply ring_0|].
  rewrite seq_S, vpcache_fill_app. cbn [Nat.add].
  destruct (vpcache_fill (seq 0 n) _ _ c) as [[i w] c']. by apply ring_store.
Qed.

(** ** Writing what the ring holds *)

Section emit.
Context `{Allocator} (fuel64 : nat) (vars : list variable_list).

(** The variables at these positions, one after the other. *)
Fixpoint emit (ps : list nat) (s : rbuf) : outcome rbuf :=
  match ps with
  | [] => Ret s
  | p :: ps =>
      match vars !! p with
      | Some vp => s ← rbuild_var fuel64 vp s; emit ps s
      | None => Overrun
      end
  end.

Lemma emit_app l1 l2 s : emit (l1 ++ l2) s = emit l1 s ≫= emit l2.
Proof using Type.
  revert s. induction l1 as [|p l1 IH]; intros s; cbn [app emit]; [done|].
  destruct (vars !! p) as [vp|]; [|done].
  destruct (rbuild_var fuel64 vp s); try done. rewrite !bind_ret. apply IH.
Qed.

Lemma rbuild_entries_spec cache first ps s :
  (forall k p, ps !! k = Some p -> cache !! (first + k)%nat = Some (Some p)) ->
  rbuild_entries fuel64 vars cache first (length ps) s = emit ps s.
Proof using Type.
  revert first s. induction ps as [|p ps IH]; intros first s Hc; [done|].
  cbn [length rbuild_entries emit].
  pose proof (Hc 0%nat p eq_refl) as H0. rewrite Nat.add_0_r in H0. rewrite H0.
  destruct (vars !! p) as [vp|]; [|done].
  destruct (rbuild_var fuel64 vp s); try done. rewrite !bind_ret. apply IH.
  intros k q Hk. rewrite Nat.add_succ_comm. by apply Hc.
Qed.

Lemma lookup_rev_seq a n k p :
  rev (seq a n) !! k = Some p -> (k < n /\ p = a + n - 1 - k)%nat.
Proof using Type.
  intros Hk. rewrite rev_alt in Hk. fold (reverse (seq a n)) in Hk. pose proof (lookup_lt_Some _ _ _ Hk) as Hlt.
  rewrite length_reverse, length_seq in Hlt.
  rewrite reverse_lookup, length_seq in Hk by (rewrite length_seq; lia).
  apply lookup_seq in Hk. lia.
Qed.

Lemma until_seq t n : (t <= n)%nat -> until t (seq 0 n) = seq 0 t.
Proof using Type.
  assert (Hg : forall n a, (a <= t <= a + n)%nat -> until t (seq a n) = seq a (t - a)).
  { clear. induction n as [|n IH]; intros a Ha; cbn [seq until].
    - by replace (t - a)%nat with 0%nat by lia.
    - destruct (decide (a = t)) as [->|]; [by rewrite Nat.sub_diag|].
      rewrite IH by lia. by replace (t - a)%nat with (S (t - S a)) by lia. }
  intros. rewrite Hg by lia. by rewrite Nat.sub_0_r.
Qed.

(** The number of entries written by the first inner loop. *)
Definition newest (n : nat) : nat := match n with O => O | S k => S (k mod 50) end.

Lemma newest_bounds n : (newest n <= n /\ newest n <= 50)%nat.
Proof using Type. destruct n as [|k]; cbn [newest]; [lia|]. div50 k. lia. Qed.

Lemma ring_final n : Z.to_nat (ring_index n + 1) = (50 - newest n)%nat.
Proof using Type. destruct n as [|k]; cbn [ring_index newest]; [done|]. div50 k. lia. Qed.

Lemma ring_newest n i w c s :
  ring n i w c ->
  rbuild_entries fuel64 vars c (50 - newest n) (Z.to_nat VPCACHE_SIZE - (50 - newest n)) s
  = emit (rev (seq (n - newest n) (newest n))) s.
Proof using Type.
  intros [_ _ _ He]. pose proof (newest_bounds n) as Hb.
  replace (Z.to_nat VPCACHE_SIZE - (50 - newest n))%nat
    with (length (rev (seq (n - newest n) (newest n)))).
  2:{ rewrite length_rev, length_seq. change (Z.to_nat VPCACHE_SIZE) with 50%nat. lia. }
  apply rbuild_entries_spec. intros k p [Hk ->]%lookup_rev_seq.
  replace (n - newest n + newest n - 1 - k)%nat with (n - 1 - k)%nat by lia.
  rewrite <- He by lia. f_equal. destruct n as [|m]; cbn [newest] in *; [lia|].
  replace (S m - 1 - k)%nat with (m - k)%nat by lia. div50 m. div50 (m - k)%nat. lia.
Qed.

Lemma ring_oldest n i w c s :
  ring n i w c -> (50 < n)%nat ->
  rbuild_entries fuel64 vars c 0 (50 - newest n) s
  = emit (rev (seq (n - 50) (50 - newest n))) s.
Proof using Type.
  intros [_ _ _ He] Hn. pose proof (newest_bounds n) as Hb.
  rewrite <- (length_seq (50 - newest n) (n - 50)) at 1. rewrite <- length_rev.
  apply rbuild_entries_spec. intros k p [Hk ->]%lookup_rev_seq.
  rewrite <- He by lia. f_equal. destruct n as [|m]; cbn [newest] in *; [lia|].
  replace (S m - 50 + (50 - S (m mod 50)) - 1 - k)%nat with (m - m mod 50 - 1 - k)%nat by lia.
  div50 m. div50 (m - m mod 50 - 1 - k)%nat. lia.
Qed.

(** The pointer the next pass stops at. *)
Lemma ring_stop n i w c :
  ring n i w c -> (50 < n)%nat ->
  c !! (if (50 - newest n =? 0)%nat then Z.to_nat VPCACHE_SIZE - 1 else 50 - newest n - 1)%nat
  = Some (Some (n - 50)%nat).
Proof using Type.
  intros [_ _ _ He] Hn. rewrite <- He by lia. f_equal. change (Z.to_nat VPCACHE_SIZE) with 50%nat.
  destruct n as [|m]; [lia|]. cbn [newest]. div50 m. div50 (S m - 50)%nat.
  destruct (Nat.eqb_spec (50 - S (m mod 50)) 0); lia.
Qed.

Lemma rbuild_rounds_spec fuel n i w c s :
  ring n i w c -> (n < fuel)%nat -> (n <= length vars)%nat ->
  rbuild_rounds fuel64 fuel vars c (Z.to_nat (i + 1)) w s = emit (rev (seq 0 n)) s.
Proof using Type.
  revert n i w c s. induction fuel as [|fuel IH]; intros n i w c s Hr Hf Hn; [lia|].
  cbn [rbuild_rounds]. pose proof (newest_bounds n) as Hb.
  replace (Z.to_nat (i + 1)) with (50 - newest n)%nat
    by (destruct Hr as [-> _ _ _]; by rewrite ring_final).
  rewrite (ring_newest n i w c s Hr). pose proof Hr as [_ -> Hl _].
  destruct (Nat.ltb_spec 50 n) as [Hlt|Hle].
  - rewrite (ring_stop n i true c) by (done || by rewrite <- (proj2 (Nat.ltb_lt 50 n) Hlt)).
    rewrite until_seq by lia.
    assert (Hsplit : rev (seq 0 n)
      = rev (seq (n - newest n) (newest n)) ++ rev (seq (n - 50) (50 - newest n)) ++ rev (seq 0 (n - 50))).
    { rewrite <- !rev_app_distr. f_equal.
      replace n with ((n - 50) + (50 - newest n) + newest n)%nat at 1 by lia.
      rewrite !seq_app. repeat f_equal; lia. }
    rewrite Hsplit, !emit_app. destruct (emit (rev (seq (n - newest n) _)) s) as [s1| | |]; try done.
    rewrite !bind_ret, emit_app, (ring_oldest n i (50 <? n)%nat c) by
      (done || by rewrite (proj2 (Nat.ltb_lt 50 n) Hlt)).
    destruct (emit (rev (seq (n - 50) _)) s1) as [s2| | |]; try done. rewrite !bind_ret.
    pose proof (ring_fill (n - 50) c Hl) as Hfill.
    destruct (vpcache_fill _ _ _ c) as [[i' w'] c']. apply IH; [done|lia|lia].
  - replace (newest n) with n.
    2:{ destruct n as [|m]; [done|]. cbn [newest]. rewrite Nat.mod_small by lia. done. }
    rewrite Nat.sub_diag. by destruct (emit _ s).
Qed.
End emit.

(** ** The whole loop *)

Section reversed.
Context `{Allocator} (fuel64 : nat).

Fixpoint rbuild_list (vars : list variable_list) (s : rbuf) : outcome rbuf :=
  match vars with
  | [] => Ret s
  | vp :: vars => s ← rbuild_var fuel64 vp s; rbuild_list vars s
  end.

Lemma rbuild_list_app l1 l2 s : rbuild_list (l1 ++ l2) s = rbuild_list l1 s ≫= rbuild_list l2.
Proof using Type.
  revert s. induction l1 as [|vp l1 IH]; intros s; cbn [app rbuild_list]; [done|].
  destruct (rbuild_var fuel64 vp s); try done. rewrite !bind_ret. apply IH.
Qed.

Lemma emit_all vars n s :
  (n <= length vars)%nat -> emit fuel64 vars (rev (seq 0 n)) s = rbuild_list (rev (take n vars)) s.
Proof using Type.
  revert s. induction n as [|n IH]; intros s Hn; [by rewrite take_0|].
  destruct (lookup_lt_is_Some_2 vars n ltac:(lia)) as [vp Hvp].
  rewrite seq_S, rev_app_distr, (take_S_r _ _ vp), rev_app_distr by done. cbn [rev app emit rbuild_list Nat.add].
  rewrite Hvp. destruct (rbuild_var fuel64 vp s); try done. rewrite !bind_ret. apply IH. lia.
Qed.

Lemma rbuild_vars_reversed vars s : rbuild_vars fuel64 vars s = rbuild_list (rev vars) s.
Proof using Type.
  unfold rbuild_vars.
  pose proof (ring_fill (length vars) (replicate (Z.to_nat VPCACHE_SIZE) None) eq_refl) as Hr.
  destruct (vpcache_fill _ _ _ _) as [[i w] c].
  rewrite (rbuild_rounds_spec fuel64 vars _ (length vars)) by (done || lia).
  rewrite emit_all by lia. by rewrite take_ge by lia.
Qed.
End reversed.
