(* ===== verification/PduSpec.v ===== *)
(** * Protocol data units: what is built is what is parsed

    A PDU of typed values, its encoding, and the proofs that both builders
    write the encoding and that the parser reads it back.  [form] is the way
    the length octets of the constructed objects are written: two octets
    always by the forward builder, the shortest by the reverse one. *)

From S2P Require Import Prelude Bytes AsnTypes AsnParse AsnBuild AsnBuildSpec AsnParseSpec.
From S2P Require Import AsnRbuild AsnRbuildSpec VarOp Pdu Codec VarOpSpec PduRing.

(** ** Typed variables *)

Abbreviation binding := (list Z * value)%type.

Definition var_of (b : binding) : variable_list :=
  {| name := b.1; type := value_type b.2; val := value_mem b.2; val_len := value_len b.2 |}.
Definition binding_ok (b : binding) : Prop := oid_ok b.1 /\ value_ok b.2.

Definition binding_body (b : binding) : list Z :=
  tlv ASN_OBJECT_ID (oid_octets b.1) ++ value_enc b.2.

Definition construct (form : Z -> list Z) (t : Z) (body : list Z) : list Z :=
  constructed t (form (Z.of_nat (length body))) body.

Definition binding_enc (form : Z -> list Z) (b : binding) : list Z := construct form 0x30 (binding_body b).

Definition form4 (n : Z) : list Z := [130; n / 256; n mod 256].

Definition form_ok (form : Z -> list Z) : Prop := forall n, len_ok n -> reads_len (form n) n.

Lemma form4_ok : form_ok form4.
Proof. exact reads_len_seq4. Qed.
Lemma len_octets_form_ok : form_ok len_octets.
Proof. exact reads_len_octets. Qed.

Lemma length_construct form t body :
  form_ok form -> len_ok (Z.of_nat (length body)) ->
  Z.of_nat (length body) + 2 <= Z.of_nat (length (construct form t body)) <= Z.of_nat (length body) + 11.
Proof.
  intros Hf Hb. destruct (Hf _ Hb) as [Hl _]. unfold construct, constructed. cbn [length].
  rewrite length_app. lia.
Qed.

Lemma length_construct4 t body : length (construct form4 t body) = (4 + length body)%nat.
Proof. done. Qed.

Lemma construct_tlv t body : construct len_octets t body = tlv t body.
Proof. done. Qed.

(** ** The builders on variables *)

Lemma build_var_spec hole dl b :
  is_u64 dl -> binding_ok b -> len_ok (Z.of_nat (length (binding_body b))) ->
  build_var hole dl (var_of b) = take_room (binding_enc form4 b) dl.
Proof.
  intros Hdl [Hname Hv]. unfold build_var, var_of, binding_enc, binding_body. cbn [name type val val_len].
  revert Hv. generalize (value_codec (fun t m n e =>
    len_ok (Z.of_nat (length (tlv ASN_OBJECT_ID (oid_octets b.1) ++ e))) ->
    snmp_build_var_op hole b.1 (Z.of_nat (length b.1)) t n m dl
    = take_room (construct form4 0x30 (tlv ASN_OBJECT_ID (oid_octets b.1) ++ e)) dl) b.2).
  intros Hc Hv. apply Hc; [done|]. intros A c t a Hva Hlen.
  by apply (snmp_build_var_op_spec c hole dl b.1 t a).
Qed.

Lemma build_vars_spec hole dl bs :
  is_u64 dl -> Forall binding_ok bs ->
  Forall (fun b => len_ok (Z.of_nat (length (binding_body b)))) bs ->
  build_vars hole dl (map var_of bs) = take_room (concat (map (binding_enc form4) bs)) dl.
Proof.
  intros Hdl Hok. revert dl Hdl. induction Hok as [|b bs Hb Hok IH]; intros dl Hdl Hlen.
  { symmetry. apply take_room_nil. unfold is_u64 in Hdl. lia. }
  apply Forall_cons_1 in Hlen as [Hl Hlen]. cbn [map concat build_vars].
  rewrite build_var_spec, <- take_room_app, !take_room_bind by done.
  destruct (Z.ltb_spec dl (Z.of_nat (length (binding_enc form4 b)))); [done|]. cbv beta iota.
  rewrite IH by (done || unfold is_u64 in *; lia). by rewrite ?take_room_bind.
Qed.

Lemma rbuild_var_spec `{Allocator} fuel b s :
  rb_ok s -> (3 <= fuel)%nat -> binding_ok b -> len_ok (Z.of_nat (length (binding_body b))) ->
  wr true (Z.of_nat (length (binding_enc len_octets b))) (rbuild_var fuel (var_of b) s) s
     (binding_enc len_octets b).
Proof.
  intros Hs Hf [Hname Hv]. unfold rbuild_var, var_of, binding_enc, binding_body. cbn [name type val val_len].
  revert Hv. generalize (value_codec (fun t m n e =>
    len_ok (Z.of_nat (length (tlv ASN_OBJECT_ID (oid_octets b.1) ++ e))) ->
    wr true (Z.of_nat (length (construct len_octets 0x30 (tlv ASN_OBJECT_ID (oid_octets b.1) ++ e))))
      (snmp_realloc_rbuild_var_op true fuel b.1 (Z.of_nat (length b.1)) t m n s) s
      (construct len_octets 0x30 (tlv ASN_OBJECT_ID (oid_octets b.1) ++ e))) b.2).
  intros Hc Hv. apply Hc; [done|]. intros A c t a Hva Hlen. rewrite construct_tlv, <- tlv_r_eq by done.
  by apply (snmp_realloc_rbuild_var_op_spec c true fuel b.1 t a s).
Qed.

Lemma rbuild_list_spec `{Allocator} fuel bs s :
  rb_ok s -> (3 <= fuel)%nat -> Forall binding_ok bs ->
  Forall (fun b => len_ok (Z.of_nat (length (binding_body b)))) bs ->
  let out := concat (map (binding_enc len_octets) bs) in
  wr true (Z.of_nat (length out)) (rbuild_list fuel (rev (map var_of bs)) s) s out.
Proof.
  intros Hs Hf Hok. revert s Hs. induction Hok as [|b bs Hb Hok IH]; intros s Hs Hlen.
  { by apply wr_ret. }
  apply Forall_cons_1 in Hlen as [Hl Hlen]. cbn [map concat rev]. rewrite rbuild_list_app.
  apply (wr_bind true _ (Z.of_nat (length (binding_enc len_octets b))));
    [done|eapply wr_mono; [|by apply IH]; rewrite length_app; lia|rewrite length_app; lia|].
  intros s1 Hs1 _ _. cbn [rbuild_list].
  pose proof (rbuild_var_spec fuel b s1 Hs1 Hf Hb ltac:(done)) as Hv.
  by destruct (rbuild_var fuel (var_of b) s1).
Qed.

(** ** The fields before the variable bindings *)

Definition int_ok (v : Z) : Prop := INT32_MIN <= v < 2 ^ 32.

Definition int_enc (v : Z) : list Z := tlv ASN_INTEGER (int_octets v).

Definition pdu_ok (p : snmp_pdu) : Prop :=
  (is_v2_command (command p) = true /\ int_ok (reqid p) /\ int_ok (errstat p) /\ int_ok (errindex p))
  \/ (command p = SNMP_MSG_TRAP /\ oid_ok (enterprise p) /\ length (agent_addr p) = 4%nat
      /\ int_ok (trap_type p) /\ int_ok (specific_type p) /\ is_u32 (time p)).

Definition fields_enc (p : snmp_pdu) : list Z :=
  if negb (command p =? SNMP_MSG_TRAP) then
    int_enc (reqid p) ++ int_enc (errstat p) ++ int_enc (errindex p)
  else
    tlv ASN_OBJECT_ID (oid_octets (enterprise p)) ++ tlv ASN_IPADDRESS (agent_addr p)
    ++ int_enc (trap_type p) ++ int_enc (specific_type p) ++ tlv ASN_TIMETICKS (int_octets (time p)).

Definition bindings_enc (form : Z -> list Z) (bs : list binding) : list Z :=
  construct form 0x30 (concat (map (binding_enc form) bs)).

Definition pdu_body (form : Z -> list Z) (p : snmp_pdu) (bs : list binding) : list Z :=
  fields_enc p ++ bindings_enc form bs.

Definition pdu_enc (form : Z -> list Z) (p : snmp_pdu) (bs : list binding) : list Z :=
  construct form (command p) (pdu_body form p bs).

Lemma v2_not_trap c : is_v2_command c = true -> negb (c =? SNMP_MSG_TRAP) = true.
Proof.
  intros H. unfold is_v2_command in H. repeat (apply orb_prop in H as [H|H]);
    apply Z.eqb_eq in H; by subst.
Qed.

Lemma command_tag p : pdu_ok p -> u8 (command p) = command p /\ IS_EXTENSION_ID (command p) = false
                                 /\ command p <> ASN_OPAQUE.
Proof.
  intros [[H _]|[-> _]]; [|done].
  unfold is_v2_command in H. repeat (apply orb_prop in H as [H|H]); apply Z.eqb_eq in H; rewrite H; done.
Qed.

Lemma build_int_enc dl v :
  is_u64 dl -> int_ok v -> asn_build_int dl ASN_INTEGER v sizeof_long = take_room (int_enc v) dl.
Proof.
  unfold int_ok. intros. rewrite asn_build_int_spec, CHECK_OVERFLOW_S_id by done. done.
Qed.

(** One builder call on both sides of an equation. *)
Ltac room_step :=
  rewrite <- ?take_room_app, ?bind_assoc, 2!take_room_bind;
  match goal with
  | |- (if ?a <? ?b then _ else _) = _ => destruct (Z.ltb_spec a b); [reflexivity|]
  end; cbv beta iota.

Ltac room_end := rewrite ?bind_assoc, 2!take_room_bind; destruct (_ <? _); reflexivity.

Ltac u64_room := unfold is_u64, sizeof_long in *; lia.

Lemma build_fields_spec dl p :
  is_u64 dl -> pdu_ok p -> build_fields dl p = take_room (fields_enc p) dl.
Proof.
  intros Hdl [(Hc & H1 & H2 & H3)|(Hc & H1 & H2 & H3 & H4 & H5)]; unfold build_fields, fields_enc.
  - rewrite v2_not_trap by done.
    rewrite build_int_enc by done. room_step. rewrite build_int_enc by (done || u64_room). room_step.
    rewrite build_int_enc by (done || u64_room). room_end.
  - rewrite Hc, Z.eqb_refl. cbn [negb]. rewrite asn_build_objid_spec by done. room_step.
    change 4 with (Z.of_nat 4). rewrite <- H2.
    rewrite asn_build_string_spec by (unfold len_ok; rewrite ?H2; u64_room). room_step.
    rewrite build_int_enc by (done || u64_room). room_step.
    rewrite build_int_enc by (done || u64_room). room_step.
    rewrite asn_build_unsigned_int_spec, u32_id by (done || cint || u64_room). room_end.
Qed.

(** ** The two builders *)

Lemma length_seq4 t n : Z.of_nat (length (seq4 t n)) = 4.
Proof. done. Qed.

Lemma overwrite_sequence_spec dl t n old :
  is_u64 dl -> 4 <= dl -> len_ok n -> overwrite_sequence dl t n old = (seq4 t n, dl - 4).
Proof.
  intros Hdl H4 Hn. unfold overwrite_sequence.
  rewrite asn_build_sequence_spec by done. unfold take_room. rewrite length_seq4.
  by destruct (Z.ltb_spec dl 4); [lia|].
Qed.

(** Every variable is smaller than the list of them. *)
Lemma bindings_small form bs n :
  Z.of_nat (length (concat (map (binding_enc form) bs))) <= n -> n < 65536 ->
  Forall (fun b => len_ok (Z.of_nat (length (binding_body b)))) bs.
Proof.
  revert n. induction bs as [|b bs IH]; intros n Hn Hb; constructor;
    cbn [map concat] in Hn; rewrite length_app in Hn.
  - unfold binding_enc, construct, constructed in Hn. cbn [length] in Hn. rewrite length_app in Hn.
    unfold len_ok. lia.
  - apply (IH n); [lia|done].
Qed.

Lemma pdu_body_small form p bs :
  len_ok (Z.of_nat (length (pdu_body form p bs))) ->
  len_ok (Z.of_nat (length (concat (map (binding_enc form) bs))))
  /\ Forall (fun b => len_ok (Z.of_nat (length (binding_body b)))) bs.
Proof.
  unfold len_ok, pdu_body, bindings_enc, construct, constructed. rewrite length_app. cbn [length].
  rewrite length_app. intros H. split; [lia|]. apply (bindings_small form bs _ (Z.le_refl _)). lia.
Qed.

Lemma snmp_pdu_build_spec hole dl p bs :
  is_u64 dl -> pdu_ok p -> variables p = map var_of bs -> Forall binding_ok bs ->
  len_ok (Z.of_nat (length (pdu_body form4 p bs))) ->
  snmp_pdu_build hole p dl = take_room (pdu_enc form4 p bs) dl.
Proof.
  intros Hdl Hp Hvars Hbs Hlen. pose proof (pdu_body_small form4 p bs Hlen) as [Hv Hb].
  destruct (command_tag p Hp) as (Hu8 & _ & _). unfold snmp_pdu_build. rewrite Hvars, Hu8.
  change (pdu_enc form4 p bs) with
    (seq4 (command p) (Z.of_nat (length (pdu_body form4 p bs)))
     ++ fields_enc p ++ seq4 0x30 (Z.of_nat (length (concat (map (binding_enc form4) bs))))
     ++ concat (map (binding_enc form4) bs)).
  rewrite asn_build_sequence_spec by done.
  rewrite <- take_room_app, 2!take_room_bind, !length_seq4.
  destruct (Z.ltb_spec dl 4); [done|]. cbv beta iota.
  rewrite build_fields_spec by (done || u64_room). room_step.
  rewrite asn_build_sequence_spec by (done || u64_room).
  rewrite <- take_room_app, ?bind_assoc, 2!take_room_bind, !length_seq4.
  match goal with |- context [?a <? 4] => destruct (Z.ltb_spec a 4); [done|] end. cbv beta iota.
  rewrite build_vars_spec by (done || u64_room). rewrite ?bind_assoc, 2!take_room_bind.
  destruct (_ <? Z.of_nat (length (concat _))); [done|]. cbv beta iota.
  change (Z.lor ASN_SEQUENCE ASN_CONSTRUCTOR) with 0x30.
  rewrite overwrite_sequence_spec by (done || lia).
  rewrite overwrite_sequence_spec by (done || u64_room). done.
Qed.

Lemma rbuild_int_enc `{Allocator} v s :
  rb_ok s -> int_ok v ->
  wr true (Z.of_nat (length (int_enc v))) (asn_realloc_rbuild_int true ASN_INTEGER v sizeof_long s) s (int_enc v).
Proof.
  unfold int_ok. intros Hs Hv. pose proof (asn_realloc_rbuild_int_spec true ASN_INTEGER v s Hs) as Hw.
  cbv zeta in Hw. rewrite CHECK_OVERFLOW_S_id in Hw by done. exact Hw.
Qed.

(** One reverse builder, then the others in front of it. *)
Lemma wr_seq `{Allocator} (out1 out2 : list Z) m g s :
  rb_ok s -> wr true (Z.of_nat (length out1)) m s out1 ->
  (forall s', rb_ok s' -> wr true (Z.of_nat (length out2)) (g s') s' out2) ->
  wr true (Z.of_nat (length (out2 ++ out1))) (m ≫= g) s (out2 ++ out1).
Proof.
  intros Hs Hm Hg. rewrite length_app.
  eapply (wr_bind true _ (Z.of_nat (length out2))); [done|eapply wr_mono; [|exact Hm]; lia|lia|auto].
Qed.

Lemma rbuild_fields_spec `{Allocator} p s :
  rb_ok s -> pdu_ok p ->
  wr true (Z.of_nat (length (fields_enc p))) (rbuild_fields p s) s (fields_enc p).
Proof.
  intros Hs [(Hc & H1 & H2 & H3)|(Hc & H1 & H2 & H3 & H4 & H5)]; unfold rbuild_fields, fields_enc.
  - rewrite v2_not_trap, app_assoc by done.
    apply wr_seq; [done|by apply rbuild_int_enc|]. intros s1 Hs1.
    apply wr_seq; [done|by apply rbuild_int_enc|]. intros s2 Hs2. by apply rbuild_int_enc.
  - rewrite Hc, Z.eqb_refl, !app_assoc. cbn [negb].
    apply wr_seq; [done| |].
    { pose proof (asn_realloc_rbuild_unsigned_int_spec true ASN_TIMETICKS (time p) s Hs ltac:(cint)) as Hw.
      cbv zeta in Hw. by rewrite u32_id in Hw. }
    intros s1 Hs1. apply wr_seq; [done|by apply rbuild_int_enc|].
    intros s2 Hs2. apply wr_seq; [done|by apply rbuild_int_enc|].
    intros s3 Hs3. apply wr_seq; [done| |].
    { pose proof (asn_realloc_rbuild_string_spec true ASN_IPADDRESS (agent_addr p) s3 Hs3) as Hw.
      rewrite H2, tlv_r_eq in Hw by (unfold len_ok; rewrite H2; lia). by apply Hw. }
    intros s4 Hs4. by apply asn_realloc_rbuild_objid_spec.
Qed.

(** The header of what is in front, as [construct] puts it. *)
Lemma rbuild_construct `{Allocator} t m s body :
  rb_ok s -> len_ok (Z.of_nat (length body)) -> wr true (Z.of_nat (length body)) m s body ->
  wr true (Z.of_nat (length (construct len_octets t body)))
     (s1 ← m; asn_realloc_rbuild_sequence true t (offset s1 - offset s) s1) s
     (construct len_octets t body).
Proof.
  intros Hs Hb Hm. unfold construct, constructed. rewrite app_comm_cons.
  eapply (wr_bind true _ (Z.of_nat (S (length (len_octets (Z.of_nat (length body)))))));
    [done|eapply wr_mono; [|exact Hm]; rewrite length_app; lia|rewrite length_app; cbn [length]; lia|].
  intros s1 Hs1 Hw1 _. rewrite (written_offset _ _ _ Hs Hs1 Hw1).
  replace (offset s + Z.of_nat (length body) - offset s) with (Z.of_nat (length body)) by lia.
  unfold len_ok in Hb. rewrite <- len_octets_r_eq by done.
  apply asn_realloc_rbuild_header_spec; [done|lia].
Qed.

Lemma snmp_pdu_realloc_rbuild_spec `{Allocator} fuel p bs s :
  rb_ok s -> (3 <= fuel)%nat -> pdu_ok p -> variables p = map var_of bs -> Forall binding_ok bs ->
  len_ok (Z.of_nat (length (pdu_body len_octets p bs))) ->
  wr true (Z.of_nat (length (pdu_enc len_octets p bs))) (snmp_pdu_realloc_rbuild fuel p s) s
     (pdu_enc len_octets p bs).
Proof.
  intros Hs Hf Hp Hvars Hbs Hlen. pose proof (pdu_body_small len_octets p bs Hlen) as [Hv Hb].
  destruct (command_tag p Hp) as (Hu8 & _ & _).
  pose proof (rbuild_list_spec fuel bs s Hs Hf Hbs Hb) as Hl.
  pose proof (rbuild_construct 0x30 _ s _ Hs Hv Hl) as Hl2.
  assert (Hbody : wr true (Z.of_nat (length (pdu_body len_octets p bs)))
    (s2 ← (s1 ← rbuild_list fuel (rev (map var_of bs)) s;
           asn_realloc_rbuild_sequence true 0x30 (offset s1 - offset s) s1);
     rbuild_fields p s2) s (pdu_body len_octets p bs)).
  { apply wr_seq; [done|exact Hl2|]. intros s2 Hs2. by apply rbuild_fields_spec. }
  pose proof (rbuild_construct (command p) _ s _ Hs Hlen Hbody) as Hall.
  rewrite !bind_assoc in Hall. unfold snmp_pdu_realloc_rbuild.
  rewrite Hvars, rbuild_vars_reversed, Hu8. unfold pdu_enc. revert Hall.
  destruct (rbuild_list fuel _ s) as [s1| | |]; done.
Qed.

(** ** The parser *)

Section parse.
Context `{Allocator} (leftover : Z -> Z * option mem * Z).
(** Memory for the pieces of one packet. *)
Hypothesis Halloc : forall k, k <= 65536 -> alloc k = true.
Context (form : Z -> list Z) (Hform : form_ok form) (m : mem).

Lemma parse_var_spec data length b :
  is_u64 length -> binding_ok b -> len_ok (Z.of_nat (List.length (binding_body b))) ->
  bytes_at m data (binding_enc form b) ->
  let n := Z.of_nat (List.length (binding_enc form b)) in n <= length ->
  parse_var leftover m data length = Ret (var_of b, false, data + n, length - n).
Proof using Halloc Hform.
  intros Hl [Hname Hv] Hlen Hat n Hn. unfold parse_var. rewrite Halloc by done. cbn [negb].
  revert Hlen Hat n Hn. unfold binding_enc, binding_body, var_of.
  generalize (value_codec (fun t mm nn e =>
    let body := tlv ASN_OBJECT_ID (oid_octets b.1) ++ e in
    len_ok (Z.of_nat (List.length body)) -> bytes_at m data (construct form 0x30 body) ->
    Z.of_nat (List.length (construct form 0x30 body)) <= length ->
    (v ← snmp_parse_var_op m data MAX_OID_LEN length;
     '(type, val, val_len, bad) ← parse_value leftover m (var_val v) (var_val_type v) (var_val_len v);
     Ret ({| name := var_name v; type := type; val := val; val_len := val_len |},
          bad, var_end v, listlength v))
    = Ret ({| name := b.1; type := t; val := mm; val_len := nn |}, false,
           data + Z.of_nat (List.length (construct form 0x30 body)),
           length - Z.of_nat (List.length (construct form 0x30 body)))) b.2 Hv).
  intros Hc Hlen Hat Hn. apply Hc; [|done..]. clear Hc Hlen Hat Hn.
  intros A c t a Hva body Hlen Hat Hn. pose proof (enc_bounds c t a Hva) as He.
  destruct (snmp_parse_var_op_spec c m data length (form (Z.of_nat (List.length body))) b.1 t a)
    as (v & q & -> & Hend & Hnm & Hty & Hll & Hvat & Hh); try done; [by apply Hform|].
  rewrite bind_ret. rewrite Hend, Hnm, Hty, Hll.
  rewrite (parse_ok c leftover m (var_val v) (Z.of_nat (List.length (enc c t a))) t a q (var_val_len v));
    [done|unfold is_u64; lia|done|done|lia|done|].
  intros k [Hk|Hk]; apply Halloc; lia.
Qed.

Lemma parse_vars_spec fuel data bs bad :
  Forall binding_ok bs -> Forall (fun b => len_ok (Z.of_nat (List.length (binding_body b)))) bs ->
  let out := concat (map (binding_enc form) bs) in
  len_ok (Z.of_nat (List.length out)) -> (List.length out <= fuel)%nat -> bytes_at m data out ->
  parse_vars leftover fuel m data (Z.of_nat (List.length out)) bad = Ret (map var_of bs, bad).
Proof using Halloc Hform.
  intros Hbs. revert fuel data. induction Hbs as [|b bs Hb Hbs IH]; intros fuel data Hsm out Hout Hf Hat.
  { destruct fuel; done. }
  apply Forall_cons_1 in Hsm as [Hsb Hsm]. subst out. cbn [map concat] in *.
  apply bytes_at_app in Hat as [Hat1 Hat2]. rewrite length_app in Hout, Hf |- *.
  assert (Hpos : 2 <= Z.of_nat (List.length (binding_enc form b))).
  { pose proof (length_construct form 0x30 _ Hform Hsb). unfold binding_enc. lia. }
  unfold len_ok in Hout. set (n := List.length (binding_enc form b)) in *.
  set (rest := List.length (concat (map (binding_enc form) bs))) in *.
  destruct fuel as [|fuel]; [lia|]. cbn [parse_vars]. rewrite s32_id by cint.
  destruct (Z.ltb_spec 0 (Z.of_nat (n + rest))); [|lia].
  rewrite (parse_var_spec data _ b) by (done || u64_room). rewrite bind_ret. fold n.
  replace (Z.of_nat (n + rest) - Z.of_nat n) with (Z.of_nat rest) by lia.
  rewrite orb_false_r. unfold rest. rewrite IH; [done|done|fold rest; unfold len_ok; lia|fold rest; lia|done].
Qed.

Lemma parse_int_enc data length v :
  is_u64 length -> int_ok v -> bytes_at m data (int_enc v) ->
  Z.of_nat (List.length (int_enc v)) <= length ->
  asn_parse_int m data length sizeof_long
  = Ret (data + Z.of_nat (List.length (int_enc v)), ASN_INTEGER, v,
         length - Z.of_nat (List.length (int_enc v))).
Proof using Type.
  clear Halloc leftover. unfold int_ok, INT32_MIN. intros Hl Hv Hat Hn.
  rewrite (asn_parse_int_spec m data length v) by (done || cint).
  by rewrite CHECK_OVERFLOW_S_id by (unfold INT32_MIN; lia).
Qed.

(** What the parser makes of the structure it is given. *)
Definition parsed (p0 p : snmp_pdu) : snmp_pdu :=
  let flags := Z.land (flags p0) (Z.lnot UCD_MSG_FLAG_RESPONSE_PDU) in
  if command p =? SNMP_MSG_TRAP then
    {| command := command p; reqid := reqid p0; errstat := errstat p0; errindex := errindex p0;
       time := time p; flags := flags; variables := variables p0; enterprise := enterprise p;
       trap_type := trap_type p; specific_type := specific_type p; agent_addr := agent_addr p |}
  else
    {| command := command p; reqid := reqid p; errstat := errstat p; errindex := errindex p;
       time := time p0;
       flags := if (command p =? SNMP_MSG_RESPONSE) || (command p =? SNMP_MSG_REPORT)
                then Z.lor flags UCD_MSG_FLAG_RESPONSE_PDU else flags;
       variables := variables p0; enterprise := enterprise p0; trap_type := trap_type p0;
       specific_type := specific_type p0; agent_addr := agent_addr p0 |}.

Lemma parse_fields_spec data length p0 p :
  is_u64 length -> pdu_ok p -> List.length (agent_addr p0) = 4%nat ->
  bytes_at m data (fields_enc p) -> Z.of_nat (List.length (fields_enc p)) <= length ->
  parse_fields m data length (command p) p0
  = Ret (parsed p0 p, data + Z.of_nat (List.length (fields_enc p)),
         length - Z.of_nat (List.length (fields_enc p))).
Proof using Halloc.
  clear leftover. intros Hl [(Hc & H1 & H2 & H3)|(Hc & H1 & H2 & H3 & H4 & H5)] Haddr; unfold parse_fields, fields_enc, parsed.
  - pose proof (v2_not_trap _ Hc) as Ht. rewrite Ht, Hc. apply negb_true_iff in Ht. rewrite Ht.
    rewrite !bytes_at_app, !length_app. intros (A1 & A2 & A3) Hn.
    rewrite (parse_int_enc _ _ (reqid p)) by (done || lia). rewrite bind_ret.
    rewrite (parse_int_enc _ _ (errstat p)) by (done || u64_room). rewrite bind_ret.
    rewrite (parse_int_enc _ _ (errindex p)) by (done || u64_room). rewrite bind_ret.
    do 2 f_equal; [f_equal|]; lia.
  - rewrite Hc, Z.eqb_refl. cbn [negb]. rewrite !bytes_at_app, !length_app. intros (A1 & A2 & A3 & A4 & A5) Hn.
    rewrite (asn_parse_objid_spec m data length (enterprise p) MAX_OID_LEN)
      by first [done|by apply oid_ok_length|unfold MAX_OID_LEN; cint|lia].
    rewrite bind_ret. pose proof (oid_ok_length _ H1) as Hol.
    rewrite Halloc by (unfold MAX_OID_LEN, sizeof_oid in *; lia). cbn [negb].
    rewrite (asn_parse_string_spec m _ _ ASN_IPADDRESS (agent_addr p) 4)
      by first [done|rewrite H2; done|u64_room]. rewrite bind_ret.
    rewrite (parse_int_enc _ _ (trap_type p)) by (done || u64_room). rewrite bind_ret.
    rewrite (parse_int_enc _ _ (specific_type p)) by (done || u64_room). rewrite bind_ret.
    rewrite (asn_parse_unsigned_int_spec m _ _ ASN_TIMETICKS (time p)) by (done || u64_room). rewrite bind_ret.
    unfold store_prefix. rewrite drop_ge, app_nil_r by lia. do 2 f_equal; [f_equal|]; lia.
Qed.
End parse.

Lemma snmp_pdu_parse_spec `{Allocator} leftover form m data dl p0 p bs :
  (forall k, k <= 65536 -> alloc k = true) -> form_ok form ->
  is_u64 dl -> pdu_ok p -> variables p = map var_of bs -> Forall binding_ok bs ->
  len_ok (Z.of_nat (length (pdu_body form p bs))) -> length (agent_addr p0) = 4%nat ->
  bytes_at m data (pdu_enc form p bs) -> Z.of_nat (length (pdu_enc form p bs)) <= dl ->
  snmp_pdu_parse leftover m p0 data dl
  = Ret (match bs with [] => parsed p0 p | _ => set_variables (parsed p0 p) (variables p) end, false).
Proof.
  intros Halloc Hform Hdl Hp Hvars Hbs Hlen Haddr Hat Hn.
  pose proof (pdu_body_small form p bs Hlen) as [Hv Hb].
  destruct (command_tag p Hp) as (_ & Hext & Hop).
  destruct (Hform _ Hlen) as [Hh1 _]. destruct (Hform _ Hv) as [Hh2 _].
  unfold snmp_pdu_parse. unfold pdu_enc, construct in Hat, Hn.
  rewrite (header_constructed m data dl (command p) (form (Z.of_nat (length (pdu_body form p bs)))) (pdu_body form p bs))
    by first [done|by apply Hform|unfold len_ok in *; lia].
  rewrite bind_ret. unfold constructed in Hat. cbn [bytes_at] in Hat. destruct Hat as [_ [_ Hat]%bytes_at_app].
  unfold pdu_body in Hat at 2. apply bytes_at_app in Hat as [Hf Hat].
  assert (Hsplit : Z.of_nat (length (pdu_body form p bs))
    = Z.of_nat (length (fields_enc p)) + Z.of_nat (length (bindings_enc form bs)))
    by (unfold pdu_body; rewrite length_app; lia).
  rewrite (parse_fields_spec Halloc m _ _ p0 p) by first [done|unfold len_ok, is_u64 in *; lia].
  rewrite bind_ret. replace (Z.of_nat (length (pdu_body form p bs)) - Z.of_nat (length (fields_enc p)))
    with (Z.of_nat (length (bindings_enc form bs))) by lia. unfold asn_parse_sequence, bindings_enc, construct in *.
  set (vs := concat (map (binding_enc form) bs)) in *.
  rewrite (header_constructed m _ _ 0x30 (form (Z.of_nat (length vs))) vs)
    by first [done|by apply Hform|unfold len_ok, is_u64 in *; lia].
  rewrite bind_ret. change (negb (0x30 =? Z.lor ASN_SEQUENCE ASN_CONSTRUCTOR)) with false. cbv iota.
  rewrite bind_ret. unfold constructed in Hat at 1. cbn [bytes_at] in Hat. destruct Hat as [_ [_ Hat]%bytes_at_app].
  unfold vs. rewrite (parse_vars_spec leftover Halloc form Hform m _ _ bs false)
    by first [done|fold vs; lia].
  rewrite bind_ret, Hvars. by destruct bs.
Qed.
