(* ===== verification/AsnSafety.v ===== *)
(** * How far the parsers read

    Nothing is assumed of the bytes here.  [safe m lim P r]: the run [r] on
    the memory [m] terminates; it leaves the memory only when that ends before
    [lim]; and if it succeeds its outputs satisfy [P]. *)

From S2P Require Import Prelude Bytes AsnTypes AsnParse AsnRbuild VarOp Pdu.

Definition safe {A} (m : mem) (lim : Z) (P : A -> Prop) (r : outcome A) : Prop :=
  match r with
  | Ret a => P a
  | Null => True
  | Overrun => Z.of_nat (length m) < lim
  | Spin => False
  end.

Section rules.
Context (m : mem) (lim : Z).

Lemma safe_bind {A B} (P : A -> Prop) (Q : B -> Prop) r f :
  safe m lim P r -> (forall a, P a -> safe m lim Q (f a)) -> safe m lim Q (r ≫= f).
Proof using Type. destruct r; cbn; auto. Qed.

Lemma safe_mono {A} (P Q : A -> Prop) r :
  safe m lim P r -> (forall a, P a -> Q a) -> safe m lim Q r.
Proof using Type. destruct r; cbn; auto. Qed.

Lemma safe_ret {A} (P : A -> Prop) a : P a -> safe m lim P (Ret a).
Proof using Type. done. Qed.

Lemma safe_rd p : bytes_ok m -> 0 <= p < lim -> safe m lim is_u8 (rd m p).
Proof using Type.
  intros Hm Hp. destruct (rd_cases m p) as [[b Hb]|Hb]; rewrite Hb; cbn; [by eapply rd_u8|].
  destruct (decide (Z.of_nat (length m) < lim)); [done|].
  destruct (rd_in_bounds m p) as [b Hb']; [lia|congruence].
Qed.

Lemma safe_rd_n p n :
  bytes_ok m -> 0 <= p -> p + Z.of_nat n <= lim -> safe m lim (fun l => length l = n) (rd_n m p n).
Proof using Type.
  intros Hm. revert p. induction n as [|n IH]; intros p Hp Hn; cbn [rd_n]; [done|].
  eapply safe_bind; [apply safe_rd; [done|lia]|]. intros b _.
  eapply safe_bind; [apply IH; lia|]. intros l Hl. cbn. by rewrite Hl.
Qed.
End rules.

(** ** Lengths *)

Section lengths.
Context (m : mem) (Hm : bytes_ok m).

Lemma parse_length_loop_safe lim p v n :
  0 <= p -> p + Z.of_nat n <= lim -> is_u64 v ->
  safe m lim (fun '(q, w) => q = p + Z.of_nat n /\ is_u64 w) (parse_length_loop m p v n).
Proof using Hm.
  revert p v. induction n as [|n IH]; intros p v Hp Hn Hv; cbn [parse_length_loop].
  { split; [lia|done]. }
  eapply safe_bind; [apply safe_rd; [done|lia]|]. intros b Hb. rewrite shl_mul by lia.
  replace (u64 (v * 2 ^ 8)) with (u64 (v * 2 ^ 8) / 2 ^ 8 * 2 ^ 8) by cint.
  rewrite lor_add by cint.
  eapply safe_mono; [apply IH; [lia|lia|cint]|]. intros [q w] [-> Hw]. split; [lia|done].
Qed.

(** At most nine bytes are read; a length is a nonnegative [long]. *)
Lemma asn_parse_length_safe lim p x :
  0 <= p -> p + 9 <= lim -> is_u64 x ->
  safe m lim (fun '(q, n) => is_u64 n /\ forall q', q = Some q' -> p + 1 <= q' <= p + 9 /\ n < 2 ^ 63)
    (asn_parse_length m p x).
Proof using Hm.
  intros Hp Hlim Hx. unfold asn_parse_length.
  eapply safe_bind; [apply safe_rd; [done|lia]|]. intros b Hb.
  unfold ASN_LONG_LEN. rewrite land_bit8 by done. destruct (Z.ltb_spec b 128); cbn [negb].
  { split; [cint|]. intros q' [= <-]. cint. }
  set (k := Z.land b (Z.lnot 0x80)). destruct (k =? 0); [done|].
  destruct (Z.ltb_spec sizeof_long k) as [|Hk]; [done|]. unfold sizeof_long in Hk.
  eapply safe_bind; [apply (parse_length_loop_safe lim); [lia| |cint]|].
  { assert (0 <= k); [|lia]. apply Z.land_nonneg. left. unfold is_u8 in Hb. lia. }
  intros [q n] [-> Hn]. destruct (Z.ltb_spec (s64 n) 0); split; try done.
  intros q' [= <-]. assert (0 <= k) by (apply Z.land_nonneg; left; unfold is_u8 in Hb; lia).
  split; [lia|cint].
Qed.

(** After the check the contents lie inside the announced bytes. *)
Lemma parse_length_checked_safe lim p data dl :
  0 <= data <= p -> p + 9 <= lim -> p - data < 2 ^ 30 ->
  safe m lim (fun '(q, n) => p + 1 <= q <= p + 9 /\ 0 <= n < 2 ^ 31 /\ q + n <= data + dl)
    (parse_length_checked m p data dl).
Proof using Hm.
  intros Hd Hlim Hpd. unfold parse_length_checked.
  eapply safe_bind; [apply (asn_parse_length_safe lim); [lia|lia|cint]|].
  intros [[q|] n] [Hn Hq]; [|done].
  destruct (_asn_parse_length_check (Some q) data n dl) eqn:E; [done|].
  destruct (Hq q eq_refl) as [Hq1 _].
  apply parse_length_check_spec in E; [|cint|done]. unfold is_u64 in Hn. cbn. lia.
Qed.
End lengths.

(** ** The parsers

    [data] points at [dl] announced bytes.  A parser looks at most twelve
    bytes past them: the tag and length octets are read before they are
    checked, and the first octet of empty contents is looked at. *)

Section parsers.
Context (m : mem) (Hm : bytes_ok m).
Context (data dl : Z) (Hdata : 0 <= data) (Hdl : 0 <= dl < 2 ^ 62).
Let lim := data + dl + 12.

(** The object ends inside the announced bytes, and what is left of them
    is counted right. *)
Definition ends (q dl' : Z) : Prop := data + 2 <= q /\ q + dl' = data + dl /\ 0 <= dl'.

Lemma checked_1 :
  safe m lim (fun '(q, n) => data + 2 <= q <= data + 10 /\ 0 <= n < 2 ^ 31 /\ q + n <= data + dl)
    (parse_length_checked m (data + 1) data dl).
Proof using Hm Hdata Hdl.
  eapply safe_mono; [apply (parse_length_checked_safe m Hm lim); unfold lim; lia|].
  intros [q n]. lia.
Qed.

Lemma datalength_left q n :
  data <= q -> 0 <= n < 2 ^ 31 -> q + n <= data + dl ->
  u64 (dl - (s32 n + (q - data))) = data + dl - (q + n).
Proof using Hdl. intros. rewrite s32_id, u64_id by cint. lia. Qed.

Lemma shift_in_s_safe p v n :
  0 <= p -> p + Z.of_nat n <= lim ->
  safe m lim (fun '(q, _) => q = p + Z.of_nat n) (shift_in_s m p v n).
Proof using Hm.
  revert p v. induction n as [|n IH]; intros p v Hp Hn; cbn [shift_in_s]; [cbn; lia|].
  eapply safe_bind; [apply safe_rd; [done|lia]|]. intros b _.
  eapply safe_mono; [apply IH; lia|]. intros [q w]. lia.
Qed.

Lemma shift_in_u_safe p v n :
  0 <= p -> p + Z.of_nat n <= lim ->
  safe m lim (fun '(q, _) => q = p + Z.of_nat n) (shift_in_u m p v n).
Proof using Hm.
  revert p v. induction n as [|n IH]; intros p v Hp Hn; cbn [shift_in_u]; [cbn; lia|].
  eapply safe_bind; [apply safe_rd; [done|lia]|]. intros b _.
  eapply safe_mono; [apply IH; lia|]. intros [q w]. lia.
Qed.

Lemma shift_in_64_safe p h l n :
  0 <= p -> p + Z.of_nat n <= lim ->
  safe m lim (fun '(q, _, _) => q = p + Z.of_nat n) (shift_in_64 m p h l n).
Proof using Hm.
  revert p h l. induction n as [|n IH]; intros p h l Hp Hn; cbn [shift_in_64]; [cbn; lia|].
  eapply safe_bind; [apply safe_rd; [done|lia]|]. intros b _.
  eapply safe_mono; [apply IH; lia|]. intros [[q h'] l']. lia.
Qed.

(** A read at or just after the announced bytes. *)
Lemma rd_near p : 0 <= p <= data + dl + 11 -> safe m lim is_u8 (rd m p).
Proof using Hm. intros. apply safe_rd; [done|unfold lim; lia]. Qed.

Lemma asn_parse_int_safe intsize :
  safe m lim (fun '(q, _, _, dl') => ends q dl') (asn_parse_int m data dl intsize).
Proof using Hm Hdata Hdl.
  unfold asn_parse_int. destruct (negb _); [done|].
  eapply safe_bind; [apply rd_near; lia|]. intros type _. destruct (negb _); [done|].
  eapply safe_bind; [apply checked_1|]. intros [q n] (Hq & Hn & Hend).
  destruct (intsize <? n); [done|].
  eapply safe_bind; [apply rd_near; lia|]. intros b _.
  eapply safe_bind; [apply shift_in_s_safe; unfold lim; lia|]. intros [q' v] ->.
  rewrite datalength_left by lia. cbn. unfold ends. lia.
Qed.

Lemma asn_parse_unsigned_int_safe intsize :
  safe m lim (fun '(q, _, _, dl') => ends q dl') (asn_parse_unsigned_int m data dl intsize).
Proof using Hm Hdata Hdl.
  unfold asn_parse_unsigned_int. destruct (negb _); [done|].
  eapply safe_bind; [apply rd_near; lia|]. intros type _. destruct (_ && _); [done|].
  eapply safe_bind; [apply checked_1|]. intros [q n] (Hq & Hn & Hend).
  destruct (intsize + 1 <? n); [done|].
  eapply (safe_bind _ _ (fun _ => True)).
  { destruct (n =? intsize + 1); [|done]. eapply safe_bind; [apply rd_near; lia|]. done. }
  intros [|] _; [done|]. eapply safe_bind; [apply rd_near; lia|]. intros b _.
  eapply safe_bind; [apply shift_in_u_safe; unfold lim; lia|]. intros [q' v] ->.
  rewrite datalength_left by lia. cbn. unfold ends. lia.
Qed.

Lemma int64_too_long_safe q n lim64 :
  0 <= q <= data + dl -> safe m lim (fun _ => True) (int64_too_long m q n lim64).
Proof using Hm.
  intros. unfold int64_too_long. destruct (_ <? _); [done|]. destruct (_ =? _); [|done].
  eapply safe_bind; [apply rd_near; lia|]. done.
Qed.

Lemma asn_parse_unsigned_int64_safe countersize :
  safe m lim (fun '(q, _, _, dl') => ends q dl') (asn_parse_unsigned_int64 m data dl countersize).
Proof using Hm Hdata Hdl.
  unfold asn_parse_unsigned_int64. destruct (negb _); [done|].
  eapply safe_bind; [apply rd_near; lia|]. intros type _.
  destruct (negb (type =? ASN_COUNTER64) && _ && _) eqn:Et; [done|].
  eapply safe_bind; [apply checked_1|]. intros [q n] (Hq & Hn & Hend).
  replace (type =? ASN_OPAQUE) with false.
  2:{ symmetry. apply Z.eqb_neq. intros ->. done. }
  cbn [andb]. rewrite bind_ret.
  eapply safe_bind; [apply int64_too_long_safe; lia|]. intros [|] _; [done|].
  eapply safe_bind; [apply shift_in_64_safe; unfold lim; lia|]. intros [[q' h] l] ->.
  rewrite datalength_left by lia. cbn. unfold ends. lia.
Qed.

(** The length octets inside an Opaque. *)
Lemma checked_inner q :
  data + 2 <= q <= data + 10 -> q <= data + dl ->
  safe m lim (fun '(q', n) => data + 5 <= q' /\ 0 <= n < 2 ^ 31 /\ q' + n <= data + dl)
    (parse_length_checked m (q + 2) data dl).
Proof using Hm Hdata Hdl.
  intros Hq Hqd. eapply safe_mono; [apply (parse_length_checked_safe m Hm lim); unfold lim; lia|].
  intros [q' n]. lia.
Qed.

Lemma asn_parse_signed_int64_safe countersize :
  safe m lim (fun '(q, _, _, dl') => ends q dl') (asn_parse_signed_int64 m data dl countersize).
Proof using Hm Hdata Hdl.
  unfold asn_parse_signed_int64. destruct (negb _); [done|].
  eapply safe_bind; [apply rd_near; lia|]. intros type _.
  eapply safe_bind; [apply checked_1|]. intros [q n] (Hq & Hn & Hend).
  assert (Hnull : safe m lim (fun '(q, _, _, dl') => ends q dl')
            (_ ← rd m q; _ ← rd m (q + 1); (Null : outcome (Z * Z * counter64 * Z)))).
  { eapply safe_bind; [apply rd_near; lia|]. intros _ _.
    eapply safe_bind; [apply rd_near; lia|]. done. }
  destruct (_ && _); [|exact Hnull]. eapply safe_bind; [apply rd_near; lia|]. intros b1 _.
  destruct (b1 =? _); [|exact Hnull]. eapply safe_bind; [apply rd_near; lia|]. intros b2 _.
  destruct (b2 =? _); [|exact Hnull].
  eapply safe_bind; [apply checked_inner; lia|]. intros [q' n'] (Hq' & Hn' & Hend').
  eapply safe_bind; [apply int64_too_long_safe; lia|]. intros [|] _; [done|].
  eapply safe_bind; [apply rd_near; lia|]. intros b _.
  eapply safe_bind; [apply shift_in_64_safe; unfold lim; lia|]. intros [[q'' h] l] ->.
  rewrite datalength_left by lia. cbn. unfold ends. lia.
Qed.

Lemma asn_parse_string_safe strlength :
  safe m lim (fun '(q, _, s, dl') => ends q dl' /\ Z.of_nat (length s) <= strlength)
    (asn_parse_string m data dl strlength).
Proof using Hm Hdata Hdl.
  unfold asn_parse_string. eapply safe_bind; [apply rd_near; lia|]. intros type _.
  destruct (_ && _); [done|]. eapply safe_bind; [apply checked_1|]. intros [q n] (Hq & Hn & Hend).
  destruct (Z.ltb_spec strlength n); [done|].
  eapply safe_bind; [apply safe_rd_n; [done|lia|unfold lim; lia]|]. intros s Hs; cbv beta in Hs.
  rewrite u64_id by cint. cbn. unfold ends. lia.
Qed.

(** No check of the length against the announced bytes here. *)
Lemma asn_parse_null_safe : safe m lim (fun '(q, _, _) => data + 2 <= q) (asn_parse_null m data dl).
Proof using Hm Hdata Hdl.
  unfold asn_parse_null. eapply safe_bind; [apply rd_near; lia|]. intros type _.
  eapply safe_bind; [apply (asn_parse_length_safe m Hm lim); unfold lim; [lia|lia|cint]|].
  intros [[q|] n] [Hn Hq]; [|done]. destruct (Hq q eq_refl) as [Hq1 _].
  destruct (Z.eqb_spec n 0); [|done]. cbn. lia.
Qed.

Lemma asn_parse_bitstring_safe strlength :
  safe m lim (fun '(q, _, s, dl') => ends q dl' /\ (1 <= length s)%nat /\ Z.of_nat (length s) <= strlength)
    (asn_parse_bitstring m data dl strlength).
Proof using Hm Hdata Hdl.
  unfold asn_parse_bitstring. eapply safe_bind; [apply rd_near; lia|]. intros type _.
  destruct (negb _); [done|]. eapply safe_bind; [apply checked_1|]. intros [q n] (Hq & Hn & Hend).
  destruct (Z.ltb_spec strlength n); [done|].
  eapply safe_bind; [apply rd_near; lia|]. intros b _. unfold _asn_bitstring_check.
  destruct (Z.ltb_spec n 1); [done|].
  eapply safe_bind; [apply safe_rd_n; [done|lia|unfold lim; lia]|]. intros s Hs; cbv beta in Hs.
  rewrite datalength_left by lia. cbn. unfold ends. lia.
Qed.

(** The header: where the contents start, and that they fit. *)
Lemma asn_parse_header_safe :
  safe m lim (fun '(q, t, n) => data + 2 <= q /\ 0 <= n < 2 ^ 31 /\ q + n <= data + dl)
    (asn_parse_header m data dl).
Proof using Hm Hdata Hdl.
  unfold asn_parse_header. eapply safe_bind; [apply rd_near; lia|]. intros b0 _.
  destruct (IS_EXTENSION_ID b0); [done|].
  eapply safe_bind; [apply checked_1|]. intros [q n] (Hq & Hn & Hend).
  assert (Hlen : forall k, 0 <= k < 2 ^ 31 -> u64 (s32 k) = k).
  { intros. by rewrite s32_id, u64_id by cint. }
  destruct (b0 =? ASN_OPAQUE); [|cbn; rewrite Hlen; lia].
  eapply safe_bind; [apply rd_near; lia|]. intros b1 _.
  destruct (b1 =? _); [|cbn; rewrite Hlen; lia].
  eapply safe_bind; [apply rd_near; lia|]. intros b2 _.
  destruct (is_opaque_special b2); [|cbn; rewrite Hlen; lia].
  eapply safe_bind; [apply checked_inner; lia|]. intros [q' n'] (Hq' & Hn' & Hend').
  cbn. rewrite Hlen; lia.
Qed.

Lemma opaque_unwrap_safe special ber_len type q n :
  data + 2 <= q <= data + 10 -> 0 <= n < 2 ^ 31 -> q + n <= data + dl ->
  safe m lim (fun '(t, q', n') => data + 2 <= q' /\ 0 <= n' < 2 ^ 31 /\ q' + n' <= data + dl)
    (opaque_unwrap m data dl special ber_len type q n).
Proof using Hm Hdata Hdl.
  intros Hq Hn Hend. unfold opaque_unwrap. destruct (_ && _); [|cbn; lia].
  eapply safe_bind; [apply rd_near; lia|]. intros b1 _. destruct (b1 =? _); [|cbn; lia].
  eapply safe_bind; [apply rd_near; lia|]. intros b2 _. destruct (b2 =? _); [|cbn; lia].
  eapply safe_bind; [apply checked_inner; lia|]. intros [q' n'] (Hq' & Hn' & Hend'). cbn. lia.
Qed.

Lemma asn_parse_float_safe floatsize :
  safe m lim (fun '(q, _, _, dl') => ends (q + 4) dl') (asn_parse_float m data dl floatsize).
Proof using Hm Hdata Hdl.
  unfold asn_parse_float. destruct (negb _); [done|].
  eapply safe_bind; [apply rd_near; lia|]. intros type _.
  eapply safe_bind; [apply checked_1|]. intros [q n] (Hq & Hn & Hend).
  eapply safe_bind; [apply opaque_unwrap_safe; lia|]. intros [[t q'] n'] (Hq' & Hn' & Hend').
  destruct (negb (t =? _)); [done|]. destruct (Z.eqb_spec n' sizeof_float) as [->|]; [|done].
  unfold sizeof_float in *.
  eapply safe_bind; [apply safe_rd_n; [done|lia|unfold lim; lia]|]. intros s Hs; cbv beta in Hs.
  rewrite datalength_left by lia. cbn. unfold ends. lia.
Qed.

Lemma asn_parse_double_safe doublesize :
  safe m lim (fun '(q, _, _, dl') => ends (q + 8) dl') (asn_parse_double m data dl doublesize).
Proof using Hm Hdata Hdl.
  unfold asn_parse_double. destruct (negb _); [done|].
  eapply safe_bind; [apply rd_near; lia|]. intros type _.
  eapply safe_bind; [apply checked_1|]. intros [q n] (Hq & Hn & Hend).
  eapply safe_bind; [apply opaque_unwrap_safe; lia|]. intros [[t q'] n'] (Hq' & Hn' & Hend').
  destruct (negb (t =? _)); [done|]. destruct (Z.eqb_spec n' sizeof_double) as [->|]; [|done].
  unfold sizeof_double in *.
  eapply safe_bind; [apply safe_rd_n; [done|lia|unfold lim; lia]|]. intros s Hs; cbv beta in Hs.
  rewrite datalength_left by lia. cbn. unfold ends. lia.
Qed.

(** *** Object identifiers *)

Lemma objid_subid_safe p n acc :
  0 <= p -> p + Z.of_nat n <= lim -> (0 < n)%nat ->
  safe m lim (fun '(q, n', v) => (n' < n)%nat /\ q + Z.of_nat n' = p + Z.of_nat n /\ is_u64 v)
    (objid_subid m p n acc).
Proof using Hm.
  revert p acc. induction n as [|n IH]; intros p acc Hp Hn Hpos; [lia|]. cbn [objid_subid].
  eapply safe_bind; [apply safe_rd; [done|lia]|]. intros b _.
  destruct (negb _ && _) eqn:E.
  - apply andb_prop in E as [_ E%Nat.ltb_lt].
    eapply safe_mono; [apply IH; lia|]. intros [[q n'] v] (? & ? & ?). split; [lia|]. split; [lia|done].
  - split; [lia|]. split; [lia|apply u64_range].
Qed.

(** The array is never overrun, the loop ends, the subidentifiers fit 32 bits. *)
Lemma objid_loop_safe fuel cap p n room objid :
  0 <= p -> p + Z.of_nat n <= lim -> (n <= fuel)%nat ->
  0 <= room -> room = cap - 1 - Z.of_nat (length objid) -> cap < 2 ^ 64 -> Forall is_u32 objid ->
  safe m lim (fun '(q, n', l) => q + Z.of_nat n' = p + Z.of_nat n /\ Z.of_nat (length l) <= cap - 1
                                /\ Forall is_u32 l)
    (objid_loop fuel m cap p n room objid).
Proof using Hm.
  clear Hdl.
  revert p n room objid. induction fuel as [|fuel IH]; intros p n room objid Hp Hn Hf Hr0 Hr Hcap Hobj.
  { cbn [objid_loop]. destruct (Nat.eqb_spec n 0); [|lia]. split; [done|]. split; [lia|done]. }
  cbn [objid_loop]. destruct (Nat.ltb_spec 0 n); [|split; [done|]; split; [lia|done]].
  destruct (Z.ltb_spec 0 room); [|split; [done|]; split; [lia|done]]. cbn [andb].
  eapply safe_bind; [apply objid_subid_safe; lia|]. intros [[q n'] v] (Hn' & Hq & Hv).
  eapply (safe_bind _ _ (fun _ => True)).
  { destruct (n' =? 0)%nat; [|done]. eapply safe_bind; [apply safe_rd; [done|lia]|]. done. }
  intros [|] _; [done|]. destruct (Z.ltb_spec MAX_SUBID v); [done|].
  destruct (Z.leb_spec cap (Z.of_nat (length objid) + 1)); [lia|].
  eapply safe_mono; [apply IH|].
  - lia.
  - lia.
  - lia.
  - rewrite u64_id by cint. lia.
  - rewrite u64_id, length_app by cint. cbn [length]. lia.
  - done.
  - apply Forall_app. split; [done|]. constructor; [unfold MAX_SUBID in *; cint|done].
  - intros [[q' n''] l] (? & ? & ?). split; [lia|]. done.
Qed.

Lemma asn_parse_objid_safe cap :
  2 <= cap < 2 ^ 64 ->
  safe m lim (fun '(q, _, l, dl') => ends q dl' /\ (1 <= length l)%nat /\ Z.of_nat (length l) <= cap
                                    /\ Forall is_u32 l)
    (asn_parse_objid m data dl cap).
Proof using Hm Hdata Hdl.
  intros Hcap. unfold asn_parse_objid. eapply safe_bind; [apply rd_near; lia|]. intros type _.
  destruct (negb _); [done|]. eapply safe_bind; [apply checked_1|]. intros [q n] (Hq & Hn & Hend).
  destruct (Z.ltb_spec cap 2); [lia|]. rewrite andb_false_r.
  eapply safe_bind; [apply objid_loop_safe; try (unfold lim; lia)|].
  - apply u64_range.
  - rewrite u64_id by cint. cbn. lia.
  - constructor.
  - intros [[q' n'] l] (Hq' & Hl & Hu). destruct (Nat.eqb_spec n' 0) as [->|]; [|done]. cbn [negb].
    rewrite datalength_left by lia.
    assert (Hsub : forall v, is_u32 v ->
      let '(x, y) := if v =? 0x2B then (1, 3) else if v <? 40 then (0, v)
                     else if v <? 80 then (1, v - 40) else (2, v - 80) in is_u32 x /\ is_u32 y).
    { intros v Hv. destruct (Z.eqb_spec v 0x2B); [split; cint|].
      destruct (Z.ltb_spec v 40); [split; cint|]. destruct (Z.ltb_spec v 80); split; cint. }
    destruct l as [|v rest].
    + cbn. unfold ends. split; [lia|]. split; [lia|]. split; [lia|].
      apply Forall_cons. split; [cint|constructor].
    + apply Forall_cons in Hu as [Hv Hu]. specialize (Hsub v Hv).
      destruct (if v =? 0x2B then _ else _) as [x y]. destruct Hsub as [Hx Hy].
      cbn [length] in Hl. cbn [safe length]. unfold ends.
      split; [lia|]. split; [lia|]. split; [lia|]. by apply Forall_cons; split; [|apply Forall_cons].
Qed.
End parsers.

Lemma safe_lim {A} m lim lim' (P : A -> Prop) r : lim <= lim' -> safe m lim P r -> safe m lim' P r.
Proof. destruct r; cbn; lia || done. Qed.

Lemma safe_terminates {A} m lim (P : A -> Prop) r : safe m lim P r -> r <> Spin.
Proof. by destruct r. Qed.

(** ** Variable bindings and PDUs *)

Section clients.
Context (m : mem) (Hm : bytes_ok m).

Lemma snmp_parse_var_op_safe data dl cap :
  0 <= data -> 0 <= dl < 2 ^ 31 -> 2 <= cap < 2 ^ 64 ->
  safe m (data + dl + 12)
    (fun v => data + 6 <= var_end v <= data + dl /\ listlength v = data + dl - var_end v
              /\ data + 4 <= var_val v /\ Z.of_nat (length (var_name v)) <= cap)
    (snmp_parse_var_op m data cap dl).
Proof using Hm.
  intros Hdata Hdl Hcap. unfold snmp_parse_var_op, asn_parse_sequence.
  eapply (safe_bind _ _ (fun '(q, t, n) => data + 2 <= q /\ 0 <= n < 2 ^ 31 /\ q + n <= data + dl)).
  { eapply safe_bind; [apply (asn_parse_header_safe m Hm data dl); lia|].
    intros [[d1 t1] n1] H1. by destruct (negb _). }
  intros [[d1 t1] n1] (Hd1 & Hn1 & He1).
  eapply safe_bind.
  { eapply safe_lim; [|apply (asn_parse_objid_safe m Hm d1 n1); lia]. lia. }
  intros [[[d2 t2] name] n2] ((Hd2 & He2 & Hn2) & _ & Hname & _). destruct (negb _); [done|].
  eapply safe_bind.
  { eapply safe_lim; [|apply (asn_parse_header_safe m Hm d2 n2); lia]. lia. }
  intros [[d3 t3] n3] (Hd3 & Hn3 & He3). cbn.
  rewrite s32_id, u64_id by cint. lia.
Qed.

Context `{Allocator} (leftover : Z -> Z * option mem * Z).

Lemma kept_terminates {A} p (r : outcome A) f : r <> Spin -> kept leftover p r f <> Spin.
Proof using Type. by destruct r. Qed.

Lemma ok_terminates (r : outcome (Z * option mem * Z)) :
  r <> Spin -> r ≫= (fun v => Ret (v, false)) <> Spin.
Proof using Type. by destruct r. Qed.

Lemma parse_value_terminates p t n : 0 <= p -> parse_value leftover m p t n <> Spin.
Proof using Hm.
  intros Hp. unfold parse_value. assert (Hd : 0 <= MAX_PACKET_LENGTH < 2 ^ 62) by done.
  destruct (t =? ASN_INTEGER); [eapply ok_terminates, kept_terminates, safe_terminates, asn_parse_int_safe; done|].
  destruct (is_uint_type t); [eapply ok_terminates, kept_terminates, safe_terminates, asn_parse_unsigned_int_safe; done|].
  destruct (is_uint64_type t); [eapply ok_terminates, kept_terminates, safe_terminates, asn_parse_unsigned_int64_safe; done|].
  destruct (t =? ASN_OPAQUE_FLOAT); [eapply ok_terminates, kept_terminates, safe_terminates, asn_parse_float_safe; done|].
  destruct (t =? ASN_OPAQUE_DOUBLE); [eapply ok_terminates, kept_terminates, safe_terminates, asn_parse_double_safe; done|].
  destruct (t =? ASN_OPAQUE_I64); [eapply ok_terminates, kept_terminates, safe_terminates, asn_parse_signed_int64_safe; done|].
  destruct (is_string_type t).
  { destruct (_ && _); [done|]. eapply ok_terminates, kept_terminates, safe_terminates, asn_parse_string_safe; done. }
  destruct (t =? ASN_OBJECT_ID).
  { pose proof (safe_terminates _ _ _ _ (asn_parse_objid_safe m Hm p MAX_PACKET_LENGTH Hp Hd MAX_OID_LEN ltac:(done))) as Ht.
    destruct (asn_parse_objid _ _ _ _) as [[[[? ?] ?] ?]| | |]; try done; cbn; [by destruct (alloc _)|].
    destruct (leftover p) as [[? ?] ?]. by destruct (alloc _). }
  destruct (is_null_type t); [done|]. destruct (t =? ASN_BIT_STR); [|done].
  destruct (alloc n); [|done]. eapply ok_terminates, kept_terminates, safe_terminates, asn_parse_bitstring_safe; done.
Qed.

(** Each turn consumes bytes, so as many turns as bytes are enough. *)
Lemma parse_vars_terminates fuel data length bad :
  0 <= data -> 0 <= length < 2 ^ 31 -> length <= Z.of_nat fuel ->
  parse_vars leftover fuel m data length bad <> Spin.
Proof using Hm.
  revert data length bad. induction fuel as [|fuel IH]; intros data length bad Hd Hl Hf; cbn [parse_vars];
    rewrite s32_id by cint; destruct (Z.ltb_spec 0 length); try done; [lia|].
  unfold parse_var. destruct (negb (alloc _)); [done|].
  pose proof (snmp_parse_var_op_safe data length MAX_OID_LEN Hd Hl ltac:(done)) as Hv.
  destruct (snmp_parse_var_op _ _ _ _) as [v| | |]; try done. cbn in Hv. destruct Hv as (Hv1 & Hv2 & Hv3 & _).
  rewrite bind_ret. pose proof (parse_value_terminates (var_val v) (var_val_type v) (var_val_len v) ltac:(lia)) as Hp.
  destruct (parse_value _ _ _ _ _) as [[[[ty vl] n] b]| | |]; try done. rewrite !bind_ret, Hv2.
  assert (Hn : parse_vars leftover fuel m (var_end v) (data + length - var_end v) (bad || b) <> Spin)
    by (apply IH; lia).
  destruct (parse_vars _ _ _ _ _ _) as [[vs bt]| | |]; done.
Qed.

Lemma parse_fields_safe data dl t p0 :
  0 <= data -> 0 <= dl < 2 ^ 31 ->
  safe m (data + dl + 12) (fun '(_, q, dl') => data <= q /\ q + dl' = data + dl /\ 0 <= dl')
    (parse_fields m data dl t p0).
Proof using Hm.
  intros Hdata Hdl. unfold parse_fields.
  assert (Hint : forall q dl', data <= q -> q + dl' = data + dl -> 0 <= dl' ->
    safe m (data + dl + 12) (fun '(q', _, _, dl'') => ends q dl' q' dl'') (asn_parse_int m q dl' sizeof_long)).
  { intros q dl' H1 H2 H3. eapply safe_lim; [|apply (asn_parse_int_safe m Hm q dl'); lia]. lia. }
  destruct (t =? SNMP_MSG_TRAP).
  - eapply safe_bind; [apply (asn_parse_objid_safe m Hm data dl); done || lia|].
    intros [[[d1 t1] l1] n1] ((? & ? & ?) & _). destruct (negb _); [done|].
    eapply safe_bind; [eapply safe_lim; [|apply (asn_parse_string_safe m Hm d1 n1); lia]; lia|].
    intros [[[d2 t2] l2] n2] ((? & ? & ?) & _).
    eapply safe_bind; [apply Hint; lia|]. intros [[[d3 t3] l3] n3] (? & ? & ?).
    eapply safe_bind; [apply Hint; lia|]. intros [[[d4 t4] l4] n4] (? & ? & ?).
    eapply safe_bind; [eapply safe_lim; [|apply (asn_parse_unsigned_int_safe m Hm d4 n4); lia]; lia|].
    intros [[[d5 t5] l5] n5] (? & ? & ?). cbn. lia.
  - destruct (is_v2_command t); [|done].
    eapply safe_bind; [apply Hint; lia|]. intros [[[d1 t1] l1] n1] (? & ? & ?).
    eapply safe_bind; [apply Hint; lia|]. intros [[[d2 t2] l2] n2] (? & ? & ?).
    eapply safe_bind; [apply Hint; lia|]. intros [[[d3 t3] l3] n3] (? & ? & ?). cbn. lia.
Qed.

Lemma snmp_pdu_parse_terminates p0 data dl :
  0 <= data -> 0 <= dl < 2 ^ 31 -> snmp_pdu_parse leftover m p0 data dl <> Spin.
Proof using Hm.
  intros Hdata Hdl. unfold snmp_pdu_parse, asn_parse_sequence.
  pose proof (asn_parse_header_safe m Hm data dl Hdata ltac:(lia)) as H1.
  destruct (asn_parse_header m data dl) as [[[d1 t1] n1]| | |]; try done. cbn in H1. rewrite bind_ret.
  pose proof (parse_fields_safe d1 n1 t1 p0 ltac:(lia) ltac:(lia)) as H2.
  destruct (parse_fields m d1 n1 t1 p0) as [[[p d2] n2]| | |]; try done. cbn in H2. rewrite bind_ret.
  pose proof (asn_parse_header_safe m Hm d2 n2 ltac:(lia) ltac:(lia)) as H3.
  destruct (asn_parse_header m d2 n2) as [[[d3 t3] n3]| | |]; try done. cbn in H3. rewrite bind_ret.
  destruct (negb _); [done|]. rewrite bind_ret.
  pose proof (parse_vars_terminates (Z.to_nat n3) d3 n3 false ltac:(lia) ltac:(lia) ltac:(lia)) as H4.
  by destruct (parse_vars _ _ _ _ _ _) as [[vs bt]| | |].
Qed.
End clients.
