(* ===== verification/Samples.v ===== *)
(** * An allocator for the witnesses *)

From S2P Require Import Prelude AsnRbuild.

(** It gives anything below a mebibyte. *)
#[export] Program Instance small_alloc : Allocator := { alloc n := n <? 2 ^ 20 }.
Next Obligation. intros n Hn%Z.ltb_lt. lia. Qed.
