(* ===== verification/AsnProps.v ===== *)
(** * Properties of asn1.c

    The theorems about the BER routines: both families of builders write the
    same bytes, what they write parses back, integers are encoded minimally,
    the parsers stay near the announced bytes; and the places where the code
    does something else than it means to. *)

From S2P Require Import Prelude Bytes AsnTypes AsnParse AsnBuild AsnBuildSpec AsnParseSpec.
From S2P Require Import AsnRbuild AsnRbuildSpec VarOp Pdu Codec VarOpSpec AsnSafety.
From S2P Require Import Samples.

(** ** Values *)

(** A value comes back: for a valid value of each kind in [value] (the
    Opaque-wrapped unsigned 64-bit counters and negative signed 64-bit values,
    which the code does not carry, are not among them), what the switch of
    [snmp_build_var_op] wrote for it is recognised by
    [asn_parse_header], which finds its type and its end, and the switch of
    [snmp_pdu_parse] then restores the type, the length and every byte of the
    memory image of the value. *)
Theorem value_roundtrip `{Allocator} leftover v dl out dl' m p n :
  value_ok v -> is_u64 dl -> is_u64 n ->
  (forall k, k <= 65536 -> alloc k = true) ->
  build_value dl (value_type v) (value_mem v) (value_len v) = Ret (out, dl') ->
  bytes_at m p out -> Z.of_nat (length out) <= n ->
  exists q k,
    asn_parse_header m p n = Ret (q, value_type v, k)
    /\ q + k = p + Z.of_nat (length out)
    /\ parse_value leftover m p (value_type v) k = Ret (value_type v, value_mem v, value_len v, false).
Proof.
  intros Hv Hdl Hn Ha. revert Hv. generalize (value_codec (fun t mm l e =>
    build_value dl t mm l = Ret (out, dl') -> bytes_at m p out -> Z.of_nat (length out) <= n ->
    exists q k, asn_parse_header m p n = Ret (q, t, k) /\ q + k = p + Z.of_nat (length out)
      /\ parse_value leftover m p t k = Ret (t, mm, l, false)) v).
  intros Hc Hv. apply Hc; [done|]. clear Hc. intros A c t a Hva Hb Hat Hlen.
  rewrite (build_ok c) in Hb by done. apply take_room_Ret in Hb as [_ [= -> ->]].
  pose proof (enc_bounds c t a Hva) as He.
  destruct (header_ok c m p n t a) as (q & k & Hh & Hend & _); [done..|].
  exists q, k. split; [done|]. split; [done|].
  apply (parse_ok c leftover m p n t a q k); try done.
  intros j [Hj|Hj]; apply Ha; lia.
Qed.

Lemma value_roundtrip_witness :
  exists q k,
    asn_parse_header [0x42; 2; 1; 44; 9] 0 5 = Ret (q, ASN_GAUGE, k)
    /\ q + k = 0 + Z.of_nat (length [0x42; 2; 1; 44])
    /\ parse_value (fun _ => (0, None, 0)) [0x42; 2; 1; 44; 9] 0 ASN_GAUGE k
       = Ret (ASN_GAUGE, Some [44; 1; 0; 0; 0; 0; 0; 0], 8, false).
Proof.
  apply (value_roundtrip (fun _ => (0, None, 0)) (VUnsigned ASN_GAUGE 300) 100 [0x42; 2; 1; 44] 96).
  - by split; vm_compute.
  - by vm_compute.
  - by vm_compute.
  - intros k Hk. apply Z.ltb_lt. lia.
  - by vm_compute.
  - by vm_compute.
  - by vm_compute.
Defined.

(** C30: the forward and the reverse builders agree: for every value that both
    can build there is
    one encoding, which the forward builder stores when it fits in the room
    it is given and which the reverse builder puts in front of what the
    packet already holds, growing the packet as needed; it fails only when
    the memory is refused, and never leaves the packet or loops.  Such values ([value_ok])
    are integers, counters, nonnegative 64-bit integers in an Opaque, strings of at most 65531
    bytes, bit strings, NULL, object identifiers, [float] and [double]; on a
    negative 64-bit integer the reverse builder does not end, and the Opaque
    Counter64 and U64, which do not parse back, are left out. *)
Theorem builders_agree `{Allocator} r fuel v dl s :
  value_ok v -> is_u64 dl -> rb_ok s -> (3 <= fuel)%nat ->
  exists out,
    build_value dl (value_type v) (value_mem v) (value_len v) = take_room out dl
    /\ wr r (Z.of_nat (length out))
         (rbuild_value r fuel (value_type v) (value_mem v) (value_len v) s) s out.
Proof.
  intros Hv Hdl Hs Hf. exists (value_enc v). revert Hv.
  generalize (value_codec (fun t mm l e => build_value dl t mm l = take_room e dl
    /\ wr r (Z.of_nat (length e)) (rbuild_value r fuel t mm l s) s e) v).
  intros Hc Hv. apply Hc; [done|]. intros A c t a Hva.
  split; [by apply build_ok|by apply rbuild_ok].
Qed.

Lemma builders_agree_witness :
  exists out,
    build_value 50 ASN_INTEGER (Some (le_bytes 8 (-129))) 8 = take_room out 50
    /\ wr true (Z.of_nat (length out))
         (rbuild_value true 3 ASN_INTEGER (Some (le_bytes 8 (-129))) 8 {| pkt := [7]; offset := 1 |})
         {| pkt := [7]; offset := 1 |} out.
Proof.
  apply (builders_agree true 3 (VInt (-129)) 50 {| pkt := [7]; offset := 1 |}).
  - by split; vm_compute.
  - by vm_compute.
  - by vm_compute.
  - lia.
Defined.

(** ** Integers *)

(** The value of contents octets: big-endian two's complement. *)
Definition octets_value (l : list Z) : Z :=
  match l with
  | [] => 0
  | b :: _ => be_val (if b <? 128 then 0 else -1) l
  end.

Lemma octets_value_fits l : l <> [] -> bytes_ok l -> fits (length l) (octets_value l) = true.
Proof.
  destruct l as [|b l]; [done|]. intros _ Hok. inversion Hok as [|? ? Hb Hl]; subst.
  cbn [octets_value length fits]. rewrite be_val_shift. cbn [length].
  change (be_val 0 (b :: l)) with (be_val (0 * 2 ^ 8 + b) l). rewrite (be_val_shift (0 * 2 ^ 8 + b)).
  pose proof (be_val_bound l Hl) as Hv. rewrite pow8_succ, Z.pow_add_r by lia.
  change (2 ^ 7) with 128. change (2 ^ 8) with 256. cbn [Z.mul Z.add].
  unfold is_u8 in Hb. change (2 ^ 8) with 256 in Hb.
  apply andb_true_intro. split; [apply Z.leb_le|apply Z.ltb_lt]; destruct (Z.ltb_spec b 128); nia.
Qed.

(** [asn_build_int] writes the tag, the length and the shortest contents
    octets that stand for the value: no shorter two's complement string of
    bytes has the same value. *)
Theorem asn_build_int_minimal dl t v out dl' :
  is_u64 dl -> INT32_MIN <= v < 2 ^ 32 ->
  asn_build_int dl t v sizeof_long = Ret (out, dl') ->
  exists c,
    out = t :: Z.of_nat (length c) :: c /\ bytes_ok c /\ octets_value c = v
    /\ dl' = dl - Z.of_nat (length out)
    /\ forall c', c' <> [] -> bytes_ok c' -> octets_value c' = v -> (length c <= length c')%nat.
Proof.
  intros Hdl Hv Hb. rewrite asn_build_int_spec, CHECK_OVERFLOW_S_id in Hb by done.
  apply take_room_Ret in Hb as [_ [= -> ->]].
  assert (Hs : is_s64 v) by (unfold INT32_MIN in Hv; cint).
  pose proof (int_size_s64 v Hs) as Hsz. exists (int_octets v). rewrite length_int_octets.
  split; [|split; [|split; [|split]]].
  - unfold tlv. rewrite length_int_octets, len_octets_small by lia. done.
  - apply int_octets_ok.
  - unfold int_octets. pose proof (least_size_fits 9 v (fits_9 v ltac:(unfold is_s64 in Hs; lia))) as Hf.
    fold (int_size v) in Hf. destruct (int_size v) as [|n]; [lia|]. by apply be_val_sign.
  - unfold tlv. by rewrite length_int_octets.
  - intros c' Hne Hok Hval. destruct (decide (int_size v <= length c')%nat) as [|Hlt]; [done|].
    exfalso. apply (least_size_minimal 9 v (length c')); [|unfold int_size in Hlt; lia].
    pose proof (octets_value_fits c' Hne Hok) as Hf. by rewrite Hval in Hf.
Qed.

Lemma asn_build_int_minimal_witness :
  exists c,
    [2; 2; 255; 127] = 2 :: Z.of_nat (length c) :: c /\ bytes_ok c /\ octets_value c = -129
    /\ 96 = 100 - Z.of_nat (length [2; 2; 255; 127])
    /\ forall c', c' <> [] -> bytes_ok c' -> octets_value c' = -129 -> (length c <= length c')%nat.
Proof.
  apply (asn_build_int_minimal 100 2 (-129) [2; 2; 255; 127] 96).
  - by vm_compute.
  - by vm_compute.
  - by vm_compute.
Defined.

(** ** Memory safety and bounds of the parsers *)

(** C31: on arbitrary bytes the parsers of a header, an integer, an unsigned
    integer, the two 64-bit integers, a string, a bit string, a [float] and a
    [double] terminate, touch no memory beyond
    twelve bytes after the announced ones, and, when they succeed, have found an
    object that ends inside the announced bytes and count what is left of
    them without wrapping (the pointer of a [float] or [double] is the start of
    its bytes, [parse_float_pointer]).  [asn_parse_null] terminates and touches no more
    memory, but does not look at the number of announced bytes
    ([parse_null_past_the_end]).  Object identifiers have a theorem of their own. *)
Theorem parsers_bounded m data dl size :
  bytes_ok m -> 0 <= data -> 0 <= dl < 2 ^ 62 ->
  let lim := data + dl + 12 in
  safe m lim (fun '(q, _, n) => data + 2 <= q /\ 0 <= n < 2 ^ 31 /\ q + n <= data + dl)
    (asn_parse_header m data dl)
  /\ safe m lim (fun '(q, _, _, dl') => ends data dl q dl') (asn_parse_int m data dl size)
  /\ safe m lim (fun '(q, _, _, dl') => ends data dl q dl') (asn_parse_unsigned_int m data dl size)
  /\ safe m lim (fun '(q, _, _, dl') => ends data dl q dl') (asn_parse_unsigned_int64 m data dl size)
  /\ safe m lim (fun '(q, _, _, dl') => ends data dl q dl') (asn_parse_signed_int64 m data dl size)
  /\ safe m lim (fun '(q, _, s, dl') => ends data dl q dl' /\ Z.of_nat (length s) <= size)
       (asn_parse_string m data dl size)
  /\ safe m lim (fun '(q, _, s, dl') => ends data dl q dl' /\ (1 <= length s)%nat
                                       /\ Z.of_nat (length s) <= size)
       (asn_parse_bitstring m data dl size)
  /\ safe m lim (fun '(q, _, _, dl') => ends data dl (q + 4) dl') (asn_parse_float m data dl size)
  /\ safe m lim (fun '(q, _, _, dl') => ends data dl (q + 8) dl') (asn_parse_double m data dl size)
  /\ safe m lim (fun '(q, _, _) => data + 2 <= q) (asn_parse_null m data dl).
Proof.
  intros Hm Hdata Hdl lim.
  split; [by apply asn_parse_header_safe|]. split; [by apply asn_parse_int_safe|].
  split; [by apply asn_parse_unsigned_int_safe|]. split; [by apply asn_parse_unsigned_int64_safe|].
  split; [by apply asn_parse_signed_int64_safe|]. split; [by apply asn_parse_string_safe|].
  split; [by apply asn_parse_bitstring_safe|]. split; [by apply asn_parse_float_safe|].
  split; [by apply asn_parse_double_safe|]. by apply asn_parse_null_safe.
Qed.

Lemma parsers_bounded_witness :
  let m := [4; 1; 65; 2; 3; 1; 2; 3] in
  let lim := 0 + 3 + 12 in
  safe m lim (fun '(q, _, n) => 0 + 2 <= q /\ 0 <= n < 2 ^ 31 /\ q + n <= 0 + 3)
    (asn_parse_header m 0 3)
  /\ safe m lim (fun '(q, _, _, dl') => ends 0 3 q dl') (asn_parse_int m 0 3 8)
  /\ safe m lim (fun '(q, _, _, dl') => ends 0 3 q dl') (asn_parse_unsigned_int m 0 3 8)
  /\ safe m lim (fun '(q, _, _, dl') => ends 0 3 q dl') (asn_parse_unsigned_int64 m 0 3 8)
  /\ safe m lim (fun '(q, _, _, dl') => ends 0 3 q dl') (asn_parse_signed_int64 m 0 3 8)
  /\ safe m lim (fun '(q, _, s, dl') => ends 0 3 q dl' /\ Z.of_nat (length s) <= 8)
       (asn_parse_string m 0 3 8)
  /\ safe m lim (fun '(q, _, s, dl') => ends 0 3 q dl' /\ (1 <= length s)%nat
                                       /\ Z.of_nat (length s) <= 8)
       (asn_parse_bitstring m 0 3 8)
  /\ safe m lim (fun '(q, _, _, dl') => ends 0 3 (q + 4) dl') (asn_parse_float m 0 3 8)
  /\ safe m lim (fun '(q, _, _, dl') => ends 0 3 (q + 8) dl') (asn_parse_double m 0 3 8)
  /\ safe m lim (fun '(q, _, _) => 0 + 2 <= q) (asn_parse_null m 0 3).
Proof.
  apply (parsers_bounded [4; 1; 65; 2; 3; 1; 2; 3] 0 3 8).
  - repeat constructor; by vm_compute.
  - by vm_compute.
  - by vm_compute.
Defined.

(** With one announced byte the NULL is found all the same, and what is left
    is 2^64 - 1 bytes. *)
Lemma parse_null_past_the_end : asn_parse_null [5; 0] 0 1 = Ret (2, ASN_NULL, 2 ^ 64 - 1).
Proof. reflexivity. Qed.

(** C33: [asn_parse_objid] never writes outside the caller's array of at least
    two elements, whatever the bytes are; it terminates, and every
    subidentifier it returns fits 32 bits. *)
Theorem objid_array_safe m data dl cap :
  bytes_ok m -> 0 <= data -> 0 <= dl < 2 ^ 62 -> 2 <= cap < 2 ^ 64 ->
  safe m (data + dl + 12)
    (fun '(q, _, l, dl') => ends data dl q dl' /\ (1 <= length l)%nat /\ Z.of_nat (length l) <= cap
                            /\ Forall is_u32 l)
    (asn_parse_objid m data dl cap).
Proof. intros Hm Hdata Hdl Hcap. by apply asn_parse_objid_safe. Qed.

Lemma objid_array_safe_witness :
  safe [6; 3; 0x2B; 6; 1] (0 + 5 + 12)
    (fun '(q, _, l, dl') => ends 0 5 q dl' /\ (1 <= length l)%nat /\ Z.of_nat (length l) <= 3
                            /\ Forall is_u32 l)
    (asn_parse_objid [6; 3; 0x2B; 6; 1] 0 5 3).
Proof.
  apply (objid_array_safe [6; 3; 0x2B; 6; 1] 0 5 3).
  - repeat constructor; by vm_compute.
  - by vm_compute.
  - by vm_compute.
  - by vm_compute.
Defined.

(** ** Where the code does something else *)

Lemma rd_tail2 x y x' y' (l : list Z) p : 2 <= p -> rd (x :: y :: l) p = rd (x' :: y' :: l) p.
Proof.
  intros Hp. replace p with (Z.of_nat 2 + (p - 2)) by lia.
  transitivity (rd l (p - 2)); [apply (rd_shift [x; y])|symmetry; apply (rd_shift [x'; y'])]; lia.
Qed.

Lemma rd_n_tail2 x y x' y' (l : list Z) p n :
  2 <= p -> rd_n (x :: y :: l) p n = rd_n (x' :: y' :: l) p n.
Proof.
  revert p. induction n as [|n IH]; intros p Hp; cbn [rd_n]; [done|].
  by rewrite (rd_tail2 x y x' y'), IH by lia.
Qed.

(** A second subidentifier of 40 is let through although the first is 0
    or 1 (the test is [> 40] where X.690 needs [>= 40]), so two different
    object identifiers get the same encoding: whatever follows, [x.40] is
    written as [(x + 1).0]. *)
Theorem objid_40_collision dl t x rest :
  x = 0 \/ x = 1 ->
  asn_build_objid dl t (x :: 40 :: rest) (Z.of_nat (length (x :: 40 :: rest)))
  = asn_build_objid dl t (x + 1 :: 0 :: rest) (Z.of_nat (length (x :: 40 :: rest))).
Proof.
  intros Hx. unfold asn_build_objid, objid_first.
  assert (Hlen : 2 <= Z.of_nat (length (x :: 40 :: rest))) by (cbn [length]; lia).
  revert Hlen. generalize (Z.of_nat (length (x :: 40 :: rest))) as n. intros n Hn.
  destruct (Z.eqb_spec n 0); [lia|]. destruct (Z.eqb_spec n 1); [lia|].
  change (rd (x :: 40 :: rest) 0) with (Ret x). change (rd (x :: 40 :: rest) 1) with (Ret 40).
  change (rd (x + 1 :: 0 :: rest) 0) with (Ret (x + 1)). change (rd (x + 1 :: 0 :: rest) 1) with (Ret 0).
  rewrite !bind_ret. destruct (Z.ltb_spec 2 x), (Z.ltb_spec 2 (x + 1)); try lia.
  change (40 <? 40) with false. change (40 <? 0) with false. cbn [andb]. rewrite !bind_ret.
  rewrite (rd_n_tail2 x 40 (x + 1) 0) by lia.
  replace (u64 (u64 (x * 40) + 40)) with (u64 (u64 ((x + 1) * 40) + 0)); [done|].
  destruct Hx as [-> | ->]; done.
Qed.

Lemma objid_40_collision_witness :
  asn_build_objid 20 6 [0; 40; 7] (Z.of_nat (length [0; 40; 7]))
  = asn_build_objid 20 6 [0 + 1; 0; 7] (Z.of_nat (length [0; 40; 7])).
Proof. apply (objid_40_collision 20 6 0 [7]). by left. Defined.

(** A Counter64 (or unsigned 64-bit value) put in an Opaque by
    [asn_build_unsigned_int64] is refused by [asn_parse_unsigned_int64]: its
    test on the type comes before, and excludes, the branch that would look
    inside the Opaque. *)
Theorem opaque_counter64_not_parsed dl t c out dl' m p n :
  is_u64 dl -> c64_ok c -> t = ASN_OPAQUE_COUNTER64 \/ t = ASN_OPAQUE_U64 ->
  asn_build_unsigned_int64 dl t c sizeof_counter64 = Ret (out, dl') ->
  bytes_at m p out ->
  asn_parse_unsigned_int64 m p n sizeof_counter64 = Null.
Proof.
  intros Hdl Hc Ht Hb Hat. rewrite asn_build_unsigned_int64_spec in Hb by done.
  replace ((t =? ASN_OPAQUE_COUNTER64) || (t =? ASN_OPAQUE_U64)) with true in Hb
    by (by destruct Ht as [-> | ->]).
  apply take_room_Ret in Hb as [_ [= -> _]]. apply tlv_at in Hat as [Hrd _].
  unfold asn_parse_unsigned_int64. rewrite Z.eqb_refl. cbn [negb]. by rewrite Hrd, bind_ret.
Qed.

Lemma opaque_counter64_not_parsed_witness :
  asn_parse_unsigned_int64 [0x44; 4; 0x9f; 0x76; 1; 5] 0 6 sizeof_counter64 = Null.
Proof.
  apply (opaque_counter64_not_parsed 40 ASN_OPAQUE_COUNTER64 (c64_of 5) [0x44; 4; 0x9f; 0x76; 1; 5] 34).
  - by vm_compute.
  - by vm_compute.
  - by left.
  - by vm_compute.
  - by vm_compute.
Defined.

(** [asn_realloc_rbuild_signed_int64] never succeeds on a negative value
    (a [counter64] with bit 31 of its high word set): on a platform with
    64-bit [long] the last loop shifts a positive word to the right and waits
    for it to become -1.  Whatever bound is put on the number of its turns,
    it has not returned by then, unless the packet could not grow. *)
Theorem rbuild_int64_negative_never_returns `{Allocator} r fuel t c s s' :
  c64_ok c -> 2 ^ 31 <= high c ->
  asn_realloc_rbuild_signed_int64 r fuel t c sizeof_counter64 s <> Ret s'.
Proof. intros. by apply asn_realloc_rbuild_signed_int64_negative. Qed.

Lemma rbuild_int64_negative_never_returns_witness :
  asn_realloc_rbuild_signed_int64 true 40 0x80 {| high := 2 ^ 32 - 1; low := 2 ^ 32 - 5 |} sizeof_counter64
    {| pkt := []; offset := 0 |} <> Ret {| pkt := []; offset := 0 |}.
Proof.
  apply (rbuild_int64_negative_never_returns true 40 0x80 {| high := 2 ^ 32 - 1; low := 2 ^ 32 - 5 |}
           {| pkt := []; offset := 0 |}).
  - by split; vm_compute.
  - by vm_compute.
Defined.

(** The forward builder writes a length of 65536 or more modulo 65536,
    without failing; the parser then reads that smaller length. *)
Theorem build_length_truncates dl n m p x :
  is_u64 dl -> 3 <= dl -> 65536 <= n ->
  asn_build_length dl n = Ret ([130; (n / 256) mod 256; n mod 256], dl - 3)
  /\ (bytes_at m p [130; (n / 256) mod 256; n mod 256] ->
      asn_parse_length m p x = Ret (Some (p + 3), n mod 65536)).
Proof.
  intros Hdl H3 Hn. split.
  - unfold asn_build_length. destruct (Z.ltb_spec n 0x80); [lia|]. destruct (Z.leb_spec n 0xFF); [lia|].
    destruct (Z.ltb_spec dl 3); [lia|]. rewrite u64_sub by (done || lia).
    change 0xFF with (Z.ones 8). rewrite !land_low, shr_div by lia. change (2 ^ 8) with 256.
    rewrite (u8_id ((n / 256) mod 256)), (u8_id (n mod 256)) by cint. done.
  - intros Hat. destruct (reads_len_seq4 (n mod 65536)) as [_ Hr]; [unfold len_ok; cint|].
    specialize (Hr m p x). replace (n mod 65536 / 256) with ((n / 256) mod 256) in Hr by cint.
    replace ((n mod 65536) mod 256) with (n mod 256) in Hr by cint. by apply Hr.
Qed.

Lemma build_length_truncates_witness :
  asn_build_length 10 70000 = Ret ([130; (70000 / 256) mod 256; 70000 mod 256], 10 - 3)
  /\ (bytes_at [130; 17; 112] 0 [130; (70000 / 256) mod 256; 70000 mod 256] ->
      asn_parse_length [130; 17; 112] 0 0 = Ret (Some (0 + 3), 70000 mod 65536)).
Proof.
  apply (build_length_truncates 10 70000 [130; 17; 112] 0 0).
  - by vm_compute.
  - by vm_compute.
  - by vm_compute.
Defined.

(** [asn_parse_int] on an INTEGER with no contents octets that ends the
    buffer reads the octet after it: the sign is taken from [*bufp] before
    the length is looked at. *)
Theorem parse_int_overread : asn_parse_int [2; 0] 0 2 sizeof_long = Overrun.
Proof. by vm_compute. Qed.

(** [asn_parse_float] and [asn_parse_double] return a pointer to the
    start of the floating-point octets, five bytes into the object, where
    their comment (and every other parser) promises the end of the object. *)
Theorem parse_float_pointer m data dl f d :
  is_u64 dl -> is_u32 f -> is_u64 d ->
  (let enc := tlv ASN_OPAQUE (opaque_wrap ASN_OPAQUE_FLOAT (be_bytes 4 f)) in
   bytes_at m data enc -> Z.of_nat (length enc) <= dl ->
   asn_parse_float m data dl sizeof_float
   = Ret (data + 5, ASN_OPAQUE_FLOAT, f, dl - Z.of_nat (length enc)))
  /\ (let enc := tlv ASN_OPAQUE (opaque_wrap ASN_OPAQUE_DOUBLE (be_bytes 8 d)) in
      bytes_at m data enc -> Z.of_nat (length enc) <= dl ->
      asn_parse_double m data dl sizeof_double
      = Ret (data + 5, ASN_OPAQUE_DOUBLE, d, dl - Z.of_nat (length enc))).
Proof.
  intros Hdl Hf Hd. split; intros enc Hat Hn; [by apply asn_parse_float_spec|by apply asn_parse_double_spec].
Qed.

Lemma parse_float_pointer_witness :
  (let enc := tlv ASN_OPAQUE (opaque_wrap ASN_OPAQUE_FLOAT (be_bytes 4 0x40490fdb)) in
   bytes_at [0x44; 7; 0x9f; 0x78; 4; 0x40; 0x49; 0x0f; 0xdb] 0 enc -> Z.of_nat (length enc) <= 9 ->
   asn_parse_float [0x44; 7; 0x9f; 0x78; 4; 0x40; 0x49; 0x0f; 0xdb] 0 9 sizeof_float
   = Ret (0 + 5, ASN_OPAQUE_FLOAT, 0x40490fdb, 9 - Z.of_nat (length enc)))
  /\ (let enc := tlv ASN_OPAQUE (opaque_wrap ASN_OPAQUE_DOUBLE (be_bytes 8 1)) in
      bytes_at [0x44; 7; 0x9f; 0x78; 4; 0x40; 0x49; 0x0f; 0xdb] 0 enc -> Z.of_nat (length enc) <= 9 ->
      asn_parse_double [0x44; 7; 0x9f; 0x78; 4; 0x40; 0x49; 0x0f; 0xdb] 0 9 sizeof_double
      = Ret (0 + 5, ASN_OPAQUE_DOUBLE, 1, 9 - Z.of_nat (length enc))).
Proof.
  apply (parse_float_pointer [0x44; 7; 0x9f; 0x78; 4; 0x40; 0x49; 0x0f; 0xdb] 0 9 0x40490fdb 1).
  - by vm_compute.
  - by vm_compute.
  - by vm_compute.
Defined.
