(* ===== verification/PduProps.v ===== *)
(** * Properties of PDUs and variable bindings *)

From S2P Require Import Prelude Bytes AsnTypes AsnParse AsnBuild AsnBuildSpec AsnParseSpec.
From S2P Require Import AsnRbuild AsnRbuildSpec VarOp Pdu Codec VarOpSpec PduRing PduSpec AsnSafety.
From S2P Require Import Samples.

(** ** Inputs of the witnesses *)

(** sysUpTime.0 and sysName.0, in a response. *)
Definition sample_bindings : list binding :=
  [([1; 3; 6; 1; 2; 1; 1; 3; 0], VUnsigned ASN_TIMETICKS 4711);
   ([1; 3; 6; 1; 2; 1; 1; 5; 0], VOctets ASN_OCTET_STR [115; 110; 109; 112])].

Definition sample_pdu : snmp_pdu :=
  {| command := SNMP_MSG_RESPONSE; reqid := 77; errstat := 0; errindex := -1; time := 0; flags := 0;
     variables := map var_of sample_bindings; enterprise := []; trap_type := 0; specific_type := 0;
     agent_addr := [0; 0; 0; 0] |}.

Definition fresh_pdu : snmp_pdu :=
  {| command := 0; reqid := 0; errstat := 0; errindex := 0; time := 0; flags := 0; variables := [];
     enterprise := []; trap_type := 0; specific_type := 0; agent_addr := [0; 0; 0; 0] |}.

Lemma sample_pdu_ok : pdu_ok sample_pdu.
Proof. left. repeat split; by vm_compute. Qed.

Lemma sample_bindings_ok : Forall binding_ok sample_bindings.
Proof.
  repeat constructor; cbn; try lia; try (by vm_compute); try done.
Qed.

(** ** Round trips *)

(** What the parser leaves in the structure it was given. *)
Definition parse_result (p0 p : snmp_pdu) : snmp_pdu :=
  match variables p with [] => parsed p0 p | vars => set_variables (parsed p0 p) vars end.

Lemma parse_result_bindings p0 p bs :
  variables p = map var_of bs ->
  match bs with [] => parsed p0 p | _ => set_variables (parsed p0 p) (variables p) end = parse_result p0 p.
Proof. intros E. unfold parse_result. rewrite E. by destruct bs. Qed.

(** C1: a PDU whose fields and variables are in range is written by
    [snmp_pdu_build] whenever there is room for it, and nothing is written
    otherwise; [snmp_pdu_parse] on what was written restores the command, the
    fields of that kind of PDU and every variable: its name, type, value
    bytes and value length, in order. *)
Theorem pdu_build_roundtrip `{Allocator} leftover hole dl p bs p0 :
  is_u64 dl -> pdu_ok p -> variables p = map var_of bs -> Forall binding_ok bs ->
  len_ok (Z.of_nat (length (pdu_body form4 p bs))) -> length (agent_addr p0) = 4%nat ->
  (forall k, k <= 65536 -> alloc k = true) ->
  exists out,
    snmp_pdu_build hole p dl = take_room out dl
    /\ forall m data n,
         bytes_at m data out -> is_u64 n -> Z.of_nat (length out) <= n ->
         snmp_pdu_parse leftover m p0 data n = Ret (parse_result p0 p, false).
Proof.
  intros Hdl Hp Hvars Hbs Hlen Haddr Ha. exists (pdu_enc form4 p bs). split; [by apply snmp_pdu_build_spec|].
  intros m data n Hat Hn Hle. rewrite <- (parse_result_bindings p0 p bs Hvars).
  by apply (snmp_pdu_parse_spec leftover form4); [|apply form4_ok|..].
Qed.

Lemma pdu_build_roundtrip_witness :
  exists out,
    snmp_pdu_build [0; 0; 0; 0] sample_pdu 500 = take_room out 500
    /\ forall m data n,
         bytes_at m data out -> is_u64 n -> Z.of_nat (length out) <= n ->
         snmp_pdu_parse (fun _ => (0, None, 0)) m fresh_pdu data n
         = Ret (parse_result fresh_pdu sample_pdu, false).
Proof.
  apply (pdu_build_roundtrip (fun _ => (0, None, 0)) [0; 0; 0; 0] 500 sample_pdu sample_bindings fresh_pdu).
  - by vm_compute.
  - exact sample_pdu_ok.
  - reflexivity.
  - exact sample_bindings_ok.
  - by vm_compute.
  - reflexivity.
  - intros k Hk. apply Z.ltb_lt. lia.
Defined.

(** What was written last stands at the start of the used part. *)
Lemma written_at s l w :
  rb_ok s -> written s = l ++ w -> bytes_at (pkt s) (pkt_len s - offset s) l.
Proof.
  intros Hs Hw. unfold rb_ok in Hs.
  rewrite <- (take_drop (Z.to_nat (pkt_len s - offset s)) (pkt s)) at 1.
  fold (written s). rewrite Hw.
  pose proof (bytes_at_middle (take (Z.to_nat (pkt_len s - offset s)) (pkt s)) l w) as Hb.
  rewrite length_take in Hb. unfold pkt_len in *.
  by replace (Z.of_nat (Z.to_nat (Z.of_nat (length (pkt s)) - offset s) `min` length (pkt s)))
    with (Z.of_nat (length (pkt s)) - offset s) in Hb by lia.
Qed.

(** C2: [snmp_pdu_realloc_rbuild] either fails because [realloc] refused a
    size at most 8192 bytes more than needed, or puts the PDU in front of
    what the packet held, from where [snmp_pdu_parse] restores it. *)
Theorem pdu_rbuild_roundtrip `{Allocator} leftover fuel p bs p0 s :
  rb_ok s -> (3 <= fuel)%nat ->
  pdu_ok p -> variables p = map var_of bs -> Forall binding_ok bs ->
  len_ok (Z.of_nat (length (pdu_body len_octets p bs))) -> length (agent_addr p0) = 4%nat ->
  (forall k, k <= 65536 -> alloc k = true) ->
  (exists s' out,
     snmp_pdu_realloc_rbuild fuel p s = Ret s' /\ rb_ok s' /\ written s' = out ++ written s
     /\ snmp_pdu_parse leftover (pkt s') p0 (pkt_len s' - offset s') (offset s' - offset s)
        = Ret (parse_result p0 p, false))
  \/ (snmp_pdu_realloc_rbuild fuel p s = Null
      /\ exists k, alloc k = false /\ k < offset s + Z.of_nat (length (pdu_enc len_octets p bs)) + 8192).
Proof.
  intros Hs Hf Hp Hvars Hbs Hlen Haddr Ha.
  pose proof (snmp_pdu_realloc_rbuild_spec fuel p bs s Hs Hf Hp Hvars Hbs Hlen) as [(s' & E & Hs' & Hw & _)|[E Hr]].
  - left. exists s', (pdu_enc len_octets p bs). split; [done|]. split; [done|]. split; [done|].
    rewrite <- (parse_result_bindings p0 p bs Hvars).
    pose proof (written_offset _ _ _ Hs Hs' Hw) as Ho. unfold rb_ok in Hs, Hs'.
    apply (snmp_pdu_parse_spec leftover len_octets); try done.
    + apply len_octets_form_ok.
    + cint.
    + by apply (written_at s' _ (written s)).
    + lia.
  - right. split; [done|]. exact Hr.
Qed.

Lemma pdu_rbuild_roundtrip_witness :
  let s := {| pkt := replicate 16 0; offset := 0 |} in
  (exists s' out,
     snmp_pdu_realloc_rbuild 3 sample_pdu s = Ret s' /\ rb_ok s' /\ written s' = out ++ written s
     /\ snmp_pdu_parse (fun _ => (0, None, 0)) (pkt s') fresh_pdu (pkt_len s' - offset s') (offset s' - offset s)
        = Ret (parse_result fresh_pdu sample_pdu, false))
  \/ (snmp_pdu_realloc_rbuild 3 sample_pdu s = Null
      /\ exists k, alloc k = false
           /\ k < offset s + Z.of_nat (length (pdu_enc len_octets sample_pdu sample_bindings)) + 8192).
Proof.
  apply (pdu_rbuild_roundtrip (fun _ => (0, None, 0)) 3 sample_pdu sample_bindings fresh_pdu).
  - by vm_compute.
  - lia.
  - exact sample_pdu_ok.
  - reflexivity.
  - exact sample_bindings_ok.
  - by vm_compute.
  - reflexivity.
  - intros k Hk. apply Z.ltb_lt. lia.
Defined.

(** The ring of [VPCACHE_SIZE] variable pointers, refilled by one pass
    over the singly linked list per ring, hands out the variables last to
    first, each exactly once, for a list of any length. *)
Theorem pdu_rbuild_vars_reversed `{Allocator} fuel64 vars s :
  rbuild_vars fuel64 vars s = rbuild_list fuel64 (rev vars) s.
Proof. apply rbuild_vars_reversed. Qed.

(** ** Arbitrary input *)

(** C35: [snmp_parse_var_op] on arbitrary bytes: it reads at most twelve bytes
    past the announced ones, and a variable binding it accepts lies inside
    them, is at least six bytes long, and is counted off the announced length
    exactly; the name fits the caller's array. *)
Theorem var_op_bounded m data dl cap :
  bytes_ok m -> 0 <= data -> 0 <= dl < 2 ^ 31 -> 2 <= cap < 2 ^ 64 ->
  safe m (data + dl + 12)
    (fun v => data + 6 <= var_end v <= data + dl /\ listlength v = data + dl - var_end v
              /\ data + 4 <= var_val v /\ Z.of_nat (length (var_name v)) <= cap)
    (snmp_parse_var_op m data cap dl).
Proof. intros. by apply snmp_parse_var_op_safe. Qed.

Lemma var_op_bounded_witness :
  let m := [0x30; 6; 6; 2; 0x2B; 6; 5; 0] in
  safe m (0 + 8 + 12)
    (fun v => 0 + 6 <= var_end v <= 0 + 8 /\ listlength v = 0 + 8 - var_end v
              /\ 0 + 4 <= var_val v /\ Z.of_nat (length (var_name v)) <= 128)
    (snmp_parse_var_op m 0 128 8).
Proof.
  apply (var_op_bounded [0x30; 6; 6; 2; 0x2B; 6; 5; 0] 0 8 128).
  - repeat constructor; by vm_compute.
  - by vm_compute.
  - by vm_compute.
  - by vm_compute.
Defined.

(** C34: [snmp_pdu_parse] terminates on every input shorter than 2^31 bytes:
    the loop over the variable bindings cannot be kept going by any bytes. *)
Theorem pdu_parse_terminates `{Allocator} leftover m p0 data dl :
  bytes_ok m -> 0 <= data -> 0 <= dl < 2 ^ 31 -> snmp_pdu_parse leftover m p0 data dl <> Spin.
Proof. intros. by apply snmp_pdu_parse_terminates. Qed.

Lemma pdu_parse_terminates_witness :
  snmp_pdu_parse (fun _ => (0, None, 0)) [0xA0; 2; 2; 1] fresh_pdu 0 4 <> Spin.
Proof.
  apply (pdu_parse_terminates (fun _ => (0, None, 0)) [0xA0; 2; 2; 1] fresh_pdu 0 4).
  - repeat constructor; by vm_compute.
  - by vm_compute.
  - by vm_compute.
Defined.
