(* ===== verification/Int64.v ===== *)
(** * 64-bit counters kept in two words: snmplib/int64.c

    A [U64] is a [counter64]: [high] and [low] are [u_long]s that hold 32 bits
    each.  A C string is the list of its characters, the terminating NUL left
    out. *)

From S2P Require Import Prelude Bytes AsnTypes.

(** ** Arithmetic *)

(** The quotient and the remainder, sixteen bits at a time. *)
Definition divBy10 (u : counter64) : counter64 * Z :=
  let ulT := Z.land (Z.shiftr (high u) 16) 0x0ffff in
  let ulQ := ulT / 10 in
  let ulR := ulT mod 10 in
  let qhigh := Z.shiftl ulQ 16 in
  let ulT := Z.land (high u) 0x0ffff in
  let ulT := ulT + Z.shiftl ulR 16 in
  let ulQ := ulT / 10 in
  let ulR := ulT mod 10 in
  let qhigh := Z.lor qhigh ulQ in
  let ulT := Z.land (Z.shiftr (low u) 16) 0x0ffff + Z.shiftl ulR 16 in
  let ulQ := ulT / 10 in
  let ulR := ulT mod 10 in
  let qlow := Z.shiftl ulQ 16 in
  let ulT := Z.land (low u) 0x0ffff in
  let ulT := ulT + Z.shiftl ulR 16 in
  let ulQ := ulT / 10 in
  let ulR := ulT mod 10 in
  let qlow := Z.lor qlow ulQ in
  ({| high := qhigh; low := qlow |}, u32 ulR).

Definition multBy10 (u : counter64) : counter64 :=
  let ulT := Z.land (low u) 0x0ffff in
  let ulP := ulT * 10 in
  let ulK := Z.shiftr ulP 16 in
  let plow := Z.land ulP 0x0ffff in
  let ulT := Z.land (Z.shiftr (low u) 16) 0x0ffff in
  let ulP := ulT * 10 + ulK in
  let ulK := Z.shiftr ulP 16 in
  let plow := Z.lor (Z.shiftl (Z.land ulP 0x0ffff) 16) plow in
  let ulT := Z.land (high u) 0x0ffff in
  let ulP := ulT * 10 + ulK in
  let ulK := Z.shiftr ulP 16 in
  let phigh := Z.land ulP 0x0ffff in
  let ulT := Z.land (Z.shiftr (high u) 16) 0x0ffff in
  let ulP := ulT * 10 + ulK in
  let phigh := Z.lor (Z.shiftl (Z.land ulP 0x0ffff) 16) phigh in
  {| high := phigh; low := plow |}.

(** [n] is an [unsigned int]. *)
Definition incrByU32 (pu64 : counter64) (n : Z) : counter64 :=
  let tmp := u32 (low pu64) in
  let low := u32 (tmp + n) in
  {| high := if low <? tmp then u32 (high pu64 + 1) else high pu64; low := low |}.

Definition incrByU16 (pu64 : counter64) (n : Z) : counter64 := incrByU32 pu64 n.

Definition u64Subtract (pu64one pu64two : counter64) : counter64 :=
  let carry := if low pu64one <? low pu64two then 1 else 0 in
  {| high := u32 (high pu64one - high pu64two - carry); low := u32 (low pu64one - low pu64two) |}.

Definition u64Incr (pu64out pu64one : counter64) : counter64 :=
  incrByU32 {| high := u32 (high pu64out + high pu64one); low := low pu64out |} (u32 (low pu64one)).

Definition u64UpdateCounter (pu64out pu64one pu64two : counter64) : counter64 :=
  u64Incr pu64out (u64Subtract pu64one pu64two).

Definition u64Copy (pu64two : counter64) : counter64 := pu64two.
Definition zeroU64 : counter64 := {| high := 0; low := 0 |}.
Definition isZeroU64 (pu64 : counter64) : bool := (low pu64 =? 0) && (high pu64 =? 0).

(** ** Counters that wrap at 32 bits *)

(** The result code and the new value, which [adjust] may change; a NULL
    pointer is [None]. *)
Definition netsnmp_c64_check_for_32bit_wrap (old_val new_val : option counter64) (adjust : bool)
    : Z * option counter64 :=
  match old_val, new_val with
  | Some o, Some n =>
      if (low o <=? low n) && (high n =? high o) then (0, Some n)
      else if high n =? high o then
        (32, Some (if adjust then {| high := u32 (high n + 1); low := low n |} else n))
      else if high n =? u32 (high o + 1) then (64, Some n)
      else (-2, Some n)
  | _, _ => (-1, new_val)
  end.

(** The three structures are distinct; [need_wrap_check] is [None] for a NULL
    pointer.  The [netsnmp_assert] has no effect on the values.  The result:
    code, [prev_val], [new_val], [need_wrap_check]. *)
Definition netsnmp_c64_check32_and_update (prev_val new_val old_prev_val : counter64)
    (need_wrap_check : option Z) : Z * counter64 * counter64 * option Z :=
  let '(rc, checked) :=
    match need_wrap_check with
    | Some 0 => (0, Some new_val)
    | _ => netsnmp_c64_check_for_32bit_wrap (Some old_prev_val) (Some new_val) true
    end in
  let new_val := default new_val checked in
  if rc <? 0 then (-1, prev_val, new_val, need_wrap_check)
  else
    let prev_val := u64UpdateCounter prev_val new_val old_prev_val in
    if rc =? 32 then (0, prev_val, {| high := 0; low := low new_val |}, need_wrap_check)
    else if rc =? 64 then
      if negb (low prev_val =? low new_val) || negb (high prev_val =? high new_val)
      then (-2, prev_val, new_val, need_wrap_check)
      else (0, prev_val, new_val, match need_wrap_check with Some _ => Some 0 | None => None end)
    else (0, prev_val, new_val, need_wrap_check).

(** One round of the suggested use: the new value goes into [current], through
    the check as long as [needwrapcheck] is set, and is kept in [prev_val].  The
    result code is not looked at. *)
Record tracker : Type := { current : counter64; prev_val : counter64; needwrapcheck : Z }.

Definition poll (t : tracker) (new_val : counter64) : tracker :=
  if needwrapcheck t =? 0 then {| current := new_val; prev_val := prev_val t; needwrapcheck := 0 |}
  else
    let '(_, current, new_val, flag) :=
      netsnmp_c64_check32_and_update (current t) new_val (prev_val t) (Some (needwrapcheck t)) in
    {| current := current; prev_val := new_val; needwrapcheck := default 0 flag |}.

(** ** Decimal *)

Definition I64CHARSZ : nat := 21.
Definition digit (u : Z) : Z := u8 (48 + u).

(** [aRes[I64CHARSZ - 1 - j ..]], filled from the end: [n] turns left. *)
Fixpoint printU64_loop (n : nat) (u64a : counter64) (aRes : list Z) : list Z :=
  match n with
  | O => aRes
  | S n =>
      let '(u64b, u) := divBy10 u64a in
      let aRes := digit u :: aRes in
      if isZeroU64 u64b then aRes else printU64_loop n u64b aRes
  end.

Definition printU64 (pu64 : counter64) : list Z := printU64_loop I64CHARSZ pu64 [].

Definition printI64 (pu64 : counter64) : list Z :=
  if negb (Z.land (high pu64) 0x80000000 =? 0) then
    let u64a := {| high := u32 (Z.lnot (high pu64)); low := u32 (Z.lnot (low pu64)) |} in
    let u64a := incrByU32 u64a 1 in
    45 :: printU64 u64a
  else printU64 pu64.

Definition isdigit (c : Z) : bool := (48 <=? c) && (c <=? 57).

(** [while ( *str && isdigit( *str))] *)
Fixpoint read64_loop (str : list Z) (i64 : counter64) (ok : bool) : counter64 * bool :=
  match str with
  | c :: str =>
      if isdigit c then
        read64_loop str (incrByU16 (multBy10 i64) (u32 (c - 48))) true
      else (i64, ok)
  | [] => (i64, ok)
  end.

(** The value and the result code, [true] for 1. *)
Definition read64 (str : list Z) : counter64 * bool :=
  let '(sign, str) := match str with
                      | 45 :: str => (true, str)
                      | _ => (false, str)
                      end in
  let '(i64, ok) := read64_loop str zeroU64 false in
  if (sign : bool) then
    (incrByU16 {| high := u32 (Z.lnot (high i64)); low := u32 (Z.lnot (low i64)) |} 1, ok)
  else (i64, ok).
