(* ===== verification/Int64Spec.v ===== *)
(** * The 64-bit arithmetic of int64.c is arithmetic

    Each operation on the two halves is the operation on the number they
    hold, modulo 2^64; decimal output and input are inverse. *)

From S2P Require Import Prelude Bytes AsnTypes Int64.

(** ** Halves of halves *)

Lemma land_16 x : Z.land x 0x0ffff = x mod 2 ^ 16.
Proof. change 0x0ffff with (Z.ones 16). by rewrite land_low. Qed.

Lemma lor_16 q r : 0 <= r < 2 ^ 16 -> Z.lor (Z.shiftl q 16) r = q * 2 ^ 16 + r.
Proof. intros. rewrite shl_mul by lia. by apply lor_add. Qed.

(** Two halves that hold a value in range are the only such halves. *)
Lemma c64_eq c v : c64_ok c -> c64_val c = v -> c = c64_of v.
Proof. intros Hc <-. by rewrite c64_val_of. Qed.

Lemma c64_of_ok v : is_u64 v -> c64_ok (c64_of v).
Proof. unfold c64_ok, c64_of. cbn. cint. Qed.

Lemma c64_val_inj a b : c64_ok a -> c64_ok b -> c64_val a = c64_val b -> a = b.
Proof. intros Ha Hb E. rewrite <- (c64_val_of a), <- (c64_val_of b) by done. by rewrite E. Qed.

Lemma zeroU64_val : c64_val zeroU64 = 0.
Proof. done. Qed.

Lemma isZeroU64_spec c : c64_ok c -> isZeroU64 c = (c64_val c =? 0).
Proof. destruct c as [h l]. unfold c64_ok, isZeroU64, c64_val. cbn [high low]. intros. cint_unfold. lia. Qed.

(** One step of the long division: the remainder of the sixteen bits above
    goes in front of the next sixteen. *)
Lemma div10_step a b : 0 <= a < 2 ^ 16 -> 0 <= b < 10 ->
  0 <= (a + Z.shiftl b 16) / 10 < 2 ^ 16 /\ (a + Z.shiftl b 16) mod 10 = (b * 2 ^ 16 + a) mod 10
  /\ 0 <= (a + Z.shiftl b 16) mod 10 < 10
  /\ a + Z.shiftl b 16 = (a + Z.shiftl b 16) / 10 * 10 + (a + Z.shiftl b 16) mod 10.
Proof. intros. rewrite shl_mul by lia. cint. Qed.

Lemma divBy10_spec c : c64_ok c ->
  divBy10 c = (c64_of (c64_val c / 10), c64_val c mod 10).
Proof.
  destruct c as [h l]. intros [Hh Hl]. cbn [high low] in *.
  unfold divBy10. cbn [high low]. rewrite !shr_div, !land_16 by lia.
  set (a := (h / 2 ^ 16) mod 2 ^ 16). set (b := h mod 2 ^ 16).
  set (d := (l / 2 ^ 16) mod 2 ^ 16). set (e := l mod 2 ^ 16).
  assert (Hv : c64_val {| high := h; low := l |} = ((a * 2 ^ 16 + b) * 2 ^ 16 + d) * 2 ^ 16 + e).
  { unfold c64_val, a, b, d, e. cbn [high low]. cint. }
  assert (Ha : 0 <= a < 2 ^ 16) by (unfold a; cint).
  assert (Hb : 0 <= b < 2 ^ 16) by (unfold b; cint).
  assert (Hd : 0 <= d < 2 ^ 16) by (unfold d; cint).
  assert (He : 0 <= e < 2 ^ 16) by (unfold e; cint).
  rewrite Hv. clearbody a b d e. clear Hh Hl Hv.
  assert (Hr1 : 0 <= a mod 10 < 10) by cint.
  destruct (div10_step b (a mod 10)) as (Q2 & _ & R2 & E2); [done..|].
  set (r2 := (b + _) mod 10) in *. set (q2 := (b + _) / 10) in *.
  destruct (div10_step d r2) as (Q3 & _ & R3 & E3); [done..|].
  set (r3 := (d + _) mod 10) in *. set (q3 := (d + _) / 10) in *.
  destruct (div10_step e r3) as (Q4 & _ & R4 & E4); [done..|].
  set (r4 := (e + _) mod 10) in *. set (q4 := (e + _) / 10) in *.
  rewrite !lor_16 by done. rewrite shl_mul in E2, E3, E4 by lia.
  rewrite u32_id by cint.
  assert (E1 : a = a / 10 * 10 + a mod 10) by cint.
  assert (0 <= a / 10 < 2 ^ 16) by cint.
  set (q1 := a / 10) in *. set (r1 := a mod 10) in *.
  clearbody q1 q2 q3 q4 r1 r2 r3 r4.
  assert (EV : ((a * 2 ^ 16 + b) * 2 ^ 16 + d) * 2 ^ 16 + e
               = (((q1 * 2 ^ 16 + q2) * 2 ^ 16 + q3) * 2 ^ 16 + q4) * 10 + r4) by cint.
  rewrite EV. f_equal.
  - rewrite Z.div_add_l, (Z.div_small r4), Z.add_0_r by lia.
    apply c64_eq; unfold c64_ok, c64_val; cbn [high low]; [split; cint|cint].
  - rewrite Z.add_comm, Z.mod_add by lia. symmetry. by apply Z.mod_small.
Qed.

Lemma multBy10_spec c : c64_ok c -> multBy10 c = c64_of (u64 (c64_val c * 10)).
Proof.
  destruct c as [h l]. intros [Hh Hl]. cbn [high low] in *.
  unfold multBy10. cbn [high low]. rewrite !land_16, !shr_div by lia.
  set (a := (h / 2 ^ 16) mod 2 ^ 16). set (b := h mod 2 ^ 16).
  set (d := (l / 2 ^ 16) mod 2 ^ 16). set (e := l mod 2 ^ 16).
  assert (Hv : c64_val {| high := h; low := l |} = ((a * 2 ^ 16 + b) * 2 ^ 16 + d) * 2 ^ 16 + e).
  { unfold c64_val, a, b, d, e. cbn [high low]. cint. }
  assert (Ha : 0 <= a < 2 ^ 16) by (unfold a; cint).
  assert (Hb : 0 <= b < 2 ^ 16) by (unfold b; cint).
  assert (Hd : 0 <= d < 2 ^ 16) by (unfold d; cint).
  assert (He : 0 <= e < 2 ^ 16) by (unfold e; cint).
  rewrite Hv. clearbody a b d e. clear Hh Hl Hv.
  rewrite !lor_16 by cint.
  apply c64_eq; unfold c64_ok, c64_val; cbn [high low]; [split; cint|cint].
Qed.

Lemma incrByU32_spec c n : c64_ok c -> is_u32 n -> incrByU32 c n = c64_of (u64 (c64_val c + n)).
Proof.
  destruct c as [h l]. intros [Hh Hl] Hn. cbn [high low] in *. unfold incrByU32. cbn [high low].
  apply c64_eq; unfold c64_ok, c64_val; cbn [high low];
    destruct (Z.ltb_spec (u32 (u32 l + n)) (u32 l)); [split; cint|split; cint|cint|cint].
Qed.

Lemma u64Subtract_spec a b : c64_ok a -> c64_ok b ->
  u64Subtract a b = c64_of (u64 (c64_val a - c64_val b)).
Proof.
  destruct a as [ha la], b as [hb lb]. intros [? ?] [? ?]. cbn [high low] in *.
  unfold u64Subtract. cbn [high low].
  apply c64_eq; unfold c64_ok, c64_val; cbn [high low];
    destruct (Z.ltb_spec la lb); [split; cint|split; cint|cint|cint].
Qed.

Lemma u64Incr_spec a b : c64_ok a -> c64_ok b -> u64Incr a b = c64_of (u64 (c64_val a + c64_val b)).
Proof.
  destruct a as [ha la], b as [hb lb]. intros [? ?] [? ?]. cbn [high low] in *.
  unfold u64Incr. cbn [high low]. rewrite (u32_id lb) by done.
  rewrite incrByU32_spec by (try done; unfold c64_ok; cbn [high low]; split; cint).
  f_equal. unfold c64_val. cbn [high low]. cint.
Qed.

Lemma u64UpdateCounter_spec o a b : c64_ok o -> c64_ok a -> c64_ok b ->
  u64UpdateCounter o a b = c64_of (u64 (c64_val o + (c64_val a - c64_val b))).
Proof.
  intros. unfold u64UpdateCounter. rewrite u64Subtract_spec, u64Incr_spec by
    (try done; apply c64_of_ok; cint).
  rewrite c64_of_val. f_equal. cint.
Qed.

(** Two's complement: [~c + 1]. *)
Lemma negate_spec c : c64_ok c ->
  incrByU32 {| high := u32 (Z.lnot (high c)); low := u32 (Z.lnot (low c)) |} 1
  = c64_of (u64 (- c64_val c)).
Proof.
  destruct c as [h l]. intros [? ?]. cbn [high low] in *. unfold Z.lnot.
  rewrite incrByU32_spec; [|split; cbn [high low]; cint|cint].
  f_equal. unfold c64_val. cbn [high low]. cint.
Qed.

(** ** Counters that wrap *)

(** A source counter seen through [w] bits: a 32-bit source fills [low] only. *)
Definition reading (w t : Z) : counter64 := c64_of (t mod 2 ^ w).

Lemma reading_ok w t : w = 32 \/ w = 64 -> c64_ok (reading w t).
Proof. intros [-> | ->]; apply c64_of_ok; cint. Qed.

(** Updating [cur] by a reading adds the distance the source has moved. *)
Lemma update_reading cur n o d :
  is_u64 cur -> c64_ok n -> c64_ok o -> u64 (c64_val n - c64_val o) = u64 d ->
  u64UpdateCounter (c64_of cur) n o = c64_of (u64 (cur + d)).
Proof.
  intros Hcur Hn Ho E. rewrite u64UpdateCounter_spec by (try done; by apply c64_of_ok).
  rewrite c64_of_val. f_equal. revert E. generalize (c64_val n) (c64_val o). clear. intros a b E. cint.
Qed.

(** The wrap check on two readings of a 32-bit source. *)
Lemma check_wrap_32 t t' : t <= t' < t + 2 ^ 32 ->
  netsnmp_c64_check_for_32bit_wrap (Some (reading 32 t)) (Some (reading 32 t')) true
  = if t mod 2 ^ 32 <=? t' mod 2 ^ 32 then (0, Some (reading 32 t'))
    else (32, Some {| high := 1; low := t' mod 2 ^ 32 |}).
Proof.
  intros Ht. unfold netsnmp_c64_check_for_32bit_wrap, reading, c64_of. cbn [high low].
  assert (Hh : forall u, (u mod 2 ^ 32) / 2 ^ 32 = 0) by (intros; cint).
  rewrite !Hh, !Z.mod_mod by done. rewrite Z.eqb_refl, andb_true_r.
  by destruct (t mod 2 ^ 32 <=? t' mod 2 ^ 32).
Qed.

(** The wrap check on two readings of a 64-bit source. *)
Lemma check_wrap_64 t t' : t <= t' < t + 2 ^ 32 ->
  netsnmp_c64_check_for_32bit_wrap (Some (reading 64 t)) (Some (reading 64 t')) true
  = (if high (reading 64 t') =? high (reading 64 t) then 0 else 64, Some (reading 64 t')).
Proof.
  intros Ht. unfold netsnmp_c64_check_for_32bit_wrap, reading, c64_of. cbn [high low].
  destruct (Z.eqb_spec ((t' mod 2 ^ 64) / 2 ^ 32) ((t mod 2 ^ 64) / 2 ^ 32)) as [E|E].
  - replace (_ <=? _) with true; [done|]. symmetry. apply Z.leb_le. cint.
  - rewrite andb_false_r. replace (_ =? _) with true; [done|].
    symmetry. apply Z.eqb_eq. cint.
Qed.

Lemma flag_on {A} f (a b : A) : f <> 0 -> match f with 0 => a | _ => b end = b.
Proof. by destruct f. Qed.

(** A 32-bit source: the 64-bit counter gets the distance added, the reading
    is kept as it was, and the check stays on. *)
Lemma update_tracks_32 cur t t' f :
  t <= t' < t + 2 ^ 32 -> is_u64 cur -> f <> 0 ->
  netsnmp_c64_check32_and_update (c64_of cur) (reading 32 t') (reading 32 t) (Some f)
  = (0, c64_of (u64 (cur + (t' - t))), reading 32 t', Some f).
Proof.
  intros Ht Hcur Hf. unfold netsnmp_c64_check32_and_update.
  rewrite flag_on by done.
  rewrite check_wrap_32 by done.
  assert (Hok : forall u, c64_ok (reading 32 u)) by (intros; apply reading_ok; lia).
  assert (Hval : forall u, c64_val (reading 32 u) = u mod 2 ^ 32) by (intros; apply c64_of_val).
  destruct (Z.leb_spec (t mod 2 ^ 32) (t' mod 2 ^ 32)) as [L|L]; cbn -[u64UpdateCounter reading].
  - rewrite (update_reading _ _ _ (t' - t)); [done..|]. rewrite !Hval. cint.
  - rewrite (update_reading _ _ _ (t' - t)); [|done| |done|].
    + do 2 f_equal. unfold reading, c64_of. f_equal; cint.
    + split; cbn [high low]; cint.
    + rewrite Hval. unfold c64_val. cbn [high low]. cint.
Qed.

(** A 64-bit source, which the counter has been following: it still does, and
    the check is switched off once the upper half moves. *)
Lemma update_tracks_64 t t' f :
  t <= t' < t + 2 ^ 32 -> f <> 0 ->
  netsnmp_c64_check32_and_update (reading 64 t) (reading 64 t') (reading 64 t) (Some f)
  = (0, reading 64 t', reading 64 t',
     Some (if high (reading 64 t') =? high (reading 64 t) then f else 0)).
Proof.
  intros Ht Hf. unfold netsnmp_c64_check32_and_update.
  rewrite flag_on by done.
  rewrite check_wrap_64 by done. cbn -[u64UpdateCounter reading].
  assert (E : u64UpdateCounter (reading 64 t) (reading 64 t') (reading 64 t) = reading 64 t').
  { unfold reading at 1. rewrite (update_reading _ _ _ (t' - t)).
    - unfold reading. f_equal. cint.
    - cint.
    - apply reading_ok; lia.
    - apply reading_ok; lia.
    - unfold reading. rewrite !c64_of_val. cint. }
  rewrite E. destruct (high (reading 64 t') =? high (reading 64 t)); [done|].
  cbn -[reading]. by rewrite !Z.eqb_refl.
Qed.

(** The successive values of a source, each less than 2^32 past the last. *)
Fixpoint slow (t : Z) (ts : list Z) : Prop :=
  match ts with
  | [] => True
  | t' :: ts => t <= t' < t + 2 ^ 32 /\ slow t' ts
  end.

Lemma last_cons (t t' : Z) ts : List.last (t' :: ts) t = List.last ts t'.
Proof.
  revert t t'. induction ts as [|u ts IH]; intros t t'; [done|].
  change (List.last (t' :: u :: ts) t) with (List.last (u :: ts) t). by rewrite !IH.
Qed.

Lemma poll_32 ts : forall cur t f, is_u64 cur -> f <> 0 -> slow t ts ->
  foldl poll {| current := c64_of cur; prev_val := reading 32 t; needwrapcheck := f |}
        (map (reading 32) ts)
  = {| current := c64_of (u64 (cur + (List.last ts t - t))); prev_val := reading 32 (List.last ts t);
       needwrapcheck := f |}.
Proof.
  induction ts as [|t' ts IH]; intros cur t f Hcur Hf Hs.
  - cbn -[reading]. by rewrite Z.sub_diag, Z.add_0_r, u64_id.
  - destruct Hs as [Ht Hs]. cbn [map foldl]. unfold poll at 2. cbn [needwrapcheck current prev_val].
    apply Z.eqb_neq in Hf as Hf'. rewrite Hf', update_tracks_32 by done. cbn [default].
    rewrite IH, last_cons by (try done; cint). f_equal. f_equal. cint.
Qed.

Lemma poll_64 ts : forall s t, slow t ts ->
  current s = reading 64 t ->
  needwrapcheck s = 0 \/ prev_val s = reading 64 t ->
  current (foldl poll s (map (reading 64) ts)) = reading 64 (List.last ts t).
Proof.
  induction ts as [|t' ts IH]; intros [c p f] t Hs Hc Hf; cbn [current prev_val needwrapcheck] in *; [done|].
  destruct Hs as [Ht Hs]. subst c. cbn [map foldl]. rewrite last_cons. apply IH; [done| |].
  all: unfold poll; cbn [current prev_val needwrapcheck].
  all: destruct (Z.eqb_spec f 0) as [E|E]; [by auto|].
  all: destruct Hf as [?| ->]; [done|].
  all: rewrite update_tracks_64 by done; by auto.
Qed.

(** ** Decimal *)

(** The number a string of digits stands for, and the digits in front. *)
Definition decimal (ds : list Z) : Z := foldl (fun v c => v * 10 + (c - 48)) 0 ds.

Fixpoint digits (str : list Z) : list Z :=
  match str with
  | c :: str => if isdigit c then c :: digits str else []
  | [] => []
  end.

Lemma isdigit_spec c : isdigit c = true <-> 48 <= c <= 57.
Proof. unfold isdigit. lia. Qed.

Lemma digit_spec d : 0 <= d < 10 -> digit d = 48 + d.
Proof. unfold digit. cint. Qed.

Lemma decimal_from ds : forall v,
  foldl (fun v c => v * 10 + (c - 48)) v ds = v * 10 ^ Z.of_nat (length ds) + decimal ds.
Proof.
  unfold decimal. induction ds as [|c ds IH]; intros v; cbn [foldl length]; [lia|].
  rewrite IH, (IH (0 * 10 + _)), Nat2Z.inj_succ, Z.pow_succ_r by lia. lia.
Qed.

Lemma digits_app ds str :
  Forall (fun c => isdigit c = true) ds -> digits (ds ++ str) = ds ++ digits str.
Proof. induction 1 as [|c ds Hc _ IH]; [done|]. cbn. by rewrite Hc, IH. Qed.

(** The loop of [read64] reads the digits in front. *)
Lemma read64_loop_spec str : forall v ok, is_u64 v ->
  read64_loop str (c64_of v) ok
  = (c64_of (u64 (foldl (fun v c => v * 10 + (c - 48)) v (digits str))),
     ok || match digits str with [] => false | _ => true end).
Proof.
  induction str as [|c str IH]; intros v ok Hv; cbn [read64_loop digits].
  { cbn. by rewrite u64_id, orb_false_r. }
  destruct (isdigit c) eqn:Hc; [|cbn; by rewrite u64_id, orb_false_r].
  apply isdigit_spec in Hc. unfold incrByU16.
  rewrite multBy10_spec, c64_of_val, u32_id, incrByU32_spec by
    (try apply c64_of_ok; cint).
  rewrite IH, c64_of_val by cint. cbn [foldl orb].
  rewrite orb_true_r. f_equal. f_equal. rewrite !decimal_from.
  generalize (10 ^ Z.of_nat (length (digits str))) (decimal (digits str)).
  clear. intros. unfold u64.
  rewrite <- Z.add_mod_idemp_l, Z.mul_mod, !Z.mod_mod, <- Z.mul_mod, Z.add_mod_idemp_l by done.
  rewrite <- (Z.add_mod_idemp_l ((v * 10 + _) * _)) by done.
  rewrite <- (Z.mul_mod_idemp_l (v * 10 + _)) by done. rewrite <- (Z.add_mod_idemp_l (v * 10)) by done.
  by rewrite !Z.mul_mod_idemp_l, !Z.add_mod_idemp_l by done.
Qed.

Lemma read64_unsigned str : (forall s, str <> 45 :: s) ->
  read64 str = (c64_of (u64 (decimal (digits str))), negb (bool_decide (digits str = []))).
Proof.
  intros Hs. unfold read64. change zeroU64 with (c64_of 0).
  replace (match str with 45 :: _ => _ | _ => _ end) with (false, str).
  - rewrite read64_loop_spec by cint. cbn [orb].
    by destruct (digits str).
  - destruct str as [|c str]; [done|].
    destruct (decide (c = 45)) as [->|Hc]; [by destruct (Hs str)|].
    destruct c as [|c|c]; try done. do 6 (destruct c as [c|c|]; try done).
Qed.

Lemma read64_negative str :
  read64 (45 :: str) = (c64_of (u64 (- decimal (digits str))), negb (bool_decide (digits str = []))).
Proof.
  unfold read64. change zeroU64 with (c64_of 0).
  rewrite read64_loop_spec by cint. cbn [orb]. unfold incrByU16.
  rewrite negate_spec by (apply c64_of_ok; cint). rewrite c64_of_val. unfold decimal.
  f_equal; [|by destruct (digits str)]. f_equal. cint.
Qed.

(** The decimal digits of a number: what [printU64] writes. *)
Definition numeral (v : Z) (ds : list Z) : Prop :=
  Forall (fun c => isdigit c = true) ds /\ decimal ds = v /\ (ds = [48] \/ head ds <> Some 48)
  /\ ds <> [].

Lemma numeral_snoc v d ds :
  numeral v ds -> 0 < v -> 0 <= d < 10 -> numeral (v * 10 + d) (ds ++ [digit d]).
Proof.
  intros (Hds & Hv & Hh & Hne) Hpos Hd. rewrite digit_spec by done. split; [|split; [|split]].
  - apply Forall_app. split; [done|]. constructor; [apply isdigit_spec; lia|done].
  - unfold decimal in *. rewrite foldl_app, Hv. cbn. lia.
  - right. destruct ds as [|c ds]; [done|]. destruct Hh as [Hh|Hh]; [|done].
    injection Hh as -> ->. vm_compute in Hv. lia.
  - by destruct ds.
Qed.

Lemma numeral_digit d : 0 <= d < 10 -> numeral d [digit d].
Proof.
  intros Hd. rewrite digit_spec by done. unfold decimal. split; [|split; [|split]].
  - constructor; [apply isdigit_spec; lia|done].
  - cbn. lia.
  - destruct (decide (d = 0)) as [->|]; [by left|]. right. cbn. injection. lia.
  - done.
Qed.

(** [S k] digits are enough when the value has no more. *)
Lemma printU64_loop_spec k : forall n v acc,
  0 <= v < 10 ^ Z.of_nat (S k) -> is_u64 v -> (k < n)%nat ->
  exists ds, printU64_loop n (c64_of v) acc = ds ++ acc /\ numeral v ds /\ (length ds <= S k)%nat.
Proof.
  induction k as [|k IH]; intros [|n] v acc Hv Hv64 Hn; try lia.
  all: assert (Hdiv : 0 <= v / 10) by (apply Z.div_pos; lia).
  all: assert (is_u64 (v / 10)) by cint.
  all: pose proof (Z.mod_pos_bound v 10 ltac:(lia)) as Hmod.
  all: pose proof (Z.div_mod v 10 ltac:(lia)) as Hdm.
  all: cbn [printU64_loop]; rewrite divBy10_spec, c64_of_val by by apply c64_of_ok.
  all: rewrite isZeroU64_spec, c64_of_val by by apply c64_of_ok.
  all: destruct (Z.eqb_spec (v / 10) 0) as [E|E];
    [rewrite E, Z.mul_0_r, Z.add_0_l in Hdm; rewrite <- Hdm in *;
     exists [digit v]; split; [done|]; split; [by apply numeral_digit|cbn; lia]|].
  - cbn in Hv. assert (v / 10 = 0) by (apply Z.div_small; lia). lia.
  - destruct (IH n (v / 10) (digit (v mod 10) :: acc)) as (ds & -> & Hds & Hlen); [|done|lia|].
    { split; [lia|]. apply Z.div_lt_upper_bound; [lia|].
      rewrite Nat2Z.inj_succ, Z.pow_succ_r in Hv by lia. lia. }
    exists (ds ++ [digit (v mod 10)]). rewrite <- app_assoc. split; [done|]. split.
    + rewrite Hdm at 1. rewrite (Z.mul_comm 10). apply numeral_snoc; [done|lia|done].
    + rewrite length_app. cbn. lia.
Qed.

Lemma printU64_spec v : is_u64 v ->
  numeral v (printU64 (c64_of v)) /\ (length (printU64 (c64_of v)) <= 20)%nat.
Proof.
  intros Hv. unfold printU64, I64CHARSZ.
  destruct (printU64_loop_spec 19 21 v []) as (ds & -> & Hn & Hlen).
  - unfold is_u64 in Hv. split; [lia|]. apply Z.lt_trans with (2 ^ 64); [lia|by vm_compute].
  - done.
  - lia.
  - by rewrite app_nil_r.
Qed.

Lemma numeral_read64 v ds : is_u64 v -> numeral v ds ->
  read64 ds = (c64_of v, true) /\ read64 (45 :: ds) = (c64_of (u64 (- v)), true).
Proof.
  intros Hv64 (Hds & Hv & _ & Hne).
  pose proof (digits_app ds [] Hds) as E. cbn [digits] in E. rewrite !app_nil_r in E.
  rewrite read64_unsigned, read64_negative, E, Hv, u64_id by
    (try done; intros s ->; by inversion_clear Hds).
  rewrite bool_decide_false by done. done.
Qed.

Lemma printI64_spec c : c64_ok c ->
  printI64 c = if c64_val c <? 2 ^ 63 then printU64 c
               else 45 :: printU64 (c64_of (2 ^ 64 - c64_val c)).
Proof.
  intros Hc. pose proof (c64_val_range c Hc) as Hv. unfold printI64.
  change 0x80000000 with (Z.shiftl (Z.ones 1) 31). rewrite land_field by lia.
  rewrite negate_spec by done. unfold c64_val in *. destruct Hc as [Hh Hl].
  destruct (Z.ltb_spec (high c * 2 ^ 32 + low c) (2 ^ 63)) as [L|L].
  - replace (high c / 2 ^ 31) with 0 by cint. done.
  - replace (high c / 2 ^ 31) with 1 by cint. do 3 f_equal. cint.
Qed.

(** ** The properties *)

(** The routines on halves compute with the 64-bit numbers the halves
    hold: quotient and remainder by 10, product by 10, sum and difference, all
    modulo 2^64, and leave 32 bits in each half. *)
Theorem counter64_arithmetic a b o n :
  c64_ok a -> c64_ok b -> c64_ok o -> is_u32 n ->
  divBy10 a = (c64_of (c64_val a / 10), c64_val a mod 10)
  /\ multBy10 a = c64_of (u64 (c64_val a * 10))
  /\ incrByU32 a n = c64_of (u64 (c64_val a + n))
  /\ u64Subtract a b = c64_of (u64 (c64_val a - c64_val b))
  /\ u64Incr a b = c64_of (u64 (c64_val a + c64_val b))
  /\ u64UpdateCounter o a b = c64_of (u64 (c64_val o + (c64_val a - c64_val b)))
  /\ isZeroU64 a = (c64_val a =? 0).
Proof.
  auto 10 using divBy10_spec, multBy10_spec, incrByU32_spec, u64Subtract_spec, u64Incr_spec,
    u64UpdateCounter_spec, isZeroU64_spec.
Qed.

Lemma counter64_arithmetic_witness :
  multBy10 (c64_of (2 ^ 63 + 7)) = c64_of 70.
Proof.
  apply (counter64_arithmetic (c64_of (2 ^ 63 + 7)) zeroU64 zeroU64 0).
  - by apply c64_of_ok.
  - by split.
  - by split.
  - done.
Defined.

(** A counter fed by rounds of [netsnmp_c64_check32_and_update] follows its
    source for any number of rounds, as long as the source moves by less than
    2^32 between two of them.  A source of 32 bits is carried over into the 64
    of the counter, which holds its start plus the whole distance; a source of
    64 bits is recognised when its upper half moves, after which the counter is
    the reading itself. *)
Theorem counter_tracks cur t f ts :
  is_u64 cur -> f <> 0 -> slow t ts ->
  current (foldl poll {| current := c64_of cur; prev_val := reading 32 t; needwrapcheck := f |}
                 (map (reading 32) ts))
  = c64_of (u64 (cur + (List.last ts t - t)))
  /\ current (foldl poll {| current := reading 64 t; prev_val := reading 64 t; needwrapcheck := f |}
                    (map (reading 64) ts))
     = reading 64 (List.last ts t).
Proof.
  intros Hc Hf Hs. split; [by rewrite poll_32|]. apply poll_64; [done|done|by right].
Qed.

Lemma counter_tracks_witness :
  let ts := [2 ^ 32 - 1; 2 ^ 32 + 5; 2 ^ 33 + 1] in
  current (foldl poll {| current := c64_of 0; prev_val := reading 32 7; needwrapcheck := 1 |}
                 (map (reading 32) ts))
  = c64_of (u64 (0 + (List.last ts 7 - 7)))
  /\ current (foldl poll {| current := reading 64 7; prev_val := reading 64 7; needwrapcheck := 1 |}
                    (map (reading 64) ts))
     = reading 64 (List.last ts 7).
Proof.
  apply (counter_tracks 0 7 1 [2 ^ 32 - 1; 2 ^ 32 + 5; 2 ^ 33 + 1]).
  - done.
  - done.
  - cbn. lia.
Defined.

(** [printU64] writes the decimal numeral of the value, without a leading
    zero and in at most twenty characters, so that the [I64CHARSZ] turns of its
    loop and the buffer are enough; [read64] reads it back; a value taken as
    signed survives [printI64] and [read64]. *)
Theorem decimal_roundtrip c :
  c64_ok c ->
  numeral (c64_val c) (printU64 c) /\ (length (printU64 c) <= 20)%nat
  /\ (length (printI64 c) <= 21)%nat
  /\ read64 (printU64 c) = (c, true) /\ read64 (printI64 c) = (c, true).
Proof.
  intros Hc. pose proof (c64_val_range c Hc) as Hv. rewrite printI64_spec by done.
  rewrite <- (c64_val_of c) by done. rewrite c64_of_val.
  destruct (printU64_spec (c64_val c) Hv) as [Hn Hlen].
  destruct (numeral_read64 _ _ Hv Hn) as [Hr _].
  destruct (Z.ltb_spec (c64_val c) (2 ^ 63)) as [L|L]; [auto 10 with lia|].
  assert (Hv' : is_u64 (2 ^ 64 - c64_val c)) by cint.
  destruct (printU64_spec _ Hv') as [Hn' Hlen'].
  destruct (numeral_read64 _ _ Hv' Hn') as [_ Hr']. rewrite Hr'.
  cbn [length]. split_and!; try done; [lia|]. do 2 f_equal. cint.
Qed.

Lemma decimal_roundtrip_witness :
  read64 (printU64 (c64_of (2 ^ 64 - 1))) = (c64_of (2 ^ 64 - 1), true).
Proof. apply (decimal_roundtrip (c64_of (2 ^ 64 - 1))). by apply c64_of_ok. Defined.

(** [read64] on any string: the digits in front, after one minus sign if
    there is one, are the value modulo 2^64; the rest is ignored; without a
    digit the value is 0 and the result code says so. *)
Theorem read64_any str :
  (forall s, str <> 45 :: s) ->
  read64 str = (c64_of (u64 (decimal (digits str))), negb (bool_decide (digits str = [])))
  /\ read64 (45 :: str) = (c64_of (u64 (- decimal (digits str))), negb (bool_decide (digits str = []))).
Proof. auto using read64_unsigned, read64_negative. Qed.

Lemma read64_any_witness : read64 [45; 49; 50; 32; 51] = (c64_of (u64 (- 12)), true).
Proof. apply (read64_any [49; 50; 32; 51]). done. Defined.
