(* ===== verification/Oid.v ===== *)
(** * Comparing object identifiers: snmplib/snmp_api.c

    The agent orders every table by these routines.  An object identifier in
    memory is the list of its sub-identifiers from the pointer on; its length
    is a separate argument, as in the code, and a read past the end of the list
    is [Overrun].  A pointer that the code tests for NULL is an [option]. *)

From S2P Require Import Prelude.

(** ** The routines *)

(** [while (len-- > 0)]: the result of the first difference, if there is one. *)
Fixpoint compare_loop (len : nat) (name1 name2 : list Z) : outcome (option Z) :=
  match len with
  | O => Ret None
  | S len =>
      match name1, name2 with
      | x :: name1, y :: name2 =>
          if negb (x =? y) then Ret (Some (if x <? y then -1 else 1))
          else compare_loop len name1 name2
      | _, _ => Overrun
      end
  end.

(** The comparison of the lengths, when one name is a prefix of the other. *)
Definition compare_lengths (len1 len2 : Z) : Z :=
  if len1 <? len2 then -1 else if len2 <? len1 then 1 else 0.

(** The number of turns of a loop that counts down the [int] [len]. *)
Definition loop_turns (len : Z) : nat := Z.to_nat (s32 len).

Definition snmp_oid_ncompare (in_name1 : list Z) (len1 : Z) (in_name2 : list Z) (len2 max_len : Z)
    : outcome Z :=
  let min_len := if len1 <? len2 then len1 else len2 in
  let min_len := if max_len <? min_len then max_len else min_len in
  d ← compare_loop (loop_turns min_len) in_name1 in_name2;
  match d with
  | Some d => Ret d
  | None => Ret (if negb (min_len =? max_len) then compare_lengths len1 len2 else 0)
  end.

Definition snmp_oid_compare (in_name1 : list Z) (len1 : Z) (in_name2 : list Z) (len2 : Z) : outcome Z :=
  let len := if len1 <? len2 then len1 else len2 in
  d ← compare_loop (loop_turns len) in_name1 in_name2;
  match d with
  | Some d => Ret d
  | None => Ret (compare_lengths len1 len2)
  end.

(** The same loop, which also keeps the [len] it ends with: it has been counted
    down once more than the sub-identifiers found equal. *)
Fixpoint compare_ll_loop (turns : nat) (len : Z) (name1 name2 : list Z) : outcome (option Z * Z) :=
  match turns with
  | O => Ret (None, len - 1)
  | S turns =>
      match name1, name2 with
      | x :: name1, y :: name2 =>
          if negb (x =? y) then Ret (Some (if x <? y then -1 else 1), len - 1)
          else compare_ll_loop turns (len - 1) name1 name2
      | _, _ => Overrun
      end
  end.

(** The result and [*offpt], an [int] stored in a [size_t]. *)
Definition netsnmp_oid_compare_ll (in_name1 : list Z) (len1 : Z) (in_name2 : list Z) (len2 : Z)
    : outcome (Z * Z) :=
  let initlen := s32 (if len1 <? len2 then len1 else len2) in
  '(d, len) ← compare_ll_loop (loop_turns initlen) initlen in_name1 in_name2;
  let offpt := u64 (initlen - len) in
  match d with
  | Some d => Ret (d, offpt)
  | None => Ret (compare_lengths len1 len2, offpt)
  end.

Definition snmp_oidtree_compare (in_name1 : list Z) (len1 : Z) (in_name2 : list Z) (len2 : Z) : outcome Z :=
  let len := s32 (if len1 <? len2 then len1 else len2) in
  snmp_oid_compare in_name1 (u64 len) in_name2 (u64 len).

Definition snmp_oidsubtree_compare (in_name1 : list Z) (len1 : Z) (in_name2 : list Z) (len2 : Z) : outcome Z :=
  let len := s32 (if len1 <? len2 then len1 else len2) in
  snmp_oid_compare in_name1 len1 in_name2 (u64 len).

Definition netsnmp_oid_equals (in_name1 : option (list Z)) (len1 : Z) (in_name2 : option (list Z)) (len2 : Z)
    : outcome Z :=
  if negb (len1 =? len2) then Ret 1
  else if len1 =? 0 then Ret 0
  else
    match in_name1, in_name2 with
    | Some name1, Some name2 =>
        d ← compare_loop (loop_turns len1) name1 name2;
        Ret (match d with Some _ => 1 | None => 0 end)
    | _, _ => Ret 1
    end.

(** [memcmp] on [len1 * sizeof(oid)] bytes. *)
Definition netsnmp_oid_is_subtree (in_name1 : list Z) (len1 : Z) (in_name2 : list Z) (len2 : Z) : outcome Z :=
  if len2 <? len1 then Ret 1
  else if (Z.of_nat (length in_name1) <? len1) || (Z.of_nat (length in_name2) <? len1) then Overrun
  else if bool_decide (take (Z.to_nat len1) in_name1 = take (Z.to_nat len1) in_name2) then Ret 0
  else Ret 1.

(** [for (i = 0; i < (int)min_size; i++)]: [n] turns are left. *)
Fixpoint find_prefix_loop (n : nat) (i : Z) (in_name1 in_name2 : list Z) : outcome (option Z) :=
  match n with
  | O => Ret None
  | S n =>
      match in_name1, in_name2 with
      | x :: in_name1, y :: in_name2 =>
          if negb (x =? y) then Ret (Some i) else find_prefix_loop n (i + 1) in_name1 in_name2
      | _, _ => Overrun
      end
  end.

Definition netsnmp_oid_find_prefix (in_name1 : option (list Z)) (len1 : Z) (in_name2 : option (list Z)) (len2 : Z)
    : outcome Z :=
  match in_name1, in_name2 with
  | Some name1, Some name2 =>
      if (len1 =? 0) || (len2 =? 0) then Ret (-1)
      else
        match name1, name2 with
        | x :: _, y :: _ =>
            if negb (x =? y) then Ret 0
            else
              let min_size := Z.min len1 len2 in
              d ← find_prefix_loop (loop_turns min_size) 0 name1 name2;
              match d with
              | Some i => Ret i
              | None => Ret (s32 min_size)
              end
        | _, _ => Overrun
        end
  | _, _ => Ret (-1)
  end.

(** ** The order they decide *)

(** Lexicographic comparison, a prefix coming first. *)
Fixpoint lex (a b : list Z) : Z :=
  match a, b with
  | [], [] => 0
  | [], _ :: _ => -1
  | _ :: _, [] => 1
  | x :: a, y :: b => if x <? y then -1 else if y <? x then 1 else lex a b
  end.

(** The number of sub-identifiers two names share in front. *)
Fixpoint common (a b : list Z) : nat :=
  match a, b with
  | x :: a, y :: b => if x =? y then S (common a b) else O
  | _, _ => O
  end.

Definition len (a : list Z) : Z := Z.of_nat (length a).

(** The lengths of names in memory are far below 2^31. *)
Definition short (a : list Z) : Prop := len a < 2 ^ 31.

(** *** Facts about the order *)

Lemma lex_refl a : lex a a = 0.
Proof. induction a as [|x a IH]; [done|]. cbn. by rewrite !Z.ltb_irrefl. Qed.

Lemma lex_eq a : forall b, lex a b = 0 <-> a = b.
Proof.
  induction a as [|x a IH]; intros [|y b]; cbn; try done.
  destruct (Z.ltb_spec x y); [split; [done|intros [= E _]; lia]|].
  destruct (Z.ltb_spec y x); [split; [done|intros [= E _]; lia]|].
  rewrite IH. assert (x = y) as -> by lia. split; [by intros ->|by intros [= ->]].
Qed.

Lemma lex_opp a : forall b, lex b a = - lex a b.
Proof.
  induction a as [|x a IH]; intros [|y b]; cbn; try done.
  destruct (Z.ltb_spec x y), (Z.ltb_spec y x); try done; lia.
Qed.

Lemma lex_range a : forall b, lex a b = -1 \/ lex a b = 0 \/ lex a b = 1.
Proof.
  induction a as [|x a IH]; intros [|y b]; cbn; auto.
  destruct (x <? y), (y <? x); auto.
Qed.

Lemma lex_le_trans a : forall b c, lex a b <= 0 -> lex b c <= 0 -> lex a c <= 0.
Proof.
  induction a as [|x a IH]; intros [|y b] [|z c]; cbn; try lia.
  destruct (Z.ltb_spec x y), (Z.ltb_spec y x), (Z.ltb_spec y z), (Z.ltb_spec z y),
    (Z.ltb_spec x z), (Z.ltb_spec z x); try lia.
  apply IH.
Qed.

(** What lies between two names of a subtree lies in the subtree. *)
Lemma lex_subtree p : forall a b c,
  p `prefix_of` a -> p `prefix_of` c -> lex a b <= 0 -> lex b c <= 0 -> p `prefix_of` b.
Proof.
  induction p as [|x p IH]; intros a b c [a' ->] [c' ->]; [intros; apply prefix_nil|].
  destruct b as [|y b]; cbn; [lia|].
  destruct (Z.ltb_spec x y), (Z.ltb_spec y x); try lia.
  assert (x = y) as -> by lia. intros. apply prefix_cons.
  apply (IH (p ++ a') b (p ++ c')); [by exists a'|by exists c'|done..].
Qed.

Lemma lex_take n : forall a b,
  lex (take n a) (take n b) = 0 \/ lex (take n a) (take n b) = lex a b.
Proof.
  induction n as [|n IH]; intros a b; [by left|].
  destruct a as [|x a], b as [|y b]; cbn; auto. destruct (x <? y), (y <? x); auto.
Qed.

Lemma common_le a : forall b, (common a b <= length a)%nat /\ (common a b <= length b)%nat.
Proof.
  induction a as [|x a IH]; intros [|y b]; cbn; [lia..|].
  destruct (x =? y); [|lia]. specialize (IH b). lia.
Qed.

(** [common] is the length of the longest common prefix. *)
Lemma common_spec a b n : take n a = take n b <-> (n <= common a b)%nat \/ a = b.
Proof.
  revert b n. induction a as [|x a IH]; intros [|y b] [|n]; cbn; try (split; auto with lia; fail).
  - split; [done|]. intros [?|?]; [lia|done].
  - split; [done|]. intros [?|?]; [lia|done].
  - destruct (Z.eqb_spec x y) as [->|Hxy].
    + split.
      * intros [= E]. apply IH in E as [?| ->]; [left; lia|by right].
      * intros [Hn|[= ->]]; [|done]. f_equal. apply IH. left. lia.
    + split; [by intros [= -> _]|]. intros [?|[= -> ->]]; [lia|done].
Qed.

(** *** What the loops compute *)

Lemma compare_loop_spec n : forall a b,
  (n <= length a)%nat -> (n <= length b)%nat ->
  compare_loop n a b
  = Ret (let d := lex (take n a) (take n b) in if d =? 0 then None else Some d).
Proof.
  induction n as [|n IH]; intros [|x a] [|y b] Ha Hb; cbn in *; try done; try lia.
  destruct (Z.eqb_spec x y) as [->|Hxy]; cbn [negb].
  - rewrite !Z.ltb_irrefl. apply IH; lia.
  - destruct (Z.ltb_spec x y); [done|]. by replace (y <? x) with true by lia.
Qed.

(** Integer tests that were decided, as inequalities. *)
Ltac decided :=
  repeat case_match;
  rewrite ?Z.ltb_lt, ?Z.ltb_ge, ?Z.eqb_eq, ?Z.eqb_neq, ?negb_true_iff, ?negb_false_iff in *.

(** The comparison up to the shorter length, then of the lengths. *)
Lemma lex_min a : forall b,
  let n := (length a `min` length b)%nat in
  let d := lex (take n a) (take n b) in
  lex a b = if d =? 0 then compare_lengths (len a) (len b) else d.
Proof.
  unfold compare_lengths, len.
  induction a as [|x a IH]; intros [|y b]; cbn -[Z.of_nat]; [done|decided; lia..|].
  destruct (x <? y); [done|]. destruct (y <? x); [done|].
  rewrite (IH b). cbn zeta. decided; lia.
Qed.

Lemma min_len a b : (if len a <? len b then len a else len b) = Z.of_nat (length a `min` length b).
Proof. unfold len. destruct (Z.ltb_spec (Z.of_nat (length a)) (Z.of_nat (length b))); lia. Qed.

Lemma turns_nat n : Z.of_nat n < 2 ^ 31 -> loop_turns (Z.of_nat n) = n.
Proof. intros. unfold loop_turns. rewrite s32_id by cint. lia. Qed.

Lemma take_app_min {A} n (a s : list A) : (n <= length a)%nat -> take n (a ++ s) = take n a.
Proof. intros. by rewrite take_app_le. Qed.

(** The comparison of two names, whatever follows them in memory. *)
Lemma snmp_oid_compare_spec a s b t : short a -> short b ->
  snmp_oid_compare (a ++ s) (len a) (b ++ t) (len b) = Ret (lex a b).
Proof.
  unfold short, len. intros Ha Hb. unfold snmp_oid_compare. fold (len a) (len b).
  rewrite min_len, turns_nat by lia.
  rewrite compare_loop_spec by (rewrite length_app; lia).
  rewrite !take_app_min by lia. rewrite bind_ret, (lex_min a b). cbn zeta.
  by destruct (_ =? 0).
Qed.

Lemma snmp_oid_ncompare_spec a s b t m : short a -> short b ->
  snmp_oid_ncompare (a ++ s) (len a) (b ++ t) (len b) (Z.of_nat m)
  = Ret (lex (take m a) (take m b)).
Proof.
  unfold short, len. intros Ha Hb. unfold snmp_oid_ncompare. fold (len a) (len b).
  rewrite min_len.
  set (n := (length a `min` length b)%nat).
  assert (E : (if Z.of_nat m <? Z.of_nat n then Z.of_nat m else Z.of_nat n) = Z.of_nat (n `min` m)).
  { destruct (Z.ltb_spec (Z.of_nat m) (Z.of_nat n)); lia. }
  rewrite E, turns_nat by lia.
  rewrite compare_loop_spec by (rewrite length_app; lia).
  rewrite !take_app_min by lia. rewrite bind_ret, (lex_min (take m a) (take m b)). cbn zeta.
  rewrite !take_take, !length_take.
  replace (((m `min` length a) `min` (m `min` length b)) `min` m)%nat with (n `min` m)%nat by lia.
  destruct (_ =? 0); [|done]. unfold compare_lengths, len. rewrite !length_take.
  destruct (Z.eqb_spec (Z.of_nat (n `min` m)) (Z.of_nat m)); cbn [negb]; f_equal;
    decided; lia.
Qed.

Lemma compare_ll_loop_spec n : forall l a b,
  (n <= length a)%nat -> (n <= length b)%nat ->
  compare_ll_loop n l a b
  = Ret (let d := lex (take n a) (take n b) in if d =? 0 then None else Some d,
         l - 1 - Z.of_nat (common (take n a) (take n b))).
Proof.
  induction n as [|n IH]; intros l [|x a] [|y b] Ha Hb; cbn -[Z.of_nat] in *; try lia.
  1-4: do 2 f_equal; lia.
  destruct (Z.eqb_spec x y) as [->|Hxy]; cbn [negb].
  - rewrite !Z.ltb_irrefl, IH by lia. do 2 f_equal. lia.
  - assert (E : l - 1 - Z.of_nat 0 = l - 1) by lia. rewrite E.
    destruct (Z.ltb_spec x y); [done|]. by replace (y <? x) with true by lia.
Qed.

Lemma common_take a : forall b, common (take (length a `min` length b) a) (take (length a `min` length b) b) = common a b.
Proof.
  induction a as [|x a IH]; intros [|y b]; cbn; try done. destruct (x =? y); [|done]. by rewrite IH.
Qed.

Lemma netsnmp_oid_compare_ll_spec a s b t : short a -> short b ->
  netsnmp_oid_compare_ll (a ++ s) (len a) (b ++ t) (len b)
  = Ret (lex a b, Z.of_nat (common a b) + 1).
Proof.
  unfold short, len. intros Ha Hb. unfold netsnmp_oid_compare_ll. fold (len a) (len b).
  pose proof (common_le a b). rewrite min_len, s32_id, turns_nat by cint.
  rewrite compare_ll_loop_spec by (rewrite length_app; lia).
  rewrite !take_app_min by lia. rewrite bind_ret, (lex_min a b), common_take. cbn zeta.
  rewrite u64_id by cint.
  destruct (_ =? 0); do 2 f_equal; lia.
Qed.

Lemma snmp_oidtree_compare_spec a s b t : short a -> short b ->
  snmp_oidtree_compare (a ++ s) (len a) (b ++ t) (len b)
  = Ret (let n := (length a `min` length b)%nat in lex (take n a) (take n b)).
Proof.
  intros Ha Hb. unfold short, len in *. unfold snmp_oidtree_compare. fold (len a) (len b).
  rewrite min_len, s32_id, u64_id by cint. set (n := (length a `min` length b)%nat).
  replace (Z.of_nat n) with (len (take n a)) at 1 by (unfold len; rewrite length_take; lia).
  replace (Z.of_nat n) with (len (take n b)) by (unfold len; rewrite length_take; lia).
  rewrite <- (take_drop n a) at 1. rewrite <- (take_drop n b) at 1. rewrite <- !app_assoc.
  apply snmp_oid_compare_spec; unfold short, len; rewrite length_take; lia.
Qed.

Lemma snmp_oidsubtree_compare_spec a s b t : short a -> short b ->
  snmp_oidsubtree_compare (a ++ s) (len a) (b ++ t) (len b) = Ret (lex a (take (length a) b)).
Proof.
  intros Ha Hb. unfold short, len in *. unfold snmp_oidsubtree_compare. fold (len a) (len b).
  rewrite min_len, s32_id, u64_id by cint.
  replace (Z.of_nat (length a `min` length b)) with (len (take (length a) b))
    by (unfold len; rewrite length_take; lia).
  rewrite <- (take_drop (length a) b) at 1. rewrite <- app_assoc.
  apply snmp_oid_compare_spec; unfold short, len; rewrite ?length_take; lia.
Qed.

Lemma netsnmp_oid_equals_spec a s b t : short a -> short b ->
  netsnmp_oid_equals (Some (a ++ s)) (len a) (Some (b ++ t)) (len b)
  = Ret (if bool_decide (a = b) then 0 else 1).
Proof.
  intros Ha Hb. unfold short, len in *. unfold netsnmp_oid_equals.
  destruct (Z.eqb_spec (Z.of_nat (length a)) (Z.of_nat (length b))) as [E|E]; cbn [negb].
  2: { rewrite bool_decide_false; [done|]. by intros ->. }
  destruct (Z.eqb_spec (Z.of_nat (length a)) 0) as [E0|E0].
  { destruct a, b; cbn in *; try lia. done. }
  rewrite turns_nat by done. rewrite compare_loop_spec by (rewrite length_app; lia).
  rewrite !take_app_min by lia. rewrite (take_ge a), (take_ge b), bind_ret by lia. cbn zeta.
  destruct (Z.eqb_spec (lex a b) 0) as [L|L].
  - apply lex_eq in L as ->. by rewrite bool_decide_true.
  - rewrite bool_decide_false; [done|]. intros ->. by rewrite lex_refl in L.
Qed.

Lemma netsnmp_oid_is_subtree_spec a s b t :
  netsnmp_oid_is_subtree (a ++ s) (len a) (b ++ t) (len b)
  = Ret (if bool_decide (a `prefix_of` b) then 0 else 1).
Proof.
  unfold netsnmp_oid_is_subtree, len.
  destruct (Z.ltb_spec (Z.of_nat (length b)) (Z.of_nat (length a))) as [L|L].
  { rewrite bool_decide_false; [done|]. intros H%prefix_length. lia. }
  rewrite !length_app, Nat2Z.id.
  replace (_ || _) with false by (symmetry; apply orb_false_iff; split; apply Z.ltb_ge; lia).
  rewrite !take_app_min, (take_ge a) by lia.
  assert (Hiff : a = take (length a) b <-> a `prefix_of` b).
  { split.
    - intros ->. apply prefix_take.
    - intros [k ->]. by rewrite take_app_length. }
  rewrite (bool_decide_ext _ _ Hiff). by destruct (bool_decide _).
Qed.

Lemma find_prefix_loop_spec n : forall i a b,
  (n <= length a)%nat -> (n <= length b)%nat ->
  find_prefix_loop n i a b
  = Ret (let c := common (take n a) (take n b) in
         if (c <? n)%nat then Some (i + Z.of_nat c) else None).
Proof.
  induction n as [|n IH]; intros i [|x a] [|y b] Ha Hb; cbn in Ha, Hb; try done; try lia.
  cbn [find_prefix_loop take common].
  destruct (Z.eqb_spec x y) as [->|Hxy]; cbn [negb]; cbn zeta.
  - rewrite IH by lia. cbn zeta. set (c := common _ _).
    destruct (Nat.ltb_spec c n), (Nat.ltb_spec (S c) (S n)); try lia; do 2 f_equal; lia.
  - destruct (Nat.ltb_spec 0 (S n)); [|lia]. by rewrite Z.add_0_r.
Qed.

Lemma netsnmp_oid_find_prefix_spec a s b t : short a -> short b -> a <> [] -> b <> [] ->
  netsnmp_oid_find_prefix (Some (a ++ s)) (len a) (Some (b ++ t)) (len b)
  = Ret (Z.of_nat (common a b)).
Proof.
  intros Ha Hb Hna Hnb. unfold short, len in *. unfold netsnmp_oid_find_prefix.
  destruct a as [|x a]; [done|]. destruct b as [|y b]; [done|].
  replace (_ || _) with false by done. cbn [app].
  destruct (Z.eqb_spec x y) as [->|Hxy]; cbn [negb].
  2: { cbn [common]. by apply Z.eqb_neq in Hxy as ->. }
  set (a' := y :: a) in *. set (b' := y :: b) in *.
  change (y :: a ++ s) with (a' ++ s). change (y :: b ++ t) with (b' ++ t).
  rewrite <- Nat2Z.inj_min. rewrite turns_nat, s32_id by cint.
  rewrite find_prefix_loop_spec by (rewrite length_app; lia).
  rewrite !take_app_min by lia. rewrite common_take, bind_ret. cbn zeta.
  pose proof (common_le a' b').
  destruct (Nat.ltb_spec (common a' b') (length a' `min` length b')); do 2 f_equal; lia.
Qed.

(** ** The properties *)

(** C39: [snmp_oid_compare] decides a total order on object identifiers, whatever
    follows them in memory: its result is -1, 0 or 1, it is 0 exactly for equal
    names, swapping the names negates it, it is transitive, and the names below
    a prefix form an interval, so that a walk in this order leaves a subtree
    only once. *)
Theorem oid_compare_order a b c r1 r2 r3 sa sb sc :
  short a -> short b -> short c ->
  snmp_oid_compare (a ++ sa) (len a) (b ++ sb) (len b) = Ret r1 ->
  snmp_oid_compare (b ++ sb) (len b) (c ++ sc) (len c) = Ret r2 ->
  snmp_oid_compare (a ++ sa) (len a) (c ++ sc) (len c) = Ret r3 ->
  (r1 = -1 \/ r1 = 0 \/ r1 = 1)
  /\ (r1 = 0 <-> a = b)
  /\ snmp_oid_compare (b ++ sb) (len b) (a ++ sa) (len a) = Ret (- r1)
  /\ (r1 <= 0 -> r2 <= 0 -> r3 <= 0)
  /\ (forall p, p `prefix_of` a -> p `prefix_of` c -> r1 <= 0 -> r2 <= 0 -> p `prefix_of` b).
Proof.
  intros Ha Hb Hc. rewrite !snmp_oid_compare_spec by done. intros [= <-] [= <-] [= <-].
  split; [apply lex_range|]. split; [apply lex_eq|]. split; [by rewrite lex_opp|].
  split; [apply lex_le_trans|]. intros p ? ?. by apply lex_subtree.
Qed.

Lemma oid_compare_order_witness :
  let a := [1; 3; 6] in let b := [1; 3; 6; 1] in let c := [1; 3; 6; 1; 2 ^ 32 - 1] in
  snmp_oid_compare b (len b) a (len a) = Ret 1.
Proof.
  apply (oid_compare_order [1; 3; 6] [1; 3; 6; 1] [1; 3; 6; 1; 2 ^ 32 - 1] (-1) (-1) (-1) [] [] []).
  - by vm_compute.
  - by vm_compute.
  - by vm_compute.
  - reflexivity.
  - reflexivity.
  - reflexivity.
Defined.

(** The other comparisons are all readings of the same order: up to a
    given length, up to the shorter name, up to the first name's length,
    equality, the subtree test and the longest common prefix.
    [netsnmp_oid_compare_ll] reports the first difference counted from one. *)
Theorem oid_comparisons_agree a b s t m :
  short a -> short b -> a <> [] -> b <> [] ->
  let n := (length a `min` length b)%nat in
  snmp_oid_compare (a ++ s) (len a) (b ++ t) (len b) = Ret (lex a b)
  /\ netsnmp_oid_compare_ll (a ++ s) (len a) (b ++ t) (len b) = Ret (lex a b, Z.of_nat (common a b) + 1)
  /\ snmp_oid_ncompare (a ++ s) (len a) (b ++ t) (len b) (Z.of_nat m) = Ret (lex (take m a) (take m b))
  /\ snmp_oidtree_compare (a ++ s) (len a) (b ++ t) (len b) = Ret (lex (take n a) (take n b))
  /\ snmp_oidsubtree_compare (a ++ s) (len a) (b ++ t) (len b) = Ret (lex a (take (length a) b))
  /\ netsnmp_oid_equals (Some (a ++ s)) (len a) (Some (b ++ t)) (len b)
     = Ret (if bool_decide (lex a b = 0) then 0 else 1)
  /\ netsnmp_oid_is_subtree (a ++ s) (len a) (b ++ t) (len b)
     = Ret (if bool_decide (a `prefix_of` b) then 0 else 1)
  /\ netsnmp_oid_find_prefix (Some (a ++ s)) (len a) (Some (b ++ t)) (len b)
     = Ret (Z.of_nat (common a b)).
Proof.
  intros. rewrite (bool_decide_ext _ _ (lex_eq a b)).
  auto 20 using snmp_oid_compare_spec, netsnmp_oid_compare_ll_spec, snmp_oid_ncompare_spec,
    snmp_oidtree_compare_spec, snmp_oidsubtree_compare_spec, netsnmp_oid_equals_spec,
    netsnmp_oid_is_subtree_spec, netsnmp_oid_find_prefix_spec.
Qed.

Lemma oid_comparisons_agree_witness :
  netsnmp_oid_compare_ll [1; 3; 6; 9] (len [1; 3; 6]) [1; 3; 7] (len [1; 3; 7]) = Ret (-1, 3).
Proof.
  apply (oid_comparisons_agree [1; 3; 6] [1; 3; 7] [9] [] 2).
  - by vm_compute.
  - by vm_compute.
  - done.
  - done.
Defined.
