(* ===== verification/Vacm.v ===== *)
(** * View-based access control: snmplib/vacm.c and mibII/vacm_conf.c

    The three tables of RFC 3415 are singly linked lists, here lists of
    records in the order of their [next] pointers; a returned pointer into a
    list is the entry it points to, or its position where the caller goes on
    to write through it.  The fields [bitMask] and [reserved], which only the
    row handlers of vacm_vars.c use, are left out.

    A C string argument is the list of its bytes, the terminating NUL left
    out.  A name is stored in a [char \[VACMSTRINGLEN\]] as its length, its
    bytes, and zeros. *)

From S2P Require Import Prelude AsnTypes Oid AsnRbuild Pdu.

(** ** Data *)

Definition VACM_SUCCESS : Z := 0.
Definition VACM_NOSECNAME : Z := 1.
Definition VACM_NOGROUP : Z := 2.
Definition VACM_NOACCESS : Z := 3.
Definition VACM_NOVIEW : Z := 4.
Definition VACM_NOTINVIEW : Z := 5.
Definition VACM_NOSUCHCONTEXT : Z := 6.
Definition VACM_SUBTREE_UNKNOWN : Z := 7.

Definition VACM_MAX_STRING : Z := 32.
Definition VACMSTRINGLEN : nat := 34.
Definition VACM_MAX_VIEWS : Z := 8.
Definition CONTEXT_MATCH_EXACT : Z := 1.
Definition CONTEXT_MATCH_PREFIX : Z := 2.
Definition VACM_VIEW_READ : Z := 0.
Definition VACM_VIEW_WRITE : Z := 1.
Definition VACM_VIEW_NOTIFY : Z := 2.
Definition SNMP_VIEW_INCLUDED : Z := 1.
Definition SNMP_VIEW_EXCLUDED : Z := 2.
Definition SNMP_SEC_MODEL_ANY : Z := 0.
Definition VACM_CHECK_VIEW_CONTENTS_DNE_CONTEXT_OK : Z := 1.

Inductive mode : Set := VACM_MODE_FIND | VACM_MODE_IGNORE_MASK | VACM_MODE_CHECK_SUBTREE.

Record vacm_viewEntry : Type := {
  viewName : list Z;
  viewSubtree : list Z;
  viewSubtreeLen : Z;
  viewMask : list Z;
  viewMaskLen : Z;
  viewType : Z;
  viewStorageType : Z;
  viewStatus : Z
}.

Record vacm_groupEntry : Type := {
  g_securityModel : Z;
  g_securityName : list Z;
  g_groupName : list Z;
  g_storageType : Z;
  g_status : Z
}.

Record vacm_accessEntry : Type := {
  a_groupName : list Z;
  a_contextPrefix : list Z;
  a_securityModel : Z;
  a_securityLevel : Z;
  a_contextMatch : Z;
  a_views : list (list Z);
  a_storageType : Z;
  a_status : Z
}.

(** [sizeof] of the three structures. *)
Definition sizeof_viewEntry : Z := 1160.
Definition sizeof_groupEntry : Z := 104.
Definition sizeof_accessEntry : Z := 384.

(** ** Strings *)

Definition strlen (s : list Z) : Z := Z.of_nat (length s).

(** [s\[0\] = glen; strcpy(s + 1, name)] over a zeroed array. *)
Definition pstring (name : list Z) : list Z :=
  strlen name :: name ++ replicate (VACMSTRINGLEN - 1 - length name) 0.

Definition memcmp (a b : list Z) (n : Z) : Z := lex (take (Z.to_nat n) a) (take (Z.to_nat n) b).

(** The C string that starts at [s]. *)
Fixpoint c_string (s : list Z) : list Z :=
  match s with
  | c :: s => if c =? 0 then [] else c :: c_string s
  | [] => []
  end.

Definition strcmp (a b : list Z) : Z := lex (c_string a) (c_string b).

(** [int glen = (int) strlen(name)] and its check. *)
Definition bad_length (name : list Z) : bool :=
  let glen := s32 (strlen name) in (glen <? 0) || (VACM_MAX_STRING <=? glen).

(** ** Views *)

(** [viewMask] has [VACMSTRINGLEN] bytes and [idx] is at most 15. *)
Definition VIEW_MASK (viewPtr : vacm_viewEntry) (idx mask : Z) : Z :=
  if viewMaskLen viewPtr <=? idx then mask
  else Z.land (nth (Z.to_nat idx) (viewMask viewPtr) 0) mask.

(** The loop over the sub-identifiers: [turns] are left of its bound, [name]
    and [sub] are [viewSubtree + oidpos] and [vp->viewSubtree + 1 + oidpos]. *)
Fixpoint view_match (turns : nat) (ignore : bool) (vp : vacm_viewEntry) (mask maskpos : Z)
    (name sub : list Z) : outcome bool :=
  match turns with
  | O => Ret true
  | S turns =>
      found ← (if ignore || negb (VIEW_MASK vp maskpos mask =? 0) then
                 match name, sub with
                 | x :: _, y :: _ => Ret (x =? y)
                 | _, _ => Overrun
                 end
               else Ret true);
      let '(mask, maskpos) :=
        if mask =? 1 then (0x80, maskpos + 1) else (Z.shiftr mask 1, maskpos) in
      if (found : bool) then view_match turns ignore vp mask maskpos (tail name) (tail sub)
      else Ret false
  end.

(** The node is kept if it is longer than the previous, or equal and
    lexicographically greater. *)
Definition replaces (vp : vacm_viewEntry) (vpret : option vacm_viewEntry) : outcome bool :=
  match vpret with
  | None => Ret true
  | Some vpret =>
      if viewSubtreeLen vpret <? viewSubtreeLen vp then Ret true
      else if viewSubtreeLen vp =? viewSubtreeLen vpret then
        cmp ← snmp_oid_compare (tail (viewSubtree vp)) (u64 (viewSubtreeLen vp - 1))
                (tail (viewSubtree vpret)) (u64 (viewSubtreeLen vpret - 1));
        Ret (0 <? cmp)
      else Ret false
  end.

Definition ignores_mask (m : mode) : bool := match m with VACM_MODE_IGNORE_MASK => true | _ => false end.
Definition checks_subtree (m : mode) : bool := match m with VACM_MODE_CHECK_SUBTREE => true | _ => false end.

Fixpoint view_get_loop (head : list vacm_viewEntry) (view : list Z) (glen : Z)
    (subtree : list Z) (subtreeLen : Z) (m : mode) (vpret : option vacm_viewEntry) (count : Z)
    : outcome (option vacm_viewEntry * Z) :=
  match head with
  | [] => Ret (vpret, count)
  | vp :: head =>
      if (memcmp view (viewName vp) (glen + 1) =? 0) && (u64 (viewSubtreeLen vp - 1) <=? subtreeLen) then
        found ← view_match (Z.to_nat (u64 (viewSubtreeLen vp - 1))) (ignores_mask m) vp 0x80 0
                  subtree (tail (viewSubtree vp));
        if (found : bool) then
          if checks_subtree m then
            view_get_loop head view glen subtree subtreeLen m (Some vp) (count + 1)
          else
            keep ← replaces vp vpret;
            view_get_loop head view glen subtree subtreeLen m (if (keep : bool) then Some vp else vpret) (count + 1)
        else view_get_loop head view glen subtree subtreeLen m vpret count
      else view_get_loop head view glen subtree subtreeLen m vpret count
  end.

Definition netsnmp_view_get (head : list vacm_viewEntry) (name : list Z) (subtree : list Z)
    (subtreeLen : Z) (m : mode) : outcome (option vacm_viewEntry) :=
  if bad_length name then Ret None
  else
    '(vpret, count) ← view_get_loop head (pstring name) (strlen name) subtree subtreeLen m None 0;
    if checks_subtree m && (1 <? count) then Ret None else Ret vpret.

(** The loop ends early, with [None], when two longer nodes disagree. *)
Fixpoint subtree_check_loop (head : list vacm_viewEntry) (view : list Z) (glen : Z)
    (subtree : list Z) (subtreeLen : Z) (vpShorter vpLonger : option vacm_viewEntry)
    : outcome (option (option vacm_viewEntry * option vacm_viewEntry)) :=
  match head with
  | [] => Ret (Some (vpShorter, vpLonger))
  | vp :: head =>
      if memcmp view (viewName vp) (glen + 1) =? 0 then
        if u64 (viewSubtreeLen vp - 1) <=? subtreeLen then
          found ← view_match (Z.to_nat (u64 (viewSubtreeLen vp - 1))) false vp 0x80 0
                    subtree (tail (viewSubtree vp));
          if (found : bool) then
            keep ← replaces vp vpShorter;
            subtree_check_loop head view glen subtree subtreeLen
              (if (keep : bool) then Some vp else vpShorter) vpLonger
          else subtree_check_loop head view glen subtree subtreeLen vpShorter vpLonger
        else
          found ← view_match (Z.to_nat subtreeLen) false vp 0x80 0 subtree (tail (viewSubtree vp));
          if (found : bool) then
            match vpLonger with
            | Some l =>
                if negb (viewType l =? viewType vp) then Ret None
                else subtree_check_loop head view glen subtree subtreeLen vpShorter vpLonger
            | None => subtree_check_loop head view glen subtree subtreeLen vpShorter (Some vp)
            end
          else subtree_check_loop head view glen subtree subtreeLen vpShorter vpLonger
      else subtree_check_loop head view glen subtree subtreeLen vpShorter vpLonger
  end.

Definition netsnmp_view_subtree_check (head : list vacm_viewEntry) (name subtree : list Z)
    (subtreeLen : Z) : outcome Z :=
  if bad_length name then Ret VACM_NOTINVIEW
  else
    r ← subtree_check_loop head (pstring name) (strlen name) subtree subtreeLen None None;
    match r with
    | None => Ret VACM_SUBTREE_UNKNOWN
    | Some (vpShorter, vpLonger) =>
        let inconsistent :=
          match vpLonger, vpShorter with
          | Some l, None => negb (viewType l =? SNMP_VIEW_EXCLUDED)
          | Some l, Some s => negb (viewType l =? viewType s)
          | None, _ => false
          end in
        if inconsistent then Ret VACM_SUBTREE_UNKNOWN
        else
          match vpShorter with
          | Some s => if negb (viewType s =? SNMP_VIEW_EXCLUDED) then Ret VACM_SUCCESS else Ret VACM_NOTINVIEW
          | None => Ret VACM_NOTINVIEW
          end
    end.

(** *** The lists *)

(** The position [while (lp)] stops at, and the new node linked in there. *)
Fixpoint position {A} (stop : A -> outcome bool) (l : list A) : outcome nat :=
  match l with
  | [] => Ret O
  | lp :: l =>
      s ← stop lp;
      if (s : bool) then Ret O else n ← position stop l; Ret (S n)
  end.

Definition link {A} (n : nat) (x : A) (l : list A) : list A := take n l ++ x :: drop n l.

(** The head, or the first later node, that is the one looked for is unlinked. *)
Fixpoint unlink {A} (found : A -> bool) (l : list A) : list A :=
  match l with
  | [] => []
  | vp :: l => if found vp then l else vp :: unlink found l
  end.

(** The position of the new node, [None] for NULL, and the list. *)
Definition netsnmp_view_create `{Allocator} (head : list vacm_viewEntry) (name subtree : list Z)
    (subtreeLen : Z) : outcome (option nat * list vacm_viewEntry) :=
  if bad_length name then Ret (None, head)
  else if negb (alloc sizeof_viewEntry) then Ret (None, head)
  else if negb (alloc sizeof_viewEntry) then Ret (None, head)
  else if (MAX_OID_LEN - 1 <? subtreeLen) || (Z.of_nat (length subtree) <? subtreeLen) then Overrun
  else
    let sub := take (Z.to_nat subtreeLen) subtree in
    let vp := {|
      viewName := pstring name;
      viewSubtree := subtreeLen :: sub ++ replicate (Z.to_nat (MAX_OID_LEN - 1 - subtreeLen)) 0;
      viewSubtreeLen := subtreeLen + 1;
      viewMask := replicate VACMSTRINGLEN 0; viewMaskLen := 0;
      viewType := 0; viewStorageType := 0; viewStatus := 0 |} in
    n ← position (fun lp =>
          let cmp := memcmp (viewName lp) (viewName vp) (strlen name + 1) in
          cmp2 ← snmp_oid_compare (viewSubtree lp) (viewSubtreeLen lp) (viewSubtree vp) (viewSubtreeLen vp);
          Ret (((cmp =? 0) && (0 <? cmp2)) || (0 <? cmp))) head;
    Ret (Some n, link n vp head).

(** [subtree] is compared with the stored array, whose first element is the
    length of the rest; it holds at least [subtreeLen] sub-identifiers. *)
Definition netsnmp_view_destroy (head : list vacm_viewEntry) (name subtree : list Z) (subtreeLen : Z)
    : list vacm_viewEntry :=
  unlink (fun vp => (strcmp (tail (viewName vp)) name =? 0) && (viewSubtreeLen vp =? subtreeLen)
                    && (memcmp (viewSubtree vp) subtree subtreeLen =? 0)) head.

Definition netsnmp_view_clear (head : list vacm_viewEntry) : list vacm_viewEntry := [].

(** ** Groups *)

Definition vacm_getGroupEntry (groupList : list vacm_groupEntry) (securityModel : Z) (securityName : list Z)
    : option vacm_groupEntry :=
  if bad_length securityName then None
  else
    snd <$> list_find (fun vp =>
      ((securityModel =? g_securityModel vp) || (g_securityModel vp =? SNMP_SEC_MODEL_ANY))
      && (memcmp (g_securityName vp) (pstring securityName) (strlen securityName + 1) =? 0)) groupList.

Definition vacm_createGroupEntry `{Allocator} (groupList : list vacm_groupEntry) (securityModel : Z)
    (securityName : list Z) : outcome (option nat * list vacm_groupEntry) :=
  if bad_length securityName then Ret (None, groupList)
  else if negb (alloc sizeof_groupEntry) then Ret (None, groupList)
  else if negb (alloc sizeof_groupEntry) then Ret (None, groupList)
  else
    let gp := {| g_securityModel := securityModel; g_securityName := pstring securityName;
                 g_groupName := replicate VACMSTRINGLEN 0; g_storageType := 0; g_status := 0 |} in
    n ← position (fun lg => Ret
          ((securityModel <? g_securityModel lg)
           || ((g_securityModel lg =? securityModel)
               && (0 <? memcmp (g_securityName lg) (g_securityName gp) (strlen securityName + 1)))))
          groupList;
    Ret (Some n, link n gp groupList).

Definition vacm_destroyGroupEntry (groupList : list vacm_groupEntry) (securityModel : Z)
    (securityName : list Z) : list vacm_groupEntry :=
  unlink (fun vp => (g_securityModel vp =? securityModel)
                    && (strcmp (tail (g_securityName vp)) securityName =? 0)) groupList.

Definition vacm_destroyAllGroupEntries (groupList : list vacm_groupEntry) : list vacm_groupEntry := [].

(** ** Access entries *)

(** The length byte of a stored name, a [char]. *)
Definition plen (s : list Z) : Z := nth 0 s 0.

Definition _vacm_choose_best (current : option vacm_accessEntry) (candidate : vacm_accessEntry)
    : vacm_accessEntry :=
  match current with
  | None => candidate
  | Some current =>
      if ((a_securityModel current =? SNMP_SEC_MODEL_ANY) && negb (a_securityModel candidate =? SNMP_SEC_MODEL_ANY))
         || ((a_contextMatch current =? CONTEXT_MATCH_PREFIX) && (a_contextMatch candidate =? CONTEXT_MATCH_EXACT))
         || ((a_contextMatch current =? CONTEXT_MATCH_PREFIX)
             && (plen (a_contextPrefix current) <? plen (a_contextPrefix candidate)))
         || (a_securityLevel current <? a_securityLevel candidate)
      then candidate else current
  end.

(** The test of one entry against the message. *)
Definition access_applies (groupName contextPrefix : list Z) (securityModel securityLevel : Z)
    (vp : vacm_accessEntry) : bool :=
  let glen := strlen groupName in
  let clen := strlen contextPrefix in
  let group := pstring groupName in
  let context := pstring contextPrefix in
  ((securityModel =? a_securityModel vp) || (a_securityModel vp =? SNMP_SEC_MODEL_ANY))
  && (a_securityLevel vp <=? securityLevel)
  && (memcmp (a_groupName vp) group (glen + 1) =? 0)
  && (((a_contextMatch vp =? CONTEXT_MATCH_EXACT)
       && (clen =? plen (a_contextPrefix vp))
       && (memcmp (a_contextPrefix vp) context (clen + 1) =? 0))
      || ((a_contextMatch vp =? CONTEXT_MATCH_PREFIX)
          && (plen (a_contextPrefix vp) <=? clen)
          && (memcmp (tail (a_contextPrefix vp)) (tail context) (plen (a_contextPrefix vp)) =? 0))).

Definition vacm_getAccessEntry (accessList : list vacm_accessEntry) (groupName contextPrefix : list Z)
    (securityModel securityLevel : Z) : option vacm_accessEntry :=
  if bad_length groupName || bad_length contextPrefix then None
  else
    foldl (fun best vp =>
             if access_applies groupName contextPrefix securityModel securityLevel vp
             then Some (_vacm_choose_best best vp) else best) None accessList.

Definition vacm_createAccessEntry `{Allocator} (accessList : list vacm_accessEntry)
    (groupName contextPrefix : list Z) (securityModel securityLevel : Z)
    : outcome (option nat * list vacm_accessEntry) :=
  if bad_length groupName || bad_length contextPrefix then Ret (None, accessList)
  else if negb (alloc sizeof_accessEntry) then Ret (None, accessList)
  else if negb (alloc sizeof_accessEntry) then Ret (None, accessList)
  else
    let vp := {| a_groupName := pstring groupName; a_contextPrefix := pstring contextPrefix;
                 a_securityModel := securityModel; a_securityLevel := securityLevel; a_contextMatch := 0;
                 a_views := replicate (Z.to_nat VACM_MAX_VIEWS) (replicate VACMSTRINGLEN 0);
                 a_storageType := 0; a_status := 0 |} in
    n ← position (fun lp => Ret
          (let cmp := memcmp (a_groupName lp) (a_groupName vp) (strlen groupName + 1) in
           if 0 <? cmp then true else if cmp <? 0 then false
           else
             let cmp := memcmp (a_contextPrefix lp) (a_contextPrefix vp) (strlen contextPrefix + 1) in
             if 0 <? cmp then true else if cmp <? 0 then false
             else if securityModel <? a_securityModel lp then true
             else if a_securityModel lp <? securityModel then false
             else securityLevel <? a_securityLevel lp))
          accessList;
    Ret (Some n, link n vp accessList).

Definition vacm_destroyAccessEntry (accessList : list vacm_accessEntry) (groupName contextPrefix : list Z)
    (securityModel securityLevel : Z) : list vacm_accessEntry :=
  unlink (fun vp => (a_securityModel vp =? securityModel) && (a_securityLevel vp =? securityLevel)
                    && (strcmp (tail (a_groupName vp)) groupName =? 0)
                    && (strcmp (tail (a_contextPrefix vp)) contextPrefix =? 0)) accessList.

Definition vacm_destroyAllAccessEntries (accessList : list vacm_accessEntry) : list vacm_accessEntry := [].

(** ** The decision *)

Record vacm : Type := {
  viewList : list vacm_viewEntry;
  accessList : list vacm_accessEntry;
  groupList : list vacm_groupEntry;
  context_subtrees : list (option (list Z) * bool)
}.

Definition vacm_is_configured (v : vacm) : bool :=
  negb (bool_decide (accessList v = []) && bool_decide (groupList v = [])).

(** Whether [netsnmp_subtree_find_first] returns a subtree: each context of the
    registry, with whether its [first_subtree] is not NULL. *)
Definition netsnmp_subtree_find_first (contexts : list (option (list Z) * bool)) (context_name : list Z) : bool :=
  match list_find (fun c => match fst c with
                            | Some n => strcmp n context_name =? 0
                            | None => false
                            end = true) contexts with
  | Some (_, c) => snd c
  | None => false
  end.

(** The fields of a [netsnmp_pdu] the decision looks at; [contextName] is the
    memory at the pointer, or NULL. *)
Record request : Type := {
  r_command : Z;
  r_securityModel : Z;
  r_securityLevel : Z;
  r_contextName : option (list Z);
  r_contextNameLen : Z
}.

Definition CONTEXTNAMEINDEXLEN : Z := 32.

(** [vacm_check_view_contents] from the point where the security name [sn] is
    known; [name] is NULL to check the setup only. *)
Definition vacm_check_view_contents (v : vacm) (sn : option (list Z)) (pdu : request)
    (name : option (list Z)) (namelen : Z) (check_subtree : bool) (viewtype flags : Z) : outcome Z :=
  match sn with
  | None => Ret VACM_NOSECNAME
  | Some sn =>
      if CONTEXTNAMEINDEXLEN <? r_contextNameLen pdu then Ret VACM_NOSUCHCONTEXT
      else
        let contextNameIndex :=
          match r_contextName pdu with
          | Some c => c_string (take (Z.to_nat (r_contextNameLen pdu)) c)
          | None => []
          end in
        if (Z.land flags VACM_CHECK_VIEW_CONTENTS_DNE_CONTEXT_OK =? 0)
           && negb (netsnmp_subtree_find_first (context_subtrees v) contextNameIndex)
        then Ret VACM_NOSUCHCONTEXT
        else
          match vacm_getGroupEntry (groupList v) (r_securityModel pdu) sn with
          | None => Ret VACM_NOGROUP
          | Some gp =>
              match vacm_getAccessEntry (accessList v) (c_string (g_groupName gp)) contextNameIndex
                      (r_securityModel pdu) (r_securityLevel pdu) with
              | None => Ret VACM_NOACCESS
              | Some ap =>
                  match name with
                  | None => Ret VACM_SUCCESS
                  | Some name =>
                      if (viewtype <? 0) || (VACM_MAX_VIEWS <=? viewtype) then Ret VACM_NOACCESS
                      else
                        let vn := c_string (nth (Z.to_nat viewtype) (a_views ap) []) in
                        if check_subtree then netsnmp_view_subtree_check (viewList v) vn name namelen
                        else
                          vp ← netsnmp_view_get (viewList v) vn name namelen VACM_MODE_FIND;
                          match vp with
                          | None => Ret VACM_NOVIEW
                          | Some vp =>
                              if viewType vp =? SNMP_VIEW_EXCLUDED then Ret VACM_NOTINVIEW
                              else Ret VACM_SUCCESS
                          end
                  end
              end
          end
  end.

Definition vacm_check_view (v : vacm) (sn : option (list Z)) (pdu : request) (name : option (list Z))
    (namelen : Z) (check_subtree : bool) (viewtype : Z) : outcome Z :=
  vacm_check_view_contents v sn pdu name namelen check_subtree viewtype 0.

Definition vacm_in_view (v : vacm) (sn : option (list Z)) (pdu : request) (name : option (list Z))
    (namelen : Z) (check_subtree : bool) : outcome Z :=
  let viewtype :=
    if (r_command pdu =? SNMP_MSG_GET) || (r_command pdu =? SNMP_MSG_GETNEXT)
       || (r_command pdu =? SNMP_MSG_GETBULK) then VACM_VIEW_READ
    else if r_command pdu =? SNMP_MSG_SET then VACM_VIEW_WRITE
    else if (r_command pdu =? SNMP_MSG_TRAP) || (r_command pdu =? SNMP_MSG_TRAP2)
            || (r_command pdu =? SNMP_MSG_INFORM) then VACM_VIEW_NOTIFY
    else VACM_VIEW_READ in
  vacm_check_view v sn pdu name namelen check_subtree viewtype.
