(* ===== verification/VacmSpec.v ===== *)
(** * What the access tables decide

    A view as a set of families of subtrees: which names a family covers under
    its mask, which family wins, and what the answer for a whole subtree says
    about the names below it. *)

From Stdlib Require Import Sorting.Sorted.
From S2P Require Import Prelude AsnTypes Oid AsnRbuild Pdu Vacm.

(** ** Stored names *)

Lemma memcmp_pstring n m :
  memcmp (pstring n) (pstring m) (strlen n + 1) = 0 <-> n = m.
Proof.
  unfold memcmp. rewrite lex_eq. unfold pstring, strlen.
  rewrite Z2Nat.inj_add, Nat2Z.id, Nat.add_comm by lia. cbn [Z.to_nat Pos.to_nat Pos.iter_op Nat.add take].
  split; [|by intros ->]. intros [= E1 E2].
  rewrite take_app_length, take_app_le, take_ge in E2 by lia. done.
Qed.

(** A C string that fits, and an array that stores one. *)
Definition string_ok (s : list Z) : Prop := Forall (fun c => c <> 0) s /\ strlen s < VACM_MAX_STRING.
Definition stored (s : list Z) : Prop := exists name, string_ok name /\ s = pstring name.

(** ** Well-formed view entries *)

(** The subtree of an entry: the stored array after its first element. *)
Definition sub_of (e : vacm_viewEntry) : list Z :=
  take (Z.to_nat (viewSubtreeLen e - 1)) (tail (viewSubtree e)).

Record entry_ok (e : vacm_viewEntry) : Prop := {
  entry_name : stored (viewName e);
  entry_len : 1 <= viewSubtreeLen e <= MAX_OID_LEN;
  entry_size : length (viewSubtree e) = Z.to_nat MAX_OID_LEN;
  entry_head : nth 0 (viewSubtree e) 0 = viewSubtreeLen e - 1
}.

Lemma sub_of_length e : entry_ok e -> len (sub_of e) = viewSubtreeLen e - 1.
Proof.
  intros []. unfold len, sub_of, MAX_OID_LEN in *. rewrite length_take, length_tl. lia.
Qed.

Lemma sub_of_short e : entry_ok e -> short (sub_of e).
Proof. intros H. unfold short. rewrite sub_of_length by done. destruct H. unfold MAX_OID_LEN in *. lia. Qed.

Lemma tail_sub e : exists r, tail (viewSubtree e) = sub_of e ++ r.
Proof. eexists. symmetry. apply take_drop. Qed.

(** The number of turns the loops over the whole entry take. *)
Lemma entry_turns e : entry_ok e ->
  u64 (viewSubtreeLen e - 1) = len (sub_of e) /\ Z.to_nat (u64 (viewSubtreeLen e - 1)) = length (sub_of e).
Proof.
  intros H. rewrite sub_of_length by done. rewrite <- (Nat2Z.id (length (sub_of e))).
  fold (len (sub_of e)). rewrite sub_of_length by done.
  destruct H. unfold MAX_OID_LEN in *. rewrite u64_id by cint. done.
Qed.

(** ** Masks *)

(** Bit [j] of the mask, counted from the most significant bit of the first
    byte; a mask that is too short is extended with ones. *)
Definition mask_bit (e : vacm_viewEntry) (j : nat) : bool :=
  (viewMaskLen e <=? Z.of_nat (j / 8)) || Z.testbit (nth (j / 8) (viewMask e) 0) (7 - Z.of_nat (j mod 8)).

(** The first [n] sub-identifiers of [name] agree with the entry's where its
    mask, unless ignored, has a one. *)
Definition covers (ignore : bool) (e : vacm_viewEntry) (name : list Z) (n : nat) : bool :=
  forallb (fun j => negb (ignore || mask_bit e j) || bool_decide (name !! j = sub_of e !! j)) (seq 0 n).

Lemma land_pow2 x k : 0 <= k -> (Z.land x (2 ^ k) =? 0) = negb (Z.testbit x k).
Proof.
  intros Hk. assert (E : Z.land x (2 ^ k) = if Z.testbit x k then 2 ^ k else 0).
  { apply Z.bits_inj'. intros i Hi. rewrite Z.land_spec, Z.pow2_bits_eqb by lia.
    destruct (Z.eqb_spec k i) as [->|Hne].
    - rewrite andb_true_r. destruct (Z.testbit x i); [by rewrite Z.pow2_bits_true|by rewrite Z.bits_0].
    - rewrite andb_false_r. destruct (Z.testbit x k); [|by rewrite Z.bits_0].
      by rewrite Z.pow2_bits_false. }
  rewrite E. destruct (Z.testbit x k); [|done]. cbn [negb]. apply Z.eqb_neq.
  pose proof (Z.pow_pos_nonneg 2 k). lia.
Qed.

Definition mask_at (j : nat) : Z := 2 ^ (7 - Z.of_nat (j mod 8)).

Lemma VIEW_MASK_spec e j :
  (VIEW_MASK e (Z.of_nat (j / 8)) (mask_at j) =? 0) = negb (mask_bit e j).
Proof.
  pose proof (Nat.mod_upper_bound j 8 ltac:(lia)).
  unfold VIEW_MASK, mask_bit, mask_at. destruct (Z.leb_spec (viewMaskLen e) (Z.of_nat (j / 8))).
  - cbn. apply Z.eqb_neq. pose proof (Z.pow_pos_nonneg 2 (7 - Z.of_nat (j mod 8))). lia.
  - rewrite Nat2Z.id, land_pow2 by lia. done.
Qed.

(** One turn moves the mask on by one bit. *)
Lemma mask_step j :
  (if mask_at j =? 1 then (0x80, Z.of_nat (j / 8) + 1) else (Z.shiftr (mask_at j) 1, Z.of_nat (j / 8)))
  = (mask_at (S j), Z.of_nat (S j / 8)).
Proof.
  pose proof (Nat.mod_upper_bound j 8 ltac:(lia)) as Hm.
  pose proof (Nat.div_mod j 8 ltac:(lia)) as Hj.
  unfold mask_at. destruct (decide (j mod 8 = 7)%nat) as [E|E].
  - rewrite E. cbn [Z.eqb]. change (2 ^ (7 - Z.of_nat 7) =? 1) with true. cbn iota.
    assert (S j / 8 = S (j / 8) /\ S j mod 8 = 0)%nat as [-> ->].
    { split; [symmetry; apply (Nat.div_unique _ _ _ 0)|symmetry; apply (Nat.mod_unique _ _ (S (j / 8)))]; lia. }
    f_equal. lia.
  - assert (S j / 8 = j / 8 /\ S j mod 8 = S (j mod 8))%nat as [-> ->].
    { split; [symmetry; apply (Nat.div_unique _ _ _ (S (j mod 8)))|
              symmetry; apply (Nat.mod_unique _ _ (j / 8))]; lia. }
    replace (7 - Z.of_nat (j mod 8)) with (1 + (7 - Z.of_nat (S (j mod 8)))) by lia.
    rewrite Z.pow_add_r, shr_div, Z.mul_comm, Z.div_mul by lia.
    pose proof (Z.pow_pos_nonneg 2 (7 - Z.of_nat (S (j mod 8)))).
    destruct (Z.eqb_spec (2 ^ (7 - Z.of_nat (S (j mod 8))) * 2 ^ 1) 1); [lia|done].
Qed.

Lemma view_match_spec e ignore name n : forall j r,
  (j + n <= length name)%nat -> (j + n <= length (sub_of e))%nat ->
  tail (viewSubtree e) = sub_of e ++ r ->
  view_match n ignore e (mask_at j) (Z.of_nat (j / 8)) (drop j name) (drop j (tail (viewSubtree e)))
  = Ret (forallb (fun j => negb (ignore || mask_bit e j) || bool_decide (name !! j = sub_of e !! j)) (seq j n)).
Proof.
  induction n as [|n IH]; intros j r Hn Hs Hr; [done|].
  cbn [view_match seq forallb]. rewrite mask_step, VIEW_MASK_spec, negb_involutive.
  destruct (lookup_lt_is_Some_2 name j) as [x Hx]; [lia|].
  destruct (lookup_lt_is_Some_2 (sub_of e) j) as [y Hy]; [lia|].
  assert (Hy' : tail (viewSubtree e) !! j = Some y) by (rewrite Hr; by apply lookup_app_l_Some).
  rewrite (drop_S name x j), (drop_S (tail (viewSubtree e)) y j) by done. cbn [tail].
  rewrite Hx, Hy, (bool_decide_ext (Some x = Some y) (x = y)) by (split; congruence).
  assert (E : (x =? y) = bool_decide (x = y)).
  { destruct (Z.eqb_spec x y); symmetry; [by apply bool_decide_true|by apply bool_decide_false]. }
  rewrite E. destruct (ignore || mask_bit e j); cbn [negb orb]; rewrite bind_ret.
  - destruct (bool_decide (x = y)); [|done]. cbn [andb]. apply (IH _ r); [lia|lia|done].
  - apply (IH _ r); [lia|lia|done].
Qed.

Lemma view_match_covers e ignore name n :
  (n <= length name)%nat -> (n <= length (sub_of e))%nat ->
  view_match n ignore e 0x80 0 name (tail (viewSubtree e)) = Ret (covers ignore e name n).
Proof. intros. destruct (tail_sub e) as [r Hr]. by apply (view_match_spec e ignore name n 0 r). Qed.

(** Names with a common prefix of [n] sub-identifiers are covered alike. *)
Lemma covers_prefix ignore e a b n :
  a `prefix_of` b -> (n <= length a)%nat -> covers ignore e a n = covers ignore e b n.
Proof.
  intros [c ->] Hn. unfold covers.
  assert (E : forall l, Forall (fun j => j < length a)%nat l ->
    forallb (fun j => negb (ignore || mask_bit e j) || bool_decide (a !! j = sub_of e !! j)) l
    = forallb (fun j => negb (ignore || mask_bit e j) || bool_decide ((a ++ c) !! j = sub_of e !! j)) l).
  { induction 1 as [|j l Hj _ IH]; [done|]. cbn [forallb]. by rewrite IH, lookup_app_l. }
  apply E. apply Forall_forall. intros j Hj%elem_of_seq. lia.
Qed.

Lemma covers_le ignore e a n m :
  (n <= m)%nat -> covers ignore e a m = true -> covers ignore e a n = true.
Proof.
  unfold covers. rewrite !forallb_forall. intros Hn H j Hj. apply H.
  rewrite in_seq in *. lia.
Qed.

(** ** Which family wins *)

(** The order of the families: longer first, then lexicographically greater. *)
Definition beats (a b : vacm_viewEntry) : bool :=
  (viewSubtreeLen b <? viewSubtreeLen a)
  || ((viewSubtreeLen a =? viewSubtreeLen b) && (0 <? lex (sub_of a) (sub_of b))).

Definition pick (best : option vacm_viewEntry) (e : vacm_viewEntry) : option vacm_viewEntry :=
  match best with
  | None => Some e
  | Some b => if beats e b then Some e else Some b
  end.

Lemma replaces_spec e best :
  entry_ok e -> (forall b, best = Some b -> entry_ok b) ->
  replaces e best = Ret (match best with None => true | Some b => beats e b end).
Proof.
  intros He Hb. destruct best as [b|]; [|done]. specialize (Hb b eq_refl). cbn [replaces].
  unfold beats. destruct (viewSubtreeLen b <? viewSubtreeLen e); [done|].
  destruct (viewSubtreeLen e =? viewSubtreeLen b); [|done].
  destruct (tail_sub e) as [re ->], (tail_sub b) as [rb ->].
  destruct (entry_turns e He) as [-> _], (entry_turns b Hb) as [-> _].
  rewrite snmp_oid_compare_spec by by apply sub_of_short. done.
Qed.

Lemma pick_ok best e :
  entry_ok e -> (forall b, best = Some b -> entry_ok b) -> forall b, pick best e = Some b -> entry_ok b.
Proof.
  intros He Hb b. destruct best as [c|]; cbn; [|by intros [= <-]].
  destruct (beats e c); intros [= <-]; [done|by apply Hb].
Qed.

(** An entry of the view [name] that is no longer than [p] and covers it. *)
Definition shorter (ignore : bool) (name p : list Z) (e : vacm_viewEntry) : bool :=
  bool_decide (viewName e = pstring name)
  && (len (sub_of e) <=? len p) && covers ignore e p (length (sub_of e)).

(** The test of the names, as both loops write it. *)
Lemma same_name e name : entry_ok e ->
  (memcmp (pstring name) (viewName e) (strlen name + 1) =? 0) = bool_decide (viewName e = pstring name).
Proof.
  intros [(n & _ & Hn) _ _ _]. rewrite Hn. destruct (decide (n = name)) as [->|Hne].
  - rewrite bool_decide_true by done. apply Z.eqb_eq. by apply memcmp_pstring.
  - rewrite bool_decide_false.
    + apply Z.eqb_neq. by rewrite memcmp_pstring.
    + intros E. apply Hne. symmetry. apply memcmp_pstring. rewrite E. unfold memcmp. apply lex_refl.
Qed.

(** The loop finds the winner of the covering entries, and counts them. *)
Lemma view_get_loop_spec name p m head : forall best count,
  checks_subtree m = false ->
  Forall entry_ok head -> (forall b, best = Some b -> entry_ok b) ->
  exists n,
    view_get_loop head (pstring name) (strlen name) p (len p) m best count
    = Ret (foldl pick best (List.filter (fun e => shorter (ignores_mask m) name p e) head), n).
Proof.
  intros best count Hm Hok. revert best count.
  induction Hok as [|e head He _ IH]; intros best count Hb; [by exists count|].
  cbn [view_get_loop List.filter]. unfold shorter at 1.
  rewrite same_name by done. destruct (entry_turns e He) as [-> ->]. rewrite Hm.
  destruct (bool_decide (viewName e = pstring name)); cbn [andb]; [|by apply IH].
  destruct (Z.leb_spec (len (sub_of e)) (len p)) as [L|L]; cbn [andb]; [|by apply IH].
  rewrite view_match_covers by (unfold len in L; lia). rewrite bind_ret.
  destruct (covers _ _ _ _); [|by apply IH].
  rewrite replaces_spec, bind_ret by done.
  replace (if match best with Some b => beats e b | None => true end then Some e else best)
    with (pick best e) by by destruct best.
  apply IH. by apply pick_ok.
Qed.

Lemma netsnmp_view_get_spec head name p m :
  checks_subtree m = false -> bad_length name = false -> Forall entry_ok head ->
  netsnmp_view_get head name p (len p) m
  = Ret (foldl pick None (List.filter (fun e => shorter (ignores_mask m) name p e) head)).
Proof.
  intros Hm Hn Hok. unfold netsnmp_view_get. rewrite Hn.
  destruct (view_get_loop_spec name p m head None 0) as [n ->]; [done..|].
  by rewrite bind_ret, Hm.
Qed.

(** *** The winner is the greatest *)

Lemma beats_trans a b c : beats a b = false -> beats b c = false -> beats a c = false.
Proof.
  unfold beats. rewrite !orb_false_iff, !andb_false_iff, !Z.ltb_ge, !Z.eqb_neq.
  intros [L1 H1] [L2 H2]. split; [lia|].
  destruct H1 as [H1|H1], H2 as [H2|H2]; try lia.
  right. by apply (lex_le_trans _ (sub_of b)).
Qed.

Lemma beats_asym a b : beats a b = true -> beats b a = false.
Proof.
  unfold beats. rewrite orb_true_iff, andb_true_iff, orb_false_iff, andb_false_iff.
  rewrite !Z.ltb_lt, !Z.ltb_ge, Z.eqb_eq, Z.eqb_neq, (lex_opp (sub_of a)). lia.
Qed.

Lemma foldl_pick_spec l : forall best,
  match foldl pick best l with
  | None => best = None /\ l = []
  | Some b => (best = Some b \/ b ∈ l)
              /\ (forall e, e ∈ l \/ best = Some e -> beats e b = false)
  end.
Proof.
  induction l as [|e l IH]; intros best; cbn [foldl].
  - destruct best as [b|]; [|done]. split; [by left|]. intros e [He|[= ->]]; [by apply elem_of_nil in He|].
    unfold beats. rewrite Z.ltb_irrefl, Z.eqb_refl, lex_refl. done.
  - specialize (IH (pick best e)). destruct (foldl pick (pick best e) l) as [b|]; cbn.
    + destruct IH as [Hin Hmax]. destruct best as [c|]; cbn in *.
      * destruct (beats e c) eqn:E.
        -- split; [destruct Hin as [[= ->]|?]; right; set_solver|].
           intros e' [He'|[= ->]]; [apply elem_of_cons in He' as [->|?]; auto|].
           apply (beats_trans _ e); [by apply beats_asym|auto].
        -- split; [destruct Hin as [?|?]; [by left|right; set_solver]|].
           intros e' [He'|?]; [|auto]. apply elem_of_cons in He' as [->|?]; [|auto].
           apply (beats_trans _ c); auto.
      * split; [destruct Hin as [[= ->]|?]; right; set_solver|].
        intros e' [He'|?]; [|done]. apply elem_of_cons in He' as [->|?]; auto.
    + destruct IH as [Hn _]. destruct best as [c|]; cbn in Hn; [destruct (beats e c)|]; done.
Qed.

(** The answer is the winner of the covering entries, if there are any. *)
Lemma view_get_winner head name q m :
  checks_subtree m = false -> bad_length name = false -> Forall entry_ok head ->
  exists r,
    netsnmp_view_get head name q (len q) m = Ret r
    /\ match r with
       | None => forall e, In e head -> shorter (ignores_mask m) name q e = false
       | Some w => In w head /\ shorter (ignores_mask m) name q w = true
                   /\ forall e, In e head -> shorter (ignores_mask m) name q e = true -> beats e w = false
       end.
Proof.
  intros Hm Hn Hok. rewrite netsnmp_view_get_spec by done. eexists. split; [done|].
  pose proof (foldl_pick_spec (List.filter (fun e => shorter (ignores_mask m) name q e) head) None) as H.
  destruct (foldl pick None _) as [w|].
  - destruct H as [[?|Hin] Hmax]; [done|]. apply list_elem_of_In, List.filter_In in Hin as [Hin Hs].
    split_and!; [done..|]. intros e He Hes. apply Hmax. left. apply list_elem_of_In, List.filter_In. done.
  - destruct H as [_ H]. intros e He.
    destruct (shorter (ignores_mask m) name q e) eqn:E; [|done].
    assert (HI : In e (List.filter (fun e => shorter (ignores_mask m) name q e) head))
      by by apply List.filter_In.
    by rewrite H in HI.
Qed.

(** *** A whole subtree *)

(** An entry below [p], as far as [p] goes. *)
Definition longer (name p : list Z) (e : vacm_viewEntry) : bool :=
  bool_decide (viewName e = pstring name)
  && (len p <? len (sub_of e)) && covers false e p (length p).

(** The loop keeps the winner above [p] and one entry below it, unless two
    entries below disagree. *)
Lemma subtree_check_loop_spec name p head : forall s g,
  Forall entry_ok head -> (forall b, s = Some b -> entry_ok b) ->
  subtree_check_loop head (pstring name) (strlen name) p (len p) s g = Ret None
  \/ exists g',
       subtree_check_loop head (pstring name) (strlen name) p (len p) s g
       = Ret (Some (foldl pick s (List.filter (shorter false name p) head), g'))
       /\ (forall l, g = Some l -> g' = Some l)
       /\ (forall e, In e head -> longer name p e = true ->
             exists l, g' = Some l /\ viewType e = viewType l).
Proof.
  intros s g Hok. revert s g.
  induction Hok as [|e head He _ IH]; intros s g Hs; [right; by exists g|].
  cbn [subtree_check_loop List.filter In].
  rewrite same_name by done. destruct (entry_turns e He) as [-> ->].
  destruct (bool_decide (viewName e = pstring name)) eqn:En.
  2: { unfold shorter at 1. rewrite En. cbn [andb].
       destruct (IH s g Hs) as [?|(g' & ? & ? & Hl)]; [by left|right; exists g'].
       split_and!; [done..|]. intros e' [<-|?]; [|by apply Hl]. unfold longer. by rewrite En. }
  destruct (Z.leb_spec (len (sub_of e)) (len p)) as [L|L].
  - assert (Hnl : longer name p e = false).
    { unfold longer. replace (len p <? len (sub_of e)) with false by (symmetry; by apply Z.ltb_ge).
      by rewrite andb_false_r. }
    rewrite view_match_covers by (unfold len in L; lia). rewrite bind_ret.
    assert (Esh : shorter false name p e = covers false e p (length (sub_of e))).
    { unfold shorter. rewrite En. by replace (_ <=? _) with true by (symmetry; by apply Z.leb_le). }
    rewrite Esh. destruct (covers _ _ _ _).
    + rewrite replaces_spec, bind_ret by done. cbn [foldl].
      replace (if match s with Some b => beats e b | None => true end then Some e else s)
        with (pick s e) by by destruct s.
      destruct (IH (pick s e) g) as [?|(g' & ? & ? & Hl)]; [by apply pick_ok|by left|right; exists g'].
      split_and!; [done..|]. intros e' [<-|?]; [by rewrite Hnl|by apply Hl].
    + destruct (IH s g Hs) as [?|(g' & ? & ? & Hl)]; [by left|right; exists g'].
      split_and!; [done..|]. intros e' [<-|?]; [by rewrite Hnl|by apply Hl].
  - assert (Esh : shorter false name p e = false).
    { unfold shorter. replace (_ <=? _) with false by (symmetry; by apply Z.leb_gt). by rewrite andb_false_r. }
    rewrite Esh. replace (Z.to_nat (len p)) with (length p) by (unfold len; lia).
    rewrite view_match_covers by (unfold len in L; lia). rewrite bind_ret.
    assert (Elo : longer name p e = covers false e p (length p)).
    { unfold longer. rewrite En. by replace (_ <? _) with true by (symmetry; by apply Z.ltb_lt). }
    destruct (covers false e p (length p)).
    + destruct g as [l|].
      * destruct (Z.eqb_spec (viewType l) (viewType e)) as [E|E]; cbn [negb]; [|by left].
        destruct (IH s (Some l) Hs) as [?|(g' & ? & Hg & Hl)]; [by left|right; exists g'].
        split_and!; [done..|]. intros e' [<-|?]; [|by apply Hl]. exists l. split; [by apply Hg|done].
      * destruct (IH s (Some e) Hs) as [?|(g' & ? & Hg & Hl)]; [by left|right; exists g'].
        split_and!; [done..|]. intros e' [<-|?]; [|by apply Hl]. exists e. split; [by apply Hg|done].
    + destruct (IH s g Hs) as [?|(g' & ? & ? & Hl)]; [by left|right; exists g'].
      split_and!; [done..|]. intros e' [<-|?]; [by rewrite Elo|by apply Hl].
Qed.

(** A name below [p] meets the entries above [p] and some of those below. *)
Lemma shorter_below name p q e : p `prefix_of` q ->
  shorter false name q e = true ->
  (len (sub_of e) <=? len p) = shorter false name p e
  /\ ((len (sub_of e) <=? len p) = false -> longer name p e = true).
Proof.
  intros Hpq. pose proof (prefix_length _ _ Hpq) as Hl. unfold shorter, longer, len.
  rewrite !andb_true_iff. intros [[-> Hle] Hc]. cbn [andb].
  destruct (Z.leb_spec (Z.of_nat (length (sub_of e))) (Z.of_nat (length p))) as [L|L]; cbn [andb].
  - split; [|done]. rewrite (covers_prefix _ _ p q) by (done || lia). done.
  - split; [done|]. intros _. rewrite (covers_prefix _ _ p q) by (done || lia).
    split_and!; [done|by apply Z.ltb_lt|].
    apply (covers_le _ _ _ _ (length (sub_of e))); [lia|done].
Qed.

Lemma shorter_prefix name p q e : p `prefix_of` q ->
  shorter false name p e = true -> shorter false name q e = true.
Proof.
  intros Hpq. pose proof (prefix_length _ _ Hpq) as Hl. unfold shorter, len.
  rewrite !andb_true_iff. intros [[Hn Hle%Z.leb_le] Hc]. split_and!; [done|apply Z.leb_le; lia|].
  rewrite <- (covers_prefix _ _ p q) by (done || lia). done.
Qed.

(** If the winner is no longer than [k], the longer candidates did not matter. *)
Lemma foldl_pick_short k l : forall best w,
  (forall b, best = Some b -> viewSubtreeLen b <= k) ->
  foldl pick best l = Some w -> viewSubtreeLen w <= k ->
  foldl pick best (List.filter (fun e => viewSubtreeLen e <=? k) l) = Some w.
Proof.
  induction l as [|e l IH]; intros best w Hb Hw Hk; [done|]. cbn [foldl List.filter] in *.
  destruct (Z.leb_spec (viewSubtreeLen e) k) as [L|L]; cbn [foldl].
  - apply IH; [|done..]. intros b. destruct best as [c|]; cbn; [destruct (beats e c)|];
      intros [= <-]; auto.
  - exfalso. assert (E : pick best e = Some e).
    { destruct best as [c|]; cbn; [|done]. specialize (Hb c eq_refl).
      unfold beats. by replace (_ <? _) with true by (symmetry; apply Z.ltb_lt; lia). }
    rewrite E in Hw. pose proof (foldl_pick_spec l (Some e)) as H. rewrite Hw in H.
    destruct H as [_ H]. specialize (H e (or_intror eq_refl)).
    unfold beats in H. apply orb_false_iff in H as [H%Z.ltb_ge _]. lia.
Qed.

Lemma filter_filter {A} (f g : A -> bool) l :
  List.filter f (List.filter g l) = List.filter (fun x => g x && f x) l.
Proof.
  induction l as [|x l IH]; [done|]. cbn. destruct (g x); cbn; [destruct (f x)|]; by rewrite IH.
Qed.

(** The winner for a name below [p] is the winner for [p], or an entry below. *)
Lemma winner_below head name p q w :
  Forall entry_ok head -> p `prefix_of` q ->
  foldl pick None (List.filter (shorter false name q) head) = Some w ->
  foldl pick None (List.filter (shorter false name p) head) = Some w
  \/ (In w head /\ longer name p w = true).
Proof.
  intros Hok Hpq Hw. pose proof (foldl_pick_spec (List.filter (shorter false name q) head) None) as H.
  rewrite Hw in H. destruct H as [[?|Hin] _]; [done|].
  apply list_elem_of_In, List.filter_In in Hin as [Hin Hs].
  pose proof (proj1 (List.Forall_forall _ _) Hok) as Hok'.
  destruct (shorter_below name p q w Hpq Hs) as [Hsh Hlo].
  destruct (len (sub_of w) <=? len p) eqn:El; [left|right; split; auto].
  apply Z.leb_le in El. rewrite sub_of_length in El by auto.
  apply (foldl_pick_short (len p + 1)) in Hw; [|done|lia].
  rewrite <- Hw. f_equal. rewrite filter_filter. apply List.filter_ext_in.
  intros e He. destruct (shorter false name q e) eqn:Eq; cbn [andb].
  - destruct (shorter_below name p q e Hpq Eq) as [<- _]. rewrite sub_of_length by auto.
    destruct (Z.leb_spec (viewSubtreeLen e - 1) (len p)), (Z.leb_spec (viewSubtreeLen e) (len p + 1)); lia.
  - destruct (shorter false name p e) eqn:Ep; [|done]. by rewrite (shorter_prefix name p q e) in Eq.
Qed.

(** What [netsnmp_view_get] answers for a name: in the view or not. *)
Definition in_view (head : list vacm_viewEntry) (name q : list Z) : outcome bool :=
  vp ← netsnmp_view_get head name q (len q) VACM_MODE_FIND;
  Ret (match vp with Some e => negb (viewType e =? SNMP_VIEW_EXCLUDED) | None => false end).

Lemma view_subtree_check_sound head name p q :
  Forall entry_ok head -> p `prefix_of` q ->
  (netsnmp_view_subtree_check head name p (len p) = Ret VACM_SUCCESS -> in_view head name q = Ret true)
  /\ (netsnmp_view_subtree_check head name p (len p) = Ret VACM_NOTINVIEW -> in_view head name q = Ret false).
Proof.
  intros Hok Hpq. unfold in_view, netsnmp_view_subtree_check.
  destruct (bad_length name) eqn:Hn; [unfold netsnmp_view_get; rewrite Hn; by split|].
  rewrite netsnmp_view_get_spec by done. cbn [ignores_mask]. rewrite bind_ret.
  destruct (subtree_check_loop_spec name p head None None) as [->|(g & -> & _ & Hg)]; [done..| |].
  { rewrite bind_ret. by split. }
  rewrite bind_ret. pose proof (winner_below head name p q) as HW.
  pose proof (foldl_pick_spec (List.filter (shorter false name p) head) None) as HS.
  destruct (foldl pick None (List.filter (shorter false name q) head)) as [w|] eqn:Ew.
  - specialize (HW w Hok Hpq eq_refl). destruct HW as [->|[Hin Hlo]].
    + destruct g as [l|]; [destruct (Z.eqb_spec (viewType l) (viewType w)); cbn [negb]|].
      2: by split.
      all: destruct (viewType w =? SNMP_VIEW_EXCLUDED); by split.
    + destruct (Hg w Hin Hlo) as (l & -> & ->).
      destruct (foldl pick None (List.filter (shorter false name p) head)) as [s|].
      * destruct (Z.eqb_spec (viewType l) (viewType s)) as [->|]; cbn [negb]; [|by split].
        destruct (viewType s =? SNMP_VIEW_EXCLUDED); by split.
      * destruct (viewType l =? SNMP_VIEW_EXCLUDED); by split.
  - pose proof (foldl_pick_spec (List.filter (shorter false name q) head) None) as HQ.
    rewrite Ew in HQ. destruct HQ as [_ HQ].
    destruct (foldl pick None (List.filter (shorter false name p) head)) as [s|].
    + exfalso. destruct HS as [[?|Hin] _]; [done|].
      apply list_elem_of_In, List.filter_In in Hin as [Hin Hs].
      assert (Hq : In s (List.filter (shorter false name q) head)).
      { apply List.filter_In. split; [done|]. by apply (shorter_prefix name p q). }
      by rewrite HQ in Hq.
    + split; [|done]. intros H. exfalso. revert H.
      destruct g as [l|]; [destruct (negb _)|]; done.
Qed.

(** ** The tables are kept in the order of their index *)

(** A stored name as an index: its length, then its bytes. *)
Definition pkey (name : list Z) : list Z := strlen name :: name.

(** A table sorted by an index. *)
Definition key_sorted {A} (key : A -> list Z) (l : list A) : Prop :=
  StronglySorted (fun a b => lex (key a) (key b) <= 0) l.

Lemma lex_app a : forall a' b b', length a = length b ->
  lex (a ++ a') (b ++ b') = if lex a b =? 0 then lex a' b' else lex a b.
Proof.
  induction a as [|x a IH]; intros a' [|y b] b' Hl; try done. cbn.
  destruct (x <? y); [done|]. destruct (y <? x); [done|]. apply IH. by injection Hl.
Qed.

(** Comparing the stored names is comparing the front of the indexes. *)
Lemma memcmp_key m n a b :
  lex (pkey m ++ a) (pkey n ++ b)
  = let c := memcmp (pstring m) (pstring n) (strlen n + 1) in if c =? 0 then lex a b else c.
Proof.
  unfold memcmp, pstring, pkey, strlen.
  replace (Z.to_nat (Z.of_nat (length n) + 1)) with (S (length n)) by lia. cbn [take app lex].
  destruct (Z.ltb_spec (Z.of_nat (length m)) (Z.of_nat (length n))); [done|].
  destruct (Z.ltb_spec (Z.of_nat (length n)) (Z.of_nat (length m))); [done|].
  rewrite !take_app_le, !take_ge by lia. apply lex_app. lia.
Qed.

Section Tables.
Context {A : Type} (key : A -> list Z).

Lemma position_spec stop (x : A) l :
  (forall lp, In lp l -> stop lp = Ret (0 <? lex (key lp) (key x))) ->
  key_sorted key l ->
  exists n, position stop l = Ret n /\ key_sorted key (link n x l) /\ (n <= length l)%nat.
Proof.
  intros Hstop Hs. induction Hs as [|lp l Hs IH Hlp]; cbn [position].
  { exists O. split; [done|]. split; [|done]. by repeat constructor. }
  rewrite Hstop, bind_ret by by left.
  destruct (Z.ltb_spec 0 (lex (key lp) (key x))) as [L|L].
  - exists O. split; [done|]. split; [|cbn; lia].
    assert (Hx : lex (key x) (key lp) <= 0) by (rewrite (lex_opp (key lp)); lia).
    constructor; [by constructor|]. constructor; [done|].
    apply (List.Forall_impl _ (P := fun b => lex (key lp) (key b) <= 0)); [|done].
    intros b Hb. by apply (lex_le_trans _ (key lp)).
  - destruct IH as (n & -> & Hn & Hle); [by intros; apply Hstop; right|].
    exists (S n). rewrite bind_ret. split; [done|]. split; [|cbn; lia].
    unfold link in *. cbn [take drop app]. constructor; [done|].
    rewrite <- (take_drop n l) in Hlp. apply Forall_app in Hlp as [H1 H2].
    apply Forall_app. split; [done|]. by constructor.
Qed.

Lemma link_lookup n (x : A) l : (n <= length l)%nat -> link n x l !! n = Some x.
Proof.
  intros Hn. unfold link. rewrite lookup_app_r by (rewrite length_take; lia).
  rewrite length_take. by replace (n - n `min` length l)%nat with O by lia.
Qed.

Lemma link_in n (x y : A) l : In y (link n x l) <-> y = x \/ In y l.
Proof.
  unfold link. rewrite in_app_iff. cbn. rewrite <- (take_drop n l) at 3. rewrite in_app_iff.
  split; [intros [?|[?|?]]|intros [?|[?|?]]]; auto.
Qed.

Lemma link_forall (P : A -> Prop) n x l : P x -> Forall P l -> Forall P (link n x l).
Proof.
  intros Hx Hl. unfold link. rewrite <- (take_drop n l) in Hl. apply Forall_app in Hl as [H1 H2].
  apply Forall_app. split; [done|]. by constructor.
Qed.

Lemma unlink_link found n (x : A) l :
  found x = true -> (forall y, In y l -> found y = false) -> unlink found (link n x l) = l.
Proof.
  intros Hx. unfold link. revert n. induction l as [|y l IH]; intros n Hl.
  - destruct n; cbn; by rewrite Hx.
  - destruct n as [|n]; cbn [take drop app unlink]; [by rewrite Hx|].
    rewrite Hl by by left. rewrite IH; [done|]. intros. apply Hl. by right.
Qed.

Lemma unlink_sorted found (l : list A) : key_sorted key l -> key_sorted key (unlink found l).
Proof.
  induction 1 as [|x l Hs IH Hx]; cbn; [constructor|]. destruct (found x); [done|].
  constructor; [done|]. clear -Hx. induction Hx as [|y l Hy Hl IHl]; cbn; [constructor|].
  destruct (found y); [done|]. by constructor.
Qed.

(** In a sorted table nothing comes after a greater index. *)
Lemma sorted_after l1 (x y : A) l2 :
  key_sorted key (l1 ++ x :: l2) -> In y l2 -> lex (key x) (key y) <= 0.
Proof.
  induction l1 as [|z l1 IH]; cbn; intros Hs; apply StronglySorted_inv in Hs as [Hs Hx]; [|by apply IH].
  intros Hy. by apply (proj1 (List.Forall_forall _ _) Hx).
Qed.
End Tables.

(** *** Removing finds what creating stored *)

Lemma c_string_ok s r : string_ok s -> c_string (s ++ 0 :: r) = s.
Proof.
  intros [H _]. induction H as [|c s Hc _ IH]; [done|]. cbn.
  apply Z.eqb_neq in Hc as ->. by rewrite IH.
Qed.

Lemma c_string_self s : string_ok s -> c_string s = s.
Proof. intros [H _]. induction H as [|c s Hc _ IH]; [done|]. cbn. apply Z.eqb_neq in Hc as ->. by rewrite IH. Qed.

Lemma good_length name : string_ok name -> bad_length name = false.
Proof.
  unfold string_ok, bad_length, strlen, VACM_MAX_STRING. intros [_ ?]. rewrite s32_id by cint.
  apply orb_false_iff. rewrite Z.ltb_ge, Z.leb_gt. lia.
Qed.

(** The index part of a stored name. *)
Definition stored_key (s : list Z) : list Z := take (Z.to_nat (plen s + 1)) s.

Lemma stored_key_pstring m : stored_key (pstring m) = pkey m.
Proof.
  unfold stored_key, pstring, plen, pkey, strlen. cbn [nth].
  replace (Z.to_nat (Z.of_nat (length m) + 1)) with (S (length m)) by lia. cbn [take].
  by rewrite take_app_length.
Qed.

Lemma strcmp_pstring m n : string_ok m -> string_ok n ->
  (strcmp (tail (pstring m)) n =? 0) = bool_decide (m = n).
Proof.
  intros Hm Hn. destruct Hm as [? Hl] eqn:?. unfold strcmp, pstring, strlen, VACM_MAX_STRING, VACMSTRINGLEN in *. cbn [tail].
  replace (34 - 1 - length m)%nat with (S (32 - length m)) by lia. cbn [replicate].
  rewrite c_string_ok, c_string_self by done.
  destruct (decide (m = n)) as [->|Hne].
  - by rewrite lex_refl, bool_decide_true.
  - rewrite bool_decide_false by done. apply Z.eqb_neq. by rewrite lex_eq.
Qed.

Definition view_key (e : vacm_viewEntry) : list Z :=
  stored_key (viewName e) ++ take (Z.to_nat (viewSubtreeLen e)) (viewSubtree e).
Definition group_key (g : vacm_groupEntry) : list Z :=
  g_securityModel g :: stored_key (g_securityName g).
Definition access_key (a : vacm_accessEntry) : list Z :=
  stored_key (a_groupName a) ++ stored_key (a_contextPrefix a) ++ [a_securityModel a; a_securityLevel a].

Definition group_ok (g : vacm_groupEntry) : Prop := stored (g_securityName g).
Definition access_ok (a : vacm_accessEntry) : Prop :=
  stored (a_groupName a) /\ stored (a_contextPrefix a).

(** The entry [netsnmp_view_create] makes. *)
Lemma new_entry_ok name sub m ml t st s :
  string_ok name -> len sub < MAX_OID_LEN ->
  let e := {| viewName := pstring name;
              viewSubtree := len sub :: sub ++ replicate (Z.to_nat (MAX_OID_LEN - 1 - len sub)) 0;
              viewSubtreeLen := len sub + 1;
              viewMask := m; viewMaskLen := ml; viewType := t; viewStorageType := st; viewStatus := s |} in
  entry_ok e /\ sub_of e = sub.
Proof.
  intros Hname Hl. unfold len, MAX_OID_LEN in *. split.
  - split; cbn [viewName viewSubtree viewSubtreeLen].
    + by exists name.
    + unfold MAX_OID_LEN. lia.
    + cbn [length]. rewrite length_app, length_replicate. unfold MAX_OID_LEN. lia.
    + cbn. lia.
  - unfold sub_of. cbn [viewSubtree viewSubtreeLen tail].
    replace (Z.to_nat (Z.of_nat (length sub) + 1 - 1)) with (length sub) by lia.
    by rewrite take_app_length.
Qed.

(** The test the insertion makes is the order of the indexes. *)
Lemma view_stop e name x : entry_ok e -> entry_ok x -> viewName x = pstring name ->
  (let cmp := memcmp (viewName e) (viewName x) (strlen name + 1) in
   cmp2 ← snmp_oid_compare (viewSubtree e) (viewSubtreeLen e) (viewSubtree x) (viewSubtreeLen x);
   Ret (((cmp =? 0) && (0 <? cmp2)) || (0 <? cmp))) = Ret (0 <? lex (view_key e) (view_key x)).
Proof.
  intros He Hx Hname. cbn zeta.
  assert (Hfull : forall f, entry_ok f -> exists r,
    viewSubtree f = take (Z.to_nat (viewSubtreeLen f)) (viewSubtree f) ++ r
    /\ viewSubtreeLen f = len (take (Z.to_nat (viewSubtreeLen f)) (viewSubtree f))
    /\ short (take (Z.to_nat (viewSubtreeLen f)) (viewSubtree f))).
  { intros f []. exists (drop (Z.to_nat (viewSubtreeLen f)) (viewSubtree f)).
    rewrite take_drop. split; [done|].
    unfold short, len, MAX_OID_LEN in *. rewrite !length_take. lia. }
  unfold view_key. destruct (entry_name _ He) as (m & _ & Hm).
  rewrite Hname, Hm, !stored_key_pstring, memcmp_key. cbn zeta.
  destruct (Hfull e He) as (re & Ee & Ele & Hse), (Hfull x Hx) as (rx & Ex & Elx & Hsx).
  set (fe := take _ (viewSubtree e)) in *. set (fx := take _ (viewSubtree x)) in *.
  rewrite Ee, Ex, Ele, Elx, snmp_oid_compare_spec, bind_ret by done. f_equal.
  destruct (memcmp _ _ _ =? 0) eqn:E; cbn [andb orb]; [|done].
  apply Z.eqb_eq in E as ->. by rewrite orb_false_r.
Qed.

(** What [netsnmp_view_destroy] looks for. *)
Lemma view_found y name sub : entry_ok y -> string_ok name -> len sub < MAX_OID_LEN ->
  (strcmp (tail (viewName y)) name =? 0) && (viewSubtreeLen y =? len sub + 1)
  && (memcmp (viewSubtree y) (len sub :: sub) (len sub + 1) =? 0) = true
  <-> viewName y = pstring name /\ sub_of y = sub.
Proof.
  intros Hy Hname Hlen. destruct (entry_name _ Hy) as (m & Hm & Em). rewrite Em, strcmp_pstring by done.
  rewrite !andb_true_iff, bool_decide_eq_true, !Z.eqb_eq. unfold memcmp. rewrite lex_eq.
  replace (Z.to_nat (len sub + 1)) with (S (length sub)) by (unfold len; lia). cbn [take].
  rewrite (take_ge sub) by lia.
  destruct (viewSubtree y) as [|h t] eqn:Et.
  { pose proof (entry_size _ Hy) as Hsz. rewrite Et in Hsz. unfold MAX_OID_LEN in Hsz. cbn in Hsz. lia. }
  pose proof (entry_head _ Hy) as Hh. rewrite Et in Hh. cbn [nth] in Hh. cbn [take].
  pose proof (sub_of_length y Hy) as HL. unfold sub_of in *. rewrite Et in *. cbn [tail] in *. split.
  - intros [[-> El] E]. rewrite El. replace (Z.to_nat (len sub + 1 - 1)) with (length sub) by (unfold len; lia).
    split; [done|]. by injection E.
  - intros [En Es].
    assert (m = name) as ->.
    { apply (f_equal stored_key) in En. rewrite !stored_key_pstring in En. by injection En. }
    assert (El : viewSubtreeLen y - 1 = len sub).
    { by rewrite Es in HL. }
    split; [split; [done|lia]|]. rewrite Hh, El. f_equal.
    rewrite El in Es. by replace (Z.to_nat (len sub)) with (length sub) in Es by (unfold len; lia).
Qed.

(** *** Groups *)

Lemma same_stored s name : stored s ->
  (memcmp s (pstring name) (strlen name + 1) =? 0) = bool_decide (s = pstring name).
Proof.
  intros (n & _ & ->).
  pose proof (memcmp_key n name [] []) as E. rewrite !app_nil_r in E. cbn zeta in E.
  destruct (Z.eqb_spec (memcmp (pstring n) (pstring name) (strlen name + 1)) 0) as [Ez|Ez].
  - change (lex (pkey n) (pkey name) = 0) in E. apply lex_eq in E. injection E as _ ->. by rewrite bool_decide_true.
  - rewrite bool_decide_false; [done|]. intros Es. apply Ez. rewrite Es. unfold memcmp. apply lex_refl.
Qed.

Lemma group_stop g x name : group_ok g -> g_securityName x = pstring name ->
  (g_securityModel x <? g_securityModel g)
  || ((g_securityModel g =? g_securityModel x)
      && (0 <? memcmp (g_securityName g) (g_securityName x) (strlen name + 1)))
  = (0 <? lex (group_key g) (group_key x)).
Proof.
  intros (m & _ & Em) En. unfold group_key. rewrite Em, En, !stored_key_pstring. cbn [lex].
  pose proof (memcmp_key m name [] []) as E. rewrite !app_nil_r in E. rewrite E. cbn zeta.
  destruct (Z.ltb_spec (g_securityModel g) (g_securityModel x)),
    (Z.ltb_spec (g_securityModel x) (g_securityModel g)),
    (Z.eqb_spec (g_securityModel g) (g_securityModel x)); try lia; cbn [orb andb]; try done.
  destruct (Z.eqb_spec (memcmp (pstring m) (pstring name) (strlen name + 1)) 0) as [->|]; done.
Qed.

(** The entries that assign a security name to a group, for some model. *)
Definition group_matches (model : Z) (name : list Z) (g : vacm_groupEntry) : bool :=
  ((model =? g_securityModel g) || (g_securityModel g =? SNMP_SEC_MODEL_ANY))
  && bool_decide (g_securityName g = pstring name).

Lemma vacm_getGroupEntry_spec l model name :
  Forall group_ok l -> string_ok name ->
  vacm_getGroupEntry l model name = List.find (group_matches model name) l.
Proof.
  intros Hok Hname. unfold vacm_getGroupEntry. rewrite good_length by done.
  induction Hok as [|g l Hg _ IH]; [done|]. cbn [list_find List.find].
  case_decide as D; rewrite same_stored in D by done; unfold group_matches at 1.
  - apply Is_true_eq_true in D. by rewrite D.
  - destruct (((model =? g_securityModel g) || _) && _); [by destruct D|].
    rewrite <- IH. by destruct (list_find _ l) as [[]|].
Qed.

(** *** Access entries *)

Lemma access_stop a x g c : access_ok a ->
  a_groupName x = pstring g -> a_contextPrefix x = pstring c ->
  (let cmp := memcmp (a_groupName a) (a_groupName x) (strlen g + 1) in
   if 0 <? cmp then true else if cmp <? 0 then false
   else
     let cmp := memcmp (a_contextPrefix a) (a_contextPrefix x) (strlen c + 1) in
     if 0 <? cmp then true else if cmp <? 0 then false
     else if a_securityModel x <? a_securityModel a then true
     else if a_securityModel a <? a_securityModel x then false
     else a_securityLevel x <? a_securityLevel a)
  = (0 <? lex (access_key a) (access_key x)).
Proof.
  intros [(m & _ & Em) (d & _ & Ed)] En Ec. unfold access_key.
  rewrite Em, En, Ed, Ec, !stored_key_pstring, !memcmp_key. cbn zeta. cbn [lex].
  set (c1 := memcmp (pstring m) _ _). set (c2 := memcmp (pstring d) _ _).
  destruct (Z.ltb_spec 0 c1), (Z.ltb_spec c1 0), (Z.eqb_spec c1 0); try lia.
  destruct (Z.ltb_spec 0 c2), (Z.ltb_spec c2 0), (Z.eqb_spec c2 0); try lia.
  destruct (Z.ltb_spec (a_securityModel x) (a_securityModel a)),
    (Z.ltb_spec (a_securityModel a) (a_securityModel x)); try lia; try done.
  destruct (Z.ltb_spec (a_securityLevel x) (a_securityLevel a)),
    (Z.ltb_spec (a_securityLevel a) (a_securityLevel x)); try lia; done.
Qed.

(** The entries among which the choice is made. *)
Lemma foldl_access g c m lv l : forall best,
  foldl (fun best vp => if access_applies g c m lv vp then Some (_vacm_choose_best best vp) else best) best l
  = foldl (fun best vp => Some (_vacm_choose_best best vp)) best (List.filter (access_applies g c m lv) l).
Proof.
  induction l as [|a l IH]; intros best; [done|]. cbn.
  destruct (access_applies g c m lv a); apply IH.
Qed.

Definition choose (l : list vacm_accessEntry) (best : option vacm_accessEntry) : option vacm_accessEntry :=
  foldl (fun best vp => Some (_vacm_choose_best best vp)) best l.

Lemma choose_in l : forall best,
  match choose l best with
  | None => best = None /\ l = []
  | Some b => best = Some b \/ In b l
  end.
Proof.
  induction l as [|a l IH]; intros best; cbn; [destruct best; auto|].
  specialize (IH (Some (_vacm_choose_best best a))). unfold choose in *.
  destruct (foldl _ _ l) as [b|]; [|by destruct IH].
  destruct IH as [[= <-]|?]; [|by auto]. unfold _vacm_choose_best.
  destruct best as [c|]; [|by auto]. destruct (_ || _ || _ || _); auto.
Qed.

(** An entry of a higher level that comes later is preferred. *)
Lemma choose_level l1 b e l2 :
  choose (l1 ++ e :: l2) None = Some b -> ~ In b l2 -> b <> e ->
  a_securityLevel e <= a_securityLevel b.
Proof.
  unfold choose. rewrite foldl_app. cbn [foldl]. set (c := foldl _ None l1). intros Hb Hnin Hne.
  pose proof (choose_in l2 (Some (_vacm_choose_best c e))) as H. unfold choose in H. rewrite Hb in H.
  destruct H as [[= E]|?]; [|done]. unfold _vacm_choose_best in E.
  destruct c as [c|]; [|by destruct Hne].
  destruct (_ || _ || _ || _) eqn:O; [by destruct Hne|]. subst c.
  apply orb_false_iff in O as [_ O%Z.ltb_ge]. lia.
Qed.

(** In a table sorted by its index the chosen entry has the highest level of
    the entries for the same group, context and model. *)
Lemma choose_highest f l b e :
  Forall access_ok l -> key_sorted access_key l ->
  choose (List.filter f l) None = Some b ->
  In e l -> f e = true ->
  a_groupName e = a_groupName b -> a_contextPrefix e = a_contextPrefix b ->
  a_securityModel e = a_securityModel b ->
  a_securityLevel e <= a_securityLevel b.
Proof.
  intros Hok Hs Hb He Hf Eg Ec Em.
  destruct (Z.le_gt_cases (a_securityLevel e) (a_securityLevel b)) as [L|L]; [done|].
  apply in_split in He as (l1 & l2 & ->). rewrite List.filter_app in Hb. cbn [List.filter] in Hb.
  rewrite Hf in Hb. apply choose_level in Hb; [done| |intros ->; lia].
  intros [Hin _]%List.filter_In. apply (sorted_after access_key _ e b) in Hs; [|done].
  unfold access_key in Hs. rewrite Eg, Ec, Em, !lex_app in Hs by done.
  rewrite lex_refl in Hs. cbn [Z.eqb] in Hs. rewrite lex_refl in Hs. cbn in Hs.
  rewrite Z.ltb_irrefl in Hs.
  destruct (Z.ltb_spec (a_securityLevel e) (a_securityLevel b)), (Z.ltb_spec (a_securityLevel b) (a_securityLevel e)); lia.
Qed.

(** What the test of an entry means. *)
Lemma access_applies_spec g c m lv a :
  access_ok a -> access_applies g c m lv a = true ->
  (a_securityModel a = m \/ a_securityModel a = SNMP_SEC_MODEL_ANY)
  /\ a_securityLevel a <= lv
  /\ a_groupName a = pstring g
  /\ ((a_contextMatch a = CONTEXT_MATCH_EXACT /\ a_contextPrefix a = pstring c)
      \/ (a_contextMatch a = CONTEXT_MATCH_PREFIX
          /\ exists d, a_contextPrefix a = pstring d /\ d `prefix_of` c)).
Proof.
  intros [Hg Hd]. unfold access_applies. rewrite (same_stored _ g Hg), (same_stored _ c Hd).
  destruct Hd as (d & _ & Ed).
  rewrite !andb_true_iff, !orb_true_iff, !andb_true_iff, !bool_decide_eq_true, !Z.eqb_eq, !Z.leb_le.
  intros [[[Hm Hl] Hgr] Hctx]. split; [destruct Hm; auto|]. split; [done|]. split; [done|].
  destruct Hctx as [[[He _] Hc]|[[He Hle] Hc]]; [by left|right]. split; [done|]. exists d. split; [done|].
  rewrite Ed in Hle, Hc. unfold pstring, plen, memcmp, strlen in Hle, Hc. cbn [nth tail] in Hle, Hc.
  rewrite lex_eq, Nat2Z.id, take_app_length, take_app_le in Hc by lia.
  rewrite Hc. apply prefix_take.
Qed.
