(* ===== verification/VacmProps.v ===== *)
(** * Properties of the access control

    The tables stay ordered, what is created can be removed, the family that
    decides is the right one, the answer for a subtree holds for every name in
    it, and access is granted only through a chain of matching entries. *)

From Stdlib Require Import Sorting.Sorted.
From S2P Require Import Prelude AsnTypes Oid AsnRbuild Pdu Vacm VacmSpec.
From S2P Require Import Samples.

(** ** Views *)

(** The family that decides about a name: [netsnmp_view_get] returns an
    entry exactly when some entry of the view covers the name under its mask,
    and then one of these that no other beats: the longest, and among the
    longest the lexicographically greatest. *)
Theorem view_get_best head name q m :
  checks_subtree m = false -> bad_length name = false -> Forall entry_ok head ->
  exists r,
    netsnmp_view_get head name q (len q) m = Ret r
    /\ match r with
       | None => forall e, In e head -> shorter (ignores_mask m) name q e = false
       | Some w => In w head /\ shorter (ignores_mask m) name q w = true
                   /\ forall e, In e head -> shorter (ignores_mask m) name q e = true -> beats e w = false
       end.
Proof. apply view_get_winner. Qed.

(** A view entry with the given subtree, mask and type. *)
Definition family (name sub mask : list Z) (t : Z) : vacm_viewEntry :=
  {| viewName := pstring name;
     viewSubtree := len sub :: sub ++ replicate (Z.to_nat (MAX_OID_LEN - 1 - len sub)) 0;
     viewSubtreeLen := len sub + 1;
     viewMask := mask ++ replicate (VACMSTRINGLEN - length mask) 0; viewMaskLen := len mask;
     viewType := t; viewStorageType := 0; viewStatus := 0 |}.

Definition sample_name : list Z := [97; 108; 108].

Lemma sample_name_ok : string_ok sample_name.
Proof. split; [repeat constructor; done|by vm_compute]. Qed.

(** Everything but one row of a table, the column masked out. *)
Definition sample_view : list vacm_viewEntry :=
  [family sample_name [1; 3; 6] [] SNMP_VIEW_INCLUDED;
   family sample_name [1; 3; 6; 1; 0; 7] [0xF4] SNMP_VIEW_EXCLUDED].

Lemma sample_view_ok : Forall entry_ok sample_view.
Proof. repeat constructor; apply new_entry_ok; (exact sample_name_ok || by vm_compute). Qed.

Lemma view_get_best_witness :
  exists r,
    netsnmp_view_get sample_view sample_name [1; 3; 6; 1; 9; 7] (len [1; 3; 6; 1; 9; 7]) VACM_MODE_FIND = Ret r
    /\ match r with
       | None => forall e, In e sample_view -> shorter false sample_name [1; 3; 6; 1; 9; 7] e = false
       | Some w => In w sample_view /\ shorter false sample_name [1; 3; 6; 1; 9; 7] w = true
                   /\ forall e, In e sample_view ->
                        shorter false sample_name [1; 3; 6; 1; 9; 7] e = true -> beats e w = false
       end.
Proof.
  apply (view_get_best sample_view sample_name [1; 3; 6; 1; 9; 7] VACM_MODE_FIND).
  - reflexivity.
  - reflexivity.
  - exact sample_view_ok.
Defined.

(** The answer for a subtree holds for every name in it: if
    [netsnmp_view_subtree_check] says that the subtree is in the view, then
    [netsnmp_view_get] finds an including entry for each name below it, and if
    it says that the subtree is not in the view, each name below is excluded
    or not mentioned. *)
Theorem subtree_check_sound head name p q :
  Forall entry_ok head -> p `prefix_of` q ->
  (netsnmp_view_subtree_check head name p (len p) = Ret VACM_SUCCESS -> in_view head name q = Ret true)
  /\ (netsnmp_view_subtree_check head name p (len p) = Ret VACM_NOTINVIEW -> in_view head name q = Ret false).
Proof. apply view_subtree_check_sound. Qed.

Lemma subtree_check_sound_witness :
  in_view sample_view sample_name [1; 3; 6; 2; 5] = Ret true
  /\ netsnmp_view_subtree_check sample_view sample_name [1; 3; 6; 1] 4 = Ret VACM_SUBTREE_UNKNOWN.
Proof.
  split; [|by vm_compute].
  apply (subtree_check_sound sample_view sample_name [1; 3; 6; 2] [1; 3; 6; 2; 5]).
  - exact sample_view_ok.
  - by exists [5].
  - by vm_compute.
Defined.

(** The view table: creating an entry keeps the table in the order of its
    index, adds that entry and nothing else, and destroying it by its index
    gives the table back. *)
Theorem view_table `{Allocator} head name sub rest :
  Forall entry_ok head -> key_sorted view_key head -> string_ok name -> len sub < MAX_OID_LEN ->
  alloc sizeof_viewEntry = true ->
  exists n e head',
    netsnmp_view_create head name (sub ++ rest) (len sub) = Ret (Some n, head')
    /\ head' !! n = Some e /\ viewName e = pstring name /\ sub_of e = sub
    /\ (forall y, In y head' <-> y = e \/ In y head)
    /\ Forall entry_ok head' /\ key_sorted view_key head'
    /\ ((forall y, In y head -> viewName y = pstring name -> sub_of y <> sub) ->
        netsnmp_view_destroy head' name (len sub :: sub) (len sub + 1) = head).
Proof.
  intros Hok Hs Hname Hlen Ha. unfold netsnmp_view_create. rewrite good_length, Ha by done. cbn [negb].
  replace (_ || _) with false.
  2: { symmetry. apply orb_false_iff. rewrite !Z.ltb_ge, length_app. unfold len in *. lia. }
  replace (Z.to_nat (len sub)) with (length sub) by (unfold len; lia). rewrite take_app_length. cbn zeta.
  set (e := Build_vacm_viewEntry _ _ _ _ _ _ _ _).
  destruct (new_entry_ok name sub (replicate VACMSTRINGLEN 0) 0 0 0 0 Hname Hlen) as [He Hsub].
  fold e in He, Hsub.
  destruct (position_spec view_key (fun lp =>
    let cmp := memcmp (viewName lp) (viewName e) (strlen name + 1) in
    cmp2 ← snmp_oid_compare (viewSubtree lp) (viewSubtreeLen lp) (viewSubtree e) (viewSubtreeLen e);
    Ret (((cmp =? 0) && (0 <? cmp2)) || (0 <? cmp))) e head) as (n & Hn & Hs' & Hle); [|done|].
  { intros lp Hlp. apply view_stop; [|done|done]. by apply (proj1 (List.Forall_forall _ _) Hok). }
  cbn zeta in Hn. rewrite Hn, bind_ret. exists n, e, (link n e head).
  split; [done|]. split; [by apply link_lookup|]. split; [done|]. split; [done|].
  split; [intros; apply link_in|]. split; [by apply link_forall|]. split; [done|].
  intros Hfresh. unfold netsnmp_view_destroy. apply unlink_link.
  - apply view_found; done.
  - intros y Hy. apply not_true_is_false. rewrite view_found; [|by apply (proj1 (List.Forall_forall _ _) Hok)|done|done].
    intros [Hn' Hsub']. by apply (Hfresh y).
Qed.

Lemma view_table_witness :
  exists n e head',
    netsnmp_view_create sample_view sample_name ([1; 3; 5] ++ [9]) (len [1; 3; 5]) = Ret (Some n, head')
    /\ head' !! n = Some e /\ viewName e = pstring sample_name /\ sub_of e = [1; 3; 5]
    /\ (forall y, In y head' <-> y = e \/ In y sample_view)
    /\ Forall entry_ok head' /\ key_sorted view_key head'
    /\ ((forall y, In y sample_view -> viewName y = pstring sample_name -> sub_of y <> [1; 3; 5]) ->
        netsnmp_view_destroy head' sample_name (len [1; 3; 5] :: [1; 3; 5]) (len [1; 3; 5] + 1) = sample_view).
Proof.
  apply (view_table sample_view sample_name [1; 3; 5] [9]).
  - exact sample_view_ok.
  - repeat constructor. by vm_compute.
  - exact sample_name_ok.
  - by vm_compute.
  - by vm_compute.
Defined.

(** ** Groups *)

(** The group table: creating an entry keeps the table in the order of its
    index, adds that entry and nothing else, and destroying it gives the table
    back. *)
Theorem group_table `{Allocator} l model name :
  Forall group_ok l -> key_sorted group_key l -> string_ok name -> alloc sizeof_groupEntry = true ->
  exists n g l',
    vacm_createGroupEntry l model name = Ret (Some n, l')
    /\ l' !! n = Some g /\ g_securityModel g = model /\ g_securityName g = pstring name
    /\ (forall y, In y l' <-> y = g \/ In y l)
    /\ Forall group_ok l' /\ key_sorted group_key l'
    /\ ((forall y, In y l -> g_securityModel y = model -> g_securityName y <> pstring name) ->
        vacm_destroyGroupEntry l' model name = l).
Proof.
  intros Hok Hs Hname Ha. unfold vacm_createGroupEntry. rewrite good_length, Ha by done.
  cbn [negb]. cbn zeta. set (g := Build_vacm_groupEntry _ _ _ _ _).
  assert (Hg : group_ok g) by by exists name.
  destruct (position_spec group_key (fun lg => Ret
    ((model <? g_securityModel lg)
     || ((g_securityModel lg =? model)
         && (0 <? memcmp (g_securityName lg) (g_securityName g) (strlen name + 1)))))
    g l) as (n & Hn & Hs' & Hle); [|done|].
  { intros lp Hlp. f_equal. apply (group_stop lp g name); [|done].
    by apply (proj1 (List.Forall_forall _ _) Hok). }
  rewrite Hn, bind_ret.
  exists n, g, (link n g l). split; [done|]. split; [by apply link_lookup|]. split; [done|].
  split; [done|]. split; [intros; apply link_in|]. split; [by apply link_forall|]. split; [done|].
  intros Hfresh. unfold vacm_destroyGroupEntry. apply unlink_link.
  - cbn [g g_securityModel g_securityName]. by rewrite Z.eqb_refl, strcmp_pstring, bool_decide_true.
  - intros y Hy. destruct (proj1 (List.Forall_forall _ _) Hok y Hy) as (m & Hm & Em).
    rewrite Em, strcmp_pstring by done. apply andb_false_iff.
    destruct (Z.eqb_spec (g_securityModel y) model) as [E|]; [right|by left].
    apply bool_decide_false. intros ->. by apply (Hfresh y).
Qed.

Definition sample_group (model : Z) : vacm_groupEntry :=
  {| g_securityModel := model; g_securityName := pstring sample_name;
     g_groupName := 103 :: replicate 33 0; g_storageType := 0; g_status := 0 |}.

Lemma sample_groups_ok : Forall group_ok [sample_group 1; sample_group 3].
Proof. repeat constructor; by exists sample_name; split; [exact sample_name_ok|]. Qed.

Lemma group_table_witness :
  exists n g l',
    vacm_createGroupEntry [sample_group 1; sample_group 3] 2 sample_name = Ret (Some n, l')
    /\ l' !! n = Some g /\ g_securityModel g = 2 /\ g_securityName g = pstring sample_name
    /\ (forall y, In y l' <-> y = g \/ In y [sample_group 1; sample_group 3])
    /\ Forall group_ok l' /\ key_sorted group_key l'
    /\ ((forall y, In y [sample_group 1; sample_group 3] -> g_securityModel y = 2 ->
           g_securityName y <> pstring sample_name) ->
        vacm_destroyGroupEntry l' 2 sample_name = [sample_group 1; sample_group 3]).
Proof.
  apply (group_table [sample_group 1; sample_group 3] 2 sample_name).
  - exact sample_groups_ok.
  - repeat constructor. by vm_compute.
  - exact sample_name_ok.
  - by vm_compute.
Defined.

(** The group of a security name: some entry for the name, under the
    message's model or under any model, if there is one; in a table in the
    order of its index an entry for any model hides those for the message's
    own, because it comes first. *)
Theorem group_lookup l model name :
  Forall group_ok l -> key_sorted group_key l -> string_ok name -> SNMP_SEC_MODEL_ANY < model ->
  match vacm_getGroupEntry l model name with
  | None => forall g, In g l -> group_matches model name g = false
  | Some g => In g l /\ group_matches model name g = true
              /\ (g_securityModel g = SNMP_SEC_MODEL_ANY
                  \/ forall y, In y l -> g_securityName y = pstring name ->
                       g_securityModel y <> SNMP_SEC_MODEL_ANY)
  end.
Proof.
  intros Hok Hs Hname Hmodel. rewrite vacm_getGroupEntry_spec by done.
  destruct (List.find _ l) as [g|] eqn:E; [|by apply List.find_none].
  apply List.find_some in E as HE. destruct HE as [Hin Hm]. split; [done|]. split; [done|].
  destruct (Z.eq_dec (g_securityModel g) SNMP_SEC_MODEL_ANY) as [?|Hne]; [by left|right].
  intros y Hy Hn Hany. clear Hok.
  assert (Hgm : g_securityModel g = model).
  { unfold group_matches in Hm. apply andb_true_iff in Hm as [Hm _].
    apply orb_true_iff in Hm as [Hm|Hm]; apply Z.eqb_eq in Hm; [done|lia]. }
  assert (Hym : group_matches model name y = true).
  { unfold group_matches. by rewrite Hany, Z.eqb_refl, orb_true_r, bool_decide_true. }
  revert E Hs Hy. clear Hin. induction l as [|z l IH]; [done|]. cbn [List.find]. intros E Hs.
  apply StronglySorted_inv in Hs as [Hs Hz].
  destruct (group_matches model name z) eqn:Ez.
  - injection E as ->. intros [->|Hy]; [done|].
    apply (proj1 (List.Forall_forall _ _) Hz) in Hy. unfold group_key in Hy. cbn [lex] in Hy.
    rewrite Hany, Hgm in Hy.
    destruct (Z.ltb_spec model SNMP_SEC_MODEL_ANY), (Z.ltb_spec SNMP_SEC_MODEL_ANY model); lia.
  - intros [->|Hy]; [by rewrite Hym in Ez|]. by apply IH.
Qed.

Lemma group_lookup_witness :
  match vacm_getGroupEntry [sample_group 0; sample_group 3] 3 sample_name with
  | None => forall g, In g [sample_group 0; sample_group 3] -> group_matches 3 sample_name g = false
  | Some g => In g [sample_group 0; sample_group 3] /\ group_matches 3 sample_name g = true
              /\ (g_securityModel g = SNMP_SEC_MODEL_ANY
                  \/ forall y, In y [sample_group 0; sample_group 3] -> g_securityName y = pstring sample_name ->
                       g_securityModel y <> SNMP_SEC_MODEL_ANY)
  end.
Proof.
  apply (group_lookup [sample_group 0; sample_group 3] 3 sample_name).
  - repeat constructor; by exists sample_name; split; [exact sample_name_ok|].
  - repeat constructor. by vm_compute.
  - exact sample_name_ok.
  - by vm_compute.
Defined.

(** ** Access entries *)

(** The access table: creating an entry keeps the table in the order of its
    index, adds that entry and nothing else, and destroying it gives the table
    back. *)
Theorem access_table `{Allocator} l group context model level :
  Forall access_ok l -> key_sorted access_key l -> string_ok group -> string_ok context ->
  alloc sizeof_accessEntry = true ->
  exists n a l',
    vacm_createAccessEntry l group context model level = Ret (Some n, l')
    /\ l' !! n = Some a /\ access_key a = pkey group ++ pkey context ++ [model; level]
    /\ (forall y, In y l' <-> y = a \/ In y l)
    /\ Forall access_ok l' /\ key_sorted access_key l'
    /\ ((forall y, In y l -> access_key y <> access_key a) ->
        vacm_destroyAccessEntry l' group context model level = l).
Proof.
  intros Hok Hs Hg Hc Ha. unfold vacm_createAccessEntry. rewrite !good_length, Ha by done.
  cbn [negb orb]. cbn zeta. set (a := Build_vacm_accessEntry _ _ _ _ _ _ _ _).
  assert (Haok : access_ok a) by (split; [by exists group|by exists context]).
  destruct (position_spec access_key (fun lp => Ret
    (if 0 <? memcmp (a_groupName lp) (a_groupName a) (strlen group + 1) then true
     else if memcmp (a_groupName lp) (a_groupName a) (strlen group + 1) <? 0 then false
     else if 0 <? memcmp (a_contextPrefix lp) (a_contextPrefix a) (strlen context + 1) then true
     else if memcmp (a_contextPrefix lp) (a_contextPrefix a) (strlen context + 1) <? 0 then false
     else if model <? a_securityModel lp then true
     else if a_securityModel lp <? model then false
     else level <? a_securityLevel lp)) a l) as (n & Hn & Hs' & Hle); [|done|].
  { intros lp Hlp. f_equal. apply (access_stop lp a group context); [|done|done].
    by apply (proj1 (List.Forall_forall _ _) Hok). }
  rewrite Hn, bind_ret. exists n, a, (link n a l).
  assert (Hka : access_key a = pkey group ++ pkey context ++ [model; level]).
  { unfold access_key. cbn [a a_groupName a_contextPrefix a_securityModel a_securityLevel].
    by rewrite !stored_key_pstring. }
  split; [done|]. split; [by apply link_lookup|]. split; [done|].
  split; [intros; apply link_in|]. split; [by apply link_forall|]. split; [done|].
  intros Hfresh. unfold vacm_destroyAccessEntry. apply unlink_link.
  - cbn [a a_groupName a_contextPrefix a_securityModel a_securityLevel].
    by rewrite !Z.eqb_refl, !strcmp_pstring, !bool_decide_true.
  - intros y Hy. apply not_true_is_false. intros Hf. apply (Hfresh y Hy). rewrite Hka.
    destruct (proj1 (List.Forall_forall _ _) Hok y Hy) as [(m & Hm & Em) (d & Hd & Ed)].
    rewrite Em, Ed, !strcmp_pstring, !andb_true_iff, !Z.eqb_eq, !bool_decide_eq_true in Hf by done.
    destruct Hf as [[[Hmo Hlv] ->] ->]. unfold access_key. by rewrite Em, Ed, Hmo, Hlv, !stored_key_pstring.
Qed.

(** An entry of the group "g", with its views named "all". *)
Definition sample_access (context : list Z) (model level match_ : Z) : vacm_accessEntry :=
  {| a_groupName := pstring [103]; a_contextPrefix := pstring context;
     a_securityModel := model; a_securityLevel := level; a_contextMatch := match_;
     a_views := replicate 8 (sample_name ++ replicate 31 0); a_storageType := 0; a_status := 0 |}.

Lemma short_string_ok c : 0 < c -> string_ok [c].
Proof. intros. split; [repeat constructor; lia|done]. Qed.

Lemma empty_string_ok : string_ok [].
Proof. split; [constructor|done]. Qed.

Lemma sample_access_ok m lv k : access_ok (sample_access [] m lv k) /\ access_ok (sample_access [99] m lv k).
Proof.
  split; (split; [exists [103]; split; [by apply short_string_ok|done]|]).
  - exists []. split; [exact empty_string_ok|done].
  - exists [99]. split; [by apply short_string_ok|done].
Qed.

Lemma access_table_witness :
  exists n a l',
    vacm_createAccessEntry [sample_access [] 3 1 1; sample_access [99] 0 1 1] [103] [] 3 2 = Ret (Some n, l')
    /\ l' !! n = Some a /\ access_key a = pkey [103] ++ pkey [] ++ [3; 2]
    /\ (forall y, In y l' <-> y = a \/ In y [sample_access [] 3 1 1; sample_access [99] 0 1 1])
    /\ Forall access_ok l' /\ key_sorted access_key l'
    /\ ((forall y, In y [sample_access [] 3 1 1; sample_access [99] 0 1 1] -> access_key y <> access_key a) ->
        vacm_destroyAccessEntry l' [103] [] 3 2 = [sample_access [] 3 1 1; sample_access [99] 0 1 1]).
Proof.
  apply (access_table [sample_access [] 3 1 1; sample_access [99] 0 1 1] [103] [] 3 2).
  - repeat constructor; apply sample_access_ok.
  - repeat constructor. by vm_compute.
  - by apply short_string_ok.
  - exact empty_string_ok.
  - by vm_compute.
Defined.

(** The access entry of a group: one exists whenever some entry applies to
    the message; it is one that applies, so it asks for no higher level than
    the message has, and among the applying entries for the same group,
    context and model it has the highest level. *)
Theorem access_choice l group context model level :
  Forall access_ok l -> key_sorted access_key l -> string_ok group -> string_ok context ->
  match vacm_getAccessEntry l group context model level with
  | None => forall e, In e l -> access_applies group context model level e = false
  | Some b =>
      In b l
      /\ ((a_securityModel b = model \/ a_securityModel b = SNMP_SEC_MODEL_ANY)
          /\ a_securityLevel b <= level
          /\ a_groupName b = pstring group
          /\ ((a_contextMatch b = CONTEXT_MATCH_EXACT /\ a_contextPrefix b = pstring context)
              \/ (a_contextMatch b = CONTEXT_MATCH_PREFIX
                  /\ exists d, a_contextPrefix b = pstring d /\ d `prefix_of` context)))
      /\ forall e, In e l -> access_applies group context model level e = true ->
           a_groupName e = a_groupName b -> a_contextPrefix e = a_contextPrefix b ->
           a_securityModel e = a_securityModel b ->
           a_securityLevel e <= a_securityLevel b
  end.
Proof.
  intros Hok Hs Hg Hc. unfold vacm_getAccessEntry. rewrite !good_length, foldl_access by done. cbn [orb].
  pose proof (choose_in (List.filter (access_applies group context model level) l) None) as H.
  unfold choose in H. destruct (foldl _ None _) as [b|] eqn:E.
  - destruct H as [?|[Hin Ha]%List.filter_In]; [done|]. split; [done|]. split.
    + apply access_applies_spec; [|done]. by apply (proj1 (List.Forall_forall _ _) Hok).
    + intros e He Hea. by apply (choose_highest (access_applies group context model level) l).
  - destruct H as [_ H]. intros e He. destruct (access_applies group context model level e) eqn:Ea; [|done].
    assert (HI : In e (List.filter (access_applies group context model level) l)) by by apply List.filter_In.
    by rewrite H in HI.
Qed.

Lemma access_choice_witness :
  exists b, vacm_getAccessEntry [sample_access [] 3 1 1; sample_access [] 3 2 1] [103] [] 3 3 = Some b
            /\ a_securityLevel b <= 3.
Proof.
  assert (H : match vacm_getAccessEntry [sample_access [] 3 1 1; sample_access [] 3 2 1] [103] [] 3 3 with
              | None => False | Some b => a_securityLevel b <= 3 end).
  { pose proof (access_choice [sample_access [] 3 1 1; sample_access [] 3 2 1] [103] [] 3 3) as H.
    destruct (vacm_getAccessEntry _ _ _ _ _) as [b|] eqn:E.
    - apply H.
      + repeat constructor; apply sample_access_ok.
      + repeat constructor. by vm_compute.
      + by apply short_string_ok.
      + exact empty_string_ok.
    - by vm_compute in E. }
  destruct (vacm_getAccessEntry _ _ _ _ _) as [b|]; [|done]. by exists b.
Defined.

(** The preferences are weighed entry by entry and not in the order of the
    comment: an entry for the message's own security model loses to a later
    entry for any model whose context matches exactly, although preference a)
    says that the entries for other models are to be discarded first. *)
Theorem access_choice_not_staged :
  let own := sample_access [] 3 1 CONTEXT_MATCH_PREFIX in
  let other := sample_access [99] SNMP_SEC_MODEL_ANY 1 CONTEXT_MATCH_EXACT in
  key_sorted access_key [own; other]
  /\ access_applies [103] [99] 3 1 own = true
  /\ access_applies [103] [99] 3 1 other = true
  /\ a_securityModel own = 3 /\ a_securityModel other = SNMP_SEC_MODEL_ANY
  /\ vacm_getAccessEntry [own; other] [103] [99] 3 1 = Some other.
Proof. split_and!; [repeat constructor; by vm_compute|by vm_compute..]. Qed.

(** ** The decision *)

(** The tables are well formed. *)
Record vacm_ok (v : vacm) : Prop := {
  views_ok : Forall entry_ok (viewList v);
  groups_ok : Forall group_ok (groupList v);
  accesses_ok : Forall access_ok (accessList v)
}.

(** The name of the context the decision looks up. *)
Definition context_of (pdu : request) : list Z :=
  match r_contextName pdu with
  | Some c => c_string (take (Z.to_nat (r_contextNameLen pdu)) c)
  | None => []
  end.

(** The chain of entries that grants access to [q]: the group of the security
    name, an access entry of the group that applies to the message, and in the
    view the access entry names the winning family, which includes [q]. *)
Definition granted (v : vacm) (sn : list Z) (pdu : request) (q : list Z) (viewtype : Z) : Prop :=
  exists g a w,
    In g (groupList v) /\ group_matches (r_securityModel pdu) sn g = true
    /\ In a (accessList v)
    /\ (a_securityModel a = r_securityModel pdu \/ a_securityModel a = SNMP_SEC_MODEL_ANY)
    /\ a_securityLevel a <= r_securityLevel pdu
    /\ a_groupName a = pstring (c_string (g_groupName g))
    /\ ((a_contextMatch a = CONTEXT_MATCH_EXACT /\ a_contextPrefix a = pstring (context_of pdu))
        \/ (a_contextMatch a = CONTEXT_MATCH_PREFIX
            /\ exists d, a_contextPrefix a = pstring d /\ d `prefix_of` context_of pdu))
    /\ 0 <= viewtype < VACM_MAX_VIEWS
    /\ let vn := c_string (nth (Z.to_nat viewtype) (a_views a) []) in
       In w (viewList v) /\ shorter false vn q w = true /\ viewType w <> SNMP_VIEW_EXCLUDED
       /\ forall e, In e (viewList v) -> shorter false vn q e = true -> beats e w = false.

(** Access that is granted comes from a chain of entries. *)
Lemma granted_chain v sn pdu q viewtype :
  vacm_ok v -> (forall s, sn = Some s -> string_ok s) ->
  vacm_check_view v sn pdu (Some q) (len q) false viewtype = Ret VACM_SUCCESS ->
  exists s, sn = Some s /\ r_contextNameLen pdu <= CONTEXTNAMEINDEXLEN
            /\ netsnmp_subtree_find_first (context_subtrees v) (context_of pdu) = true
            /\ granted v s pdu q viewtype.
Proof.
  intros [Hv Hg Ha] Hsn. unfold vacm_check_view, vacm_check_view_contents.
  destruct sn as [s|]; [|done]. specialize (Hsn s eq_refl). fold (context_of pdu).
  destruct (Z.ltb_spec CONTEXTNAMEINDEXLEN (r_contextNameLen pdu)) as [|Hc]; [done|].
  change (Z.land 0 _ =? 0) with true. cbn [andb].
  destruct (netsnmp_subtree_find_first (context_subtrees v) (context_of pdu)) eqn:Hf; cbn [negb]; [|done].
  rewrite vacm_getGroupEntry_spec by done.
  destruct (List.find _ (groupList v)) as [g|] eqn:Eg; [|done]. apply List.find_some in Eg as [Hgin Hgm].
  unfold vacm_getAccessEntry. destruct (bad_length _ || bad_length _); [done|]. rewrite foldl_access.
  pose proof (choose_in (List.filter (access_applies (c_string (g_groupName g)) (context_of pdu)
    (r_securityModel pdu) (r_securityLevel pdu)) (accessList v)) None) as HA.
  unfold choose in HA. destruct (foldl _ None _) as [a|]; [|done].
  destruct HA as [?|[Hain Hap]%List.filter_In]; [done|].
  apply access_applies_spec in Hap as (Hm & Hl & Hgn & Hctx);
    [|by apply (proj1 (List.Forall_forall _ _) Ha)].
  destruct ((viewtype <? 0) || (VACM_MAX_VIEWS <=? viewtype)) eqn:Hvt; [done|].
  apply orb_false_iff in Hvt as [Hv0%Z.ltb_ge Hv1%Z.leb_gt].
  set (vn := c_string (nth (Z.to_nat viewtype) (a_views a) [])).
  destruct (bad_length vn) eqn:Hvn; [by unfold netsnmp_view_get; rewrite Hvn|].
  destruct (view_get_winner (viewList v) vn q VACM_MODE_FIND) as (r & -> & Hr); [done..|].
  rewrite bind_ret. destruct r as [w|]; [|done].
  destruct (Z.eqb_spec (viewType w) SNMP_VIEW_EXCLUDED) as [|Hne]; [done|]. intros _.
  destruct Hr as (Hwin & Hws & Hwb).
  exists s. split; [done|]. split; [done|]. split; [done|]. exists g, a, w. by split_and!.
Qed.

(** The decision is always made. *)
Lemma subtree_check_returns head name p : Forall entry_ok head -> exists z, netsnmp_view_subtree_check head name p (len p) = Ret z.
Proof.
  intros Hok. unfold netsnmp_view_subtree_check. destruct (bad_length name); [by eexists|].
  destruct (subtree_check_loop_spec name p head None None) as [->|(g & -> & _)]; [done..|by eexists|]. rewrite bind_ret.
  destruct (match g with Some _ => _ | None => _ end); [by eexists|]. destruct (foldl _ _ _) as [s|]; [|by eexists]. destruct (negb _); by eexists.
Qed.

Lemma view_get_returns head name p : Forall entry_ok head -> exists r, netsnmp_view_get head name p (len p) VACM_MODE_FIND = Ret r.
Proof.
  intros Hok. destruct (bad_length name) eqn:Hn; [unfold netsnmp_view_get; rewrite Hn; by eexists|].
  destruct (view_get_winner head name p VACM_MODE_FIND) as (r & -> & _); [done..|]. by eexists.
Qed.

Lemma vacm_check_view_returns v sn pdu name check_subtree viewtype : vacm_ok v ->
  exists z, vacm_check_view v sn pdu name (len (default [] name)) check_subtree viewtype = Ret z.
Proof.
  intros [Hv _ _]. unfold vacm_check_view, vacm_check_view_contents. destruct sn as [s|]; [|by eexists]. destruct (CONTEXTNAMEINDEXLEN <? _); [by eexists|].
  destruct (_ && _); [by eexists|]. destruct (vacm_getGroupEntry _ _ _) as [g|]; [|by eexists]. destruct (vacm_getAccessEntry _ _ _ _ _) as [a|]; [|by eexists].
  destruct name as [name|]; [|by eexists]. destruct ((viewtype <? 0) || _); [by eexists|]. destruct check_subtree; [by apply subtree_check_returns|].
  cbv zeta. change (default [] (Some name)) with name. destruct (view_get_returns (viewList v) (c_string (nth (Z.to_nat viewtype) (a_views a) [])) name Hv) as [r ->]. rewrite bind_ret.
  destruct r as [w|]; [|by eexists]. destruct (viewType w =? _); by eexists.
Qed.

(** C9: access is granted only through a complete chain of entries: if
    [vacm_check_view_contents] answers [VACM_SUCCESS] for a name then there is a
    security name, the context is known, and group, access entry and including
    view family all exist and apply to this message. *)
Theorem access_granted v sn pdu q viewtype :
  vacm_ok v -> (forall s, sn = Some s -> string_ok s) ->
  vacm_check_view v sn pdu (Some q) (len q) false viewtype = Ret VACM_SUCCESS ->
  exists s, sn = Some s /\ r_contextNameLen pdu <= CONTEXTNAMEINDEXLEN
            /\ netsnmp_subtree_find_first (context_subtrees v) (context_of pdu) = true
            /\ granted v s pdu q viewtype.
Proof. apply granted_chain. Qed.

(** C38: access granted to a subtree is access granted to every name in it: when
    [vacm_check_view] answers [VACM_SUCCESS] for a whole subtree it answers
    [VACM_SUCCESS] for each name below. *)
Theorem subtree_access_sound v sn pdu p q viewtype :
  vacm_ok v -> p `prefix_of` q ->
  vacm_check_view v sn pdu (Some p) (len p) true viewtype = Ret VACM_SUCCESS ->
  vacm_check_view v sn pdu (Some q) (len q) false viewtype = Ret VACM_SUCCESS.
Proof.
  intros [Hv _ _] Hpq. unfold vacm_check_view, vacm_check_view_contents.
  destruct sn as [s|]; [|done]. destruct (CONTEXTNAMEINDEXLEN <? _); [done|].
  destruct (_ && _); [done|]. destruct (vacm_getGroupEntry _ _ _) as [g|]; [|done].
  destruct (vacm_getAccessEntry _ _ _ _ _) as [a|]; [|done].
  destruct ((viewtype <? 0) || _); [done|].
  set (vn := c_string _). intros H.
  apply (view_subtree_check_sound (viewList v) vn p q Hv Hpq) in H. unfold in_view in H.
  destruct (netsnmp_view_get (viewList v) vn q (len q) VACM_MODE_FIND) as [r| | |]; try done.
  destruct r as [w|]; [|done]. cbn in H |- *.
  by destruct (viewType w =? SNMP_VIEW_EXCLUDED).
Qed.

Definition sample_vacm : vacm :=
  {| viewList := sample_view;
     accessList := [sample_access [] 3 1 CONTEXT_MATCH_EXACT];
     groupList := [sample_group 3];
     context_subtrees := [(Some [], true)] |}.

Definition sample_request : request :=
  {| r_command := SNMP_MSG_GET; r_securityModel := 3; r_securityLevel := 2;
     r_contextName := None; r_contextNameLen := 0 |}.

Lemma sample_vacm_ok : vacm_ok sample_vacm.
Proof.
  split.
  - exact sample_view_ok.
  - repeat constructor. exists sample_name. by split; [exact sample_name_ok|].
  - repeat constructor; apply sample_access_ok.
Qed.

Lemma access_granted_witness :
  exists s, Some sample_name = Some s /\ r_contextNameLen sample_request <= CONTEXTNAMEINDEXLEN
            /\ netsnmp_subtree_find_first (context_subtrees sample_vacm) (context_of sample_request) = true
            /\ granted sample_vacm s sample_request [1; 3; 6; 1; 2] VACM_VIEW_READ.
Proof.
  apply (access_granted sample_vacm (Some sample_name) sample_request [1; 3; 6; 1; 2] VACM_VIEW_READ).
  - exact sample_vacm_ok.
  - intros s [= <-]. exact sample_name_ok.
  - by vm_compute.
Defined.

Lemma subtree_access_sound_witness :
  vacm_check_view sample_vacm (Some sample_name) sample_request (Some [1; 3; 6; 2; 8]) 5 false VACM_VIEW_READ
  = Ret VACM_SUCCESS.
Proof.
  apply (subtree_access_sound sample_vacm (Some sample_name) sample_request [1; 3; 6; 2] [1; 3; 6; 2; 8]).
  - exact sample_vacm_ok.
  - by exists [8].
  - by vm_compute.
Defined.
