(* ===== verification/Lcd.v ===== *)
(** * The clocks of the known engines: snmplib/lcd_time.c

    Also the parts of snmplib/snmpv3.c, snmplib/system.c and snmplib/scapi.c
    it stands on: the local engine's identifier, boots and time, differences
    of clock readings, and the choice of a digest.

    An engine identifier given to a routine is the [engineID_len] bytes at the
    pointer, [None] for NULL; it is shorter than 2^32 bytes.  A pointer to a
    record is the index of its list and its place in it.  The arguments
    [authenticated] are TRUE or FALSE, here booleans.  The pointers to results
    are not NULL. *)

From S2P Require Import Prelude AsnRbuild Oid.

(** ** Data *)

Definition SNMPERR_SUCCESS : Z := 0.
Definition SNMPERR_GENERR : Z := -1.
Definition ETIMELIST_SIZE : Z := 23.
Definition ENGINETIME_MAX : Z := 2147483647.
Definition ENGINEBOOT_MAX : Z := 2147483647.
Definition SNMP_MAXBUF : Z := 1024 * 4.
Definition SNMP_MAX_ENG_SIZE : Z := 32.
Definition USM_LENGTH_OID_TRANSFORM : Z := 10.
Definition usmHMACMD5AuthProtocol : list Z := [1; 3; 6; 1; 6; 3; 10; 1; 1; 2].
Definition usmHMACSHA1AuthProtocol : list Z := [1; 3; 6; 1; 6; 3; 10; 1; 1; 3].
Definition usmNoAuthProtocol : list Z := [1; 3; 6; 1; 6; 3; 10; 1; 1; 1].
Definition usmNoPrivProtocol : list Z := [1; 3; 6; 1; 6; 3; 10; 1; 2; 1].
Definition usmDESPrivProtocol : list Z := [1; 3; 6; 1; 6; 3; 10; 1; 2; 2].
Definition usmAESPrivProtocol : list Z := [1; 3; 6; 1; 6; 3; 10; 1; 2; 4].

Record timeval : Type := { tv_sec : Z; tv_usec : Z }.

Record enginetime : Type := {
  e_engineID : list Z;
  engineID_len : Z;
  engineTime : Z;
  engineBoot : Z;
  lastReceivedEngineTime : Z;
  authenticatedFlag : bool
}.

(** [sizeof(enginetime)]. *)
Definition sizeof_enginetime : Z := 48.

(** The static variables: the lists of lcd_time.c, and the local engine of
    snmpv3.c.  [reads] counts the readings of the system's clock. *)
Record lcd : Type := {
  etimelist : list (list enginetime);
  engineID : option (list Z);
  engineBoots : Z;
  last_engineTime : Z;
  snmpv3starttime : timeval;
  reads : nat
}.

Definition with_etimelist (l : list (list enginetime)) (s : lcd) : lcd :=
  {| etimelist := l; engineID := engineID s; engineBoots := engineBoots s;
     last_engineTime := last_engineTime s; snmpv3starttime := snmpv3starttime s;
     reads := reads s |}.

(** What the system gives: the successive readings of the monotonic clock,
    and the digests of OpenSSL with their lengths. *)
Class Platform := {
  clock : nat -> timeval;
  EVP_md5 : list Z -> list Z;
  EVP_sha1 : list Z -> list Z;
  EVP_md5_length : forall m, length (EVP_md5 m) = 16%nat;
  EVP_md5_bytes : forall m, Forall is_u8 (EVP_md5 m);
  EVP_sha1_length : forall m, length (EVP_sha1 m) = 20%nat
}.

(** ** The local engine *)

Definition NETSNMP_TIMERSUB (a b : timeval) : timeval :=
  let sec := tv_sec a - tv_sec b - 1 in
  let usec := tv_usec a - tv_usec b + 1000000 in
  if 1000000 <=? usec then {| tv_sec := sec + 1; tv_usec := usec - 1000000 |}
  else {| tv_sec := sec; tv_usec := usec |}.

(** [then_] is [then]. *)
Definition calculate_sectime_diff (now then_ : timeval) : Z :=
  let diff := NETSNMP_TIMERSUB now then_ in
  u32 (tv_sec diff + (if 500000 <=? tv_usec diff then 1 else 0)).

Definition snmpv3_local_snmpEngineBoots (s : lcd) : Z := engineBoots s.

Definition snmpv3_local_snmpEngineTime `{Platform} (s : lcd) : Z * lcd :=
  let now := clock (reads s) in
  let engineTime := Z.land (calculate_sectime_diff now (snmpv3starttime s)) 0x7fffffff in
  (engineTime,
   {| etimelist := etimelist s; engineID := engineID s;
      engineBoots := if engineTime <? last_engineTime s then u64 (engineBoots s + 1) else engineBoots s;
      last_engineTime := engineTime; snmpv3starttime := snmpv3starttime s;
      reads := S (reads s) |}).

(** The length returned and the bytes left in [buf]; a length of 0 leaves it
    as it is. *)
Definition snmpv3_get_engineID (s : lcd) (buflen : Z) : Z * list Z :=
  match engineID s with
  | Some id => if buflen <? len id then (0, []) else (len id, id)
  | None => (0, [])
  end.

(** ** The index of an engine *)

Definition ISTRANSFORM (ttype toid : list Z) : outcome bool :=
  cmp ← snmp_oid_compare ttype USM_LENGTH_OID_TRANSFORM toid USM_LENGTH_OID_TRANSFORM;
  Ret (cmp =? 0).

Definition BYTESIZE (bitsize : Z) : Z := Z.shiftr (bitsize + 7) 3.
Definition SNMP_TRANS_AUTHLEN_HMACMD5 : Z := 128.
Definition SNMP_TRANS_AUTHLEN_HMACSHA1 : Z := 160.

Definition sc_get_properlength (hashtype : list Z) : outcome Z :=
  md5 ← ISTRANSFORM hashtype usmHMACMD5AuthProtocol;
  if (md5 : bool) then Ret (BYTESIZE SNMP_TRANS_AUTHLEN_HMACMD5)
  else
    sha1 ← ISTRANSFORM hashtype usmHMACSHA1AuthProtocol;
    if (sha1 : bool) then Ret (BYTESIZE SNMP_TRANS_AUTHLEN_HMACSHA1)
    else Ret SNMPERR_GENERR.

(** The result and the [*MAC_len] bytes at [MAC]. *)
Definition sc_hash `{Platform} (hashtype buf : list Z) (MAC_len : Z) : outcome (Z * list Z) :=
  if len buf <=? 0 then Ret (SNMPERR_GENERR, [])
  else
    ret ← sc_get_properlength hashtype;
    if (ret <? 0) || (MAC_len <? ret) then Ret (SNMPERR_GENERR, [])
    else
      md5 ← ISTRANSFORM hashtype usmHMACMD5AuthProtocol;
      if (md5 : bool) then Ret (SNMPERR_SUCCESS, EVP_md5 buf)
      else
        sha1 ← ISTRANSFORM hashtype usmHMACSHA1AuthProtocol;
        if (sha1 : bool) then Ret (SNMPERR_SUCCESS, EVP_sha1 buf)
        else Ret (SNMPERR_GENERR, []).

(** [bufp += 4] in each turn. *)
Fixpoint hash_loop (bufp : list Z) (additive : Z) : Z :=
  match bufp with
  | b :: _ :: _ :: _ :: bufp => hash_loop bufp (u32 (additive + b))
  | b :: _ => u32 (additive + b)
  | [] => additive
  end.

Definition hash_engineID `{Platform} (engineID : option (list Z)) : outcome Z :=
  match engineID with
  | None | Some [] => Ret SNMPERR_GENERR
  | Some id =>
      '(rval, buf) ← sc_hash usmHMACMD5AuthProtocol id SNMP_MAXBUF;
      if negb (rval =? SNMPERR_SUCCESS) then Ret SNMPERR_GENERR
      else Ret (s32 (hash_loop buf 0 mod ETIMELIST_SIZE))
  end.

(** ** Records *)

(** [memcmp] on [engineID_len] bytes. *)
Definition is_record (id : list Z) (e : enginetime) : bool :=
  (len id =? engineID_len e)
  && bool_decide (take (length id) (e_engineID e) = id).

Fixpoint search_loop (id : list Z) (e : list enginetime) : option nat :=
  match e with
  | [] => None
  | x :: next => if is_record id x then Some O else S <$> search_loop id next
  end.

Definition eref : Set := (nat * nat)%type.

Definition search_enginetime_list `{Platform} (s : lcd) (engineID : option (list Z))
    : outcome (option eref) :=
  match engineID with
  | None | Some [] => Ret None
  | Some id =>
      rval ← hash_engineID engineID;
      if rval <? 0 then Ret None
      else
        match etimelist s !! Z.to_nat rval with
        | Some e => Ret (pair (Z.to_nat rval) <$> search_loop id e)
        | None => Overrun
        end
  end.

Definition deref (s : lcd) (e : eref) : option enginetime :=
  l ← etimelist s !! e.1; l !! e.2.

(** The estimate from the record's tuple and the seconds that passed, at the
    end of both reading routines. *)
Definition advance (timediff engineboot engine_time : Z) : Z * Z :=
  if s32 (u32 (ENGINETIME_MAX - engine_time)) <? timediff then
    (if engineboot <? ENGINEBOOT_MAX then u32 (engineboot + 1) else engineboot,
     u32 (timediff - u32 (ENGINETIME_MAX - engine_time)))
  else (engineboot, u32 (engine_time + timediff)).

(** The result, [*engineboot], [*engine_time] and [*last_engine_time]. *)
Definition get_enginetime_ex `{Platform} (s : lcd) (engineID : option (list Z)) (authenticated : bool)
    : outcome (Z * Z * Z * Z * lcd) :=
  match engineID with
  | None | Some [] => Ret (SNMPERR_GENERR, 0, 0, 0, s)
  | Some _ =>
      p ← search_enginetime_list s engineID;
      match p with
      | None => Ret (SNMPERR_GENERR, 0, 0, 0, s)
      | Some p =>
          match deref s p with
          | None => Overrun
          | Some e =>
              let '(boots, time, last, timediff, s) :=
                if negb authenticated || authenticatedFlag e then
                  let '(now, s) := snmpv3_local_snmpEngineTime s in
                  (engineBoot e, engineTime e, engineTime e,
                   s32 (u64 (now - lastReceivedEngineTime e)), s)
                else (0, 0, 0, 0, s) in
              let '(boots, time) := advance timediff boots time in
              Ret (SNMPERR_SUCCESS, boots, time, last, s)
          end
      end
  end.

(** The same body without [last_engine_time]. *)
Definition get_enginetime `{Platform} (s : lcd) (engineID : option (list Z)) (authenticated : bool)
    : outcome (Z * Z * Z * lcd) :=
  match engineID with
  | None | Some [] => Ret (SNMPERR_GENERR, 0, 0, s)
  | Some _ =>
      p ← search_enginetime_list s engineID;
      match p with
      | None => Ret (SNMPERR_GENERR, 0, 0, s)
      | Some p =>
          match deref s p with
          | None => Overrun
          | Some e =>
              let '(boots, time, timediff, s) :=
                if negb authenticated || authenticatedFlag e then
                  let '(now, s) := snmpv3_local_snmpEngineTime s in
                  (engineBoot e, engineTime e,
                   s32 (u64 (now - lastReceivedEngineTime e)), s)
                else (0, 0, 0, s) in
              let '(boots, time) := advance timediff boots time in
              Ret (SNMPERR_SUCCESS, boots, time, s)
          end
      end
  end.

(** ** Writing *)

Definition update (s : lcd) (p : eref) (f : enginetime -> enginetime) : lcd :=
  with_etimelist (alter (alter f p.2) p.1 (etimelist s)) s.

(** A new record, in front of its list; [calloc] is not checked, and a NULL
    is written through.  [None]: no index. *)
Definition new_record `{Platform, Allocator} (s : lcd) (id : list Z) : outcome (option (eref * lcd)) :=
  iindex ← hash_engineID (Some id);
  if iindex <? 0 then Ret None
  else if negb (alloc sizeof_enginetime) || negb (alloc (len id)) then Overrun
  else
    match etimelist s !! Z.to_nat iindex with
    | None => Overrun
    | Some next =>
        let e := {| e_engineID := id; engineID_len := len id; engineTime := 0; engineBoot := 0;
                    lastReceivedEngineTime := 0; authenticatedFlag := false |} in
        Ret (Some ((Z.to_nat iindex, O),
                   with_etimelist (<[Z.to_nat iindex := e :: next]> (etimelist s)) s))
    end.

Definition stamp (engineboot engine_time : Z) (authenticated : bool) (now : Z) (e : enginetime)
    : enginetime :=
  {| e_engineID := e_engineID e; engineID_len := engineID_len e; engineTime := engine_time;
     engineBoot := engineboot; lastReceivedEngineTime := now; authenticatedFlag := authenticated |}.

Definition set_enginetime `{Platform, Allocator} (s : lcd) (engineID : option (list Z))
    (engineboot engine_time : Z) (authenticated : bool) : outcome (Z * lcd) :=
  match engineID with
  | None | Some [] => Ret (SNMPERR_SUCCESS, s)
  | Some id =>
      p ← search_enginetime_list s engineID;
      r ← match p with Some p => Ret (Some (p, s)) | None => new_record s id end;
      match r with
      | None => Ret (SNMPERR_GENERR, s)
      | Some (p, s) =>
          match deref s p with
          | None => Overrun
          | Some e =>
              if authenticated || negb (authenticatedFlag e) then
                let '(now, s) := snmpv3_local_snmpEngineTime s in
                Ret (SNMPERR_SUCCESS, update s p (stamp engineboot engine_time authenticated now))
              else Ret (SNMPERR_SUCCESS, s)
          end
      end
  end.

(** The nodes are freed from the head on. *)
Fixpoint free_list (e : list enginetime) : list enginetime :=
  match e with
  | [] => []
  | _ :: next => free_list next
  end.

Definition free_enginetime `{Platform} (s : lcd) (engineID : option (list Z)) : outcome lcd :=
  rval ← hash_engineID engineID;
  if rval <? 0 then Ret s
  else
    match etimelist s !! Z.to_nat rval with
    | Some e => Ret (with_etimelist (<[Z.to_nat rval := free_list e]> (etimelist s)) s)
    | None => Overrun
    end.

(** [index] runs over the lists. *)
Fixpoint free_lists (turns index : nat) (l : list (list enginetime)) : outcome (list (list enginetime)) :=
  match turns with
  | O => Ret l
  | S turns =>
      match l !! index with
      | Some e => free_lists turns (S index) (<[index := free_list e]> l)
      | None => Overrun
      end
  end.

Definition free_etimelist (s : lcd) : outcome lcd :=
  l ← free_lists (Z.to_nat ETIMELIST_SIZE) 0 (etimelist s);
  Ret (with_etimelist l s).

Definition free_enginetime_on_shutdown `{Platform} (s : lcd) : outcome lcd :=
  let '(engineID_len, engineID) := snmpv3_get_engineID s SNMP_MAX_ENG_SIZE in
  if 0 <? engineID_len then free_enginetime s (Some engineID) else Ret s.

(** ** The macros of lcd_time.h *)

Definition ISENGINEKNOWN `{Platform} (s : lcd) (e : option (list Z)) : outcome (bool * lcd) :=
  '(rval, _, _, s) ← get_enginetime s e true;
  Ret (rval =? SNMPERR_SUCCESS, s).

Definition ENSURE_ENGINE_RECORD `{Platform, Allocator} (s : lcd) (e : option (list Z)) : outcome (Z * lcd) :=
  '(rval, s) ← set_enginetime s e 0 0 false;
  Ret (if rval =? SNMPERR_SUCCESS then SNMPERR_SUCCESS else SNMPERR_GENERR, s).

Definition MAKENEW_ENGINE_RECORD `{Platform, Allocator} (s : lcd) (e : option (list Z)) : outcome (Z * lcd) :=
  '(known, s) ← ISENGINEKNOWN s e;
  if (known : bool) then Ret (SNMPERR_SUCCESS, s)
  else
    '(_, s) ← ENSURE_ENGINE_RECORD s e;
    Ret (SNMPERR_GENERR, s).
