(* ===== verification/LcdSpec.v ===== *)
(** * The lists of lcd_time.c as one finite map

    [abs s] maps an engine identifier to its record.  The lists stay well
    formed ([wf]: each record lies in the list of its index, and no engine
    has two), and the routines of Lcd read and write the map. *)

From stdpp Require Import gmap list.
From S2P Require Import Prelude AsnRbuild Oid Lcd.

(** ** The index of an identifier *)

Section index.
Context `{Platform}.

Definition slot (id : list Z) : nat := Z.to_nat (hash_loop (EVP_md5 id) 0 mod ETIMELIST_SIZE).

Lemma slot_lt id : (slot id < 23)%nat.
Proof using Type.
  unfold slot, ETIMELIST_SIZE. pose proof (Z.mod_pos_bound (hash_loop (EVP_md5 id) 0) 23). lia.
Qed.

Lemma sc_hash_md5 b id :
  sc_hash usmHMACMD5AuthProtocol (b :: id) SNMP_MAXBUF = Ret (SNMPERR_SUCCESS, EVP_md5 (b :: id)).
Proof using Type.
  unfold sc_hash. destruct (Z.leb_spec (len (b :: id)) 0) as [Hl|]; [|reflexivity].
  unfold len in Hl. cbn in Hl. lia.
Qed.

Lemma hash_engineID_spec id : id <> [] -> hash_engineID (Some id) = Ret (Z.of_nat (slot id)).
Proof using Type.
  destruct id as [|b id]; [done|]. intros _. unfold hash_engineID.
  rewrite sc_hash_md5, bind_ret. cbn [negb Z.eqb SNMPERR_SUCCESS]. f_equal.
  pose proof (slot_lt (b :: id)). unfold slot in *. unfold ETIMELIST_SIZE in *.
  pose proof (Z.mod_pos_bound (hash_loop (EVP_md5 (b :: id)) 0) 23).
  rewrite Z2Nat.id by lia. apply s32_id. cint.
Qed.
End index.

(** ** The map and the invariant *)

Section map.
Context `{Platform}.

Definition kv (e : enginetime) : list Z * enginetime := (e_engineID e, e).
Definition list_map (l : list enginetime) : gmap (list Z) enginetime := list_to_map (kv <$> l).
Definition abs (s : lcd) : gmap (list Z) enginetime := list_map (concat (etimelist s)).

Definition entry_ok (i : nat) (e : enginetime) : Prop :=
  e_engineID e <> [] /\ engineID_len e = len (e_engineID e) /\ slot (e_engineID e) = i.

Definition list_ok (i : nat) (l : list enginetime) : Prop :=
  Forall (entry_ok i) l /\ NoDup (e_engineID <$> l).

Definition lists_ok (L : list (list enginetime)) : Prop :=
  length L = 23%nat /\ forall i l, L !! i = Some l -> list_ok i l.

Definition wf (s : lcd) : Prop := lists_ok (etimelist s).

Lemma is_record_spec i id e : entry_ok i e -> is_record id e = true <-> e_engineID e = id.
Proof using Type.
  intros (_ & Hlen & _). unfold is_record. rewrite andb_true_iff, bool_decide_eq_true, Z.eqb_eq, Hlen.
  unfold len. split.
  - intros [Hl <-]. rewrite firstn_all2 by lia. done.
  - intros <-. split; [done|]. by rewrite firstn_all2.
Qed.

Lemma list_map_cons e l : list_map (e :: l) = <[e_engineID e := e]> (list_map l).
Proof using Type. done. Qed.

Lemma list_map_none l id : list_map l !! id = None <-> id ∉ e_engineID <$> l.
Proof using Type.
  unfold list_map. rewrite <- not_elem_of_list_to_map.
  by rewrite <- list_fmap_compose.
Qed.

(** The search finds what the map of the list has. *)
Lemma search_loop_spec i l id : Forall (entry_ok i) l ->
  match search_loop id l with
  | Some n => exists e, l !! n = Some e /\ e_engineID e = id /\ list_map l !! id = Some e
  | None => list_map l !! id = None
  end.
Proof using Type.
  induction 1 as [|e l He Hl IH]; cbn [search_loop]; [done|]. rewrite list_map_cons.
  destruct (is_record id e) eqn:E.
  - apply (is_record_spec i) in E as <-; [|done]. exists e.
    by rewrite lookup_insert, decide_True.
  - assert (e_engineID e <> id) by (intros <-; rewrite (proj2 (is_record_spec i _ e He)) in E; done).
    rewrite lookup_insert_ne by done.
    destruct (search_loop id l); cbn [fmap option_fmap option_map]; [|done].
    destruct IH as (x & ? & ? & ?). by exists x.
Qed.

(** An identifier is looked up in the list of its index. *)
Lemma concat_lookup id : forall L k,
  (forall i l, L !! i = Some l -> Forall (entry_ok (k + i)) l) -> (k <= slot id)%nat ->
  list_map (concat L) !! id = list_map (default [] (L !! (slot id - k)%nat)) !! id.
Proof using Type.
  assert (Hother : forall l j, Forall (entry_ok j) l -> slot id <> j -> list_map l !! id = None).
  { intros l j Hl Hj. apply list_map_none. intros (e & -> & He)%list_elem_of_fmap.
    rewrite Forall_forall in Hl. by destruct (Hl _ He) as (_ & _ & <-). }
  induction L as [|l L IH]; intros k HL Hk; [by rewrite lookup_nil|].
  cbn [concat]. unfold list_map at 1. rewrite fmap_app, list_to_map_app, lookup_union.
  fold (list_map l) (list_map (concat L)).
  assert (HL' : forall i l', L !! i = Some l' -> Forall (entry_ok (S k + i)) l').
  { intros i l' Hi. replace (S k + i)%nat with (k + S i)%nat by lia. by apply HL. }
  pose proof (HL 0%nat l eq_refl) as Hl. rewrite Nat.add_0_r in Hl.
  destruct (decide (slot id = k)) as [<-|Hne].
  - rewrite Nat.sub_diag. change (default [] ((l :: L) !! 0%nat)) with l.
    enough (list_map (concat L) !! id = None) as -> by by destruct (list_map l !! id).
    apply list_map_none. intros (e & -> & He)%list_elem_of_fmap.
    apply list_elem_of_In, in_concat in He as (l' & Hl' & He).
    apply list_elem_of_In, list_elem_of_lookup in Hl' as [i Hi].
    specialize (HL' _ _ Hi). rewrite Forall_forall in HL'.
    destruct (HL' e) as (_ & _ & ?); [by apply list_elem_of_In|lia].
  - rewrite (Hother l k) by done. rewrite (IH (S k)) by (done || lia).
    replace (slot id - k)%nat with (S (slot id - S k)) by lia.
    change ((l :: L) !! S (slot id - S k)%nat) with (L !! (slot id - S k)%nat).
    by destruct (list_map (default [] _) !! id).
Qed.

Lemma wf_lookup s i : wf s -> (i < 23)%nat -> exists l, etimelist s !! i = Some l /\ list_ok i l.
Proof using Type.
  intros [Hlen Hs] Hi. destruct (lookup_lt_is_Some_2 (etimelist s) i) as [l Hl]; [lia|].
  exists l. split; [done|by apply Hs].
Qed.

Lemma lists_lookup L id l : lists_ok L -> L !! slot id = Some l ->
  list_map (concat L) !! id = list_map l !! id.
Proof using Type.
  intros [_ HL] Hl. rewrite (concat_lookup id _ 0).
  - by rewrite Nat.sub_0_r, Hl.
  - intros i l' Hi. by destruct (HL _ _ Hi).
  - lia.
Qed.
End map.

(** ** Changing one list *)

Section change.
Context `{Platform}.

Lemma lists_ok_insert L i l' : lists_ok L -> list_ok i l' -> lists_ok (<[i := l']> L).
Proof using Type.
  intros [Hlen HL] Hl'. split; [by rewrite length_insert|]. intros j l Hj.
  destruct (decide (i = j)) as [<-|Hne].
  - rewrite list_lookup_insert_eq in Hj; [by injection Hj as <-|].
    apply lookup_lt_Some in Hj. by rewrite length_insert in Hj.
  - rewrite list_lookup_insert_ne in Hj by done. by apply HL.
Qed.

Lemma lists_insert_lookup L i l l' id : lists_ok L -> list_ok i l' -> L !! i = Some l ->
  list_map (concat (<[i := l']> L)) !! id =
  if decide (slot id = i) then list_map l' !! id else list_map (concat L) !! id.
Proof using Type.
  intros HL Hl' Hi. assert (HL' := lists_ok_insert L i l' HL Hl').
  destruct HL as [Hlen HL]. destruct (lookup_lt_is_Some_2 L (slot id)) as [k Hk].
  { rewrite Hlen. apply slot_lt. }
  destruct (decide (slot id = i)) as [Hs|Hs].
  - apply lists_lookup; [done|]. rewrite Hs. apply list_lookup_insert_eq. by eapply lookup_lt_Some.
  - rewrite (lists_lookup L id k), (lists_lookup (<[i := l']> L) id k); try done.
    by rewrite list_lookup_insert_ne.
Qed.

(** The record at a place of a list is replaced. *)
Lemma list_map_alter (f : enginetime -> enginetime) l : forall n e,
  (forall x, e_engineID (f x) = e_engineID x) -> NoDup (e_engineID <$> l) -> l !! n = Some e ->
  list_map (alter f n l) = <[e_engineID e := f e]> (list_map l)
  /\ e_engineID <$> alter f n l = e_engineID <$> l.
Proof using Type.
  induction l as [|x l IH]; intros n e Hf Hnd Hn; [by rewrite lookup_nil in Hn|].
  rewrite fmap_cons in Hnd. apply NoDup_cons in Hnd as [Hx Hnd].
  destruct n as [|n]; cbn in Hn.
  - injection Hn as ->. cbn [alter list_alter]. rewrite !list_map_cons, !fmap_cons, Hf, insert_insert_eq.
    done.
  - cbn [alter list_alter]. destruct (IH n e Hf Hnd Hn) as [IH1 IH2].
    rewrite !list_map_cons, !fmap_cons. change (list_alter f n l) with (alter f n l).
    rewrite IH1, IH2. split; [|done]. apply insert_insert_ne. intros Heq. apply Hx.
    apply list_elem_of_fmap. exists e. split; [congruence|]. by eapply list_elem_of_lookup_2.
Qed.

Lemma alter_is_insert {A} (f : A -> A) i (l : list A) x : l !! i = Some x -> alter f i l = <[i := f x]> l.
Proof using Type.
  revert i. induction l as [|y l IH]; intros [|i]; cbn; intros; simplify_eq; [done|].
  f_equal. by apply IH.
Qed.

Lemma search_spec s id : wf s -> id <> [] ->
  match abs s !! id with
  | Some e => exists n, search_enginetime_list s (Some id) = Ret (Some (slot id, n))
                        /\ deref s (slot id, n) = Some e /\ e_engineID e = id
  | None => search_enginetime_list s (Some id) = Ret None
  end.
Proof using Type.
  intros Hs Hid. destruct (wf_lookup s (slot id) Hs (slot_lt id)) as (l & Hl & Hok & _).
  assert (E : search_enginetime_list s (Some id) = Ret (pair (slot id) <$> search_loop id l)).
  { unfold search_enginetime_list. rewrite hash_engineID_spec by done. destruct id; [done|].
    rewrite bind_ret. destruct (Z.ltb_spec (Z.of_nat (slot (z :: id))) 0); [lia|].
    by rewrite Nat2Z.id, Hl. }
  unfold abs. rewrite (lists_lookup _ _ l) by done.
  pose proof (search_loop_spec _ l id Hok) as Hsl. rewrite E.
  destruct (search_loop id l) as [n|].
  - destruct Hsl as (e & Hn & He & ->). exists n. split; [done|]. unfold deref. cbn. by rewrite Hl.
  - by rewrite Hsl.
Qed.

Lemma update_spec s id n f e :
  wf s -> (forall x, e_engineID (f x) = e_engineID x) -> (forall x, engineID_len (f x) = engineID_len x) ->
  deref s (slot id, n) = Some e -> e_engineID e = id ->
  wf (update s (slot id, n) f) /\ abs (update s (slot id, n) f) = <[id := f e]> (abs s).
Proof using Type.
  intros Hs Hf Hf' He Hid. unfold deref in He. cbn in He.
  destruct (wf_lookup s (slot id) Hs (slot_lt id)) as (l & Hl & Hok & Hnd). rewrite Hl in He. cbn in He.
  destruct (list_map_alter f l n e Hf Hnd He) as [Hm Hk]. rewrite Hid in Hm.
  assert (Hl' : list_ok (slot id) (alter f n l)).
  { split; [|by rewrite Hk]. apply Forall_alter; [done|]. intros x _ (? & ? & ?).
    split; [by rewrite Hf|]. by rewrite Hf, Hf'. }
  unfold wf, abs, update. cbn [fst snd with_etimelist etimelist].
  rewrite (alter_is_insert _ _ _ l) by done. split; [by apply lists_ok_insert|].
  apply map_eq. intros j. rewrite (lists_insert_lookup _ _ l) by done. rewrite Hm.
  destruct (decide (slot j = slot id)) as [Hj|Hj].
  - destruct (decide (j = id)) as [->|]; [by rewrite !lookup_insert_eq|].
    rewrite !lookup_insert_ne by done. symmetry. apply lists_lookup; [done|by rewrite Hj].
  - rewrite lookup_insert_ne; [done|]. by intros ->.
Qed.
End change.

(** ** The routines on the map *)

Section routines.
Context `{Platform}.

(** The seconds [snmpv3_local_snmpEngineTime] returns, and the state it
    leaves. *)
Definition now (s : lcd) : Z := fst (snmpv3_local_snmpEngineTime s).
Definition tick (s : lcd) : lcd := snd (snmpv3_local_snmpEngineTime s).

(** Everything but the lists. *)
Definition local (s : lcd) : lcd := with_etimelist [] s.

Lemma now_range s : 0 <= now s < 2 ^ 31.
Proof using Type.
  unfold now, snmpv3_local_snmpEngineTime. cbn [fst]. change 0x7fffffff with (Z.ones 31).
  rewrite land_low by lia. apply Z.mod_pos_bound. lia.
Qed.

Lemma tick_abs s : abs (tick s) = abs s.
Proof using Type. done. Qed.
Lemma tick_wf s : wf (tick s) <-> wf s.
Proof using Type. done. Qed.
Lemma tick_engineID s : Lcd.engineID (tick s) = Lcd.engineID s.
Proof using Type. done. Qed.
Lemma local_engineID s s' : local s = local s' -> Lcd.engineID s = Lcd.engineID s'.
Proof using Type. unfold local, with_etimelist. congruence. Qed.

(** The record [set_enginetime] makes for an engine it does not know. *)
Definition fresh (id : list Z) : enginetime :=
  {| e_engineID := id; engineID_len := len id; engineTime := 0; engineBoot := 0;
     lastReceivedEngineTime := 0; authenticatedFlag := false |}.

(** What a reader gets from a record when the local clock shows [t]. *)
Definition estimate (e : enginetime) (authenticated : bool) (t : Z) : Z * Z * Z :=
  if negb authenticated || authenticatedFlag e then
    (advance (s32 (u64 (t - lastReceivedEngineTime e))) (engineBoot e) (engineTime e), engineTime e)
  else (0, 0, 0).

(** The clock is read only for a record that may be used. *)
Definition ticked (e : enginetime) (authenticated : bool) (s : lcd) : lcd :=
  if negb authenticated || authenticatedFlag e then tick s else s.

Lemma get_enginetime_ex_spec s id authenticated : wf s -> id <> [] ->
  get_enginetime_ex s (Some id) authenticated =
  match abs s !! id with
  | Some e => let '(boots, time, last) := estimate e authenticated (now s) in
              Ret (SNMPERR_SUCCESS, boots, time, last, ticked e authenticated s)
  | None => Ret (SNMPERR_GENERR, 0, 0, 0, s)
  end.
Proof using Type.
  intros Hs Hid. pose proof (search_spec s id Hs Hid) as Hsearch.
  unfold get_enginetime_ex. destruct id as [|b id]; [done|].
  destruct (abs s !! (b :: id)) as [e|]; [|by rewrite Hsearch].
  destruct Hsearch as (n & -> & He & _). rewrite bind_ret, He.
  unfold estimate, ticked. destruct (negb authenticated || authenticatedFlag e).
  - unfold now, tick. destruct (snmpv3_local_snmpEngineTime s) as [t s'].
    cbn [fst snd]. by destruct (advance _ _ _).
  - reflexivity.
Qed.

Lemma get_enginetime_spec s id authenticated : wf s -> id <> [] ->
  get_enginetime s (Some id) authenticated =
  match abs s !! id with
  | Some e => let '(boots, time, _) := estimate e authenticated (now s) in
              Ret (SNMPERR_SUCCESS, boots, time, ticked e authenticated s)
  | None => Ret (SNMPERR_GENERR, 0, 0, s)
  end.
Proof using Type.
  intros Hs Hid. pose proof (search_spec s id Hs Hid) as Hsearch.
  unfold get_enginetime. destruct id as [|b id]; [done|].
  destruct (abs s !! (b :: id)) as [e|]; [|by rewrite Hsearch].
  destruct Hsearch as (n & -> & He & _). rewrite bind_ret, He.
  unfold estimate, ticked. destruct (negb authenticated || authenticatedFlag e).
  - unfold now, tick. destruct (snmpv3_local_snmpEngineTime s) as [t s'].
    cbn [fst snd]. by destruct (advance _ _ _).
  - reflexivity.
Qed.

Lemma ticked_abs e a s : abs (ticked e a s) = abs s.
Proof using Type. unfold ticked. by destruct (_ || _). Qed.
Lemma ticked_wf e a s : wf (ticked e a s) <-> wf s.
Proof using Type. unfold ticked. by destruct (_ || _). Qed.
Lemma ticked_engineID e a s : Lcd.engineID (ticked e a s) = Lcd.engineID s.
Proof using Type. unfold ticked. by destruct (_ || _). Qed.

Context `{Allocator}.

(** The two blocks a new record takes. *)
Definition room_for (id : list Z) : bool := alloc sizeof_enginetime && alloc (len id).

Lemma new_record_spec s id : wf s -> id <> [] -> abs s !! id = None ->
  if room_for id then
    exists s', new_record s id = Ret (Some ((slot id, O), s')) /\ wf s' /\ local s' = local s
               /\ abs s' = <[id := fresh id]> (abs s) /\ deref s' (slot id, O) = Some (fresh id)
  else new_record s id = Overrun.
Proof using Type.
  intros Hs Hid Habs. unfold new_record, room_for. rewrite hash_engineID_spec, bind_ret by done.
  destruct (Z.ltb_spec (Z.of_nat (slot id)) 0); [lia|]. rewrite <- negb_andb, Nat2Z.id.
  destruct (_ && _); cbn [negb]; [|done].
  destruct (wf_lookup s (slot id) Hs (slot_lt id)) as (l & Hl & Hok & Hnd). rewrite Hl.
  eexists. split; [reflexivity|]. fold (fresh id).
  assert (Hl' : list_ok (slot id) (fresh id :: l)).
  { split; [constructor; [done|done]|]. rewrite fmap_cons. apply NoDup_cons. split; [|done].
    apply list_map_none. change (e_engineID (fresh id)) with id.
    rewrite <- (lists_lookup (etimelist s) id l) by done. exact Habs. }
  split; [by apply lists_ok_insert|]. split; [done|]. split.
  - apply map_eq. intros j. unfold abs. cbn [with_etimelist etimelist].
    rewrite (lists_insert_lookup _ _ l), list_map_cons by done. change (e_engineID (fresh id)) with id.
    destruct (decide (slot j = slot id)) as [Hj|Hj].
    + destruct (decide (j = id)) as [->|]; [by rewrite !lookup_insert_eq|].
      rewrite !lookup_insert_ne by done. symmetry. apply lists_lookup; [done|by rewrite Hj].
    + rewrite lookup_insert_ne; [done|]. by intros ->.
  - unfold deref. cbn [fst snd with_etimelist etimelist].
    rewrite list_lookup_insert_eq; [done|]. by eapply lookup_lt_Some.
Qed.

(** A record that holds an authenticated tuple is only overwritten by one. *)
Definition overwrites (e : enginetime) (authenticated : bool) : bool :=
  authenticated || negb (authenticatedFlag e).

Definition record_of (s : lcd) (id : list Z) : enginetime := default (fresh id) (abs s !! id).

Definition set_result (s : lcd) (id : list Z) (boots time : Z) (authenticated : bool) (s' : lcd) : Prop :=
  wf s' /\
  if overwrites (record_of s id) authenticated then
    abs s' = <[id := stamp boots time authenticated (now s) (record_of s id)]> (abs s)
    /\ local s' = local (tick s)
  else s' = s.

Lemma set_enginetime_cases s id boots time authenticated : wf s -> id <> [] ->
  match abs s !! id with
  | Some _ => True
  | None => room_for id = true
  end ->
  exists s', set_enginetime s (Some id) boots time authenticated = Ret (SNMPERR_SUCCESS, s')
             /\ set_result s id boots time authenticated s'.
Proof using Type.
  intros Hs Hid Hroom. pose proof (search_spec s id Hs Hid) as Hsearch.
  unfold set_enginetime, set_result, record_of. destruct id as [|b id]; [done|].
  destruct (abs s !! (b :: id)) as [e|] eqn:Habs.
  - destruct Hsearch as (n & -> & He & Hk). rewrite !bind_ret, He. cbn [default].
    unfold overwrites. destruct (authenticated || _); [|by exists s].
    unfold now, tick. destruct (snmpv3_local_snmpEngineTime s) as [t s1] eqn:Et.
    assert (s1 = tick s) as -> by (unfold tick; by rewrite Et). cbn [fst snd].
    destruct (update_spec (tick s) (b :: id) n (stamp boots time authenticated t) e); try done.
    eexists. split; [reflexivity|]. done.
  - rewrite Hsearch, bind_ret. pose proof (new_record_spec s (b :: id) Hs Hid Habs) as Hnew.
    rewrite Hroom in Hnew. destruct Hnew as (s0 & -> & Hs0 & Hloc & Habs0 & He). rewrite bind_ret, He.
    cbn [default]. unfold overwrites. change (authenticatedFlag (fresh (b :: id))) with false.
    rewrite orb_true_r.
    assert (Htick : now s0 = now s /\ local (tick s0) = local (tick s)).
    { assert (s0 = with_etimelist (etimelist s0) s) as ->; [|done].
      unfold local, with_etimelist in *. destruct s0, s; cbn in *. congruence. }
    destruct Htick as [Hnow Htick]. rewrite <- Hnow. unfold now.
    destruct (snmpv3_local_snmpEngineTime s0) as [t s1] eqn:Et.
    assert (s1 = tick s0) as -> by (unfold tick; by rewrite Et). cbn [fst snd].
    destruct (update_spec (tick s0) (b :: id) O (stamp boots time authenticated t) (fresh (b :: id)))
      as [Hwf Hup]; try done.
    eexists. split; [reflexivity|]. split; [done|]. split; [|done].
    rewrite Hup, tick_abs, Habs0. by rewrite insert_insert_eq.
Qed.

(** Without room the routine writes through NULL, and only then. *)
Lemma set_enginetime_inv s id boots time authenticated r s' : wf s -> id <> [] ->
  set_enginetime s (Some id) boots time authenticated = Ret (r, s') ->
  r = SNMPERR_SUCCESS /\ set_result s id boots time authenticated s'.
Proof using Type.
  intros Hs Hid Hset.
  assert (Hroom : match abs s !! id with Some _ => True | None => room_for id = true end).
  { destruct (abs s !! id) eqn:Habs; [done|]. pose proof (new_record_spec s id Hs Hid Habs) as Hnew.
    destruct (room_for id); [done|]. pose proof (search_spec s id Hs Hid) as Hsearch.
    rewrite Habs in Hsearch. unfold set_enginetime in Hset.
    destruct id; [done|]. by rewrite Hsearch, bind_ret, Hnew in Hset. }
  destruct (set_enginetime_cases s id boots time authenticated Hs Hid Hroom) as (s1 & Hs1 & ?).
  rewrite Hset in Hs1. by injection Hs1 as -> ->.
Qed.
End routines.
