(* ===== verification/Usm.v ===== *)
(** * The user-based security model: parts of snmplib/snmpusm.c

    The security parameters of an incoming message, and the check that the
    message is not a late or a replayed one. *)

From S2P Require Import Prelude Bytes AsnTypes AsnParse AsnRbuild Oid Lcd.

Definition USM_MAX_ID_LENGTH : Z := 1024.
Definition USM_TIME_WINDOW : Z := 150.
Definition SNMPERR_USM_GENERICERROR : Z := -42.
Definition SNMPERR_USM_NOTINTIMEWINDOW : Z := -49.

(** ** The security parameters *)

(** What a successful parse leaves: the two identifiers, the boots and time,
    the signature and the salt; [*data_ptr]; and the message, in which the
    signature is blanked. *)
Record usm_params : Type := {
  p_secEngineID : list Z;
  p_boots : Z;
  p_time : Z;
  p_secName : list Z;
  p_signature : list Z;
  p_salt : list Z;
  p_data_ptr : Z;
  p_msg : mem
}.

(** [if ((next_ptr = parser(...)) == NULL) return code;] *)
Definition or_return {A B} (r : outcome A) (code : Z) (k : A -> outcome (Z + B)) : outcome (Z + B) :=
  match r with
  | Ret a => k a
  | Null => Ret (inl code)
  | Overrun => Overrun
  | Spin => Spin
  end.

(** [memset(p, 0, n)]. *)
Definition blank (m : mem) (p n : Z) : mem :=
  take (Z.to_nat p) m ++ replicate (Z.to_nat n) 0 ++ drop (Z.to_nat (p + n)) m.

(** Inside the octet string. *)
Definition usm_parse_fields (m : mem) (value_ptr octet_string_length : Z)
    (secEngineIDLen secNameLen signature_length salt_length : Z) : outcome (Z + usm_params) :=
  or_return (asn_parse_sequence m value_ptr octet_string_length (Z.lor ASN_SEQUENCE ASN_CONSTRUCTOR)) (-1)
    (fun '(value_ptr, _, sequence_length) =>
  or_return (asn_parse_string m value_ptr sequence_length secEngineIDLen) (-1)
    (fun '(next_ptr, type_value, secEngineID, remaining_bytes) =>
  if negb (type_value =? ASN_OCTET_STR) then Ret (inl (-1)) else
  or_return (asn_parse_int m next_ptr remaining_bytes sizeof_long) (-1)
    (fun '(next_ptr, type_value, boots_long, remaining_bytes) =>
  if negb (type_value =? ASN_INTEGER) then Ret (inl (-1)) else
  let boots_uint := u32 boots_long in
  or_return (asn_parse_int m next_ptr remaining_bytes sizeof_long) (-1)
    (fun '(next_ptr, type_value, time_long, remaining_bytes) =>
  if negb (type_value =? ASN_INTEGER) then Ret (inl (-1)) else
  let time_uint := u32 time_long in
  if (ENGINEBOOT_MAX <? boots_uint) || (ENGINETIME_MAX <? time_uint) then Ret (inl (-1)) else
  let origNameLen := u32 secNameLen in
  or_return (asn_parse_string m next_ptr remaining_bytes secNameLen) (-1)
    (fun '(next_ptr, type_value, secName, remaining_bytes) =>
  if origNameLen <? u64 (len secName + 1) then Ret (inl (-1)) else
  if 32 <? len secName then Ret (inl (-1)) else
  if negb (type_value =? ASN_OCTET_STR) then Ret (inl (-1)) else
  or_return (asn_parse_string m next_ptr remaining_bytes signature_length) (-1)
    (fun '(next_ptr, type_value, signature, remaining_bytes) =>
  if negb (type_value =? ASN_OCTET_STR) then Ret (inl (-1)) else
  let m := if negb (len signature =? 0) then blank m (next_ptr - len signature) (len signature) else m in
  or_return (asn_parse_string m next_ptr remaining_bytes salt_length) (-2)
    (fun '(data_ptr, type_value, salt, _) =>
  if negb (type_value =? ASN_OCTET_STR) then Ret (inl (-2)) else
  Ret (inr {| p_secEngineID := secEngineID; p_boots := boots_uint; p_time := time_uint;
              p_secName := secName; p_signature := signature; p_salt := salt;
              p_data_ptr := data_ptr; p_msg := m |})))))))).

(** The arguments after [remaining] are the sizes of the four buffers; the
    result is the negative code returned or the parameters. *)
Definition usm_parse_security_parameters (m : mem) (secParams remaining : Z)
    (secEngineIDLen secNameLen signature_length salt_length : Z) : outcome (Z + usm_params) :=
  or_return (asn_parse_sequence m secParams remaining ASN_OCTET_STR) (-1)
    (fun '(value_ptr, _, octet_string_length) =>
  usm_parse_fields m value_ptr octet_string_length secEngineIDLen secNameLen signature_length salt_length).

(** ** Timeliness *)

(** [x > y ? x - y : y - x] on [u_int]s. *)
Definition time_difference (x y : Z) : Z := if y <? x then u32 (x - y) else u32 (y - x).

(** The return value, [*error] and the state.  The counter that is bumped for
    a message outside the window is left out. *)
Definition usm_check_and_update_timeliness `{Platform, Allocator} (s : lcd) (secEngineID : list Z)
    (boots_uint time_uint : Z) : outcome (Z * Z * lcd) :=
  let '(myIDLength, myID) := snmpv3_get_engineID s USM_MAX_ID_LENGTH in
  if (USM_MAX_ID_LENGTH <? myIDLength) || (myIDLength =? 0) then
    Ret (-1, SNMPERR_USM_GENERICERROR, s)
  else
    let myBoots := u32 (snmpv3_local_snmpEngineBoots s) in
    let '(myTime, s) := snmpv3_local_snmpEngineTime s in
    let myTime := u32 myTime in
    if (len secEngineID =? myIDLength) && bool_decide (secEngineID = myID) then
      if (boots_uint =? ENGINEBOOT_MAX) || negb (boots_uint =? myBoots)
         || (USM_TIME_WINDOW <? time_difference myTime time_uint) then
        Ret (-1, SNMPERR_USM_NOTINTIMEWINDOW, s)
      else Ret (0, SNMPERR_SUCCESS, s)
    else
      '(rval, theirBoots, theirTime, theirLastTime, s) ← get_enginetime_ex s (Some secEngineID) true;
      if negb (rval =? SNMPERR_SUCCESS) then Ret (-1, SNMPERR_USM_GENERICERROR, s)
      else if (theirBoots =? ENGINEBOOT_MAX) || (boots_uint <? theirBoots) then
        Ret (-1, SNMPERR_USM_NOTINTIMEWINDOW, s)
      else if (theirBoots =? boots_uint) && (time_uint <? theirLastTime) then
        if USM_TIME_WINDOW <? time_difference theirTime time_uint then
          Ret (-1, SNMPERR_USM_NOTINTIMEWINDOW, s)
        else Ret (0, SNMPERR_SUCCESS, s)
      else
        '(rval, s) ← set_enginetime s (Some secEngineID) boots_uint time_uint true;
        if negb (rval =? SNMPERR_SUCCESS) then Ret (-1, SNMPERR_USM_GENERICERROR, s)
        else Ret (0, SNMPERR_SUCCESS, s).
