(* ===== verification/UsmSpec.v ===== *)
(** * The timeliness check on the map of engines, and runs of messages

    [usm_check_cases] is the check with the lists of lcd_time.c replaced by
    the map of LcdSpec; [step] is one of the ways a message or a query uses
    the clocks, [rtc step] a run of them. *)

From stdpp Require Import gmap list relations.
From S2P Require Import Prelude AsnRbuild Oid Lcd LcdSpec Usm Bytes AsnTypes AsnParse AsnSafety.

Section check.
Context `{Platform, Allocator}.

Lemma estimate_u32 e a t boots time last :
  estimate e a t = (boots, time, last) -> is_u32 time.
Proof using Type.
  unfold estimate, advance. destruct (_ || _).
  - destruct (_ <? _); intros [= _ <- _]; apply u32_range.
  - intros [= _ <- _]. cint.
Qed.

Lemma time_difference_abs x y : is_u32 x -> is_u32 y -> time_difference x y = Z.abs (x - y).
Proof using Type. unfold time_difference. destruct (Z.ltb_spec y x); cint. Qed.

(** The local engine has an identifier [snmpv3_get_engineID] can give. *)
Definition local_is (s : lcd) (my : list Z) : Prop :=
  Lcd.engineID s = Some my /\ 0 < len my <= USM_MAX_ID_LENGTH.

(** A message that carries the local engine's identifier. *)
Definition in_local_window (s : lcd) (boots_uint time_uint : Z) : bool :=
  negb (boots_uint =? ENGINEBOOT_MAX) && (boots_uint =? u32 (engineBoots s))
  && (Z.abs (now s - time_uint) <=? USM_TIME_WINDOW).

(** A message of another engine, whose tuple is estimated at [boots] and
    [time] and was last received with [last]. *)
Definition older (boots last boots_uint time_uint : Z) : bool :=
  (boots =? boots_uint) && (time_uint <? last).

Definition late (boots time last boots_uint time_uint : Z) : bool :=
  (boots =? ENGINEBOOT_MAX) || (boots_uint <? boots)
  || (older boots last boots_uint time_uint && (USM_TIME_WINDOW <? Z.abs (time - time_uint))).

Lemma late_false boots time last boots_uint time_uint :
  late boots time last boots_uint time_uint = false <->
  boots <> ENGINEBOOT_MAX
  /\ (boots < boots_uint
      \/ (boots = boots_uint /\ (last <= time_uint \/ Z.abs (time - time_uint) <= USM_TIME_WINDOW))).
Proof using Type. unfold late, older. lia. Qed.

(** After the two readings of the clock. *)
Definition after_get (e : enginetime) (s : lcd) : lcd := ticked e true (tick s).

Lemma usm_check_local s my boots_uint time_uint :
  local_is s my -> is_u32 time_uint ->
  usm_check_and_update_timeliness s my boots_uint time_uint =
  Ret (if in_local_window s boots_uint time_uint then (0, SNMPERR_SUCCESS, tick s)
       else (-1, SNMPERR_USM_NOTINTIMEWINDOW, tick s)).
Proof using Type.
  intros (Hmy & Hlen) Ht. unfold usm_check_and_update_timeliness, snmpv3_get_engineID.
  rewrite Hmy. destruct (Z.ltb_spec USM_MAX_ID_LENGTH (len my)); [lia|].
  destruct (Z.ltb_spec USM_MAX_ID_LENGTH (len my)); [lia|].
  destruct (Z.eqb_spec (len my) 0); [lia|]. cbn [orb].
  pose proof (now_range s) as Hnow. unfold in_local_window, now, tick in *.
  destruct (snmpv3_local_snmpEngineTime s) as [t s'] eqn:Et. cbn [fst snd] in *.
  rewrite Z.eqb_refl, bool_decide_true by done. cbn [andb].
  rewrite (u32_id t), time_difference_abs by cint. unfold snmpv3_local_snmpEngineBoots.
  rewrite Z.leb_antisym. by destruct (_ =? _), (_ =? _), (_ <? _).
Qed.

Lemma usm_check_remote s my id boots_uint time_uint :
  wf s -> local_is s my -> id <> my -> id <> [] -> is_u32 time_uint ->
  match abs s !! id with
  | None => usm_check_and_update_timeliness s id boots_uint time_uint
            = Ret (-1, SNMPERR_USM_GENERICERROR, tick s)
  | Some e =>
      let '(boots, time, last) := estimate e true (now (tick s)) in
      if late boots time last boots_uint time_uint then
        usm_check_and_update_timeliness s id boots_uint time_uint
        = Ret (-1, SNMPERR_USM_NOTINTIMEWINDOW, after_get e s)
      else exists s',
        usm_check_and_update_timeliness s id boots_uint time_uint = Ret (0, SNMPERR_SUCCESS, s')
        /\ if older boots last boots_uint time_uint then s' = after_get e s
           else set_result (after_get e s) id boots_uint time_uint true s'
  end.
Proof using Type.
  intros Hs (Hmy & Hlen) Hne Hid Ht.
  assert (E : usm_check_and_update_timeliness s id boots_uint time_uint =
    '(rval, theirBoots, theirTime, theirLastTime, s) ← get_enginetime_ex (tick s) (Some id) true;
      if negb (rval =? SNMPERR_SUCCESS) then Ret (-1, SNMPERR_USM_GENERICERROR, s)
      else if (theirBoots =? ENGINEBOOT_MAX) || (boots_uint <? theirBoots) then
        Ret (-1, SNMPERR_USM_NOTINTIMEWINDOW, s)
      else if (theirBoots =? boots_uint) && (time_uint <? theirLastTime) then
        if USM_TIME_WINDOW <? time_difference theirTime time_uint then
          Ret (-1, SNMPERR_USM_NOTINTIMEWINDOW, s)
        else Ret (0, SNMPERR_SUCCESS, s)
      else
        '(rval, s) ← set_enginetime s (Some id) boots_uint time_uint true;
        if negb (rval =? SNMPERR_SUCCESS) then Ret (-1, SNMPERR_USM_GENERICERROR, s)
        else Ret (0, SNMPERR_SUCCESS, s)).
  { unfold usm_check_and_update_timeliness, snmpv3_get_engineID.
    rewrite Hmy. destruct (Z.ltb_spec USM_MAX_ID_LENGTH (len my)); [lia|].
    destruct (Z.ltb_spec USM_MAX_ID_LENGTH (len my)); [lia|].
    destruct (Z.eqb_spec (len my) 0); [lia|]. cbn [orb].
    unfold tick. destruct (snmpv3_local_snmpEngineTime s) as [t s']. cbn [snd].
    by rewrite (bool_decide_false (id = my)), andb_false_r by done. }
  rewrite E, get_enginetime_ex_spec, tick_abs by done. clear E.
  destruct (abs s !! id) as [e|] eqn:He; [|done].
  destruct (estimate e true (now (tick s))) as [[boots time] last] eqn:Eest.
  rewrite bind_ret. fold (after_get e s). apply estimate_u32 in Eest. unfold late, older.
  rewrite time_difference_abs by done. cbn [negb Z.eqb SNMPERR_SUCCESS].
  destruct ((boots =? ENGINEBOOT_MAX) || _); cbn [orb]; [done|].
  destruct ((boots =? boots_uint) && _); cbn [andb]; [destruct (_ <? _); [done|by eexists]|].
  destruct (set_enginetime_cases (after_get e s) id boots_uint time_uint true) as (s' & -> & Hs').
  - unfold after_get. by rewrite ticked_wf, tick_wf.
  - done.
  - unfold after_get. by rewrite ticked_abs, tick_abs, He.
  - by exists s'.
Qed.
End check.

(** ** Runs *)

Section runs.
Context `{Platform, Allocator}.

(** The range of a tuple that [usm_parse_security_parameters] lets through. *)
Definition tuple_ok (boots time : Z) : Prop :=
  0 <= boots <= ENGINEBOOT_MAX /\ 0 <= time <= ENGINETIME_MAX.

Lemma tuple_ok_u32 boots time : tuple_ok boots time -> is_u32 boots /\ is_u32 time.
Proof using Type. unfold tuple_ok, ENGINEBOOT_MAX, ENGINETIME_MAX. cint. Qed.

(** An authenticated message, one that is not, and the two queries. *)
Inductive step (s s' : lcd) : Prop :=
  | step_check id boots_uint time_uint r error :
      id <> [] -> tuple_ok boots_uint time_uint ->
      usm_check_and_update_timeliness s id boots_uint time_uint = Ret (r, error, s') -> step s s'
  | step_unauthenticated id boots_uint time_uint r :
      id <> [] -> tuple_ok boots_uint time_uint ->
      set_enginetime s (Some id) boots_uint time_uint false = Ret (r, s') -> step s s'
  | step_known id r :
      id <> [] -> ISENGINEKNOWN s (Some id) = Ret (r, s') -> step s s'
  | step_get id authenticated r boots time :
      id <> [] -> get_enginetime s (Some id) authenticated = Ret (r, boots, time, s') -> step s s'.

Definition stored_ok (s : lcd) : Prop :=
  map_Forall (fun _ e => tuple_ok (engineBoot e) (engineTime e)) (abs s).

(** The tuple does not go back. *)
Definition newer (e e' : enginetime) : Prop :=
  engineBoot e < engineBoot e' \/ (engineBoot e = engineBoot e' /\ engineTime e <= engineTime e').

(** What a step may do to the records. *)
Definition advances (s s' : lcd) : Prop :=
  forall id e, abs s !! id = Some e -> authenticatedFlag e = true ->
  exists e', abs s' !! id = Some e' /\ authenticatedFlag e' = true /\ newer e e'.

Definition good (s : lcd) (my : list Z) : Prop := wf s /\ stored_ok s /\ local_is s my.

Lemma advances_refl s s' : abs s' = abs s -> advances s s'.
Proof using Type. intros Habs id e He Ha. exists e. rewrite Habs. unfold newer. auto with lia. Qed.

Lemma advances_trans s1 s2 s3 : advances s1 s2 -> advances s2 s3 -> advances s1 s3.
Proof using Type.
  intros H12 H23 id e He Ha. destruct (H12 id e He Ha) as (e' & He' & Ha' & Hn).
  destruct (H23 id e' He' Ha') as (e'' & He'' & Ha'' & Hn'). exists e''. unfold newer in *.
  repeat split; try done. lia.
Qed.

(** A set that only moves an authenticated record forwards. *)
Lemma set_result_good s my id boots time a s' :
  good s my -> tuple_ok boots time -> set_result s id boots time a s' ->
  (forall e, abs s !! id = Some e -> authenticatedFlag e = true -> a = true ->
             newer e (stamp boots time a (now s) e)) ->
  good s' my /\ advances s s'.
Proof using Type.
  intros (Hs & Hu & Hmy) Hb [Hwf Hset] Hnew. unfold overwrites in Hset.
  destruct (a || _) eqn:Ea; [|subst s'; split; [done|by apply advances_refl]].
  destruct Hset as [Habs Hloc]. apply local_engineID in Hloc. rewrite tick_engineID in Hloc.
  split; [split; [done|split]|].
  - unfold stored_ok. rewrite Habs. apply map_Forall_insert_2; done.
  - unfold local_is. by rewrite Hloc.
  - intros j e He Hf. rewrite Habs. destruct (decide (j = id)) as [->|]; [|].
    + rewrite lookup_insert_eq. eexists. split; [reflexivity|].
      assert (Hr : record_of s id = e) by (unfold record_of; by rewrite He). rewrite Hr in *.
      rewrite Hf, orb_false_r in Ea. auto.
    + rewrite lookup_insert_ne by done. exists e. unfold newer. auto with lia.
Qed.

(** The estimate of a record's boots is at least its boots. *)
Lemma estimate_boots e t boots time last :
  tuple_ok (engineBoot e) (engineTime e) -> authenticatedFlag e = true -> estimate e true t = (boots, time, last) ->
  last = engineTime e /\ (boots = engineBoot e \/ boots = engineBoot e + 1).
Proof using Type.
  unfold estimate, advance. intros Hu ->. cbn [negb orb]. destruct (_ <? _).
  - intros [= <- _ <-]. split; [done|]. destruct (Z.ltb_spec (engineBoot e) ENGINEBOOT_MAX) as [Hlt|]; [|auto].
    right. destruct Hu as [Hu _]. unfold ENGINEBOOT_MAX in Hlt. apply u32_id. cint.
  - intros [= <- _ <-]. auto.
Qed.

Lemma good_tick s my : good (tick s) my <-> good s my.
Proof using Type. done. Qed.

Lemma good_ticked s e a my : good (ticked e a s) my <-> good s my.
Proof using Type. unfold ticked. by destruct (_ || _). Qed.

Lemma step_good s s' my : step s s' -> good s my -> good s' my /\ advances s s'.
Proof using Type.
  intros Hstep Hg. assert (Hs : wf s) by apply Hg.
  destruct Hstep as [id b t r err Hid Hbt E|id b t r Hid Hbt E|id r Hid E|id a r b t Hid E].
  - destruct (decide (id = my)) as [->|Hne].
    { rewrite (usm_check_local s my) in E by (apply Hg || apply (tuple_ok_u32 _ _ Hbt)).
      assert (s' = tick s) as -> by (destruct (in_local_window s b t); congruence).
      split; [done|by apply advances_refl]. }
    pose proof (usm_check_remote s my id b t Hs (proj2 (proj2 Hg)) Hne Hid (proj2 (tuple_ok_u32 _ _ Hbt))) as Hr.
    destruct (abs s !! id) as [e|] eqn:He.
    2: { rewrite E in Hr. injection Hr as -> -> ->. split; [done|by apply advances_refl]. }
    destruct (estimate e true (now (tick s))) as [[boots time] last] eqn:Eest.
    assert (Hag : good (after_get e s) my /\ advances s (after_get e s)).
    { unfold after_get. rewrite good_ticked. split; [done|]. apply advances_refl. by rewrite ticked_abs. }
    destruct (late boots time last b t) eqn:El.
    { rewrite E in Hr. by injection Hr as -> -> ->. }
    destruct Hr as (s1 & E1 & Hr). rewrite E in E1. injection E1 as -> -> <-.
    destruct (older boots last b t) eqn:Eo; [by subst s'|].
    destruct (set_result_good (after_get e s) my id b t true s') as [Hg' Hadv]; [apply Hag|done|done| |].
    + unfold after_get. rewrite ticked_abs, tick_abs. intros e' He' Hf _. rewrite He in He'. simplify_eq.
      destruct (estimate_boots e' _ _ _ _ (proj1 (proj2 Hg) _ _ He) Hf Eest) as [-> Hboots].
      unfold late, older in El, Eo. unfold newer. cbn. lia.
    + split; [done|]. eapply advances_trans; [apply Hag|done].
  - apply set_enginetime_inv in E as [-> E]; [|done|done].
    by apply (set_result_good s my id b t false s').
  - unfold ISENGINEKNOWN in E. rewrite get_enginetime_spec in E by done.
    destruct (abs s !! id) as [e|].
    + destruct (estimate _ _ _) as [[? ?] ?]. injection E as _ <-. rewrite good_ticked.
      split; [done|]. apply advances_refl, ticked_abs.
    + injection E as _ <-. split; [done|by apply advances_refl].
  - rewrite get_enginetime_spec in E by done. destruct (abs s !! id) as [e|].
    + destruct (estimate _ _ _) as [[? ?] ?]. injection E as _ _ _ <-. rewrite good_ticked.
      split; [done|]. apply advances_refl, ticked_abs.
    + injection E as _ _ _ <-. split; [done|by apply advances_refl].
Qed.

Lemma run_good s s' my : rtc step s s' -> good s my -> good s' my /\ advances s s'.
Proof using Type.
  induction 1 as [s|s s1 s2 Hstep _ IH]; intros Hg; [split; [done|by apply advances_refl]|].
  destruct (step_good _ _ _ Hstep Hg) as [Hg1 Ha1]. destruct (IH Hg1) as [Hg2 Ha2].
  split; [done|]. by eapply advances_trans.
Qed.

(** A tuple older than the one a record was made of is late. *)
Lemma old_is_late s e e' boots time B T L :
  newer e e' -> authenticatedFlag e' = true -> tuple_ok (engineBoot e') (engineTime e') -> is_u32 time ->
  boots < engineBoot e
  \/ (boots = engineBoot e /\ time + USM_TIME_WINDOW < engineTime e
      /\ 0 <= lastReceivedEngineTime e' <= now (tick s)) ->
  estimate e' true (now (tick s)) = (B, T, L) -> late B T L boots time = true.
Proof using Type.
  intros Hn Hf' Hu Ht Hold Eest.
  destruct (estimate_boots e' _ _ _ _ Hu Hf' Eest) as [-> HB].
  unfold late, older, newer, tuple_ok, USM_TIME_WINDOW in *.
  destruct Hold as [Hlt|(-> & Htime & Hclock)]; [lia|].
  destruct (decide (engineBoot e < B)); [lia|].
  assert (T >= engineTime e' \/ B = ENGINEBOOT_MAX); [|lia].
  revert Eest. unfold estimate, advance. rewrite Hf'. cbn [negb orb].
  pose proof (now_range (tick s)) as Hnow. unfold ENGINETIME_MAX, ENGINEBOOT_MAX in *.
  rewrite (u32_id (2147483647 - _)), (s32_id (2147483647 - _)) by cint.
  rewrite (u64_id (now (tick s) - _)), s32_id by cint.
  destruct (Z.ltb_spec (2147483647 - engineTime e') (now (tick s) - lastReceivedEngineTime e')).
  - destruct (Z.ltb_spec (engineBoot e') 2147483647); [|intros [= <- _]; lia].
    intros [= <- _]. assert (u32 (engineBoot e' + 1) = engineBoot e' + 1) by (apply u32_id; cint). lia.
  - intros [= _ <-]. rewrite u32_id by cint. lia.
Qed.
End runs.

(** * The security parameters parsed from arbitrary bytes

    The judgement [safe] of AsnSafety, carried through the early returns of
    [usm_parse_security_parameters] and the blanking of the signature. *)

Lemma rd_n_inv m n : forall p l, 0 <= p -> rd_n m p n = Ret l ->
  length l = n /\ bytes_at m p l /\ (l <> [] -> p + len l <= Z.of_nat (length m)).
Proof.
  unfold len. induction n as [|n IH]; intros p l Hp; cbn [rd_n]; [by intros [= <-]|].
  intros (b & Hb & (l' & Hl' & [= <-])%bind_Ret_inv)%bind_Ret_inv.
  destruct (IH (p + 1) l') as (Hn & Hat & Hin); [lia|done|]. cbn [length bytes_at].
  split; [by rewrite Hn|]. split; [done|]. intros _. destruct l' as [|x l'].
  - apply rd_bound in Hb. cbn. lia.
  - cbn [length] in *. assert (x :: l' <> []) as Hne by done. specialize (Hin Hne). lia.
Qed.

(** The string a parser hands out stands in front of the next object. *)
Lemma asn_parse_string_at m data dl strlength q t s dl' : bytes_ok m -> 0 <= data -> 0 <= dl < 2 ^ 62 ->
  asn_parse_string m data dl strlength = Ret (q, t, s, dl') ->
  data + 2 <= q - len s /\ bytes_at m (q - len s) s /\ (s <> [] -> q <= Z.of_nat (length m)).
Proof.
  intros Hm Hd Hdl. unfold asn_parse_string, len.
  intros (b & _ & E)%bind_Ret_inv. destruct (_ && _); [done|].
  apply bind_Ret_inv in E as ([p n] & Hp & E).
  pose proof (checked_1 m Hm data dl Hd Hdl) as Hc. rewrite Hp in Hc. cbn in Hc.
  destruct (_ <? _); [done|]. apply bind_Ret_inv in E as (l & Hl & [= <- <- <- _]).
  apply rd_n_inv in Hl as (Hn & Hat & Hin); [|lia]. unfold len in Hin. rewrite Hn, Z2Nat.id in * by lia.
  replace (p + n - n) with p by lia. split; [lia|]. split; [done|]. intros Hne. specialize (Hin Hne). lia.
Qed.

Lemma blank_length m p n : 0 <= p -> 0 <= n -> p + n <= Z.of_nat (length m) -> length (blank m p n) = length m.
Proof. intros. unfold blank. rewrite !length_app, length_take, length_replicate, length_drop. lia. Qed.

Lemma blank_ok m p n : bytes_ok m -> bytes_ok (blank m p n).
Proof.
  intros Hm. unfold blank, bytes_ok. rewrite !Forall_app. split; [by apply Forall_take|].
  split; [apply Forall_replicate; cint|by apply Forall_drop].
Qed.

Lemma safe_or_return {A B} m lim (P : A -> Prop) (Q : Z + B -> Prop) r code k :
  safe m lim P r -> Q (inl code) -> (forall a, r = Ret a -> P a -> safe m lim Q (k a)) ->
  safe m lim Q (or_return r code k).
Proof. destruct r; cbn; auto. Qed.

(** What is promised of the parameters of a message of [n] bytes at [p]. *)
Definition params_ok (m : mem) (p n id_len name_len sig_len salt_len : Z) (r : Z + usm_params) : Prop :=
  match r with
  | inl code => code = -1 \/ code = -2
  | inr q =>
      0 <= p_boots q <= ENGINEBOOT_MAX /\ 0 <= p_time q <= ENGINETIME_MAX
      /\ len (p_secEngineID q) <= id_len
      /\ len (p_secName q) <= 32 /\ len (p_secName q) < name_len
      /\ len (p_signature q) <= sig_len /\ len (p_salt q) <= salt_len
      /\ p + 16 <= p_data_ptr q <= p + n
      /\ exists k, p <= k /\ k + len (p_signature q) <= p_data_ptr q
                   /\ bytes_at m k (p_signature q)
                   /\ p_msg q = blank m k (len (p_signature q))
  end.

Lemma blank_none m k : blank m k 0 = m.
Proof. unfold blank. rewrite Z.add_0_r. cbn. apply take_drop. Qed.

(** ** One parser and its early return *)

Lemma string_safe {B} m lim (Q : Z + B -> Prop) q n size code
    (k : Z * Z * list Z * Z -> outcome (Z + B)) : bytes_ok m ->
  0 <= q -> 0 <= n < 2 ^ 62 -> q + n + 12 <= lim -> Q (inl code) ->
  (forall q' t s n', q + 2 <= q' -> q' + n' = q + n -> 0 <= n' -> len s <= size ->
     q + 2 <= q' - len s -> bytes_at m (q' - len s) s -> (s <> [] -> q' <= Z.of_nat (length m)) ->
     safe m lim Q (k (q', t, s, n'))) ->
  safe m lim Q (or_return (asn_parse_string m q n size) code k).
Proof.
  intros Hm Hq Hn Hlim Hc Hk. eapply safe_or_return; [|done|].
  { eapply safe_lim; [|apply (asn_parse_string_safe m Hm q n); lia]. lia. }
  intros [[[q' t] s] n'] E ((H1 & H2 & H3) & Hl).
  apply asn_parse_string_at in E as (? & ? & ?); [|done|done|done]. by apply Hk.
Qed.

Lemma int_safe {B} m lim (Q : Z + B -> Prop) q n size code
    (k : Z * Z * Z * Z -> outcome (Z + B)) : bytes_ok m ->
  0 <= q -> 0 <= n < 2 ^ 62 -> q + n + 12 <= lim -> Q (inl code) ->
  (forall q' t v n', q + 2 <= q' -> q' + n' = q + n -> 0 <= n' -> safe m lim Q (k (q', t, v, n'))) ->
  safe m lim Q (or_return (asn_parse_int m q n size) code k).
Proof.
  intros Hm Hq Hn Hlim Hc Hk. eapply safe_or_return; [|done|].
  { eapply safe_lim; [|apply (asn_parse_int_safe m Hm q n); lia]. lia. }
  intros [[[q' t] v] n'] _ (H1 & H2 & H3). by apply Hk.
Qed.

Lemma sequence_safe {B} m lim (Q : Z + B -> Prop) q n expected code
    (k : Z * Z * Z -> outcome (Z + B)) : bytes_ok m ->
  0 <= q -> 0 <= n < 2 ^ 62 -> q + n + 12 <= lim -> Q (inl code) ->
  (forall q' t n', q + 2 <= q' -> 0 <= n' -> q' + n' <= q + n -> safe m lim Q (k (q', t, n'))) ->
  safe m lim Q (or_return (asn_parse_sequence m q n expected) code k).
Proof.
  intros Hm Hq Hn Hlim Hc Hk.
  apply (safe_or_return m lim (fun '(q', _, n') => q + 2 <= q' /\ 0 <= n' /\ q' + n' <= q + n)); [|done|].
  - eapply safe_lim; [exact Hlim|]. unfold asn_parse_sequence.
    eapply safe_bind; [apply (asn_parse_header_safe m Hm q n); lia|].
    intros [[q' t] n'] ?. destruct (negb _); cbn; [done|lia].
  - intros [[q' t] n'] _ (? & ? & ?). by apply Hk.
Qed.

(** ** All of them *)

(** The octet string is [n] bytes at [p]; its header is at least two more. *)
Lemma usm_parse_fields_safe m p n id_len name_len sig_len salt_len :
  bytes_ok m -> 2 <= p -> 0 <= n < 2 ^ 62 -> is_u32 name_len ->
  safe m (p + n + 12) (params_ok m (p - 2) (n + 2) id_len name_len sig_len salt_len)
    (usm_parse_fields m p n id_len name_len sig_len salt_len).
Proof.
  intros Hm Hp Hn Hname. unfold usm_parse_fields.
  assert (H1 : params_ok m (p - 2) (n + 2) id_len name_len sig_len salt_len (inl (-1))) by (left; done).
  assert (H2 : params_ok m (p - 2) (n + 2) id_len name_len sig_len salt_len (inl (-2))) by (right; done).
  apply sequence_safe; [done|lia|lia|lia|done|]. intros p2 _ n2 ? ? ?.
  apply string_safe; [done|lia|lia|lia|done|]. intros p3 t3 id n3 ? ? ? Hid _ _ _.
  destruct (negb _); [done|].
  apply int_safe; [done|lia|lia|lia|done|]. intros p4 t4 boots n4 ? ? ?. destruct (negb _); [done|].
  apply int_safe; [done|lia|lia|lia|done|]. intros p5 t5 time n5 ? ? ?. destruct (negb _); [done|].
  cbn zeta. destruct (Z.ltb_spec ENGINEBOOT_MAX (u32 boots)) as [|Hboots]; [done|].
  destruct (Z.ltb_spec ENGINETIME_MAX (u32 time)) as [|Htime]; [done|]. cbn [orb].
  apply string_safe; [done|lia|lia|lia|done|]. intros p6 t6 name n6 ? ? ? Hnl _ _ _.
  rewrite (u32_id name_len) by done.
  destruct (Z.ltb_spec name_len (u64 (len name + 1))) as [|Hroom]; [done|].
  destruct (Z.ltb_spec 32 (len name)) as [|H32]; [done|]. destruct (negb _); [done|].
  apply string_safe; [done|lia|lia|lia|done|]. intros p7 t7 sig n7 ? ? ? Hsig ? Hat Hin.
  destruct (negb _); [done|].
  assert (Hlen : 0 <= len sig) by (unfold len; lia). assert (Hlen' : 0 <= len name) by (unfold len; lia).
  replace (if negb (len sig =? 0) then blank m (p7 - len sig) (len sig) else m)
    with (blank m (p7 - len sig) (len sig)).
  2: { destruct (Z.eqb_spec (len sig) 0) as [->|]; cbn [negb]; [apply blank_none|done]. }
  assert (Hmem : length (blank m (p7 - len sig) (len sig)) = length m).
  { destruct sig as [|b sig]; [by rewrite blank_none|]. apply blank_length; [lia|lia|].
    replace (p7 - len (b :: sig) + len (b :: sig)) with p7 by lia. by apply Hin. }
  assert (Hsame : forall Q r, safe (A := Z + usm_params) (blank m (p7 - len sig) (len sig)) (p + n + 12) Q r ->
    safe m (p + n + 12) Q r) by (intros Q r; unfold safe; by rewrite Hmem).
  apply Hsame. apply string_safe; [by apply blank_ok|lia|lia|lia|done|].
  intros p8 t8 salt n8 ? ? ? Hsalt _ _ _. destruct (negb _); [done|]. cbn.
  rewrite u64_id in Hroom by cint.
  split; [pose proof (u32_range boots) as Hu; unfold is_u32 in Hu; lia|].
  split; [pose proof (u32_range time) as Hu; unfold is_u32 in Hu; lia|].
  split; [done|]. split; [done|]. split; [lia|]. split; [done|]. split; [done|]. split; [lia|].
  exists (p7 - len sig). split; [lia|]. split; [lia|]. done.
Qed.

Lemma params_ok_mono m p n p' n' id_len name_len sig_len salt_len r :
  p' <= p -> p + n <= p' + n' ->
  params_ok m p n id_len name_len sig_len salt_len r -> params_ok m p' n' id_len name_len sig_len salt_len r.
Proof.
  intros H1 H2. destruct r as [code|q]; [exact (fun H => H)|]. unfold params_ok.
  intros (? & ? & ? & ? & ? & ? & ? & Hp & k & ? & ? & ? & ?).
  do 7 (split; [assumption|]). split; [lia|]. exists k. split; [lia|]. auto.
Qed.

Lemma usm_parse_safe m p n id_len name_len sig_len salt_len :
  bytes_ok m -> 0 <= p -> 0 <= n < 2 ^ 62 -> is_u32 name_len ->
  safe m (p + n + 12) (params_ok m p n id_len name_len sig_len salt_len)
    (usm_parse_security_parameters m p n id_len name_len sig_len salt_len).
Proof.
  intros Hm Hp Hn Hname. unfold usm_parse_security_parameters.
  apply sequence_safe; [done|done|done|lia|by left|]. intros p1 _ n1 ? ? ?.
  eapply safe_lim, safe_mono; [|apply usm_parse_fields_safe; [done|lia|lia|done]|].
  - lia.
  - intros r. apply params_ok_mono; lia.
Qed.

(** Whatever number of bytes is announced, the octet string is at most 2^31
    of them, and what is parsed from it is as promised. *)
Lemma asn_parse_sequence_out m p n expected q t n' : bytes_ok m -> 0 <= p ->
  asn_parse_sequence m p n expected = Ret (q, t, n') -> p + 2 <= q /\ 0 <= n' < 2 ^ 62 /\ q + n' <= p + n.
Proof.
  intros Hm Hp. unfold asn_parse_sequence, asn_parse_header. rewrite !bind_assoc.
  intros (b0 & _ & E)%bind_Ret_inv. destruct (IS_EXTENSION_ID b0); [done|]. rewrite bind_assoc in E.
  assert (Hchk : forall r, p < r <= p + 20 -> forall q n', parse_length_checked m r p n = Ret (q, n') ->
    p + 2 <= q <= r + 9 /\ 0 <= u64 (s32 n') < 2 ^ 62 /\ q + u64 (s32 n') <= p + n).
  { intros r Hr q1 n1 H1. pose proof (parse_length_checked_safe m Hm (p + 40) r p n) as Hs.
    rewrite H1 in Hs. cbn in Hs. rewrite s32_id, u64_id by cint. lia. }
  apply bind_Ret_inv in E as ([q1 n1] & H1 & E). apply Hchk in H1; [|lia].
  assert (Hdone : forall t1, (if negb (t1 =? expected) then Null else Ret (q1, t1, u64 (s32 n1))) = Ret (q, t, n') ->
    p + 2 <= q /\ 0 <= n' < 2 ^ 62 /\ q + n' <= p + n) by (intros t1; destruct (negb _); [done|intros [= <- <- <-]; lia]).
  destruct (b0 =? ASN_OPAQUE); [|by eapply Hdone]. rewrite bind_assoc in E.
  apply bind_Ret_inv in E as (b1 & _ & E). destruct (b1 =? _); [|by eapply Hdone]. rewrite bind_assoc in E.
  apply bind_Ret_inv in E as (b2 & _ & E). destruct (is_opaque_special b2); [|by eapply Hdone]. rewrite bind_assoc in E.
  apply bind_Ret_inv in E as ([q2 n2] & H2 & E). apply Hchk in H2; [|lia].
  rewrite bind_ret in E. destruct (negb _); [done|]. injection E as <- <- <-. lia.
Qed.

Lemma usm_parse_out m p n id_len name_len sig_len salt_len q :
  bytes_ok m -> 0 <= p -> is_u32 name_len ->
  usm_parse_security_parameters m p n id_len name_len sig_len salt_len = Ret (inr q) ->
  params_ok m p n id_len name_len sig_len salt_len (inr q).
Proof.
  intros Hm Hp Hname. unfold usm_parse_security_parameters, or_return.
  destruct (asn_parse_sequence _ _ _ _) as [[[p1 t1] n1]| | |] eqn:E; try discriminate.
  apply asn_parse_sequence_out in E as (Hq & Hn1 & Hend); [|done|done]. intros Hr.
  pose proof (usm_parse_fields_safe m p1 n1 id_len name_len sig_len salt_len Hm ltac:(lia) Hn1 Hname) as Hs.
  rewrite Hr in Hs. eapply params_ok_mono, Hs; lia.
Qed.
