(* ===== verification/UsmProps.v ===== *)
(** * Properties of the engine clocks and of the timeliness check *)

From stdpp Require Import gmap list relations.
From S2P Require Import Prelude Bytes AsnTypes AsnRbuild AsnSafety Oid Lcd LcdSpec Usm UsmSpec Samples.

(** ** A system for the witnesses *)

Lemma sample_digest_bytes n m : Forall is_u8 (replicate n (len m mod 256)).
Proof. apply Forall_replicate. unfold is_u8. pose proof (Z.mod_pos_bound (len m) 256). lia. Qed.

(** The digest repeats the length; the clock shows what it is told. *)
Definition sample (c : nat -> timeval) : Platform := {|
  clock := c;
  EVP_md5 := fun m => replicate 16 (len m mod 256);
  EVP_sha1 := fun m => replicate 20 (len m mod 256);
  EVP_md5_length := fun m => length_replicate 16 _;
  EVP_md5_bytes := fun m => sample_digest_bytes 16 m;
  EVP_sha1_length := fun m => length_replicate 20 _
|}.

(** A reading every ten seconds. *)
Definition steady (k : nat) : timeval := {| tv_sec := 1000 + 10 * Z.of_nat k; tv_usec := 0 |}.

Definition start : lcd := {|
  etimelist := replicate 23 []; engineID := Some [1; 2; 3]; engineBoots := 5; last_engineTime := 0;
  snmpv3starttime := {| tv_sec := 900; tv_usec := 0 |}; reads := 0 |}.

Lemma start_wf c : wf (H := sample c) start.
Proof.
  split; [done|]. intros i l Hl. apply lookup_replicate in Hl as [-> _]. split; constructor.
Qed.

(** One authenticated engine, [\[9\]], with boots 7 and time 500, received
    when the local clock showed 100. *)
Definition known : enginetime := stamp 7 500 true 100 (fresh [9]).

Definition with_known : lcd := with_etimelist (<[4%nat := [known]]> (etimelist start)) start.

Lemma with_known_wf c : wf (H := sample c) with_known.
Proof.
  apply (lists_ok_insert (H := sample c)); [apply start_wf|].
  split; [constructor; [done|done]|]. apply NoDup_singleton.
Qed.

Lemma with_known_good c : good (H := sample c) with_known [1; 2; 3].
Proof.
  split; [apply with_known_wf|]. split; [|done]. unfold stored_ok.
  change (abs with_known) with (<[[9] := known]> (∅ : gmap (list Z) enginetime)).
  apply map_Forall_insert_2; [done|apply map_Forall_empty].
Qed.

(** ** Replay *)

(** C16: once a tuple of boots and time was received from an engine in an
    authenticated message, it never goes back: no sequence of messages and
    queries, for whatever engines and authenticated or not, removes the
    record, clears its mark, or lets the boots, or the time under the same
    boots, decrease. *)
Theorem timeliness_monotone `{Platform, Allocator} s s' my id e :
  good s my -> rtc step s s' -> abs s !! id = Some e -> authenticatedFlag e = true ->
  exists e', abs s' !! id = Some e' /\ authenticatedFlag e' = true /\ newer e e'.
Proof. intros Hg Hrun He Hf. destruct (run_good s s' my Hrun Hg) as [_ Hadv]. by apply Hadv. Qed.

Definition sample_steady : Platform := sample steady.

(** An unauthenticated message with a younger tuple leaves the record alone. *)
Lemma timeliness_monotone_witness :
  exists s' e', set_enginetime (H := sample_steady) with_known (Some [9]) 8 0 false = Ret (SNMPERR_SUCCESS, s')
  /\ abs s' !! [9] = Some e' /\ authenticatedFlag e' = true /\ newer known e'.
Proof.
  destruct (timeliness_monotone (H := sample_steady) with_known with_known [1; 2; 3] [9] known)
    as (e' & He' & Hf & Hn).
  - exact (with_known_good steady).
  - apply rtc_once, (step_unauthenticated (H := sample_steady) _ _ [9] 8 0 SNMPERR_SUCCESS).
    + discriminate.
    + by vm_compute.
    + reflexivity.
  - reflexivity.
  - reflexivity.
  - exists with_known, e'. split; [reflexivity|]. split; [exact He'|]. split; [exact Hf|exact Hn].
Defined.

(** A replayed message is refused.  After any run that follows an
    authenticated tuple of another engine, a message with fewer boots is out
    of the time window; so is one with the same boots whose time lies more
    than 150 seconds before the one received, as long as the local clock has
    not wrapped since the record was last written. *)
Theorem replay_rejected `{Platform, Allocator} s s' my id e boots time :
  good s my -> rtc step s s' -> abs s !! id = Some e -> authenticatedFlag e = true ->
  id <> [] -> id <> my -> is_u32 time ->
  boots < engineBoot e
  \/ (boots = engineBoot e /\ time + USM_TIME_WINDOW < engineTime e
      /\ forall e', abs s' !! id = Some e' ->
           0 <= lastReceivedEngineTime e' <= now (tick s')) ->
  exists s'', usm_check_and_update_timeliness s' id boots time = Ret (-1, SNMPERR_USM_NOTINTIMEWINDOW, s'').
Proof.
  intros Hg Hrun He Hf Hid Hmy Ht Hold. destruct (run_good s s' my Hrun Hg) as [Hg' Hadv].
  destruct (Hadv id e He Hf) as (e' & He' & Hf' & Hn).
  pose proof (usm_check_remote s' my id boots time (proj1 Hg') (proj2 (proj2 Hg')) Hmy Hid Ht) as Hr.
  rewrite He' in Hr. destruct (estimate e' true (now (tick s'))) as [[B T] L] eqn:Eest.
  rewrite (old_is_late s' e e' boots time B T L) in Hr; try done; [by eexists|exact (proj1 (proj2 Hg') id e' He')|].
  destruct Hold as [|(? & ? & Hc)]; [by left|right]. auto.
Qed.

Lemma replay_rejected_witness :
  exists s'', usm_check_and_update_timeliness (H := sample_steady) with_known [9] 7 340
              = Ret (-1, SNMPERR_USM_NOTINTIMEWINDOW, s'').
Proof.
  apply (replay_rejected (H := sample_steady) with_known with_known [1; 2; 3] [9] known 7 340).
  - exact (with_known_good steady).
  - apply rtc_refl.
  - reflexivity.
  - reflexivity.
  - discriminate.
  - discriminate.
  - by vm_compute.
  - right. split; [reflexivity|]. split; [reflexivity|]. intros e'.
    change (Some known = Some e' -> 0 <= lastReceivedEngineTime e' <= 110). intros [= <-]. by vm_compute.
Defined.

(** ** The decision *)

(** The message is in time: for the local engine inside the window of 150
    seconds under the current boots; for another engine with more boots than
    the last message received, or with the same boots and a time that is not
    before the last one received, however far from the estimate of its clock,
    or at most 150 seconds from that estimate. *)
Definition in_time `{Platform} (s : lcd) (my id : list Z) (boots time : Z) : Prop :=
  if bool_decide (id = my) then
    boots <> ENGINEBOOT_MAX /\ boots = u32 (engineBoots s) /\ Z.abs (now s - time) <= USM_TIME_WINDOW
  else
    exists e B T L, abs s !! id = Some e /\ estimate e true (now (tick s)) = (B, T, L)
      /\ B <> ENGINEBOOT_MAX
      /\ (B < boots \/ (B = boots /\ (L <= time \/ Z.abs (T - time) <= USM_TIME_WINDOW))).

(** C32: the timeliness check returns 0 exactly for the messages that are in
    time (of another engine: not before the last time received from it, or at most
    150 seconds off the estimate of its clock), and -1 for the others, with [NOTINTIMEWINDOW] for an engine it has
    a record of; the lists stay well formed, and all that changes in them is
    that an accepted message of another engine may become its record. *)
Theorem timeliness_decision `{Platform, Allocator} s my id boots time :
  wf s -> local_is s my -> id <> [] -> is_u32 time ->
  exists r error s', usm_check_and_update_timeliness s id boots time = Ret (r, error, s')
  /\ wf s'
  /\ (r = 0 <-> in_time s my id boots time)
  /\ (r = 0 -> error = SNMPERR_SUCCESS)
  /\ (r <> 0 -> r = -1 /\ abs s' = abs s
                /\ error = if bool_decide (id = my \/ is_Some (abs s !! id))
                           then SNMPERR_USM_NOTINTIMEWINDOW else SNMPERR_USM_GENERICERROR)
  /\ (abs s' = abs s
      \/ id <> my /\ exists e t, abs s !! id = Some e
                     /\ abs s' = <[id := stamp boots time true t e]> (abs s)).
Proof.
  intros Hs Hmy Hid Ht. unfold in_time. destruct (decide (id = my)) as [->|Hne].
  - rewrite (usm_check_local s my) by done. rewrite !bool_decide_true by auto.
    destruct (in_local_window s boots time) eqn:E; do 3 eexists; (split; [reflexivity|]);
      unfold in_local_window in E; (split; [exact Hs|]); repeat split; try done; try lia; by left.
  - pose proof (usm_check_remote s my id boots time Hs Hmy Hne Hid Ht) as Hr.
    rewrite (bool_decide_false (id = my)) by done. cbv iota.
    destruct (abs s !! id) as [e|] eqn:He.
    2: { rewrite Hr, bool_decide_false by (intros [?|[? ?]]; done). do 3 eexists.
         split; [reflexivity|]. split; [exact Hs|]. repeat split; try done; [|by left]. by intros (? & ? & ? & ? & ? & _). }
    rewrite bool_decide_true by eauto.
    destruct (estimate e true (now (tick s))) as [[B T] L] eqn:Eest.
    assert (Hin : late B T L boots time = false <->
      exists e' B T L, Some e = Some e' /\ estimate e' true (now (tick s)) = (B, T, L)
      /\ B <> ENGINEBOOT_MAX
      /\ (B < boots \/ (B = boots /\ (L <= time \/ Z.abs (T - time) <= USM_TIME_WINDOW)))).
    { rewrite late_false. split; [intros; by exists e, B, T, L|].
      intros (? & ? & ? & ? & [= <-] & Heq & Hok). rewrite Eest in Heq. by injection Heq as <- <- <-. }
    setoid_rewrite <- Hin. destruct (late B T L boots time) eqn:El.
    { rewrite Hr. do 3 eexists. split; [reflexivity|]. unfold after_get. rewrite ticked_wf, ticked_abs.
      split; [exact Hs|]. repeat split; try done. by left. }
    destruct Hr as (s' & -> & Hr). do 3 eexists. split; [reflexivity|].
    destruct (older B L boots time).
    { subst s'. unfold after_get. rewrite ticked_wf, ticked_abs. split; [exact Hs|].
      repeat split; try done. by left. }
    destruct Hr as [Hwf [Habs _]]. split; [done|]. repeat split; try done. right. split; [done|].
    exists e, (now (after_get e s)). split; [done|]. rewrite Habs. unfold record_of, after_get.
    by rewrite !ticked_abs, tick_abs, He.
Qed.

Lemma timeliness_decision_witness :
  exists r error s',
    usm_check_and_update_timeliness (H := sample_steady) with_known [9] 7 340 = Ret (r, error, s')
    /\ (r = 0 <-> in_time (H := sample_steady) with_known [1; 2; 3] [9] 7 340).
Proof.
  destruct (timeliness_decision (H := sample_steady) with_known [1; 2; 3] [9] 7 340)
    as (r & error & s' & E & _ & Hr & _).
  - apply with_known_wf.
  - by vm_compute.
  - discriminate.
  - by vm_compute.
  - exists r, error, s'. exact (conj E Hr).
Defined.

(** ** The records *)

(** C37: the lists refine a finite map from engine identifiers to records.
    [set_enginetime] succeeds whenever it has the room for a record it lacks:
    it writes the given tuple, stamped with the local time, into the record
    of that engine unless this would put an unauthenticated tuple over an
    authenticated one, leaves all others as they are, and keeps one record
    per engine in the list of its index; reading then gives the estimate
    made from the record. *)
Theorem lcd_refines `{Platform, Allocator} s id boots time a reader :
  wf s -> id <> [] ->
  match abs s !! id with Some _ => True | None => room_for id = true end ->
  let old := default (fresh id) (abs s !! id) in
  let new := if a || negb (authenticatedFlag old) then stamp boots time a (now s) old else old in
  exists s', set_enginetime s (Some id) boots time a = Ret (SNMPERR_SUCCESS, s')
  /\ wf s' /\ abs s' = <[id := new]> (abs s)
  /\ exists s'', let '(B, T, L) := estimate new reader (now s') in
       get_enginetime_ex s' (Some id) reader = Ret (SNMPERR_SUCCESS, B, T, L, s'') /\ abs s'' = abs s'.
Proof.
  intros Hs Hid Hroom old new.
  destruct (set_enginetime_cases s id boots time a Hs Hid Hroom) as (s' & Hset & Hwf & Hres).
  exists s'. split; [done|]. split; [done|].
  assert (Habs : abs s' = <[id := new]> (abs s)).
  { unfold overwrites, record_of in Hres. fold old in Hres. unfold new, old in *.
    destruct (a || _) eqn:E; [apply Hres|]. subst s'. symmetry. apply insert_id.
    destruct (abs s !! id); [done|]. by rewrite orb_true_r in E. }
  split; [done|]. rewrite get_enginetime_ex_spec, Habs, lookup_insert_eq by done.
  exists (ticked new reader s'). destruct (estimate new reader (now s')) as [[B T] L].
  split; [done|]. by rewrite ticked_abs.
Qed.

Lemma lcd_refines_witness :
  exists s', set_enginetime (H := sample_steady) start (Some [8; 7]) 3 40 false = Ret (SNMPERR_SUCCESS, s')
             /\ wf (H := sample_steady) s'.
Proof.
  destruct (lcd_refines (H := sample_steady) start [8; 7] 3 40 false true) as (s' & Hset & Hwf & _).
  - apply start_wf.
  - discriminate.
  - reflexivity.
  - exists s'. exact (conj Hset Hwf).
Defined.

(** A tuple that was stored [d] seconds ago is read as the other
    engine's clock now: its time plus [d], and when that passes 2^31 - 1 the
    boots go up by one, up to the maximum, and the time starts over.  It
    starts over at one: the estimate made when the sum is 2^31 is 1, where
    the clock of the engine itself, as [snmpv3_local_snmpEngineTime] computes
    it, shows 0. *)
Theorem enginetime_estimate `{Platform, Allocator} s id boots time a s1 d :
  wf s -> id <> [] -> 0 <= boots <= ENGINEBOOT_MAX -> 0 <= time <= ENGINETIME_MAX ->
  set_enginetime s (Some id) boots time a = Ret (SNMPERR_SUCCESS, s1) ->
  overwrites (record_of s id) a = true -> now s1 = now s + d -> 0 <= d ->
  get_enginetime_ex s1 (Some id) a =
  Ret (SNMPERR_SUCCESS,
       (if time + d <=? ENGINETIME_MAX then boots else Z.min (boots + 1) ENGINEBOOT_MAX),
       (if time + d <=? ENGINETIME_MAX then time + d else time + d - ENGINETIME_MAX),
       time, tick s1).
Proof.
  intros Hs Hid Hb Ht Hset Hover Hnow Hd.
  apply set_enginetime_inv in Hset as [_ [Hwf Hset]]; [|done|done]. rewrite Hover in Hset.
  destruct Hset as [Habs _]. rewrite get_enginetime_ex_spec, Habs, lookup_insert_eq by done.
  unfold estimate, ticked, advance. cbn [authenticatedFlag lastReceivedEngineTime stamp engineBoot engineTime].
  rewrite orb_comm, orb_negb_r. rewrite Hnow. replace (now s + d - now s) with d by lia.
  pose proof (now_range s) as H1. pose proof (now_range s1) as H2.
  unfold ENGINETIME_MAX, ENGINEBOOT_MAX in *.
  rewrite (u32_id (2147483647 - time)), (s32_id (2147483647 - time)), (u64_id d), (s32_id d) by cint.
  destruct (Z.leb_spec (time + d) 2147483647), (Z.ltb_spec (2147483647 - time) d); try lia.
  - by rewrite u32_id by cint.
  - rewrite (u32_id (d - _)) by cint. replace (d - (2147483647 - time)) with (time + d - 2147483647) by lia.
    destruct (Z.ltb_spec boots 2147483647).
    + by rewrite (u32_id (boots + 1)), Z.min_l by cint.
    + by replace (Z.min (boots + 1) 2147483647) with boots by lia.
Qed.

Lemma enginetime_estimate_witness :
  exists s1, set_enginetime (H := sample_steady) start (Some [9]) 7 2147483640 true = Ret (SNMPERR_SUCCESS, s1)
  /\ get_enginetime_ex (H := sample_steady) s1 (Some [9]) true
     = Ret (SNMPERR_SUCCESS, 8, 3, 2147483640, tick (H := sample_steady) s1).
Proof.
  eexists. split; [reflexivity|].
  refine (enginetime_estimate (H := sample_steady) start [9] 7 2147483640 true _ 10 _ _ _ _ _ _ _ _).
  - apply start_wf.
  - discriminate.
  - by vm_compute.
  - by vm_compute.
  - reflexivity.
  - reflexivity.
  - reflexivity.
  - lia.
Defined.

(** [free_enginetime] frees the whole list of the engine's index: the
    records of all engines with the same index go with it, and no other. *)
Theorem free_enginetime_clears_list `{Platform} s id :
  wf s -> id <> [] ->
  exists s', free_enginetime s (Some id) = Ret s' /\ wf s'
  /\ forall j, abs s' !! j = if decide (slot j = slot id) then None else abs s !! j.
Proof.
  intros Hs Hid. unfold free_enginetime. rewrite hash_engineID_spec, bind_ret by done.
  destruct (Z.ltb_spec (Z.of_nat (slot id)) 0); [lia|]. rewrite Nat2Z.id.
  destruct (wf_lookup s (slot id) Hs (slot_lt id)) as (l & Hl & Hok & _). rewrite Hl.
  assert (E : free_list l = []) by (clear; by induction l). rewrite E.
  assert (Hnil : list_ok (slot id) []) by (split; constructor).
  eexists. split; [reflexivity|]. split; [by apply lists_ok_insert|].
  intros j. unfold abs. cbn [with_etimelist etimelist]. by rewrite (lists_insert_lookup _ _ l) by done.
Qed.

(** The record of an engine is lost when another one is freed. *)
Lemma free_enginetime_clears_list_witness :
  exists s', free_enginetime (H := sample_steady) with_known (Some [7]) = Ret s' /\ abs s' !! [9] = None.
Proof.
  destruct (free_enginetime_clears_list (H := sample_steady) with_known [7]) as (s' & Hf & _ & Habs).
  - apply with_known_wf.
  - discriminate.
  - exists s'. split; [exact Hf|]. exact (Habs [9]).
Defined.

(** The index of an engine depends on four bytes of its digest only. *)
Lemma hash_every_fourth_byte `{Platform} a b :
  a <> [] -> b <> [] ->
  (forall i, (i < 4)%nat -> EVP_md5 a !! (4 * i)%nat = EVP_md5 b !! (4 * i)%nat) ->
  hash_engineID (Some a) = hash_engineID (Some b).
Proof.
  intros Ha Hb Heq. rewrite !hash_engineID_spec by done. unfold slot.
  enough (hash_loop (EVP_md5 a) 0 = hash_loop (EVP_md5 b) 0) as -> by done.
  pose proof (EVP_md5_length a) as La. pose proof (EVP_md5_length b) as Lb.
  pose proof (Heq 0%nat ltac:(lia)) as H0. pose proof (Heq 1%nat ltac:(lia)) as H1.
  pose proof (Heq 2%nat ltac:(lia)) as H2. pose proof (Heq 3%nat ltac:(lia)) as H3. cbn in *.
  clear Heq. destruct (EVP_md5 a) as [|a0 [|a1 [|a2 [|a3 la]]]]; try done.
  do 12 (destruct la as [|? la]; [done|]). destruct la; [|done].
  destruct (EVP_md5 b) as [|b0 [|b1 [|b2 [|b3 lb]]]]; try done.
  do 12 (destruct lb as [|? lb]; [done|]). destruct lb; [|done].
  cbn in *. by simplify_eq.
Qed.

(** The boots are read before the clock, which may count them up: right
    after the local time wrapped, a message with the tuple the engine itself
    now holds is refused, and one with the boots of before is taken. *)
Lemma boots_read_before_clock `{Platform, Allocator} s my :
  local_is s my -> 0 <= engineBoots s < ENGINEBOOT_MAX - 1 ->
  now s < last_engineTime s -> now s <= USM_TIME_WINDOW ->
  engineBoots (tick s) = engineBoots s + 1
  /\ usm_check_and_update_timeliness s my (engineBoots (tick s)) (now s)
     = Ret (-1, SNMPERR_USM_NOTINTIMEWINDOW, tick s)
  /\ usm_check_and_update_timeliness s my (engineBoots s) (now s) = Ret (0, SNMPERR_SUCCESS, tick s).
Proof.
  intros Hmy Hb Hlast Hwin. pose proof (now_range s) as Hnow. unfold ENGINEBOOT_MAX in Hb.
  assert (Ht : engineBoots (tick s) = engineBoots s + 1).
  { unfold tick, now in *. cbn in *. destruct (Z.ltb_spec (Z.land (calculate_sectime_diff (clock (reads s)) (snmpv3starttime s)) 2147483647)
      (last_engineTime s)); [apply u64_id; cint|lia]. }
  rewrite Ht. split; [done|]. rewrite !(usm_check_local s my) by (done || cint).
  unfold in_local_window. rewrite (u32_id (engineBoots s)) by cint.
  unfold ENGINEBOOT_MAX, USM_TIME_WINDOW. rewrite Z.sub_diag.
  destruct (Z.eqb_spec (engineBoots s + 1) (engineBoots s)); [lia|].
  destruct (Z.eqb_spec (engineBoots s) 2147483647); [lia|].
  rewrite Z.eqb_refl, andb_false_r. done.
Qed.

(** ** The security parameters *)

(** On arbitrary bytes [usm_parse_security_parameters] terminates and
    reads at most twelve bytes past the announced ones; it returns -1 or -2,
    or parameters that fit the caller's buffers, with boots and time of at
    most 2^31 - 1 and a name of at most 32 bytes; the message is changed only
    where the signature stands, which is filled with zeros. *)
Theorem usm_parse_bounded m p n id_len name_len sig_len salt_len :
  bytes_ok m -> 0 <= p -> 0 <= n < 2 ^ 62 -> is_u32 name_len ->
  safe m (p + n + 12) (params_ok m p n id_len name_len sig_len salt_len)
    (usm_parse_security_parameters m p n id_len name_len sig_len salt_len).
Proof. intros Hm Hp Hn Hname. by apply usm_parse_safe. Qed.

(** Engine [1 2 3], boots 5, time 77, user [a], a signature of two bytes. *)
Definition sample_params : list Z :=
  [4; 22; 48; 20; 4; 3; 1; 2; 3; 2; 1; 5; 2; 1; 77; 4; 1; 97; 4; 2; 170; 187; 4; 0].

Lemma usm_parse_bounded_witness :
  params_ok sample_params 0 24 32 33 30 8
    (inr {| p_secEngineID := [1; 2; 3]; p_boots := 5; p_time := 77; p_secName := [97];
            p_signature := [170; 187]; p_salt := []; p_data_ptr := 24;
            p_msg := blank sample_params 20 2 |}).
Proof.
  refine (usm_parse_bounded sample_params 0 24 32 33 30 8 _ _ _ _).
  - repeat constructor; by vm_compute.
  - by vm_compute.
  - by vm_compute.
  - by vm_compute.
Defined.
