(* ===== verification/Scapi.v ===== *)
(** * Keyed hashes and encryption: snmplib/scapi.c

    The wrappers around OpenSSL, with DES and AES enabled, and the salts that
    snmplib/snmpusm.c makes for them.  A pointer that may be NULL is an
    option; a buffer that is written is a result. *)

From S2P Require Import Prelude Bytes AsnBuild Oid Lcd.

Definition SNMP_MAXBUF_SMALL : Z := 512.
Definition SNMPERR_SC_GENERAL_FAILURE : Z := -38.
Definition USM_MD5_AND_SHA_AUTH_LEN : Z := 12.
Definition USM_DES_SALT_LENGTH : Z := 64.
Definition USM_AES_SALT_LENGTH : Z := 128.
Definition SNMP_TRANS_PRIVLEN_1DES : Z := 64.
Definition SNMP_TRANS_PRIVLEN_1DES_IV : Z := 64.
Definition SNMP_TRANS_PRIVLEN_AES : Z := 128.
Definition SNMP_TRANS_PRIVLEN_AES_IV : Z := 128.

(** The routines of OpenSSL: the two HMACs; DES in chaining mode, which also
    leaves the vector to go on with, and its inverse; AES in feedback mode and
    its inverse.  The laws are the documented lengths, and that decryption
    undoes encryption, for DES also when the data was given in two pieces. *)
Class Crypto := {
  HMAC_md5 : list Z -> list Z -> list Z;
  HMAC_sha1 : list Z -> list Z -> list Z;
  DES_ncbc_encrypt : list Z -> list Z -> list Z -> list Z * list Z;
  DES_cbc_decrypt : list Z -> list Z -> list Z -> list Z;
  AES_cfb128_encrypt : list Z -> list Z -> list Z -> list Z;
  AES_cfb128_decrypt : list Z -> list Z -> list Z -> list Z;
  HMAC_md5_ok : forall k m, length (HMAC_md5 k m) = 16%nat /\ bytes_ok (HMAC_md5 k m);
  HMAC_sha1_ok : forall k m, length (HMAC_sha1 k m) = 20%nat /\ bytes_ok (HMAC_sha1 k m);
  DES_length : forall k iv m, len m mod 8 = 0 -> length (DES_ncbc_encrypt k iv m).1 = length m;
  DES_inverse : forall k iv m1 m2, bytes_ok m1 -> bytes_ok m2 -> len m1 mod 8 = 0 -> len m2 mod 8 = 0 ->
    let '(c1, iv') := DES_ncbc_encrypt k iv m1 in
    DES_cbc_decrypt k iv (c1 ++ (DES_ncbc_encrypt k iv' m2).1) = m1 ++ m2;
  AES_length : forall k iv m, length (AES_cfb128_encrypt k iv m) = length m;
  AES_inverse : forall k iv m, bytes_ok m -> AES_cfb128_decrypt k iv (AES_cfb128_encrypt k iv m) = m
}.

(** [ISTRANSFORM] on a pointer that may be NULL. *)
Definition is_transform (ttype : option (list Z)) (toid : list Z) : outcome bool :=
  match ttype with
  | Some t => ISTRANSFORM t toid
  | None => Overrun
  end.

Definition oid_len (o : option (list Z)) : Z := match o with Some l => len l | None => 0 end.

(** ** Hashes *)

(** The result and the bytes left in [MAC], of [maclen] bytes. *)
Definition sc_generate_keyed_hash `{Crypto} (authtype key : option (list Z)) (message : list Z)
    (maclen : Z) : outcome (Z * list Z) :=
  match authtype, key with
  | Some t, Some key =>
      if (len key <=? 0) || (len message <=? 0) || (maclen <=? 0)
         || negb (len t =? USM_LENGTH_OID_TRANSFORM) then Ret (SNMPERR_SC_GENERAL_FAILURE, [])
      else
        iproperlength ← sc_get_properlength t;
        if iproperlength =? SNMPERR_GENERR then Ret (SNMPERR_GENERR, [])
        else if len key <? iproperlength then Ret (SNMPERR_SC_GENERAL_FAILURE, [])
        else
          md5 ← ISTRANSFORM t usmHMACMD5AuthProtocol;
          sha1 ← (if (md5 : bool) then Ret false else ISTRANSFORM t usmHMACSHA1AuthProtocol);
          if negb (md5 || sha1) then Ret (SNMPERR_SC_GENERAL_FAILURE, [])
          else
            let buf := if md5 then HMAC_md5 key message else HMAC_sha1 key message in
            Ret (SNMPERR_SUCCESS, take (Z.to_nat maclen) buf)
  | _, _ => Ret (SNMPERR_SC_GENERAL_FAILURE, [])
  end.

(** [memcmp] on [maclen] bytes of the two buffers. *)
Definition sc_check_keyed_hash `{Crypto} (authtype key : option (list Z)) (message MAC : list Z)
    : outcome Z :=
  match authtype, key with
  | Some t, Some k =>
      if (len k <=? 0) || (len message <=? 0) || (len MAC <=? 0)
         || negb (len t =? USM_LENGTH_OID_TRANSFORM) then Ret SNMPERR_SC_GENERAL_FAILURE
      else if negb (len MAC =? USM_MD5_AND_SHA_AUTH_LEN) then Ret SNMPERR_SC_GENERAL_FAILURE
      else
        '(rval, buf) ← sc_generate_keyed_hash authtype key message SNMP_MAXBUF_SMALL;
        if negb (rval =? SNMPERR_SUCCESS) then Ret SNMPERR_SC_GENERAL_FAILURE
        else if len message <? len MAC then Ret SNMPERR_SC_GENERAL_FAILURE
        else if bool_decide (take (length MAC) buf = MAC) then Ret SNMPERR_SUCCESS
        else Ret SNMPERR_SC_GENERAL_FAILURE
  | _, _ => Ret SNMPERR_SC_GENERAL_FAILURE
  end.

(** ** Encryption *)

Definition has_des (privtype : list Z) : outcome bool := ISTRANSFORM privtype usmDESPrivProtocol.
Definition has_aes (privtype : list Z) : outcome bool := ISTRANSFORM privtype usmAESPrivProtocol.

(** The lengths of key and vector asked for: those of AES when both tests
    hold, [None] when neither does. *)
Definition proper_lengths (des aes : bool) : option (Z * Z) :=
  if aes then Some (BYTESIZE SNMP_TRANS_PRIVLEN_AES, BYTESIZE SNMP_TRANS_PRIVLEN_AES_IV)
  else if des then Some (BYTESIZE SNMP_TRANS_PRIVLEN_1DES, BYTESIZE SNMP_TRANS_PRIVLEN_1DES_IV)
  else None.

(** The blocks of eight, the rest filled up with its padding length, and
    [*ctlen]; [None] when there is no room. *)
Definition des_encrypt `{Crypto} (key iv plaintext : list Z) (ctlen : Z) : option (list Z) :=
  let pad_size := BYTESIZE SNMP_TRANS_PRIVLEN_1DES in
  let ptlen := len plaintext in
  let pad := pad_size - ptlen mod pad_size in
  let plast := ptlen - (pad_size - pad) in
  let pad := if pad =? pad_size then 0 else pad in
  if ctlen <? ptlen + pad then None
  else
    let pad_block := drop (Z.to_nat plast) plaintext ++ replicate (Z.to_nat pad) pad in
    let '(ciphertext, my_iv) := DES_ncbc_encrypt (take 8 key) iv (take (Z.to_nat plast) plaintext) in
    Some (if 0 <? pad then ciphertext ++ (DES_ncbc_encrypt (take 8 key) my_iv pad_block).1 else ciphertext).

(** The result and the ciphertext; [ctlen] is the room for it.  The code
    encrypts by every transform that matches; only one can. *)
Definition sc_encrypt `{Crypto} (privtype key : option (list Z)) (iv plaintext : list Z) (ctlen : Z)
    : outcome (Z * list Z) :=
  match privtype, key with
  | Some t, Some k =>
      if (len k <=? 0) || (len iv <=? 0) || (len plaintext <=? 0) || (ctlen <=? 0)
         || negb (len t =? USM_LENGTH_OID_TRANSFORM) || (ctlen <? len plaintext)
      then Ret (SNMPERR_SC_GENERAL_FAILURE, [])
      else
        des ← has_des t;
        aes ← has_aes t;
        match proper_lengths des aes with
        | None => Ret (SNMPERR_SC_GENERAL_FAILURE, [])
        | Some (properlength, properlength_iv) =>
            if (len k <? properlength) || (len iv <? properlength_iv)
            then Ret (SNMPERR_SC_GENERAL_FAILURE, [])
            else if (des : bool) then
              match des_encrypt k iv plaintext ctlen with
              | Some ciphertext => Ret (SNMPERR_SUCCESS, ciphertext)
              | None => Ret (SNMPERR_SC_GENERAL_FAILURE, [])
              end
            else Ret (SNMPERR_SUCCESS, AES_cfb128_encrypt (take (Z.to_nat properlength) k) iv plaintext)
        end
  | _, _ => Ret (SNMPERR_SC_GENERAL_FAILURE, [])
  end.

(** The result and the plaintext; [ptlen] is the room for it. *)
Definition sc_decrypt `{Crypto} (privtype key : option (list Z)) (iv ciphertext : list Z) (ptlen : Z)
    : outcome (Z * list Z) :=
  match privtype, key with
  | Some t, Some k =>
      if (len ciphertext <=? 0) || (ptlen <=? 0) || (ptlen <? len ciphertext)
         || negb (len t =? USM_LENGTH_OID_TRANSFORM) then Ret (SNMPERR_SC_GENERAL_FAILURE, [])
      else
        des ← has_des t;
        aes ← has_aes t;
        match proper_lengths des aes with
        | None => Ret (SNMPERR_SC_GENERAL_FAILURE, [])
        | Some (properlength, properlength_iv) =>
            if (len k <? properlength) || (len iv <? properlength_iv)
            then Ret (SNMPERR_SC_GENERAL_FAILURE, [])
            else Ret (SNMPERR_SUCCESS,
                      if (des : bool) then DES_cbc_decrypt (take 8 k) iv ciphertext
                      else AES_cfb128_decrypt (take (Z.to_nat properlength) k) iv ciphertext)
        end
  | _, _ => Ret (SNMPERR_SC_GENERAL_FAILURE, [])
  end.
