(* ===== verification/Users.v ===== *)
(** * The users of the user-based security model: snmplib/snmpusm.c

    A user's engine identifier, names, protocols and keys are pointers with a
    length, [None] for NULL; a name is the bytes of its string.  The
    Diffie-Hellman fields, which these routines only free, are left out.  The list of users is
    doubly linked, here a list in the order of its [next] pointers; a pointer
    to a user in it is its place. *)

From S2P Require Import Prelude AsnRbuild Oid Vacm Lcd Scapi.

Definition RS_ACTIVE : Z := 1.
Definition ST_NONVOLATILE : Z := 3.
Definition ST_READONLY : Z := 5.
Definition SNMP_SEC_LEVEL_NOAUTH : Z := 1.
Definition SNMP_SEC_LEVEL_AUTHNOPRIV : Z := 2.
Definition SNMP_SEC_LEVEL_AUTHPRIV : Z := 3.

Record usmUser : Type := {
  u_engineID : option (list Z);
  u_name : option (list Z);
  u_secName : option (list Z);
  u_authProtocol : option (list Z);
  u_authKey : option (list Z);
  u_privProtocol : option (list Z);
  u_privKey : option (list Z);
  u_userStatus : Z;
  u_cloneFrom : option (list Z);
  u_userPublicString : option (list Z);
  u_userStorageType : Z
}.

Definition engineIDLen (u : usmUser) : Z := oid_len (u_engineID u).

(** ** Making users *)

(** [calloc], then the two protocols. *)
Definition sizeof_usmUser : Z := 168.

Definition duplicate `{Allocator} (size : Z) (src : list Z) : option (list Z) :=
  if alloc (len src * size) then Some src else None.

Definition usm_create_user `{Allocator} : option usmUser :=
  if negb (alloc sizeof_usmUser) then None
  else
    authProtocol ← duplicate 8 usmNoAuthProtocol;
    privProtocol ← duplicate 8 usmNoPrivProtocol;
    Some {| u_engineID := None; u_name := None; u_secName := None;
            u_authProtocol := Some authProtocol; u_authKey := None;
            u_privProtocol := Some privProtocol; u_privKey := None;
            u_userStatus := RS_ACTIVE; u_cloneFrom := None; u_userPublicString := None;
            u_userStorageType := ST_NONVOLATILE |}.

(** [snmpv3_generate_engineID]: a copy of the local identifier. *)
Definition snmpv3_generate_engineID `{Allocator} (s : lcd) : option (list Z) :=
  match engineID s with
  | Some (_ :: _ as id) => if alloc (len id) then Some id else None
  | _ => None
  end.

(** [strdup] takes the NUL as well; [cloneFrom] takes two [oid]s. *)
Definition usm_create_initial_user `{Allocator} (s : lcd) (name authProtocol privProtocol : list Z)
    : option usmUser :=
  newUser ← usm_create_user;
  if negb (alloc (len name + 1)) then None
  else
    id ← snmpv3_generate_engineID s;
    if negb (alloc 16) then None
    else
      priv ← duplicate 8 privProtocol;
      auth ← duplicate 8 authProtocol;
      Some {| u_engineID := Some id; u_name := Some name; u_secName := Some name;
              u_authProtocol := Some auth; u_authKey := u_authKey newUser;
              u_privProtocol := Some priv; u_privKey := u_privKey newUser;
              u_userStatus := RS_ACTIVE; u_cloneFrom := Some [0; 0]; u_userPublicString := u_userPublicString newUser;
              u_userStorageType := ST_READONLY |}.

(** A key is copied when it has bytes. *)
Definition copy_key `{Allocator} (key : option (list Z)) : option (list Z) :=
  match key with
  | Some (_ :: _ as k) => duplicate 1 k
  | _ => None
  end.

Definition copy_protocol `{Allocator} (p : option (list Z)) : option (list Z) :=
  match p with
  | Some (_ :: _ as o) => duplicate 8 o
  | _ => None
  end.

Definition usm_cloneFrom_user `{Allocator} (from to : usmUser) : usmUser :=
  {| u_engineID := u_engineID to; u_name := u_name to; u_secName := u_secName to;
     u_authProtocol := copy_protocol (u_authProtocol from);
     u_authKey := copy_key (u_authKey from);
     u_privProtocol := copy_protocol (u_privProtocol from);
     u_privKey := copy_key (u_privKey from);
     u_userStatus := u_userStatus to; u_cloneFrom := u_cloneFrom to;
     u_userPublicString := u_userPublicString to; u_userStorageType := u_userStorageType to |}.

(** ** The list *)

(** Both NULL, or the same bytes. *)
Definition same_engine (a b : option (list Z)) : bool :=
  (oid_len a =? oid_len b)
  && match a, b with
     | None, None => true
     | Some a, Some b => memcmp a b (len b) =? 0
     | _, _ => false
     end.

Fixpoint search_users (engineID : option (list Z)) (name : list Z) (l : list usmUser) : option usmUser :=
  match l with
  | [] => None
  | ptr :: next =>
      if match u_name ptr with Some n => strcmp n name =? 0 | None => false end
         && same_engine (u_engineID ptr) engineID
      then Some ptr else search_users engineID name next
  end.

Definition usm_get_user_from_list (engineID : option (list Z)) (name : option (list Z))
    (puserList : list usmUser) (noNameUser : option usmUser) (use_default : bool) : option usmUser :=
  let name := match name with Some n => n | None => [] end in
  match search_users engineID name puserList with
  | Some ptr => Some ptr
  | None => if use_default && (strcmp name [] =? 0) then noNameUser else None
  end.

(** What the loop does at the node [nptr]. *)
Inductive place : Set := before | replace | after.

Definition compare_users (nptr user : usmUser) : outcome place :=
  if engineIDLen user <? engineIDLen nptr then Ret before
  else
    match u_engineID nptr, u_engineID user with
    | Some _, None => Ret before
    | None, Some _ => Ret after
    | a, b =>
        if (engineIDLen nptr =? engineIDLen user)
           && match a, b with
              | Some a, Some b => 0 <? memcmp a b (len b)
              | _, _ => false
              end then Ret before
        else if same_engine a b then
          match u_name nptr, u_name user with
          | Some n, Some m =>
              if strlen m <? strlen n then Ret before
              else if (strlen n =? strlen m) && (0 <? strcmp n m) then Ret before
              else if (strlen n =? strlen m) && (strcmp n m =? 0) then Ret replace
              else Ret after
          | _, _ => Overrun
          end
        else Ret after
    end.

Fixpoint usm_add_user_to_list (user : usmUser) (puserList : list usmUser) : outcome (list usmUser) :=
  match puserList with
  | [] => Ret [user]
  | nptr :: next =>
      p ← compare_users nptr user;
      match p with
      | before => Ret (user :: nptr :: next)
      | replace => Ret (user :: next)
      | after => next ← usm_add_user_to_list user next; Ret (nptr :: next)
      end
  end.

(** [user] is given by its place; [None] is the NULL returned for a user that
    is not there, which leaves the list. *)
Definition usm_remove_user_from_list (user : nat) (puserList : list usmUser) : option (list usmUser) :=
  match puserList !! user with
  | Some _ => Some (take user puserList ++ drop (S user) puserList)
  | None => None
  end.

(** ** Levels *)

Definition no_auth (p : option (list Z)) : outcome bool :=
  d ← netsnmp_oid_equals p (oid_len p) (Some usmNoAuthProtocol) USM_LENGTH_OID_TRANSFORM; Ret (d =? 0).
Definition no_priv (p : option (list Z)) : outcome bool :=
  d ← netsnmp_oid_equals p (oid_len p) (Some usmNoPrivProtocol) USM_LENGTH_OID_TRANSFORM; Ret (d =? 0).

Definition usm_check_secLevel_vs_protocols (level : Z) (authProtocol privProtocol : option (list Z))
    : outcome Z :=
  noPriv ← (if level =? SNMP_SEC_LEVEL_AUTHPRIV then no_priv privProtocol else Ret false);
  if (noPriv : bool) then Ret 1
  else
    noAuth ← (if (level =? SNMP_SEC_LEVEL_AUTHPRIV) || (level =? SNMP_SEC_LEVEL_AUTHNOPRIV)
              then no_auth authProtocol else Ret false);
    Ret (if (noAuth : bool) then 1 else 0).

Definition usm_check_secLevel (level : Z) (user : usmUser) : outcome Z :=
  if negb (u_userStatus user =? RS_ACTIVE) then Ret (-1)
  else
    noPriv ← (if level =? SNMP_SEC_LEVEL_AUTHPRIV then no_priv (u_privProtocol user) else Ret false);
    if (noPriv : bool) then Ret 1
    else
      noAuth ← (if (level =? SNMP_SEC_LEVEL_AUTHPRIV) || (level =? SNMP_SEC_LEVEL_AUTHNOPRIV)
                then no_auth (u_authProtocol user) else Ret false);
      Ret (if (noAuth : bool) then 1 else 0).
