(* ===== verification/UsmMsg.v ===== *)
(** * Messages of the user-based security model: snmplib/snmpusm.c

    [usm_rgenerate_out_msg] wraps an outgoing scoped PDU, [usm_process_in_msg]
    unwraps an incoming one.  The statistics counters are left out. *)

From S2P Require Import Prelude Bytes AsnTypes AsnParse AsnBuild AsnRbuild Oid Vacm Lcd Usm Scapi Users.

Definition SNMPERR_TOO_LONG : Z := -5.
Definition SNMPERR_MALLOC : Z := -62.
Definition SNMPERR_USM_UNKNOWNSECURITYNAME : Z := -43.
Definition SNMPERR_USM_UNSUPPORTEDSECURITYLEVEL : Z := -44.
Definition SNMPERR_USM_ENCRYPTIONERROR : Z := -45.
Definition SNMPERR_USM_AUTHENTICATIONFAILURE : Z := -46.
Definition SNMPERR_USM_PARSEERROR : Z := -47.
Definition SNMPERR_USM_UNKNOWNENGINEID : Z := -48.
Definition SNMPERR_USM_DECRYPTIONERROR : Z := -50.
Definition USM_MAX_SALT_LENGTH : Z := 128.
Definition USM_MAX_KEYEDHASH_LENGTH : Z := 128.
Definition SNMP_MSG_FLAG_RPRT_BIT : Z := 0x04.

(** ** State *)

(** The static variables of snmpusm.c, over the clocks of lcd_time.c. *)
Record usm : Type := {
  clocks : lcd;
  userList : list usmUser;
  noNameUser : option usmUser;
  salt_integer : Z;
  salt_integer64_1 : Z;
  salt_integer64_2 : Z
}.

Definition with_clocks (c : lcd) (st : usm) : usm :=
  {| clocks := c; userList := userList st; noNameUser := noNameUser st; salt_integer := salt_integer st;
     salt_integer64_1 := salt_integer64_1 st; salt_integer64_2 := salt_integer64_2 st |}.

Definition with_users (l : list usmUser) (st : usm) : usm :=
  {| clocks := clocks st; userList := l; noNameUser := noNameUser st; salt_integer := salt_integer st;
     salt_integer64_1 := salt_integer64_1 st; salt_integer64_2 := salt_integer64_2 st |}.

Definition usm_add_user (user : usmUser) (st : usm) : outcome usm :=
  uptr ← usm_add_user_to_list user (userList st); Ret (with_users uptr st).

Definition usm_remove_user (user : nat) (st : usm) : usm :=
  match usm_remove_user_from_list user (userList st) with
  | Some l => with_users l st
  | None => st
  end.

Definition usm_get_user (engineID name : option (list Z)) (st : usm) : option usmUser :=
  usm_get_user_from_list engineID name (userList st) (noNameUser st) true.

(** The user without a name is of no engine and has no keys.  The salts are
    random, or the time where that fails. *)
Definition without_engine (u : usmUser) : usmUser := {|
  u_engineID := None; u_name := u_name u; u_secName := u_secName u; u_authProtocol := u_authProtocol u;
  u_authKey := u_authKey u; u_privProtocol := u_privProtocol u; u_privKey := u_privKey u; u_userStatus := u_userStatus u;
  u_cloneFrom := u_cloneFrom u; u_userPublicString := u_userPublicString u; u_userStorageType := u_userStorageType u |}.

Definition init_usm_post_config `{Allocator} (salt salt64_1 salt64_2 : Z) (st : usm) : usm := {|
  clocks := clocks st; userList := userList st;
  noNameUser := without_engine <$> usm_create_initial_user (clocks st) [] usmHMACMD5AuthProtocol usmDESPrivProtocol;
  salt_integer := salt; salt_integer64_1 := salt64_1; salt_integer64_2 := salt64_2 |}.

Definition deinit_usm_post_config (st : usm) : usm := {|
  clocks := clocks st; userList := userList st; noNameUser := None; salt_integer := salt_integer st;
  salt_integer64_1 := salt_integer64_1 st; salt_integer64_2 := salt_integer64_2 st |}.

(** What is kept of a message until it is answered. *)
Record usmStateReference : Type := {
  usr_name : option (list Z);
  usr_engine_id : option (list Z);
  usr_auth_protocol : option (list Z);
  usr_auth_key : option (list Z);
  usr_priv_protocol : option (list Z);
  usr_priv_key : option (list Z);
  usr_sec_level : Z
}.

(** All zero. *)
Definition empty_reference : usmStateReference := {|
  usr_name := None; usr_engine_id := None; usr_auth_protocol := None; usr_auth_key := None;
  usr_priv_protocol := None; usr_priv_key := None; usr_sec_level := 0 |}.

Definition sizeof_usmStateReference : Z := 104.

Definition usm_malloc_usmStateReference `{Allocator} : option usmStateReference :=
  if alloc sizeof_usmStateReference then Some empty_reference else None.

(** The new field, or [None] for the -1 of an allocation that failed. *)
Definition MAKE_ENTRY `{Allocator} (size : Z) (item : option (list Z)) : option (option (list Z)) :=
  match item with
  | None | Some [] => Some None
  | Some l => if alloc (len l * size) then Some (Some l) else None
  end.

(** The three fields [usm_process_in_msg] fills first. *)
Definition cache_names `{Allocator} (name engine_id : list Z) (sec_level : Z) (ref : usmStateReference)
    : option usmStateReference :=
  name ← MAKE_ENTRY 1 (Some name);
  engine_id ← MAKE_ENTRY 1 (Some engine_id);
  Some {| usr_name := name; usr_engine_id := engine_id; usr_auth_protocol := usr_auth_protocol ref;
          usr_auth_key := usr_auth_key ref; usr_priv_protocol := usr_priv_protocol ref;
          usr_priv_key := usr_priv_key ref; usr_sec_level := sec_level |}.

(** The four fields of the user. *)
Definition cache_user `{Allocator} (user : usmUser) (ref : usmStateReference) : option usmStateReference :=
  auth_protocol ← MAKE_ENTRY 8 (u_authProtocol user);
  auth_key ← MAKE_ENTRY 1 (u_authKey user);
  priv_protocol ← MAKE_ENTRY 8 (u_privProtocol user);
  priv_key ← MAKE_ENTRY 1 (u_privKey user);
  Some {| usr_name := usr_name ref; usr_engine_id := usr_engine_id ref;
          usr_auth_protocol := auth_protocol; usr_auth_key := auth_key;
          usr_priv_protocol := priv_protocol; usr_priv_key := priv_key;
          usr_sec_level := usr_sec_level ref |}.

(** [None] is the -1 after which [*to] is NULL. *)
Definition usm_clone_usmStateReference `{Allocator} (from : usmStateReference) : option usmStateReference :=
  to ← usm_malloc_usmStateReference;
  name ← MAKE_ENTRY 1 (usr_name from);
  engine_id ← MAKE_ENTRY 1 (usr_engine_id from);
  auth_protocol ← MAKE_ENTRY 8 (usr_auth_protocol from);
  auth_key ← MAKE_ENTRY 1 (usr_auth_key from);
  priv_protocol ← MAKE_ENTRY 8 (usr_priv_protocol from);
  priv_key ← MAKE_ENTRY 1 (usr_priv_key from);
  Some {| usr_name := name; usr_engine_id := engine_id;
          usr_auth_protocol := auth_protocol; usr_auth_key := auth_key;
          usr_priv_protocol := priv_protocol; usr_priv_key := priv_key;
          usr_sec_level := usr_sec_level from |}.

(** ** Salts *)

(** The vector and the salt of the message; [None] is -1.  [priv_salt] is
    [thePrivKey + 8]; its length is [thePrivKeyLength - 8] as a [u_int]. *)
Definition usm_set_salt (st : usm) (key : list Z) : outcome (option (list Z * list Z) * usm) :=
  let propersize_salt := BYTESIZE USM_DES_SALT_LENGTH in
  let priv_salt_length := u32 (len key - 8) in
  if priv_salt_length <? propersize_salt then Ret (None, st)
  else
    let net_boots := be_bytes 4 (snmpv3_local_snmpEngineBoots (clocks st)) in
    let net_salt_int := be_bytes 4 (salt_integer st) in
    let msgSalt := net_boots ++ net_salt_int in
    priv_salt ← rd_n key 8 (Z.to_nat propersize_salt);
    Ret (Some (zip_with Z.lxor msgSalt priv_salt, msgSalt),
         {| clocks := clocks st; userList := userList st; noNameUser := noNameUser st;
            salt_integer := u32 (salt_integer st + 1);
            salt_integer64_1 := salt_integer64_1 st; salt_integer64_2 := salt_integer64_2 st |}).

(** The vector of sixteen bytes; its last eight are the salt. *)
Definition usm_set_aes_iv (st : usm) (boots time : Z) : list Z * list Z * usm :=
  let salt := be_bytes 4 (salt_integer64_1 st) ++ be_bytes 4 (salt_integer64_2 st) in
  let next := u32 (salt_integer64_2 st + 1) in
  (be_bytes 4 boots ++ be_bytes 4 time ++ salt, salt,
   {| clocks := clocks st; userList := userList st; noNameUser := noNameUser st;
      salt_integer := salt_integer st; salt_integer64_1 := salt_integer64_1 st;
      salt_integer64_2 := if next =? 0 then 1 else next |}).

(** ** Outgoing messages *)

(** The indirections: who sends, with which keys, at which level. *)
Record security : Type := {
  theName : list Z;
  theEngineID : option (list Z);
  theAuthProtocol : option (list Z);
  theAuthKey : option (list Z);
  thePrivProtocol : option (list Z);
  thePrivKey : option (list Z);
  theSecLevel : Z
}.

Definition security_of_user (user : option usmUser) (secEngineID : option (list Z)) (secName : list Z)
    (secLevel : Z) : security :=
  match user with
  | Some u =>
      {| theName := secName; theEngineID := secEngineID; theAuthProtocol := u_authProtocol u;
         theAuthKey := u_authKey u; thePrivProtocol := u_privProtocol u; thePrivKey := u_privKey u;
         theSecLevel := secLevel |}
  | None =>
      {| theName := secName; theEngineID := secEngineID; theAuthProtocol := Some usmNoAuthProtocol;
         theAuthKey := None; thePrivProtocol := Some usmNoPrivProtocol; thePrivKey := None;
         theSecLevel := secLevel |}
  end.

Definition security_of_reference (ref : usmStateReference) (secEngineID : option (list Z)) : security :=
  {| theName := match usr_name ref with Some n => n | None => [] end;
     theEngineID := if oid_len (usr_engine_id ref) =? 0 then secEngineID else usr_engine_id ref;
     theAuthProtocol := usr_auth_protocol ref; theAuthKey := usr_auth_key ref;
     thePrivProtocol := usr_priv_protocol ref; thePrivKey := usr_priv_key ref;
     theSecLevel := usr_sec_level ref |}.

(** [None] for an unknown user who wants authentication. *)
Definition find_security (st : usm) (secEngineID : option (list Z)) (secName : list Z) (secLevel : Z)
    (secStateRef : option usmStateReference) : option security :=
  match secStateRef with
  | Some ref => Some (security_of_reference ref secEngineID)
  | None =>
      let user := usm_get_user secEngineID (Some secName) st in
      match user with
      | None => if negb (secLevel =? SNMP_SEC_LEVEL_NOAUTH) then None
                else Some (security_of_user user secEngineID secName secLevel)
      | Some _ => Some (security_of_user user secEngineID secName secLevel)
      end
  end.

Definition is_auth (level : Z) : bool :=
  (level =? SNMP_SEC_LEVEL_AUTHNOPRIV) || (level =? SNMP_SEC_LEVEL_AUTHPRIV).

(** The vector for the cipher, [iv] as it is sent, and the state; [inl] is
    the early return.  With neither transform both stay empty. *)
Definition make_salt (st : usm) (sec : security) (boots time : Z)
    : outcome (Z + (list Z * list Z * usm)) :=
  aes ← is_transform (thePrivProtocol sec) usmAESPrivProtocol;
  if (aes : bool) then
    match thePrivKey sec with
    | None => Ret (inl SNMPERR_USM_GENERICERROR)
    | Some _ => Ret (inr (usm_set_aes_iv st boots time))
    end
  else
    des ← is_transform (thePrivProtocol sec) usmDESPrivProtocol;
    if (des : bool) then
      match thePrivKey sec with
      | None => Ret (inl SNMPERR_USM_GENERICERROR)
      | Some key =>
          '(r, st) ← usm_set_salt st key;
          match r with
          | Some (salt, iv) => Ret (inr (salt, iv, st))
          | None => Ret (inl SNMPERR_USM_GENERICERROR)
          end
      end
    else Ret (inr ([], [], st)).

(** The bytes of a string builder's argument, which may be NULL when empty. *)
Definition rbuild_octets `{Allocator} (l : list Z) (s : rbuf) : outcome rbuf :=
  asn_realloc_rbuild_string true ASN_OCTET_STR l (len l) s.

(** [memcpy] to [*wholeMsg + *wholeMsgLen - off]. *)
Definition rb_poke (off : Z) (l : list Z) (s : rbuf) : outcome rbuf :=
  let i := pkt_len s - off in
  if (0 <=? i) && (i + len l <=? pkt_len s)
  then Ret {| pkt := take (Z.to_nat i) (pkt s) ++ l ++ drop (Z.to_nat (i + len l)) (pkt s);
              offset := offset s |}
  else Overrun.

(** From [msgPrivacyParameters] to the sequence around the whole; the result
    is the packet and [mac_offset]. *)
Definition build_message `{Allocator} (globalData : list Z) (sec : security) (iv : list Z)
    (boots_long time_long : Z) (s : rbuf) : outcome (Z * rbuf) :=
  let sp_offset := offset s in
  s ← rbuild_octets iv s;
  let authParams := if is_auth (theSecLevel sec) then replicate (Z.to_nat USM_MD5_AND_SHA_AUTH_LEN) 0 else [] in
  s ← rbuild_octets authParams s;
  let mac_offset := offset s - 2 in
  s ← rbuild_octets (theName sec) s;
  s ← asn_realloc_rbuild_int true ASN_INTEGER time_long sizeof_long s;
  s ← asn_realloc_rbuild_int true ASN_INTEGER boots_long sizeof_long s;
  s ← rbuild_octets (match theEngineID sec with Some id => id | None => [] end) s;
  s ← asn_realloc_rbuild_sequence true (Z.lor ASN_SEQUENCE ASN_CONSTRUCTOR) (offset s - sp_offset) s;
  s ← asn_realloc_rbuild_header true ASN_OCTET_STR (offset s - sp_offset) s;
  s ← rb_room true (len globalData) s;
  s ← rb_copy globalData s;
  s ← asn_realloc_rbuild_sequence true (Z.lor ASN_SEQUENCE ASN_CONSTRUCTOR) (offset s) s;
  Ret (mac_offset, s).

(** The hash over the message, written where the zeros stand. *)
Definition sign_message `{Allocator, Crypto} (sec : security) (mac_offset : Z) (s : rbuf)
    : outcome (Z + rbuf) :=
  if negb (is_auth (theSecLevel sec)) then Ret (inr s)
  else if negb (alloc USM_MD5_AND_SHA_AUTH_LEN) then Ret (inl SNMPERR_USM_GENERICERROR)
  else
    let proto_msg := drop (Z.to_nat (pkt_len s - offset s)) (pkt s) in
    '(rval, temp_sig) ← sc_generate_keyed_hash (theAuthProtocol sec) (theAuthKey sec) proto_msg
                          USM_MD5_AND_SHA_AUTH_LEN;
    if negb (rval =? SNMPERR_SUCCESS) then Ret (inl SNMPERR_USM_AUTHENTICATIONFAILURE)
    else if negb (len temp_sig =? USM_MD5_AND_SHA_AUTH_LEN) then Ret (inl SNMPERR_USM_AUTHENTICATIONFAILURE)
    else s ← rb_poke mac_offset temp_sig s; Ret (inr s).

(** The encrypted PDU takes the place of what was in the packet; [iv] and
    the state, or the early return. *)
Definition encrypt_pdu `{Allocator, Crypto} (st : usm) (sec : security) (boots time : Z)
    (scopedPdu : list Z) (s : rbuf) : outcome (usm * (Z + (list Z * rbuf))) :=
  let ciphertextlen := len scopedPdu + 64 in
  if negb (alloc ciphertextlen) then Ret (st, inl SNMPERR_MALLOC)
  else
    r ← make_salt st sec boots time;
    match r with
    | inl code => Ret (st, inl code)
    | inr (salt, iv, st) =>
        '(rval, ciphertext) ← sc_encrypt (thePrivProtocol sec) (thePrivKey sec) salt scopedPdu ciphertextlen;
        if negb (rval =? SNMPERR_SUCCESS) then Ret (st, inl SNMPERR_USM_ENCRYPTIONERROR)
        else
          r ← or_return (rbuild_octets ciphertext {| pkt := pkt s; offset := 0 |})
                SNMPERR_USM_ENCRYPTIONERROR (fun s => Ret (inr (iv, s)));
          Ret (st, r)
    end.

(** [scopedPdu] is read by the encryption only, before the packet it may lie
    in is written.  The result is the state, and the return value or the
    packet; the reference is freed on every path. *)
Definition usm_rgenerate_out_msg `{Platform, Allocator, Crypto} (st : usm) (globalData : list Z)
    (secEngineID : option (list Z)) (secName : list Z) (secLevel : Z) (scopedPdu : list Z)
    (secStateRef : option usmStateReference) (wholeMsg : rbuf) : outcome (usm * (Z + rbuf)) :=
  match find_security st secEngineID secName secLevel secStateRef with
  | None => Ret (st, inl SNMPERR_USM_UNKNOWNSECURITYNAME)
  | Some sec =>
      rc ← usm_check_secLevel_vs_protocols (theSecLevel sec) (theAuthProtocol sec) (thePrivProtocol sec);
      if rc =? 1 then Ret (st, inl SNMPERR_USM_UNSUPPORTEDSECURITYLEVEL)
      else
        '(_, boots_uint, time_uint, c) ← get_enginetime (clocks st) (theEngineID sec) false;
        let st := with_clocks c st in
        '(st, r) ← (if theSecLevel sec =? SNMP_SEC_LEVEL_AUTHPRIV
                    then encrypt_pdu st sec boots_uint time_uint scopedPdu wholeMsg
                    else Ret (st, inr ([], wholeMsg)));
        match r with
        | inl code => Ret (st, inl code)
        | inr (iv, s) =>
            r ← or_return (build_message globalData sec iv boots_uint time_uint s) SNMPERR_TOO_LONG
                  (fun '(mac_offset, s) => sign_message sec mac_offset s);
            Ret (st, r)
        end
  end.

(** ** Incoming messages *)

(** What the session says of the sender. *)
Inductive authoritative : Set :=
  | SNMP_SESS_NONAUTHORITATIVE | SNMP_SESS_AUTHORITATIVE | SNMP_SESS_UNKNOWNAUTH.

(** [*scopedPdu]: a place in the message, or the caller's buffer with what
    was decrypted into it. *)
Inductive spdu : Type := InMessage (p n : Z) | Decrypted (l : list Z).

(** An unsuccessful call: the value returned, and the parameters of the
    message if it came to parse them.  Unless the level is that of an
    encrypted message, the place of the PDU, behind these, is then handed out,
    for reports; in the other cases the caller's buffer is as it was. *)
Record rejected : Type := { rval : Z; seen : option usm_params }.

(** The results of a successful call. *)
Record in_result : Type := {
  r_params : usm_params;
  r_scopedPdu : spdu;
  r_maxSizeResponse : Z
}.

(** The engine must be known to an authoritative session, and is noted
    otherwise; the early return, or the clocks. *)
Definition locate_engine `{Platform, Allocator} (c : lcd) (sess : option authoritative) (msg_flags : Z)
    (secEngineID : list Z) : outcome (lcd * option Z) :=
  let reportable := negb (Z.land msg_flags SNMP_MSG_FLAG_RPRT_BIT =? 0) in
  if match sess with
     | Some SNMP_SESS_AUTHORITATIVE => true
     | Some SNMP_SESS_UNKNOWNAUTH => reportable
     | Some SNMP_SESS_NONAUTHORITATIVE => false
     | None => reportable
     end
  then
    '(known, c) ← ISENGINEKNOWN c (Some secEngineID);
    Ret (c, if (known : bool) then None else Some SNMPERR_USM_UNKNOWNENGINEID)
  else
    '(rval, c) ← ENSURE_ENGINE_RECORD c (Some secEngineID);
    Ret (c, if rval =? SNMPERR_SUCCESS then None else Some SNMPERR_USM_GENERICERROR).

(** An early return: the code, and whether the state reference is freed and
    set to NULL before. *)
Record early : Type := { code : Z; frees : bool }.

(** The vector for the cipher and [end_of_overhead], which stays NULL unless
    the transform is DES; or the early return. *)
Definition make_iv (user : usmUser) (q : usm_params) (value_ptr remaining : Z)
    : outcome (early + (list Z * option Z)) :=
  des ← is_transform (u_privProtocol user) usmDESPrivProtocol;
  aes ← is_transform (u_privProtocol user) usmAESPrivProtocol;
  if (des : bool) then
    if negb (remaining mod 8 =? 0) then Ret (inl {| code := SNMPERR_USM_DECRYPTIONERROR; frees := true |})
    else
      match u_privKey user with
      | None => Ret (inl {| code := SNMPERR_USM_DECRYPTIONERROR; frees := true |})
      | Some key =>
          let iv_length := BYTESIZE USM_DES_SALT_LENGTH in
          k ← rd_n key iv_length (Z.to_nat iv_length);
          Ret (inr (zip_with Z.lxor (p_salt q) k, Some value_ptr))
      end
  else if (aes : bool) then
    Ret (inr (be_bytes 4 (p_boots q) ++ be_bytes 4 (p_time q) ++ p_salt q, None))
  else Ret (inr (replicate (Z.to_nat (BYTESIZE USM_MAX_SALT_LENGTH)) 0, None)).

(** [*scopedPdu] and [end_of_overhead], or the early return.  [m] is the
    message with its signature blanked. *)
Definition unwrap_pdu `{Crypto} (m : mem) (wholeMsgLen : Z) (secLevel : Z) (user : usmUser)
    (q : usm_params) (scopedPduLen : Z) : outcome (early + (spdu * option Z)) :=
  let data_ptr := p_data_ptr q in
  let remaining := u64 (wholeMsgLen - data_ptr) in
  if secLevel =? SNMP_SEC_LEVEL_AUTHPRIV then
    match asn_parse_sequence m data_ptr remaining ASN_OCTET_STR with
    | Null => Ret (inl {| code := SNMPERR_USM_PARSEERROR; frees := true |})
    | Overrun => Overrun
    | Spin => Spin
    | Ret (value_ptr, _, remaining) =>
        r ← make_iv user q value_ptr remaining;
        match r with
        | inl e => Ret (inl e)
        | inr (iv, end_of_overhead) =>
            ciphertext ← rd_n m value_ptr (Z.to_nat remaining);
            '(rval, plaintext) ← sc_decrypt (u_privProtocol user) (u_privKey user) iv ciphertext scopedPduLen;
            if negb (rval =? SNMPERR_SUCCESS)
            then Ret (inl {| code := SNMPERR_USM_DECRYPTIONERROR; frees := false |})
            else Ret (inr (Decrypted plaintext, end_of_overhead))
        end
    end
  else Ret (inr (InMessage data_ptr remaining, Some data_ptr)).

(** [maxMsgSize - (end_of_overhead - wholeMsg)]: a message at the address
    [wholeMsg], and a pointer into it that may be NULL. *)
Definition max_size_response (maxMsgSize wholeMsg : Z) (end_of_overhead : option Z) : Z :=
  u64 (maxMsgSize - match end_of_overhead with Some p => p | None => - wholeMsg end).

Section process.
Context `{Platform, Allocator, Crypto}.

(** From the timeliness on: the clocks, and the early return or the results. *)
Definition finish_in_msg (c : lcd) (maxMsgSize wholeMsg wholeMsgLen secLevel : Z) (user : usmUser)
    (q : usm_params) (scopedPduLen : Z) : outcome (lcd * (early + in_result)) :=
  '(c, late) ← (if is_auth secLevel then
                  '(r, error, c) ← usm_check_and_update_timeliness c (p_secEngineID q) (p_boots q) (p_time q);
                  Ret (c, if r =? -1 then Some error else None)
                else
                  '(_, c) ← set_enginetime c (Some (p_secEngineID q)) (p_boots q) (p_time q) false;
                  Ret (c, None));
  match late with
  | Some error => Ret (c, inl {| code := error; frees := false |})
  | None =>
      r ← unwrap_pdu (p_msg q) wholeMsgLen secLevel user q scopedPduLen;
      match r with
      | inl e => Ret (c, inl e)
      | inr (pdu, end_of_overhead) =>
          Ret (c, inr {| r_params := q; r_scopedPdu := pdu;
                         r_maxSizeResponse := max_size_response maxMsgSize wholeMsg end_of_overhead |})
      end
  end.

(** The code subtracts the first bytes where it means the addresses: the
    declaration reads [wholeMsgLen - (u_int) ((u_long) * secParams - (u_long) *
    wholeMsg)].

    The message is in [m] from offset 0, [wholeMsg] its address; [sess] is
    what the session says, if there is one.  [secStateRef] tells whether the
    caller asks for a state reference.  The lengths at the end are the rooms
    of the caller's buffers.  The results are the state, the reference, and
    what an unsuccessful or a successful call leaves.  What a field of the
    reference holds after its allocation failed is not modelled. *)
Definition usm_process_in_msg (st : usm) (maxMsgSize : Z) (m : mem) (wholeMsg secParams secLevel wholeMsgLen : Z)
    (secStateRef : bool) (sess : option authoritative) (msg_flags : Z)
    (secEngineIDLen secNameLen scopedPduLen : Z)
    : outcome (usm * option usmStateReference * (rejected + in_result)) :=
  b ← rd m secParams;
  b0 ← rd m 0;
  let remaining := u64 (wholeMsgLen - u32 (u64 (b - b0))) in
  let ref := if secStateRef then usm_malloc_usmStateReference else None in
  if secStateRef && bool_decide (ref = None) then Ret (st, None, inl {| rval := SNMPERR_USM_GENERICERROR; seen := None |})
  else
    r ← usm_parse_security_parameters m secParams remaining secEngineIDLen secNameLen
          (BYTESIZE USM_MAX_KEYEDHASH_LENGTH) (BYTESIZE USM_MAX_SALT_LENGTH);
    match r with
    | inl rc => Ret (st, ref, inl {| rval := if rc =? -2 then SNMPERR_USM_DECRYPTIONERROR else SNMPERR_USM_PARSEERROR;
                                   seen := None |})
    | inr q =>
        let reject code := inl {| rval := code; seen := Some q |} in
        if (secLevel =? SNMP_SEC_LEVEL_AUTHPRIV) && negb (len (p_salt q) =? 8)
        then Ret (st, ref, reject SNMPERR_USM_DECRYPTIONERROR)
        else
          let named := ref ≫= cache_names (p_secName q) (p_secEngineID q) secLevel in
          if secStateRef && bool_decide (named = None) then Ret (st, ref, reject SNMPERR_USM_GENERICERROR)
          else
            let ref := named in
            '(c, unknown) ← locate_engine (clocks st) sess msg_flags (p_secEngineID q);
            let st := with_clocks c st in
            match unknown with
            | Some code => Ret (st, ref, reject code)
            | None =>
                let use_default := match sess with
                                   | Some SNMP_SESS_AUTHORITATIVE | None => false
                                   | Some _ => true
                                   end in
                match usm_get_user_from_list (Some (p_secEngineID q)) (Some (c_string (p_secName q)))
                        (userList st) (noNameUser st) use_default with
                | None => Ret (st, ref, reject SNMPERR_USM_UNKNOWNSECURITYNAME)
                | Some user =>
                    if negb (u_userStatus user =? RS_ACTIVE)
                    then Ret (st, ref, reject SNMPERR_USM_UNKNOWNSECURITYNAME)
                    else
                      rc ← usm_check_secLevel secLevel user;
                      if rc =? 1 then Ret (st, ref, reject SNMPERR_USM_UNSUPPORTEDSECURITYLEVEL)
                      else if negb (rc =? 0) then Ret (st, ref, reject SNMPERR_USM_GENERICERROR)
                      else
                        verified ← (if is_auth secLevel then
                                      message ← rd_n (p_msg q) 0 (Z.to_nat wholeMsgLen);
                                      rval ← sc_check_keyed_hash (u_authProtocol user) (u_authKey user)
                                               message (p_signature q);
                                      Ret (rval =? 0)
                                    else Ret true);
                        if negb verified then Ret (st, ref, reject SNMPERR_USM_AUTHENTICATIONFAILURE)
                        else
                          let cached := ref ≫= cache_user user in
                          if secStateRef && bool_decide (cached = None)
                          then Ret (st, ref, reject SNMPERR_USM_GENERICERROR)
                          else
                            let ref := cached in
                            '(c, r) ← finish_in_msg (clocks st) maxMsgSize wholeMsg wholeMsgLen secLevel user
                                        q scopedPduLen;
                            let st := with_clocks c st in
                            match r with
                            | inl e =>
                                if frees e then if secStateRef then Ret (st, None, reject (code e)) else Overrun
                                else Ret (st, ref, reject (code e))
                            | inr res => Ret (st, ref, inr res)
                            end
                end
            end
    end.
End process.
