(* ===== verification/UsersSpec.v ===== *)
(** * The list of users as a finite map

    A user is found by engine identifier and name.  [user_key] puts the two
    into one sequence of numbers whose lexicographic order is the order of the
    list: length of the identifier, identifier, length of the name, name.
    Under the invariant [users_ok] the list is the map [users_map]. *)

From stdpp Require Import gmap list sorting.
From S2P Require Import Prelude AsnRbuild Oid Vacm Lcd Scapi Users Bytes.

(** ** Keys and their order *)

Definition engine_key (id : option (list Z)) : list Z :=
  match id with Some l => len l :: 1 :: l | None => [0; 0] end.

Definition user_key (id : option (list Z)) (name : list Z) : list Z :=
  engine_key id ++ len name :: name.

(** A string argument ends at its first NUL. *)
Definition nul_free (s : list Z) : Prop := c_string s = s.

Definition named (u : usmUser) : Prop := exists n, u_name u = Some n /\ nul_free n.

Definition key_of (u : usmUser) : list Z :=
  user_key (u_engineID u) (match u_name u with Some n => n | None => [] end).

Lemma lex_cons x a y b : lex (x :: a) (y :: b) = if x =? y then lex a b else if x <? y then -1 else 1.
Proof. cbn. destruct (Z.ltb_spec x y), (Z.ltb_spec y x), (Z.eqb_spec x y); done || lia. Qed.

(** Sequences with beginnings of the same length. *)
Lemma lex_app_same a : forall b s t, length a = length b ->
  lex (a ++ s) (b ++ t) = if lex a b =? 0 then lex s t else lex a b.
Proof.
  induction a as [|x a IH]; intros [|y b] s t Hl; try done. cbn [app].
  rewrite !lex_cons. destruct (x =? y); [|by destruct (x <? y)]. apply IH. by injection Hl.
Qed.

Lemma c_string_nul_free s : nul_free (c_string s).
Proof.
  unfold nul_free. induction s as [|c s IH]; [done|]. cbn. destruct (c =? 0) eqn:E; [done|].
  cbn. by rewrite E, IH.
Qed.

Lemma strcmp_lex a b : nul_free a -> nul_free b -> strcmp a b = lex a b.
Proof. unfold strcmp. by intros -> ->. Qed.

Lemma memcmp_lex a b : len a = len b -> memcmp a b (len b) = lex a b.
Proof. unfold memcmp, len. intros. rewrite !firstn_all2 by lia. done. Qed.

Lemma same_engine_key a b : same_engine a b = true <-> a = b.
Proof.
  unfold same_engine. destruct a as [a|], b as [b|]; rewrite ?andb_false_r; cbn; try done.
  rewrite andb_true_iff, Z.eqb_eq. split.
  - intros [Hl He%Z.eqb_eq]. rewrite memcmp_lex in He by done. f_equal. by apply lex_eq.
  - intros [= ->]. split; [done|]. rewrite memcmp_lex by done. by rewrite lex_refl.
Qed.

Lemma user_key_inj i n j m : user_key i n = user_key j m -> i = j /\ n = m.
Proof.
  unfold user_key, engine_key. destruct i as [i|], j as [j|]; cbn [app]; intros E; try discriminate E.
  - injection E as Hl He. apply app_inj_1 in He as [-> [= _ ->]]; [done|]. unfold len in Hl. lia.
  - by injection E as _ ->.
Qed.

(** [lia] on the answer of [lex]. *)
Ltac lex_cases a b := destruct (lex_range a b) as [->|[->| ->]].

Lemma compare_users_spec u v : named u -> named v ->
  compare_users u v = Ret (if 0 <? lex (key_of u) (key_of v) then before
                           else if lex (key_of u) (key_of v) =? 0 then replace else after).
Proof.
  intros (n & Hn & Nn) (m & Hm & Nm). unfold compare_users, key_of, engineIDLen. rewrite Hn, Hm.
  assert (Hnames : (if strlen m <? strlen n then Ret before
      else if (strlen n =? strlen m) && (0 <? strcmp n m) then Ret before
      else if (strlen n =? strlen m) && (strcmp n m =? 0) then Ret replace else Ret after)
    = Ret (if 0 <? lex (len n :: n) (len m :: m) then before
           else if lex (len n :: n) (len m :: m) =? 0 then replace else after)).
  { rewrite lex_cons, strcmp_lex by done.
    change (strlen n) with (len n). change (strlen m) with (len m).
    destruct (Z.eqb_spec (len n) (len m)), (Z.ltb_spec (len n) (len m)), (Z.ltb_spec (len m) (len n));
      try lia; cbn [andb]; try done. by lex_cases n m. }
  unfold user_key, engine_key. destruct (u_engineID u) as [a|], (u_engineID v) as [b|]; cbn [oid_len app].
  - rewrite !lex_cons. change (1 =? 1) with true. cbv iota.
    destruct (Z.ltb_spec (len b) (len a)), (Z.eqb_spec (len a) (len b)), (Z.ltb_spec (len a) (len b));
      try lia; try done; cbn [andb].
    + rewrite lex_app_same, memcmp_lex by (done || unfold len in *; lia).
      pose proof (same_engine_key (Some a) (Some b)) as Hs.
      destruct (lex_range a b) as [E|[E|E]]; rewrite E.
      * destruct (same_engine _ _); [|done]. assert (a = b) as -> by (assert (Some a = Some b) by tauto; congruence).
        by rewrite lex_refl in E.
      * apply lex_eq in E as ->. destruct (same_engine _ _); [|assert (false = true) by tauto; done].
        cbn [Z.ltb Z.compare Z.eqb]. exact Hnames.
      * done.
    + destruct (same_engine (Some a) (Some b)) eqn:E; [|done].
      apply same_engine_key in E as [= ->]. lia.
  - rewrite !lex_cons. unfold len. destruct (Z.ltb_spec 0 (Z.of_nat (length a))); [|].
    + destruct (Z.eqb_spec (Z.of_nat (length a)) 0), (Z.ltb_spec (Z.of_nat (length a)) 0); try lia; done.
    + destruct (Z.eqb_spec (Z.of_nat (length a)) 0); [done|lia].
  - rewrite !lex_cons. unfold len. destruct (Z.ltb_spec (Z.of_nat (length b)) 0); [lia|].
    destruct (Z.eqb_spec 0 (Z.of_nat (length b))), (Z.ltb_spec 0 (Z.of_nat (length b))); try lia; done.
  - rewrite 2!lex_cons. cbn [Z.ltb Z.eqb Z.compare andb same_engine oid_len].
    exact Hnames.
Qed.

(** ** The invariant and the map *)

Definition key_lt (u v : usmUser) : Prop := lex (key_of u) (key_of v) = -1.

Definition users_ok (l : list usmUser) : Prop := Forall named l /\ StronglySorted key_lt l.

Definition users_map (l : list usmUser) : gmap (list Z) usmUser :=
  list_to_map ((fun u => (key_of u, u)) <$> l).

Lemma key_lt_trans u v w : lex (key_of u) (key_of v) <= 0 -> key_lt v w -> key_lt u w.
Proof.
  unfold key_lt. intros Huv Hvw.
  pose proof (lex_le_trans (key_of u) (key_of v) (key_of w) Huv ltac:(lia)) as H.
  destruct (lex_range (key_of u) (key_of w)) as [?|[E|?]]; [done| |lia].
  apply lex_eq in E. rewrite <- E, lex_opp in Hvw. lia.
Qed.

Lemma users_map_cons u l : users_map (u :: l) = <[key_of u := u]> (users_map l).
Proof. done. Qed.

Lemma users_ok_cons u l : users_ok (u :: l) <-> named u /\ Forall (key_lt u) l /\ users_ok l.
Proof.
  unfold users_ok. rewrite Forall_cons. split.
  - intros [[? ?] [? ?]%StronglySorted_inv]. done.
  - intros (? & ? & ? & ?). split; [done|]. by constructor.
Qed.

(** No user further down the list has the key of the head. *)
Lemma users_map_fresh k l : Forall (fun v => lex k (key_of v) = -1) l -> users_map l !! k = None.
Proof.
  induction 1 as [|v l Hv Hl IH]; [done|]. rewrite users_map_cons, lookup_insert_ne; [done|].
  intros <-. by rewrite lex_refl in Hv.
Qed.

Lemma search_users_spec id name l : Forall named l ->
  search_users id name l = users_map l !! user_key id (c_string name).
Proof.
  induction 1 as [|u l (n & Hn & Nn) Hl IH]; [done|]. rewrite users_map_cons. cbn [search_users].
  rewrite Hn, IH. assert (Hk : key_of u = user_key (u_engineID u) n) by (unfold key_of; by rewrite Hn).
  assert (Hs : strcmp n name = lex n (c_string name)) by (unfold strcmp; by rewrite Nn).
  destruct ((strcmp n name =? 0) && same_engine (u_engineID u) id) eqn:E.
  - apply andb_prop in E as [En%Z.eqb_eq Ei%same_engine_key]. rewrite Hs in En.
    apply lex_eq in En. rewrite Hk, Ei, En. by rewrite lookup_insert_eq.
  - rewrite lookup_insert_ne; [done|]. rewrite Hk. intros [Hi Hc]%user_key_inj.
    apply andb_false_iff in E as [E|E].
    + apply Z.eqb_neq in E. rewrite Hs in E. by rewrite Hc, lex_refl in E.
    + by rewrite (proj2 (same_engine_key _ _) Hi) in E.
Qed.

Lemma usm_add_user_to_list_spec u l : users_ok l -> named u ->
  exists l', usm_add_user_to_list u l = Ret l' /\ users_ok l'
  /\ users_map l' = <[key_of u := u]> (users_map l)
  /\ (forall w, lex (key_of w) (key_of u) = -1 -> Forall (key_lt w) l -> Forall (key_lt w) l').
Proof.
  intros Hl Hu. induction l as [|v l IH].
  { exists [u]. split; [done|]. split; [by apply users_ok_cons|]. split; [done|].
    intros w Hw _. by constructor. }
  apply users_ok_cons in Hl as (Hv & Hvl & Hl). cbn [usm_add_user_to_list].
  rewrite compare_users_spec, bind_ret by done. destruct (lex_range (key_of v) (key_of u)) as [E|[E|E]]; rewrite E.
  - destruct (IH Hl) as (l' & -> & Hl' & Hm & Hlt). exists (v :: l').
    split; [done|]. split; [apply users_ok_cons; auto|]. rewrite !users_map_cons, Hm. split.
    + apply insert_insert_ne. intros Hk. by rewrite Hk, lex_refl in E.
    + intros w Hw [? ?]%Forall_cons. constructor; auto.
  - apply lex_eq in E. assert (Hlt : forall w, key_lt v w -> key_lt u w) by (unfold key_lt; by rewrite E).
    exists (u :: l). split; [done|]. split.
    { apply users_ok_cons. split; [done|]. split; [|done]. by eapply Forall_impl. }
    rewrite !users_map_cons, E, insert_insert_eq. split; [done|].
    intros w Hw [? ?]%Forall_cons. by constructor.
  - assert (Huv : key_lt u v) by (unfold key_lt; rewrite lex_opp; lia).
    exists (u :: v :: l). split; [done|]. split.
    { apply users_ok_cons. split; [done|]. split; [|by apply users_ok_cons]. constructor; [done|].
      eapply Forall_impl; [exact Hvl|]. intros w. apply key_lt_trans. unfold key_lt in Huv. lia. }
    split; [done|]. intros w Hw Hf. by constructor.
Qed.

(** Removing the user at a place. *)
Lemma usm_remove_user_from_list_spec n l u : users_ok l -> l !! n = Some u ->
  exists l', usm_remove_user_from_list n l = Some l' /\ users_ok l'
  /\ users_map l' = delete (key_of u) (users_map l).
Proof.
  intros Hl Hn. unfold usm_remove_user_from_list. rewrite Hn. eexists. split; [done|].
  revert l Hl Hn. induction n as [|n IH]; intros [|v l] Hl Hn; try done;
    apply users_ok_cons in Hl as (Hv & Hvl & Hl); cbn in Hn; simplify_eq.
  - cbn [take drop app]. split; [done|]. rewrite users_map_cons, delete_insert_id; [done|].
    apply users_map_fresh, Hvl.
  - destruct (IH l Hl Hn) as [Hok Hm]. rewrite firstn_cons, skipn_cons. cbn [app]. split.
    + apply users_ok_cons. split; [done|]. split; [|done].
      apply Forall_app. split; [by apply Forall_take|by apply Forall_drop].
    + rewrite !users_map_cons, Hm. symmetry. apply delete_insert_ne. intros Hk.
      rewrite Forall_forall in Hvl. apply list_elem_of_lookup_2 in Hn. specialize (Hvl u Hn).
      unfold key_lt in Hvl. by rewrite Hk, lex_refl in Hvl.
Qed.

(** * What the wrappers of scapi.c compute *)

(** ** Transforms *)

Lemma ISTRANSFORM_spec t toid : length t = 10%nat -> length toid = 10%nat ->
  ISTRANSFORM t toid = Ret (bool_decide (t = toid)).
Proof.
  intros Ht Ho. unfold ISTRANSFORM, USM_LENGTH_OID_TRANSFORM.
  pose proof (snmp_oid_compare_spec t [] toid []) as E. rewrite !app_nil_r in E.
  unfold short, len in E. rewrite Ht, Ho in E. change (Z.of_nat 10) with 10 in E.
  rewrite E, bind_ret by lia. f_equal.
  pose proof (lex_eq t toid) as Heq. case_bool_decide as Hd.
  - by rewrite (proj2 Heq Hd).
  - apply Z.eqb_neq. tauto.
Qed.

Section wrappers.
Context `{Crypto}.

(** The hash of a message under a protocol and a key that is long enough. *)
Definition keyed_mac (t k message : list Z) : option (list Z) :=
  if bool_decide (t = usmHMACMD5AuthProtocol) then
    if len k <? 16 then None else Some (HMAC_md5 k message)
  else if bool_decide (t = usmHMACSHA1AuthProtocol) then
    if len k <? 20 then None else Some (HMAC_sha1 k message)
  else None.

Lemma len_0 {A} (l : list A) : l <> [] -> 0 < Z.of_nat (length l).
Proof using Type. destruct l; [done|]. cbn. lia. Qed.

(** The answer is an error. *)
Ltac refused := do 2 eexists; split; [reflexivity|discriminate].

Lemma sc_generate_keyed_hash_spec t k message maclen : message <> [] -> 0 < maclen ->
  match keyed_mac t k message with
  | Some h => sc_generate_keyed_hash (Some t) (Some k) message maclen
              = Ret (SNMPERR_SUCCESS, take (Z.to_nat maclen) h)
  | None => exists rval l, sc_generate_keyed_hash (Some t) (Some k) message maclen = Ret (rval, l)
                           /\ rval <> SNMPERR_SUCCESS
  end.
Proof using Type.
  intros Hm Hl. apply len_0 in Hm. unfold sc_generate_keyed_hash, keyed_mac, len, USM_LENGTH_OID_TRANSFORM.
  destruct (Z.leb_spec (Z.of_nat (length message)) 0); [lia|]. destruct (Z.leb_spec maclen 0); [lia|].
  rewrite !orb_false_r.
  destruct (Z.eqb_spec (Z.of_nat (length t)) 10) as [Ht|Ht]; cbn [negb].
  2: { rewrite orb_true_r, !bool_decide_false by (intros ->; by cbn in Ht). refused. }
  rewrite orb_false_r. unfold sc_get_properlength.
  rewrite !ISTRANSFORM_spec by (done || lia). rewrite bind_ret.
  change (BYTESIZE SNMP_TRANS_AUTHLEN_HMACMD5) with 16. change (BYTESIZE SNMP_TRANS_AUTHLEN_HMACSHA1) with 20.
  case_bool_decide as Hmd5; [|case_bool_decide as Hsha].
  - destruct (Z.leb_spec (Z.of_nat (length k)) 0), (Z.ltb_spec (Z.of_nat (length k)) 16) as [Hk|Hk];
      try lia; cbn; [refused| |];
      destruct (Z.ltb_spec (Z.of_nat (length k)) 16); try lia; [refused|done].
  - rewrite bind_ret.
    destruct (Z.leb_spec (Z.of_nat (length k)) 0), (Z.ltb_spec (Z.of_nat (length k)) 20) as [Hk|Hk];
      try lia; cbn; [refused| |];
      destruct (Z.ltb_spec (Z.of_nat (length k)) 20); try lia; [refused|done].
  - rewrite bind_ret. destruct (_ <=? 0); refused.
Qed.

Lemma keyed_mac_length t k message h : keyed_mac t k message = Some h -> (16 <= length h <= 20)%nat.
Proof using Type.
  unfold keyed_mac. pose proof (HMAC_md5_ok k message) as [? _]. pose proof (HMAC_sha1_ok k message) as [? _].
  repeat case_match; intros; simplify_eq; lia.
Qed.

Lemma keyed_mac_bytes t k message h : keyed_mac t k message = Some h -> bytes_ok h.
Proof using Type.
  unfold keyed_mac. pose proof (HMAC_md5_ok k message) as [_ ?]. pose proof (HMAC_sha1_ok k message) as [_ ?].
  repeat case_match; intros; by simplify_eq.
Qed.

(** ** Encryption *)

(** The bytes DES needs to fill its last block. *)
Definition des_pad (n : Z) : list Z :=
  let pad := (8 - n mod 8) mod 8 in replicate (Z.to_nat pad) pad.

Lemma des_pad_len n : 0 <= len (des_pad n) < 8 /\ (n + len (des_pad n)) mod 8 = 0.
Proof using Type.
  unfold des_pad, len. rewrite length_replicate. Z.div_mod_to_equations. lia.
Qed.

Lemma des_pad_bytes n : bytes_ok (des_pad n).
Proof using Type. apply Forall_replicate. cint. Qed.

(** Two calls for the two parts, in one. *)
Lemma des_encrypt_spec key iv plaintext ctlen :
  bytes_ok plaintext -> len plaintext + len (des_pad (len plaintext)) <= ctlen ->
  exists ciphertext, des_encrypt key iv plaintext ctlen = Some ciphertext
  /\ len ciphertext = len plaintext + len (des_pad (len plaintext))
  /\ DES_cbc_decrypt (take 8 key) iv ciphertext = plaintext ++ des_pad (len plaintext).
Proof using Type.
  intros Hbytes Hroom. unfold des_encrypt. change (BYTESIZE SNMP_TRANS_PRIVLEN_1DES) with 8.
  set (n := len plaintext) in *. set (r := n mod 8).
  assert (Hr : 0 <= r < 8) by (apply Z.mod_pos_bound; lia).
  assert (Hrn : 0 <= r <= n) by (split; [lia|apply Z.mod_le; unfold n, len; lia]).
  assert (Hpad : (if 8 - r =? 8 then 0 else 8 - r) = (8 - r) mod 8)
    by (destruct (Z.eqb_spec (8 - r) 8); Z.div_mod_to_equations; lia).
  cbv zeta. rewrite Hpad. clear Hpad. replace (n - (8 - (8 - r))) with (n - r) by lia.
  change (replicate (Z.to_nat ((8 - r) mod 8)) ((8 - r) mod 8)) with (des_pad n).
  assert (Hlen : len (des_pad n) = (8 - r) mod 8)
    by (unfold des_pad, len; rewrite length_replicate; Z.div_mod_to_equations; lia).
  rewrite <- Hlen. destruct (Z.ltb_spec ctlen (n + len (des_pad n))); [lia|].
  set (pt1 := take (Z.to_nat (n - r)) plaintext). set (pt2 := drop (Z.to_nat (n - r)) plaintext).
  assert (H1 : len pt1 = n - r) by (unfold pt1, len; rewrite length_take; unfold n, len in *; lia).
  assert (H2 : len (pt2 ++ des_pad n) = r + (8 - r) mod 8)
    by (rewrite <- Hlen; unfold pt2, len; rewrite length_app, length_drop; unfold n, len in *; lia).
  assert (M1 : len pt1 mod 8 = 0) by (rewrite H1; unfold r; Z.div_mod_to_equations; lia).
  assert (M2 : len (pt2 ++ des_pad n) mod 8 = 0) by (rewrite H2; Z.div_mod_to_equations; lia).
  assert (B1 : bytes_ok pt1) by (by apply Forall_take).
  assert (B2 : bytes_ok (pt2 ++ des_pad n)) by (apply Forall_app; split; [by apply Forall_drop|apply des_pad_bytes]).
  pose proof (DES_inverse (take 8 key) iv pt1 (pt2 ++ des_pad n) B1 B2 M1 M2) as Hinv.
  pose proof (DES_length (take 8 key) iv pt1 M1) as L1.
  destruct (DES_ncbc_encrypt (take 8 key) iv pt1) as [c1 iv']. cbn [fst] in L1.
  pose proof (DES_length (take 8 key) iv' (pt2 ++ des_pad n) M2) as L2.
  assert (Hpt : plaintext = pt1 ++ pt2) by (symmetry; apply take_drop).
  assert (Hc : n + len (des_pad n) = len pt1 + len (pt2 ++ des_pad n)) by lia.
  eexists. split; [done|]. rewrite Hc. destruct (Z.ltb_spec 0 (len (des_pad n))) as [|Hnone].
  - split; [unfold len in *; rewrite length_app; lia|].
    rewrite Hinv, Hpt, app_assoc. done.
  - assert (Hr0 : r = 0) by (Z.div_mod_to_equations; lia).
    assert (E : pt2 ++ des_pad n = []) by (apply nil_length_inv; rewrite Hr0 in H2; unfold len in H2; change (0 + (8 - 0) mod 8) with 0 in H2; lia).
    rewrite E in *. apply nil_length_inv in L2. rewrite L2, app_nil_r in Hinv. rewrite Hinv.
    split; [unfold len in *; cbn; lia|]. by rewrite Hpt, <- app_assoc, E.
Qed.

(** What the cipher [sc_encrypt] uses adds. *)
Definition pad_of (t plaintext : list Z) : list Z :=
  if bool_decide (t = usmDESPrivProtocol) then des_pad (len plaintext) else [].

Lemma sc_encrypt_spec t k iv plaintext ctlen l :
  sc_encrypt (Some t) (Some k) iv plaintext ctlen = Ret (SNMPERR_SUCCESS, l) ->
  bytes_ok plaintext -> len plaintext + 7 <= ctlen ->
  len l = len plaintext + len (pad_of t plaintext) /\ 0 < len plaintext
  /\ (t = usmDESPrivProtocol \/ t = usmAESPrivProtocol)
  /\ forall ptlen, len l <= ptlen ->
     sc_decrypt (Some t) (Some k) iv l ptlen = Ret (SNMPERR_SUCCESS, plaintext ++ pad_of t plaintext).
Proof using Type.
  intros E Hbytes Hroom. unfold sc_encrypt in E. unfold sc_decrypt.
  destruct (_ || _ || _ || _ || _ || _) eqn:Hg; [discriminate E|].
  assert (Hpos : 0 < len plaintext) by lia.
  assert (Ht : len t = USM_LENGTH_OID_TRANSFORM) by lia. clear Hg.
  assert (Ht10 : length t = 10%nat) by (unfold len in Ht; unfold USM_LENGTH_OID_TRANSFORM in Ht; lia).
  unfold has_des, has_aes in *. rewrite !ISTRANSFORM_spec in E by done. rewrite !bind_ret in E.
  rewrite !ISTRANSFORM_spec by done. unfold pad_of. rewrite Ht, Z.eqb_refl. cbn [negb].
  destruct (proper_lengths (bool_decide (t = usmDESPrivProtocol)) _) as [[pl pliv]|] eqn:Hp; [|discriminate E].
  destruct ((len k <? pl) || (len iv <? pliv)) eqn:Hk; [discriminate E|].
  pose proof (des_pad_len (len plaintext)) as [Hpl _].
  case_bool_decide as Hdes.
  - destruct (des_encrypt_spec k iv plaintext ctlen) as (c & Hc & Hlen & Hinv); [done|lia|].
    rewrite Hc in E. injection E as <-. split; [done|]. split; [done|]. split; [by left|].
    intros ptlen Hpt. destruct (_ || _ || _ || _) eqn:Hg; [lia|]. by rewrite !bind_ret, Hp, Hk, Hinv.
  - injection E as <-. unfold len. rewrite AES_length. cbn [length]. rewrite Z.add_0_r, app_nil_r.
    split; [done|]. split; [done|]. split.
    { right. by destruct (decide (t = usmAESPrivProtocol)) as [|Haes]; [|rewrite (bool_decide_false _ Haes) in Hp]. }
    intros ptlen Hpt. unfold len in *. destruct (_ || _ || _ || _) eqn:Hg; [lia|].
    by rewrite !bind_ret, Hp, Hk, AES_inverse by done.
Qed.

(** Nothing is decrypted without a known transform. *)
Lemma sc_decrypt_transform privtype key iv ciphertext ptlen l :
  sc_decrypt privtype key iv ciphertext ptlen = Ret (SNMPERR_SUCCESS, l) ->
  privtype = Some usmDESPrivProtocol \/ privtype = Some usmAESPrivProtocol.
Proof using Type.
  unfold sc_decrypt. destruct privtype as [t|]; [|done]. destruct key as [k|]; [|done].
  destruct (_ || _ || _ || _) eqn:Hg; [done|].
  assert (Ht10 : length t = 10%nat).
  { assert (len t = USM_LENGTH_OID_TRANSFORM) as Ht by lia. unfold len, USM_LENGTH_OID_TRANSFORM in Ht. lia. }
  unfold has_des, has_aes. rewrite !ISTRANSFORM_spec, !bind_ret by done.
  destruct (decide (t = usmDESPrivProtocol)) as [->|Hd]; [by left|].
  destruct (decide (t = usmAESPrivProtocol)) as [->|Ha]; [by right|].
  rewrite !bool_decide_false by done. done.
Qed.

(** The check accepts the first twelve bytes of the hash, and nothing else. *)
Lemma sc_check_keyed_hash_spec authtype key message MAC :
  sc_check_keyed_hash authtype key message MAC = Ret SNMPERR_SUCCESS <->
  exists t k h, authtype = Some t /\ key = Some k /\ keyed_mac t k message = Some h
                /\ MAC = take 12 h /\ 12 <= len message.
Proof using Type.
  unfold sc_check_keyed_hash, USM_MD5_AND_SHA_AUTH_LEN. destruct authtype as [t|]; [|by split; [|intros (?&?&?&?&_)]].
  destruct key as [k|]; [|by split; [|intros (?&?&?&?&?&_)]].
  destruct (decide (message = [])) as [->|Hm].
  { rewrite orb_true_r. cbn. split; [done|]. intros (?&?&?&_&_&_&_&Hc). by cbn in Hc. }
  pose proof (sc_generate_keyed_hash_spec t k message SNMP_MAXBUF_SMALL Hm ltac:(done)) as Hg. split.
  - destruct (_ || _ || _ || _); [done|]. destruct (Z.eqb_spec (len MAC) 12) as [HM|]; [|done]. cbn [negb].
    destruct (keyed_mac t k message) as [h|] eqn:E.
    + rewrite Hg, bind_ret. cbn [negb Z.eqb SNMPERR_SUCCESS]. destruct (Z.ltb_spec (len message) (len MAC)); [done|].
      case_bool_decide as Heq; [|done]. intros _. exists t, k, h. repeat split; try done; [|lia].
      rewrite <- Heq. apply keyed_mac_length in E. unfold len in HM.
      change (Z.to_nat SNMP_MAXBUF_SMALL) with 512%nat. rewrite (firstn_all2 (n := 512%nat) h) by lia.
      by replace (length MAC) with 12%nat by lia.
    + destruct Hg as (rval & l & -> & Hr). rewrite bind_ret. destruct (Z.eqb_spec rval SNMPERR_SUCCESS); done.
  - intros (t' & k' & h & [= <-] & [= <-] & E & -> & Hlen). rewrite E in Hg.
    pose proof (keyed_mac_length _ _ _ _ E) as Hh.
    assert (HM : len (take 12 h) = 12) by (unfold len; rewrite length_take; lia). rewrite HM.
    assert (Ht : len t = USM_LENGTH_OID_TRANSFORM /\ 0 < len k).
    { unfold keyed_mac in E. repeat case_bool_decide; simplify_eq.
      all: split; [done|]; match goal with E : context [?a <? ?b] |- _ => destruct (Z.ltb_spec a b) end; [done|lia]. }
    destruct Ht as [-> Hk]. destruct (Z.leb_spec (len k) 0); [lia|].
    destruct (Z.leb_spec (len message) 0); [lia|]. rewrite Z.eqb_refl. cbn [orb negb Z.leb Z.compare].
    change (12 =? 12) with true. cbn [negb]. rewrite Hg, bind_ret. cbn [negb Z.eqb SNMPERR_SUCCESS].
    destruct (Z.ltb_spec (len message) 12); [lia|].
    rewrite bool_decide_true; [done|]. change (Z.to_nat SNMP_MAXBUF_SMALL) with 512%nat.
    rewrite (firstn_all2 (n := 512%nat) h) by lia. rewrite length_take. by replace (12 `min` length h)%nat with 12%nat by lia.
Qed.
End wrappers.
