(* ===== verification/UsmMsgSpec.v ===== *)
(** * Runs of the routines of snmpusm.c that send and receive messages

    How a call of [usm_process_in_msg] that succeeds came about, and what any
    call of it or of [usm_rgenerate_out_msg] does to the clocks. *)

From stdpp Require Import gmap list relations.
From S2P Require Import Prelude Bytes AsnTypes AsnParse AsnRbuild Oid Vacm Lcd LcdSpec Usm UsmSpec Scapi UsersSpec Users UsmMsg.

(** ** The course of [usm_process_in_msg] *)

Definition use_default (sess : option authoritative) : bool :=
  match sess with Some SNMP_SESS_AUTHORITATIVE | None => false | Some _ => true end.

(** [remaining], as it is computed. *)
Definition in_remaining (m : mem) (secParams wholeMsgLen : Z) : outcome Z :=
  b ← rd m secParams; b0 ← rd m 0; Ret (u64 (wholeMsgLen - u32 (u64 (b - b0)))).

(** Splits a run, one [bind], test or match at a time. *)
Ltac run_step E :=
  match type of E with
  | Ret _ = Ret _ => injection E; clear E; intros; subst
  | _ ≫= _ = Ret _ => let a := fresh "a" in let Ha := fresh "Ha" in
                      apply bind_Ret_inv in E as (a & Ha & E)
  | (let '(_, _) := ?x in _) = Ret _ => destruct x
  | (if ?b then _ else _) = Ret _ => let Hb := fresh "Hb" in destruct b eqn:Hb
  | match ?x with _ => _ end = Ret _ => let Hx := fresh "Hx" in destruct x eqn:Hx
  end; try discriminate.

Section course.
Context `{Platform, Allocator, Crypto}.

(** The steps of a call that succeeds. *)
Record accepts (st : usm) (maxMsgSize : Z) (m : mem) (wholeMsg secParams secLevel wholeMsgLen : Z)
    (sess : option authoritative) (msg_flags secEngineIDLen secNameLen scopedPduLen : Z)
    (c1 c2 : lcd) (user : usmUser) (res : in_result) : Prop := {
  a_parsed : exists remaining, in_remaining m secParams wholeMsgLen = Ret remaining
    /\ usm_parse_security_parameters m secParams remaining secEngineIDLen secNameLen
         (BYTESIZE USM_MAX_KEYEDHASH_LENGTH) (BYTESIZE USM_MAX_SALT_LENGTH) = Ret (inr (r_params res));
  a_salt : secLevel = SNMP_SEC_LEVEL_AUTHPRIV -> len (p_salt (r_params res)) = 8;
  a_engine : locate_engine (clocks st) sess msg_flags (p_secEngineID (r_params res)) = Ret (c1, None);
  a_user : usm_get_user_from_list (Some (p_secEngineID (r_params res)))
             (Some (c_string (p_secName (r_params res)))) (userList st) (noNameUser st) (use_default sess)
           = Some user;
  a_active : u_userStatus user = RS_ACTIVE;
  a_level : usm_check_secLevel secLevel user = Ret 0;
  a_verified : is_auth secLevel = true ->
    exists message, rd_n (p_msg (r_params res)) 0 (Z.to_nat wholeMsgLen) = Ret message
    /\ sc_check_keyed_hash (u_authProtocol user) (u_authKey user) message (p_signature (r_params res)) = Ret 0;
  a_finished : finish_in_msg c1 maxMsgSize wholeMsg wholeMsgLen secLevel user (r_params res) scopedPduLen
               = Ret (c2, inr res)
}.

Lemma finish_params c maxMsgSize wholeMsg wholeMsgLen secLevel user q scopedPduLen c' res :
  finish_in_msg c maxMsgSize wholeMsg wholeMsgLen secLevel user q scopedPduLen = Ret (c', inr res) ->
  r_params res = q.
Proof using Type. unfold finish_in_msg. intros E. by repeat run_step E. Qed.

Lemma process_accepts st maxMsgSize m wholeMsg secParams secLevel wholeMsgLen sref sess msg_flags
    secEngineIDLen secNameLen scopedPduLen st' ref res :
  usm_process_in_msg st maxMsgSize m wholeMsg secParams secLevel wholeMsgLen sref sess msg_flags
    secEngineIDLen secNameLen scopedPduLen = Ret (st', ref, inr res) ->
  exists c1 c2 user, accepts st maxMsgSize m wholeMsg secParams secLevel wholeMsgLen sess msg_flags
                       secEngineIDLen secNameLen scopedPduLen c1 c2 user res
  /\ st' = with_clocks c2 st.
Proof using Type.
  unfold usm_process_in_msg. intros E. repeat run_step E.
  match goal with Hf : finish_in_msg _ _ _ _ _ ?u ?q _ = Ret (?l2, _),
                  Hl : locate_engine _ _ _ _ = Ret (?l1, None) |- _ =>
    pose proof (finish_params _ _ _ _ _ _ _ _ _ _ Hf) as Hq; exists l1, l2, u end.
  split; [|done]. constructor; rewrite ?Hq; try assumption.
  - eexists. split; [|eassumption]. unfold in_remaining. by rewrite Ha, bind_ret, Ha0.
  - intros ->. rewrite Z.eqb_refl in Hb0. cbn [andb] in Hb0. by apply negb_false_iff, Z.eqb_eq in Hb0.
  - by apply negb_false_iff, Z.eqb_eq in Hb2.
  - apply negb_false_iff, Z.eqb_eq in Hb4. congruence.
  - intros Hauth. rewrite Hauth in Ha4. repeat run_step Ha4. apply negb_false_iff, Z.eqb_eq in Hb5. subst. eauto.
Qed.

(** Every call leaves all but the clocks, and these as [locate_engine] or
    [finish_in_msg] left them. *)
Lemma process_clocks st maxMsgSize m wholeMsg secParams secLevel wholeMsgLen sref sess msg_flags
    secEngineIDLen secNameLen scopedPduLen st' ref r :
  usm_process_in_msg st maxMsgSize m wholeMsg secParams secLevel wholeMsgLen sref sess msg_flags
    secEngineIDLen secNameLen scopedPduLen = Ret (st', ref, r) ->
  st' = st \/ exists remaining q c1 code,
    usm_parse_security_parameters m secParams remaining secEngineIDLen secNameLen
         (BYTESIZE USM_MAX_KEYEDHASH_LENGTH) (BYTESIZE USM_MAX_SALT_LENGTH) = Ret (inr q)
    /\ locate_engine (clocks st) sess msg_flags (p_secEngineID q) = Ret (c1, code)
    /\ (st' = with_clocks c1 st
        \/ exists user c2 x, finish_in_msg c1 maxMsgSize wholeMsg wholeMsgLen secLevel user q scopedPduLen = Ret (c2, x)
                            /\ st' = with_clocks c2 st).
Proof using Type.
  unfold usm_process_in_msg. intros E. repeat run_step E. all: try by left. all: right.
  all: do 4 eexists; split; [eassumption|]; split; [eassumption|].
  all: first [by left|right; do 3 eexists; split; [eassumption|done]].
Qed.

(** The reference a caller asks for can be allocated. *)
Definition reference (sref : bool) (q : usm_params) (secLevel : Z) (user : usmUser) : option usmStateReference :=
  if sref then (usm_malloc_usmStateReference ≫= cache_names (p_secName q) (p_secEngineID q) secLevel) ≫= cache_user user
  else None.

Lemma accepts_process st maxMsgSize m wholeMsg secParams secLevel wholeMsgLen sref sess msg_flags
    secEngineIDLen secNameLen scopedPduLen c1 c2 user res :
  accepts st maxMsgSize m wholeMsg secParams secLevel wholeMsgLen sess msg_flags
    secEngineIDLen secNameLen scopedPduLen c1 c2 user res ->
  (sref = true -> is_Some (reference sref (r_params res) secLevel user)) ->
  usm_process_in_msg st maxMsgSize m wholeMsg secParams secLevel wholeMsgLen sref sess msg_flags
    secEngineIDLen secNameLen scopedPduLen
  = Ret (with_clocks c2 st, reference sref (r_params res) secLevel user, inr res).
Proof using Type.
  intros [(remaining & Hrem & Hq) Hsalt Hloc Huser Hact Hlvl Hver Hfin] Href. unfold usm_process_in_msg.
  unfold in_remaining in Hrem. apply bind_Ret_inv in Hrem as (b & Hb & Hrem). rewrite Hb, bind_ret.
  apply bind_Ret_inv in Hrem as (b0 & Hb0 & Hrem). rewrite Hb0, bind_ret. injection Hrem as ->.
  set (r0 := if sref then usm_malloc_usmStateReference else None).
  set (r1 := r0 ≫= cache_names (p_secName (r_params res)) (p_secEngineID (r_params res)) secLevel).
  assert (E : reference sref (r_params res) secLevel user = r1 ≫= cache_user user) by (by destruct sref).
  rewrite E in *. assert (H01 : (sref && bool_decide (r0 = None)) = false /\ (sref && bool_decide (r1 = None)) = false
    /\ (sref && bool_decide (r1 ≫= cache_user user = None)) = false).
  { destruct sref; [|done]. destruct (Href eq_refl) as [r2 Hr2]. destruct r1 as [x|] eqn:E1; [|done].
    rewrite Hr2. cbn [andb]. destruct r0 as [y|] eqn:E0; [|by unfold r1 in E1]. done. }
  destruct H01 as (-> & Hr1 & Hr2). rewrite Hq, bind_ret.
  destruct (_ && negb (len _ =? 8)) eqn:E8.
  { apply andb_prop in E8 as [El%Z.eqb_eq En]. by rewrite Hsalt in En. }
  fold r1. rewrite Hr1. cbn [clocks with_clocks]. rewrite Hloc, bind_ret. cbn [userList noNameUser with_clocks].
  fold (use_default sess). rewrite Huser, Hact, Z.eqb_refl. cbn [negb]. rewrite Hlvl, bind_ret. cbn [Z.eqb negb].
  assert (Hv : (if is_auth secLevel then message ← rd_n (p_msg (r_params res)) 0 (Z.to_nat wholeMsgLen);
                  rval ← sc_check_keyed_hash (u_authProtocol user) (u_authKey user) message (p_signature (r_params res));
                  Ret (rval =? 0) else Ret true) = Ret true).
  { destruct (is_auth secLevel); [|done]. destruct (Hver eq_refl) as (message & -> & Hc). rewrite bind_ret, Hc. done. }
  rewrite Hv, bind_ret. cbn [negb]. rewrite Hr2. rewrite Hfin, bind_ret. done.
Qed.
End course.

(** ** The clocks *)

Section moves.
Context `{Platform, Allocator, Crypto}.

(** The invariant is kept, and no authenticated record goes back. *)
Definition moves (my : list Z) (s s' : lcd) : Prop := good s my -> good s' my /\ advances s s'.

Lemma moves_refl my s : moves my s s.
Proof using Type. intros Hg. split; [done|by apply advances_refl]. Qed.

Lemma moves_trans my s1 s2 s3 : moves my s1 s2 -> moves my s2 s3 -> moves my s1 s3.
Proof using Type.
  intros H12 H23 Hg. destruct (H12 Hg) as [Hg2 Ha]. destruct (H23 Hg2) as [Hg3 Hb].
  split; [done|]. by eapply advances_trans.
Qed.

Lemma moves_step my s s' : step s s' -> moves my s s'.
Proof using Type. intros Hs Hg. by eapply step_good. Qed.

Lemma check_moves my s id boots time r error s' : tuple_ok boots time ->
  usm_check_and_update_timeliness s id boots time = Ret (r, error, s') -> moves my s s'.
Proof using Type.
  intros Ht E Hg. destruct (decide (id = [])) as [->|Hid]; [|by eapply moves_step; [eapply step_check|]].
  pose proof Hg as (_ & _ & Hmy & Hlen).
  assert (s' = s \/ s' = tick s) as Hs'.
  { unfold usm_check_and_update_timeliness, snmpv3_get_engineID in E. rewrite Hmy in E.
    destruct (Z.ltb_spec USM_MAX_ID_LENGTH (len my)); [lia|].
    destruct (Z.ltb_spec USM_MAX_ID_LENGTH (len my)); [lia|].
    destruct (Z.eqb_spec (len my) 0); [lia|]. cbn [orb] in E.
    unfold tick. destruct (snmpv3_local_snmpEngineTime s) as [t s1]. cbn [snd].
    destruct (bool_decide_reflect (@nil Z = my)) as [<-|]; [unfold len in Hlen; cbn [length] in Hlen; lia|].
    rewrite andb_false_r in E. cbn in E. injection E as _ _ <-. by right. }
  destruct Hs' as [->| ->]; (split; [done|by apply advances_refl]).
Qed.

Lemma set_moves my s id boots time r s' : tuple_ok boots time ->
  set_enginetime s (Some id) boots time false = Ret (r, s') -> moves my s s'.
Proof using Type.
  intros Ht E. destruct id as [|b id]; [injection E as _ <-; apply moves_refl|].
  apply moves_step. by eapply (step_unauthenticated _ _ (b :: id)).
Qed.

Lemma get_moves my s id a r boots time s' :
  get_enginetime s id a = Ret (r, boots, time, s') -> moves my s s'.
Proof using H H0.
  intros E. destruct id as [[|b id]|]; [injection E as _ _ _ <-; apply moves_refl| |injection E as _ _ _ <-; apply moves_refl].
  apply moves_step. by eapply (step_get _ _ (b :: id)).
Qed.

Lemma locate_moves my s sess msg_flags id s' x :
  locate_engine s sess msg_flags id = Ret (s', x) -> moves my s s'.
Proof using Type.
  unfold locate_engine. cbv zeta. destruct (match sess with Some _ => _ | None => _ end).
  - unfold ISENGINEKNOWN. intros E. repeat run_step E. repeat run_step Ha. by eapply get_moves.
  - unfold ENSURE_ENGINE_RECORD. intros E. repeat run_step E. all: repeat run_step Ha.
    all: eapply set_moves; [|eassumption]; unfold tuple_ok, ENGINEBOOT_MAX, ENGINETIME_MAX; lia.
Qed.

Lemma finish_moves my s maxMsgSize wholeMsg wholeMsgLen secLevel user q scopedPduLen s' x :
  tuple_ok (p_boots q) (p_time q) ->
  finish_in_msg s maxMsgSize wholeMsg wholeMsgLen secLevel user q scopedPduLen = Ret (s', x) -> moves my s s'.
Proof using Type.
  intros Ht. unfold finish_in_msg. intros E. apply bind_Ret_inv in E as ([c late] & Hc & E).
  assert (s' = c) as -> by by repeat run_step E. clear E. destruct (is_auth secLevel).
  - repeat run_step Hc. by eapply check_moves.
  - repeat run_step Hc. by eapply set_moves.
Qed.

Lemma process_moves my st maxMsgSize m wholeMsg secParams secLevel wholeMsgLen sref sess msg_flags
    secEngineIDLen secNameLen scopedPduLen st' ref r :
  bytes_ok m -> 0 <= secParams -> is_u32 secNameLen ->
  usm_process_in_msg st maxMsgSize m wholeMsg secParams secLevel wholeMsgLen sref sess msg_flags
    secEngineIDLen secNameLen scopedPduLen = Ret (st', ref, r) ->
  moves my (clocks st) (clocks st').
Proof using Type.
  intros Hm Hp Hn E. apply process_clocks in E as [->|(rem & q & c1 & code & Hq & Hl & Hst)]; [apply moves_refl|].
  apply usm_parse_out in Hq; [|done..]. destruct Hq as (Hb & Ht & _).
  apply locate_moves with (my := my) in Hl. destruct Hst as [->|(user & c2 & x & Hf & ->)]; [done|].
  eapply moves_trans; [exact Hl|]. by eapply finish_moves.
Qed.

(** The salts are the only other state a sender changes. *)
Definition same_tables (st st' : usm) : Prop :=
  clocks st' = clocks st /\ userList st' = userList st /\ noNameUser st' = noNameUser st.

Lemma make_salt_same st sec boots time r : make_salt st sec boots time = Ret r ->
  match r with inl _ => True | inr (_, _, st') => same_tables st st' end.
Proof using Type.
  unfold make_salt. intros E. repeat run_step E; try done.
  match goal with Hs : usm_set_salt _ _ = _ |- _ => unfold usm_set_salt in Hs; by repeat run_step Hs end.
Qed.

Lemma encrypt_pdu_same st sec boots time pdu s st' r :
  encrypt_pdu st sec boots time pdu s = Ret (st', r) -> same_tables st st'.
Proof using Type.
  unfold encrypt_pdu. intros E. repeat run_step E; try done.
  all: match goal with Hs : make_salt _ _ _ _ = _ |- _ => by apply make_salt_same in Hs end.
Qed.

Lemma rgenerate_moves my st globalData secEngineID secName secLevel scopedPdu ref s st' r :
  usm_rgenerate_out_msg st globalData secEngineID secName secLevel scopedPdu ref s = Ret (st', r) ->
  moves my (clocks st) (clocks st') /\ userList st' = userList st /\ noNameUser st' = noNameUser st.
Proof using Type.
  unfold usm_rgenerate_out_msg. intros E. repeat run_step E.
  all: try (split; [apply moves_refl|done]).
  all: match goal with Hg : get_enginetime _ _ _ = _ |- _ => apply get_moves with (my := my) in Hg end.
  all: match goal with Hs : (if _ then encrypt_pdu _ _ _ _ _ _ else _) = _ |- _ => repeat run_step Hs end.
  all: try (split; [assumption|done]).
  all: match goal with Hs : encrypt_pdu _ _ _ _ _ _ = _ |- _ => apply encrypt_pdu_same in Hs as (Hc & Hu & Hn) end.
  all: rewrite Hc, Hu, Hn; (split; [assumption|done]).
Qed.
End moves.

(** ** Runs *)

Section runs.
Context `{Platform, Allocator, Crypto}.

(** An incoming message, an outgoing one, and the changes of the user table. *)
Inductive usm_step (st st' : usm) : Prop :=
  | receives maxMsgSize m wholeMsg secParams secLevel wholeMsgLen sref sess msg_flags
      secEngineIDLen secNameLen scopedPduLen ref r :
      bytes_ok m -> 0 <= secParams -> is_u32 secNameLen ->
      usm_process_in_msg st maxMsgSize m wholeMsg secParams secLevel wholeMsgLen sref sess msg_flags
        secEngineIDLen secNameLen scopedPduLen = Ret (st', ref, r) -> usm_step st st'
  | sends globalData secEngineID secName secLevel scopedPdu ref s r :
      usm_rgenerate_out_msg st globalData secEngineID secName secLevel scopedPdu ref s = Ret (st', r) ->
      usm_step st st'
  | adds user : named user -> usm_add_user user st = Ret st' -> usm_step st st'
  | removes n : usm_remove_user n st = st' -> usm_step st st'.

Definition usm_ok (st : usm) (my : list Z) : Prop := good (clocks st) my /\ users_ok (userList st).

Lemma usm_step_ok my st st' : usm_step st st' -> usm_ok st my ->
  usm_ok st' my /\ advances (clocks st) (clocks st').
Proof using Type.
  intros Hstep (Hg & Hu).
  destruct Hstep as [max m wm sp lvl wl sref sess fl il nl pl ref r Hm Hp Hnl E|gd eid name lvl pdu ref s r E|user Hn E|n <-].
  - pose proof (process_moves my _ _ _ _ _ _ _ _ _ _ _ _ _ _ _ _ Hm Hp Hnl E Hg) as [Hg' Ha].
    split; [|done]. split; [done|].
    apply process_clocks in E as [->|(rem & q & c1 & code & _ & _ & [->|(u & c2 & x & _ & ->)])]; done.
  - pose proof (rgenerate_moves my _ _ _ _ _ _ _ _ _ _ E) as (Hmv & Hul & Hnn).
    destruct (Hmv Hg) as [Hg' Ha]. split; [|done]. split; [done|]. by rewrite Hul.
  - unfold usm_add_user in E. destruct (usm_add_user_to_list_spec user (userList st) Hu Hn) as (l & Hl & Hok & _).
    rewrite Hl, bind_ret in E. injection E as <-. split; [done|by apply advances_refl].
  - unfold usm_remove_user. destruct (usm_remove_user_from_list n (userList st)) as [l|] eqn:E.
    + unfold usm_remove_user_from_list in E. destruct (userList st !! n) as [u|] eqn:En; [|done].
      destruct (usm_remove_user_from_list_spec n (userList st) u Hu En) as (l' & Hl' & Hok & _).
      unfold usm_remove_user_from_list in Hl'. rewrite En in Hl'. rewrite E in Hl'. injection Hl' as ->.
      split; [done|by apply advances_refl].
    + split; [done|by apply advances_refl].
Qed.

Lemma usm_run_ok my st st' : rtc usm_step st st' -> usm_ok st my ->
  usm_ok st' my /\ advances (clocks st) (clocks st').
Proof using Type.
  induction 1 as [st|st st1 st2 Hstep _ IH]; intros Hok; [split; [done|by apply advances_refl]|].
  destruct (usm_step_ok _ _ _ Hstep Hok) as [Hok1 Ha]. destruct (IH Hok1) as [Hok2 Hb].
  split; [done|]. by eapply advances_trans.
Qed.

(** ** Authentication *)

Lemma search_users_in id name l u : search_users id name l = Some u -> u ∈ l.
Proof using Type.
  induction l as [|v l IH]; [done|]. cbn. destruct (_ && _); [intros [= ->]; by left|]. right. auto.
Qed.

(** The user of the table for an engine and a name; where [default] says so,
    the user without a name stands in for one without a name that the table does not have. *)
Definition known_user (st : usm) (default : bool) (id : option (list Z)) (name : list Z) (user : usmUser) : Prop :=
  users_map (userList st) !! user_key id name = Some user \/
  (users_map (userList st) !! user_key id name = None /\ name = [] /\ default = true /\ noNameUser st = Some user).

(** As it is made, the user without a name signs nothing. *)
Lemma init_usm_no_key salt salt64_1 salt64_2 st u :
  noNameUser (init_usm_post_config salt salt64_1 salt64_2 st) = Some u -> u_authKey u = None /\ u_name u = Some [].
Proof using Type.
  cbn. intros (v & E & ->)%fmap_Some. unfold usm_create_initial_user in E.
  apply bind_Some in E as (n & En & E).
  assert (Hn : u_authKey n = None).
  { unfold usm_create_user in En. destruct (negb _); [done|]. apply bind_Some in En as (? & _ & En). apply bind_Some in En as (? & _ & En). by simplify_eq. }
  destruct (negb _); [done|]. apply bind_Some in E as (id & _ & E). destruct (negb _); [done|].
  apply bind_Some in E as (? & _ & E). apply bind_Some in E as (? & _ & E). by simplify_eq/=.
Qed.

Lemma found_user_known st my id name d u : usm_ok st my ->
  usm_get_user_from_list id (Some name) (userList st) (noNameUser st) d = Some u -> known_user st d id (c_string name) u.
Proof using Type.
  intros (_ & [Hnamed _]). unfold usm_get_user_from_list, known_user.
  rewrite search_users_spec by done. destruct (users_map _ !! _); [by left|].
  destruct (d && _) eqn:E; [|done]. apply andb_prop in E as [-> E%Z.eqb_eq]. intros Hn. right. split_and!; [done| |done|done].
  by apply lex_eq in E.
Qed.

(** An authenticated message passed the check of its time. *)
Lemma finish_checked c maxMsgSize wholeMsg wholeMsgLen secLevel user q scopedPduLen c2 res :
  is_auth secLevel = true ->
  finish_in_msg c maxMsgSize wholeMsg wholeMsgLen secLevel user q scopedPduLen = Ret (c2, inr res) ->
  exists r error, usm_check_and_update_timeliness c (p_secEngineID q) (p_boots q) (p_time q) = Ret (r, error, c2)
                  /\ r <> -1.
Proof using Type.
  intros Ha. unfold finish_in_msg. rewrite Ha. intros E.
  apply bind_Ret_inv in E as ([c' late'] & Hc & E). apply bind_Ret_inv in Hc as ([[r error] c''] & Hc & Hl).
  destruct (Z.eqb_spec r (-1)); injection Hl as -> <-; [done|]. exists r, error. split; [|done].
  repeat run_step E; done.
Qed.

(** The user [user], whose key signs the first [n] bytes of [m] with the
    signature blanked as the parameters [q] say. *)
Definition signed_by (st : usm) (default : bool) (m : mem) (secParams n : Z) (q : usm_params) (user : usmUser) : Prop :=
  known_user st default (Some (p_secEngineID q)) (c_string (p_secName q)) user
  /\ u_userStatus user = RS_ACTIVE
  /\ exists t k h at_ message, u_authProtocol user = Some t /\ u_authKey user = Some k
     /\ secParams <= at_ /\ bytes_at m at_ (p_signature q)
     /\ rd_n (blank m at_ 12) 0 (Z.to_nat n) = Ret message
     /\ keyed_mac t k message = Some h /\ p_signature q = take 12 h.

Lemma process_signed st my maxMsgSize m wholeMsg secParams secLevel wholeMsgLen sref sess msg_flags
    secEngineIDLen secNameLen scopedPduLen st' ref res :
  usm_ok st my -> bytes_ok m -> 0 <= secParams -> is_u32 secNameLen -> is_auth secLevel = true ->
  usm_process_in_msg st maxMsgSize m wholeMsg secParams secLevel wholeMsgLen sref sess msg_flags
    secEngineIDLen secNameLen scopedPduLen = Ret (st', ref, inr res) ->
  exists user, signed_by st (use_default sess) m secParams wholeMsgLen (r_params res) user.
Proof using Type.
  intros Hok Hm Hp Hnl Ha E. set (q := r_params res). apply process_accepts in E as (c1 & c2 & user & Hacc & _).
  destruct Hacc as [(rem & _ & Hq) _ _ Huser Hact Hlvl Hver _]. fold q in Hq, Huser, Hver.
  apply usm_parse_out in Hq as (_ & _ & _ & _ & _ & _ & _ & _ & at_ & Hat & _ & Hsig & Hmsg); [|done..].
  destruct (Hver Ha) as (message & Hrd & (t & k & h & Ht & Hk & Hh & Hs & _)%sc_check_keyed_hash_spec).
  assert (Hl : len (p_signature q) = 12).
  { rewrite Hs. unfold len. rewrite length_take. apply keyed_mac_length in Hh. lia. }
  exists user. split; [rewrite <- (c_string_nul_free (p_secName q)); by eapply found_user_known|].
  split; [done|]. exists t, k, h, at_, message. rewrite Hmsg, Hl in Hrd. done.
Qed.

(** The ways a message is refused. *)
Definition usm_errors : list Z :=
  [SNMPERR_USM_GENERICERROR; SNMPERR_USM_PARSEERROR; SNMPERR_USM_UNKNOWNENGINEID; SNMPERR_USM_UNKNOWNSECURITYNAME;
   SNMPERR_USM_UNSUPPORTEDSECURITYLEVEL; SNMPERR_USM_AUTHENTICATIONFAILURE; SNMPERR_USM_NOTINTIMEWINDOW;
   SNMPERR_USM_DECRYPTIONERROR].

Ltac one_of := apply (bool_decide_unpack _); vm_compute; exact I.

Lemma timeliness_errors c id boots time r error c' :
  usm_check_and_update_timeliness c id boots time = Ret (r, error, c') -> r = -1 -> error ∈ usm_errors.
Proof using Type.
  unfold usm_check_and_update_timeliness. intros E Hr. repeat run_step E; try done; one_of.
Qed.

Lemma locate_engine_errors c sess msg_flags id c' e : locate_engine c sess msg_flags id = Ret (c', Some e) -> e ∈ usm_errors.
Proof using Type.
  unfold locate_engine. intros E. repeat run_step E; repeat case_match; simplify_eq; try done; one_of.
Qed.

Lemma make_iv_errors user q value_ptr remaining e : make_iv user q value_ptr remaining = Ret (inl e) -> code e ∈ usm_errors.
Proof using Type. unfold make_iv. intros E. repeat run_step E; try one_of. Qed.

Lemma unwrap_errors m wholeMsgLen secLevel user q scopedPduLen e :
  unwrap_pdu m wholeMsgLen secLevel user q scopedPduLen = Ret (inl e) -> code e ∈ usm_errors.
Proof using Type.
  unfold unwrap_pdu. intros E. repeat run_step E; try one_of. by eapply make_iv_errors.
Qed.

Lemma finish_errors c maxMsgSize wholeMsg wholeMsgLen secLevel user q scopedPduLen c' e :
  finish_in_msg c maxMsgSize wholeMsg wholeMsgLen secLevel user q scopedPduLen = Ret (c', inl e) -> code e ∈ usm_errors.
Proof using Type.
  unfold finish_in_msg. intros E. apply bind_Ret_inv in E as ([c1 [error|]] & Hl & E).
  - injection E as _ <-. repeat run_step Hl. cbn [code]. case_match; simplify_eq.
    eapply timeliness_errors; [eassumption|by apply Z.eqb_eq].
  - repeat run_step E. by eapply unwrap_errors.
Qed.

Lemma process_errors st maxMsgSize m wholeMsg secParams secLevel wholeMsgLen sref sess msg_flags
    secEngineIDLen secNameLen scopedPduLen st' ref e :
  usm_process_in_msg st maxMsgSize m wholeMsg secParams secLevel wholeMsgLen sref sess msg_flags
    secEngineIDLen secNameLen scopedPduLen = Ret (st', ref, inl e) -> rval e ∈ usm_errors.
Proof using Type.
  unfold usm_process_in_msg. intros E. repeat run_step E; try one_of; cbn [rval].
  all: first [by eapply locate_engine_errors|by eapply finish_errors
    |match goal with |- context [if ?b then _ else _] => destruct b; one_of end].
Qed.
End runs.
