(* ===== verification/UsmWire.v ===== *)
(** * The messages of snmpusm.c on the wire

    The bytes [usm_rgenerate_out_msg] writes as a plain function of their
    fields, and the routines that write and read them. *)

From S2P Require Import Prelude Bytes AsnTypes AsnParse AsnBuild AsnBuildSpec AsnParseSpec AsnRbuild AsnRbuildSpec Codec PduSpec Oid Lcd Usm UsmSpec Scapi UsersSpec Users UsmMsg.

(** ** The form *)

Definition octets (l : list Z) : list Z := tlv ASN_OCTET_STR l.
Definition sequence (l : list Z) : list Z := tlv (Z.lor ASN_SEQUENCE ASN_CONSTRUCTOR) l.

(** The fields up to the signature, and the salt after it. *)
Definition front_fields (id : list Z) (boots time : Z) (name : list Z) : list Z :=
  octets id ++ int_enc boots ++ int_enc time ++ octets name.

Definition usm_fields (id : list Z) (boots time : Z) (name signature salt : list Z) : list Z :=
  front_fields id boots time name ++ octets signature ++ octets salt.

Definition security_parameters (fields : list Z) : list Z := octets (sequence fields).

Definition whole_message (globalData fields body : list Z) : list Z :=
  sequence (globalData ++ security_parameters fields ++ body).

(** ** Writing *)

Section writing.
Context `{Allocator}.

Lemma octets_wr l s : rb_ok s -> len_ok (len l) ->
  wr true (len (octets l)) (rbuild_octets l s) s (octets l).
Proof using Type.
  intros Hs Hl. unfold rbuild_octets, octets, len in *.
  pose proof (asn_realloc_rbuild_string_spec true ASN_OCTET_STR l s Hs) as Hw.
  rewrite tlv_r_eq in Hw by done. apply Hw. unfold len_ok in Hl. lia.
Qed.

Lemma header_wr type content s : rb_ok s -> len_ok (len content) ->
  wr true (hdr_len (len content)) (asn_realloc_rbuild_header true type (len content) s) s
     (type :: len_octets (len content)).
Proof using Type.
  intros Hs Hl. unfold hdr_len. pose proof (asn_realloc_rbuild_header_spec true type (len content) s Hs) as Hw.
  rewrite len_octets_r_eq in Hw by done. unfold len_ok in Hl.
  eapply wr_mono; [|apply Hw; lia]. lia.
Qed.

Lemma wr_out n m s l : wr true n m s l ->
  m = Null \/ exists s', m = Ret s' /\ rb_ok s' /\ written s' = l ++ written s.
Proof using Type. intros [(s' & ? & ? & ? & _)|[? _]]; eauto. Qed.

Lemma int_wr v s : rb_ok s -> int_ok v ->
  wr true (len (int_enc v)) (asn_realloc_rbuild_int true ASN_INTEGER v sizeof_long s) s (int_enc v).
Proof using Type. apply rbuild_int_enc. Qed.

End writing.

(** A builder in a chain: it fails, or the chain goes on behind its bytes. *)
Ltac wr_chain H :=
  let s := fresh "s" in let E := fresh "E" in let Hs := fresh "Hs" in let Hw := fresh "Hw" in
  destruct (wr_out _ _ _ _ H) as [E|(s & E & Hs & Hw)]; rewrite E; [by left|rewrite bind_ret; clear E].

Lemma octets_len l : 2 + len l <= len (octets l) <= 4 + len l.
Proof. unfold len, octets. rewrite length_tlv. pose proof (hdr_len_bound (Z.of_nat (length l))). lia. Qed.

Lemma sequence_len l : 2 + len l <= len (sequence l) <= 4 + len l.
Proof. unfold len, sequence. rewrite length_tlv. pose proof (hdr_len_bound (Z.of_nat (length l))). lia. Qed.

Lemma len_app (a b : list Z) : len (a ++ b) = len a + len b.
Proof. unfold len. rewrite length_app. lia. Qed.

Lemma len_nonneg (a : list Z) : 0 <= len a.
Proof. unfold len. lia. Qed.

Lemma tlv_front type c rest : (type :: len_octets (len c)) ++ c ++ rest = tlv type c ++ rest.
Proof. unfold tlv. by rewrite app_assoc. Qed.

(** [mac_offset] counts from the end of the packet. *)
Lemma build_message_spec `{Allocator} globalData sec iv boots time s :
  let signature := if is_auth (theSecLevel sec) then replicate 12 0 else [] in
  let fields := usm_fields (match theEngineID sec with Some id => id | None => [] end) boots time
                  (theName sec) signature iv in
  rb_ok s -> int_ok boots -> int_ok time ->
  len_ok (len (globalData ++ security_parameters fields ++ written s)) ->
  build_message globalData sec iv boots time s = Null
  \/ exists s', build_message globalData sec iv boots time s
                = Ret (offset s + len (octets iv) + len (octets signature) - 2, s')
      /\ rb_ok s' /\ written s' = whole_message globalData fields (written s).
Proof.
  intros signature fields Hs Hb Ht Hlen. unfold build_message.
  change (Z.to_nat USM_MD5_AND_SHA_AUTH_LEN) with 12%nat. fold signature. cbv zeta.
  set (id := match theEngineID sec with Some id => id | None => [] end) in *.
  assert (Hsmall : len_ok (len id) /\ len_ok (len (theName sec)) /\ len_ok (len iv) /\ len_ok (len fields)
                   /\ len_ok (len (sequence fields)) /\ len_ok (len signature)).
  { revert Hlen. unfold security_parameters, fields, usm_fields, front_fields, len_ok.
    pose proof (octets_len (sequence fields)). pose proof (sequence_len fields).
    pose proof (octets_len id). pose proof (octets_len (theName sec)). pose proof (octets_len iv).
    pose proof (octets_len signature).
    unfold fields, usm_fields, front_fields in *. rewrite !len_app in *.
    pose proof (len_nonneg globalData). pose proof (len_nonneg (written s)). pose proof (len_nonneg id).
    pose proof (len_nonneg (theName sec)). pose proof (len_nonneg iv). pose proof (len_nonneg (int_enc boots)).
    pose proof (len_nonneg (int_enc time)). pose proof (len_nonneg signature). lia. }
  destruct Hsmall as (Hid & Hname & Hiv & Hfields & Hseq & Hsig).
  wr_chain (octets_wr iv s Hs Hiv). wr_chain (octets_wr signature s0 Hs0 Hsig).
  assert (Hoff : offset s1 = offset s + len (octets iv) + len (octets signature)).
  { rewrite <- (length_written s1), <- (length_written s), Hw0, Hw by done. fold (len (written s)).
    change (Z.of_nat (length ?l)) with (len l). rewrite !len_app. lia. }
  wr_chain (octets_wr (theName sec) s1 Hs1 Hname). wr_chain (int_wr time s2 Hs2 Ht).
  wr_chain (int_wr boots s3 Hs3 Hb). wr_chain (octets_wr id s4 Hs4 Hid).
  assert (Hw6 : written s5 = fields ++ written s).
  { rewrite Hw4, Hw3, Hw2, Hw1, Hw0, Hw. unfold fields, usm_fields, front_fields. by rewrite <- !app_assoc. }
  assert (Hoff6 : offset s5 - offset s = len fields).
  { rewrite <- (length_written s5), <- (length_written s), Hw6 by done.
    change (Z.of_nat (length ?l)) with (len l). rewrite len_app. lia. }
  clear Hw Hw0 Hw1 Hw2 Hw3 Hw4.
  unfold asn_realloc_rbuild_sequence. rewrite Hoff6.
  wr_chain (header_wr (Z.lor ASN_SEQUENCE ASN_CONSTRUCTOR) fields s5 Hs5 Hfields).
  assert (Hw7 : written s6 = sequence fields ++ written s) by (rewrite Hw, Hw6; apply tlv_front).
  assert (Hoff7 : offset s6 - offset s = len (sequence fields)).
  { rewrite <- (length_written s6), <- (length_written s), Hw7 by done.
    change (Z.of_nat (length ?l)) with (len l). rewrite len_app. lia. }
  clear Hw Hw6 Hoff6. rewrite Hoff7. wr_chain (header_wr ASN_OCTET_STR (sequence fields) s6 Hs6 Hseq).
  assert (Hw8 : written s7 = security_parameters fields ++ written s) by (rewrite Hw, Hw7; apply tlv_front).
  clear Hw Hw7 Hoff7.
  destruct (rb_room_spec true (len globalData) s7 Hs7 (len_nonneg _)) as [(s' & -> & Hs' & Hw' & Hroom & _)|[-> _]];
    [rewrite bind_ret|by left].
  destruct (rb_copy_spec globalData s' Hs' Hroom) as (s8 & -> & Hs8 & Hw & _). rewrite bind_ret.
  rewrite Hw', Hw8 in Hw. assert (Hoff9 : offset s8 = len (globalData ++ security_parameters fields ++ written s)).
  { rewrite <- (length_written s8), Hw by done. done. }
  rewrite Hoff9. wr_chain (header_wr (Z.lor ASN_SEQUENCE ASN_CONSTRUCTOR) _ s8 Hs8 Hlen).
  right. eexists. rewrite Hoff. split; [done|]. split; [done|]. rewrite Hw0, Hw. unfold whole_message.
  unfold sequence, tlv. done.
Qed.

(** ** Signing *)

Lemma rb_poke_spec s pre old post l : rb_ok s -> written s = pre ++ old ++ post -> length l = length old ->
  exists s', rb_poke (len old + len post) l s = Ret s' /\ rb_ok s' /\ written s' = pre ++ l ++ post.
Proof.
  intros Hs Hw Hl. unfold rb_ok in Hs.
  assert (Hp : pkt s = take (Z.to_nat (pkt_len s - offset s)) (pkt s) ++ pre ++ old ++ post)
    by (rewrite <- Hw; unfold written; by rewrite take_drop).
  set (a := take (Z.to_nat (pkt_len s - offset s)) (pkt s)) in *.
  assert (Ha : len a = pkt_len s - offset s) by (unfold len, a, pkt_len in *; rewrite length_take; lia).
  assert (Hn : pkt_len s = len a + len pre + len old + len post)
    by (unfold pkt_len; rewrite Hp; change (Z.of_nat (length ?l)) with (len l); rewrite !len_app; lia).
  unfold rb_poke. replace (pkt_len s - (len old + len post)) with (len a + len pre) by lia.
  pose proof (len_nonneg a). pose proof (len_nonneg pre). pose proof (len_nonneg post).
  assert (Hll : len l = len old) by (unfold len; by rewrite Hl). rewrite Hll.
  destruct (_ && _) eqn:Hr; [|lia]. eexists. split; [done|].
  assert (Hq : take (Z.to_nat (len a + len pre)) (pkt s) ++ l
                 ++ drop (Z.to_nat (len a + len pre + len old)) (pkt s) = a ++ pre ++ l ++ post).
  { rewrite Hp. replace (Z.to_nat (len a + len pre)) with (length (a ++ pre)) by (rewrite length_app; unfold len; lia).
    replace (Z.to_nat (len a + len pre + len old)) with (length ((a ++ pre) ++ old))
      by (rewrite !length_app; unfold len; lia).
    assert (E : a ++ pre ++ old ++ post = (a ++ pre) ++ old ++ post) by apply app_assoc.
    rewrite E, take_app_length, (app_assoc _ old post), drop_app_length. symmetry. apply app_assoc. }
  rewrite Hq. unfold rb_ok, written, pkt_len. cbn [pkt offset].
  assert (Hlen : Z.of_nat (length (a ++ pre ++ l ++ post)) = pkt_len s)
    by (change (Z.of_nat (length ?l)) with (len l); rewrite !len_app; lia).
  rewrite Hlen. split; [done|]. replace (Z.to_nat (pkt_len s - offset s)) with (length a) by (unfold len in Ha; lia).
  apply drop_app_length.
Qed.

(** ** Reading *)

Lemma rd_blank_after m k n p : 0 <= k -> 0 <= n -> k + n <= Z.of_nat (length m) -> k + n <= p ->
  rd (blank m k n) p = rd m p.
Proof.
  intros Hk Hn Hm Hp. unfold rd. destruct (Z.ltb_spec p 0); [lia|]. unfold blank.
  rewrite lookup_app_r by (rewrite length_take; lia).
  rewrite lookup_app_r by (rewrite length_take, length_replicate; lia).
  rewrite length_take, length_replicate, lookup_drop.
  match goal with |- match m !! ?i with _ => _ end = _ => by replace i with (Z.to_nat p) by lia end.
Qed.

Lemma bytes_at_blank_after m k n p l : 0 <= k -> 0 <= n -> k + n <= Z.of_nat (length m) -> k + n <= p ->
  bytes_at m p l -> bytes_at (blank m k n) p l.
Proof.
  intros Hk Hn Hm. revert p. induction l as [|b l IH]; intros p Hp; cbn [bytes_at]; [done|].
  intros [Hb Hl]. split; [by rewrite rd_blank_after|]. apply IH; [lia|done].
Qed.

(** One object in front of others. *)
Lemma octets_parse m p dl l strlength rest : is_u64 dl -> len_ok (len l) -> len l <= strlength ->
  bytes_at m p (octets l ++ rest) -> len (octets l ++ rest) <= dl ->
  asn_parse_string m p dl strlength = Ret (p + len (octets l), ASN_OCTET_STR, l, dl - len (octets l))
  /\ bytes_at m (p + len (octets l)) rest.
Proof.
  intros Hdl Hl Hs [Hat Hrest]%bytes_at_app Hn. rewrite len_app in Hn. pose proof (len_nonneg rest).
  split; [|done]. apply asn_parse_string_spec; try done. unfold octets, len in *. lia.
Qed.

Lemma int_parse m p dl v rest : is_u64 dl -> int_ok v ->
  bytes_at m p (int_enc v ++ rest) -> len (int_enc v ++ rest) <= dl ->
  asn_parse_int m p dl sizeof_long = Ret (p + len (int_enc v), ASN_INTEGER, v, dl - len (int_enc v))
  /\ bytes_at m (p + len (int_enc v)) rest.
Proof.
  intros Hdl Hv [Hat Hrest]%bytes_at_app Hn. rewrite len_app in Hn. pose proof (len_nonneg rest).
  split; [|done]. apply parse_int_enc; try done. unfold len in *. lia.
Qed.

Lemma tlv_parse m p dl t c : is_u64 dl -> t = ASN_OCTET_STR \/ t = Z.lor ASN_SEQUENCE ASN_CONSTRUCTOR ->
  len_ok (len c) -> bytes_at m p (tlv t c) -> len (tlv t c) <= dl ->
  asn_parse_sequence m p dl t = Ret (p + hdr_len (len c), t, len c)
  /\ bytes_at m (p + hdr_len (len c)) c.
Proof.
  intros Hdl Ht Hc Hat Hn. split; [|by apply tlv_at in Hat as (_ & _ & ?)]. unfold asn_parse_sequence.
  rewrite (header_plain m p dl t c) by (done || by destruct Ht as [->| ->]). rewrite bind_ret.
  by rewrite Z.eqb_refl.
Qed.

(** The fields read back, and where the next object starts. *)
Lemma usm_parse_spec m p n id boots time name signature salt id_len name_len sig_len salt_len :
  let fields := usm_fields id boots time name signature salt in
  let next := p + len (security_parameters fields) in
  0 <= p -> is_u64 n -> len_ok (len (security_parameters fields)) -> len (security_parameters fields) <= n ->
  bytes_at m p (security_parameters fields) ->
  0 <= boots <= ENGINEBOOT_MAX -> 0 <= time <= ENGINETIME_MAX ->
  len id <= id_len -> len name <= 32 -> len name < name_len -> is_u32 name_len ->
  len signature <= sig_len -> len salt <= salt_len ->
  usm_parse_security_parameters m p n id_len name_len sig_len salt_len
  = Ret (inr {| p_secEngineID := id; p_boots := boots; p_time := time; p_secName := name;
                p_signature := signature; p_salt := salt; p_data_ptr := next;
                p_msg := blank m (next - len (octets salt) - len signature) (len signature) |}).
Proof.
  intros fields next Hp Hn Hlen Hfit Hat Hb Ht Hid Hname Hroom Hnl Hsig Hsalt.
  assert (Hsmall : len_ok (len id) /\ len_ok (len name) /\ len_ok (len salt) /\ len_ok (len fields)
                   /\ len_ok (len (sequence fields)) /\ len_ok (len signature)).
  { revert Hlen. unfold security_parameters, fields, usm_fields, front_fields, len_ok.
    pose proof (octets_len (sequence fields)). pose proof (sequence_len fields).
    pose proof (octets_len id). pose proof (octets_len name). pose proof (octets_len salt).
    pose proof (octets_len signature).
    unfold fields, usm_fields, front_fields in *. rewrite !len_app in *. pose proof (len_nonneg id).
    pose proof (len_nonneg name). pose proof (len_nonneg salt). pose proof (len_nonneg (int_enc boots)).
    pose proof (len_nonneg (int_enc time)). pose proof (len_nonneg signature). lia. }
  destruct Hsmall as (Oid & Oname & Osalt & Ofields & Oseq & Osig).
  unfold usm_parse_security_parameters, security_parameters, octets in *.
  destruct (tlv_parse m p n ASN_OCTET_STR (sequence fields) Hn (or_introl eq_refl) Oseq Hat Hfit) as [-> Hat1].
  cbn [or_return]. unfold usm_parse_fields. unfold len_ok in *.
  destruct (tlv_parse m (p + hdr_len (len (sequence fields))) (len (sequence fields))
              (Z.lor ASN_SEQUENCE ASN_CONSTRUCTOR) fields) as [-> Hat2];
    [cint|by right|done|done|unfold sequence; lia|].
  cbn [or_return]. set (p2 := p + hdr_len (len (sequence fields)) + hdr_len (len fields)) in *.
  assert (Hnext : next = p2 + len fields).
  { unfold next, p2, len. rewrite !length_tlv. unfold sequence. rewrite length_tlv. unfold len. lia. }
  assert (Hf : fields = octets id ++ int_enc boots ++ int_enc time ++ octets name ++ octets signature ++ octets salt)
    by (unfold fields, usm_fields, front_fields; by rewrite <- !app_assoc).
  assert (Hlf : len fields = len (octets id) + (len (int_enc boots) + (len (int_enc time) + (len (octets name)
                + (len (octets signature) + len (octets salt)))))) by (rewrite Hf, !len_app; lia).
  rewrite Hf in Hat2. clear Hf Hat.
  pose proof (octets_len id). pose proof (octets_len name). pose proof (octets_len salt).
  pose proof (octets_len signature). pose proof (len_nonneg (int_enc boots)). pose proof (len_nonneg (int_enc time)).
  pose proof (len_nonneg id). pose proof (len_nonneg name). pose proof (len_nonneg salt). pose proof (len_nonneg signature).
  destruct (octets_parse m p2 (len fields) id id_len _ ltac:(cint) ltac:(done) Hid Hat2) as [-> Hat3];
    [rewrite !len_app; lia|]. cbn [or_return]. rewrite Z.eqb_refl. cbn [negb].
  assert (Ob : int_ok boots) by (unfold int_ok, INT32_MIN, ENGINEBOOT_MAX in *; lia).
  assert (Ot : int_ok time) by (unfold int_ok, INT32_MIN, ENGINETIME_MAX in *; lia).
  destruct (int_parse m _ (len fields - len (octets id)) boots _ ltac:(cint) Ob Hat3) as [-> Hat4];
    [rewrite !len_app; lia|]. cbn [or_return]. rewrite Z.eqb_refl. cbn [negb].
  destruct (int_parse m _ (len fields - len (octets id) - len (int_enc boots)) time _ ltac:(cint) Ot Hat4) as [-> Hat5];
    [rewrite !len_app; lia|]. cbn [or_return]. rewrite Z.eqb_refl. cbn [negb].
  rewrite (u32_id boots), (u32_id time), (u32_id name_len) by (unfold ENGINEBOOT_MAX, ENGINETIME_MAX in *; cint).
  destruct (Z.ltb_spec ENGINEBOOT_MAX boots); [lia|]. destruct (Z.ltb_spec ENGINETIME_MAX time); [lia|]. cbn [orb].
  destruct (octets_parse m _ (len fields - len (octets id) - len (int_enc boots) - len (int_enc time)) name name_len _
    ltac:(cint) ltac:(done) ltac:(lia) Hat5) as [-> Hat6]; [rewrite !len_app; lia|]. cbn [or_return].
  rewrite u64_id by cint. destruct (Z.ltb_spec name_len (len name + 1)); [lia|].
  destruct (Z.ltb_spec 32 (len name)); [lia|]. rewrite Z.eqb_refl. cbn [negb].
  destruct (octets_parse m _ (len fields - len (octets id) - len (int_enc boots) - len (int_enc time)
    - len (octets name)) signature sig_len _ ltac:(cint) ltac:(done) Hsig Hat6) as [-> Hat7];
    [rewrite !len_app; lia|]. cbn [or_return]. rewrite Z.eqb_refl. cbn [negb].
  set (p7 := p2 + len (octets id) + len (int_enc boots) + len (int_enc time) + len (octets name)
             + len (octets signature)) in *.
  assert (Hp7 : next - len (octets salt) = p7) by (unfold p7; lia). fold (octets salt). rewrite Hp7.
  replace (if negb (len signature =? 0) then blank m (p7 - len signature) (len signature) else m)
    with (blank m (p7 - len signature) (len signature)).
  2: { destruct (Z.eqb_spec (len signature) 0) as [->|]; cbn [negb]; [apply blank_none|done]. }
  assert (Hp2 : 0 <= p2) by (unfold p2, hdr_len; lia).
  assert (Hin : p7 <= Z.of_nat (length m)).
  { unfold octets, tlv in Hat7. destruct Hat7 as [Hrd _]. apply rd_bound in Hrd. lia. }
  apply (bytes_at_blank_after m (p7 - len signature) (len signature)) in Hat7; [|lia..].
  rewrite <- (app_nil_r (octets salt)) in Hat7.
  destruct (octets_parse _ _ (len fields - len (octets id) - len (int_enc boots) - len (int_enc time)
    - len (octets name) - len (octets signature)) salt salt_len [] ltac:(cint) ltac:(done) Hsalt Hat7) as [-> _];
    [rewrite app_nil_r; lia|]. cbn [or_return]. rewrite Z.eqb_refl. cbn [negb].
  replace next with (p7 + len (octets salt)) by lia. done.
Qed.

(** ** The signature in the message *)

Lemma tlv_split t p (c q : list Z) :
  exists h, forall c' : list Z, length c' = length c -> tlv t (p ++ c' ++ q) = (h ++ p) ++ c' ++ q.
Proof.
  exists (t :: len_octets (len (p ++ c ++ q))). intros c' Hc. unfold tlv, len.
  rewrite !length_app, Hc, <- app_assoc. cbn [app]. done.
Qed.

(** Messages that differ in the signature have the same bytes around it. *)
Lemma whole_message_split globalData id boots time name (signature salt body : list Z) :
  exists pre, forall signature' : list Z, length signature' = length signature ->
  whole_message globalData (usm_fields id boots time name signature' salt) body
  = pre ++ signature' ++ octets salt ++ body.
Proof.
  unfold whole_message, security_parameters, usm_fields.
  set (front := front_fields id boots time name).
  destruct (tlv_split ASN_OCTET_STR [] signature []) as [h1 E1].
  destruct (tlv_split (Z.lor ASN_SEQUENCE ASN_CONSTRUCTOR) (front ++ h1) signature (octets salt)) as [h2 E2].
  destruct (tlv_split ASN_OCTET_STR (h2 ++ front ++ h1) signature (octets salt)) as [h3 E3].
  destruct (tlv_split (Z.lor ASN_SEQUENCE ASN_CONSTRUCTOR) (globalData ++ h3 ++ h2 ++ front ++ h1) signature
              (octets salt ++ body)) as [h4 E4].
  exists (h4 ++ globalData ++ h3 ++ h2 ++ front ++ h1). intros s Hs.
  specialize (E1 s Hs). cbn [app] in E1. rewrite !app_nil_r in E1. unfold octets at 2. rewrite E1.
  unfold sequence.
  replace (front ++ (h1 ++ s) ++ octets salt) with ((front ++ h1) ++ s ++ octets salt) by (by rewrite <- !app_assoc).
  rewrite E2 by done. unfold octets at 1.
  replace ((h2 ++ front ++ h1) ++ s ++ octets salt) with ((h2 ++ front ++ h1) ++ s ++ octets salt) by done.
  rewrite E3 by done.
  replace (globalData ++ ((h3 ++ h2 ++ front ++ h1) ++ s ++ octets salt) ++ body)
    with ((globalData ++ h3 ++ h2 ++ front ++ h1) ++ s ++ octets salt ++ body) by (by rewrite <- !app_assoc).
  by rewrite E4.
Qed.

Lemma blank_middle pre l post : blank (pre ++ l ++ post) (len pre) (len l) = pre ++ replicate (length l) 0 ++ post.
Proof.
  unfold blank, len. rewrite <- Nat2Z.inj_add, !Nat2Z.id, <- length_app, take_app_length.
  by rewrite (app_assoc pre l post), drop_app_length.
Qed.

(** Where the security parameters of a message start. *)
Definition parameters_at (globalData fields body : list Z) : Z :=
  hdr_len (len (globalData ++ security_parameters fields ++ body)) + len globalData.

Lemma parameters_there globalData fields body :
  let m := whole_message globalData fields body in
  bytes_at m (parameters_at globalData fields body) (security_parameters fields ++ body)
  /\ bytes_at m (hdr_len (len (globalData ++ security_parameters fields ++ body))) globalData
  /\ len m = parameters_at globalData fields body + len (security_parameters fields) + len body.
Proof.
  intros m. pose proof (bytes_at_start m []) as Hat. rewrite app_nil_r in Hat.
  change (bytes_at m 0 (sequence (globalData ++ security_parameters fields ++ body))) in Hat. apply tlv_at in Hat as (_ & _ & Hat).
  change (Z.of_nat (length ?l)) with (len l) in Hat. rewrite Z.add_0_l in Hat.
  apply bytes_at_app in Hat as [Hg Hat]. split; [exact Hat|]. split; [exact Hg|].
  unfold m, whole_message, sequence, parameters_at, len. rewrite length_tlv, !length_app. lia.
Qed.

(** The receiver's blanking restores the bytes that were signed. *)
Lemma blank_signature globalData id boots time name signature salt body :
  let fields s := usm_fields id boots time name s salt in
  let p := parameters_at globalData (fields signature) body in
  blank (whole_message globalData (fields signature) body)
    (p + len (security_parameters (fields signature)) - len (octets salt) - len signature) (len signature)
  = whole_message globalData (fields (replicate (length signature) 0)) body.
Proof.
  intros fields p. destruct (whole_message_split globalData id boots time name signature salt body) as [pre E].
  pose proof (parameters_there globalData (fields signature) body) as (_ & _ & Hl). fold p in Hl.
  unfold fields in *. rewrite E in * by done. rewrite E by apply length_replicate.
  rewrite !len_app in Hl. replace (_ - _ - _) with (len pre) by lia. apply blank_middle.
Qed.
