(* ===== verification/UsmRound.v ===== *)
(** * From the sender of a message to its receiver

    What [usm_rgenerate_out_msg] produced when it succeeds, and that
    [usm_process_in_msg] of an engine that shares the user's keys takes it. *)

From stdpp Require Import list.
From S2P Require Import Prelude Bytes AsnTypes AsnParse AsnBuild AsnBuildSpec AsnParseSpec AsnRbuild AsnRbuildSpec Codec PduSpec Oid Vacm Lcd Usm UsmSpec Scapi UsersSpec Users UsmMsg UsmMsgSpec UsmWire.

(** ** The sender *)

Section sender.
Context `{Platform, Allocator, Crypto}.

Lemma usm_set_salt_out st key salt iv st' : usm_set_salt st key = Ret (Some (salt, iv), st') ->
  exists k, rd_n key 8 8 = Ret k /\ salt = zip_with Z.lxor iv k
  /\ iv = be_bytes 4 (snmpv3_local_snmpEngineBoots (clocks st)) ++ be_bytes 4 (salt_integer st).
Proof using Type.
  unfold usm_set_salt. destruct (_ <? _); [done|].
  generalize (be_bytes 4 (snmpv3_local_snmpEngineBoots (clocks st)) ++ be_bytes 4 (salt_integer st)).
  intros l (k & Hk & E)%bind_Ret_inv. injection E as <- <- _. eauto.
Qed.

Lemma salt_bytes x y : bytes_ok (be_bytes 4 x ++ be_bytes 4 y) /\ length (be_bytes 4 x ++ be_bytes 4 y) = 8%nat.
Proof using Type.
  split; [apply Forall_app; split; apply be_bytes_ok|by rewrite length_app, !length_be_bytes].
Qed.

(** The salt a message carries is what the receiver needs for its vector. *)
Lemma make_salt_iv st sec boots time salt iv st' t :
  make_salt st sec boots time = Ret (inr (salt, iv, st')) -> thePrivProtocol sec = Some t ->
  t = usmDESPrivProtocol \/ t = usmAESPrivProtocol ->
  bytes_ok iv /\ length iv = 8%nat
  /\ forall user q value_ptr remaining,
     u_privProtocol user = Some t -> u_privKey user = thePrivKey sec ->
     p_boots q = boots -> p_time q = time -> p_salt q = iv ->
     (t = usmDESPrivProtocol -> remaining mod 8 = 0) ->
     exists overhead, make_iv user q value_ptr remaining = Ret (inr (salt, overhead)).
Proof using Type.
  unfold make_salt. intros E Ht Hd. rewrite Ht in E. cbn [is_transform] in E. unfold make_iv.
  destruct Hd as [-> | ->].
  - rewrite !ISTRANSFORM_spec, !bind_ret, bool_decide_false, bool_decide_true in E by done.
    destruct (thePrivKey sec) as [key|]; [|done].
    apply bind_Ret_inv in E as ([[[salt1 iv1]|] st1] & Hset & E); [|done]. injection E as -> -> ->.
    apply usm_set_salt_out in Hset as (k & Hk & -> & Hiv). rewrite Hiv. split; [apply salt_bytes|].
    split; [apply salt_bytes|]. rewrite <- Hiv. clear Hiv.
    intros user q value_ptr remaining Hp -> _ _ -> Hr. rewrite Hp. cbn [is_transform].
    rewrite !ISTRANSFORM_spec, !bind_ret, bool_decide_true by done. rewrite Hr by done. cbn [negb Z.eqb].
    change (BYTESIZE USM_DES_SALT_LENGTH) with 8. change (Z.to_nat 8) with 8%nat. rewrite Hk. by eexists.
  - rewrite !ISTRANSFORM_spec, !bind_ret, bool_decide_true in E by done.
    destruct (thePrivKey sec) as [key|]; [|done]. unfold usm_set_aes_iv in E.
    pose proof (salt_bytes (salt_integer64_1 st) (salt_integer64_2 st)) as [Hb Hl].
    set (l := be_bytes 4 (salt_integer64_1 st) ++ be_bytes 4 (salt_integer64_2 st)) in *.
    assert (iv = l) as -> by congruence.
    assert (salt = be_bytes 4 boots ++ be_bytes 4 time ++ l) as -> by congruence. clear E.
    split; [done|]. split; [done|]. intros user q value_ptr remaining Hp _ <- <- <- _. rewrite Hp.
    cbn [is_transform]. rewrite !ISTRANSFORM_spec, !bind_ret by done.
    rewrite bool_decide_false, bool_decide_true by done. by eexists.
Qed.

(** The message that was sent, as the receiver will see it. *)
Definition protected (st : usm) (sec : security) (boots time : Z) (pdu iv body : list Z) (st' : usm) : Prop :=
  if theSecLevel sec =? SNMP_SEC_LEVEL_AUTHPRIV then
    exists t k salt ciphertext, thePrivProtocol sec = Some t /\ thePrivKey sec = Some k
    /\ make_salt st sec boots time = Ret (inr (salt, iv, st'))
    /\ sc_encrypt (Some t) (Some k) salt pdu (len pdu + 64) = Ret (SNMPERR_SUCCESS, ciphertext)
    /\ body = octets ciphertext
  else iv = [] /\ body = pdu /\ st' = st.

Definition signed (sec : security) (message : list Z -> list Z) (signature : list Z) : Prop :=
  if is_auth (theSecLevel sec) then
    exists t k h, theAuthProtocol sec = Some t /\ theAuthKey sec = Some k
    /\ keyed_mac t k (message (replicate 12 0)) = Some h /\ signature = take 12 h
  else signature = [].

Definition id_of (sec : security) : list Z := match theEngineID sec with Some id => id | None => [] end.

Lemma encrypt_pdu_out st sec boots time pdu s st' iv s' : rb_ok s ->
  bytes_ok pdu -> len pdu + 100 < 65536 ->
  theSecLevel sec = SNMP_SEC_LEVEL_AUTHPRIV ->
  encrypt_pdu st sec boots time pdu s = Ret (st', inr (iv, s')) ->
  rb_ok s' /\ protected st sec boots time pdu iv (written s') st'.
Proof using Type.
  intros Hs Hb Hlen Hlvl E. unfold protected. rewrite Hlvl, Z.eqb_refl. unfold encrypt_pdu in E.
  destruct (negb _); [done|]. apply bind_Ret_inv in E as ([code|[[salt iv1] st1]] & Hsalt & E); [done|].
  apply bind_Ret_inv in E as ([rval ciphertext] & Henc & E).
  destruct (Z.eqb_spec rval SNMPERR_SUCCESS) as [->|]; cbn [negb] in E; [|done].
  assert (exists t k, thePrivProtocol sec = Some t /\ thePrivKey sec = Some k) as (t & k & Ht & Hk).
  { unfold sc_encrypt in Henc. destruct (thePrivProtocol sec) as [t|], (thePrivKey sec) as [k|]; try done. eauto. }
  rewrite Ht, Hk in *. pose proof (sc_encrypt_spec _ _ _ _ _ _ Henc Hb ltac:(lia)) as (Hcl & _).
  assert (Hpad : len (pad_of t pdu) < 8).
  { unfold pad_of. case_bool_decide; [apply des_pad_len|done]. }
  assert (Hs0 : rb_ok {| pkt := pkt s; offset := 0 |}) by (unfold rb_ok, pkt_len in *; cbn; lia).
  destruct (wr_out _ _ _ _ (octets_wr ciphertext _ Hs0 ltac:(unfold len_ok, len in *; lia)))
    as [Hr|(s2 & Hr & Hs2 & Hw)]; rewrite Hr in E; cbn in E; [done|]. injection E as -> -> ->.
  split; [done|]. exists t, k, salt, ciphertext. repeat (split; [done|]).
  rewrite Hw. unfold written. cbn [pkt offset]. rewrite Z.sub_0_r. unfold pkt_len. cbn [pkt].
  by rewrite drop_ge, app_nil_r by lia.
Qed.

Lemma sign_message_out sec globalData boots time iv body s s' :
  let zeros := if is_auth (theSecLevel sec) then replicate 12 0 else [] in
  let message signature :=
    whole_message globalData (usm_fields (id_of sec) boots time (theName sec) signature iv) body in
  rb_ok s -> written s = message zeros ->
  sign_message sec (len body + len (octets iv) + len (octets zeros) - 2) s = Ret (inr s') ->
  exists signature, rb_ok s' /\ written s' = message signature /\ signed sec message signature.
Proof using Type.
  intros zeros message Hs Hw. unfold sign_message, signed, zeros in *. clear zeros.
  destruct (is_auth (theSecLevel sec)); cbn [negb].
  2: { intros [= <-]. exists []. split; [exact Hs|]. split; [exact Hw|reflexivity]. }
  destruct (negb (alloc _)); [done|]. pose proof Hw as Hw'. unfold written in Hw'. rewrite Hw'. change (Z.to_nat USM_MD5_AND_SHA_AUTH_LEN) with 12%nat.
  destruct (theAuthProtocol sec) as [t|]; [|done]. destruct (theAuthKey sec) as [k|]; [|done].
  pose proof (sc_generate_keyed_hash_spec t k (message (replicate 12 0)) USM_MD5_AND_SHA_AUTH_LEN
                ltac:(done) ltac:(done)) as Hg.
  destruct (keyed_mac t k (message (replicate 12 0))) as [h|] eqn:Eh.
  2: { destruct Hg as (rval & l & -> & Hr). rewrite bind_ret. destruct (Z.eqb_spec rval SNMPERR_SUCCESS); done. }
  rewrite Hg, bind_ret. cbn [negb Z.eqb SNMPERR_SUCCESS]. change (Z.to_nat USM_MD5_AND_SHA_AUTH_LEN) with 12%nat.
  destruct (negb (_ =? _)); [done|]. pose proof (keyed_mac_length _ _ _ _ Eh) as Hh.
  destruct (whole_message_split globalData (id_of sec) boots time (theName sec) (replicate 12 0) iv body) as [pre Hpre].
  destruct (rb_poke_spec s pre (replicate 12 0) (octets iv ++ body) (take 12 h) Hs) as (s2 & Hp & Hs2 & Hw2).
  { rewrite Hw. exact (Hpre (replicate 12 0) eq_refl). }
  { rewrite length_take, length_replicate. lia. }
  change (len (octets (replicate 12 0))) with 14.
  replace (len body + len (octets iv) + 14 - 2) with (len (replicate 12 0) + len (octets iv ++ body))
    by (rewrite len_app; change (len (replicate 12 0)) with 12; lia).
  rewrite Hp, bind_ret. intros [= <-]. exists (take 12 h). split; [done|]. split.
  - rewrite Hw2. symmetry. apply (Hpre (take 12 h)). rewrite length_take, length_replicate. lia.
  - exists t, k, h. done.
Qed.

Lemma protected_small st sec boots time pdu iv body st' : protected st sec boots time pdu iv body st' ->
  bytes_ok pdu -> len body <= len pdu + 11 /\ len iv <= 8.
Proof using Type.
  unfold protected. intros Hp Hb. revert Hp. destruct (theSecLevel sec =? SNMP_SEC_LEVEL_AUTHPRIV).
  - intros (t & k & salt & ct & Ht & Hk & Hsalt & Henc & ->).
    apply sc_encrypt_spec in Henc as (Hl & _ & Hd & _); [|done|lia].
    apply (make_salt_iv _ _ _ _ _ _ _ t) in Hsalt as (_ & Hiv & _); [|done|done].
    pose proof (octets_len ct). assert (len (pad_of t pdu) < 8).
    { unfold pad_of. case_bool_decide; [apply des_pad_len|done]. }
    unfold len at 3. rewrite Hiv. lia.
  - intros (-> & -> & _). unfold len. cbn [length]. lia.
Qed.

(** The bytes around the PDU. *)
Lemma message_small globalData id boots time name signature iv body :
  len signature <= 12 -> len iv <= 8 ->
  len (globalData ++ security_parameters (usm_fields id boots time name signature iv) ++ body)
  <= len globalData + len id + len name + len body + 100.
Proof using Type.
  intros Hsig Hiv. unfold security_parameters. set (fields := usm_fields _ _ _ _ _ _).
  pose proof (octets_len (sequence fields)). pose proof (sequence_len fields). rewrite !len_app.
  enough (len fields <= len id + len name + 80) by lia. unfold fields, usm_fields, front_fields.
  assert (Hint : forall v, len (int_enc v) <= 13).
  { intros v. unfold int_enc, len. rewrite length_tlv, length_int_octets.
    pose proof (int_size_bounds v). pose proof (hdr_len_bound (Z.of_nat (int_size v))). lia. }
  pose proof (Hint boots). pose proof (Hint time). rewrite !len_app.
  pose proof (octets_len id). pose proof (octets_len name). pose proof (octets_len signature).
  pose proof (octets_len iv). lia.
Qed.

(** A message that was sent. *)
Theorem rgenerate_out st globalData secEngineID secName secLevel pdu ref s st' s' sec boots time rc c :
  usm_rgenerate_out_msg st globalData secEngineID secName secLevel pdu ref s = Ret (st', inr s') ->
  find_security st secEngineID secName secLevel ref = Some sec ->
  get_enginetime (clocks st) (theEngineID sec) false = Ret (rc, boots, time, c) ->
  int_ok boots -> int_ok time -> rb_ok s -> bytes_ok pdu ->
  (theSecLevel sec <> SNMP_SEC_LEVEL_AUTHPRIV -> written s = pdu) ->
  len globalData + len (id_of sec) + len (theName sec) + len pdu + 500 < 65536 ->
  exists iv signature body,
    let message signature :=
      whole_message globalData (usm_fields (id_of sec) boots time (theName sec) signature iv) body in
    rb_ok s' /\ written s' = message signature /\ signed sec message signature
    /\ protected (with_clocks c st) sec boots time pdu iv body st'.
Proof using Type.
  intros E Hsec Hget Hb Ht Hs Hbytes Hpdu Hlen. unfold usm_rgenerate_out_msg in E. rewrite Hsec in E.
  apply bind_Ret_inv in E as (rc1 & _ & E). destruct (rc1 =? 1); [done|].
  rewrite Hget, bind_ret in E. apply bind_Ret_inv in E as ([st1 r] & Hprot & E).
  assert (Hprotected : exists iv s1, r = inr (iv, s1) /\ rb_ok s1
            /\ protected (with_clocks c st) sec boots time pdu iv (written s1) st1).
  { destruct (Z.eqb_spec (theSecLevel sec) SNMP_SEC_LEVEL_AUTHPRIV) as [Hl|Hl].
    - destruct r as [code|[iv s1]]; [done|]. exists iv, s1. split; [done|].
      apply (encrypt_pdu_out _ _ _ _ _ s); [done|done| |done|done].
      pose proof (len_nonneg globalData). pose proof (len_nonneg (id_of sec)). pose proof (len_nonneg (theName sec)). lia.
    - injection Hprot as <- <-. exists [], s. split; [done|]. split; [done|]. unfold protected.
      destruct (Z.eqb_spec (theSecLevel sec) SNMP_SEC_LEVEL_AUTHPRIV); [done|]. by rewrite Hpdu. }
  clear Hprot. destruct Hprotected as (iv & s1 & -> & Hs1 & Hprot).
  apply bind_Ret_inv in E as (r & Hr & E). injection E as -> ->.
  destruct (protected_small _ _ _ _ _ _ _ _ Hprot Hbytes) as [Hbody Hiv].
  pose proof (message_small globalData (id_of sec) boots time (theName sec)
    (if is_auth (theSecLevel sec) then replicate 12 0 else []) iv (written s1)) as Hsmall.
  destruct (build_message_spec globalData sec iv boots time s1) as [Hn|(s2 & Hm & Hs2 & Hw2)]; try done.
  { unfold len_ok. fold (id_of sec). split; [unfold len; lia|]. eapply Z.le_lt_trans; [apply Hsmall|lia]; [|lia].
    by destruct (is_auth (theSecLevel sec)). }
  { by rewrite Hn in Hr. }
  rewrite Hm in Hr. cbn [or_return] in Hr. fold (id_of sec) in Hw2.
  rewrite <- (length_written s1 Hs1) in Hr. change (Z.of_nat (length (written s1))) with (len (written s1)) in Hr.
  destruct (sign_message_out sec globalData boots time iv (written s1) s2 s' Hs2 Hw2 Hr) as (signature & Hs' & Hw' & Hsig).
  by exists iv, signature, (written s1).
Qed.
End sender.

(** ** The receiver *)

Section receiver.
Context `{Platform, Allocator, Crypto}.

(** What was taken out of the message: the PDU, in DES with what filled up
    its last block. *)
Definition carries (res : in_result) (pdu : list Z) : Prop :=
  match r_scopedPdu res with
  | InMessage p n => rd_n (p_msg (r_params res)) p (Z.to_nat n) = Ret pdu
  | Decrypted l => exists pad, l = pdu ++ pad /\ len pad < 8
  end.

Definition same_params (q : usm_params) (id : list Z) (boots time : Z) (name : list Z) : Prop :=
  p_secEngineID q = id /\ p_boots q = boots /\ p_time q = time /\ p_secName q = name.

(** The user has at the receiver what the sender used. *)
Definition shares (user : usmUser) (sec : security) : Prop :=
  u_authProtocol user = theAuthProtocol sec /\ u_authKey user = theAuthKey sec
  /\ u_privProtocol user = thePrivProtocol sec /\ u_privKey user = thePrivKey sec.

Lemma unwrap_spec st sec boots time pdu iv body st' user q m wholeMsgLen scopedPduLen :
  protected st sec boots time pdu iv body st' -> bytes_ok pdu -> shares user sec ->
  p_boots q = boots -> p_time q = time -> p_salt q = iv ->
  0 <= p_data_ptr q -> wholeMsgLen = p_data_ptr q + len body -> wholeMsgLen < 2 ^ 31 ->
  bytes_at m (p_data_ptr q) body -> len body < 65536 ->
  (theSecLevel sec = SNMP_SEC_LEVEL_AUTHPRIV -> len pdu + 7 <= scopedPduLen) ->
  exists wrapped overhead,
    unwrap_pdu m wholeMsgLen (theSecLevel sec) user q scopedPduLen = Ret (inr (wrapped, overhead))
    /\ match wrapped with
       | InMessage p n => rd_n m p (Z.to_nat n) = Ret pdu
       | Decrypted l => exists pad, l = pdu ++ pad /\ len pad < 8
       end.
Proof using Type.
  intros Hp Hbytes (_ & _ & Hup & Huk) Hb Ht Hs Hd -> Hl Hat Hsmall Hroom. unfold protected in Hp. unfold unwrap_pdu. cbv zeta.
  replace (p_data_ptr q + len body - p_data_ptr q) with (len body) by lia.
  pose proof (len_nonneg body). rewrite u64_id by cint.
  destruct (Z.eqb_spec (theSecLevel sec) SNMP_SEC_LEVEL_AUTHPRIV) as [Hlvl|].
  2: { destruct Hp as (_ & -> & _). do 2 eexists. split; [reflexivity|]. unfold len. rewrite Nat2Z.id.
       by apply rd_n_bytes_at. }
  specialize (Hroom Hlvl). destruct Hp as (t & k & salt & ct & Hpt & Hpk & Hsalt & Henc & ->).
  pose proof Henc as (Hcl & Hpos & Hd8 & Hdec)%sc_encrypt_spec; [|done|lia].
  pose proof (octets_len ct). pose proof (len_nonneg ct).
  destruct (tlv_parse m (p_data_ptr q) (len (octets ct)) ASN_OCTET_STR ct) as [-> Hct];
    [cint|by left|unfold len_ok; lia|done|unfold octets; lia|].
  apply (make_salt_iv _ _ _ _ _ _ _ t) in Hsalt as (_ & _ & Hiv); [|done|done].
  destruct (Hiv user q (p_data_ptr q + hdr_len (len ct)) (len ct)) as [overhead Hov]; try done; try congruence.
  { intros ->. rewrite Hcl. unfold pad_of. rewrite bool_decide_true by done. apply des_pad_len. }
  rewrite Hov, bind_ret. assert (Hn : Z.to_nat (len ct) = length ct) by (unfold len; lia).
  rewrite Hn, (rd_n_bytes_at _ _ _ Hct), bind_ret.
  rewrite Hup, Huk, Hpt, Hpk. assert (Hpad : len (pad_of t pdu) < 8).
  { unfold pad_of. case_bool_decide; [apply des_pad_len|done]. }
  rewrite Hdec by lia. rewrite bind_ret. cbn [negb Z.eqb SNMPERR_SUCCESS].
  do 2 eexists. split; [reflexivity|]. exists (pad_of t pdu). auto.
Qed.

(** The clock of the receiver takes the message. *)
Definition clock_takes (secLevel : Z) (c : lcd) (id : list Z) (boots time : Z) (c' : lcd) : Prop :=
  if is_auth secLevel then exists error, usm_check_and_update_timeliness c id boots time = Ret (0, error, c')
  else exists rval, set_enginetime c (Some id) boots time false = Ret (rval, c').

Lemma in_remaining_small m p n : rd m p = Ret ASN_OCTET_STR -> rd m 0 = Ret (Z.lor ASN_SEQUENCE ASN_CONSTRUCTOR) ->
  0 <= n < 2 ^ 31 -> exists r, in_remaining m p n = Ret r /\ n <= r < 2 ^ 64.
Proof using Type.
  intros Hp H0' Hn. unfold in_remaining. rewrite Hp, H0', !bind_ret. eexists. split; [reflexivity|].
  change (u32 (u64 (ASN_OCTET_STR - Z.lor ASN_SEQUENCE ASN_CONSTRUCTOR))) with 4294967252. cint.
Qed.

Lemma signed_length sec message signature : signed sec message signature ->
  length signature = if is_auth (theSecLevel sec) then 12%nat else 0%nat.
Proof using Type.
  unfold signed. destruct (is_auth _); [|by intros ->]. intros (t & k & h & _ & _ & Hh & ->).
  apply keyed_mac_length in Hh. rewrite length_take. lia.
Qed.

Lemma received_accepts stA stA' sec boots time pdu iv body globalData signature
    st maxMsgSize wholeMsg sess msg_flags secEngineIDLen secNameLen scopedPduLen user c1 c2 :
  let id := id_of sec in
  let fields := usm_fields id boots time (theName sec) signature iv in
  let m := whole_message globalData fields body in
  protected stA sec boots time pdu iv body stA' -> bytes_ok pdu ->
  signed sec (fun signature => whole_message globalData (usm_fields id boots time (theName sec) signature iv) body)
    signature ->
  len globalData + len id + len (theName sec) + len pdu + 500 < 65536 -> tuple_ok boots time ->
  locate_engine (clocks st) sess msg_flags id = Ret (c1, None) ->
  usm_get_user_from_list (Some id) (Some (c_string (theName sec))) (userList st) (noNameUser st) (use_default sess)
    = Some user ->
  u_userStatus user = RS_ACTIVE -> usm_check_secLevel (theSecLevel sec) user = Ret 0 -> shares user sec ->
  clock_takes (theSecLevel sec) c1 id boots time c2 ->
  len id <= secEngineIDLen -> len (theName sec) <= 32 -> len (theName sec) < secNameLen -> is_u32 secNameLen ->
  (theSecLevel sec = SNMP_SEC_LEVEL_AUTHPRIV -> len pdu + 7 <= scopedPduLen) ->
  exists res,
    accepts st maxMsgSize m wholeMsg (parameters_at globalData fields body) (theSecLevel sec) (len m)
      sess msg_flags secEngineIDLen secNameLen scopedPduLen c1 c2 user res
    /\ same_params (r_params res) id boots time (theName sec) /\ carries res pdu.
Proof using Type.
  intros id fields m Hprot Hbytes Hsig Hsize Htup Hloc Huser Hact Hlvl Hsh Hclock Hid Hname Hroom Hnl Hpdu.
  destruct (protected_small _ _ _ _ _ _ _ _ Hprot Hbytes) as [Hbody Hiv].
  pose proof (signed_length _ _ _ Hsig) as Hsl.
  assert (Hsl' : len signature <= 12) by (unfold len; rewrite Hsl; destruct (is_auth _); lia).
  pose proof (message_small globalData id boots time (theName sec) signature iv body Hsl' Hiv) as Hcont. fold fields in Hcont.
  pose proof (parameters_there globalData fields body) as (Hat & _ & Hlen). fold m in Hat, Hlen.
  set (p := parameters_at globalData fields body) in *.
  assert (Hp : 0 <= p) by (unfold p, parameters_at, hdr_len; pose proof (len_nonneg globalData); lia).
  apply bytes_at_app in Hat as [Hat Hbodyat].
  change (p + Z.of_nat (length (security_parameters fields))) with (p + len (security_parameters fields)) in Hbodyat.
  assert (Hml : len m < 65536).
  { unfold m, whole_message. pose proof (sequence_len (globalData ++ security_parameters fields ++ body)). lia. }
  pose proof (len_nonneg body). pose proof (len_nonneg (security_parameters fields)).
  destruct (in_remaining_small m p (len m)) as (r & Hr & Hrange); [|done|lia|].
  { by apply tlv_at in Hat as [? _]. }
  destruct Htup as [Hb Ht].
  pose proof (usm_parse_spec m p r id boots time (theName sec) signature iv secEngineIDLen secNameLen
    (BYTESIZE USM_MAX_KEYEDHASH_LENGTH) (BYTESIZE USM_MAX_SALT_LENGTH)) as Hparse. fold fields in Hparse. cbv zeta in Hparse.
  change (BYTESIZE USM_MAX_KEYEDHASH_LENGTH) with 16 in Hparse. change (BYTESIZE USM_MAX_SALT_LENGTH) with 16 in Hparse.
  pose proof (Hparse Hp ltac:(cint) ltac:(unfold len_ok; lia) ltac:(lia) Hat Hb Ht Hid Hname Hroom Hnl
                ltac:(lia) ltac:(lia)) as Hq. clear Hparse.
  set (next := p + len (security_parameters fields)) in *.
  match type of Hq with _ = Ret (inr ?q0) => set (q := q0) in * end.
  assert (Hk : 0 <= next - len (octets iv) - len signature /\ next <= Z.of_nat (length m)).
  { pose proof (octets_len iv). pose proof (octets_len signature). pose proof (octets_len (sequence fields)).
    pose proof (sequence_len fields). change (Z.of_nat (length m)) with (len m). split; [|lia].
    enough (len (octets iv) + len (octets signature) <= len fields) by (unfold next, security_parameters; lia).
    unfold fields, usm_fields. rewrite !len_app. pose proof (len_nonneg (front_fields id boots time (theName sec))). lia. }
  pose proof (octets_len iv). pose proof (len_nonneg iv). pose proof (len_nonneg signature).
  assert (Hbodyat' : bytes_at (p_msg q) (p_data_ptr q) body).
  { apply bytes_at_blank_after; [lia|lia|lia|cbn; lia|exact Hbodyat]. }
  destruct (unwrap_spec _ _ _ _ _ _ _ _ user q (p_msg q) (len m) scopedPduLen Hprot Hbytes Hsh eq_refl eq_refl eq_refl)
    as (wrapped & overhead & Hw & Hc); [cbn; lia|exact Hlen|lia|exact Hbodyat'|lia|exact Hpdu|].
  set (res := {| r_params := q; r_scopedPdu := wrapped; r_maxSizeResponse := max_size_response maxMsgSize wholeMsg overhead |}).
  exists res. split; [|split; [done|exact Hc]]. constructor; cbn [r_params res]; try assumption.
  - exists r. split; [exact Hr|exact Hq].
  - intros Hl. unfold protected in Hprot. rewrite Hl, Z.eqb_refl in Hprot.
    destruct Hprot as (t & k & salt & ct & Hpt & _ & Hsalt & Henc & _).
    apply sc_encrypt_spec in Henc as (_ & _ & Hd & _); [|done|lia].
    apply (make_salt_iv _ _ _ _ _ _ _ t) in Hsalt as (_ & H8 & _); [|done|done]. cbn. unfold len. by rewrite H8.
  - intros Ha. unfold signed in Hsig. rewrite Ha in Hsig. destruct Hsig as (t & k & h & Hpt & Hpk & Hh & Hs).
    assert (Hmsg : p_msg q = whole_message globalData (usm_fields id boots time (theName sec) (replicate 12 0) iv) body).
    { unfold q. cbn [p_msg]. replace 12%nat with (length signature) by (by rewrite Hsl, Ha). apply blank_signature. }
    assert (Hlm : Z.to_nat (len m) = length (p_msg q)).
    { unfold q. cbn [p_msg]. rewrite blank_length by lia. unfold len. lia. }
    exists (p_msg q). rewrite Hlm, rd_n_whole. split; [done|]. apply sc_check_keyed_hash_spec. exists t, k, h.
    destruct Hsh as (-> & -> & _). rewrite Hmsg. repeat (split; [done|]).
    assert (len signature = 12) by (unfold len; by rewrite Hsl, Ha).
    change (Z.of_nat (length m)) with (len m) in Hk. rewrite <- Hmsg. unfold len at 1. rewrite <- Hlm. lia.
  - unfold finish_in_msg. unfold clock_takes in Hclock. change (p_secEngineID q) with id. change (p_boots q) with boots.
    change (p_time q) with time. destruct (is_auth (theSecLevel sec)).
    + destruct Hclock as [error ->]. rewrite !bind_ret. cbn [Z.eqb]. rewrite Hw. done.
    + destruct Hclock as [rval ->]. rewrite !bind_ret. rewrite Hw. done.
Qed.
End receiver.
