(* ===== verification/UsmMsgProps.v ===== *)
(** * Properties of the messages of the user-based security model *)

From stdpp Require Import gmap list relations.
From S2P Require Import Prelude Bytes AsnTypes AsnParse AsnBuildSpec AsnParseSpec AsnRbuild AsnRbuildSpec Codec PduSpec Oid Vacm Lcd LcdSpec Usm UsmSpec UsmProps Scapi UsersSpec Users UsmMsg UsmMsgSpec UsmWire UsmRound Samples.

(** ** Two engines for the witnesses *)

(** A hash that sums up, a DES and an AES that flip every bit. *)
Definition toy_hash (n : nat) (k m : list Z) : list Z := replicate n (foldr Z.add 0 (k ++ m) mod 256).

Lemma toy_hash_ok n k m : length (toy_hash n k m) = n /\ bytes_ok (toy_hash n k m).
Proof.
  unfold toy_hash. split; [apply length_replicate|]. apply Forall_replicate. unfold is_u8.
  pose proof (Z.mod_pos_bound (foldr Z.add 0 (k ++ m)) 256). lia.
Qed.

Definition flip (m : list Z) : list Z := Z.lxor 255 <$> m.

Lemma flip_flip m : flip (flip m) = m.
Proof.
  unfold flip. induction m as [|b m IH]; [done|]. rewrite !fmap_cons, IH. f_equal.
  by rewrite <- Z.lxor_assoc, Z.lxor_nilpotent.
Qed.

Lemma flip_length m : length (flip m) = length m.
Proof. apply length_fmap. Qed.

Lemma flip_pieces (iv m1 m2 : list Z) : let '(c1, iv') := (flip m1, iv) in flip (c1 ++ (flip m2, iv').1) = m1 ++ m2.
Proof. cbn. unfold flip at 1. by rewrite fmap_app, !flip_flip. Qed.

#[export] Instance toy_crypto : Crypto := {|
  HMAC_md5 := toy_hash 16; HMAC_sha1 := toy_hash 20;
  DES_ncbc_encrypt := fun _ iv m => (flip m, iv); DES_cbc_decrypt := fun _ _ m => flip m;
  AES_cfb128_encrypt := fun _ _ m => flip m; AES_cfb128_decrypt := fun _ _ m => flip m;
  HMAC_md5_ok := toy_hash_ok 16; HMAC_sha1_ok := toy_hash_ok 20;
  DES_length := fun _ _ m _ => flip_length m;
  DES_inverse := fun _ iv m1 m2 _ _ _ _ => flip_pieces iv m1 m2;
  AES_length := fun _ _ m => flip_length m;
  AES_inverse := fun _ _ m _ => flip_flip m |}.

(** The user alice of the engine [\[9\]], who uses MD5 and DES. *)
Definition alice_name : list Z := [97; 108; 105; 99; 101].

Definition alice : usmUser := {|
  u_engineID := Some [9]; u_name := Some alice_name; u_secName := Some alice_name;
  u_authProtocol := Some usmHMACMD5AuthProtocol; u_authKey := Some (replicate 16 7);
  u_privProtocol := Some usmDESPrivProtocol; u_privKey := Some (replicate 16 3); u_userStatus := RS_ACTIVE; u_cloneFrom := None;
  u_userPublicString := None; u_userStorageType := ST_NONVOLATILE |}.

Definition knows_alice : usm := init_usm_post_config 1 2 3 {|
  clocks := with_known; userList := [alice]; noNameUser := None;
  salt_integer := 0; salt_integer64_1 := 0; salt_integer64_2 := 0 |}.

Lemma alice_named : named alice.
Proof. exists alice_name. split; [reflexivity|]. reflexivity. Qed.

Lemma knows_alice_ok c : usm_ok (H := sample c) knows_alice [1; 2; 3].
Proof.
  split; [apply with_known_good|]. apply users_ok_cons.
  split; [apply alice_named|]. split; [constructor|]. split; constructor.
Qed.

Definition scoped_pdu : list Z := [48; 3; 2; 1; 5].
Definition header_data : list Z := [2; 1; 3; 48; 0].

(** The agent's message; its security parameters start at 12. *)
Definition sent : outcome (usm * (Z + rbuf)) :=
  usm_rgenerate_out_msg (H := sample_steady) knows_alice header_data (Some [9]) alice_name SNMP_SEC_LEVEL_AUTHPRIV
    scoped_pdu None {| pkt := []; offset := 0 |}.

Definition sent_message : list Z := match sent with Ret (_, inr s) => written s | _ => [] end.

(** What the manager makes of it. *)
Definition received : outcome (usm * option usmStateReference * (rejected + in_result)) :=
  usm_process_in_msg (H := sample_steady) knows_alice 1000 sent_message 5000 7 SNMP_SEC_LEVEL_AUTHPRIV
    (len sent_message) true (Some SNMP_SESS_NONAUTHORITATIVE) 0 32 33 500.

Lemma forallb_bytes l : forallb (fun b => (0 <=? b) && (b <? 256)) l = true -> bytes_ok l.
Proof. induction l as [|b l IH]; cbn [forallb]; [constructor|]. intros [H1 H2]%andb_prop. constructor; [cint|by apply IH]. Qed.

Lemma sent_message_bytes : bytes_ok sent_message.
Proof. apply forallb_bytes. vm_compute. reflexivity. Qed.

(** ** Authenticity *)

(** C7: an authenticated message is accepted only from an active user, found
    by the engine identifier and the name it carries, and only
    when its signature is the first twelve bytes of the hash that the user's
    protocol and key give for the message with the signature blanked: nobody
    without the key can make a message that is let through.  The user is one
    of the table, or, for a message without a name that comes through a
    session that is not authoritative, the user without a name, which signs
    nothing unless a key was set for it after [init_usm_post_config]. *)
Theorem accepted_is_authentic `{Platform, Allocator, Crypto} st my maxMsgSize m wholeMsg secParams secLevel
    wholeMsgLen sref sess msg_flags secEngineIDLen secNameLen scopedPduLen st' ref res :
  usm_ok st my -> bytes_ok m -> 0 <= secParams -> is_u32 secNameLen -> is_auth secLevel = true ->
  usm_process_in_msg st maxMsgSize m wholeMsg secParams secLevel wholeMsgLen sref sess msg_flags
    secEngineIDLen secNameLen scopedPduLen = Ret (st', ref, inr res) ->
  let q := r_params res in
  let tabled user := users_map (userList st) !! user_key (Some (p_secEngineID q)) (c_string (p_secName q)) = Some user in
  exists user t k h at_ message,
    (tabled user \/ c_string (p_secName q) = [] /\ use_default sess = true /\ noNameUser st = Some user)
    /\ ((forall u, noNameUser st = Some u -> u_authKey u = None) -> tabled user)
    /\ u_userStatus user = RS_ACTIVE /\ u_authProtocol user = Some t /\ u_authKey user = Some k
    /\ secParams <= at_ /\ bytes_at m at_ (p_signature q)
    /\ rd_n (blank m at_ 12) 0 (Z.to_nat wholeMsgLen) = Ret message
    /\ keyed_mac t k message = Some h /\ p_signature q = take 12 h.
Proof.
  intros Hok Hm Hp Hnl Ha E q tabled.
  eapply process_signed in E as (user & Hu & Hact & t & k & h & at_ & message & Ht & Hk & Hat); try eassumption.
  exists user, t, k, h, at_, message. split; [by destruct Hu as [?|(_ & ? & ? & ?)]; [left|right]|]. split; [|done].
  intros Hno. destruct Hu as [?|(_ & _ & _ & Hn)]; [done|]. apply Hno in Hn. congruence.
Qed.

Lemma accepted_is_authentic_witness :
  exists st' ref res user, received = Ret (st', ref, inr res)
  /\ users_map (userList knows_alice) !! user_key (Some (p_secEngineID (r_params res)))
       (c_string (p_secName (r_params res))) = Some user
  /\ u_userStatus user = RS_ACTIVE.
Proof.
  assert (Hnl : is_u32 33) by (by vm_compute).
  destruct received as [[[st' ref] [code|res]]| | |] eqn:E; try (vm_compute in E; discriminate E).
  destruct (accepted_is_authentic (H := sample_steady) knows_alice [1; 2; 3] 1000 sent_message 5000 7
    SNMP_SEC_LEVEL_AUTHPRIV (len sent_message) true (Some SNMP_SESS_NONAUTHORITATIVE) 0 32 33 500 st' ref res)
    as (user & t & k & h & at_ & message & _ & Hu & Ha & _).
  - exact (knows_alice_ok steady).
  - exact sent_message_bytes.
  - lia.
  - exact Hnl.
  - reflexivity.
  - exact E.
  - exists st', ref, res, user. split; [reflexivity|]. refine (conj (Hu _) Ha). intros u Hn. exact (proj1 (init_usm_no_key _ _ _ _ u Hn)).
Defined.

(** ** Replay *)

(** C11: once an authenticated message of another engine with boots and time
    has been received, then, after whatever messages were received and sent
    and whatever users were added and removed since, no authenticated message
    of that engine with fewer boots is accepted, and none with the same boots
    whose time lies more than 150 seconds before, as long as the local clock
    has not wrapped since. *)
Theorem accepted_not_replayed `{Platform, Allocator, Crypto} st st' my id e maxMsgSize m wholeMsg secParams
    secLevel wholeMsgLen sref sess msg_flags secEngineIDLen secNameLen scopedPduLen st'' ref res :
  usm_ok st my -> abs (clocks st) !! id = Some e -> authenticatedFlag e = true -> id <> [] -> id <> my ->
  rtc usm_step st st' ->
  bytes_ok m -> 0 <= secParams -> is_u32 secNameLen -> is_auth secLevel = true ->
  usm_process_in_msg st' maxMsgSize m wholeMsg secParams secLevel wholeMsgLen sref sess msg_flags
    secEngineIDLen secNameLen scopedPduLen = Ret (st'', ref, inr res) ->
  p_secEngineID (r_params res) = id ->
  engineBoot e <= p_boots (r_params res)
  /\ (p_boots (r_params res) = engineBoot e ->
      (forall c1 code e', locate_engine (clocks st') sess msg_flags id = Ret (c1, code) ->
         abs c1 !! id = Some e' -> 0 <= lastReceivedEngineTime e' <= now (tick c1)) ->
      engineTime e <= p_time (r_params res) + USM_TIME_WINDOW).
Proof.
  intros Hok He Hf Hid Hmy Hrun Hm Hp Hnl Ha E Hq.
  destruct (usm_run_ok my _ _ Hrun Hok) as [Hok' Hadv].
  apply process_accepts in E as (c1 & c2 & user & [(rem & _ & Hparse) _ Hloc _ _ _ _ Hfin] & _).
  apply usm_parse_out in Hparse as (_ & Ht & _); [|done..].
  destruct (locate_moves my _ _ _ _ _ _ Hloc (proj1 Hok')) as [Hg1 Hadv1].
  destruct (advances_trans _ _ _ Hadv Hadv1 id e He Hf) as (e' & He' & Hf' & Hn).
  apply finish_checked in Hfin as (r & error & Hcheck & Hr); [|done]. rewrite Hq in Hcheck, Hloc.
  assert (Htu : is_u32 (p_time (r_params res))) by (unfold ENGINETIME_MAX in Ht; cint).
  pose proof (usm_check_remote c1 my id (p_boots (r_params res)) (p_time (r_params res)) (proj1 Hg1)
                (proj2 (proj2 Hg1)) Hmy Hid Htu) as Hrem.
  rewrite He' in Hrem. destruct (estimate e' true (now (tick c1))) as [[B T] L] eqn:Eest.
  assert (Hnot : late B T L (p_boots (r_params res)) (p_time (r_params res)) = false).
  { destruct (late _ _ _ _ _); [|done]. rewrite Hcheck in Hrem. congruence. }
  assert (Hold : forall P, (P -> late B T L (p_boots (r_params res)) (p_time (r_params res)) = true) -> ~ P)
    by (intros P HP Hp0; rewrite HP in Hnot; done).
  pose proof (proj1 (proj2 Hg1) id e' He') as Hu.
  split.
  - apply Z.nlt_ge, Hold. intros Hlt. by eapply (old_is_late c1 e e'); [..|left|].
  - intros Hb Hclock. apply Z.nlt_ge, Hold. intros Hlt.
    eapply (old_is_late c1 e e'); [done..| |exact Eest]. right. split; [done|]. split; [done|]. exact (Hclock c1 None e' Hloc He').
Qed.

Lemma accepted_not_replayed_witness :
  exists st' ref res, received = Ret (st', ref, inr res) /\ engineBoot known <= p_boots (r_params res).
Proof.
  assert (Hnl : is_u32 33) by (by vm_compute).
  destruct received as [[[st' ref] [code|res]]| | |] eqn:E; try (vm_compute in E; discriminate E).
  exists st', ref, res. split; [reflexivity|].
  apply (accepted_not_replayed (H := sample_steady) knows_alice knows_alice [1; 2; 3] [9] known 1000 sent_message 5000 7
    SNMP_SEC_LEVEL_AUTHPRIV (len sent_message) true (Some SNMP_SESS_NONAUTHORITATIVE) 0 32 33 500 st' ref res).
  - exact (knows_alice_ok steady).
  - reflexivity.
  - reflexivity.
  - discriminate.
  - discriminate.
  - apply rtc_refl.
  - exact sent_message_bytes.
  - lia.
  - exact Hnl.
  - reflexivity.
  - exact E.
  - vm_compute in E. injection E as _ _ <-. reflexivity.
Defined.

(** ** The round trip *)

(** C6: what [usm_rgenerate_out_msg] writes, [usm_process_in_msg] of an
    engine that has the same keys for the user takes, at every security
    level, encrypted with DES or AES or not at all: it returns the sender's
    engine identifier, boots, time and name, and the scoped PDU, behind which
    DES leaves at most seven bytes of padding.  The receiver must know the
    engine and find the message in time. *)
Theorem usm_message_roundtrip `{Platform, Allocator, Crypto} stA globalData secEngineID secName secLevel pdu refA sA
    stA' s sec rc boots time c st maxMsgSize wholeMsg sref sess msg_flags secEngineIDLen secNameLen scopedPduLen
    user c1 c2 :
  usm_rgenerate_out_msg stA globalData secEngineID secName secLevel pdu refA sA = Ret (stA', inr s) ->
  find_security stA secEngineID secName secLevel refA = Some sec ->
  get_enginetime (clocks stA) (theEngineID sec) false = Ret (rc, boots, time, c) -> tuple_ok boots time ->
  rb_ok sA -> bytes_ok pdu -> (theSecLevel sec <> SNMP_SEC_LEVEL_AUTHPRIV -> written sA = pdu) ->
  len globalData + len (id_of sec) + len (theName sec) + len pdu + 500 < 65536 ->
  locate_engine (clocks st) sess msg_flags (id_of sec) = Ret (c1, None) ->
  usm_get_user_from_list (Some (id_of sec)) (Some (c_string (theName sec))) (userList st) (noNameUser st)
    (use_default sess) = Some user ->
  u_userStatus user = RS_ACTIVE -> usm_check_secLevel (theSecLevel sec) user = Ret 0 -> shares user sec ->
  clock_takes (theSecLevel sec) c1 (id_of sec) boots time c2 ->
  len (id_of sec) <= secEngineIDLen -> len (theName sec) <= 32 -> len (theName sec) < secNameLen ->
  is_u32 secNameLen -> len pdu + 7 <= scopedPduLen ->
  exists secParams res,
    bytes_at (written s) (secParams - len globalData) globalData
    /\ same_params (r_params res) (id_of sec) boots time (theName sec) /\ carries res pdu
    /\ ((sref = true -> is_Some (reference sref (r_params res) (theSecLevel sec) user)) ->
        usm_process_in_msg st maxMsgSize (written s) wholeMsg secParams (theSecLevel sec) (len (written s)) sref sess
          msg_flags secEngineIDLen secNameLen scopedPduLen
        = Ret (with_clocks c2 st, reference sref (r_params res) (theSecLevel sec) user, inr res)).
Proof.
  intros E Hsec Hget Htup Hs Hbytes Hpdu Hsize Hloc Huser Hact Hlvl Hsh Hclock Hid Hname Hroom Hnl Hpl.
  assert (Hints : int_ok boots /\ int_ok time).
  { unfold tuple_ok, ENGINEBOOT_MAX, ENGINETIME_MAX in Htup. unfold int_ok, INT32_MIN. lia. }
  destruct (rgenerate_out _ _ _ _ _ _ _ _ _ _ _ _ _ _ _ E Hsec Hget (proj1 Hints) (proj2 Hints) Hs Hbytes Hpdu Hsize)
    as (iv & signature & body & _ & Hw & Hsig & Hprot).
  destruct (received_accepts _ _ _ _ _ _ _ _ globalData signature st maxMsgSize wholeMsg sess msg_flags
    secEngineIDLen secNameLen scopedPduLen user c1 c2 Hprot Hbytes Hsig) as (res & Hacc & Hsame & Hcar);
    [assumption..|done|].
  rewrite Hw. eexists _, res. split; [|split; [exact Hsame|split; [exact Hcar|]]].
  - pose proof (parameters_there globalData
      (usm_fields (id_of sec) boots time (theName sec) signature iv) body) as (_ & Hg & _).
    unfold parameters_at. rewrite Z.add_simpl_r. exact Hg.
  - intros Href. eapply accepts_process; [exact Hacc|exact Href].
Qed.

Lemma usm_message_roundtrip_witness :
  exists secParams res st' ref, same_params (r_params res) [9] 7 500 alice_name /\ carries res scoped_pdu
  /\ usm_process_in_msg (H := sample_steady) knows_alice 1000 sent_message 5000 secParams SNMP_SEC_LEVEL_AUTHPRIV
       (len sent_message) true (Some SNMP_SESS_NONAUTHORITATIVE) 0 32 33 500 = Ret (st', ref, inr res).
Proof.
  assert (Htup : tuple_ok 7 500) by (by vm_compute).
  assert (Hrb : rb_ok {| pkt := []; offset := 0 |}) by (by vm_compute).
  assert (Hb : bytes_ok scoped_pdu) by (apply forallb_bytes; vm_compute; reflexivity).
  assert (Hsize : len header_data + 1 + 5 + len scoped_pdu + 500 < 65536) by (by vm_compute).
  assert (Hnl : is_u32 33) by (by vm_compute). assert (Hpl : len scoped_pdu + 7 <= 500) by (by vm_compute).
  assert (H1 : 1 <= 32) by lia. assert (H2 : 5 <= 32) by lia. assert (H3 : 5 < 33) by lia.
  destruct sent as [[stA' [code|s]]| | |] eqn:E; try (vm_compute in E; discriminate E).
  assert (Hm : sent_message = written s) by (unfold sent_message; by rewrite E).
  edestruct (usm_message_roundtrip (H := sample_steady) knows_alice header_data (Some [9]) alice_name
    SNMP_SEC_LEVEL_AUTHPRIV scoped_pdu None {| pkt := []; offset := 0 |} stA' s
    (security_of_user (Some alice) (Some [9]) alice_name SNMP_SEC_LEVEL_AUTHPRIV) SNMPERR_SUCCESS 7 500)
    with (st := knows_alice) (sref := true) (sess := Some SNMP_SESS_NONAUTHORITATIVE) (msg_flags := 0)
         (user := alice) (maxMsgSize := 1000) (wholeMsg := 5000) (secEngineIDLen := 32) (secNameLen := 33)
         (scopedPduLen := 500)
    as (secParams & res & _ & Hsame & Hcar & Hrun).
  - exact E.
  - reflexivity.
  - vm_compute. reflexivity.
  - exact Htup.
  - exact Hrb.
  - exact Hb.
  - intros Hne. destruct (Hne eq_refl).
  - exact Hsize.
  - vm_compute. reflexivity.
  - reflexivity.
  - reflexivity.
  - reflexivity.
  - repeat split.
  - eexists. vm_compute. reflexivity.
  - exact H1.
  - exact H2.
  - exact H3.
  - exact Hnl.
  - exact Hpl.
  - exists secParams, res. do 2 eexists. split; [exact Hsame|]. split; [exact Hcar|].
    rewrite Hm. apply Hrun. intros _. destruct Hsame as (Hi & _ & _ & Hn). unfold reference. rewrite Hi, Hn.
    eexists. vm_compute. reflexivity.
Defined.

(** ** The table of users *)

(** C36: the sorted list of users is a finite map from pairs of an engine
    identifier and a name: adding a user replaces the one with the same pair
    or inserts a new entry, removing deletes the entry, and looking one up
    reads it, falling back to the user without a name only for an empty name
    when the caller allows it.  The order of the list is kept. *)
Theorem user_table_refines l user n v id name d use_default :
  users_ok l -> named user -> l !! n = Some v ->
  (exists l', usm_add_user_to_list user l = Ret l' /\ users_ok l'
              /\ users_map l' = <[key_of user := user]> (users_map l))
  /\ (exists l', usm_remove_user_from_list n l = Some l' /\ users_ok l'
                 /\ users_map l' = delete (key_of v) (users_map l))
  /\ usm_get_user_from_list id (Some name) l d use_default
     = match users_map l !! user_key id (c_string name) with
       | Some u => Some u
       | None => if use_default && bool_decide (c_string name = []) then d else None
       end.
Proof.
  intros Hl Hu Hn. split.
  { destruct (usm_add_user_to_list_spec user l Hl Hu) as (l' & ? & ? & ? & _). eauto. }
  split; [by apply usm_remove_user_from_list_spec|].
  unfold usm_get_user_from_list. rewrite search_users_spec by apply Hl.
  destruct (users_map l !! _); [done|].
  assert (E : (strcmp name [] =? 0) = bool_decide (c_string name = [])); [|by rewrite E].
  unfold strcmp. cbn [c_string]. pose proof (lex_eq (c_string name) []) as Hlex.
  case_bool_decide as Hc; [by rewrite Hc|]. apply Z.eqb_neq. tauto.
Qed.

(** Three users, of whom the middle one is taken out. *)
Definition named_user (id name : list Z) : usmUser := {|
  u_engineID := Some id; u_name := Some name; u_secName := Some name; u_authProtocol := None; u_authKey := None;
  u_privProtocol := None; u_privKey := None; u_userStatus := RS_ACTIVE; u_cloneFrom := None;
  u_userPublicString := None; u_userStorageType := ST_NONVOLATILE |}.

Lemma user_table_refines_witness :
  exists l', usm_add_user_to_list (named_user [8] [98; 111; 98]) [alice] = Ret l' /\ users_ok l'
  /\ users_map l' = <[key_of (named_user [8] [98; 111; 98]) := named_user [8] [98; 111; 98]]> (users_map [alice]).
Proof.
  apply (user_table_refines [alice] (named_user [8] [98; 111; 98]) 0 alice None [] None false).
  - exact (proj2 (knows_alice_ok steady)).
  - exists [98; 111; 98]. split; reflexivity.
  - reflexivity.
Defined.

(** ** Where the code does something else *)

(** The number of bytes left for the security parameters is computed from
    the first bytes of the message and of the parameters instead of from
    their addresses, and comes out close to 2^64 for every message that
    starts with a sequence.  The length of the octet string is therefore not
    checked against the message: whatever length below 65536 it announces is
    taken, however short the message.  A message cut off after the header of
    its security parameters makes the parser read past its end. *)
Theorem parameters_length_unchecked m secParams wholeMsgLen n :
  len_ok n -> 0 <= wholeMsgLen < 2 ^ 31 ->
  rd m 0 = Ret (Z.lor ASN_SEQUENCE ASN_CONSTRUCTOR) ->
  rd m secParams = Ret ASN_OCTET_STR -> bytes_at m (secParams + 1) (len_octets n) ->
  exists remaining, in_remaining m secParams wholeMsgLen = Ret remaining
  /\ 2 ^ 63 <= remaining
  /\ asn_parse_sequence m secParams remaining ASN_OCTET_STR = Ret (secParams + hdr_len n, ASN_OCTET_STR, n).
Proof.
  intros Hn Hw H0 Hp Hat. unfold in_remaining. rewrite Hp, H0, !bind_ret. eexists. split; [reflexivity|].
  change (u32 (u64 (ASN_OCTET_STR - Z.lor ASN_SEQUENCE ASN_CONSTRUCTOR))) with 4294967252.
  assert (Hbig : 2 ^ 63 <= u64 (wholeMsgLen - 4294967252)) by cint. split; [done|].
  unfold asn_parse_sequence, asn_parse_header. rewrite Hp, bind_ret.
  change (IS_EXTENSION_ID ASN_OCTET_STR) with false. cbv iota.
  pose proof (length_len_octets n) as Hl. unfold len_ok in Hn.
  rewrite (parse_checked_spec m (secParams + 1) secParams _ n) by (done || lia).
  rewrite bind_ret. change (ASN_OCTET_STR =? ASN_OPAQUE) with false. cbv iota.
  rewrite bind_ret, Z.eqb_refl, s32_id, u64_id by cint. cbn [negb]. unfold hdr_len. do 3 f_equal. lia.
Qed.

(** Nine bytes of a message, which announce 43 more. *)
Lemma parameters_length_unchecked_witness :
  (exists remaining, in_remaining (take 9 sent_message) 7 9 = Ret remaining
   /\ asn_parse_sequence (take 9 sent_message) 7 remaining ASN_OCTET_STR = Ret (9, ASN_OCTET_STR, 43))
  /\ usm_process_in_msg (H := sample_steady) knows_alice 1000 (take 9 sent_message) 5000 7 SNMP_SEC_LEVEL_AUTHPRIV
       9 true (Some SNMP_SESS_NONAUTHORITATIVE) 0 32 33 500 = Overrun.
Proof.
  split; [|vm_compute; reflexivity].
  destruct (parameters_length_unchecked (take 9 sent_message) 7 9 43) as (remaining & Hr & _ & Hs).
  - by vm_compute.
  - lia.
  - vm_compute. reflexivity.
  - vm_compute. reflexivity.
  - vm_compute. by split.
  - exists remaining. exact (conj Hr Hs).
Defined.

(** The room for the answer, [maxSizeResponse], is the message size the
    sender accepts less what stands in front of the scoped PDU, except for a
    message encrypted with AES: there the pointer subtracted is NULL, and the
    result is the size plus the address of the message. *)
Theorem max_size_response_cases `{Platform, Allocator, Crypto} st maxMsgSize m wholeMsg secParams secLevel
    wholeMsgLen sref sess msg_flags secEngineIDLen secNameLen scopedPduLen st' ref res :
  usm_process_in_msg st maxMsgSize m wholeMsg secParams secLevel wholeMsgLen sref sess msg_flags
    secEngineIDLen secNameLen scopedPduLen = Ret (st', ref, inr res) ->
  exists user, usm_get_user_from_list (Some (p_secEngineID (r_params res)))
    (Some (c_string (p_secName (r_params res)))) (userList st) (noNameUser st) (use_default sess) = Some user
  /\ if secLevel =? SNMP_SEC_LEVEL_AUTHPRIV then
       if bool_decide (u_privProtocol user = Some usmDESPrivProtocol) then
         exists t n, asn_parse_sequence (p_msg (r_params res)) (p_data_ptr (r_params res))
                       (u64 (wholeMsgLen - p_data_ptr (r_params res))) ASN_OCTET_STR = Ret (t, ASN_OCTET_STR, n)
                     /\ r_maxSizeResponse res = u64 (maxMsgSize - t)
       else u_privProtocol user = Some usmAESPrivProtocol
            /\ r_maxSizeResponse res = u64 (maxMsgSize + wholeMsg)
     else r_maxSizeResponse res = u64 (maxMsgSize - p_data_ptr (r_params res)).
Proof.
  intros E. apply process_accepts in E as (c1 & c2 & user & [_ _ _ Huser _ _ _ Hfin] & _).
  exists user. split; [exact Huser|]. pose proof (finish_params _ _ _ _ _ _ _ _ _ _ Hfin) as Hq.
  unfold finish_in_msg in Hfin. apply bind_Ret_inv in Hfin as ([c late'] & _ & Hfin).
  destruct late'; [done|]. apply bind_Ret_inv in Hfin as ([e|[pdu overhead]] & Hun & Hfin); [done|].
  assert (Hmax : r_maxSizeResponse res = max_size_response maxMsgSize wholeMsg overhead) by (by injection Hfin as _ <-).
  rewrite Hmax. clear Hfin Hmax. unfold unwrap_pdu in Hun. destruct (secLevel =? SNMP_SEC_LEVEL_AUTHPRIV).
  2: { injection Hun as _ <-. done. }
  destruct (asn_parse_sequence _ _ _ _) as [[[v t] n]| | |] eqn:Eseq; try done.
  assert (t = ASN_OCTET_STR) as ->.
  { unfold asn_parse_sequence in Eseq. apply bind_Ret_inv in Eseq as ([[v1 t1] n1] & _ & Eseq).
    destruct (Z.eqb_spec t1 ASN_OCTET_STR); [|done]. injection Eseq as _ <- _. done. }
  apply bind_Ret_inv in Hun as ([e|[iv oh]] & Hiv & Hun); [done|].
  apply bind_Ret_inv in Hun as (ciphertext & _ & Hun). apply bind_Ret_inv in Hun as ([rval plain] & Hdec & Hun).
  destruct (Z.eqb_spec rval SNMPERR_SUCCESS) as [->|]; cbn [negb] in Hun; [|done]. injection Hun as _ <-.
  apply sc_decrypt_transform in Hdec. unfold make_iv in Hiv.
  destruct Hdec as [Hp|Hp]; rewrite Hp in *; cbn [is_transform] in Hiv;
    rewrite !ISTRANSFORM_spec, !bind_ret in Hiv by done.
  - rewrite bool_decide_true in Hiv by done. rewrite bool_decide_true by done. exists v, n. split; [done|].
    destruct (negb _); [done|]. destruct (u_privKey user); [|done].
    apply bind_Ret_inv in Hiv as (k & _ & Hiv). by injection Hiv as _ <-.
  - rewrite bool_decide_false, bool_decide_true in Hiv by done. rewrite bool_decide_false by done. split; [done|].
    injection Hiv as _ <-. unfold max_size_response. f_equal. lia.
Qed.

Lemma max_size_response_cases_witness :
  exists st' ref res, received = Ret (st', ref, inr res) /\ exists user,
  usm_get_user_from_list (Some (p_secEngineID (r_params res))) (Some (c_string (p_secName (r_params res))))
    (userList knows_alice) (noNameUser knows_alice) true = Some user.
Proof.
  destruct received as [[[st' ref] [code|res]]| | |] eqn:E; try (vm_compute in E; discriminate E).
  destruct (max_size_response_cases (H := sample_steady) knows_alice 1000 sent_message 5000 7
    SNMP_SEC_LEVEL_AUTHPRIV (len sent_message) true (Some SNMP_SESS_NONAUTHORITATIVE) 0 32 33 500 st' ref res)
    as (user & Hu & _).
  - exact E.
  - exists st', ref, res. split; [reflexivity|]. exists user. exact Hu.
Defined.
