(* ===== verification/Enum.v ===== *)
(** * Enumerations: snmplib/snmp_enum.c

    Lists of labels with their values, found by a pair of numbers or by a
    name.  Reading and storing them in configuration files is left out. *)

From S2P Require Import Prelude AsnRbuild Vacm.

Definition SE_MAX_IDS : Z := 5.
Definition SE_MAX_SUBIDS : Z := 32.
Definition SE_OK : Z := 0.
Definition SE_NOMEM : Z := 1.
Definition SE_ALREADY_THERE : Z := 2.
Definition SE_DNE : Z := -2.

(** A list is the elements along its [next] pointers, the NULL pointer [[]]. *)
Record snmp_enum_item : Set := { se_value : Z; se_label : list Z }.
Abbreviation snmp_enum_list := (list snmp_enum_item).

Record snmp_enum_list_str : Set := { str_name : list Z; str_list : snmp_enum_list }.

(** The static variables; [snmp_enum_lists] is the array of arrays once it is
    there. *)
Record enums : Set := {
  snmp_enum_lists : option (list (list snmp_enum_list));
  current_maj_num : Z;
  current_min_num : Z;
  sliststorage : list snmp_enum_list_str
}.

Definition with_lists (l : option (list (list snmp_enum_list))) (s : enums) : enums :=
  {| snmp_enum_lists := l; current_maj_num := current_maj_num s; current_min_num := current_min_num s;
     sliststorage := sliststorage s |}.

Definition with_slists (l : list snmp_enum_list_str) (s : enums) : enums :=
  {| snmp_enum_lists := snmp_enum_lists s; current_maj_num := current_maj_num s;
     current_min_num := current_min_num s; sliststorage := l |}.

Definition sizeof_pointer : Z := 8.
Definition sizeof_enum_list : Z := 24.
Definition sizeof_enum_list_str : Z := 24.

(** ** Lists *)

Fixpoint se_find_value_in_list (l : snmp_enum_list) (label : list Z) : Z :=
  match l with
  | [] => SE_DNE
  | i :: l => if strcmp (se_label i) label =? 0 then se_value i else se_find_value_in_list l label
  end.

(** [max_value + 1] is an [int]. *)
Definition se_find_free_value_in_list (l : snmp_enum_list) : Z :=
  match l with
  | [] => SE_DNE
  | _ => s32 (fold_left (fun max_value i => if max_value <? se_value i then se_value i else max_value) l 0 + 1)
  end.

Fixpoint se_find_label_in_list (l : snmp_enum_list) (value : Z) : option (list Z) :=
  match l with
  | [] => None
  | i :: l => if se_value i =? value then Some (se_label i) else se_find_label_in_list l value
  end.

(** The result and the list. *)
Fixpoint se_add_pair_to_list `{Allocator} (l : snmp_enum_list) (label : list Z) (value : Z)
    : Z * snmp_enum_list :=
  match l with
  | [] => if alloc sizeof_enum_list then (SE_OK, [{| se_value := value; se_label := label |}])
          else (SE_NOMEM, [])
  | i :: l => if se_value i =? value then (SE_ALREADY_THERE, i :: l)
              else let '(ret, l) := se_add_pair_to_list l label value in (ret, i :: l)
  end.

(** ** Lists with a pair of numbers *)

Definition row : list snmp_enum_list := replicate (Z.to_nat SE_MAX_SUBIDS) [].

(** Registering the configuration handler is left out.  When a row cannot be
    had the array stays with the rows before it, which later calls take for
    initialised; this is not modelled. *)
Definition init_snmp_enum `{Allocator} (s : enums) : outcome (Z * enums) :=
  match snmp_enum_lists s with
  | Some _ => Ret (SE_OK, s)
  | None =>
      if negb (alloc (sizeof_pointer * SE_MAX_IDS)) then Ret (SE_NOMEM, s)
      else if negb (alloc (sizeof_pointer * SE_MAX_SUBIDS)) then Null
      else Ret (SE_OK, {| snmp_enum_lists := Some (replicate (Z.to_nat SE_MAX_IDS) row);
                          current_maj_num := SE_MAX_IDS; current_min_num := SE_MAX_SUBIDS;
                          sliststorage := sliststorage s |})
  end.

(** [snmp_enum_lists[major][minor]]. *)
Definition enum_cell (s : enums) (major minor : Z) : outcome snmp_enum_list :=
  match snmp_enum_lists s with
  | None => Overrun
  | Some lists =>
      match lists !! Z.to_nat major with
      | None => Overrun
      | Some row => match row !! Z.to_nat minor with Some l => Ret l | None => Overrun end
      end
  end.

Definition set_enum_cell (l : snmp_enum_list) (major minor : Z) (s : enums) : enums :=
  with_lists (alter (<[Z.to_nat minor := l]>) (Z.to_nat major) <$> snmp_enum_lists s) s.

Definition se_store_in_list (new_list : snmp_enum_list) (major minor : Z) (s : enums) : outcome (Z * enums) :=
  if (current_maj_num s <? major) || (current_min_num s <? minor) then Ret (SE_NOMEM, s)
  else
    old ← enum_cell s major minor;
    Ret (match old with [] => SE_OK | _ => SE_ALREADY_THERE end, set_enum_cell new_list major minor s).

Definition se_find_list (major minor : Z) (s : enums) : outcome snmp_enum_list :=
  if (current_maj_num s <? major) || (current_min_num s <? minor) then Ret []
  else enum_cell s major minor.

Definition se_find_value (major minor : Z) (label : list Z) (s : enums) : outcome Z :=
  l ← se_find_list major minor s; Ret (se_find_value_in_list l label).

Definition se_find_free_value (major minor : Z) (s : enums) : outcome Z :=
  l ← se_find_list major minor s; Ret (se_find_free_value_in_list l).

Definition se_find_label (major minor value : Z) (s : enums) : outcome (option (list Z)) :=
  l ← se_find_list major minor s; Ret (se_find_label_in_list l value).

(** A list that exists is changed where it is. *)
Definition se_add_pair `{Allocator} (major minor : Z) (label : list Z) (value : Z) (s : enums)
    : outcome (Z * enums) :=
  l ← se_find_list major minor s;
  let '(ret, l') := se_add_pair_to_list l label value in
  match l with
  | [] => '(_, s) ← se_store_in_list l' major minor s; Ret (ret, s)
  | _ => Ret (ret, set_enum_cell l' major minor s)
  end.

(** ** Lists with a name *)

(** The position of the list. *)
Fixpoint se_find_slist_ptr (storage : list snmp_enum_list_str) (listname : list Z) : option nat :=
  match storage with
  | [] => None
  | sptr :: storage => if strcmp (str_name sptr) listname =? 0 then Some O
                       else S <$> se_find_slist_ptr storage listname
  end.

Definition se_find_slist (listname : list Z) (s : enums) : snmp_enum_list :=
  match se_find_slist_ptr (sliststorage s) listname with
  | Some i => match sliststorage s !! i with Some sptr => str_list sptr | None => [] end
  | None => []
  end.

Definition se_find_label_in_slist (listname : list Z) (value : Z) (s : enums) : option (list Z) :=
  se_find_label_in_list (se_find_slist listname s) value.

Definition se_find_value_in_slist (listname label : list Z) (s : enums) : Z :=
  se_find_value_in_list (se_find_slist listname s) label.

Definition se_find_free_value_in_slist (listname : list Z) (s : enums) : Z :=
  se_find_free_value_in_list (se_find_slist listname s).

(** A list that exists is changed where it is; an empty one is as one that
    does not exist, and gets a new name in front. *)
Definition se_add_pair_to_slist `{Allocator} (listname label : list Z) (value : Z) (s : enums) : Z * enums :=
  let l := se_find_slist listname s in
  let '(ret, l') := se_add_pair_to_list l label value in
  match l with
  | [] => if alloc sizeof_enum_list_str
          then (ret, with_slists ({| str_name := listname; str_list := l' |} :: sliststorage s) s)
          else (SE_NOMEM, s)
  | _ =>
      match se_find_slist_ptr (sliststorage s) listname with
      | Some i => (ret, with_slists (alter (fun sptr => {| str_name := str_name sptr; str_list := l' |}) i
                                      (sliststorage s)) s)
      | None => (ret, s)
      end
  end.

Definition clear_snmp_enum (s : enums) : enums :=
  {| snmp_enum_lists := None; current_maj_num := current_maj_num s; current_min_num := current_min_num s;
     sliststorage := [] |}.
