(* ===== verification/UsmForward.v ===== *)
(** * Outgoing messages, written forwards: snmplib/snmpusm.c

    [usm_generate_out_msg] predicts the lengths of all fields, and writes each
    field to the place that follows from them. *)

From S2P Require Import Prelude Bytes AsnTypes AsnParse AsnBuild AsnRbuild Oid Vacm Lcd Usm Scapi Users UsmMsg.

(** ** Predicted lengths *)

(** [while (.. && len > 1) { len--; number <<= 8; }] *)
Fixpoint predict_int_loop (number : Z) (len : nat) : nat :=
  match len with
  | O | S O => len
  | S len' => if top9_equal number then predict_int_loop (s64 (Z.shiftl number 8)) len' else len
  end.

Definition asn_predict_int_length (number len : Z) : Z :=
  if negb (len =? sizeof_long) then -1 else Z.of_nat (predict_int_loop number (Z.to_nat len)).

(** [number] is the [u_long] at [ptr], which is read for integers only. *)
Definition asn_predict_length (type number u_char_len : Z) : Z :=
  if negb (Z.land type ASN_SEQUENCE =? 0) then s32 (1 + 3 + u_char_len)
  else
    let u_char_len := if negb (Z.land type ASN_INTEGER =? 0)
                      then u64 (asn_predict_int_length (s64 number) u_char_len) else u_char_len in
    if u_char_len <? 0x80 then s32 (1 + 1 + u_char_len)
    else if u_char_len <? 0xFF then s32 (1 + 2 + u_char_len)
    else s32 (1 + 3 + u_char_len).

Definition ROUNDUP8 (x : Z) : Z := Z.shiftr (x + 7) 3 * 8.

Record usm_offsets : Type := {
  theTotalLength : Z;
  authParamsOffset : Z;
  privParamsOffset : Z;
  dataOffset : Z;
  datalen : Z;
  msgAuthParmLen : Z;
  msgPrivParmLen : Z;
  otstlen : Z;
  seq_len : Z;
  msgSecParmLen : Z
}.

(** [None] is -1. *)
Definition usm_calc_offsets (globalDataLen secLevel secEngineIDLen secNameLen scopedPduLen engineboots engine_time : Z)
    : option usm_offsets :=
  let msgAuthParmLen := if is_auth secLevel then 12 else 0 in
  let msgPrivParmLen := if secLevel =? SNMP_SEC_LEVEL_AUTHPRIV then 8 else 0 in
  let engIDlen := asn_predict_length ASN_OCTET_STR 0 secEngineIDLen in
  let engBtlen := asn_predict_length ASN_INTEGER engineboots sizeof_long in
  let engTmlen := asn_predict_length ASN_INTEGER engine_time sizeof_long in
  let namelen := asn_predict_length ASN_OCTET_STR 0 secNameLen in
  let authlen := asn_predict_length ASN_OCTET_STR 0 msgAuthParmLen in
  let privlen := asn_predict_length ASN_OCTET_STR 0 msgPrivParmLen in
  let seq_len := u64 (s32 (engIDlen + engBtlen + engTmlen + namelen + authlen + privlen)) in
  let otstlen := asn_predict_length ASN_SEQUENCE 0 seq_len in
  let msgSecParmLen := asn_predict_length ASN_OCTET_STR 0 (u64 otstlen) in
  let rounded := if secLevel =? SNMP_SEC_LEVEL_AUTHPRIV then ROUNDUP8 scopedPduLen else scopedPduLen in
  let data := if secLevel =? SNMP_SEC_LEVEL_AUTHPRIV then asn_predict_length ASN_OCTET_STR 0 rounded else rounded in
  if existsb (Z.eqb (-1)) [engIDlen; engBtlen; engTmlen; namelen; authlen; privlen; otstlen; msgSecParmLen]
     || ((secLevel =? SNMP_SEC_LEVEL_AUTHPRIV) && (data =? -1)) then None
  else
    let otstlen := u64 otstlen in
    let msgSecParmLen := u64 msgSecParmLen in
    let datalen := u64 data in
    let authParamsOffset := u64 (globalDataLen + (msgSecParmLen - seq_len) + engIDlen + engBtlen + engTmlen
                                 + namelen + (authlen - msgAuthParmLen)) in
    Some {| theTotalLength := u64 (globalDataLen + msgSecParmLen + datalen);
            authParamsOffset := authParamsOffset;
            privParamsOffset := u64 (authParamsOffset + msgAuthParmLen + (privlen - msgPrivParmLen));
            dataOffset := u64 (globalDataLen + msgSecParmLen + (datalen - rounded));
            datalen := datalen; msgAuthParmLen := msgAuthParmLen; msgPrivParmLen := msgPrivParmLen;
            otstlen := otstlen; seq_len := seq_len; msgSecParmLen := msgSecParmLen |}.

(** ** The packet *)

(** [memcpy(&ptr[p], l, ..)] *)
Definition poke (p : Z) (l : list Z) (ptr : mem) : outcome mem :=
  if (0 <=? p) && (p + len l <=? len ptr)
  then Ret (take (Z.to_nat p) ptr ++ l ++ drop (Z.to_nat (p + len l)) ptr)
  else Overrun.

(** [offSet = ptr_len - remaining; asn_build_..(&ptr[offSet], &remaining, ..)]
    with a result that is not looked at.  A call that fails changes nothing:
    what it stores before it finds no room is not modelled. *)
Definition build_at (ptr_len : Z) (build : Z -> outcome (list Z * Z)) (w : mem * Z) : outcome (mem * Z) :=
  let '(ptr, remaining) := w in
  match build remaining with
  | Ret (out, rest) => ptr ← poke (u64 (ptr_len - remaining)) out ptr; Ret (ptr, rest)
  | Null => Ret (ptr, remaining)
  | Overrun => Overrun
  | Spin => Spin
  end.

Section generate.
Context `{Platform, Allocator, Crypto}.

(** The scoped PDU at its place, the salt in front of it; the state and the
    packet, or the early return. *)
Definition forward_data (st : usm) (sec : security) (boots time : Z) (o : usm_offsets) (scopedPdu ptr : list Z)
    : outcome (usm * (Z + mem)) :=
  if theSecLevel sec =? SNMP_SEC_LEVEL_AUTHPRIV then
    let encrypted_length := u64 (theTotalLength o - dataOffset o) in
    r ← make_salt st sec boots time;
    match r with
    | inl code => Ret (st, inl code)
    | inr (salt, iv, st) =>
        ptr ← poke (privParamsOffset o) iv ptr;
        '(rval, ciphertext) ← sc_encrypt (thePrivProtocol sec) (thePrivKey sec) salt scopedPdu encrypted_length;
        if negb (rval =? SNMPERR_SUCCESS) then Ret (st, inl SNMPERR_USM_ENCRYPTIONERROR)
        else
          ptr ← poke (dataOffset o) ciphertext ptr;
          if negb (len ciphertext =? encrypted_length) || negb (len salt =? msgPrivParmLen o)
          then Ret (st, inl SNMPERR_USM_ENCRYPTIONERROR)
          else Ret (st, inr ptr)
    end
  else ptr ← poke (dataOffset o) scopedPdu ptr; Ret (st, inr ptr).

(** The security parameters and the header of the encrypted PDU; an engine
    identifier that is NULL has no bytes. *)
Definition forward_params (sec : security) (boots_long time_long globalDataLen : Z) (o : usm_offsets) (ptr : mem)
    : outcome mem :=
  let ptr_len := theTotalLength o in
  let id := match theEngineID sec with Some id => id | None => [] end in
  let at_ := build_at ptr_len in
  w ← at_ (fun r => asn_build_header r ASN_OCTET_STR (otstlen o)) (ptr, u64 (ptr_len - globalDataLen));
  w ← at_ (fun r => asn_build_sequence r (Z.lor ASN_SEQUENCE ASN_CONSTRUCTOR) (seq_len o)) w;
  w ← at_ (fun r => asn_build_string r ASN_OCTET_STR (Some id) (len id)) w;
  w ← at_ (fun r => asn_build_int r ASN_INTEGER boots_long sizeof_long) w;
  w ← at_ (fun r => asn_build_int r ASN_INTEGER time_long sizeof_long) w;
  w ← at_ (fun r => asn_build_string r ASN_OCTET_STR (Some (theName sec)) (len (theName sec))) w;
  '(ptr, remaining) ← at_ (fun r => asn_build_header r ASN_OCTET_STR (msgAuthParmLen o)) w;
  ptr ← (if is_auth (theSecLevel sec)
         then poke (u64 (ptr_len - remaining)) (replicate (Z.to_nat (msgAuthParmLen o)) 0) ptr else Ret ptr);
  '(ptr, remaining) ← at_ (fun r => asn_build_header r ASN_OCTET_STR (msgPrivParmLen o))
                        (ptr, u64 (remaining - msgAuthParmLen o));
  let remaining := u64 (remaining - msgPrivParmLen o) in
  '(ptr, _) ← (if theSecLevel sec =? SNMP_SEC_LEVEL_AUTHPRIV
               then at_ (fun r => asn_build_header r ASN_OCTET_STR (u64 (theTotalLength o - dataOffset o)))
                      (ptr, remaining)
               else Ret (ptr, remaining));
  '(ptr, _) ← build_at (theTotalLength o)
                (fun r => asn_build_sequence r (Z.lor ASN_SEQUENCE ASN_CONSTRUCTOR) (u64 (theTotalLength o - 4)))
                (ptr, theTotalLength o);
  Ret ptr.

(** The hash over the packet, written where the zeros should be. *)
Definition forward_sign (sec : security) (o : usm_offsets) (ptr : mem) : outcome (Z + mem) :=
  if negb (is_auth (theSecLevel sec)) then Ret (inr ptr)
  else if negb (alloc (msgAuthParmLen o)) then Ret (inl SNMPERR_USM_GENERICERROR)
  else
    let packet := take (Z.to_nat (theTotalLength o)) ptr in
    '(rval, temp_sig) ← sc_generate_keyed_hash (theAuthProtocol sec) (theAuthKey sec) packet (msgAuthParmLen o);
    if negb (rval =? SNMPERR_SUCCESS) then Ret (inl SNMPERR_USM_AUTHENTICATIONFAILURE)
    else if negb (len temp_sig =? msgAuthParmLen o) then Ret (inl SNMPERR_USM_AUTHENTICATIONFAILURE)
    else ptr ← poke (authParamsOffset o) temp_sig ptr; Ret (inr ptr).

(** [buffer]: the memory at [globalData], whose first [globalDataLen] bytes
    are the header of the message; [wholeMsgLen]: how much of it the caller
    says there is.  The result is the state, and the return value or the
    packet; the reference is freed on every path. *)
Definition usm_generate_out_msg (st : usm) (buffer : mem) (globalDataLen : Z) (secEngineID : option (list Z))
    (secName : list Z) (secLevel : Z) (scopedPdu : list Z) (secStateRef : option usmStateReference)
    (wholeMsgLen : Z) : outcome (usm * (Z + list Z)) :=
  match find_security st secEngineID secName secLevel secStateRef with
  | None => Ret (st, inl SNMPERR_USM_UNKNOWNSECURITYNAME)
  | Some sec =>
      rc ← usm_check_secLevel_vs_protocols (theSecLevel sec) (theAuthProtocol sec) (thePrivProtocol sec);
      if rc =? 1 then Ret (st, inl SNMPERR_USM_UNSUPPORTEDSECURITYLEVEL)
      else
        '(_, boots_uint, time_uint, c) ← get_enginetime (clocks st) (theEngineID sec) false;
        let st := with_clocks c st in
        match usm_calc_offsets globalDataLen (theSecLevel sec) (oid_len (theEngineID sec)) (len (theName sec))
                (len scopedPdu) boots_uint time_uint with
        | None => Ret (st, inl SNMPERR_USM_GENERICERROR)
        | Some o =>
            if wholeMsgLen <? theTotalLength o then Ret (st, inl SNMPERR_USM_GENERICERROR)
            else
              '(st, r) ← forward_data st sec boots_uint time_uint o scopedPdu buffer;
              match r with
              | inl code => Ret (st, inl code)
              | inr ptr =>
                  ptr ← forward_params sec boots_uint time_uint globalDataLen o ptr;
                  r ← forward_sign sec o ptr;
                  Ret (st, match r with
                           | inl code => inl code
                           | inr ptr => inr (take (Z.to_nat (theTotalLength o)) ptr)
                           end)
              end
        end
  end.
End generate.
