(* ===== verification/Session.v ===== *)
(** * Messages, sessions and reports: snmplib/snmp_api.c

    The fields of a message around its PDU, the session it comes through, the
    counters that number messages, and reports.  The order of the fields does
    not matter to the code. *)

From S2P Require Import Prelude Bytes AsnTypes AsnParse AsnBuild Pdu Oid Lcd Usm Users UsmMsg.

Definition SNMP_VERSION_1 : Z := 0.
Definition SNMP_VERSION_2c : Z := 1.
Definition SNMP_VERSION_3 : Z := 3.
Definition SNMP_SEC_MODEL_SNMPv1 : Z := 1.
Definition SNMP_SEC_MODEL_SNMPv2c : Z := 2.
Definition SNMP_SEC_MODEL_USM : Z := 3.
Definition SNMP_MSG_FLAG_AUTH_BIT : Z := 0x01.
Definition SNMP_MSG_FLAG_PRIV_BIT : Z := 0x02.

Definition SNMPERR_BAD_VERSION : Z := -14.
Definition SNMPERR_BAD_CONTEXT : Z := -17.
Definition SNMPERR_UNKNOWN_SEC_MODEL : Z := -30.
Definition SNMPERR_INVALID_MSG : Z := -31.
Definition SNMPERR_UNKNOWN_ENG_ID : Z := -32.
Definition SNMPERR_UNKNOWN_USER_NAME : Z := -33.
Definition SNMPERR_UNSUPPORTED_SEC_LEVEL : Z := -34.
Definition SNMPERR_AUTHENTICATION_FAILURE : Z := -35.
Definition SNMPERR_NOT_IN_TIME_WINDOW : Z := -36.
Definition SNMPERR_DECRYPTION_ERR : Z := -37.
Definition SNMPERR_UNKNOWN_REPORT : Z := -41.

(** ** Data *)

(** [netsnmp_pdu]: [m_body] holds the fields of the PDU proper, the
    transport's are left out.  A string with its length is a list; a NULL
    [contextName] or [securityName] is [None]. *)
Record netsnmp_pdu : Type := {
  m_body : snmp_pdu;
  m_version : Z;
  m_msgid : Z;
  m_transid : Z;
  m_community : list Z;
  m_securityModel : Z;
  m_securityLevel : Z;
  m_contextEngineID : list Z;
  m_contextName : option (list Z);
  m_securityEngineID : list Z;
  m_securityName : option (list Z);
  m_securityStateRef : option usmStateReference
}.

(** [netsnmp_session], as far as messages depend on it; [s_callback] tells
    whether there is one.  [s_errno] is set to zero only. *)
Record netsnmp_session : Type := {
  s_snmp_errno : Z;
  s_version : Z;
  s_community : list Z;
  s_rcvMsgMaxSize : Z;
  s_sndMsgMaxSize : Z;
  s_contextEngineID : list Z;
  s_contextName : option (list Z);
  s_securityEngineID : list Z;
  s_securityName : option (list Z);
  s_securityModel : Z;
  s_securityLevel : Z;
  s_isAuthoritative : authoritative;
  s_callback : bool
}.

(** Assignments to a field. *)
Definition with_m_body (x : snmp_pdu) (pdu : netsnmp_pdu) : netsnmp_pdu := {|
  m_body := x; m_version := m_version pdu; m_msgid := m_msgid pdu; m_transid := m_transid pdu;
  m_community := m_community pdu; m_securityModel := m_securityModel pdu;
  m_securityLevel := m_securityLevel pdu; m_contextEngineID := m_contextEngineID pdu;
  m_contextName := m_contextName pdu; m_securityEngineID := m_securityEngineID pdu;
  m_securityName := m_securityName pdu; m_securityStateRef := m_securityStateRef pdu |}.
Definition with_m_version (x : Z) (pdu : netsnmp_pdu) : netsnmp_pdu := {|
  m_body := m_body pdu; m_version := x; m_msgid := m_msgid pdu; m_transid := m_transid pdu;
  m_community := m_community pdu; m_securityModel := m_securityModel pdu;
  m_securityLevel := m_securityLevel pdu; m_contextEngineID := m_contextEngineID pdu;
  m_contextName := m_contextName pdu; m_securityEngineID := m_securityEngineID pdu;
  m_securityName := m_securityName pdu; m_securityStateRef := m_securityStateRef pdu |}.
Definition with_m_msgid (x : Z) (pdu : netsnmp_pdu) : netsnmp_pdu := {|
  m_body := m_body pdu; m_version := m_version pdu; m_msgid := x; m_transid := m_transid pdu;
  m_community := m_community pdu; m_securityModel := m_securityModel pdu;
  m_securityLevel := m_securityLevel pdu; m_contextEngineID := m_contextEngineID pdu;
  m_contextName := m_contextName pdu; m_securityEngineID := m_securityEngineID pdu;
  m_securityName := m_securityName pdu; m_securityStateRef := m_securityStateRef pdu |}.
Definition with_m_transid (x : Z) (pdu : netsnmp_pdu) : netsnmp_pdu := {|
  m_body := m_body pdu; m_version := m_version pdu; m_msgid := m_msgid pdu; m_transid := x;
  m_community := m_community pdu; m_securityModel := m_securityModel pdu;
  m_securityLevel := m_securityLevel pdu; m_contextEngineID := m_contextEngineID pdu;
  m_contextName := m_contextName pdu; m_securityEngineID := m_securityEngineID pdu;
  m_securityName := m_securityName pdu; m_securityStateRef := m_securityStateRef pdu |}.
Definition with_m_community (x : list Z) (pdu : netsnmp_pdu) : netsnmp_pdu := {|
  m_body := m_body pdu; m_version := m_version pdu; m_msgid := m_msgid pdu; m_transid := m_transid pdu;
  m_community := x; m_securityModel := m_securityModel pdu; m_securityLevel := m_securityLevel pdu;
  m_contextEngineID := m_contextEngineID pdu; m_contextName := m_contextName pdu;
  m_securityEngineID := m_securityEngineID pdu; m_securityName := m_securityName pdu;
  m_securityStateRef := m_securityStateRef pdu |}.
Definition with_m_securityModel (x : Z) (pdu : netsnmp_pdu) : netsnmp_pdu := {|
  m_body := m_body pdu; m_version := m_version pdu; m_msgid := m_msgid pdu; m_transid := m_transid pdu;
  m_community := m_community pdu; m_securityModel := x; m_securityLevel := m_securityLevel pdu;
  m_contextEngineID := m_contextEngineID pdu; m_contextName := m_contextName pdu;
  m_securityEngineID := m_securityEngineID pdu; m_securityName := m_securityName pdu;
  m_securityStateRef := m_securityStateRef pdu |}.
Definition with_m_securityLevel (x : Z) (pdu : netsnmp_pdu) : netsnmp_pdu := {|
  m_body := m_body pdu; m_version := m_version pdu; m_msgid := m_msgid pdu; m_transid := m_transid pdu;
  m_community := m_community pdu; m_securityModel := m_securityModel pdu; m_securityLevel := x;
  m_contextEngineID := m_contextEngineID pdu; m_contextName := m_contextName pdu;
  m_securityEngineID := m_securityEngineID pdu; m_securityName := m_securityName pdu;
  m_securityStateRef := m_securityStateRef pdu |}.
Definition with_m_contextEngineID (x : list Z) (pdu : netsnmp_pdu) : netsnmp_pdu := {|
  m_body := m_body pdu; m_version := m_version pdu; m_msgid := m_msgid pdu; m_transid := m_transid pdu;
  m_community := m_community pdu; m_securityModel := m_securityModel pdu;
  m_securityLevel := m_securityLevel pdu; m_contextEngineID := x; m_contextName := m_contextName pdu;
  m_securityEngineID := m_securityEngineID pdu; m_securityName := m_securityName pdu;
  m_securityStateRef := m_securityStateRef pdu |}.
Definition with_m_contextName (x : option (list Z)) (pdu : netsnmp_pdu) : netsnmp_pdu := {|
  m_body := m_body pdu; m_version := m_version pdu; m_msgid := m_msgid pdu; m_transid := m_transid pdu;
  m_community := m_community pdu; m_securityModel := m_securityModel pdu;
  m_securityLevel := m_securityLevel pdu; m_contextEngineID := m_contextEngineID pdu; m_contextName := x;
  m_securityEngineID := m_securityEngineID pdu; m_securityName := m_securityName pdu;
  m_securityStateRef := m_securityStateRef pdu |}.
Definition with_m_securityEngineID (x : list Z) (pdu : netsnmp_pdu) : netsnmp_pdu := {|
  m_body := m_body pdu; m_version := m_version pdu; m_msgid := m_msgid pdu; m_transid := m_transid pdu;
  m_community := m_community pdu; m_securityModel := m_securityModel pdu;
  m_securityLevel := m_securityLevel pdu; m_contextEngineID := m_contextEngineID pdu;
  m_contextName := m_contextName pdu; m_securityEngineID := x; m_securityName := m_securityName pdu;
  m_securityStateRef := m_securityStateRef pdu |}.
Definition with_m_securityName (x : option (list Z)) (pdu : netsnmp_pdu) : netsnmp_pdu := {|
  m_body := m_body pdu; m_version := m_version pdu; m_msgid := m_msgid pdu; m_transid := m_transid pdu;
  m_community := m_community pdu; m_securityModel := m_securityModel pdu;
  m_securityLevel := m_securityLevel pdu; m_contextEngineID := m_contextEngineID pdu;
  m_contextName := m_contextName pdu; m_securityEngineID := m_securityEngineID pdu; m_securityName := x;
  m_securityStateRef := m_securityStateRef pdu |}.
Definition with_m_securityStateRef (x : option usmStateReference) (pdu : netsnmp_pdu) : netsnmp_pdu := {|
  m_body := m_body pdu; m_version := m_version pdu; m_msgid := m_msgid pdu; m_transid := m_transid pdu;
  m_community := m_community pdu; m_securityModel := m_securityModel pdu;
  m_securityLevel := m_securityLevel pdu; m_contextEngineID := m_contextEngineID pdu;
  m_contextName := m_contextName pdu; m_securityEngineID := m_securityEngineID pdu;
  m_securityName := m_securityName pdu; m_securityStateRef := x |}.
Definition with_s_snmp_errno (x : Z) (session : netsnmp_session) : netsnmp_session := {|
  s_snmp_errno := x; s_version := s_version session; s_community := s_community session;
  s_rcvMsgMaxSize := s_rcvMsgMaxSize session; s_sndMsgMaxSize := s_sndMsgMaxSize session;
  s_contextEngineID := s_contextEngineID session; s_contextName := s_contextName session;
  s_securityEngineID := s_securityEngineID session; s_securityName := s_securityName session;
  s_securityModel := s_securityModel session; s_securityLevel := s_securityLevel session;
  s_isAuthoritative := s_isAuthoritative session;
  s_callback := s_callback session |}.
Definition with_s_sndMsgMaxSize (x : Z) (session : netsnmp_session) : netsnmp_session := {|
  s_snmp_errno := s_snmp_errno session; s_version := s_version session; s_community := s_community session;
  s_rcvMsgMaxSize := s_rcvMsgMaxSize session; s_sndMsgMaxSize := x;
  s_contextEngineID := s_contextEngineID session; s_contextName := s_contextName session;
  s_securityEngineID := s_securityEngineID session; s_securityName := s_securityName session;
  s_securityModel := s_securityModel session; s_securityLevel := s_securityLevel session;
  s_isAuthoritative := s_isAuthoritative session;
  s_callback := s_callback session |}.
Definition with_s_securityName (x : option (list Z)) (session : netsnmp_session) : netsnmp_session := {|
  s_snmp_errno := s_snmp_errno session; s_version := s_version session; s_community := s_community session;
  s_rcvMsgMaxSize := s_rcvMsgMaxSize session; s_sndMsgMaxSize := s_sndMsgMaxSize session;
  s_contextEngineID := s_contextEngineID session; s_contextName := s_contextName session;
  s_securityEngineID := s_securityEngineID session; s_securityName := x;
  s_securityModel := s_securityModel session; s_securityLevel := s_securityLevel session;
  s_isAuthoritative := s_isAuthoritative session;
  s_callback := s_callback session |}.
Definition with_command (x : Z) (p : snmp_pdu) : snmp_pdu := {|
  command := x; reqid := reqid p; errstat := errstat p; errindex := errindex p; time := time p;
  flags := flags p; variables := variables p; enterprise := enterprise p; trap_type := trap_type p;
  specific_type := specific_type p; agent_addr := agent_addr p |}.
Definition with_reqid (x : Z) (p : snmp_pdu) : snmp_pdu := {|
  command := command p; reqid := x; errstat := errstat p; errindex := errindex p; time := time p;
  flags := flags p; variables := variables p; enterprise := enterprise p; trap_type := trap_type p;
  specific_type := specific_type p; agent_addr := agent_addr p |}.
Definition with_errstat (x : Z) (p : snmp_pdu) : snmp_pdu := {|
  command := command p; reqid := reqid p; errstat := x; errindex := errindex p; time := time p;
  flags := flags p; variables := variables p; enterprise := enterprise p; trap_type := trap_type p;
  specific_type := specific_type p; agent_addr := agent_addr p |}.
Definition with_errindex (x : Z) (p : snmp_pdu) : snmp_pdu := {|
  command := command p; reqid := reqid p; errstat := errstat p; errindex := x; time := time p;
  flags := flags p; variables := variables p; enterprise := enterprise p; trap_type := trap_type p;
  specific_type := specific_type p; agent_addr := agent_addr p |}.
Definition with_flags (x : Z) (p : snmp_pdu) : snmp_pdu := {|
  command := command p; reqid := reqid p; errstat := errstat p; errindex := errindex p; time := time p;
  flags := x; variables := variables p; enterprise := enterprise p; trap_type := trap_type p;
  specific_type := specific_type p; agent_addr := agent_addr p |}.
Definition with_enterprise (x : list Z) (p : snmp_pdu) : snmp_pdu := {|
  command := command p; reqid := reqid p; errstat := errstat p; errindex := errindex p; time := time p;
  flags := flags p; variables := variables p; enterprise := x; trap_type := trap_type p;
  specific_type := specific_type p; agent_addr := agent_addr p |}.
Definition set_command (c : Z) (pdu : netsnmp_pdu) : netsnmp_pdu := with_m_body (with_command c (m_body pdu)) pdu.

(** What a routine does outside this library: a call of the session's callback
    for a message received, with [s_snmp_errno] as it is then, and a PDU given
    to [snmp_sess_send]. *)
Inductive event : Type :=
  | Received (s_snmp_errno : Z) (pdu : netsnmp_pdu)
  | Sent (pdu : netsnmp_pdu).

(** ** Numbers *)

(** [snmp_get_next_reqid], [snmp_get_next_msgid], [snmp_get_next_sessid] and
    [snmp_get_next_transid] differ in the static variable only: the number
    and the new content of the variable, [short] for 16-bit identifiers. *)
Definition snmp_get_next (short : bool) (last : Z) : Z * Z :=
  let retVal := s64 (1 + last) in
  let retVal := if retVal =? 0 then 2 else retVal in
  let masked := if short then Z.land retVal 0x7fff else Z.land retVal 0x7fffffff in
  if masked =? 0 then (2, 2) else (masked, retVal).

(** ** Flags and answers *)

Definition SNMP_CMD_CONFIRMED (c : Z) : bool :=
  (c =? SNMP_MSG_INFORM) || (c =? SNMP_MSG_GETBULK) || (c =? SNMP_MSG_GETNEXT) || (c =? SNMP_MSG_GET)
  || (c =? SNMP_MSG_SET).

Definition snmpv3_calc_msg_flags (sec_level msg_command : Z) : Z :=
  let flags := if sec_level =? SNMP_SEC_LEVEL_AUTHNOPRIV then SNMP_MSG_FLAG_AUTH_BIT
               else if sec_level =? SNMP_SEC_LEVEL_AUTHPRIV
               then Z.lor SNMP_MSG_FLAG_AUTH_BIT SNMP_MSG_FLAG_PRIV_BIT else 0 in
  if SNMP_CMD_CONFIRMED msg_command then Z.lor flags SNMP_MSG_FLAG_RPRT_BIT else flags.

(** A callback: one of the application's, or the one for synchronous
    requests. *)
Inductive callback : Set := Application (f : Z) | Synch_input.

(** An outstanding request; its session is left out. *)
Record netsnmp_request : Type := {
  rq_request_id : Z;
  rq_message_id : Z;
  rq_callback : option callback;
  rq_cb_data : Z;
  rq_retries : Z;
  rq_timeout : Z;
  rq_timeM : timeval;
  rq_expireM : timeval;
  rq_pdu : netsnmp_pdu
}.

(** A string and its length compared with another: the lengths, then as many
    bytes.  No bytes are looked at when both are empty or NULL. *)
Definition same_bytes (a b : list Z) : bool := (len a =? len b) && bool_decide (a = b).

Definition bytes_of (s : option (list Z)) : list Z := match s with Some l => l | None => [] end.

Definition snmpv3_verify_msg (rp : netsnmp_request) (pdu : netsnmp_pdu) : bool :=
  if command (m_body pdu) =? SNMP_MSG_REPORT then true
  else
    let rpdu := rq_pdu rp in
    (rq_request_id rp =? reqid (m_body pdu)) && (reqid (m_body rpdu) =? reqid (m_body pdu))
    && (m_version rpdu =? m_version pdu)
    && (m_securityModel rpdu =? m_securityModel pdu)
    && (m_securityLevel rpdu =? m_securityLevel pdu)
    && same_bytes (m_contextEngineID rpdu) (m_contextEngineID pdu)
    && same_bytes (bytes_of (m_contextName rpdu)) (bytes_of (m_contextName pdu))
    && (negb (m_securityModel pdu =? SNMP_SEC_MODEL_USM)
        || same_bytes (m_securityEngineID rpdu) (m_securityEngineID pdu))
    && same_bytes (bytes_of (m_securityName rpdu)) (bytes_of (m_securityName pdu)).

(** ** Reports *)

Definition STAT_USMSTATSUNSUPPORTEDSECLEVELS : Z := 3.
Definition STAT_USMSTATSNOTINTIMEWINDOWS : Z := 4.
Definition STAT_USMSTATSUNKNOWNUSERNAMES : Z := 5.
Definition STAT_USMSTATSUNKNOWNENGINEIDS : Z := 6.
Definition STAT_USMSTATSWRONGDIGESTS : Z := 7.
Definition STAT_USMSTATSDECRYPTIONERRORS : Z := 8.

Definition unknownSecurityLevel : list Z := [1; 3; 6; 1; 6; 3; 15; 1; 1; 1; 0].
Definition notInTimeWindow : list Z := [1; 3; 6; 1; 6; 3; 15; 1; 1; 2; 0].
Definition unknownUserName : list Z := [1; 3; 6; 1; 6; 3; 15; 1; 1; 3; 0].
Definition unknownEngineID : list Z := [1; 3; 6; 1; 6; 3; 15; 1; 1; 4; 0].
Definition wrongDigest : list Z := [1; 3; 6; 1; 6; 3; 15; 1; 1; 5; 0].
Definition decryptionError : list Z := [1; 3; 6; 1; 6; 3; 15; 1; 1; 6; 0].

(** The [switch] on the error: the counter and its name. *)
Definition report_of (error : Z) : option (Z * list Z) :=
  if error =? SNMPERR_USM_UNKNOWNENGINEID then Some (STAT_USMSTATSUNKNOWNENGINEIDS, unknownEngineID)
  else if error =? SNMPERR_USM_UNKNOWNSECURITYNAME then Some (STAT_USMSTATSUNKNOWNUSERNAMES, unknownUserName)
  else if error =? SNMPERR_USM_UNSUPPORTEDSECURITYLEVEL
  then Some (STAT_USMSTATSUNSUPPORTEDSECLEVELS, unknownSecurityLevel)
  else if error =? SNMPERR_USM_AUTHENTICATIONFAILURE then Some (STAT_USMSTATSWRONGDIGESTS, wrongDigest)
  else if error =? SNMPERR_USM_NOTINTIMEWINDOW then Some (STAT_USMSTATSNOTINTIMEWINDOWS, notInTimeWindow)
  else if error =? SNMPERR_USM_DECRYPTIONERROR then Some (STAT_USMSTATSDECRYPTIONERRORS, decryptionError)
  else None.

(** What [snmp_pdu_add_variable] makes of a [long] that is a counter. *)
Definition counter_variable (oid : list Z) (v : Z) : variable_list :=
  {| name := oid; type := ASN_COUNTER; val := Some (le_bytes 8 (if 0xffffffff <? v then Z.land v 0xffffffff else v));
     val_len := sizeof_long |}.

(** The identifier a report carries: the copy of the local one, empty when
    there is none. *)
Definition report_engineID (s : lcd) : list Z :=
  let engineIDLength := match engineID s with Some id => len id | None => 0 end in
  (snmpv3_get_engineID s engineIDLength).2.

(** [get_statistic] gives the content of a statistics counter.  The state
    reference is freed.  The allocations are taken to succeed. *)
Definition snmpv3_make_report (s : lcd) (get_statistic : Z -> Z) (pdu : netsnmp_pdu) (error : Z)
    : Z * netsnmp_pdu :=
  match report_of error with
  | None => (SNMPERR_GENERR, pdu)
  | Some (stat_ind, err_var) =>
      let p := m_body pdu in
      let ltmp := get_statistic stat_ind in
      (SNMPERR_SUCCESS,
       {| m_body :=
            {| command := SNMP_MSG_REPORT; reqid := reqid p; errstat := 0; errindex := 0; time := time p;
               flags := flags p; variables := [counter_variable err_var ltmp]; enterprise := enterprise p;
               trap_type := trap_type p; specific_type := specific_type p; agent_addr := agent_addr p |};
          m_version := m_version pdu; m_msgid := m_msgid pdu; m_transid := m_transid pdu;
          m_community := m_community pdu; m_securityModel := m_securityModel pdu;
          m_securityLevel := if error =? SNMPERR_USM_NOTINTIMEWINDOW then SNMP_SEC_LEVEL_AUTHNOPRIV
                             else SNMP_SEC_LEVEL_NOAUTH;
          m_contextEngineID := report_engineID s; m_contextName := Some [];
          m_securityEngineID := report_engineID s; m_securityName := m_securityName pdu;
          m_securityStateRef := None |})
  end.

Definition REPORT_STATS_LEN : nat := 9.
Definition REPORT_STATS_LEN2 : nat := 8.

Definition snmpMPDStats : list Z := [1; 3; 6; 1; 6; 3; 11; 2; 1].
Definition targetStats : list Z := [1; 3; 6; 1; 6; 3; 12; 1].
Definition usmStats : list Z := [1; 3; 6; 1; 6; 3; 15; 1; 1].

(** The three [switch]es on the subidentifier after the prefix. *)
Definition mpd_report (n : Z) : Z :=
  if n =? 1 then SNMPERR_UNKNOWN_SEC_MODEL else if n =? 2 then SNMPERR_INVALID_MSG
  else if n =? 3 then SNMPERR_BAD_VERSION else SNMPERR_UNKNOWN_REPORT.

Definition usm_report (n : Z) : Z :=
  if n =? 1 then SNMPERR_UNSUPPORTED_SEC_LEVEL else if n =? 2 then SNMPERR_NOT_IN_TIME_WINDOW
  else if n =? 3 then SNMPERR_UNKNOWN_USER_NAME else if n =? 4 then SNMPERR_UNKNOWN_ENG_ID
  else if n =? 5 then SNMPERR_AUTHENTICATION_FAILURE else if n =? 6 then SNMPERR_DECRYPTION_ERR
  else SNMPERR_UNKNOWN_REPORT.

Definition target_report (n : Z) : Z :=
  if (n =? 4) || (n =? 5) then SNMPERR_BAD_CONTEXT else SNMPERR_UNKNOWN_REPORT.

Definition snmpv3_get_report_type (pdu : netsnmp_pdu) : Z :=
  match variables (m_body pdu) with
  | [] => SNMPERR_UNKNOWN_REPORT
  | vp :: _ =>
      let vp := name vp in
      if (length vp =? REPORT_STATS_LEN + 2)%nat then
        if bool_decide (take REPORT_STATS_LEN vp = snmpMPDStats) then mpd_report (vp !!! REPORT_STATS_LEN)
        else if bool_decide (take REPORT_STATS_LEN vp = usmStats) then usm_report (vp !!! REPORT_STATS_LEN)
        else SNMPERR_UNKNOWN_REPORT
      else if (length vp =? REPORT_STATS_LEN2 + 2)%nat then
        if bool_decide (take REPORT_STATS_LEN2 vp = targetStats) then target_report (vp !!! REPORT_STATS_LEN2)
        else SNMPERR_UNKNOWN_REPORT
      else SNMPERR_UNKNOWN_REPORT
  end.
