(* ===== verification/Secmod.v ===== *)
(** * Security models: snmplib/snmp_secmod.c

    The interface between the message layer and a security model, the list of
    the registered models, and the user-based one as an instance. *)

From S2P Require Import Prelude Bytes AsnTypes AsnParse AsnRbuild Pdu Oid Vacm Lcd Usm Scapi Users UsmMsg UsmForward Enum Session.

(** ** The interface *)

(** What a model gets to make a message; [wholeMsg] is passed beside it. *)
Record outgoing_params : Type := {
  globalData : list Z;
  o_secEngineID : option (list Z);
  o_secName : list Z;
  o_secLevel : Z;
  o_scopedPdu : list Z;
  o_secStateRef : option usmStateReference
}.

(** What it gets to take one.  The message lies in [wholeMsg] from offset 0,
    its address is [wholeMsg_addr]; [secEngineIDLen], [secNameLen] and
    [scopedPduLen] are the rooms of the places for the results; a state
    reference is asked for. *)
Record incoming_params : Type := {
  i_maxMsgSize : Z;
  i_secParams : Z;
  i_secModel : Z;
  i_secLevel : Z;
  i_wholeMsg : mem;
  i_wholeMsg_addr : Z;
  i_wholeMsgLen : Z;
  i_secEngineIDLen : Z;
  i_secNameLen : Z;
  i_scopedPduLen : Z;
  i_isAuthoritative : authoritative;
  i_msg_flags : Z
}.

(** What is in these places afterwards.  [d_names]: the engine identifier and
    the name; after a parameter string that could not be parsed nothing is
    said of them.  [d_scopedPdu]: the memory and the place in it [*scopedPdu]
    points to, and its length; [None] is the caller's buffer, untouched. *)
Record decoded : Type := {
  d_result : Z;
  d_names : option (list Z * list Z);
  d_scopedPdu : option (mem * Z * Z);
  d_secStateRef : option usmStateReference
}.

(** A model whose state is of type [St].  [encode_forward] gets the memory
    that starts with [globalData], and how much of it there is said to be.
    [handle_report] gets the contents of
    the statistics counters, the session, the error and the message;
    [frees_state_ref] tells whether there is a [pdu_free_state_ref].  The
    callbacks for sessions, PDUs and probes are left out. *)
Record snmp_secmod_def (St : Type) : Type := {
  encode_reverse : option (St -> outgoing_params -> rbuf -> outcome (St * (Z + rbuf)));
  encode_forward : option (St -> outgoing_params -> mem -> Z -> outcome (St * (Z + list Z)));
  decode : option (St -> incoming_params -> outcome (St * decoded));
  handle_report : option (St -> (Z -> Z) -> netsnmp_session -> Z -> netsnmp_pdu -> netsnmp_pdu * list event);
  frees_state_ref : bool
}.
Arguments encode_reverse {St}.
Arguments encode_forward {St}.
Arguments decode {St}.
Arguments handle_report {St}.
Arguments frees_state_ref {St}.

(** ** The list of models *)

Section services.
Context {St : Type}.

Record snmp_secmod_list : Type := { securityModel : Z; secDef : snmp_secmod_def St }.

(** [registered_services], and the enumerations the names go to. *)
Record services : Type := { registered_services : list snmp_secmod_list; enumerations : enums }.

Definition sizeof_secmod_list : Z := 24.

(** "snmp_secmods" *)
Definition snmp_secmods : list Z :=
  [115; 110; 109; 112; 95; 115; 101; 99; 109; 111; 100; 115].

Definition find_sec_mod (secmod : Z) (s : services) : option (snmp_secmod_def St) :=
  secDef <$> head (filter (fun sptr => securityModel sptr = secmod) (registered_services s)).

(** The new model is in the list even when its name is refused. *)
Definition register_sec_mod `{Allocator} (secmod : Z) (modname : list Z) (newdef : snmp_secmod_def St)
    (s : services) : Z * services :=
  if existsb (fun sptr => securityModel sptr =? secmod) (registered_services s) then (SNMPERR_GENERR, s)
  else if negb (alloc sizeof_secmod_list) then (SNMPERR_MALLOC, s)
  else
    let services := {| securityModel := secmod; secDef := newdef |} :: registered_services s in
    let '(result, e) := se_add_pair_to_slist snmp_secmods modname secmod (enumerations s) in
    (if negb (result =? SE_OK) then SNMPERR_GENERR else SNMPERR_SUCCESS,
     {| registered_services := services; enumerations := e |}).

Fixpoint drop_sec_mod (secmod : Z) (l : list snmp_secmod_list) : option (list snmp_secmod_list) :=
  match l with
  | [] => None
  | sptr :: l => if securityModel sptr =? secmod then Some l else cons sptr <$> drop_sec_mod secmod l
  end.

Definition unregister_sec_mod (secmod : Z) (s : services) : Z * services :=
  match drop_sec_mod secmod (registered_services s) with
  | Some l => (SNMPERR_SUCCESS, {| registered_services := l; enumerations := enumerations s |})
  | None => (SNMPERR_GENERR, s)
  end.

Definition clear_sec_mod (s : services) : services :=
  {| registered_services := []; enumerations := enumerations s |}.

(** The model a session without one gets, by the name in the configuration
    if there is one; the result and the model. *)
Definition SNMP_DEFAULT_SECMODEL : Z := -1.
Definition USM_SEC_MODEL_NUMBER : Z := 3.

Definition set_default_secmod (configured : option (list Z)) (sess_securityModel : Z) (s : services) : Z * Z :=
  if sess_securityModel =? SNMP_DEFAULT_SECMODEL then
    match configured with
    | Some cptr =>
        let model := se_find_value_in_slist snmp_secmods cptr (enumerations s) in
        if negb (model =? SE_DNE) then (SNMPERR_SUCCESS, model) else (SNMPERR_GENERR, USM_SEC_MODEL_NUMBER)
    | None => (SNMPERR_SUCCESS, USM_SEC_MODEL_NUMBER)
    end
  else (SNMPERR_SUCCESS, sess_securityModel).
End services.
Arguments snmp_secmod_list : clear implicits.
Arguments services : clear implicits.

(** ** The user-based security model *)

Section usm.
Context `{Platform, Allocator, Crypto}.

Definition usm_secmod_rgenerate_out_msg (st : usm) (p : outgoing_params) (wholeMsg : rbuf)
    : outcome (usm * (Z + rbuf)) :=
  usm_rgenerate_out_msg st (globalData p) (o_secEngineID p) (o_secName p) (o_secLevel p) (o_scopedPdu p)
    (o_secStateRef p) wholeMsg.

Definition usm_secmod_generate_out_msg (st : usm) (p : outgoing_params) (buffer : mem) (wholeMsgLen : Z)
    : outcome (usm * (Z + list Z)) :=
  usm_generate_out_msg st buffer (len (globalData p)) (o_secEngineID p) (o_secName p) (o_secLevel p)
    (o_scopedPdu p) (o_secStateRef p) wholeMsgLen.

(** The PDU in the caller's buffer, which was zero. *)
Definition place (room : Z) (q : usm_params) (pdu : spdu) : mem * Z * Z :=
  match pdu with
  | InMessage p n => (p_msg q, p, n)
  | Decrypted l => (l ++ replicate (Z.to_nat (room - len l)) 0, 0, len l)
  end.

(** The parameters that were seen place a PDU that is not encrypted. *)
Definition seen_place (p : incoming_params) (q : usm_params) : option (mem * Z * Z) :=
  if negb (i_secLevel p =? SNMP_SEC_LEVEL_AUTHPRIV)
  then Some (p_msg q, p_data_ptr q, u64 (i_wholeMsgLen p - p_data_ptr q)) else None.

Definition usm_secmod_process_in_msg (st : usm) (p : incoming_params) : outcome (usm * decoded) :=
  '(st, ref, r) ← usm_process_in_msg st (i_maxMsgSize p) (i_wholeMsg p) (i_wholeMsg_addr p) (i_secParams p)
                    (i_secLevel p) (i_wholeMsgLen p) true (Some (i_isAuthoritative p)) (i_msg_flags p)
                    (i_secEngineIDLen p) (i_secNameLen p) (i_scopedPduLen p);
  Ret (st, match r with
           | inl e =>
               {| d_result := rval e; d_names := (fun q => (p_secEngineID q, p_secName q)) <$> seen e;
                  d_scopedPdu := seen e ≫= seen_place p; d_secStateRef := ref |}
           | inr res =>
               {| d_result := SNMPERR_SUCCESS;
                  d_names := Some (p_secEngineID (r_params res), p_secName (r_params res));
                  d_scopedPdu := Some (place (i_scopedPduLen p) (r_params res) (r_scopedPdu res));
                  d_secStateRef := ref |}
           end).

(** The errors that are answered. *)
Definition is_reportable (result : Z) : bool :=
  (result =? SNMPERR_USM_AUTHENTICATIONFAILURE) || (result =? SNMPERR_USM_UNKNOWNENGINEID)
  || (result =? SNMPERR_USM_UNKNOWNSECURITYNAME) || (result =? SNMPERR_USM_UNSUPPORTEDSECURITYLEVEL)
  || (result =? SNMPERR_USM_NOTINTIMEWINDOW) || (result =? SNMPERR_USM_DECRYPTIONERROR).

(** A message that wants an answer gets a report. *)
Definition usm_handle_report (st : usm) (get_statistic : Z -> Z) (session : netsnmp_session) (result : Z)
    (pdu : netsnmp_pdu) : netsnmp_pdu * list event :=
  let pdu := with_m_securityStateRef None pdu in
  let received := if (result =? SNMPERR_USM_AUTHENTICATIONFAILURE) && s_callback session
                  then [Received result pdu] else [] in
  let sent := if is_reportable result
                 && (SNMP_CMD_CONFIRMED (command (m_body pdu))
                     || ((command (m_body pdu) =? 0)
                         && negb (Z.land (flags (m_body pdu)) SNMP_MSG_FLAG_RPRT_BIT =? 0)))
              then [Sent (snmpv3_make_report (clocks st) get_statistic pdu result).2] else [] in
  (pdu, received ++ sent).

(** The definition [init_usm] registers. *)
Definition usm_secmod_def : snmp_secmod_def usm := {|
  encode_reverse := Some usm_secmod_rgenerate_out_msg;
  encode_forward := Some usm_secmod_generate_out_msg;
  decode := Some usm_secmod_process_in_msg;
  handle_report := Some usm_handle_report;
  frees_state_ref := true
|}.
End usm.
