(* ===== verification/Message.v ===== *)
(** * Whole messages: building and parsing in snmplib/snmp_api.c

    [snmp_build] makes the packet of a PDU and [snmp_parse] takes one apart,
    both for the community-based versions, whose header is read and written in
    snmplib/snmp_auth.c, and for version 3, where a security model does part
    of the work. *)

From S2P Require Import Prelude Bytes AsnTypes AsnParse AsnBuild AsnRbuild VarOp Pdu Oid Vacm Lcd Usm Scapi Users UsmMsg UsmForward Enum Session Secmod.

Definition SNMPERR_V2_IN_V1 : Z := -7.
Definition SNMPERR_V1_IN_V2 : Z := -8.
Definition SNMPERR_BAD_REPEATERS : Z := -9.
Definition SNMPERR_BAD_REPETITIONS : Z := -10.
Definition SNMPERR_BAD_ASN1_BUILD : Z := -11.
Definition SNMPERR_BAD_PARSE : Z := -13.
Definition SNMPERR_UNKNOWN_PDU : Z := -23.
Definition SNMPERR_BAD_SEC_NAME : Z := -27.
Definition SNMPERR_BAD_SEC_LEVEL : Z := -28.
Definition SNMPERR_ASN_PARSE_ERR : Z := -29.
Definition SNMPERR_JUST_A_CONTEXT_PROBE : Z := -66.

Definition SNMP_DEFAULT_ERRSTAT : Z := -1.
Definition SNMP_DEFAULT_ERRINDEX : Z := -1.
Definition SNMP_DEFAULT_VERSION : Z := -1.
Definition SNMP_SEC_MODEL_TSM : Z := 4.
Definition UCD_MSG_FLAG_EXPECT_RESPONSE : Z := 0x200.

Definition SNMP_MAX_MSG_SIZE : Z := 1472.
Definition SNMP_MAX_MSG_V3_HDRS : Z := 4 + 3 + 4 + 7 + 7 + 3 + 7 + 16.
Definition SNMP_MAX_SEC_NAME_SIZE : Z := 256.
Definition SNMP_MAX_CONTEXT_SIZE : Z := 256.
Definition COMMUNITY_MAX_LEN : Z := 256.

Definition default_enterprise : list Z := [1; 3; 6; 1; 4; 1; 3; 1; 1].

(** [if (call failed) return d;] *)
Definition on_null {A B} (r : outcome A) (d : B) (k : A -> outcome B) : outcome B :=
  match r with
  | Ret a => k a
  | Null => Ret d
  | Overrun => Overrun
  | Spin => Spin
  end.

(** The settings of the library: the flags of the default store, the name of
    a default security model there, and the security models. *)
Record library `{Platform, Allocator, Crypto} : Type := {
  reverse_encode : bool;
  no_discovery : bool;
  short_ids : bool;
  lib_secmod : option (list Z);
  secmods : services usm
}.

(** The packet: in front of the end of a buffer, or from its start. *)
Inductive packet : Type := Backward (s : rbuf) | Forward (l : list Z).

Section build.
Context `{Platform, Allocator, Crypto} (lib : library).
(** [hole] and [fuel64]: see [snmp_build_var_op] and
    [asn_realloc_rbuild_signed_int64]. *)
Context (hole : list Z) (fuel64 : nat).

(** ** Checks and defaults *)

Definition default_status (p : snmp_pdu) : snmp_pdu :=
  with_errindex (if errindex p =? SNMP_DEFAULT_ERRINDEX then 0 else errindex p)
    (with_errstat (if errstat p =? SNMP_DEFAULT_ERRSTAT then 0 else errstat p) p).

(** The case of GETBULK: [max_repetitions] is [errindex], [non_repeaters]
    is [errstat]. *)
Definition check_bulk (p : snmp_pdu) : Z + snmp_pdu :=
  if errindex p <? 0 then inl SNMPERR_BAD_REPETITIONS
  else if errstat p <? 0 then inl SNMPERR_BAD_REPEATERS
  else inr p.

(** The [switch] of [snmpv3_build]. *)
Definition check_v3_command (p : snmp_pdu) : Z + snmp_pdu :=
  let c := command p in
  if (c =? SNMP_MSG_RESPONSE) || (c =? SNMP_MSG_TRAP2) || (c =? SNMP_MSG_REPORT) || (c =? SNMP_MSG_GET)
     || (c =? SNMP_MSG_GETNEXT) || (c =? SNMP_MSG_SET) || (c =? SNMP_MSG_INFORM) then inr (default_status p)
  else if c =? SNMP_MSG_GETBULK then check_bulk p
  else if c =? SNMP_MSG_TRAP then inl SNMPERR_V1_IN_V2
  else inl SNMPERR_UNKNOWN_PDU.

(** The case of a trap of version 1; [time] is set to its default 0 when it
    is 0. *)
Definition default_trap (p : snmp_pdu) : Z + snmp_pdu :=
  let p := with_reqid 1 p in
  if (len (enterprise p) =? 0) && negb (alloc (len default_enterprise * sizeof_oid)) then inl SNMPERR_MALLOC
  else
    let p := if len (enterprise p) =? 0 then with_enterprise default_enterprise p else p in
    inr (with_flags (Z.land (flags p) (Z.lnot UCD_MSG_FLAG_EXPECT_RESPONSE)) p).

(** The [switch] of [_snmp_build]. *)
Definition check_command (version : Z) (p : snmp_pdu) : Z + snmp_pdu :=
  let c := command p in
  if (c =? SNMP_MSG_RESPONSE) || (c =? SNMP_MSG_GET) || (c =? SNMP_MSG_GETNEXT) || (c =? SNMP_MSG_SET)
  then inr (default_status p)
  else if (c =? SNMP_MSG_TRAP2) || (c =? SNMP_MSG_INFORM) then
    if version =? SNMP_VERSION_1 then inl SNMPERR_V2_IN_V1 else inr (default_status p)
  else if c =? SNMP_MSG_GETBULK then
    if version =? SNMP_VERSION_1 then inl SNMPERR_V2_IN_V1 else check_bulk p
  else if c =? SNMP_MSG_TRAP then
    if negb (version =? SNMP_VERSION_1) then inl SNMPERR_V1_IN_V2 else default_trap p
  else inl SNMPERR_UNKNOWN_PDU.

(** Empty when the allocation fails. *)
Definition snmpv3_clone_engineID (src : list Z) : list Z :=
  if negb (len src =? 0) && alloc (len src) then src else [].

(** [strdup] *)
Definition strdup (s : list Z) : option (list Z) :=
  if alloc (len (c_string s) + 1) then Some (c_string s) else None.

(** The engine identifiers the message lacks. *)
Definition default_engines (session : netsnmp_session) (pdu : netsnmp_pdu) : netsnmp_pdu :=
  let pdu := if (len (m_securityEngineID pdu) =? 0) && negb (len (s_securityEngineID session) =? 0)
             then with_m_securityEngineID (snmpv3_clone_engineID (s_securityEngineID session)) pdu else pdu in
  if len (m_contextEngineID pdu) =? 0 then
    if negb (len (s_contextEngineID session) =? 0)
    then with_m_contextEngineID (snmpv3_clone_engineID (s_contextEngineID session)) pdu
    else if negb (len (m_securityEngineID pdu) =? 0)
    then with_m_contextEngineID (snmpv3_clone_engineID (m_securityEngineID pdu)) pdu
    else pdu
  else pdu.

(** [strdup] copies up to the first NUL and the length is copied besides: a
    shorter string is followed by what [malloc] gave, which is not modelled. *)
Definition default_context (session : netsnmp_session) (pdu : netsnmp_pdu) : Z + netsnmp_pdu :=
  match m_contextName pdu with
  | Some _ => inr pdu
  | None =>
      match s_contextName session with
      | None => inl SNMPERR_BAD_CONTEXT
      | Some n => match strdup n with
                  | None => inl SNMPERR_GENERR
                  | Some n => inr (with_m_contextName (Some n) pdu)
                  end
      end
  end.

(** [strcmp] with the missing name of a default model leaves the memory. *)
Definition default_model (session : netsnmp_session) (pdu : netsnmp_pdu) : outcome netsnmp_pdu :=
  if m_securityModel pdu =? SNMP_DEFAULT_SECMODEL then
    if s_securityModel session =? SNMP_DEFAULT_SECMODEL then
      model ← (match lib_secmod lib, se_find_slist snmp_secmods (enumerations (secmods lib)) with
               | Some cptr, l => Ret (se_find_value_in_list l cptr)
               | None, [] => Ret SE_DNE
               | None, _ => Overrun
               end);
      Ret (with_m_securityModel (if model <=? 0 then SNMP_SEC_MODEL_USM else model) pdu)
    else Ret (with_m_securityModel (s_securityModel session) pdu)
  else Ret pdu.

(** The user, of whom the session may be told that there is none. *)
Definition default_name (session : netsnmp_session) (pdu : netsnmp_pdu)
    : Z + (netsnmp_session * netsnmp_pdu) :=
  match m_securityName pdu with
  | Some _ => inr (session, pdu)
  | None =>
      if negb (s_securityModel session =? SNMP_SEC_MODEL_TSM) && (len (bytes_of (s_securityName session)) =? 0)
      then inl SNMPERR_BAD_SEC_NAME
      else
        match s_securityName session with
        | Some n => match strdup n with
                    | None => inl SNMPERR_GENERR
                    | Some n => inr (session, with_m_securityName (Some n) pdu)
                    end
        | None => inr (with_s_securityName (Some []) session, with_m_securityName (Some []) pdu)
        end
  end.

Definition default_level (session : netsnmp_session) (pdu : netsnmp_pdu) : Z + netsnmp_pdu :=
  if m_securityLevel pdu =? 0 then
    if s_securityLevel session =? 0 then inl SNMPERR_BAD_SEC_LEVEL
    else inr (with_m_securityLevel (s_securityLevel session) pdu)
  else inr pdu.

(** ** Version 3 *)

Definition snmpv3_header_realloc_rbuild (session : netsnmp_session) (pdu : netsnmp_pdu) (s : rbuf)
    : outcome rbuf :=
  let start_offset := offset s in
  s ← asn_realloc_rbuild_int true ASN_INTEGER (m_securityModel pdu) sizeof_long s;
  let msg_flags := snmpv3_calc_msg_flags (m_securityLevel pdu) (command (m_body pdu)) in
  s ← asn_realloc_rbuild_string true ASN_OCTET_STR [msg_flags] 1 s;
  s ← asn_realloc_rbuild_int true ASN_INTEGER (s_rcvMsgMaxSize session) sizeof_long s;
  s ← asn_realloc_rbuild_int true ASN_INTEGER (m_msgid pdu) sizeof_long s;
  s ← asn_realloc_rbuild_sequence true (Z.lor ASN_SEQUENCE ASN_CONSTRUCTOR) (offset s - start_offset) s;
  asn_realloc_rbuild_int true ASN_INTEGER (m_version pdu) sizeof_long s.

Definition snmpv3_scopedPDU_header_realloc_rbuild (pdu : netsnmp_pdu) (body_len : Z) (s : rbuf) : outcome rbuf :=
  let start_offset := offset s in
  s ← rbuild_octets (bytes_of (m_contextName pdu)) s;
  s ← rbuild_octets (m_contextEngineID pdu) s;
  asn_realloc_rbuild_sequence true (Z.lor ASN_SEQUENCE ASN_CONSTRUCTOR) (offset s - start_offset + body_len) s.

(** The bytes between the offset and the end of the buffer. *)
Definition behind (s : rbuf) : list Z := drop (Z.to_nat (pkt_len s - offset s)) (pkt s).

(** An engine identifier of no bytes is a NULL pointer. *)
Definition pointer (l : list Z) : option (list Z) := match l with [] => None | _ => Some l end.

(** [pdu_data]: the PDU in bytes, if there is one. *)
Definition snmpv3_packet_realloc_rbuild (st : usm) (session : netsnmp_session) (pdu : netsnmp_pdu)
    (pdu_data : option (list Z)) (s : rbuf) : outcome (usm * (Z + rbuf)) :=
  let body_end_offset := offset s in
  on_null (match pdu_data with
           | Some d => s ← rb_room true (len d) s; rb_copy d s
           | None => snmp_pdu_realloc_rbuild fuel64 (m_body pdu) s
           end) (st, inl (-1)) (fun s =>
  on_null (snmpv3_scopedPDU_header_realloc_rbuild pdu (offset s - body_end_offset) s) (st, inl (-1)) (fun s =>
  if negb (alloc SNMP_MAX_MSG_V3_HDRS) then Ret (st, inl (-1))
  else
    let hdrbuf := {| pkt := replicate (Z.to_nat SNMP_MAX_MSG_V3_HDRS) 0; offset := 0 |} in
    on_null (snmpv3_header_realloc_rbuild session pdu hdrbuf) (st, inl (-1)) (fun hdr =>
    match find_sec_mod (m_securityModel pdu) (secmods lib) with
    | Some sptr =>
        match encode_reverse sptr with
        | Some encode =>
            encode st {| globalData := behind hdr; o_secEngineID := pointer (m_securityEngineID pdu);
                         o_secName := bytes_of (m_securityName pdu); o_secLevel := m_securityLevel pdu;
                         o_scopedPdu := behind s; o_secStateRef := m_securityStateRef pdu |} s
        | None => Ret (st, inl (-1))
        end
    | None => Ret (st, inl (-1))
    end))).

Definition snmpv3_header_build (session : netsnmp_session) (pdu : netsnmp_pdu) (out_length : Z)
    : outcome (list Z * Z) :=
  let sequence out_length n := asn_build_sequence out_length (Z.lor ASN_SEQUENCE ASN_CONSTRUCTOR) n in
  '(_, out_length) ← sequence out_length 0;
  '(version, out_length) ← asn_build_int out_length ASN_INTEGER (m_version pdu) sizeof_long;
  '(_, out_length) ← sequence out_length 0;
  '(o1, out_length) ← asn_build_int out_length ASN_INTEGER (m_msgid pdu) sizeof_long;
  '(o2, out_length) ← asn_build_int out_length ASN_INTEGER (s_rcvMsgMaxSize session) sizeof_long;
  let msg_flags := snmpv3_calc_msg_flags (m_securityLevel pdu) (command (m_body pdu)) in
  '(o3, out_length) ← asn_build_string out_length ASN_OCTET_STR (Some [msg_flags]) 1;
  '(o4, out_length) ← asn_build_int out_length ASN_INTEGER (m_securityModel pdu) sizeof_long;
  let fields := o1 ++ o2 ++ o3 ++ o4 in
  '(global_hdr, out_length) ← sequence out_length (len fields);
  '(packet, out_length) ← sequence out_length (len (version ++ global_hdr ++ fields));
  Ret (packet ++ version ++ global_hdr ++ fields, out_length).

(** The header of the sequence, and what is in it. *)
Definition snmpv3_scopedPDU_header_build (pdu : netsnmp_pdu) (out_length : Z)
    : outcome (list Z * list Z * Z) :=
  '(h, out_length) ← asn_build_sequence out_length (Z.lor ASN_SEQUENCE ASN_CONSTRUCTOR) 0;
  let name := bytes_of (m_contextName pdu) in
  '(o1, out_length) ← asn_build_string out_length ASN_OCTET_STR (Some (m_contextEngineID pdu))
                        (len (m_contextEngineID pdu));
  '(o2, out_length) ← asn_build_string out_length ASN_OCTET_STR (Some name) (len name);
  Ret (h, o1 ++ o2, out_length).

(** [packet] is the buffer of the caller.  A PDU in bytes is copied behind the
    headers without looking at the room there. *)
Definition snmpv3_packet_build (st : usm) (session : netsnmp_session) (pdu : netsnmp_pdu)
    (pdu_data : option (list Z)) (packet : mem) : outcome (usm * (Z + list Z)) :=
  on_null (snmpv3_header_build session pdu (len packet)) (st, inl (-1)) (fun '(global_data, _) =>
  on_null (snmpv3_scopedPDU_header_build pdu SNMP_MAX_MSG_SIZE) (st, inl (-1)) (fun '(h, names, spdu_buf_len) =>
  on_null (match pdu_data with
           | Some d => if SNMP_MAX_MSG_SIZE <? len (h ++ names) + len d then Overrun else Ret d
           | None => '(d, _) ← snmp_pdu_build hole (m_body pdu) spdu_buf_len; Ret d
           end) (st, inl (-1)) (fun d =>
  on_null (asn_build_sequence SNMP_MAX_MSG_SIZE (Z.lor ASN_SEQUENCE ASN_CONSTRUCTOR) (len (names ++ d)))
    (st, inl (-1)) (fun '(h, _) =>
  match find_sec_mod (m_securityModel pdu) (secmods lib) with
  | Some sptr =>
      match encode_forward sptr with
      | Some encode =>
          packet ← poke 0 global_data packet;
          encode st {| globalData := global_data; o_secEngineID := pointer (m_securityEngineID pdu);
                       o_secName := bytes_of (m_securityName pdu); o_secLevel := m_securityLevel pdu;
                       o_scopedPdu := h ++ names ++ d; o_secStateRef := m_securityStateRef pdu |}
            packet SNMP_MAX_MSG_SIZE
      | None => Ret (st, inl (-1))
      end
  | None => Ret (st, inl (-1))
  end)))).

(** The state, the session, the message with its defaults filled in, and the
    return value or the packet. *)
Abbreviation building := (usm * netsnmp_session * netsnmp_pdu * (Z + packet))%type.

Definition build_error (st : usm) (session : netsnmp_session) (pdu : netsnmp_pdu) (s_errno : Z)
    : outcome building :=
  Ret (st, with_s_snmp_errno s_errno session, pdu, inl (-1)).

Definition snmpv3_build (st : usm) (session : netsnmp_session) (pdu : netsnmp_pdu) (s : rbuf) : outcome building :=
  let session := with_s_snmp_errno 0 session in
  match check_v3_command (m_body pdu) with
  | inl e => build_error st session pdu e
  | inr p =>
      let pdu := default_engines session (with_m_body p pdu) in
      match default_context session pdu with
      | inl e => build_error st session pdu e
      | inr pdu =>
          pdu ← default_model session pdu;
          match default_name session pdu with
          | inl e => build_error st session pdu e
          | inr (session, pdu) =>
              match default_level session pdu with
              | inl e => build_error st session pdu e
              | inr pdu =>
                  '(st, r) ← (if reverse_encode lib then
                                '(st, r) ← snmpv3_packet_realloc_rbuild st session pdu None s;
                                Ret (st, match r with inl e => inl e | inr s => inr (Backward s) end)
                              else
                                '(st, r) ← snmpv3_packet_build st session pdu None (pkt s);
                                Ret (st, match r with inl e => inl e | inr l => inr (Forward l) end));
                  let ret := match r with inl e => e | inr _ => 0 end in
                  Ret (st, if negb (ret =? -1) then with_s_snmp_errno ret session else session, pdu, r)
              end
          end
      end
  end.

(** ** Versions 1 and 2c *)

(** The session's community for a message without one, unless it is an
    answer. *)
Definition default_community (session : netsnmp_session) (pdu : netsnmp_pdu) : Z + netsnmp_pdu :=
  if (len (m_community pdu) =? 0) && negb (command (m_body pdu) =? SNMP_MSG_RESPONSE) then
    if len (s_community session) =? 0 then inr (with_m_community [] pdu)
    else if alloc (len (s_community session)) then inr (with_m_community (s_community session) pdu)
    else inl SNMPERR_MALLOC
  else inr pdu.

Definition community_rbuild (pdu : netsnmp_pdu) (s : rbuf) : outcome rbuf :=
  let start_offset := offset s in
  s ← snmp_pdu_realloc_rbuild fuel64 (m_body pdu) s;
  s ← rbuild_octets (m_community pdu) s;
  s ← asn_realloc_rbuild_int true ASN_INTEGER (m_version pdu) sizeof_long s;
  asn_realloc_rbuild_sequence true (Z.lor ASN_SEQUENCE ASN_CONSTRUCTOR) (offset s - start_offset) s.

Definition community_build (pdu : netsnmp_pdu) (pkt_len : Z) : outcome (list Z) :=
  let length := pkt_len in
  '(h, pkt_len) ← asn_build_sequence pkt_len (Z.lor ASN_SEQUENCE ASN_CONSTRUCTOR) 0;
  '(o1, pkt_len) ← asn_build_int pkt_len ASN_INTEGER (m_version pdu) sizeof_long;
  '(o2, pkt_len) ← asn_build_string pkt_len ASN_OCTET_STR (Some (m_community pdu)) (len (m_community pdu));
  '(o3, _) ← snmp_pdu_build hole (m_body pdu) pkt_len;
  let '(h, _) := overwrite_sequence length (Z.lor ASN_SEQUENCE ASN_CONSTRUCTOR) (len (o1 ++ o2 ++ o3)) h in
  Ret (h ++ o1 ++ o2 ++ o3).

Definition is_community_version (version : Z) : bool := (version =? SNMP_VERSION_1) || (version =? SNMP_VERSION_2c).

Definition _snmp_build (st : usm) (session : netsnmp_session) (pdu : netsnmp_pdu) (s : rbuf) : outcome building :=
  let session := with_s_snmp_errno 0 session in
  if m_version pdu =? SNMP_VERSION_3 then snmpv3_build st session pdu s
  else
    match check_command (m_version pdu) (m_body pdu) with
    | inl e => build_error st session pdu e
    | inr p =>
        let pdu := with_m_body p pdu in
        if negb (is_community_version (m_version pdu)) then build_error st session pdu SNMPERR_BAD_VERSION
        else
          match default_community session pdu with
          | inl e => build_error st session pdu e
          | inr pdu =>
              on_null (if reverse_encode lib
                       then s ← community_rbuild pdu s; Ret (Backward s)
                       else l ← community_build pdu (pkt_len s); Ret (Forward l))
                (st, session, pdu, inl (-1)) (fun r => Ret (st, session, pdu, inr r))
          end
    end.

Definition snmp_build (st : usm) (session : netsnmp_session) (pdu : netsnmp_pdu) (s : rbuf) : outcome building :=
  '(st, session, pdu, r) ← _snmp_build st session pdu s;
  match r with
  | inr r => Ret (st, session, pdu, inr r)
  | inl _ => Ret (st, if s_snmp_errno session =? 0 then with_s_snmp_errno SNMPERR_BAD_ASN1_BUILD session
                      else session, pdu, inl (-1))
  end.

(** [snmp_comstr_build] of snmp_auth.c, which nothing calls: only the byte at
    the address of [*slen] counts. *)
Definition snmp_comstr_build (length : Z) (psid : list Z) (version messagelen : Z) : outcome (list Z) :=
  let hlength := length in
  '(h, length) ← asn_build_sequence length (Z.lor ASN_SEQUENCE ASN_CONSTRUCTOR) 0;
  '(o1, length) ← asn_build_int length ASN_INTEGER version sizeof_long;
  '(o2, length) ← asn_build_string length ASN_OCTET_STR (Some psid) (u8 (len psid));
  let '(h, _) := overwrite_sequence hlength (Z.lor ASN_SEQUENCE ASN_CONSTRUCTOR) (len (o1 ++ o2) + messagelen) h in
  Ret (h ++ o1 ++ o2).
End build.

(** ** Parsing *)

(** An [int]; [SNMPERR_BAD_VERSION] for what is no message. *)
Definition snmp_parse_version (data : mem) (length : Z) : outcome Z :=
  on_null ('(p, _, length) ← asn_parse_sequence data 0 length (Z.lor ASN_SEQUENCE ASN_CONSTRUCTOR);
           '(_, _, version, _) ← asn_parse_int data p length sizeof_long;
           Ret version) SNMPERR_BAD_VERSION (fun version => Ret (s32 version)).

(** The rest of the message, the community in its buffer, and the version.
    The last byte of the buffer is set to NUL. *)
Definition snmp_comstr_parse (data : mem) (length slen : Z) : outcome (Z * Z * list Z * Z) :=
  let origlen := slen in
  '(p, _, length) ← asn_parse_sequence data 0 length (Z.lor ASN_SEQUENCE ASN_CONSTRUCTOR);
  '(p, _, ver, length) ← asn_parse_int data p length sizeof_long;
  '(p, _, psid, length) ← asn_parse_string data p length slen;
  Ret (p, length, take (Z.to_nat (origlen - 1)) psid ++ replicate (List.length psid - Z.to_nat (origlen - 1)) 0, ver).

(** The room of the buffer for a decrypted PDU. *)
Definition pdu_room (msg_len level : Z) : Z :=
  if (SNMP_MAX_MSG_SIZE <? msg_len) && (level =? SNMP_SEC_LEVEL_AUTHPRIV) then msg_len else SNMP_MAX_MSG_SIZE.

Section parse.
Context `{Platform, Allocator, Crypto} (lib : library).
(** [leftover]: see [parse_value].  What a failing [snmp_pdu_parse] leaves of
    the PDU, and a failing parser of the security parameters in the places
    for the engine identifier and the name. *)
Context (leftover : Z -> Z * option mem * Z).
Context (leftover_pdu : mem -> Z -> Z -> snmp_pdu -> snmp_pdu).
Context (leftover_names : mem -> Z -> list Z * list Z).
(** What the session does with a community: its [authenticator], if it has
    one, and the contents of the statistics counters. *)
Context (authenticator : option (mem -> Z -> Z -> list Z -> outcome (Z * Z))).
Context (get_statistic : Z -> Z).

(** The message, and the place of the PDU if all of it was there.  A failing
    parser leaves its output as it is. *)
Definition snmpv3_scopedPDU_parse (m : mem) (pdu : netsnmp_pdu) (cp length : Z)
    : outcome (netsnmp_pdu * option (Z * Z)) :=
  let pdu := set_command 0 pdu in
  on_null (asn_parse_sequence m cp length (Z.lor ASN_SEQUENCE ASN_CONSTRUCTOR)) (pdu, None) (fun '(data, _, _) =>
  let length := u64 (length - (data - cp)) in
  on_null (asn_parse_string m data length (len (m_contextEngineID pdu))) (pdu, None)
    (fun '(data, _, engine, length) =>
  let pdu := with_m_contextEngineID engine pdu in
  on_null (asn_parse_string m data length SNMP_MAX_CONTEXT_SIZE) (pdu, None) (fun '(data, _, name, length) =>
  let name := if alloc (if len name =? 0 then 1 else len name) then Some name else None in
  let pdu := with_m_contextName name pdu in
  if bool_decide (name = None) then Ret (pdu, None)
  else on_null (asn_parse_header m data length) (pdu, None)
         (fun '(_, type, _) => Ret (set_command type pdu, Some (data, length)))))).

(** The call of [snmp_pdu_parse], whose result is -1 for a failure. *)
Definition pdu_parse (m : mem) (data length : Z) (pdu : netsnmp_pdu) : outcome (netsnmp_pdu * Z) :=
  on_null (snmp_pdu_parse leftover m (m_body pdu) data length)
    (with_m_body (leftover_pdu m data length (m_body pdu)) pdu, -1)
    (fun '(p, badtype) => Ret (with_m_body p pdu, if (badtype : bool) then -1 else SNMPERR_SUCCESS)).

(** The state, the session, the message and the result. *)
Abbreviation parsing := (usm * netsnmp_session * netsnmp_pdu * Z)%type.

(** [parms.decode] with the buffers it is given: the model's results, where
    the scoped PDU is, and the message with what was decoded. *)
Definition decode_message (st : usm) (session : netsnmp_session) (pdu : netsnmp_pdu) (sptr : snmp_secmod_def usm)
    (m : mem) (addr msg_len sec_params msg_max_size msg_flags : Z)
    : outcome (option (usm * netsnmp_pdu * Z * option (mem * Z * Z))) :=
  match decode sptr with
  | None => Ret None
  | Some decode =>
      let level := m_securityLevel pdu in
      let room := pdu_room msg_len level in
      let buffer := if (SNMP_MAX_MSG_SIZE <? room) && negb (alloc room) then None else Some room in
      '(st, d) ← decode st {| i_maxMsgSize := msg_max_size; i_secParams := sec_params;
                              i_secModel := m_securityModel pdu; i_secLevel := level; i_wholeMsg := m;
                              i_wholeMsg_addr := addr; i_wholeMsgLen := msg_len;
                              i_secEngineIDLen := len (m_securityEngineID pdu);
                              i_secNameLen := len (bytes_of (m_securityName pdu));
                              i_scopedPduLen := match buffer with Some room => room | None => 0 end;
                              i_isAuthoritative := s_isAuthoritative session; i_msg_flags := msg_flags |};
      let '(engine, name) := match d_names d with Some names => names | None => leftover_names m sec_params end in
      let pdu := with_m_securityStateRef (d_secStateRef d)
                   (with_m_securityName (Some name) (with_m_securityEngineID engine pdu)) in
      let place := match d_scopedPdu d, buffer with
                   | Some place, _ => Some place
                   | None, Some room => Some (replicate (Z.to_nat room) 0, 0, room)
                   | None, None => None
                   end in
      Ret (Some (st, pdu, d_result d, place))
  end.

(** From the call of the security model to the end. *)
Definition parse_scoped (st : usm) (session : netsnmp_session) (pdu : netsnmp_pdu) (sptr : snmp_secmod_def usm)
    (m : mem) (addr msg_len sec_params msg_max_size msg_flags : Z) : outcome parsing :=
  d ← decode_message st session pdu sptr m addr msg_len sec_params msg_max_size msg_flags;
  match d with
  | None => Ret (st, session, pdu, -1)
  | Some (st, pdu, ret_val, place) =>
      '(pdu, inner) ← (match place with
                       | Some (m, cp, length) =>
                           '(pdu, data) ← snmpv3_scopedPDU_parse m pdu cp length;
                           match data with
                           | Some (data, length) => '(pdu, ret) ← pdu_parse m data length pdu; Ret (pdu, Some ret)
                           | None => Ret (pdu, None)
                           end
                       | None => if ret_val =? SNMPERR_SUCCESS then Overrun else Ret (pdu, None)
                       end);
      if negb (ret_val =? SNMPERR_SUCCESS) then Ret (st, session, pdu, ret_val)
      else Ret (st, session, pdu, if bool_decide (inner = Some SNMPERR_SUCCESS) then SNMPERR_SUCCESS
                                  else SNMPERR_ASN_PARSE_ERR)
  end.

(** From the security model on, with the places for its results; [calloc]
    gives zeros. *)
Definition parse_security (st : usm) (session : netsnmp_session) (pdu : netsnmp_pdu) (m : mem)
    (addr msg_len sec_params msg_max_size msg_flags msg_sec_model : Z) : outcome parsing :=
  match find_sec_mod msg_sec_model (secmods lib) with
  | None => Ret (st, session, pdu, SNMPERR_UNKNOWN_SEC_MODEL)
  | Some sptr =>
      let pdu := with_m_securityModel msg_sec_model pdu in
      let auth := negb (Z.land msg_flags SNMP_MSG_FLAG_AUTH_BIT =? 0) in
      let priv := negb (Z.land msg_flags SNMP_MSG_FLAG_PRIV_BIT =? 0) in
      if priv && negb auth then Ret (st, session, pdu, SNMPERR_INVALID_MSG)
      else
        let level := if auth then if priv then SNMP_SEC_LEVEL_AUTHPRIV else SNMP_SEC_LEVEL_AUTHNOPRIV
                     else SNMP_SEC_LEVEL_NOAUTH in
        let zeros n := replicate (Z.to_nat n) 0 in
        let pdu := with_m_securityName (Some (zeros SNMP_MAX_SEC_NAME_SIZE))
                     (with_m_securityEngineID (zeros (SNMP_MAX_ENG_SIZE * 2))
                       (with_m_contextEngineID (zeros SNMP_MAX_ENG_SIZE) (with_m_securityLevel level pdu))) in
        if negb (alloc SNMP_MAX_ENG_SIZE && alloc (SNMP_MAX_ENG_SIZE * 2) && alloc SNMP_MAX_SEC_NAME_SIZE)
        then Ret (st, session, pdu, SNMPERR_MALLOC)
        else parse_scoped st session pdu sptr m addr msg_len sec_params msg_max_size msg_flags
  end.

(** The message lies in [m] from offset 0, its address is [addr]. *)
Definition snmpv3_parse (st : usm) (session : netsnmp_session) (pdu : netsnmp_pdu) (m : mem) (addr length : Z)
    : outcome parsing :=
  let msg_len := length in
  let bad session pdu := (st, session, pdu, SNMPERR_ASN_PARSE_ERR) in
  on_null (asn_parse_sequence m 0 length (Z.lor ASN_SEQUENCE ASN_CONSTRUCTOR)) (bad session pdu)
    (fun '(data, _, length) =>
  on_null (asn_parse_int m data length sizeof_long) (bad session pdu) (fun '(data, _, ver, length) =>
  let pdu := with_m_version ver pdu in
  let cp := data in
  on_null (asn_parse_sequence m data length (Z.lor ASN_SEQUENCE ASN_CONSTRUCTOR)) (bad session pdu)
    (fun '(data, _, _) =>
  let length := u64 (length - (data - cp)) in
  on_null (asn_parse_int m data length sizeof_long) (bad session pdu) (fun '(data, _, msgid, length) =>
  let pdu := with_m_msgid msgid pdu in
  if (msgid <? 0) || (0x7fffffff <? msgid) then Ret (bad session pdu)
  else
  on_null (asn_parse_int m data length sizeof_long) (bad session pdu) (fun '(data, _, msg_max_size, length) =>
  if (msg_max_size <? 484) || (0x7fffffff <? msg_max_size) then Ret (bad session pdu)
  else
  let session := with_s_sndMsgMaxSize msg_max_size session in
  on_null (asn_parse_string m data length SNMP_MAX_MSG_SIZE) (bad session pdu) (fun '(data, type, tmp_buf, length) =>
  match tmp_buf with
  | [msg_flags] =>
      if negb (type =? ASN_OCTET_STR) then Ret (bad session pdu)
      else
      let f := flags (m_body pdu) in
      let f := if negb (Z.land msg_flags SNMP_MSG_FLAG_RPRT_BIT =? 0) then Z.lor f SNMP_MSG_FLAG_RPRT_BIT
               else Z.land f (Z.lnot SNMP_MSG_FLAG_RPRT_BIT) in
      let pdu := with_m_body (with_flags f (m_body pdu)) pdu in
      on_null (asn_parse_int m data length sizeof_long) (bad session pdu) (fun '(data, _, msg_sec_model, _) =>
      if (msg_sec_model <? 1) || (0x7fffffff <? msg_sec_model) then Ret (bad session pdu)
      else parse_security st session pdu m addr msg_len data msg_max_size msg_flags msg_sec_model)
  | _ => Ret (bad session pdu)
  end)))))).

(** ** The context probe of RFC 5343 *)

Definition snmpEngineIDoid : list Z := [1; 3; 6; 1; 6; 3; 10; 2; 1; 1; 0].

(** The static variables these routines change. *)
Record api : Type := { a_usm : usm; Transid : Z; ourEngineID_len : Z }.

Definition is_probe (pdu : netsnmp_pdu) : bool :=
  negb (no_discovery lib) && negb (command (m_body pdu) =? SNMP_MSG_RESPONSE)
  && bool_decide (m_contextEngineID pdu = [0x80; 0; 0; 0; 6]).

(** Exactly one variable, which asks for the identifier. *)
Definition asks_engineID (p : snmp_pdu) : outcome bool :=
  match variables p with
  | [vp] =>
      cmp ← snmp_oid_compare snmpEngineIDoid (len snmpEngineIDoid) (name vp) (len (name vp));
      Ret (((command p =? SNMP_MSG_GET) && (cmp =? 0)) || ((command p =? SNMP_MSG_GETNEXT) && (0 <? cmp)))
  | _ => Ret false
  end.

(** [pdu2], a copy of the message with the identifier for an answer; it shares
    the state reference with the message. *)
Definition probe_answer (pdu : netsnmp_pdu) (id : list Z) : netsnmp_pdu :=
  let p := m_body pdu in
  let vp := {| name := snmpEngineIDoid; type := ASN_OCTET_STR; val := Some id; val_len := len id |} in
  with_m_body
    {| command := SNMP_MSG_RESPONSE; reqid := reqid p; errstat := 0; errindex := 0; time := time p;
       flags := flags p; variables := [vp]; enterprise := enterprise p; trap_type := trap_type p;
       specific_type := specific_type p; agent_addr := agent_addr p |} pdu.

(** The length is kept from one probe to the next: it is the room the next
    one gives for the identifier. *)
Definition context_probe (a : api) (pdu : netsnmp_pdu) : outcome (api * list event) :=
  asks ← asks_engineID (m_body pdu);
  if (asks : bool) then
    let '(n, id) := snmpv3_get_engineID (clocks (a_usm a)) (ourEngineID_len a) in
    Ret ({| a_usm := a_usm a; Transid := Transid a; ourEngineID_len := n |},
         if negb (n =? 0) then [Sent (probe_answer pdu id)] else [])
  else Ret (a, []).

(** ** Any version *)

(** The static variables, the session, the message, the result and what was
    done outside. *)
Abbreviation parsed := (api * netsnmp_session * netsnmp_pdu * Z * list event)%type.

(** The result of version 3: reports, and the probe, also after an error. *)
Definition after_v3 (sessp : bool) (a : api) (session : netsnmp_session) (pdu : netsnmp_pdu) (result : Z)
    : outcome parsed :=
  let secmod := find_sec_mod (m_securityModel pdu) (secmods lib) in
  let '(session, pdu, events) :=
    if result =? 0 then (session, pdu, [])
    else
      let '(session, pdu, events) :=
        if negb sessp then (with_s_snmp_errno result session, pdu, [])
        else
          match secmod ≫= handle_report with
          | Some report => let '(pdu, events) := report (a_usm a) get_statistic session result pdu in
                           (session, pdu, events)
          | None => (session, pdu, [])
          end in
      (session, match secmod with
                | Some sptr => if frees_state_ref sptr then with_m_securityStateRef None pdu else pdu
                | None => pdu
                end, events) in
  if is_probe pdu then
    '(a, answer) ← context_probe a pdu;
    Ret (a, session, pdu, SNMPERR_JUST_A_CONTEXT_PROBE, events ++ answer)
  else Ret (a, session, pdu, result, events).

(** What a header that cannot be parsed leaves for the version is not
    modelled. *)
Definition parse_community (a : api) (session : netsnmp_session) (pdu : netsnmp_pdu) (m : mem) (length : Z)
    : outcome parsed :=
  on_null (snmp_comstr_parse m length COMMUNITY_MAX_LEN) (a, session, pdu, -1, [])
    (fun '(data, length, community, version) =>
  let pdu := with_m_version version pdu in
  if negb (m_version pdu =? s_version session) && negb (s_version session =? SNMP_DEFAULT_VERSION)
  then Ret (a, with_s_snmp_errno SNMPERR_BAD_VERSION session, pdu, -1, [])
  else
    let pdu := with_m_securityModel (if m_version pdu =? SNMP_VERSION_1 then SNMP_SEC_MODEL_SNMPv1
                                     else SNMP_SEC_MODEL_SNMPv2c)
                 (with_m_securityLevel SNMP_SEC_LEVEL_NOAUTH pdu) in
    if negb (len community =? 0) && negb (alloc (len community))
    then Ret (a, with_s_snmp_errno SNMPERR_MALLOC session, with_m_community [] pdu, -1, [])
    else
      let pdu := with_m_community community pdu in
      on_null (match authenticator with
               | Some f => f m data length community
               | None => Ret (data, length)
               end) (a, with_s_snmp_errno SNMPERR_AUTHENTICATION_FAILURE session, pdu, -1, [])
        (fun '(data, length) =>
      '(pdu, result) ← pdu_parse m data length pdu;
      Ret (a, session, pdu, result, []))).

(** [sessp]: whether there is a session to report to. *)
Definition _snmp_parse (sessp : bool) (a : api) (session : netsnmp_session) (pdu : netsnmp_pdu) (m : mem)
    (addr length : Z) : outcome parsed :=
  let session := with_s_snmp_errno 0 session in
  let '(transid, last) := snmp_get_next (short_ids lib) (Transid a) in
  let a := {| a_usm := a_usm a; Transid := last; ourEngineID_len := ourEngineID_len a |} in
  let pdu := with_m_transid transid pdu in
  version ← (if negb (s_version session =? SNMP_DEFAULT_VERSION) then Ret (s_version session)
             else snmp_parse_version m length);
  let pdu := with_m_version version pdu in
  if is_community_version version then parse_community a session pdu m length
  else if version =? SNMP_VERSION_3 then
    '(st, session, pdu, result) ← snmpv3_parse (a_usm a) session pdu m addr length;
    after_v3 sessp {| a_usm := st; Transid := Transid a; ourEngineID_len := ourEngineID_len a |} session pdu result
  else Ret (a, with_s_snmp_errno SNMPERR_BAD_VERSION session, pdu, -1, []).

Definition snmp_parse (sessp : bool) (a : api) (session : netsnmp_session) (pdu : netsnmp_pdu) (m : mem)
    (addr length : Z) : outcome parsed :=
  '(a, session, pdu, rc, events) ← _snmp_parse sessp a session pdu m addr length;
  Ret (a, if negb (rc =? 0) && (s_snmp_errno session =? 0) then with_s_snmp_errno SNMPERR_BAD_PARSE session
          else session, pdu, rc, events).
End parse.
