(* ===== verification/MessageSpec.v ===== *)
(** * Whole messages on the wire

    The bytes of a message as a plain function of its fields, and the lemmas
    that the routines of snmp_api.c around the PDU write and read them. *)

From S2P Require Import Prelude Bytes AsnTypes AsnParse AsnBuild AsnBuildSpec AsnParseSpec AsnRbuild AsnRbuildSpec VarOp Pdu Codec VarOpSpec PduSpec PduProps Oid Vacm Lcd Usm UsmSpec Scapi Users UsmMsg UsmWire Enum Session Secmod Message.

(** ** The form *)

Definition community_fields (form : Z -> list Z) (pdu : netsnmp_pdu) (bs : list binding) : list Z :=
  int_enc (m_version pdu) ++ octets (m_community pdu) ++ pdu_enc form (m_body pdu) bs.

Definition community_message (form : Z -> list Z) (pdu : netsnmp_pdu) (bs : list binding) : list Z :=
  construct form 0x30 (community_fields form pdu bs).

(** The packet that is sent. *)
Definition bytes_sent (p : packet) : list Z :=
  match p with Backward s => written s | Forward l => l end.

(** The form of the length octets. *)
Definition form_of `{Platform, Allocator, Crypto} (lib : library) : Z -> list Z :=
  if reverse_encode lib then len_octets else form4.

Lemma form_of_ok `{Platform, Allocator, Crypto} lib : form_ok (form_of lib).
Proof. unfold form_of. destruct (reverse_encode lib); [apply len_octets_form_ok|apply form4_ok]. Qed.

(** A message that carries this PDU and these variables, in range. *)
Record carried (pdu : netsnmp_pdu) (bs : list binding) : Prop := {
  c_pdu : pdu_ok (m_body pdu);
  c_variables : variables (m_body pdu) = map var_of bs;
  c_bindings : Forall binding_ok bs
}.

Lemma construct_len form t body : len body <= len (construct form t body).
Proof. unfold construct, constructed, len. cbn [length]. rewrite length_app. lia. Qed.

(** What a message holds is smaller than the message. *)
Lemma pdu_enc_small form front p bs :
  len_ok (len (front ++ pdu_enc form p bs)) -> len_ok (Z.of_nat (length (pdu_body form p bs))).
Proof.
  unfold len_ok. pose proof (construct_len form (command p) (pdu_body form p bs)) as Hc. unfold pdu_enc.
  rewrite len_app. pose proof (len_nonneg front). unfold len in *. lia.
Qed.

Lemma pdu_enc_small2 form f1 f2 p bs :
  len_ok (len (f1 ++ f2 ++ pdu_enc form p bs)) -> len_ok (Z.of_nat (length (pdu_body form p bs))).
Proof. rewrite app_assoc. apply pdu_enc_small. Qed.

Lemma octets_small front l rest : len_ok (len (front ++ octets l ++ rest)) -> len_ok (len l).
Proof.
  unfold len_ok. rewrite !len_app. pose proof (octets_len l). pose proof (len_nonneg front).
  pose proof (len_nonneg rest). pose proof (len_nonneg l). lia.
Qed.

(** ** Building with a community *)

Lemma community_rbuild_spec `{Allocator} fuel pdu bs s :
  rb_ok s -> (3 <= fuel)%nat -> carried pdu bs -> int_ok (m_version pdu) ->
  len_ok (len (community_fields len_octets pdu bs)) ->
  wr true (len (community_message len_octets pdu bs)) (community_rbuild fuel pdu s) s
     (community_message len_octets pdu bs).
Proof.
  intros Hs Hf [Hp Hv Hb] Hver Hlen.
  pose proof (pdu_enc_small2 _ _ _ _ _ Hlen) as Hbody.
  pose proof (octets_small _ _ _ Hlen) as Hcom. unfold community_rbuild.
  pose proof (snmp_pdu_realloc_rbuild_spec fuel _ bs s Hs Hf Hp Hv Hb Hbody) as Hw1.
  assert (Hw : wr true (len (community_fields len_octets pdu bs))
    (s2 ← (s1 ← snmp_pdu_realloc_rbuild fuel (m_body pdu) s; rbuild_octets (m_community pdu) s1);
     asn_realloc_rbuild_int true ASN_INTEGER (m_version pdu) sizeof_long s2) s (community_fields len_octets pdu bs)).
  { apply wr_seq; [done| |intros; by apply int_wr]. apply wr_seq; [done|exact Hw1|]. intros. by apply octets_wr. }
  pose proof (rbuild_construct 0x30 _ s _ Hs Hlen Hw) as Hall. rewrite !bind_assoc in Hall. exact Hall.
Qed.

Lemma community_build_spec hole pdu bs n :
  is_u64 n -> carried pdu bs -> int_ok (m_version pdu) -> len_ok (len (community_fields form4 pdu bs)) ->
  community_build hole pdu n
  = if n <? len (community_message form4 pdu bs) then Null else Ret (community_message form4 pdu bs).
Proof.
  intros Hn [Hp Hv Hb] Hver Hlen.
  pose proof (pdu_enc_small2 _ _ _ _ _ Hlen) as Hbody.
  pose proof (octets_small _ _ _ Hlen) as Hcom. unfold community_build.
  change (community_message form4 pdu bs)
    with (seq4 0x30 (len (community_fields form4 pdu bs)) ++ community_fields form4 pdu bs).
  rewrite asn_build_sequence_spec, take_room_bind, length_seq4 by done.
  change (Z.of_nat (length ?l)) with (len l) in *. rewrite len_app. change (len (seq4 ?t ?k)) with 4.
  pose proof (len_nonneg (community_fields form4 pdu bs)).
  destruct (Z.ltb_spec n 4).
  { match goal with |- _ = if ?a <? ?b then _ else _ => destruct (Z.ltb_spec a b) end; [done|lia]. }
  cbv beta iota.
  rewrite build_int_enc, take_room_bind by (done || u64_room). change (Z.of_nat (length ?l)) with (len l).
  unfold community_fields at 1. rewrite !len_app.
  pose proof (len_nonneg (octets (m_community pdu))). pose proof (len_nonneg (pdu_enc form4 (m_body pdu) bs)).
  pose proof (len_nonneg (int_enc (m_version pdu))).
  destruct (Z.ltb_spec (n - 4) (len (int_enc (m_version pdu)))).
  { match goal with |- _ = if ?a <? ?b then _ else _ => destruct (Z.ltb_spec a b) end; [done|lia]. }
  cbv beta iota. change (len (m_community pdu)) with (Z.of_nat (length (m_community pdu))).
  rewrite asn_build_string_spec, take_room_bind by (done || u64_room).
  fold (octets (m_community pdu)). change (Z.of_nat (length ?l)) with (len l).
  destruct (Z.ltb_spec (n - 4 - len (int_enc (m_version pdu))) (len (octets (m_community pdu)))).
  { match goal with |- _ = if ?a <? ?b then _ else _ => destruct (Z.ltb_spec a b) end; [done|lia]. }
  cbv beta iota. rewrite (snmp_pdu_build_spec hole _ _ bs), take_room_bind by (done || u64_room).
  change (Z.of_nat (length ?l)) with (len l).
  match goal with |- (if ?a <? ?b then _ else _) = if ?c <? ?d then _ else _ =>
    destruct (Z.ltb_spec a b); destruct (Z.ltb_spec c d); try lia; [done|] end.
  cbv beta iota. fold (community_fields form4 pdu bs). unfold len in *.
  rewrite overwrite_sequence_spec by (done || lia). done.
Qed.

(** The packet of a community-based message, whose defaults are filled in. *)
Lemma snmp_build_community `{Platform, Allocator, Crypto} lib hole fuel st session pdu s st' session' pdu' pk bs :
  snmp_build lib hole fuel st session pdu s = Ret (st', session', pdu', inr pk) ->
  is_community_version (m_version pdu) = true -> rb_ok s -> offset s = 0 -> (3 <= fuel)%nat ->
  carried pdu' bs -> len_ok (len (community_fields (form_of lib) pdu' bs)) ->
  st' = st /\ m_version pdu' = m_version pdu /\ bytes_sent pk = community_message (form_of lib) pdu' bs.
Proof.
  intros E Hver Hs Hoff Hf Hc Hlen. unfold snmp_build in E.
  apply bind_Ret_inv in E as ([[[st1 session1] pdu1] r] & E & E2).
  destruct r as [e|pk1]; [done|]. injection E2 as -> -> -> ->. unfold _snmp_build in E.
  assert (Hv : m_version pdu = 0 \/ m_version pdu = 1)
    by (unfold is_community_version, SNMP_VERSION_1, SNMP_VERSION_2c in Hver; lia).
  destruct (Z.eqb_spec (m_version pdu) SNMP_VERSION_3) as [E3|_]; [unfold SNMP_VERSION_3 in E3; lia|].
  destruct (check_command _ _) as [e|p]; [done|]. cbn [m_version with_m_body] in E. rewrite Hver in E. cbn [negb] in E.
  destruct (default_community _ _) as [e|pdu2] eqn:Ed; [done|].
  assert (Hv2 : m_version pdu2 = m_version pdu).
  { unfold default_community in Ed. repeat case_match; by simplify_eq. }
  pose proof (length_written s Hs) as Hw0. rewrite Hoff in Hw0.
  assert (Hint : forall p, m_version p = m_version pdu -> int_ok (m_version p))
    by (intros p0 ->; unfold int_ok, INT32_MIN; lia).
  unfold form_of in *. destruct (reverse_encode lib).
  - destruct (community_rbuild fuel pdu2 s) as [s1| | |] eqn:Eb; try done. injection E as <- <- <- <-.
    pose proof (community_rbuild_spec fuel pdu2 bs s Hs Hf Hc (Hint _ Hv2) Hlen) as Hw. rewrite Eb in Hw.
    destruct (wr_out _ _ _ _ Hw) as [?|(s2 & [= <-] & _ & Hw2)]; [done|]. split; [done|]. split; [done|].
    cbn [bytes_sent]. rewrite Hw2. destruct (written s); [by rewrite app_nil_r|done].
  - destruct (community_build hole pdu2 (pkt_len s)) as [l| | |] eqn:Eb; try done. injection E as <- <- <- <-.
    rewrite (community_build_spec hole pdu2 bs) in Eb by first [done|by apply Hint|unfold rb_ok in Hs; cint].
    destruct (_ <? _); [done|]. by injection Eb as <-.
Qed.

(** ** Reading the header *)

Lemma sequence_parse form m p dl body :
  form_ok form -> is_u64 dl -> len_ok (len body) -> bytes_at m p (construct form 0x30 body) ->
  len (construct form 0x30 body) <= dl ->
  let q := p + (len (construct form 0x30 body) - len body) in
  asn_parse_sequence m p dl (Z.lor ASN_SEQUENCE ASN_CONSTRUCTOR) = Ret (q, 0x30, len body)
  /\ bytes_at m q body.
Proof.
  intros Hf Hdl Hb Hat Hn q. unfold asn_parse_sequence, construct in *. unfold len_ok in Hb.
  rewrite (header_constructed m p dl 0x30 (form (Z.of_nat (length body))) body)
    by first [done|by apply Hf|unfold len in *; lia].
  assert (Hq : q = p + 1 + Z.of_nat (length (form (Z.of_nat (length body))))).
  { unfold q, constructed, len. cbn [length]. rewrite length_app. lia. }
  rewrite bind_ret, Hq. split; [done|]. unfold constructed in Hat. cbn [bytes_at] in Hat.
  by destruct Hat as [_ [_ Hat]%bytes_at_app].
Qed.

Lemma parse_version_spec form m n v rest :
  form_ok form -> is_u64 n -> int_ok v -> is_s32 v -> len_ok (len (int_enc v ++ rest)) ->
  bytes_at m 0 (construct form 0x30 (int_enc v ++ rest)) -> len (construct form 0x30 (int_enc v ++ rest)) <= n ->
  snmp_parse_version m n = Ret v.
Proof.
  intros Hf Hn Hv Hs Hl Hat Hle. unfold snmp_parse_version.
  destruct (sequence_parse form m 0 n _ Hf Hn Hl Hat Hle) as [-> Hat1]. rewrite bind_ret.
  unfold len_ok in Hl. destruct (int_parse m _ (len (int_enc v ++ rest)) v rest ltac:(cint) Hv Hat1 (Z.le_refl _))
    as [-> _]. rewrite bind_ret. cbn [on_null]. by rewrite s32_id.
Qed.

Lemma comstr_parse_spec form m n v community rest :
  form_ok form -> is_u64 n -> int_ok v -> len community < COMMUNITY_MAX_LEN ->
  let fields := int_enc v ++ octets community ++ rest in
  len_ok (len fields) -> bytes_at m 0 (construct form 0x30 fields) -> len (construct form 0x30 fields) <= n ->
  exists p, snmp_comstr_parse m n COMMUNITY_MAX_LEN = Ret (p, len rest, community, v) /\ bytes_at m p rest.
Proof.
  intros Hf Hn Hv Hc fields Hl Hat Hle. unfold snmp_comstr_parse. cbv zeta.
  destruct (sequence_parse form m 0 n _ Hf Hn Hl Hat Hle) as [-> Hat1]. rewrite bind_ret.
  pose proof (octets_small _ _ _ Hl) as Hcl. unfold len_ok in Hl.
  destruct (int_parse m _ (len fields) v (octets community ++ rest) ltac:(cint) Hv Hat1 (Z.le_refl _)) as [-> Hat2].
  rewrite bind_ret. assert (Hlf : len fields = len (int_enc v) + (len (octets community) + len rest))
    by (unfold fields; by rewrite !len_app). pose proof (len_nonneg (octets community)).
  pose proof (len_nonneg rest). pose proof (len_nonneg (int_enc v)).
  destruct (octets_parse m _ (len fields - len (int_enc v)) community COMMUNITY_MAX_LEN rest
    ltac:(cint) ltac:(done) ltac:(lia) Hat2) as [-> Hat3]; [rewrite len_app; lia|]. rewrite bind_ret.
  eexists. split; [|exact Hat3]. unfold COMMUNITY_MAX_LEN, len in *. change (Z.to_nat (256 - 1)) with 255%nat.
  rewrite take_ge by lia. replace (length community - 255)%nat with 0%nat by lia. cbn [replicate].
  rewrite app_nil_r. do 4 f_equal. lia.
Qed.

(** What the receiver's structure holds of the message. *)
Definition community_received (pdu0 pdu pdu' : netsnmp_pdu) : Prop :=
  m_version pdu' = m_version pdu /\ m_community pdu' = m_community pdu
  /\ m_securityLevel pdu' = SNMP_SEC_LEVEL_NOAUTH
  /\ m_securityModel pdu' = (if m_version pdu =? SNMP_VERSION_1 then SNMP_SEC_MODEL_SNMPv1
                             else SNMP_SEC_MODEL_SNMPv2c)
  /\ m_body pdu' = parse_result (m_body pdu0) (m_body pdu).

Section reading.
Context `{Platform, Allocator, Crypto} (lib : library).
Context (leftover : Z -> Z * option mem * Z).
Context (leftover_pdu : mem -> Z -> Z -> snmp_pdu -> snmp_pdu).
Context (leftover_names : mem -> Z -> list Z * list Z).
Context (get_statistic : Z -> Z).
Hypothesis Halloc : forall k, k <= 65536 -> alloc k = true.

Lemma pdu_parse_spec form m data dl pdu0 p bs :
  form_ok form -> is_u64 dl -> pdu_ok p -> variables p = map var_of bs -> Forall binding_ok bs ->
  len_ok (Z.of_nat (length (pdu_body form p bs))) -> length (agent_addr (m_body pdu0)) = 4%nat ->
  bytes_at m data (pdu_enc form p bs) -> len (pdu_enc form p bs) <= dl ->
  pdu_parse leftover leftover_pdu m data dl pdu0
  = Ret (with_m_body (parse_result (m_body pdu0) p) pdu0, SNMPERR_SUCCESS).
Proof using Halloc.
  intros Hf Hdl Hp Hv Hb Hl Ha Hat Hn. unfold pdu_parse.
  rewrite (snmp_pdu_parse_spec leftover form m data dl (m_body pdu0) p bs) by done.
  cbn [on_null]. by rewrite (parse_result_bindings _ p bs Hv).
Qed.

Lemma is_community_cases v : is_community_version v = true -> v = 0 \/ v = 1.
Proof using Type. unfold is_community_version, SNMP_VERSION_1, SNMP_VERSION_2c. lia. Qed.

(** A community-based message that was sent. *)
Lemma snmp_parse_community form sessp a session pdu0 m addr n pdu bs :
  form_ok form -> is_u64 n -> carried pdu bs -> is_community_version (m_version pdu) = true ->
  len (m_community pdu) < COMMUNITY_MAX_LEN -> len_ok (len (community_fields form pdu bs)) ->
  s_version session = SNMP_DEFAULT_VERSION \/ s_version session = m_version pdu ->
  length (agent_addr (m_body pdu0)) = 4%nat ->
  bytes_at m 0 (community_message form pdu bs) -> len (community_message form pdu bs) <= n ->
  exists a' session' pdu',
    snmp_parse lib leftover leftover_pdu leftover_names None get_statistic sessp a session pdu0 m addr n
    = Ret (a', session', pdu', 0, [])
    /\ a_usm a' = a_usm a /\ s_snmp_errno session' = 0 /\ community_received pdu0 pdu pdu'.
Proof using Halloc.
  intros Hf Hn [Hp Hv Hb] Hver Hcom Hlen Hsess Haddr Hat Hle. unfold snmp_parse, _snmp_parse.
  destruct (snmp_get_next _ _) as [transid last].
  pose proof (is_community_cases _ Hver) as Hv01.
  assert (Hint : int_ok (m_version pdu)) by (unfold int_ok, INT32_MIN; lia).
  assert (Hversion : (if negb (s_version (with_s_snmp_errno 0 session) =? SNMP_DEFAULT_VERSION)
            then Ret (s_version (with_s_snmp_errno 0 session)) else snmp_parse_version m n) = Ret (m_version pdu)).
  { cbn [s_version with_s_snmp_errno]. destruct (Z.eqb_spec (s_version session) SNMP_DEFAULT_VERSION) as [E|E]; cbn [negb].
    - unfold community_message, community_fields in *. eapply parse_version_spec; try eassumption. cint.
    - destruct Hsess as [?| ->]; done. }
  rewrite Hversion, bind_ret, Hver. unfold parse_community, community_message, community_fields in *.
  pose proof (octets_small _ _ _ Hlen) as Hcl. pose proof (pdu_enc_small2 _ _ _ _ _ Hlen) as Hbody.
  destruct (comstr_parse_spec form m n (m_version pdu) (m_community pdu) (pdu_enc form (m_body pdu) bs)
    Hf Hn Hint Hcom Hlen Hat Hle) as (p & -> & Hat').
  cbn [on_null]. cbn [s_version with_s_snmp_errno m_version with_m_version].
  replace (negb (m_version pdu =? s_version session) && negb (s_version session =? SNMP_DEFAULT_VERSION)) with false
    by (destruct Hsess as [-> | ->]; [by rewrite andb_false_r|by rewrite Z.eqb_refl]).
  rewrite Halloc by (unfold COMMUNITY_MAX_LEN in *; lia). rewrite andb_false_r. cbn [on_null].
  unfold len_ok in Hlen. rewrite !len_app in Hlen. pose proof (len_nonneg (int_enc (m_version pdu))).
  pose proof (len_nonneg (octets (m_community pdu))). pose proof (len_nonneg (pdu_enc form (m_body pdu) bs)).
  rewrite (pdu_parse_spec form m p (len (pdu_enc form (m_body pdu) bs)) _ (m_body pdu) bs)
    by first [done|cint|lia]. rewrite !bind_ret. cbn [negb andb Z.eqb SNMPERR_SUCCESS].
  do 3 eexists. split; [reflexivity|]. split; [done|]. split; [done|]. by repeat split.
Qed.
End reading.
