(* ===== verification/MessageV3.v ===== *)
(** * Messages of version 3 on the wire

    The header and the scoped PDU as plain functions of their fields, and the
    way of a message from [snmp_build] through the user-based security model
    to [snmp_parse]. *)

From S2P Require Import Prelude Bytes AsnTypes AsnParse AsnBuild AsnBuildSpec AsnParseSpec AsnRbuild AsnRbuildSpec VarOp Pdu Codec VarOpSpec PduSpec PduProps Oid Vacm Lcd Usm UsmSpec Scapi UsersSpec Users UsmMsg UsmMsgSpec UsmWire UsmRound Enum Session Secmod Message MessageSpec AsnSafety UsmForward.

(** ** The form *)

Definition header_fields (session : netsnmp_session) (pdu : netsnmp_pdu) : list Z :=
  int_enc (m_msgid pdu) ++ int_enc (s_rcvMsgMaxSize session)
  ++ octets [snmpv3_calc_msg_flags (m_securityLevel pdu) (command (m_body pdu))]
  ++ int_enc (m_securityModel pdu).

Definition header (session : netsnmp_session) (pdu : netsnmp_pdu) : list Z :=
  int_enc (m_version pdu) ++ sequence (header_fields session pdu).

Definition scoped_fields (pdu : netsnmp_pdu) (body : list Z) : list Z :=
  octets (m_contextEngineID pdu) ++ octets (bytes_of (m_contextName pdu)) ++ body.

Definition scoped (pdu : netsnmp_pdu) (body : list Z) : list Z := sequence (scoped_fields pdu body).

(** ** The sender *)

Section sender.
Context `{Allocator}.

Lemma header_len session pdu : len (header_fields session pdu) <= 44 /\ len (header session pdu) <= 61.
Proof using Type.
  assert (Hint : forall v, 0 <= len (int_enc v) <= 13).
  { intros v. unfold int_enc, len. rewrite length_tlv, length_int_octets.
    pose proof (int_size_bounds v). pose proof (hdr_len_bound (Z.of_nat (int_size v))). lia. }
  unfold header. pose proof (sequence_len (header_fields session pdu)).
  rewrite len_app. pose proof (Hint (m_version pdu)).
  assert (len (header_fields session pdu) <= 44); [|lia].
  unfold header_fields. rewrite !len_app. change (len (octets [?x])) with 3.
  pose proof (Hint (m_msgid pdu)). pose proof (Hint (s_rcvMsgMaxSize session)). pose proof (Hint (m_securityModel pdu)). lia.
Qed.

Lemma header_rbuild_spec session pdu s :
  rb_ok s -> int_ok (m_version pdu) -> int_ok (m_msgid pdu) -> int_ok (s_rcvMsgMaxSize session) ->
  int_ok (m_securityModel pdu) ->
  wr true (len (header session pdu)) (snmpv3_header_realloc_rbuild session pdu s) s (header session pdu).
Proof using Type.
  intros Hs Hv Hid Hmax Hmodel. unfold snmpv3_header_realloc_rbuild.
  set (flags := [snmpv3_calc_msg_flags (m_securityLevel pdu) (command (m_body pdu))]).
  assert (Hflags : len_ok (len flags)) by done.
  assert (Hf : wr true (Z.of_nat (length (header_fields session pdu)))
    (s3 ← (s2 ← (s1 ← asn_realloc_rbuild_int true ASN_INTEGER (m_securityModel pdu) sizeof_long s;
                 rbuild_octets flags s1);
           asn_realloc_rbuild_int true ASN_INTEGER (s_rcvMsgMaxSize session) sizeof_long s2);
     asn_realloc_rbuild_int true ASN_INTEGER (m_msgid pdu) sizeof_long s3) s (header_fields session pdu)).
  { apply wr_seq; [done| |intros; by apply int_wr]. apply wr_seq; [done| |intros; by apply int_wr].
    apply wr_seq; [done|by apply int_wr|]. intros. by apply octets_wr. }
  assert (Hlen : len_ok (Z.of_nat (length (header_fields session pdu)))).
  { pose proof (header_len session pdu) as [? _]. unfold len_ok, len in *. lia. }
  pose proof (rbuild_construct 0x30 _ s _ Hs Hlen Hf) as Hc. rewrite construct_tlv in Hc.
  assert (Hall : wr true (len (header session pdu))
    (s5 ← (s4 ← (s3 ← (s2 ← (s1 ← asn_realloc_rbuild_int true ASN_INTEGER (m_securityModel pdu) sizeof_long s;
                 rbuild_octets flags s1);
           asn_realloc_rbuild_int true ASN_INTEGER (s_rcvMsgMaxSize session) sizeof_long s2);
     asn_realloc_rbuild_int true ASN_INTEGER (m_msgid pdu) sizeof_long s3);
     asn_realloc_rbuild_sequence true 0x30 (offset s4 - offset s) s4);
     asn_realloc_rbuild_int true ASN_INTEGER (m_version pdu) sizeof_long s5) s (header session pdu)).
  { apply wr_seq; [done|exact Hc|intros; by apply int_wr]. }
  rewrite !bind_assoc in Hall. exact Hall.
Qed.

(** The header goes in front of the PDU, whose length it counts. *)
Lemma scoped_rbuild_spec pdu body s rest :
  rb_ok s -> written s = body ++ rest -> len_ok (len (scoped_fields pdu body)) ->
  snmpv3_scopedPDU_header_realloc_rbuild pdu (len body) s = Null
  \/ exists s', snmpv3_scopedPDU_header_realloc_rbuild pdu (len body) s = Ret s' /\ rb_ok s'
      /\ written s' = scoped pdu body ++ rest.
Proof using Type.
  intros Hs Hw Hlen. unfold snmpv3_scopedPDU_header_realloc_rbuild. cbv zeta.
  assert (Hname : len_ok (len (bytes_of (m_contextName pdu)))) by (by apply (octets_small (octets (m_contextEngineID pdu)) _ body)).
  assert (Hengine : len_ok (len (m_contextEngineID pdu))) by (by apply (octets_small [] _ (octets (bytes_of (m_contextName pdu)) ++ body))).
  wr_chain (octets_wr (bytes_of (m_contextName pdu)) s Hs Hname). wr_chain (octets_wr (m_contextEngineID pdu) s0 Hs0 Hengine).
  assert (Hoff : offset s1 - offset s + len body = len (scoped_fields pdu body)).
  { rewrite <- (length_written s1), <- (length_written s), Hw1, Hw0 by done. change (Z.of_nat (length ?l)) with (len l).
    unfold scoped_fields. rewrite !len_app. lia. }
  rewrite Hoff. unfold asn_realloc_rbuild_sequence.
  destruct (wr_out _ _ _ _ (header_wr (Z.lor ASN_SEQUENCE ASN_CONSTRUCTOR) (scoped_fields pdu body) s1 Hs1 Hlen))
    as [E|(s2 & E & Hs2 & Hw2)]; [by left|].
  right. exists s2. split; [done|]. split; [done|]. rewrite Hw2, Hw1, Hw0, Hw. unfold scoped, sequence, scoped_fields.
  rewrite <- tlv_front. by rewrite <- !app_assoc.
Qed.
End sender.

(** ** What was built *)

Section built.
Context `{Platform, Allocator, Crypto} (lib : library).

(** The four numbers of the header are in range. *)
Definition header_ok (session : netsnmp_session) (pdu : netsnmp_pdu) : Prop :=
  int_ok (m_version pdu) /\ int_ok (m_msgid pdu) /\ int_ok (s_rcvMsgMaxSize session) /\ int_ok (m_securityModel pdu).

Definition scoped_pdu (pdu : netsnmp_pdu) (bs : list binding) : list Z :=
  scoped pdu (pdu_enc len_octets (m_body pdu) bs).

Lemma packet_rbuild_out fuel st session pdu s st' s' bs :
  snmpv3_packet_realloc_rbuild lib fuel st session pdu None s = Ret (st', inr s') ->
  rb_ok s -> offset s = 0 -> (3 <= fuel)%nat -> carried pdu bs -> header_ok session pdu ->
  len_ok (len (scoped_pdu pdu bs)) ->
  find_sec_mod (m_securityModel pdu) (secmods lib) = Some usm_secmod_def ->
  exists s1, rb_ok s1 /\ written s1 = scoped_pdu pdu bs
  /\ usm_rgenerate_out_msg st (header session pdu) (pointer (m_securityEngineID pdu))
       (bytes_of (m_securityName pdu)) (m_securityLevel pdu) (scoped_pdu pdu bs) (m_securityStateRef pdu) s1
     = Ret (st', inr s').
Proof using Type.
  intros E Hs Hoff Hf [Hp Hv Hb] (Hver & Hid & Hmax & Hmodel) Hlen Hmod. unfold snmpv3_packet_realloc_rbuild in E.
  assert (Hfields : len_ok (len (scoped_fields pdu (pdu_enc len_octets (m_body pdu) bs)))).
  { unfold scoped_pdu, scoped, len_ok in *. pose proof (sequence_len (scoped_fields pdu (pdu_enc len_octets (m_body pdu) bs))).
    pose proof (len_nonneg (scoped_fields pdu (pdu_enc len_octets (m_body pdu) bs))). lia. }
  pose proof (pdu_enc_small2 _ _ _ _ _ Hfields) as Hbody.
  pose proof (length_written s Hs) as Hw0. rewrite Hoff in Hw0.
  destruct (wr_out _ _ _ _ (snmp_pdu_realloc_rbuild_spec fuel _ bs s Hs Hf Hp Hv Hb Hbody))
    as [Hn|(s1 & Hr & Hs1 & Hw1)]; [by rewrite Hn in E|rewrite Hr in E; cbn [on_null] in E].
  assert (Ho : offset s1 - offset s = len (pdu_enc len_octets (m_body pdu) bs)).
  { rewrite (written_offset _ _ _ Hs Hs1 Hw1). unfold len. lia. }
  rewrite Ho in E.
  destruct (scoped_rbuild_spec pdu _ s1 _ Hs1 Hw1 Hfields) as [Hn|(s2 & Hr2 & Hs2 & Hw2)];
    [by rewrite Hn in E|rewrite Hr2 in E; cbn [on_null] in E].
  destruct (negb (alloc _)); [done|].
  set (hdrbuf := {| pkt := replicate (Z.to_nat SNMP_MAX_MSG_V3_HDRS) 0; offset := 0 |}) in E.
  assert (Hh : rb_ok hdrbuf) by (by vm_compute).
  destruct (wr_out _ _ _ _ (header_rbuild_spec session pdu hdrbuf Hh Hver Hid Hmax Hmodel))
    as [Hn|(hdr & Hr3 & Hs3 & Hw3)]; [by rewrite Hn in E|rewrite Hr3 in E; cbn [on_null] in E].
  rewrite Hmod in E. cbn [encode_reverse usm_secmod_def] in E. unfold usm_secmod_rgenerate_out_msg in E.
  cbn [globalData o_secEngineID o_secName o_secLevel o_scopedPdu o_secStateRef] in E.
  change (behind hdr) with (written hdr) in E. change (behind s2) with (written s2) in E.
  assert (Hw4 : written s2 = scoped_pdu pdu bs) by (rewrite Hw2; destruct (written s); [apply app_nil_r|done]).
  rewrite Hw3, Hw4 in E. change (written hdrbuf) with (@nil Z) in E. rewrite app_nil_r in E.
  exists s2. split; [done|]. split; [done|]. exact E.
Qed.

(** The message after its defaults. *)
Lemma snmp_build_v3 hole fuel st session pdu s st' session' pdu' pk :
  snmp_build lib hole fuel st session pdu s = Ret (st', session', pdu', inr pk) ->
  m_version pdu = SNMP_VERSION_3 -> reverse_encode lib = true ->
  exists session1 s', pk = Backward s' /\ m_version pdu' = SNMP_VERSION_3
  /\ s_rcvMsgMaxSize session1 = s_rcvMsgMaxSize session
  /\ snmpv3_packet_realloc_rbuild lib fuel st session1 pdu' None s = Ret (st', inr s').
Proof using Type.
  intros E Hver Hrev. unfold snmp_build in E.
  apply bind_Ret_inv in E as ([[[st1 session1] pdu1] r] & E & E2).
  destruct r as [e|pk1]; [done|]. injection E2 as -> -> -> ->. unfold _snmp_build in E. rewrite Hver, Z.eqb_refl in E.
  unfold snmpv3_build in E. destruct (check_v3_command _) as [e|p]; [done|].
  destruct (default_context _ _) as [e|pdu2] eqn:Ec; [done|]. apply bind_Ret_inv in E as (pdu3 & Em & E).
  destruct (default_name _ pdu3) as [e|[session4 pdu4]] eqn:En; [done|].
  destruct (default_level session4 pdu4) as [e|pdu5] eqn:El; [done|]. rewrite Hrev in E.
  apply bind_Ret_inv in E as ([st6 r] & E & E2). apply bind_Ret_inv in E as ([st7 r7] & Ep & E).
  injection E as <- <-. destruct r7 as [e|s7]; [done|]. injection E2 as <- _ <- <-.
  exists session4, s7. split; [done|].
  assert (H2 : m_version pdu2 = m_version pdu).
  { unfold default_context in Ec. unfold default_engines in Ec. repeat case_match; by simplify_eq. }
  assert (H3 : m_version pdu3 = m_version pdu2).
  { unfold default_model in Em. repeat (apply bind_Ret_inv in Em as (? & _ & Em) || case_match); by simplify_eq. }
  assert (H4 : m_version pdu4 = m_version pdu3 /\ s_rcvMsgMaxSize session4 = s_rcvMsgMaxSize session).
  { unfold default_name in En. repeat case_match; by simplify_eq. }
  assert (H5 : m_version pdu5 = m_version pdu4).
  { unfold default_level in El. repeat case_match; by simplify_eq. }
  destruct H4 as [H4 Hmax]. split; [congruence|]. split; [exact Hmax|]. exact Ep.
Qed.
End built.

(** ** The receiver *)

(** The numbers the parser lets through. *)
Record in_range (session : netsnmp_session) (pdu : netsnmp_pdu) : Prop := {
  r_version : m_version pdu = SNMP_VERSION_3;
  r_msgid : 0 <= m_msgid pdu <= 0x7fffffff;
  r_max_size : 484 <= s_rcvMsgMaxSize session <= 0x7fffffff;
  r_model : 1 <= m_securityModel pdu <= 0x7fffffff;
  r_level : 1 <= m_securityLevel pdu <= 3
}.

Lemma in_range_header_ok session pdu : in_range session pdu -> header_ok session pdu.
Proof. intros [Hv Hi Hm Hs Hl]. unfold header_ok, int_ok, INT32_MIN. rewrite Hv. unfold SNMP_VERSION_3. lia. Qed.

(** The reportable flag of the message put into the flags of the structure. *)
Definition message_flags (msg_flags f : Z) : Z :=
  if negb (Z.land msg_flags SNMP_MSG_FLAG_RPRT_BIT =? 0) then Z.lor f SNMP_MSG_FLAG_RPRT_BIT
  else Z.land f (Z.lnot SNMP_MSG_FLAG_RPRT_BIT).

Definition sent_flags (pdu : netsnmp_pdu) : Z := snmpv3_calc_msg_flags (m_securityLevel pdu) (command (m_body pdu)).

(** The structure once the header has been read. *)
Definition header_read (pdu pdu0 : netsnmp_pdu) : netsnmp_pdu :=
  let pdu1 := with_m_msgid (m_msgid pdu) (with_m_version (m_version pdu) pdu0) in
  with_m_body (with_flags (message_flags (sent_flags pdu) (flags (m_body pdu1))) (m_body pdu1)) pdu1.

Lemma level_of_flags pdu :
  1 <= m_securityLevel pdu <= 3 ->
  let auth := negb (Z.land (sent_flags pdu) SNMP_MSG_FLAG_AUTH_BIT =? 0) in
  let priv := negb (Z.land (sent_flags pdu) SNMP_MSG_FLAG_PRIV_BIT =? 0) in
  priv && negb auth = false
  /\ (if auth then if priv then SNMP_SEC_LEVEL_AUTHPRIV else SNMP_SEC_LEVEL_AUTHNOPRIV else SNMP_SEC_LEVEL_NOAUTH)
     = m_securityLevel pdu.
Proof.
  intros Hl. unfold sent_flags, snmpv3_calc_msg_flags.
  assert (m_securityLevel pdu = 1 \/ m_securityLevel pdu = 2 \/ m_securityLevel pdu = 3) as [-> |[-> | ->]] by lia;
    destruct (SNMP_CMD_CONFIRMED _); by vm_compute.
Qed.

Section receiver.
Context `{Platform, Allocator, Crypto} (lib : library).
Context (leftover : Z -> Z * option mem * Z).
Context (leftover_pdu : mem -> Z -> Z -> snmp_pdu -> snmp_pdu).
Context (leftover_names : mem -> Z -> list Z * list Z).

Lemma snmpv3_parse_header st session0 pdu0 m addr n session pdu fields body :
  in_range session pdu -> is_u64 n ->
  let content := header session pdu ++ security_parameters fields ++ body in
  len_ok (len content) -> bytes_at m 0 (whole_message (header session pdu) fields body) ->
  len (whole_message (header session pdu) fields body) <= n ->
  snmpv3_parse lib leftover leftover_pdu leftover_names st session0 pdu0 m addr n
  = parse_security lib leftover leftover_pdu leftover_names st
      (with_s_sndMsgMaxSize (s_rcvMsgMaxSize session) session0) (header_read pdu pdu0) m addr n
      (parameters_at (header session pdu) fields body) (s_rcvMsgMaxSize session) (sent_flags pdu)
      (m_securityModel pdu).
Proof using Type.
  intros Hr Hn content Hlen Hat Hle. pose proof (in_range_header_ok _ _ Hr) as (Hver & Hid & Hmax & Hmodel).
  destruct Hr as [Rv Ri Rm Rs Rl]. unfold snmpv3_parse. cbv zeta. unfold whole_message, sequence in Hat, Hle. fold content in Hat, Hle.
  destruct (tlv_parse m 0 n (Z.lor ASN_SEQUENCE ASN_CONSTRUCTOR) content Hn (or_intror eq_refl) Hlen Hat Hle) as [-> Hat1].
  cbn [on_null]. set (p1 := 0 + hdr_len (len content)) in *. unfold len_ok in Hlen.
  set (rest := security_parameters fields ++ body) in *.
  assert (Hc : content = int_enc (m_version pdu) ++ sequence (header_fields session pdu) ++ rest)
    by (unfold content, header; by rewrite <- app_assoc).
  assert (Hlc : len content = len (int_enc (m_version pdu)) + (len (sequence (header_fields session pdu)) + len rest))
    by (rewrite Hc, !len_app; lia).
  pose proof (len_nonneg (int_enc (m_version pdu))) as Hn1. pose proof (len_nonneg rest) as Hn2.
  pose proof (sequence_len (header_fields session pdu)) as Hsl. pose proof (len_nonneg (header_fields session pdu)) as Hn3.
  pose proof (header_len session pdu) as [Hhf _].
  rewrite Hc in Hat1.
  destruct (int_parse m p1 (len content) (m_version pdu) _ ltac:(cint) Hver Hat1) as [-> Hat2]; [by rewrite Hc|].
  cbn [on_null]. set (p2 := p1 + len (int_enc (m_version pdu))) in *.
  apply bytes_at_app in Hat2 as [Hat2 Hat3]. change (Z.of_nat (length ?l)) with (len l) in Hat3.
  destruct (tlv_parse m p2 (len content - len (int_enc (m_version pdu))) (Z.lor ASN_SEQUENCE ASN_CONSTRUCTOR)
    (header_fields session pdu)) as [-> Hat4]; [cint|by right|unfold len_ok; lia|exact Hat2|unfold sequence in *; lia|].
  cbn [on_null].
  replace (p2 + hdr_len (len (header_fields session pdu)) - p2) with (hdr_len (len (header_fields session pdu))) by lia.
  assert (Hsh : len (sequence (header_fields session pdu)) = hdr_len (len (header_fields session pdu)) + len (header_fields session pdu))
    by (unfold sequence, len; by rewrite length_tlv).
  rewrite u64_id by cint.
  set (dl := len content - len (int_enc (m_version pdu)) - hdr_len (len (header_fields session pdu))) in *.
  set (p3 := p2 + hdr_len (len (header_fields session pdu))) in *.
  assert (Hdl : dl = len (header_fields session pdu) + len rest) by (unfold dl; lia).
  assert (Hhl : len (header_fields session pdu)
    = len (int_enc (m_msgid pdu)) + (len (int_enc (s_rcvMsgMaxSize session)) + (3 + len (int_enc (m_securityModel pdu)))))
    by (unfold header_fields; by rewrite !len_app).
  unfold header_fields in Hat4. rewrite Hhl in Hdl.
  pose proof (len_nonneg (int_enc (m_msgid pdu))). pose proof (len_nonneg (int_enc (s_rcvMsgMaxSize session))).
  pose proof (len_nonneg (int_enc (m_securityModel pdu))).
  destruct (int_parse m p3 dl (m_msgid pdu) _ ltac:(cint) Hid Hat4) as [-> Hat5];
    [rewrite !len_app; change (len (octets [?x])) with 3; lia|]. cbn [on_null].
  destruct (Z.ltb_spec (m_msgid pdu) 0); [lia|]. destruct (Z.ltb_spec 0x7fffffff (m_msgid pdu)); [lia|]. cbn [orb].
  destruct (int_parse m _ (dl - len (int_enc (m_msgid pdu))) (s_rcvMsgMaxSize session) _ ltac:(cint) Hmax Hat5) as [-> Hat6];
    [rewrite !len_app; change (len (octets [?x])) with 3; lia|]. cbn [on_null].
  destruct (Z.ltb_spec (s_rcvMsgMaxSize session) 484); [lia|].
  destruct (Z.ltb_spec 0x7fffffff (s_rcvMsgMaxSize session)); [lia|]. cbn [orb].
  fold (sent_flags pdu) in Hat6.
  destruct (octets_parse m _ (dl - len (int_enc (m_msgid pdu)) - len (int_enc (s_rcvMsgMaxSize session))) [sent_flags pdu]
    SNMP_MAX_MSG_SIZE _ ltac:(cint) ltac:(done) ltac:(done) Hat6) as [-> Hat7];
    [rewrite !len_app; change (len (octets [?x])) with 3; lia|]. cbn [on_null]. rewrite Z.eqb_refl. cbn [negb].
  change (len (octets [?x])) with 3 in *.
  rewrite <- (app_nil_r (int_enc (m_securityModel pdu))) in Hat7.
  destruct (int_parse m _ (dl - len (int_enc (m_msgid pdu)) - len (int_enc (s_rcvMsgMaxSize session)) - 3)
    (m_securityModel pdu) [] ltac:(cint) Hmodel Hat7) as [-> _]; [rewrite app_nil_r; lia|]. cbn [on_null].
  destruct (Z.ltb_spec (m_securityModel pdu) 1); [lia|]. destruct (Z.ltb_spec 0x7fffffff (m_securityModel pdu)); [lia|].
  cbn [orb]. unfold header_read, message_flags. f_equal.
  unfold parameters_at. fold rest. fold content. unfold header. rewrite len_app, Hsh, Hhl. unfold p3, p2, p1. rewrite Hhl. lia.
Qed.
End receiver.

Section places.
Context `{Platform, Allocator, Crypto}.
Hypothesis Halloc : forall k, k <= 65536 -> alloc k = true.

(** The structure once the scoped PDU has been opened. *)
Definition scoped_read (pdu pdu0 : netsnmp_pdu) : netsnmp_pdu :=
  set_command (command (m_body pdu))
    (with_m_contextName (Some (bytes_of (m_contextName pdu)))
      (with_m_contextEngineID (m_contextEngineID pdu) (set_command 0 pdu0))).

Lemma scopedPDU_parse_spec m pdu0 cp dl pdu bs :
  carried pdu bs -> len_ok (len (scoped_pdu pdu bs)) -> is_u64 dl ->
  len (m_contextEngineID pdu) <= len (m_contextEngineID pdu0) ->
  len (bytes_of (m_contextName pdu)) <= SNMP_MAX_CONTEXT_SIZE ->
  bytes_at m cp (scoped_pdu pdu bs) -> len (scoped_pdu pdu bs) <= dl ->
  exists data dl', snmpv3_scopedPDU_parse m pdu0 cp dl = Ret (scoped_read pdu pdu0, Some (data, dl'))
  /\ bytes_at m data (pdu_enc len_octets (m_body pdu) bs)
  /\ len (pdu_enc len_octets (m_body pdu) bs) <= dl' /\ is_u64 dl'.
Proof using Halloc.
  intros [Hp Hv Hb] Hlen Hdl Hengine Hname Hat Hle. unfold snmpv3_scopedPDU_parse.
  unfold scoped_pdu, scoped in *. set (enc := pdu_enc len_octets (m_body pdu) bs) in *.
  set (fields := scoped_fields pdu enc) in *. pose proof (sequence_len fields) as Hsl. pose proof (len_nonneg fields).
  assert (Hfl : len_ok (len fields)) by (unfold len_ok in *; lia).
  assert (Hsh : len (sequence fields) = hdr_len (len fields) + len fields) by (unfold sequence, len; by rewrite length_tlv).
  destruct (tlv_parse m cp dl (Z.lor ASN_SEQUENCE ASN_CONSTRUCTOR) fields Hdl (or_intror eq_refl) Hfl Hat Hle) as [-> Hat1].
  cbn [on_null]. replace (cp + hdr_len (len fields) - cp) with (hdr_len (len fields)) by lia.
  assert (Hh : 0 <= hdr_len (len fields)) by (unfold hdr_len; lia). rewrite u64_id by cint.
  set (dl1 := dl - hdr_len (len fields)) in *. assert (Hdl1 : len fields <= dl1 /\ is_u64 dl1) by (split; [lia|cint]).
  assert (Hlf : len fields = len (octets (m_contextEngineID pdu)) + (len (octets (bytes_of (m_contextName pdu))) + len enc))
    by (unfold fields, scoped_fields; by rewrite !len_app).
  pose proof (octets_len (m_contextEngineID pdu)). pose proof (octets_len (bytes_of (m_contextName pdu))).
  pose proof (len_nonneg (m_contextEngineID pdu)). pose proof (len_nonneg (bytes_of (m_contextName pdu))).
  pose proof (len_nonneg enc) as Henc. destruct Hdl1 as [Hd1 Hd2].
  set (p1 := cp + hdr_len (len fields)) in *. unfold fields, scoped_fields in Hat1.
  cbn [m_contextEngineID set_command with_m_body].
  destruct (octets_parse m p1 dl1 (m_contextEngineID pdu) (len (m_contextEngineID pdu0)) _ Hd2
    ltac:(unfold len_ok in *; lia) Hengine Hat1) as [-> Hat2]; [rewrite !len_app; lia|]. cbn [on_null].
  destruct (octets_parse m _ (dl1 - len (octets (m_contextEngineID pdu))) (bytes_of (m_contextName pdu))
    SNMP_MAX_CONTEXT_SIZE _ ltac:(cint) ltac:(unfold len_ok in *; lia) Hname Hat2) as [-> Hat3]; [rewrite !len_app; lia|].
  cbn [on_null]. rewrite Halloc by (unfold SNMP_MAX_CONTEXT_SIZE in *; destruct (_ =? _); lia).
  rewrite bool_decide_false by done.
  set (dl2 := dl1 - len (octets (m_contextEngineID pdu)) - len (octets (bytes_of (m_contextName pdu)))) in *.
  set (data := _ + len (octets (bytes_of (m_contextName pdu)))) in *.
  assert (Hdl2 : len enc <= dl2 /\ is_u64 dl2) by (split; [lia|cint]). destruct Hdl2 as [Hd3 Hd4].
  assert (Hbody : len_ok (Z.of_nat (length (pdu_body len_octets (m_body pdu) bs)))).
  { apply (pdu_enc_small2 _ (octets (m_contextEngineID pdu)) (octets (bytes_of (m_contextName pdu)))). exact Hfl. }
  destruct (command_tag _ Hp) as (_ & Hext & Hop).
  rewrite (header_constructed m data dl2 (command (m_body pdu)) _ (pdu_body len_octets (m_body pdu) bs) Hd4 Hext Hop
    ltac:(unfold len_ok in *; lia) (len_octets_form_ok _ Hbody) Hat3 Hd3).
  cbn [on_null]. exists data, dl2. split; [done|]. split; [exact Hat3|]. by split.
Qed.

(** The bytes read are there. *)
Lemma rd_n_there m p n l : rd_n m p (Z.to_nat n) = Ret l -> l <> [] -> bytes_at m p l /\ n = len l.
Proof using Type.
  intros Hr Hne. assert (Hg : forall k p l, rd_n m p k = Ret l -> bytes_at m p l /\ length l = k).
  { clear. induction k as [|k IH]; intros p l; cbn [rd_n].
    - by intros [= <-].
    - intros (b & Hb & (l1 & Hl1 & [= <-])%bind_Ret_inv)%bind_Ret_inv. apply IH in Hl1 as [? <-]. cbn [bytes_at length]. auto. }
  apply Hg in Hr as [Hat Hl]. split; [done|]. unfold len. destruct l; [done|]. cbn [length] in *. lia.
Qed.

(** The PDU stands where the security model says it does. *)
Lemma place_there room res scoped m cp dl :
  carries res scoped -> scoped <> [] -> len scoped <= 65536 ->
  place room (r_params res) (r_scopedPdu res) = (m, cp, dl) ->
  bytes_at m cp scoped /\ len scoped <= dl /\ is_u64 dl.
Proof using Type.
  unfold carries. intros Hc Hne Hl. destruct (r_scopedPdu res) as [p n|l]; cbn [place]; intros [= <- <- <-].
  - apply rd_n_there in Hc as [Hat ->]; [|done]. split; [done|]. split; [lia|]. pose proof (len_nonneg scoped). cint.
  - destruct Hc as (pad & -> & Hpad). rewrite <- app_assoc. split; [apply bytes_at_start|].
    rewrite len_app. pose proof (len_nonneg scoped). pose proof (len_nonneg pad). split; [lia|cint].
Qed.
End places.

(** ** From end to end *)

Section ends.
Context `{Platform, Allocator, Crypto}.

(** The sender: its security data for the message, which is not answered
    with another level than the message says, and its clock. *)
Record sends (st : usm) (pdu : netsnmp_pdu) (bs : list binding) (sec : security) (boots time : Z) : Prop := {
  s_security : find_security st (pointer (m_securityEngineID pdu)) (bytes_of (m_securityName pdu))
                 (m_securityLevel pdu) (m_securityStateRef pdu) = Some sec;
  s_level : theSecLevel sec = m_securityLevel pdu;
  s_clock : exists rc c, get_enginetime (clocks st) (theEngineID sec) false = Ret (rc, boots, time, c);
  s_tuple : tuple_ok boots time;
  s_bytes : bytes_ok (scoped_pdu pdu bs);
  s_small : len (scoped_pdu pdu bs) <= 64000;
  s_id : len (id_of sec) <= 2 * SNMP_MAX_ENG_SIZE;
  s_name : len (theName sec) <= 32
}.

(** Small enough for the allocator. *)
Definition user_fits (user : usmUser) : Prop :=
  oid_len (u_authProtocol user) <= 8192 /\ oid_len (u_authKey user) <= 65536
  /\ oid_len (u_privProtocol user) <= 8192 /\ oid_len (u_privKey user) <= 65536.

(** The receiver: it knows the engine, has the user with the sender's keys,
    and finds the message in time. *)
Record receives (st : usm) (session : netsnmp_session) (sec : security) (msg_flags boots time : Z)
    (user : usmUser) (c : lcd) : Prop := {
  v_user : usm_get_user_from_list (Some (id_of sec)) (Some (c_string (theName sec))) (userList st) (noNameUser st)
             (use_default (Some (s_isAuthoritative session))) = Some user;
  v_active : u_userStatus user = RS_ACTIVE;
  v_level : usm_check_secLevel (theSecLevel sec) user = Ret 0;
  v_shares : shares user sec;
  v_fits : user_fits user;
  v_clock : exists c1, locate_engine (clocks st) (Some (s_isAuthoritative session)) msg_flags (id_of sec) = Ret (c1, None)
            /\ clock_takes (theSecLevel sec) c1 (id_of sec) boots time c
}.

(** What the receiver's structure holds of the message. *)
Definition v3_received (pdu0 pdu pdu' : netsnmp_pdu) (sec : security) : Prop :=
  m_version pdu' = SNMP_VERSION_3 /\ m_msgid pdu' = m_msgid pdu
  /\ m_securityModel pdu' = m_securityModel pdu /\ m_securityLevel pdu' = m_securityLevel pdu
  /\ m_securityEngineID pdu' = id_of sec /\ m_securityName pdu' = Some (theName sec)
  /\ m_contextEngineID pdu' = m_contextEngineID pdu
  /\ m_contextName pdu' = Some (bytes_of (m_contextName pdu))
  /\ m_body pdu' = parse_result (with_flags (message_flags (sent_flags pdu) (flags (m_body pdu0))) (m_body pdu0))
                     (m_body pdu).

Hypothesis Halloc : forall k, k <= 65536 -> alloc k = true.

Lemma make_entry_some size item : 0 <= size -> oid_len item * size <= 65536 -> exists e, MAKE_ENTRY size item = Some e.
Proof using Halloc.
  intros Hs Hl. unfold MAKE_ENTRY. destruct item as [[|x l]|]; [by eexists| |by eexists].
  cbn [oid_len] in Hl. rewrite Halloc by done. by eexists.
Qed.

Lemma reference_some q level user : user_fits user -> len (p_secName q) <= 65536 -> len (p_secEngineID q) <= 65536 ->
  is_Some (reference true q level user).
Proof using Halloc.
  intros (H2 & H3 & H4 & H5) Hn Hi. unfold reference, usm_malloc_usmStateReference.
  rewrite Halloc by done. cbn [mbind option_bind]. unfold cache_names.
  destruct (make_entry_some 1 (Some (p_secName q)) ltac:(lia) ltac:(cbn [oid_len]; lia)) as [e1 ->].
  destruct (make_entry_some 1 (Some (p_secEngineID q)) ltac:(lia) ltac:(cbn [oid_len]; lia)) as [e2 ->].
  cbn [mbind option_bind]. unfold cache_user.
  destruct (make_entry_some 8 (u_authProtocol user) ltac:(lia) ltac:(lia)) as [e3 ->].
  destruct (make_entry_some 1 (u_authKey user) ltac:(lia) ltac:(lia)) as [e4 ->].
  destruct (make_entry_some 8 (u_privProtocol user) ltac:(lia) ltac:(lia)) as [e5 ->].
  destruct (make_entry_some 1 (u_privKey user) ltac:(lia) ltac:(lia)) as [e6 ->]. by eexists.
Qed.

Lemma protected_big st sec boots time pdu iv body st' : protected st sec boots time pdu iv body st' ->
  bytes_ok pdu -> len pdu <= len body.
Proof using Type.
  unfold protected. intros Hp Hb. revert Hp. destruct (theSecLevel sec =? SNMP_SEC_LEVEL_AUTHPRIV).
  - intros (t & k & salt & ct & Ht & Hk & Hsalt & Henc & ->).
    apply sc_encrypt_spec in Henc as (Hl & _); [|done|lia]. pose proof (octets_len ct).
    pose proof (len_nonneg (pad_of t pdu)). lia.
  - intros (_ & -> & _). lia.
Qed.

Lemma parameters_big fields : 4 <= len (security_parameters fields).
Proof using Type.
  unfold security_parameters. pose proof (octets_len (sequence fields)). pose proof (sequence_len fields).
  pose proof (len_nonneg fields). lia.
Qed.

(** There is room for what is decrypted. *)
Lemma room_enough session pdu fields body n level :
  level = SNMP_SEC_LEVEL_AUTHPRIV -> len n <= len body ->
  len n + 7 <= pdu_room (len (whole_message (header session pdu) fields body)) level.
Proof using Type.
  intros -> Hn. pose proof (parameters_there (header session pdu) fields body) as (_ & _ & Hl). unfold parameters_at in Hl.
  pose proof (parameters_big fields). assert (3 <= len (header session pdu)).
  { unfold header. rewrite len_app. pose proof (sequence_len (header_fields session pdu)).
    pose proof (len_nonneg (header_fields session pdu)). unfold int_enc, len at 1. rewrite length_tlv, length_int_octets.
    pose proof (hdr_len_bound (Z.of_nat (int_size (m_version pdu)))). pose proof (int_size_bounds (m_version pdu)). lia. }
  assert (0 <= hdr_len (len (header session pdu ++ security_parameters fields ++ body))) by (unfold hdr_len; lia).
  unfold pdu_room, SNMP_MAX_MSG_SIZE. destruct (Z.ltb_spec 1472 (len (whole_message (header session pdu) fields body)));
    rewrite ?Z.eqb_refl; cbn [andb]; lia.
Qed.

Section receipt.
Context (lib : library) (leftover : Z -> Z * option mem * Z).
Context (leftover_pdu : mem -> Z -> Z -> snmp_pdu -> snmp_pdu).
Context (leftover_names : mem -> Z -> list Z * list Z).

(** The structure handed to the security model. *)
Definition security_read (pdu pdu0 : netsnmp_pdu) : netsnmp_pdu :=
  let zeros n := replicate (Z.to_nat n) 0 in
  with_m_securityName (Some (zeros SNMP_MAX_SEC_NAME_SIZE))
    (with_m_securityEngineID (zeros (SNMP_MAX_ENG_SIZE * 2))
      (with_m_contextEngineID (zeros SNMP_MAX_ENG_SIZE)
        (with_m_securityLevel (m_securityLevel pdu) (with_m_securityModel (m_securityModel pdu) (header_read pdu pdu0))))).

(** A message the model takes is opened. *)
Lemma parse_scoped_spec st st' session pdu0 pdu bs m addr n p msg_max_size msg_flags ref res :
  let pdu1 := security_read pdu pdu0 in
  usm_process_in_msg st msg_max_size m addr p (m_securityLevel pdu) n true (Some (s_isAuthoritative session))
    msg_flags 64 256 (pdu_room n (m_securityLevel pdu)) = Ret (st', ref, inr res) ->
  carries res (scoped_pdu pdu bs) -> carried pdu bs -> len (scoped_pdu pdu bs) <= 64000 -> n <= 65536 ->
  len (m_contextEngineID pdu) <= SNMP_MAX_ENG_SIZE -> len (bytes_of (m_contextName pdu)) <= SNMP_MAX_CONTEXT_SIZE ->
  length (agent_addr (m_body pdu0)) = 4%nat ->
  parse_scoped leftover leftover_pdu leftover_names st session pdu1 usm_secmod_def m addr n p msg_max_size msg_flags
  = Ret (st', session,
         with_m_body (parse_result (m_body (header_read pdu pdu0)) (m_body pdu))
           (scoped_read pdu
             (with_m_securityStateRef ref (with_m_securityName (Some (p_secName (r_params res)))
               (with_m_securityEngineID (p_secEngineID (r_params res)) pdu1)))), SNMPERR_SUCCESS).
Proof using Halloc.
  intros pdu1 E Hcar Hc Hsmall Hn Heng Hname Haddr. unfold parse_scoped, decode_message.
  cbn [decode usm_secmod_def]. change (m_securityLevel pdu1) with (m_securityLevel pdu).
  assert (Hroom : pdu_room n (m_securityLevel pdu) <= 65536)
    by (unfold pdu_room, SNMP_MAX_MSG_SIZE; destruct (_ && _); lia).
  rewrite (Halloc _ Hroom). rewrite andb_false_r. unfold usm_secmod_process_in_msg.
  cbn [i_maxMsgSize i_wholeMsg i_wholeMsg_addr i_secParams i_secLevel i_wholeMsgLen i_isAuthoritative i_msg_flags
       i_secEngineIDLen i_secNameLen i_scopedPduLen].
  change (len (m_securityEngineID pdu1)) with 64. change (len (bytes_of (m_securityName pdu1))) with 256.
  rewrite E, !bind_ret. cbn [d_names d_secStateRef d_scopedPdu d_result].
  destruct (place _ _ _) as [[m1 cp] dl] eqn:Ep.
  pose proof (sequence_len (scoped_fields pdu (pdu_enc len_octets (m_body pdu) bs))) as Hsl.
  pose proof (len_nonneg (scoped_fields pdu (pdu_enc len_octets (m_body pdu) bs))) as Hnn.
  assert (Hfl : len_ok (len (scoped_fields pdu (pdu_enc len_octets (m_body pdu) bs))))
    by (unfold len_ok, scoped_pdu, scoped in *; lia).
  assert (Hso : len_ok (len (scoped_pdu pdu bs))) by (pose proof (len_nonneg (scoped_pdu pdu bs)); unfold len_ok; lia).
  apply (place_there _ _ (scoped_pdu pdu bs)) in Ep as (Hat & Hle & Hdl); [|done| |lia].
  2: { intros E0. unfold scoped_pdu, scoped in E0. rewrite E0 in Hsl. change (len []) with 0 in Hsl. lia. }
  rewrite bind_ret.
  set (pdu2 := with_m_securityStateRef ref _).
  destruct (scopedPDU_parse_spec Halloc m1 pdu2 cp dl pdu bs Hc Hso Hdl) as (data & dl' & -> & Hat2 & Hle2 & Hdl2);
    [exact Heng|exact Hname|exact Hat|exact Hle|].
  rewrite bind_ret. destruct Hc as [Hp Hv Hb].
  assert (Hbody : len_ok (Z.of_nat (length (pdu_body len_octets (m_body pdu) bs)))).
  { apply (pdu_enc_small2 _ (octets (m_contextEngineID pdu)) (octets (bytes_of (m_contextName pdu)))).
    exact Hfl. }
  rewrite (pdu_parse_spec leftover leftover_pdu Halloc len_octets m1 data dl' _ (m_body pdu) bs)
    by first [done|apply len_octets_form_ok]. done.
Qed.

(** What [usm_rgenerate_out_msg] made of a message is read. *)
Lemma snmpv3_message stA stA' sessionA pdu bs sec boots time s1 s' st session pdu0 addr user c :
  usm_rgenerate_out_msg stA (header sessionA pdu) (pointer (m_securityEngineID pdu))
    (bytes_of (m_securityName pdu)) (m_securityLevel pdu) (scoped_pdu pdu bs) (m_securityStateRef pdu) s1
  = Ret (stA', inr s') ->
  rb_ok s1 -> written s1 = scoped_pdu pdu bs -> carried pdu bs -> in_range sessionA pdu ->
  sends stA pdu bs sec boots time -> receives st session sec (sent_flags pdu) boots time user c ->
  find_sec_mod (m_securityModel pdu) (secmods lib) = Some usm_secmod_def ->
  len (m_contextEngineID pdu) <= SNMP_MAX_ENG_SIZE -> len (bytes_of (m_contextName pdu)) <= SNMP_MAX_CONTEXT_SIZE ->
  length (agent_addr (m_body pdu0)) = 4%nat ->
  exists pdu', snmpv3_parse lib leftover leftover_pdu leftover_names st session pdu0 (written s') addr (len (written s'))
    = Ret (with_clocks c st, with_s_sndMsgMaxSize (s_rcvMsgMaxSize sessionA) session, pdu', SNMPERR_SUCCESS)
  /\ v3_received pdu0 pdu pdu' sec
  /\ snmp_parse_version (written s') (len (written s')) = Ret SNMP_VERSION_3.
Proof using Halloc.
  intros E Hs1 Hw1 Hc Hr [Ssec Slvl (rc & c0 & Sclock) Stup Sbytes Ssmall Sid Sname] [Vuser Vact Vlvl Vsh Vfit (c1 & Vloc & Vclock)]
    Hmod Heng Hname Haddr.
  assert (Hints : int_ok boots /\ int_ok time).
  { unfold tuple_ok, ENGINEBOOT_MAX, ENGINETIME_MAX in Stup. unfold int_ok, INT32_MIN. lia. }
  pose proof (header_len sessionA pdu) as [_ Hhl]. unfold SNMP_MAX_ENG_SIZE in Sid.
  assert (Hsize : len (header sessionA pdu) + len (id_of sec) + len (theName sec) + len (scoped_pdu pdu bs) + 500 < 65536) by lia.
  destruct (rgenerate_out _ _ _ _ _ _ _ _ _ _ _ _ _ _ _ E Ssec Sclock (proj1 Hints) (proj2 Hints) Hs1 Sbytes
              (fun _ => Hw1) Hsize) as (iv & signature & body & _ & Hw & Hsig & Hprot).
  set (fields := usm_fields (id_of sec) boots time (theName sec) signature iv) in *.
  set (m := whole_message (header sessionA pdu) fields body) in *.
  set (room := pdu_room (len m) (m_securityLevel pdu)).
  destruct (received_accepts _ _ _ _ _ _ _ _ (header sessionA pdu) signature st (s_rcvMsgMaxSize sessionA) addr
    (Some (s_isAuthoritative session)) (sent_flags pdu) 64 256 room user c1 c Hprot Sbytes Hsig Hsize Stup Vloc Vuser Vact Vlvl
    Vsh Vclock ltac:(lia) Sname ltac:(lia) ltac:(by vm_compute)) as (res & Hacc & Hsame & Hcar).
  { intros Hl. apply room_enough; [congruence|]. eapply protected_big; eassumption. }
  fold fields in Hacc. fold m in Hacc. destruct Hsame as (Hi & _ & _ & Hn).
  assert (Href : is_Some (reference true (r_params res) (theSecLevel sec) user))
    by (apply reference_some; [exact Vfit|rewrite Hn; lia|rewrite Hi; lia]).
  pose proof (accepts_process _ _ _ _ _ _ _ true _ _ _ _ _ _ _ _ _ Hacc (fun _ => Href)) as Hproc.
  rewrite Slvl in Hproc. rewrite Hw. fold m.
  assert (Hcl : len_ok (len (header sessionA pdu ++ security_parameters fields ++ body)) /\ len m <= 65536).
  { destruct (protected_small _ _ _ _ _ _ _ _ Hprot Sbytes) as [Hbody Hiv].
    pose proof (signed_length _ _ _ Hsig) as Hsl.
    pose proof (message_small (header sessionA pdu) (id_of sec) boots time (theName sec) signature iv body
      ltac:(unfold len; rewrite Hsl; destruct (is_auth _); lia) Hiv) as Hcont. fold fields in Hcont.
    unfold m, whole_message. pose proof (sequence_len (header sessionA pdu ++ security_parameters fields ++ body)).
    pose proof (len_nonneg (header sessionA pdu ++ security_parameters fields ++ body)). unfold len_ok. lia. }
  destruct Hcl as [Hcl Hml]. pose proof (bytes_at_start m []) as Hat. rewrite app_nil_r in Hat.
  pose proof (len_nonneg m).
  rewrite (snmpv3_parse_header lib leftover leftover_pdu leftover_names st session pdu0 m addr (len m) sessionA pdu fields body)
    by first [done|cint|lia].
  unfold parse_security. rewrite Hmod. destruct (level_of_flags pdu (r_level _ _ Hr)) as [-> ->].
  rewrite !Halloc by done. cbn [andb negb].
  pose proof (parse_scoped_spec st (with_clocks c st) (with_s_sndMsgMaxSize (s_rcvMsgMaxSize sessionA) session) pdu0 pdu bs m addr (len m)
    (parameters_at (header sessionA pdu) fields body) (s_rcvMsgMaxSize sessionA) (sent_flags pdu) _ res Hproc Hcar Hc Ssmall Hml
    Heng Hname Haddr) as Hparse.
  unfold security_read in Hparse. cbv zeta in Hparse. rewrite Hparse. eexists. split; [reflexivity|].
  clear Hparse Hproc Hacc. split.
  - unfold v3_received, scoped_read, set_command, header_read. cbn. rewrite (r_version _ _ Hr), Hi, Hn. by repeat split.
  - pose proof (r_version _ _ Hr) as Hv. unfold m, whole_message, header in *. rewrite Hv in *.
    rewrite <- !app_assoc in *. apply (parse_version_spec len_octets _ _ SNMP_VERSION_3
      (sequence (header_fields sessionA pdu) ++ security_parameters fields ++ body));
      first [done|apply len_octets_form_ok|cint|lia].
Qed.
End receipt.
End ends.

(** * What is checked of a message of version 3

    The conditions under which snmplib/snmp_api.c takes a message, what it
    makes of an error, and the numbers it gives its messages. *)

(** ** Splitting a run *)

Lemma on_null_inv {A B} (r : outcome A) (d : B) k b :
  on_null r d k = Ret b -> (r = Null /\ b = d) \/ exists a, r = Ret a /\ k a = Ret b.
Proof. destruct r; cbn; intros E; try done; [right; eauto|left; by injection E]. Qed.

(** A failure of the call is not what was returned. *)
Ltac called E := let a := fresh "a" in let Ha := fresh "Ha" in
  apply on_null_inv in E as [[_ E]|(a & Ha & E)]; [try discriminate E|].

Lemma asn_parse_string_fits m data dl strlength q t s dl' : 0 <= strlength ->
  asn_parse_string m data dl strlength = Ret (q, t, s, dl') -> len s <= strlength.
Proof.
  intros Hs. unfold asn_parse_string. intros (b & _ & E)%bind_Ret_inv. destruct (_ && _); [done|].
  apply bind_Ret_inv in E as ([p n] & _ & E). destruct (Z.ltb_spec strlength n); [done|].
  apply bind_Ret_inv in E as (l & Hl & [= _ _ <- _]).
  assert (Hlen : forall k p l, rd_n m p k = Ret l -> length l = k).
  { clear. induction k as [|k IH]; intros p l; cbn [rd_n]; [by intros [= <-]|].
    intros (b & _ & (l1 & Hl1 & [= <-])%bind_Ret_inv)%bind_Ret_inv. cbn. by rewrite (IH _ _ Hl1). }
  apply Hlen in Hl. unfold len. rewrite Hl. lia.
Qed.

(** A parser moves forward, and what is left stays small. *)
Definition forward (p n q n' : Z) : Prop := p <= q /\ 0 <= n' < 2 ^ 62.

Lemma asn_parse_int_forward m p n size q t v n' : bytes_ok m -> 0 <= p -> 0 <= n < 2 ^ 62 ->
  asn_parse_int m p n size = Ret (q, t, v, n') -> forward p n q n'.
Proof.
  intros Hm Hp Hn E. pose proof (asn_parse_int_safe m Hm p n Hp Hn size) as Hs. rewrite E in Hs.
  unfold ends, forward in *. cbn in Hs. lia.
Qed.

Lemma asn_parse_string_forward m p n size q t s n' : bytes_ok m -> 0 <= p -> 0 <= n < 2 ^ 62 ->
  asn_parse_string m p n size = Ret (q, t, s, n') -> forward p n q n'.
Proof.
  intros Hm Hp Hn E. pose proof (asn_parse_string_safe m Hm p n Hp Hn size) as Hs. rewrite E in Hs.
  unfold ends, forward in *. cbn in Hs. lia.
Qed.

Lemma asn_parse_sequence_forward m p n expected q t n' : bytes_ok m -> 0 <= p -> 0 <= n < 2 ^ 62 ->
  asn_parse_sequence m p n expected = Ret (q, t, n') -> forward p n q n' /\ forward p n q (u64 (n - (q - p))).
Proof.
  intros Hm Hp Hn E. apply asn_parse_sequence_out in E; [|done|done]. unfold forward.
  rewrite u64_id by cint. lia.
Qed.

(** ** What is accepted *)

Section accepted.
Context `{Platform, Allocator, Crypto} (lib : library).
Context (leftover : Z -> Z * option mem * Z).
Context (leftover_pdu : mem -> Z -> Z -> snmp_pdu -> snmp_pdu).
Context (leftover_names : mem -> Z -> list Z * list Z).

(** The security model that let the message through, and its parameters. *)
Definition let_through (st : usm) (session : netsnmp_session) (m : mem) (length sec_params : Z) (st' : usm)
    (pdu : netsnmp_pdu) : Prop :=
  exists sptr decode p d,
    find_sec_mod (m_securityModel pdu) (secmods lib) = Some sptr /\ Secmod.decode sptr = Some decode
    /\ i_wholeMsg p = m /\ i_wholeMsgLen p = length /\ i_secModel p = m_securityModel pdu
    /\ i_secLevel p = m_securityLevel pdu /\ i_isAuthoritative p = s_isAuthoritative session
    /\ i_secEngineIDLen p = 64 /\ i_secNameLen p = 256 /\ i_secParams p = sec_params
    /\ decode st p = Ret (st', d) /\ d_result d = SNMPERR_SUCCESS
    /\ m_securityStateRef pdu = d_secStateRef d
    /\ (forall engine name, d_names d = Some (engine, name) ->
          m_securityEngineID pdu = engine /\ m_securityName pdu = Some name).

(** The ranges of the fields. *)
Record well_formed (session : netsnmp_session) (pdu : netsnmp_pdu) : Prop := {
  w_msgid : 0 <= m_msgid pdu <= 0x7fffffff;
  w_max_size : 484 <= s_sndMsgMaxSize session <= 0x7fffffff;
  w_model : 1 <= m_securityModel pdu <= 0x7fffffff;
  w_level : m_securityLevel pdu = SNMP_SEC_LEVEL_NOAUTH \/ m_securityLevel pdu = SNMP_SEC_LEVEL_AUTHNOPRIV
            \/ m_securityLevel pdu = SNMP_SEC_LEVEL_AUTHPRIV;
  w_contextEngineID : len (m_contextEngineID pdu) <= SNMP_MAX_ENG_SIZE;
  w_contextName : exists name, m_contextName pdu = Some name /\ len name <= SNMP_MAX_CONTEXT_SIZE
}.

(** What the opened PDU leaves of the structure. *)
Definition same_security (pdu pdu' : netsnmp_pdu) : Prop :=
  m_msgid pdu' = m_msgid pdu /\ m_securityModel pdu' = m_securityModel pdu
  /\ m_securityLevel pdu' = m_securityLevel pdu /\ m_securityEngineID pdu' = m_securityEngineID pdu
  /\ m_securityName pdu' = m_securityName pdu /\ m_securityStateRef pdu' = m_securityStateRef pdu.

Lemma scopedPDU_parse_inv m pdu cp dl pdu' data dl' : len (m_contextEngineID pdu) <= SNMP_MAX_ENG_SIZE ->
  snmpv3_scopedPDU_parse m pdu cp dl = Ret (pdu', Some (data, dl')) ->
  same_security pdu pdu' /\ len (m_contextEngineID pdu') <= SNMP_MAX_ENG_SIZE
  /\ exists name, m_contextName pdu' = Some name /\ len name <= SNMP_MAX_CONTEXT_SIZE.
Proof.
  intros Hroom E. unfold snmpv3_scopedPDU_parse in E. cbv zeta in E. called E. destruct a as [[data0 t0] h0].
  called E. destruct a as [[[data1 t1] engine] dl1]. called E. destruct a as [[[data2 t2] name] dl2].
  destruct (alloc _); cbn in E; [|discriminate E]. called E. destruct a as [[q type] k]. injection E as <- _ _.
  apply asn_parse_string_fits in Ha0; [|unfold len; lia]. apply asn_parse_string_fits in Ha1; [|done].
  split; [done|]. split; [etransitivity; [exact Ha0|exact Hroom]|]. by exists name.
Qed.

Lemma pdu_parse_inv m data dl pdu pdu' ret : pdu_parse leftover leftover_pdu m data dl pdu = Ret (pdu', ret) ->
  same_security pdu pdu' /\ m_contextEngineID pdu' = m_contextEngineID pdu /\ m_contextName pdu' = m_contextName pdu.
Proof.
  unfold pdu_parse. intros E. apply on_null_inv in E as [[_ [= -> _]]|([p bad] & _ & [= <- _])]; done.
Qed.

Lemma decode_message_inv st session pdu sptr m addr msg_len sec_params max_size msg_flags st1 pdu1 ret place :
  decode_message leftover_names st session pdu sptr m addr msg_len sec_params max_size msg_flags
  = Ret (Some (st1, pdu1, ret, place)) ->
  len (m_contextEngineID pdu) <= SNMP_MAX_ENG_SIZE -> len (m_securityEngineID pdu) = 64 ->
  len (bytes_of (m_securityName pdu)) = 256 -> find_sec_mod (m_securityModel pdu) (secmods lib) = Some sptr ->
  m_msgid pdu1 = m_msgid pdu /\ m_securityModel pdu1 = m_securityModel pdu
  /\ m_securityLevel pdu1 = m_securityLevel pdu /\ len (m_contextEngineID pdu1) <= SNMP_MAX_ENG_SIZE
  /\ (ret = SNMPERR_SUCCESS -> let_through st session m msg_len sec_params st1 pdu1).
Proof.
  unfold decode_message. intros E He Hid Hname Hmod. destruct (Secmod.decode sptr) as [decode|] eqn:Hd; [|done].
  apply bind_Ret_inv in E as ([st2 d] & Hrun & E).
  destruct (match d_names d with Some names => names | None => _ end) as [engine name] eqn:Hn.
  injection E as <- <- <- _. repeat (split; [done|]). intros Hret.
  match type of Hrun with _ _ ?p = _ => exists sptr, decode, p, d end.
  do 13 (split; [done|]). intros e n Hdn. rewrite Hdn in Hn. by injection Hn as -> ->.
Qed.

Lemma let_through_same st session m n k st' pdu pdu' : same_security pdu pdu' ->
  let_through st session m n k st' pdu -> let_through st session m n k st' pdu'.
Proof.
  intros (_ & Hm & Hl & Hi & Hn & Hr) (sptr & decode & p & d & H'). exists sptr, decode, p, d.
  by rewrite Hm, Hl, Hi, Hn, Hr.
Qed.

(** The state, the level and the model stay; the rest is what was opened. *)
Lemma parse_scoped_inv st session pdu sptr m addr msg_len sec_params max_size msg_flags st' session' pdu' :
  parse_scoped leftover leftover_pdu leftover_names st session pdu sptr m addr msg_len sec_params max_size msg_flags
  = Ret (st', session', pdu', SNMPERR_SUCCESS) ->
  len (m_contextEngineID pdu) <= SNMP_MAX_ENG_SIZE -> len (m_securityEngineID pdu) = 64 ->
  len (bytes_of (m_securityName pdu)) = 256 -> find_sec_mod (m_securityModel pdu) (secmods lib) = Some sptr ->
  session' = session /\ m_msgid pdu' = m_msgid pdu /\ m_securityModel pdu' = m_securityModel pdu
  /\ m_securityLevel pdu' = m_securityLevel pdu /\ len (m_contextEngineID pdu') <= SNMP_MAX_ENG_SIZE
  /\ (exists name, m_contextName pdu' = Some name /\ len name <= SNMP_MAX_CONTEXT_SIZE)
  /\ let_through st session m msg_len sec_params st' pdu'.
Proof.
  unfold parse_scoped. intros E He Hid Hname Hmod. apply bind_Ret_inv in E as ([[[[st1 pdu1] ret] place]|] & Hd & E); [|done].
  eapply decode_message_inv in Hd as (D1 & D2 & D3 & D4 & D5); try eassumption.
  apply bind_Ret_inv in E as ([pdu2 inner] & Hin & E). destruct (Z.eqb_spec ret SNMPERR_SUCCESS) as [->|?]; cbn [negb] in E.
  2: { injection E as _ _ _ ?. congruence. }
  destruct (bool_decide (inner = Some SNMPERR_SUCCESS)) eqn:Hb; [|done]. apply bool_decide_eq_true in Hb as ->.
  injection E as <- <- <-. specialize (D5 eq_refl).
  destruct place as [[[m1 cp] n1]|]; [|discriminate Hin].
  apply bind_Ret_inv in Hin as ([pdu3 [[data dl]|]] & Hs & Hin); [|done].
  apply bind_Ret_inv in Hin as ([pdu4 r] & Hp & [= <- _]).
  apply scopedPDU_parse_inv in Hs as (Hs1 & Hs2 & Hs3); [|done]. apply pdu_parse_inv in Hp as (Hp1 & Hp2 & Hp3).
  rewrite <- Hp2 in Hs2. rewrite <- Hp3 in Hs3.
  eapply let_through_same, (let_through_same _ _ _ _ _ _ pdu3) in D5; try eassumption.
  destruct Hs1 as (A1 & A2 & A3 & _), Hp1 as (B1 & B2 & B3 & _). repeat split; congruence || done.
Qed.

Lemma snmpv3_parse_inv st session pdu m addr length st' session' pdu' :
  snmpv3_parse lib leftover leftover_pdu leftover_names st session pdu m addr length
  = Ret (st', session', pdu', SNMPERR_SUCCESS) ->
  well_formed session' pdu'
  /\ exists sec_params, let_through st session m length sec_params st' pdu' /\ (bytes_ok m -> 0 <= sec_params).
Proof.
  unfold snmpv3_parse. cbv zeta. intros E.
  called E. destruct a as [[data0 t0] l0]. called E. destruct a as [[[data1 t1] ver] l1].
  called E. destruct a as [[data2 t2] l2]. called E. destruct a as [[[data3 t3] msgid] l3].
  destruct (_ || _) eqn:Hid in E; [done|]. called E. destruct a as [[[data4 t4] max_size] l4].
  destruct (_ || _) eqn:Hmax in E; [done|]. called E. destruct a as [[[data5 t5] buf] l5].
  destruct buf as [|flags [|? ?]]; [done| |done]. destruct (negb _) in E; [done|].
  called E. destruct a as [[[data6 t6] model] l6]. destruct (_ || _) eqn:Hmodel in E; [done|].
  unfold parse_security in E. destruct (find_sec_mod model (secmods lib)) as [sptr|] eqn:Hsec; [|done].
  destruct (_ && _) in E; [done|]. destruct (negb _) in E; [done|].
  match type of E with parse_scoped _ _ _ _ _ ?p _ _ _ _ _ _ _ = _ => set (pdu1 := p) in * end.
  apply parse_scoped_inv in E as (-> & A1 & A2 & A3 & A4 & A5 & A6); [|done..].
  split; [|exists data6; split; [exact A6|]].
  2: { intros Hm. apply (asn_parse_sequence_out m 0) in Ha as (P0 & N0 & _); [|done|done].
       eapply asn_parse_int_forward in Ha0 as [P1 N1]; [|done|lia|done].
       eapply asn_parse_sequence_forward in Ha1 as [_ [P2 N2]]; [|done|lia|done].
       eapply asn_parse_int_forward in Ha2 as [P3 N3]; [|done|lia|done].
       eapply asn_parse_int_forward in Ha3 as [P4 N4]; [|done|lia|done].
       eapply asn_parse_string_forward in Ha4 as [P5 N5]; [|done|lia|done].
       eapply asn_parse_int_forward in Ha5 as [P6 _]; [|done|lia|done]. lia. }
  split; [rewrite A1; cbn; lia|cbn; lia|rewrite A2; cbn; lia| |exact A4|exact A5].
  rewrite A3. cbn. repeat case_match; auto.
Qed.

Context (authenticator : option (mem -> Z -> Z -> list Z -> outcome (Z * Z))).
Context (get_statistic : Z -> Z).

(** The session takes the message for one of version 3. *)
Definition is_v3 (session : netsnmp_session) (m : mem) (length : Z) : Prop :=
  s_version session = SNMP_VERSION_3
  \/ s_version session = SNMP_DEFAULT_VERSION /\ snmp_parse_version m length = Ret SNMP_VERSION_3.

(** What a session makes of such a message. *)
Lemma snmp_parse_v3_eq sessp a session pdu m addr length : is_v3 session m length ->
  exists transid last,
    _snmp_parse lib leftover leftover_pdu leftover_names authenticator get_statistic sessp a session pdu m addr length
    = '(st, session, pdu, result) ← snmpv3_parse lib leftover leftover_pdu leftover_names (a_usm a)
          (with_s_snmp_errno 0 session) (with_m_version SNMP_VERSION_3 (with_m_transid transid pdu)) m addr length;
      after_v3 lib get_statistic sessp {| a_usm := st; Transid := last; ourEngineID_len := ourEngineID_len a |}
        session pdu result.
Proof.
  intros Hv. unfold _snmp_parse. destruct (snmp_get_next _ _) as [transid last]. exists transid, last.
  assert (Hvs : (if negb (s_version (with_s_snmp_errno 0 session) =? SNMP_DEFAULT_VERSION)
            then Ret (s_version (with_s_snmp_errno 0 session)) else snmp_parse_version m length) = Ret SNMP_VERSION_3).
  { cbn [s_version with_s_snmp_errno]. destruct Hv as [-> |[-> Hp]]; [reflexivity|exact Hp]. }
  rewrite Hvs. reflexivity.
Qed.

Lemma snmp_parse_v3_inv sessp a session pdu m addr length a' session' pdu' events : is_v3 session m length ->
  snmp_parse lib leftover leftover_pdu leftover_names authenticator get_statistic sessp a session pdu m addr length
  = Ret (a', session', pdu', 0, events) ->
  exists sec_params, well_formed session' pdu' /\ events = [] /\ is_probe lib pdu' = false
  /\ let_through (a_usm a) session m length sec_params (a_usm a') pdu' /\ (bytes_ok m -> 0 <= sec_params).
Proof.
  intros Hv E. unfold snmp_parse in E. destruct (snmp_parse_v3_eq sessp a session pdu m addr length Hv) as (transid & last & Heq).
  rewrite Heq, bind_assoc in E. apply bind_Ret_inv in E as ([[[st1 session1] pdu1] result] & Hparse & E).
  apply bind_Ret_inv in E as ([[[[a2 session2] pdu2] rc] ev] & Hafter & [= <- <- <- -> <-]). unfold after_v3 in Hafter.
  match type of Hafter with (let '(_, _) := ?x in _) = _ => destruct x as [[session3 pdu3] ev3] eqn:H3 end.
  destruct (is_probe lib pdu3) eqn:Hprobe.
  { apply bind_Ret_inv in Hafter as ([a4 ans] & _ & Hafter). discriminate Hafter. }
  injection Hafter as <- <- <- -> <-. rewrite Z.eqb_refl in H3. injection H3 as <- <- <-.
  apply snmpv3_parse_inv in Hparse as (Hwf & sec_params & Hlet & Hpos). by exists sec_params.
Qed.
End accepted.

(** ** What the user-based model lets through *)

Section user_based.
Context `{Platform, Allocator, Crypto} (lib : library).

(** It is a message whose processing succeeded. *)
Lemma let_through_usm st session m length sec_params st' pdu :
  let_through lib st session m length sec_params st' pdu ->
  find_sec_mod (m_securityModel pdu) (secmods lib) = Some usm_secmod_def ->
  exists p ref res,
    usm_process_in_msg st (i_maxMsgSize p) m (i_wholeMsg_addr p) sec_params (m_securityLevel pdu) length true
      (Some (s_isAuthoritative session)) (i_msg_flags p) 64 256 (i_scopedPduLen p) = Ret (st', ref, inr res)
    /\ m_securityEngineID pdu = p_secEngineID (r_params res) /\ m_securityName pdu = Some (p_secName (r_params res))
    /\ m_securityStateRef pdu = ref.
Proof.
  intros (sptr & decode & p & d & Hf & Hd & <- & <- & _ & Hl & Hs & Hi & Hn & <- & Hrun & Hres & Href & Hnames) Hm.
  rewrite Hm in Hf. injection Hf as <-. injection Hd as <-. unfold usm_secmod_process_in_msg in Hrun.
  apply bind_Ret_inv in Hrun as ([[st1 ref] r] & Hproc & [= -> Hd]). destruct r as [e|res].
  - apply process_errors in Hproc. subst d. cbn [d_result] in Hres. rewrite Hres in Hproc.
    apply (bool_decide_pack _) in Hproc. by vm_compute in Hproc.
  - subst d. destruct (Hnames _ _ eq_refl) as [-> ->]. exists p, ref, res.
    rewrite Hl, Hs, Hi, Hn in Hproc. by repeat split.
Qed.
End user_based.

(** ** Numbers *)

(** The largest number. *)
Definition max_id (short : bool) : Z := if short then 0x7fff else 0x7fffffff.

(** The static variable after [n] calls. *)
Definition after_calls (short : bool) (last : Z) (n : nat) : Z := Nat.iter n (fun l => (snmp_get_next short l).2) last.

Lemma snmp_get_next_step short last : 1 <= last <= max_id short ->
  let next := if last =? max_id short then 2 else last + 1 in snmp_get_next short last = (next, next).
Proof.
  intros Hl. cbv zeta. unfold snmp_get_next, max_id in *.
  assert (Hm : forall k, 0 <= k -> Z.land (1 + last) (Z.ones k) = (1 + last) mod 2 ^ k) by (intros; by apply Z.land_ones).
  rewrite s64_id by (destruct short; cint). destruct (Z.eqb_spec (1 + last) 0); [lia|].
  destruct short.
  - change 0x7fff with (Z.ones 15). rewrite Hm by lia. change (Z.ones 15) with 32767. change (2 ^ 15) with 32768.
    destruct (Z.eqb_spec last 32767) as [->|?]; [done|]. rewrite Z.mod_small by lia. destruct (Z.eqb_spec (1 + last) 0); [lia|].
    f_equal; lia.
  - change 0x7fffffff with (Z.ones 31). rewrite Hm by lia. change (Z.ones 31) with 2147483647. change (2 ^ 31) with 2147483648.
    destruct (Z.eqb_spec last 2147483647) as [->|?]; [done|]. rewrite Z.mod_small by lia. destruct (Z.eqb_spec (1 + last) 0); [lia|].
    f_equal; lia.
Qed.

(** The number of the call after the first [n]. *)
Lemma nth_id short last n : 1 <= last <= max_id short ->
  let id := 2 + (last - 1 + Z.of_nat n) mod (max_id short - 1) in
  snmp_get_next short (after_calls short last n) = (id, id).
Proof.
  intros Hl. cbv zeta. induction n as [|n IH].
  - change (after_calls short last 0) with last. rewrite snmp_get_next_step by done. cbv zeta. rewrite Z.add_0_r.
    assert (1 < max_id short) by (destruct short; reflexivity).
    destruct (Z.eqb_spec last (max_id short)) as [->|?]; [rewrite Z.mod_same by lia; reflexivity|].
    rewrite Z.mod_small by lia. f_equal; lia.
  - change (after_calls short last (S n)) with (snmp_get_next short (after_calls short last n)).2. rewrite IH. cbn [snd].
    assert (Hbig : 2 < max_id short) by (destruct short; reflexivity).
    pose proof (Z.mod_pos_bound (last - 1 + Z.of_nat n) (max_id short - 1)).
    rewrite snmp_get_next_step by lia. cbv zeta.
    replace (last - 1 + Z.of_nat (S n)) with (last - 1 + Z.of_nat n + 1) by lia.
    rewrite <- (Z.add_mod_idemp_l (last - 1 + Z.of_nat n)) by lia. set (r := (last - 1 + Z.of_nat n) mod _) in *.
    destruct (Z.eqb_spec (2 + r) (max_id short)) as [E|?].
    + replace (r + 1) with (max_id short - 1) by lia. by rewrite Z.mod_same by lia.
    + rewrite Z.mod_small by lia. f_equal; lia.
Qed.
