(* ===== verification/MessageProps.v ===== *)
(** * Properties of whole messages *)

From stdpp Require Import gmap list.
From S2P Require Import Prelude Bytes AsnTypes AsnParse AsnBuild AsnBuildSpec AsnParseSpec AsnRbuild AsnRbuildSpec VarOp Pdu Codec VarOpSpec PduSpec PduProps Oid Vacm Lcd LcdSpec Usm UsmSpec UsmProps Scapi UsersSpec Users UsmMsg UsmMsgSpec UsmWire UsmRound UsmMsgProps UsmForward Enum Session Secmod Message MessageSpec MessageV3 Samples.

(** ** Samples *)

Definition usm_services : services usm := {|
  registered_services := [{| securityModel := 3; secDef := usm_secmod_def (H := sample_steady) |}];
  enumerations := {| snmp_enum_lists := None; current_maj_num := 0; current_min_num := 0; sliststorage := [] |} |}.

Definition sample_library (reverse : bool) : library (H := sample_steady) := {|
  reverse_encode := reverse; no_discovery := false; short_ids := false; lib_secmod := None;
  secmods := usm_services |}.

Definition sample_session (version : Z) : netsnmp_session := {|
  s_snmp_errno := 0; s_version := version; s_community := [112; 117; 98]; s_rcvMsgMaxSize := 1500; s_sndMsgMaxSize := 0;
  s_contextEngineID := []; s_contextName := Some []; s_securityEngineID := [9]; s_securityName := Some alice_name;
  s_securityModel := 3; s_securityLevel := 3; s_isAuthoritative := SNMP_SESS_NONAUTHORITATIVE; s_callback := true |}.

(** A message around a PDU, with everything else left to the defaults. *)
Definition plain_message (version : Z) (p : snmp_pdu) : netsnmp_pdu := {|
  m_body := p; m_version := version; m_msgid := 41; m_transid := 0; m_community := []; m_securityModel := -1;
  m_securityLevel := 0; m_contextEngineID := []; m_contextName := None; m_securityEngineID := [];
  m_securityName := None; m_securityStateRef := None |}.

Definition empty_packet : rbuf := {| pkt := []; offset := 0 |}.

Definition sample_api : api := {| a_usm := knows_alice; Transid := 1; ourEngineID_len := 256 |}.

(** The value parsers of the samples do not fail. *)
Abbreviation no_leftover := (fun _ : Z => (0, None, 0) : Z * option mem * Z).
Abbreviation no_leftover_pdu := (fun (_ : mem) (_ _ : Z) (p : snmp_pdu) => p).
Abbreviation no_leftover_names := (fun (_ : mem) (_ : Z) => ([], []) : list Z * list Z).

Definition built_v3 : outcome (usm * netsnmp_session * netsnmp_pdu * (Z + packet)) :=
  snmp_build (H := sample_steady) (sample_library true) [] 3 knows_alice (sample_session 3)
    (plain_message 3 sample_pdu) empty_packet.

Definition v3_bytes : list Z := match built_v3 with Ret (_, _, _, inr p) => bytes_sent p | _ => [] end.

Definition parsed_v3 := snmp_parse (H := sample_steady) (sample_library true) no_leftover no_leftover_pdu
  no_leftover_names None (fun _ => 0) true sample_api (sample_session 3) (plain_message 0 fresh_pdu) v3_bytes 5000 (len v3_bytes).

(** ** Round trips *)

Lemma parse_result_command p0 p : command (parse_result p0 p) = command p.
Proof. unfold parse_result, set_variables, parsed. by destruct (variables p); cbn; repeat case_match. Qed.

(** C3: a message of version 3 that is built with the reverse encoder is
    parsed by a receiver that knows the engine and the user: it is accepted,
    raises no report, and the receiver has the identifiers, the names, the
    level and the PDU the sender had. *)
Theorem v3_message_roundtrip `{Platform, Allocator, Crypto} libA libB hole fuel stA sessionA pduA s stA' sessionA' pdu pk
    leftover leftover_pdu leftover_names auth get_statistic sessp a session pdu0 addr bs sec boots time user c
    (Halloc : forall k, k <= 65536 -> alloc k = true) :
  snmp_build libA hole fuel stA sessionA pduA s = Ret (stA', sessionA', pdu, inr pk) ->
  m_version pduA = SNMP_VERSION_3 -> reverse_encode libA = true -> rb_ok s -> offset s = 0 -> (3 <= fuel)%nat ->
  carried pdu bs -> in_range sessionA pdu -> sends stA pdu bs sec boots time ->
  find_sec_mod (m_securityModel pdu) (secmods libA) = Some usm_secmod_def ->
  receives (a_usm a) session sec (sent_flags pdu) boots time user c ->
  find_sec_mod (m_securityModel pdu) (secmods libB) = Some usm_secmod_def ->
  s_version session = SNMP_DEFAULT_VERSION \/ s_version session = SNMP_VERSION_3 ->
  len (m_contextEngineID pdu) <= SNMP_MAX_ENG_SIZE -> len (bytes_of (m_contextName pdu)) <= SNMP_MAX_CONTEXT_SIZE ->
  is_probe libB pdu = false -> length (agent_addr (m_body pdu0)) = 4%nat ->
  exists a' session' pdu',
    snmp_parse libB leftover leftover_pdu leftover_names auth get_statistic sessp a session pdu0
      (bytes_sent pk) addr (len (bytes_sent pk)) = Ret (a', session', pdu', 0, [])
    /\ a_usm a' = with_clocks c (a_usm a) /\ s_sndMsgMaxSize session' = s_rcvMsgMaxSize sessionA
    /\ v3_received pdu0 pdu pdu' sec.
Proof.
  intros E Hver Hrev Hs Hoff Hf Hc Hr Hsend HmA Hrecv HmB Hsv Heng Hname Hprobe Haddr.
  apply snmp_build_v3 in E as (session1 & s' & -> & Hv & Hrm & E); [|done..].
  assert (Hr1 : in_range session1 pdu) by (destruct Hr; split; rewrite ?Hrm; done).
  assert (Hlen : len_ok (len (scoped_pdu pdu bs))) by (pose proof (s_small _ _ _ _ _ _ Hsend); pose proof (len_nonneg (scoped_pdu pdu bs)); unfold len_ok; lia).
  apply packet_rbuild_out with (bs := bs) in E as (s1 & Hs1 & Hw1 & E); try done; [|by apply in_range_header_ok].
  cbn [bytes_sent]. unfold snmp_parse, _snmp_parse. destruct (snmp_get_next _ _) as [transid last].
  destruct (snmpv3_message Halloc libB leftover leftover_pdu leftover_names _ _ _ _ _ _ _ _ _ _ (a_usm a)
    (with_s_snmp_errno 0 session) (with_m_version SNMP_VERSION_3 (with_m_transid transid pdu0)) addr user c
    E Hs1 Hw1 Hc Hr1 Hsend) as (pdu' & Hparse & Hgot & Hversion); try done.
  { destruct Hrecv. by split. }
  assert (Hvs : (if negb (s_version (with_s_snmp_errno 0 session) =? SNMP_DEFAULT_VERSION)
            then Ret (s_version (with_s_snmp_errno 0 session)) else snmp_parse_version (written s') (len (written s')))
          = Ret SNMP_VERSION_3).
  { cbn [s_version with_s_snmp_errno]. destruct Hsv as [-> | ->]; [exact Hversion|reflexivity]. }
  rewrite Hvs, bind_ret. cbv zeta. cbn [is_community_version]. change (is_community_version SNMP_VERSION_3) with false.
  cbv iota. rewrite Z.eqb_refl. cbn [a_usm]. rewrite Hparse, bind_ret. unfold after_v3.
  assert (Hp : is_probe libB pdu' = false).
  { destruct Hgot as (_ & _ & _ & _ & _ & _ & He & _ & Hb). unfold is_probe in *. rewrite He, Hb, parse_result_command.
    exact Hprobe. }
  change (SNMPERR_SUCCESS =? 0) with true. cbv iota. rewrite Hp, bind_ret. cbn [negb andb].
  do 3 eexists. split; [reflexivity|]. split; [done|]. split; [exact Hrm|]. exact Hgot.
Qed.

#[local] Strategy 1000 [snmp_build snmp_parse].

(** What the sender made of the message. *)
Definition v3_pdu : netsnmp_pdu :=
  match built_v3 with Ret (_, _, p, _) => p | _ => plain_message 0 fresh_pdu end.

Definition alice_sends : security := security_of_user (Some alice) (Some [9]) alice_name SNMP_SEC_LEVEL_AUTHPRIV.

Lemma small_allocs k : k <= 65536 -> alloc k = true.
Proof. intros Hk. apply Z.ltb_lt. lia. Qed.

Lemma v3_carried : carried v3_pdu sample_bindings.
Proof.
  split; [|by vm_compute|apply sample_bindings_ok]. left.
  split; [by vm_compute|]. repeat split; by vm_compute.
Qed.

Lemma v3_in_range : in_range (sample_session 3) v3_pdu.
Proof. split; by vm_compute. Qed.

Lemma v3_sends : sends (H := sample_steady) knows_alice v3_pdu sample_bindings alice_sends 7 500.
Proof.
  split; try (by vm_compute).
  - do 2 eexists. vm_compute. reflexivity.
  - apply forallb_bytes. vm_compute. reflexivity.
Qed.

Definition v3_clocks : lcd :=
  match parsed_v3 with Ret (a, _, _, _, _) => clocks (a_usm a) | _ => with_known end.

Lemma v3_receives : receives (H := sample_steady) knows_alice (sample_session 3) alice_sends (sent_flags v3_pdu) 7 500
  alice v3_clocks.
Proof.
  split.
  - vm_compute. reflexivity.
  - reflexivity.
  - reflexivity.
  - repeat split.
  - repeat split; by vm_compute.
  - eexists. split; [vm_compute; reflexivity|]. eexists. vm_compute. reflexivity.
Qed.

Lemma v3_message_roundtrip_witness :
  exists a' session' pdu', parsed_v3 = Ret (a', session', pdu', 0, [])
  /\ v3_received (plain_message 0 fresh_pdu) v3_pdu pdu' alice_sends.
Proof.
  assert (Hrb : rb_ok {| pkt := []; offset := 0 |}) by (by vm_compute).
  assert (Heng : len (m_contextEngineID v3_pdu) <= SNMP_MAX_ENG_SIZE) by (by vm_compute).
  assert (Hname : len (bytes_of (m_contextName v3_pdu)) <= SNMP_MAX_CONTEXT_SIZE) by (by vm_compute).
  assert (Hprobe : is_probe (H := sample_steady) (sample_library true) v3_pdu = false) by (by vm_compute).
  assert (Hm : find_sec_mod (m_securityModel v3_pdu) usm_services = Some (usm_secmod_def (H := sample_steady)))
    by (replace (m_securityModel v3_pdu) with 3 by (vm_compute; reflexivity); reflexivity).
  assert (H3 : (3 <= 3)%nat) by lia.
  destruct built_v3 as [[[[stA' sessionA'] pdu] [e|pk]]| | |] eqn:E;
    [vm_compute in E; discriminate E| |vm_compute in E; discriminate E..].
  assert (Hpdu : v3_pdu = pdu) by (unfold v3_pdu; by rewrite E).
  assert (Hb : v3_bytes = bytes_sent pk) by (unfold v3_bytes; by rewrite E).
  rewrite <- Hpdu in E. unfold built_v3 in E.
  edestruct (v3_message_roundtrip (H := sample_steady) (sample_library true) (sample_library true) [] 3 knows_alice
    (sample_session 3) (plain_message 3 sample_pdu) empty_packet stA' sessionA' v3_pdu pk no_leftover no_leftover_pdu
    no_leftover_names None (fun _ => 0) true sample_api (sample_session 3) (plain_message 0 fresh_pdu) 5000
    sample_bindings alice_sends 7 500 alice v3_clocks small_allocs E)
    as (a' & session' & pdu' & Hrun & _ & _ & Hgot);
    [reflexivity|reflexivity|exact Hrb|reflexivity|exact H3|exact v3_carried|exact v3_in_range|exact v3_sends
    |exact Hm|exact v3_receives|exact Hm|right; reflexivity|exact Heng|exact Hname|exact Hprobe|reflexivity|].
  exists a', session', pdu'. split; [|exact Hgot]. unfold parsed_v3. rewrite Hb. exact Hrun.
Defined.

(** C5: a message of version 1 or 2c, built with either encoder, is parsed by a
    session of that version or of any: the community, shorter than 256 bytes,
    and the PDU are those of the sender, and the security level and model are
    what a community stands for. *)
Theorem community_message_roundtrip `{Platform, Allocator, Crypto} libA libB hole fuel stA sessionA pduA s stA' sessionA'
    pdu pk leftover leftover_pdu leftover_names get_statistic sessp a session pdu0 addr bs n
    (Halloc : forall k, k <= 65536 -> alloc k = true) :
  snmp_build libA hole fuel stA sessionA pduA s = Ret (stA', sessionA', pdu, inr pk) ->
  is_community_version (m_version pduA) = true -> rb_ok s -> offset s = 0 -> (3 <= fuel)%nat ->
  carried pdu bs -> len_ok (len (community_fields (form_of libA) pdu bs)) -> len (m_community pdu) < COMMUNITY_MAX_LEN ->
  s_version session = SNMP_DEFAULT_VERSION \/ s_version session = m_version pduA ->
  length (agent_addr (m_body pdu0)) = 4%nat -> len (bytes_sent pk) <= n -> is_u64 n ->
  exists a' session' pdu',
    snmp_parse libB leftover leftover_pdu leftover_names None get_statistic sessp a session pdu0
      (bytes_sent pk) addr n = Ret (a', session', pdu', 0, [])
    /\ a_usm a' = a_usm a /\ s_snmp_errno session' = 0 /\ community_received pdu0 pdu pdu'.
Proof.
  intros E Hver Hs Hoff Hf Hc Hlen Hcom Hsv Haddr Hn Hu.
  eapply snmp_build_community in E as (-> & Hv & Hb); try eassumption. rewrite <- Hv in *.
  apply (snmp_parse_community _ leftover leftover_pdu leftover_names get_statistic Halloc (form_of libA)) with (bs := bs);
    try assumption; [apply form_of_ok| |by rewrite <- Hb].
  rewrite Hb. pose proof (bytes_at_start (community_message (form_of libA) pdu bs) []) as Hat.
  rewrite app_nil_r in Hat. exact Hat.
Qed.

(** A request of version 2c without a community, written forward. *)
Definition built_v2c : outcome (usm * netsnmp_session * netsnmp_pdu * (Z + packet)) :=
  snmp_build (H := sample_steady) (sample_library false) [] 3 knows_alice (sample_session 1)
    (plain_message 1 (with_command SNMP_MSG_GET sample_pdu)) {| pkt := replicate 200 0; offset := 0 |}.

Definition v2c_pdu : netsnmp_pdu := match built_v2c with Ret (_, _, p, _) => p | _ => plain_message 0 fresh_pdu end.
Definition v2c_bytes : list Z := match built_v2c with Ret (_, _, _, inr p) => bytes_sent p | _ => [] end.

Lemma community_message_roundtrip_witness :
  exists a' session' pdu',
    snmp_parse (H := sample_steady) (sample_library true) no_leftover no_leftover_pdu no_leftover_names None (fun _ => 0)
      false sample_api (sample_session (-1)) (plain_message 0 fresh_pdu) v2c_bytes 5000 (len v2c_bytes)
    = Ret (a', session', pdu', 0, [])
  /\ community_received (plain_message 0 fresh_pdu) v2c_pdu pdu'.
Proof.
  assert (Hrb : rb_ok {| pkt := replicate 200 0; offset := 0 |}) by (by vm_compute).
  assert (Hc : carried v2c_pdu sample_bindings).
  { split; [|by vm_compute|apply sample_bindings_ok]. left. split; [by vm_compute|]. repeat split; by vm_compute. }
  assert (Hlen : len_ok (len (community_fields (form_of (sample_library false)) v2c_pdu sample_bindings))) by (by vm_compute).
  assert (Hcom : len (m_community v2c_pdu) < COMMUNITY_MAX_LEN) by (by vm_compute).
  assert (Hle : len v2c_bytes <= len v2c_bytes) by lia. assert (H3 : (3 <= 3)%nat) by lia.
  assert (Hu : is_u64 (len v2c_bytes)) by (by vm_compute).
  destruct built_v2c as [[[[stA' sessionA'] pdu] [e|pk]]| | |] eqn:E;
    [vm_compute in E; discriminate E| |vm_compute in E; discriminate E..].
  assert (Hpdu : v2c_pdu = pdu) by (unfold v2c_pdu; by rewrite E).
  assert (Hb : v2c_bytes = bytes_sent pk) by (unfold v2c_bytes; by rewrite E).
  rewrite <- Hpdu in E. unfold built_v2c in E.
  edestruct (community_message_roundtrip (H := sample_steady) (sample_library false) (sample_library true) [] 3
    knows_alice (sample_session 1) (plain_message 1 (with_command SNMP_MSG_GET sample_pdu))
    {| pkt := replicate 200 0; offset := 0 |} stA' sessionA' v2c_pdu pk no_leftover no_leftover_pdu no_leftover_names
    (fun _ => 0) false sample_api (sample_session (-1)) (plain_message 0 fresh_pdu) 5000 sample_bindings (len v2c_bytes)
    small_allocs E) as (a' & session' & pdu' & Hrun & _ & _ & Hgot);
    [reflexivity|exact Hrb|reflexivity|exact H3|exact Hc|exact Hlen|exact Hcom|left; reflexivity|reflexivity
    |rewrite <- Hb; exact Hle|exact Hu|].
  exists a', session', pdu'. split; [|exact Hgot]. rewrite <- Hb in Hrun. exact Hrun.
Defined.

(** ** What is accepted *)

(** C13: a message of version 3 for which [snmp_parse] returns 0 is well formed:
    its identifier, size limit, security model and level are in range, the
    context's identifier and name fit, and the registered security model let
    it through, at the level of its flags and with the message as it was
    received.  No report is sent, and it is no probe. *)
Theorem v3_accepted_well_formed `{Platform, Allocator, Crypto} lib leftover leftover_pdu leftover_names auth get_statistic
    sessp a session pdu m addr length a' session' pdu' events :
  is_v3 session m length ->
  snmp_parse lib leftover leftover_pdu leftover_names auth get_statistic sessp a session pdu m addr length
  = Ret (a', session', pdu', 0, events) ->
  well_formed session' pdu' /\ events = [] /\ is_probe lib pdu' = false
  /\ exists sec_params, let_through lib (a_usm a) session m length sec_params (a_usm a') pdu'.
Proof. intros Hv E. apply snmp_parse_v3_inv in E as (n & Hw & Hev & Hp & Hl & _); [|done]. eauto. Qed.

(** The message of the samples is accepted. *)
Definition accepted_v3 : api * netsnmp_session * netsnmp_pdu :=
  match parsed_v3 with Ret (a, s, p, _, _) => (a, s, p) | _ => (sample_api, sample_session 3, plain_message 0 fresh_pdu) end.

Lemma parsed_v3_accepted : parsed_v3 = Ret (accepted_v3, 0, []).
Proof. vm_compute. reflexivity. Qed.

Lemma v3_accepted_well_formed_witness : well_formed accepted_v3.1.2 accepted_v3.2.
Proof.
  pose proof parsed_v3_accepted as E. destruct accepted_v3 as [[a' session'] pdu']. unfold parsed_v3 in E.
  apply (v3_accepted_well_formed (H := sample_steady)) in E as [Hwf _]; [exact Hwf|left; reflexivity].
Defined.

(** C4: what [snmp_parse] accepts at a level with authentication under the
    user-based model was signed, for the engine and name the application is
    told, with the key of an active user: one of the table, or, for a message
    without a name in a session that is not authoritative, the user without a
    name, if a key was set for it. *)
Theorem v3_accepted_authentic `{Platform, Allocator, Crypto} lib leftover leftover_pdu leftover_names auth get_statistic
    sessp a session pdu m addr length a' session' pdu' events my :
  usm_ok (a_usm a) my -> bytes_ok m -> is_v3 session m length ->
  snmp_parse lib leftover leftover_pdu leftover_names auth get_statistic sessp a session pdu m addr length
  = Ret (a', session', pdu', 0, events) ->
  find_sec_mod (m_securityModel pdu') (secmods lib) = Some usm_secmod_def -> is_auth (m_securityLevel pdu') = true ->
  exists sec_params q user, signed_by (a_usm a) (use_default (Some (s_isAuthoritative session))) m sec_params length q user
  /\ m_securityEngineID pdu' = p_secEngineID q /\ m_securityName pdu' = Some (p_secName q).
Proof.
  intros Hok Hm Hv E Hmod Ha. apply snmp_parse_v3_inv in E as (n & _ & _ & _ & Hlet & Hpos); [|done].
  apply let_through_usm in Hlet as (p & ref & res & Hproc & Hi & Hn & _); [|done].
  eapply process_signed in Hproc as [user Hs]; [|done..|by apply Hpos|done|done]. by exists n, (r_params res), user.
Qed.

Lemma v3_accepted_authentic_witness :
  exists sec_params q user, signed_by (H1 := toy_crypto) knows_alice true v3_bytes sec_params (len v3_bytes) q user
  /\ m_securityEngineID accepted_v3.2 = p_secEngineID q.
Proof.
  assert (Hb : bytes_ok v3_bytes) by (apply forallb_bytes; vm_compute; reflexivity).
  assert (Hmodel : m_securityModel accepted_v3.2 = 3) by (by vm_compute).
  assert (Hlevel : m_securityLevel accepted_v3.2 = 3) by (by vm_compute).
  pose proof parsed_v3_accepted as E. destruct accepted_v3 as [[a' session'] pdu']. cbn [snd] in *. unfold parsed_v3 in E.
  destruct (v3_accepted_authentic (H := sample_steady) (sample_library true) no_leftover no_leftover_pdu no_leftover_names
    None (fun _ => 0) true sample_api (sample_session 3) (plain_message 0 fresh_pdu) v3_bytes 5000 (len v3_bytes)
    a' session' pdu' [] [1; 2; 3]) as (sp & q & user & Hs & Hi & _).
  - exact (knows_alice_ok steady).
  - exact Hb.
  - left. reflexivity.
  - exact E.
  - rewrite Hmodel. reflexivity.
  - rewrite Hlevel. reflexivity.
  - exists sp, q, user. exact (conj Hs Hi).
Defined.

(** ** Reports *)

(** The error of the session for an error of the security model. *)
Definition session_error (error : Z) : Z :=
  if error =? SNMPERR_USM_UNKNOWNENGINEID then SNMPERR_UNKNOWN_ENG_ID
  else if error =? SNMPERR_USM_UNKNOWNSECURITYNAME then SNMPERR_UNKNOWN_USER_NAME
  else if error =? SNMPERR_USM_UNSUPPORTEDSECURITYLEVEL then SNMPERR_UNSUPPORTED_SEC_LEVEL
  else if error =? SNMPERR_USM_AUTHENTICATIONFAILURE then SNMPERR_AUTHENTICATION_FAILURE
  else if error =? SNMPERR_USM_NOTINTIMEWINDOW then SNMPERR_NOT_IN_TIME_WINDOW
  else SNMPERR_DECRYPTION_ERR.

(** For each of the six errors [usm_handle_report] answers,
    [snmpv3_make_report] makes a REPORT that keeps the identifiers of the
    message and that [snmpv3_get_report_type] at the other end reads as the
    same error, and that passes [snmpv3_verify_msg] for any request.  For any
    other error the message stays as it is and GENERR is returned. *)
Theorem report_recognised s get_statistic pdu error rq :
  let '(rc, report) := snmpv3_make_report s get_statistic pdu error in
  if is_reportable error then
    rc = SNMPERR_SUCCESS /\ command (m_body report) = SNMP_MSG_REPORT
    /\ snmpv3_get_report_type report = session_error error /\ snmpv3_verify_msg rq report = true
    /\ m_msgid report = m_msgid pdu /\ reqid (m_body report) = reqid (m_body pdu)
    /\ m_securityStateRef report = None
    /\ m_securityLevel report = (if error =? SNMPERR_USM_NOTINTIMEWINDOW then SNMP_SEC_LEVEL_AUTHNOPRIV
                                 else SNMP_SEC_LEVEL_NOAUTH)
  else rc = SNMPERR_GENERR /\ report = pdu.
Proof.
  unfold snmpv3_make_report, report_of, is_reportable, session_error.
  repeat (match goal with |- context [error =? ?e] => destruct (Z.eqb_spec error e) as [->|?]; [by vm_compute|] end).
  cbn. by repeat split.
Qed.

(** ** The context probe *)

(** The message after the report on it: the user-based model has freed the
    state reference of one that failed. *)
Definition reported (result : Z) (pdu : netsnmp_pdu) : netsnmp_pdu :=
  if result =? 0 then pdu else with_m_securityStateRef None pdu.

(** A request for the engine identifier in the context of RFC 5343 is
    answered whatever the security model said of it, also when the digest is
    wrong: the result of the security model is replaced by the one of a
    probe, and the identifier is sent, whenever it fits the room left by the
    last probe. *)
Theorem probe_answered_regardless `{Platform, Allocator, Crypto} lib get_statistic sessp a session pdu result :
  find_sec_mod (m_securityModel pdu) (secmods lib) = Some usm_secmod_def ->
  is_probe lib pdu = true -> asks_engineID (m_body pdu) = Ret true ->
  (snmpv3_get_engineID (clocks (a_usm a)) (ourEngineID_len a)).1 <> 0 ->
  exists a' session' pdu' events,
    after_v3 lib get_statistic sessp a session pdu result
    = Ret (a', session', pdu', SNMPERR_JUST_A_CONTEXT_PROBE,
           events ++ [Sent (probe_answer (reported result pdu)
                              (snmpv3_get_engineID (clocks (a_usm a)) (ourEngineID_len a)).2)])
    /\ pdu' = reported result pdu.
Proof.
  intros Hmod Hprobe Hasks Hid. unfold after_v3, reported, context_probe. rewrite Hmod.
  destruct (snmpv3_get_engineID _ _) as [n id]. cbn [fst snd] in *. apply Z.eqb_neq in Hid.
  destruct (result =? 0); [|destruct sessp; cbn [negb mbind option_bind handle_report frees_state_ref usm_secmod_def]].
  all: cbn beta iota zeta delta [usm_handle_report].
  all: change (with_m_securityStateRef None (with_m_securityStateRef None ?p)) with (with_m_securityStateRef None p).
  all: change (is_probe lib (with_m_securityStateRef None ?p)) with (is_probe lib p).
  all: change (m_body (with_m_securityStateRef None ?p)) with (m_body p).
  all: rewrite Hprobe, Hasks, bind_ret, Hid, bind_ret; do 4 eexists; split; reflexivity.
Qed.

(** A probe by alice, signed; and its bytes with the last one changed. *)
Definition probe_pdu : netsnmp_pdu :=
  with_m_securityLevel SNMP_SEC_LEVEL_AUTHNOPRIV
    (with_m_contextEngineID [0x80; 0; 0; 0; 6]
      (plain_message 3 (set_variables (with_command SNMP_MSG_GET sample_pdu)
         [{| name := snmpEngineIDoid; type := ASN_NULL; val := None; val_len := 0 |}]))).

Definition built_probe : list Z :=
  match snmp_build (H := sample_steady) (sample_library true) [] 3 knows_alice (sample_session 3) probe_pdu empty_packet with
  | Ret (_, _, _, inr p) => bytes_sent p
  | _ => []
  end.

Definition spoiled_probe : list Z := <[95%nat := 1]> built_probe.

(** What the security model leaves of the spoiled message. *)
Definition spoiled : outcome (usm * netsnmp_session * netsnmp_pdu * Z) :=
  snmpv3_parse (H := sample_steady) (sample_library true) no_leftover no_leftover_pdu no_leftover_names knows_alice
    (sample_session 3) (plain_message 0 fresh_pdu) spoiled_probe 5000 (len spoiled_probe).

Definition spoiled_pdu : netsnmp_pdu :=
  match spoiled with Ret (_, _, p, _) => p | _ => plain_message 0 fresh_pdu end.

Lemma probe_answered_regardless_witness :
  (exists st session, spoiled = Ret (st, session, spoiled_pdu, SNMPERR_USM_AUTHENTICATIONFAILURE))
  /\ exists a' session' pdu' events,
    after_v3 (H := sample_steady) (sample_library true) (fun _ => 0) true sample_api (sample_session 3) spoiled_pdu
      SNMPERR_USM_AUTHENTICATIONFAILURE
    = Ret (a', session', pdu', SNMPERR_JUST_A_CONTEXT_PROBE,
           events ++ [Sent (probe_answer (reported SNMPERR_USM_AUTHENTICATIONFAILURE spoiled_pdu) [1; 2; 3])]).
Proof.
  split; [do 2 eexists; vm_compute; reflexivity|].
  assert (Hmodel : m_securityModel spoiled_pdu = 3) by (vm_compute; reflexivity).
  assert (Hprobe : is_probe (H := sample_steady) (sample_library true) spoiled_pdu = true) by (vm_compute; reflexivity).
  assert (Hasks : asks_engineID (m_body spoiled_pdu) = Ret true) by (vm_compute; reflexivity).
  generalize dependent spoiled_pdu. intros pdu Hmodel Hprobe Hasks.
  destruct (probe_answered_regardless (H := sample_steady) (sample_library true) (fun _ => 0) true sample_api
    (sample_session 3) pdu SNMPERR_USM_AUTHENTICATIONFAILURE) as (a' & session' & pdu' & events & Hrun & _).
  - rewrite Hmodel. reflexivity.
  - exact Hprobe.
  - exact Hasks.
  - discriminate.
  - exists a', session', pdu', events. exact Hrun.
Defined.

(** ** The forward builder and AES *)

Lemma calc_offsets_priv n level id name pdu boots time o :
  usm_calc_offsets n level id name pdu boots time = Some o -> level = SNMP_SEC_LEVEL_AUTHPRIV -> msgPrivParmLen o = 8.
Proof. unfold usm_calc_offsets. intros E ->. destruct (_ || _); [done|]. injection E as <-. reflexivity. Qed.

Lemma aes_salt `{Platform} st sec boots time r :
  is_transform (thePrivProtocol sec) usmAESPrivProtocol = Ret true -> make_salt st sec boots time = Ret r ->
  match r with inl code => code = SNMPERR_USM_GENERICERROR | inr (salt, _, _) => len salt = 16 end.
Proof.
  unfold make_salt. intros ->. rewrite bind_ret. destruct (thePrivKey sec); intros [= <-]; reflexivity.
Qed.

Lemma forward_data_aes `{Platform, Crypto} st sec boots time o scopedPdu ptr st' r :
  theSecLevel sec = SNMP_SEC_LEVEL_AUTHPRIV -> is_transform (thePrivProtocol sec) usmAESPrivProtocol = Ret true ->
  msgPrivParmLen o = 8 -> forward_data st sec boots time o scopedPdu ptr = Ret (st', r) ->
  exists code, r = inl code /\ code <> SNMPERR_SUCCESS.
Proof.
  intros Hl Haes Ho E. unfold forward_data in E. rewrite Hl, Z.eqb_refl in E.
  apply bind_Ret_inv in E as (s & Hs & E). apply aes_salt in Hs; [|done].
  destruct s as [code|[[salt iv] st1]]; [injection E as _ <-; subst code; by eexists|].
  apply bind_Ret_inv in E as (ptr1 & _ & E). apply bind_Ret_inv in E as ([rval ct] & _ & E).
  destruct (negb (rval =? SNMPERR_SUCCESS)); [injection E as _ <-; by eexists|].
  apply bind_Ret_inv in E as (ptr2 & _ & E). rewrite Hs, Ho in E. rewrite orb_true_r in E.
  injection E as _ <-. by eexists.
Qed.

(** The builder that writes forwards never makes an encrypted message for
    a user of AES: the vector of 16 bytes is taken for the 8 bytes of the
    salt, and the call fails after the encryption. *)
Theorem forward_aes_fails `{Platform, Allocator, Crypto} st buffer globalDataLen secEngineID secName secLevel scopedPdu
    ref wholeMsgLen sec st' r :
  find_security st secEngineID secName secLevel ref = Some sec ->
  theSecLevel sec = SNMP_SEC_LEVEL_AUTHPRIV ->
  is_transform (thePrivProtocol sec) usmAESPrivProtocol = Ret true ->
  usm_generate_out_msg st buffer globalDataLen secEngineID secName secLevel scopedPdu ref wholeMsgLen = Ret (st', r) ->
  exists code, r = inl code /\ code <> SNMPERR_SUCCESS.
Proof.
  intros Hsec Hl Haes E. unfold usm_generate_out_msg in E. rewrite Hsec in E.
  apply bind_Ret_inv in E as (rc & _ & E). destruct (rc =? 1); [injection E as _ <-; by eexists|].
  apply bind_Ret_inv in E as ([[[? boots] time] c] & _ & E).
  destruct (usm_calc_offsets _ _ _ _ _ _ _) as [o|] eqn:Ho in E; [|injection E as _ <-; by eexists].
  destruct (_ <? _) in E; [injection E as _ <-; by eexists|]. apply bind_Ret_inv in E as ([st1 r1] & Hd & E).
  eapply forward_data_aes in Hd as (code & -> & Hc); [|done..|by eapply calc_offsets_priv]. injection E as _ <-. eauto.
Qed.

Definition alice_aes : usmUser := {|
  u_engineID := Some [9]; u_name := Some alice_name; u_secName := Some alice_name;
  u_authProtocol := Some usmHMACMD5AuthProtocol; u_authKey := Some (replicate 16 7);
  u_privProtocol := Some usmAESPrivProtocol; u_privKey := Some (replicate 16 3); u_userStatus := RS_ACTIVE; u_cloneFrom := None;
  u_userPublicString := None; u_userStorageType := ST_NONVOLATILE |}.

Definition knows_alice_aes : usm := {|
  clocks := with_known; userList := [alice_aes]; noNameUser := None;
  salt_integer := 1; salt_integer64_1 := 2; salt_integer64_2 := 3 |}.

Lemma forward_aes_fails_witness :
  exists st' code,
    usm_generate_out_msg (H := sample_steady) knows_alice_aes (replicate 300 0) 5 (Some [9]) alice_name
      SNMP_SEC_LEVEL_AUTHPRIV [48; 3; 2; 1; 5] None 300 = Ret (st', inl code)
    /\ code <> SNMPERR_SUCCESS.
Proof.
  destruct (usm_generate_out_msg (H := sample_steady) knows_alice_aes (replicate 300 0) 5 (Some [9]) alice_name
      SNMP_SEC_LEVEL_AUTHPRIV [48; 3; 2; 1; 5] None 300) as [[st' r]| | |] eqn:E; [|vm_compute in E; discriminate E..].
  destruct (forward_aes_fails (H := sample_steady) knows_alice_aes (replicate 300 0) 5 (Some [9]) alice_name
      SNMP_SEC_LEVEL_AUTHPRIV [48; 3; 2; 1; 5] None 300
      (security_of_user (Some alice_aes) (Some [9]) alice_name SNMP_SEC_LEVEL_AUTHPRIV) st' r)
    as (code & Hr & Hc); [reflexivity|reflexivity|vm_compute; reflexivity|exact E|].
  rewrite Hr. exists st', code. exact (conj eq_refl Hc).
Defined.

(** ** Identifiers *)

(** From any start a session can have, the request, message, session and
    transaction identifiers are between 2 and 2^31 - 1, or 2^15 - 1 for the
    short ones, and any 2^31 - 2 (2^15 - 2) of them in a row differ: the
    [i]th and the [j]th are the same only if that many calls apart. *)
Theorem identifiers_unique short last i j :
  1 <= last <= max_id short ->
  let id n := (snmp_get_next short (after_calls short last n)).1 in
  2 <= id i <= max_id short
  /\ (id i = id j <-> Z.of_nat i mod (max_id short - 1) = Z.of_nat j mod (max_id short - 1)).
Proof.
  intros Hl. cbv beta zeta. rewrite !nth_id by done. cbn [fst].
  assert (Hbig : 2 < max_id short) by (destruct short; reflexivity).
  pose proof (Z.mod_pos_bound (last - 1 + Z.of_nat i) (max_id short - 1)). split; [lia|].
  rewrite <- (Z.add_mod_idemp_r _ (Z.of_nat i)), <- (Z.add_mod_idemp_r _ (Z.of_nat j)) by lia.
  split; [|intros ->; reflexivity].
  pose proof (Z.mod_pos_bound (Z.of_nat i) (max_id short - 1)). pose proof (Z.mod_pos_bound (Z.of_nat j) (max_id short - 1)).
  set (a := Z.of_nat i mod _) in *. set (b := Z.of_nat j mod _) in *. set (d := max_id short - 1) in *. intros Hd%Z.add_cancel_l.
  assert (Hx : forall c, 0 <= c < d -> c = ((last - 1 + c) mod d - (last - 1)) mod d).
  { intros c Hc. rewrite Zminus_mod_idemp_l. replace (last - 1 + c - (last - 1)) with c by lia. by rewrite Z.mod_small. }
  rewrite (Hx a), (Hx b), Hd by lia. reflexivity.
Qed.

Lemma identifiers_unique_witness :
  2 <= (snmp_get_next false (after_calls false 0x7fffffff 1)).1 <= 0x7fffffff
  /\ (snmp_get_next false (after_calls false 0x7fffffff 1)).1 <> (snmp_get_next false (after_calls false 0x7fffffff 2)).1.
Proof.
  assert (Hl : 1 <= 0x7fffffff <= max_id false) by (by vm_compute).
  destruct (identifiers_unique false 0x7fffffff 1 2 Hl) as [Hr Hi]. split; [exact Hr|].
  intros E. apply Hi in E. vm_compute in E. discriminate E.
Defined.

