(* ===== verification/SecmodProps.v ===== *)
(** * Properties of the enumerations and of the registry of security models *)

From stdpp Require Import gmap list.
From S2P Require Import Prelude AsnRbuild Oid Vacm VacmSpec Lcd Users UsmMsg Enum Session Secmod Samples.

(** ** Lists of labels as finite maps *)

(** The first label of a value counts. *)
Definition labels (l : snmp_enum_list) : gmap Z (list Z) :=
  list_to_map ((fun i => (se_value i, se_label i)) <$> l).

Lemma find_label_labels l v : se_find_label_in_list l v = labels l !! v.
Proof.
  unfold labels in *. induction l as [|i l IH]; [done|]. cbn [se_find_label_in_list].
  rewrite fmap_cons, list_to_map_cons. cbn [fst snd].
  destruct (Z.eqb_spec (se_value i) v) as [<-|Hne]; [by rewrite lookup_insert_eq|by rewrite lookup_insert_ne].
Qed.

Section lists.
Context `{Allocator}.

Lemma add_pair_result l label value ret l' : se_add_pair_to_list l label value = (ret, l') ->
  match labels l !! value with
  | Some _ => ret = SE_ALREADY_THERE /\ l' = l
  | None => ret = SE_OK /\ l' = l ++ [{| se_value := value; se_label := label |}] \/ ret = SE_NOMEM /\ l' = l
  end.
Proof using Type.
  rewrite <- find_label_labels. revert l'. induction l as [|i l IH]; intros l'; cbn [se_add_pair_to_list se_find_label_in_list].
  - destruct (alloc _); intros [= <- <-]; auto.
  - destruct (Z.eqb_spec (se_value i) value); [by intros [= <- <-]|].
    destruct (se_add_pair_to_list l label value) as [r l1] eqn:E. intros [= <- <-]. specialize (IH l1 eq_refl).
    destruct (se_find_label_in_list l value); [by destruct IH as [-> ->]|]. destruct IH as [[-> ->]|[-> ->]]; auto.
Qed.

Lemma labels_snoc l v label : labels l !! v = None ->
  labels (l ++ [{| se_value := v; se_label := label |}]) = <[v := label]> (labels l).
Proof using Type.
  intros Hv. unfold labels in *. rewrite fmap_app, list_to_map_app. cbn.
  rewrite insert_empty, <- insert_union_singleton_r by exact Hv. reflexivity.
Qed.
End lists.

(** ** Lists with a name *)

Lemma strcmp_same n m : (strcmp n m =? 0) = bool_decide (c_string n = c_string m).
Proof.
  unfold strcmp. pose proof (lex_eq (c_string n) (c_string m)) as He.
  destruct (Z.eqb_spec (lex (c_string n) (c_string m)) 0); [rewrite bool_decide_true|rewrite bool_decide_false]; tauto.
Qed.

(** The list a name stands for: the first one of that name. *)
Fixpoint slist (storage : list snmp_enum_list_str) (name : list Z) : snmp_enum_list :=
  match storage with
  | [] => []
  | sptr :: storage => if bool_decide (c_string (str_name sptr) = c_string name) then str_list sptr else slist storage name
  end.

Lemma find_slist_spec name s : se_find_slist name s = slist (sliststorage s) name.
Proof.
  unfold se_find_slist. induction (sliststorage s) as [|sptr l IH]; [done|]. cbn [se_find_slist_ptr slist].
  rewrite strcmp_same. destruct (bool_decide _); [done|]. rewrite <- IH. by destruct (se_find_slist_ptr l name).
Qed.

Lemma slist_alter storage name other i l' : se_find_slist_ptr storage name = Some i ->
  slist (alter (fun sptr => {| str_name := str_name sptr; str_list := l' |}) i storage) other
  = if bool_decide (c_string name = c_string other) then l' else slist storage other.
Proof.
  revert i. induction storage as [|sptr storage IH]; intros i; [done|]. cbn [se_find_slist_ptr]. rewrite strcmp_same.
  destruct (bool_decide_reflect (c_string (str_name sptr) = c_string name)) as [Hn|Hn].
  - intros [= <-]. cbn [alter list_alter slist str_name str_list]. rewrite Hn. by case_bool_decide.
  - intros (j & Hj & ->)%fmap_Some. cbn [alter list_alter slist]. change (list_alter ?f j storage) with (alter f j storage).
    rewrite (IH j Hj). do 2 case_bool_decide; congruence.
Qed.

(** A pair added to a named list. *)
Lemma slist_add `{Allocator} name label value s ret s' : se_add_pair_to_slist name label value s = (ret, s') ->
  (ret = SE_OK -> forall other, se_find_slist other s'
     = if bool_decide (c_string name = c_string other)
       then se_find_slist name s ++ [{| se_value := value; se_label := label |}] else se_find_slist other s)
  /\ (ret = SE_OK -> labels (se_find_slist name s) !! value = None).
Proof.
  unfold se_add_pair_to_slist. destruct (se_add_pair_to_list _ _ _) as [r l'] eqn:E. pose proof (add_pair_result _ _ _ _ _ E) as Hadd.
  assert (Hok : r = SE_OK -> labels (se_find_slist name s) !! value = None
                /\ l' = se_find_slist name s ++ [{| se_value := value; se_label := label |}]).
  { intros ->. destruct (labels _ !! value); [by destruct Hadd|]. by destruct Hadd as [[_ ->]|[? _]]. }
  destruct (se_find_slist name s) as [|i l] eqn:Hl.
  - destruct (alloc _); intros [= <- <-]; [|done]. split; [|by intros Hr; apply Hok].
    intros Hr other. destruct (Hok Hr) as [_ ->]. rewrite !find_slist_spec. cbn. by case_bool_decide.
  - destruct (se_find_slist_ptr (sliststorage s) name) as [k|] eqn:Hk.
    + intros [= <- <-]. split; [|by intros Hr; apply Hok]. intros Hr other. destruct (Hok Hr) as [_ ->].
      rewrite !find_slist_spec. cbn [sliststorage with_slists]. by apply slist_alter.
    + unfold se_find_slist in Hl. by rewrite Hk in Hl.
Qed.

(** A label that is not in the list yet. *)
Definition new_label (label : list Z) (l : snmp_enum_list) : Prop :=
  Forall (fun i => c_string (se_label i) <> c_string label) l.

Lemma find_new_value label value l : new_label label l ->
  se_find_value_in_list (l ++ [{| se_value := value; se_label := label |}]) label = value.
Proof.
  induction 1 as [|i l Hi _ IH]; cbn [app se_find_value_in_list se_label]; rewrite strcmp_same;
    [by rewrite bool_decide_true|by rewrite bool_decide_false].
Qed.

(** ** The registry of security models *)

Section registry.
Context {St : Type}.
Implicit Types s : services St.

Definition entry (m : snmp_secmod_list St) : Z * snmp_secmod_def St := (securityModel m, secDef m).

Definition models s : gmap Z (snmp_secmod_def St) := list_to_map (entry <$> registered_services s).

Lemma entries_cons m l : (list_to_map (entry <$> m :: l) : gmap Z (snmp_secmod_def St))
  = <[securityModel m := secDef m]> (list_to_map (entry <$> l)).
Proof. reflexivity. Qed.

(** Every model is registered once. *)
Definition registry_ok s : Prop := NoDup (securityModel <$> registered_services s).

Lemma find_sec_mod_spec n s : find_sec_mod n s = models s !! n.
Proof.
  unfold find_sec_mod, models. induction (registered_services s) as [|m l IH]; [done|].
  rewrite entries_cons, filter_cons.
  case_decide as Hn; [by rewrite Hn, lookup_insert_eq|by rewrite lookup_insert_ne].
Qed.

Lemma registered_spec n s : existsb (fun m => securityModel m =? n) (registered_services s) = bool_decide (is_Some (models s !! n)).
Proof.
  unfold models. induction (registered_services s) as [|m l IH]; [done|].
  rewrite entries_cons. cbn [existsb].
  destruct (Z.eqb_spec (securityModel m) n) as [->|Hn]; [by rewrite lookup_insert_eq|by rewrite lookup_insert_ne, IH].
Qed.

Lemma models_none n s : models s !! n = None <-> n ∉ securityModel <$> registered_services s.
Proof.
  unfold models. rewrite <- not_elem_of_list_to_map. rewrite <- list_fmap_compose. reflexivity.
Qed.

Lemma drop_sec_mod_spec n l : NoDup (securityModel <$> l) ->
  match drop_sec_mod n l with
  | Some l' => NoDup (securityModel <$> l') /\ (n ∈ securityModel <$> l) /\ (forall k, k ∈ securityModel <$> l' -> k ∈ securityModel <$> l)
               /\ (list_to_map (entry <$> l') : gmap Z _) = delete n (list_to_map (entry <$> l))
  | None => n ∉ securityModel <$> l
  end.
Proof.
  induction l as [|m l IH]; intros Hnd; cbn [drop_sec_mod]; [by apply not_elem_of_nil|].
  rewrite fmap_cons in Hnd |- *. apply NoDup_cons in Hnd as [Hm Hnd]. destruct (Z.eqb_spec (securityModel m) n) as [<-|Hn].
  - split; [done|]. split; [left|]. split; [by right|]. rewrite entries_cons.
    rewrite delete_insert_id; [done|]. apply not_elem_of_list_to_map_1. by rewrite <- list_fmap_compose.
  - specialize (IH Hnd). destruct (drop_sec_mod n l) as [l'|]; cbn [fmap option_fmap option_map].
    + destruct IH as (H1 & H2 & H3 & H4). rewrite fmap_cons. split; [constructor; [by intros ?%H3|done]|].
      split; [by right|]. split; [intros k [->|?%H3]%elem_of_cons; [by left|by right]|].
      by rewrite !entries_cons, H4, delete_insert_ne.
    + apply not_elem_of_cons. auto.
Qed.

Lemma register_spec `{Allocator} n name def s rc s' : registry_ok s -> register_sec_mod n name def s = (rc, s') ->
  registry_ok s'
  /\ (models s' = (match models s !! n with Some _ => models s | None => <[n := def]> (models s) end)
      \/ s' = s /\ rc = SNMPERR_MALLOC)
  /\ (is_Some (models s !! n) -> rc = SNMPERR_GENERR /\ s' = s)
  /\ (rc = SNMPERR_SUCCESS -> new_label name (se_find_slist snmp_secmods (enumerations s)) ->
      se_find_value_in_slist snmp_secmods name (enumerations s') = n).
Proof.
  intros Hok. unfold register_sec_mod. rewrite registered_spec. case_bool_decide as Hn.
  - intros [= <- <-]. destruct Hn as [d ->]. split; [done|]. split; [by left|]. split; [done|by intros].
  - apply eq_None_not_Some in Hn. rewrite Hn. destruct (alloc sizeof_secmod_list); cbn [negb].
    + destruct (se_add_pair_to_slist _ _ _ _) as [r e] eqn:Ha. intros [= <- <-].
      split; [|split; [by left|split; [by intros [? ?]|]]].
      2: { destruct (Z.eqb_spec r SE_OK) as [->|?]; cbn [negb]; [|done]. intros _ Hnew.
           destruct (slist_add _ _ _ _ _ _ Ha) as [Hl _]. unfold se_find_value_in_slist. cbn [enumerations].
           rewrite Hl, bool_decide_true by done. by apply find_new_value. } unfold registry_ok. cbn [registered_services]. rewrite fmap_cons.
      constructor; [by apply models_none|done].
    + intros [= <- <-]. split; [done|]. split; [by right|]. split; [by intros [? ?]|done].
Qed.

Lemma unregister_spec n s rc s' : registry_ok s -> unregister_sec_mod n s = (rc, s') ->
  registry_ok s' /\ models s' = delete n (models s)
  /\ rc = if bool_decide (is_Some (models s !! n)) then SNMPERR_SUCCESS else SNMPERR_GENERR.
Proof.
  intros Hok. unfold unregister_sec_mod. pose proof (drop_sec_mod_spec n _ Hok) as Hd.
  destruct (drop_sec_mod n (registered_services s)) as [l|]; intros [= <- <-].
  - destruct Hd as (H1 & H2 & _ & H4). split; [done|]. split; [done|]. rewrite bool_decide_true; [done|].
    apply not_eq_None_Some. rewrite models_none. intros Hc. exact (Hc H2).
  - apply models_none in Hd. split; [done|]. split; [by rewrite delete_id|]. by rewrite Hd.
Qed.
End registry.

(** What can be done to the registry; the code returned by [clear_sec_mod],
    which has none, is 0. *)
Inductive registry_op (St : Type) : Type :=
  | Register (n : Z) (name : list Z) (def : snmp_secmod_def St)
  | Unregister (n : Z)
  | Clear.
Arguments Register {St}.
Arguments Unregister {St}.
Arguments Clear {St}.

Definition registry_run `{Allocator} {St} (op : registry_op St) (s : services St) : Z * services St :=
  match op with
  | Register n name def => register_sec_mod n name def s
  | Unregister n => unregister_sec_mod n s
  | Clear => (0, clear_sec_mod s)
  end.

(** The same on a finite map. *)
Definition registry_spec {St} (op : registry_op St) (m : gmap Z (snmp_secmod_def St)) : gmap Z (snmp_secmod_def St) :=
  match op with
  | Register n _ def => match m !! n with Some _ => m | None => <[n := def]> m end
  | Unregister n => delete n m
  | Clear => ∅
  end.

(** The list of security models refines a finite map: [register_sec_mod]
    adds a model unless there is one of that number or no memory, and then
    changes nothing; [unregister_sec_mod] removes it and tells whether it
    was there; [clear_sec_mod] removes all; [find_sec_mod] looks up.  A model
    is in the list at most once, whatever is done, and one registered under a
    new name is found by that name. *)
Theorem secmod_registry_refines `{Allocator} {St} (op : registry_op St) s rc s' :
  registry_ok s -> registry_run op s = (rc, s') ->
  registry_ok s'
  /\ (forall n, find_sec_mod n s' = models s' !! n)
  /\ (models s' = registry_spec op (models s)
      \/ s' = s /\ exists n name def, op = Register n name def /\ rc = SNMPERR_MALLOC)
  /\ match op with
     | Register n name _ =>
         (is_Some (models s !! n) -> rc = SNMPERR_GENERR /\ s' = s)
         /\ (rc = SNMPERR_SUCCESS -> new_label name (se_find_slist snmp_secmods (enumerations s)) ->
             se_find_value_in_slist snmp_secmods name (enumerations s') = n)
     | Unregister n => rc = if bool_decide (is_Some (models s !! n)) then SNMPERR_SUCCESS else SNMPERR_GENERR
     | Clear => True
     end.
Proof.
  intros Hok E. destruct op as [n name def|n|]; cbn [registry_run registry_spec] in *.
  - apply register_spec in E as (H1 & H2 & H3); [|done]. split; [done|]. split; [intros; apply find_sec_mod_spec|].
    split; [|done]. destruct H2 as [H2|[? ?]]; [by left|right; split; [done|by do 3 eexists]].
  - apply unregister_spec in E as (H1 & H2 & H3); [|done]. split; [done|]. split; [intros; apply find_sec_mod_spec|].
    split; [by left|done].
  - injection E as <- <-. split; [constructor|]. split; [intros; apply find_sec_mod_spec|]. split; [by left|done].
Qed.

Definition no_model : snmp_secmod_def unit := {|
  encode_reverse := None; encode_forward := None; decode := None; handle_report := None; frees_state_ref := false |}.

Definition one_model : services unit := {|
  registered_services := [{| securityModel := 3; secDef := no_model |}];
  enumerations := {| snmp_enum_lists := None; current_maj_num := 0; current_min_num := 0; sliststorage := [] |} |}.

Lemma secmod_registry_refines_witness :
  exists s', register_sec_mod 7 [116; 115; 109] no_model one_model = (SNMPERR_SUCCESS, s')
  /\ find_sec_mod 7 s' = Some no_model /\ se_find_value_in_slist snmp_secmods [116; 115; 109] (enumerations s') = 7.
Proof.
  assert (Hok : registry_ok one_model) by (constructor; [apply not_elem_of_nil|constructor]).
  destruct (register_sec_mod 7 [116; 115; 109] no_model one_model) as [rc s'] eqn:E.
  destruct (secmod_registry_refines (Register 7 [116; 115; 109] no_model) one_model rc s' Hok E)
    as (_ & Hf & [Hm|[_ (? & ? & ? & _ & Hrc)]] & _ & Hv); [|subst rc; vm_compute in E; discriminate E].
  assert (Hrc : rc = SNMPERR_SUCCESS) by (vm_compute in E; injection E as <- _; reflexivity).
  exists s'. split; [by rewrite Hrc|]. split.
  - rewrite Hf, Hm. reflexivity.
  - apply Hv; [exact Hrc|constructor].
Defined.
