(* ===== verification/Alarm.v ===== *)
(** * Alarms: snmplib/snmp_alarm.c

    A list of alarms, each with the time it is due; [run_alarms] calls those
    whose time has come.  The callbacks are the application's: a parameter
    tells which of the routines here a callback calls.  One that itself runs
    the alarms is left out. *)

From S2P Require Import Prelude AsnRbuild Lcd.

(** ** Times *)

Definition timerclear : timeval := {| tv_sec := 0; tv_usec := 0 |}.

Definition timerisset (a : timeval) : bool := negb (tv_sec a =? 0) || negb (tv_usec a =? 0).

(** [timercmp(a, b, <)] *)
Definition timercmp_lt (a b : timeval) : bool :=
  if tv_sec a =? tv_sec b then tv_usec a <? tv_usec b else tv_sec a <? tv_sec b.

Definition NETSNMP_TIMERADD (a b : timeval) : timeval :=
  let sec := tv_sec a + tv_sec b in
  let usec := tv_usec a + tv_usec b in
  if 1000000 <=? usec then {| tv_sec := sec + 1; tv_usec := usec - 1000000 |}
  else {| tv_sec := sec; tv_usec := usec |}.

(** ** The list *)

Definition SA_REPEAT : Z := 0x01.
Definition SA_FIRED : Z := 0x10.

(** [thecallback] and [clientarg] are pointers of the application. *)
Record snmp_alarm : Set := {
  t : timeval;
  flags : Z;
  clientreg : Z;
  t_lastM : timeval;
  t_nextM : timeval;
  clientarg : Z;
  thecallback : Z
}.

(** The static variables, the number of readings of the monotonic clock so
    far, and the time the interval timer of the process is set to. *)
Record alarms : Set := {
  thealarms : list snmp_alarm;
  start_alarms : bool;
  regnum : Z;
  readings : nat;
  itimer : option timeval
}.

Definition with_thealarms (l : list snmp_alarm) (s : alarms) : alarms :=
  {| thealarms := l; start_alarms := start_alarms s; regnum := regnum s; readings := readings s; itimer := itimer s |}.

Definition with_start_alarms (b : bool) (s : alarms) : alarms :=
  {| thealarms := thealarms s; start_alarms := b; regnum := regnum s; readings := readings s; itimer := itimer s |}.

Definition with_regnum (n : Z) (s : alarms) : alarms :=
  {| thealarms := thealarms s; start_alarms := start_alarms s; regnum := n; readings := readings s; itimer := itimer s |}.

Definition with_itimer (v : option timeval) (s : alarms) : alarms :=
  {| thealarms := thealarms s; start_alarms := start_alarms s; regnum := regnum s; readings := readings s; itimer := v |}.

Definition with_times (last next : timeval) (a : snmp_alarm) : snmp_alarm :=
  {| t := t a; flags := flags a; clientreg := clientreg a; t_lastM := last; t_nextM := next;
     clientarg := clientarg a; thecallback := thecallback a |}.

Definition with_flags (f : Z) (a : snmp_alarm) : snmp_alarm :=
  {| t := t a; flags := f; clientreg := clientreg a; t_lastM := t_lastM a; t_nextM := t_nextM a;
     clientarg := clientarg a; thecallback := thecallback a |}.

Definition is_fired (a : snmp_alarm) : bool := negb (Z.land (flags a) SA_FIRED =? 0).

(** The list without the first alarm of that number. *)
Fixpoint unlink (reg : Z) (l : list snmp_alarm) : list snmp_alarm :=
  match l with
  | [] => []
  | a :: l => if clientreg a =? reg then l else a :: unlink reg l
  end.

Definition snmp_alarm_unregister (reg : Z) (s : alarms) : alarms := with_thealarms (unlink reg (thealarms s)) s.

Definition snmp_alarm_unregister_all (s : alarms) : alarms := with_thealarms [] s.

(** The first of the earliest alarms that are not being called, with its
    place in the list; [i] is the place of the head of [l]. *)
Fixpoint find_next (l : list snmp_alarm) (i : nat) (lowest : option (nat * snmp_alarm)) : option (nat * snmp_alarm) :=
  match l with
  | [] => lowest
  | a :: l =>
      find_next l (S i)
        (if negb (is_fired a)
            && match lowest with None => true | Some (_, b) => timercmp_lt (t_nextM a) (t_nextM b) end
         then Some (i, a) else lowest)
  end.

Definition sa_find_next (s : alarms) : option (nat * snmp_alarm) := find_next (thealarms s) 0 None.

Definition sa_find_specific (reg : Z) (s : alarms) : option (nat * snmp_alarm) :=
  list_find (fun a => clientreg a = reg) (thealarms s).

(** ** Operations *)

Section operations.
Context `{Platform, Allocator}.

(** [netsnmp_get_monotonic_clock]; the readings of this state. *)
Definition monotonic (s : alarms) : timeval * alarms :=
  (clock (readings s),
   {| thealarms := thealarms s; start_alarms := start_alarms s; regnum := regnum s;
      readings := S (readings s); itimer := itimer s |}).

(** [a] is the alarm at place [i]. *)
Definition sa_update_entry (i : nat) (a : snmp_alarm) (s : alarms) : alarms :=
  if negb (timerisset (t_lastM a)) then
    let '(now, s) := monotonic s in
    with_thealarms (<[i := with_times now (NETSNMP_TIMERADD now (t a)) a]> (thealarms s)) s
  else if negb (timerisset (t_nextM a)) then
    if negb (Z.land (flags a) SA_REPEAT =? 0) then
      if timerisset (t a)
      then with_thealarms (<[i := with_times (t_lastM a) (NETSNMP_TIMERADD (t_lastM a) (t a)) a]> (thealarms s)) s
      else snmp_alarm_unregister (clientreg a) s
    else snmp_alarm_unregister (clientreg a) s
  else s.

(** 0 when there is no alarm, and nothing in [*alarm_tm]. *)
Definition netsnmp_get_next_alarm_time (now : timeval) (s : alarms) : Z * option timeval :=
  match sa_find_next s with
  | Some (_, a) => (s32 (clientreg a), Some (if timercmp_lt now (t_nextM a) then t_nextM a else now))
  | None => (0, None)
  end.

Definition get_next_alarm_delay_time (s : alarms) : Z * option timeval * alarms :=
  let '(now, s) := monotonic s in
  let '(res, alarm_tm) := netsnmp_get_next_alarm_time now s in
  (res, (fun tm => NETSNMP_TIMERSUB tm now) <$> (if negb (res =? 0) then alarm_tm else None), s).

(** [setitimer]: a value of zero stops the timer. *)
Definition setitimer (v : timeval) : option timeval := if timerisset v then Some v else None.

(** The flag of the default store, against signals. *)
Context (dont_use_sig : bool).

Definition set_an_alarm (s : alarms) : alarms :=
  let '(nextalarm, delta, s) := get_next_alarm_delay_time s in
  match delta with
  | Some delta => if negb (nextalarm =? 0) && negb dont_use_sig then with_itimer (setitimer delta) s else s
  | None => s
  end.

Definition sizeof_alarm : Z := 88.

Definition snmp_alarm_register_hr (tm : timeval) (f cb cd : Z) (s : alarms) : Z * alarms :=
  if negb (alloc sizeof_alarm) then (0, s)
  else
    let reg := regnum s in
    let a := {| t := tm; flags := f; clientreg := reg; t_lastM := timerclear; t_nextM := timerclear;
                clientarg := cd; thecallback := cb |} in
    let i := length (thealarms s) in
    let s := with_regnum (u32 (reg + 1)) (with_thealarms (thealarms s ++ [a]) s) in
    let s := sa_update_entry i a s in
    (reg, if start_alarms s then set_an_alarm s else s).

(** [when] is an [unsigned int]. *)
Definition snmp_alarm_register (when f cb cd : Z) (s : alarms) : Z * alarms :=
  snmp_alarm_register_hr (if when =? 0 then {| tv_sec := 0; tv_usec := 1 |} else {| tv_sec := when; tv_usec := 0 |})
    f cb cd s.

(** Registering this for the end of the configuration is left out. *)
Definition init_snmp_alarm (s : alarms) : alarms := with_start_alarms false s.

Definition init_alarm_post_config (s : alarms) : Z * alarms := (SNMPERR_SUCCESS, set_an_alarm (with_start_alarms true s)).

(** ** Running *)

(** What a callback can call. *)
Inductive call : Set :=
  | Register (tm : timeval) (f cb cd : Z)
  | Unregister (reg : Z)
  | Unregister_all.

Definition do_call (s : alarms) (c : call) : alarms :=
  match c with
  | Register tm f cb cd => (snmp_alarm_register_hr tm f cb cd s).2
  | Unregister reg => snmp_alarm_unregister reg s
  | Unregister_all => snmp_alarm_unregister_all s
  end.

(** What a callback calls, by its address, the number of the alarm and its
    argument, in a state. *)
Context (callback : Z -> Z -> Z -> alarms -> list call).

Definition run_callback (a : snmp_alarm) (s : alarms) : alarms :=
  foldl do_call s (callback (thecallback a) (clientreg a) (clientarg a) s).

(** The body of the loop for the alarm [a] at place [i], read at [t_now]. *)
Definition fire (i : nat) (a : snmp_alarm) (t_now : timeval) (s : alarms) : alarms :=
  let reg := clientreg a in
  let s := with_thealarms (<[i := with_flags (Z.lor (flags a) SA_FIRED) a]> (thealarms s)) s in
  let s := run_callback a s in
  match sa_find_specific reg s with
  | Some (j, a) =>
      let a := with_flags (Z.land (flags a) (Z.lnot SA_FIRED)) (with_times t_now timerclear a) in
      sa_update_entry j a (with_thealarms (<[j := a]> (thealarms s)) s)
  | None => s
  end.

(** The state, and the numbers of the alarms called, in order. *)
Fixpoint run_alarms (fuel : nat) (s : alarms) : outcome (alarms * list Z) :=
  match fuel with
  | O => Spin
  | S fuel =>
      match sa_find_next s with
      | None => Ret (s, [])
      | Some (i, a) =>
          let '(t_now, s) := monotonic s in
          if timercmp_lt t_now (t_nextM a) then Ret (s, [])
          else '(s, called) ← run_alarms fuel (fire i a t_now s); Ret (s, clientreg a :: called)
      end
  end.

Definition alarm_handler (fuel : nat) (s : alarms) : outcome (alarms * list Z) :=
  '(s, called) ← run_alarms fuel s; Ret (set_an_alarm s, called).
End operations.
