(* ===== verification/AlarmSpec.v ===== *)
(** * Lemmas on the alarms

    Times as numbers of microseconds, the search for the next alarm, and the
    invariant of the list, through every routine of snmplib/snmp_alarm.c. *)

From stdpp Require Import list.
From S2P Require Import Prelude AsnRbuild Lcd Alarm.

(** ** Times *)

Definition micro (a : timeval) : Z := tv_sec a * 1000000 + tv_usec a.

Definition normal (a : timeval) : Prop := 0 <= tv_sec a /\ 0 <= tv_usec a < 1000000.

Lemma timercmp_micro a b : normal a -> normal b -> timercmp_lt a b = (micro a <? micro b).
Proof.
  unfold normal, timercmp_lt, micro. intros Ha Hb.
  destruct (Z.eqb_spec (tv_sec a) (tv_sec b)), (Z.ltb_spec (tv_sec a * 1000000 + tv_usec a) (tv_sec b * 1000000 + tv_usec b)); lia.
Qed.

Lemma timeradd_micro a b : normal a -> normal b ->
  normal (NETSNMP_TIMERADD a b) /\ micro (NETSNMP_TIMERADD a b) = micro a + micro b.
Proof.
  unfold normal, NETSNMP_TIMERADD, micro. intros Ha Hb. destruct (Z.leb_spec 1000000 (tv_usec a + tv_usec b)); cbn; lia.
Qed.

Lemma timersub_micro a b : normal a -> normal b -> micro b <= micro a ->
  normal (NETSNMP_TIMERSUB a b) /\ micro (NETSNMP_TIMERSUB a b) = micro a - micro b.
Proof.
  unfold normal, NETSNMP_TIMERSUB, micro. intros Ha Hb Hle.
  destruct (Z.leb_spec 1000000 (tv_usec a - tv_usec b + 1000000)); cbn; lia.
Qed.

Lemma timerisset_micro a : normal a -> timerisset a = negb (micro a =? 0).
Proof. unfold normal, timerisset, micro. intros. lia. Qed.

#[export] Instance timeval_eq_dec : EqDecision timeval.
Proof. solve_decision. Defined.

#[export] Instance snmp_alarm_eq_dec : EqDecision snmp_alarm.
Proof. solve_decision. Defined.

(** ** The next alarm *)

Definition not_before (a b : timeval) : Prop := timercmp_lt a b = false.

Lemma not_before_refl a : not_before a a.
Proof. unfold not_before, timercmp_lt. rewrite Z.eqb_refl. lia. Qed.

Lemma not_before_trans a b c : not_before a b -> not_before b c -> not_before a c.
Proof.
  unfold not_before, timercmp_lt.
  destruct (Z.eqb_spec (tv_sec a) (tv_sec b)), (Z.eqb_spec (tv_sec b) (tv_sec c)), (Z.eqb_spec (tv_sec a) (tv_sec c)); lia.
Qed.

(** The lowest so far is in front of [l]. *)
Lemma find_next_spec l : forall i lowest,
  match find_next l i lowest with
  | None => lowest = None /\ Forall (fun a => is_fired a = true) l
  | Some (j, b) =>
      (lowest = Some (j, b) \/ (i <= j)%nat /\ l !! (j - i)%nat = Some b /\ is_fired b = false)
      /\ Forall (fun a => is_fired a = false -> not_before (t_nextM a) (t_nextM b)) l
      /\ (forall k c, lowest = Some (k, c) -> not_before (t_nextM c) (t_nextM b))
  end.
Proof.
  induction l as [|a l IH]; intros i lowest; cbn [find_next].
  - destruct lowest as [[k c]|]; [|done]. split; [by left|]. split; [constructor|].
    intros ? ? [= <- <-]. apply not_before_refl.
  - destruct (negb (is_fired a) && match lowest with None => true | Some (_, b) => timercmp_lt (t_nextM a) (t_nextM b) end) eqn:Hc.
    + apply andb_prop in Hc as [Hf Hlt]. apply negb_true_iff in Hf. specialize (IH (S i) (Some (i, a))).
      destruct (find_next l (S i) (Some (i, a))) as [[j b]|]; [|by destruct IH]. destruct IH as (Hin & Hall & Hlow).
      specialize (Hlow i a eq_refl). split; [|split].
      * right. destruct Hin as [[= <- <-]|(Hij & Hl & Hb)]; [by rewrite Nat.sub_diag|].
        split; [lia|]. replace (j - i)%nat with (S (j - S i)) by lia. done.
      * constructor; auto.
      * intros k c ->. eapply not_before_trans; [|exact Hlow]. unfold not_before, timercmp_lt in *.
        destruct (Z.eqb_spec (tv_sec (t_nextM a)) (tv_sec (t_nextM c))), (Z.eqb_spec (tv_sec (t_nextM c)) (tv_sec (t_nextM a))); lia.
    + specialize (IH (S i) lowest). destruct (find_next l (S i) lowest) as [[j b]|].
      * destruct IH as (Hin & Hall & Hlow). split; [|split; [|done]].
        { destruct Hin as [?|(Hij & Hl & Hb)]; [by left|right]. split; [lia|].
          replace (j - i)%nat with (S (j - S i)) by lia. done. }
        constructor; [|done]. intros Hf. rewrite Hf in Hc. cbn [negb andb] in Hc.
        destruct lowest as [[k c]|]; [|done]. eapply not_before_trans; [exact Hc|by eapply Hlow].
      * destruct IH as [-> Hall]. split; [done|]. constructor; [|done]. rewrite andb_true_r in Hc. by apply negb_false_iff.
Qed.

Lemma sa_find_next_spec s :
  match sa_find_next s with
  | None => Forall (fun a => is_fired a = true) (thealarms s)
  | Some (i, a) => thealarms s !! i = Some a /\ is_fired a = false
                   /\ Forall (fun b => is_fired b = false -> not_before (t_nextM b) (t_nextM a)) (thealarms s)
  end.
Proof.
  pose proof (find_next_spec (thealarms s) 0 None) as H. unfold sa_find_next. destruct (find_next _ _ _) as [[i a]|].
  - destruct H as ([?|(_ & Hl & Hf)] & Hall & _); [done|]. by rewrite Nat.sub_0_r in Hl.
  - apply H.
Qed.

(** ** The invariant *)

Definition scheduled (a : snmp_alarm) : Prop := t_nextM a = NETSNMP_TIMERADD (t_lastM a) (t a).

(** Its number was given out, its times are in order. *)
Definition entry_ok (reg : Z) (a : snmp_alarm) : Prop :=
  normal (t a) /\ normal (t_lastM a) /\ 1 <= clientreg a < reg.

(** What holds also while an alarm is being changed. *)
Record listed (s : alarms) : Prop := {
  l_entries : Forall (entry_ok (regnum s)) (thealarms s);
  l_unique : NoDup (clientreg <$> thealarms s);
  l_regnum : 1 <= regnum s < 2 ^ 32
}.

(** Every alarm is due one interval after it was last called. *)
Definition wf (s : alarms) : Prop := listed s /\ Forall scheduled (thealarms s).

Lemma next_normal s a : wf s -> a ∈ thealarms s -> normal (t_nextM a).
Proof.
  intros [[He _ _] Hs] Ha. rewrite Forall_forall in He, Hs. rewrite (Hs a Ha). destruct (He a Ha) as (? & ? & _).
  by apply timeradd_micro.
Qed.

Lemma unlink_sublist reg l : unlink reg l `sublist_of` l.
Proof. induction l as [|a l IH]; [done|]. cbn. destruct (_ =? _); [by apply sublist_cons|by apply sublist_skip]. Qed.

Lemma unlink_keeps reg l a : a ∈ l -> clientreg a <> reg -> a ∈ unlink reg l.
Proof.
  induction l as [|b l IH]; [done|]. cbn. intros [->|Hin]%elem_of_cons Hne.
  - destruct (Z.eqb_spec (clientreg b) reg); [done|left].
  - destruct (_ =? _); [done|right; auto].
Qed.

Lemma unlink_other reg l b : NoDup (clientreg <$> l) -> b ∈ unlink reg l -> b ∈ l /\ clientreg b <> reg.
Proof.
  induction l as [|a l IH]; intros Hnd; cbn [unlink]; [by intros ?%elem_of_nil|].
  rewrite fmap_cons in Hnd. apply NoDup_cons in Hnd as [Ha Hnd]. destruct (Z.eqb_spec (clientreg a) reg) as [<-|Hne].
  - intros Hb. split; [by right|]. intros E. apply Ha. rewrite <- E. by apply list_elem_of_fmap_2.
  - intros [->|Hb]%elem_of_cons; [split; [left|done]|]. destruct (IH Hnd Hb). split; [by right|done].
Qed.

(** ** One alarm replaced *)

Section replaced.
Context (l : list snmp_alarm) (i : nat) (a a' : snmp_alarm).
Hypothesis Hi : l !! i = Some a.
Hypothesis Hreg : clientreg a' = clientreg a.

Lemma replaced_numbers : clientreg <$> <[i := a']> l = clientreg <$> l.
Proof using Hi Hreg. rewrite list_fmap_insert, Hreg. apply list_insert_id. by rewrite list_lookup_fmap, Hi. Qed.

Lemma replaced_in : a' ∈ <[i := a']> l.
Proof using Hi. apply list_elem_of_insert. by eapply lookup_lt_Some. Qed.

Lemma replaced_keeps b : b ∈ l -> clientreg b <> clientreg a -> b ∈ <[i := a']> l.
Proof using Hi.
  clear Hreg. intros [j Hj]%list_elem_of_lookup Hne. apply list_elem_of_lookup. exists j.
  rewrite list_lookup_insert_ne; [done|]. intros <-. rewrite Hi in Hj. by injection Hj as ->.
Qed.

Lemma replaced_inv b : NoDup (clientreg <$> l) -> b ∈ <[i := a']> l -> b = a' \/ b ∈ l /\ clientreg b <> clientreg a.
Proof using Hi Hreg.
  intros Hnd [j Hj]%list_elem_of_lookup. destruct (decide (i = j)) as [<-|Hne].
  - left. rewrite list_lookup_insert_eq in Hj by (by eapply lookup_lt_Some). congruence.
  - rewrite list_lookup_insert_ne in Hj by done. right. split; [by eapply list_elem_of_lookup_2|]. intros E.
    apply Hne. eapply (NoDup_lookup (clientreg <$> l)); [done| |]; rewrite list_lookup_fmap; [rewrite Hi; reflexivity|rewrite Hj; cbn; by rewrite E].
Qed.
End replaced.

(** The alarm of a number. *)
Lemma number_unique l a b : NoDup (clientreg <$> l) -> a ∈ l -> b ∈ l -> clientreg a = clientreg b -> a = b.
Proof.
  intros Hnd [i Hi]%list_elem_of_lookup [j Hj]%list_elem_of_lookup E.
  assert (i = j); [|congruence]. eapply (NoDup_lookup (clientreg <$> l)); [done| |]; rewrite list_lookup_fmap; [rewrite Hi; reflexivity|rewrite Hj; cbn; by rewrite E].
Qed.

Lemma find_specific_spec reg s : NoDup (clientreg <$> thealarms s) ->
  match sa_find_specific reg s with
  | Some (j, a) => thealarms s !! j = Some a /\ clientreg a = reg
  | None => forall a, a ∈ thealarms s -> clientreg a <> reg
  end.
Proof.
  intros Hnd. unfold sa_find_specific. destruct (list_find _ _) as [[j a]|] eqn:E.
  - apply list_find_Some in E as (Hj & Ha & _). done.
  - apply list_find_None in E. by rewrite Forall_forall in E.
Qed.

(** ** Every routine keeps it *)

Section kept.
Context `{Platform, Allocator}.
Hypothesis clock_normal : forall k, normal (clock k).

Definition all_but (a : snmp_alarm) (s : alarms) : Prop :=
  forall b, b ∈ thealarms s -> clientreg b <> clientreg a -> scheduled b.

(** An alarm replaced by one that is in order. *)
Lemma replaced_wf s i a a' : listed s -> all_but a s -> thealarms s !! i = Some a -> clientreg a' = clientreg a ->
  entry_ok (regnum s) a' -> scheduled a' -> wf (with_thealarms (<[i := a']> (thealarms s)) s).
Proof using Type.
  intros [He Hu Hr] Hall Hi Hreg Hok Hs. split.
  - split; cbn; [by apply Forall_insert|by erewrite replaced_numbers|done].
  - cbn. apply Forall_forall. intros b [->|[Hb Hne]]%(replaced_inv _ _ _ _ Hi Hreg); [done|by apply Hall|done].
Qed.

Lemma unlink_listed s reg : listed s -> listed (snmp_alarm_unregister reg s).
Proof using Type.
  intros [He Hu Hr]. pose proof (unlink_sublist reg (thealarms s)) as Hsub. split; cbn; [|by eapply sublist_NoDup, fmap_sublist|done].
  rewrite Forall_forall in He |- *. intros b Hb. apply He. by eapply elem_of_sublist.
Qed.

Lemma unregister_wf s reg : wf s -> wf (snmp_alarm_unregister reg s).
Proof using Type.
  intros [Hl Hs]. split; [by apply unlink_listed|]. rewrite Forall_forall in Hs |- *. intros b Hb. apply Hs.
  eapply elem_of_sublist; [exact Hb|apply unlink_sublist].
Qed.

Lemma unregister_self_wf s a : listed s -> all_but a s -> wf (snmp_alarm_unregister (clientreg a) s).
Proof using Type.
  intros Hl Hall. split; [by apply unlink_listed|]. apply Forall_forall. intros b Hb.
  apply unlink_other in Hb as [? ?]; [by apply Hall|apply Hl].
Qed.

Lemma wf_monotonic s : wf s -> wf (monotonic s).2.
Proof using Type. by intros [[? ? ?] ?]. Qed.

(** An alarm that was just called, or never. *)
Lemma update_wf s i a : listed s -> all_but a s -> thealarms s !! i = Some a ->
  timerisset (t_nextM a) = false -> wf (sa_update_entry i a s).
Proof using clock_normal.
  intros Hl Hall Hi Hn. assert (Hok : entry_ok (regnum s) a) by (eapply Forall_lookup_1; [apply Hl|exact Hi]).
  destruct Hok as (Ht & Hlast & Hreg). unfold sa_update_entry. destruct (timerisset (t_lastM a)) eqn:E; cbn [negb].
  - rewrite Hn. cbn [negb]. destruct (negb _); [destruct (timerisset (t a))|]; [|by apply unregister_self_wf..].
    eapply replaced_wf; try eassumption; done.
  - cbn [monotonic]. change (readings s) with (readings s).
    assert (Hm : wf (with_thealarms (<[i := with_times (clock (readings s)) (NETSNMP_TIMERADD (clock (readings s)) (t a)) a]> (thealarms s)) s)).
    { eapply replaced_wf; try eassumption; try done. split; [done|]. split; [apply clock_normal|done]. }
    destruct Hm as [[? ? ?] ?]. by split.
Qed.

Lemma set_an_alarm_list dont_use_sig s :
  thealarms (set_an_alarm dont_use_sig s) = thealarms s /\ regnum (set_an_alarm dont_use_sig s) = regnum s.
Proof using Type.
  unfold set_an_alarm. destruct (get_next_alarm_delay_time s) as [[n d] s1] eqn:E.
  assert (Hs : thealarms s1 = thealarms s /\ regnum s1 = regnum s).
  { unfold get_next_alarm_delay_time, monotonic in E. destruct (netsnmp_get_next_alarm_time _ _). by injection E as _ _ <-. }
  destruct d; [|done]. by destruct (_ && _).
Qed.

Lemma wf_same s s' : thealarms s' = thealarms s -> regnum s' = regnum s -> wf s -> wf s'.
Proof using Type. intros E1 E2 [[? ? ?] ?]. split; [split|]; rewrite ?E1, ?E2; done. Qed.

Lemma set_an_alarm_wf dont_use_sig s : wf s -> wf (set_an_alarm dont_use_sig s).
Proof using Type. destruct (set_an_alarm_list dont_use_sig s). by apply wf_same. Qed.

Context (dont_use_sig : bool).
Definition call_ok (c : call) : Prop := match c with Register tm _ _ _ => normal tm | _ => True end.

Lemma register_wf tm f cb cd s : wf s -> normal tm -> regnum s + 1 < 2 ^ 32 ->
  let '(reg, s') := snmp_alarm_register_hr dont_use_sig tm f cb cd s in
  wf s' /\ (reg = 0 /\ s' = s \/ reg = regnum s /\ regnum s' = regnum s + 1).
Proof using clock_normal.
  intros Hwf Ht Hn. unfold snmp_alarm_register_hr. destruct (alloc sizeof_alarm); cbn [negb]; [|auto].
  pose proof Hwf as [[He Hu Hr] Hs].
  set (a := {| t := tm; flags := f; clientreg := regnum s; t_lastM := timerclear; t_nextM := timerclear;
               clientarg := cd; thecallback := cb |}).
  set (s1 := with_regnum _ _). cbv zeta.
  assert (Hreg1 : regnum s1 = regnum s + 1) by (cbn; rewrite u32_id by cint; reflexivity).
  assert (Hi : thealarms s1 !! length (thealarms s) = Some a) by (cbn; by rewrite lookup_app_r, Nat.sub_diag).
  assert (Hold : forall b, b ∈ thealarms s -> clientreg b < regnum s).
  { intros b Hb. rewrite Forall_forall in He. destruct (He b Hb) as (_ & _ & ?). lia. }
  assert (Hl : listed s1).
  { split; cbn [thealarms s1 with_regnum with_thealarms]; [| |rewrite Hreg1; lia].
    - rewrite Hreg1. apply Forall_app. split.
      + eapply Forall_impl; [exact He|]. intros b (Hb1 & Hb2 & Hb3). split; [done|]. split; [done|lia].
      + constructor; [|constructor]. split; [exact Ht|]. split; [done|]. cbn. lia.
    - rewrite fmap_app. apply NoDup_app. split; [done|]. split; [|apply NoDup_singleton].
      intros x (b & -> & Hb)%list_elem_of_fmap Hx. apply list_elem_of_singleton in Hx. apply Hold in Hb. cbn in Hx. lia. }
  assert (Hall : all_but a s1).
  { intros b Hb Hne. cbn in Hb. apply elem_of_app in Hb as [Hb| ->%list_elem_of_singleton]; [|done].
    rewrite Forall_forall in Hs. by apply Hs. }
  pose proof (update_wf s1 _ a Hl Hall Hi eq_refl) as Hup.
  assert (Hrn : regnum (sa_update_entry (length (thealarms s)) a s1) = regnum s + 1) by exact Hreg1.
  destruct (start_alarms _); [|auto]. split; [by apply set_an_alarm_wf|]. right. split; [done|].
  by rewrite (proj2 (set_an_alarm_list dont_use_sig _)).
Qed.

Context (callback : Z -> Z -> Z -> alarms -> list call).

(** How many alarms the call registers, and a list of calls. *)
Definition registers (c : call) : nat := match c with Register _ _ _ _ => 1 | _ => 0 end.
Definition registrations (cs : list call) : Z := Z.of_nat (sum_list_with registers cs).

Lemma do_call_wf s c : wf s -> call_ok c -> regnum s + Z.of_nat (registers c) < 2 ^ 32 ->
  wf (do_call dont_use_sig s c) /\ regnum s <= regnum (do_call dont_use_sig s c) <= regnum s + Z.of_nat (registers c).
Proof using clock_normal.
  intros Hwf Hc Hn. destruct c as [tm f cb cd|reg|]; cbn [do_call].
  - cbn [registers] in *. pose proof (register_wf tm f cb cd s Hwf Hc Hn) as Hreg. destruct (snmp_alarm_register_hr _ _ _ _ _ _) as [reg s'].
    cbn [snd]. destruct Hreg as [Hw [[_ E]|[_ E]]]; (split; [exact Hw|]); [subst s'|]; lia.
  - split; [by apply unregister_wf|cbn; lia].
  - split; [|cbn; lia]. destruct Hwf as [[? ? ?] ?]. split; [split; cbn; [constructor|constructor|done]|constructor].
Qed.

Lemma calls_wf cs : forall s, wf s -> Forall call_ok cs -> regnum s + registrations cs < 2 ^ 32 ->
  wf (foldl (do_call dont_use_sig) s cs) /\ regnum s <= regnum (foldl (do_call dont_use_sig) s cs) <= regnum s + registrations cs.
Proof using clock_normal.
  induction cs as [|c cs IH]; intros s Hwf Hcs Hn; cbn [foldl]; [split; [done|unfold registrations; cbn; lia]|].
  apply Forall_cons in Hcs as [Hc Hcs]. unfold registrations in *. cbn [sum_list_with] in Hn |- *. destruct (do_call_wf s c Hwf Hc ltac:(lia)) as [Hwf1 Hr1].
  destruct (IH _ Hwf1 Hcs ltac:(lia)) as [? ?]. split; [done|lia].
Qed.

(** The alarm marked while it is called. *)
Definition marked (i : nat) (a : snmp_alarm) (s : alarms) : alarms :=
  with_thealarms (<[i := with_flags (Z.lor (flags a) SA_FIRED) a]> (thealarms s)) s.

Lemma marked_wf i a s : wf s -> thealarms s !! i = Some a -> wf (marked i a s).
Proof using Type.
  intros [Hl Hs] Hi. pose proof Hl as [He _ _]. eapply replaced_wf; [done| |exact Hi|done| |].
  - intros b Hb _. rewrite Forall_forall in Hs. by apply Hs.
  - exact (Forall_lookup_1 _ _ _ _ He Hi).
  - exact (Forall_lookup_1 _ _ _ _ Hs Hi).
Qed.

(** The alarm after its call. *)
Definition called (t_now : timeval) (a : snmp_alarm) : snmp_alarm :=
  with_flags (Z.land (flags a) (Z.lnot SA_FIRED)) (with_times t_now timerclear a).

Definition finished (reg : Z) (t_now : timeval) (s : alarms) : alarms :=
  match sa_find_specific reg s with
  | Some (j, a) => sa_update_entry j (called t_now a) (with_thealarms (<[j := called t_now a]> (thealarms s)) s)
  | None => s
  end.

Lemma fire_eq i a t_now s :
  fire dont_use_sig callback i a t_now s = finished (clientreg a) t_now (run_callback dont_use_sig callback a (marked i a s)).
Proof using Type. reflexivity. Qed.

Lemma finished_wf reg t_now s : wf s -> normal t_now -> wf (finished reg t_now s).
Proof using clock_normal.
  intros Hwf Ht. pose proof Hwf as [[He Hu Hr] Hs]. unfold finished. pose proof (find_specific_spec reg s Hu) as Hf.
  destruct (sa_find_specific reg s) as [[j a]|]; [|done]. destruct Hf as [Hj Hreg].
  apply update_wf; [split; cbn| |cbn; apply list_lookup_insert_eq; by eapply lookup_lt_Some|done].
  - apply Forall_insert; [done|]. destruct (Forall_lookup_1 _ _ _ _ He Hj) as (? & ? & ?). done.
  - by erewrite replaced_numbers.
  - done.
  - intros b Hb Hne. cbn in Hb, Hne. apply (replaced_inv _ _ a) in Hb as [->|[Hb _]]; [done| |done..].
    rewrite Forall_forall in Hs. by apply Hs.
Qed.

Lemma finished_regnum reg t_now s : regnum (finished reg t_now s) = regnum s.
Proof using Type.
  unfold finished, sa_update_entry, monotonic. destruct (sa_find_specific reg s) as [[j a]|]; [|done].
  by repeat case_match.
Qed.

(** The calls of a callback. *)
Definition callbacks_ok (k : Z) : Prop := forall cb reg cd s, Forall call_ok (callback cb reg cd s) /\ registrations (callback cb reg cd s) <= k.

Lemma fire_wf k i a t_now s : callbacks_ok k -> wf s -> thealarms s !! i = Some a -> normal t_now -> regnum s + k < 2 ^ 32 ->
  wf (fire dont_use_sig callback i a t_now s)
  /\ regnum s <= regnum (fire dont_use_sig callback i a t_now s) <= regnum s + k.
Proof using clock_normal.
  intros Hcb Hwf Hi Ht Hn. rewrite fire_eq, finished_regnum.
  destruct (Hcb (thecallback a) (clientreg a) (clientarg a) (marked i a s)) as [Hok Hk].
  destruct (calls_wf _ (marked i a s) (marked_wf i a s Hwf Hi) Hok ltac:(cbn; lia)) as [Hwf1 Hr1].
  change (foldl _ _ _) with (run_callback dont_use_sig callback a (marked i a s)) in *.
  split; [by apply finished_wf|]. cbn [regnum marked with_thealarms] in Hr1. lia.
Qed.
End kept.
