(* ===== verification/AlarmProps.v ===== *)
(** * Runs of the alarms

    What a run of [run_alarms] keeps, which alarms it calls, and why it
    ends. *)

From stdpp Require Import list relations gmap.
From S2P Require Import Prelude AsnRbuild Lcd Alarm AlarmSpec UsmProps Samples.

Section runs.
Context `{Platform, Allocator} (dont_use_sig : bool).
Context (callback : Z -> Z -> Z -> alarms -> list call).
Hypothesis clock_normal : forall k, normal (clock k).

Lemma run_wf k fuel : callbacks_ok callback k -> forall s s' nums, wf s -> regnum s + Z.of_nat fuel * k < 2 ^ 32 ->
  run_alarms dont_use_sig callback fuel s = Ret (s', nums) -> wf s'.
Proof using clock_normal.
  intros Hcb. assert (Hk : 0 <= k) by (destruct (Hcb 0 0 0 {| thealarms := []; start_alarms := false; regnum := 1;
    readings := 0; itimer := None |}); unfold registrations in *; lia).
  induction fuel as [|fuel IH]; intros s s' nums Hwf Hn; cbn [run_alarms]; [done|].
  pose proof (sa_find_next_spec s) as Hnext. destruct (sa_find_next s) as [[i a]|]; [|by intros [= <- _]].
  destruct Hnext as (Hi & _ & _). cbn [monotonic]. pose proof (wf_monotonic s Hwf) as Hm. cbn [monotonic snd] in Hm.
  destruct (timercmp_lt _ _); [by intros [= <- _]|].
  match goal with |- context [fire _ _ i a ?n ?s1] => destruct (fire_wf clock_normal dont_use_sig callback k i a n s1) as [Hf Hr] end;
    [done|done|done|apply clock_normal|cbn; lia|].
  intros ([s2 c] & Hrun & [= <- _])%bind_Ret_inv. cbn [regnum] in Hr. eapply IH; [exact Hf| |exact Hrun]. lia.
Qed.

(** ** An alarm that is due is called *)

(** The call leaves the alarm of that number alone. *)
Definition spares (reg : Z) (c : call) : Prop := c <> Unregister reg /\ c <> Unregister_all.

Lemma update_keeps i b a s : thealarms s !! i = Some b -> a ∈ thealarms s -> clientreg a <> clientreg b ->
  a ∈ thealarms (sa_update_entry i b s).
Proof using Type.
  intros Hi Ha Hne. unfold sa_update_entry, monotonic.
  assert (Hins : forall x y, a ∈ <[i := with_times x y b]> (thealarms s)) by (intros; by eapply replaced_keeps).
  assert (Hun : a ∈ unlink (clientreg b) (thealarms s)) by (by apply unlink_keeps).
  destruct (timerisset (t_lastM b)); cbn [negb]; [|apply Hins].
  destruct (timerisset (t_nextM b)); cbn [negb]; [done|].
  destruct (negb _); [destruct (timerisset (t b))|]; [apply Hins|exact Hun|exact Hun].
Qed.

Lemma do_call_keeps a s c : wf s -> spares (clientreg a) c -> a ∈ thealarms s -> a ∈ thealarms (do_call dont_use_sig s c).
Proof using Type.
  intros Hwf [Hc1 Hc2] Ha. destruct c as [tm f cb cd|reg|]; cbn [do_call]; [|by apply unlink_keeps; congruence|done].
  unfold snmp_alarm_register_hr. destruct (alloc sizeof_alarm); cbn [negb snd]; [|done].
  match goal with |- context [sa_update_entry ?n ?b ?s1] => assert (Hup : a ∈ thealarms (sa_update_entry n b s1)) end.
  { apply update_keeps; cbn.
    - by rewrite lookup_app_r, Nat.sub_diag.
    - apply elem_of_app. by left.
    - destruct Hwf as [[He _ _] _]. rewrite Forall_forall in He. destruct (He a Ha) as (_ & _ & ?). lia. }
  destruct (start_alarms _); [|done]. by rewrite (proj1 (set_an_alarm_list dont_use_sig _)).
Qed.

Lemma calls_keep a cs : forall s, wf s -> Forall call_ok cs -> regnum s + registrations cs < 2 ^ 32 ->
  Forall (spares (clientreg a)) cs -> a ∈ thealarms s -> a ∈ thealarms (foldl (do_call dont_use_sig) s cs).
Proof using clock_normal.
  induction cs as [|c cs IH]; intros s Hwf Hok Hn Hsp Ha; cbn [foldl]; [done|]. unfold registrations in *. cbn [sum_list_with] in Hn.
  apply Forall_cons in Hok as [Hc Hok], Hsp as [Hs Hsp].
  destruct (do_call_wf clock_normal dont_use_sig s c Hwf Hc ltac:(lia)) as [Hwf1 Hr1].
  apply IH; [done|done|lia|done|]. by apply do_call_keeps.
Qed.

Lemma finished_keeps a reg t_now s : wf s -> clientreg a <> reg -> a ∈ thealarms s -> a ∈ thealarms (finished reg t_now s).
Proof using Type.
  intros [[_ Hu _] _] Hne Ha. unfold finished. pose proof (find_specific_spec reg s Hu) as Hf.
  destruct (sa_find_specific reg s) as [[j b]|]; [|done]. destruct Hf as [Hj Hb].
  apply update_keeps; cbn; [|eapply replaced_keeps; [exact Hj|exact Ha|congruence]|congruence].
  apply list_lookup_insert_eq. by eapply lookup_lt_Some.
Qed.

(** Time goes on. *)
Hypothesis clock_monotone : forall j k, (j <= k)%nat -> not_before (clock k) (clock j).

Lemma update_readings i b s : (readings s <= readings (sa_update_entry i b s))%nat.
Proof using Type. unfold sa_update_entry, monotonic. repeat case_match; cbn; lia. Qed.

Lemma do_call_readings s c : (readings s <= readings (do_call dont_use_sig s c))%nat.
Proof using Type.
  destruct c as [tm f cb cd|reg|]; cbn [do_call]; [|done|done]. unfold snmp_alarm_register_hr.
  destruct (negb _); [done|]. cbn [snd].
  match goal with |- context [sa_update_entry ?n ?b ?s1] => pose proof (update_readings n b s1) as Hu end. cbn [readings with_regnum with_thealarms] in Hu.
  destruct (start_alarms _); [|done]. unfold set_an_alarm, get_next_alarm_delay_time, monotonic.
  destruct (netsnmp_get_next_alarm_time _ _). repeat case_match; simplify_eq; cbn; lia.
Qed.

Lemma calls_readings cs : forall s, (readings s <= readings (foldl (do_call dont_use_sig) s cs))%nat.
Proof using Type.
  induction cs as [|c cs IH]; intros s; cbn [foldl]; [done|]. etransitivity; [apply do_call_readings|apply IH].
Qed.

Lemma fire_readings i a t_now s : (readings s <= readings (fire dont_use_sig callback i a t_now s))%nat.
Proof using Type.
  rewrite fire_eq. transitivity (readings (run_callback dont_use_sig callback a (marked i a s))).
  - apply (calls_readings _ (marked i a s)).
  - unfold finished. destruct (sa_find_specific _ _) as [[j b]|]; [|done].
    etransitivity; [|apply update_readings]. done.
Qed.

Lemma fire_keeps k i a b s t_now : callbacks_ok callback k -> wf s -> thealarms s !! i = Some a ->
  regnum s + k < 2 ^ 32 -> b ∈ thealarms s -> clientreg b <> clientreg a ->
  (forall cb reg cd s, Forall (spares (clientreg b)) (callback cb reg cd s)) ->
  b ∈ thealarms (fire dont_use_sig callback i a t_now s).
Proof using clock_normal.
  intros Hcb Hwf Hi Hn Hb Hne Hsp. rewrite fire_eq.
  destruct (Hcb (thecallback a) (clientreg a) (clientarg a) (marked i a s)) as [Hok Hk].
  pose proof (marked_wf i a s Hwf Hi) as Hm.
  assert (Hr : regnum (marked i a s) + registrations (callback (thecallback a) (clientreg a) (clientarg a) (marked i a s)) < 2 ^ 32) by (cbn; lia).
  destruct (calls_wf clock_normal dont_use_sig _ (marked i a s) Hm Hok Hr) as [Hwf1 _].
  apply finished_keeps; [exact Hwf1|done|]. apply calls_keep; [done..|]. cbn. by eapply replaced_keeps.
Qed.

Lemma due_called k a fuel : callbacks_ok callback k -> is_fired a = false ->
  (forall cb reg cd s, Forall (spares (clientreg a)) (callback cb reg cd s)) ->
  forall s s' nums, wf s -> regnum s + Z.of_nat fuel * k < 2 ^ 32 -> a ∈ thealarms s ->
  not_before (clock (readings s)) (t_nextM a) ->
  run_alarms dont_use_sig callback fuel s = Ret (s', nums) -> clientreg a ∈ nums.
Proof using clock_normal clock_monotone.
  intros Hcb Hf Hsp. assert (Hk : 0 <= k) by (destruct (Hcb 0 0 0 {| thealarms := []; start_alarms := false; regnum := 1;
    readings := 0; itimer := None |}); unfold registrations in *; lia).
  induction fuel as [|fuel IH]; intros s s' nums Hwf Hn Ha Hdue; cbn [run_alarms]; [done|].
  pose proof (sa_find_next_spec s) as Hnext. destruct (sa_find_next s) as [[i b]|].
  2: { rewrite Forall_forall in Hnext. specialize (Hnext a Ha). congruence. }
  destruct Hnext as (Hi & _ & Hlow). rewrite Forall_forall in Hlow. specialize (Hlow a Ha Hf). cbn [monotonic].
  assert (Hb : timercmp_lt (clock (readings s)) (t_nextM b) = false) by (eapply not_before_trans; eassumption).
  rewrite Hb. intros ([s2 c] & Hrun & [= <- <-])%bind_Ret_inv.
  destruct (decide (clientreg a = clientreg b)) as [->|Hne]; [by left|right].
  pose proof (wf_monotonic s Hwf) as Hm. cbn [monotonic snd] in Hm.
  match type of Hrun with context [fire _ _ i b ?n ?s1] =>
    destruct (fire_wf clock_normal dont_use_sig callback k i b n s1) as [Hw Hr]; [done|done|done|apply clock_normal|cbn; lia|];
    pose proof (fire_readings i b n s1) as Hrd;
    pose proof (fire_keeps k i b a s1 n Hcb Hm Hi ltac:(cbn; lia) Ha Hne Hsp) as Hkeep end.
  cbn [regnum readings] in Hr, Hrd. eapply IH; [exact Hw| |exact Hkeep| |exact Hrun]; [lia|].
  eapply not_before_trans; [apply clock_monotone|exact Hdue]. lia.
Qed.

(** Nothing is left that was due when the clock was read last. *)
Lemma none_left fuel : forall s s' nums, run_alarms dont_use_sig callback fuel s = Ret (s', nums) ->
  Forall (fun a => is_fired a = false -> timercmp_lt (clock (pred (readings s'))) (t_nextM a) = true) (thealarms s').
Proof using Type.
  induction fuel as [|fuel IH]; intros s s' nums; cbn [run_alarms]; [done|].
  pose proof (sa_find_next_spec s) as Hnext. destruct (sa_find_next s) as [[i b]|].
  - destruct Hnext as (_ & _ & Hlow). cbn [monotonic]. destruct (timercmp_lt _ _) eqn:Hb.
    + intros [= <- <-]. cbn. eapply Forall_impl; [exact Hlow|]. intros a Ha Hf. specialize (Ha Hf).
      apply not_false_iff_true. intros Hc. assert (Hn : not_before (clock (readings s)) (t_nextM b)) by (eapply not_before_trans; eassumption).
      unfold not_before in Hn. congruence.
    + intros ([s2 c] & Hrun & [= <- _])%bind_Ret_inv. by eapply IH.
  - intros [= <- _]. eapply Forall_impl; [exact Hnext|]. intros a Ha Hf. congruence.
Qed.
End runs.

(** ** A run ends *)

Section ends.
Context `{Platform, Allocator} (dont_use_sig : bool).
Context (callback : Z -> Z -> Z -> alarms -> list call).
Hypothesis clock_normal : forall k, normal (clock k).
Hypothesis clock_set : forall k, timerisset (clock k) = true.

(** The callbacks may remove alarms, not add any. *)
Definition quiet (c : call) : Prop := match c with Register _ _ _ _ => False | _ => True end.

Hypothesis callback_quiet : forall cb reg cd s, Forall quiet (callback cb reg cd s).

(** How often an alarm can be called up to the time [T]. *)
Definition times_up_to (T : Z) (a : snmp_alarm) : nat :=
  if T <? micro (t_nextM a) then 0
  else if negb (Z.land (flags a) SA_REPEAT =? 0) && timerisset (t a) then S (Z.to_nat ((T - micro (t_nextM a)) / micro (t a)))
  else 1.

Definition budget (T : Z) (l : list snmp_alarm) : nat := sum_list_with (times_up_to T) l.

Section sums.
Context (f : snmp_alarm -> nat).

Lemma sum_insert l : forall i a a', l !! i = Some a ->
  (sum_list_with f (<[i := a']> l) + f a = sum_list_with f l + f a')%nat.
Proof using Type.
  induction l as [|b l IH]; intros [|i] a a' Hi; [done|done| |].
  - injection Hi as ->. cbn. lia.
  - change (<[S i := a']> (b :: l)) with (b :: <[i := a']> l). cbn [sum_list_with]. specialize (IH i a a' Hi). lia.
Qed.

Lemma sum_unlink l a : a ∈ l -> NoDup (clientreg <$> l) ->
  (sum_list_with f (unlink (clientreg a) l) + f a = sum_list_with f l)%nat.
Proof using Type.
  induction l as [|b l IH]; intros Ha Hnd; [by apply elem_of_nil in Ha|].
  rewrite fmap_cons in Hnd. apply NoDup_cons in Hnd as [Hb Hnd]. cbn [unlink sum_list_with].
  apply elem_of_cons in Ha as [->|Ha]; [rewrite Z.eqb_refl; lia|].
  destruct (Z.eqb_spec (clientreg b) (clientreg a)) as [E|?].
  - exfalso. apply Hb. rewrite E. by apply list_elem_of_fmap_2.
  - cbn [sum_list_with]. specialize (IH Ha Hnd). lia.
Qed.

Lemma sum_sublist l1 l2 : l1 `sublist_of` l2 -> (sum_list_with f l1 <= sum_list_with f l2)%nat.
Proof using Type. induction 1; cbn; lia. Qed.

Lemma sum_sublist_without l1 l2 a : l1 `sublist_of` l2 -> a ∈ l2 -> a ∉ l1 ->
  (sum_list_with f l1 + f a <= sum_list_with f l2)%nat.
Proof using Type.
  induction 1 as [|b l1 l2 Hs IH|b l1 l2 Hs IH]; intros Ha Hn; [by apply elem_of_nil in Ha| |].
  - apply elem_of_cons in Ha as [->|Ha]; [exfalso; apply Hn; by left|]. cbn.
    assert (a ∉ l1) by (intros ?; apply Hn; by right). specialize (IH Ha H1). lia.
  - cbn. apply elem_of_cons in Ha as [->|Ha]; [|specialize (IH Ha Hn); lia]. pose proof (sum_sublist _ _ Hs). lia.
Qed.
End sums.

Lemma quiet_sublist cs : forall s, Forall quiet cs -> wf s ->
  let s' := foldl (do_call dont_use_sig) s cs in
  wf s' /\ thealarms s' `sublist_of` thealarms s /\ readings s' = readings s.
Proof using Type.
  induction cs as [|c cs IH]; intros s Hq Hwf; cbn [foldl]; [done|]. apply Forall_cons in Hq as [Hc Hq].
  destruct c as [tm f cb cd|reg|]; [done| |]; cbn [do_call].
  - destruct (IH _ Hq (unregister_wf s reg Hwf)) as (H1 & H2 & H3). split; [done|]. split; [|done].
    etransitivity; [exact H2|apply unlink_sublist].
  - destruct (IH (snmp_alarm_unregister_all s) Hq) as (H1 & H2 & H3).
    { destruct Hwf as [[? ? ?] ?]. split; [split; cbn; [constructor|constructor|done]|constructor]. }
    split; [done|]. split; [|done]. etransitivity; [exact H2|apply sublist_nil_l].
Qed.

(** An alarm that was due has one call less after it. *)
Lemma finished_budget T s a t_now : wf s -> a ∈ thealarms s -> normal t_now -> timerisset t_now = true ->
  micro (t_nextM a) <= micro t_now <= T -> normal (t a) ->
  (budget T (thealarms (finished (clientreg a) t_now s)) + 1 <= budget T (thealarms s))%nat
  /\ readings (finished (clientreg a) t_now s) = readings s.
Proof using Type.
  intros Hwf Ha Hnow Hset Hdue Ht. pose proof Hwf as [[_ Hu _] _]. unfold finished.
  pose proof (find_specific_spec (clientreg a) s Hu) as Hf. destruct (sa_find_specific (clientreg a) s) as [[j b]|].
  2: { exfalso. by eapply Hf. }
  destruct Hf as [Hj Hb]. assert (b = a) as -> by (eapply number_unique; [exact Hu|by eapply list_elem_of_lookup_2|done|done]).
  assert (Hpos : (1 <= times_up_to T a)%nat).
  { unfold times_up_to. destruct (Z.ltb_spec T (micro (t_nextM a))); [lia|]. destruct (_ && _); lia. }
  set (l := <[j := called t_now a]> (thealarms s)).
  pose proof (sum_insert (times_up_to T) (thealarms s) j a (called t_now a) Hj) as Hins. fold l in Hins.
  assert (Hgone : (budget T (unlink (clientreg a) l) + 1 <= budget T (thealarms s))%nat).
  { assert (Hin : called t_now a ∈ l) by (by eapply replaced_in).
    assert (Hnd : NoDup (clientreg <$> l)) by (unfold l; by erewrite replaced_numbers).
    pose proof (sum_unlink (times_up_to T) l (called t_now a) Hin Hnd) as Hun. cbn [clientreg called with_flags with_times] in Hun.
    unfold budget. lia. }
  unfold sa_update_entry. cbn [t_lastM t_nextM flags t clientreg called with_flags with_times thealarms with_thealarms].
  rewrite Hset. change (timerisset timerclear) with false. cbn [negb].
  destruct (negb (Z.land (Z.land (flags a) (Z.lnot SA_FIRED)) SA_REPEAT =? 0)) eqn:Hrep; [|by split].
  destruct (timerisset (t a)) eqn:Hpt; [|by split]. split; [|done]. cbn [thealarms with_thealarms].
  set (next := NETSNMP_TIMERADD t_now (t a)).
  pose proof (timeradd_micro t_now (t a) Hnow Ht) as [_ Hnext]. fold next in Hnext.
  rewrite timerisset_micro in Hpt by done. assert (0 <= micro (t a)) by (unfold micro, normal in *; lia).
  assert (Hrep' : negb (Z.land (flags a) SA_REPEAT =? 0) = true).
  { rewrite <- Hrep, <- Z.land_assoc. done. }
  match goal with |- (budget T ?l1 + 1 <= _)%nat => assert (Hl : l1 = <[j := with_times t_now next (called t_now a)]> (thealarms s)) end.
  { apply list_insert_insert_eq. }
  rewrite Hl. pose proof (sum_insert (times_up_to T) (thealarms s) j a (with_times t_now next (called t_now a)) Hj) as Hsum.
  assert (Hless : (times_up_to T (with_times t_now next (called t_now a)) + 1 <= times_up_to T a)%nat); [|unfold budget; lia].
  unfold times_up_to. cbn [t_nextM t flags with_times called with_flags]. rewrite Hrep, Hrep', timerisset_micro, Hpt by done.
  cbn [andb]. destruct (Z.ltb_spec T (micro (t_nextM a))); [lia|]. destruct (Z.ltb_spec T (micro next)); [lia|].
  assert (Hp : 0 < micro (t a)) by lia.
  assert (Hdiv : (T - micro next) / micro (t a) + 1 <= (T - micro (t_nextM a)) / micro (t a)).
  { rewrite <- Z.div_add by lia. apply Z.div_le_mono; lia. }
  assert (0 <= (T - micro next) / micro (t a)) by (apply Z.div_pos; lia). lia.
Qed.

Lemma fire_budget T i a s t_now : wf s -> thealarms s !! i = Some a -> normal t_now -> timerisset t_now = true ->
  micro (t_nextM a) <= micro t_now <= T ->
  let s' := fire dont_use_sig callback i a t_now s in
  wf s' /\ (budget T (thealarms s') + 1 <= budget T (thealarms s))%nat /\ readings s' = readings s.
Proof using callback_quiet clock_normal.
  intros Hwf Hi Hnow Hset Hdue. cbv zeta. rewrite fire_eq. pose proof (marked_wf i a s Hwf Hi) as Hm.
  set (a1 := with_flags (Z.lor (flags a) SA_FIRED) a).
  assert (Ha1 : a1 ∈ thealarms (marked i a s)) by (by eapply replaced_in).
  destruct (quiet_sublist _ (marked i a s) (callback_quiet (thecallback a) (clientreg a) (clientarg a) (marked i a s)) Hm)
    as (Hwf2 & Hsub & Hrd).
  change (foldl _ _ _) with (run_callback dont_use_sig callback a (marked i a s)) in *.
  set (s2 := run_callback dont_use_sig callback a (marked i a s)) in *.
  assert (Hsame : budget T (thealarms (marked i a s)) = budget T (thealarms s)).
  { pose proof (sum_insert (times_up_to T) (thealarms s) i a a1 Hi) as Hs.
    assert (E : times_up_to T a1 = times_up_to T a).
    { unfold times_up_to, a1. cbn [t_nextM t flags with_flags]. by rewrite Z.land_lor_distr_l, Z.lor_0_r. }
    unfold budget. cbn [thealarms marked with_thealarms]. fold a1. lia. }
  assert (Hpos : (1 <= times_up_to T a1)%nat).
  { unfold times_up_to, a1. cbn [t_nextM t flags with_flags]. destruct (Z.ltb_spec T (micro (t_nextM a))); [lia|]. destruct (_ && _); lia. }
  split; [by apply finished_wf|].
  destruct (decide (a1 ∈ thealarms s2)) as [Hin|Hout].
  - assert (Ht : normal (t a1)).
    { destruct Hm as [[He _ _] _]. rewrite Forall_forall in He. by destruct (He a1 Ha1). }
    change (clientreg a) with (clientreg a1).
    destruct (finished_budget T s2 a1 t_now Hwf2 Hin Hnow Hset Hdue Ht) as [Hb Hr].
    pose proof (sum_sublist (times_up_to T) _ _ Hsub). unfold budget in *. split; [lia|]. by rewrite Hr.
  - pose proof (sum_sublist_without (times_up_to T) _ _ a1 Hsub Ha1 Hout) as Hb.
    assert (Hnone : finished (clientreg a) t_now s2 = s2).
    { unfold finished. pose proof Hwf2 as [[_ Hu _] _]. pose proof (find_specific_spec (clientreg a) s2 Hu) as Hf.
      destruct (sa_find_specific (clientreg a) s2) as [[j b]|]; [|done]. destruct Hf as [Hj Hreg]. exfalso. apply Hout.
      assert (b = a1) as <-; [|by eapply list_elem_of_lookup_2].
      pose proof Hm as [[_ Hu1 _] _]. eapply number_unique; [exact Hu1| |exact Ha1|done].
      eapply elem_of_sublist; [by eapply list_elem_of_lookup_2|exact Hsub]. }
    rewrite Hnone. unfold budget in *. split; [lia|exact Hrd].
Qed.

Lemma run_ends T n : forall s, wf s -> (budget T (thealarms s) <= n)%nat ->
  (forall k, (readings s <= k <= readings s + n)%nat -> micro (clock k) <= T) ->
  exists s' nums, run_alarms dont_use_sig callback (S n) s = Ret (s', nums) /\ wf s'.
Proof using callback_quiet clock_normal clock_set.
  induction n as [n IH] using lt_wf_ind. intros s Hwf Hb HT.
  change (run_alarms dont_use_sig callback (S n) s) with
    (match sa_find_next s with
     | None => Ret (s, [])
     | Some (i, a) =>
         let '(t_now, s) := monotonic s in
         if timercmp_lt t_now (t_nextM a) then Ret (s, [])
         else '(s, called) ← run_alarms dont_use_sig callback n (fire dont_use_sig callback i a t_now s); Ret (s, clientreg a :: called)
     end).
  pose proof (sa_find_next_spec s) as Hnext. destruct (sa_find_next s) as [[i a]|]; [|by eexists _, _].
  destruct Hnext as (Hi & _ & _). pose proof (wf_monotonic s Hwf) as Hm. cbn [monotonic snd] in *.
  destruct (timercmp_lt _ _) eqn:Hlt; [by eexists _, _|].
  rewrite timercmp_micro in Hlt by first [apply clock_normal|eapply next_normal; [exact Hwf|by eapply list_elem_of_lookup_2]].
  assert (Hdue : micro (t_nextM a) <= micro (clock (readings s)) <= T) by (split; [lia|apply HT; lia]).
  match goal with |- context [fire _ _ i a ?now ?s1] =>
    destruct (fire_budget T i a s1 now Hm Hi (clock_normal _) (clock_set _) Hdue) as (Hw & Hless & Hrd) end.
  cbn [thealarms] in Hless. destruct n as [|n]; [lia|].
  destruct (IH n ltac:(lia) _ Hw ltac:(lia)) as (s' & nums & Hrun & Hw').
  { intros k Hk. rewrite Hrd in Hk. cbn [readings] in Hk. apply HT. lia. }
  rewrite Hrun, bind_ret. by eexists _, _.
Qed.
End ends.

(** * Properties of the alarms *)

(** ** Two alarms for the witnesses *)

Definition seconds (n : Z) : timeval := {| tv_sec := n; tv_usec := 0 |}.

Definition no_alarms : alarms := {|
  thealarms := []; start_alarms := false; regnum := 1; readings := 0; itimer := None |}.

(** One after five seconds, one every fifteen. *)
Definition two_alarms : alarms :=
  do_call (H := sample_steady) false (do_call (H := sample_steady) false no_alarms (Register (seconds 5) 0 1 0))
    (Register (seconds 15) SA_REPEAT 2 0).

Definition no_calls : Z -> Z -> Z -> alarms -> list call := fun _ _ _ _ => [].

Lemma steady_normal k : normal (clock (Platform := sample_steady) k).
Proof. change (normal (steady k)). unfold normal, steady. cbn [tv_sec tv_usec]. lia. Qed.

Lemma steady_set k : timerisset (clock (Platform := sample_steady) k) = true.
Proof.
  change (timerisset (steady k) = true). unfold timerisset, steady. cbn [tv_sec tv_usec].
  apply orb_true_intro. left. apply negb_true_iff, Z.eqb_neq. lia.
Qed.

Lemma steady_monotone j k : (j <= k)%nat ->
  not_before (clock (Platform := sample_steady) k) (clock (Platform := sample_steady) j).
Proof. intros Hjk. unfold not_before. rewrite timercmp_micro by apply steady_normal.
  change ((micro (steady k) <? micro (steady j)) = false). unfold micro, steady. cbn [tv_sec tv_usec]. lia. Qed.

(** ** The invariant *)

(** The specification's record: when each alarm was last called, or
    registered. *)
Abbreviation book := (gmap Z timeval).

Section noted.
Context `{Platform, Allocator} (dont_use_sig : bool) (callback : Z -> Z -> Z -> alarms -> list call).

Definition noted_call (s : alarms) (B : book) (c : call) : book :=
  match c with Register _ _ _ _ => if alloc sizeof_alarm then <[regnum s := clock (readings s)]> B else B | _ => B end.

Fixpoint noted_calls (s : alarms) (B : book) (cs : list call) : book :=
  match cs with [] => B | c :: cs => noted_calls (do_call dont_use_sig s c) (noted_call s B c) cs end.

(** The turns of [run_alarms]: what the callback registers, then the alarm itself. *)
Fixpoint noted_run (fuel : nat) (s : alarms) (B : book) : book :=
  match fuel, sa_find_next s with
  | S fuel, Some (i, a) =>
      let '(t_now, s) := monotonic s in
      if timercmp_lt t_now (t_nextM a) then B
      else
        let B := noted_calls (marked i a s) B (callback (thecallback a) (clientreg a) (clientarg a) (marked i a s)) in
        noted_run fuel (fire dont_use_sig callback i a t_now s) (<[clientreg a := t_now]> B)
  | _, _ => B
  end.

Definition noted (B : book) (s : alarms) : Prop := Forall (fun a => B !! clientreg a = Some (t_lastM a)) (thealarms s).

Lemma noted_sublist B s s' : thealarms s' `sublist_of` thealarms s -> noted B s -> noted B s'.
Proof using Type.
  unfold noted. rewrite !Forall_forall. intros Hsub Hb a Ha. apply Hb. by eapply elem_of_sublist.
Qed.

Lemma call_noted s B c : wf s -> noted B s -> noted (noted_call s B c) (do_call dont_use_sig s c).
Proof using Type.
  intros Hwf Hb. destruct c as [tm f cb cd|reg|]; cbn [noted_call do_call].
  2: { eapply noted_sublist; [apply unlink_sublist|exact Hb]. }
  2: { constructor. }
  unfold snmp_alarm_register_hr. destruct (alloc sizeof_alarm); cbn [negb snd]; [|done].
  set (a := {| t := tm; flags := f; clientreg := regnum s; t_lastM := timerclear; t_nextM := timerclear; clientarg := cd; thecallback := cb |}).
  set (s1 := with_regnum _ _). assert (E : thealarms (sa_update_entry (length (thealarms s)) a s1)
      = thealarms s ++ [with_times (clock (readings s)) (NETSNMP_TIMERADD (clock (readings s)) tm) a]).
  { unfold sa_update_entry. cbn [t_lastM a timerisset timerclear tv_sec tv_usec Z.eqb negb orb monotonic thealarms with_thealarms s1 with_regnum readings].
    rewrite insert_app_r_alt, Nat.sub_diag by lia. done. }
  assert (Hn : noted (<[regnum s := clock (readings s)]> B) (sa_update_entry (length (thealarms s)) a s1)).
  { unfold noted. rewrite E. apply Forall_app. split; [|apply Forall_singleton; apply lookup_insert_eq].
    destruct Hwf as [[He _ _] _]. unfold noted in Hb. rewrite Forall_forall in He, Hb |- *. intros b Hin.
    destruct (He b Hin) as (_ & _ & ?). rewrite lookup_insert_ne by lia. by apply Hb. }
  destruct (start_alarms _); [|done]. unfold noted. by rewrite (proj1 (set_an_alarm_list dont_use_sig _)).
Qed.

Lemma finished_noted reg t_now s B : wf s -> timerisset t_now = true -> noted B s -> noted (<[reg := t_now]> B) (finished reg t_now s).
Proof using Type.
  intros Hwf Hset Hb. pose proof Hwf as [[_ Hu _] _]. unfold finished. pose proof (find_specific_spec reg s Hu) as Hf.
  assert (Hother : forall b, b ∈ thealarms s -> clientreg b <> reg -> <[reg := t_now]> B !! clientreg b = Some (t_lastM b)).
  { intros b Hin Hne. rewrite lookup_insert_ne by done. unfold noted in Hb. rewrite Forall_forall in Hb. by apply Hb. }
  unfold noted. rewrite Forall_forall. destruct (sa_find_specific reg s) as [[j a]|]; [|intros b Hin; apply Hother; [done|by apply Hf]].
  destruct Hf as [Hj <-]. intros b. set (l := <[j := called t_now a]> (thealarms s)).
  assert (Hgone : b ∈ unlink (clientreg a) l -> <[clientreg a := t_now]> B !! clientreg b = Some (t_lastM b)).
  { intros [Hin Hne]%unlink_other; [|by unfold l; erewrite replaced_numbers]. apply (replaced_inv _ _ a) in Hin as [->|[? ?]]; [done|by apply Hother|done..]. }
  unfold sa_update_entry. cbn [t_lastM t_nextM called with_flags with_times]. rewrite Hset. change (timerisset timerclear) with false. cbn [negb].
  change (t (called t_now a)) with (t a). destruct (negb (Z.land _ SA_REPEAT =? 0)); [destruct (timerisset (t a))|]; [|exact Hgone..]. cbn [thealarms with_thealarms]. fold l. unfold l. rewrite list_insert_insert_eq.
  intros Hin. apply (replaced_inv _ _ a) in Hin as [->|[? ?]]; [apply lookup_insert_eq|by apply Hother|done..].
Qed.

Context (clock_normal : forall k, normal (clock k)) (clock_set : forall k, timerisset (clock k) = true).

Lemma calls_noted cs : forall s B, wf s -> Forall call_ok cs -> regnum s + registrations cs < 2 ^ 32 -> noted B s ->
  noted (noted_calls s B cs) (foldl (do_call dont_use_sig) s cs).
Proof using clock_normal.
  induction cs as [|c cs IH]; intros s B Hwf Hok Hn Hb; [done|]. cbn [noted_calls foldl]. unfold registrations in *. cbn [sum_list_with] in Hn.
  apply Forall_cons in Hok as [Hc Hok]. destruct (do_call_wf clock_normal dont_use_sig s c Hwf Hc ltac:(lia)) as [Hwf1 Hr1].
  apply IH; [done|done|lia|by apply call_noted].
Qed.

Lemma run_noted k fuel : callbacks_ok callback k -> forall s B s' nums, wf s -> regnum s + Z.of_nat fuel * k < 2 ^ 32 ->
  run_alarms dont_use_sig callback fuel s = Ret (s', nums) -> noted B s -> noted (noted_run fuel s B) s'.
Proof using clock_normal clock_set.
  intros Hcb. assert (Hk : 0 <= k) by (destruct (Hcb 0 0 0 no_alarms); unfold registrations in *; lia).
  induction fuel as [|fuel IH]; intros s B s' nums Hwf Hn; cbn [run_alarms noted_run]; [done|].
  pose proof (sa_find_next_spec s) as Hnext. destruct (sa_find_next s) as [[i a]|]; [|by intros [= <- _]].
  destruct Hnext as (Hi & _ & _). cbn [monotonic]. pose proof (wf_monotonic s Hwf) as Hm. cbn [monotonic snd] in Hm.
  destruct (timercmp_lt _ _); [by intros [= <- _]|]. set (s1 := {| thealarms := _ |}) in *.
  destruct (fire_wf clock_normal dont_use_sig callback k i a (clock (readings s)) s1) as [Hf Hr]; [done|done|done|apply clock_normal|cbn; lia|].
  intros ([s2 c] & Hrun & [= <- _])%bind_Ret_inv Hb. cbn [regnum s1] in Hr. eapply IH; [exact Hf|lia|exact Hrun|].
  destruct (Hcb (thecallback a) (clientreg a) (clientarg a) (marked i a s1)) as [Hok Hreg]. pose proof (marked_wf i a s1 Hm Hi) as Hmw.
  assert (Hmn : noted B (marked i a s1)).
  { unfold noted in *. rewrite Forall_forall in Hb |- *. intros b Hin. apply (replaced_inv _ _ a) in Hin as [->|[? ?]]; [|by apply Hb|done|done|apply Hwf].
    apply (Hb a). by eapply list_elem_of_lookup_2. }
  rewrite fire_eq. apply finished_noted; [|apply clock_set|].
  - apply (calls_wf clock_normal dont_use_sig _ (marked i a s1)); [done|done|cbn; lia].
  - apply calls_noted; [done|done|cbn; lia|done].
Qed.
End noted.

(** One call from outside, or one run with callbacks that register at most
    [k] alarms each; the numbers of all alarms ever registered fit. *)
Inductive alarm_step `{Platform, Allocator} (dont_use_sig : bool) : alarms * book -> alarms * book -> Prop :=
  | step_call s B c : call_ok c -> regnum s + Z.of_nat (registers c) < 2 ^ 32 ->
      alarm_step dont_use_sig (s, B) (do_call dont_use_sig s c, noted_call s B c)
  | step_run s B callback k fuel s' nums :
      callbacks_ok callback k -> regnum s + Z.of_nat fuel * k < 2 ^ 32 ->
      run_alarms dont_use_sig callback fuel s = Ret (s', nums) ->
      alarm_step dont_use_sig (s, B) (s', noted_run dont_use_sig callback fuel s B)
  | step_init s B : alarm_step dont_use_sig (s, B) (init_snmp_alarm s, B)
  | step_config s B : alarm_step dont_use_sig (s, B) ((init_alarm_post_config dont_use_sig s).2, B)
  | step_timer s B : alarm_step dont_use_sig (s, B) (set_an_alarm dont_use_sig s, B).

Lemma alarm_step_wf `{Platform, Allocator} dont_use_sig x y (clock_normal : forall k, normal (clock k)) :
  alarm_step dont_use_sig x y -> wf x.1 -> wf y.1.
Proof.
  intros Hstep Hwf. destruct Hstep as [s B c Hc Hn|s B callback k fuel s' nums Hcb Hn Hrun|s B|s B|s B]; cbn [fst] in *.
  - by apply do_call_wf.
  - by eapply run_wf.
  - by apply (wf_same s).
  - apply set_an_alarm_wf. by apply (wf_same s).
  - by apply set_an_alarm_wf.
Qed.

Lemma alarm_step_noted `{Platform, Allocator} dont_use_sig x y (clock_normal : forall k, normal (clock k))
    (clock_set : forall k, timerisset (clock k) = true) :
  alarm_step dont_use_sig x y -> wf x.1 -> noted x.2 x.1 -> noted y.2 y.1.
Proof.
  intros Hstep Hwf Hb. destruct Hstep as [s B c Hc Hn|s B callback k fuel s' nums Hcb Hn Hrun|s B|s B|s B]; cbn [fst snd] in *.
  - by apply call_noted.
  - by eapply run_noted.
  - done.
  - unfold noted, init_alarm_post_config. cbn [snd]. by rewrite (proj1 (set_an_alarm_list dont_use_sig _)).
  - unfold noted. by rewrite (proj1 (set_an_alarm_list dont_use_sig _)).
Qed.

(** C40: whatever is registered, unregistered and run, as long as fewer than
    2^32 alarms were ever registered, no two alarms have the same number,
    none has the number 0, and every alarm is due one interval after the time
    it was last called, or registered; the record of these times is kept
    beside the state.  The clock never shows zero. *)
Theorem alarms_invariant `{Platform, Allocator} dont_use_sig s B (clock_normal : forall k, normal (clock k))
    (clock_set : forall k, timerisset (clock k) = true) :
  rtc (alarm_step dont_use_sig) (no_alarms, ∅) (s, B) ->
  NoDup (clientreg <$> thealarms s)
  /\ Forall (fun a => 1 <= clientreg a < regnum s) (thealarms s)
  /\ Forall (fun a => exists last, B !! clientreg a = Some last /\ micro (t_nextM a) = micro last + micro (t a)) (thealarms s).
Proof.
  intros Hrun. assert (Hinv : wf s /\ noted B s).
  { assert (H0' : wf no_alarms /\ noted ∅ no_alarms) by (split; by repeat constructor).
    change (wf (s, B).1 /\ noted (s, B).2 (s, B).1). change (wf (no_alarms, ∅ : book).1 /\ noted (no_alarms, ∅ : book).2 (no_alarms, ∅ : book).1) in H0'.
    revert Hrun H0'. generalize (no_alarms, ∅ : book) (s, B). intros x y Hrun.
    induction Hrun as [|x1 x2 x3 Hs _ IH]; [done|]. intros [Hw Hb]. apply IH. split; [by eapply alarm_step_wf|by eapply alarm_step_noted]. }
  destruct Hinv as [[[He Hu _] Hs] Hb]. split; [done|]. unfold noted in Hb. rewrite !Forall_forall in *.
  split; intros a Ha; destruct (He a Ha) as (? & ? & ?); [done|]. exists (t_lastM a). split; [by apply Hb|]. rewrite (Hs a Ha). by apply timeradd_micro.
Qed.

(** The alarms of the sample have been run once: the first one is gone, the
    second one was called at 1020 seconds. *)
Definition after_run : alarms :=
  match run_alarms (H := sample_steady) false no_calls 4 two_alarms with Ret (s, _) => s | _ => no_alarms end.

Lemma alarms_invariant_witness :
  NoDup (clientreg <$> thealarms after_run)
  /\ exists a last, thealarms after_run = [a] /\ last = clock (Platform := sample_steady) 3 /\ micro (t_nextM a) = micro last + micro (t a).
Proof.
  assert (Ht : forall n, 0 <= n -> normal (seconds n)) by (intros; unfold normal; cbn; lia).
  edestruct (alarms_invariant (H := sample_steady) false after_run) as (Hu & _ & Hs); [exact steady_normal|exact steady_set| |].
  - eapply rtc_l; [apply (step_call (H := sample_steady) false no_alarms ∅ (Register (seconds 5) 0 1 0)); [apply Ht; lia|reflexivity]|].
    eapply rtc_l; [apply (step_call (H := sample_steady) false _ _ (Register (seconds 15) SA_REPEAT 2 0)); [apply Ht; lia|reflexivity]|].
    eapply rtc_l; [|apply rtc_refl].
    eapply (step_run (H := sample_steady) false two_alarms _ no_calls 0 4 after_run [1; 2]); [|vm_compute; reflexivity|vm_compute; reflexivity].
    intros cb reg cd s. split; [constructor|vm_compute; discriminate].
  - split; [exact Hu|]. destruct (thealarms after_run) as [|a [|b l]] eqn:E; [vm_compute in E; discriminate E| |vm_compute in E; discriminate E].
    apply Forall_cons in Hs as [(last & Hlast & Hdue) _]. exists a, last. split; [done|]. split; [|exact Hdue].
    assert (Ha : a = default a (head (thealarms after_run))) by (by rewrite E). rewrite Ha in Hlast. vm_compute in Hlast. vm_compute. congruence.
Defined.

(** ** A run *)

(** C26: when the callbacks register no alarms and the clock shows at most [T]
    during the run, [run_alarms] ends, after no more turns than the alarms
    can be due up to [T]; every alarm that was due when it began and that no
    callback removes has been called, and none is left that was due when the
    clock was read last. *)
Theorem due_alarms_called `{Platform, Allocator} dont_use_sig callback s T
    (clock_normal : forall k, normal (clock k)) (clock_set : forall k, timerisset (clock k) = true)
    (clock_monotone : forall j k, (j <= k)%nat -> not_before (clock k) (clock j))
    (callback_quiet : forall cb reg cd s, Forall quiet (callback cb reg cd s)) :
  wf s ->
  (forall k, (readings s <= k <= readings s + budget T (thealarms s))%nat -> micro (clock k) <= T) ->
  exists s' nums,
    run_alarms dont_use_sig callback (S (budget T (thealarms s))) s = Ret (s', nums)
    /\ (forall a, a ∈ thealarms s -> is_fired a = false -> micro (t_nextM a) <= micro (clock (readings s)) ->
          (forall cb reg cd s, Forall (spares (clientreg a)) (callback cb reg cd s)) -> clientreg a ∈ nums)
    /\ Forall (fun a => is_fired a = false -> micro (clock (pred (readings s'))) < micro (t_nextM a)) (thealarms s').
Proof.
  intros Hwf HT.
  destruct (run_ends dont_use_sig callback clock_normal clock_set callback_quiet T _ s Hwf (le_n _) HT) as (s' & nums & Hrun & Hwf').
  exists s', nums. split; [done|]. split.
  - intros a Ha Hf Hdue Hsp.
    assert (Hcb : callbacks_ok callback 0).
    { intros cb reg cd s0. specialize (callback_quiet cb reg cd s0).
      induction callback_quiet as [|c cs Hc _ [IH1 IH2]]; [by split|]. unfold registrations in *.
      destruct c; [done|by split; [constructor|]..]. }
    eapply (due_called dont_use_sig callback clock_normal clock_monotone 0 a _ Hcb Hf Hsp s); [exact Hwf| |exact Ha| |exact Hrun].
    + destruct Hwf as [[_ _ ?] _]. lia.
    + unfold not_before. rewrite timercmp_micro by first [apply clock_normal|by apply (next_normal s)]. lia.
  - pose proof (none_left _ _ _ _ _ _ Hrun) as Hn. rewrite Forall_forall in Hn |- *. intros a Ha Hf. specialize (Hn a Ha Hf).
    rewrite timercmp_micro in Hn by first [apply clock_normal|by apply (next_normal s')]. lia.
Qed.

Lemma two_alarms_wf : wf two_alarms.
Proof.
  assert (Ht : forall n, 0 <= n -> normal (seconds n)) by (intros; unfold normal; cbn; lia).
  eapply (do_call_wf (H := sample_steady) steady_normal); [|by apply Ht|reflexivity].
  eapply (do_call_wf (H := sample_steady) steady_normal); [|by apply Ht|reflexivity].
  by repeat constructor.
Qed.

Lemma due_alarms_called_witness :
  exists s' nums, run_alarms (H := sample_steady) false no_calls 4 two_alarms = Ret (s', nums) /\ 1 ∈ nums.
Proof.
  assert (Hb : budget 1050000000 (thealarms two_alarms) = 3%nat) by (vm_compute; reflexivity).
  assert (Hr : readings two_alarms = 2%nat) by (vm_compute; reflexivity).
  destruct (due_alarms_called (H := sample_steady) false no_calls two_alarms 1050000000 steady_normal steady_set
    steady_monotone) as (s' & nums & Hrun & Hdue & _).
  - intros. constructor.
  - exact two_alarms_wf.
  - rewrite Hb, Hr. intros k Hk. change (micro (steady k) <= 1050000000). unfold micro, steady. cbn [tv_sec tv_usec]. lia.
  - rewrite Hb in Hrun. exists s', nums. split; [exact Hrun|].
    destruct (thealarms two_alarms) as [|a l] eqn:E; [vm_compute in E; discriminate E|].
    assert (Ha : a = default a (head (thealarms two_alarms))) by (by rewrite E).
    assert (H1 : clientreg a = 1) by (rewrite Ha; vm_compute; reflexivity).
    rewrite <- H1. apply Hdue; [by left| | |].
    + rewrite Ha. vm_compute. reflexivity.
    + rewrite Hr, Ha. vm_compute. discriminate.
    + intros. constructor.
Defined.

(** ** The timer *)

(** With signals allowed, [set_an_alarm] sets the timer to exactly the time
    left until the earliest alarm; but when that alarm is overdue, the time
    left is zero, which stops the timer: no signal comes, and the alarm waits
    until something else runs the alarms. *)
Theorem set_an_alarm_exact `{Platform, Allocator} s (clock_normal : forall k, normal (clock k)) :
  wf s ->
  let s' := set_an_alarm false s in
  let now := micro (clock (readings s)) in
  thealarms s' = thealarms s
  /\ match sa_find_next s with
     | None => itimer s' = itimer s
     | Some (_, a) =>
         Forall (fun b => is_fired b = false -> micro (t_nextM a) <= micro (t_nextM b)) (thealarms s)
         /\ if micro (t_nextM a) <=? now then itimer s' = None
            else exists left, itimer s' = Some left /\ normal left /\ micro left = micro (t_nextM a) - now
     end.
Proof.
  intros Hwf s' now. split; [apply set_an_alarm_list|]. subst s' now.
  pose proof (sa_find_next_spec s) as Hnext. unfold set_an_alarm, get_next_alarm_delay_time, monotonic, netsnmp_get_next_alarm_time.
  change (sa_find_next {| thealarms := _ |}) with (sa_find_next s). destruct (sa_find_next s) as [[i a]|]; [|done].
  destruct Hnext as (Hi & _ & Hlow). apply list_elem_of_lookup_2 in Hi. pose proof (next_normal s a Hwf Hi) as Hna.
  split.
  { rewrite Forall_forall in Hlow |- *. intros b Hb Hf. specialize (Hlow b Hb Hf). unfold not_before in Hlow.
    rewrite timercmp_micro in Hlow by (done || by apply (next_normal s)). lia. }
  assert (Hreg : s32 (clientreg a) <> 0).
  { destruct Hwf as [[He _ Hr] _]. rewrite Forall_forall in He. destruct (He a Hi) as (_ & _ & Hc). cint. }
  apply Z.eqb_neq in Hreg. cbv beta iota zeta. rewrite Hreg. cbn [negb fmap option_fmap option_map andb].
  rewrite timercmp_micro by done. unfold with_itimer, setitimer. cbn [itimer].
  destruct (Z.leb_spec (micro (t_nextM a)) (micro (clock (readings s)))) as [Hle|Hlt].
  - destruct (Z.ltb_spec (micro (clock (readings s))) (micro (t_nextM a))); [lia|].
    destruct (timersub_micro (clock (readings s)) (clock (readings s)) (clock_normal _) (clock_normal _)) as [Hn Hm]; [lia|].
    rewrite timerisset_micro, Hm, Z.sub_diag by done. done.
  - destruct (Z.ltb_spec (micro (clock (readings s))) (micro (t_nextM a))); [|lia].
    destruct (timersub_micro (t_nextM a) (clock (readings s)) Hna (clock_normal _)) as [Hn Hm]; [lia|].
    rewrite timerisset_micro, Hm by done. destruct (Z.eqb_spec (micro (t_nextM a) - micro (clock (readings s))) 0); [lia|].
    cbn [negb]. eauto.
Qed.

(** The first alarm was due at 1005 seconds, and the clock shows 1020. *)
Lemma set_an_alarm_exact_witness :
  itimer (set_an_alarm (H := sample_steady) false two_alarms) = None
  /\ exists i a, sa_find_next two_alarms = Some (i, a) /\ t_nextM a = seconds 1005.
Proof.
  destruct (set_an_alarm_exact (H := sample_steady) two_alarms steady_normal two_alarms_wf) as [_ Hex].
  destruct (sa_find_next two_alarms) as [[i a]|] eqn:E; [|vm_compute in E; discriminate E].
  assert (Ha : t_nextM a = seconds 1005) by (vm_compute in E; injection E as <- <-; reflexivity).
  destruct Hex as [_ Hex]. rewrite Ha in Hex. split; [exact Hex|]. exists i, a. exact (conj eq_refl Ha).
Defined.
