(* ===== verification/Client.v ===== *)
(** * Messages and variables of a client: snmplib/snmp_client.c

    New messages, values put into variables, and copies of messages, whole,
    in parts, or without the variable an error points to. *)

From S2P Require Import Prelude Bytes AsnTypes AsnParse AsnBuild AsnRbuild VarOp Pdu Oid Lcd UsmMsg Session Secmod Message.

Definition ASN_PRIVATE : Z := 0xC0.
Definition ASN_PRIV_INCL_RANGE : Z := Z.lor ASN_PRIVATE 2.
Definition ASN_PRIV_EXCL_RANGE : Z := Z.lor ASN_PRIVATE 3.
Definition ASN_PRIV_IMPLIED_OCTET_STR : Z := Z.lor ASN_PRIVATE ASN_OCTET_STR.
Definition ASN_PRIV_IMPLIED_OBJECT_ID : Z := Z.lor ASN_PRIVATE ASN_OBJECT_ID.

(** The buffers inside a variable: [buf] and [name_loc]. *)
Definition sizeof_buf : Z := 40.
Definition sizeof_name_loc : Z := MAX_OID_LEN * sizeof_oid.
Definition sizeof_variable_list : Z := 1136.
Definition sizeof_pdu : Z := 272.

Definition with_name (n : list Z) (vp : variable_list) : variable_list :=
  {| name := n; type := type vp; val := val vp; val_len := val_len vp |}.
Definition with_type (t : Z) (vp : variable_list) : variable_list :=
  {| name := name vp; type := t; val := val vp; val_len := val_len vp |}.
Definition with_val (v : option mem) (n : Z) (vp : variable_list) : variable_list :=
  {| name := name vp; type := type vp; val := v; val_len := n |}.
Definition with_time (x : Z) (p : snmp_pdu) : snmp_pdu := {|
  command := command p; reqid := reqid p; errstat := errstat p; errindex := errindex p; time := x;
  flags := flags p; variables := variables p; enterprise := enterprise p; trap_type := trap_type p;
  specific_type := specific_type p; agent_addr := agent_addr p |}.
Definition with_variables (x : list variable_list) (p : snmp_pdu) : snmp_pdu := {|
  command := command p; reqid := reqid p; errstat := errstat p; errindex := errindex p; time := time p;
  flags := flags p; variables := x; enterprise := enterprise p; trap_type := trap_type p;
  specific_type := specific_type p; agent_addr := agent_addr p |}.

(** ** New messages *)

(** The static variables behind the numbers of requests and messages. *)
Record numbers : Set := { Reqid : Z; Msgid : Z }.

Definition snmp_get_next_reqid (short_ids : bool) (n : numbers) : Z * numbers :=
  let '(id, last) := snmp_get_next short_ids (Reqid n) in (id, {| Reqid := last; Msgid := Msgid n |}).

Definition snmp_get_next_msgid (short_ids : bool) (n : numbers) : Z * numbers :=
  let '(id, last) := snmp_get_next short_ids (Msgid n) in (id, {| Reqid := Reqid n; Msgid := last |}).

(** What [calloc] gives. *)
Definition zero_pdu : netsnmp_pdu := {|
  m_body := {| command := 0; reqid := 0; errstat := 0; errindex := 0; time := 0; flags := 0; variables := [];
               enterprise := []; trap_type := 0; specific_type := 0; agent_addr := [0; 0; 0; 0] |};
  m_version := 0; m_msgid := 0; m_transid := 0; m_community := []; m_securityModel := 0;
  m_securityLevel := 0; m_contextEngineID := []; m_contextName := None; m_securityEngineID := [];
  m_securityName := None; m_securityStateRef := None |}.

Section client.
Context `{Allocator}.

Definition snmp_pdu_create (short_ids : bool) (cmd : Z) (n : numbers) : option netsnmp_pdu * numbers :=
  if negb (alloc sizeof_pdu) then (None, n)
  else
    let '(id, n) := snmp_get_next_reqid short_ids n in
    let '(msg, n) := snmp_get_next_msgid short_ids n in
    let p := with_reqid id (with_errindex SNMP_DEFAULT_ERRINDEX (with_errstat SNMP_DEFAULT_ERRSTAT
               (with_command cmd (m_body zero_pdu)))) in
    (Some (with_m_msgid msg (with_m_securityModel SNMP_DEFAULT_SECMODEL
             (with_m_version SNMP_DEFAULT_VERSION (with_m_body p zero_pdu)))), n).

(** ** Values *)

(** The name, or [None] for the 1 of an allocation that failed. *)
Definition snmp_set_var_objid (vp : variable_list) (objid : list Z) : option variable_list :=
  let size := sizeof_oid * len objid in
  if (size <=? sizeof_name_loc) || alloc size then Some (with_name objid vp) else None.

Definition is_long_type (t : Z) : bool :=
  (t =? ASN_INTEGER) || (t =? ASN_GAUGE) || (t =? ASN_TIMETICKS) || (t =? ASN_COUNTER) || (t =? ASN_UINTEGER).

Definition is_objid_type (t : Z) : bool :=
  (t =? ASN_OBJECT_ID) || (t =? ASN_PRIV_IMPLIED_OBJECT_ID) || (t =? ASN_PRIV_INCL_RANGE)
  || (t =? ASN_PRIV_EXCL_RANGE).

Definition is_octets_type (t : Z) : bool :=
  (t =? ASN_IPADDRESS) || (t =? ASN_PRIV_IMPLIED_OCTET_STR) || (t =? ASN_OCTET_STR) || (t =? ASN_BIT_STR)
  || (t =? ASN_OPAQUE) || (t =? ASN_NSAP).

Definition is_counter64_type (t : Z) : bool :=
  (t =? ASN_OPAQUE_U64) || (t =? ASN_OPAQUE_I64) || (t =? ASN_COUNTER64).

(** The [long] a number of [size] bytes gives, [u_long]s being cut to 32 bits
    when they are larger than that as a [long]. *)
Definition long_value (t : Z) (value : mem) (size : Z) : outcome (option Z) :=
  let signed := t =? ASN_INTEGER in
  if size =? 4 then
    l ← rd_n value 0 4; Ret (Some (if signed then s32 (le_val l) else le_val l))
  else if size =? sizeof_long then
    l ← rd_n value 0 8;
    let v := s64 (le_val l) in
    Ret (Some (if 0xffffffff <? v then Z.land v 0xffffffff else v))
  else if size =? 2 then
    l ← rd_n value 0 2;
    Ret (Some (if signed then (le_val l + 2 ^ 15) mod 2 ^ 16 - 2 ^ 15 else le_val l))
  else if size =? 1 then
    l ← rd_n value 0 1;
    Ret (Some (if signed then (le_val l + 2 ^ 7) mod 2 ^ 8 - 2 ^ 7 else le_val l))
  else Ret None.

(** [memmove] of a structure of a fixed size. *)
Definition copy_struct (size : Z) (value : mem) (vars : variable_list) : outcome (option variable_list) :=
  l ← rd_n value 0 (Z.to_nat size); Ret (Some (with_val (Some l) size vars)).

(** [size] bytes behind [value].  [None] is the 1 of a failure; what it leaves
    in the variable is not modelled. *)
Definition snmp_set_var_value (vars : variable_list) (value : option mem) (size : Z) : outcome (option variable_list) :=
  let largeval := sizeof_buf <? size in
  match value with
  | None =>
      if 0 <? size then Ret None else Ret (Some (with_val (Some [0]) 0 vars))
  | Some value =>
      if size =? 0 then Ret (Some (with_val (Some [0]) 0 vars))
      else
        let t := type vars in
        if is_long_type t then
          v ← long_value t value size;
          Ret (option_map (fun v => with_val (Some (le_bytes 8 v)) sizeof_long vars) v)
        else if is_objid_type t then
          if largeval && negb (alloc size) then Ret None
          else l ← rd_n value 0 (Z.to_nat size); Ret (Some (with_val (Some l) size vars))
        else if is_octets_type t then
          if (sizeof_buf <=? size) && negb (alloc (size + 1)) then Ret None
          else l ← rd_n value 0 (Z.to_nat size); Ret (Some (with_val (Some (l ++ [0])) size vars))
        else if (t =? SNMP_NOSUCHOBJECT) || (t =? SNMP_NOSUCHINSTANCE) || (t =? SNMP_ENDOFMIBVIEW)
                || (t =? ASN_NULL) then Ret (Some (with_val None 0 vars))
        else if is_counter64_type t then
          if largeval then Ret None else copy_struct sizeof_counter64 value vars
        else if t =? ASN_OPAQUE_FLOAT then if largeval then Ret None else copy_struct sizeof_float value vars
        else if t =? ASN_OPAQUE_DOUBLE then if largeval then Ret None else copy_struct sizeof_double value vars
        else Ret None
  end.

Definition snmp_set_var_typed_value (newvar : variable_list) (t : Z) (val_str : option mem) (size : Z)
    : outcome (option variable_list) :=
  snmp_set_var_value (with_type t newvar) val_str size.

Definition snmp_set_var_typed_integer (newvar : variable_list) (t val : Z) : outcome (option variable_list) :=
  snmp_set_var_value (with_type t newvar) (Some (le_bytes 8 val)) sizeof_long.

(** The list with the new variable at its end, or [None] for NULL; a [name]
    that is NULL is [None]. *)
Definition snmp_varlist_add_variable (varlist : list variable_list) (objid : option (list Z)) (t : Z)
    (value : option mem) (size : Z) : outcome (option (list variable_list)) :=
  if negb (alloc sizeof_variable_list) then Ret None
  else
    r ← snmp_set_var_value {| name := []; type := t; val := None; val_len := 0 |} value size;
    Ret (vars ← r;
         vars ← match objid with Some objid => snmp_set_var_objid vars objid | None => Some vars end;
         Some (varlist ++ [vars])).

Definition snmp_pdu_add_variable (p : snmp_pdu) (objid : option (list Z)) (t : Z) (value : option mem) (size : Z)
    : outcome (option snmp_pdu) :=
  r ← snmp_varlist_add_variable (variables p) objid t value size;
  Ret (option_map (fun l => with_variables l p) r).

Definition snmp_add_null_var (p : snmp_pdu) (objid : list Z) : outcome (option snmp_pdu) :=
  snmp_pdu_add_variable p (Some objid) ASN_NULL None 0.

(** Each variable of the type gets the new type and no value. *)
Definition snmp_replace_var_types (vbl : list variable_list) (old_type new_type : Z) : list variable_list :=
  (fun vp => if type vp =? old_type then with_val (Some [0]) 0 (with_type new_type vp) else vp) <$> vbl.

Definition snmp_reset_var_types (vbl : list variable_list) (new_type : Z) : list variable_list :=
  (fun vp => with_val (Some [0]) 0 (with_type new_type vp)) <$> vbl.

(** ** Searching *)

Definition snmp_varbind_len (p : snmp_pdu) : Z := Z.of_nat (length (variables p)).

Definition count_varbinds_of_type (l : list variable_list) (t : Z) : nat :=
  length (filter (fun vp => type vp = t) l).

Definition find_varbind_of_type (l : list variable_list) (t : Z) : option variable_list :=
  head (filter (fun vp => type vp = t) l).

Fixpoint find_varbind_in_list (vblist : list variable_list) (objid : list Z) : outcome (option variable_list) :=
  match vblist with
  | [] => Ret None
  | vp :: vblist =>
      cmp ← snmp_oid_compare (name vp) (len (name vp)) objid (len objid);
      if cmp =? 0 then Ret (Some vp) else find_varbind_in_list vblist objid
  end.

(** ** Copies *)

(** [*dstPtr], or [None] for the 1 of an allocation that failed. *)
Definition snmp_clone_mem (srcPtr : option (list Z)) (size : Z) : option (option (list Z)) :=
  match srcPtr with
  | None => Some None
  | Some src => if alloc (u32 size + 1) then Some (Some src) else None
  end.

(** A field without bytes is a NULL pointer. *)
Definition clone_field (src : list Z) (size : Z) : option (list Z) :=
  bytes_of <$> snmp_clone_mem (pointer src) (len src * size).

(** A security model's [pdu_clone] is left out: the user-based one has none.  The reference to the state is shared, but for a TRAP2. *)
Definition _clone_pdu_header (pdu : netsnmp_pdu) : option netsnmp_pdu :=
  if negb (alloc sizeof_pdu) then None
  else
    let p := with_variables [] (m_body pdu) in
    enterprise ← clone_field (enterprise p) sizeof_oid;
    community ← clone_field (m_community pdu) 1;
    contextEngineID ← clone_field (m_contextEngineID pdu) 1;
    securityEngineID ← clone_field (m_securityEngineID pdu) 1;
    contextName ← snmp_clone_mem (m_contextName pdu) (len (bytes_of (m_contextName pdu)));
    securityName ← snmp_clone_mem (m_securityName pdu) (len (bytes_of (m_securityName pdu)));
    securityStateRef ← match m_securityStateRef pdu with
                       | Some ref => if command p =? SNMP_MSG_TRAP2 then Some <$> usm_clone_usmStateReference ref
                                     else Some (Some ref)
                       | None => Some None
                       end;
    Some {| m_body := with_enterprise enterprise p; m_version := m_version pdu; m_msgid := m_msgid pdu;
            m_transid := m_transid pdu; m_community := community; m_securityModel := m_securityModel pdu;
            m_securityLevel := m_securityLevel pdu; m_contextEngineID := contextEngineID;
            m_contextName := contextName; m_securityEngineID := securityEngineID;
            m_securityName := securityName; m_securityStateRef := securityStateRef |}.

(** [None] is the 1 of a failure; the copy of a value has the [val_len] bytes
    that count. *)
Definition snmp_clone_var (var : variable_list) : outcome (option variable_list) :=
  match snmp_set_var_objid var (name var) with
  | None => Ret None
  | Some newvar =>
      match val var with
      | None => Ret (Some (with_val None 0 newvar))
      | Some v =>
          if (sizeof_buf <? val_len var) && negb (alloc (val_len var)) then Ret None
          else l ← rd_n v 0 (Z.to_nat (val_len var)); Ret (Some (with_val (Some l) (val_len var) newvar))
      end
  end.

(** [ii] variables were looked at.  NULL, after a failure, is the empty list
    as well. *)
Fixpoint _copy_varlist (var : list variable_list) (ii errindex copy_count : Z) : outcome (option (list variable_list)) :=
  match var with
  | [] => Ret (Some [])
  | vp :: var =>
      if negb (0 <? copy_count) then Ret (Some [])
      else if ii + 1 =? errindex then _copy_varlist var (ii + 1) errindex (copy_count - 1)
      else if negb (alloc sizeof_variable_list) then Ret None
      else
        newvar ← snmp_clone_var vp;
        match newvar with
        | None => Ret None
        | Some newvar =>
            rest ← _copy_varlist var (ii + 1) errindex (copy_count - 1);
            Ret (option_map (cons newvar) rest)
        end
  end.

(** The counts are [int]s. *)
Definition _copy_pdu_vars (pdu newpdu : netsnmp_pdu) (drop_err : bool) (skip_count copy_count : Z)
    : outcome netsnmp_pdu :=
  let drop_idx := if drop_err then s32 (errindex (m_body pdu) - skip_count) else 0 in
  l ← _copy_varlist (drop (Z.to_nat skip_count) (variables (m_body pdu))) 0 drop_idx copy_count;
  Ret (with_m_body (with_variables (default [] l) (m_body newpdu)) newpdu).

Definition _clone_pdu (pdu : netsnmp_pdu) (drop_err : bool) : outcome (option netsnmp_pdu) :=
  match _clone_pdu_header pdu with
  | None => Ret None
  | Some newpdu => newpdu ← _copy_pdu_vars pdu newpdu drop_err 0 10000; Ret (Some newpdu)
  end.

Definition snmp_clone_varbind (varlist : list variable_list) : outcome (list variable_list) :=
  l ← _copy_varlist varlist 0 0 10000; Ret (default [] l).

Definition snmp_clone_pdu (pdu : netsnmp_pdu) : outcome (option netsnmp_pdu) := _clone_pdu pdu false.

Definition snmp_split_pdu (pdu : netsnmp_pdu) (skip_count copy_count : Z) : outcome (option netsnmp_pdu) :=
  match _clone_pdu_header pdu with
  | None => Ret None
  | Some newpdu => newpdu ← _copy_pdu_vars pdu newpdu false skip_count copy_count; Ret (Some newpdu)
  end.

(** The answer [pdu] turned into a new request. *)
Definition snmp_fix_pdu (short_ids : bool) (pdu : netsnmp_pdu) (cmd : Z) (n : numbers)
    : outcome (option netsnmp_pdu * numbers) :=
  let p := m_body pdu in
  if negb (command p =? SNMP_MSG_RESPONSE) || (errstat p =? 0) || bool_decide (variables p = [])
     || (s32 (snmp_varbind_len p) <? errindex p) || (errindex p <=? 0)
  then Ret (None, n)
  else
    newpdu ← _clone_pdu pdu true;
    match newpdu with
    | None => Ret (None, n)
    | Some newpdu =>
        if bool_decide (variables (m_body newpdu) = []) then Ret (None, n)
        else
          let '(id, n) := snmp_get_next_reqid short_ids n in
          let '(msg, n) := snmp_get_next_msgid short_ids n in
          let p := with_errindex SNMP_DEFAULT_ERRINDEX (with_errstat SNMP_DEFAULT_ERRSTAT
                     (with_reqid id (with_command cmd (m_body newpdu)))) in
          Ret (Some (with_m_msgid msg (with_m_body p newpdu)), n)
    end.
End client.
