(* ===== verification/Stream.v ===== *)
(** * Reading from a stream: [_sess_read] in snmplib/snmp_api.c

    A transport that is a stream gives bytes in pieces of any size.  A piece
    goes behind what is left of the pieces before; whole packets are taken
    from the front and processed, and the rest is saved.  Then: that the
    packets processed are the ones of the bytes in a row, however they were
    cut into pieces. *)

From S2P Require Import Prelude Bytes AsnTypes AsnParse AsnRbuild Pdu Oid.

Definition MAXIMUM_PACKET_SIZE : Z := 0x7fffffff.

(** The room for what a transport gives at a time. *)
Definition RXBUF_LEN : Z := 65536.

(** [isp->packet] with its [packet_len] bytes, and [packet_size]. *)
Record stream : Type := { packet : option (list Z); packet_size : Z }.

Definition no_packet : stream := {| packet := None; packet_size := 0 |}.

(** How the loop over the bytes in the buffer ends. *)
Inductive loop_end : Type :=
  | Broken
  | Not_complete
  | Rest (l : list Z).

(** What [_sess_read] gives: the saved bytes, whether the transport has been
    closed, for an illegal length among others, and the result. *)
Record read_end : Type := { r_stream : stream; r_closed : bool; r_illegal : bool; r_result : Z }.

Section stream.
Context `{Allocator} {St : Type}.
(** [check_packet] or [asn_check_packet], and [_sess_process_packet]. *)
Context (check : mem -> outcome Z) (process : St -> mem -> outcome (St * Z)).

(** The saved bytes, the room behind them and the size of the buffer; [None]
    when there is no memory. *)
Definition stream_room (s : stream) : option (list Z * Z * Z) :=
  match packet s with
  | None => if alloc RXBUF_LEN then Some ([], RXBUF_LEN, RXBUF_LEN) else None
  | Some l =>
      if packet_size s <? len l + RXBUF_LEN then
        if alloc (len l + RXBUF_LEN) then Some (l, RXBUF_LEN, len l + RXBUF_LEN) else None
      else Some (l, packet_size s - len l, packet_size s)
  end.

(** The bytes from [pptr] on; [start] is [pptr == isp->packet].  Every turn
    takes a byte at least. *)
Fixpoint stream_loop (fuel : nat) (start : bool) (l : list Z) (st : St) (rc : Z) : outcome (St * Z * loop_end) :=
  match fuel with
  | O => Spin
  | S fuel =>
      if len l <=? 0 then Ret (st, rc, Rest l)
      else
        pdulen ← check l;
        let pdulen := u64 pdulen in
        if MAX_PACKET_LENGTH <? pdulen then Ret (st, rc, Broken)
        else if (len l <? pdulen) || (pdulen =? 0) then
          Ret (st, rc, if start then Not_complete else Rest l)
        else
          '(st, rc) ← process st (take (Z.to_nat pdulen) l);
          stream_loop fuel false (drop (Z.to_nat pdulen) l) st rc
  end.

(** After [data] has been received into the room. *)
Definition read_stream (saved data : list Z) (size : Z) (st : St) : outcome (St * read_end) :=
  let l := saved ++ data in
  '(st, rc, e) ← stream_loop (S (length l)) true l st 0;
  Ret (st, match e with
           | Broken => {| r_stream := {| packet := Some l; packet_size := size |}; r_closed := true;
                         r_illegal := true; r_result := -1 |}
           | Not_complete =>
               {| r_stream := {| packet := Some l; packet_size := size |}; r_closed := false;
                  r_illegal := false; r_result := 0 |}
           | Rest rest =>
               if MAXIMUM_PACKET_SIZE <=? len rest
               then {| r_stream := {| packet := Some rest; packet_size := size |}; r_closed := true;
                       r_illegal := false; r_result := -1 |}
               else if len rest =? 0 then {| r_stream := no_packet; r_closed := false; r_illegal := false; r_result := rc |}
               else {| r_stream := {| packet := Some rest; packet_size := if alloc (len rest) then len rest else size |};
                       r_closed := false; r_illegal := false; r_result := rc |}
           end).

(** ** The bytes in a row *)

Inductive tail : Type := Left_over (l : list Z) | Illegal.

(** The packets at the front of the bytes, and what is behind them. *)
Fixpoint cut (fuel : nat) (l : list Z) : outcome (list (list Z) * tail) :=
  match fuel with
  | O => Spin
  | S fuel =>
      if len l <=? 0 then Ret ([], Left_over l)
      else
        n ← check l;
        let n := u64 n in
        if MAX_PACKET_LENGTH <? n then Ret ([], Illegal)
        else if (len l <? n) || (n =? 0) then Ret ([], Left_over l)
        else '(ps, t) ← cut fuel (drop (Z.to_nat n) l); Ret (take (Z.to_nat n) l :: ps, t)
  end.

Definition packets (l : list Z) : outcome (list (list Z) * tail) := cut (S (length l)) l.

(** The packets processed one after the other, and the last result. *)
Fixpoint process_all (ps : list (list Z)) (st : St) (rc : Z) : outcome (St * Z) :=
  match ps with
  | [] => Ret (st, rc)
  | p :: ps => '(st, rc) ← process st p; process_all ps st rc
  end.

(** The pieces, one call of [_sess_read] each, until the transport is
    closed; a call without memory reads nothing. *)
Fixpoint read_all (pieces : list (list Z)) (s : stream) (st : St) : outcome (St * stream * bool) :=
  match pieces with
  | [] => Ret (st, s, false)
  | data :: pieces =>
      match stream_room s with
      | None => Ret (st, s, false)
      | Some (saved, room, size) =>
          '(st, e) ← read_stream saved data size st;
          if r_closed e then Ret (st, r_stream e, true) else read_all pieces (r_stream e) st
      end
  end.
End stream.
