(* ===== verification/StreamProps.v ===== *)
(** * Properties of reading from a stream *)

From S2P Require Import Prelude Bytes AsnTypes AsnParse AsnRbuild Pdu Oid Samples Stream.

(** What makes pieces harmless: a check that finds a whole packet, or an
    illegal length, finds it again with more bytes behind. *)
Class StableCheck (check : mem -> outcome Z) : Prop := {
  check_total : forall l, exists n, check l = Ret n;
  check_stable : forall l m n, check l = Ret n ->
    0 < u64 n <= len l \/ MAX_PACKET_LENGTH < u64 n -> len (l ++ m) < 2 ^ 31 -> check (l ++ m) = Ret n
}.

Section cut.
Context (check : mem -> outcome Z) `{!StableCheck check}.

Definition cut_of (l : list Z) (ps : list (list Z)) (t : tail) : Prop :=
  exists fuel, cut check fuel l = Ret (ps, t).

Lemma cut_more fuel fuel' l r : cut check fuel l = Ret r -> (fuel <= fuel')%nat -> cut check fuel' l = Ret r.
Proof.
  revert fuel' l r. induction fuel as [|fuel IH]; intros fuel' l r; [done|].
  destruct fuel' as [|fuel']; [lia|]. cbn [cut]. intros E Hf.
  destruct (len l <=? 0); [done|]. destruct (check_total l) as [n En]. rewrite En, bind_ret in *.
  destruct (MAX_PACKET_LENGTH <? u64 n); [done|]. destruct ((len l <? u64 n) || (u64 n =? 0)); [done|].
  apply bind_Ret_inv in E as ([ps t] & E & Er). rewrite (IH fuel' _ _ E) by lia. by rewrite bind_ret.
Qed.

Lemma cut_total l : exists r, packets check l = Ret r.
Proof.
  unfold packets. enough (H : forall fuel l, (length l < fuel)%nat -> exists r, cut check fuel l = Ret r) by (apply H; lia).
  clear l. induction fuel as [|fuel IH]; intros l Hl; [lia|]. cbn [cut].
  destruct (len l <=? 0); [by eauto|]. destruct (check_total l) as [n ->]. rewrite bind_ret.
  destruct (MAX_PACKET_LENGTH <? u64 n); [by eauto|].
  destruct ((len l <? u64 n) || (u64 n =? 0)) eqn:E; [by eauto|].
  apply orb_false_iff in E as [E1 E2]. pose proof (u64_range n). unfold len in *.
  destruct (IH (drop (Z.to_nat (u64 n)) l)) as [[ps t] ->]; [rewrite length_drop; unfold is_u64 in *; lia|].
  rewrite bind_ret. eauto.
Qed.

Lemma packets_of l ps t : cut_of l ps t <-> packets check l = Ret (ps, t).
Proof.
  split; [|by intros; exists (S (length l))]. intros [fuel E].
  destruct (cut_total l) as [[ps' t'] E']. rewrite E'. unfold packets in E'.
  pose proof (cut_more _ (fuel `max` S (length l)) _ _ E ltac:(lia)) as H1.
  pose proof (cut_more _ (fuel `max` S (length l)) _ _ E' ltac:(lia)) as H2. congruence.
Qed.

(** The bytes behind a packet are cut on their own. *)
Lemma cut_of_packet l n : check l = Ret n -> 0 < u64 n <= len l -> u64 n <= MAX_PACKET_LENGTH ->
  forall ps t, cut_of l ps t <-> exists ps', ps = take (Z.to_nat (u64 n)) l :: ps' /\ cut_of (drop (Z.to_nat (u64 n)) l) ps' t.
Proof.
  intros E Hn Hm ps t. split.
  - intros [[|fuel] Ec]; [done|]. cbn [cut] in Ec.
    destruct (Z.leb_spec (len l) 0); [lia|]. rewrite E, bind_ret in Ec.
    destruct (Z.ltb_spec MAX_PACKET_LENGTH (u64 n)); [lia|].
    destruct (Z.ltb_spec (len l) (u64 n)); [lia|]. destruct (Z.eqb_spec (u64 n) 0); [lia|]. cbn [orb] in Ec.
    apply bind_Ret_inv in Ec as ([ps' t'] & Ec & [= <- <-]). exists ps'. split; [done|by exists fuel].
  - intros (ps' & -> & fuel & Ec). exists (S fuel). cbn [cut].
    destruct (Z.leb_spec (len l) 0); [lia|]. rewrite E, bind_ret.
    destruct (Z.ltb_spec MAX_PACKET_LENGTH (u64 n)); [lia|].
    destruct (Z.ltb_spec (len l) (u64 n)); [lia|]. destruct (Z.eqb_spec (u64 n) 0); [lia|]. cbn [orb].
    by rewrite Ec.
Qed.

(** More bytes behind bytes that have been cut. *)
Lemma cut_app l m ps t : cut_of l ps t -> len (l ++ m) < 2 ^ 31 ->
  match t with
  | Left_over r => forall ps' t', cut_of (r ++ m) ps' t' -> cut_of (l ++ m) (ps ++ ps') t'
  | Illegal => cut_of (l ++ m) ps Illegal
  end.
Proof.
  intros [fuel E]. revert l ps t E. induction fuel as [|fuel IH]; intros l ps t; [done|]. cbn [cut].
  destruct (Z.leb_spec (len l) 0); [by intros [= <- <-] _|].
  destruct (check_total l) as [n En]. rewrite En, bind_ret. pose proof (u64_range n) as Hu. unfold is_u64 in Hu.
  destruct (Z.ltb_spec MAX_PACKET_LENGTH (u64 n)).
  { intros [= <- <-] Hm. exists 1%nat. cbn [cut]. rewrite (check_stable _ m _ En) by lia. rewrite bind_ret.
    unfold len in *. rewrite length_app. destruct (Z.leb_spec (Z.of_nat (length l + length m)) 0); [lia|].
    by destruct (Z.ltb_spec MAX_PACKET_LENGTH (u64 n)); [|lia]. }
  destruct ((len l <? u64 n) || (u64 n =? 0)) eqn:En0; [by intros [= <- <-] _|].
  apply orb_false_iff in En0 as [E1%Z.ltb_ge E2%Z.eqb_neq].
  intros ([ps1 t1] & Ec & [= <- <-])%bind_Ret_inv Hm. specialize (IH _ _ _ Ec).
  pose proof (check_stable _ m _ En ltac:(lia) Hm) as Em.
  assert (Hshort : len (drop (Z.to_nat (u64 n)) l ++ m) < 2 ^ 31)
    by (unfold len in *; rewrite length_app, length_drop in *; lia).
  specialize (IH Hshort).
  assert (Hlen : u64 n <= len (l ++ m)) by (unfold len in *; rewrite length_app; lia).
  assert (Ht : (Z.to_nat (u64 n) <= length l)%nat) by (unfold len in *; lia).
  assert (Hcons : forall ps' t', cut_of (drop (Z.to_nat (u64 n)) l ++ m) ps' t' ->
                                 cut_of (l ++ m) (take (Z.to_nat (u64 n)) l :: ps') t').
  { intros ps' t' Hc. apply (cut_of_packet _ n Em); [lia..|]. exists ps'.
    by rewrite take_app_le, drop_app_le by lia. }
  destruct t1 as [r|]; [|by apply Hcons]. intros ps' t' Hc. cbn [app]. by apply Hcons, IH.
Qed.

(** Bytes that no packet can be taken from. *)
Lemma cut_left l ps r : cut_of l ps (Left_over r) -> cut_of r [] (Left_over r).
Proof.
  intros [fuel E]. revert l ps E. induction fuel as [|fuel IH]; intros l ps; [done|]. intros E. pose proof E as E0.
  cbn [cut] in E. destruct (len l <=? 0); [injection E as <- <-; by exists (S fuel)|].
  destruct (check_total l) as [n En]. rewrite En, bind_ret in E.
  destruct (MAX_PACKET_LENGTH <? u64 n); [done|].
  destruct ((len l <? u64 n) || (u64 n =? 0)); [injection E as <- <-; by exists (S fuel)|].
  apply bind_Ret_inv in E as ([ps1 t1] & Ec & [= <- ->]). eauto.
Qed.

Lemma cut_left_length l ps r : cut_of l ps (Left_over r) -> len r <= len l.
Proof.
  intros [fuel E]. revert l ps E. induction fuel as [|fuel IH]; intros l ps; [done|]. cbn [cut].
  destruct (len l <=? 0); [by intros [= <- <-]|]. destruct (check_total l) as [n ->]. rewrite bind_ret.
  destruct (MAX_PACKET_LENGTH <? u64 n); [done|].
  destruct ((len l <? u64 n) || (u64 n =? 0)); [by intros [= <- <-]|].
  intros ([ps1 t1] & Ec & [= <- ->])%bind_Ret_inv. apply IH in Ec. unfold len in *. rewrite length_drop in Ec. lia.
Qed.
End cut.

(** ** The check of BER *)

Lemma parse_length_loop_app m m' n : forall data length r,
  parse_length_loop m data length n = Ret r -> parse_length_loop (m ++ m') data length n = Ret r.
Proof.
  induction n as [|n IH]; intros data length r; cbn [parse_length_loop]; [done|].
  intros (b & Eb & E)%bind_Ret_inv. rewrite (rd_app_l _ _ _ _ Eb), bind_ret. by apply IH.
Qed.

Lemma asn_parse_length_app m m' data length r :
  asn_parse_length m data length = Ret r -> asn_parse_length (m ++ m') data length = Ret r.
Proof.
  unfold asn_parse_length. intros (b & Eb & E)%bind_Ret_inv. rewrite (rd_app_l _ _ _ _ Eb), bind_ret.
  destruct (negb _); [|done]. cbv zeta in *. destruct (_ =? 0); [done|]. destruct (_ <? _); [done|].
  apply bind_Ret_inv in E as ([d l] & E1 & E2). by rewrite (parse_length_loop_app _ m' _ _ _ _ E1).
Qed.

Lemma parse_length_loop_total m n : forall data length, 0 <= data -> data + Z.of_nat n <= len m ->
  exists r, parse_length_loop m data length n = Ret r.
Proof.
  unfold len. induction n as [|n IH]; intros data length Hd Hn; cbn [parse_length_loop]; [by eauto|].
  destruct (rd_in_bounds m data) as [b ->]; [lia|]. rewrite bind_ret. apply IH; lia.
Qed.

#[export] Instance asn_check_packet_stable uninit : StableCheck (fun l => asn_check_packet l (len l) uninit).
Proof.
  split.
  - intros l. unfold asn_check_packet. destruct (Z.ltb_spec (len l) 2); [by eauto|].
    destruct (rd_in_bounds l 0) as [t ->]; [unfold len in *; lia|]. rewrite bind_ret.
    destruct (negb _); [by eauto|]. destruct (rd_in_bounds l 1) as [b Eb]; [unfold len in *; lia|].
    rewrite Eb, bind_ret. destruct (negb (Z.land b 128 =? 0)) eqn:Eb7; [|by eauto].
    destruct (Z.ltb_spec (s32 (len l)) (Z.land b (Z.lnot 128) + 2)); [by eauto|].
    enough (exists r, asn_parse_length l 1 uninit = Ret r) as [[o n] ->] by (rewrite bind_ret; eauto).
    unfold asn_parse_length. rewrite Eb, bind_ret. unfold ASN_LONG_LEN. change 0x80 with 128. rewrite Eb7. cbv zeta.
    destruct (Z.land b (Z.lnot 128) =? 0); [by eauto|].
    destruct (sizeof_long <? Z.land b (Z.lnot 128)); [by eauto|].
    assert (s32 (len l) <= len l) by (unfold len; cint).
    destruct (parse_length_loop_total l (Z.to_nat (Z.land b (Z.lnot 128))) (1 + 1) 0) as [[d n] ->];
      [lia|generalize dependent (Z.land b (Z.lnot 128)); intros; lia|].
    rewrite bind_ret. destruct (s64 n <? 0); by eauto.
  - intros l m n. unfold asn_check_packet. destruct (Z.ltb_spec (len l) 2) as [Hl|Hl].
    { intros [= <-] Hn. change (u64 0) with 0 in Hn. unfold MAX_PACKET_LENGTH in Hn. lia. }
    assert (Hle : len l <= len (l ++ m)) by (unfold len; rewrite length_app; lia).
    destruct (Z.ltb_spec (len (l ++ m)) 2); [lia|].
    intros (t & Et & E)%bind_Ret_inv Hn Hm. rewrite (rd_app_l _ _ _ _ Et), bind_ret.
    destruct (negb (t =? _)); [done|]. apply bind_Ret_inv in E as (b & Eb & E).
    rewrite (rd_app_l _ _ _ _ Eb), bind_ret. destruct (negb (Z.land b 128 =? 0)); [|done].
    rewrite !s32_id in * by (unfold len in *; cint).
    destruct (Z.ltb_spec (len l) (Z.land b (Z.lnot 128) + 2)).
    { injection E as <-. change (u64 0) with 0 in Hn. unfold MAX_PACKET_LENGTH in Hn. lia. }
    destruct (Z.ltb_spec (len (l ++ m)) (Z.land b (Z.lnot 128) + 2)); [lia|].
    apply bind_Ret_inv in E as ([o k] & E1 & E2). by rewrite (asn_parse_length_app _ m _ _ _ E1).
Qed.

(** ** The pieces *)

Section pieces.
Context `{Allocator} {St : Type} (check : mem -> outcome Z) `{!StableCheck check}.
Context (process : St -> mem -> outcome (St * Z)).

Definition nil_b (ps : list (list Z)) : bool := match ps with [] => true | _ => false end.

Lemma process_all_app ps ps' st rc :
  process_all process (ps ++ ps') st rc = '(st, rc) ← process_all process ps st rc; process_all process ps' st rc.
Proof.
  revert st rc. induction ps as [|p ps IH]; intros st rc; cbn [app process_all]; [done|].
  destruct (process st p) as [[st' rc']| | |]; cbn; [apply IH|done..].
Qed.

(** The last result does not matter for the state. *)
Lemma process_all_state ps st rc rc' :
  fst <$> process_all process ps st rc = fst <$> process_all process ps st rc'.
Proof. destruct ps as [|p ps]; [done|]. by cbn [process_all]. Qed.

Lemma stream_loop_cut fuel start l st rc ps t : cut check fuel l = Ret (ps, t) ->
  stream_loop check process fuel start l st rc =
  '(st, rc) ← process_all process ps st rc;
  Ret (st, rc, match t with
               | Illegal => Broken
               | Left_over r => if start && nil_b ps && negb (len r <=? 0) then Not_complete else Rest r
               end).
Proof.
  revert start l st rc ps t. induction fuel as [|fuel IH]; intros start l st rc ps t; [done|].
  cbn [cut stream_loop]. destruct (len l <=? 0) eqn:El.
  { intros [= <- <-]. cbn [process_all]. rewrite bind_ret, El. by destruct start. }
  destruct (check l) as [n| | |]; [|done..]. rewrite !bind_ret.
  destruct (MAX_PACKET_LENGTH <? u64 n); [by intros [= <- <-]|].
  destruct ((len l <? u64 n) || (u64 n =? 0)).
  { intros [= <- <-]. cbn [process_all]. rewrite bind_ret, El. by destruct start. }
  intros ([ps1 t1] & Ec & [= <- <-])%bind_Ret_inv. cbn [process_all]. rewrite bind_assoc.
  destruct (process st (take (Z.to_nat (u64 n)) l)) as [[st' rc']| | |]; [|done..]. cbn.
  rewrite (IH _ _ _ _ _ _ Ec). by destruct start.
Qed.

Definition saved_bytes (s : stream) : list Z := default [] (packet s).

Definition is_illegal (t : tail) : bool := match t with Illegal => true | Left_over _ => false end.

(** One piece. *)
Lemma read_stream_cut saved data size st ps t st' rc :
  packets check (saved ++ data) = Ret (ps, t) -> len (saved ++ data) < MAXIMUM_PACKET_SIZE ->
  process_all process ps st 0 = Ret (st', rc) ->
  exists e, read_stream check process saved data size st = Ret (st', e)
  /\ r_closed e = is_illegal t /\ forall r, t = Left_over r -> saved_bytes (r_stream e) = r.
Proof.
  intros E Hm Ep. unfold read_stream. rewrite (stream_loop_cut _ _ _ _ _ _ _ E), Ep. rewrite !bind_ret.
  eexists. split; [done|]. destruct t as [r|]; [|done]. cbn [is_illegal].
  pose proof (proj2 (packets_of check _ _ _) E) as Hc. pose proof (cut_left_length check _ _ _ Hc) as Hlen.
  destruct (true && nil_b ps && negb (len r <=? 0)) eqn:Estart.
  - apply andb_true_iff in Estart as [Ee _]. destruct ps; [|done].
    split; [done|]. intros ? [= <-]. cbn. destruct Hc as [[|fuel] Ec]; [done|]. cbn [cut] in Ec.
    destruct (len (saved ++ data) <=? 0); [by injection Ec as ->|].
    destruct (check (saved ++ data)) as [n| | |]; [|done..]. rewrite bind_ret in Ec.
    destruct (MAX_PACKET_LENGTH <? u64 n); [done|].
    destruct ((len (saved ++ data) <? u64 n) || (u64 n =? 0)); [by injection Ec as ->|].
    by apply bind_Ret_inv in Ec as ([ps1 t1] & _ & ?).
  - destruct (Z.leb_spec MAXIMUM_PACKET_SIZE (len r)); [lia|].
    destruct (Z.eqb_spec (len r) 0) as [E0|E0]; (split; [done|]); intros ? [= <-]; cbn; [|done].
    destruct r; [done|]. unfold len in E0. cbn in E0. lia.
Qed.

(** The pieces behind saved bytes. *)
Lemma read_all_cut pieces : forall s st ps t st' rc,
  (forall n, n <= len (saved_bytes s ++ concat pieces) + RXBUF_LEN -> alloc n = true) ->
  cut_of check (saved_bytes s) [] (Left_over (saved_bytes s)) ->
  packets check (saved_bytes s ++ concat pieces) = Ret (ps, t) ->
  len (saved_bytes s ++ concat pieces) < MAXIMUM_PACKET_SIZE ->
  process_all process ps st 0 = Ret (st', rc) ->
  exists s', read_all check process pieces s st = Ret (st', s', is_illegal t)
  /\ forall r, t = Left_over r -> saved_bytes s' = r.
Proof.
  induction pieces as [|data pieces IH]; intros s st ps t st' rc Ha Hs E Hm Ep; cbn [read_all concat] in *.
  { rewrite app_nil_r in *. pose proof (proj1 (packets_of check _ _ _) Hs) as Es.
    rewrite Es in E. injection E as <- <-. cbn in Ep. injection Ep as <- <-. exists s.
    split; [done|by intros ? [= <-]]. }
  assert (Hroom : exists room size, stream_room s = Some (saved_bytes s, room, size)).
  { unfold stream_room, saved_bytes in *. destruct (packet s) as [l|]; cbn in *.
    - destruct (packet_size s <? len l + RXBUF_LEN); [|by eauto]. rewrite Ha; [by eauto|].
      unfold len. rewrite length_app. lia.
    - rewrite Ha; [by eauto|]. unfold len. lia. }
  destruct Hroom as (room & size & ->).
  destruct (cut_total check (saved_bytes s ++ data)) as [[ps1 t1] E1].
  pose proof (proj2 (packets_of check _ _ _) E1) as H1.
  assert (Hle : len (saved_bytes s ++ data) <= len (saved_bytes s ++ data ++ concat pieces))
    by (unfold len; rewrite !length_app; lia).
  assert (Hshort : len ((saved_bytes s ++ data) ++ concat pieces) < 2 ^ 31)
    by (rewrite <- app_assoc; unfold MAXIMUM_PACKET_SIZE in Hm; lia).
  pose proof (cut_app check _ _ _ _ H1 Hshort) as Happ. rewrite <- app_assoc in Happ.
  destruct t1 as [r1|].
  - destruct (cut_total check (r1 ++ concat pieces)) as [[ps2 t2] E2].
    specialize (Happ _ _ (proj2 (packets_of check _ _ _) E2)). apply (packets_of check) in Happ.
    rewrite Happ in E. injection E as <- <-. rewrite process_all_app in Ep.
    apply bind_Ret_inv in Ep as ([st1 rc1] & Ep1 & Ep2).
    destruct (read_stream_cut _ _ size _ _ _ _ _ E1 ltac:(lia) Ep1) as (e & Ee & Ed & Hr). rewrite Ee, bind_ret, Ed.
    cbn [is_illegal]. specialize (Hr _ eq_refl).
    pose proof (process_all_state ps2 st1 rc1 0) as Hst. rewrite Ep2 in Hst.
    destruct (process_all process ps2 st1 0) as [[st2 rc2]| | |] eqn:Ep3; try done.
    injection Hst as <-. pose proof (cut_left_length check _ _ _ H1).
    apply (IH (r_stream e) st1 ps2 t2 st' rc2); rewrite ?Hr; [|by eapply cut_left|done| |done].
    + intros n Hn. apply Ha. unfold len in *. rewrite !length_app in *. lia.
    + unfold len in *. rewrite !length_app in *. lia.
  - apply (packets_of check) in Happ. rewrite Happ in E. injection E as <- <-.
    destruct (read_stream_cut _ _ size _ _ _ _ _ E1 ltac:(lia) Ep) as (e & Ee & Ed & Hr). rewrite Ee, bind_ret, Ed.
    by exists (r_stream e).
Qed.
End pieces.

(** C28: however the bytes of a stream are cut into pieces, [_sess_read]
    processes exactly the packets of the bytes in a row, in their order, each
    once; it closes the transport when they end with an illegal length, and
    else it has saved what is left of them. *)
Theorem stream_pieces_harmless `{Allocator} {St} check `{!StableCheck check} (process : St -> mem -> outcome (St * Z))
    pieces st ps t st' rc :
  (forall n, n <= len (concat pieces) + RXBUF_LEN -> alloc n = true) ->
  len (concat pieces) < MAXIMUM_PACKET_SIZE ->
  packets check (concat pieces) = Ret (ps, t) ->
  process_all process ps st 0 = Ret (st', rc) ->
  exists s, read_all check process pieces no_packet st = Ret (st', s, is_illegal t)
  /\ forall r, t = Left_over r -> saved_bytes s = r.
Proof. intros Ha Hm E Ep. eapply (read_all_cut check process pieces no_packet); try done. by exists 1%nat. Qed.

Lemma stream_pieces_harmless_witness :
  exists s, read_all (fun l => asn_check_packet l (len l) 0) (fun st p => Ret (st ++ [p], 0))
              [[48]; [1; 5; 48]; [2; 7; 8; 48; 9; 1]] no_packet []
            = Ret ([[48; 1; 5]; [48; 2; 7; 8]], s, false)
  /\ saved_bytes s = [48; 9; 1].
Proof.
  destruct (stream_pieces_harmless (fun l => asn_check_packet l (len l) 0) (fun st p => Ret (st ++ [p], 0))
              [[48]; [1; 5; 48]; [2; 7; 8; 48; 9; 1]] [] [[48; 1; 5]; [48; 2; 7; 8]] (Left_over [48; 9; 1])
              [[48; 1; 5]; [48; 2; 7; 8]] 0) as (s & E & Hs).
  - intros n Hn. apply Z.ltb_lt. eapply Z.le_lt_trans; [exact Hn|reflexivity].
  - reflexivity.
  - reflexivity.
  - reflexivity.
  - exists s. split; [exact E|by apply Hs].
Defined.
