(* ===== verification/Keytools.v ===== *)
(** * Keys from pass phrases: snmplib/keytools.c

    With OpenSSL, whose digests are those of [Platform]: a digest that is
    given data in pieces is the digest of the pieces in a row.  A buffer that
    is written is a result.  The random bytes are an argument: what
    [RAND_bytes] gives for a length. *)

From S2P Require Import Prelude Bytes AsnRbuild Oid Lcd Scapi.

Definition USM_LENGTH_EXPANDED_PASSPHRASE : Z := 1024 * 1024.
Definition USM_LENGTH_KU_HASHBLOCK : Z := 64.
Definition USM_LENGTH_P_MIN : Z := 8.

(** ** Master keys *)

(** [*bufp++ = P[pindex++ % pplen]], [n] times. *)
Fixpoint fill (n : nat) (P : list Z) (pindex : Z) : outcome (list Z * Z) :=
  match n with
  | O => Ret ([], pindex)
  | S n =>
      b ← rd P (pindex mod len P);
      '(l, pindex) ← fill n P (u32 (pindex + 1)); Ret (b :: l, pindex)
  end.

(** The [while] over the blocks; [ctx] has the blocks so far, the last one
    first. *)
Fixpoint update_loop (fuel : nat) (nbytes : Z) (P : list Z) (pindex : Z) (ctx : list (list Z))
    : outcome (list (list Z)) :=
  match fuel with
  | O => Spin
  | S fuel =>
      if 0 <? nbytes then
        '(buf, pindex) ← fill (Z.to_nat USM_LENGTH_KU_HASHBLOCK) P pindex;
        update_loop fuel (nbytes - USM_LENGTH_KU_HASHBLOCK) P pindex (buf :: ctx)
      else Ret ctx
  end.

Section keytools.
Context `{Platform, Allocator}.

(** The digest a protocol stands for. *)
Definition hash_function (t : list Z) : outcome (option (list Z -> list Z)) :=
  md5 ← ISTRANSFORM t usmHMACMD5AuthProtocol;
  if (md5 : bool) then Ret (Some EVP_md5)
  else
    sha1 ← ISTRANSFORM t usmHMACSHA1AuthProtocol;
    Ret (if (sha1 : bool) then Some EVP_sha1 else None).

(** The result and the key; [kulen] is the room for it.  [EVP_DigestFinal]
    does not look at the room. *)
Definition generate_Ku (hashtype : option (list Z)) (P : option (list Z)) (kulen : Z) : outcome (Z * list Z) :=
  match hashtype, P with
  | Some t, Some P =>
      if (kulen <=? 0) || negb (len t =? USM_LENGTH_OID_TRANSFORM) then Ret (SNMPERR_GENERR, [])
      else if len P <? USM_LENGTH_P_MIN then Ret (SNMPERR_GENERR, [])
      else
        hash ← hash_function t;
        match hash with
        | None => Ret (SNMPERR_GENERR, [])
        | Some hash =>
            ctx ← update_loop (S (Z.to_nat (USM_LENGTH_EXPANDED_PASSPHRASE / USM_LENGTH_KU_HASHBLOCK)))
                    USM_LENGTH_EXPANDED_PASSPHRASE P 0 [];
            let Ku := hash (concat (rev ctx)) in
            if kulen <? len Ku then Overrun else Ret (SNMPERR_SUCCESS, Ku)
        end
  | _, _ => Ret (SNMPERR_GENERR, [])
  end.

(** ** Localized keys *)

(** The result and the key; [kul_len] is the room for it.  [buf] has
    [SNMP_MAXBUF] bytes. *)
Definition generate_kul (hashtype engineID Ku : option (list Z)) (kul_len : Z) : outcome (Z * list Z) :=
  match hashtype, engineID, Ku with
  | Some t, Some id, Some Ku =>
      if (len id <=? 0) || (len Ku <=? 0) || (kul_len <=? 0) || negb (len t =? USM_LENGTH_OID_TRANSFORM)
      then Ret (SNMPERR_GENERR, [])
      else
        properlength ← sc_get_properlength t;
        if properlength =? SNMPERR_GENERR then Ret (SNMPERR_GENERR, [])
        else if (kul_len <? properlength) || (len Ku <? properlength) then Ret (SNMPERR_GENERR, [])
        else if SNMP_MAXBUF <? 2 * properlength + len id then Overrun
        else
          let key := take (Z.to_nat properlength) Ku in
          sc_hash t (key ++ id ++ key) kul_len
  | _, _, _ => Ret (SNMPERR_GENERR, [])
  end.

(** ** Changes of keys *)

Fixpoint xor_bytes (a b : list Z) : list Z :=
  match a, b with x :: a, y :: b => Z.lxor x y :: xor_bytes a b | _, _ => [] end.

(** The result and the bytes of [kcstring] that count; [kcstring_len] is the
    room.  After an error the buffer has zeros.  Without memory, what is left
    there is taken for a success. *)
Definition encode_keychange (RAND_bytes : Z -> list Z) (hashtype oldkey newkey : option (list Z)) (kcstring_len : Z)
    : outcome (Z * list Z) :=
  match hashtype, oldkey, newkey with
  | Some t, Some oldkey, Some newkey =>
      if (len oldkey <=? 0) || (len newkey <=? 0) || (kcstring_len <=? 0)
         || negb (len t =? USM_LENGTH_OID_TRANSFORM) then Ret (SNMPERR_GENERR, [])
      else
        iproperlength ← sc_get_properlength t;
        if iproperlength =? SNMPERR_GENERR then Ret (SNMPERR_GENERR, [])
        else if negb (len oldkey =? len newkey) || (kcstring_len <? 2 * len oldkey) then Ret (SNMPERR_GENERR, [])
        else
          let properlength := Z.min (len oldkey) iproperlength in
          let random := RAND_bytes properlength in
          if negb (alloc (properlength * 2)) then Ret (SNMPERR_SUCCESS, random)
          else
            '(rval, hash) ← sc_hash t (take (Z.to_nat properlength) oldkey ++ random) (kcstring_len - properlength);
            if negb (rval =? SNMPERR_SUCCESS) then Ret (rval, [])
            else Ret (SNMPERR_SUCCESS,
                      random ++ xor_bytes (take (Z.to_nat properlength) hash) (take (Z.to_nat properlength) newkey))
  | _, _, _ => Ret (SNMPERR_GENERR, [])
  end.

(** The result and the key; [newkey] is the buffer for it, and [tmp_buf] what
    the local buffer has behind the hash. *)
Definition decode_keychange (hashtype oldkey kcstring : option (list Z)) (newkey tmp_buf : list Z)
    : outcome (Z * list Z) :=
  match hashtype, oldkey, kcstring with
  | Some t, Some oldkey, Some kcstring =>
      if (len oldkey <=? 0) || (len kcstring <=? 0) || (len newkey <=? 0)
         || negb (len t =? USM_LENGTH_OID_TRANSFORM) then Ret (SNMPERR_GENERR, [])
      else
        iproperlength ← sc_get_properlength t;
        if iproperlength =? SNMPERR_GENERR then Ret (SNMPERR_GENERR, [])
        else if negb (2 * len oldkey =? len kcstring) || (len newkey <? len oldkey) then Ret (SNMPERR_GENERR, [])
        else
          let properlength := length oldkey in
          if negb (alloc (len oldkey * 2)) then Ret (SNMPERR_SUCCESS, take properlength newkey)
          else
            '(rval, hash) ← sc_hash t (oldkey ++ take properlength kcstring) SNMP_MAXBUF;
            if negb (rval =? SNMPERR_SUCCESS) then Ret (rval, [])
            else if SNMP_MAXBUF <? len oldkey then Overrun
            else Ret (SNMPERR_SUCCESS, xor_bytes (take properlength (hash ++ tmp_buf)) (drop properlength kcstring))
  | _, _, _ => Ret (SNMPERR_GENERR, [])
  end.
End keytools.
