(* ===== verification/KeytoolsProps.v ===== *)
(** * Properties of keys *)

From S2P Require Import Prelude Bytes AsnRbuild Oid Lcd LcdSpec Scapi UsersSpec Keytools Samples UsmProps.

(** ** Master keys *)

(** [n] bytes of a pass phrase that is repeated for ever, from place [k] on. *)
Definition repeated (P : list Z) (k n : nat) : list Z := (fun i => P !!! (i mod length P)%nat) <$> seq k n.

Lemma repeated_app P k n m : repeated P k (n + m) = repeated P k n ++ repeated P (k + n) m.
Proof. unfold repeated. by rewrite seq_app, fmap_app. Qed.

Lemma rd_total P k : P <> [] -> rd P (Z.of_nat k mod len P) = Ret (P !!! (k mod length P)%nat).
Proof.
  intros HP. assert (length P <> 0%nat) by (by destruct P). unfold rd, len. rewrite <- Nat2Z.inj_mod.
  destruct (Z.ltb_spec (Z.of_nat (k mod length P)) 0); [lia|]. rewrite Nat2Z.id.
  destruct (lookup_lt_is_Some_2 P (k mod length P)) as [x Hx]; [apply Nat.mod_upper_bound; lia|].
  by rewrite Hx, (list_lookup_total_correct _ _ _ Hx).
Qed.

Lemma fill_exact P n : P <> [] -> forall k, Z.of_nat (k + n) < 2 ^ 32 ->
  fill n P (Z.of_nat k) = Ret (repeated P k n, Z.of_nat (k + n)).
Proof.
  intros HP. induction n as [|n IH]; intros k Hk; cbn [fill]; [by rewrite Nat.add_0_r|].
  rewrite (rd_total P k HP), bind_ret. rewrite u32_id by cint.
  replace (Z.of_nat k + 1) with (Z.of_nat (S k)) by lia. rewrite IH by lia.
  rewrite bind_ret. by replace (S k + n)%nat with (k + S n)%nat by lia.
Qed.

Lemma update_loop_exact P n : P <> [] -> forall fuel k ctx, (n < fuel)%nat -> Z.of_nat (k + 64 * n) < 2 ^ 32 ->
  exists l, update_loop fuel (64 * Z.of_nat n) P (Z.of_nat k) ctx = Ret (rev l ++ ctx) /\ concat l = repeated P k (64 * n).
Proof.
  intros HP. induction n as [|n IH]; intros fuel k ctx Hf Hk; (destruct fuel as [|fuel]; [lia|]); cbn [update_loop].
  - exists []. by rewrite Nat.mul_0_r.
  - destruct (Z.ltb_spec 0 (64 * Z.of_nat (S n))); [|lia]. unfold USM_LENGTH_KU_HASHBLOCK.
    rewrite (fill_exact P (Z.to_nat 64) HP k) by lia. rewrite bind_ret.
    replace (64 * Z.of_nat (S n) - 64) with (64 * Z.of_nat n) by lia.
    destruct (IH fuel (k + Z.to_nat 64)%nat (repeated P k (Z.to_nat 64) :: ctx)) as (l & -> & El); [lia..|].
    exists (repeated P k 64 :: l). cbn [rev concat]. rewrite <- app_assoc, El. split; [done|].
    replace (64 * S n)%nat with (64 + 64 * n)%nat by lia. by rewrite repeated_app.
Qed.

(** ** Hashes *)

Section hashes.
Context `{Platform}.

Lemma hash_function_cases t h : hash_function t = Ret (Some h) ->
  (h = EVP_md5 /\ sc_get_properlength t = Ret 16 \/ h = EVP_sha1 /\ sc_get_properlength t = Ret 20)
  /\ forall buf room, buf <> [] -> len (h buf) <= room -> sc_hash t buf room = Ret (SNMPERR_SUCCESS, h buf).
Proof.
  unfold hash_function, sc_get_properlength, sc_hash. intros (md5 & Emd5 & E)%bind_Ret_inv. rewrite Emd5, !bind_ret.
  assert (Hne : forall buf : list Z, buf <> [] -> (len buf <=? 0) = false).
  { intros [|x buf] Hb; [done|]. apply Z.leb_gt. unfold len. cbn. lia. }
  destruct md5.
  - injection E as <-. split; [by left|]. intros buf room Hb Hr. rewrite (Hne buf Hb), bind_ret. cbn [BYTESIZE].
    unfold sc_get_properlength. rewrite Emd5, !bind_ret. change (BYTESIZE SNMP_TRANS_AUTHLEN_HMACMD5) with 16.
    unfold len in Hr. rewrite EVP_md5_length in Hr. destruct (Z.ltb_spec room 16); [lia|done].
  - apply bind_Ret_inv in E as (sha1 & Esha & [= E]). destruct sha1; [|done]. injection E as <-.
    rewrite Esha, !bind_ret. split; [by right|]. intros buf room Hb Hr. rewrite (Hne buf Hb).
    unfold sc_get_properlength. rewrite Emd5, !bind_ret, Esha, !bind_ret.
    change (BYTESIZE SNMP_TRANS_AUTHLEN_HMACSHA1) with 20.
    unfold len in Hr. rewrite EVP_sha1_length in Hr. destruct (Z.ltb_spec room 20); [lia|done].
Qed.

Lemma hash_function_length t h m : hash_function t = Ret (Some h) ->
  sc_get_properlength t = Ret (len (h m)) /\ 16 <= len (h m) <= 20.
Proof.
  intros [[[-> E]|[-> E]] _]%hash_function_cases; rewrite E; unfold len; rewrite ?EVP_md5_length, ?EVP_sha1_length;
    by (split; [|lia]).
Qed.

(** A localized key is the digest of the engine between two master keys,
    whatever the room. *)
Lemma kul_exact t h id Ku room : hash_function t = Ret (Some h) -> len t = USM_LENGTH_OID_TRANSFORM ->
  id <> [] -> 2 * 20 + len id <= SNMP_MAXBUF -> len (h []) <= len Ku -> len (h []) <= room ->
  let key := take (Z.to_nat (len (h []))) Ku in
  generate_kul (Some t) (Some id) (Some Ku) room = Ret (SNMPERR_SUCCESS, h (key ++ id ++ key)).
Proof.
  intros Hh Ht Hid Hmax HKu Hroom key. unfold generate_kul. rewrite Ht, Z.eqb_refl.
  destruct (hash_function_length t h [] Hh) as [-> Hl]. destruct (hash_function_length t h (key ++ id ++ key) Hh) as [E Hl'].
  destruct (hash_function_cases t h Hh) as [_ Hsc]. rewrite bind_ret.
  assert (Hpos : 0 < len id) by (destruct id; [done|unfold len; cbn; lia]).
  destruct (Z.leb_spec (len id) 0), (Z.leb_spec (len Ku) 0), (Z.leb_spec room 0); try lia. cbn [orb negb].
  destruct (Z.eqb_spec (len (h [])) SNMPERR_GENERR) as [Eg|]; [unfold SNMPERR_GENERR in Eg; lia|].
  destruct (Z.ltb_spec room (len (h []))), (Z.ltb_spec (len Ku) (len (h []))); try lia. cbn [orb].
  destruct (Z.ltb_spec SNMP_MAXBUF (2 * len (h []) + len id)); [lia|]. apply Hsc.
  - intros E0. apply (f_equal length) in E0. rewrite !length_app in E0. unfold len in Hpos. cbn in E0. lia.
  - destruct (hash_function_length t h [] Hh) as [E' _]. rewrite E in E'. injection E' as ->. done.
Qed.

(** The master key of a pass phrase of at least eight bytes is the digest
    of the phrase repeated up to a mebibyte. *)
Theorem Ku_exact `{Allocator} t h P room : hash_function t = Ret (Some h) -> len t = USM_LENGTH_OID_TRANSFORM ->
  20 <= room -> USM_LENGTH_P_MIN <= len P ->
  generate_Ku (Some t) (Some P) room
  = Ret (SNMPERR_SUCCESS, h (repeated P 0 (Z.to_nat USM_LENGTH_EXPANDED_PASSPHRASE))).
Proof.
  intros Hh Ht Hr HP. unfold generate_Ku, USM_LENGTH_P_MIN in *. rewrite Ht. cbn [negb Z.eqb].
  destruct (Z.leb_spec room 0); [lia|]. change (USM_LENGTH_OID_TRANSFORM =? USM_LENGTH_OID_TRANSFORM) with true.
  cbn [orb negb]. destruct (Z.ltb_spec (len P) 8); [lia|]. rewrite Hh, bind_ret.
  assert (HPn : P <> []) by (intros ->; by apply HP).
  change USM_LENGTH_EXPANDED_PASSPHRASE with (64 * 16384). change USM_LENGTH_KU_HASHBLOCK with 64.
  rewrite Z.mul_comm, Z.div_mul by lia. rewrite Z.mul_comm.
  remember (Z.to_nat 16384) as n eqn:En. assert (Hn : 16384 = Z.of_nat n) by lia. rewrite Hn.
  destruct (update_loop_exact P n HPn (S n) 0 []) as (l & E & El); [lia..|].
  change (Z.of_nat 0) with 0 in E. rewrite E, bind_ret, app_nil_r, rev_involutive, El.
  replace (Z.to_nat (64 * Z.of_nat n)) with (64 * n)%nat by lia.
  pose proof (hash_function_length t h (repeated P 0 (64 * n)) Hh) as [_ Hl].
  destruct (Z.ltb_spec room (len (h (repeated P 0 (64 * n))))); [lia|done].
Qed.

(** ** Changes of keys *)

Lemma xor_bytes_length a b : length a = length b -> length (xor_bytes a b) = length a.
Proof. revert b. induction a as [|x a IH]; intros [|y b] [=]; cbn; auto. Qed.

Lemma xor_bytes_involutive a b : length a = length b -> xor_bytes a (xor_bytes a b) = b.
Proof.
  revert b. induction a as [|x a IH]; intros [|y b] E; try done. cbn. rewrite IH by (cbn in E; lia). f_equal.
  by rewrite <- Z.lxor_assoc, Z.lxor_nilpotent, Z.lxor_0_l.
Qed.

(** The receiver of a KeyChange string that has the old key, of at most
    the length of the hash, gets the new key out of it. *)
Theorem keychange_roundtrip `{Allocator} RAND_bytes t h oldkey newkey room kc buffer tmp_buf :
  (forall n, 0 <= n -> len (RAND_bytes n) = n) -> (forall n, n <= 64 -> alloc n = true) ->
  hash_function t = Ret (Some h) -> (forall m, len oldkey <= len (h m)) -> len oldkey <= len buffer -> 40 <= room ->
  encode_keychange RAND_bytes (Some t) (Some oldkey) (Some newkey) room = Ret (SNMPERR_SUCCESS, kc) ->
  decode_keychange (Some t) (Some oldkey) (Some kc) buffer tmp_buf = Ret (SNMPERR_SUCCESS, newkey).
Proof.
  intros Hrand Halloc Hh Hold Hbuf Hroom. unfold encode_keychange, decode_keychange.
  pose proof (hash_function_cases t h Hh) as [_ Hsc].
  destruct (hash_function_length t h [] Hh) as [Eproper Hlen]. specialize (Hold []) as Hold0.
  destruct (Z.leb_spec (len oldkey) 0); [done|]. destruct (Z.leb_spec (len newkey) 0); [done|].
  destruct (Z.leb_spec room 0); [lia|]. cbn [orb].
  destruct (negb (len t =? USM_LENGTH_OID_TRANSFORM)); [done|]. rewrite Eproper, !bind_ret.
  replace (len (h []) =? SNMPERR_GENERR) with false by (symmetry; apply Z.eqb_neq; unfold SNMPERR_GENERR; lia).
  destruct (Z.eqb_spec (len oldkey) (len newkey)) as [En|]; [|done]. cbn [negb orb].
  destruct (room <? 2 * len oldkey); [done|].
  rewrite Z.min_l by lia. rewrite !(Halloc (len oldkey * 2)) by lia. cbn [negb].
  assert (Htake : take (Z.to_nat (len oldkey)) oldkey = oldkey) by (apply take_ge; unfold len; lia).
  assert (Htake' : take (Z.to_nat (len oldkey)) newkey = newkey) by (apply take_ge; unfold len in *; lia).
  rewrite Htake, Htake'. pose proof (Hrand (len oldkey) ltac:(lia)) as Hr. set (random := RAND_bytes (len oldkey)) in *.
  assert (Hne : oldkey ++ random <> []) by (intros E; apply (f_equal length) in E; rewrite length_app in E; cbn in E; unfold len in *; lia).
  pose proof (fun m => proj2 (hash_function_length t h m Hh)) as Hlm.
  rewrite Hsc by (done || (specialize (Hlm (oldkey ++ random)); lia)). rewrite bind_ret. cbn [negb Z.eqb SNMPERR_SUCCESS]. intros [= <-].
  specialize (Hold (oldkey ++ random)). set (hash := h (oldkey ++ random)) in *.
  assert (Hlh : length (take (Z.to_nat (len oldkey)) hash) = length oldkey)
    by (rewrite length_take_le; unfold len in *; lia).
  assert (Hln : length newkey = length oldkey) by (unfold len in *; lia).
  assert (Hlr : length random = length oldkey) by (unfold len in *; lia).
  assert (Hkc : len (random ++ xor_bytes (take (Z.to_nat (len oldkey)) hash) newkey) = 2 * len oldkey).
  { unfold len at 1. rewrite length_app, xor_bytes_length by (etransitivity; [exact Hlh|done]). rewrite Hlh, Hlr. unfold len. lia. }
  rewrite Hkc. destruct (Z.leb_spec (2 * len oldkey) 0); [lia|]. destruct (Z.leb_spec (len buffer) 0); [lia|]. cbn [orb].
  rewrite Z.eqb_refl. destruct (Z.ltb_spec (len buffer) (len oldkey)); [lia|]. cbn [negb orb].
  rewrite take_app_length', drop_app_length' by done. rewrite Hsc by (done || (unfold SNMP_MAXBUF; specialize (Hlm (oldkey ++ random)); lia)). rewrite bind_ret. cbn [negb Z.eqb SNMPERR_SUCCESS].
  fold hash. destruct (Z.ltb_spec SNMP_MAXBUF (len oldkey)); [unfold SNMP_MAXBUF in *; lia|]. do 2 f_equal.
  replace (take (length oldkey) (hash ++ tmp_buf)) with (take (Z.to_nat (len oldkey)) hash)
    by (rewrite take_app_le by (unfold len in *; lia); unfold len; by rewrite Nat2Z.id).
  apply xor_bytes_involutive. etransitivity; [exact Hlh|done].
Qed.
End hashes.

(** A phrase of eight bytes, with MD5. *)
Lemma Ku_exact_witness :
  generate_Ku (H := sample_steady) (Some usmHMACMD5AuthProtocol) (Some [112; 97; 115; 115; 119; 111; 114; 100]) 32
  = Ret (SNMPERR_SUCCESS,
         EVP_md5 (Platform := sample_steady)
           (repeated [112; 97; 115; 115; 119; 111; 114; 100] 0 (Z.to_nat USM_LENGTH_EXPANDED_PASSPHRASE))).
Proof. apply (Ku_exact (H := sample_steady)); [reflexivity|reflexivity|lia|by cbn]. Defined.

Definition sample_old_key : list Z := repeat 5 16.
Definition sample_new_key : list Z := repeat 9 16.
Definition sample_random (n : Z) : list Z := replicate (Z.to_nat n) 7.

Lemma keychange_roundtrip_witness : exists kc,
  encode_keychange (H := sample_steady) sample_random (Some usmHMACMD5AuthProtocol) (Some sample_old_key)
    (Some sample_new_key) 64 = Ret (SNMPERR_SUCCESS, kc)
  /\ decode_keychange (H := sample_steady) (Some usmHMACMD5AuthProtocol) (Some sample_old_key) (Some kc)
       (repeat 0 16) [] = Ret (SNMPERR_SUCCESS, sample_new_key).
Proof.
  eexists. split; [reflexivity|].
  eapply (keychange_roundtrip (H := sample_steady) sample_random) with (room := 64) (h := fun m => EVP_md5 (Platform := sample_steady) m).
  - intros n Hn. unfold sample_random, len. rewrite length_replicate. lia.
  - intros n Hn. apply Z.ltb_lt. lia.
  - reflexivity.
  - intros m. unfold len. rewrite EVP_md5_length. by cbn.
  - by cbn.
  - lia.
  - reflexivity.
Defined.
