(* ===== verification/CString.v ===== *)
(** * Strings of the C library

    A string is the list of its characters, none of them NUL, as unsigned
    numbers; a pointer into a string is the rest from there on, and a pointer
    that may be NULL an option.  The locale is "C".  These are the routines of
    the C library that snmplib uses on strings, with lemmas on printing and
    scanning. *)

From S2P Require Import Prelude Int64 Int64Spec.

Abbreviation str := (list Z).

Definition isspace (c : Z) : bool := (9 <=? c) && (c <=? 13) || (c =? 32).
Definition islower (c : Z) : bool := (97 <=? c) && (c <=? 122).
Definition isupper (c : Z) : bool := (65 <=? c) && (c <=? 90).
Definition isalpha (c : Z) : bool := islower c || isupper c.

(** The value of a digit in the bases up to 36. *)
Definition digit_value (c : Z) : option Z :=
  if isdigit c then Some (c - 48)
  else if islower c then Some (c - 87)
  else if isupper c then Some (c - 55)
  else None.

Definition hex_value (c : Z) : option Z :=
  match digit_value c with Some v => if v <? 16 then Some v else None | None => None end.

Definition isxdigit (c : Z) : bool := bool_decide (is_Some (hex_value c)).

Fixpoint skip_space (s : str) : str :=
  match s with
  | c :: s' => if isspace c then skip_space s' else s
  | [] => []
  end.

(** The characters up to the first [stop], and the rest. *)
Fixpoint split_at (stop : Z -> bool) (s : str) : str * str :=
  match s with
  | c :: s' => if stop c then ([], s) else let '(a, b) := split_at stop s' in (c :: a, b)
  | [] => ([], [])
  end.

(** [strncmp(s, prefix, strlen(prefix)) == 0] *)
Fixpoint starts_with (prefix s : str) : bool :=
  match prefix, s with
  | [], _ => true
  | p :: prefix, c :: s => (p =? c) && starts_with prefix s
  | _ :: _, [] => false
  end.

(** ** Numbers *)

(** The digits of the base in front, their number, and the rest. *)
Fixpoint scan_digits (base : Z) (s : str) (v : Z) (n : nat) : Z * nat * str :=
  match s with
  | c :: s' =>
      match digit_value c with
      | Some d => if d <? base then scan_digits base s' (v * base + d) (S n) else (v, n, s)
      | None => (v, n, s)
      end
  | [] => (v, n, [])
  end.

Definition sign_of (s : str) : bool * str :=
  match s with
  | 45 :: s => (true, s)
  | 43 :: s => (false, s)
  | _ => (false, s)
  end.

(** The base of a number without one, and its digits. *)
Definition base_of (s : str) : Z * str :=
  match s with
  | 48 :: x :: ((d :: _) as s') =>
      if ((x =? 120) || (x =? 88)) && isxdigit d then (16, s') else (8, s)
  | 48 :: _ => (8, s)
  | _ => (10, s)
  end.

(** The value of [strtoul(s, &end, 0)] and [end]. *)
Definition strtoul (s : str) : Z * str :=
  let '(neg, s1) := sign_of (skip_space s) in
  let '(base, s1) := base_of s1 in
  let '(v, n, rest) := scan_digits base s1 0 0 in
  match n with
  | O => (0, s)
  | S _ => (if 2 ^ 64 <=? v then 2 ^ 64 - 1 else if (neg : bool) then u64 (- v) else v, rest)
  end.

(** [(int) strtol(s, NULL, 10)] *)
Definition atoi (s : str) : Z :=
  let '(neg, s1) := sign_of (skip_space s) in
  let '(v, _, _) := scan_digits 10 s1 0 0 in
  let v := if (neg : bool) then Z.max (- v) (- 2 ^ 63) else Z.min v (2 ^ 63 - 1) in
  s32 v.

(** The decimal digits of a number that is not negative, of which there are
    at most [fuel]. *)
Fixpoint print_digits (fuel : nat) (v : Z) (acc : str) : str :=
  match fuel with
  | O => acc
  | S fuel => let acc := digit (v mod 10) :: acc in if v / 10 =? 0 then acc else print_digits fuel (v / 10) acc
  end.

(** "%u" and "%d", for 64 bits and less. *)
Definition print_u (v : Z) : str := print_digits 20 v [].
Definition print_d (v : Z) : str := if v <? 0 then 45 :: print_u (- v) else print_u v.

Definition hex_digit (v : Z) : Z := if v <? 10 then 48 + v else 87 + v.

(** "%02x" of a byte. *)
Definition print_hex2 (b : Z) : str := [hex_digit (b / 16); hex_digit (b mod 16)].

(** [sscanf] with "%2x" on two characters that are no white space: the
    number, when there is one. *)
Definition scan_hex2 (c1 c2 : Z) : option Z :=
  match hex_value c1 with
  | Some a =>
      if (c1 =? 48) && ((c2 =? 120) || (c2 =? 88)) then None
      else match hex_value c2 with Some b => Some (16 * a + b) | None => Some a end
  | None =>
      if c1 =? 45 then (fun b => u32 (- b)) <$> hex_value c2
      else if c1 =? 43 then hex_value c2
      else None
  end.

(** ** Lemmas *)

(** What may follow a token in a line. *)
Definition ends_token (s : str) : Prop := match s with [] => True | c :: _ => isspace c = true end.

Lemma print_digits_spec k : forall v acc, 0 <= v < 10 ^ Z.of_nat (S k) ->
  exists ds, print_digits (S k) v acc = ds ++ acc /\ numeral v ds /\ (length ds <= S k)%nat.
Proof.
  induction k as [|k IH]; intros v acc Hv.
  all: pose proof (Z.mod_pos_bound v 10 ltac:(lia)) as Hmod.
  all: pose proof (Z.div_mod v 10 ltac:(lia)) as Hdm.
  all: cbn [print_digits]; destruct (Z.eqb_spec (v / 10) 0) as [E|E];
    [rewrite E, Z.mul_0_r, Z.add_0_l in Hdm; rewrite <- Hdm in *;
     exists [digit v]; split; [done|]; split; [by apply numeral_digit|cbn; lia]|].
  - cbn in Hv. assert (v / 10 = 0) by (apply Z.div_small; lia). lia.
  - assert (0 <= v / 10) by (apply Z.div_pos; lia).
    destruct (IH (v / 10) (digit (v mod 10) :: acc)) as (ds & E2 & Hds & Hlen).
    { split; [lia|]. apply Z.div_lt_upper_bound; [lia|].
      rewrite Nat2Z.inj_succ, Z.pow_succ_r in Hv by lia. lia. }
    cbn [print_digits] in E2. rewrite E2.
    exists (ds ++ [digit (v mod 10)]). rewrite <- app_assoc. split; [done|]. split.
    + rewrite Hdm at 1. rewrite (Z.mul_comm 10). apply numeral_snoc; [done|lia|done].
    + rewrite length_app. cbn. lia.
Qed.

Lemma print_u_spec v : is_u64 v -> numeral v (print_u v) /\ (length (print_u v) <= 20)%nat.
Proof.
  intros Hv. destruct (print_digits_spec 19 v []) as (ds & E & Hn & Hl).
  - unfold is_u64 in Hv. split; [lia|]. apply Z.lt_trans with (2 ^ 64); [lia|by vm_compute].
  - unfold print_u. by rewrite E, app_nil_r.
Qed.

Lemma isspace_not_digit c : isspace c = true -> digit_value c = None.
Proof.
  unfold isspace, digit_value, isdigit, islower, isupper. intros H.
  destruct (Z.leb_spec 48 c), (Z.leb_spec 97 c), (Z.leb_spec 65 c); cbn; try done; lia.
Qed.

Lemma scan_digits_spec ds rest : Forall (fun c => isdigit c = true) ds ->
  match rest with [] => True | c :: _ => digit_value c = None end ->
  forall v n, scan_digits 10 (ds ++ rest) v n
              = (foldl (fun v c => v * 10 + (c - 48)) v ds, (length ds + n)%nat, rest).
Proof.
  intros Hds Hrest. induction Hds as [|c ds Hc _ IH]; intros v n.
  - destruct rest as [|c rest]; [done|]. cbn. by rewrite Hrest.
  - cbn [app scan_digits foldl]. unfold digit_value. rewrite Hc. apply isdigit_spec in Hc.
    destruct (Z.ltb_spec (c - 48) 10); [|lia]. rewrite IH. cbn [length]. by rewrite Nat.add_succ_r.
Qed.

Lemma skip_space_digit c s : isdigit c = true -> skip_space (c :: s) = c :: s.
Proof.
  intros Hc%isdigit_spec. cbn [skip_space]. replace (isspace c) with false; [done|]. unfold isspace.
  destruct (Z.leb_spec c 13), (Z.eqb_spec c 32); lia.
Qed.

Lemma sign_of_digit c s : isdigit c = true -> sign_of (c :: s) = (false, c :: s).
Proof.
  intros Hc%isdigit_spec. unfold sign_of. destruct c as [|p|p]; [done| |done].
  assert (Z.pos p <> 45 /\ Z.pos p <> 43) by lia.
  repeat (destruct p as [p|p|]; try done; try lia).
Qed.

Lemma numeral_cons v ds : numeral v ds -> exists c ds', ds = c :: ds' /\ isdigit c = true.
Proof. intros (Hds & _ & _ & Hne). destruct ds as [|c ds']; [done|]. inversion Hds. eauto. Qed.

Lemma base_of_numeral v ds rest : numeral v ds -> match rest with [] => True | c :: _ => digit_value c = None end ->
  (base_of (ds ++ rest) = (10, ds ++ rest) \/ ds = [48] /\ base_of (ds ++ rest) = (8, ds ++ rest)).
Proof.
  intros Hn Hrest. destruct Hn as (Hds & _ & Hh & Hne). destruct Hh as [->|Hh].
  - right. split; [done|]. cbn. destruct rest as [|x [|d rest]]; try done.
    destruct (Z.eqb_spec x 120) as [->|]; [done|]. destruct (Z.eqb_spec x 88) as [->|]; [done|]. done.
  - left. destruct ds as [|c ds]; [done|]. cbn [app]. assert (Hc : c <> 48) by (intros ->; by apply Hh).
    unfold base_of. destruct c as [|p|p]; [done| |done]. repeat (destruct p as [p|p|]; try done; try lia).
Qed.

Lemma strtoul_numeral v ds rest : is_u64 v -> numeral v ds ->
  match rest with [] => True | c :: _ => digit_value c = None end -> strtoul (ds ++ rest) = (v, rest).
Proof.
  intros Hv Hn Hrest. destruct (numeral_cons v ds Hn) as (c & ds' & E & Hc).
  unfold strtoul. rewrite E. cbn [app]. rewrite skip_space_digit, sign_of_digit by done. rewrite app_comm_cons, <- E.
  destruct (base_of_numeral v ds rest Hn Hrest) as [->|[E48 ->]].
  - destruct Hn as (Hds & Hval & _ & _). rewrite scan_digits_spec by done. fold (decimal ds). rewrite Hval.
    rewrite E. cbn [length Nat.add]. destruct (Z.leb_spec (2 ^ 64) v); [unfold is_u64 in Hv; lia|done].
  - destruct Hn as (_ & Hval & _ & _). rewrite E48 in *. cbn in Hval. subst v. cbn [app scan_digits].
    change (digit_value 48) with (Some 0). cbn. destruct rest as [|x rest]; [done|]. cbn. by rewrite Hrest.
Qed.

Lemma atoi_numeral v ds rest : 0 <= v < 2 ^ 63 -> numeral v ds ->
  match rest with [] => True | c :: _ => digit_value c = None end ->
  atoi (ds ++ rest) = s32 v /\ atoi (45 :: ds ++ rest) = s32 (- v).
Proof.
  intros Hv Hn Hrest. destruct (numeral_cons v ds Hn) as (c & ds' & E & Hc).
  destruct Hn as (Hds & Hval & _ & _). unfold atoi. split.
  - rewrite E. cbn [app]. rewrite skip_space_digit, sign_of_digit by done. rewrite app_comm_cons, <- E.
    rewrite scan_digits_spec by done. fold (decimal ds). rewrite Hval, Z.min_l by lia. done.
  - change (skip_space (45 :: ds ++ rest)) with (45 :: ds ++ rest). cbn [sign_of].
    rewrite scan_digits_spec by done. fold (decimal ds). rewrite Hval, Z.max_l by lia. done.
Qed.

Lemma ends_token_no_digit s : ends_token s -> match s with [] => True | c :: _ => digit_value c = None end.
Proof. destruct s as [|c s]; [done|]. apply isspace_not_digit. Qed.

Lemma atoi_print_d v rest : is_s32 v -> ends_token rest -> atoi (print_d v ++ rest) = v.
Proof.
  intros Hv Hrest%ends_token_no_digit. unfold print_d. destruct (Z.ltb_spec v 0).
  - destruct (print_u_spec (- v) ltac:(cint)) as [Hn _].
    destruct (atoi_numeral (- v) _ rest ltac:(cint) Hn Hrest) as [_ E]. cbn [app]. rewrite E, Z.opp_involutive. by apply s32_id.
  - destruct (print_u_spec v ltac:(cint)) as [Hn _].
    destruct (atoi_numeral v _ rest ltac:(cint) Hn Hrest) as [-> _]. by apply s32_id.
Qed.

Lemma hex_digit_value v : 0 <= v < 16 -> hex_value (hex_digit v) = Some v.
Proof.
  intros Hv. unfold hex_value, digit_value, hex_digit, isdigit, islower, isupper.
  destruct (Z.ltb_spec v 10).
  - replace ((48 <=? 48 + v) && (48 + v <=? 57)) with true by lia. replace (48 + v - 48) with v by lia.
    by replace (v <? 16) with true by lia.
  - replace ((48 <=? 87 + v) && (87 + v <=? 57)) with false by lia.
    replace ((97 <=? 87 + v) && (87 + v <=? 122)) with true by lia. replace (87 + v - 87) with v by lia.
    by replace (v <? 16) with true by lia.
Qed.

Lemma scan_print_hex2 b : is_u8 b -> scan_hex2 (hex_digit (b / 16)) (hex_digit (b mod 16)) = Some b.
Proof.
  intros Hb. unfold is_u8 in Hb. assert (0 <= b / 16 < 16) by (split; [apply Z.div_pos|apply Z.div_lt_upper_bound]; lia).
  pose proof (Z.mod_pos_bound b 16 ltac:(lia)). unfold scan_hex2. rewrite !hex_digit_value by lia.
  replace ((hex_digit (b mod 16) =? 120) || (hex_digit (b mod 16) =? 88)) with false
    by (unfold hex_digit; destruct (Z.ltb_spec (b mod 16) 10); lia).
  rewrite andb_false_r. f_equal. pose proof (Z.div_mod b 16). lia.
Qed.

Lemma hex_digit_range v : 0 <= v < 16 -> 48 <= hex_digit v <= 102.
Proof. unfold hex_digit. destruct (Z.ltb_spec v 10); lia. Qed.
