(* ===== verification/ReadConfig.v ===== *)
(** * Values in configuration lines: snmplib/read_config.c

    Tokens, octet strings, object identifiers and numbers as they are written
    to a line of a configuration file and read from it; with the reading of
    hexadecimal strings of snmplib/tools.c and of object identifiers of
    snmplib/mib.c, the latter as it is without MIBs
    ([NETSNMP_DISABLE_MIB_LOADING]).  Strings are those of CString; what a
    routine appends to a buffer is a result. *)

From S2P Require Import Prelude Bytes AsnTypes AsnBuild AsnRbuild Oid Lcd VarOp Int64 Client CString.

Definition SPRINT_MAX_LEN : Z := 2560.
Definition SNMP_MAXBUF_MEDIUM : Z := 1024.

(** ** Tokens *)

(** At the end of the line, or a comment, is NULL. *)
Definition at_word (s : str) : option str :=
  match s with
  | [] => None
  | c :: _ => if c =? 35 then None else Some s
  end.

Definition skip_white (ptr : option str) : option str :=
  match ptr with Some s => at_word (skip_space s) | None => None end.

Definition skip_not_white (ptr : option str) : option str :=
  match ptr with Some s => at_word (split_at isspace s).2 | None => None end.

Definition skip_token (ptr : option str) : option str := skip_white (skip_not_white (skip_white ptr)).

(** One character more in the buffer [to], which has room for [n] more; the
    last place is for the NUL. *)
Definition put (c : Z) (to : str) (n : Z) : str * Z :=
  if 0 <? n then (if n - 1 =? 0 then to else to ++ [c], n - 1) else (to, n).

(** The loops of [copy_nword]: up to [stop]; a backslash takes the next
    character as it is. *)
Fixpoint copy_chars (stop : Z -> bool) (from to : str) (n : Z) : str * str :=
  match from with
  | [] => (to, [])
  | c :: rest =>
      if stop c then (to, from)
      else
        match rest with
        | c' :: rest' =>
            if c =? 92 then let '(to, n) := put c' to n in copy_chars stop rest' to n
            else let '(to, n) := put c to n in copy_chars stop rest to n
        | [] => let '(to, n) := put c to n in (to, [])
        end
  end.

(** What [to], a buffer of [n] bytes, has then, [None] for as before, and the
    next token. *)
Definition copy_nword (from : option str) (n : Z) : option str * option str :=
  match from with
  | None => (None, None)
  | Some from =>
      let '(to, rest) :=
        match from with
        | c :: from' =>
            if (c =? 34) || (c =? 39) then
              let '(to, rest) := copy_chars (Z.eqb c) from' [] n in
              (to, match rest with [] => [] | _ :: rest => rest end)
            else copy_chars isspace from [] n
        | [] => ([], [])
        end in
      (if 0 <? n then Some to else None, skip_white (Some rest))
  end.

(** ** Octet strings *)

Definition printable (c : Z) : bool := isalpha c || isdigit c || (c =? 32).

Definition read_config_save_octet_string (s : option (list Z)) : str :=
  match s with
  | None => [34; 34]
  | Some s =>
      if negb (len s =? 0) && forallb printable s then 34 :: s ++ [34]
      else 48 :: 120 :: concat (print_hex2 <$> s)
  end.

(** What a reading routine does to the pointer and the length it is given.
    The pointer returned is NULL in the first two cases; in the second the
    buffer has bytes nobody knows, and the length is as it was; in the third
    the length is 0 and the buffer as it was. *)
Inductive reading : Type :=
  | Unread
  | Broken
  | Small (next : option str)
  | Taken (l : list Z) (next : option str).

(** [ilen] bytes from twice as many characters. *)
Fixpoint hex_bytes (s : str) : option (list Z) :=
  match s with
  | c1 :: c2 :: s => b ← scan_hex2 c1 c2; l ← hex_bytes s; Some (u8 b :: l)
  | _ => Some []
  end.

Section reading.
Context `{Allocator}.

(** [room] is [*len] when [*str] is not NULL.  A string there is no memory
    for is outside the model. *)
Definition read_config_read_octet_string (readfrom : option str) (room : option Z) : outcome reading :=
  match readfrom with
  | None => Ret Unread
  | Some s =>
      if starts_with [48; 120] s || starts_with [48; 88] s then
        let '(word, rest) := split_at isspace (drop 2 s) in
        let ilen := len word / 2 in
        if negb (len word mod 2 =? 0) then Ret Unread
        else
          match room with
          | None => if negb (alloc (ilen + 1)) then Ret Unread
                    else Ret (match hex_bytes word with
                              | Some l => Taken l (skip_white (Some rest))
                              | None => Broken
                              end)
          | Some n => if n <=? ilen then Ret (Small (skip_white (at_word rest)))
                      else Ret (match hex_bytes word with
                                | Some l => Taken l (skip_white (Some rest))
                                | None => Broken
                                end)
          end
      else
        match room with
        | None =>
            let '(word, next) := copy_nword (Some s) SNMP_MAXBUF in
            let l := default [] word in
            if negb (alloc (len l + 1)) then Null else Ret (Taken l next)
        | Some n =>
            let '(word, next) := copy_nword (Some s) n in
            Ret (match word with Some l => Taken l next | None => Small next end)
        end
  end.

(** ** Hexadecimal strings *)

(** The result, [true] for 1, and the bytes of the buffer, which has [room] for
    them; [grow] tells whether it may grow, which it does while there is
    memory. *)
Fixpoint hex_loop (cp : str) (room : Z) (grow : bool) (acc : list Z) : bool * list Z :=
  match cp with
  | [] => (true, acc)
  | c1 :: rest =>
      match rest with
      | c2 :: rest' =>
          if isxdigit c1 && isxdigit c2 then
            match scan_hex2 c1 c2 with
            | None => (false, acc)
            | Some b =>
                let room' := if (room <=? len acc) && (grow && alloc (snmp_realloc_size room))
                             then snmp_realloc_size room else room in
                if room' <=? len acc then (false, acc) else hex_loop rest' room' grow (acc ++ [u8 b])
            end
          else if c1 =? 32 then hex_loop rest room grow acc
          else (false, acc)
      | [] => if c1 =? 32 then (true, acc) else (false, acc)
      end
  end.

Definition snmp_hex_to_binary (room : Z) (grow : bool) (hex : str) : bool * list Z :=
  let hex := if starts_with [48; 120] hex || starts_with [48; 88] hex then drop 2 hex else hex in
  hex_loop hex room grow [].

(** ** Object identifiers *)

Definition read_config_save_objid (objid : list Z) : str :=
  match objid with
  | [] => [78; 85; 76; 76]
  | _ => concat ((fun subid => 46 :: print_d (s64 subid)) <$> objid)
  end.

(** A [char] as an [oid]. *)
Definition oid_of_char (c : Z) : Z := u64 (if c <? 128 then c else c - 256).

(** The characters up to the closing quote; [None] when there is no room. *)
Fixpoint quoted_subids (quote : Z) (cp : str) (objid : list Z) (maxlen : Z) : option (list Z * str) :=
  match cp with
  | [] => Some (objid, [])
  | c :: rest =>
      if c =? quote then Some (objid, cp)
      else if maxlen <=? len objid then None
      else quoted_subids quote rest (objid ++ [oid_of_char c]) maxlen
  end.

(** The last loop of [_add_strings_to_oid]; [None] is its 0. *)
Fixpoint _add_strings_to_oid (fuel : nat) (cp : option str) (objid : list Z) (maxlen : Z) : outcome (option (list Z)) :=
  match fuel with
  | O => Spin
  | S fuel =>
      match cp with
      | None => Ret (Some objid)
      | Some cp =>
          match cp with
          | [] => Ret None
          | c :: cp' =>
              if isdigit c then
                let '(piece, rest) := split_at (Z.eqb 46) cp in
                let cp2 := match rest with [] => None | _ :: rest => Some rest end in
                let '(subid, ecp) := strtoul piece in
                if negb (bool_decide (ecp = [])) || (maxlen <=? len objid) then Ret None
                else _add_strings_to_oid fuel cp2 (objid ++ [subid]) maxlen
              else if (c =? 34) || (c =? 39) then
                if (c =? 34) && (maxlen <=? len objid) then Ret None
                else if (c =? 34) && bool_decide ((split_at (Z.eqb 34) cp').2 = []) then Null
                else
                  let objid := if c =? 34 then objid ++ [len (split_at (Z.eqb 34) cp').1] else objid in
                  match quoted_subids c cp' objid maxlen with
                  | None => Ret None
                  | Some (_, []) => Overrun
                  | Some (objid, _ :: []) => _add_strings_to_oid fuel None objid maxlen
                  | Some (objid, _ :: c2 :: cp2) =>
                      if c2 =? 46 then _add_strings_to_oid fuel (Some cp2) objid maxlen else Ret None
                  end
              else Ret None
          end
      end
  end.

(** The identifier; every turn of the loop takes a character. *)
Definition read_objid (input : str) (out_len : Z) : outcome (option (list Z)) :=
  let input := match input with 46 :: input => input | _ => input end in
  if negb (alloc (len input + 1)) then Null
  else _add_strings_to_oid (S (S (length input))) (Some input) [] (s32 out_len).

(** [room] is [*len] when [*objid] is not NULL. *)
Definition read_config_read_objid (readfrom : option str) (room : option Z) : outcome reading :=
  match readfrom with
  | None => Ret Unread
  | Some s =>
      if bool_decide (room = None) && negb (alloc (MAX_OID_LEN * sizeof_oid)) then Ret Unread
      else if starts_with [78; 85; 76; 76] s then Ret (Taken [] (skip_token (Some s)))
      else
        let '(buf, _) := copy_nword (Some s) SPRINT_MAX_LEN in
        r ← read_objid (default [] buf) (default MAX_OID_LEN room);
        Ret (match r with
             | None => Taken [] None
             | Some l => Taken l (skip_token (Some s))
             end)
  end.

(** ** Values by their type *)

(** A value: an [int], an unsigned [int], an octet string, an identifier. *)
Inductive value : Type :=
  | Int (v : Z)
  | Unsigned (v : Z)
  | Octets (s : option (list Z))
  | Objid (l : list Z).

(** The text without the prefix; IP addresses are left out. *)
Definition read_config_store_data_prefix (prefix : Z) (t : Z) (v : value) : option str :=
  match v with
  | Int v => if t =? ASN_INTEGER then Some (prefix :: print_d v) else None
  | Unsigned v => if (t =? ASN_TIMETICKS) || (t =? ASN_GAUGE) then Some (prefix :: print_u v) else None
  | Octets s => if (t =? ASN_OCTET_STR) || (t =? ASN_BIT_STR)
                then Some (prefix :: read_config_save_octet_string s) else None
  | Objid l => if t =? ASN_OBJECT_ID then Some (prefix :: read_config_save_objid l) else None
  end.

Definition read_config_store_data : Z -> value -> option str := read_config_store_data_prefix 32.

(** The value that was read, [None] for what was there before, and the next
    token. *)
Definition read_config_read_data (t : Z) (readfrom : option str) (room : option Z)
    : outcome (option value * option str) :=
  match readfrom with
  | None => Ret (None, None)
  | Some s =>
      if t =? ASN_INTEGER then Ret (Some (Int (atoi s)), skip_token readfrom)
      else if (t =? ASN_TIMETICKS) || (t =? ASN_GAUGE) then
        Ret (Some (Unsigned (u32 (strtoul s).1)), skip_token readfrom)
      else if (t =? ASN_OCTET_STR) || (t =? ASN_BIT_STR) then
        r ← read_config_read_octet_string readfrom room;
        Ret (match r with
             | Taken l next => (Some (Octets (Some l)), next)
             | Small next => (Some (Octets (Some [])), next)
             | Unread | Broken => (None, None)
             end)
      else if t =? ASN_OBJECT_ID then
        r ← read_config_read_objid readfrom room;
        Ret (match r with
             | Taken l next => (Some (Objid l), next)
             | Small next => (Some (Objid []), next)
             | Unread | Broken => (None, None)
             end)
      else Ret (None, None)
  end.
End reading.
