(* ===== verification/ReadConfigProps.v ===== *)
(** * Properties of values in configuration lines *)

From S2P Require Import Prelude Bytes AsnTypes AsnBuild AsnRbuild Oid Lcd VarOp Int64 Int64Spec Client CString ReadConfig Samples.

(** ** Tokens *)

(** Characters that neither end a token nor are taken for something else. *)
Definition plain_char (stop : Z -> bool) (c : Z) : Prop := stop c = false /\ c <> 92.

Lemma put_room c to n : 1 < n -> put c to n = (to ++ [c], n - 1).
Proof.
  intros Hn. unfold put. destruct (Z.ltb_spec 0 n); [|lia]. by destruct (Z.eqb_spec (n - 1) 0); [lia|].
Qed.

Lemma copy_chars_plain stop l rest : Forall (plain_char stop) l ->
  match rest with [] => True | q :: _ => stop q = true end ->
  forall to n, len l < n -> copy_chars stop (l ++ rest) to n = (to ++ l, rest).
Proof.
  intros Hl Hrest. induction Hl as [|c l [Hc Hb] Hl IH]; intros to n Hn.
  - rewrite app_nil_r. destruct rest as [|q rest]; [done|]. cbn. by rewrite Hrest.
  - assert (H1 : 1 < n) by (unfold len in Hn; cbn in Hn; lia).
    assert (Hn' : len l < n - 1) by (unfold len in *; cbn in Hn; lia).
    specialize (IH (to ++ [c]) (n - 1) Hn'). rewrite <- app_assoc in IH. cbn [app] in IH.
    cbn [app copy_chars]. rewrite Hc, put_room by done. destruct (l ++ rest) as [|c' rest'] eqn:E.
    + apply app_eq_nil in E as [-> ->]. done.
    + destruct (Z.eqb_spec c 92); [done|]. exact IH.
Qed.

Lemma split_at_plain stop l rest : Forall (fun c => stop c = false) l ->
  match rest with [] => True | q :: _ => stop q = true end -> split_at stop (l ++ rest) = (l, rest).
Proof.
  intros Hl Hrest. induction Hl as [|c l Hc Hl IH].
  - destruct rest as [|q rest]; [done|]. cbn. by rewrite Hrest.
  - cbn. by rewrite Hc, IH.
Qed.

(** A token that is written: it has no white space and starts with none, nor
    with a comment. *)
Definition starts_word (s : str) : Prop := match s with [] => False | c :: _ => isspace c = false /\ c <> 35 end.

Lemma skip_white_word s : starts_word s -> skip_white (Some s) = Some s.
Proof.
  destruct s as [|c s]; [done|]. intros [Hc H35]. cbn. rewrite Hc. unfold at_word.
  by destruct (Z.eqb_spec c 35).
Qed.

Lemma skip_token_word tok rest : starts_word tok -> Forall (fun c => isspace c = false) tok -> ends_token rest ->
  skip_token (Some (tok ++ rest)) = skip_white (Some rest).
Proof.
  intros Hw Hs Hrest. unfold skip_token. rewrite skip_white_word by (by destruct tok). cbn [skip_not_white].
  rewrite split_at_plain by (done || by destruct rest). destruct rest as [|c rest]; [done|]. cbn [at_word snd].
  cbn in Hrest. destruct (Z.eqb_spec c 35) as [->|]; [done|]. done.
Qed.

(** ** Octet strings *)

Lemma printable_plain c : printable c = true -> plain_char (Z.eqb 34) c.
Proof.
  unfold printable, isalpha, islower, isupper, isdigit, plain_char. intros H.
  destruct (Z.eqb_spec 34 c) as [<-|]; [done|]. split; [done|]. by intros ->.
Qed.

Lemma hex_bytes_print l : bytes_ok l -> hex_bytes (concat (print_hex2 <$> l)) = Some l.
Proof.
  induction 1 as [|b l Hb Hl IH]; [done|]. cbn. rewrite scan_print_hex2 by done. cbn. rewrite IH. cbn.
  by rewrite u8_id.
Qed.

Lemma hex_text_length l : len (concat (print_hex2 <$> l)) = 2 * len l.
Proof. unfold len. induction l as [|b l IH]; [done|]. cbn [fmap list_fmap concat]. rewrite length_app. cbn. lia. Qed.

Lemma hex_digit_no_space v : 0 <= v < 16 -> isspace (hex_digit v) = false.
Proof. intros Hv%hex_digit_range. unfold isspace. destruct (Z.leb_spec (hex_digit v) 13), (Z.eqb_spec (hex_digit v) 32); lia. Qed.

Lemma hex_text_no_space l : bytes_ok l -> Forall (fun c => isspace c = false) (concat (print_hex2 <$> l)).
Proof.
  induction 1 as [|b l Hb Hl IH]; [done|]. cbn. unfold is_u8 in Hb.
  repeat constructor; [apply hex_digit_no_space..|done].
  - split; [apply Z.div_pos|apply Z.div_lt_upper_bound]; lia.
  - apply Z.mod_pos_bound. lia.
Qed.

Section roundtrip.
Context `{Allocator} (room : forall n, n <= 4096 -> alloc n = true).

(** A string that is read into a new buffer. *)
Definition storable (s : list Z) : Prop := bytes_ok s /\ len s < SNMP_MAXBUF.

Lemma octet_string_read s rest (into : option Z) : bytes_ok (default [] s) -> len (default [] s) < SNMP_MAXBUF ->
  len (default [] s) < default SNMP_MAXBUF into -> ends_token rest ->
  read_config_read_octet_string (Some (read_config_save_octet_string s ++ rest)) into
  = Ret (Taken (default [] s) (skip_white (Some rest))).
Proof.
  intros Hb Hmax Hl Hrest. unfold read_config_save_octet_string.
  assert (H0 : 0 <= len (default [] s)) by (unfold len; lia).
  assert (Hpos : (0 <? default SNMP_MAXBUF into) = true) by (apply Z.ltb_lt; lia).
  assert (Hbuf : len (default [] s) + 1 <= 4096) by (unfold SNMP_MAXBUF in Hmax; lia).
  destruct s as [s|]; cbn [default from_option id] in *.
  - destruct (negb (len s =? 0) && forallb printable s) eqn:Ep.
    + apply andb_true_iff in Ep as [_ Hp]. rewrite forallb_forall in Hp. cbn [app]. rewrite <- app_assoc. cbn [app].
      cbn [read_config_read_octet_string starts_with Z.eqb Pos.eqb andb orb copy_nword].
      change ((34 =? 34) || (34 =? 39)) with true.
      destruct into as [n|]; cbn [app default from_option id] in *;
        (rewrite copy_chars_plain with (l := s); [|apply List.Forall_forall; intros c Hc; by apply printable_plain, Hp|done|done]).
      * by rewrite Hpos.
      * change (0 <? SNMP_MAXBUF) with true. cbn [app default from_option id]. rewrite room by lia. done.
    + cbn [app read_config_read_octet_string starts_with]. rewrite Z.eqb_refl. cbn [Z.eqb Pos.eqb andb orb drop].
      rewrite drop_0, split_at_plain by (by apply hex_text_no_space || by destruct rest).
      rewrite hex_text_length, Z.mul_comm, Z.mod_mul, Z.div_mul by lia. cbn [negb Z.eqb].
      destruct into as [n|]; cbn [default from_option id] in *.
      * destruct (Z.leb_spec n (len s)); [lia|]. by rewrite hex_bytes_print.
      * rewrite room by lia. cbn [negb]. by rewrite hex_bytes_print.
  - cbn [app read_config_read_octet_string starts_with Z.eqb Pos.eqb andb orb copy_nword].
    change ((34 =? 34) || (34 =? 39)) with true.
    destruct into as [n|]; cbn in *; [by rewrite Hpos|by rewrite room by done].
Qed.

Lemma octet_string_roundtrip s rest : storable (default [] s) -> ends_token rest ->
  read_config_read_octet_string (Some (read_config_save_octet_string s ++ rest)) None
  = Ret (Taken (default [] s) (skip_white (Some rest))).
Proof. intros [Hb Hl] Hrest. by apply octet_string_read. Qed.

Lemma save_octet_string_word s : starts_word (read_config_save_octet_string s).
Proof.
  unfold read_config_save_octet_string. destruct s as [s|]; [|done]. by destruct (_ && _).
Qed.

(** ** Object identifiers *)

Lemma print_d_digits v : 0 <= v < 2 ^ 63 -> numeral v (print_d v).
Proof. intros Hv. unfold print_d. destruct (Z.ltb_spec v 0); [lia|]. apply print_u_spec. cint. Qed.

Lemma digit_no_dot c : isdigit c = true -> (46 =? c) = false.
Proof. intros Hc%isdigit_spec. apply Z.eqb_neq. lia. Qed.

Lemma digit_no_space c : isdigit c = true -> isspace c = false /\ plain_char isspace c.
Proof.
  intros Hc%isdigit_spec. assert (E : isspace c = false)
    by (unfold isspace; destruct (Z.leb_spec c 13), (Z.eqb_spec c 32); lia).
  repeat split; [done..|lia].
Qed.

Definition dotted (l : list Z) : str := concat ((fun subid => 46 :: print_d (s64 subid)) <$> l).

Lemma add_strings_dotted l : forall x acc fuel, Forall (fun y => 0 <= y < 2 ^ 63) (x :: l) ->
  (length l < fuel)%nat -> len acc + len l < 128 ->
  _add_strings_to_oid (S fuel) (Some (print_d x ++ dotted l)) acc 128 = Ret (Some (acc ++ x :: l)).
Proof.
  induction l as [|y l IH]; intros x acc fuel Hl Hf Hm; inversion_clear Hl as [|? ? Hx Hl'].
  all: pose proof (print_d_digits x Hx) as Hn; destruct (numeral_cons _ _ Hn) as (c & ds & Ec & Hc).
  all: cbn [_add_strings_to_oid]; rewrite Ec; cbn [app]; rewrite Hc, app_comm_cons, <- Ec.
  all: rewrite split_at_plain
    by (done || (eapply Forall_impl; [exact (proj1 Hn)|]; intros; by apply digit_no_dot)).
  all: pose proof (strtoul_numeral x (print_d x) [] ltac:(cint) Hn I) as Es; rewrite app_nil_r in Es; rewrite Es.
  all: rewrite bool_decide_eq_true_2 by done; cbn [negb orb].
  all: destruct (Z.leb_spec 128 (len acc)); [unfold len in *; cbn in *; lia|].
  - destruct fuel as [|fuel]; [cbn in Hf; lia|]. done.
  - cbn [dotted fmap list_fmap concat app] in *. inversion Hl' as [|? ? Hy Hl'']; subst.
    destruct fuel as [|fuel]; [cbn in Hf; lia|].
    replace (s64 y) with y by (symmetry; apply s64_id; cint).
    rewrite IH with (x := y) (acc := acc ++ [x]).
    + by rewrite <- app_assoc.
    + done.
    + cbn in Hf. lia.
    + unfold len in *. rewrite length_app. cbn in *. lia.
Qed.

(** An identifier whose text fits into the buffer of the reader. *)
Definition storable_objid (l : list Z) : Prop :=
  Forall (fun y => 0 <= y < 2 ^ 63) l /\ len l <= MAX_OID_LEN /\ len (dotted l) < SPRINT_MAX_LEN.

Lemma dotted_chars l : Forall (fun y => 0 <= y < 2 ^ 63) l -> Forall (fun c => isdigit c = true \/ c = 46) (dotted l).
Proof.
  induction 1 as [|y l Hy Hl IH]; [done|]. unfold dotted. cbn. constructor; [by right|].
  apply Forall_app. split; [|exact IH]. rewrite s64_id by cint.
  eapply Forall_impl; [exact (proj1 (print_d_digits y Hy))|]. by left.
Qed.

Lemma dotted_plain l : Forall (fun y => 0 <= y < 2 ^ 63) l -> Forall (plain_char isspace) (dotted l).
Proof.
  intros Hl%dotted_chars. eapply Forall_impl; [exact Hl|]. intros c [Hc| ->]; [by apply digit_no_space|done].
Qed.

Lemma plain_no_space l : Forall (plain_char isspace) l -> Forall (fun c => isspace c = false) l.
Proof. intros Hl. eapply Forall_impl; [exact Hl|]. by intros c [? _]. Qed.

Lemma objid_roundtrip l rest : storable_objid l -> ends_token rest ->
  read_config_read_objid (Some (read_config_save_objid l ++ rest)) None
  = Ret (Taken l (skip_white (Some rest))).
Proof.
  intros (Hl & Hlen & Htext) Hrest. unfold read_config_read_objid. rewrite bool_decide_eq_true_2 by done.
  rewrite room by done. cbn [negb andb]. destruct l as [|x l].
  - cbn [read_config_save_objid starts_with app]. rewrite !Z.eqb_refl. cbn [andb].
    change (78 :: 85 :: 76 :: 76 :: rest) with ([78; 85; 76; 76] ++ rest).
    rewrite skip_token_word by (done || by repeat constructor). done.
  - change (read_config_save_objid (x :: l)) with (dotted (x :: l)).
    pose proof (dotted_plain _ Hl) as Hplain.
    assert (Ed : dotted (x :: l) = 46 :: print_d x ++ dotted l).
    { unfold dotted. cbn [fmap list_fmap concat app]. rewrite s64_id; [done|]. inversion Hl. cint. }
    replace (starts_with _ _) with false by (by rewrite Ed).
    assert (Ec : copy_nword (Some (dotted (x :: l) ++ rest)) SPRINT_MAX_LEN = (Some (dotted (x :: l)), skip_white (Some rest))).
    { unfold copy_nword. rewrite Ed. cbn [app]. change ((46 =? 34) || (46 =? 39)) with false. cbn iota.
      rewrite app_comm_cons, <- Ed. rewrite copy_chars_plain by (done || by destruct rest). done. }
    rewrite Ec. cbn [default from_option id]. unfold read_objid, id. rewrite Ed.
    rewrite room by (rewrite Ed in Htext; unfold SPRINT_MAX_LEN, len in *; cbn in Htext; lia). cbn [negb].
    change (s32 MAX_OID_LEN) with 128. rewrite add_strings_dotted with (acc := []); [|done| |].
    + rewrite bind_ret, <- Ed. by rewrite skip_token_word by (done || (by rewrite Ed) || by apply plain_no_space).
    + unfold dotted. rewrite length_app. clear. induction l as [|y l IH]; cbn; [lia|].
      rewrite length_app in *. cbn in *. lia.
    + unfold MAX_OID_LEN, len in *. cbn in *. lia.
Qed.

(** ** Lines *)

(** A value of a type that can be stored; a NULL string comes back as an
    empty one. *)
Definition storable_value (t : Z) (v : value) : Prop :=
  match v with
  | Int v => t = ASN_INTEGER /\ is_s32 v
  | Unsigned v => (t = ASN_TIMETICKS \/ t = ASN_GAUGE) /\ is_u32 v
  | Octets s => (t = ASN_OCTET_STR \/ t = ASN_BIT_STR) /\ storable (default [] s)
  | Objid l => t = ASN_OBJECT_ID /\ storable_objid l
  end.

Definition read_back (v : value) : value :=
  match v with Octets s => Octets (Some (default [] s)) | _ => v end.

Lemma print_u_word v : is_u64 v -> starts_word (print_u v) /\ Forall (fun c => isspace c = false) (print_u v).
Proof.
  intros [Hn _]%print_u_spec. split.
  - destruct (numeral_cons _ _ Hn) as (c & ds & -> & Hc). split; [by apply digit_no_space|]. intros ->. done.
  - eapply Forall_impl; [exact (proj1 Hn)|]. intros c Hc. by apply digit_no_space.
Qed.

Lemma print_d_word v : is_s32 v -> starts_word (print_d v) /\ Forall (fun c => isspace c = false) (print_d v).
Proof.
  intros Hv. unfold print_d. destruct (Z.ltb_spec v 0).
  - destruct (print_u_word (- v) ltac:(cint)) as [_ Hs]. split; [done|by constructor].
  - apply print_u_word. cint.
Qed.

Lemma store_data_roundtrip t v : storable_value t v ->
  exists tok, (forall prefix, read_config_store_data_prefix prefix t v = Some (prefix :: tok)) /\ starts_word tok
  /\ forall rest, ends_token rest ->
     read_config_read_data t (Some (tok ++ rest)) None = Ret (Some (read_back v), skip_white (Some rest)).
Proof.
  destruct v as [v|v|s|l]; cbn [storable_value].
  - intros [-> Hv]. exists (print_d v). destruct (print_d_word v Hv) as [Hw Hs]. split; [done|]. split; [done|].
    intros rest Hrest. unfold read_config_read_data. rewrite Z.eqb_refl. by rewrite atoi_print_d, skip_token_word.
  - intros [Ht Hv]. exists (print_u v). assert (Hv64 : is_u64 v) by cint. destruct (print_u_word v Hv64) as [Hw Hs].
    split; [by destruct Ht as [-> | ->]|]. split; [done|].
    intros rest Hrest. unfold read_config_read_data.
    replace (t =? ASN_INTEGER) with false by (by destruct Ht as [-> | ->]).
    replace ((t =? ASN_TIMETICKS) || (t =? ASN_GAUGE)) with true by (by destruct Ht as [-> | ->]).
    destruct (print_u_spec v Hv64) as [Hn _].
    rewrite (strtoul_numeral v _ rest Hv64 Hn) by (by apply ends_token_no_digit).
    rewrite skip_token_word by done. cbn [fst]. by rewrite u32_id.
  - intros [Ht Hs]. exists (read_config_save_octet_string s). split; [by destruct Ht as [-> | ->]|].
    split; [apply save_octet_string_word|]. intros rest Hrest. unfold read_config_read_data.
    rewrite (octet_string_roundtrip s rest Hs Hrest), !bind_ret. by destruct Ht as [-> | ->].
  - intros [-> Hl]. exists (read_config_save_objid l). split; [done|]. split; [by destruct l|].
    intros rest Hrest. unfold read_config_read_data. by rewrite (objid_roundtrip l rest Hl Hrest).
Qed.

(** Values stored one behind the other, and read one after the other. *)
Fixpoint store_values (l : list (Z * value)) : option str :=
  match l with
  | [] => Some []
  | (t, v) :: l => a ← read_config_store_data t v; b ← store_values l; Some (a ++ b)
  end.

Fixpoint read_values (ts : list Z) (readfrom : option str) : outcome (list (option value) * option str) :=
  match ts with
  | [] => Ret ([], readfrom)
  | t :: ts =>
      '(v, readfrom) ← read_config_read_data t readfrom None;
      '(l, readfrom) ← read_values ts readfrom; Ret (v :: l, readfrom)
  end.

Lemma skip_white_space s : skip_white (Some (32 :: s)) = skip_white (Some s).
Proof. done. Qed.

Lemma store_values_ends l line : store_values l = Some line -> forall rest, ends_token rest -> ends_token (line ++ rest).
Proof.
  destruct l as [|[t v] l]; cbn; [by intros [= <-]|].
  intros (a & Ea & (b & Eb & [= <-])%bind_Some)%bind_Some rest Hrest. unfold read_config_store_data in Ea.
  destruct v; cbn in Ea; repeat case_match; try done; by injection Ea as <-.
Qed.
End roundtrip.

(** Values of the supported types that are stored one behind the other
    are read back, in their order, up to the end of what was stored. *)
Theorem line_roundtrip `{Allocator} l : (forall n, n <= 4096 -> alloc n = true) ->
  Forall (fun tv => storable_value tv.1 tv.2) l ->
  exists line, store_values l = Some line
  /\ forall rest, ends_token rest ->
     read_values (fst <$> l) (skip_white (Some (line ++ rest)))
     = Ret ((fun tv => Some (read_back tv.2)) <$> l, skip_white (Some rest)).
Proof.
  intros room Hl. induction Hl as [|[t v] l Hv Hl (line & El & IH)]; [by exists []|].
  destruct (store_data_roundtrip room t v Hv) as (tok & Etok & Hw & Hread).
  exists (32 :: tok ++ line). cbn [store_values]. unfold read_config_store_data. rewrite Etok, El. split; [done|].
  intros rest Hrest. cbn [app]. rewrite skip_white_space, <- app_assoc, skip_white_word by (by destruct tok).
  cbn [fmap list_fmap read_values fst]. rewrite Hread by (by apply (store_values_ends l line El)).
  by rewrite bind_ret, (IH rest Hrest).
Qed.

(** A number, a key, an identifier and an empty string. *)
Lemma line_roundtrip_witness : exists line,
  store_values [(ASN_INTEGER, Int (-5)); (ASN_OCTET_STR, Octets (Some [0; 255; 32])); (ASN_OBJECT_ID, Objid [1; 3; 6]);
                (ASN_BIT_STR, Octets None)] = Some line
  /\ read_values [ASN_INTEGER; ASN_OCTET_STR; ASN_OBJECT_ID; ASN_BIT_STR] (skip_white (Some (line ++ [])))
     = Ret ([Some (Int (-5)); Some (Octets (Some [0; 255; 32])); Some (Objid [1; 3; 6]); Some (Octets (Some []))], None).
Proof.
  destruct (line_roundtrip [(ASN_INTEGER, Int (-5)); (ASN_OCTET_STR, Octets (Some [0; 255; 32]));
    (ASN_OBJECT_ID, Objid [1; 3; 6]); (ASN_BIT_STR, Octets None)]) as (line & E & Hread).
  - intros n Hn. apply Z.ltb_lt. lia.
  - constructor; [split; [done|by vm_compute]|]. constructor.
    { split; [by left|]. split; [|by vm_compute]. repeat constructor; by vm_compute. }
    constructor. { split; [done|]. split; [repeat constructor; by vm_compute|]. by vm_compute. }
    constructor; [|constructor]. split; [by right|]. split; [constructor|by vm_compute].
  - exists line. split; [exact E|]. by apply (Hread []).
Defined.
