(* ===== verification/UserConfig.v ===== *)
(** * Users from configuration files and from sessions: snmplib/snmpusm.c

    The lines that create users and set their keys, the lines users are saved
    to and read from, and the user a session brings along.  A key that is NULL
    has no length here; [unknown n] is what [malloc] gives. *)

From Stdlib Require Import Strings.String.
From S2P Require Import Prelude Bytes AsnRbuild Oid Vacm Lcd Scapi Users UsmMsg Session Int64 Client CString ReadConfig Keytools.

Definition chars (s : string) : str := (fun c => Z.of_N (Ascii.N_of_ascii c)) <$> list_ascii_of_string s.

Definition USM_AUTH_KU_LEN : Z := 32.
Definition USM_PRIV_KU_LEN : Z := 32.
Definition SNMP_ERR_GENERR : Z := 5.
Definition SNMP_FLAGS_USER_CREATED : Z := 0x200.
Definition WILDCARDSTRING : str := chars "*".

Definition with_u_keys (authKey privKey : option (list Z)) (u : usmUser) : usmUser := {|
  u_engineID := u_engineID u; u_name := u_name u; u_secName := u_secName u; u_authProtocol := u_authProtocol u;
  u_authKey := authKey; u_privProtocol := u_privProtocol u; u_privKey := privKey; u_userStatus := u_userStatus u;
  u_cloneFrom := u_cloneFrom u; u_userPublicString := u_userPublicString u;
  u_userStorageType := u_userStorageType u |}.

Definition with_u_protocols (auth priv : option (list Z)) (u : usmUser) : usmUser := {|
  u_engineID := u_engineID u; u_name := u_name u; u_secName := u_secName u; u_authProtocol := auth;
  u_authKey := u_authKey u; u_privProtocol := priv; u_privKey := u_privKey u; u_userStatus := u_userStatus u;
  u_cloneFrom := u_cloneFrom u; u_userPublicString := u_userPublicString u;
  u_userStorageType := u_userStorageType u |}.

Definition with_u_names (engineID name : option (list Z)) (u : usmUser) : usmUser := {|
  u_engineID := engineID; u_name := name; u_secName := name; u_authProtocol := u_authProtocol u;
  u_authKey := u_authKey u; u_privProtocol := u_privProtocol u; u_privKey := u_privKey u;
  u_userStatus := u_userStatus u; u_cloneFrom := u_cloneFrom u; u_userPublicString := u_userPublicString u;
  u_userStorageType := u_userStorageType u |}.

Definition with_noNameUser (u : option usmUser) (st : usm) : usm :=
  {| clocks := clocks st; userList := userList st; noNameUser := u; salt_integer := salt_integer st;
     salt_integer64_1 := salt_integer64_1 st; salt_integer64_2 := salt_integer64_2 st |}.

(** ** Saving and reading *)

Definition protocol_text (p : option (list Z)) : str := read_config_save_objid (default [] p).

(** The line, without its end; the buffer has 4096 bytes. *)
Definition usm_save_user (user : usmUser) (token : str) : outcome str :=
  let line :=
    token ++ 32 :: print_d (u_userStatus user) ++ 32 :: print_d (u_userStorageType user)
    ++ 32 :: read_config_save_octet_string (u_engineID user)
    ++ 32 :: read_config_save_octet_string (u_name user)
    ++ 32 :: read_config_save_octet_string (u_secName user)
    ++ 32 :: protocol_text (u_cloneFrom user)
    ++ 32 :: protocol_text (u_authProtocol user)
    ++ 32 :: read_config_save_octet_string (u_authKey user)
    ++ 32 :: protocol_text (u_privProtocol user)
    ++ 32 :: read_config_save_octet_string (u_privKey user)
    ++ 32 :: read_config_save_octet_string (u_userPublicString user) in
  if 4096 <=? len line then Overrun else Ret line.

Fixpoint usm_save_users_from_list (puserList : list usmUser) (token : str) : outcome (list str) :=
  match puserList with
  | [] => Ret []
  | uptr :: next =>
      if u_userStorageType uptr =? ST_NONVOLATILE then
        line ← usm_save_user uptr token; l ← usm_save_users_from_list next token; Ret (line :: l)
      else usm_save_users_from_list next token
  end.

Section config.
Context `{Platform, Allocator} (unknown : Z -> list Z).

(** A field that was NULL: the pointer, and the rest of the line. *)
Definition read_octets (line : option str) : outcome (option (list Z) * option str) :=
  r ← read_config_read_octet_string line None;
  Ret (match r with
       | Taken l next => (Some l, next)
       | Small next => (Some [], next)
       | Broken => (Some [], None)
       | Unread => (None, None)
       end).

(** The same for a string, whose length is not looked at: bytes nobody knows
    make it go on for ever. *)
Definition read_string (line : option str) : outcome (option (list Z) * option str) :=
  r ← read_config_read_octet_string line None;
  match r with
  | Taken l next => Ret (Some (c_string l), next)
  | Small next => Ret (Some [], next)
  | Broken => Overrun
  | Unread => Ret (None, None)
  end.

Definition read_protocol (line : option str) : outcome (option (list Z) * option str) :=
  r ← read_config_read_objid line None;
  Ret (match r with
       | Taken l next => (Some l, next)
       | Small next => (Some [], next)
       | Broken | Unread => (None, None)
       end).

Definition read_number (line : option str) : outcome (Z * option str) :=
  match line with Some s => Ret (atoi s, skip_token line) | None => Null end.

(** [None] is the NULL when there is no memory for a user. *)
Definition usm_read_user (line : option str) (s : lcd) : outcome (option usmUser * lcd) :=
  match usm_create_user with
  | None => Ret (None, s)
  | Some _ =>
      '(status, line) ← read_number line;
      '(storage, line) ← read_number line;
      '(engineID, line) ← read_octets line;
      '(_, s) ← set_enginetime s engineID 1 0 false;
      '(name, line) ← read_string line;
      '(secName, line) ← read_string line;
      '(cloneFrom, line) ← read_protocol line;
      '(auth, line) ← read_protocol line;
      '(authKey, line) ← read_octets line;
      '(priv, line) ← read_protocol line;
      '(privKey, line) ← read_octets line;
      des ← is_transform priv usmDESPrivProtocol;
      aes ← is_transform priv usmAESPrivProtocol;
      let expected_privKeyLen := if (des : bool) || (aes : bool) then 16%nat else 0%nat in
      '(public, _) ← read_octets line;
      Ret (Some {| u_engineID := engineID; u_name := name; u_secName := secName; u_authProtocol := auth;
                   u_authKey := authKey; u_privProtocol := priv; u_privKey := take expected_privKeyLen <$> privKey;
                   u_userStatus := status; u_cloneFrom := cloneFrom; u_userPublicString := public;
                   u_userStorageType := storage |}, s)
  end.

Definition usm_parse_config_usmUser (line : option str) (st : usm) : outcome usm :=
  '(uptr, s) ← usm_read_user line (clocks st);
  let st := with_clocks s st in
  match uptr with Some uptr => usm_add_user uptr st | None => Ret st end.

(** ** Setting keys *)

(** The key a token is about, whether it is the one for authentication, and
    the [type]: a pass phrase, a master key, or a localized key. *)
Definition key_token (token : str) : option (bool * Z) :=
  if bool_decide (token = chars "userSetAuthPass") then Some (true, 0)
  else if bool_decide (token = chars "userSetPrivPass") then Some (false, 0)
  else if bool_decide (token = chars "userSetAuthKey") then Some (true, 1)
  else if bool_decide (token = chars "userSetPrivKey") then Some (false, 1)
  else if bool_decide (token = chars "userSetAuthLocalKey") then Some (true, 2)
  else if bool_decide (token = chars "userSetPrivLocalKey") then Some (false, 2)
  else None.

(** The master key, or nothing after an error. *)
Definition master_key (type : Z) (auth : option (list Z)) (cp : option str) : outcome (option (list Z)) :=
  if type =? 0 then
    match cp with
    | None => Ret None
    | Some pass =>
        '(ret, key) ← generate_Ku auth (Some pass) SNMP_MAXBUF_SMALL;
        Ret (if ret =? SNMPERR_SUCCESS then Some key else None)
    end
  else
    r ← read_config_read_octet_string cp (Some SNMP_MAXBUF_SMALL);
    Ret (match r with
         | Taken l (Some _) => Some l
         | Small (Some _) => Some []
         | _ => None
         end).

(** The key, and whether an error was reported. *)
Definition new_key (type : Z) (user : usmUser) (oldlen : Z) (cp : option str) : outcome (option (list Z) * bool) :=
  if type <? 2 then
    Ku ← master_key type (u_authProtocol user) cp;
    match Ku with
    | None => Ret (None, true)
    | Some Ku =>
        if negb (alloc SNMP_MAXBUF_SMALL) then Ret (None, true)
        else
          '(ret, key) ← generate_kul (u_authProtocol user) (u_engineID user) (Some Ku) SNMP_MAXBUF_SMALL;
          Ret (if ret =? SNMPERR_SUCCESS then (Some key, false) else (Some (unknown SNMP_MAXBUF_SMALL), true))
    end
  else
    r ← read_config_read_octet_string cp None;
    Ret (match r with
         | Taken l next => (Some l, bool_decide (next = None))
         | Small next => (Some [], bool_decide (next = None))
         | Broken => (Some (unknown oldlen), true)
         | Unread => (None, true)
         end).

Definition usm_set_user_password (user : usmUser) (token : str) (line : option str) : outcome (usmUser * bool) :=
  match key_token token with
  | None => Ret (user, false)
  | Some (true, type) =>
      '(key, error) ← new_key type user (oid_len (u_authKey user)) line;
      Ret (with_u_keys key (u_privKey user) user, error)
  | Some (false, type) =>
      '(key, error) ← new_key type user (oid_len (u_privKey user)) line;
      Ret (with_u_keys (u_authKey user) key user, error)
  end.

(** All users with that security name. *)
Fixpoint set_passwords (nameBuf token : str) (line : option str) (l : list usmUser) : outcome (list usmUser * bool) :=
  match l with
  | [] => Ret ([], false)
  | user :: next =>
      '(user, e1) ← (if match u_secName user with Some n => strcmp n nameBuf =? 0 | None => false end
                     then usm_set_user_password user token line else Ret (user, false));
      '(next, e2) ← set_passwords nameBuf token line next; Ret (user :: next, e1 || e2)
  end.

(** The user [usm_get_user_from_list] finds in the list, by its place. *)
Fixpoint search_place (engineID : option (list Z)) (name : list Z) (l : list usmUser) : option nat :=
  match l with
  | [] => None
  | ptr :: next =>
      if match u_name ptr with Some n => strcmp n name =? 0 | None => false end
         && same_engine (u_engineID ptr) engineID
      then Some O else S <$> search_place engineID name next
  end.

(** The state, and whether an error was reported. *)
Definition usm_set_password (token line : str) (st : usm) : outcome (usm * bool) :=
  let '(name, cp) := copy_nword (Some line) SNMP_MAXBUF in
  let nameBuf := default [] name in
  match cp with
  | None => Ret (st, true)
  | Some s =>
      if starts_with WILDCARDSTRING s then
        '(l, e) ← set_passwords nameBuf token (skip_token cp) (userList st); Ret (with_users l st, e)
      else
        r ← read_config_read_octet_string cp None;
        match r with
        | Taken engineID (Some cp) =>
            match search_place (Some engineID) nameBuf (userList st) with
            | Some i =>
                match userList st !! i with
                | Some user => '(user, e) ← usm_set_user_password user token (Some cp);
                               Ret (with_users (<[i := user]> (userList st)) st, e)
                | None => Ret (st, true)
                end
            | None =>
                match noNameUser st with
                | Some user => if strcmp nameBuf [] =? 0 then
                                 '(user, e) ← usm_set_user_password user token (Some cp);
                                 Ret (with_noNameUser (Some user) st, e)
                               else Ret (st, true)
                | None => Ret (st, true)
                end
            end
        | _ => Ret (st, true)
        end
  end.
(** ** Creating users *)

(** What [buf] has after [copy_nword], and the rest of the line. *)
Definition next_word (buf : str) (cp : option str) : str * option str :=
  let '(w, cp) := copy_nword cp SNMP_MAXBUF_MEDIUM in (default buf w, cp).

(** The master key by a word, which may be an option: [buf], the rest, and
    the key, which is [old] for a localized key.  [None] is an error. *)
Definition user_key_option (auth : option (list Z)) (old : list Z) (cp : option str)
    : outcome (option (str * option str * list Z)) :=
  let '(buf, cp) := next_word [] cp in
  if bool_decide (buf = chars "-m") then
    let '(buf, cp) := next_word buf cp in
    let '(ok, key) := snmp_hex_to_binary SNMP_MAXBUF_SMALL false buf in
    Ret (if (ok : bool) then Some (buf, cp, key) else None)
  else if bool_decide (buf = chars "-l") then Ret (Some (buf, cp, old))
  else
    '(ret, key) ← generate_Ku auth (Some buf) SNMP_MAXBUF_SMALL;
    Ret (if ret =? SNMPERR_SUCCESS then Some (buf, cp, key) else None).

(** The localized key: given, or made of the master key.  [exact] asks for
    its full length. *)
Definition localized_key (user : usmUser) (exact : bool) (room : Z) (buf : str) (cp : option str) (Ku : list Z)
    : outcome (option (list Z * option str)) :=
  if bool_decide (buf = chars "-l") then
    let '(buf, cp) := next_word buf cp in
    let '(ok, key) := snmp_hex_to_binary room false buf in
    if negb (alloc room) && negb (bool_decide (key = [])) then Null
    else Ret (if (ok : bool) && (negb exact || (len key =? room)) then Some (key, cp) else None)
  else if negb (alloc room) then Ret None
  else
    '(ret, key) ← generate_kul (u_authProtocol user) (u_engineID user) (Some Ku) room;
    Ret (if ret =? SNMPERR_SUCCESS then Some (key, cp) else None).

(** The name and the engine of a new user, and the rest of the line. *)
Definition create_names (user : usmUser) (line : str) (s : lcd) : option (usmUser * option str) :=
  let '(buf, cp) := next_word [] (Some line) in
  r ← (if bool_decide (buf = chars "-e") then
         if negb (alloc 32) then None
         else
           let '(buf, cp) := next_word buf cp in
           let '(ok, ebuf) := snmp_hex_to_binary 32 true buf in
           if (ok : bool) then let '(buf, cp) := next_word buf cp in Some (ebuf, buf, cp) else None
       else id ← snmpv3_generate_engineID s; Some (id, buf, cp));
  let '(engineID, buf, cp) := r in
  Some (with_u_names (Some engineID) (if alloc (len buf + 1) then Some buf else None) user, cp).

Definition auth_type (cp : str) : option (list Z) :=
  if starts_with (chars "MD5") cp then Some usmHMACMD5AuthProtocol
  else if starts_with (chars "SHA") cp then Some usmHMACSHA1AuthProtocol
  else None.

Definition priv_type (cp : str) : option (list Z) :=
  if starts_with (chars "AES") cp then Some usmAESPrivProtocol
  else if starts_with (chars "DES") cp then Some usmDESPrivProtocol
  else None.

(** With its protocol and key for encryption; both protocols take keys of 16
    bytes. *)
Definition create_priv (user : usmUser) (Ku : list Z) (cp : str) : outcome (option usmUser) :=
  match priv_type cp with
  | None => Ret None
  | Some priv =>
      let user := with_u_protocols (u_authProtocol user) (Some priv) user in
      match skip_token (Some cp) with
      | None => Ret (if 16 <=? oid_len (u_authKey user)
                     then Some (with_u_keys (u_authKey user) (key ← u_authKey user; take 16 <$> duplicate 1 key) user)
                     else None)
      | cp =>
          r ← user_key_option (u_authProtocol user) Ku cp;
          match r with
          | None => Ret None
          | Some (buf, cp, Ku) =>
              ret2 ← sc_get_properlength (default [] (u_authProtocol user));
              if ret2 <? 0 then Ret None
              else
                r ← localized_key user false ret2 buf cp Ku;
                Ret ('(key, _) ← r;
                     if 16 <=? len key then Some (with_u_keys (u_authKey user) (Some (take 16 key)) user) else None)
          end
      end
  end.

(** The user, when one is made of the line. *)
Definition create_usmUser (line : str) (s : lcd) : outcome (option usmUser) :=
  match usm_create_user with
  | None => Null
  | Some newuser =>
      match create_names newuser line s with
      | None => Ret None
      | Some (newuser, None) => Ret (Some newuser)
      | Some (newuser, Some cp) =>
          match auth_type cp with
          | None => Ret None
          | Some auth =>
              let newuser := with_u_protocols (Some auth) (u_privProtocol newuser) newuser in
              match skip_token (Some cp) with
              | None => Ret None
              | cp =>
                  r ← user_key_option (Some auth) (unknown SNMP_MAXBUF_SMALL) cp;
                  match r with
                  | None => Ret None
                  | Some (buf, cp, Ku) =>
                      ret2 ← sc_get_properlength auth;
                      if ret2 <=? 0 then Ret None
                      else
                        r ← localized_key newuser true ret2 buf cp Ku;
                        match r with
                        | None => Ret None
                        | Some (key, cp) =>
                            let newuser := with_u_keys (Some key) (u_privKey newuser) newuser in
                            match cp with
                            | None => Ret (Some newuser)
                            | Some cp => create_priv newuser Ku cp
                            end
                        end
                  end
              end
          end
      end
  end.

Definition usm_parse_create_usmUser (line : str) (st : usm) : outcome usm :=
  r ← create_usmUser line (clocks st);
  match r with Some newuser => usm_add_user newuser st | None => Ret st end.
(** ** The user of a session *)

(** The keys and protocols of a session, and the localized keys of the
    default store. *)
Record session_keys : Type := {
  k_authProto : option (list Z);
  k_privProto : option (list Z);
  k_authKey : list Z;
  k_privKey : list Z;
  k_authLocalKey : option (list Z);
  k_privLocalKey : option (list Z);
  ds_authLocalizedKey : option str;
  ds_privLocalizedKey : option str
}.

(** A protocol the user has not got yet; [None] is an error. *)
Definition take_protocol (own given : option (list Z)) : option (option (list Z)) :=
  match own, given with
  | None, Some p => Some <$> duplicate 8 p
  | _, _ => Some own
  end.

(** A key the user has not got yet. *)
Definition take_key (auth engineID own localKey : option (list Z)) (masterKey : list Z) (localized : option str)
    : outcome (option (option (list Z))) :=
  match own, localKey with
  | Some k, _ => Ret (Some (Some k))
  | None, Some ((_ :: _) as k) => Ret (Some <$> duplicate 1 k)
  | None, _ =>
      if negb (len masterKey =? 0) then
        if negb (alloc USM_LENGTH_KU_HASHBLOCK) then Ret None
        else
          '(ret, key) ← generate_kul auth engineID (Some masterKey) USM_LENGTH_KU_HASHBLOCK;
          Ret (if ret =? SNMPERR_SUCCESS then Some (Some key) else None)
      else
        match localized with
        | Some cp =>
            let '(ok, key) := snmp_hex_to_binary USM_AUTH_KU_LEN false cp in
            if negb (alloc USM_AUTH_KU_LEN) && negb (bool_decide (key = [])) then Null
            else Ret (if (ok : bool) then Some (if alloc USM_AUTH_KU_LEN then Some key else None) else None)
        | None => Ret (Some None)
        end
  end.

(** The user with what the session adds, [None] after an error. *)
Definition fill_user (keys : session_keys) (engineID : list Z) (user : usmUser) : outcome (option usmUser) :=
  match take_protocol (u_authProtocol user) (k_authProto keys) with
  | None => Ret None
  | Some auth =>
      match take_protocol (u_privProtocol user) (k_privProto keys) with
      | None => Ret None
      | Some priv =>
          authKey ← take_key auth (Some engineID) (u_authKey user) (k_authLocalKey keys) (k_authKey keys)
                      (ds_authLocalizedKey keys);
          match authKey with
          | None => Ret None
          | Some authKey =>
              privKey ← take_key auth (Some engineID) (u_privKey user) (k_privLocalKey keys) (k_privKey keys)
                          (ds_privLocalizedKey keys);
              Ret (option_map (fun privKey => with_u_keys authKey privKey (with_u_protocols auth priv user)) privKey)
          end
      end
  end.

(** A user of the session's name and engine, with nothing else. *)
Definition session_user (securityName : option (list Z)) (engineID : list Z) : option usmUser :=
  name ← match securityName with
         | Some n => if alloc (len n + 1) then Some (Some n) else None
         | None => Some None
         end;
  id ← duplicate 1 engineID;
  Some {| u_engineID := Some id; u_name := name; u_secName := name; u_authProtocol := None; u_authKey := None;
          u_privProtocol := None; u_privKey := None; u_userStatus := 0; u_cloneFrom := None;
          u_userPublicString := None; u_userStorageType := 0 |}.

Definition activate (u : usmUser) : usmUser := {|
  u_engineID := u_engineID u; u_name := u_name u; u_secName := u_secName u; u_authProtocol := u_authProtocol u;
  u_authKey := u_authKey u; u_privProtocol := u_privProtocol u; u_privKey := u_privKey u; u_userStatus := RS_ACTIVE;
  u_cloneFrom := u_cloneFrom u; u_userPublicString := u_userPublicString u; u_userStorageType := ST_READONLY |}.

(** The state, the flags of the session, and whether there was no error.  An
    error with a user of the list frees that user: when it is the first one,
    the head of the list points to nothing. *)
Definition usm_create_user_from_session (keys : session_keys) (flags : Z) (session : netsnmp_session) (st : usm)
    : outcome (usm * Z * bool) :=
  if negb (Z.land flags SNMP_FLAGS_USER_CREATED =? 0) || negb (s_securityModel session =? SNMP_SEC_MODEL_USM)
     || negb (s_version session =? SNMP_VERSION_3) || (len (bytes_of (s_securityName session)) =? 0)
     || (len (s_securityEngineID session) =? 0)
  then Ret (st, flags, true)
  else
    let flags := Z.lor flags SNMP_FLAGS_USER_CREATED in
    let id := s_securityEngineID session in
    match search_place (Some id) (bytes_of (s_securityName session)) (userList st) with
    | Some i =>
        match userList st !! i with
        | None => Overrun
        | Some user =>
            user ← fill_user keys id user;
            match user with
            | Some user => Ret (with_users (<[i := user]> (userList st)) st, flags, true)
            | None => if (i =? 0)%nat then Overrun else Ret (with_users (delete i (userList st)) st, flags, false)
            end
        end
    | None =>
        if negb (alloc sizeof_usmUser) then Ret (st, flags, false)
        else
          match session_user (s_securityName session) id with
          | None => Ret (st, flags, false)
          | Some user =>
              user ← fill_user keys id user;
              match user with
              | Some user => st ← usm_add_user (activate user) st; Ret (st, flags, true)
              | None => Ret (st, flags, false)
              end
          end
    end.

(** ** The keys of a new session *)

(** The master key of a session that brings none: from the hexadecimal text
    or else the pass phrase of the default store.  The buffer of the session
    has 32 bytes.  [None] is an error. *)
Definition default_key (auth : option (list Z)) (given : list Z) (master passphrase : option str)
    : outcome (option (list Z)) :=
  if negb (len given =? 0) then Ret (Some given)
  else
    match master, passphrase with
    | Some hex, _ =>
        let '(ok, key) := snmp_hex_to_binary USM_AUTH_KU_LEN false hex in Ret (if (ok : bool) then Some key else None)
    | None, Some pass =>
        '(ret, key) ← generate_Ku auth (Some pass) USM_AUTH_KU_LEN;
        Ret (if ret =? SNMPERR_SUCCESS then Some key else None)
    | None, None => Ret (Some [])
    end.

(** The strings of the default store. *)
Record default_keys : Type := {
  ds_authMasterKey : option str;
  ds_authPassphrase : option str;
  ds_privMasterKey : option str;
  ds_privPassphrase : option str;
  ds_passphrase : option str
}.

(** [defaultAuthType] and [defaultPrivType] are given. *)
Definition usm_session_init (authtype privtype : list Z) (ds : default_keys) (in_session : session_keys)
    : outcome (session_keys * Z) :=
  let proto (given : option (list Z)) default :=
    match given with
    | Some ((_ :: _) as p) => Some <$> duplicate 8 p
    | _ => Some (duplicate 8 default)
    end in
  let either (a b : option str) := match a with Some a => Some a | None => b end in
  match proto (k_authProto in_session) authtype, proto (k_privProto in_session) privtype with
  | Some auth, Some priv =>
      authKey ← default_key auth (k_authKey in_session) (ds_authMasterKey ds)
                  (either (ds_authPassphrase ds) (ds_passphrase ds));
      match authKey with
      | None => Ret (in_session, SNMP_ERR_GENERR)
      | Some authKey =>
          privKey ← default_key auth (k_privKey in_session) (ds_privMasterKey ds)
                      (either (ds_privPassphrase ds) (ds_passphrase ds));
          Ret (match privKey with
               | None => (in_session, SNMP_ERR_GENERR)
               | Some privKey =>
                   ({| k_authProto := auth; k_privProto := priv; k_authKey := authKey; k_privKey := privKey;
                       k_authLocalKey := k_authLocalKey in_session; k_privLocalKey := k_privLocalKey in_session;
                       ds_authLocalizedKey := ds_authLocalizedKey in_session;
                       ds_privLocalizedKey := ds_privLocalizedKey in_session |}, SNMPERR_SUCCESS)
               end)
      end
  | _, _ => Ret (in_session, SNMPERR_MALLOC)
  end.
End config.
