(* ===== verification/UserConfigProps.v ===== *)
(** * Properties of users from configuration files and sessions *)

From Stdlib Require Import Strings.String.
From stdpp Require Import gmap list.
From S2P Require Import Prelude Bytes AsnTypes AsnBuild AsnRbuild Oid Vacm Lcd LcdSpec Scapi UsersSpec Users UsmMsg Session Int64 Int64Spec Client CString ReadConfig ReadConfigProps Keytools KeytoolsProps UserConfig Message MessageProps Samples UsmProps UsmMsgProps.

(** ** Saved users *)

Section saved.
Context `{Platform, Allocator} (unknown : Z -> list Z) (room : forall n, n <= 4096 -> alloc n = true).

Lemma read_number_text v rest : is_s32 v -> ends_token rest ->
  read_number (Some (print_d v ++ rest)) = Ret (v, skip_white (Some rest)).
Proof.
  intros Hv Hrest. unfold read_number. destruct (print_d_word v Hv). by rewrite atoi_print_d, skip_token_word.
Qed.

Lemma read_octets_text s rest : storable (default [] s) -> ends_token rest ->
  read_octets (Some (read_config_save_octet_string s ++ rest)) = Ret (Some (default [] s), skip_white (Some rest)).
Proof. intros Hs Hrest. unfold read_octets. by rewrite (octet_string_roundtrip room). Qed.

Lemma read_string_text s rest : storable (default [] s) -> nul_free (default [] s) -> ends_token rest ->
  read_string (Some (read_config_save_octet_string s ++ rest)) = Ret (Some (default [] s), skip_white (Some rest)).
Proof.
  intros Hs Hn Hrest. unfold read_string. rewrite (octet_string_roundtrip room), bind_ret by done. by rewrite Hn.
Qed.

Lemma read_protocol_text p rest : storable_objid (default [] p) -> ends_token rest ->
  read_protocol (Some (protocol_text p ++ rest)) = Ret (Some (default [] p), skip_white (Some rest)).
Proof. intros Hp Hrest. unfold read_protocol, protocol_text. by rewrite (objid_roundtrip room). Qed.

Lemma skip_white_next w rest : starts_word w -> skip_white (Some (32 :: w ++ rest)) = Some (w ++ rest).
Proof. intros Hw. rewrite skip_white_space. apply skip_white_word. by destruct w. Qed.

Lemma save_objid_word p : starts_word (protocol_text p).
Proof. unfold protocol_text. by destruct (default [] p). Qed.

(** What a line can hold: the names are strings, the protocol for encryption
    has its length. *)
Record saveable (u : usmUser) : Prop := {
  sv_status : is_s32 (u_userStatus u);
  sv_storage : is_s32 (u_userStorageType u);
  sv_engineID : storable (default [] (u_engineID u));
  sv_name : storable (default [] (u_name u)) /\ nul_free (default [] (u_name u));
  sv_secName : storable (default [] (u_secName u)) /\ nul_free (default [] (u_secName u));
  sv_cloneFrom : storable_objid (default [] (u_cloneFrom u));
  sv_auth : storable_objid (default [] (u_authProtocol u));
  sv_authKey : storable (default [] (u_authKey u));
  sv_priv : storable_objid (default [] (u_privProtocol u));
  sv_priv_length : len (default [] (u_privProtocol u)) = USM_LENGTH_OID_TRANSFORM;
  sv_privKey : storable (default [] (u_privKey u));
  sv_public : storable (default [] (u_userPublicString u))
}.

(** A user that comes back: what was NULL is empty, and a key is cut to the
    length its protocol takes. *)
Definition restored (u : usmUser) : usmUser :=
  let priv := default [] (u_privProtocol u) in
  let n := if bool_decide (priv = usmDESPrivProtocol \/ priv = usmAESPrivProtocol) then 16%nat else 0%nat in
  let present (o : option (list Z)) := Some (default [] o) in
  {| u_engineID := present (u_engineID u); u_name := present (u_name u); u_secName := present (u_secName u);
     u_authProtocol := present (u_authProtocol u); u_authKey := present (u_authKey u); u_privProtocol := Some priv;
     u_privKey := Some (take n (default [] (u_privKey u))); u_userStatus := u_userStatus u;
     u_cloneFrom := present (u_cloneFrom u); u_userPublicString := present (u_userPublicString u);
     u_userStorageType := u_userStorageType u |}.

Lemma expected_length (priv : list Z) : len priv = USM_LENGTH_OID_TRANSFORM ->
  exists des aes, is_transform (Some priv) usmDESPrivProtocol = Ret des /\ is_transform (Some priv) usmAESPrivProtocol = Ret aes
  /\ (des || aes) = bool_decide (priv = usmDESPrivProtocol \/ priv = usmAESPrivProtocol).
Proof.
  intros Hl. unfold is_transform. assert (length priv = 10%nat) by (unfold len, USM_LENGTH_OID_TRANSFORM in Hl; lia).
  rewrite !ISTRANSFORM_spec by done. do 2 eexists. split; [done|]. split; [done|].
  symmetry. apply bool_decide_or.
Qed.
End saved.

(** The next field of a line. *)
Ltac next_field word text := rewrite skip_white_next by (by apply word); rewrite text, bind_ret by done.

Lemma saved_user_restored `{Platform, Allocator} u token line s rc s' :
  (forall n, n <= 4096 -> alloc n = true) -> saveable u ->
  starts_word token -> Forall (fun c => isspace c = false) token ->
  usm_save_user u token = Ret line ->
  set_enginetime s (Some (default [] (u_engineID u))) 1 0 false = Ret (rc, s') ->
  usm_read_user (skip_token (Some line)) s = Ret (Some (restored u), s').
Proof.
  intros room [] Hw Hs Hline Hclock. unfold usm_save_user in Hline. cbv zeta in Hline.
  destruct (4096 <=? _); [done|]. injection Hline as <-.
  destruct sv_name0 as [Hn1 Hn2], sv_secName0 as [Hs1 Hs2].
  rewrite skip_token_word by done. unfold usm_read_user, usm_create_user, duplicate. rewrite !room by done. cbn [negb mbind option_bind].
  next_field print_d_word read_number_text. next_field print_d_word read_number_text.
  next_field save_octet_string_word read_octets_text. rewrite Hclock, bind_ret.
  next_field save_octet_string_word read_string_text. next_field save_octet_string_word read_string_text.
  next_field save_objid_word read_protocol_text. next_field save_objid_word read_protocol_text.
  next_field save_octet_string_word read_octets_text. next_field save_objid_word read_protocol_text.
  next_field save_octet_string_word read_octets_text.
  destruct (expected_length _ sv_priv_length0) as (des & aes & -> & -> & Hda). rewrite !bind_ret, Hda.
  rewrite <- (app_nil_r (read_config_save_octet_string (u_userPublicString u))).
  next_field save_octet_string_word read_octets_text. done.
Qed.

(** ** Saved tables *)

Section tables.
Context `{Platform, Allocator} (room : forall n, n <= 4096 -> alloc n = true).

(** The lines of a file, each with its token. *)
Fixpoint read_users (lines : list str) (st : usm) : outcome usm :=
  match lines with
  | [] => Ret st
  | line :: lines => st ← usm_parse_config_usmUser (skip_token (Some line)) st; read_users lines st
  end.

Definition nonvolatile (u : usmUser) : Prop := u_userStorageType u = ST_NONVOLATILE.

#[export] Instance nonvolatile_dec u : Decision (nonvolatile u).
Proof. unfold nonvolatile. apply _. Defined.

Definition keeps_key (u : usmUser) : Prop := is_Some (u_engineID u) /\ named u /\ saveable u.

Lemma restored_key u : keeps_key u -> key_of (restored u) = key_of u /\ named (restored u).
Proof.
  intros ([id Hid] & (n & Hn & Hf) & _). unfold key_of, named, restored. cbn. rewrite Hid, Hn. cbn. eauto.
Qed.

Lemma engine_learned s id : wf s -> storable id ->
  exists rc s', set_enginetime s (Some id) 1 0 false = Ret (rc, s') /\ wf s'.
Proof.
  intros Hs [_ Hl]. destruct (decide (id = [])) as [->|Hid]; [by exists SNMPERR_SUCCESS, s|].
  destruct (set_enginetime_cases s id 1 0 false Hs Hid) as (s' & E & Hr).
  - destruct (abs s !! id); [done|]. unfold room_for. unfold SNMP_MAXBUF in Hl. by rewrite !room by (done || lia).
  - exists SNMPERR_SUCCESS, s'. split; [done|]. by destruct Hr.
Qed.

Lemma users_restored token l : starts_word token -> Forall (fun c => isspace c = false) token ->
  users_ok l -> Forall keeps_key (filter nonvolatile l) ->
  forall lines st, wf (clocks st) -> users_ok (userList st) -> usm_save_users_from_list l token = Ret lines ->
  exists st', read_users lines st = Ret st' /\ wf (clocks st') /\ users_ok (userList st')
  /\ users_map (userList st') = (restored <$> users_map (filter nonvolatile l)) ∪ users_map (userList st).
Proof.
  intros Hw Hsp. induction l as [|u l IH]; intros Hok Hkeep lines st Hwf Husers E.
  { injection E as <-. exists st. split; [done|]. split; [done|]. split; [done|]. change (users_map (filter nonvolatile [])) with (∅ : gmap (list Z) usmUser).
    by rewrite fmap_empty, (left_id ∅ (∪)). }
  apply users_ok_cons in Hok as (Hnamed & Hlt & Hok). cbn [usm_save_users_from_list] in E.
  rewrite filter_cons in *. destruct (Z.eqb_spec (u_userStorageType u) ST_NONVOLATILE) as [Hnv|Hnv].
  - rewrite decide_True in * by done. inversion_clear Hkeep as [|? ? Hu Hkeep'].
    apply bind_Ret_inv in E as (line & Eline & (rest & Erest & [= <-])%bind_Ret_inv).
    destruct (restored_key u Hu) as [Hkey Hnamed']. destruct Hu as ([id Hid] & _ & Hsave).
    destruct (engine_learned (clocks st) (default [] (u_engineID u)) Hwf) as (rc & s' & Eset & Hwf');
      [by apply sv_engineID|].
    cbn [read_users]. unfold usm_parse_config_usmUser at 1.
    rewrite (saved_user_restored u token line _ rc s' room Hsave Hw Hsp Eline Eset), !bind_ret.
    unfold usm_add_user. destruct (usm_add_user_to_list_spec (restored u) (userList st) Husers Hnamed')
      as (l' & Eadd & Hok' & Hmap & _).
    change (userList (with_clocks s' st)) with (userList st). rewrite Eadd, !bind_ret.
    destruct (IH Hok Hkeep' rest (with_users l' (with_clocks s' st))) as (st' & Eread & Hwf2 & Hok2 & Hmap2); [done..|].
    exists st'. split; [done|]. split; [done|]. split; [done|]. rewrite Hmap2.
    change (userList (with_users l' (with_clocks s' st))) with l'. rewrite Hmap, Hkey, users_map_cons, fmap_insert.
    rewrite <- insert_union_r; [by rewrite insert_union_l|]. rewrite lookup_fmap, users_map_fresh; [done|].
    rewrite Forall_forall in Hlt |- *. intros v [_ Hv]%list_elem_of_filter. by apply Hlt.
  - rewrite decide_False in * by done. by apply IH.
Qed.
End tables.

(** C19: users survive a restart: when the users of a table that are not
    volatile are saved and their lines are read into an empty table, the
    table has exactly these users, under their engines and names, each as it
    was saved. *)
Theorem users_survive_restart `{Platform, Allocator} token l lines st :
  (forall n, n <= 4096 -> alloc n = true) -> starts_word token -> Forall (fun c => isspace c = false) token ->
  users_ok l -> Forall keeps_key (filter nonvolatile l) -> usm_save_users_from_list l token = Ret lines ->
  wf (clocks st) -> userList st = [] ->
  exists st', read_users lines st = Ret st' /\ users_ok (userList st')
  /\ users_map (userList st') = restored <$> users_map (filter nonvolatile l).
Proof.
  intros room Hw Hs Hok Hkeep E Hwf Hnil.
  destruct (users_restored room token l Hw Hs Hok Hkeep lines st Hwf) as (st' & Er & _ & Hok' & Hmap); [|done|].
  { rewrite Hnil. split; constructor. }
  exists st'. split; [done|]. split; [done|]. rewrite Hmap, Hnil. apply (right_id ∅ (∪)).
Qed.

(** Storable strings and identifiers, computed. *)
Lemma storable_by s : forallb (fun b => (0 <=? b) && (b <? 256)) s && (len s <? SNMP_MAXBUF) = true -> storable s.
Proof.
  intros [Hs Hl%Z.ltb_lt]%andb_prop. split; [|done]. rewrite forallb_forall in Hs. apply Forall_forall. intros b Hb%list_elem_of_In.
  apply Hs, andb_prop in Hb as [H1%Z.leb_le H2%Z.ltb_lt]. unfold is_u8. lia.
Qed.

Lemma storable_objid_by l : forallb (fun y => (0 <=? y) && (y <? 2 ^ 63)) l && (len l <=? MAX_OID_LEN)
  && (len (dotted l) <? SPRINT_MAX_LEN) = true -> storable_objid l.
Proof.
  intros [[Hs Hl%Z.leb_le]%andb_prop Hd%Z.ltb_lt]%andb_prop. split; [|done]. rewrite forallb_forall in Hs.
  apply Forall_forall. intros b Hb%list_elem_of_In. apply Hs, andb_prop in Hb as [H1%Z.leb_le H2%Z.ltb_lt]. lia.
Qed.

Lemma alice_keeps_key : keeps_key alice.
Proof.
  split; [by eexists|]. split; [apply alice_named|].
  assert (Hname : storable alice_name /\ nul_free alice_name) by (split; [by apply storable_by|reflexivity]).
  constructor; try done; try (by apply storable_by); try (by apply storable_objid_by).
Qed.

(** The table of alice, saved under the token "u". *)
Lemma users_survive_restart_witness : exists lines st',
  usm_save_users_from_list [alice] [117] = Ret lines
  /\ read_users (H := sample_steady) lines (with_users [] knows_alice) = Ret st'
  /\ users_map (userList st') = restored <$> users_map [alice].
Proof.
  destruct (users_survive_restart (H := sample_steady) [117] [alice]
    match usm_save_users_from_list [alice] [117] with Ret lines => lines | _ => [] end (with_users [] knows_alice))
    as (st' & E & _ & Hmap).
  - intros n Hn. apply Z.ltb_lt. lia.
  - done.
  - by repeat constructor.
  - apply (knows_alice_ok steady).
  - constructor; [apply alice_keeps_key|constructor].
  - reflexivity.
  - apply with_known_wf.
  - reflexivity.
  - do 2 eexists. split; [reflexivity|]. split; [exact E|]. exact Hmap.
Defined.

(** ** The user of a session *)

(** A user who keeps what the other one has: the same name and engine, every
    protocol and every key. *)
Record extends (old new : usmUser) : Prop := {
  ext_engineID : u_engineID new = u_engineID old;
  ext_name : u_name new = u_name old;
  ext_auth : is_Some (u_authProtocol old) -> u_authProtocol new = u_authProtocol old;
  ext_priv : is_Some (u_privProtocol old) -> u_privProtocol new = u_privProtocol old;
  ext_authKey : is_Some (u_authKey old) -> u_authKey new = u_authKey old;
  ext_privKey : is_Some (u_privKey old) -> u_privKey new = u_privKey old;
  ext_status : u_userStatus new = u_userStatus old
}.

Section session.
Context `{Platform, Allocator}.

Lemma search_place_spec id name l :
  match search_place id name l with
  | Some i => exists u, l !! i = Some u /\ search_users id name l = Some u
  | None => search_users id name l = None
  end.
Proof.
  induction l as [|v l IH]; [done|]. cbn [search_place search_users].
  destruct (_ && _); [by exists v|]. by destruct (search_place id name l).
Qed.

(** A user of the list takes the place of one with the same key. *)
Lemma replace_at l : forall i u v, users_ok l -> l !! i = Some u -> named v -> key_of v = key_of u ->
  users_ok (<[i := v]> l) /\ users_map (<[i := v]> l) = <[key_of v := v]> (users_map l)
  /\ forall w, Forall (key_lt w) l -> Forall (key_lt w) (<[i := v]> l).
Proof.
  induction l as [|x l IH]; intros [|i] u v Hok Hi Hv Hk; try done;
    apply users_ok_cons in Hok as (Hx & Hxl & Hok); cbn in Hi; simplify_eq; cbn [list_insert insert].
  - split; [|split].
    + apply users_ok_cons. split; [done|]. split; [|done]. unfold key_lt. rewrite Hk. exact Hxl.
    + by rewrite !users_map_cons, Hk, insert_insert_eq.
    + intros w [Hw Hl]%Forall_cons. constructor; [|done]. unfold key_lt in *. by rewrite Hk.
  - destruct (IH i u v Hok Hi Hv Hk) as (Hok' & Hm & Hlt). split; [|split].
    + apply users_ok_cons. auto.
    + change (users_map (x :: <[i := v]> l) = <[key_of v := v]> (users_map (x :: l))).
      rewrite !users_map_cons, Hm. apply insert_insert_ne.
      rewrite Forall_forall in Hxl. apply list_elem_of_lookup_2 in Hi. specialize (Hxl u Hi).
      intros Hkx. unfold key_lt in Hxl. by rewrite <- Hk, Hkx, lex_refl in Hxl.
    + intros w [Hw Hl]%Forall_cons. constructor; [done|]. by apply Hlt.
Qed.

Lemma take_protocol_keeps own given r : take_protocol own given = Some r -> is_Some own -> r = own.
Proof. unfold take_protocol. destruct own; [by intros [= <-]|by intros _ [? ?]]. Qed.

Lemma take_key_keeps auth id own lk mk ds r : take_key auth id own lk mk ds = Ret (Some r) -> is_Some own -> r = own.
Proof. unfold take_key. destruct own; [by intros [= <-]|by intros _ [? ?]]. Qed.

Lemma fill_user_extends keys id u v : fill_user keys id u = Ret (Some v) -> extends u v.
Proof.
  unfold fill_user. destruct (take_protocol (u_authProtocol u) _) as [auth|] eqn:Ea; [|done].
  destruct (take_protocol (u_privProtocol u) _) as [priv|] eqn:Ep; [|done].
  intros ([ak|] & Eak & E)%bind_Ret_inv; [|done]. apply bind_Ret_inv in E as ([pk|] & Epk & [= <-]).
  constructor; cbn; try done; intros Hs.
  - by apply take_protocol_keeps in Ea.
  - by apply take_protocol_keeps in Ep.
  - by apply take_key_keeps in Eak.
  - by apply take_key_keeps in Epk.
Qed.

Lemma extends_key u v : extends u v -> key_of v = key_of u /\ (named u -> named v).
Proof. intros []. unfold key_of, named. by rewrite ext_engineID0, ext_name0. Qed.

Lemma duplicate_same size l r : duplicate size l = Some r -> r = l.
Proof. unfold duplicate. by destruct (alloc _); intros [= <-]. Qed.

Lemma take_protocol_given given r : take_protocol None given = Some r -> r = given.
Proof.
  unfold take_protocol. destruct given as [p|]; [|by intros [= <-]].
  destruct (duplicate 8 p) as [q|] eqn:Eq; [|done]. intros [= <-]. by apply duplicate_same in Eq as ->.
Qed.

Lemma fill_user_protocols keys id u v : fill_user keys id u = Ret (Some v) ->
  u_authProtocol u = None -> u_privProtocol u = None ->
  u_authProtocol v = k_authProto keys /\ u_privProtocol v = k_privProto keys.
Proof.
  unfold fill_user. intros E Hna Hnp. rewrite Hna, Hnp in E.
  destruct (take_protocol None (k_authProto keys)) as [auth|] eqn:Ea; [|done].
  destruct (take_protocol None (k_privProto keys)) as [priv|] eqn:Ep; [|done].
  apply bind_Ret_inv in E as ([ak|] & Eak & E); [|done]. apply bind_Ret_inv in E as ([pk|] & Epk & [= <-]).
  cbn. by rewrite (take_protocol_given _ _ Ea), (take_protocol_given _ _ Ep).
Qed.

Lemma session_user_spec name id u : session_user name id = Some u ->
  u_engineID u = Some id /\ u_name u = name /\ u_authProtocol u = None /\ u_privProtocol u = None.
Proof.
  unfold session_user. destruct name as [n|]; cbn.
  - destruct (alloc (len n + 1)); [|done]. cbn. destruct (duplicate 1 id) as [i|] eqn:Ei; [|done].
    intros [= <-]. by apply duplicate_same in Ei as ->.
  - destruct (duplicate 1 id) as [i|] eqn:Ei; [|done]. intros [= <-]. by apply duplicate_same in Ei as ->.
Qed.

Lemma users_map_key l k u : users_map l !! k = Some u -> key_of u = k.
Proof.
  induction l as [|v l IH]; [done|]. rewrite users_map_cons. intros [[? ?]|[_ ?]]%lookup_insert_Some; [congruence|auto].
Qed.

(** The sessions that bring no user along. *)
Definition brings_no_user (flags : Z) (session : netsnmp_session) : bool :=
  negb (Z.land flags SNMP_FLAGS_USER_CREATED =? 0) || negb (s_securityModel session =? SNMP_SEC_MODEL_USM)
  || negb (s_version session =? SNMP_VERSION_3) || (len (bytes_of (s_securityName session)) =? 0)
  || (len (s_securityEngineID session) =? 0).

Lemma brings_name flags session : brings_no_user flags session = false ->
  s_securityName session = Some (bytes_of (s_securityName session)).
Proof.
  unfold brings_no_user. intros [[_ Hn]%orb_false_elim _]%orb_false_elim. by destruct (s_securityName session).
Qed.
End session.

(** C21: a session that brings a user along puts exactly one user under its
    engine and name: the user of the table, who keeps every protocol and key
    and the status it has and gets at most what it lacks, or a new active one with the protocols of the session; all other users
    stay.  The comment of the routine says otherwise: that an existing user is updated with
    the information of the session. *)
Theorem session_user_joins `{Platform, Allocator} keys flags session st st' flags' :
  users_ok (userList st) -> nul_free (bytes_of (s_securityName session)) -> brings_no_user flags session = false ->
  usm_create_user_from_session keys flags session st = Ret (st', flags', true) ->
  let key := user_key (Some (s_securityEngineID session)) (bytes_of (s_securityName session)) in
  exists u, users_ok (userList st') /\ users_map (userList st') = <[key := u]> (users_map (userList st))
  /\ Z.land flags' SNMP_FLAGS_USER_CREATED <> 0
  /\ match users_map (userList st) !! key with
     | Some old => extends old u
     | None => u_userStatus u = RS_ACTIVE /\ u_authProtocol u = k_authProto keys /\ u_privProtocol u = k_privProto keys
     end.
Proof.
  intros Hok Hn Hb E key. unfold usm_create_user_from_session in E. cbv zeta in E.
  fold (brings_no_user flags session) in E. rewrite Hb in E.
  assert (Hflags : Z.land (Z.lor flags SNMP_FLAGS_USER_CREATED) SNMP_FLAGS_USER_CREATED <> 0).
  { intros Hz. apply (f_equal (fun z => Z.testbit z 9)) in Hz. rewrite Z.land_spec, Z.lor_spec in Hz.
    change (Z.testbit SNMP_FLAGS_USER_CREATED 9) with true in Hz. rewrite orb_true_r in Hz. by rewrite Z.bits_0 in Hz. }
  pose proof (search_users_spec (Some (s_securityEngineID session)) (bytes_of (s_securityName session)) _ (proj1 Hok)) as Hs.
  rewrite Hn in Hs. fold key in Hs. rewrite <- Hs.
  pose proof (search_place_spec (Some (s_securityEngineID session)) (bytes_of (s_securityName session)) (userList st)) as Hp.
  destruct (search_place _ _ _) as [i|].
  - destruct Hp as (u & Hi & Hu). rewrite Hi in E. apply bind_Ret_inv in E as (v & Ev & E).
    destruct v as [v|]; [|by destruct (i =? 0)%nat]. injection E as <- <-.
    apply fill_user_extends in Ev. destruct (extends_key u v Ev) as [Hk Hnv].
    destruct (replace_at (userList st) i u v Hok Hi) as (Hok' & Hm & _); [|done|].
    { apply Hnv. eapply Forall_lookup_1; [exact (proj1 Hok)|exact Hi]. }
    exists v. split; [done|]. split; [|by rewrite Hu].
    cbn [userList with_users]. rewrite Hm. f_equal. rewrite Hk. rewrite Hu in Hs. symmetry in Hs.
    by apply users_map_key in Hs.
  - rewrite Hp. destruct (alloc sizeof_usmUser); [|done]. cbn [negb] in E.
    destruct (session_user _ _) as [u|] eqn:Eu; [|done].
    apply bind_Ret_inv in E as ([v|] & Ev & E); [|done].
    apply bind_Ret_inv in E as (st1 & Eadd & [= <- <-]).
    destruct (session_user_spec _ _ _ Eu) as (Hid & Hname & Ha & Hp').
    pose proof (fill_user_extends _ _ _ _ Ev) as Hx.
    destruct (usm_add_user_to_list_spec (activate v) (userList st) Hok) as (l & El & Hok' & Hm & _).
    { exists (bytes_of (s_securityName session)). split; [|done]. cbn. rewrite (ext_name _ _ Hx), Hname.
      exact (brings_name _ _ Hb). }
    unfold usm_add_user in Eadd. rewrite El, bind_ret in Eadd. injection Eadd as <-.
    exists (activate v). split; [done|]. split.
    { cbn [userList with_users]. rewrite Hm. f_equal. unfold key_of, key. cbn.
      rewrite (ext_engineID _ _ Hx), (ext_name _ _ Hx), Hid, Hname. by destruct (s_securityName session). }
    split; [done|]. split; [done|]. by apply (fill_user_protocols _ _ _ _ Ev).
Qed.

(** A session as alice with other keys. *)
Definition other_keys : session_keys := {|
  k_authProto := Some usmHMACSHA1AuthProtocol; k_privProto := None; k_authKey := replicate 20 1; k_privKey := [];
  k_authLocalKey := None; k_privLocalKey := None; ds_authLocalizedKey := None; ds_privLocalizedKey := None |}.

Lemma session_user_joins_witness : exists u,
  usm_create_user_from_session (H := sample_steady) other_keys 0 (sample_session 3) knows_alice
    = Ret (knows_alice, SNMP_FLAGS_USER_CREATED, true)
  /\ users_map (userList knows_alice) = <[key_of alice := u]> (users_map [alice]) /\ extends alice u.
Proof.
  destruct (session_user_joins (H := sample_steady) other_keys 0 (sample_session 3) knows_alice knows_alice
    SNMP_FLAGS_USER_CREATED) as (u & _ & Hm & _ & Hx).
  - apply (knows_alice_ok steady).
  - reflexivity.
  - reflexivity.
  - reflexivity.
  - exists u. split; [reflexivity|]. split; [exact Hm|]. exact Hx.
Defined.

(** ** Keys at the end of a line *)

(** A master key that is the last word of its line is not taken: the user
    is left without the key he had, and an error is reported; a localized key
    in that place is taken, and an error is reported all the same. *)
Theorem last_key `{Platform, Allocator} unknown user k :
  (forall n, n <= 4096 -> alloc n = true) -> bytes_ok (default [] k) -> len (default [] k) < SNMP_MAXBUF_SMALL ->
  let line := Some (read_config_save_octet_string k) in
  usm_set_user_password unknown user (chars "userSetAuthKey") line
    = Ret (with_u_keys None (u_privKey user) user, true)
  /\ usm_set_user_password unknown user (chars "userSetPrivKey") line
    = Ret (with_u_keys (u_authKey user) None user, true)
  /\ usm_set_user_password unknown user (chars "userSetAuthLocalKey") line
    = Ret (with_u_keys (Some (default [] k)) (u_privKey user) user, true)
  /\ usm_set_user_password unknown user (chars "userSetPrivLocalKey") line
    = Ret (with_u_keys (u_authKey user) (Some (default [] k)) user, true).
Proof.
  intros room Hb Hl line.
  assert (Hread : forall into, len (default [] k) < default SNMP_MAXBUF into ->
            read_config_read_octet_string line into = Ret (Taken (default [] k) None)).
  { intros into Hi. unfold line. rewrite <- (app_nil_r (read_config_save_octet_string k)).
    rewrite (octet_string_read room); [done..|by apply Z.lt_trans with SNMP_MAXBUF_SMALL|done|done]. }
  assert (Hsmall : len (default [] k) < SNMP_MAXBUF) by (by apply Z.lt_trans with SNMP_MAXBUF_SMALL).
  unfold usm_set_user_password, new_key, master_key. cbn [Z.ltb Z.compare Z.eqb].
  change (key_token (chars "userSetAuthKey")) with (Some (true, 1)).
  change (key_token (chars "userSetPrivKey")) with (Some (false, 1)).
  change (key_token (chars "userSetAuthLocalKey")) with (Some (true, 2)).
  change (key_token (chars "userSetPrivLocalKey")) with (Some (false, 2)).
  cbn [Z.ltb Z.compare Z.eqb]. rewrite (Hread (Some SNMP_MAXBUF_SMALL) Hl), (Hread None Hsmall). done.
Qed.

Lemma last_key_witness : let line := Some (read_config_save_octet_string (Some (replicate 16 1))) in
  usm_set_user_password (H := sample_steady) (fun _ => []) alice (chars "userSetAuthKey") line
    = Ret (with_u_keys None (u_privKey alice) alice, true).
Proof.
  apply (last_key (H := sample_steady) (fun _ => []) alice (Some (replicate 16 1))).
  - intros n Hn. apply Z.ltb_lt. lia.
  - apply storable_by. reflexivity.
  - reflexivity.
Defined.

(** ** The keys of both sides *)

(** A pass phrase that is one word of a line. *)
Definition pass_word (P : str) : Prop :=
  Forall (plain_char isspace) P /\ USM_LENGTH_P_MIN <= len P < SNMP_MAXBUF_MEDIUM
  /\ match P with c :: _ => c <> 34 /\ c <> 39 | [] => False end.

Lemma next_word_plain P rest : pass_word P -> ends_token rest ->
  next_word [] (Some (P ++ rest)) = (P, skip_white (Some rest)).
Proof.
  intros (HP & [_ Hl] & Hq) Hrest. destruct P as [|c P]; [done|]. destruct Hq as [H34 H39].
  unfold next_word, copy_nword. cbn [app]. destruct (Z.eqb_spec c 34), (Z.eqb_spec c 39); try done. cbn [orb].
  change (c :: P ++ rest) with ((c :: P) ++ rest). rewrite copy_chars_plain by (done || by destruct rest). done.
Qed.

Lemma pass_word_no_option P : pass_word P -> bool_decide (P = chars "-m") = false /\ bool_decide (P = chars "-l") = false.
Proof. intros (_ & [Hl _] & _). split; apply bool_decide_eq_false_2; intros ->; by apply Hl. Qed.

(** C20: a pass phrase gives the same localized key on both sides: the key
    [createUser] makes of the word in its line is the key of a session that
    has the phrase as its default. *)
Theorem passwords_agree `{Platform, Allocator} auth h id P rest old user ds exact :
  (forall n, n <= 4096 -> alloc n = true) -> hash_function auth = Ret (Some h) -> len auth = USM_LENGTH_OID_TRANSFORM ->
  id <> [] -> len id <= 32 -> pass_word P -> ends_token rest ->
  u_authProtocol user = Some auth -> u_engineID user = Some id ->
  exists Ku key n, user_key_option (Some auth) old (Some (P ++ rest)) = Ret (Some (P, skip_white (Some rest), Ku))
  /\ sc_get_properlength auth = Ret n /\ len key = n
  /\ localized_key user exact n P (skip_white (Some rest)) Ku = Ret (Some (key, skip_white (Some rest)))
  /\ default_key (Some auth) [] None (Some P) = Ret (Some Ku)
  /\ take_key (Some auth) (Some id) None None Ku ds = Ret (Some (Some key)).
Proof.
  intros room Hh Ht Hid Hidl HP Hrest Hauth Heng. pose proof (fun m => hash_function_length auth h m Hh) as Hlen.
  set (Ku := h (repeated P 0 (Z.to_nat USM_LENGTH_EXPANDED_PASSPHRASE))).
  assert (Hsame : forall m, len (h m) = len (h [])).
  { intros m. destruct (Hlen m) as [E _], (Hlen []) as [E' _]. rewrite E in E'. by injection E'. }
  assert (HKu : len Ku = len (h [])) by apply Hsame.
  set (part := take (Z.to_nat (len (h []))) Ku). set (key := h (part ++ id ++ part)).
  destruct (Hlen []) as [Hproper Hrange]. destruct (pass_word_no_option P HP) as [Hm Hl]. pose proof HP as (_ & [Hmin _] & _).
  assert (HKuP : forall room, 20 <= room -> generate_Ku (Some auth) (Some P) room = Ret (SNMPERR_SUCCESS, Ku))
    by (intros; by apply Ku_exact).
  assert (Hkul : forall room, len (h []) <= room ->
            generate_kul (Some auth) (Some id) (Some Ku) room = Ret (SNMPERR_SUCCESS, key)).
  { intros r Hr. apply kul_exact; try done; [unfold SNMP_MAXBUF; lia|lia]. }
  exists Ku, key, (len (h [])). repeat split.
  - unfold user_key_option. rewrite next_word_plain by done. rewrite Hm, Hl, HKuP by done. done.
  - done.
  - apply Hsame.
  - unfold localized_key. rewrite Hl, room by lia. rewrite Hauth, Heng, Hkul by lia. done.
  - unfold default_key. by rewrite HKuP.
  - unfold take_key. destruct (Z.eqb_spec (len Ku) 0); [lia|]. cbn [negb]. rewrite room by done. cbn [negb].
    unfold USM_LENGTH_KU_HASHBLOCK. rewrite Hkul by lia. done.
Qed.

(** The phrase "password" for alice. *)
Lemma passwords_agree_witness : exists Ku key,
  default_key (H := sample_steady) (Some usmHMACMD5AuthProtocol) [] None (Some (chars "password")) = Ret (Some Ku)
  /\ localized_key (H := sample_steady) alice true 16 (chars "password") None Ku = Ret (Some (key, None))
  /\ take_key (H := sample_steady) (Some usmHMACMD5AuthProtocol) (Some [9]) None None Ku None = Ret (Some (Some key)).
Proof.
  edestruct (passwords_agree (H := sample_steady) usmHMACMD5AuthProtocol
    (fun m => EVP_md5 (Platform := sample_steady) m) [9] (chars "password") [] [] alice None true)
    as (Ku & key & n & _ & En & _ & Ha & Hd & Ht).
  - intros n Hn. apply Z.ltb_lt. lia.
  - reflexivity.
  - reflexivity.
  - done.
  - by cbn.
  - split; [|split; [by cbn|by cbn]]. repeat constructor; done.
  - done.
  - reflexivity.
  - reflexivity.
  - exists Ku, key. split; [exact Hd|]. split; [|exact Ht].
    assert (H16 : Ret 16 = Ret n) by exact En. injection H16 as <-. exact Ha.
Defined.
