(* ===== verification/Requests.v ===== *)
(** * The requests of a session: snmplib/snmp_api.c

    Sending a message, the list of the requests that wait for an answer,
    packets that come in, retries and timeouts, and the synchronous calls of
    snmplib/snmp_client.c with the discovery of the engine's identifier on
    top.  There is one session and it is open; callbacks send messages on it
    but do not probe, close it, or change the message they are given. *)

From S2P Require Import Prelude Bytes AsnTypes AsnParse Alarm AsnRbuild VarOp Pdu Oid Lcd Usm Scapi Users UsmMsg Enum Session Secmod Message Client Stream.

Definition SNMPERR_BAD_SENDTO : Z := -12.
Definition SNMPERR_ABORT : Z := -22.
Definition SNMPERR_TIMEOUT : Z := -24.
Definition SNMPERR_BAD_RECVFROM : Z := -25.
Definition SNMPERR_PROTOCOL : Z := -64.
Definition SNMP_FLAGS_DONT_PROBE : Z := 0x100.
Definition UCD_MSG_FLAG_PDU_TIMEOUT : Z := 0x1000.
Definition UCD_MSG_FLAG_TUNNELED : Z := 0x4000.
Definition AGENTX_MSG_CLEANUPSET : Z := 11.
Definition AGENTX_MSG_RESPONSE : Z := 18.
Definition STAT_SUCCESS : Z := 0.
Definition STAT_ERROR : Z := 1.
Definition STAT_TIMEOUT : Z := 2.
Definition RECEIVED_MESSAGE : Z := 1.
Definition TIMED_OUT : Z := 2.
Definition DISCONNECT : Z := 5.
Definition PKTBUF_LEN : Z := 2048.
Definition sizeof_request_list : Z := 104.

(** ** State *)

(** [struct synch_state] *)
Record synch_state : Type := { sy_waiting : bool; sy_status : Z; sy_reqid : Z; sy_pdu : option netsnmp_pdu }.

(** What happens outside: a packet given to the transport (with the number of
    the request, and whether it is sent again, which the theorems speak of),
    whether it took it, a call of a callback of the application, a wait in
    [select]. *)
Inductive io : Type :=
  | Packet (request : Z) (again : bool) (bytes : list Z) (sent : bool)
  | Called (f op reqid : Z) (pdu : option netsnmp_pdu) (magic : Z)
  | Waited (timeout : option timeval).

(** The static variables, the session with its internal part, the states of
    the synchronous calls under way (a [callback_magic] of theirs is a place
    in that list), and what happened so far. *)
Record client : Type := {
  c_api : api;
  c_numbers : numbers;
  c_session : netsnmp_session;
  c_callback : option callback;
  c_magic : Z;
  c_timeout : Z;
  c_retries : Z;
  c_flags : Z;
  c_engineBoots : Z;
  c_engineTime : Z;
  c_open : bool;
  c_stream : stream;
  c_requests : list netsnmp_request;
  c_synch : list synch_state;
  c_trace : list io
}.

Definition with_api (a : api) (c : client) : client := {|
  c_api := a; c_numbers := c_numbers c; c_session := c_session c; c_callback := c_callback c; c_magic := c_magic c;
  c_timeout := c_timeout c; c_retries := c_retries c; c_flags := c_flags c; c_engineBoots := c_engineBoots c;
  c_engineTime := c_engineTime c; c_open := c_open c; c_stream := c_stream c; c_requests := c_requests c;
  c_synch := c_synch c; c_trace := c_trace c |}.
Definition with_numbers (n : numbers) (c : client) : client := {|
  c_api := c_api c; c_numbers := n; c_session := c_session c; c_callback := c_callback c; c_magic := c_magic c;
  c_timeout := c_timeout c; c_retries := c_retries c; c_flags := c_flags c; c_engineBoots := c_engineBoots c;
  c_engineTime := c_engineTime c; c_open := c_open c; c_stream := c_stream c; c_requests := c_requests c;
  c_synch := c_synch c; c_trace := c_trace c |}.
Definition with_session (s : netsnmp_session) (c : client) : client := {|
  c_api := c_api c; c_numbers := c_numbers c; c_session := s; c_callback := c_callback c; c_magic := c_magic c;
  c_timeout := c_timeout c; c_retries := c_retries c; c_flags := c_flags c; c_engineBoots := c_engineBoots c;
  c_engineTime := c_engineTime c; c_open := c_open c; c_stream := c_stream c; c_requests := c_requests c;
  c_synch := c_synch c; c_trace := c_trace c |}.
Definition with_flags (f : Z) (c : client) : client := {|
  c_api := c_api c; c_numbers := c_numbers c; c_session := c_session c; c_callback := c_callback c;
  c_magic := c_magic c; c_timeout := c_timeout c; c_retries := c_retries c; c_flags := f;
  c_engineBoots := c_engineBoots c; c_engineTime := c_engineTime c; c_open := c_open c; c_stream := c_stream c;
  c_requests := c_requests c; c_synch := c_synch c; c_trace := c_trace c |}.
Definition with_open (b : bool) (c : client) : client := {|
  c_api := c_api c; c_numbers := c_numbers c; c_session := c_session c; c_callback := c_callback c;
  c_magic := c_magic c; c_timeout := c_timeout c; c_retries := c_retries c; c_flags := c_flags c;
  c_engineBoots := c_engineBoots c; c_engineTime := c_engineTime c; c_open := b; c_stream := c_stream c;
  c_requests := c_requests c; c_synch := c_synch c; c_trace := c_trace c |}.
Definition with_stream (s : stream) (c : client) : client := {|
  c_api := c_api c; c_numbers := c_numbers c; c_session := c_session c; c_callback := c_callback c;
  c_magic := c_magic c; c_timeout := c_timeout c; c_retries := c_retries c; c_flags := c_flags c;
  c_engineBoots := c_engineBoots c; c_engineTime := c_engineTime c; c_open := c_open c; c_stream := s;
  c_requests := c_requests c; c_synch := c_synch c; c_trace := c_trace c |}.
Definition with_requests (l : list netsnmp_request) (c : client) : client := {|
  c_api := c_api c; c_numbers := c_numbers c; c_session := c_session c; c_callback := c_callback c;
  c_magic := c_magic c; c_timeout := c_timeout c; c_retries := c_retries c; c_flags := c_flags c;
  c_engineBoots := c_engineBoots c; c_engineTime := c_engineTime c; c_open := c_open c; c_stream := c_stream c;
  c_requests := l; c_synch := c_synch c; c_trace := c_trace c |}.
Definition with_synch (l : list synch_state) (c : client) : client := {|
  c_api := c_api c; c_numbers := c_numbers c; c_session := c_session c; c_callback := c_callback c;
  c_magic := c_magic c; c_timeout := c_timeout c; c_retries := c_retries c; c_flags := c_flags c;
  c_engineBoots := c_engineBoots c; c_engineTime := c_engineTime c; c_open := c_open c; c_stream := c_stream c;
  c_requests := c_requests c; c_synch := l; c_trace := c_trace c |}.
Definition log (e : io) (c : client) : client := {|
  c_api := c_api c; c_numbers := c_numbers c; c_session := c_session c; c_callback := c_callback c;
  c_magic := c_magic c; c_timeout := c_timeout c; c_retries := c_retries c; c_flags := c_flags c;
  c_engineBoots := c_engineBoots c; c_engineTime := c_engineTime c; c_open := c_open c; c_stream := c_stream c;
  c_requests := c_requests c; c_synch := c_synch c; c_trace := c_trace c ++ [e] |}.

Definition with_s_callback (b : bool) (session : netsnmp_session) : netsnmp_session := {|
  s_snmp_errno := s_snmp_errno session; s_version := s_version session; s_community := s_community session;
  s_rcvMsgMaxSize := s_rcvMsgMaxSize session; s_sndMsgMaxSize := s_sndMsgMaxSize session;
  s_contextEngineID := s_contextEngineID session; s_contextName := s_contextName session;
  s_securityEngineID := s_securityEngineID session; s_securityName := s_securityName session;
  s_securityModel := s_securityModel session; s_securityLevel := s_securityLevel session;
  s_isAuthoritative := s_isAuthoritative session; s_callback := b |}.

Definition with_s_engines (security context : list Z) (session : netsnmp_session) : netsnmp_session := {|
  s_snmp_errno := s_snmp_errno session; s_version := s_version session; s_community := s_community session;
  s_rcvMsgMaxSize := s_rcvMsgMaxSize session; s_sndMsgMaxSize := s_sndMsgMaxSize session;
  s_contextEngineID := context; s_contextName := s_contextName session;
  s_securityEngineID := security; s_securityName := s_securityName session;
  s_securityModel := s_securityModel session; s_securityLevel := s_securityLevel session;
  s_isAuthoritative := s_isAuthoritative session; s_callback := s_callback session |}.

(** [session->callback] and [session->callback_magic]. *)
Definition set_callback (cb : option callback) (magic : Z) (c : client) : client := {|
  c_api := c_api c; c_numbers := c_numbers c;
  c_session := with_s_callback (bool_decide (is_Some cb)) (c_session c); c_callback := cb; c_magic := magic;
  c_timeout := c_timeout c; c_retries := c_retries c; c_flags := c_flags c; c_engineBoots := c_engineBoots c;
  c_engineTime := c_engineTime c; c_open := c_open c; c_stream := c_stream c; c_requests := c_requests c;
  c_synch := c_synch c; c_trace := c_trace c |}.

(** [session->s_snmp_errno = e] *)
Definition set_errno (e : Z) (c : client) : client := with_session (with_s_snmp_errno e (c_session c)) c.

Definition with_usm (st : usm) (c : client) : client :=
  with_api {| a_usm := st; Transid := Transid (c_api c); ourEngineID_len := ourEngineID_len (c_api c) |} c.

(** [netsnmp_get_monotonic_clock] *)
Definition read_clock `{Platform} (c : client) : timeval * client :=
  let s := clocks (a_usm (c_api c)) in
  (clock (reads s),
   with_usm (with_clocks {| etimelist := etimelist s; engineID := engineID s; engineBoots := engineBoots s;
                            last_engineTime := last_engineTime s; snmpv3starttime := snmpv3starttime s;
                            reads := S (reads s) |} (a_usm (c_api c))) c).

(** ** The world *)

(** A message a callback sends. *)
Record sending : Type := { sd_pdu : netsnmp_pdu; sd_callback : option callback; sd_cb_data : Z }.

(** What [select] finds: something to read, which [recv] then gives or fails
    to give, the end of the time, a signal, or an error. *)
Inductive selected : Type := Ready (data : option (list Z)) | Expired | Interrupted | Failed.

(** The hooks of the internal session, its transport, the application's
    callbacks (the result and the messages they send) and [select].  What the
    outside does depends on all that happened before.  [hook_build] is either
    of the two hooks for building; a hook that accepts gives [true]. *)
Record environment : Type := {
  hook_pre : option (netsnmp_session -> bool);
  hook_parse : option (netsnmp_session -> netsnmp_pdu -> list Z -> netsnmp_session * netsnmp_pdu * Z);
  hook_post : option (netsnmp_session -> netsnmp_pdu -> Z -> bool);
  hook_build : option (netsnmp_session -> netsnmp_pdu -> option (list Z));
  check_packet : option (mem -> outcome Z);
  is_stream : bool;
  is_tunneled : bool;
  msgMaxSize : Z;
  packet_addr : Z;
  f_send : list io -> list Z -> bool;
  application : Z -> Z -> Z -> option netsnmp_pdu -> Z -> list io -> Z * list sending;
  select : list io -> option timeval -> selected
}.

Section requests.
Context `{Platform, Allocator, Crypto} (lib : library) (env : environment).
(** The arguments of [snmp_build] and [snmp_parse]. *)
Context (hole : list Z) (fuel64 : nat).
Context (leftover : Z -> Z * option mem * Z) (leftover_pdu : mem -> Z -> Z -> snmp_pdu -> snmp_pdu).
Context (leftover_names : mem -> Z -> list Z * list Z).
Context (authenticator : option (mem -> Z -> Z -> list Z -> outcome (Z * Z))) (get_statistic : Z -> Z).
Context (uninit : Z).

(** ** Sending *)

(** The packet, by a hook or by [snmp_build], and the message with what was
    filled in. *)
Definition build_packet (c : client) (pdu : netsnmp_pdu) : outcome (client * netsnmp_pdu * option (list Z)) :=
  match hook_build env with
  | Some f => Ret (c, pdu, f (c_session c) pdu)
  | None =>
      '(st, session, pdu, r) ←
        snmp_build lib hole fuel64 (a_usm (c_api c)) (c_session c) pdu
          {| pkt := replicate (Z.to_nat PKTBUF_LEN) 0; offset := 0 |};
      Ret (with_session session (with_usm st c), pdu,
           match r with
           | inl _ => None
           | inr (Backward s) => Some (behind s)
           | inr (Forward l) => Some l
           end)
  end.

Definition transport_send (request : Z) (again : bool) (bytes : list Z) (c : client) : bool * client :=
  let sent := f_send env (c_trace c) bytes in (sent, log (Packet request again bytes sent) c).

(** [tv.tv_usec += timeout; tv.tv_sec += tv.tv_usec / 1000000; tv.tv_usec %= 1000000] *)
Definition expires (now : timeval) (timeout : Z) : timeval :=
  let usec := s64 (tv_usec now + timeout) in
  {| tv_sec := tv_sec now + Z.quot usec 1000000; tv_usec := Z.rem usec 1000000 |}.

(** The version the message gets, or nothing. *)
Definition check_version (session : netsnmp_session) (pdu : netsnmp_pdu) : option netsnmp_pdu :=
  if m_version pdu =? SNMP_DEFAULT_VERSION then
    if s_version session =? SNMP_DEFAULT_VERSION then None else Some (with_m_version (s_version session) pdu)
  else if s_version session =? SNMP_DEFAULT_VERSION then Some pdu
  else if negb (m_version pdu =? s_version session) then None
  else Some pdu.

(** The [switch] on the command. *)
Definition expect_response (p : snmp_pdu) : snmp_pdu :=
  let c := command p in
  if (c =? SNMP_MSG_RESPONSE) || (c =? SNMP_MSG_TRAP) || (c =? SNMP_MSG_TRAP2) || (c =? SNMP_MSG_REPORT)
     || (c =? AGENTX_MSG_CLEANUPSET) || (c =? AGENTX_MSG_RESPONSE)
  then Session.with_flags (Z.land (flags p) (Z.lnot UCD_MSG_FLAG_EXPECT_RESPONSE)) p
  else Session.with_flags (Z.lor (flags p) UCD_MSG_FLAG_EXPECT_RESPONSE) p.

Definition expects (p : snmp_pdu) : bool := negb (Z.land (flags p) UCD_MSG_FLAG_EXPECT_RESPONSE =? 0).

Definition new_request (c : client) (pdu : netsnmp_pdu) (cb : option callback) (cb_data : Z) (tv : timeval)
    : netsnmp_request :=
  let timeout := if negb (Z.land (flags (m_body pdu)) UCD_MSG_FLAG_PDU_TIMEOUT =? 0)
                 then u64 (time (m_body pdu) * 1000000) else u64 (c_timeout c) in
  {| rq_request_id := reqid (m_body pdu); rq_message_id := m_msgid pdu; rq_callback := cb; rq_cb_data := cb_data;
     rq_retries := 0; rq_timeout := timeout; rq_timeM := tv; rq_expireM := expires tv timeout; rq_pdu := pdu |}.

(** From the packet to the end: [0], or the number of the request. *)
Definition send_packet (c : client) (pdu : netsnmp_pdu) (bytes : list Z) (cb : option callback) (cb_data : Z)
    : client * Z :=
  let too_long limit := negb (limit =? 0) && (limit <? len bytes) in
  if too_long (s_sndMsgMaxSize (c_session c)) || too_long (msgMaxSize env) then (set_errno SNMPERR_TOO_LONG c, 0)
  else
    let '(sent, c) := transport_send (reqid (m_body pdu)) false bytes c in
    if negb sent then (set_errno SNMPERR_BAD_SENDTO c, 0)
    else if expects (m_body pdu) then
      if negb (alloc sizeof_request_list) then (set_errno SNMPERR_GENERR c, 0)
      else
        let '(tv, c) := read_clock c in
        (with_requests (c_requests c ++ [new_request c pdu cb cb_data tv]) c, reqid (m_body pdu))
    else (c, reqid (m_body pdu)).

(** [_sess_async_send]; [probe] is [snmpv3_engineID_probe], which gives
    [false] after an error. *)
Definition _sess_async_send (probe : client -> outcome (client * bool)) (c : client) (pdu : netsnmp_pdu)
    (cb : option callback) (cb_data : Z) : outcome (client * Z) :=
  let c := set_errno 0 c in
  match check_version (c_session c) pdu with
  | None => Ret (set_errno SNMPERR_BAD_VERSION c, 0)
  | Some pdu =>
      let pdu := with_m_body (expect_response (m_body pdu)) pdu in
      '(c, ok) ← (if (m_version pdu =? SNMP_VERSION_3) && expects (m_body pdu)
                     && (len (s_securityEngineID (c_session c)) =? 0)
                     && (Z.land (c_flags c) SNMP_FLAGS_DONT_PROBE =? 0)
                  then probe c else Ret (c, true));
      if negb ok then Ret (c, 0)
      else if negb (alloc PKTBUF_LEN) then Ret (set_errno SNMPERR_MALLOC c, 0)
      else
        '(c, pdu, packet) ← build_packet c pdu;
        match packet with
        | None => Ret (c, 0)
        | Some bytes => Ret (send_packet c pdu bytes cb cb_data)
        end
  end.

(** A callback that would make the session probe is outside the model: that
    is [Null]. *)
Definition send_from_callback (c : client) (s : sending) : outcome client :=
  '(c, _) ← _sess_async_send (fun _ => Null) c (sd_pdu s) (sd_callback s) (sd_cb_data s); Ret c.

(** ** Callbacks *)

Fixpoint send_all (l : list sending) (c : client) : outcome client :=
  match l with
  | [] => Ret c
  | s :: l => c ← send_from_callback c s; send_all l c
  end.

Definition with_status (w : bool) (status : Z) (pdu : option netsnmp_pdu) (s : synch_state) : synch_state :=
  {| sy_waiting := w; sy_status := status; sy_reqid := sy_reqid s; sy_pdu := pdu |}.

(** [state] is at place [magic]. *)
Definition snmp_synch_input (op reqid : Z) (pdu : option netsnmp_pdu) (magic : Z) (c : client) : outcome (client * Z) :=
  match c_synch c !! Z.to_nat magic with
  | None => Overrun
  | Some state =>
      let unexpected := match pdu with
                        | Some pdu => negb (command (m_body pdu) =? SNMP_MSG_REPORT)
                        | None => false
                        end in
      let store s c := with_synch (<[Z.to_nat magic := s]> (c_synch c)) c in
      if negb (reqid =? s32 (sy_reqid state)) && unexpected then Ret (c, 0)
      else
        match pdu with
        | Some pdu =>
            if op =? RECEIVED_MESSAGE then
              if command (m_body pdu) =? SNMP_MSG_REPORT then
                let rpt_type := snmpv3_get_report_type pdu in
                Ret (set_errno rpt_type
                       (store (with_status (rpt_type =? SNMPERR_NOT_IN_TIME_WINDOW) STAT_ERROR None state) c), 1)
              else if command (m_body pdu) =? SNMP_MSG_RESPONSE then
                copy ← snmp_clone_pdu pdu;
                Ret (set_errno SNMPERR_SUCCESS (store (with_status false STAT_SUCCESS copy state) c), 1)
              else Ret (set_errno SNMPERR_PROTOCOL
                          (store (with_status false STAT_ERROR (sy_pdu state) state) c), 0)
            else if op =? TIMED_OUT then
              Ret (set_errno SNMPERR_TIMEOUT (store (with_status false STAT_TIMEOUT None state) c), 1)
            else if op =? DISCONNECT then
              Ret (set_errno SNMPERR_ABORT (store (with_status false STAT_ERROR None state) c), 1)
            else Ret (store (with_status false (sy_status state) (sy_pdu state) state) c, 1)
        | None =>
            if op =? TIMED_OUT then
              Ret (set_errno SNMPERR_TIMEOUT (store (with_status false STAT_TIMEOUT None state) c), 1)
            else if op =? DISCONNECT then
              Ret (set_errno SNMPERR_ABORT (store (with_status false STAT_ERROR None state) c), 1)
            else Ret (store (with_status false (sy_status state) (sy_pdu state) state) c, 1)
        end
  end.

(** The number of the request is an [int] there. *)
Definition call_back (cb : callback) (op reqid : Z) (pdu : option netsnmp_pdu) (magic : Z) (c : client)
    : outcome (client * Z) :=
  let reqid := s32 reqid in
  match cb with
  | Synch_input => snmp_synch_input op reqid pdu magic c
  | Application f =>
      let '(r, sends) := application env f op reqid pdu magic (c_trace c) in
      c ← send_all sends (log (Called f op reqid pdu magic) c); Ret (c, r)
  end.

(** The callback of a request, or else the session's. *)
Definition callback_of (rp : netsnmp_request) (c : client) : option callback * Z :=
  match rq_callback rp with
  | Some cb => (Some cb, rq_cb_data rp)
  | None => (c_callback c, c_magic c)
  end.

(** ** Sending again *)

Definition resent (rp : netsnmp_request) (retries msgid : Z) (pdu : netsnmp_pdu) (tv expire : timeval)
    : netsnmp_request :=
  {| rq_request_id := rq_request_id rp; rq_message_id := msgid; rq_callback := rq_callback rp;
     rq_cb_data := rq_cb_data rp; rq_retries := retries; rq_timeout := rq_timeout rp; rq_timeM := tv;
     rq_expireM := expire; rq_pdu := pdu |}.

(** The request at place [i]; [true] is the 0 of a success. *)
Definition snmp_resend_request (i : nat) (rp : netsnmp_request) (incr_retries : bool) (c : client)
    : outcome (client * bool) :=
  if negb (alloc PKTBUF_LEN) then Ret (c, true)
  else
    let retries := if incr_retries then rq_retries rp + 1 else rq_retries rp in
    let '(msgid, n) := snmp_get_next_msgid (short_ids lib) (c_numbers c) in
    let update pdu tv expire c :=
      with_requests (<[i := resent rp retries msgid pdu tv expire]> (c_requests c)) c in
    '(c, pdu, packet) ← build_packet (with_numbers n c) (with_m_msgid msgid (rq_pdu rp));
    match packet with
    | None => Ret (update pdu (rq_timeM rp) (rq_expireM rp) c, false)
    | Some bytes =>
        let '(sent, c) := transport_send (rq_request_id rp) true bytes c in
        if negb sent
        then Ret (set_errno SNMPERR_BAD_SENDTO (update pdu (rq_timeM rp) (rq_expireM rp) c), false)
        else
          let '(now, c) := read_clock c in
          Ret (update pdu now (expires now (rq_timeout rp)) c, true)
    end.

Definition drop_request (i : nat) (c : client) : client := with_requests (delete i (c_requests c)) c.

(** The loop of [snmp_sess_timeout] from place [i] on.  A request that is
    removed leaves its place to the next one.  A security model's
    [pdu_timeout] is left out: the user-based one has none. *)
Fixpoint timeout_loop (fuel : nat) (now : timeval) (i : nat) (c : client) : outcome client :=
  match fuel with
  | O => Spin
  | S fuel =>
      match c_requests c !! i with
      | None => Ret c
      | Some rp =>
          if timercmp_lt (rq_expireM rp) now then
            if c_retries c <=? rq_retries rp then
              let '(cb, magic) := callback_of rp c in
              c ← match cb with
                  | Some cb =>
                      '(c, _) ← call_back cb TIMED_OUT (reqid (m_body (rq_pdu rp))) (Some (rq_pdu rp)) magic c; Ret c
                  | None => Ret c
                  end;
              timeout_loop fuel now i (drop_request i c)
            else
              '(c, ok) ← snmp_resend_request i rp true c;
              if (ok : bool) then timeout_loop fuel now (S i) c else Ret c
          else timeout_loop fuel now (S i) c
      end
  end.

Definition snmp_sess_timeout (fuel : nat) (c : client) : outcome client :=
  let '(now, c) := read_clock c in timeout_loop fuel now 0 c.

(** The callbacks when a session is closed: those of the requests only.  What
    they send is refused: the session has no internal part any more. *)
Fixpoint close_requests (l : list netsnmp_request) (c : client) : outcome client :=
  match l with
  | [] => Ret c
  | rp :: l =>
      c ← match rq_callback rp with
          | Some (Application f) =>
              Ret (log (Called f TIMED_OUT (s32 (reqid (m_body (rq_pdu rp)))) (Some (rq_pdu rp)) (rq_cb_data rp)) c)
          | Some Synch_input =>
              '(c, _) ← snmp_synch_input TIMED_OUT (s32 (reqid (m_body (rq_pdu rp)))) (Some (rq_pdu rp))
                          (rq_cb_data rp) c; Ret c
          | None => Ret c
          end;
      close_requests l c
  end.

Definition snmp_sess_close (c : client) : outcome client :=
  close_requests (c_requests c) (with_open false (with_requests [] (with_stream no_packet c))).

(** ** Packets that come in *)

(** The discovery of the engine's identifier from a report; [None] is the
    early return when there is no memory. *)
Definition discover (pdu : netsnmp_pdu) (session : netsnmp_session) : netsnmp_session * bool :=
  let id := m_securityEngineID pdu in
  if (len (s_securityEngineID session) =? 0) && negb (len id =? 0) then
    if negb (alloc (len id)) then (session, false)
    else if len (s_contextEngineID session) =? 0 then
      (with_s_engines id id session, true)
    else (with_s_engines id (s_contextEngineID session) session, true)
  else (session, true).

(** After the callback was satisfied: the result tells whether
    [_sess_process_packet] goes on. *)
Definition finish_request (i : nat) (rp : netsnmp_request) (pdu : netsnmp_pdu) (c : client) : outcome (client * bool) :=
  if command (m_body pdu) =? SNMP_MSG_REPORT then
    if ((s_snmp_errno (c_session c) =? SNMPERR_NOT_IN_TIME_WINDOW)
        || (snmpv3_get_report_type pdu =? SNMPERR_NOT_IN_TIME_WINDOW))
       && (rq_retries rp <=? c_retries c)
    then '(c, _) ← snmp_resend_request i rp true c; Ret (c, true)
    else
      let '(session, ok) := discover pdu (c_session c) in
      let c := with_session session c in
      if ok then Ret (drop_request i c, true) else Ret (c, false)
  else Ret (drop_request i c, true).

(** Whether the answer [pdu] is for the request, and whether to stop. *)
Inductive matching : Set := Next | Stop | Match.

Definition matches (rp : netsnmp_request) (pdu : netsnmp_pdu) : matching :=
  if m_version pdu =? SNMP_VERSION_3 then
    if negb (rq_message_id rp =? m_msgid pdu) then Next
    else if negb (snmpv3_verify_msg rp pdu) then Stop
    else Match
  else if negb (rq_request_id rp =? reqid (m_body pdu)) then Next
  else Match.

(** The loop over the requests, from place [i] on. *)
Fixpoint answer_loop (fuel : nat) (i : nat) (pdu : netsnmp_pdu) (c : client) : outcome (client * bool) :=
  match fuel with
  | O => Spin
  | S fuel =>
      match c_requests c !! i with
      | None => Ret (c, true)
      | Some rp =>
          match matches rp pdu with
          | Next => answer_loop fuel (S i) pdu c
          | Stop => Ret (c, true)
          | Match =>
              let '(cb, magic) := callback_of rp c in
              '(c, r) ← match cb with
                         | None => Ret (c, 1)
                         | Some cb => call_back cb RECEIVED_MESSAGE (reqid (m_body pdu)) (Some pdu) magic c
                         end;
              if r =? 1 then finish_request i rp pdu c else answer_loop fuel (S i) pdu c
          end
      end
  end.

(** What [snmp_parse] did outside, done behind it. *)
Definition do_event (c : client) (e : event) : outcome client :=
  match e with
  | Received _ pdu =>
      match c_callback c with
      | Some cb => '(c, _) ← call_back cb RECEIVED_MESSAGE (reqid (m_body pdu)) (Some pdu) (c_magic c) c; Ret c
      | None => Ret c
      end
  | Sent pdu => '(c, _) ← _sess_async_send (fun _ => Null) c pdu None 0; Ret c
  end.

Fixpoint do_events (l : list event) (c : client) : outcome client :=
  match l with
  | [] => Ret c
  | e :: l => c ← do_event c e; do_events l c
  end.

Definition parse_packet (c : client) (pdu : netsnmp_pdu) (bytes : list Z) : outcome (client * netsnmp_pdu * Z) :=
  match hook_parse env with
  | Some f => let '(session, pdu, ret) := f (c_session c) pdu bytes in Ret (with_session session c, pdu, ret)
  | None =>
      '(a, session, pdu, ret, events) ←
        snmp_parse lib leftover leftover_pdu leftover_names authenticator get_statistic true (c_api c) (c_session c)
          pdu bytes (packet_addr env) (len bytes);
      c ← do_events events (with_session session (with_api a c));
      Ret (c, pdu, ret)
  end.

(** The message that is handed on: it has no state reference when it is an
    answer. *)
Definition deliver (fuel : nat) (pdu : netsnmp_pdu) (c : client) : outcome (client * Z) :=
  if negb (Z.land (flags (m_body pdu)) UCD_MSG_FLAG_RESPONSE_PDU =? 0) then
    '(c, ok) ← answer_loop fuel 0 (with_m_securityStateRef None pdu) c;
    Ret (c, if (ok : bool) then 0 else -1)
  else
    match c_callback c with
    | Some cb =>
        '(c, _) ← call_back cb RECEIVED_MESSAGE (reqid (m_body pdu)) (Some pdu) (c_magic c) c; Ret (c, 0)
    | None => Ret (c, 0)
    end.

(** The flag of a tunnel is put into a message before the test whether there
    is one. *)
Definition _sess_process_packet (fuel : nat) (c : client) (bytes : list Z) : outcome (client * Z) :=
  if match hook_pre env with Some f => negb (f (c_session c)) | None => false end then Ret (c, -1)
  else if negb (alloc sizeof_pdu) then if is_tunneled env then Overrun else Ret (c, -1)
  else
    let pdu := if is_tunneled env
               then with_m_body (Session.with_flags UCD_MSG_FLAG_TUNNELED (m_body zero_pdu)) zero_pdu
               else zero_pdu in
    '(c, pdu, ret) ← parse_packet c pdu bytes;
    let ret := match hook_post env with
               | Some f => if f (c_session c) pdu ret then ret else SNMPERR_ASN_PARSE_ERR
               | None => ret
               end in
    if negb (ret =? 0) then Ret (c, -1) else deliver fuel pdu c.

(** ** Reading *)

Definition check_of (l : list Z) : outcome Z :=
  match check_packet env with
  | Some f => f l
  | None => asn_check_packet l (len l) uninit
  end.

(** The callback for a connection that is gone. *)
Definition disconnect (c : client) : outcome client :=
  match c_callback c with
  | Some cb => '(c, _) ← call_back cb DISCONNECT 0 None (c_magic c) c; Ret c
  | None => Ret c
  end.

Definition read_pieces (fuel : nat) (c : client) (data : list Z) (saved : list Z) (size : Z) : outcome (client * Z) :=
  '(c, e) ← read_stream check_of (_sess_process_packet fuel) saved data size c;
  c ← (if r_illegal e then disconnect c else Ret c);
  Ret (with_stream (r_stream e) (with_open (c_open c && negb (r_closed e)) c), r_result e).

(** [_sess_read] without listening sockets, and without transports that take
    a packet for themselves; [data] is what [recv] gives. *)
Definition _sess_read (fuel : nat) (c : client) (data : option (list Z)) : outcome (client * Z) :=
  if negb (c_open c) then Ret (c, 0)
  else
    let c := set_errno 0 c in
    if is_stream env then
      match stream_room (c_stream c) with
      | None => Ret (c, 0)
      | Some (saved, _, size) =>
          match data with
          | None | Some [] => c ← disconnect c; Ret (with_stream no_packet (with_open false c), -1)
          | Some data => read_pieces fuel c data saved size
          end
      end
    else if negb (alloc RXBUF_LEN) then Ret (c, 0)
    else
      match data with
      | None => Ret (set_errno SNMPERR_BAD_RECVFROM c, -1)
      | Some data => _sess_process_packet fuel c data
      end.

(** ** Waiting *)

(** The earliest of the times the requests expire at. *)
Definition earliest_expiry (l : list netsnmp_request) : timeval :=
  foldl (fun earliest rp =>
           if negb (timerisset earliest)
              || (timerisset (rq_expireM rp) && timercmp_lt (rq_expireM rp) earliest)
           then rq_expireM rp else earliest) timerclear l.

(** [snmp_sess_select_info2_flags] for one session: [timeout] and [block].
    [next_alarm] is the time of the next alarm; it is not asked for when the
    alarms are on signals or the flags say so. *)
Definition select_info (next_alarm : timeval -> option timeval) (timeout : timeval) (block : bool) (c : client)
    : timeval * bool * client :=
  let earliest := earliest_expiry (c_requests c) in
  let '(now, c) := read_clock c in
  match next_alarm now with
  | None =>
      if bool_decide (c_requests c = []) then (timeout, true, c)
      else
        let delta := NETSNMP_TIMERSUB earliest now in
        let delta := if tv_sec delta <? 0 then timerclear else delta in
        if block || timercmp_lt delta timeout then (delta, false, c) else (timeout, block, c)
  | Some alarm_tm =>
      let earliest := if negb (timerisset earliest) || timercmp_lt alarm_tm earliest then alarm_tm else earliest in
      let delta := NETSNMP_TIMERSUB earliest now in
      let delta := if tv_sec delta <? 0 then timerclear else delta in
      if block || timercmp_lt delta timeout then (delta, false, c) else (timeout, block, c)
  end.

(** ** Synchronous requests *)

Definition waiting (i : nat) (c : client) : bool :=
  match c_synch c !! i with Some s => sy_waiting s | None => false end.

(** One turn of the loop of [snmp_sess_synch_response]; [i] is the place of
    its state.  A session whose transport has been closed is freed by
    [snmp_sess_select_info_flags]. *)
Definition synch_turn (fuel : nat) (i : nat) (c : client) : outcome client :=
  if negb (c_open c) then Overrun
  else
    let '(timeout, block, c) := select_info (fun _ => None) timerclear true c in
    let tvp := if (block : bool) then None else Some timeout in
    let found := select env (c_trace c) tvp in
    let c := log (Waited tvp) c in
    match found with
    | Ready data => '(c, _) ← _sess_read fuel c data; Ret c
    | Expired => snmp_sess_timeout fuel c
    | Interrupted => Ret c
    | Failed => Ret (with_synch (alter (fun s => with_status false STAT_ERROR (sy_pdu s) s) i (c_synch c)) c)
    end.

(** [turns] bounds the waits, [fuel] the loops over the requests. *)
Fixpoint synch_loop (turns fuel : nat) (i : nat) (c : client) : outcome client :=
  if negb (waiting i c) then Ret c
  else
    match turns with
    | O => Spin
    | S turns => c ← synch_turn fuel i c; synch_loop turns fuel i c
    end.

(** The status and the answer. *)
Definition snmp_sess_synch_response (send : client -> netsnmp_pdu -> option callback -> Z -> outcome (client * Z))
    (turns fuel : nat) (c : client) (pdu : netsnmp_pdu) : outcome (client * Z * option netsnmp_pdu) :=
  let cbsav := c_callback c in
  let cbmagsav := c_magic c in
  let i := length (c_synch c) in
  let c := with_synch (c_synch c ++ [{| sy_waiting := false; sy_status := 0; sy_reqid := 0; sy_pdu := None |}]) c in
  let c := set_callback (Some Synch_input) (Z.of_nat i) c in
  '(c, reqid) ← send c pdu None 0;
  let reqid := s32 reqid in
  let state := {| sy_waiting := negb (reqid =? 0); sy_status := if reqid =? 0 then STAT_ERROR else 0;
                  sy_reqid := reqid; sy_pdu := None |} in
  c ← synch_loop turns fuel i (with_synch (<[i := state]> (c_synch c)) c);
  let '(status, response) := match c_synch c !! i with
                             | Some s => (sy_status s, sy_pdu s)
                             | None => (STAT_ERROR, None)
                             end in
  Ret (set_callback cbsav cbmagsav (with_synch (take i (c_synch c)) c), status, response).

(** ** Discovery *)

(** The empty user, when there is none. *)
Definition empty_user : usmUser := {|
  u_engineID := None; u_name := strdup []; u_secName := strdup [];
  u_authProtocol := duplicate 8 usmNoAuthProtocol; u_authKey := None;
  u_privProtocol := duplicate 8 usmNoPrivProtocol; u_privKey := None; u_userStatus := 0; u_cloneFrom := None;
  u_userPublicString := None; u_userStorageType := 0 |}.

Definition usm_build_probe_pdu (c : client) : outcome (option netsnmp_pdu * client) :=
  let '(pdu, n) := snmp_pdu_create (short_ids lib) SNMP_MSG_GET (c_numbers c) in
  let c := with_numbers n c in
  match pdu with
  | None => Ret (None, c)
  | Some pdu =>
      let pdu := with_m_securityModel SNMP_SEC_MODEL_USM (with_m_securityLevel SNMP_SEC_LEVEL_NOAUTH
                   (with_m_securityName (Some []) (with_m_version SNMP_VERSION_3 pdu))) in
      match usm_get_user None (Some []) (a_usm (c_api c)) with
      | Some _ => Ret (Some pdu, c)
      | None =>
          if negb (alloc sizeof_usmUser) then Ret (None, c)
          else st ← usm_add_user empty_user (a_usm (c_api c)); Ret (Some pdu, with_usm st c)
      end
  end.

Definition usm_discover_engineid (turns fuel : nat) (c : client) : outcome (client * bool) :=
  '(pdu, c) ← usm_build_probe_pdu c;
  match pdu with
  | None => Ret (c, false)
  | Some pdu =>
      let c := with_flags (Z.lor (c_flags c) SNMP_FLAGS_DONT_PROBE) c in
      '(c, status, response) ← snmp_sess_synch_response (_sess_async_send (fun _ => Null)) turns fuel c pdu;
      let status := if bool_decide (response = None) && (status =? STAT_SUCCESS) then STAT_ERROR else status in
      let c := if status =? STAT_SUCCESS then set_errno SNMPERR_INVALID_MSG c
               else if status =? STAT_ERROR then set_errno SNMPERR_UNKNOWN_ENG_ID c
               else if status =? STAT_TIMEOUT then set_errno SNMPERR_TIMEOUT c
               else c in
      if len (s_securityEngineID (c_session c)) =? 0
      then Ret (with_flags (Z.land (c_flags c) (Z.lnot SNMP_FLAGS_DONT_PROBE)) c, false)
      else
        let c := set_errno SNMPERR_SUCCESS c in
        if negb (c_engineBoots c =? 0) || negb (c_engineTime c =? 0) then
          '(_, s) ← set_enginetime (clocks (a_usm (c_api c))) (Some (s_securityEngineID (c_session c)))
                      (c_engineBoots c) (c_engineTime c) true;
          Ret (with_usm (with_clocks s (a_usm (c_api c))) c, true)
        else Ret (c, true)
  end.

(** [post_probe] is [usm_create_user_from_session], which makes a user of the
    session's keys; of the security models the user-based one alone has these
    two routines. *)
Definition snmpv3_engineID_probe (post_probe : client -> outcome (client * bool)) (turns fuel : nat) (c : client)
    : outcome (client * bool) :=
  let session := c_session c in
  let is_usm := bool_decide (is_Some (find_sec_mod (s_securityModel session) (secmods lib)))
                && (s_securityModel session =? USM_SEC_MODEL_NUMBER) in
  '(c, ok) ← (if (s_version session =? SNMP_VERSION_3) && (Z.land (c_flags c) SNMP_FLAGS_DONT_PROBE =? 0)
              then if is_usm then usm_discover_engineid turns fuel c else Ret (c, false)
              else Ret (c, true));
  if negb ok then Ret (c, false)
  else if is_usm then post_probe c else Ret (c, true).

(** A message of the application. *)
Definition snmp_sess_async_send (post_probe : client -> outcome (client * bool)) (turns fuel : nat) (c : client)
    (pdu : netsnmp_pdu) (cb : option callback) (cb_data : Z) : outcome (client * Z) :=
  _sess_async_send (snmpv3_engineID_probe post_probe turns fuel) c pdu cb cb_data.
End requests.
