(* ===== verification/RequestsProps.v ===== *)
(** * Lemmas on the requests of a session

    What each routine keeps of a session, how the list of requests grows, and
    what a pass over it does. *)

From S2P Require Import Prelude Bytes AsnTypes AsnParse Alarm AsnRbuild VarOp Pdu Oid Lcd Usm Scapi Users UsmMsg Enum Session Secmod Message Client Stream Requests Samples Codec PduProps UsmProps UsmMsgProps MessageProps.

(** ** What sending and callbacks keep *)

Definition is_packet (request : Z) (again : bool) (e : io) : bool :=
  match e with Packet r a _ _ => (r =? request) && Bool.eqb a again | _ => false end.

(** How often the request with a number was sent first, and again. *)
Definition times_first (request : Z) (tr : list io) : Z := Z.of_nat (length (List.filter (is_packet request false) tr)).
Definition times_again (request : Z) (tr : list io) : Z := Z.of_nat (length (List.filter (is_packet request true) tr)).

(** How often the requests [l] with a number may still be sent. *)
Definition tries_left (request retries : Z) (l : list netsnmp_request) : Z :=
  foldr (fun rp n => (if rq_request_id rp =? request then retries + 1 - rq_retries rp else 0) + n) 0 l.

Lemma times_first_app i a b : times_first i (a ++ b) = times_first i a + times_first i b.
Proof. unfold times_first. rewrite List.filter_app, length_app. lia. Qed.

Lemma times_again_app i a b : times_again i (a ++ b) = times_again i a + times_again i b.
Proof. unfold times_again. rewrite List.filter_app, length_app. lia. Qed.

Lemma tries_left_app i n a b : tries_left i n (a ++ b) = tries_left i n a + tries_left i n b.
Proof. unfold tries_left in *. induction a as [|rp a IH]; [done|]. cbn [app foldr]. rewrite IH. lia. Qed.

Lemma tries_left_insert i n l j rp rp' : l !! j = Some rp -> rq_request_id rp' = rq_request_id rp ->
  tries_left i n (<[j := rp']> l) = tries_left i n l - (if rq_request_id rp =? i then rq_retries rp' - rq_retries rp else 0).
Proof.
  unfold tries_left. revert j. induction l as [|rq l IH]; intros [|j] Hj E; try done; cbn in Hj.
  - injection Hj as ->. cbn. rewrite E. case_match; lia.
  - change (<[S j:=rp']> (rq :: l)) with (rq :: <[j:=rp']> l). cbn [foldr]. rewrite (IH j Hj E). lia.
Qed.

Lemma tries_left_delete i n l j : Forall (fun rp => rq_retries rp <= n + 1) l -> tries_left i n (delete j l) <= tries_left i n l.
Proof.
  unfold tries_left. intros Hl. revert j. induction Hl as [|rq l Hrq Hl IH]; intros j; [done|].
  destruct j as [|j]; [cbn; case_match; lia|]. change (delete (S j) (rq :: l)) with (rq :: delete j l). cbn [foldr]. specialize (IH j). lia.
Qed.

Lemma tries_left_pos i n l : Forall (fun rp => rq_retries rp <= n + 1) l -> 0 <= tries_left i n l.
Proof. unfold tries_left. induction 1 as [|rp l Hrp _ IH]; cbn [foldr]; [done|]. case_match; lia. Qed.

(** New requests, each of which was sent once. *)
Definition sent_first (l : list netsnmp_request) (tr : list io) : Prop :=
  forall i, times_again i tr = 0 /\ forall n, 0 <= n -> tries_left i n l <= (n + 1) * times_first i tr.

Lemma sent_first_app l l' tr tr' : sent_first l tr -> sent_first l' tr' -> sent_first (l ++ l') (tr ++ tr').
Proof.
  intros H1 H2 i. rewrite times_again_app. setoid_rewrite tries_left_app. setoid_rewrite times_first_app.
  destruct (H1 i) as [-> L1], (H2 i) as [-> L2]. split; [done|]. intros n Hn. specialize (L1 n Hn). specialize (L2 n Hn). lia.
Qed.

Lemma sent_first_nil tr : (forall i, times_again i tr = 0) -> sent_first [] tr.
Proof. intros Ht i. split; [done|]. intros n Hn. unfold times_first. cbn. lia. Qed.

(** The parameters of the session stay, and requests come to the end of the
    list. *)
Record extends (c c' : client) : Prop := {
  ext_retries : c_retries c' = c_retries c;
  ext_timeout : c_timeout c' = c_timeout c;
  ext_callback : c_callback c' = c_callback c;
  ext_magic : c_magic c' = c_magic c;
  ext_requests : exists l tr, c_requests c' = c_requests c ++ l /\ Forall (fun rp => rq_retries rp = 0) l /\
    c_trace c' = c_trace c ++ tr /\ sent_first l tr
}.

#[export] Instance extends_preorder : PreOrder extends.
Proof.
  split.
  - intros c. split; try done. exists [], []. rewrite !app_nil_r. split_and!; [done..|]. by apply sent_first_nil.
  - intros c c1 c2 [????(l & tr & E & Hl & Et & Hs)] [????(l' & tr' & E' & Hl' & Et' & Hs')]. split; try congruence.
    exists (l ++ l'), (tr ++ tr'). rewrite E', E, Et', Et, !app_assoc. split_and!; [done|by apply Forall_app|done|by apply sent_first_app].
Qed.

(** Nothing but what the setters below change. *)
Lemma extends_same c c' :
  c_retries c' = c_retries c -> c_timeout c' = c_timeout c -> c_callback c' = c_callback c ->
  c_magic c' = c_magic c -> c_requests c' = c_requests c -> c_trace c' = c_trace c -> extends c c'.
Proof.
  intros ????E Et. split; try done. exists [], []. rewrite !app_nil_r. split_and!; [done..|]. by apply sent_first_nil.
Qed.

Definition is_call (e : io) : bool := match e with Called _ _ _ _ _ => true | _ => false end.

Lemma extends_log e c : (forall i again, is_packet i again e = false) -> extends c (log e c).
Proof.
  intros He. split; try done. exists [], [e]. rewrite app_nil_r. split_and!; [done..|]. apply sent_first_nil. intros i.
  unfold times_again. cbn. by rewrite He.
Qed.

Create HintDb client.
#[export] Hint Extern 1 (extends _ _) => (apply extends_same; reflexivity) : client.
#[export] Hint Extern 1 (extends _ (log (Called _ _ _ _ _) _)) => (by apply extends_log) : client.
#[export] Hint Extern 1 (extends _ (log (Waited _) _)) => (by apply extends_log) : client.

Section frames.
Context `{Platform, Allocator, Crypto} (lib : library) (env : environment).
Context (hole : list Z) (fuel64 : nat).
Context (leftover : Z -> Z * option mem * Z) (leftover_pdu : mem -> Z -> Z -> snmp_pdu -> snmp_pdu).
Context (leftover_names : mem -> Z -> list Z * list Z).
Context (authenticator : option (mem -> Z -> Z -> list Z -> outcome (Z * Z))) (get_statistic : Z -> Z).
Context (uninit : Z).

(** A packet is built without a look at the requests. *)
Lemma build_packet_frame c pdu c' pdu' r : build_packet lib env hole fuel64 c pdu = Ret (c', pdu', r) ->
  exists a s, c' = with_session s (with_api a c).
Proof.
  unfold build_packet. destruct (hook_build env).
  - intros [= <- <- <-]. exists (c_api c), (c_session c). by destruct c.
  - intros ([[[st s] p] o] & _ & [= <- <- <-])%bind_Ret_inv. by do 2 eexists.
Qed.

Lemma build_packet_extends c pdu c' pdu' r : build_packet lib env hole fuel64 c pdu = Ret (c', pdu', r) ->
  extends c c' /\ c_requests c' = c_requests c /\ c_synch c' = c_synch c /\ c_trace c' = c_trace c.
Proof. intros (a & s & ->)%build_packet_frame. split; [auto with client|done]. Qed.

Lemma send_packet_extends c pdu bytes cb cb_data :
  extends c (send_packet env c pdu bytes cb cb_data).1.
Proof.
  unfold send_packet. destruct (_ || _); [auto with client|]. cbn [transport_send]. set (c1 := log _ c).
  assert (Hc1 : extends c c1).
  { split; try done. eexists [], [_]. rewrite app_nil_r. split_and!; [done..|]. apply sent_first_nil. intros i.
    unfold times_again. cbn. by rewrite andb_false_r. }
  destruct (f_send env (c_trace c) bytes); cbn [negb]; [|etransitivity; [exact Hc1|auto with client]].
  destruct (expects (m_body pdu)); [|exact Hc1]. destruct (alloc sizeof_request_list); cbn [negb]; [|etransitivity; [exact Hc1|auto with client]].
  split; try done. eexists [_], [_]. cbn. split; [done|]. split; [by apply Forall_singleton|]. split; [done|]. intros i.
  unfold times_again, times_first, tries_left. cbn. rewrite andb_false_r, andb_true_r. split; [done|]. intros n Hn. case_match; cbn; lia.
Qed.

(** Whatever is kept by additions to the list and by the discovery. *)
Lemma send_rel (R : relation client) `{!PreOrder R} probe c pdu cb cb_data c' n :
  (forall c c', extends c c' -> R c c') ->
  (forall c c' b, probe c = Ret (c', b) -> R c c') ->
  _sess_async_send lib env hole fuel64 probe c pdu cb cb_data = Ret (c', n) -> R c c'.
Proof.
  intros Hx Hp. unfold _sess_async_send.
  destruct (check_version _ pdu) as [pdu1|]; [|intros [= <- <-]; auto with client].
  intros ([c1 ok] & E1 & E)%bind_Ret_inv. cbv beta iota in E. transitivity c1.
  { destruct (_ && _); [|injection E1 as <- <-; auto with client].
    apply Hp in E1. etransitivity; [|exact E1]. auto with client. }
  destruct (negb ok); [injection E as <- <-; done|].
  destruct (negb (alloc PKTBUF_LEN)); [injection E as <- <-; auto with client|].
  apply bind_Ret_inv in E as ([[c2 pdu2] [bytes|]] & E2 & E); apply build_packet_extends in E2 as [E2 _]; apply Hx in E2.
  - injection E as E. etransitivity; [exact E2|]. apply Hx.
    change c' with (c', n).1. rewrite <- E. apply send_packet_extends.
  - by injection E as <- <-.
Qed.

Lemma send_extends c pdu cb cb_data c' n :
  _sess_async_send lib env hole fuel64 (fun _ => Null) c pdu cb cb_data = Ret (c', n) -> extends c c'.
Proof. by apply (send_rel extends). Qed.

Lemma callback_send_extends c s c' : send_from_callback lib env hole fuel64 c s = Ret c' -> extends c c'.
Proof.
  unfold send_from_callback. intros ([c1 n] & E & [= <-])%bind_Ret_inv. by apply send_extends in E.
Qed.

Lemma send_all_extends l c c' : send_all lib env hole fuel64 l c = Ret c' -> extends c c'.
Proof.
  revert c. induction l as [|s l IH]; intros c; cbn [send_all]; [intros [= <-]; auto with client|].
  intros (c1 & E1%callback_send_extends & E2)%bind_Ret_inv. etransitivity; eauto.
Qed.

Lemma snmp_synch_input_extends op id pdu magic c c' r :
  snmp_synch_input op id pdu magic c = Ret (c', r) -> extends c c' /\ c_requests c' = c_requests c.
Proof.
  unfold snmp_synch_input. destruct (c_synch c !! Z.to_nat magic) as [state|]; [|done].
  assert (Hset : forall e s, extends c (set_errno e (with_synch s c))) by auto with client.
  assert (Hst : forall s, extends c (with_synch s c)) by auto with client. cbv zeta.
  destruct (_ && _); [intros [= <- <-]; auto with client|]. destruct pdu as [pdu|].
  - destruct (op =? RECEIVED_MESSAGE).
    { destruct (_ =? SNMP_MSG_REPORT); [intros [= <- <-]; auto|].
      destruct (_ =? SNMP_MSG_RESPONSE); [|intros [= <- <-]; auto].
      intros (copy & _ & [= <- <-])%bind_Ret_inv; auto. }
    destruct (op =? TIMED_OUT); [intros [= <- <-]; auto|]. destruct (op =? DISCONNECT); intros [= <- <-]; auto.
  - destruct (op =? TIMED_OUT); [intros [= <- <-]; auto|]. destruct (op =? DISCONNECT); intros [= <- <-]; auto.
Qed.

Lemma call_back_extends cb op id pdu magic c c' r :
  call_back lib env hole fuel64 cb op id pdu magic c = Ret (c', r) -> extends c c'.
Proof.
  unfold call_back. destruct cb as [f|].
  - destruct (application env f op (s32 id) pdu magic (c_trace c)) as [r1 sends].
    intros (c1 & E1%send_all_extends & [= <- <-])%bind_Ret_inv. etransitivity; [|exact E1]. auto with client.
  - by intros [E _]%snmp_synch_input_extends.
Qed.

Lemma disconnect_extends c c' : disconnect lib env hole fuel64 c = Ret c' -> extends c c'.
Proof.
  unfold disconnect. destruct (c_callback c); [|intros [= <-]; auto with client].
  intros ([c1 r] & E%call_back_extends & [= <-])%bind_Ret_inv. done.
Qed.
End frames.

(** ** How often a request is sent *)

(** What was sent again, with the tries that are left, is within the retries
    for each time a request was sent first. *)
Definition bounded (c : client) : Prop :=
  0 <= c_retries c /\ Forall (fun rp => 0 <= rq_retries rp <= c_retries c + 1) (c_requests c) /\
  forall i, times_again i (c_trace c) + tries_left i (c_retries c) (c_requests c) <= (c_retries c + 1) * times_first i (c_trace c).

Definition keeps (c c' : client) : Prop := c_retries c' = c_retries c /\ (bounded c -> bounded c').

#[export] Instance keeps_preorder : PreOrder keeps.
Proof. split; [done|]. intros c c1 c2 [E H] [E' H']. split; [congruence|auto]. Qed.

Lemma extends_keeps c c' : extends c c' -> keeps c c'.
Proof.
  intros [E _ _ _ (l & tr & El & Hl & Et & Hs)]. split; [done|]. intros (Hr & Hb & Hi). split; [lia|]. rewrite El, E, Et. split.
  - apply Forall_app. split; [done|]. eapply Forall_impl; [exact Hl|]. cbn. lia.
  - intros i. rewrite times_again_app, times_first_app, tries_left_app. destruct (Hs i) as [-> Hl']. specialize (Hl' _ Hr). specialize (Hi i). lia.
Qed.

Lemma same_keeps c c' : c_retries c' = c_retries c -> c_requests c' = c_requests c -> c_trace c' = c_trace c -> keeps c c'.
Proof. intros E El Et. split; [done|]. unfold bounded. by rewrite E, El, Et. Qed.

#[export] Hint Extern 1 (keeps _ _) => (apply same_keeps; reflexivity) : client.
#[export] Hint Resolve extends_keeps : client.

Lemma drop_keeps i c : keeps c (drop_request i c).
Proof.
  split; [done|]. intros (Hr & Hb & Hi). split; [done|]. cbn. split; [by apply Forall_delete|]. intros j. specialize (Hi j).
  pose proof (tries_left_delete j (c_retries c) (c_requests c) i) as Hd. etransitivity; [|exact Hi]. apply Z.add_le_mono_l, Hd.
  eapply Forall_impl; [exact Hb|]. cbn. lia.
Qed.

Section passes.
Context `{Platform, Allocator, Crypto} (lib : library) (env : environment).
Context (hole : list Z) (fuel64 : nat).
Context (leftover : Z -> Z * option mem * Z) (leftover_pdu : mem -> Z -> Z -> snmp_pdu -> snmp_pdu).
Context (leftover_names : mem -> Z -> list Z * list Z).
Context (authenticator : option (mem -> Z -> Z -> list Z -> outcome (Z * Z))) (get_statistic : Z -> Z).
Context (uninit : Z).

Abbreviation resend := (snmp_resend_request lib env hole fuel64).
Abbreviation calls := (call_back lib env hole fuel64).

(** What a resent request keeps. *)
Definition same_request (rp rp' : netsnmp_request) : Prop :=
  rq_request_id rp' = rq_request_id rp /\ rq_callback rp' = rq_callback rp /\ rq_cb_data rp' = rq_cb_data rp
  /\ rq_timeout rp' = rq_timeout rp.

Lemma resend_spec i rp c c' ok : resend i rp true c = Ret (c', ok) -> c_requests c !! i = Some rp ->
  c_retries c' = c_retries c /\ c_callback c' = c_callback c /\ c_magic c' = c_magic c /\ c_synch c' = c_synch c
  /\ (c' = c /\ ok = true
      \/ exists rp', c_requests c' = <[i := rp']> (c_requests c) /\ same_request rp rp'
                     /\ rq_retries rp' = rq_retries rp + 1
                     /\ (c_trace c' = c_trace c \/ exists bytes sent, c_trace c' = c_trace c ++ [Packet (rq_request_id rp) true bytes sent])).
Proof.
  unfold snmp_resend_request. destruct (negb (alloc PKTBUF_LEN)); [intros [= <- <-]; eauto 10|].
  destruct (snmp_get_next_msgid _ _) as [msgid n]. intros ([[c1 pdu1] [bytes|]] & E1 & E)%bind_Ret_inv _;
    apply build_packet_frame in E1 as (a & s & ->).
  - cbn [transport_send] in E. destruct (f_send env _ bytes); cbn [negb] in E; injection E as <- <-;
      (do 4 (split; [done|])); right; eexists; (split; [done|]); (split; [done|]); (split; [done|]); right; eauto.
  - injection E as <- <-. do 4 (split; [done|]). right. eexists. split; [done|]. split; [done|]. split; [done|]. by left.
Qed.

Lemma resend_keeps i rp c c' ok : resend i rp true c = Ret (c', ok) -> c_requests c !! i = Some rp ->
  rq_retries rp <= c_retries c -> keeps c c'.
Proof.
  intros E Hi Hr. destruct (resend_spec _ _ _ _ _ E Hi) as (E1 & _ & _ & _ & [[-> _]|(rp' & El & (Eid & _) & En & Et)]); [done|].
  split; [done|]. intros (Hpos & Hb & Hs). unfold bounded. rewrite E1, El. split; [done|]. split.
  - apply Forall_insert; [done|]. eapply Forall_lookup_1 in Hb; [|exact Hi]. cbn in Hb. lia.
  - intros j. rewrite (tries_left_insert _ _ _ _ _ _ Hi Eid), En. specialize (Hs j). replace (rq_retries rp + 1 - rq_retries rp) with 1 by lia.
    destruct Et as [->|(bytes & sent & ->)]; [case_match; lia|]. rewrite times_again_app, times_first_app.
    unfold times_again at 2, times_first at 2. cbn [List.filter is_packet Bool.eqb]. rewrite andb_true_r, andb_false_r.
    destruct (rq_request_id rp =? j); cbn [length]; lia.
Qed.

Lemma call_back_keeps cb op id pdu magic c c' r : calls cb op id pdu magic c = Ret (c', r) -> keeps c c'.
Proof. eauto using call_back_extends with client. Qed.

Lemma timeout_loop_keeps fuel : forall now i c c', timeout_loop lib env hole fuel64 fuel now i c = Ret c' -> keeps c c'.
Proof.
  induction fuel as [|fuel IH]; intros now i c c'; cbn [timeout_loop]; [done|].
  destruct (c_requests c !! i) as [rp|] eqn:Ei; [|by intros [= <-]].
  destruct (timercmp_lt (rq_expireM rp) now); [|apply IH].
  destruct (Z.leb_spec (c_retries c) (rq_retries rp)) as [Hr|Hr].
  - destruct (callback_of rp c) as [[cb|] magic].
    + intros (c1 & ([c2 r] & E1 & [= <-])%bind_Ret_inv & E2%IH)%bind_Ret_inv.
      apply call_back_keeps in E1. etransitivity; [exact E1|]. etransitivity; [apply drop_keeps|exact E2].
    + rewrite bind_ret. intros E2%IH. etransitivity; [apply drop_keeps|exact E2].
  - intros ([c1 ok] & E1 & E)%bind_Ret_inv. apply resend_keeps in E1; [|done|lia].
    etransitivity; [exact E1|]. destruct ok; [by apply IH in E|by injection E as <-].
Qed.

Lemma timeout_keeps fuel c c' : snmp_sess_timeout lib env hole fuel64 fuel c = Ret c' -> keeps c c'.
Proof.
  unfold snmp_sess_timeout. cbn [read_clock]. intros E%timeout_loop_keeps.
  etransitivity; [|exact E]. auto with client.
Qed.

Lemma finish_keeps i rp pdu c c' ok : finish_request lib env hole fuel64 i rp pdu c = Ret (c', ok) ->
  c_requests c !! i = Some rp -> keeps c c'.
Proof.
  unfold finish_request. intros E Hi. destruct (command (m_body pdu) =? SNMP_MSG_REPORT).
  - destruct (_ && _) eqn:Eb.
    + apply andb_true_iff in Eb as [_ Hr%Z.leb_le]. apply bind_Ret_inv in E as ([c1 b] & E & [= <- <-]).
      by apply resend_keeps in E.
    + destruct (discover pdu (c_session c)) as [session [|]]; injection E as <- <-.
      * etransitivity; [|apply drop_keeps]. auto with client.
      * auto with client.
  - injection E as <- <-. apply drop_keeps.
Qed.

Lemma answer_loop_keeps fuel : forall i pdu c c' ok,
  answer_loop lib env hole fuel64 fuel i pdu c = Ret (c', ok) -> keeps c c'.
Proof.
  induction fuel as [|fuel IH]; intros i pdu c c' ok; cbn [answer_loop]; [done|].
  destruct (c_requests c !! i) as [rp|] eqn:Ei; [|by intros [= <- <-]].
  destruct (matches rp pdu); [apply IH|by intros [= <- <-]|]. destruct (callback_of rp c) as [cb magic].
  intros ([c1 r] & E1 & E)%bind_Ret_inv.
  assert (Hc : extends c c1) by (destruct cb; [by apply call_back_extends in E1|by injection E1 as <- <-]).
  etransitivity; [by apply extends_keeps|]. destruct (r =? 1); [|by apply IH in E].
  apply finish_keeps in E; [done|]. destruct Hc as [_ _ _ _ (l & tr & -> & _)]. by apply lookup_app_l_Some.
Qed.

Lemma send_keeps c pdu cb d c' n : _sess_async_send lib env hole fuel64 (fun _ => Null) c pdu cb d = Ret (c', n) -> keeps c c'.
Proof. intros E%send_extends; auto with client. Qed.

Lemma do_events_keeps l : forall c c', do_events lib env hole fuel64 l c = Ret c' -> keeps c c'.
Proof.
  induction l as [|[e pdu|pdu] l IH]; intros c c'; cbn [do_events do_event]; [by intros [= <-]|..];
    intros (c1 & E1 & E2%IH)%bind_Ret_inv; (etransitivity; [|exact E2]).
  - destruct (c_callback c); [|by injection E1 as <-].
    apply bind_Ret_inv in E1 as ([c2 r] & E1%call_back_keeps & [= <-]). done.
  - apply bind_Ret_inv in E1 as ([c2 r] & E1%send_keeps & [= <-]). done.
Qed.

Abbreviation process := (_sess_process_packet lib env hole fuel64 leftover leftover_pdu leftover_names authenticator get_statistic).

Lemma parse_packet_keeps c pdu bytes c' pdu' r :
  parse_packet lib env hole fuel64 leftover leftover_pdu leftover_names authenticator get_statistic c pdu bytes
  = Ret (c', pdu', r) -> keeps c c'.
Proof.
  unfold parse_packet. destruct (hook_parse env) as [f|].
  - destruct (f _ _ _) as [[s p] ret]. intros [= <- <- <-]. auto with client.
  - intros ([[[[a s] p] ret] events] & _ & E)%bind_Ret_inv. apply bind_Ret_inv in E as (c1 & E%do_events_keeps & [= <- <- <-]).
    etransitivity; [|exact E]. auto with client.
Qed.

Lemma deliver_keeps fuel pdu c c' r : deliver lib env hole fuel64 fuel pdu c = Ret (c', r) -> keeps c c'.
Proof.
  unfold deliver. destruct (negb _).
  - intros ([c1 ok] & E%answer_loop_keeps & [= <- _])%bind_Ret_inv. done.
  - destruct (c_callback c); [|by intros [= <- _]]. intros ([c1 ok] & E%call_back_keeps & [= <- _])%bind_Ret_inv. done.
Qed.

Lemma process_keeps fuel c bytes c' r : process fuel c bytes = Ret (c', r) -> keeps c c'.
Proof.
  unfold _sess_process_packet. destruct (match hook_pre env with Some _ => _ | None => _ end); [by intros [= <- _]|].
  destruct (negb (alloc sizeof_pdu)); [by destruct (is_tunneled env); [|intros [= <- _]]|]. cbv zeta.
  intros ([[c1 pdu] ret] & E1%parse_packet_keeps & E)%bind_Ret_inv. etransitivity; [exact E1|].
  destruct (negb (_ =? 0)); [by injection E as <- _|by apply deliver_keeps in E].
Qed.

Lemma stream_loop_keeps fuel check n : forall start l rc c c' rc' e,
  stream_loop check (process fuel) n start l c rc = Ret (c', rc', e) -> keeps c c'.
Proof.
  induction n as [|n IH]; intros start l rc c c' rc' e; cbn [stream_loop]; [done|].
  destruct (len l <=? 0); [by intros [= <- _ _]|]. intros (m & _ & E)%bind_Ret_inv.
  destruct (_ <? u64 m); [by injection E as <- _ _|]. destruct (_ || _); [by injection E as <- _ _|].
  apply bind_Ret_inv in E as ([c4 rc2] & E1%process_keeps & E). etransitivity; [exact E1|by apply IH in E].
Qed.

Lemma read_keeps fuel c data c' r :
  _sess_read lib env hole fuel64 leftover leftover_pdu leftover_names authenticator get_statistic uninit fuel c data
  = Ret (c', r) -> keeps c c'.
Proof.
  unfold _sess_read. destruct (negb (c_open c)); [by intros [= <- _]|]. cbv zeta.
  assert (Hs : keeps c (set_errno 0 c)) by auto with client.
  assert (Hd : forall c1 c2, disconnect lib env hole fuel64 c1 = Ret c2 -> keeps c1 c2)
    by (intros; eauto using disconnect_extends with client).
  destruct (is_stream env).
  - destruct (stream_room _) as [[[saved room] size]|]; [|by intros [= <- _]].
    destruct data as [[|b data]|].
    1, 3: intros (c1 & E%Hd & [= <- _])%bind_Ret_inv; etransitivity; [exact Hs|]; etransitivity; [exact E|]; auto with client.
    unfold read_pieces. intros ([c1 e] & E1 & E)%bind_Ret_inv. apply bind_Ret_inv in E as (c2 & E2 & [= <- _]).
    etransitivity; [exact Hs|]. transitivity c1.
    { unfold read_stream in E1. apply bind_Ret_inv in E1 as ([[c3 rc] e1] & E1 & [= <- _]).
      apply (stream_loop_keeps fuel) in E1. etransitivity; [|exact E1]. done. }
    transitivity c2; [destruct (r_illegal e); [by apply Hd|by injection E2 as <-]|auto with client].
  - destruct (negb (alloc RXBUF_LEN)); [by intros [= <- _]|].
    destruct data; [|intros [= <- _]; auto with client]. intros E%process_keeps. by etransitivity.
Qed.

Lemma synch_loop_keeps turns fuel : forall i c c',
  synch_loop lib env hole fuel64 leftover leftover_pdu leftover_names authenticator get_statistic uninit turns fuel i c
  = Ret c' -> keeps c c'.
Proof.
  induction turns as [|turns IH]; intros i c c'; cbn [synch_loop]; destruct (negb (waiting i c)); try by intros [= <-].
  intros (c1 & E & E2%IH)%bind_Ret_inv. etransitivity; [|exact E2]. clear E2. unfold synch_turn in E.
  destruct (negb (c_open c)); [done|].
  assert (Hsel : keeps c (select_info (fun _ => None) timerclear true c).2).
  { unfold select_info. cbn [read_clock]. destruct (bool_decide _); cbn; auto with client. }
  destruct (select_info _ _ _ c) as [[timeout block] c2] eqn:Es. cbn in Hsel. etransitivity; [exact Hsel|].
  assert (Hlog : forall tvp, keeps c2 (log (Waited tvp) c2)) by auto with client.
  destruct (select env _ _) as [data| | |].
  - apply bind_Ret_inv in E as ([c3 r] & E%read_keeps & [= <-]). etransitivity; [apply Hlog|exact E].
  - apply timeout_keeps in E. etransitivity; [apply Hlog|exact E].
  - injection E as <-. apply Hlog.
  - injection E as <-. etransitivity; [apply Hlog|]. auto with client.
Qed.

Lemma synch_response_keeps send turns fuel c pdu c' status response :
  (forall c pdu cb d c' n, send c pdu cb d = Ret (c', n) -> keeps c c') ->
  snmp_sess_synch_response lib env hole fuel64 leftover leftover_pdu leftover_names authenticator get_statistic uninit
    send turns fuel c pdu = Ret (c', status, response) -> keeps c c'.
Proof.
  intros Hsend. unfold snmp_sess_synch_response. cbv zeta. intros ([c1 n] & E1%Hsend & E)%bind_Ret_inv.
  apply bind_Ret_inv in E as (c2 & E2%synch_loop_keeps & E). transitivity c1.
  { etransitivity; [|exact E1]. auto with client. }
  transitivity c2; [etransitivity; [|exact E2]; auto with client|].
  destruct (c_synch c2 !! length (c_synch c)); injection E as <- _ _; auto with client.
Qed.

Lemma probe_keeps post_probe turns fuel c c' ok :
  (forall c c' b, post_probe c = Ret (c', b) -> keeps c c') ->
  snmpv3_engineID_probe lib env hole fuel64 leftover leftover_pdu leftover_names authenticator get_statistic uninit
    post_probe turns fuel c = Ret (c', ok) -> keeps c c'.
Proof.
  intros Hpost. unfold snmpv3_engineID_probe. intros ([c1 b] & E1 & E)%bind_Ret_inv.
  cbv beta iota zeta in E, E1. transitivity c1.
  2: { destruct (negb b); [by injection E as <- _|]. destruct (bool_decide _ && _); [by eapply Hpost|by injection E as <- _]. }
  clear E. destruct (_ && (Z.land _ _ =? 0)); [|by injection E1 as <- _].
  destruct (bool_decide _ && _); [|by injection E1 as <- _]. unfold usm_discover_engineid in E1.
  apply bind_Ret_inv in E1 as ([[pdu|] c2] & E2 & E); cbv beta iota zeta in E.
  2: { injection E as <- _. unfold usm_build_probe_pdu in E2. destruct (snmp_pdu_create _ _ _) as [[p|] n].
       - destruct (usm_get_user _ _ _); [done|]. destruct (negb _); [injection E2 as <-; auto with client|].
         by apply bind_Ret_inv in E2 as (st & _ & ?).
       - injection E2 as <-. auto with client. }
  transitivity c2.
  { unfold usm_build_probe_pdu in E2. destruct (snmp_pdu_create _ _ _) as [[p|] n]; [|done].
    destruct (usm_get_user _ _ _); [injection E2 as _ <-; auto with client|]. destruct (negb _); [done|].
    apply bind_Ret_inv in E2 as (st & _ & [= _ <-]). auto with client. }
  apply bind_Ret_inv in E as ([[c3 status] response] & E3 & E).
  apply synch_response_keeps in E3; [|intros; by eapply send_keeps]. transitivity c3.
  { etransitivity; [|exact E3]. auto with client. }
  cbv zeta in E.
  repeat match type of E with context [if ?b then _ else _] => destruct b end;
    try (injection E as <- _; auto with client; fail);
    (apply bind_Ret_inv in E as ([[x y] z] & _ & E) || apply bind_Ret_inv in E as ([x y] & _ & E));
    injection E as <- _; auto with client.
Qed.
End passes.

(** ** A pass over the requests *)

(** What a pass at the time [now] makes of the requests, and which are gone. *)
Inductive passed `{Platform} (now : timeval) (retries : Z) :
    list netsnmp_request -> list netsnmp_request -> list netsnmp_request -> Prop :=
  | passed_nil : passed now retries [] [] []
  | passed_kept rp l l' gone :
      timercmp_lt (rq_expireM rp) now = false -> passed now retries l l' gone ->
      passed now retries (rp :: l) (rp :: l') gone
  | passed_resent rp rp' k l l' gone :
      timercmp_lt (rq_expireM rp) now = true -> rq_retries rp < retries -> same_request rp rp' ->
      rq_retries rp' = rq_retries rp + 1 -> rq_expireM rp' = expires (clock k) (rq_timeout rp) ->
      passed now retries l l' gone -> passed now retries (rp :: l) (rp' :: l') gone
  | passed_gone rp l l' gone :
      timercmp_lt (rq_expireM rp) now = true -> retries <= rq_retries rp -> passed now retries l l' gone ->
      passed now retries (rp :: l) l' (rp :: gone).

Definition readings (c : client) : nat := reads (clocks (a_usm (c_api c))).

(** Without synchronous calls. *)
Definition no_synch (c : client) (l : list netsnmp_request) : Prop :=
  c_callback c <> Some Synch_input /\ Forall (fun rp => rq_callback rp <> Some Synch_input) l.

Definition calls_of (tr : list io) : list io := List.filter is_call tr.

(** The call a request ends with. *)
Definition timed_out_call (c : client) (rp : netsnmp_request) : list io :=
  match callback_of rp c with
  | (Some (Application f), magic) =>
      [Called f TIMED_OUT (s32 (reqid (m_body (rq_pdu rp)))) (Some (rq_pdu rp)) magic]
  | _ => []
  end.

Lemma timed_out_call_settings c c' rp : c_callback c' = c_callback c -> c_magic c' = c_magic c ->
  timed_out_call c' rp = timed_out_call c rp.
Proof. unfold timed_out_call, callback_of. by intros -> ->. Qed.

(** Other parts of the program read the clock [k] times. *)
Definition skip (k : nat) (c : client) : client :=
  let s := clocks (a_usm (c_api c)) in
  with_usm (with_clocks {| etimelist := etimelist s; engineID := engineID s; engineBoots := engineBoots s;
                           last_engineTime := last_engineTime s; snmpv3starttime := snmpv3starttime s;
                           reads := (reads s + k)%nat |} (a_usm (c_api c))) c.

Section quiet.
Context `{Platform, Allocator, Crypto} (lib : library) (env : environment).
Context (hole : list Z) (fuel64 : nat).

(** The messages [buildable] can be built, whatever number they get, in a
    state [able] to, and then still can.  Being able is a matter of the session
    and of the user-based model's data, and no matter of time. *)
Record builder (able : client -> Prop) (buildable : netsnmp_pdu -> Prop) : Prop := {
  bu_builds : forall c pdu msgid, able c -> buildable pdu ->
    exists c' pdu' bytes, build_packet lib env hole fuel64 c (with_m_msgid msgid pdu) = Ret (c', pdu', Some bytes) /\ able c' /\ buildable pdu';
  bu_stays : forall c c', able c -> c_session c' = c_session c -> c_api c' = c_api c -> able c';
  bu_waits : forall k c, able c -> able (skip k c)
}.

(** The callbacks send nothing, packets can be built and sent. *)
Context (quiet : forall f op id pdu m tr, (application env f op id pdu m tr).2 = []).
Context (sends : forall tr bytes, f_send env tr bytes = true).
Context (able : client -> Prop) (buildable : netsnmp_pdu -> Prop) (builds : builder able buildable).
Context (room : alloc PKTBUF_LEN = true).

Abbreviation all_buildable := (Forall (fun rp => buildable (rq_pdu rp))).

Lemma able_read c : able c -> able (read_clock c).2.
Proof using builds.
  intros Ha. eapply (bu_stays _ _ builds); [exact (bu_waits _ _ builds 1 c Ha)|done|]. cbn. by rewrite Nat.add_1_r.
Qed.

Definition same_settings (c c' : client) : Prop :=
  c_retries c' = c_retries c /\ c_callback c' = c_callback c /\ c_magic c' = c_magic c /\ c_synch c' = c_synch c.

Lemma quiet_call f op id pdu magic c : exists r,
  call_back lib env hole fuel64 (Application f) op id pdu magic c
  = Ret (log (Called f op (s32 id) pdu magic) c, r).
Proof.
  unfold call_back. pose proof (quiet f op (s32 id) pdu magic (c_trace c)) as Hq.
  destruct (application _ _ _ _ _ _ _) as [r l]. cbn in Hq. subst l. by exists r.
Qed.

(** A packet and a reading of the clock. *)
Lemma resend_exact i rp c : c_requests c !! i = Some rp -> able c -> buildable (rq_pdu rp) ->
  exists c' rp' k bytes, snmp_resend_request lib env hole fuel64 i rp true c = Ret (c', true)
  /\ same_settings c c' /\ c_requests c' = <[i := rp']> (c_requests c) /\ same_request rp rp'
  /\ rq_retries rp' = rq_retries rp + 1 /\ rq_expireM rp' = expires (clock k) (rq_timeout rp)
  /\ c_trace c' = c_trace c ++ [Packet (rq_request_id rp) true bytes true] /\ readings c' = S k /\ c_open c' = c_open c
  /\ able c' /\ buildable (rq_pdu rp').
Proof using builds room sends.
  intros Hi Ha Hb. unfold snmp_resend_request. rewrite room. cbn [negb].
  destruct (snmp_get_next_msgid _ _) as [msgid n].
  destruct (bu_builds _ _ builds (with_numbers n c) (rq_pdu rp) msgid) as (c1 & pdu1 & bytes & E1 & Ha1 & Hb1); [|done|].
  { by eapply (bu_stays _ _ builds); [exact Ha|..]. }
  rewrite E1, bind_ret. cbn [transport_send]. rewrite sends. cbn [negb read_clock].
  apply build_packet_frame in E1 as (a & s & ->). do 4 eexists. split; [done|]. do 8 (split; [done|]). split; [|done].
  eapply (bu_stays _ _ builds); [exact (able_read _ Ha1)|done|done].
Qed.

Lemma calls_of_app a b : calls_of (a ++ b) = calls_of a ++ calls_of b.
Proof. apply List.filter_app. Qed.

Lemma timeout_loop_exact fuel now : forall c kept rest,
  c_requests c = kept ++ rest -> (length rest < fuel)%nat -> no_synch c rest -> able c -> all_buildable rest ->
  exists c' rest' gone, timeout_loop lib env hole fuel64 fuel now (length kept) c = Ret c'
  /\ c_requests c' = kept ++ rest' /\ passed now (c_retries c) rest rest' gone /\ same_settings c c'
  /\ calls_of (c_trace c') = calls_of (c_trace c) ++ (gone ≫= timed_out_call c) /\ able c' /\ all_buildable rest'.
Proof using builds quiet room sends.
  induction fuel as [|fuel IH]; intros c kept rest El Hf [Hc Hs] Ha Hb; [lia|]. cbn [timeout_loop]. rewrite El.
  destruct rest as [|rp rest].
  { rewrite lookup_app_r, Nat.sub_diag by lia. exists c, [], []. split; [done|]. split; [done|]. split; [apply passed_nil|].
    rewrite app_nil_r. split_and!; done. }
  rewrite lookup_app_r, Nat.sub_diag by lia. cbn [lookup list_lookup length] in *.
  inversion Hs as [|?? Hrp Hrest]; subst. apply Forall_cons in Hb as [Hb1 Hb]. destruct (timercmp_lt (rq_expireM rp) now) eqn:Ex.
  - destruct (Z.leb_spec (c_retries c) (rq_retries rp)) as [Hr|Hr].
    + (* gone *)
      assert (Hcall : exists c1, match (callback_of rp c).1 with
                  | Some cb => '(c, _) ← call_back lib env hole fuel64 cb TIMED_OUT (reqid (m_body (rq_pdu rp)))
                                 (Some (rq_pdu rp)) (callback_of rp c).2 c; Ret c
                  | None => Ret c
                  end = Ret c1 /\ c_requests c1 = c_requests c /\ same_settings c c1 /\ able c1
                  /\ calls_of (c_trace c1) = calls_of (c_trace c) ++ timed_out_call c rp).
      { unfold timed_out_call, callback_of. destruct (rq_callback rp) as [[f|]|]; [|done|];
          [|destruct (c_callback c) as [[f|]|]; [|done|]].
        - cbn [fst snd]. destruct (quiet_call f TIMED_OUT (reqid (m_body (rq_pdu rp))) (Some (rq_pdu rp)) (rq_cb_data rp) c)
            as [r ->]. rewrite bind_ret. eexists. split; [done|]. split; [done|]. split; [done|]. split; [by eapply (bu_stays _ _ builds)|]. apply calls_of_app.
        - cbn [fst snd]. destruct (quiet_call f TIMED_OUT (reqid (m_body (rq_pdu rp))) (Some (rq_pdu rp)) (c_magic c) c)
            as [r ->]. rewrite bind_ret. eexists. split; [done|]. split; [done|]. split; [done|]. split; [by eapply (bu_stays _ _ builds)|]. apply calls_of_app.
        - cbn [fst]. exists c. split; [done|]. split; [done|]. split; [done|]. split; [done|]. by rewrite app_nil_r. }
      destruct (callback_of rp c) as [cb magic] eqn:Ecb. cbn [fst snd] in Hcall.
      destruct Hcall as (c1 & -> & El1 & (S1 & S2 & S3 & S4) & Ha1 & Ht). rewrite bind_ret.
      destruct (IH (drop_request (length kept) c1) kept rest) as (c' & rest' & gone & -> & E' & Hp & (S1' & S2' & S3' & S4') & Ht' & Hend).
      * cbn. rewrite El1, El, delete_middle. done.
      * lia.
      * split; [cbn; by rewrite S2|done].
      * by eapply (bu_stays _ _ builds).
      * done.
      * change (c_retries (drop_request (length kept) c1)) with (c_retries c1) in Hp, S1'.
        change (c_trace (drop_request (length kept) c1)) with (c_trace c1) in Ht'.
        exists c', rest', (rp :: gone). split; [done|]. split; [done|]. split.
        { apply passed_gone; [done|done|]. by rewrite <- S1. }
        split; [unfold same_settings; rewrite S1', S2', S3', S4'; cbn; done|].
        split; [|done]. rewrite Ht', Ht. cbn [mbind list_bind]. rewrite <- app_assoc. f_equal. f_equal.
        apply list_bind_ext; [|done]. intros x. by apply timed_out_call_settings.
    + (* sent again *)
      destruct (resend_exact (length kept) rp c) as (c1 & rp' & k & bytes & -> & (S1 & S2 & S3 & S4) & E1 & Hsame & Hn & He & Ht & _ & _ & Ha1 & Hb').
      { rewrite El. by apply list_lookup_middle. }
      { done. }
      { done. }
      rewrite bind_ret. destruct (IH c1 (kept ++ [rp']) rest) as (c' & rest' & gone & E' & El' & Hp & (S1' & S2' & S3' & S4') & Ht' & Ha' & Hr').
      * rewrite E1, El, insert_app_r_alt, Nat.sub_diag by lia. cbn. by rewrite <- app_assoc.
      * lia.
      * split; [by rewrite S2|done].
      * done.
      * done.
      * rewrite length_app in E'. cbn in E'. rewrite Nat.add_1_r in E'. rewrite E'.
        exists c', (rp' :: rest'), gone. split; [done|]. split; [by rewrite El', <- app_assoc|]. split.
        { eapply passed_resent; [done..|]. by rewrite <- S1. }
        split; [unfold same_settings; by rewrite S1', S2', S3', S4'|].
        split; [|split; [done|by constructor]]. rewrite Ht', Ht, calls_of_app. cbn [calls_of List.filter is_call]. rewrite app_nil_r. f_equal.
        apply list_bind_ext; [|done]. intros x. by apply timed_out_call_settings.
  - destruct (IH c (kept ++ [rp]) rest) as (c' & rest' & gone & E' & El' & Hp & Hset & Ht' & Ha' & Hr').
    * by rewrite <- app_assoc.
    * lia.
    * done.
    * done.
    * done.
    * rewrite length_app in E'. cbn in E'. rewrite Nat.add_1_r in E'. rewrite E'.
      exists c', (rp :: rest'), gone. split; [done|]. split; [by rewrite El', <- app_assoc|].
      split; [by apply passed_kept|]. split_and!; [apply Hset..|done|done|by constructor].
Qed.

Lemma timeout_exact c : no_synch c (c_requests c) -> able c -> all_buildable (c_requests c) ->
  exists c' gone, snmp_sess_timeout lib env hole fuel64 (S (length (c_requests c))) c = Ret c'
  /\ passed (clock (readings c)) (c_retries c) (c_requests c) (c_requests c') gone /\ same_settings c c'
  /\ calls_of (c_trace c') = calls_of (c_trace c) ++ (gone ≫= timed_out_call c) /\ able c' /\ all_buildable (c_requests c').
Proof using builds quiet room sends.
  intros Hs Ha Hb. unfold snmp_sess_timeout. cbn [read_clock].
  match goal with |- context [timeout_loop _ _ _ _ _ _ _ ?c0] =>
    destruct (timeout_loop_exact (S (length (c_requests c))) (clock (readings c)) c0 [] (c_requests c)) as (c' & l & gone & E & El & Hp & Hset & Ht) end.
  - done.
  - lia.
  - done.
  - exact (able_read _ Ha).
  - done.
  - exists c', gone. rewrite El. done.
Qed.
End quiet.

(** ** Passes in which everything has expired *)

Section rounds.
Context `{Platform}.

Lemma passed_no_synch now retries l l' gone : passed now retries l l' gone ->
  Forall (fun rp => rq_callback rp <> Some Synch_input) l -> Forall (fun rp => rq_callback rp <> Some Synch_input) l'.
Proof.
  induction 1 as [|? ? ? ? ? ? IH|rp rp' k l l' gone Hx Hr (S1 & S2 & S3 & S4) Hn He Hp IH|? ? ? ? ? ? ? IH]; [done|..];
    inversion_clear 1; auto. constructor; [by rewrite S2|auto].
Qed.

(** The callback of a request and its argument. *)
Definition key (c : client) (rp : netsnmp_request) : option callback * Z := callback_of rp c.

Lemma passed_keys c now retries l l' gone : passed now retries l l' gone ->
  (key c <$> l') ++ (key c <$> gone) ≡ₚ key c <$> l.
Proof.
  induction 1 as [|? ? ? ? ? ? IH|rp rp' k l l' gone Hx Hr (S1 & S2 & S3 & S4) Hn He Hp IH|? ? ? ? ? ? ? IH];
    cbn [fmap list_fmap app]; [done|by f_equiv| |].
  - f_equiv; [|done]. unfold key, callback_of. by rewrite S2, S3.
  - by rewrite <- Permutation_middle, IH.
Qed.

(** A round takes one of the tries that are left. *)
Lemma passed_retries n now retries l l' gone : passed now retries l l' gone ->
  Forall (fun rp => timercmp_lt (rq_expireM rp) now = true) l ->
  Forall (fun rp => retries < rq_retries rp + Z.of_nat (S n)) l ->
  Forall (fun rp => retries < rq_retries rp + Z.of_nat n) l' .
Proof.
  induction 1 as [|? ? ? ? Hx ? IH|rp rp' k l l' gone Hx Hr (S1 & S2 & S3 & S4) Hn He Hp IH|? ? ? ? ? ? ? IH]; [done|..];
    inversion_clear 1; inversion_clear 1; auto; [congruence|]. constructor; [lia|auto].
Qed.

Lemma passed_last now retries l l' gone : passed now retries l l' gone ->
  Forall (fun rp => timercmp_lt (rq_expireM rp) now = true) l -> Forall (fun rp => retries < rq_retries rp + 1) l -> l' = [].
Proof.
  induction 1 as [|? ? ? ? Hx ? IH|rp rp' k l l' gone Hx Hr (S1 & S2 & S3 & S4) Hn He Hp IH|? ? ? ? ? ? ? IH]; [done|..];
    inversion_clear 1; inversion_clear 1; auto; [congruence|lia].
Qed.
End rounds.

(** * Properties of the requests of a session *)

#[export] Instance matching_eq_dec : EqDecision matching.
Proof. solve_decision. Defined.

(** ** Any run *)

(** What an application does with a session. *)
Inductive use : Type :=
  | Send (pdu : netsnmp_pdu) (cb : option callback) (cb_data : Z)
  | Read (data : option (list Z))
  | Timeout
  | Ask (pdu : netsnmp_pdu).

Section props.
Context `{Platform, Allocator, Crypto} (lib : library) (env : environment).
Context (hole : list Z) (fuel64 : nat).
Context (leftover : Z -> Z * option mem * Z) (leftover_pdu : mem -> Z -> Z -> snmp_pdu -> snmp_pdu).
Context (leftover_names : mem -> Z -> list Z * list Z).
Context (authenticator : option (mem -> Z -> Z -> list Z -> outcome (Z * Z))) (get_statistic : Z -> Z).
Context (uninit : Z) (post_probe : client -> outcome (client * bool)) (turns fuel : nat).

Abbreviation send := (snmp_sess_async_send lib env hole fuel64 leftover leftover_pdu leftover_names authenticator
                        get_statistic uninit post_probe turns fuel).

Definition do_use (u : use) (c : client) : outcome client :=
  match u with
  | Send pdu cb cb_data => '(c, _) ← send c pdu cb cb_data; Ret c
  | Read data =>
      '(c, _) ← _sess_read lib env hole fuel64 leftover leftover_pdu leftover_names authenticator get_statistic
                  uninit fuel c data; Ret c
  | Timeout => snmp_sess_timeout lib env hole fuel64 fuel c
  | Ask pdu =>
      '(c, _, _) ← snmp_sess_synch_response lib env hole fuel64 leftover leftover_pdu leftover_names authenticator
                     get_statistic uninit send turns fuel c pdu; Ret c
  end.

Fixpoint do_uses (l : list use) (c : client) : outcome client :=
  match l with
  | [] => Ret c
  | u :: l => c ← do_use u c; do_uses l c
  end.

(** C27: whatever an application sends, asks for, reads or lets time out, in
    any order, with any packets coming in and any callbacks: for each time a
    packet was sent first for the request with a number, packets are sent again for it at most
    one time more than the session's retries, the additional one being the
    answer to a report about the clocks.  What follows a probe, [post_probe],
    makes a user of the session and sends nothing.  A new session, with no requests and
    nothing sent, is [bounded]. *)
Theorem retries_bounded l c c' :
  (forall c c' b, post_probe c = Ret (c', b) ->
     c_retries c' = c_retries c /\ c_requests c' = c_requests c /\ c_trace c' = c_trace c) ->
  bounded c -> do_uses l c = Ret c' ->
  (forall request, times_again request (c_trace c') <= (c_retries c + 1) * times_first request (c_trace c')) /\
  bounded c' /\ c_retries c' = c_retries c.
Proof.
  intros Hpost. enough (Hk : do_uses l c = Ret c' -> keeps c c').
  { intros Hb E. destruct (Hk E) as [E1 H2]. specialize (H2 Hb). split; [|done]. intros i. destruct H2 as (_ & Hl & Hi). specialize (Hi i).
    pose proof (tries_left_pos i (c_retries c') (c_requests c')) as Hpos. rewrite E1 in *. enough (0 <= tries_left i (c_retries c) (c_requests c')) by lia.
    apply Hpos. eapply Forall_impl; [exact Hl|]. cbn. lia. }
  assert (Hp : forall c c' b, post_probe c = Ret (c', b) -> keeps c c')
    by (intros c0 c1 b (E1 & E2 & E3)%Hpost; by apply same_keeps).
  assert (Hsend : forall c pdu cb d c' n, send c pdu cb d = Ret (c', n) -> keeps c c').
  { intros ??????. apply (send_rel lib env hole fuel64 keeps); [apply extends_keeps|]. intros ???. by apply probe_keeps. }
  revert c. induction l as [|u l IH]; intros c; cbn [do_uses]; [by intros [= <-]|].
  intros (c1 & E & E2%IH)%bind_Ret_inv. etransitivity; [|exact E2]. destruct u; cbn [do_use] in E.
  - by apply bind_Ret_inv in E as ([c2 n] & E%Hsend & [= <-]).
  - by apply bind_Ret_inv in E as ([c2 n] & E%read_keeps & [= <-]).
  - by apply timeout_keeps in E.
  - by apply bind_Ret_inv in E as ([[c2 n] o] & E%synch_response_keeps & [= <-]).
Qed.

(** ** Answers *)

(** The number by which an answer finds its request. *)
Definition numbered (pdu : netsnmp_pdu) (rp : netsnmp_request) : Prop :=
  if decide (m_version pdu = SNMP_VERSION_3) then m_msgid pdu = rq_message_id rp else reqid (m_body pdu) = rq_request_id rp.

#[local] Instance numbered_dec pdu rp : Decision (numbered pdu rp).
Proof. unfold numbered. case_decide; apply _. Defined.

(** The fields of an answer that must be those of the request. *)
Definition agrees (rp : netsnmp_request) (pdu : netsnmp_pdu) : Prop :=
  m_version pdu = SNMP_VERSION_3 -> command (m_body pdu) <> SNMP_MSG_REPORT ->
  reqid (m_body pdu) = rq_request_id rp /\ reqid (m_body pdu) = reqid (m_body (rq_pdu rp))
  /\ m_version pdu = m_version (rq_pdu rp) /\ m_securityModel pdu = m_securityModel (rq_pdu rp)
  /\ m_securityLevel pdu = m_securityLevel (rq_pdu rp)
  /\ m_contextEngineID pdu = m_contextEngineID (rq_pdu rp)
  /\ bytes_of (m_contextName pdu) = bytes_of (m_contextName (rq_pdu rp))
  /\ (m_securityModel pdu = SNMP_SEC_MODEL_USM -> m_securityEngineID pdu = m_securityEngineID (rq_pdu rp))
  /\ bytes_of (m_securityName pdu) = bytes_of (m_securityName (rq_pdu rp)).

Lemma same_bytes_eq a b : same_bytes a b = true <-> b = a.
Proof.
  unfold same_bytes. rewrite andb_true_iff, bool_decide_eq_true, Z.eqb_eq. split; [by intros [_ ->]|by intros ->].
Qed.

Lemma matches_numbered rp pdu : matches rp pdu <> Next <-> numbered pdu rp.
Proof.
  unfold matches, numbered. destruct (Z.eqb_spec (m_version pdu) SNMP_VERSION_3) as [E|E]; [rewrite decide_True by done|rewrite decide_False by done].
  - destruct (Z.eqb_spec (rq_message_id rp) (m_msgid pdu)) as [<-|Hne]; cbn [negb]; [by destruct (negb _)|]. split; [done|congruence].
  - destruct (Z.eqb_spec (rq_request_id rp) (reqid (m_body pdu))) as [<-|Hne]; cbn [negb]; [done|]. split; [done|congruence].
Qed.

Lemma matches_agrees rp pdu : numbered pdu rp -> matches rp pdu = Match /\ agrees rp pdu \/ matches rp pdu = Stop /\ ~ agrees rp pdu.
Proof.
  unfold matches, numbered, agrees. destruct (Z.eqb_spec (m_version pdu) SNMP_VERSION_3) as [E|E].
  - rewrite decide_True by done. intros ->. rewrite Z.eqb_refl. cbn [negb]. unfold snmpv3_verify_msg.
    destruct (Z.eqb_spec (command (m_body pdu)) SNMP_MSG_REPORT) as [Er|Er]; [by left|].
    match goal with |- context [negb ?b] => destruct b eqn:Eb end; cbn [negb]; [left|right]; (split; [done|]).
    + intros _ _. rewrite !andb_true_iff, orb_true_iff, negb_true_iff, !Z.eqb_eq, !same_bytes_eq, Z.eqb_neq in Eb.
      destruct Eb as ((((((((?&?)&?)&?)&?)&?)&?)&Hm)&?). repeat (split; [congruence|]). split; [|done]. intros Hu. by destruct Hm.
    + intros Ha. destruct (Ha E Er) as (?&?&?&?&?&?&?&Hm&?). apply not_true_iff_false in Eb. apply Eb.
      rewrite !andb_true_iff, orb_true_iff, negb_true_iff, !Z.eqb_eq, !same_bytes_eq, Z.eqb_neq. repeat split; try congruence.
      destruct (decide (m_securityModel pdu = SNMP_SEC_MODEL_USM)); auto.
  - rewrite decide_False by done. intros ->. rewrite Z.eqb_refl. by left.
Qed.

Lemma answer_loop_found n pdu c rp i l : c_requests c = l -> list_find (numbered pdu) l = Some (i, rp) ->
  forall j, (j <= i)%nat -> (i < n + j)%nat ->
  answer_loop lib env hole fuel64 n j pdu c = answer_loop lib env hole fuel64 (n + j - i) i pdu c.
Proof.
  intros El (Hi & _ & Hbefore)%list_find_Some. revert c El. induction n as [|n IH]; intros c El j Hj Hn; [lia|].
  destruct (decide (j = i)) as [->|Hne]; [by replace (S n + i - i)%nat with (S n) by lia|].
  cbn [answer_loop]. rewrite El. destruct (lookup_lt_is_Some_2 l j) as [rq Hrq]; [apply lookup_lt_Some in Hi; lia|].
  rewrite Hrq. destruct (matches rq pdu) eqn:Em; [|exfalso; apply (Hbefore j rq); [done|lia|]; apply matches_numbered; congruence..].
  rewrite (IH c El (S j)) by lia. by replace (n + S j)%nat with (S n + j)%nat by lia.
Qed.

Lemma answer_loop_none n pdu c l : c_requests c = l -> list_find (numbered pdu) l = None ->
  forall j, (j <= length l)%nat -> (length l < n + j)%nat -> answer_loop lib env hole fuel64 n j pdu c = Ret (c, true).
Proof.
  intros El Hnone%list_find_None. induction n as [|n IH]; intros j Hj Hn; [lia|]. cbn [answer_loop]. rewrite El.
  destruct (l !! j) as [rp|] eqn:Ej; [|done]. eapply Forall_lookup_1 in Hnone; [|exact Ej].
  pose proof (lookup_lt_Some _ _ _ Ej). destruct (matches rp pdu) eqn:Em; [apply IH; lia|exfalso; apply Hnone, matches_numbered; congruence..].
Qed.

Lemma answer_loop_rest n pdu c : forall j, Forall (fun rp => ~ numbered pdu rp) (drop j (c_requests c)) ->
  (j <= length (c_requests c))%nat -> (length (c_requests c) < n + j)%nat -> answer_loop lib env hole fuel64 n j pdu c = Ret (c, true).
Proof.
  induction n as [|n IH]; intros j Hnone Hj Hn; [lia|]. cbn [answer_loop].
  destruct (c_requests c !! j) as [rp|] eqn:Ej; [|done]. rewrite (drop_S _ _ _ Ej) in Hnone. apply Forall_cons in Hnone as [Hrp Hnone].
  pose proof (lookup_lt_Some _ _ _ Ej). destruct (matches rp pdu) eqn:Em; [apply IH; [done|lia..]|exfalso; apply Hrp, matches_numbered; congruence..].
Qed.

(** The callback of the request is called with the answer: its result and the
    state it leaves.  Without a callback the answer is taken. *)
Inductive called_back (pdu : netsnmp_pdu) (rp : netsnmp_request) (c : client) : Z -> client -> Prop :=
  | No_callback magic : callback_of rp c = (None, magic) -> called_back pdu rp c 1 c
  | By_application f magic r sends c1 : callback_of rp c = (Some (Application f), magic) ->
      application env f RECEIVED_MESSAGE (s32 (reqid (m_body pdu))) (Some pdu) magic (c_trace c) = (r, sends) ->
      send_all lib env hole fuel64 sends (log (Called f RECEIVED_MESSAGE (s32 (reqid (m_body pdu))) (Some pdu) magic) c) = Ret c1 ->
      called_back pdu rp c r c1
  | By_synchronous_call magic r c1 : callback_of rp c = (Some Synch_input, magic) ->
      snmp_synch_input RECEIVED_MESSAGE (s32 (reqid (m_body pdu))) (Some pdu) magic c = Ret (c1, r) -> called_back pdu rp c r c1.

Lemma called_back_result pdu rp c r c1 : called_back pdu rp c r c1 ->
  (let '(cb, magic) := callback_of rp c in
   match cb with
   | None => Ret (c, 1)
   | Some cb => call_back lib env hole fuel64 cb RECEIVED_MESSAGE (reqid (m_body pdu)) (Some pdu) magic c
   end) = Ret (c1, r).
Proof.
  intros [magic E|f magic r' sends c2 E Ea Es|magic r' c2 E Es]; rewrite E; [done| |exact Es].
  unfold call_back. by rewrite Ea, Es, bind_ret.
Qed.

Lemma called_back_grows pdu rp c r c1 : called_back pdu rp c r c1 -> c_requests c `prefix_of` c_requests c1.
Proof.
  intros [magic E|f magic r' sends c2 E Ea Es|magic r' c2 E Es]; [done| |].
  - apply send_all_extends in Es as [_ _ _ _ (l & tr & -> & _)]. by exists l.
  - apply snmp_synch_input_extends in Es as [_ ->]. done.
Qed.

(** A report that the clocks differ. *)
Definition tells_of_clocks (pdu : netsnmp_pdu) (c : client) : Prop :=
  s_snmp_errno (c_session c) = SNMPERR_NOT_IN_TIME_WINDOW \/ snmpv3_get_report_type pdu = SNMPERR_NOT_IN_TIME_WINDOW.

(** C17: an answer goes to the first request with its number: the message
    number of version 3, or else the request number.  When there is
    none, or when one of the fields that must agree differs, nothing happens
    at all.  Otherwise the callback of that request is called, once.  When it takes
    the answer, that request is removed and the others
    stay in their order; but a report that the clocks differ makes the request be sent
    again while it has retries left, and another report may first tell the engine's
    identifier.  When it does not take the answer and no later request has the number,
    nothing else happens. *)
Theorem answer_goes_to_its_request pdu c : negb (Z.land (flags (m_body pdu)) UCD_MSG_FLAG_RESPONSE_PDU =? 0) = true ->
  (length (c_requests c) < fuel)%nat ->
  let delivered := deliver lib env hole fuel64 fuel pdu c in
  let pdu0 := with_m_securityStateRef None pdu in
  match list_find (numbered pdu) (c_requests c) with
  | None => delivered = Ret (c, 0)
  | Some (i, rp) =>
      (~ agrees rp pdu -> delivered = Ret (c, 0)) /\
      (agrees rp pdu -> forall r c1, called_back pdu0 rp c r c1 ->
         c_requests c `prefix_of` c_requests c1 /\
         (r = 1 -> command (m_body pdu) <> SNMP_MSG_REPORT -> delivered = Ret (with_requests (delete i (c_requests c1)) c1, 0)) /\
         (r = 1 -> command (m_body pdu) = SNMP_MSG_REPORT -> tells_of_clocks pdu c1 -> rq_retries rp <= c_retries c1 ->
            delivered = ('(c2, _) ← snmp_resend_request lib env hole fuel64 i rp true c1; Ret (c2, 0))) /\
         (r = 1 -> command (m_body pdu) = SNMP_MSG_REPORT -> ~ (tells_of_clocks pdu c1 /\ rq_retries rp <= c_retries c1) ->
            let c2 := with_session (discover pdu (c_session c1)).1 c1 in
            delivered = Ret (if (discover pdu (c_session c1)).2 then (with_requests (delete i (c_requests c1)) c2, 0) else (c2, -1))) /\
         (r <> 1 -> Forall (fun rp' => ~ numbered pdu rp') (drop (S i) (c_requests c1)) -> (length (c_requests c1) < fuel)%nat ->
            delivered = Ret (c1, 0)))
  end.
Proof.
  intros Hflag Hf. cbv zeta. unfold deliver. rewrite Hflag.
  set (pdu0 := with_m_securityStateRef None pdu).
  assert (Hm : forall rp, matches rp pdu0 = matches rp pdu) by done.
  destruct (list_find _ (c_requests c)) as [[i rp]|] eqn:Efind.
  - pose proof Efind as (Hi & Hnum & _)%list_find_Some. pose proof (lookup_lt_Some _ _ _ Hi).
    rewrite (answer_loop_found fuel pdu0 c rp i _ eq_refl Efind 0) by lia.
    replace (fuel + 0 - i)%nat with (S (fuel - i - 1)) by lia. cbn [answer_loop]. rewrite Hi, Hm.
    destruct (matches_agrees _ _ Hnum) as [[-> Ha]|[-> Ha]]; [|by split; [rewrite bind_ret|]].
    split; [done|]. intros _ r c1 Hcalled. pose proof (called_back_grows _ _ _ _ _ Hcalled) as Hpre. apply called_back_result in Hcalled.
    destruct (callback_of rp c) as [cb magic]. rewrite Hcalled, bind_ret. split; [done|]. unfold finish_request.
    change (m_body pdu0) with (m_body pdu). change (snmpv3_get_report_type pdu0) with (snmpv3_get_report_type pdu).
    change (discover pdu0) with (discover pdu). split_and!.
    + intros -> Hc%Z.eqb_neq. cbn [Z.eqb Pos.eqb]. by rewrite Hc, bind_ret.
    + intros -> ->%Z.eqb_eq Ht Hr%Z.leb_le. cbn [Z.eqb Pos.eqb]. rewrite Hr, andb_true_r.
      assert ((s_snmp_errno (c_session c1) =? SNMPERR_NOT_IN_TIME_WINDOW) || (snmpv3_get_report_type pdu =? SNMPERR_NOT_IN_TIME_WINDOW) = true) as ->
        by (by apply orb_true_iff; rewrite !Z.eqb_eq).
      by destruct (snmp_resend_request _ _ _ _ _ _ _ _) as [[c2 ok]| | |].
    + intros -> ->%Z.eqb_eq Ht. cbn [Z.eqb Pos.eqb].
      match goal with |- context [?a && (rq_retries rp <=? c_retries c1)] => destruct (a && (rq_retries rp <=? c_retries c1)) eqn:Eb end.
      { exfalso. apply Ht. apply andb_true_iff in Eb as [Eb Er%Z.leb_le]. split; [|done]. by apply orb_true_iff in Eb; rewrite !Z.eqb_eq in Eb. }
      destruct (discover pdu (c_session c1)) as [session []]; by rewrite bind_ret.
    + intros Hr%Z.eqb_neq Hnone Hf1. rewrite Hr.
      rewrite (answer_loop_rest (fuel - i - 1) pdu0 c1 (S i)); [by rewrite bind_ret|exact Hnone| |].
      * apply prefix_length in Hpre. lia.
      * lia.
  - by rewrite (answer_loop_none fuel pdu0 c _ eq_refl Efind 0) by lia.
Qed.
End props.

(** ** Requests nobody answers *)

Section quiet.
Context `{Platform, Allocator, Crypto} (lib : library) (env : environment).
Context (hole : list Z) (fuel64 : nat).

(** Calls of [snmp_sess_timeout], with pauses. *)
Fixpoint passes (ks : list nat) (c : client) : outcome client :=
  match ks with
  | [] => Ret c
  | k :: ks =>
      c ← snmp_sess_timeout lib env hole fuel64 (S (length (c_requests c))) (skip k c); passes ks c
  end.

Definition all_expired (c : client) : Prop :=
  Forall (fun rp => timercmp_lt (rq_expireM rp) (clock (readings c)) = true) (c_requests c).

(** A call of a callback, without the message. *)
Definition call_key (e : io) : list (Z * Z * Z) :=
  match e with Called f op _ _ m => [(f, op, m)] | _ => [] end.

Definition end_key (c : client) (rp : netsnmp_request) : list (Z * Z * Z) :=
  match callback_of rp c with (Some (Application f), m) => [(f, TIMED_OUT, m)] | _ => [] end.

Lemma call_keys_end c l : (l ≫= timed_out_call c) ≫= call_key = l ≫= end_key c.
Proof.
  induction l as [|rp l IH]; [done|]. cbn [mbind list_bind] in *. rewrite bind_app, IH. f_equal.
  unfold timed_out_call, end_key. by destruct (callback_of rp c) as [[[f|]|] m].
Qed.

Lemma end_key_of_key c l : l ≫= end_key c =
  (key c <$> l) ≫= (fun k => match k with (Some (Application f), m) => [(f, TIMED_OUT, m)] | _ => [] end).
Proof. induction l as [|rp l IH]; [done|]. cbn [mbind list_bind fmap list_fmap] in *. by rewrite IH. Qed.

Lemma call_keys_calls tr : calls_of tr ≫= call_key = tr ≫= call_key.
Proof.
  induction tr as [|e tr IH]; [done|].
  change (calls_of (e :: tr)) with (if is_call e then e :: calls_of tr else calls_of tr).
  destruct e; cbn [is_call]; rewrite ?bind_cons; cbn [call_key app]; by rewrite IH.
Qed.

Lemma bind_perm {A B} (f : A -> list B) l l' : l ≡ₚ l' -> l ≫= f ≡ₚ l' ≫= f.
Proof. intros Hp. by rewrite Hp. Qed.

(** C18: when nothing is answered, [snmp_sess_timeout] ends every request:
    after as many calls as a request may still be sent, and one more, with
    all requests expired at each call, no request is left, and the callback
    of each has been called once, for the timeout.  The messages of these requests
    can be built (by a hook or by [snmp_build]) and sent, and callbacks send
    nothing. *)
Theorem requests_end
    (quiet : forall f op id pdu m tr, (application env f op id pdu m tr).2 = [])
    (sends : forall tr bytes, f_send env tr bytes = true)
    able buildable (builds : builder lib env hole fuel64 able buildable) ks c :
  alloc PKTBUF_LEN = true ->
  no_synch c (c_requests c) -> able c -> Forall (fun rp => buildable (rq_pdu rp)) (c_requests c) ->
  Forall (fun rp => c_retries c < rq_retries rp + Z.of_nat (length ks)) (c_requests c) ->
  (forall j c', (j < length ks)%nat -> passes (take j ks) c = Ret c' -> all_expired (skip (ks !!! j) c')) ->
  exists c', passes ks c = Ret c' /\ (ks <> [] -> c_requests c' = [])
  /\ (ks <> [] -> c_trace c' ≫= call_key ≡ₚ (c_trace c ≫= call_key) ++ (c_requests c ≫= end_key c)).
Proof.
  intros room. revert c. induction ks as [|k ks IH]; intros c Hs Ha Hb Hr Hexp; cbn [passes]; [by exists c|].
  destruct (timeout_exact lib env hole fuel64 quiet sends able buildable builds room (skip k c)) as (c1 & gone & E & Hp & (S1 & S2 & S3 & S4) & Ht & Ha1 & Hb1);
    [done|by apply (bu_waits _ _ _ _ _ _ builds)|done|].
  change (c_requests (skip k c)) with (c_requests c) in *. change (c_retries (skip k c)) with (c_retries c) in *.
  rewrite E, bind_ret. pose proof (Hexp 0%nat c ltac:(cbn; lia) eq_refl) as Hx. cbn in Hx.
  assert (Hs1 : no_synch c1 (c_requests c1)).
  { destruct Hs as [Hc Hl]. split; [by rewrite S2|]. by eapply passed_no_synch. }
  assert (Ht1 : c_trace c1 ≫= call_key = (c_trace c ≫= call_key) ++ (gone ≫= end_key c)).
  { rewrite <- call_keys_calls, Ht, bind_app, call_keys_end, call_keys_calls. done. }
  assert (Hkeys : (c_requests c1 ≫= end_key c) ++ (gone ≫= end_key c) ≡ₚ c_requests c ≫= end_key c).
  { rewrite !end_key_of_key, <- bind_app. apply bind_perm. by eapply passed_keys. }
  assert (Hend : c_requests c1 ≫= end_key c1 = c_requests c1 ≫= end_key c).
  { apply list_bind_ext; [|done]. intros rp. unfold end_key, callback_of. by rewrite S2, S3. }
  destruct ks as [|k1 ks].
  - exists c1. pose proof (passed_last _ _ _ _ _ Hp Hx Hr) as El. split; [done|]. split; [done|]. intros _.
    rewrite Ht1. f_equiv. rewrite <- Hkeys, El. done.
  - destruct (IH c1) as (c' & E' & Hnil & Hcalls); [done..| | |].
    + rewrite S1. by eapply passed_retries.
    + intros j c2 Hj Ej. apply (Hexp (S j) c2); [cbn in *; lia|]. cbn [take passes]. by rewrite E, bind_ret.
    + exists c'. split; [done|]. split; [intros _; by apply Hnil|]. intros _.
      rewrite (Hcalls ltac:(done)), Ht1, Hend, <- app_assoc. f_equiv. by rewrite (comm (++)).
Qed.
End quiet.

(** ** Samples *)

(** A transport that takes every packet, packets of one byte, callbacks that
    take every answer and send nothing, and nothing to read. *)
Definition sample_environment (answer : netsnmp_pdu) : environment := {|
  hook_pre := None;
  hook_parse := Some (fun session pdu _ => (session, answer, 0));
  hook_post := None;
  hook_build := Some (fun _ _ => Some [1]);
  check_packet := None;
  is_stream := false;
  is_tunneled := false;
  msgMaxSize := 0;
  packet_addr := 0;
  f_send := fun _ _ => true;
  application := fun _ _ _ _ _ _ => (1, []);
  select := fun _ _ => Expired
|}.

(** A request of version 2 with the number [id], sent at the time 0, to be
    answered within a second. *)
Definition sample_get (id : Z) : netsnmp_pdu :=
  plain_message SNMP_VERSION_2c
    (Session.with_reqid id (Session.with_command SNMP_MSG_GET fresh_pdu)).

Definition sample_answer (id : Z) : netsnmp_pdu :=
  plain_message SNMP_VERSION_2c
    (Session.with_reqid id (Session.with_flags UCD_MSG_FLAG_RESPONSE_PDU (Session.with_command SNMP_MSG_RESPONSE fresh_pdu))).

Definition sample_waiting (id f : Z) : netsnmp_request := {|
  rq_request_id := id; rq_message_id := 0; rq_callback := Some (Application f); rq_cb_data := 7; rq_retries := 0;
  rq_timeout := 1000000; rq_timeM := timerclear; rq_expireM := {| tv_sec := 1; tv_usec := 0 |};
  rq_pdu := sample_get id |}.

Definition sample_client (l : list netsnmp_request) : client := {|
  c_api := sample_api; c_numbers := {| Reqid := 1; Msgid := 1 |}; c_session := sample_session SNMP_VERSION_2c;
  c_callback := None; c_magic := 0; c_timeout := 1000000; c_retries := 1; c_flags := 0; c_engineBoots := 0;
  c_engineTime := 0; c_open := true; c_stream := no_packet; c_requests := l; c_synch := []; c_trace := [] |}.

Abbreviation sample_run answer uses s :=
  (do_uses (H := sample_steady) (sample_library true) (sample_environment answer) [] 3 no_leftover no_leftover_pdu
     no_leftover_names None (fun _ => 0) 0 (fun c => Ret (c, true)) 5 5 uses s).

(** Two requests are sent; one is answered, the other one expires twice. *)
Definition sample_uses : list use :=
  [Send (sample_get 5) (Some (Application 1)) 7; Send (sample_get 6) (Some (Application 2)) 8; Read (Some [1]);
   Timeout].

Definition after (o : outcome client) : client := match o with Ret c => c | _ => sample_client [] end.

Lemma after_ran o : c_requests (after o) <> [] -> o = Ret (after o).
Proof. by destruct o. Qed.

Abbreviation after_uses := (after (sample_run (sample_answer 5) sample_uses (sample_client []))).

Example after_uses_requests : (fun rp => (rq_request_id rp, rq_retries rp)) <$> c_requests after_uses = [(6, 1)].
Proof. reflexivity. Qed.

Lemma after_uses_ran : sample_run (sample_answer 5) sample_uses (sample_client []) = Ret after_uses.
Proof.
  apply after_ran. intros E. pose proof after_uses_requests as E'. by rewrite E in E'.
Qed.

Lemma retries_bounded_witness :
  (forall request, times_again request (c_trace after_uses) <= 2 * times_first request (c_trace after_uses)) /\
  bounded after_uses /\ c_retries after_uses = c_retries (sample_client []).
Proof.
  apply (retries_bounded (H := sample_steady) (sample_library true) (sample_environment (sample_answer 5)) [] 3
    no_leftover no_leftover_pdu no_leftover_names None (fun _ => 0) 0 (fun c => Ret (c, true)) 5 5 sample_uses
    (sample_client []) after_uses).
  - by intros c c' b [= <- _].
  - split_and!; [done|constructor|]. intros i. by vm_compute.
  - exact after_uses_ran.
Defined.

(** The second request was sent twice, the first one once. *)
Example after_uses_sent : (fun i => (times_first i (c_trace after_uses), times_again i (c_trace after_uses))) <$> [5; 6] = [(1, 0); (1, 1)].
Proof. reflexivity. Qed.

(** Two requests wait; the answer is for the second one. *)
Lemma answer_goes_to_its_request_witness : exists c',
  deliver (H := sample_steady) (sample_library true) (sample_environment (sample_answer 6)) [] 3 3 (sample_answer 6)
    (sample_client [sample_waiting 5 1; sample_waiting 6 2]) = Ret (c', 0)
  /\ c_requests c' = [sample_waiting 5 1].
Proof.
  pose proof (answer_goes_to_its_request (H := sample_steady) (sample_library true)
    (sample_environment (sample_answer 6)) [] 3 3 (sample_answer 6)
    (sample_client [sample_waiting 5 1; sample_waiting 6 2]) eq_refl ltac:(cbn; lia)) as Ha.
  cbv zeta in Ha.
  replace (list_find _ _) with (Some (1%nat, sample_waiting 6 2)) in Ha by reflexivity.
  destruct Ha as [_ Ha]. edestruct (Ha ltac:(done) 1) as (_ & E & _); [by eapply (By_application _ _ _ _ _ _ _ 2 7 1 [])|].
  rewrite E by done. by eexists.
Defined.

(** Messages are built by [snmp_build] here. *)
Definition building_environment : environment := {|
  hook_pre := None; hook_parse := None; hook_post := None; hook_build := None; check_packet := None;
  is_stream := false; is_tunneled := false; msgMaxSize := 0; packet_addr := 0;
  f_send := fun _ _ => true; application := fun _ _ _ _ _ _ => (1, []); select := fun _ _ => Expired
|}.

(** A request with a community of its own. *)
Definition public_get (id : Z) : netsnmp_pdu := with_m_community [112; 117; 98; 108; 105; 99] (sample_get id).

Definition public_waiting (id f : Z) : netsnmp_request := {|
  rq_request_id := id; rq_message_id := 0; rq_callback := Some (Application f); rq_cb_data := 7; rq_retries := 0;
  rq_timeout := 1000000; rq_timeM := timerclear; rq_expireM := {| tv_sec := 1; tv_usec := 0 |};
  rq_pdu := public_get id |}.

Definition public_pdu (pdu : netsnmp_pdu) : Prop := exists m id, (id = 5 \/ id = 6) /\ pdu = with_m_msgid m (public_get id).

(** They are built in any state. *)
Lemma public_builder : builder (H := sample_steady) (sample_library true) building_environment [] 3 (fun _ => True) public_pdu.
Proof.
  split; [|done..]. intros c pdu msgid _ (m & id & Hid & ->).
  set (packet := match community_rbuild 3 (public_get id) {| pkt := replicate (Z.to_nat PKTBUF_LEN) 0; offset := 0 |} with
                 | Ret s => s | _ => {| pkt := []; offset := 0 |} end).
  exists (with_session (with_s_snmp_errno 0 (c_session c)) (with_usm (a_usm (c_api c)) c)), (with_m_msgid msgid (public_get id)), (behind packet).
  split; [|split; [done|by exists msgid, id]]. unfold packet. by destruct Hid as [->| ->].
Qed.

Abbreviation sample_passes ks :=
  (passes (H := sample_steady) (sample_library true) building_environment [] 3 ks
     (sample_client [public_waiting 5 1; public_waiting 6 2])).

(** Requests that have been sent a second time expire again. *)
Lemma sample_expired c : sample_passes [0%nat] = Ret c -> all_expired (H := sample_steady) (skip 2 c).
Proof.
  intros E.
  enough (Hb : match sample_passes [0%nat] with
    | Ret c => forallb (fun rp => timercmp_lt (rq_expireM rp) (steady (readings (skip 2 c)))) (c_requests c)
    | _ => false
    end = true).
  { rewrite E in Hb. apply List.Forall_forall. by rewrite forallb_forall in Hb. }
  clear E. vm_compute. reflexivity.
Qed.

(** Two requests, of a session that sends a request twice. *)
Lemma requests_end_witness : exists c',
  sample_passes [0%nat; 2%nat] = Ret c'
  /\ c_requests c' = [] /\ c_trace c' ≫= call_key ≡ₚ [(1, TIMED_OUT, 7); (2, TIMED_OUT, 7)].
Proof.
  destruct (requests_end (H := sample_steady) (sample_library true) building_environment [] 3)
    with (ks := [0%nat; 2%nat]) (c := sample_client [public_waiting 5 1; public_waiting 6 2])
    (able := fun _ : client => True) (buildable := public_pdu)
    as (c' & E & Hnil & Hcalls).
  - done.
  - done.
  - exact public_builder.
  - done.
  - split; [done|]. by repeat constructor.
  - done.
  - constructor; [|constructor; [|done]]; eexists 41, _; (split; [|reflexivity]); auto.
  - by repeat constructor.
  - intros j c' Hj E. destruct j as [|[|j]]; [| |cbn in Hj; lia].
    + injection E as <-. by repeat constructor.
    + exact (sample_expired c' E).
  - exists c'. split; [exact E|]. split; [by apply Hnil|]. by rewrite Hcalls.
Defined.
