(* ===== verification/ClientProps.v ===== *)
(** * Properties of copied messages *)

From S2P Require Import Prelude Bytes AsnTypes AsnParse AsnBuildSpec AsnRbuild VarOp Pdu Oid Lcd Usm UsmMsg Session Secmod Message Client PduProps MessageProps.

(** ** Copies of variables *)

(** A value has the bytes its length tells; names and values have a size. *)
Definition sound_value (vp : variable_list) : Prop :=
  len (name vp) <= MAX_OID_LEN
  /\ match val vp with None => True | Some v => 0 <= val_len vp <= len v /\ val_len vp <= 2 ^ 32 end.

(** The bytes that count. *)
Definition copy_of (vp : variable_list) : variable_list :=
  match val vp with
  | None => with_val None 0 vp
  | Some v => with_val (Some (take (Z.to_nat (val_len vp)) v)) (val_len vp) vp
  end.

(** The variables that are copied: all but the one at [errindex], and none
    behind the first [copy_count]. *)
Definition selected {A} (l : list A) (errindex copy_count : Z) : list A :=
  let l := take (Z.to_nat copy_count) l in
  if 0 <? errindex then delete (Z.to_nat (errindex - 1)) l else l.

Lemma rd_n_take m n : 0 <= n <= len m -> rd_n m 0 (Z.to_nat n) = Ret (take (Z.to_nat n) m).
Proof.
  intros Hn. pose proof (bytes_at_middle [] (take (Z.to_nat n) m) (drop (Z.to_nat n) m)) as E.
  apply rd_n_bytes_at in E. cbn [app length] in E. rewrite take_drop, length_take_le in E; [done|unfold len in Hn; lia].
Qed.

Section copies.
Context `{Allocator} (room : forall n, n <= 2 ^ 32 -> alloc n = true).

Lemma clone_var_exact vp : sound_value vp -> snmp_clone_var vp = Ret (Some (copy_of vp)).
Proof.
  intros [Hn Hs]. unfold snmp_clone_var, snmp_set_var_objid, copy_of, sizeof_name_loc.
  destruct (Z.leb_spec (sizeof_oid * len (name vp)) (MAX_OID_LEN * sizeof_oid)); [|unfold sizeof_oid in *; lia].
  replace (with_name (name vp) vp) with vp by (by destruct vp).
  destruct (val vp) as [v|]; [|done]. destruct Hs as [Hs Hl]. by rewrite (room _ Hl), andb_false_r, (rd_n_take _ _ Hs).
Qed.

Lemma copy_varlist_exact l : forall ii errindex copy_count, Forall sound_value l -> 0 <= ii ->
  _copy_varlist l ii errindex copy_count
  = Ret (Some (copy_of <$> if ii <? errindex then selected l (errindex - ii) copy_count
                           else take (Z.to_nat copy_count) l)).
Proof.
  induction l as [|vp l IH]; intros ii e n Hl Hi; cbn [_copy_varlist].
  - unfold selected. rewrite !take_nil. by repeat case_match.
  - inversion_clear Hl as [|? ? Hv Hrest]. destruct (Z.ltb_spec 0 n) as [Hn|Hn]; cbn [negb].
    + replace (Z.to_nat n) with (S (Z.to_nat (n - 1))) by lia. unfold selected.
      replace (Z.to_nat n) with (S (Z.to_nat (n - 1))) by lia. cbn [take].
      rewrite !(IH (ii + 1)) by (done || lia). unfold selected.
      destruct (Z.eqb_spec (ii + 1) e) as [<-|He].
      * destruct (Z.ltb_spec ii (ii + 1)); [|lia]. destruct (Z.ltb_spec (ii + 1) (ii + 1)); [lia|].
        replace (ii + 1 - ii) with 1 by lia. done.
      * rewrite room by done. cbn [negb]. rewrite (clone_var_exact vp Hv), !bind_ret.
        destruct (Z.ltb_spec (ii + 1) e), (Z.ltb_spec ii e); try lia; [|done].
        destruct (Z.ltb_spec 0 (e - (ii + 1))), (Z.ltb_spec 0 (e - ii)); try lia.
        replace (Z.to_nat (e - ii - 1)) with (S (Z.to_nat (e - (ii + 1) - 1))) by lia. done.
    + unfold selected. replace (Z.to_nat n) with 0%nat by lia. cbn [take]. by repeat case_match.
Qed.

Lemma clone_field_exact l n : clone_field l n = Some l.
Proof. unfold clone_field, snmp_clone_mem. destruct l; cbn [pointer]; [done|]. by rewrite room by cint. Qed.

Lemma clone_mem_exact o n : snmp_clone_mem o n = Some o.
Proof. destruct o; cbn; [by rewrite room by cint|done]. Qed.

(** Only a TRAP2 has a state reference of its own. *)
Definition plain (pdu : netsnmp_pdu) : Prop :=
  m_securityStateRef pdu = None \/ command (m_body pdu) <> SNMP_MSG_TRAP2.

Lemma clone_header_exact pdu : plain pdu ->
  _clone_pdu_header pdu = Some (with_m_body (with_variables [] (m_body pdu)) pdu).
Proof.
  intros Hc. unfold _clone_pdu_header. rewrite room by done. cbn [negb]. cbv zeta.
  rewrite !clone_field_exact, !clone_mem_exact. cbn [mbind option_bind].
  change (command (with_variables [] (m_body pdu))) with (command (m_body pdu)).
  replace (match m_securityStateRef pdu with Some _ => _ | None => _ end) with (Some (m_securityStateRef pdu)).
  - by destruct pdu as [[]].
  - destruct Hc as [->|Hc%Z.eqb_neq]; [done|]. rewrite Hc. by destruct (m_securityStateRef pdu).
Qed.

(** A part of a message has the variables of that part, and all its other
    fields. *)
Lemma split_pdu_exact pdu skip n : plain pdu -> Forall sound_value (variables (m_body pdu)) ->
  snmp_split_pdu pdu skip n
  = Ret (Some (with_m_body (with_variables (copy_of <$> take (Z.to_nat n) (drop (Z.to_nat skip) (variables (m_body pdu))))
                              (m_body pdu)) pdu)).
Proof.
  intros Hp Hv. unfold snmp_split_pdu, _copy_pdu_vars. rewrite (clone_header_exact _ Hp).
  rewrite copy_varlist_exact by (done || by apply Forall_drop). done.
Qed.

Lemma clone_pdu_exact pdu drop_err : plain pdu -> Forall sound_value (variables (m_body pdu)) ->
  (drop_err = true -> 0 < errindex (m_body pdu) < 2 ^ 31) ->
  _clone_pdu pdu drop_err
  = Ret (Some (with_m_body (with_variables (copy_of <$> selected (variables (m_body pdu))
                                              (if drop_err then errindex (m_body pdu) else 0) 10000)
                              (m_body pdu)) pdu)).
Proof.
  intros Hp Hv He. unfold _clone_pdu, _copy_pdu_vars. rewrite (clone_header_exact _ Hp), copy_varlist_exact by done.
  cbn [drop Z.to_nat]. rewrite !bind_ret. destruct drop_err; [|done].
  rewrite Z.sub_0_r, s32_id by (specialize (He eq_refl); cint). destruct (Z.ltb_spec 0 (errindex (m_body pdu))); [|lia].
  by rewrite Z.sub_0_r.
Qed.
End copies.

(** ** Answers with an error *)

(** The answer is an error about one of several variables. *)
Definition fixable (p : snmp_pdu) : bool :=
  (command p =? SNMP_MSG_RESPONSE) && negb (errstat p =? 0) && (0 <? errindex p)
  && (errindex p <=? snmp_varbind_len p) && (1 <? snmp_varbind_len p).

(** When an answer is an error about one of its variables, [snmp_fix_pdu]
    makes a request with the next numbers out of it: the variables are copies
    of the others, in their order; the error is gone; and every other field
    stays.  When there is no other variable, or the answer is no error about
    a variable, there is no request. *)
Theorem fix_pdu_exact `{Allocator} short_ids pdu cmd n : (forall k, k <= 2 ^ 32 -> alloc k = true) ->
  plain pdu -> Forall sound_value (variables (m_body pdu)) -> snmp_varbind_len (m_body pdu) <= 10000 ->
  let p := m_body pdu in
  let '(id, n1) := snmp_get_next_reqid short_ids n in
  let '(msg, n2) := snmp_get_next_msgid short_ids n1 in
  snmp_fix_pdu short_ids pdu cmd n =
  if fixable p then
    Ret (Some (with_m_msgid msg (with_m_body {|
           command := cmd; reqid := id; errstat := SNMP_DEFAULT_ERRSTAT; errindex := SNMP_DEFAULT_ERRINDEX;
           time := time p; flags := flags p;
           variables := copy_of <$> delete (Z.to_nat (errindex p - 1)) (variables p);
           enterprise := enterprise p; trap_type := trap_type p; specific_type := specific_type p;
           agent_addr := agent_addr p |} pdu)), n2)
  else Ret (None, n).
Proof.
  intros room Hp Hv Hlen. cbv zeta. destruct (snmp_get_next_reqid short_ids n) as [id n1] eqn:Eid.
  destruct (snmp_get_next_msgid short_ids n1) as [msg n2] eqn:Emsg.
  unfold snmp_fix_pdu, fixable, snmp_varbind_len in *. set (l := variables (m_body pdu)) in *.
  set (e := errindex (m_body pdu)). destruct (command (m_body pdu) =? SNMP_MSG_RESPONSE); [|done].
  destruct (errstat (m_body pdu) =? 0); [done|]. cbn [negb orb andb].
  rewrite s32_id by cint. destruct (Z.ltb_spec 0 e), (Z.leb_spec e 0); try lia; [|by rewrite orb_true_r].
  destruct (Z.leb_spec e (Z.of_nat (length l))), (Z.ltb_spec (Z.of_nat (length l)) e); try lia; cbn [orb andb];
    [|by rewrite orb_true_r].
  rewrite bool_decide_eq_false_2 by (intros E; rewrite E in *; cbn in *; lia). cbn [orb].
  rewrite (clone_pdu_exact room pdu true Hp Hv) by (intros _; fold e; lia). fold l e. rewrite bind_ret. cbn.
  unfold selected. rewrite take_ge by lia. destruct (Z.ltb_spec 0 e); [|lia].
  assert (El : length (copy_of <$> delete (Z.to_nat (e - 1)) l) = (length l - 1)%nat).
  { rewrite length_fmap, length_delete by (apply lookup_lt_is_Some_2; lia). done. }
  destruct (Z.ltb_spec 1 (Z.of_nat (length l))).
  - rewrite bool_decide_eq_false_2 by (intros E; rewrite E in El; cbn in El; lia). by rewrite Eid, Emsg.
  - rewrite bool_decide_eq_true_2 by (apply length_zero_iff_nil; lia). done.
Qed.

(** An error about the second variable of three. *)
#[local] Program Instance large_alloc : Allocator := { alloc n := n <? 2 ^ 40 }.
Next Obligation. intros n Hn%Z.ltb_lt. lia. Qed.

Definition sample_variable (x : Z) : variable_list :=
  {| name := [1; 3; x]; type := ASN_OCTET_STR; val := Some [x; 0]; val_len := 1 |}.

Definition sample_error : netsnmp_pdu :=
  plain_message SNMP_VERSION_2c
    (with_variables [sample_variable 1; sample_variable 2; sample_variable 3]
       (with_errindex 2 (with_errstat 5 (with_command SNMP_MSG_RESPONSE fresh_pdu)))).

Lemma fix_pdu_exact_witness : exists pdu n,
  snmp_fix_pdu false sample_error SNMP_MSG_GET {| Reqid := 10; Msgid := 20 |} = Ret (Some pdu, n)
  /\ variables (m_body pdu) = [copy_of (sample_variable 1); copy_of (sample_variable 3)]
  /\ reqid (m_body pdu) = 11 /\ m_msgid pdu = 21.
Proof.
  pose proof (fix_pdu_exact false sample_error SNMP_MSG_GET {| Reqid := 10; Msgid := 20 |}) as E.
  rewrite E; [by do 2 eexists| |by left|by repeat constructor|done].
  intros k Hk. apply Z.ltb_lt. lia.
Defined.
