(* ===== verification/Container.v ===== *)
(** * Ordered elements: what containers are built on

    Elements are pointers the container does not look into; it orders them
    with a comparison function, a field of the container.  [Ordering] says
    that the function is one; an ordered set of elements is a list that is
    strictly sorted by it. *)

From stdpp Require Import list sorting.
From S2P Require Import Prelude Bytes Oid.

(** [data\[i\]]. *)
Definition slot {A} (data : list A) (i : Z) : outcome A :=
  if i <? 0 then Overrun
  else match data !! Z.to_nat i with Some x => Ret x | None => Overrun end.

(** The number of elements. *)
Definition count {A} (data : list A) : Z := Z.of_nat (length data).

Class Ordering {A} (cmp : A -> A -> Z) : Prop := {
  ord_opp : forall a b, Z.sgn (cmp b a) = - Z.sgn (cmp a b);
  ord_trans : forall a b c, cmp a b <= 0 -> cmp b c <= 0 -> cmp a c <= 0
}.

Section slots.
Context {A : Type}.
Implicit Types data l : list A.

Lemma count_app l1 l2 : count (l1 ++ l2) = count l1 + count l2.
Proof. unfold count. rewrite length_app. lia. Qed.

Lemma count_cons x l : count (x :: l) = count l + 1.
Proof. unfold count. cbn. lia. Qed.

Lemma count_nil : count (@nil A) = 0.
Proof. done. Qed.

Lemma count_pos l : 0 <= count l.
Proof. unfold count. lia. Qed.

Lemma count_zero l : count l = 0 -> l = [].
Proof. destruct l; [done|]. unfold count. cbn. lia. Qed.

Lemma slot_here l1 x l2 i : i = count l1 -> slot (l1 ++ x :: l2) i = Ret x.
Proof.
  intros ->. unfold slot, count. destruct (Z.ltb_spec (Z.of_nat (length l1)) 0); [lia|].
  by rewrite Nat2Z.id, list_lookup_middle.
Qed.

Lemma slot_in l i : 0 <= i < count l -> exists l1 x l2, l = l1 ++ x :: l2 /\ i = count l1 /\ slot l i = Ret x.
Proof.
  intros Hi. destruct (lookup_lt_is_Some_2 l (Z.to_nat i)) as [x Hx]; [unfold count in *; lia|].
  pose proof (take_drop_middle l (Z.to_nat i) x Hx) as E. do 3 eexists. split; [symmetry; exact E|].
  split; [|rewrite <- E; apply slot_here].
  all: unfold count in *; rewrite length_take_le by lia; lia.
Qed.

Lemma insert_here l1 x y l2 i : i = count l1 -> <[Z.to_nat i := y]> (l1 ++ x :: l2) = l1 ++ y :: l2.
Proof. intros ->. unfold count. by rewrite Nat2Z.id, insert_app_r_alt, Nat.sub_diag by done. Qed.
End slots.

Section ordering.
Context {A} (cmp : A -> A -> Z) `{!Ordering cmp}.
Implicit Types a b c : A.

Lemma ord_refl a : cmp a a = 0.
Proof. pose proof (ord_opp a a). destruct (Z.sgn_spec (cmp a a)) as [[? E]|[[? E]|[? E]]]; rewrite E in *; lia. Qed.

Lemma ord_lt a b : cmp a b < 0 <-> 0 < cmp b a.
Proof. pose proof (ord_opp a b). destruct (Z.sgn_spec (cmp a b)), (Z.sgn_spec (cmp b a)); lia. Qed.

Lemma ord_le a b : cmp a b <= 0 <-> 0 <= cmp b a.
Proof. pose proof (ord_lt b a). lia. Qed.

Lemma ord_eq a b : cmp a b = 0 <-> cmp b a = 0.
Proof. pose proof (ord_le a b). pose proof (ord_le b a). lia. Qed.

Lemma ord_lt_le_trans a b c : cmp a b < 0 -> cmp b c <= 0 -> cmp a c < 0.
Proof.
  intros Hab Hbc. assert (cmp a c <= 0) by (eapply ord_trans; [|exact Hbc]; lia).
  destruct (Z.eq_dec (cmp a c) 0) as [E|]; [|lia]. apply ord_eq in E.
  assert (cmp b a <= 0) by (eapply ord_trans; [exact Hbc|lia]). apply ord_lt in Hab. lia.
Qed.

Lemma ord_le_lt_trans a b c : cmp a b <= 0 -> cmp b c < 0 -> cmp a c < 0.
Proof.
  intros Hab Hbc. assert (cmp a c <= 0) by (eapply ord_trans; [exact Hab|]; lia).
  destruct (Z.eq_dec (cmp a c) 0) as [E|]; [|lia]. apply ord_eq in E.
  assert (cmp c b <= 0) by (eapply ord_trans; [|exact Hab]; lia). apply ord_lt in Hbc. lia.
Qed.

(** ** Ordered sets *)

Definition not_above a b : Prop := cmp a b <= 0.
Definition below a b : Prop := cmp a b < 0.

(** Sorted, and strictly sorted: no two elements have the same key. *)
Definition in_order (l : list A) : Prop := StronglySorted not_above l.
Definition ordered_set (l : list A) : Prop := StronglySorted below l.

Definition same_key (k a : A) : bool := cmp a k =? 0.
Definition above_key (k a : A) : bool := 0 <? cmp a k.

(** The first element that satisfies [p]. *)
Fixpoint first_such (p : A -> bool) (l : list A) : option A :=
  match l with [] => None | x :: l => if p x then Some x else first_such p l end.

(** The set with one element more, and without the element of a key. *)
Fixpoint set_insert (k : A) (l : list A) : list A :=
  match l with
  | [] => [k]
  | x :: l' => if 0 <? cmp x k then k :: l else x :: set_insert k l'
  end.

Fixpoint set_remove (k : A) (l : list A) : list A :=
  match l with [] => [] | x :: l' => if cmp x k =? 0 then l' else x :: set_remove k l' end.

Definition set_find (k : A) (l : list A) : option A := first_such (same_key k) l.
Definition set_next (k : A) (l : list A) : option A := first_such (above_key k) l.

(** The key is a parameter of the set's members only through [cmp]. *)
Lemma below_trans : Transitive below.
Proof. intros a b c Hab Hbc. unfold below in *. apply ord_lt_le_trans with b; lia. Qed.

Lemma ordered_set_in_order l : ordered_set l -> in_order l.
Proof. intros Hl. induction Hl as [|x l Hl IH Hx]; constructor; [done|]. eapply Forall_impl; [exact Hx|]. unfold below, not_above. lia. Qed.

Lemma set_insert_perm k l : set_insert k l ≡ₚ k :: l.
Proof.
  induction l as [|x l IH]; [done|]. cbn. destruct (0 <? cmp x k); [done|]. rewrite IH. apply perm_swap.
Qed.

Lemma set_find_None k l : set_find k l = None <-> Forall (fun a => cmp a k <> 0) l.
Proof.
  unfold set_find, same_key. induction l as [|x l IH]; [done|]. cbn. rewrite Forall_cons.
  destruct (Z.eqb_spec (cmp x k) 0); [|tauto]. split; [done|]. by intros [? _].
Qed.

Lemma set_insert_ordered k l : ordered_set l -> set_find k l = None -> ordered_set (set_insert k l).
Proof.
  intros Hl. induction Hl as [|x l Hl IH Hx]; intros Hf; [by repeat constructor|].
  apply set_find_None in Hf. apply Forall_cons in Hf as [Hk Hf]. apply set_find_None in Hf. cbn.
  destruct (Z.ltb_spec 0 (cmp x k)) as [Hlt|Hge].
  - apply ord_lt in Hlt. constructor; [by constructor|]. constructor; [done|]. eapply Forall_impl; [exact Hx|].
    intros y Hy. by apply below_trans with x.
  - constructor; [by apply IH|]. rewrite set_insert_perm. constructor; [|done]. unfold below. lia.
Qed.

Lemma set_remove_sublist k l : set_remove k l `sublist_of` l.
Proof. induction l as [|x l IH]; [done|]. cbn. destruct (_ =? 0); by constructor. Qed.

Lemma ordered_sublist l l' : l' `sublist_of` l -> ordered_set l -> ordered_set l'.
Proof.
  intros Hs. induction Hs as [|x l' l Hs IH|x l' l Hs IH]; intros Hl; [done|..]; inversion_clear Hl as [|? ? Hl' Hx].
  - constructor; [by apply IH|]. apply Forall_forall. intros y Hy. rewrite Forall_forall in Hx. apply Hx. by eapply elem_of_sublist.
  - by apply IH.
Qed.

Lemma set_remove_ordered k l : ordered_set l -> ordered_set (set_remove k l).
Proof. apply ordered_sublist, set_remove_sublist. Qed.

Lemma set_remove_insert k l : set_find k l = None -> set_remove k (set_insert k l) = l.
Proof.
  intros Hf. apply set_find_None in Hf. induction Hf as [|x l Hx Hf IH]; cbn; [by rewrite ord_refl|].
  destruct (0 <? cmp x k); cbn; [by rewrite ord_refl|]. destruct (Z.eqb_spec (cmp x k) 0); [done|]. by rewrite IH.
Qed.

(** Ordered sets with the same members are the same. *)
Lemma ordered_set_unique l l' : ordered_set l -> ordered_set l' -> l ≡ₚ l' -> l = l'.
Proof.
  intros Hl Hl' Hp. apply StronglySorted_unique_strong with (R := below); [|done..].
  intros x y _ _ Hxy Hyx. unfold below in *. apply ord_lt in Hyx. lia.
Qed.

(** Where a key is in an ordered set: what is below it, the element with that
    key if there is one, and what is above. *)
Lemma split_at_key k l : ordered_set l -> exists lo mid hi, l = lo ++ mid ++ hi
  /\ Forall (fun a => cmp a k < 0) lo /\ Forall (fun a => cmp a k = 0) mid /\ Forall (fun a => 0 < cmp a k) hi
  /\ (mid = [] \/ exists x, mid = [x]).
Proof.
  intros Hl. induction Hl as [|x l Hl IH Hx]; [exists [], [], []; repeat split; by auto|].
  destruct IH as (lo & mid & hi & -> & Hlo & Hmid & Hhi & Hm).
  destruct (Z.lt_trichotomy (cmp x k) 0) as [Hlt|[Heq|Hgt]].
  - exists (x :: lo), mid, hi. repeat split; auto.
  - assert (Hall : Forall (fun a => 0 < cmp a k) (lo ++ mid ++ hi)).
    { eapply Forall_impl; [exact Hx|]. intros y Hy. apply ord_lt. apply ord_le_lt_trans with x; [|done].
      apply ord_eq in Heq. lia. }
    apply Forall_app in Hall as [Hlo' [Hmid' Hhi']%Forall_app].
    destruct lo as [|y lo]; [|inversion Hlo; inversion Hlo'; lia].
    destruct Hm as [->|[y ->]]; [|inversion Hmid; inversion Hmid'; lia].
    exists [], [x], hi. repeat split; eauto.
  - assert (Hall : Forall (fun a => 0 < cmp a k) (lo ++ mid ++ hi)).
    { eapply Forall_impl; [exact Hx|]. intros y Hy. apply ord_lt. apply ord_lt in Hgt.
      apply ord_lt_le_trans with x; [done|]. unfold below in Hy. lia. }
    apply Forall_app in Hall as [Hlo' [Hmid' Hhi']%Forall_app].
    destruct lo as [|y lo]; [|inversion Hlo; inversion Hlo'; lia].
    destruct Hm as [->|[y ->]]; [|inversion Hmid; inversion Hmid'; lia].
    exists [], [], (x :: hi). repeat split; eauto.
Qed.

Lemma first_such_app p l1 l2 : Forall (fun a => p a = false) l1 -> first_such p (l1 ++ l2) = first_such p l2.
Proof. induction 1 as [|x l Hx Hl IH]; [done|]. cbn. by rewrite Hx. Qed.

Lemma set_remove_app k l1 l2 : Forall (fun a => cmp a k <> 0) l1 -> set_remove k (l1 ++ l2) = l1 ++ set_remove k l2.
Proof. induction 1 as [|x l Hx Hl IH]; [done|]. cbn. destruct (Z.eqb_spec (cmp x k) 0); [done|]. by rewrite IH. Qed.
End ordering.

(** ** The interface of containers

    What the routines of container.c need of an implementation: the function
    pointers of a container; and what an implementation that is an ordered set
    promises of them. *)

Class ContainerOps (C A : Type) := {
  op_compare : C -> A -> A -> Z;
  op_insert : C -> A -> outcome (Z * C);
  op_remove : C -> A -> outcome (Z * C);
  op_find : C -> A -> outcome (option A * C);
  op_find_next : C -> option A -> outcome (option A * C)
}.

(** [holds c s]: the container has the elements of the set [s]. *)
Class OrderedContainer (C A : Type) `{ContainerOps C A} (holds : C -> list A -> Prop) : Prop := {
  holds_ordering c s : holds c s -> Ordering (op_compare c);
  holds_ordered c s : holds c s -> ordered_set (op_compare c) s;
  holds_insert c s k : holds c s -> count s + 1 < 2 ^ 30 ->
    exists rc c', op_insert c k = Ret (rc, c') /\ op_compare c' = op_compare c
    /\ if rc =? 0 then set_find (op_compare c) k s = None /\ holds c' (set_insert (op_compare c) k s) else holds c' s;
  holds_remove c s k : holds c s -> exists rc c', op_remove c k = Ret (rc, c') /\ op_compare c' = op_compare c
    /\ holds c' (set_remove (op_compare c) k s) /\ (is_Some (set_find (op_compare c) k s) -> rc = 0);
  holds_find c s k : holds c s -> exists c', op_find c k = Ret (set_find (op_compare c) k s, c')
    /\ op_compare c' = op_compare c /\ holds c' s;
  holds_find_next c s k : holds c s -> exists c',
    op_find_next c k = Ret (match k with Some k => set_next (op_compare c) k s | None => head s end, c')
    /\ op_compare c' = op_compare c /\ holds c' s
}.
