(* ===== verification/BinaryArray.v ===== *)
(** * Sorted arrays: snmplib/container_binary_array.c

    A container keeps its elements in an array that is sorted only when
    somebody looks something up.  [t_data] has the [t->count] entries in use of
    an array of [t_max_size]; the pointers to the routines a container brings
    along are the routines themselves. *)

From S2P Require Import Prelude Bytes AsnRbuild Oid Container.

Definition CONTAINER_KEY_ALLOW_DUPLICATES : Z := 1.
Definition CONTAINER_KEY_UNSORTED : Z := 2.
Definition BA_FLAGS : Z := Z.lor CONTAINER_KEY_ALLOW_DUPLICATES CONTAINER_KEY_UNSORTED.

Record container (A : Type) : Type := {
  c_compare : A -> A -> Z;
  c_ncompare : option (A -> A -> Z);
  c_flags : Z;
  c_sync : Z;
  t_max_size : Z;
  t_dirty : bool;
  t_data : list A
}.
Arguments c_compare {A} c.
Arguments c_ncompare {A} c.
Arguments c_flags {A} c.
Arguments c_sync {A} c.
Arguments t_max_size {A} c.
Arguments t_dirty {A} c.
Arguments t_data {A} c.

Section binary_array.
Context {A : Type}.
Implicit Types c : container A.

(** ** Assignments *)

Definition with_table (max_size : Z) (dirty : bool) (data : list A) (c : container A) : container A := {|
  c_compare := c_compare c; c_ncompare := c_ncompare c; c_flags := c_flags c; c_sync := c_sync c;
  t_max_size := max_size; t_dirty := dirty; t_data := data |}.

Definition with_flags (flags : Z) (c : container A) : container A := {|
  c_compare := c_compare c; c_ncompare := c_ncompare c; c_flags := flags; c_sync := c_sync c;
  t_max_size := t_max_size c; t_dirty := t_dirty c; t_data := t_data c |}.

(** [++c->sync] *)
Definition bump (c : container A) : container A := {|
  c_compare := c_compare c; c_ncompare := c_ncompare c; c_flags := c_flags c; c_sync := u64 (c_sync c + 1);
  t_max_size := t_max_size c; t_dirty := t_dirty c; t_data := t_data c |}.

Definition has_flag (c : container A) (flag : Z) : bool := negb (Z.land (c_flags c) flag =? 0).

(** ** Sorting *)

Fixpoint scan_up (fuel : nat) (f : A -> A -> Z) (data : list A) (mid : A) (last i : Z) : outcome Z :=
  match fuel with
  | O => Spin
  | S fuel =>
      if i <? last then x ← slot data i; if f x mid <? 0 then scan_up fuel f data mid last (i + 1) else Ret i
      else Ret i
  end.

Fixpoint scan_down (fuel : nat) (f : A -> A -> Z) (data : list A) (mid : A) (first j : Z) : outcome Z :=
  match fuel with
  | O => Spin
  | S fuel =>
      if first <? j then x ← slot data j; if f mid x <? 0 then scan_down fuel f data mid first (j - 1) else Ret j
      else Ret j
  end.

(** The [do] loop: the array, [i] and [j] after it. *)
Fixpoint partition (fuel : nat) (f : A -> A -> Z) (data : list A) (mid : A) (first last i j : Z)
    : outcome (list A * Z * Z) :=
  match fuel with
  | O => Spin
  | S fuel =>
      i ← scan_up (S (length data)) f data mid last i;
      j ← scan_down (S (length data)) f data mid first j;
      if i <? j then
        x ← slot data i; y ← slot data j;
        let data := <[Z.to_nat j := x]> (<[Z.to_nat i := y]> data) in
        if i + 1 <=? j - 1 then partition fuel f data mid first last (i + 1) (j - 1)
        else Ret (data, i + 1, j - 1)
      else if i =? j then Ret (data, i + 1, j - 1)
      else Ret (data, i, j)
  end.

(** Every call has a shorter range. *)
Fixpoint array_qsort (fuel : nat) (f : A -> A -> Z) (data : list A) (first last : Z) : outcome (list A) :=
  match fuel with
  | O => Spin
  | S fuel =>
      mid ← slot data (Z.quot (s32 (first + last)) 2);
      '(data, i, j) ← partition (S (length data)) f data mid first last first last;
      data ← (if first <? j then array_qsort fuel f data first j else Ret data);
      if i <? last then array_qsort fuel f data i last else Ret data
  end.

Definition Sort_Array c : outcome (Z * container A) :=
  if has_flag c CONTAINER_KEY_UNSORTED then Ret (0, c)
  else if t_dirty c then
    data ← (if 1 <? count (t_data c)
            then array_qsort (length (t_data c)) (c_compare c) (t_data c) 0 (s32 (count (t_data c) - 1))
            else Ret (t_data c));
    Ret (1, bump (with_table (t_max_size c) false data c))
  else Ret (1, c).

Definition sort_dirty c : outcome (container A) := if t_dirty c then '(_, c) ← Sort_Array c; Ret c else Ret c.

(** ** Searching *)

Fixpoint linear_loop (compare : A -> A -> Z) (data : list A) (val : A) (pos : Z) : Z :=
  match data with
  | [] => -1
  | x :: data => if compare x val =? 0 then s32 pos else linear_loop compare data val (pos + 1)
  end.

Definition linear_search (val : A) c : Z :=
  if count (t_data c) =? 0 then -1
  else if negb (has_flag c CONTAINER_KEY_UNSORTED) then -1
  else linear_loop (c_compare c) (t_data c) val 0.

(** [first], [middle] and [result] after the loop; [len] gets smaller. *)
Fixpoint search_loop (fuel : nat) (compare : A -> A -> Z) (data : list A) (val : A) (len first middle result : Z)
    : outcome (Z * Z * Z) :=
  match fuel with
  | O => Spin
  | S fuel =>
      if 0 <? len then
        let half := Z.shiftr len 1 in
        let middle := first + half in
        x ← slot data middle;
        let result := compare x val in
        if result <? 0 then search_loop fuel compare data val (len - half - 1) (middle + 1) middle result
        else if result =? 0 then Ret (middle, middle, result)
        else search_loop fuel compare data val half first middle result
      else Ret (first, middle, result)
  end.

Definition binary_search (val : A) c (exact : bool) : outcome (Z * container A) :=
  if count (t_data c) =? 0 then Ret (-1, c)
  else if has_flag c CONTAINER_KEY_UNSORTED then
    Ret (if negb exact then -1 else linear_search val c, c)
  else
    c ← sort_dirty c;
    let n := count (t_data c) in
    '(first, middle, result) ← search_loop (S (length (t_data c))) (c_compare c) (t_data c) val n 0 0 0;
    if n <=? first then Ret (-1, c)
    else
      result ← (if negb (first =? middle) then x ← slot (t_data c) first; Ret (c_compare c x val) else Ret result);
      Ret (s32 (if result =? 0 then if exact then first else if first + 1 =? n then -1 else first + 1
                else if exact then -1 else first), c).

(** ** Operations *)

Definition netsnmp_binary_array_options_set c (set : bool) (flags : Z) : Z * container A :=
  if set then
    if Z.land flags BA_FLAGS =? flags then (s32 flags, with_flags flags c) else (-1, c)
  else (Z.b2z (Z.land (c_flags c) flags =? flags), c).

Definition netsnmp_binary_array_count c : Z := count (t_data c).

Definition netsnmp_binary_array_get c (key : option A) (exact : bool) : outcome (option A * container A) :=
  if count (t_data c) =? 0 then Ret (None, c)
  else
    c ← sort_dirty c;
    match key with
    | None => x ← slot (t_data c) 0; Ret (Some x, c)
    | Some key =>
        '(index, c) ← binary_search key c exact;
        if index =? -1 then Ret (None, c) else x ← slot (t_data c) index; Ret (Some x, c)
    end.

(** The element that was there goes to [*save]. *)
Definition netsnmp_binary_array_remove_at c (index : Z) : outcome (Z * option A * container A) :=
  if count (t_data c) =? 0 then Ret (0, None, c)
  else
    x ← slot (t_data c) index;
    let c' := with_table (t_max_size c) (t_dirty c) (delete (Z.to_nat index) (t_data c)) c in
    Ret (0, Some x, if index =? count (t_data c) - 1 then c' else bump c').

Definition netsnmp_binary_array_remove c (key : A) : outcome (Z * option A * container A) :=
  if count (t_data c) =? 0 then Ret (0, None, c)
  else
    c ← sort_dirty c;
    '(index, c) ← binary_search key c true;
    if index =? -1 then Ret (-1, None, c) else netsnmp_binary_array_remove_at c index.

(** [fe] works on a state of its own. *)
Definition netsnmp_binary_array_for_each {S} c (fe : A -> S -> S) (context : S) (sort : bool)
    : outcome (S * container A) :=
  c ← (if sort then sort_dirty c else Ret c);
  Ret (fold_left (fun s x => fe x s) (t_data c) context, c).

Definition netsnmp_binary_array_clear {S} c (fe : option (A -> S -> S)) (context : S) : S * container A :=
  (match fe with Some fe => fold_left (fun s x => fe x s) (t_data c) context | None => context end,
   bump (with_table (t_max_size c) false [] c)).
End binary_array.

Section insertion.
Context {A : Type} `{Allocator}.
Implicit Types c : container A.

Definition sizeof_pointer : Z := 8.

(** The size of the array when there is room for one element more, or
    nothing. *)
Definition grow c : option Z :=
  if t_max_size c <=? count (t_data c) then
    let new_max := if 0 <? t_max_size c then 2 * t_max_size c else 10 in
    if alloc (new_max * sizeof_pointer) then Some new_max else None
  else Some (t_max_size c).

Definition netsnmp_binary_array_insert c (entry : A) : outcome (Z * container A) :=
  let was_dirty := negb (has_flag c CONTAINER_KEY_ALLOW_DUPLICATES) && t_dirty c in
  '(found, c) ← (if has_flag c CONTAINER_KEY_ALLOW_DUPLICATES then Ret (None, c)
                 else netsnmp_binary_array_get c (Some entry) true);
  match found with
  | Some _ => Ret (-1, c)
  | None =>
      match grow c with
      | None => Ret (-1, c)
      | Some new_max =>
          let c := with_table new_max true (t_data c ++ [entry]) c in
          Ret (0, if was_dirty then c else bump c)
      end
  end.

(** ** Subsets *)

Fixpoint start_loop (fuel : nat) (ncompare : A -> A -> Z) (data : list A) (val : A) (len first : Z) : outcome Z :=
  match fuel with
  | O => Spin
  | S fuel =>
      if 0 <? len then
        let half := Z.shiftr len 1 in
        let middle := first + half in
        x ← slot data middle;
        if ncompare x val <? 0 then start_loop fuel ncompare data val (len - half - 1) (middle + 1)
        else start_loop fuel ncompare data val half first
      else Ret first
  end.

Definition binary_search_for_start (val : A) c (ncompare : A -> A -> Z) : outcome (Z * container A) :=
  if count (t_data c) =? 0 then Ret (-1, c)
  else
    c ← sort_dirty c;
    first ← start_loop (S (length (t_data c))) ncompare (t_data c) val (count (t_data c)) 0;
    if count (t_data c) <=? first then Ret (-1, c)
    else x ← slot (t_data c) first; Ret (if ncompare x val =? 0 then s32 first else -1, c).

(** How many elements from here on match. *)
Fixpoint matching_prefix (ncompare : A -> A -> Z) (key : A) (data : list A) : list A :=
  match data with
  | [] => []
  | x :: data => if ncompare x key =? 0 then x :: matching_prefix ncompare key data else []
  end.

(** [None] is NULL; without memory for the array there is none. *)
Definition netsnmp_binary_array_get_subset c (key : A) : outcome (option (list A) * container A) :=
  match c_ncompare c with
  | None => Ret (None, c)
  | Some ncompare =>
      if count (t_data c) =? 0 then Ret (None, c)
      else
        c ← sort_dirty c;
        '(start, c) ← binary_search_for_start key c ncompare;
        if start =? -1 then Ret (None, c)
        else
          x ← slot (t_data c) start;
          let subset := x :: matching_prefix ncompare key (drop (S (Z.to_nat start)) (t_data c)) in
          Ret (if alloc (count subset * sizeof_pointer) then Some subset else None, c)
  end.

(** ** The routines of a container *)

Definition _ba_find c (data : A) := netsnmp_binary_array_get c (Some data) true.
Definition _ba_find_next c (data : option A) := netsnmp_binary_array_get c data false.
Definition _ba_remove c (data : A) : outcome (Z * container A) :=
  '(rc, _, c) ← netsnmp_binary_array_remove c data; Ret (rc, c).

Definition sizeof_container : Z := 192.
Definition sizeof_table : Z := 32.
Definition sizeof_void_array : Z := 16.

Definition _ba_get_subset c (data : A) : outcome (option (list A) * container A) :=
  '(rtn, c) ← netsnmp_binary_array_get_subset c data;
  Ret (match rtn with Some l => if alloc sizeof_void_array then Some l else None | None => None end, c).

(** Without memory for the table [container_data] stays NULL, and the first
    use of the container follows it. *)
Definition netsnmp_container_get_binary_array (compare : A -> A -> Z) : outcome (option (container A)) :=
  if negb (alloc sizeof_container) then Ret None
  else if negb (alloc sizeof_table) then Null
  else Ret (Some {| c_compare := compare; c_ncompare := None; c_flags := 0; c_sync := 0; t_max_size := 0;
                    t_dirty := false; t_data := [] |}).

Definition _ba_duplicate c (flags : Z) : outcome (option (container A)) :=
  if negb (flags =? 0) then Ret None
  else
    dup ← netsnmp_container_get_binary_array (c_compare c);
    match dup with
    | None => Ret None
    | Some _ =>
        if negb (alloc (t_max_size c * sizeof_pointer)) then Ret None
        else Ret (Some {| c_compare := c_compare c; c_ncompare := c_ncompare c; c_flags := c_flags c;
                          c_sync := c_sync c; t_max_size := t_max_size c; t_dirty := t_dirty c;
                          t_data := t_data c |})
    end.

(** ** Iterators *)

Record iterator : Type := { i_sync : Z; i_pos : Z }.

Definition _ba_iterator_position (it : iterator) c (pos : Z) : outcome (option A) :=
  if negb (c_sync c =? i_sync it) then Ret None
  else if count (t_data c) =? 0 then Ret None
  else if count (t_data c) <=? pos then Ret None
  else x ← slot (t_data c) pos; Ret (Some x).

Definition _ba_iterator_curr (it : iterator) c : outcome (option A) := _ba_iterator_position it c (i_pos it).
Definition _ba_iterator_first (it : iterator) c : outcome (option A) := _ba_iterator_position it c 0.

Definition _ba_iterator_next (it : iterator) c : outcome (option A * iterator) :=
  let it := {| i_sync := i_sync it; i_pos := u64 (i_pos it + 1) |} in
  x ← _ba_iterator_position it c (i_pos it); Ret (x, it).

Definition _ba_iterator_last (it : iterator) c : outcome (option A) :=
  _ba_iterator_position it c (u64 (count (t_data c) - 1)).

Definition _ba_iterator_remove (it : iterator) c : outcome (Z * iterator * container A) :=
  '(rc, _, c) ← netsnmp_binary_array_remove_at c (i_pos it);
  Ret (rc, {| i_sync := u64 (i_sync it + 1); i_pos := u64 (i_pos it - 1) |}, c).

Definition _ba_iterator_reset c : outcome (iterator * container A) :=
  c ← sort_dirty c; Ret ({| i_sync := c_sync c; i_pos := 0 |}, c).

Definition sizeof_iterator : Z := 80.

Definition _ba_iterator_get c : outcome (option iterator * container A) :=
  if negb (alloc sizeof_iterator) then Ret (None, c)
  else '(it, c) ← _ba_iterator_reset c; Ret (Some it, c).
End insertion.
