(* ===== verification/BinaryArrayProps.v ===== *)
(** * Sorting and searching a sorted array

    [array_qsort] sorts, [search_loop] finds the first place that is not below
    the key. *)

From stdpp Require Import list sorting.
From S2P Require Import Prelude Bytes AsnRbuild Oid Container BinaryArray.

(** ** Splitting lists where a property ends *)

Lemma span_left {A} (P : A -> Prop) `{!forall x, Decision (P x)} l :
  exists l1 l2, l = l1 ++ l2 /\ Forall P l1 /\ match l2 with [] => True | x :: _ => ~ P x end.
Proof.
  induction l as [|x l (l1 & l2 & -> & H1 & H2)]; [by exists [], []|].
  destruct (decide (P x)); [exists (x :: l1), l2; auto|exists [], (x :: l1 ++ l2); auto].
Qed.

Lemma span_right {A} (P : A -> Prop) `{!forall x, Decision (P x)} l :
  exists l1 l2, l = l1 ++ l2 /\ Forall P l2 /\ (l1 = [] \/ exists l1' x, l1 = l1' ++ [x] /\ ~ P x).
Proof.
  induction l as [|x l (l1 & l2 & -> & H1 & H2)] using rev_ind; [by exists [], []; auto|].
  destruct (decide (P x)).
  - exists l1, (l2 ++ [x]). rewrite Forall_app, <- app_assoc. auto.
  - exists ((l1 ++ l2) ++ [x]), []. rewrite app_nil_r. split; [done|]. split; [done|]. right. eauto.
Qed.

(** ** Quicksort *)

Section sorting.
Context {A} (f : A -> A -> Z) `{!Ordering f}.
Implicit Types (data pre post l : list A) (mid : A).

Lemma scan_up_spec mid last : forall l fuel pre x post i,
  i = count pre -> Forall (fun a => f a mid < 0) l -> 0 <= f x mid -> i + count l <= last -> (length l < fuel)%nat ->
  scan_up fuel f (pre ++ l ++ x :: post) mid last i = Ret (i + count l).
Proof.
  induction l as [|a l IH]; intros fuel pre x post i -> Hl Hx Hlast Hf; (destruct fuel as [|fuel]; [cbn in Hf; lia|]); cbn [scan_up app].
  - rewrite Z.add_0_r. destruct (count pre <? last); [|done]. rewrite slot_here, bind_ret by done.
    destruct (Z.ltb_spec (f x mid) 0); [lia|done].
  - rewrite count_cons in *. pose proof (count_pos l). destruct (Z.ltb_spec (count pre) last); [|lia].
    rewrite slot_here, bind_ret by done. inversion_clear Hl as [|? ? Ha Hl']. destruct (Z.ltb_spec (f a mid) 0); [|lia].
    replace (pre ++ a :: l ++ x :: post) with ((pre ++ [a]) ++ l ++ x :: post) by (by rewrite <- app_assoc).
    rewrite (IH fuel (pre ++ [a]) x post (count pre + 1)); [f_equal; lia|..]; try done.
    + rewrite count_app. done.
    + lia.
    + cbn in Hf. lia.
Qed.

Lemma scan_down_spec mid first : forall l fuel pre x post j,
  j = count pre + count l -> Forall (fun a => f mid a < 0) l -> 0 <= f mid x -> first <= count pre -> (length l < fuel)%nat ->
  scan_down fuel f (pre ++ x :: l ++ post) mid first j = Ret (count pre).
Proof.
  induction l as [|a l IH] using rev_ind; intros fuel pre x post j -> Hl Hx Hfirst Hf;
    (destruct fuel as [|fuel]; [lia|]); cbn [scan_down app].
  - rewrite count_nil, Z.add_0_r. destruct (first <? count pre); [|done]. rewrite slot_here, bind_ret by done.
    destruct (Z.ltb_spec (f mid x) 0); [lia|done].
  - rewrite count_app, count_cons, count_nil in *. pose proof (count_pos l).
    destruct (Z.ltb_spec first (count pre + (count l + (0 + 1)))); [|lia].
    rewrite <- app_assoc. cbn [app].
    replace (pre ++ x :: l ++ a :: post) with ((pre ++ x :: l) ++ a :: post) by (by rewrite <- app_assoc).
    rewrite slot_here, bind_ret by (rewrite count_app, count_cons; lia).
    apply Forall_app in Hl as [Hl Ha]. inversion_clear Ha as [|? ? Ha' _]. destruct (Z.ltb_spec (f mid a) 0); [|lia].
    rewrite <- app_assoc. cbn [app]. apply IH; try done; [lia|]. rewrite length_app in Hf. cbn in Hf. lia.
Qed.

(** The array around the window [mids] between [i] and [j]. *)
Definition around pre lo mids hi post : list A := pre ++ (lo ++ mids ++ hi) ++ post.

Lemma scan_up_window mid pre lo mids hi post last i :
  i = count pre + count lo -> last = count pre + count (lo ++ mids ++ hi) - 1 -> mids <> [] ->
  Forall (fun a => f mid a <= 0) hi -> hi <> [] \/ Exists (fun a => f mid a <= 0) mids ->
  exists la lb, mids = la ++ lb /\ Forall (fun a => f a mid < 0) la
  /\ scan_up (S (length (around pre lo mids hi post))) f (around pre lo mids hi post) mid last i = Ret (i + count la)
  /\ match lb with [] => hi <> [] | b :: _ => f mid b <= 0 end.
Proof.
  intros Hi Hlast Hne Hhi Hright. destruct (span_left (fun a => f a mid < 0) mids) as (la & lb & -> & Hla & Hlb).
  exists la, lb. split; [done|]. split; [done|]. rewrite !count_app in Hlast.
  assert (Hfuel : (length la < S (length (around pre lo (la ++ lb) hi post)))%nat)
    by (unfold around; rewrite !length_app; lia).
  destruct lb as [|b lb]; unfold around in *.
  - rewrite app_nil_r in *. destruct hi as [|h hi].
    { destruct Hright as [|Hex]; [done|]. apply Exists_exists in Hex as (y & Hy & Hle). rewrite Forall_forall in Hla.
      apply Hla in Hy. apply (ord_le f) in Hle. lia. }
    inversion_clear Hhi as [|? ? Hh _]. split; [|done].
    replace (pre ++ (lo ++ la ++ h :: hi) ++ post) with ((pre ++ lo) ++ la ++ h :: hi ++ post)
      by (by simplify_list_eq). rewrite count_cons in Hlast. pose proof (count_pos hi). rewrite count_nil in Hlast.
    apply scan_up_spec; [by rewrite count_app|done|by apply (ord_le f)|lia|]. rewrite !length_app. cbn. lia.
  - assert (Hb : f mid b <= 0) by (apply (ord_le f); lia). split; [|done].
    replace (pre ++ (lo ++ (la ++ b :: lb) ++ hi) ++ post) with ((pre ++ lo) ++ la ++ b :: lb ++ hi ++ post)
      by (by simplify_list_eq). rewrite count_cons in Hlast.
    pose proof (count_pos hi). pose proof (count_pos lb).
    apply scan_up_spec; [by rewrite count_app|done|lia|lia|]. rewrite !length_app. cbn. lia.
Qed.

Lemma scan_down_window mid pre lo mids hi post j :
  j = count pre + count lo + count mids - 1 -> Forall (fun a => f a mid <= 0) lo ->
  lo <> [] \/ Exists (fun a => f a mid <= 0) mids ->
  exists lc ld, mids = lc ++ ld /\ Forall (fun a => f mid a < 0) ld
  /\ scan_down (S (length (around pre lo mids hi post))) f (around pre lo mids hi post) mid (count pre) j
     = Ret (j - count ld)
  /\ (lc = [] /\ lo <> [] \/ exists lc' c, lc = lc' ++ [c] /\ f c mid <= 0).
Proof.
  intros Hj Hlo Hleft. destruct (span_right (fun a => f mid a < 0) mids) as (lc & ld & -> & Hld & Hlc).
  exists lc, ld. split; [done|]. split; [done|]. rewrite count_app in Hj. unfold around.
  destruct Hlc as [->|(lc' & c & -> & Hc)].
  - assert (Hne : lo <> []).
    { destruct Hleft as [|Hex]; [done|]. apply Exists_exists in Hex as (y & Hy & Hle). rewrite Forall_forall in Hld.
      apply Hld in Hy. apply (ord_le f) in Hle. lia. }
    split; [|by left]. destruct lo as [|x lo _] using rev_ind; [done|].
    apply Forall_app in Hlo as [_ Hx]. inversion_clear Hx as [|? ? Hx' _].
    replace (pre ++ ((lo ++ [x]) ++ ([] ++ ld) ++ hi) ++ post) with ((pre ++ lo) ++ x :: ld ++ hi ++ post)
      by (by simplify_list_eq). rewrite count_app, count_cons, count_nil in Hj.
    rewrite scan_down_spec; [f_equal; rewrite count_app; lia|rewrite count_app; lia|done|by apply (ord_le f)| |].
    + rewrite count_app. pose proof (count_pos lo). lia.
    + rewrite !length_app. cbn. rewrite !length_app. lia.
  - assert (Hc' : f c mid <= 0) by (apply (ord_le f); lia). split; [|right; eauto].
    replace (pre ++ (lo ++ ((lc' ++ [c]) ++ ld) ++ hi) ++ post) with ((pre ++ lo ++ lc') ++ c :: ld ++ hi ++ post)
      by (by simplify_list_eq). rewrite count_app, count_cons, count_nil in Hj.
    rewrite scan_down_spec; [f_equal; rewrite !count_app; lia|rewrite !count_app; lia|done|lia| |].
    + rewrite !count_app. pose proof (count_pos lo). pose proof (count_pos lc'). lia.
    + rewrite !length_app. cbn. rewrite !length_app. lia.
Qed.

(** What a loop leaves: [lo] not above [mid], [hi] not below, and at most one
    element between them. *)
Record parted mid (l lo eq hi : list A) : Prop := {
  parted_perm : lo ++ eq ++ hi ≡ₚ l;
  parted_lo : Forall (fun a => f a mid <= 0) (lo ++ eq);
  parted_hi : Forall (fun a => f mid a <= 0) (eq ++ hi);
  parted_left : lo ++ eq <> [];
  parted_right : eq ++ hi <> [];
  parted_eq : (length eq <= 1)%nat
}.

Lemma parted_exit mid l lo hi : lo ++ hi ≡ₚ l -> Forall (fun a => f a mid <= 0) lo -> Forall (fun a => f mid a <= 0) hi ->
  lo <> [] -> hi <> [] -> parted mid l lo [] hi.
Proof. intros. constructor; rewrite ?app_nil_r; try done. cbn. lia. Qed.

Lemma ret3_eq {B C D : Type} (a a' : B) (b b' : C) (c c' : D) :
  a = a' -> b = b' -> c = c' -> Ret (a, b, c) = Ret (a', b', c').
Proof. by intros -> -> ->. Qed.

(** The scans stopped at [b] and [c], which change places: the window is what
    was between them. *)
Lemma exchange mid pre lo la b l c ld hi post i (data := around pre (lo ++ la) (b :: (l ++ [c]) ++ ld) hi post) :
  i = count pre + count lo + count la ->
  Forall (fun a => f a mid <= 0) (lo ++ la) -> Forall (fun a => f mid a <= 0) ld -> Forall (fun a => f mid a <= 0) hi ->
  f mid b <= 0 -> f c mid <= 0 ->
  slot data i = Ret b /\ slot data (i + count l + 1) = Ret c
  /\ <[Z.to_nat (i + count l + 1) := b]> (<[Z.to_nat i := c]> data) = around pre (lo ++ la ++ [c]) l (b :: ld ++ hi) post
  /\ Forall (fun a => f a mid <= 0) (lo ++ la ++ [c]) /\ Forall (fun a => f mid a <= 0) (b :: ld ++ hi)
  /\ (lo ++ la ++ [c]) ++ l ++ b :: ld ++ hi ≡ₚ lo ++ (la ++ b :: (l ++ [c]) ++ ld) ++ hi /\ lo ++ la ++ [c] <> [].
Proof.
  intros Hi Hlo Hld Hhi Hb Hc.
  assert (Ed : data = (pre ++ lo ++ la) ++ b :: l ++ c :: ld ++ hi ++ post) by (unfold data, around; by simplify_list_eq).
  assert (E : forall z, (pre ++ lo ++ la) ++ z :: l ++ c :: ld ++ hi ++ post
              = (pre ++ lo ++ la ++ z :: l) ++ c :: ld ++ hi ++ post) by (intros z; by simplify_list_eq).
  assert (Hi' : i = count (pre ++ lo ++ la)) by (rewrite !count_app; lia).
  assert (Hj : forall z, i + count l + 1 = count (pre ++ lo ++ la ++ z :: l))
    by (intros z; rewrite !count_app, count_cons; lia).
  rewrite Ed. split; [by apply slot_here|]. split; [rewrite E; by apply slot_here|]. split.
  { rewrite insert_here, E, insert_here by done. unfold around. by simplify_list_eq. }
  split. { rewrite !Forall_app. apply Forall_app in Hlo as [? ?]. by repeat constructor. }
  split; [constructor; [done|by apply Forall_app]|]. split; [simplify_list_eq; solve_Permutation|].
  rewrite app_assoc. by intros []%app_eq_nil.
Qed.

(** No scan passed the other one by more than one place. *)
Lemma partition_spec mid pre post : forall fuel lo mids hi first last i j,
  first = count pre -> last = first + count (lo ++ mids ++ hi) - 1 -> i = first + count lo ->
  j = first + count lo + count mids - 1 -> (length mids < fuel)%nat -> mids <> [] ->
  Forall (fun a => f a mid <= 0) lo -> Forall (fun a => f mid a <= 0) hi ->
  hi <> [] \/ Exists (fun a => f mid a <= 0) mids -> lo <> [] \/ Exists (fun a => f a mid <= 0) mids ->
  exists lo' eq hi', partition fuel f (around pre lo mids hi post) mid first last i j
    = Ret (around pre lo' eq hi' post, first + count lo' + count eq, first + count lo' - 1)
  /\ parted mid (lo ++ mids ++ hi) lo' eq hi'.
Proof.
  induction fuel as [|fuel IH]; intros lo mids hi first last i j -> Hlast -> -> Hf Hne Hlo Hhi Hright Hleft; [lia|].
  cbn [partition].
  destruct (scan_up_window mid pre lo mids hi post last (count pre + count lo) eq_refl Hlast Hne Hhi Hright)
    as (la & lb & -> & Hla & -> & Hlb). rewrite bind_ret. set (i := count pre + count lo + count la).
  assert (Hlo2 : Forall (fun a => f a mid <= 0) (lo ++ la))
    by (apply Forall_app; split; [done|]; eapply Forall_impl; [exact Hla|]; cbn; lia).
  replace (around pre lo (la ++ lb) hi post) with (around pre (lo ++ la) lb hi post) by (unfold around; by simplify_list_eq).
  replace (count pre + count lo + count (la ++ lb) - 1) with (i + count lb - 1) by (unfold i; rewrite count_app; lia).
  destruct (scan_down_window mid pre (lo ++ la) lb hi post (i + count lb - 1)) as (lc & ld & -> & Hld & -> & Hlc);
    [unfold i; rewrite count_app; lia|done| |].
  { destruct Hleft as [Hl|Hex]; [left; by destruct lo|]. destruct la; [by right|left; by destruct lo]. }
  rewrite bind_ret, (count_app lc ld). replace (i + (count lc + count ld) - 1 - count ld) with (i + count lc - 1) by lia.
  assert (Hld' : Forall (fun a => f mid a <= 0) ld) by (eapply Forall_impl; [exact Hld|]; cbn; lia).
  destruct Hlc as [[-> Hlo3]|(lc' & c & -> & Hc)]; [|destruct lc' as [|b l]]; cbn [app] in *.
  - (* the scans have passed each other *)
    rewrite count_nil. destruct (Z.ltb_spec i (i + 0 - 1)), (Z.eqb_spec i (i + 0 - 1)); try lia.
    exists (lo ++ la), [], (ld ++ hi). split.
    + apply ret3_eq; [by unfold around; simplify_list_eq|unfold i; rewrite count_app, count_nil; lia|unfold i; rewrite count_app; lia].
    + apply parted_exit; [by simplify_list_eq|done|by apply Forall_app|done|]. by destruct ld.
  - (* both stopped at the same element *)
    rewrite count_cons, count_nil. destruct (Z.ltb_spec i (i + (0 + 1) - 1)), (Z.eqb_spec i (i + (0 + 1) - 1)); try lia.
    exists (lo ++ la), [c], (ld ++ hi). split.
    + apply ret3_eq; [by unfold around; simplify_list_eq|..]; unfold i; rewrite ?count_app, ?count_cons, ?count_nil; lia.
    + constructor; try done; [by simplify_list_eq| |constructor; [done|by apply Forall_app]|by destruct lo, la].
      apply Forall_app. split; [done|]. by constructor.
  - (* a pair is exchanged *)
    destruct (exchange mid pre lo la b l c ld hi post i eq_refl Hlo2 Hld' Hhi Hlb Hc) as (E1 & E2 & E3 & Hlo4 & Hhi4 & Hp & Hn).
    rewrite count_cons, (count_app l [c]), count_cons, count_nil.
    replace (i + (count l + (0 + 1) + 1) - 1) with (i + count l + 1) by lia. pose proof (count_pos l).
    destruct (Z.ltb_spec i (i + count l + 1)); [|lia]. rewrite E1, bind_ret, E2, bind_ret, E3.
    assert (Hi4 : i + 1 = count pre + count (lo ++ la ++ [c])) by (unfold i; rewrite !count_app, count_cons, count_nil; lia).
    destruct (Z.leb_spec (i + 1) (i + count l + 1 - 1)).
    + destruct (IH (lo ++ la ++ [c]) l (b :: ld ++ hi) (count pre) last (i + 1) (i + count l + 1 - 1))
        as (lo' & eq & hi' & Ep & []); try done; [|lia| | |by left|by left|].
      * rewrite Hlast. f_equal. f_equal. unfold count. by rewrite Hp.
      * rewrite length_app in Hf. cbn in Hf. rewrite !length_app in Hf. lia.
      * intros ->. rewrite count_nil in *. lia.
      * exists lo', eq, hi'. split; [done|]. constructor; try done. by rewrite <- Hp.
    + assert (l = []) as -> by (apply count_zero; lia). exists (lo ++ la ++ [c]), [], (b :: ld ++ hi).
      split; [apply ret3_eq; [done|rewrite count_nil; lia|rewrite count_nil; lia]|].
      by apply parted_exit; [rewrite <- Hp|..].
Qed.

Lemma in_order_parted mid l lo eq hi lo' hi' : parted mid l lo eq hi -> lo' ≡ₚ lo -> hi' ≡ₚ hi ->
  in_order f lo' -> in_order f hi' -> in_order f (lo' ++ eq ++ hi').
Proof.
  intros [Hp Hlo Hhi _ _ Heq] Plo Phi Slo Shi. apply Forall_app in Hlo as [Hlo Hel], Hhi as [Her Hhi].
  rewrite <- Plo in Hlo. rewrite <- Phi in Hhi.
  assert (Hcross : forall x y, f x mid <= 0 -> f mid y <= 0 -> not_above f x y) by (intros x y; apply ord_trans).
  assert (Seq : in_order f eq) by (destruct eq as [|e [|? ?]]; [constructor|by repeat constructor|cbn in Heq; lia]).
  apply StronglySorted_app_2; [|done|apply StronglySorted_app_2; [|done..]].
  - intros x y Hx Hy. rewrite Forall_forall in Hlo. apply Hcross; [by apply Hlo|].
    apply elem_of_app in Hy as [Hy|Hy]; [rewrite Forall_forall in Her; by apply Her|rewrite Forall_forall in Hhi; by apply Hhi].
  - intros x y Hx Hy. rewrite Forall_forall in Hel, Hhi. apply Hcross; [by apply Hel|by apply Hhi].
Qed.

Lemma in_order_short l : (length l <= 1)%nat -> in_order f l.
Proof. destruct l as [|x [|y l]]; intros Hl; [constructor|by repeat constructor|cbn in Hl; lia]. Qed.

Definition sorts fuel : Prop := forall s pre post, (length s <= fuel)%nat -> s <> [] -> count (pre ++ s ++ post) < 2 ^ 30 ->
  exists s', array_qsort fuel f (pre ++ s ++ post) (count pre) (count pre + count s - 1) = Ret (pre ++ s' ++ post)
  /\ s' ≡ₚ s /\ in_order f s'.

(** A recursive call, which is left out for a piece that is too short. *)
Lemma sort_part fuel : sorts fuel -> forall s pre post, (length s <= fuel)%nat -> count (pre ++ s ++ post) < 2 ^ 30 ->
  exists s', (if count pre <? count pre + count s - 1
              then array_qsort fuel f (pre ++ s ++ post) (count pre) (count pre + count s - 1)
              else Ret (pre ++ s ++ post)) = Ret (pre ++ s' ++ post) /\ s' ≡ₚ s /\ in_order f s'.
Proof.
  intros IH s pre post Hf Hmax. destruct (Z.ltb_spec (count pre) (count pre + count s - 1)).
  - apply IH; [done| |done]. intros ->. rewrite count_nil in *. lia.
  - exists s. split; [done|]. split; [done|]. apply in_order_short. unfold count in *. lia.
Qed.

(** The piece of the array between [first] and [last] is sorted. *)
Lemma array_qsort_spec fuel : sorts fuel.
Proof.
  induction fuel as [|fuel IH]; intros s pre post Hf Hne Hmax; [destruct s; [done|cbn in Hf; lia]|].
  cbn [array_qsort]. rewrite !count_app in Hmax. pose proof (count_pos pre). pose proof (count_pos post).
  assert (Hs : 1 <= count s) by (destruct s; [done|rewrite count_cons; pose proof (count_pos s); lia]).
  rewrite s32_id, Z.quot_div_nonneg by cint. set (m := (count pre + (count pre + count s - 1)) / 2).
  assert (Hm : count pre <= m < count pre + count s) by (unfold m; split; [apply Z.div_le_lower_bound|apply Z.div_lt_upper_bound]; lia).
  destruct (slot_in s (m - count pre)) as (s1 & mid & s2 & -> & Hm1 & _); [lia|].
  replace (pre ++ (s1 ++ mid :: s2) ++ post) with ((pre ++ s1) ++ mid :: s2 ++ post) by (by simplify_list_eq).
  rewrite slot_here, bind_ret by (rewrite count_app; lia).
  replace ((pre ++ s1) ++ mid :: s2 ++ post) with (around pre [] (s1 ++ mid :: s2) [] post) by (unfold around; by simplify_list_eq).
  assert (Hmid : f mid mid <= 0) by (rewrite (ord_refl f); lia).
  assert (Hex : Exists (fun a => f mid a <= 0) (s1 ++ mid :: s2) /\ Exists (fun a => f a mid <= 0) (s1 ++ mid :: s2))
    by (split; apply Exists_app; right; by left).
  destruct (partition_spec mid pre post (S (length (around pre [] (s1 ++ mid :: s2) [] post))) [] (s1 ++ mid :: s2) []
    (count pre) (count pre + count (s1 ++ mid :: s2) - 1) (count pre) (count pre + count (s1 ++ mid :: s2) - 1))
    as (lo & eq & hi & -> & Hparted);
    [done|by rewrite app_nil_r|by rewrite count_nil, Z.add_0_r|rewrite count_nil; lia|unfold around; rewrite !length_app; lia
    |done|apply Forall_nil_2|apply Forall_nil_2|right; apply Hex|right; apply Hex|].
  assert (Hl : (length lo < length (s1 ++ mid :: s2))%nat /\ (length hi < length (s1 ++ mid :: s2))%nat
          /\ count lo + count eq + count hi = count (s1 ++ mid :: s2)).
  { destruct Hparted as [Hp _ _ Hl Hr _]. cbn [app] in Hp. rewrite app_nil_r in Hp. unfold count. rewrite <- Hp, !length_app.
    assert (length (lo ++ eq) <> 0)%nat by (by intros ?%nil_length_inv). rewrite length_app in *.
    assert (length (eq ++ hi) <> 0)%nat by (by intros ?%nil_length_inv). rewrite length_app in *. lia. }
  destruct (sort_part fuel IH lo pre (eq ++ hi ++ post)) as (lo' & E1 & Hlo & Slo); [lia|rewrite !count_app; lia|].
  destruct (sort_part fuel IH hi (pre ++ lo' ++ eq) post) as (hi' & E2 & Hhi & Shi); [lia|..].
  { rewrite !count_app. assert (count lo' = count lo) by (unfold count; by rewrite Hlo). lia. }
  rewrite bind_ret.
  replace (around pre lo eq hi post) with (pre ++ lo ++ eq ++ hi ++ post) by (unfold around; by simplify_list_eq).
  rewrite E1, bind_ret. exists (lo' ++ eq ++ hi').
  assert (Hc : count lo' = count lo) by (unfold count; by rewrite Hlo).
  replace (count pre + count lo + count eq) with (count (pre ++ lo' ++ eq)) by (rewrite !count_app; lia).
  replace (count pre + count (s1 ++ mid :: s2) - 1) with (count (pre ++ lo' ++ eq) + count hi - 1)
    by (rewrite (count_app pre), (count_app lo'); lia).
  replace (pre ++ lo' ++ eq ++ hi ++ post) with ((pre ++ lo' ++ eq) ++ hi ++ post) by (by simplify_list_eq).
  rewrite E2. split; [f_equal; by simplify_list_eq|]. split.
  - rewrite Hlo, Hhi. destruct Hparted as [Hp _ _ _ _ _]. cbn [app] in Hp. by rewrite app_nil_r in Hp.
  - by eapply in_order_parted.
Qed.
End sorting.

(** ** Searching *)

Section searching.
Context {A} (f : A -> A -> Z) `{!Ordering f}.
Implicit Types (data lo mids hi : list A) (val : A).

(** The elements below, at and above a key. *)
Record keyed val lo mids hi : Prop := {
  keyed_lo : Forall (fun a => f a val < 0) lo;
  keyed_mids : Forall (fun a => f a val = 0) mids;
  keyed_hi : Forall (fun a => 0 < f a val) hi;
  keyed_one : count mids <= 1
}.

Lemma keyed_split val l : ordered_set f l -> exists lo mids hi, l = lo ++ mids ++ hi /\ keyed val lo mids hi.
Proof.
  intros Hl. destruct (split_at_key f val l Hl) as (lo & mids & hi & E & Hlo & Hm & Hhi & Hone).
  exists lo, mids, hi. split; [done|]. constructor; try done. by destruct Hone as [->|[x ->]].
Qed.

Lemma keyed_slot val lo mids hi i : keyed val lo mids hi -> 0 <= i < count (lo ++ mids ++ hi) ->
  exists x, slot (lo ++ mids ++ hi) i = Ret x
  /\ (i < count lo -> f x val < 0) /\ (count lo <= i < count lo + count mids -> f x val = 0)
  /\ (count lo + count mids <= i -> 0 < f x val).
Proof.
  intros [Hlo Hm Hhi _] Hi. destruct (slot_in _ _ Hi) as (l1 & x & l2 & E & Hi' & ->). exists x. split; [done|].
  assert (Hx : (lo ++ mids ++ hi) !! length l1 = Some x) by (rewrite E; by apply list_lookup_middle).
  rewrite Forall_lookup in Hlo, Hm, Hhi. unfold count in *. rewrite lookup_app in Hx.
  destruct (lo !! length l1) eqn:El.
  - injection Hx as ->. pose proof (lookup_lt_Some _ _ _ El). split; [intros _; by eapply Hlo|]. split; lia.
  - apply lookup_ge_None in El. split; [lia|]. rewrite lookup_app in Hx. destruct (mids !! _) eqn:Em.
    + injection Hx as ->. pose proof (lookup_lt_Some _ _ _ Em). split; [intros _; by eapply Hm|]. lia.
    + apply lookup_ge_None in Em. split; [lia|]. intros _. by eapply Hhi.
Qed.

Lemma bisection_spec val lo mids hi : keyed val lo mids hi -> forall fuel len first middle result,
  0 <= first <= count lo -> 0 <= len -> count lo + count mids <= first + len <= count (lo ++ mids ++ hi) -> len < Z.of_nat fuel ->
  0 < len \/ (count lo <= middle -> 0 < result) ->
  exists middle' result', search_loop fuel f (lo ++ mids ++ hi) val len first middle result = Ret (count lo, middle', result')
  /\ match mids with [] => count lo <= middle' -> 0 < result' | _ => middle' = count lo /\ result' = 0 end.
Proof.
  intros Hk. induction fuel as [|fuel IH]; intros len first middle result Hfirst Hlen Hwin Hf Hres; [lia|].
  cbn [search_loop]. pose proof (count_pos mids). destruct (Z.ltb_spec 0 len).
  - rewrite Z.shiftr_div_pow2 by lia. change (2 ^ 1) with 2. set (half := len / 2).
    assert (Hhalf : 0 <= half < len) by (unfold half; split; [apply Z.div_pos|apply Z.div_lt]; lia).
    destruct (keyed_slot val lo mids hi (first + half) Hk) as (x & -> & Hlt & Heq & Hgt); [lia|]. rewrite bind_ret.
    assert (Hcase : first + half < count lo \/ count lo <= first + half < count lo + count mids \/ count lo + count mids <= first + half) by lia.
    destruct Hcase as [Hc|[Hc|Hc]].
    + specialize (Hlt Hc). destruct (Z.ltb_spec (f x val) 0); [|lia]. apply IH; try lia.
    + specialize (Heq Hc). rewrite Heq. cbn [Z.ltb Z.compare Z.eqb]. pose proof (keyed_one _ _ _ _ Hk).
      assert (first + half = count lo) as -> by lia. do 2 eexists. split; [done|]. destruct mids; [|done].
      rewrite count_nil in *. lia.
    + specialize (Hgt Hc). destruct (Z.ltb_spec (f x val) 0), (Z.eqb_spec (f x val) 0); try lia. apply IH; lia.
  - assert (len = 0) as -> by lia. exists middle, result. assert (count mids = 0) as Hm by lia. apply count_zero in Hm as ->.
    rewrite count_nil in *. split; [by replace first with (count lo) by lia|]. destruct Hres; [lia|done].
Qed.
End searching.

(** * A sorted array is an ordered set

    [represents c s]: the container has the elements of the ordered set [s],
    in its order when the array is not dirty.  Every operation of the
    container is an operation on [s]. *)

Section represents.
Context {A : Type}.
Implicit Types (c : container A) (s : list A) (k : A).

(** Containers without options. *)
Record represents c s : Prop := {
  rep_ordering : Ordering (c_compare c);
  rep_set : ordered_set (c_compare c) s;
  rep_perm : t_data c ≡ₚ s;
  rep_clean : t_dirty c = false -> t_data c = s;
  rep_flags : c_flags c = 0;
  rep_count : count s < 2 ^ 30;
  rep_size : t_max_size c <= 2 ^ 31
}.

Lemma no_flag c s flag : represents c s -> has_flag c flag = false.
Proof. intros []. unfold has_flag. by rewrite rep_flags0. Qed.

Lemma ordered_key_unique (cmp : A -> A -> Z) `{!Ordering cmp} s x y :
  ordered_set cmp s -> x ∈ s -> y ∈ s -> cmp x y = 0 -> x = y.
Proof.
  intros Hs. induction Hs as [|z s Hs IH Hz]; [by intros ?%not_elem_of_nil|].
  rewrite Forall_forall in Hz. intros [->|Hx]%elem_of_cons [->|Hy]%elem_of_cons E; [done|..|by apply IH].
  - apply Hz in Hy. unfold below in Hy. lia.
  - apply Hz in Hx. unfold below in Hx. apply (ord_eq cmp) in E. lia.
Qed.

Lemma in_order_is_set (cmp : A -> A -> Z) `{!Ordering cmp} s l :
  ordered_set cmp s -> l ≡ₚ s -> in_order cmp l -> l = s.
Proof.
  intros Hs Hp Hl. apply StronglySorted_unique_strong with (R := not_above cmp); [|done|by apply ordered_set_in_order|done].
  intros x y Hx Hy Hxy Hyx. rewrite Hp in Hx. apply (ordered_key_unique cmp s); [done..|].
  unfold not_above in *. apply (ord_le cmp) in Hyx. lia.
Qed.

(** Nothing but the order of the array and the counter changes. *)
Record sorted_from c c' s : Prop := {
  sf_rep : represents c' s;
  sf_data : t_data c' = s;
  sf_dirty : t_dirty c' = false;
  sf_compare : c_compare c' = c_compare c;
  sf_ncompare : c_ncompare c' = c_ncompare c;
  sf_size : t_max_size c' = t_max_size c
}.

Lemma sort_dirty_spec c s : represents c s -> exists c', sort_dirty c = Ret c' /\ sorted_from c c' s.
Proof.
  intros Hr. pose proof Hr as [Ho Hs Hp Hc Hf Hn Hsize]. unfold sort_dirty.
  destruct (t_dirty c) eqn:Ed; [|exists c; split; [done|]; by constructor; auto].
  unfold Sort_Array. rewrite (no_flag c s) by done. rewrite Ed.
  assert (Hlen : count (t_data c) = count s) by (unfold count; by rewrite Hp).
  assert (Hsort : exists data, (if 1 <? count (t_data c)
     then array_qsort (length (t_data c)) (c_compare c) (t_data c) 0 (s32 (count (t_data c) - 1))
     else Ret (t_data c)) = Ret data /\ data = s).
  { destruct (Z.ltb_spec 1 (count (t_data c))).
    - destruct (array_qsort_spec (c_compare c) (length (t_data c)) (t_data c) [] []) as (l & El & Hl & Sl).
      + done.
      + intros E0. rewrite E0 in *. by rewrite count_nil in *.
      + cbn [app]. rewrite app_nil_r. lia.
      + rewrite s32_id by (unfold is_s32; lia). cbn [app] in El. rewrite !app_nil_r, count_nil in El.
        replace (0 + count (t_data c) - 1) with (count (t_data c) - 1) in El by lia. exists l. split; [done|].
        apply (in_order_is_set (c_compare c)); [done|by rewrite Hl|done].
    - exists (t_data c). split; [done|]. apply (in_order_is_set (c_compare c)); [done..|].
      apply in_order_short. unfold count in *. lia. }
  destruct Hsort as (data & -> & ->). rewrite !bind_ret. eexists. split; [done|]. constructor; try done.
Qed.

Lemma binary_search_spec c s k exact : represents c s -> s <> [] -> t_data c = s -> t_dirty c = false ->
  exists i, binary_search k c exact = Ret (i, c)
  /\ match (if exact then set_find (c_compare c) k s else set_next (c_compare c) k s) with
     | Some x => exists l1 l2, s = l1 ++ x :: l2 /\ i = count l1 /\ (exact = true -> c_compare c x k = 0)
     | None => i = -1
     end.
Proof.
  intros Hr Hne Hdata Hclean. pose proof (rep_ordering _ _ Hr) as Ho. unfold binary_search.
  destruct (Z.eqb_spec (count (t_data c)) 0) as [E|_]; [by rewrite Hdata in E; apply count_zero in E|].
  rewrite (no_flag c s) by done. unfold sort_dirty. rewrite Hclean, bind_ret, Hdata.
  destruct (keyed_split (c_compare c) k s (rep_set _ _ Hr)) as (lo & mids & hi & Es & Hk).
  pose proof (rep_count _ _ Hr) as Hmax. pose proof (count_pos lo). pose proof (count_pos mids). pose proof (count_pos hi).
  destruct (bisection_spec (c_compare c) k lo mids hi Hk (S (length s)) (count s) 0 0 0) as (middle & result & E & Hres);
    [lia|unfold count; lia|rewrite Es, !count_app; lia|unfold count; lia|left; destruct s; [done|unfold count; cbn; lia]|].
  rewrite <- Es in E. rewrite E, bind_ret. destruct Hk as [Hlo Hm Hhi Hone].
  assert (Hlo' : Forall (fun a => same_key (c_compare c) k a = false) lo /\ Forall (fun a => above_key (c_compare c) k a = false) lo)
    by (split; (eapply Forall_impl; [exact Hlo|]); cbn; intros a Ha; [by apply Z.eqb_neq; lia|by apply Z.ltb_ge; lia]).
  unfold set_find, set_next. rewrite Es in Hmax |- *. rewrite !count_app in *.
  rewrite (first_such_app (same_key _ k)), (first_such_app (above_key _ k)) by apply Hlo'.
  destruct mids as [|x mids].
  - rewrite (@count_nil A) in *. cbn [app]. destruct hi as [|h hi].
    + rewrite (@count_nil A) in *. destruct (Z.leb_spec (count lo + (0 + 0)) (count lo)); [|lia].
      exists (-1). split; [done|]. by destruct exact.
    + inversion_clear Hhi as [|? ? Hh Hhi']. rewrite count_cons in *. pose proof (count_pos hi).
      destruct (Z.leb_spec (count lo + (0 + (count hi + 1))) (count lo)); [lia|].
      assert (Hr2 : exists r, (if negb (count lo =? middle) then x ← slot (lo ++ h :: hi) (count lo); Ret (c_compare c x k) else Ret result) = Ret r /\ 0 < r).
      { rewrite slot_here, bind_ret by done. destruct (Z.eqb_spec (count lo) middle); eexists; (split; [done|]); [apply Hres; lia|done]. }
      destruct Hr2 as (r & -> & Hr0). rewrite bind_ret. destruct (Z.eqb_spec r 0); [lia|].
      exists (if exact then -1 else count lo). split; [f_equal; f_equal; destruct exact; apply s32_id; unfold is_s32; lia|].
      cbn. unfold same_key, above_key. destruct exact.
      * destruct (Z.eqb_spec (c_compare c h k) 0); [lia|]. rewrite <- (app_nil_r hi).
        rewrite first_such_app; [done|]. eapply Forall_impl; [exact Hhi'|]. intros a Ha. apply Z.eqb_neq. cbn in Ha. lia.
      * destruct (Z.ltb_spec 0 (c_compare c h k)); [|lia]. by exists lo, hi.
  - destruct Hres as [-> ->]. destruct mids as [|? ?]; [|rewrite !count_cons in Hone; pose proof (count_pos mids); lia].
    rewrite Z.eqb_refl. cbn [negb]. rewrite bind_ret. cbn [Z.eqb]. inversion_clear Hm as [|? ? Hx _].
    rewrite count_cons, count_nil in *. destruct (Z.leb_spec (count lo + (0 + 1 + count hi)) (count lo)); [lia|].
    cbn [app first_such]. unfold same_key, above_key. rewrite Hx. cbn [Z.eqb Z.ltb Z.compare].
    destruct exact.
    + exists (count lo). split; [f_equal; f_equal; apply s32_id; unfold is_s32; lia|]. exists lo, hi. auto.
    + destruct hi as [|h hi].
      * rewrite (@count_nil A). exists (-1). split; [|done]. destruct (Z.eqb_spec (count lo + 1) (count lo + (0 + 1 + 0))); [done|lia].
      * inversion_clear Hhi as [|? ? Hh Hhi']. rewrite count_cons in *. pose proof (count_pos hi).
        destruct (Z.eqb_spec (count lo + 1) (count lo + (0 + 1 + (count hi + 1)))); [lia|].
        exists (count lo + 1). split; [f_equal; f_equal; apply s32_id; unfold is_s32; lia|].
        cbn [first_such]. unfold above_key. destruct (Z.ltb_spec 0 (c_compare c h k)); [|lia].
        exists (lo ++ [x]), hi. rewrite count_app, count_cons, count_nil. split; [by simplify_list_eq|]. split; [lia|done].
Qed.

(** ** Operations *)

Lemma represents_data c s data dirty size : represents c s -> forall s', ordered_set (c_compare c) s' -> data ≡ₚ s' ->
  (dirty = false -> data = s') -> count s' < 2 ^ 30 -> size <= 2 ^ 31 -> represents (with_table size dirty data c) s'.
Proof. intros []. by constructor. Qed.

Lemma represents_bump c s : represents c s -> represents (bump c) s.
Proof. intros []. by constructor. Qed.

Lemma get_spec c s key exact : represents c s ->
  exists c', netsnmp_binary_array_get c key exact
    = Ret (match key with
           | Some k => if exact then set_find (c_compare c) k s else set_next (c_compare c) k s
           | None => head s
           end, c')
  /\ represents c' s /\ c_compare c' = c_compare c /\ t_max_size c' = t_max_size c
  /\ (t_dirty c' = true -> t_data c' = []) /\ c_ncompare c' = c_ncompare c.
Proof.
  intros Hr. unfold netsnmp_binary_array_get.
  assert (Hlen : count (t_data c) = count s) by (unfold count; by rewrite (rep_perm _ _ Hr)).
  destruct (Z.eqb_spec (count (t_data c)) 0) as [E|E].
  { assert (s = []) as -> by (apply count_zero; lia). apply count_zero in E. exists c. split; [|done].
    destruct key; [by destruct exact|done]. }
  destruct (sort_dirty_spec c s Hr) as (c' & -> & []). rewrite bind_ret, sf_data0.
  assert (Hne : s <> []) by (intros ->; by rewrite (@count_nil A) in Hlen).
  exists c'. destruct key as [k|].
  - destruct (binary_search_spec c' s k exact sf_rep0 Hne sf_data0 sf_dirty0) as (i & -> & Hi). rewrite bind_ret, sf_compare0 in *.
    split; [|by rewrite sf_dirty0]. destruct (if exact then _ else _) as [x|]; [|by rewrite Hi].
    destruct Hi as (l1 & l2 & -> & -> & _). pose proof (count_pos l1). destruct (Z.eqb_spec (count l1) (-1)); [lia|].
    by rewrite sf_data0, slot_here, bind_ret.
  - split; [|by rewrite sf_dirty0]. destruct s as [|x s]; [done|]. change (x :: s) with ([] ++ x :: s). by rewrite slot_here.
Qed.

Lemma delete_here (l1 l2 : list A) x i : i = count l1 -> delete (Z.to_nat i) (l1 ++ x :: l2) = l1 ++ l2.
Proof. intros ->. unfold count. by rewrite Nat2Z.id, delete_middle. Qed.

Lemma set_remove_at (cmp : A -> A -> Z) k l1 x l2 : Ordering cmp -> ordered_set cmp (l1 ++ x :: l2) -> cmp x k = 0 ->
  set_remove cmp k (l1 ++ x :: l2) = l1 ++ l2.
Proof.
  intros Ho Hs Hx. rewrite set_remove_app; [cbn; by rewrite Hx|]. apply Forall_forall. intros a Ha E.
  assert (a = x) as ->.
  { apply (ordered_key_unique cmp (l1 ++ x :: l2)); [done|set_solver|set_solver|].
    apply Z.le_antisymm; [|apply (ord_le cmp)]; apply ord_trans with k; [lia|..]; try (apply (ord_eq cmp) in Hx; lia); try (apply (ord_eq cmp) in E; lia); lia. }
  apply list_elem_of_split in Ha as (l3 & l4 & ->). rewrite <- app_assoc in Hs. cbn [app] in Hs.
  apply StronglySorted_app in Hs as (_ & _ & Hs). inversion_clear Hs as [|? ? _ Hf].
  apply Forall_app in Hf as [_ Hf]. inversion_clear Hf as [|? ? Hlt _]. unfold below in Hlt. rewrite (ord_refl cmp) in Hlt. lia.
Qed.

Lemma set_remove_absent (cmp : A -> A -> Z) k s : set_find cmp k s = None -> set_remove cmp k s = s.
Proof. intros Hf%set_find_None. rewrite <- (app_nil_r s) at 1. rewrite set_remove_app by done. apply app_nil_r. Qed.

Context `{Allocator}.

Lemma grow_bound c s size : represents c s -> grow c = Some size -> size <= 2 ^ 31.
Proof.
  intros []. unfold grow. assert (count (t_data c) = count s) as -> by (unfold count; by rewrite rep_perm0).
  destruct (Z.leb_spec (t_max_size c) (count s)); [|by intros [= <-]].
  destruct (alloc _); [|done]. intros [= <-]. destruct (0 <? t_max_size c); lia.
Qed.

Lemma grow_room c s : represents c s -> (forall n, n <= 2 ^ 34 -> alloc n = true) -> grow c <> None.
Proof.
  intros [] room. unfold grow. assert (count (t_data c) = count s) as -> by (unfold count; by rewrite rep_perm0).
  destruct (Z.leb_spec (t_max_size c) (count s)); [|done]. rewrite room; [done|]. unfold sizeof_pointer.
  destruct (0 <? t_max_size c); lia.
Qed.

Lemma insert_spec c s k : represents c s -> count s + 1 < 2 ^ 30 ->
  exists rc c', netsnmp_binary_array_insert c k = Ret (rc, c') /\ c_compare c' = c_compare c
  /\ if rc =? 0 then set_find (c_compare c) k s = None /\ represents c' (set_insert (c_compare c) k s)
     else rc = -1 /\ represents c' s /\ (is_Some (set_find (c_compare c) k s) \/ grow c = None).
Proof.
  intros Hr Hmax. unfold netsnmp_binary_array_insert. rewrite (no_flag c s) by done. cbn [negb andb].
  destruct (get_spec c s (Some k) true Hr) as (c' & -> & Hr' & Ec & Es & _). rewrite bind_ret.
  pose proof (rep_ordering _ _ Hr). pose proof (rep_set _ _ Hr) as Hset.
  destruct (set_find (c_compare c) k s) as [x|] eqn:Ef; [exists (-1), c'; split; [done|]; split; [done|]; cbn; eauto 6|].
  assert (Hg : grow c' = grow c).
  { unfold grow. rewrite Es. assert (count (t_data c') = count (t_data c)) as ->; [|done].
    unfold count. by rewrite (rep_perm _ _ Hr'), (rep_perm _ _ Hr). }
  rewrite Hg. destruct (grow c) as [size|] eqn:Eg; [|exists (-1), c'; split; [done|]; split; [done|]; cbn; auto].
  assert (Hnew : represents (with_table size true (t_data c' ++ [k]) c') (set_insert (c_compare c) k s)).
  { apply (represents_data c' s); [done|rewrite Ec; by apply set_insert_ordered| |done| |].
    - rewrite set_insert_perm, (rep_perm _ _ Hr'). by rewrite (comm (++) s).
    - unfold count in *. rewrite set_insert_perm. cbn. lia.
    - by apply (grow_bound c s size Hr). }
  do 2 eexists. split; [done|]. split; [by destruct (t_dirty c)|]. split; [done|].
  destruct (t_dirty c); [done|by apply represents_bump].
Qed.

Lemma remove_spec c s k : represents c s ->
  exists rc c', netsnmp_binary_array_remove c k = Ret (rc, set_find (c_compare c) k s, c') /\ c_compare c' = c_compare c
  /\ represents c' (set_remove (c_compare c) k s)
  /\ rc = match set_find (c_compare c) k s with Some _ => 0 | None => if count s =? 0 then 0 else -1 end.
Proof.
  intros Hr. unfold netsnmp_binary_array_remove. pose proof (rep_ordering _ _ Hr). pose proof (rep_set _ _ Hr) as Hset.
  assert (Hlen : count (t_data c) = count s) by (unfold count; by rewrite (rep_perm _ _ Hr)). rewrite Hlen.
  destruct (Z.eqb_spec (count s) 0) as [E|E].
  { apply count_zero in E as ->. exists 0, c. by split. }
  destruct (sort_dirty_spec c s Hr) as (c' & -> & []). rewrite bind_ret.
  destruct (binary_search_spec c' s k true sf_rep0) as (i & -> & Hi); [by intros ->|done..|].
  rewrite bind_ret, sf_compare0 in *. destruct (set_find (c_compare c) k s) as [x|] eqn:Ef.
  - destruct Hi as (l1 & l2 & -> & -> & Hx). specialize (Hx eq_refl). pose proof (count_pos l1). pose proof (count_pos l2).
    destruct (Z.eqb_spec (count l1) (-1)); [lia|]. unfold netsnmp_binary_array_remove_at.
    rewrite sf_data0, count_app, count_cons. destruct (Z.eqb_spec (count l1 + (count l2 + 1)) 0); [lia|].
    rewrite slot_here, bind_ret, delete_here by done. rewrite (set_remove_at (c_compare c)) by done.
    assert (Hrep : represents (with_table (t_max_size c') (t_dirty c') (l1 ++ l2) c') (l1 ++ l2)).
    { apply (represents_data c' (l1 ++ x :: l2)); [done| |done|done| |by destruct sf_rep0].
      - rewrite sf_compare0. eapply ordered_sublist; [|exact Hset]. apply sublist_app; [done|by apply sublist_cons].
      - pose proof (rep_count _ _ Hr) as Hc. rewrite count_app, count_cons in Hc. rewrite count_app. lia. }
    do 2 eexists. split; [done|]. destruct (_ =? _); split; try done. by split; [apply represents_bump|].
  - subst i. exists (-1), c'. split; [done|]. split; [done|]. by rewrite (set_remove_absent (c_compare c)).
Qed.
End represents.

(** ** The interface *)

#[export] Instance binary_array_ops {A} `{Allocator} : ContainerOps (container A) A := {
  op_compare := c_compare;
  op_insert := netsnmp_binary_array_insert;
  op_remove := _ba_remove;
  op_find := _ba_find;
  op_find_next := _ba_find_next
}.

#[export] Instance binary_array_ordered {A} `{Allocator} : OrderedContainer (container A) A represents.
Proof.
  constructor.
  - intros c s []. done.
  - intros c s []. done.
  - intros c s k Hr Hmax. destruct (insert_spec c s k Hr Hmax) as (rc & c' & E & Ec & Hi). exists rc, c'.
    split; [done|]. split; [done|]. destruct (rc =? 0); [done|by apply Hi].
  - intros c s k Hr. destruct (remove_spec c s k Hr) as (rc & c' & E & Ec & Hi & Hrc). exists rc, c'.
    cbn. unfold _ba_remove. rewrite E, bind_ret. split; [done|]. split; [done|]. split; [done|]. intros [x Hx].
    by rewrite Hrc, Hx.
  - intros c s k Hr. destruct (get_spec c s (Some k) true Hr) as (c' & E & Hr' & Ec & _). exists c'. by split.
  - intros c s k Hr. destruct (get_spec c s k false Hr) as (c' & E & Hr' & Ec & _). exists c'. cbn. unfold _ba_find_next.
    rewrite E. by destruct k.
Qed.

(** ** Sequences of operations *)

Inductive container_op (A : Type) : Type :=
  | Insert (k : A)
  | Remove (k : A)
  | Find (k : A)
  | FindNext (k : option A).
Arguments Insert {A} k.
Arguments Remove {A} k.
Arguments Find {A} k.
Arguments FindNext {A} k.

(** What an operation returns: a code, or an element. *)
Inductive answer (A : Type) : Type :=
  | Code (rc : Z)
  | Element (x : option A).
Arguments Code {A} rc.
Arguments Element {A} x.

Section sequences.
Context {A : Type}.

(** The ordered set. *)
Definition set_step (cmp : A -> A -> Z) (o : container_op A) (s : list A) : answer A * list A :=
  match o with
  | Insert k => match set_find cmp k s with Some _ => (Code (-1), s) | None => (Code 0, set_insert cmp k s) end
  | Remove k => match set_find cmp k s with
                | Some _ => (Code 0, set_remove cmp k s)
                | None => (Code (if count s =? 0 then 0 else -1), s)
                end
  | Find k => (Element (set_find cmp k s), s)
  | FindNext (Some k) => (Element (set_next cmp k s), s)
  | FindNext None => (Element (head s), s)
  end.

Fixpoint set_run (cmp : A -> A -> Z) (ops : list (container_op A)) (s : list A) : list (answer A) :=
  match ops with [] => [] | o :: ops => let '(a, s) := set_step cmp o s in a :: set_run cmp ops s end.

(** The container. *)
Definition array_step `{Allocator} (o : container_op A) (c : container A) : outcome (answer A * container A) :=
  match o with
  | Insert k => '(rc, c) ← netsnmp_binary_array_insert c k; Ret (Code rc, c)
  | Remove k => '(rc, c) ← _ba_remove c k; Ret (Code rc, c)
  | Find k => '(x, c) ← _ba_find c k; Ret (Element x, c)
  | FindNext k => '(x, c) ← _ba_find_next c k; Ret (Element x, c)
  end.

Fixpoint array_run `{Allocator} (ops : list (container_op A)) (c : container A) : outcome (list (answer A)) :=
  match ops with
  | [] => Ret []
  | o :: ops => '(a, c) ← array_step o c; l ← array_run ops c; Ret (a :: l)
  end.

Context `{Allocator} (room : forall n, n <= 2 ^ 34 -> alloc n = true).

Lemma array_step_spec o c s : represents c s -> count s + 1 < 2 ^ 30 ->
  exists c', array_step o c = Ret ((set_step (c_compare c) o s).1, c') /\ represents c' (set_step (c_compare c) o s).2
  /\ c_compare c' = c_compare c /\ count (set_step (c_compare c) o s).2 <= count s + 1.
Proof.
  intros Hr Hmax. destruct o as [k|k|k|k]; cbn [array_step set_step].
  - destruct (insert_spec c s k Hr Hmax) as (rc & c' & -> & Ec & Hi). rewrite bind_ret. exists c'.
    destruct (Z.eqb_spec rc 0) as [->|Hrc].
    + destruct Hi as [-> Hi]. cbn. split; [done|]. split; [done|]. split; [done|]. unfold count. rewrite set_insert_perm. cbn. lia.
    + destruct Hi as (-> & Hi & [[x ->]|Hg]); [|by apply (grow_room c s) in Hg]. cbn.
      split; [done|]. split; [done|]. split; [done|]. lia.
  - destruct (remove_spec c s k Hr) as (rc & c' & E & Ec & Hi & ->). unfold _ba_remove. rewrite E, !bind_ret. exists c'.
    assert (Hc : count (set_remove (c_compare c) k s) <= count s)
      by (unfold count; pose proof (sublist_length _ _ (set_remove_sublist (c_compare c) k s)); lia).
    destruct (set_find (c_compare c) k s) eqn:Ef; cbn; split; try done; split; try done; [split; [done|lia]|..].
    + by rewrite (set_remove_absent (c_compare c)) in Hi.
    + split; [done|lia].
  - destruct (get_spec c s (Some k) true Hr) as (c' & E & Hr' & Ec & _). unfold _ba_find. rewrite E, bind_ret. exists c'.
    cbn. split; [done|]. split; [done|]. split; [done|lia].
  - destruct (get_spec c s k false Hr) as (c' & E & Hr' & Ec & _). unfold _ba_find_next. rewrite E, bind_ret. exists c'.
    destruct k; cbn; (split; [done|]; split; [done|]; split; [done|lia]).
Qed.

Lemma array_run_spec ops : forall c s, represents c s -> count s + count ops < 2 ^ 30 ->
  array_run ops c = Ret (set_run (c_compare c) ops s).
Proof.
  induction ops as [|o ops IH]; intros c s Hr Hmax; [done|]. rewrite count_cons in Hmax. pose proof (count_pos ops).
  cbn [array_run set_run]. destruct (array_step_spec o c s Hr) as (c' & -> & Hr' & Ec & Hc); [lia|].
  rewrite bind_ret. destruct (set_step (c_compare c) o s) as [a s']. cbn in *. rewrite (IH c' s'), Ec by (done || lia). done.
Qed.
End sequences.

(** C22: whatever is inserted, removed and looked up, a new sorted array
    answers as an ordered set does: one element of each key, the right one
    found, the next one in the order of the keys. *)
Theorem sorted_array_is_set {A} `{Allocator} (cmp : A -> A -> Z) ops c : Ordering cmp ->
  (forall n, n <= 2 ^ 34 -> alloc n = true) -> count ops < 2 ^ 30 ->
  netsnmp_container_get_binary_array cmp = Ret (Some c) -> array_run ops c = Ret (set_run cmp ops []).
Proof.
  intros Ho room Hmax E. unfold netsnmp_container_get_binary_array in E. rewrite !room in E by done. injection E as <-.
  rewrite array_run_spec with (s := []); [done|done|constructor; try done; constructor|done].
Qed.

(** ** Iterators *)

Section iterators.
Context {A : Type}.
Implicit Types (c : container A) (it : iterator) (p : A -> bool).

(** The loop over a container that removes the elements [p] holds of; the
    elements it has seen. *)
Fixpoint sweep (fuel : nat) p it c (x : option A) : outcome (list A * container A) :=
  match fuel with
  | O => Spin
  | S fuel =>
      match x with
      | None => Ret ([], c)
      | Some y =>
          '(it, c) ← (if p y then '(_, it, c) ← _ba_iterator_remove it c; Ret (it, c) else Ret (it, c));
          '(x, it) ← _ba_iterator_next it c;
          '(seen, c) ← sweep fuel p it c x; Ret (y :: seen, c)
      end
  end.

(** The iterator stands in front of [rest]. *)
Record stands it c (kept rest : list A) : Prop := {
  st_data : t_data c = kept ++ rest;
  st_pos : i_pos it = u64 (count kept - 1);
  st_sync : rest <> [] -> c_sync c = i_sync it
}.

Lemma u64_pred n : 0 <= n < 2 ^ 63 -> u64 (u64 (n - 1) + 1) = n.
Proof.
  intros Hn. unfold u64. rewrite Zplus_mod_idemp_l. replace (n - 1 + 1) with n by lia. apply Z.mod_small. lia.
Qed.

Lemma next_spec it c kept rest : stands it c kept rest -> count (kept ++ rest) < 2 ^ 30 ->
  exists it', _ba_iterator_next it c = Ret (head rest, it')
  /\ match rest with [] => True | _ => i_pos it' = count kept /\ c_sync c = i_sync it' end.
Proof.
  intros [Hd Hp Hs] Hmax. unfold _ba_iterator_next. rewrite Hp, u64_pred
    by (rewrite count_app in Hmax; pose proof (count_pos kept); pose proof (count_pos rest); lia).
  eexists. cbn [i_pos]. unfold _ba_iterator_position. cbn [i_sync]. rewrite Hd.
  destruct rest as [|x rest].
  - split; [|done]. rewrite app_nil_r. destruct (negb _); [done|]. destruct (_ =? 0); [done|]. by rewrite Z.leb_refl.
  - rewrite Hs, Z.eqb_refl by done. cbn [negb]. rewrite count_app, count_cons. pose proof (count_pos kept). pose proof (count_pos rest).
    destruct (Z.eqb_spec (count kept + (count rest + 1)) 0); [lia|].
    destruct (Z.leb_spec (count kept + (count rest + 1)) (count kept)); [lia|]. by rewrite slot_here.
Qed.

Lemma remove_here it c kept y rest : t_data c = kept ++ y :: rest -> i_pos it = count kept -> c_sync c = i_sync it ->
  exists rc it' c', _ba_iterator_remove it c = Ret (rc, it', c') /\ stands it' c' kept rest
  /\ c_compare c' = c_compare c /\ t_dirty c' = t_dirty c /\ c_flags c' = c_flags c /\ t_max_size c' = t_max_size c.
Proof.
  intros Hd Hp Hs. unfold _ba_iterator_remove, netsnmp_binary_array_remove_at. rewrite Hd, Hp, count_app, count_cons.
  pose proof (count_pos kept). pose proof (count_pos rest). destruct (Z.eqb_spec (count kept + (count rest + 1)) 0); [lia|].
  rewrite slot_here, delete_here, !bind_ret by done. do 3 eexists. split; [done|].
  destruct (Z.eqb_spec (count kept) (count kept + (count rest + 1) - 1)) as [E|E]; (split; [|done]); constructor; try done.
  - intros Hne. assert (count rest = 0) as Hr%count_zero by lia. done.
  - intros _. cbn. by rewrite Hs.
Qed.

Lemma sweep_spec p : forall rest fuel it c kept x, t_data c = kept ++ rest -> head rest = x -> count (kept ++ rest) < 2 ^ 30 ->
  match rest with [] => True | _ => i_pos it = count kept /\ c_sync c = i_sync it end -> (length rest < fuel)%nat ->
  exists c', sweep fuel p it c x = Ret (rest, c') /\ t_data c' = kept ++ filter (fun y => p y = false) rest
  /\ c_compare c' = c_compare c /\ t_dirty c' = t_dirty c /\ c_flags c' = c_flags c /\ t_max_size c' = t_max_size c.
Proof.
  induction rest as [|y rest IH]; intros fuel it c kept x Hd <- Hmax Hit Hf; (destruct fuel as [|fuel]; [lia|]); cbn [sweep head].
  { exists c. by rewrite filter_nil. }
  destruct Hit as [Hp Hs]. rewrite count_app, count_cons in Hmax. pose proof (count_pos kept). pose proof (count_pos rest).
  destruct (p y) eqn:Ep.
  - destruct (remove_here it c kept y rest Hd Hp Hs) as (rc & it' & c' & -> & Hst & Ec & Ed & Ef & Em). rewrite !bind_ret.
    destruct (next_spec it' c' kept rest Hst) as (it2 & -> & Hit2); [rewrite count_app; lia|]. rewrite bind_ret.
    destruct (IH fuel it2 c' kept (head rest)) as (c2 & -> & Hd2 & ? & ? & ? & ?);
      [by destruct Hst|done|rewrite count_app; lia|done|cbn in Hf; lia|].
    rewrite bind_ret. exists c2. rewrite filter_cons_False by (by rewrite Ep). repeat split; congruence.
  - assert (Hst : stands it c (kept ++ [y]) rest).
    { constructor; [by rewrite <- app_assoc| |done]. rewrite count_app, count_cons, count_nil, Hp.
      replace (count kept + (0 + 1) - 1) with (count kept) by lia. symmetry. apply u64_id. unfold is_u64. lia. }
    rewrite bind_ret. destruct (next_spec it c (kept ++ [y]) rest Hst) as (it2 & -> & Hit2);
      [rewrite !count_app, count_cons, count_nil; lia|]. rewrite bind_ret.
    destruct (IH fuel it2 c (kept ++ [y]) (head rest)) as (c2 & -> & Hd2 & ? & ? & ? & ?);
      [by destruct Hst|done|rewrite !count_app, count_cons, count_nil; lia|done|cbn in Hf; lia|].
    rewrite bind_ret. exists c2. rewrite filter_cons_True by done. repeat split; try congruence.
    rewrite Hd2. by simplify_list_eq.
Qed.
End iterators.

(** An iterator visits the elements of the set in order, each once, while
    the loop removes some of them; what is left is the set without these. *)
Theorem iterator_sweeps {A} `{Allocator} (p : A -> bool) c s : represents c s ->
  exists it c1 x c2, _ba_iterator_reset c = Ret (it, c1) /\ _ba_iterator_first it c1 = Ret x
  /\ sweep (S (length s)) p it c1 x = Ret (s, c2) /\ represents c2 (filter (fun y => p y = false) s).
Proof.
  intros Hr. unfold _ba_iterator_reset. destruct (sort_dirty_spec c s Hr) as (c1 & -> & []).
  rewrite bind_ret. exists {| i_sync := c_sync c1; i_pos := 0 |}, c1, (head s). pose proof (rep_count _ _ Hr) as Hmax.
  destruct (sweep_spec p s (S (length s)) {| i_sync := c_sync c1; i_pos := 0 |} c1 [] (head s)) as (c2 & E & Hd & Ec & Ed & Ef & Em);
    [done|done|done|by destruct s|lia|].
  exists c2. split; [done|]. split; [|split; [exact E|]].
  - unfold _ba_iterator_first, _ba_iterator_position. cbn [i_sync]. rewrite Z.eqb_refl, sf_data0. cbn [negb].
    destruct s as [|x s]; [done|]. rewrite count_cons. pose proof (count_pos s).
    destruct (Z.eqb_spec (count s + 1) 0), (Z.leb_spec (count s + 1) 0); try lia. done.
  - destruct sf_rep0. constructor; rewrite ?Ec, ?Ef, ?Em; try done.
    + eapply ordered_sublist; [apply sublist_filter|done].
    + by rewrite Hd.
    + unfold count in *. pose proof (length_filter (fun y => p y = false) s). lia.
Qed.
