(* ===== verification/ListContainer.v ===== *)
(** * Linked lists as containers: snmplib/container_list_ssll.c, container_null.c

    A list that is kept sorted, or one that is a stack or a queue.  [l_nodes]
    has the data of the nodes from the head on; the count is their number. *)

From stdpp Require Import list.
From S2P Require Import Prelude Bytes AsnRbuild Oid Container.

Record sl_container (A : Type) : Type := {
  l_compare : A -> A -> Z;
  l_sync : Z;
  l_nodes : list A;
  l_unsorted : bool;
  l_fifo : Z
}.
Arguments l_compare {A} _.
Arguments l_sync {A} _.
Arguments l_nodes {A} _.
Arguments l_unsorted {A} _.
Arguments l_fifo {A} _.

Section list_container.
Context {A : Type}.
Implicit Types c : sl_container A.

(** Assignments, with [++c->sync]. *)
Definition with_nodes (nodes : list A) c : sl_container A := {|
  l_compare := l_compare c; l_sync := u64 (l_sync c + 1); l_nodes := nodes; l_unsorted := l_unsorted c;
  l_fifo := l_fifo c |}.

(** The nodes from where the search stops. *)
Fixpoint search_nodes (compare : A -> A -> Z) (unsorted : bool) (key : A) (nodes : list A) : list A :=
  match nodes with
  | [] => []
  | x :: next =>
      if compare x key =? 0 then nodes
      else if (0 <? compare x key) && negb unsorted then nodes
      else search_nodes compare unsorted key next
  end.

Definition _get c (key : option A) (exact : bool) : option A :=
  match key with
  | None => head (l_nodes c)
  | Some key =>
      match search_nodes (l_compare c) (l_unsorted c) key (l_nodes c) with
      | [] => None
      | x :: next => if negb exact && (l_compare c x key =? 0) then head next else Some x
      end
  end.

Definition _ssll_find c (data : option A) : option A :=
  match data with None => None | Some _ => _get c data true end.

Definition _ssll_find_next c (data : option A) : option A := _get c data false.

Fixpoint insert_sorted (compare : A -> A -> Z) (data : A) (nodes : list A) : list A :=
  match nodes with
  | [] => [data]
  | x :: next => if 0 <? compare x data then data :: nodes else x :: insert_sorted compare data next
  end.

Definition sizeof_sl_node : Z := 16.

Definition _ssll_insert `{Allocator} c (data : A) : Z * sl_container A :=
  if negb (alloc sizeof_sl_node) then (-1, c)
  else
    (0, with_nodes (if l_unsorted c then
                      if l_fifo c =? 1 then l_nodes c ++ [data] else data :: l_nodes c
                    else insert_sorted (l_compare c) data (l_nodes c)) c).

(** The nodes without the one that goes, [None] when there is none. *)
Fixpoint remove_node (compare : A -> A -> Z) (unsorted : bool) (data : A) (nodes : list A) : option (list A) :=
  match nodes with
  | [] => None
  | x :: next =>
      if compare x data =? 0 then Some next
      else if (0 <? compare x data) && negb unsorted then None
      else option_map (cons x) (remove_node compare unsorted data next)
  end.

(** Without data the first one goes; the first node is compared without the
    look at the order. *)
Definition _ssll_remove c (data : option A) : Z * sl_container A :=
  match l_nodes c with
  | [] => (-1, c)
  | x :: next =>
      match data with
      | None => (0, with_nodes next c)
      | Some data =>
          if l_compare c x data =? 0 then (0, with_nodes next c)
          else
            match remove_node (l_compare c) (l_unsorted c) data next with
            | Some next => (0, with_nodes (x :: next) c)
            | None => (-2, c)
            end
      end
  end.

Definition _ssll_size c : Z := count (l_nodes c).

Definition _ssll_for_each {S} c (f : A -> S -> S) (context : S) : S := fold_left (fun s x => f x s) (l_nodes c) context.

Definition _ssll_clear {S} c (f : option (A -> S -> S)) (context : S) : S * sl_container A :=
  (match f with Some f => _ssll_for_each c f context | None => context end, with_nodes [] c).

Definition sizeof_sl_container : Z := 216.

Definition netsnmp_container_get_ssll `{Allocator} (compare : A -> A -> Z) : option (sl_container A) :=
  if alloc sizeof_sl_container
  then Some {| l_compare := compare; l_sync := 0; l_nodes := []; l_unsorted := false; l_fifo := 0 |} else None.

Definition netsnmp_container_get_usll `{Allocator} (compare : A -> A -> Z) : option (sl_container A) :=
  sl ← netsnmp_container_get_ssll compare;
  Some {| l_compare := l_compare sl; l_sync := l_sync sl; l_nodes := l_nodes sl; l_unsorted := true; l_fifo := l_fifo sl |}.

Definition netsnmp_container_get_singly_linked_list `{Allocator} (compare : A -> A -> Z) (fifo : Z) : option (sl_container A) :=
  sl ← netsnmp_container_get_usll compare;
  Some {| l_compare := l_compare sl; l_sync := l_sync sl; l_nodes := l_nodes sl; l_unsorted := l_unsorted sl; l_fifo := fifo |}.

Definition netsnmp_container_get_fifo `{Allocator} (compare : A -> A -> Z) : option (sl_container A) :=
  netsnmp_container_get_singly_linked_list compare 1.

(** ** Iterators *)

(** [li_pos] counts the nodes before [pos], which is NULL behind the last. *)
Record ssll_iterator : Type := { li_sync : Z; li_pos : nat; li_last : bool }.

Definition in_sync (it : ssll_iterator) c : bool := l_sync c =? li_sync it.

Definition _ssll_iterator_curr (it : ssll_iterator) c : option A :=
  if in_sync it c then l_nodes c !! li_pos it else None.

Definition _ssll_iterator_first (it : ssll_iterator) c : option A := if in_sync it c then head (l_nodes c) else None.

Definition _ssll_iterator_next (it : ssll_iterator) c : option A * ssll_iterator :=
  if in_sync it c && bool_decide (is_Some (l_nodes c !! li_pos it)) then
    (l_nodes c !! S (li_pos it), {| li_sync := li_sync it; li_pos := S (li_pos it); li_last := li_last it |})
  else (None, it).

(** The second time the pointer to the node comes back instead of the one to
    its data. *)
Inductive pointer : Type :=
  | NULL
  | ToData (x : A)
  | ToNode (x : A).

Definition _ssll_iterator_last (it : ssll_iterator) c : pointer * ssll_iterator :=
  if negb (in_sync it c) then (NULL, it)
  else
    match last (l_nodes c) with
    | None => (NULL, it)
    | Some x =>
        if li_last it then (ToNode x, it)
        else (ToData x, {| li_sync := li_sync it; li_pos := li_pos it; li_last := true |})
    end.

Definition _ssll_iterator_reset c : ssll_iterator := {| li_sync := l_sync c; li_pos := 0; li_last := false |}.

Definition sizeof_ssll_iterator : Z := 88.

Definition _ssll_iterator_get `{Allocator} c : option ssll_iterator :=
  if alloc sizeof_ssll_iterator then Some (_ssll_iterator_reset c) else None.
End list_container.
Arguments pointer A : clear implicits.
