(* ===== verification/Containers.v ===== *)
(** * Containers with several indexes, and the kinds of containers: snmplib/container.c

    A container may have others chained to it, each with an order of its own
    over the same elements; [CONTAINER_INSERT] and [CONTAINER_REMOVE] work on
    the whole chain.  The chain is a list; the implementations are those of
    the interface of Container.  The registry of container types is itself a
    sorted array, by name. *)

From stdpp Require Import list.
From S2P Require Import Prelude Bytes AsnRbuild Oid Vacm Container BinaryArray ListContainer.

(** ** Chains *)

Section chains.
Context {C A : Type} `{ContainerOps C A}.

(** A container of a chain: its name, its filter for insertions, its state. *)
Record link : Type := { l_name : option (list Z); l_filter : option (A -> Z); l_cont : C }.

Definition with_cont (c : C) (x : link) : link := {| l_name := l_name x; l_filter := l_filter x; l_cont := c |}.

Definition filtered (x : link) (k : A) : bool := match l_filter x with Some f => f k =? 1 | None => false end.

Fixpoint CONTAINER_INSERT_HELPER (xs : list link) (k : A) : outcome (Z * list link) :=
  match xs with
  | [] => Ret (0, [])
  | x :: next =>
      if filtered x k then '(rc, next) ← CONTAINER_INSERT_HELPER next k; Ret (rc, x :: next)
      else
        '(rc, c) ← op_insert (l_cont x) k;
        if negb (rc =? 0) then Ret (rc, with_cont c x :: next)
        else
          '(rc, next) ← CONTAINER_INSERT_HELPER next k;
          if negb (rc =? 0) then '(_, c) ← op_remove c k; Ret (rc, with_cont c x :: next)
          else Ret (rc, with_cont c x :: next)
  end.

(** The chain is given from its first container on. *)
Definition CONTAINER_INSERT (xs : list link) (k : A) : outcome (Z * list link) := CONTAINER_INSERT_HELPER xs k.

(** From the last container to the first. *)
Fixpoint CONTAINER_REMOVE (xs : list link) (k : A) : outcome (Z * list link) :=
  match xs with
  | [] => Ret (0, [])
  | x :: next =>
      '(rc, next) ← CONTAINER_REMOVE next k;
      '(rc2, c) ← op_remove (l_cont x) k;
      Ret (if negb (rc2 =? 0) && match l_filter x with Some _ => false | None => true end then rc2 else rc,
           with_cont c x :: next)
  end.

Definition netsnmp_container_add_index (primary : list link) (new_index : link) : list link := primary ++ [new_index].

Fixpoint SUBCONTAINER_FIND (xs : list link) (name : list Z) : option link :=
  match xs with
  | [] => None
  | x :: next => if match l_name x with Some n => strcmp name n =? 0 | None => false end then Some x
                 else SUBCONTAINER_FIND next name
  end.
End chains.
Arguments link : clear implicits.

(** ** Comparisons *)

(** Elements start with an index, an object identifier. *)
Definition netsnmp_compare_netsnmp_index {A} (index : A -> list Z) (lhs rhs : A) : outcome Z :=
  snmp_oid_compare (index lhs) (len (index lhs)) (index rhs) (len (index rhs)).

Definition netsnmp_ncompare_netsnmp_index {A} (index : A -> list Z) (lhs rhs : A) : outcome Z :=
  snmp_oid_ncompare (index lhs) (len (index lhs)) (index rhs) (len (index rhs)) (len (index rhs)).

Definition netsnmp_compare_cstring {A} (name : A -> list Z) (lhs rhs : A) : Z := strcmp (name lhs) (name rhs).

Definition strncmp (a b : list Z) (n : Z) : Z := lex (take (Z.to_nat n) (c_string a)) (take (Z.to_nat n) (c_string b)).

Definition netsnmp_ncompare_cstring {A} (name : A -> list Z) (lhs rhs : A) : Z :=
  strncmp (name lhs) (name rhs) (strlen (name rhs)).

Definition netsnmp_compare_direct_cstring (lhs rhs : list Z) : Z := strcmp lhs rhs.

Definition netsnmp_compare_mem (lhs rhs : list Z) : Z :=
  let rc := memcmp lhs rhs (Z.min (len lhs) (len rhs)) in
  if (rc =? 0) && negb (len lhs =? len rhs) then if len lhs <? len rhs then -1 else 1 else rc.

Definition netsnmp_compare_long {A} (index : A -> Z) (lhs rhs : A) : Z :=
  if index lhs <? index rhs then -1 else if index rhs <? index lhs then 1 else 0.

(** ** Kinds of containers *)

Inductive factory : Set := binary_array | sorted_list | unsorted_list | fifo_list | null_container.

(** A container of any kind; the null container holds nothing. *)
Inductive netsnmp_container (A : Type) : Type :=
  | Array (c : container A)
  | Linked (c : sl_container A)
  | Nothing (compare : A -> A -> Z).
Arguments Array {A} c.
Arguments Linked {A} c.
Arguments Nothing {A} compare.

Section kinds.
Context {A : Type} `{Allocator}.

#[export] Instance netsnmp_container_ops : ContainerOps (netsnmp_container A) A := {
  op_compare c := match c with Array c => c_compare c | Linked c => l_compare c | Nothing f => f end;
  op_insert c k :=
    match c with
    | Array c => '(rc, c) ← netsnmp_binary_array_insert c k; Ret (rc, Array c)
    | Linked c => let '(rc, c) := _ssll_insert c k in Ret (rc, Linked c)
    | Nothing f => Ret (0, Nothing f)
    end;
  op_remove c k :=
    match c with
    | Array c => '(rc, c) ← _ba_remove c k; Ret (rc, Array c)
    | Linked c => let '(rc, c) := _ssll_remove c (Some k) in Ret (rc, Linked c)
    | Nothing f => Ret (0, Nothing f)
    end;
  op_find c k :=
    match c with
    | Array c => '(x, c) ← _ba_find c k; Ret (x, Array c)
    | Linked c => Ret (_ssll_find c (Some k), Linked c)
    | Nothing f => Ret (None, Nothing f)
    end;
  op_find_next c k :=
    match c with
    | Array c => '(x, c) ← _ba_find_next c k; Ret (x, Array c)
    | Linked c => Ret (_ssll_find_next c k, Linked c)
    | Nothing f => Ret (None, Nothing f)
    end
}.

(** [factory->produce()]; the comparison is set afterwards. *)
Definition produce (f : factory) (compare : A -> A -> Z) : outcome (option (netsnmp_container A)) :=
  match f with
  | binary_array => c ← netsnmp_container_get_binary_array compare; Ret (option_map Array c)
  | sorted_list => Ret (option_map Linked (netsnmp_container_get_ssll compare))
  | unsorted_list => Ret (option_map Linked (netsnmp_container_get_usll compare))
  | fifo_list => Ret (option_map Linked (netsnmp_container_get_fifo compare))
  | null_container => Ret (if alloc sizeof_container then Some (Nothing compare) else None)
  end.
End kinds.

(** ** The registry *)

Record container_type (A : Type) : Type := {
  ct_name : list Z;
  ct_factory : factory;
  ct_compare : option (A -> A -> Z)
}.
Arguments ct_name {A} _.
Arguments ct_factory {A} _.
Arguments ct_compare {A} _.

Section registry.
Context {A : Type} `{Allocator}.

Definition registry : Type := container (container_type A).

Definition type_key (name : list Z) : container_type A := {| ct_name := name; ct_factory := binary_array; ct_compare := None |}.

Definition sizeof_container_type : Z := 24.

(** The entry [ct] points to gets the factory; its comparison stays. *)
Definition set_factory (name : list Z) (f : factory) (r : registry) : registry :=
  with_table (t_max_size r) (t_dirty r)
    ((fun ct => if strcmp (ct_name ct) name =? 0
                then {| ct_name := ct_name ct; ct_factory := f; ct_compare := ct_compare ct |} else ct) <$> t_data r) r.

(** [None] is a registry that was not made; a name there is no memory for is
    NULL in the entry, which the next search follows. *)
Definition netsnmp_container_register_with_compare (name : list Z) (f : factory) (c : option (A -> A -> Z))
    (r : option registry) : outcome (Z * option registry) :=
  match r with
  | None => Ret (-1, None)
  | Some r =>
      '(ct, r) ← _ba_find r (type_key name);
      match ct with
      | Some _ => Ret (0, Some (set_factory name f r))
      | None =>
          if negb (alloc sizeof_container_type) then Ret (-1, Some r)
          else if negb (alloc (len name + 1)) then Null
          else
            '(_, r) ← netsnmp_binary_array_insert r {| ct_name := c_string name; ct_factory := f; ct_compare := c |};
            Ret (0, Some r)
      end
  end.

Definition netsnmp_container_register (name : list Z) (f : factory) : option registry -> outcome (Z * option registry) :=
  netsnmp_container_register_with_compare name f None.

Definition netsnmp_container_get_ct (type : list Z) (r : option registry) : outcome (option (container_type A) * option registry) :=
  match r with
  | None => Ret (None, None)
  | Some r => '(ct, r) ← _ba_find r (type_key type); Ret (ct, Some r)
  end.

Definition netsnmp_container_get_factory (type : list Z) (r : option registry) : outcome (option factory * option registry) :=
  '(ct, r) ← netsnmp_container_get_ct type r; Ret (option_map ct_factory ct, r).

(** [strtok_r] with the delimiter ":"; empty pieces are left out. *)
Fixpoint pieces (list_ : list Z) (piece : list Z) : list (list Z) :=
  match list_ with
  | [] => match piece with [] => [] | _ => [piece] end
  | c :: rest => if c =? 58 then match piece with [] => pieces rest [] | _ => piece :: pieces rest [] end
                 else pieces rest (piece ++ [c])
  end.

Fixpoint find_ct (entries : list (list Z)) (r : option registry) : outcome (option (container_type A) * option registry) :=
  match entries with
  | [] => Ret (None, r)
  | entry :: entries =>
      '(ct, r) ← netsnmp_container_get_ct entry r;
      match ct with Some ct => Ret (Some ct, r) | None => find_ct entries r end
  end.

Definition netsnmp_container_find_ct (type_list : list Z) (r : option registry) :=
  find_ct (pieces (c_string type_list) []) r.

Definition netsnmp_container_find_factory (type_list : list Z) (r : option registry) : outcome (option factory * option registry) :=
  '(ct, r) ← netsnmp_container_find_ct type_list r; Ret (option_map ct_factory ct, r).

(** Without a comparison of the type the container compares indexes, which
    [by_index] stands for. *)
Definition netsnmp_container_find (by_index : A -> A -> Z) (type : list Z) (r : option registry)
    : outcome (option (netsnmp_container A) * option registry) :=
  '(ct, r) ← netsnmp_container_find_ct type r;
  match ct with
  | None => Ret (None, r)
  | Some ct => c ← produce (ct_factory ct) (default by_index (ct_compare ct)); Ret (c, r)
  end.
End registry.
Arguments registry A : clear implicits.
