(* ===== verification/ContainersProps.v ===== *)
(** * Properties of chains, comparisons and linked lists *)

From stdpp Require Import list sorting.
From S2P Require Import Prelude Bytes AsnRbuild Oid Vacm Lcd Users UsersSpec Container BinaryArray BinaryArrayProps ListContainer Containers Samples.

(** ** Comparisons are orders *)

#[export] Instance lex_ordering : Ordering lex.
Proof.
  constructor.
  - intros a b. rewrite lex_opp. by destruct (lex_range a b) as [->|[->| ->]].
  - intros a b c. apply lex_le_trans.
Qed.

Lemma ordering_on {A B} (cmp : B -> B -> Z) (g : A -> B) : Ordering cmp -> Ordering (fun x y => cmp (g x) (g y)).
Proof. intros []. constructor; eauto. Qed.

#[export] Instance strcmp_ordering {A} (name : A -> list Z) : Ordering (netsnmp_compare_cstring name).
Proof. apply (ordering_on lex (fun x => c_string (name x))), _. Qed.

#[export] Instance long_ordering {A} (index : A -> Z) : Ordering (netsnmp_compare_long index).
Proof.
  constructor; unfold netsnmp_compare_long.
  - intros a b. destruct (Z.ltb_spec (index a) (index b)), (Z.ltb_spec (index b) (index a)); lia.
  - intros a b c. destruct (Z.ltb_spec (index a) (index b)), (Z.ltb_spec (index b) (index a)),
      (Z.ltb_spec (index b) (index c)), (Z.ltb_spec (index c) (index b)), (Z.ltb_spec (index a) (index c)),
      (Z.ltb_spec (index c) (index a)); lia.
Qed.

Lemma compare_index_lex {A} (index : A -> list Z) x y : short (index x) -> short (index y) ->
  netsnmp_compare_netsnmp_index index x y = Ret (lex (index x) (index y)).
Proof.
  intros Hx Hy. unfold netsnmp_compare_netsnmp_index.
  pose proof (snmp_oid_compare_spec (index x) [] (index y) [] Hx Hy) as E. by rewrite !app_nil_r in E.
Qed.

Lemma compare_mem_lex a b : netsnmp_compare_mem a b = lex a b.
Proof.
  unfold netsnmp_compare_mem, memcmp, len. rewrite <- Nat2Z.inj_min, Nat2Z.id. revert b.
  induction a as [|x a IH]; intros [|y b]; [done..|]. specialize (IH b). cbn [length] in *. rewrite <- Nat.succ_min_distr in *.
  cbn [take lex]. rewrite !Nat2Z.inj_succ. destruct (Z.ltb_spec x y); [done|]. destruct (Z.ltb_spec y x); [done|].
  rewrite <- IH. destruct (lex _ _ =? 0); [|done]. cbn [andb].
  destruct (Z.eqb_spec (Z.of_nat (length a)) (Z.of_nat (length b))), (Z.eqb_spec (Z.succ (Z.of_nat (length a))) (Z.succ (Z.of_nat (length b))));
    try lia; try done. cbn.
  destruct (Z.ltb_spec (Z.of_nat (length a)) (Z.of_nat (length b))), (Z.ltb_spec (Z.succ (Z.of_nat (length a))) (Z.succ (Z.of_nat (length b)))); lia || done.
Qed.

(** ** Sorted linked lists *)

Section lists.
Context {A} (cmp : A -> A -> Z) `{!Ordering cmp}.
Implicit Types (c : sl_container A) (k : A) (l : list A).

Lemma search_sorted k l : search_nodes cmp false k l = [] /\ first_such (fun a => 0 <=? cmp a k) l = None
  \/ exists x next, search_nodes cmp false k l = x :: next /\ first_such (fun a => 0 <=? cmp a k) l = Some x.
Proof.
  induction l as [|x l IH]; [by left|]. cbn. destruct (Z.eqb_spec (cmp x k) 0), (Z.ltb_spec 0 (cmp x k)), (Z.leb_spec 0 (cmp x k));
    try lia; cbn; eauto.
Qed.

Lemma insert_sorted_in_order k l : in_order cmp l -> in_order cmp (insert_sorted cmp k l).
Proof.
  assert (Hperm : forall l, insert_sorted cmp k l ≡ₚ k :: l).
  { clear l. intros l. induction l as [|x l IH]; [done|]. cbn. destruct (0 <? cmp x k); [done|]. rewrite IH. apply perm_swap. }
  intros Hl. induction Hl as [|x l Hl IH Hx]; [by repeat constructor|]. cbn. destruct (Z.ltb_spec 0 (cmp x k)) as [Hlt|Hge].
  - assert (not_above cmp k x) by (unfold not_above; apply (ord_le cmp); lia).
    constructor; [by constructor|]. constructor; [done|]. eapply Forall_impl; [exact Hx|].
    intros y Hy. unfold not_above in *. eapply ord_trans; [|exact Hy]. done.
  - constructor; [done|]. rewrite Hperm. by constructor.
Qed.
End lists.

(** A sorted linked list that is asked for a key it has not got answers
    with the next element, as if it had been asked for that. *)
Theorem sorted_list_finds_next {A} (c : sl_container A) k x : Ordering (l_compare c) -> l_unsorted c = false ->
  ordered_set (l_compare c) (l_nodes c) -> set_find (l_compare c) k (l_nodes c) = None ->
  set_next (l_compare c) k (l_nodes c) = Some x ->
  _ssll_find c (Some k) = Some x /\ l_compare c x k <> 0.
Proof.
  intros Ho Hu Hs Hf Hn. unfold _ssll_find, _get. rewrite Hu. cbn [negb andb].
  destruct (search_sorted (l_compare c) k (l_nodes c)) as [[E1 E2]|(y & next & E1 & E2)]; rewrite E1.
  - exfalso. clear -Hn E2. unfold set_next, above_key in Hn. induction (l_nodes c) as [|z l IH]; [done|]. cbn in *.
    destruct (Z.leb_spec 0 (l_compare c z k)), (Z.ltb_spec 0 (l_compare c z k)); try done; [lia|auto].
  - unfold set_next, set_find, above_key, same_key in *. clear -Hf Hn E2. induction (l_nodes c) as [|z l IH]; [done|]. cbn in *.
    destruct (Z.eqb_spec (l_compare c z k) 0); [done|]. destruct (Z.leb_spec 0 (l_compare c z k)), (Z.ltb_spec 0 (l_compare c z k));
      try lia; [|auto]. split; congruence.
Qed.

(** The names 1 and 3 in a list that is asked for 2. *)
Definition odd_list : sl_container Z := {|
  l_compare := netsnmp_compare_long id; l_sync := 2; l_nodes := [1; 3]; l_unsorted := false; l_fifo := 0 |}.

Lemma sorted_list_finds_next_witness : _ssll_find odd_list (Some 2) = Some 3 /\ l_compare odd_list 3 2 <> 0.
Proof.
  apply (sorted_list_finds_next odd_list 2 3).
  - apply long_ordering.
  - reflexivity.
  - repeat constructor; reflexivity.
  - reflexivity.
  - reflexivity.
Defined.

(** ** Chains *)

#[export] Instance any_container_ordered {A} `{Allocator} :
  OrderedContainer (netsnmp_container A) A (fun c s => match c with Array c => represents c s | _ => False end).
Proof.
  constructor; intros [c|c|f] s; try done.
  - apply rep_ordering.
  - apply rep_set.
  - intros k Hr Hmax. destruct (holds_insert c s k Hr Hmax) as (rc & c' & E & Ec & Hi). exists rc, (Array c').
    cbn in *. by rewrite E.
  - intros k Hr. destruct (holds_remove c s k Hr) as (rc & c' & E & Ec & Hi). exists rc, (Array c'). cbn in *. by rewrite E.
  - intros k Hr. destruct (holds_find c s k Hr) as (c' & E & Ec & Hi). exists (Array c'). cbn in *. by rewrite E.
  - intros k Hr. destruct (holds_find_next c s k Hr) as (c' & E & Ec & Hi). exists (Array c'). cbn in *. by rewrite E.
Qed.

Section chain.
Context {C A : Type} `{Ops : ContainerOps C A} (holds : C -> list A -> Prop) `{!OrderedContainer C A holds}.
Implicit Types (xs : list (link C A)) (ss : list (list A)) (k : A).

Definition chain_holds xs ss : Prop := Forall2 (fun x s => holds (l_cont x) s) xs ss.

(** What a set of the chain becomes: a filtered one stays. *)
Definition inserted k (x : link C A) (s s' : list A) : Prop :=
  if filtered x k then s' = s
  else set_find (op_compare (l_cont x)) k s = None /\ s' = set_insert (op_compare (l_cont x)) k s.

(** The same filters and orders. *)
Definition same_link (x y : link C A) : Prop :=
  l_filter x = l_filter y /\ op_compare (l_cont x) = op_compare (l_cont y).

Lemma insert_chain k xs : forall ss, chain_holds xs ss -> Forall (fun s => count s + 1 < 2 ^ 30) ss ->
  exists rc ys, CONTAINER_INSERT xs k = Ret (rc, ys) /\ Forall2 same_link xs ys
  /\ if rc =? 0 then exists ss', chain_holds ys ss' /\ Forall3 (inserted k) xs ss ss' else chain_holds ys ss.
Proof.
  unfold CONTAINER_INSERT. induction xs as [|x xs IH]; intros ss Hh Hmax.
  { inversion_clear Hh. exists 0, []. split; [done|]. split; [constructor|]. exists []. split; constructor. }
  inversion Hh as [|? s ? ss' Hs Hss]; subst. inversion_clear Hmax as [|? ? Hm Hmax'].
  destruct (IH ss' Hss Hmax') as (rc & ys & E & Hsame & Hrc). cbn [CONTAINER_INSERT_HELPER].
  destruct (filtered x k) eqn:Ef.
  - rewrite E, bind_ret. exists rc, (x :: ys). split; [done|]. split; [by constructor|]. destruct (rc =? 0); [|by constructor].
    destruct Hrc as (ss2 & H1 & H2). exists (s :: ss2). split; [by constructor|]. constructor; [|done]. unfold inserted. by rewrite Ef.
  - destruct (holds_insert (l_cont x) s k Hs Hm) as (rc1 & c & -> & Ec & Hi). rewrite bind_ret.
    destruct (Z.eqb_spec rc1 0) as [->|Hn]; cbn [negb].
    + destruct Hi as [Hf Hi]. rewrite E, bind_ret. destruct (Z.eqb_spec rc 0) as [->|Hn]; cbn [negb].
      * exists 0, (with_cont c x :: ys). split; [done|]. split; [by constructor|]. destruct Hrc as (ss2 & H1 & H2).
        exists (set_insert (op_compare (l_cont x)) k s :: ss2). split; [by constructor|]. constructor; [|done].
        unfold inserted. by rewrite Ef.
      * destruct (holds_remove c _ k Hi) as (rc2 & c2 & -> & Ec2 & Hr & _). rewrite bind_ret.
        exists rc, (with_cont c2 x :: ys). split; [done|]. split; [constructor; [split; [done|cbn; congruence]|done]|].
        destruct (Z.eqb_spec rc 0); [done|]. constructor; [|done].
        pose proof (holds_ordering _ _ Hs). rewrite Ec in Hr. by rewrite (set_remove_insert (op_compare (l_cont x))) in Hr.
    + exists rc1, (with_cont c x :: xs). split; [done|]. split.
      * constructor; [done|]. clear. induction xs; by constructor.
      * destruct (Z.eqb_spec rc1 0); [done|]. by constructor.
Qed.

Lemma remove_chain k xs : forall ss, chain_holds xs ss ->
  exists rc ys, CONTAINER_REMOVE xs k = Ret (rc, ys) /\ Forall2 same_link xs ys
  /\ chain_holds ys (zip_with (fun x s => set_remove (op_compare (l_cont x)) k s) xs ss).
Proof.
  induction xs as [|x xs IH]; intros ss Hh.
  { inversion_clear Hh. exists 0, []. split; [done|]. split; constructor. }
  inversion Hh as [|? s ? ss' Hs Hss]; subst. destruct (IH ss' Hss) as (rc & ys & E & Hsame & Hrc). cbn [CONTAINER_REMOVE].
  rewrite E, bind_ret. destruct (holds_remove (l_cont x) s k Hs) as (rc2 & c & -> & Ec & Hr & _). rewrite bind_ret.
  do 2 eexists. split; [done|]. split; by constructor.
Qed.

Lemma removed_back k xs ys ss ss' : chain_holds xs ss -> Forall2 same_link xs ys -> Forall3 (inserted k) xs ss ss' ->
  zip_with (fun x s => set_remove (op_compare (l_cont x)) k s) ys ss'
  = zip_with (fun x s => set_remove (op_compare (l_cont x)) k s) xs ss.
Proof.
  intros Hh Hsame Hins. revert ys Hh Hsame. induction Hins as [|x s s' xs ss ss' Hx Hins IH]; intros ys Hh Hsame;
    inversion Hsame as [|? y ? ys' [_ Ec] Hsame']; subst; [done|]. cbn. inversion_clear Hh as [|? ? ? ? Hs Hh'].
  rewrite <- Ec. f_equal; [|by apply IH]. unfold inserted in Hx. destruct (filtered x k); [by subst|].
  destruct Hx as [Hf ->]. pose proof (holds_ordering _ _ Hs).
  rewrite (set_remove_insert (op_compare (l_cont x))), (set_remove_absent (op_compare (l_cont x))); done.
Qed.
End chain.

(** C23: an insertion into a chain of containers that meet the laws of an
    ordered set, as the binary array does and the linked lists do not
    ([fifo_chain_not_rolled_back]), is all or nothing: after an
    error every container has the elements it had before, otherwise each one
    whose filter lets the element in has it besides; a removal of the key then
    brings every container back to what it was without the key. *)
Theorem chain_insert_atomic {C A} `{ContainerOps C A} (holds : C -> list A -> Prop) `{!OrderedContainer C A holds}
  (xs : list (link C A)) ss k : chain_holds holds xs ss -> Forall (fun s => count s + 1 < 2 ^ 30) ss ->
  exists rc ys, CONTAINER_INSERT xs k = Ret (rc, ys)
  /\ if rc =? 0
     then (exists ss', chain_holds holds ys ss' /\ Forall3 (inserted k) xs ss ss')
       /\ exists rc' zs, CONTAINER_REMOVE ys k = Ret (rc', zs)
          /\ chain_holds holds zs (zip_with (fun x s => set_remove (op_compare (l_cont x)) k s) xs ss)
     else chain_holds holds ys ss.
Proof.
  intros Hh Hmax. destruct (insert_chain holds k xs ss Hh Hmax) as (rc & ys & E & Hsame & Hrc). exists rc, ys. split; [done|].
  destruct (rc =? 0); [|done]. destruct Hrc as (ss' & Hh' & Hins). split; [by exists ss'|].
  destruct (remove_chain holds k ys ss' Hh') as (rc' & zs & E' & _ & Hz). exists rc', zs. split; [done|].
  by rewrite (removed_back holds k xs ys ss ss') in Hz.
Qed.

(** Numbers by their value, and by their last digit. *)
Definition by_value : Z -> Z -> Z := netsnmp_compare_long id.
Definition by_digit : Z -> Z -> Z := netsnmp_compare_long (fun x => x mod 10).

Definition array_of (cmp : Z -> Z -> Z) (l : list Z) : container Z := {|
  c_compare := cmp; c_ncompare := None; c_flags := 0; c_sync := 1; t_max_size := 10; t_dirty := false; t_data := l |}.

Definition two_orders : list (link (netsnmp_container Z) Z) := [
  {| l_name := None; l_filter := None; l_cont := Array (array_of by_value [3]) |};
  {| l_name := None; l_filter := None; l_cont := Array (array_of by_digit [13]) |}].

Lemma array_of_represents (cmp : Z -> Z -> Z) l : Ordering cmp -> ordered_set cmp l -> count l < 2 ^ 30 -> represents (array_of cmp l) l.
Proof. by constructor. Qed.

(** 23 has no place beside 13 in the second order. *)
Lemma chain_insert_atomic_witness : exists ys, CONTAINER_INSERT (H := netsnmp_container_ops) two_orders 23 = Ret (-1, ys)
  /\ chain_holds (fun c s => match c with Array c => represents c s | _ => False end) ys [[3]; [13]].
Proof.
  destruct (chain_insert_atomic (C := netsnmp_container Z) (fun c s => match c with Array c => represents c s | _ => False end)
    two_orders [[3]; [13]] 23) as (rc & ys & E & H).
  - constructor; [|constructor; [|constructor]]; apply array_of_represents; try apply long_ordering; try (by repeat constructor); done.
  - by repeat constructor.
  - assert (Erc : rc = -1).
    { assert (R : exists zs, CONTAINER_INSERT (H := netsnmp_container_ops) two_orders 23 = Ret (-1, zs)) by (eexists; reflexivity).
      destruct R as [zs R]. rewrite E in R. by injection R. }
    subst rc. exists ys. split; [exact E|exact H].
Defined.

(** A list in order of insertion may hold elements that compare as equal. *)
Definition fifo_of (cmp : Z -> Z -> Z) (l : list Z) : sl_container Z := {|
  l_compare := cmp; l_sync := 1; l_nodes := l; l_unsorted := true; l_fifo := 1 |}.

(** The array refuses 13, and the list gives up its first element that compares as
    equal to 13, which is the 3 it had before. *)
Lemma fifo_chain_not_rolled_back :
  (r ← CONTAINER_INSERT (H := netsnmp_container_ops)
         [{| l_name := None; l_filter := None; l_cont := Linked (fifo_of by_digit [3]) |};
          {| l_name := None; l_filter := None; l_cont := Array (array_of by_digit [13]) |}] 13;
   Ret (r.1, map (fun x => match l_cont x with Array c => t_data c | Linked c => l_nodes c | Nothing _ => [] end) r.2))
  = Ret (-1, [[13]; [13]]).
Proof. vm_compute. reflexivity. Qed.

(** Memory for 2^30 elements. *)
#[local] Program Instance plenty_alloc : Allocator := { alloc n := n <? 2 ^ 40 }.
Next Obligation. intros n Hn%Z.ltb_lt. lia. Qed.

Lemma sorted_array_is_set_witness : exists c, netsnmp_container_get_binary_array by_value = Ret (Some c) /\
  array_run [Insert 5; Insert 3; Insert 5; FindNext (Some 3); Remove 3; FindNext None] c
  = Ret [Code 0; Code 0; Code (-1); Element (Some 5); Code 0; Element (Some 5)].
Proof.
  eexists. split; [reflexivity|].
  apply (sorted_array_is_set by_value [Insert 5; Insert 3; Insert 5; FindNext (Some 3); Remove 3; FindNext None]).
  - apply long_ordering.
  - intros n Hn. apply Z.ltb_lt. lia.
  - reflexivity.
  - reflexivity.
Defined.

Lemma iterator_sweeps_witness : exists it c1 x c2,
  _ba_iterator_reset (array_of by_value [1; 2; 3; 4]) = Ret (it, c1) /\ _ba_iterator_first it c1 = Ret x
  /\ sweep 5 Z.even it c1 x = Ret ([1; 2; 3; 4], c2) /\ represents c2 [1; 3].
Proof.
  apply (iterator_sweeps Z.even (array_of by_value [1; 2; 3; 4]) [1; 2; 3; 4]).
  apply array_of_represents; [apply long_ordering|repeat constructor; reflexivity|reflexivity].
Defined.

(** ** What iterators do not notice *)

Lemma linear_loop_absent {A} (cmp : A -> A -> Z) k l : Forall (fun a => cmp a k <> 0) l -> forall pos, linear_loop cmp l k pos = -1.
Proof. induction 1 as [|x l Hx Hl IH]; intros pos; [done|]. cbn. by destruct (Z.eqb_spec (cmp x k) 0). Qed.

(** From its second element on, an insertion into an unsorted container leaves
    the counter its iterators look at as it was. *)
Lemma unsorted_insert_unnoticed {A} `{Allocator} (c : container A) k :
  c_flags c = CONTAINER_KEY_UNSORTED -> t_dirty c = true -> Forall (fun a => c_compare c a k <> 0) (t_data c) -> is_Some (grow c) ->
  exists c', netsnmp_binary_array_insert c k = Ret (0, c') /\ t_data c' = t_data c ++ [k] /\ c_sync c' = c_sync c.
Proof.
  intros Hf Hd Hk [size Hg]. assert (Hu : has_flag c CONTAINER_KEY_UNSORTED = true) by (unfold has_flag; by rewrite Hf).
  unfold netsnmp_binary_array_insert. assert (has_flag c CONTAINER_KEY_ALLOW_DUPLICATES = false) as -> by (unfold has_flag; by rewrite Hf).
  assert (E : netsnmp_binary_array_get c (Some k) true = Ret (None, c)).
  { unfold netsnmp_binary_array_get, sort_dirty, Sort_Array, binary_search, linear_search.
    destruct (count (t_data c) =? 0) eqn:En; [done|]. by rewrite Hd, Hu, !bind_ret, En, Hu, bind_ret, linear_loop_absent. }
  rewrite E, bind_ret, Hg, Hd. eexists. split; [done|]. by split.
Qed.

(** The second question for the last element of a list gets the node. *)
Lemma list_last_twice {A} (c : sl_container A) x : last (l_nodes c) = Some x ->
  let it := _ssll_iterator_reset c in
  let '(p1, it) := _ssll_iterator_last it c in
  p1 = ToData x /\ (_ssll_iterator_last it c).1 = ToNode x.
Proof.
  intros Hx. cbn zeta. unfold _ssll_iterator_last at 1, in_sync, _ssll_iterator_reset. cbn [li_sync li_last li_pos].
  rewrite Z.eqb_refl, Hx. cbn [negb]. split; [done|]. unfold _ssll_iterator_last, in_sync. cbn [li_sync li_last]. by rewrite Z.eqb_refl, Hx.
Qed.
