(* ===== verification/OidStash.v ===== *)
(** * Data by object identifier: snmplib/oid_stash.c

    A tree with a node for every sub-identifier; the children of a node are in
    31 lists, by their value.  A pointer to a node is the node itself; the
    parents, which the search for the next node follows, are a list. *)

From stdpp Require Import list.
From S2P Require Import Prelude Bytes AsnTypes AsnBuild AsnRbuild Oid Lcd Scapi Users UsmMsg Session Client CString ReadConfig.

Definition OID_STASH_CHILDREN_SIZE : Z := 31.

Inductive netsnmp_oid_stash_node (A : Type) : Type :=
  | Node (value : Z) (thedata : option A) (children : list (list (netsnmp_oid_stash_node A))).
Arguments Node {A} value thedata children.

Section stash.
Context {A : Type}.
Abbreviation node := (netsnmp_oid_stash_node A).

Definition value (n : node) : Z := match n with Node v _ _ => v end.
Definition thedata (n : node) : option A := match n with Node _ d _ => d end.
Definition children (n : node) : list (list node) := match n with Node _ _ c => c end.
Definition children_size (n : node) : Z := Z.of_nat (length (children n)).

Definition sizeof_node : Z := 56.

Definition netsnmp_oid_stash_create_sized_node `{Allocator} (mysize : Z) : option node :=
  if negb (alloc sizeof_node) then None
  else if negb (alloc (mysize * 8)) then None
  else Some (Node 0 None (replicate (Z.to_nat mysize) [])).

Definition netsnmp_oid_stash_create_node `{Allocator} : option node :=
  netsnmp_oid_stash_create_sized_node OID_STASH_CHILDREN_SIZE.

Definition bucket (n : node) (v : Z) : nat := Z.to_nat (v mod children_size n).

(** The siblings at that place of the array. *)
Definition siblings (n : node) (v : Z) : list node := nth (bucket n v) (children n) [].

Fixpoint search_siblings (v : Z) (l : list node) : option node :=
  match l with [] => None | loopp :: next => if value loopp =? v then Some loopp else search_siblings v next end.

Definition child (n : node) (v : Z) : option node := search_siblings v (siblings n v).

(** The child of that value becomes [c], or is put in front of its siblings. *)
Fixpoint replace_sibling (c : node) (l : list node) : list node :=
  match l with [] => [] | x :: next => if value x =? value c then c :: next else x :: replace_sibling c next end.

Definition with_siblings (n : node) (v : Z) (l : list node) : node :=
  Node (value n) (thedata n) (<[bucket n v := l]> (children n)).

Definition with_child (n : node) (c : node) : node :=
  with_siblings n (value c)
    (match child n (value c) with
     | Some _ => replace_sibling c (siblings n (value c))
     | None => c :: siblings n (value c)
     end).

(** ** Adding and looking up *)

(** From [curnode] on; a node there is no memory for is followed as NULL. *)
Fixpoint add_data `{Allocator} (curnode : node) (lookup : list Z) (mydata : A) : outcome (Z * node) :=
  match lookup with
  | [] => Ret (match thedata curnode with
               | Some _ => (SNMPERR_GENERR, curnode)
               | None => (SNMPERR_SUCCESS, Node (value curnode) (Some mydata) (children curnode))
               end)
  | v :: rest =>
      c ← match child curnode v with
          | Some c => Ret c
          | None => match netsnmp_oid_stash_create_node with
                    | Some c => Ret (Node v (thedata c) (children c))
                    | None => Null
                    end
          end;
      '(rc, c) ← add_data c rest mydata;
      Ret (rc, with_child curnode c)
  end.

Definition netsnmp_oid_stash_add_data `{Allocator} (root : option node) (lookup : list Z) (mydata : A)
    : outcome (Z * option node) :=
  match lookup with
  | [] => Ret (SNMPERR_GENERR, root)
  | _ =>
      match match root with Some r => Some r | None => netsnmp_oid_stash_create_node end with
      | None => Ret (SNMPERR_MALLOC, None)
      | Some r => '(rc, r) ← add_data r lookup mydata; Ret (rc, Some r)
      end
  end.

Fixpoint get_node (curnode : node) (lookup : list Z) : option node :=
  match lookup with
  | [] => Some curnode
  | v :: rest => c ← child curnode v; get_node c rest
  end.

(** The empty identifier gets no node. *)
Definition netsnmp_oid_stash_get_node (root : option node) (lookup : list Z) : option node :=
  match root, lookup with
  | Some root, _ :: _ => get_node root lookup
  | _, _ => None
  end.

Definition netsnmp_oid_stash_get_data (root : option node) (lookup : list Z) : option A :=
  n ← netsnmp_oid_stash_get_node root lookup; thedata n.

(** ** The next node *)

(** The closest node, its parents from the nearest on, and how many
    sub-identifiers led there. *)
Fixpoint closest (curnode : node) (parents : list node) (lookup : list Z) (i : Z) : node * list node * Z :=
  match lookup with
  | [] => (curnode, parents, i)
  | v :: rest =>
      match child curnode v with
      | None => (curnode, parents, i)
      | Some c => closest c (curnode :: parents) rest (i + 1)
      end
  end.

(** The best child among siblings, and whether nothing can be better. *)
Fixpoint best_sibling (bigger_than : option Z) (size : Z) (tmpp : option node) (l : list node) : option node * bool :=
  match l with
  | [] => (tmpp, false)
  | loopp :: next =>
      if match bigger_than with Some b => b <? value loopp | None => true end
         && match tmpp with Some t => value loopp <? value t | None => true end
      then if value loopp <=? size - 1 then (Some loopp, true) else best_sibling bigger_than size (Some loopp) next
      else best_sibling bigger_than size tmpp next
  end.

Fixpoint best_child (bigger_than : option Z) (size : Z) (tmpp : option node) (buckets : list (list node)) : option node :=
  match buckets with
  | [] => tmpp
  | l :: buckets =>
      let '(tmpp, done) := best_sibling bigger_than size tmpp l in
      if (done : bool) then tmpp else best_child bigger_than size tmpp buckets
  end.

(** [bigger_than], an unsigned int, is [None] while [do_bigger] is 0. *)
Fixpoint next_loop (fuel : nat) (curnode : node) (parents : list node) (bigger_than : option Z) : outcome (option node) :=
  match fuel with
  | O => Spin
  | S fuel =>
      match best_child bigger_than (children_size curnode) None (children curnode) with
      | Some tmpp =>
          match thedata tmpp with
          | Some _ => Ret (Some tmpp)
          | None => next_loop fuel tmpp (curnode :: parents) None
          end
      | None =>
          match parents with
          | [] => Ret None
          | parent :: parents => next_loop fuel parent parents (Some (u32 (value curnode)))
          end
      end
  end.

(** Every turn goes to another node, or leaves one for good. *)
Fixpoint nodes (n : node) : nat :=
  match n with Node _ _ c => S (fold_right (fun l s => fold_right (fun x s => nodes x + s) s l) 0 c)%nat end.

Definition netsnmp_oid_stash_getnext_node (root : option node) (lookup : list Z) : outcome (option node) :=
  match root with
  | None => Ret None
  | Some root =>
      let '(curnode, parents, i) := closest root [] lookup 0 in
      let bigger_than := if i + 1 <? len lookup then u32 <$> lookup !! Z.to_nat (i + 1) else None in
      next_loop (S (2 * nodes root)) curnode parents bigger_than
  end.

(** ** Storing *)

(** The entries below a node in the order they are dumped; [curoid] has
    [MAX_OID_LEN] places. *)
Fixpoint store (n : node) (curoid : list Z) : list (list Z * A) :=
  match n with
  | Node _ _ c =>
      fold_right (fun l entries =>
        fold_right (fun tmpp entries =>
          match thedata tmpp with Some d => [(curoid ++ [value tmpp], d)] | None => [] end
          ++ store tmpp (curoid ++ [value tmpp]) ++ entries) entries l) [] c
  end.

(** The lines that go to the file, out of a buffer of [SNMP_MAXBUF] bytes; [dumpfn] gives the text of the data, or
    nothing when it fails. *)
Definition netsnmp_oid_stash_store (root : option node) (tokenname : str) (dumpfn : A -> option str) : outcome (list str) :=
  match root with
  | None => Ret []
  | Some root =>
      if existsb (fun e => (MAX_OID_LEN <? len e.1)
                           || (SNMP_MAXBUF <=? len (tokenname ++ 32 :: read_config_save_objid e.1 ++ [32])))
           (store root []) then Overrun
      else Ret (omap (fun e => text ← dumpfn e.2;
                               Some (tokenname ++ 32 :: read_config_save_objid e.1 ++ 32 :: text)) (store root []))
  end.

(** What the function for the data is called with, node by node. *)
Fixpoint stash_free (n : node) : list A :=
  match n with
  | Node _ _ c =>
      fold_right (fun l entries =>
        fold_right (fun tmpp entries =>
          match thedata tmpp with Some d => [d] | None => [] end ++ stash_free tmpp ++ entries) entries l) [] c
  end.

Definition netsnmp_oid_stash_free (root : option node) : list A * option node :=
  match root with Some root => (stash_free root, None) | None => ([], None) end.
End stash.
