(* ===== verification/OidStashProps.v ===== *)
(** * The stash of data by object identifier is a finite map *)

From stdpp Require Import gmap list.
From S2P Require Import Prelude Bytes AsnTypes AsnBuild AsnRbuild Oid Lcd Scapi Users UsmMsg Session Client CString ReadConfig OidStash Samples.

Section stash.
Context {A : Type}.
Abbreviation node := (netsnmp_oid_stash_node A).
Implicit Types (d : A) (n c : node) (p q : list Z).

(** Every child is in the list for its value, once. *)
Inductive tidy : node -> Prop :=
  | tidy_intro n :
      length (children n) = 31%nat ->
      (forall j l, children n !! j = Some l -> NoDup (value <$> l)) ->
      (forall j l x, children n !! j = Some l -> x ∈ l -> bucket n (value x) = j) ->
      (forall j l x, children n !! j = Some l -> x ∈ l -> tidy x) ->
      tidy n.

Lemma tidy_size n : tidy n -> length (children n) = 31%nat.
Proof. by intros []. Qed.

Lemma bucket_lt n v : tidy n -> (bucket n v < length (children n))%nat.
Proof.
  intros Hn. unfold bucket, children_size. rewrite (tidy_size n Hn).
  pose proof (Z.mod_pos_bound v (Z.of_nat 31)). lia.
Qed.

Lemma siblings_at n v : tidy n -> children n !! bucket n v = Some (siblings n v).
Proof. intros Hn. unfold siblings. apply nth_lookup_Some_2 || (rewrite nth_lookup; destruct (lookup_lt_is_Some_2 _ _ (bucket_lt n v Hn)) as [l ->]; done). Qed.

Lemma search_here (l : list node) x : NoDup (value <$> l) -> x ∈ l -> search_siblings (value x) l = Some x.
Proof.
  induction l as [|y l IH]; [by intros _ ?%not_elem_of_nil|]. cbn. intros [Hy Hl]%NoDup_cons [->|Hx]%elem_of_cons.
  - by rewrite Z.eqb_refl.
  - destruct (Z.eqb_spec (value y) (value x)) as [E|]; [|by apply IH]. destruct Hy. rewrite E. by apply list_elem_of_fmap_2.
Qed.

Lemma search_found v (l : list node) x : search_siblings v l = Some x -> x ∈ l /\ value x = v.
Proof.
  induction l as [|y l IH]; [done|]. cbn. destruct (Z.eqb_spec (value y) v).
  - intros [= <-]. split; [by left|done].
  - intros [? ?]%IH. split; [by right|done].
Qed.

Lemma search_replace c v (l : list node) : is_Some (search_siblings (value c) l) ->
  search_siblings v (replace_sibling c l) = if v =? value c then Some c else search_siblings v l.
Proof.
  induction l as [|y l IH]; [by intros [? ?]|]. cbn. destruct (Z.eqb_spec (value y) (value c)) as [E|E].
  - intros _. cbn. rewrite Z.eqb_sym. destruct (Z.eqb_spec v (value c)); [done|]. cbn.
    by destruct (Z.eqb_spec (value y) v); [congruence|].
  - intros H. cbn. destruct (Z.eqb_spec (value y) v); [|by apply IH].
    by destruct (Z.eqb_spec v (value c)); [congruence|].
Qed.

(** A child put in its place is found there, and no other is moved. *)
Lemma child_with_child n c v : tidy n -> child (with_child n c) v = if v =? value c then Some c else child n v.
Proof.
  intros Hn. unfold child at 1, siblings, with_child, with_siblings. cbn [children].
  set (l := match child n (value c) with Some _ => _ | None => _ end).
  assert (Hb : bucket (Node (value n) (thedata n) (<[bucket n (value c):=l]> (children n))) v = bucket n v)
    by (unfold bucket, children_size; cbn [children]; by rewrite length_insert).
  rewrite Hb, nth_lookup. destruct (decide (bucket n v = bucket n (value c))) as [E|E].
  - rewrite E, list_lookup_insert_eq by (by apply bucket_lt). cbn [default from_option id].
    assert (Hl : search_siblings v l = if v =? value c then Some c else search_siblings v (siblings n (value c))).
    { unfold l. destruct (child n (value c)) as [x|] eqn:Ec; [apply search_replace; by exists x|].
      cbn. rewrite Z.eqb_sym. by destruct (v =? value c). }
    rewrite Hl. unfold child, siblings. by rewrite E.
  - rewrite list_lookup_insert_ne by done. destruct (Z.eqb_spec v (value c)) as [->|]; [done|].
    unfold child, siblings. by rewrite nth_lookup.
Qed.

(** ** Data *)

Definition data_at n q : option A := m ← get_node n q; thedata m.

Lemma data_at_cons n v q : data_at n (v :: q) = c ← child n v; data_at c q.
Proof. unfold data_at. cbn. by destruct (child n v). Qed.

Lemma empty_tidy v (e : option A) : tidy (Node v e (replicate 31 [])).
Proof.
  constructor; [apply length_replicate|..]; cbn [children]; intros j l; [|intros x..]; intros H;
    apply lookup_replicate in H as [-> _]; [constructor|by intros ?%not_elem_of_nil..].
Qed.

Lemma empty_data v q : data_at (Node v None (replicate 31 [])) q = None.
Proof.
  destruct q as [|w q]; [done|]. rewrite data_at_cons. unfold child, siblings. cbn [children]. rewrite nth_lookup.
  destruct (replicate 31 [] !! _) eqn:E; [|done]. by apply lookup_replicate in E as [-> _].
Qed.

Lemma replace_sibling_NoDup c (l : list node) : NoDup (value <$> l) -> NoDup (value <$> replace_sibling c l).
Proof.
  intros Hl. assert (E : value <$> replace_sibling c l = value <$> l); [|by rewrite E].
  clear Hl. induction l as [|y l IH]; [done|]. cbn. destruct (Z.eqb_spec (value y) (value c)) as [E|]; cbn; by rewrite ?E, ?IH.
Qed.

Lemma replace_sibling_in c (l : list node) x : NoDup (value <$> l) -> x ∈ replace_sibling c l -> x = c \/ x ∈ l.
Proof.
  intros _. induction l as [|y l IH]; [by right|]. cbn. destruct (value y =? value c); rewrite !elem_of_cons; [tauto|].
  intros [->|Hx]; [by right; left|]. destruct (IH Hx); auto.
Qed.

Lemma with_child_tidy n c : tidy n -> tidy c -> tidy (with_child n c).
Proof.
  intros Hn Hc. pose proof (tidy_size n Hn) as Hsize. pose proof (siblings_at n (value c) Hn) as Hs.
  inversion Hn as [? _ Hnd Hin Htidy]; subst. unfold with_child, with_siblings.
  set (l := match child n (value c) with Some _ => _ | None => _ end).
  assert (Hlen : length (<[bucket n (value c):=l]> (children n)) = 31%nat) by (by rewrite length_insert).
  assert (Hb : forall v, bucket (Node (value n) (thedata n) (<[bucket n (value c):=l]> (children n))) v = bucket n v)
    by (intros v; unfold bucket, children_size; cbn [children]; by rewrite length_insert).
  assert (Hl : NoDup (value <$> l) /\ forall x, x ∈ l -> x = c \/ x ∈ siblings n (value c)).
  { unfold l, child. destruct (search_siblings _ _) as [x|] eqn:E.
    - split; [apply replace_sibling_NoDup; by eapply Hnd|]. intros x'. apply replace_sibling_in. by eapply Hnd.
    - split; [|intros x [->|?]%elem_of_cons; auto]. cbn. constructor; [|by eapply Hnd].
      intros (y & Ey & Hy)%list_elem_of_fmap. pose proof (search_here _ y (Hnd _ _ Hs) Hy) as E2. congruence. }
  destruct Hl as [Hl1 Hl2]. constructor; [exact Hlen|..]; cbn [children].
  - intros j l'. intros [(<- & -> & _)|[? ?]]%list_lookup_insert_Some; [done|by eapply Hnd].
  - intros j l' x. rewrite Hb. intros [(<- & -> & _)|[? Hj]]%list_lookup_insert_Some Hx; [|by eapply Hin].
    apply Hl2 in Hx as [->|Hx]; [done|by eapply Hin].
  - intros j l' x. intros [(<- & -> & _)|[? Hj]]%list_lookup_insert_Some Hx; [|by eapply Htidy].
    apply Hl2 in Hx as [->|Hx]; [done|by eapply Htidy].
Qed.

(** ** Adding *)

Lemma with_data_tidy n (e : option A) : tidy n -> tidy (Node (value n) e (children n)).
Proof. intros []. by constructor. Qed.

Lemma child_tidy n v c : tidy n -> child n v = Some c -> tidy c /\ value c = v.
Proof.
  intros Hn [Hin Hv]%search_found. pose proof (siblings_at n v Hn) as Hs. inversion Hn as [? _ _ _ H]; subst.
  split; [|done]. by eapply H.
Qed.

Lemma value_of_child n c : value (with_child n c) = value n.
Proof. done. Qed.

Lemma data_with_child n c q : tidy n ->
  data_at (with_child n c) q
  = match q with [] => thedata n | v :: r => if v =? value c then data_at c r else data_at n q end.
Proof.
  intros Hn. destruct q as [|v r]; [done|]. rewrite !data_at_cons, child_with_child by done.
  by destruct (v =? value c).
Qed.

Section adding.
Context `{Allocator}.
Hypothesis memory : alloc sizeof_node = true /\ alloc (OID_STASH_CHILDREN_SIZE * 8) = true.

Lemma create_node : @netsnmp_oid_stash_create_node A _ = Some (Node 0 None (replicate 31 [])).
Proof. unfold netsnmp_oid_stash_create_node, netsnmp_oid_stash_create_sized_node. by rewrite (proj1 memory), (proj2 memory). Qed.

Definition added p d (before after : list Z -> option A) : Prop :=
  forall q, after q = if decide (q = p) then Some d else before q.

Lemma add_data_spec p d : forall n, tidy n ->
  exists n', tidy n' /\ value n' = value n /\
    match data_at n p with
    | Some _ => add_data n p d = Ret (SNMPERR_GENERR, n') /\ forall q, data_at n' q = data_at n q
    | None => add_data n p d = Ret (SNMPERR_SUCCESS, n') /\ added p d (data_at n) (data_at n')
    end.
Proof.
  induction p as [|v p IH]; intros n Hn.
  { unfold data_at at 1. cbn. destruct (thedata n) eqn:E.
    - by exists n.
    - exists (Node (value n) (Some d) (children n)). split_and!; [by apply with_data_tidy|done|done|].
      intros [|w q]; [done|]. by rewrite !data_at_cons. }
  assert (Hc : exists c, tidy c /\ value c = v /\ (forall q, data_at c q = data_at n (v :: q)) /\
            add_data n (v :: p) d = '(rc, c) ← add_data c p d; Ret (rc, with_child n c)).
  { destruct (child n v) as [c|] eqn:E.
    - destruct (child_tidy _ _ _ Hn E). exists c. split_and!; [done..| |cbn; by rewrite E].
      intros q. by rewrite data_at_cons, E.
    - exists (Node v None (replicate 31 [])). split_and!; [apply empty_tidy|done| |cbn; by rewrite E, create_node].
      intros q. by rewrite data_at_cons, E, empty_data. }
  destruct Hc as (c & Hc & <- & Hd & ->). destruct (IH c Hc) as (c' & Hc' & Ev & IH'). rewrite Hd in IH'.
  exists (with_child n c'). split; [by apply with_child_tidy|]. split; [done|].
  destruct (data_at n (value c :: p)) as [d'|] eqn:E; destruct IH' as [-> IH']; (split; [done|]).
  - intros [|w q]; rewrite data_with_child by done; [done|]. destruct (Z.eqb_spec w (value c')) as [->|]; [|done].
    by rewrite IH', Hd, Ev.
  - intros [|w q]; rewrite data_with_child by done; [done|]. destruct (Z.eqb_spec w (value c')) as [->|].
    + rewrite IH', Hd, Ev. destruct (decide (q = p)) as [->|]; case_decide; congruence.
    + case_decide; congruence.
Qed.

(** ** The stash is a finite map *)

(** The tree with the root [root] holds what [m] does. *)
Definition stashed (root : option node) (m : gmap (list Z) A) : Prop :=
  m !! [] = None /\
  match root with
  | None => m = ∅
  | Some r => tidy r /\ forall q, data_at r q = m !! q
  end.

Lemma stashed_get root m q : stashed root m -> netsnmp_oid_stash_get_data root q = m !! q.
Proof.
  intros [H0 Hr]. unfold netsnmp_oid_stash_get_data, netsnmp_oid_stash_get_node.
  destruct root as [r|]; [|subst m; by rewrite lookup_empty]. destruct Hr as [_ Hr].
  destruct q; [by rewrite H0|]. by rewrite <- Hr.
Qed.

(** What a map answers, and becomes. *)
Definition map_add (m : gmap (list Z) A) p d : Z * gmap (list Z) A :=
  match p, m !! p with
  | [], _ | _, Some _ => (SNMPERR_GENERR, m)
  | _, None => (SNMPERR_SUCCESS, <[p := d]> m)
  end.

Lemma stashed_add root m p d : stashed root m ->
  exists root', netsnmp_oid_stash_add_data root p d = Ret ((map_add m p d).1, root') /\ stashed root' (map_add m p d).2.
Proof.
  intros [H0 Hr]. destruct p as [|v p]; [by exists root|]. unfold netsnmp_oid_stash_add_data.
  assert (Hn : exists r, match root with Some r => Some r | None => netsnmp_oid_stash_create_node end = Some r
                         /\ tidy r /\ forall q, data_at r q = m !! q).
  { destruct root as [r|]; [by exists r|]. rewrite create_node. eexists. split_and!; [done|apply empty_tidy|].
    intros q. subst m. by rewrite empty_data, lookup_empty. }
  destruct Hn as (r & -> & Hn & Hq). destruct (add_data_spec (v :: p) d r Hn) as (r' & Hr' & _ & Hadd).
  rewrite Hq in Hadd. unfold map_add. destruct (m !! (v :: p)) eqn:E; destruct Hadd as [-> Hadd]; exists (Some r');
    (split; [done|]); cbn; (split; [|split; [done|]]).
  - done.
  - intros q. by rewrite Hadd.
  - by rewrite lookup_insert_ne.
  - intros q. rewrite Hadd, Hq. destruct (decide _) as [->|]; [by rewrite lookup_insert_eq|by rewrite lookup_insert_ne].
Qed.
End adding.

(** ** Storing *)

Lemma fold_lists {B C} (g : B -> list C) (cs : list (list B)) :
  fold_right (fun (l : list B) es => fold_right (fun x es => g x ++ es) es l) [] cs = mjoin cs ≫= g.
Proof.
  induction cs as [|l cs IH]; [done|]. cbn [fold_right]. rewrite IH. change (mjoin (l :: cs)) with (l ++ mjoin cs).
  rewrite bind_app. clear IH. induction l as [|x l IH]; [done|]. cbn [fold_right]. rewrite IH. cbn. by rewrite app_assoc.
Qed.

Lemma fold_lists_2 {B C} (g h : B -> list C) (cs : list (list B)) :
  fold_right (fun (l : list B) es => fold_right (fun x es => g x ++ h x ++ es) es l) [] cs = mjoin cs ≫= (fun x => g x ++ h x).
Proof.
  rewrite <- fold_lists. induction cs as [|l cs IH]; [done|]. cbn [fold_right]. rewrite IH. clear IH.
  induction l as [|x l IH]; [done|]. cbn [fold_right]. by rewrite IH, <- app_assoc.
Qed.

Lemma fmap_of_bind {B C D} (h : C -> D) (g : B -> list C) (l : list B) : h <$> (l ≫= g) = l ≫= (fun x => h <$> g x).
Proof. induction l as [|x l IH]; [done|]. cbn. by rewrite fmap_app, <- IH. Qed.

Definition here n (cur : list Z) : list (list Z * A) :=
  match thedata n with Some d => [(cur, d)] | None => [] end.

Lemma store_children n cur :
  store n cur = mjoin (children n) ≫= (fun x => here x (cur ++ [value x]) ++ store x (cur ++ [value x])).
Proof. destruct n as [v d c]. cbn [store children]. unfold here. by rewrite <- fold_lists_2. Qed.

Lemma all_children n x : tidy n -> x ∈ mjoin (children n) <-> child n (value x) = Some x.
Proof.
  intros Hn. rewrite list_elem_of_join. pose proof (siblings_at n (value x) Hn) as Hs.
  inversion Hn as [? _ Hnd Hin _]; subst. split.
  - intros (l & Hx & (j & Hj)%list_elem_of_lookup_1). rewrite (Hin j l x Hj Hx) in Hs. simplify_eq.
    by apply search_here; [eapply Hnd|].
  - intros [Hx _]%search_found. exists (siblings n (value x)). split; [done|]. by eapply list_elem_of_lookup_2.
Qed.

Lemma values_distinct n : tidy n -> NoDup (value <$> mjoin (children n)).
Proof.
  intros Hn. inversion Hn as [? _ Hnd Hin _]; subst. set (f := fun x : node => bucket n (value x)).
  assert (Hf : forall j l x, children n !! j = Some l -> x ∈ l -> f x = (0 + j)%nat) by (intros; by eapply Hin).
  assert (Hv : forall x y : node, value x = value y -> f x = f y) by (unfold f; congruence).
  clearbody f. clear Hn Hin. revert Hnd Hf. generalize 0%nat. induction (children n) as [|l cs IH]; intros k Hnd Hf.
  { constructor. }
  change (mjoin (l :: cs)) with (l ++ mjoin cs). rewrite fmap_app. apply NoDup_app. split_and!.
  - by apply (Hnd 0%nat).
  - intros v (x & -> & Hx)%list_elem_of_fmap (y & Exy & (l' & Hy & (j & Hj)%list_elem_of_lookup_1)%list_elem_of_join)%list_elem_of_fmap.
    pose proof (Hf 0%nat l x eq_refl Hx). pose proof (Hf (S j) l' y Hj Hy). apply Hv in Exy. lia.
  - apply (IH (S k)).
    + intros j l' Hj. by apply (Hnd (S j)).
    + intros j l' x Hj Hx. rewrite (Hf (S j) l' x Hj Hx). lia.
Qed.

(** Below a node the store lists what is there, each entry once. *)
Definition lists n (entries : list (list Z * A)) cur : Prop :=
  (forall p d, (p, d) ∈ entries <-> exists q, q <> [] /\ p = cur ++ q /\ data_at n q = Some d) /\ NoDup entries.*1.

Lemma here_spec n cur p d : (p, d) ∈ here n cur <-> p = cur /\ data_at n [] = Some d.
Proof.
  unfold here, data_at. cbn. destruct (thedata n); [rewrite list_elem_of_singleton|rewrite elem_of_nil]; intuition congruence.
Qed.

Lemma entry_below n cur p d : lists n (store n cur) cur ->
  (p, d) ∈ here n cur ++ store n cur <-> exists q, p = cur ++ q /\ data_at n q = Some d.
Proof.
  intros [H _]. rewrite elem_of_app, H, here_spec. split.
  - intros [[-> ?]|(q & _ & ? & ?)]; [exists []|by exists q]. by rewrite app_nil_r.
  - intros ([|v q] & -> & ?); [left; by rewrite app_nil_r|right]. by exists (v :: q).
Qed.

Lemma entries_distinct n cur : lists n (store n cur) cur -> NoDup (here n cur ++ store n cur).*1.
Proof.
  intros [H Hnd]. rewrite fmap_app. apply NoDup_app. split_and!; [|intros p|done].
  - unfold here. destruct (thedata n); repeat constructor. by intros ?%not_elem_of_nil.
  - intros ([? d] & -> & [-> _]%here_spec)%list_elem_of_fmap ([? d'] & E & (q & Hq & -> & _)%H)%list_elem_of_fmap.
    cbn in E. destruct Hq. apply (app_inv_head cur). by rewrite app_nil_r.
Qed.

Lemma store_lists n : tidy n -> forall cur, lists n (store n cur) cur.
Proof.
  induction 1 as [n' Hsize Hnd Hin Htidy IH]. intros cur.
  assert (Hn : tidy n') by (by constructor).
  assert (Hbelow : forall (x : node) cur, x ∈ mjoin (children n') -> lists x (store x cur) cur).
  { intros x cur' (l & Hx & Hl)%list_elem_of_join. apply list_elem_of_lookup_1 in Hl as [j Hj]. by eapply IH. }
  clear IH Hin Htidy. rewrite store_children. split.
  - intros p d. rewrite list_elem_of_bind. split.
    + intros (x & Hx & Hc). apply entry_below in Hx as (q & -> & Hd); [|by apply Hbelow].
      exists (value x :: q). split_and!; [done|by rewrite <- app_assoc|]. by rewrite data_at_cons, (proj1 (all_children n' x Hn)).
    + intros ([|v q] & ? & -> & Hd); [done|]. rewrite data_at_cons in Hd.
      destruct (child n' v) as [x|] eqn:E; [|done]. destruct (child_tidy _ _ _ Hn E) as [_ <-].
      exists x. apply all_children in E; [|done]. split; [|done]. apply entry_below; [by apply Hbelow|].
      exists q. by rewrite <- app_assoc.
  - rewrite fmap_of_bind. apply NoDup_bind.
    + intros x y p Hx Hy. intros ([? dx] & -> & Ex)%list_elem_of_fmap ([? dy] & E & Ey)%list_elem_of_fmap. cbn in E. subst.
      apply entry_below in Ex as (qx & -> & _); [|by apply Hbelow]. apply entry_below in Ey as (qy & E & _); [|by apply Hbelow].
      rewrite <- !app_assoc in E. apply app_inv_head in E. injection E as Exy _.
      apply all_children in Hx, Hy; [|done..]. congruence.
    + intros x Hx. by apply entries_distinct, Hbelow.
    + apply (NoDup_fmap_1 value). by apply values_distinct.
Qed.

Lemma stashed_store r m : stashed (Some r) m -> store r [] ≡ₚ map_to_list m.
Proof.
  intros (H0 & Hr & Hm). destruct (store_lists r Hr []) as [Hin Hnd]. apply NoDup_Permutation.
  - by apply (NoDup_fmap_1 fst).
  - apply NoDup_map_to_list.
  - intros [p d]. rewrite Hin, elem_of_map_to_list, <- Hm. split.
    + by intros (q & _ & -> & ?).
    + intros ?. exists p. split_and!; [|done..]. intros ->. rewrite Hm, H0 in *. done.
Qed.

(** ** Looking for the next node returns *)

(** Where a stash ends there is data. *)
Inductive fertile : node -> Prop :=
  | fertile_intro n :
      (thedata n = None -> mjoin (children n) <> []) -> (forall x, x ∈ mjoin (children n) -> fertile x) -> fertile n.

Definition fertile_below n : Prop := forall x, x ∈ mjoin (children n) -> fertile x.

Lemma best_sibling_in b size (l : list node) : forall t,
  match (best_sibling b size t l).1 with
  | Some x => Some x = t \/ x ∈ l
  | None => t = None /\ (best_sibling b size t l).2 = false /\ (b = None -> l = [])
  end.
Proof.
  induction l as [|y l IH]; intros t; cbn; [destruct t; auto|].
  destruct (_ && _) eqn:E; [destruct (_ <=? _); cbn; [by right; left|]|].
  - specialize (IH (Some y)). destruct (best_sibling _ _ _ _).1 as [x|]; [|by destruct IH].
    destruct IH as [[= ->]|?]; right; [by left|by right].
  - specialize (IH t). destruct (best_sibling _ _ _ _).1 as [x|].
    + destruct IH; [by left|by right; right].
    + destruct IH as (-> & ? & IH). split_and!; [done..|]. by intros ->.
Qed.

Lemma best_child_in b size (cs : list (list node)) : forall t,
  match best_child b size t cs with
  | Some x => Some x = t \/ x ∈ mjoin cs
  | None => t = None /\ (b = None -> mjoin cs = [])
  end.
Proof.
  induction cs as [|l cs IH]; intros t; cbn [best_child]; [destruct t; auto|].
  change (mjoin (l :: cs)) with (l ++ mjoin cs). pose proof (best_sibling_in b size l t) as H.
  destruct (best_sibling b size t l) as [t' [|]]; cbn [fst] in H.
  - destruct t'; [rewrite elem_of_app; tauto|]. by destruct H as (_ & ? & _).
  - specialize (IH t'). destruct (best_child b size t' cs) as [x|].
    + rewrite elem_of_app. destruct IH as [<-|]; [|tauto]. destruct H; tauto.
    + destruct IH as [-> IH]. destruct H as (-> & _ & H). split; [done|]. intros E. by rewrite H, IH.
Qed.

(** The number of nodes on the longest way down. *)
Lemma nodes_child n x : x ∈ mjoin (children n) -> (nodes x < nodes n)%nat.
Proof.
  destruct n as [v d cs]. cbn [children nodes]. induction cs as [|l cs IH]; [by intros ?%not_elem_of_nil|].
  change (mjoin (l :: cs)) with (l ++ mjoin cs). cbn [fold_right]. rewrite elem_of_app. intros [Hx|Hx].
  - clear IH. generalize (fold_right (fun l s => fold_right (fun x s => nodes x + s) s l) 0 cs)%nat. intros k.
    induction l as [|y l IH]; [by apply not_elem_of_nil in Hx|]. cbn [fold_right].
    apply elem_of_cons in Hx as [->|Hx]; [lia|]. specialize (IH Hx). lia.
  - specialize (IH Hx). induction l as [|y l IHl]; cbn [fold_right]; lia.
Qed.

Definition answered (o : outcome (option node)) : Prop := exists r, o = Ret r /\ forall n, r = Some n -> is_Some (thedata n).

(** Down a fertile node there is always data. *)
Lemma descent_returns fuel : forall n parents, fertile n -> thedata n = None -> (nodes n <= fuel)%nat ->
  answered (next_loop fuel n parents None).
Proof.
  induction fuel as [|fuel IH]; intros n parents Hn Hd Hfuel; [destruct n; cbn in Hfuel; lia|]. cbn [next_loop].
  destruct Hn as [n Hempty Hbelow]. pose proof (best_child_in None (children_size n) (children n) None) as H.
  destruct (best_child _ _ _ _) as [x|]; [|by destruct Hempty; [|apply H]].
  destruct H as [[=]|Hx]. destruct (thedata x) eqn:E; [exists (Some x); split; [done|by intros ? [= <-]; rewrite E]|].
  apply IH; [by apply Hbelow|done|]. pose proof (nodes_child n x Hx). lia.
Qed.

(** Further up nothing is visited twice. *)
Lemma climb_returns fuel size : forall n parents b, Forall (fun m => fertile_below m /\ (nodes m <= size)%nat) (n :: parents) ->
  (size + length parents < fuel)%nat -> answered (next_loop fuel n parents b).
Proof.
  induction fuel as [|fuel IH]; intros n parents b [[Hn Hsize] Hparents]%Forall_cons Hfuel; [lia|]. cbn [next_loop].
  pose proof (best_child_in b (children_size n) (children n) None) as H.
  destruct (best_child _ _ _ _) as [x|].
  - destruct H as [[=]|Hx]. destruct (thedata x) eqn:E; [exists (Some x); split; [done|by intros ? [= <-]; rewrite E]|].
    apply descent_returns; [by apply Hn|done|]. pose proof (nodes_child n x Hx). lia.
  - destruct parents as [|p parents]; [by exists None|]. apply IH; [done|]. cbn in Hfuel. lia.
Qed.

Lemma child_in n v c : child n v = Some c -> c ∈ mjoin (children n).
Proof.
  intros [Hc _]%search_found. unfold siblings in Hc. rewrite nth_lookup in Hc. apply list_elem_of_join.
  destruct (children n !! bucket n v) as [l|] eqn:E; [|by apply not_elem_of_nil in Hc].
  exists l. split; [done|]. by eapply list_elem_of_lookup_2.
Qed.

Lemma closest_path size lookup : forall n parents i,
  Forall (fun m => fertile_below m /\ (nodes m <= size)%nat) (n :: parents) -> (nodes n + length parents <= size)%nat ->
  let '(cur, parents', _) := closest n parents lookup i in
  Forall (fun m => fertile_below m /\ (nodes m <= size)%nat) (cur :: parents') /\ (nodes cur + length parents' <= size)%nat.
Proof.
  induction lookup as [|v lookup IH]; intros n parents i Hall Hlen; cbn [closest]; [done|].
  destruct (child n v) as [c|] eqn:E; [|done]. apply child_in in E. pose proof (nodes_child n c E).
  pose proof Hall as [[Hn ?] _]%Forall_cons. apply IH; [|cbn; lia].
  apply Forall_cons. split; [|done]. split; [|lia]. by destruct (Hn c E).
Qed.

Lemma getnext_returns root lookup : match root with Some r => fertile_below r | None => True end ->
  answered (netsnmp_oid_stash_getnext_node root lookup).
Proof.
  unfold netsnmp_oid_stash_getnext_node. destruct root as [r|]; [|by exists None]. intros Hr.
  pose proof (closest_path (nodes r) lookup r [] 0) as H.
  destruct (closest r [] lookup 0) as [[cur parents] i]. destruct H as [Hall Hlen].
  { apply Forall_singleton. by split. }
  { cbn. lia. }
  apply (climb_returns _ (nodes r)); [done|].
  assert (0 < nodes cur)%nat by (destruct cur; cbn [nodes]; lia). lia.
Qed.

Lemma in_replace_sibling c (l : list node) : is_Some (search_siblings (value c) l) -> c ∈ replace_sibling c l.
Proof.
  induction l as [|y l IH]; [by intros [? ?]|]. cbn. destruct (value y =? value c); [by left|]. intros H. right. by apply IH.
Qed.

Lemma with_child_children n c : tidy n ->
  c ∈ mjoin (children (with_child n c)) /\
  (forall x, x ∈ mjoin (children (with_child n c)) -> x = c \/ x ∈ mjoin (children n)).
Proof.
  intros Hn. pose proof (siblings_at n (value c) Hn) as Hs. inversion Hn as [? _ Hnd _ _]; subst.
  unfold with_child, with_siblings. cbn [children].
  set (l := match child n (value c) with Some _ => _ | None => _ end).
  assert (Hl : c ∈ l /\ forall x, x ∈ l -> x = c \/ x ∈ siblings n (value c)).
  { unfold l, child. destruct (search_siblings _ _) as [x|] eqn:E.
    - split; [apply in_replace_sibling; by exists x|]. intros x'. apply replace_sibling_in. by eapply Hnd.
    - split; [by left|intros x [->|?]%elem_of_cons; auto]. }
  destruct Hl as [Hc Hl]. split.
  - apply list_elem_of_join. exists l. split; [done|]. apply list_elem_of_lookup_2 with (bucket n (value c)).
    apply list_lookup_insert_eq. by apply lookup_lt_Some in Hs.
  - intros x (l' & Hx & (j & Hj)%list_elem_of_lookup_1)%list_elem_of_join.
    apply list_lookup_insert_Some in Hj as [(<- & -> & _)|[_ Hj]].
    + destruct (Hl x Hx) as [->|]; [by left|right]. apply list_elem_of_join. exists (siblings n (value c)).
      split; [done|]. by eapply list_elem_of_lookup_2.
    + right. apply list_elem_of_join. exists l'. split; [done|]. by eapply list_elem_of_lookup_2.
Qed.

Section grown.
Context `{Allocator}.
Hypothesis memory : alloc sizeof_node = true /\ alloc (OID_STASH_CHILDREN_SIZE * 8) = true.

Lemma add_data_fertile p d : forall n rc n', tidy n -> fertile_below n -> add_data n p d = Ret (rc, n') -> fertile n'.
Proof.
  induction p as [|v p IH]; intros n rc n' Hn Hf; cbn [add_data].
  { destruct (thedata n) eqn:E; intros [= _ <-]; constructor; cbn; rewrite ?E; [done|exact Hf..|done|exact Hf]. }
  assert (Hc : exists c, match child n v with
                         | Some c => Ret c
                         | None => match netsnmp_oid_stash_create_node with
                                   | Some c => Ret (Node v (thedata c) (children c))
                                   | None => Null
                                   end
                         end = Ret c /\ tidy c /\ fertile_below c).
  { destruct (child n v) as [c|] eqn:E.
    - exists c. split_and!; [done|by eapply child_tidy|]. by destruct (Hf c (child_in _ _ _ E)).
    - rewrite (create_node memory). eexists. split_and!; [done|apply empty_tidy|].
      intros x (l & Hx & Hl)%list_elem_of_join. apply elem_of_replicate_inv in Hl as ->. by apply not_elem_of_nil in Hx. }
  destruct Hc as (c & -> & Hc & Hfc). cbn [mbind outcome_bind].
  destruct (add_data c p d) as [[rc' c']| | |] eqn:E; cbn; [|discriminate..].
  intros [= _ <-]. pose proof (IH _ _ _ Hc Hfc E) as Hfc'. destruct (with_child_children n c' Hn) as [Hin Hall].
  constructor.
  - intros _ Hnil. rewrite Hnil in Hin. by apply not_elem_of_nil in Hin.
  - intros x Hx. destruct (Hall x Hx) as [->|?]; [done|by apply Hf].
Qed.

(** A stash that adding has made holds what a map does, and ends in data. *)
Definition grown (root : option node) (m : gmap (list Z) A) : Prop :=
  stashed root m /\ match root with Some r => fertile_below r | None => True end.

Lemma grown_add root m p d : grown root m ->
  exists root', netsnmp_oid_stash_add_data root p d = Ret ((map_add m p d).1, root') /\ grown root' (map_add m p d).2.
Proof.
  intros [Hm Hf]. destruct (stashed_add memory root m p d Hm) as (root' & E & Hm'). exists root'. split; [done|]. split; [done|].
  destruct p as [|v p]; cbn in E; [by injection E as <-|].
  assert (Hr : exists r, match root with Some r => Some r | None => netsnmp_oid_stash_create_node end = Some r
                         /\ tidy r /\ fertile_below r).
  { destruct root as [r|]; [exists r; split; [done|]; by destruct Hm as [_ [? _]]|].
    rewrite (create_node memory). eexists. split_and!; [done|apply empty_tidy|].
    intros x (l & Hx & Hl)%list_elem_of_join. apply elem_of_replicate_inv in Hl as ->. by apply not_elem_of_nil in Hx. }
  destruct Hr as (r & Er & Ht & Hr). rewrite Er in E.
  change (('(rc, r0) ← add_data r (v :: p) d; Ret (rc, Some r0)) = Ret ((map_add m (v :: p) d).1, root')) in E.
  destruct (add_data r (v :: p) d) as [[rc r']| | |] eqn:E'; [|discriminate..]. injection E as _ <-.
  by destruct (add_data_fertile _ _ _ _ _ Ht Hr E').
Qed.

Fixpoint add_all (root : option node) (adds : list (list Z * A)) : outcome (list Z * option node) :=
  match adds with
  | [] => Ret ([], root)
  | (p, d) :: adds =>
      '(rc, root) ← netsnmp_oid_stash_add_data root p d;
      '(rcs, root) ← add_all root adds;
      Ret (rc :: rcs, root)
  end.

Fixpoint map_add_all (m : gmap (list Z) A) (adds : list (list Z * A)) : list Z * gmap (list Z) A :=
  match adds with
  | [] => ([], m)
  | (p, d) :: adds => let '(rc, m) := map_add m p d in let '(rcs, m) := map_add_all m adds in (rc :: rcs, m)
  end.

Lemma grown_add_all adds : forall root m, grown root m ->
  exists root', add_all root adds = Ret ((map_add_all m adds).1, root') /\ grown root' (map_add_all m adds).2.
Proof.
  induction adds as [|[p d] adds IH]; intros root m Hm; [by exists root|]. cbn.
  destruct (grown_add root m p d Hm) as (root1 & -> & H1). destruct (map_add m p d) as [rc m1]. cbn in *.
  destruct (IH root1 m1 H1) as (root2 & -> & H2). destruct (map_add_all m1 adds) as [rcs m2]. by exists root2.
Qed.
End grown.

Lemma free_stored n : forall cur, stash_free n = (store n cur).*2.
Proof.
  assert (H : forall k n, (nodes n <= k)%nat -> forall cur, stash_free n = (store n cur).*2); [|intros; by eapply H].
  induction k as [|k IH]; intros n' Hk cur; [destruct n'; cbn in Hk; lia|]. rewrite store_children.
  destruct n' as [v e cs] eqn:E. cbn [stash_free children]. rewrite fold_lists_2, fmap_of_bind.
  assert (Hin : forall x, x ∈ mjoin cs -> (nodes x <= k)%nat).
  { intros x Hx. pose proof (nodes_child n' x) as H. subst n'. specialize (H Hx). lia. }
  clear E Hk. induction (mjoin cs) as [|x xs IHx]; [done|]. cbn. rewrite IHx by (intros; apply Hin; by right).
  rewrite fmap_app, <- (IH x) by (apply Hin; by left). unfold here. by destruct (thedata x).
Qed.
End stash.

(** C24: the stash is a finite map from object identifiers to data.  From an
    empty stash, any sequence of calls of [netsnmp_oid_stash_add_data] answers
    as the map does -- an identifier that is there already, or the empty one,
    is refused and changes nothing -- and what [netsnmp_oid_stash_get_data]
    finds then, for every identifier, is what the map holds; storing the stash
    lists every entry of the map, once each, and freeing it hands out exactly the
    data that was put in. *)
Theorem stash_is_map `{Allocator} {A} (adds : list (list Z * A)) :
  alloc sizeof_node = true /\ alloc (OID_STASH_CHILDREN_SIZE * 8) = true ->
  exists root,
    let '(answers, m) := map_add_all ∅ adds in
    add_all None adds = Ret (answers, root) /\
    (forall p, netsnmp_oid_stash_get_data root p = m !! p) /\
    (from_option (fun r => store r []) [] root ≡ₚ map_to_list m) /\
    (netsnmp_oid_stash_free root).1 ≡ₚ (map_to_list m).*2.
Proof.
  intros memory. destruct (grown_add_all memory adds None ∅) as (root & Hadd & Hm & _); [by repeat split|].
  exists root. destruct (map_add_all ∅ adds) as [answers m]. cbn in *.
  assert (Hs : from_option (fun r => store r []) [] root ≡ₚ map_to_list m).
  { destruct root as [r|]; [by apply stashed_store|]. destruct Hm as [_ ->]. by rewrite map_to_list_empty. }
  split_and!; [done|intros p; by apply stashed_get|done|]. rewrite <- Hs.
  destruct root as [r|]; cbn; [|done]. by rewrite (free_stored r []).
Qed.

(** Whatever was added to it and whatever identifier is asked for, the
    search for the next node of a stash ends: the loop goes up as long as there is
    nothing further on, then down, and never up again, since every branch of the
    tree ends in data; and a node that it finds has data. *)
Theorem stash_next_returns `{Allocator} {A} (adds : list (list Z * A)) (lookup : list Z) :
  alloc sizeof_node = true /\ alloc (OID_STASH_CHILDREN_SIZE * 8) = true ->
  exists answers root next,
    add_all None adds = Ret (answers, root) /\
    netsnmp_oid_stash_getnext_node root lookup = Ret next /\
    forall n, next = Some n -> is_Some (thedata n).
Proof.
  intros memory. destruct (grown_add_all memory adds None ∅) as (root & Hadd & _ & Hf); [by repeat split|].
  destruct (getnext_returns root lookup Hf) as (next & E & Hd). by exists (map_add_all ∅ adds).1, root, next.
Qed.

Section examples.
#[local] Existing Instance small_alloc.

(** Entries at 1.1, 1.5 and, refused, 1.1 again. *)
Lemma stash_is_map_witness :
  exists root,
    add_all None [([1; 1], 10); ([1; 5], 50); ([1; 1], 11); ([], 0)]
    = Ret ([SNMPERR_SUCCESS; SNMPERR_SUCCESS; SNMPERR_GENERR; SNMPERR_GENERR], root) /\
    netsnmp_oid_stash_get_data root [1; 1] = Some 10.
Proof.
  destruct (stash_is_map [([1; 1], 10); ([1; 5], 50); ([1; 1], 11); ([], 0)]) as (root & Hadd & Hget & _); [done|].
  exists root. split; [exact Hadd|]. rewrite Hget. reflexivity.
Defined.

Lemma stash_next_returns_witness :
  exists answers root next,
    add_all None [([1; 1], 10); ([1; 5], 50)] = Ret (answers, root) /\
    netsnmp_oid_stash_getnext_node root [1; 1] = Ret next /\ forall n, next = Some n -> is_Some (thedata n).
Proof. apply stash_next_returns. done. Defined.

Definition entry_after (adds : list (list Z * Z)) (lookup : list Z) : outcome (option Z) :=
  '(_, root) ← add_all None adds;
  next ← netsnmp_oid_stash_getnext_node root lookup;
  Ret (n ← next; thedata n).

(** After an identifier of the stash comes the next one; but the next after
    1.3.1, which is not there, is 1.2 and not 1.5: where the search stops at the
    sub-identifier [lookup[i]], it goes on with [lookup[i + 1]]. *)
Lemma next_after_missing :
  entry_after [([1; 2], 20); ([1; 5], 50)] [1; 2] = Ret (Some 50) /\
  entry_after [([1; 2], 20); ([1; 5], 50)] [1; 3; 1] = Ret (Some 20) /\
  entry_after [([1; 2], 20); ([1; 5], 50)] [1; 3] = Ret (Some 20).
Proof. vm_compute. auto. Qed.
End examples.
