(* ===== verification/AgentHandler.v ===== *)
(** * Handlers of the agent and their registrations: agent/agent_handler.c

    A handler is called through its access method, of the type [M], with its own
    data, of the type [V].  A chain is the list of its handlers; they are linked
    by [next]. *)

From stdpp Require Import list.
From S2P Require Import Prelude Bytes AsnTypes AsnBuild AsnRbuild Oid Vacm Lcd Scapi Users UsmMsg Session Client CString Keytools ReadConfig UserConfig.

Definition MIB_HANDLER_AUTO_NEXT : Z := 1.
Definition MIB_HANDLER_AUTO_NEXT_OVERRIDE_ONCE : Z := 2.
Definition MIB_HANDLER_INSTANCE : Z := 4.

Definition HANDLER_CAN_GETANDGETNEXT : Z := 1.
Definition HANDLER_CAN_SET : Z := 2.
Definition HANDLER_CAN_GETBULK : Z := 4.
Definition HANDLER_CAN_NOT_CREATE : Z := 8.
Definition HANDLER_CAN_RONLY : Z := HANDLER_CAN_GETANDGETNEXT.
Definition HANDLER_CAN_DEFAULT : Z := Z.lor HANDLER_CAN_RONLY HANDLER_CAN_NOT_CREATE.

Definition DEFAULT_MIB_PRIORITY : Z := 127.
Definition FULLY_QUALIFIED_INSTANCE : Z := 1.

Record netsnmp_mib_handler (M V : Type) : Type := {
  handler_name : option (list Z);
  myvoid : option V;
  h_flags : Z;
  access_method : option M;
  data_clone : option (V -> option V)
}.
Arguments handler_name {M V} _.
Arguments myvoid {M V} _.
Arguments h_flags {M V} _.
Arguments access_method {M V} _.
Arguments data_clone {M V} _.

Record netsnmp_handler_registration (M V : Type) : Type := {
  handlerName : option (list Z);
  contextName : option (list Z);
  rootoid : list Z;
  handler : list (netsnmp_mib_handler M V);
  modes : Z;
  r_priority : Z;
  r_range_subid : Z;
  r_range_ubound : Z;
  r_timeout : Z;
  r_global_cacheid : Z;
  my_reg_void : option V
}.
Arguments handlerName {M V} _.
Arguments contextName {M V} _.
Arguments rootoid {M V} _.
Arguments handler {M V} _.
Arguments modes {M V} _.
Arguments r_priority {M V} _.
Arguments r_range_subid {M V} _.
Arguments r_range_ubound {M V} _.
Arguments r_timeout {M V} _.
Arguments r_global_cacheid {M V} _.
Arguments my_reg_void {M V} _.

Definition sizeof_mib_handler : Z := 64.
Definition sizeof_handler_registration : Z := 80.

Section handlers.
Context {M V : Type} `{Allocator}.
Abbreviation mib_handler := (netsnmp_mib_handler M V).
Abbreviation registration := (netsnmp_handler_registration M V).

Definition with_flags (flags : Z) (h : mib_handler) : mib_handler := {|
  handler_name := handler_name h; myvoid := myvoid h; h_flags := flags; access_method := access_method h;
  data_clone := data_clone h |}.

Definition with_myvoid (v : option V) (clone : option (V -> option V)) (h : mib_handler) : mib_handler := {|
  handler_name := handler_name h; myvoid := v; h_flags := h_flags h; access_method := access_method h;
  data_clone := clone |}.

Definition with_handler (chain : list mib_handler) (r : registration) : registration := {|
  handlerName := handlerName r; contextName := contextName r; rootoid := rootoid r; handler := chain; modes := modes r;
  r_priority := r_priority r; r_range_subid := r_range_subid r; r_range_ubound := r_range_ubound r;
  r_timeout := r_timeout r; r_global_cacheid := r_global_cacheid r; my_reg_void := my_reg_void r |}.

Definition with_modes (m : Z) (r : registration) : registration := {|
  handlerName := handlerName r; contextName := contextName r; rootoid := rootoid r; handler := handler r; modes := m;
  r_priority := r_priority r; r_range_subid := r_range_subid r; r_range_ubound := r_range_ubound r;
  r_timeout := r_timeout r; r_global_cacheid := r_global_cacheid r; my_reg_void := my_reg_void r |}.

Definition with_rootoid (o : list Z) (r : registration) : registration := {|
  handlerName := handlerName r; contextName := contextName r; rootoid := o; handler := handler r; modes := modes r;
  r_priority := r_priority r; r_range_subid := r_range_subid r; r_range_ubound := r_range_ubound r;
  r_timeout := r_timeout r; r_global_cacheid := r_global_cacheid r; my_reg_void := my_reg_void r |}.

(** [strdup]: the text, or that there is no memory for it. *)
Definition strdup (s : list Z) : option (list Z) := if alloc (len s + 1) then Some s else None.

Definition has_bit (z bit : Z) : bool := negb (Z.land z bit =? 0).

(** ** Making handlers *)

Definition netsnmp_create_handler (name : option (list Z)) (method : option M) : option mib_handler :=
  if negb (alloc sizeof_mib_handler) then None
  else match name with
       | None => Some {| handler_name := None; myvoid := None; h_flags := 0; access_method := method; data_clone := None |}
       | Some name =>
           name ← strdup name;
           Some {| handler_name := Some name; myvoid := None; h_flags := 0; access_method := method; data_clone := None |}
       end.

(** The name and the identifier of a registration are not looked at when there
    is no memory for them: an identifier that is NULL is no registration. *)
Definition netsnmp_handler_registration_create (name : option (list Z)) (chain : list mib_handler) (reg_oid : list Z) (m : Z)
    : option registration :=
  if negb (alloc sizeof_handler_registration) then None
  else Some {|
    handlerName := name ≫= strdup; contextName := None;
    rootoid := if alloc (len reg_oid * 8) then reg_oid else []; handler := chain;
    modes := if negb (m =? 0) then m else HANDLER_CAN_DEFAULT; r_priority := DEFAULT_MIB_PRIORITY; r_range_subid := 0;
    r_range_ubound := 0; r_timeout := 0; r_global_cacheid := 0; my_reg_void := None |}.

Definition netsnmp_create_handler_registration (name : option (list Z)) (method : option M) (reg_oid : list Z) (m : Z)
    : option registration :=
  h ← netsnmp_create_handler name method;
  netsnmp_handler_registration_create name [h] reg_oid m.

(** ** Copies *)

Definition _clone_handler (it : mib_handler) : option mib_handler :=
  h ← netsnmp_create_handler (handler_name it) (access_method it); Some (with_flags (h_flags it) h).

(** A chain without a handler has no copy. *)
Fixpoint netsnmp_handler_dup (chain : list mib_handler) : option (list mib_handler) :=
  match chain with
  | [] => None
  | h :: next =>
      d ← _clone_handler h;
      v ← match myvoid h, data_clone h with
          | Some v, Some clone => v ← clone v; Some (Some v)
          | v, _ => Some v
          end;
      let d := with_myvoid v (data_clone h) d in
      match next with
      | [] => Some [d]
      | _ => rest ← netsnmp_handler_dup next; Some (d :: rest)
      end
  end.

(** [my_reg_void] and [global_cacheid] are not copied. *)
Definition netsnmp_handler_registration_dup (r : registration) : option registration :=
  if negb (alloc sizeof_handler_registration) then None
  else
    name ← match handlerName r with Some n => n ← strdup n; Some (Some n) | None => Some None end;
    context ← match contextName r with Some n => n ← strdup n; Some (Some n) | None => Some None end;
    if negb (alloc (len (rootoid r) * 8)) then None
    else
      chain ← netsnmp_handler_dup (handler r);
      Some {| handlerName := name; contextName := context; rootoid := rootoid r; handler := chain; modes := modes r;
              r_priority := r_priority r; r_range_subid := r_range_subid r; r_range_ubound := r_range_ubound r;
              r_timeout := r_timeout r; r_global_cacheid := 0; my_reg_void := None |}.

(** ** Chains *)

Definition named (name : list Z) (h : mib_handler) : outcome bool :=
  match handler_name h with Some n => Ret (strcmp n name =? 0) | None => Null end.

(** The handlers before the first one of that name, and those from it on. *)
Fixpoint before_name (name : list Z) (chain : list mib_handler) : outcome (list mib_handler * list mib_handler) :=
  match chain with
  | [] => Ret ([], [])
  | h :: next =>
      found ← named name h;
      if (found : bool) then Ret ([], chain)
      else '(front, rest) ← before_name name next; Ret (h :: front, rest)
  end.

(** [h] is a sub-chain. *)
Definition netsnmp_inject_handler_before (r : registration) (h : list mib_handler) (before_what : option (list Z))
    : outcome (Z * registration) :=
  match h with
  | [] => Ret (SNMP_ERR_GENERR, r)
  | _ =>
      match before_what with
      | None => Ret (SNMPERR_SUCCESS, with_handler (h ++ handler r) r)
      | Some what =>
          '(front, rest) ← before_name what (handler r);
          match rest with
          | [] => Ret (SNMP_ERR_GENERR, r)
          | _ => Ret (SNMPERR_SUCCESS, with_handler (front ++ h ++ rest) r)
          end
      end
  end.

Definition netsnmp_inject_handler (r : registration) (h : list mib_handler) : outcome (Z * registration) :=
  netsnmp_inject_handler_before r h None.

Fixpoint find_handler (chain : list mib_handler) (name : list Z) : outcome (option mib_handler) :=
  match chain with
  | [] => Ret None
  | h :: next => found ← named name h; if (found : bool) then Ret (Some h) else find_handler next name
  end.

Definition netsnmp_find_handler_by_name (r : registration) (name : list Z) : outcome (option mib_handler) :=
  find_handler (handler r) name.

Definition netsnmp_find_handler_data_by_name (r : registration) (name : list Z) : outcome (option V) :=
  it ← netsnmp_find_handler_by_name r name;
  Ret (it ← it; myvoid it).
End handlers.
