(* ===== verification/Registry.v ===== *)
(** * The registry of the agent: agent/agent_registry.c

    A context has a list of regions of the tree of object identifiers; a region
    is the stack of the registrations that cover it, the one that answers on
    top.  In the code the registrations of a stack are linked by [children], and every
    one of them has [next] and [prev] links to the top of the neighbouring
    stacks: here a tree is the list of its stacks, and a link is a place in it.
    Where the code leaves links that are not those of one list the result is
    [Astray].  [oid_off] is recomputed whenever a neighbour changes, so it is a
    function of the two neighbours.

    Registrations come from handlers: [variables] is NULL in every subtree. *)

From stdpp Require Import list.
From S2P Require Import Prelude Bytes AsnTypes AsnBuild AsnRbuild Oid Vacm Lcd Scapi Users UsmMsg Session Client CString Keytools ReadConfig UserConfig AgentHandler.

Definition MIB_REGISTERED_OK : Z := 0.
Definition MIB_DUPLICATE_REGISTRATION : Z := -1.
Definition MIB_REGISTRATION_FAILED : Z := -2.
Definition MIB_UNREGISTERED_OK : Z := 0.
Definition MIB_NO_SUCH_REGISTRATION : Z := -1.
Definition SUBTREE_ATTACHED : Z := 2.
Definition SUBTREE_DEFAULT_CACHE_SIZE : Z := 8.
Definition SUBTREE_MAX_CACHE_SIZE : Z := 32.

(** A session by its address, and that of its subsession. *)
Record session_link : Set := { s_addr : Z; s_subsession : option Z }.

Record netsnmp_subtree (M V : Type) : Type := {
  name_a : list Z;
  start_a : list Z;
  end_a : list Z;
  label_a : list Z;
  t_session : option session_link;
  t_flags : Z;
  t_priority : Z;
  t_timeout : Z;
  t_range_subid : Z;
  t_range_ubound : Z;
  t_reginfo : netsnmp_handler_registration M V;
  t_global_cacheid : Z
}.
Arguments name_a {M V} _.
Arguments start_a {M V} _.
Arguments end_a {M V} _.
Arguments label_a {M V} _.
Arguments t_session {M V} _.
Arguments t_flags {M V} _.
Arguments t_priority {M V} _.
Arguments t_timeout {M V} _.
Arguments t_range_subid {M V} _.
Arguments t_range_ubound {M V} _.
Arguments t_reginfo {M V} _.
Arguments t_global_cacheid {M V} _.

Definition sizeof_subtree : Z := 152.

(** [snmp_oid_compare] and [netsnmp_oid_compare_ll] of two whole names. *)
Definition compare (a b : list Z) : outcome Z := snmp_oid_compare a (len a) b (len b).
Definition compare_ll (a b : list Z) : outcome (Z * Z) := netsnmp_oid_compare_ll a (len a) b (len b).
Definition equals (a b : list Z) : outcome Z := netsnmp_oid_equals (Some a) (len a) (Some b) (len b).

Section registry.
Context {M V : Type} `{Allocator}.
Abbreviation subtree := (netsnmp_subtree M V).
Abbreviation registration := (netsnmp_handler_registration M V).
Abbreviation region := (list subtree).
Abbreviation tree := (list (list subtree)).

Definition with_span (start end_ : list Z) (s : subtree) : subtree := {|
  name_a := name_a s; start_a := start; end_a := end_; label_a := label_a s; t_session := t_session s;
  t_flags := t_flags s; t_priority := t_priority s; t_timeout := t_timeout s; t_range_subid := t_range_subid s;
  t_range_ubound := t_range_ubound s; t_reginfo := t_reginfo s; t_global_cacheid := t_global_cacheid s |}.

Definition with_t_flags (flags : Z) (s : subtree) : subtree := {|
  name_a := name_a s; start_a := start_a s; end_a := end_a s; label_a := label_a s; t_session := t_session s;
  t_flags := flags; t_priority := t_priority s; t_timeout := t_timeout s; t_range_subid := t_range_subid s;
  t_range_ubound := t_range_ubound s; t_reginfo := t_reginfo s; t_global_cacheid := t_global_cacheid s |}.

Definition start_of (r : region) : list Z := match r with s :: _ => start_a s | [] => [] end.
Definition end_of (r : region) : list Z := match r with s :: _ => end_a s | [] => [] end.

(** ** Looking for a region *)

(** What [netsnmp_subtree_change_next] and [netsnmp_subtree_change_prev] store
    in the second region. *)
Definition oid_off (before : option region) (r : region) : outcome Z :=
  match before with
  | Some p => '(_, off) ← compare_ll (start_of p) (start_of r); Ret off
  | None => Ret 0
  end.

(** The loop: the number of regions it goes past, and whether it stops before
    the end of the list. *)
Fixpoint find_loop (name : list Z) (t : tree) (before : option region) (ll_off : Z) : outcome (nat * bool) :=
  match t with
  | [] => Ret (O, false)
  | r :: next =>
      off ← oid_off before r;
      if negb (negb (ll_off =? 0) && negb (off =? 0) && (ll_off <? off)) then
        '(c, ll_off) ← compare_ll name (start_of r);
        if c <? 0 then Ret (O, true)
        else '(n, found) ← find_loop name next (Some r) ll_off; Ret (S n, found)
      else '(n, found) ← find_loop name next (Some r) ll_off; Ret (S n, found)
  end.

(** [netsnmp_subtree_find_prev] without the lookup cache, from the first region
    on: the place of the region before the one that is too far. *)
Definition find_prev (t : tree) (name : list Z) : outcome (option nat) :=
  '(n, _) ← find_loop name t None 0; Ret (match n with O => None | S k => Some k end).

Definition covers (t : tree) (name : list Z) (k : nat) : outcome (option nat) :=
  match t !! k with
  | None => Null
  | Some r => c ← compare name (end_of r); Ret (if c <? 0 then Some k else None)
  end.

(** [netsnmp_subtree_find]: the region that has the name in it. *)
Definition find (t : tree) (name : list Z) : outcome (option nat) :=
  k ← find_prev t name;
  match k with None => Ret None | Some k => covers t name k end.

Definition netsnmp_subtree_compare (ap bp : subtree) : outcome Z := compare (name_a ap) (name_a bp).

(** ** Copying and splitting *)

(** Memory that fails after the first allocation frees the registration the
    copy shares with the original, which is used on: [Overrun]. *)
Definition netsnmp_subtree_deepcopy (a : subtree) : outcome (option subtree) :=
  if negb (alloc sizeof_subtree) then Ret None
  else if negb (alloc (len (name_a a) * 8) && alloc (len (start_a a) * 8) && alloc (len (end_a a) * 8)
                && alloc (len (label_a a) + 1)) then Overrun
  else
    match netsnmp_handler_registration_dup (t_reginfo a) with
    | None => Ret None
    | Some r =>
        Ret (Some {|
          name_a := name_a a; start_a := start_a a; end_a := end_a a; label_a := label_a a; t_session := t_session a;
          t_flags := t_flags a; t_priority := t_priority a; t_timeout := t_timeout a;
          t_range_subid := t_range_subid a; t_range_ubound := t_range_ubound a; t_reginfo := r;
          t_global_cacheid := t_global_cacheid a |})
    end.

(** The stack as it is afterwards, and the stack of the second half; children
    there is no memory for are missing from the second half. *)
Fixpoint netsnmp_subtree_split (current : region) (name : list Z) : outcome (region * option region) :=
  match current with
  | [] => Ret ([], Some [])
  | s :: children =>
      c ← compare name (end_a s);
      if 0 <? c then Ret (current, None)
      else
        new_sub ← netsnmp_subtree_deepcopy s;
        match new_sub with
        | None => Ret (current, None)
        | Some new_sub =>
            if negb (alloc (len name * 8)) then Ret (current, None)
            else
              '(children, new_children) ← netsnmp_subtree_split children name;
              Ret (with_span (start_a s) name s :: children,
                   Some (with_span name (end_a new_sub) new_sub :: default [] new_children))
        end
  end.

(** ** Loading a registration *)

(** [linked]: whether a link leads to [new_sub]. *)
Inductive loaded (T : Type) : Type :=
  | Loaded (rc : Z) (linked : bool) (new_sub : subtree) (t : T)
  | Astray.
#[local] Arguments Loaded {T} rc linked new_sub t.
#[local] Arguments Astray {T}.

(** The registrations of a stack before the place of [new_sub], and after it. *)
Fixpoint longer_names (s : region) (namelen : Z) : region * region :=
  match s with
  | x :: next => if namelen <? len (name_a x) then let '(front, rest) := longer_names next namelen in (x :: front, rest) else ([], s)
  | [] => ([], [])
  end.

Fixpoint lower_priorities (s : region) (namelen priority : Z) : region * region :=
  match s with
  | x :: next => if (len (name_a x) =? namelen) && (t_priority x <? priority)
                 then let '(front, rest) := lower_priorities next namelen priority in (x :: front, rest) else ([], s)
  | [] => ([], [])
  end.

(** The two trees match: [new_sub] among the registrations of the region [k].
    On top of the first region nothing leads to it. *)
Definition merge (new_sub : subtree) (t : tree) (k : nat) (stack : region) : loaded tree :=
  let '(longer, rest) := longer_names stack (len (name_a new_sub)) in
  let '(lower, rest) := lower_priorities rest (len (name_a new_sub)) (t_priority new_sub) in
  if match rest with
     | next :: _ => (len (name_a next) =? len (name_a new_sub)) && (t_priority next =? t_priority new_sub)
     | [] => false
     end
  then Loaded MIB_DUPLICATE_REGISTRATION false new_sub t
  else match longer ++ lower, k with
       | [], O => Astray
       | front, _ => Loaded MIB_REGISTERED_OK true new_sub (<[k := front ++ new_sub :: rest]> t)
       end.

(** The region [k] cut in two. *)
Definition cut (t : tree) (k : nat) (halves : region * region) : tree :=
  take k t ++ halves.1 :: halves.2 :: drop (S k) t.

(** The region that begins where [new_sub] does: [stack], at [k], or its second
    half. *)
Definition at_start (new_sub : subtree) (t : tree) (k : nat) (stack : region) : outcome (option (tree * nat * region)) :=
  same ← equals (start_a new_sub) (start_of stack);
  if same =? 0 then Ret (Some (t, k, stack))
  else '(first, second) ← netsnmp_subtree_split stack (start_a new_sub);
       Ret (second ← second; Some (cut t k (first, second), S k, second)).

(** [netsnmp_subtree_load] where the context has regions, or is being made.
    Without [variables] [netsnmp_subtree_find_next] goes to the end of the list:
    [tree2] is NULL when [tree1] is.  A call for the rest of [new_sub] starts
    a region further on. *)
Fixpoint load (fuel : nat) (new_sub : subtree) (t : tree) : outcome (loaded tree) :=
  match fuel with
  | O => Spin
  | S fuel =>
      tree1 ← find t (start_a new_sub);
      match tree1 with
      | None =>
          p ← find_prev t (start_a new_sub);
          match p with
          | None => Ret (Loaded MIB_REGISTERED_OK true new_sub [[new_sub]])
          | Some p =>
              match t !! p with
              | Some [_] => Ret (Loaded MIB_REGISTERED_OK true new_sub (take (S p) t ++ [[new_sub]]))
              | _ => Ret Astray
              end
          end
      | Some k =>
          match t !! k with
          | None => Null
          | Some stack =>
              here ← at_start new_sub t k stack;
              match here with
              | None => Ret (Loaded MIB_REGISTRATION_FAILED false new_sub t)
              | Some (t, k, stack) =>
                  c ← compare (end_a new_sub) (end_of stack);
                  if c =? -1 then
                    '(first, second) ← netsnmp_subtree_split stack (end_a new_sub);
                    let t := match second with Some second => cut t k (first, second) | None => t end in
                    Ret (merge new_sub t k first)
                  else if c =? 0 then Ret (merge new_sub t k stack)
                  else
                    '(new_sub, new2) ← netsnmp_subtree_split [new_sub] (end_of stack);
                    match new_sub with
                    | [new_sub] =>
                        res ← load fuel new_sub t;
                        match res, new2 with
                        | Astray, _ => Ret Astray
                        | Loaded rc linked new_sub t, Some [new2] =>
                            if negb (rc =? MIB_REGISTERED_OK) then Ret (if linked then Astray else Loaded rc false new_sub t)
                            else
                              res ← load fuel new2 t;
                              match res with
                              | Astray => Ret Astray
                              | Loaded rc _ _ t => Ret (Loaded rc true new_sub t)
                              end
                        | Loaded rc linked new_sub t, _ =>
                            if negb (rc =? MIB_REGISTERED_OK) then Null
                            else Ret (Loaded MIB_REGISTERED_OK linked new_sub t)
                        end
                    | _ => Null
                    end
              end
          end
      end
  end.

(** ** Unloading *)

(** The region that is left without the registration at the place [j] of its
    stack; an empty one goes. *)
Definition unload (t : tree) (k j : nat) : tree :=
  match t !! k with
  | None => t
  | Some stack =>
      match take j stack ++ drop (S j) stack with
      | [] => take k t ++ drop (S k) t
      | stack => <[k := stack]> t
      end
  end.

(** The place in a stack of the registration of that name and priority. *)
Fixpoint find_child (stack : region) (name : list Z) (priority : Z) : outcome (option nat) :=
  match stack with
  | [] => Ret None
  | s :: children =>
      e ← equals (name_a s) name;
      if (e =? 0) && (t_priority s =? priority) then Ret (Some O)
      else j ← find_child children name priority; Ret (option_map S j)
  end.

(** The following regions, as far as they have it. *)
Fixpoint unload_following (rest : tree) (name : list Z) (priority : Z) : outcome tree :=
  match rest with
  | [] => Ret []
  | stack :: next =>
      j ← find_child stack name priority;
      match j with
      | None => Ret rest
      | Some j => next ← unload_following next name priority; Ret (unload (stack :: next) 0 j)
      end
  end.

(** ** Contexts, and the lookup cache *)

Inductive registry_event : Type :=
  | SNMPD_CALLBACK_REGISTER_OID (name : list Z) (priority range_subid range_ubound timeout flags : Z)
      (contextName : option (list Z)) (session : option session_link)
  | SNMPD_CALLBACK_UNREGISTER_OID (name : list Z) (priority range_subid range_ubound flags : Z)
      (contextName : option (list Z)).

(** An entry is the place of [previous], NULL until it is written; [next] follows it. *)
Record lookup_cache_context : Set := {
  l_context : list Z;
  thecachecount : Z;
  currentpos : Z;
  l_cache : list (option nat)
}.

Record agent_registry : Type := {
  context_subtrees : list (list Z * tree);
  thecontextcache : list lookup_cache_context;
  lookup_cache_size : Z;
  registry_events : list registry_event
}.

Definition with_contexts (c : list (list Z * tree)) (g : agent_registry) : agent_registry := {|
  context_subtrees := c; thecontextcache := thecontextcache g; lookup_cache_size := lookup_cache_size g;
  registry_events := registry_events g |}.
Definition with_caches (c : list lookup_cache_context) (g : agent_registry) : agent_registry := {|
  context_subtrees := context_subtrees g; thecontextcache := c; lookup_cache_size := lookup_cache_size g;
  registry_events := registry_events g |}.
Definition with_size (n : Z) (g : agent_registry) : agent_registry := {|
  context_subtrees := context_subtrees g; thecontextcache := thecontextcache g; lookup_cache_size := n;
  registry_events := registry_events g |}.
Definition notify (e : registry_event) (g : agent_registry) : agent_registry := {|
  context_subtrees := context_subtrees g; thecontextcache := thecontextcache g; lookup_cache_size := lookup_cache_size g;
  registry_events := registry_events g ++ [e] |}.

Definition clear_lookup_cache (g : agent_registry) : agent_registry := with_caches [] g.

Definition get_top_context_cache (g : agent_registry) : list (list Z * tree) := context_subtrees g.

Definition clear_context (g : agent_registry) : agent_registry := clear_lookup_cache (with_contexts [] g).

Definition netsnmp_set_lookup_cache_size (newsize : Z) (g : agent_registry) : agent_registry :=
  with_size (if newsize <? 0 then SUBTREE_DEFAULT_CACHE_SIZE
             else if newsize <? SUBTREE_MAX_CACHE_SIZE then newsize else SUBTREE_MAX_CACHE_SIZE) g.

Definition netsnmp_get_lookup_cache_size (g : agent_registry) : Z := lookup_cache_size g.

Definition context_text (context_name : option (list Z)) : list Z := default [] context_name.

Fixpoint find_context (cs : list (list Z * tree)) (name : list Z) : option nat :=
  match cs with
  | [] => None
  | (n, _) :: cs => if strcmp n name =? 0 then Some O else S <$> find_context cs name
  end.

(** No regions, or no context: NULL. *)
Definition netsnmp_subtree_find_first (context_name : option (list Z)) (g : agent_registry) : tree :=
  default [] (k ← find_context (context_subtrees g) (context_text context_name); snd <$> context_subtrees g !! k).

Definition sizeof_context_cache : Z := 24.

(** A name there is no memory for is NULL, and the context not found again. *)
Definition add_subtree (t : tree) (context_name : option (list Z)) (g : agent_registry) : agent_registry :=
  if negb (alloc sizeof_context_cache) then g
  else if negb (alloc (len (c_string (context_text context_name)) + 1)) then g
  else with_contexts ((c_string (context_text context_name), t) :: context_subtrees g) g.

(** The list of the context from its first region on is [t] now. *)
Definition netsnmp_subtree_replace_first (t : tree) (context_name : option (list Z)) (g : agent_registry) : agent_registry :=
  match find_context (context_subtrees g) (context_text context_name) with
  | Some k => with_contexts (alter (fun c => (c.1, t)) k (context_subtrees g)) g
  | None => add_subtree t context_name g
  end.

Fixpoint find_cache (cs : list lookup_cache_context) (name : list Z) : option nat :=
  match cs with
  | [] => None
  | c :: cs => if strcmp (l_context c) name =? 0 then Some O else S <$> find_cache cs name
  end.

Definition sizeof_lookup_cache_context : Z := 544.

(** The place of the cache of the context, made when it is missing; memory that
    fails is not noticed. *)
Definition get_context_lookup_cache (context : option (list Z)) (g : agent_registry) : outcome (option nat * agent_registry) :=
  match find_cache (thecontextcache g) (context_text context) with
  | Some k => Ret (Some k, g)
  | None =>
      match netsnmp_subtree_find_first context g with
      | [] => Ret (None, g)
      | _ =>
          if negb (alloc sizeof_lookup_cache_context && alloc (len (c_string (context_text context)) + 1)) then Null
          else Ret (Some O, with_caches ({| l_context := c_string (context_text context); thecachecount := 0; currentpos := 0;
                                            l_cache := replicate 32 None |} :: thecontextcache g) g)
      end
  end.

Definition invalidate_lookup_cache (context : option (list Z)) (g : agent_registry) : outcome agent_registry :=
  '(k, g) ← get_context_lookup_cache context g;
  Ret (match k with
       | Some k => with_caches (alter (fun c => {| l_context := l_context c; thecachecount := 0; currentpos := 0;
                                                   l_cache := l_cache c |}) k (thecontextcache g)) g
       | None => g
       end).

Definition lookup_cache_add (context : option (list Z)) (previous : nat) (g : agent_registry) : outcome agent_registry :=
  '(k, g) ← get_context_lookup_cache context g;
  match k with
  | None => Ret g
  | Some k =>
      match thecontextcache g !! k with
      | None => Null
      | Some c =>
          if (currentpos c <? 0) || (SUBTREE_MAX_CACHE_SIZE <=? currentpos c) then Overrun
          else
            let count := if thecachecount c <? lookup_cache_size g then thecachecount c + 1 else thecachecount c in
            Ret (with_caches (<[k := {|
              l_context := l_context c; thecachecount := count;
              currentpos := if lookup_cache_size g <=? currentpos c + 1 then 0 else currentpos c + 1;
              l_cache := <[Z.to_nat (currentpos c) := Some previous]> (l_cache c) |}]> (thecontextcache g)) g)
      end
  end.

Definition lookup_cache_replace (k i previous : nat) (g : agent_registry) : agent_registry :=
  with_caches (alter (fun c => {| l_context := l_context c; thecachecount := thecachecount c; currentpos := currentpos c;
                                  l_cache := <[i := Some previous]> (l_cache c) |}) k (thecontextcache g)) g.

(** The last entry that is not too far, with the result of the comparison. *)
Fixpoint cache_loop (name : list Z) (t : tree) (entries : list (option nat)) (i : nat) (ret : option (nat * nat * Z))
    : outcome (option (nat * nat * Z)) :=
  match entries with
  | [] => Ret ret
  | None :: _ => Null
  | Some p :: entries =>
      match t !! p with
      | None => Null
      | Some r =>
          cmp ← compare name (start_of r);
          cache_loop name t entries (S i) (if 0 <=? cmp then Some (i, p, cmp) else ret)
      end
  end.

(** The place of the cache, and in it. *)
Definition lookup_cache_find (context : option (list Z)) (name : list Z) (g : agent_registry)
    : outcome (option (nat * (nat * nat * Z)) * agent_registry) :=
  '(k, g) ← get_context_lookup_cache context g;
  match k with
  | None => Ret (None, g)
  | Some k =>
      match thecontextcache g !! k with
      | None => Null
      | Some c =>
          e ← cache_loop name (netsnmp_subtree_find_first context g)
                (take (Z.to_nat (Z.min (thecachecount c) (lookup_cache_size g))) (l_cache c)) O None;
          Ret (option_map (pair k) e, g)
      end
  end.

(** [netsnmp_subtree_find_prev] with [subtree] NULL. *)
Definition netsnmp_subtree_find_prev (name : list Z) (context : option (list Z)) (g : agent_registry)
    : outcome (option nat * agent_registry) :=
  let t := netsnmp_subtree_find_first context g in
  if lookup_cache_size g =? 0 then k ← find_prev t name; Ret (k, g)
  else
    '(hit, g) ← lookup_cache_find context name g;
    let '(first, previous, cmp) :=
      match hit with
      | Some (_, (_, p, cmp)) => (match drop (S p) t with [] => O | _ => S p end, Some p, cmp)
      | None => (O, None, 1)
      end in
    '(n, found) ← find_loop name (drop first t) None 0;
    let previous := match n with O => previous | S n => Some (first + n)%nat end in
    match previous, found with
    | Some p, true =>
        if cmp =? 0 then Ret (previous, g)
        else match hit with
             | Some (c, (i, _, _)) => Ret (previous, lookup_cache_replace c i p g)
             | None => g ← lookup_cache_add context p g; Ret (previous, g)
             end
    | _, _ => Ret (previous, g)
    end.

Definition netsnmp_subtree_find (name : list Z) (context : option (list Z)) (g : agent_registry)
    : outcome (option nat * agent_registry) :=
  '(k, g) ← netsnmp_subtree_find_prev name context g;
  match k with
  | None => Ret (None, g)
  | Some k => k ← covers (netsnmp_subtree_find_first context g) name k; Ret (k, g)
  end.

(** ** Registering *)

(** [netsnmp_subtree_load] without the first test: the context as it is. *)
Definition load_in_context (new_sub : subtree) (context : option (list Z)) (g : agent_registry)
    : outcome (loaded agent_registry) :=
  let t := netsnmp_subtree_find_first context g in
  res ← load (S (S (length t))) new_sub t;
  Ret (match res with
       | Astray => Astray
       | Loaded rc linked new_sub t =>
           let g := netsnmp_subtree_replace_first t context g in
           Loaded rc (linked && match netsnmp_subtree_find_first context g with [] => false | _ => true end) new_sub g
       end).

Definition find_here (name : list Z) (context : option (list Z)) (g : agent_registry) : outcome (option nat) :=
  find (netsnmp_subtree_find_first context g) name.

(** One turn of the outer loop of [unregister_mib_context]. *)
Definition unregister_once (name : list Z) (priority : Z) (context : option (list Z)) (g : agent_registry)
    : outcome (option agent_registry) :=
  let t := netsnmp_subtree_find_first context g in
  k ← find t name;
  match k with
  | None => Ret None
  | Some k =>
      match t !! k with
      | None => Null
      | Some stack =>
          j ← find_child stack name priority;
          match j with
          | None => Ret None
          | Some j =>
              let front := unload (take (S k) t) k j in
              g ← invalidate_lookup_cache context (netsnmp_subtree_replace_first (front ++ drop (S k) t) context g);
              next ← unload_following (drop (S k) t) name priority;
              g ← invalidate_lookup_cache context (netsnmp_subtree_replace_first (front ++ next) context g);
              Ret (Some g)
          end
      end
  end.

Definition set_subid (name : list Z) (range_subid v : Z) : option (list Z) :=
  if (1 <=? range_subid) && (range_subid <=? len name) then Some (<[Z.to_nat (range_subid - 1) := v]> name) else None.

Definition subid (name : list Z) (range_subid : Z) : option Z :=
  if 1 <=? range_subid then name !! Z.to_nat (range_subid - 1) else None.

(** The outer loop; [orig] is the sub-identifier it started with, an [int], or
    -1 where there is no range.  Every turn but the last unloads something. *)
Fixpoint unregister_loop (fuel : nat) (name : list Z) (priority range_subid range_ubound orig : Z)
    (context : option (list Z)) (g : agent_registry) : outcome (Z * list Z * agent_registry) :=
  match fuel with
  | O => Spin
  | S fuel =>
      res ← unregister_once name priority context g;
      match res with
      | None => Ret (MIB_NO_SUCH_REGISTRATION, name, g)
      | Some g =>
          if orig =? -1 then Ret (MIB_UNREGISTERED_OK, name, g)
          else
            match subid name range_subid with
            | None => Overrun
            | Some v =>
                let v := u64 (v + 1) in
                if u64 (orig + range_ubound) <=? v
                then Ret (MIB_UNREGISTERED_OK, default name (set_subid name range_subid (u64 orig)), g)
                else unregister_loop fuel (default name (set_subid name range_subid v)) priority range_subid range_ubound
                       orig context g
            end
      end
  end.

Definition registrations (t : tree) : nat := sum_list (length <$> t).

(** The name is the caller's, and written to.  The size of the lookup cache is
    not restored after an error. *)
Definition unregister_mib_context (name : list Z) (priority range_subid range_ubound : Z) (context : option (list Z))
    (g : agent_registry) : outcome (Z * list Z * agent_registry) :=
  let old := netsnmp_get_lookup_cache_size g in
  let g := netsnmp_set_lookup_cache_size 0 g in
  let orig := if (0 <? range_subid) && (range_subid <=? len name)
              then match subid name range_subid with Some v => s32 v | None => -1 end else -1 in
  '(rc, name, g) ← unregister_loop (S (registrations (netsnmp_subtree_find_first context g))) name priority range_subid
                      range_ubound orig context g;
  if negb (rc =? MIB_UNREGISTERED_OK) then Ret (rc, name, g)
  else
    let g := notify (SNMPD_CALLBACK_UNREGISTER_OID name priority range_subid range_ubound 0 context) g in
    g ← invalidate_lookup_cache context (netsnmp_set_lookup_cache_size old g);
    Ret (MIB_UNREGISTERED_OK, name, g).

Definition unregister_mib_range (name : list Z) (priority range_subid range_ubound : Z) (g : agent_registry)
    : outcome (Z * list Z * agent_registry) := unregister_mib_context name priority range_subid range_ubound (Some []) g.
Definition unregister_mib_priority (name : list Z) (priority : Z) (g : agent_registry) : outcome (Z * list Z * agent_registry) :=
  unregister_mib_range name priority 0 0 g.
Definition unregister_mib (name : list Z) (g : agent_registry) : outcome (Z * list Z * agent_registry) :=
  unregister_mib_priority name DEFAULT_MIB_PRIORITY g.

(** The new node: the name, and what is before the next name of the same length. *)
Definition new_subtree (moduleName mibloc : list Z) (priority range_subid range_ubound : Z) (ss : option session_link)
    (timeout flags : Z) (reginfo : registration) : subtree :=
  let n := Z.to_nat (u8 (len mibloc)) in
  let last := Z.to_nat (len mibloc - 1) in
  {| name_a := take n mibloc; start_a := take n mibloc;
     end_a := take n (alter (fun x => u64 (x + 1)) last mibloc); label_a := moduleName; t_session := ss;
     t_flags := Z.lor (u8 flags) SUBTREE_ATTACHED; t_priority := u8 priority; t_timeout := timeout;
     t_range_subid := range_subid; t_range_ubound := range_ubound; t_reginfo := reginfo;
     t_global_cacheid := r_global_cacheid reginfo |}.

(** The copy of [s] for the next sub-identifier of a range. *)
Definition range_copy (s : subtree) (mibloc : list Z) (range_subid i global_cacheid : Z) : outcome (option subtree) :=
  c ← netsnmp_subtree_deepcopy s;
  match c with
  | None => Ret None
  | Some c =>
      match set_subid (name_a c) range_subid i, set_subid (start_a c) range_subid i,
            set_subid (end_a c) range_subid (if range_subid =? len mibloc then u64 (i + 1) else i),
            set_subid (rootoid (t_reginfo c)) range_subid i with
      | Some name, Some start, Some end_, Some root =>
          Ret (Some {|
            name_a := name; start_a := start; end_a := end_; label_a := label_a c; t_session := t_session c;
            t_flags := Z.lor (t_flags c) SUBTREE_ATTACHED; t_priority := t_priority c; t_timeout := t_timeout c;
            t_range_subid := t_range_subid c; t_range_ubound := t_range_ubound c;
            t_reginfo := with_rootoid root (t_reginfo c); t_global_cacheid := global_cacheid |})
      | _, _, _, _ => Overrun
      end
  end.

(** What happens to the rest of a range: done, refused with a code, or links astray. *)
Inductive range_result : Type :=
  | Ranged (g : agent_registry)
  | Refused (rc : Z) (g : agent_registry)
  | Range_astray.

(** [register_mib_detach_node] of the first node of a registration. *)
Definition detach_node (s : subtree) : subtree := with_t_flags (Z.land (t_flags s) (Z.lnot SUBTREE_ATTACHED)) s.

Definition detach (name : list Z) (priority : Z) (context : option (list Z)) (g : agent_registry) : agent_registry :=
  netsnmp_subtree_replace_first
    (map (map (fun s => if bool_decide (name_a s = name /\ start_a s = name /\ t_priority s = priority)
                        then detach_node s else s)) (netsnmp_subtree_find_first context g)) context g.

Section registering.
(** [netsnmp_subtree_load], and whether registrations are detached at once: a
    subagent that has no session with its master. *)
Context (subtree_load : subtree -> option (list Z) -> agent_registry -> outcome (loaded agent_registry)).
Context (detached : bool).

Definition register_failed (rc : Z) (context : option (list Z)) (old : Z) (g : agent_registry) : outcome (Z * agent_registry) :=
  g ← invalidate_lookup_cache context (netsnmp_set_lookup_cache_size old g); Ret (rc, g).

(** The rest of a range: [i] goes up to [range_ubound] as an [int].  The copy
    comes with the links of the registration it is a copy of: splitting it, or
    taking it out again after a failure, changes the neighbours of that one. *)
Fixpoint range_loop (fuel : nat) (i : Z) (first : subtree) (mibloc : list Z) (priority range_subid range_ubound : Z)
    (context : option (list Z)) (global_cacheid : Z) (g : agent_registry) : outcome range_result :=
  match fuel with
  | O => Spin
  | S fuel =>
      if s32 range_ubound <? i then Ret (Ranged g)
      else
        sub2 ← range_copy first mibloc range_subid i global_cacheid;
        match sub2 with
        | None =>
            '(_, _, g) ← unregister_mib_context mibloc priority range_subid range_ubound context g;
            Ret (Refused MIB_REGISTRATION_FAILED g)
        | Some sub2 =>
            res ← subtree_load sub2 context g;
            match res with
            | Loaded rc _ sub2' g =>
                same ← equals (end_a sub2') (end_a sub2);
                if (rc =? MIB_REGISTERED_OK) && (same =? 0)
                then range_loop fuel (s32 (i + 1)) first mibloc priority range_subid range_ubound context global_cacheid g
                else Ret Range_astray
            | Astray => Ret Range_astray
            end
        end
  end.

(** [None] is a tree whose links are astray: a node that is freed and still
    linked, or one that nothing leads to.  [mibloc] is [None] for NULL. *)
Definition netsnmp_register_mib (moduleName : option (list Z)) (mibloc : option (list Z))
    (priority range_subid range_ubound : Z) (ss : option session_link) (context : option (list Z)) (timeout flags : Z)
    (reginfo : registration) (perform_callback : bool) (g : agent_registry) : outcome (option (Z * agent_registry)) :=
  match moduleName, mibloc with
  | Some moduleName, Some mibloc =>
      let old := netsnmp_get_lookup_cache_size g in
      if negb (alloc sizeof_subtree) then Ret (Some (MIB_REGISTRATION_FAILED, g))
      else if (len mibloc =? 0) || negb (alloc (len mibloc * 8)) || negb (alloc (len moduleName + 1))
      then Ret (Some (MIB_REGISTRATION_FAILED, g))
      else
        let sub := new_subtree moduleName mibloc priority range_subid range_ubound ss timeout flags reginfo in
        let g := netsnmp_set_lookup_cache_size 0 g in
        res ← subtree_load sub context g;
        match res with
        | Astray => Ret None
        | Loaded rc linked sub g =>
            if negb (rc =? MIB_REGISTERED_OK) then
              if (linked : bool) then Ret None else '(rc, g) ← register_failed rc context old g; Ret (Some (rc, g))
            else
              ranged ← (if range_subid =? 0 then Ret (Ranged g)
                        else match subid mibloc range_subid with
                             | None => Overrun
                             | Some v =>
                                 let i := s32 (v + 1) in
                                 range_loop (S (Z.to_nat (s32 range_ubound - i + 1))) i sub mibloc priority range_subid
                                   range_ubound context (r_global_cacheid reginfo) g
                             end);
              match ranged with
              | Range_astray => Ret None
              | Refused rc g => '(rc, g) ← register_failed rc context old g; Ret (Some (rc, g))
              | Ranged g =>
                  let g := if detached then detach (name_a sub) (t_priority sub) context g else g in
                  let g := if perform_callback
                           then notify (SNMPD_CALLBACK_REGISTER_OID mibloc priority range_subid range_ubound timeout
                                          (u8 flags) context ss) g
                           else g in
                  g ← invalidate_lookup_cache context (netsnmp_set_lookup_cache_size old g);
                  Ret (Some (MIB_REGISTERED_OK, g))
              end
        end
  | _, _ => Ret (Some (MIB_REGISTRATION_FAILED, g))
  end.
End registering.

(** ** Handlers into the registry: agent_handler.c, helpers/null.c *)

Section handlers.
(** The access methods of the [bulk_to_next] and [null] helpers. *)
Context (bulk_to_next_helper null_handler : M) (detached : bool).

Definition netsnmp_get_bulk_to_next_handler : list (netsnmp_mib_handler M V) :=
  match netsnmp_create_handler (Some [98; 117; 108; 107; 95; 116; 111; 95; 110; 101; 120; 116]) (Some bulk_to_next_helper) with
  | Some h => [with_flags (Z.lor (h_flags h) MIB_HANDLER_AUTO_NEXT) h]
  | None => []
  end.

Definition register_handler (subtree_load : subtree -> option (list Z) -> agent_registry -> outcome (loaded agent_registry))
    (reginfo : registration) (g : agent_registry) : outcome (option (Z * agent_registry)) :=
  let reginfo := if modes reginfo =? 0 then with_modes HANDLER_CAN_DEFAULT reginfo else reginfo in
  '(_, reginfo) ← (if negb (has_bit (modes reginfo) HANDLER_CAN_GETBULK)
                   then netsnmp_inject_handler reginfo netsnmp_get_bulk_to_next_handler
                   else Ret (SNMPERR_SUCCESS, reginfo));
  let flags := if existsb (fun h => has_bit (h_flags h) MIB_HANDLER_INSTANCE) (handler reginfo)
               then FULLY_QUALIFIED_INSTANCE else 0 in
  netsnmp_register_mib subtree_load detached (handlerName reginfo) (Some (rootoid reginfo)) (r_priority reginfo)
    (r_range_subid reginfo) (r_range_ubound reginfo) None (contextName reginfo) (r_timeout reginfo) flags reginfo true g.

Definition netsnmp_register_null_context (subtree_load : subtree -> option (list Z) -> agent_registry -> outcome (loaded agent_registry))
    (loc : list Z) (context : option (list Z)) (g : agent_registry) : outcome (option (Z * agent_registry)) :=
  if negb (alloc sizeof_handler_registration) then Ret (Some (SNMP_ERR_GENERR, g))
  else
    register_handler subtree_load {|
      handlerName := strdup []; contextName := context ≫= (fun c => strdup (c_string c)); rootoid := loc;
      handler := match netsnmp_create_handler (Some [110; 117; 108; 108]) (Some null_handler) with Some h => [h] | None => [] end;
      modes := Z.lor HANDLER_CAN_DEFAULT HANDLER_CAN_GETBULK; r_priority := 0; r_range_subid := 0; r_range_ubound := 0;
      r_timeout := 0; r_global_cacheid := 0; my_reg_void := None |} g.

(** The roots, in a context that has no regions; their own loading finds it so
    too and goes on ([inloop]). *)
Fixpoint register_roots (roots : list (list Z)) (context : option (list Z)) (g : agent_registry)
    : outcome (option agent_registry) :=
  match roots with
  | [] => Ret (Some g)
  | root :: roots =>
      res ← netsnmp_register_null_context load_in_context (if alloc 8 then root else []) context g;
      match res with
      | None => Ret None
      | Some (_, g) => register_roots roots context g
      end
  end.

Definition netsnmp_subtree_load (new_sub : subtree) (context : option (list Z)) (g : agent_registry)
    : outcome (loaded agent_registry) :=
  match netsnmp_subtree_find_first context g with
  | [] =>
      res ← register_roots [[0]; [1]; [2]] context g;
      match res with None => Ret Astray | Some g => load_in_context new_sub context g end
  | _ => load_in_context new_sub context g
  end.

Definition netsnmp_register_handler (reginfo : registration) (g : agent_registry) : outcome (option (Z * agent_registry)) :=
  register_handler netsnmp_subtree_load reginfo g.

(** The label is the name of the first handler. *)
Definition netsnmp_register_handler_nocallback (reginfo : registration) (g : agent_registry)
    : outcome (option (Z * agent_registry)) :=
  let reginfo := if modes reginfo =? 0 then with_modes HANDLER_CAN_DEFAULT reginfo else reginfo in
  match handler reginfo with
  | [] => Null
  | h :: _ =>
      netsnmp_register_mib netsnmp_subtree_load detached (handler_name h) (Some (rootoid reginfo)) (r_priority reginfo)
        (r_range_subid reginfo) (r_range_ubound reginfo) None (contextName reginfo) (r_timeout reginfo) 0 reginfo false g
  end.

Definition netsnmp_unregister_handler (reginfo : registration) (g : agent_registry) : outcome (Z * list Z * agent_registry) :=
  unregister_mib_context (rootoid reginfo) (r_priority reginfo) (r_range_subid reginfo) (r_range_ubound reginfo)
    (contextName reginfo) g.
End handlers.

(** ** All contexts *)

Definition every_node (f : subtree -> subtree) (g : agent_registry) : agent_registry :=
  with_contexts (map (fun c => (c.1, map (map f) c.2)) (context_subtrees g)) g.

Definition register_mib_detach (g : agent_registry) : agent_registry := every_node detach_node g.

Definition waits (s : subtree) : bool := (1 <? len (name_a s)) && negb (has_bit (t_flags s) SUBTREE_ATTACHED).

Definition register_mib_reattach_node (s : subtree) : subtree :=
  if waits s then with_t_flags (Z.lor (t_flags s) SUBTREE_ATTACHED) s else s.

Definition register_mib_reattach (g : agent_registry) : agent_registry :=
  let told := filter (fun s => waits s) (concat (concat (map snd (context_subtrees g)))) in
  fold_left (fun g s => notify (SNMPD_CALLBACK_REGISTER_OID (name_a s) (t_priority s) (t_range_subid s) (t_range_ubound s)
                                  (t_timeout s) (t_flags s) (contextName (t_reginfo s)) (t_session s)) g)
    told (every_node register_mib_reattach_node g).

Definition SNMP_FLAGS_SUBSESSION : Z := 32.

(** [ss] is NULL, or an address and the flags of a session. *)
Definition belongs (ss : option (Z * Z)) (s : subtree) : bool :=
  match ss with
  | None => match t_session s with None => true | Some _ => false end
  | Some (ss, flags) =>
      match t_session s with
      | None => false
      | Some l => if has_bit flags SNMP_FLAGS_SUBSESSION then s_addr l =? ss
                  else match s_subsession l with Some sub => sub =? ss | None => false end
      end
  end.

(** The data of the first handler is forgotten, so a registration has to have
    one.  [netsnmp_subtree_join] finds nothing to join: every node has a registration
    of its own. *)
Fixpoint unregister_contexts (ss : option (Z * Z)) (contexts : list (list Z * tree)) (g : agent_registry) : outcome agent_registry :=
  match contexts with
  | [] => Ret g
  | (context, t) :: contexts =>
      let gone := filter (fun s => belongs ss s) (concat t) in
      if existsb (fun s => bool_decide (length (handler (t_reginfo s)) = O)) gone then Null
      else
      let g := fold_left (fun g s => notify (SNMPD_CALLBACK_UNREGISTER_OID (name_a s) (t_priority s) (t_range_subid s)
                                               (t_range_ubound s) (t_flags s) (contextName (t_reginfo s))) g) gone g in
      let left := filter (fun stack => stack <> []) (map (filter (fun s => negb (belongs ss s))) t) in
      g ← (match gone with
           | [] => Ret g
           | _ => invalidate_lookup_cache (Some context) (netsnmp_subtree_replace_first left (Some context) g)
           end);
      unregister_contexts ss contexts g
  end.

Definition unregister_mibs_by_session (ss : option (Z * Z)) (g : agent_registry) : outcome agent_registry :=
  unregister_contexts ss (context_subtrees g) g.
End registry.

Arguments Loaded {M V T} rc linked new_sub t.
Arguments Astray {M V T}.
