(* ===== verification/RegistryMap.v ===== *)
(** * Facts about the registry

    The order of names, the search with the skipped comparisons, and what
    splitting, merging and unloading do to the registrations that cover a point of the tree
    of object identifiers. *)

From stdpp Require Import list sorting.
From Stdlib Require Import Sorting.Sorted.
From S2P Require Import Prelude Bytes AsnTypes AsnBuild AsnRbuild Oid Vacm Lcd Scapi Users UsmMsg Session Client CString Keytools ReadConfig UserConfig Container ContainersProps AgentHandler Registry.

(** ** Names *)

Lemma compare_lex a b : short a -> short b -> compare a b = Ret (lex a b).
Proof. intros. unfold compare. rewrite <- (app_nil_r a) at 1. rewrite <- (app_nil_r b) at 1. by apply snmp_oid_compare_spec. Qed.

Lemma compare_ll_lex a b : short a -> short b -> compare_ll a b = Ret (lex a b, Z.of_nat (common a b) + 1).
Proof. intros. unfold compare_ll. rewrite <- (app_nil_r a) at 1. rewrite <- (app_nil_r b) at 1. by apply netsnmp_oid_compare_ll_spec. Qed.

Lemma equals_eq a b : short a -> short b -> equals a b = Ret (if bool_decide (a = b) then 0 else 1).
Proof.
  intros. unfold equals. rewrite <- (app_nil_r a) at 1. rewrite <- (app_nil_r b) at 1. by apply netsnmp_oid_equals_spec.
Qed.

Lemma equals_0 a b : short a -> short b -> exists e, equals a b = Ret e /\ (e =? 0) = bool_decide (a = b).
Proof. intros. rewrite equals_eq by done. eexists. split; [done|]. by case_bool_decide. Qed.

(** A name that is not before [p] is not before [m] either when [m] agrees with
    [p] further than the name does. *)
Lemma skip_is_right a : forall p m, 0 <= lex a p -> (common a p < common p m)%nat ->
  0 <= lex a m /\ common a m = common a p.
Proof.
  induction a as [|x a IH]; intros [|y p] [|z m]; cbn; try lia.
  destruct (Z.eqb_spec x y) as [->|]; destruct (Z.eqb_spec y z) as [->|]; try lia.
  - rewrite !Z.ltb_irrefl. intros ??. destruct (IH p m); [done|lia|]. by split; [|f_equal].
  - destruct (Z.ltb_spec x z), (Z.ltb_spec z x), (Z.eqb_spec x z); lia.
Qed.

(** The name after [name] and everything below it. *)
Definition next_name (name : list Z) : list Z := alter (fun x => x + 1) (length name - 1)%nat name.

Lemma next_name_snoc p x : next_name (p ++ [x]) = p ++ [x + 1].
Proof.
  unfold next_name. rewrite length_app. cbn [length]. replace (length p + 1 - 1)%nat with (length p + 0)%nat by lia.
  by rewrite alter_app_r.
Qed.

Lemma in_subtree name o : name <> [] -> name `prefix_of` o <-> lex name o <= 0 /\ lex o (next_name name) < 0.
Proof.
  intros Hn. destruct (exists_last Hn) as (p & x & ->). rewrite next_name_snoc. clear Hn. revert o.
  induction p as [|y p IH]; intros [|z o]; cbn.
  - split; [by intros [? ?]|intros [? ?]; exfalso; lia].
  - destruct (Z.lt_trichotomy x z) as [?|[<-|?]].
    + replace (x <? z) with true by lia. replace (z <? x + 1) with false by lia. split; [|intros [_ Hz]; exfalso; revert Hz; destruct (Z.ltb_spec (x + 1) z), o; cbn; lia].
      intros [k Hk]. injection Hk as -> _. lia.
    + rewrite Z.ltb_irrefl. replace (x <? x + 1) with true by lia. split; [intros _; destruct o; cbn; lia|].
      intros _. apply prefix_cons, prefix_nil.
    + replace (x <? z) with false by lia. replace (z <? x) with true by lia. split; [|intros [? _]; exfalso; lia].
      intros [k Hk]. injection Hk as -> _. lia.
  - split; [by intros [? ?]|intros [? ?]; exfalso; lia].
  - destruct (Z.ltb_spec y z), (Z.ltb_spec z y); try lia; cbn.
    1-2: split; [intros [k Hk]; injection Hk as -> _; lia|intros [? ?]; exfalso; lia].
    assert (y = z) as -> by lia. rewrite <- IH. split; [apply prefix_cons_inv_2|apply prefix_cons].
Qed.

Lemma next_name_after name : name <> [] -> lex name (next_name name) < 0.
Proof. intros H. by apply in_subtree. Qed.

Lemma length_next_name name : length (next_name name) = length name.
Proof. apply length_alter. Qed.

(** ** Searching *)

Section search.
Context {M V : Type} `{Allocator}.
Abbreviation subtree := (netsnmp_subtree M V).
Abbreviation region := (list subtree).
Abbreviation tree := (list (list subtree)).
Implicit Types (s : subtree) (r : region) (t : tree) (o name : list Z).

(** The reference: every region is compared. *)
Fixpoint regions_not_after name t : nat :=
  match t with
  | [] => O
  | r :: next => if lex name (start_of r) <? 0 then O else S (regions_not_after name next)
  end.

Definition short_starts t : Prop := Forall (fun r => short (start_of r)) t.

Lemma oid_off_common p r : short (start_of p) -> short (start_of r) ->
  oid_off (Some p) r = Ret (Z.of_nat (common (start_of p) (start_of r)) + 1).
Proof. intros. unfold oid_off. by rewrite compare_ll_lex, bind_ret. Qed.

Lemma find_loop_linear name t : short name -> short_starts t -> forall before ll_off,
  match before with
  | Some p => short (start_of p) /\ 0 <= lex name (start_of p) /\ ll_off = Z.of_nat (common name (start_of p)) + 1
  | None => ll_off = 0
  end ->
  find_loop name t before ll_off = Ret (regions_not_after name t, (regions_not_after name t <? length t)%nat).
Proof.
  intros Hn. induction 1 as [|r next Hr _ IH]; intros before ll_off Hb; [done|]. cbn [find_loop regions_not_after].
  assert (Hnext : 0 <= lex name (start_of r) -> forall off, off = Z.of_nat (common name (start_of r)) + 1 ->
            ('(n, found) ← find_loop name next (Some r) off; Ret (S n, found))
            = Ret (S (regions_not_after name next), (S (regions_not_after name next) <? length (r :: next))%nat)).
  { intros Hle off ->. by rewrite (IH (Some r)). }
  assert (Hoff : exists off, oid_off before r = Ret off /\
            (negb (negb (ll_off =? 0) && negb (off =? 0) && (ll_off <? off)) = false ->
             0 <= lex name (start_of r) /\ ll_off = Z.of_nat (common name (start_of r)) + 1)).
  { destruct before as [p|]; [|exists 0; by subst ll_off]. destruct Hb as (Hp & Hle & ->).
    eexists. split; [by apply oid_off_common|]. intros Hskip. rewrite negb_false_iff, !andb_true_iff in Hskip.
    destruct Hskip as [_ Hskip%Z.ltb_lt]. destruct (skip_is_right name (start_of p) (start_of r)) as [? ->]; [done|lia|done]. }
  destruct Hoff as (off & -> & Hskip). rewrite bind_ret. destruct (negb _).
  - rewrite compare_ll_lex, bind_ret by done. destruct (Z.ltb_spec (lex name (start_of r)) 0); [done|]. by apply Hnext.
  - destruct Hskip as [Hle ->]; [done|]. destruct (Z.ltb_spec (lex name (start_of r)) 0); [lia|]. by apply Hnext.
Qed.

Definition before_first (n : nat) : option nat := match n with O => None | S k => Some k end.

Lemma find_prev_linear name t : short name -> short_starts t ->
  find_prev t name = Ret (before_first (regions_not_after name t)).
Proof. intros. unfold find_prev. by rewrite find_loop_linear, bind_ret. Qed.
End search.

(** ** Copies *)

Section copies.
Context {M V : Type} `{Allocator}.
Abbreviation subtree := (netsnmp_subtree M V).
Abbreviation region := (list subtree).
Abbreviation registration := (netsnmp_handler_registration M V).
Implicit Types (s : subtree) (r : region) (x : registration) (o name : list Z).
Hypothesis memory : forall n, n <= 4096 -> alloc n = true.

Definition name_fits name : Prop := 0 < len name <= 128.

Definition fits_text (text : option (list Z)) : Prop := forall n, text = Some n -> len n <= 4000.

Definition fits_handler (h : netsnmp_mib_handler M V) : Prop :=
  fits_text (handler_name h) /\ forall clone v, data_clone h = Some clone -> is_Some (clone v).

Definition fits_registration x : Prop :=
  fits_text (handlerName x) /\ fits_text (contextName x) /\ len (rootoid x) <= 128 /\ handler x <> []
  /\ Forall fits_handler (handler x).

Definition fits s : Prop :=
  name_fits (name_a s) /\ len (label_a s) <= 4000 /\ fits_registration (t_reginfo s).

Lemma name_fits_short name : name_fits name -> short name.
Proof. unfold name_fits, short. lia. Qed.

Lemma strdup_fits n : len n <= 4000 -> strdup n = Some n.
Proof. intros. unfold strdup. by rewrite memory by lia. Qed.

Lemma text_copied text : fits_text text ->
  match text with Some n => n ← strdup n; Some (Some n) | None => Some None end = Some text.
Proof. destruct text as [n|]; [|done]. intros Hn. by rewrite strdup_fits by (by apply Hn). Qed.

Lemma chain_copied chain : chain <> [] -> Forall fits_handler chain ->
  exists c, netsnmp_handler_dup chain = Some c /\ c <> [] /\ Forall fits_handler c.
Proof.
  induction chain as [|h next IH]; [done|]. intros _ [[Hn Hc] Hnext]%Forall_cons. cbn [netsnmp_handler_dup].
  assert (Hd : exists d, _clone_handler h = Some d /\ handler_name d = handler_name h).
  { unfold _clone_handler, netsnmp_create_handler. rewrite memory by (unfold sizeof_mib_handler; lia). cbn [negb].
    destruct (handler_name h) as [n|] eqn:E; [|by eexists]. rewrite strdup_fits by (by apply Hn). by eexists. }
  destruct Hd as (d & -> & Ed). cbn [mbind option_bind].
  assert (Hv : exists v, match myvoid h, data_clone h with
                         | Some v, Some clone => v ← clone v; Some (Some v)
                         | v, _ => Some v
                         end = Some v).
  { destruct (myvoid h) as [v|], (data_clone h) as [clone|] eqn:E; try by eexists.
    destruct (Hc clone v eq_refl) as [v' Ev]. cbn. rewrite Ev. by eexists. }
  destruct Hv as [v ->]. cbn [mbind option_bind].
  assert (Hfd : fits_handler (with_myvoid v (data_clone h) d)) by (split; [by rewrite <- Ed in Hn|exact Hc]).
  destruct next as [|h' next]; [exists [with_myvoid v (data_clone h) d]; split_and!; [done|done|by apply Forall_singleton]|].
  destruct IH as (c & -> & Hne & Hfc); [done|done|]. cbn [mbind option_bind]. eexists. split_and!; [done|done|by constructor].
Qed.

Lemma registration_copied x : fits_registration x ->
  exists c, netsnmp_handler_registration_dup x = Some c /\ fits_registration c.
Proof.
  intros (Hn & Hc & Ho & Hne & Hh). unfold netsnmp_handler_registration_dup.
  rewrite memory by (unfold sizeof_handler_registration; lia). cbn [negb]. rewrite text_copied by done. cbn [mbind option_bind].
  rewrite text_copied by done. cbn [mbind option_bind]. rewrite memory by lia. cbn [negb].
  destruct (chain_copied (handler x)) as (c & -> & ? & ?); [done..|]. cbn. by eexists.
Qed.

(** Two nodes of the same registration. *)
Definition id_of s : list Z * Z * list Z := (name_a s, t_priority s, label_a s).

Lemma node_copied s : fits s -> len (start_a s) <= 128 -> len (end_a s) <= 128 ->
  exists c, netsnmp_subtree_deepcopy s = Ret (Some c) /\ fits c /\ id_of c = id_of s /\
    start_a c = start_a s /\ end_a c = end_a s.
Proof.
  intros (Hn & Hl & Hr) Hs He. unfold netsnmp_subtree_deepcopy. unfold name_fits in Hn.
  rewrite memory by (unfold sizeof_subtree; lia). rewrite !memory by lia. cbn [negb andb].
  destruct (registration_copied _ Hr) as (c & -> & ?). by eexists.
Qed.

(** ** Splitting *)

Lemma split_spec name r : name_fits name ->
  Forall (fun s => fits s /\ name_fits (start_a s) /\ name_fits (end_a s) /\ lex name (end_a s) <= 0) r ->
  exists first second, netsnmp_subtree_split r name = Ret (first, Some second) /\
    Forall2 (fun a b => id_of b = id_of a /\ start_a b = start_a a /\ end_a b = name /\ fits b) r first /\
    Forall2 (fun a b => id_of b = id_of a /\ start_a b = name /\ end_a b = end_a a /\ fits b) r second.
Proof.
  intros Hname. induction 1 as [|s r (Hs & Hst & Hen & Hle) _ (first & second & E & H1 & H2)]; [by exists [], []|].
  cbn [netsnmp_subtree_split]. rewrite compare_lex, bind_ret by (by apply name_fits_short).
  replace (0 <? lex name (end_a s)) with false by lia. unfold name_fits in *.
  destruct (node_copied s) as (c & -> & Hc & Eid & _ & Ee); [done|lia..|]. rewrite bind_ret, memory by lia. cbn [negb].
  rewrite E, bind_ret. do 2 eexists. split; [done|]. by split; constructor.
Qed.
End copies.

(** * The registry as a map from points to registrations

    [P o k] says that the registration [k] covers the name [o]; a tree spans an
    interval of names when its regions follow one another and each has in its
    stack, in the right order, exactly what covers every point of it. *)

(** Order on names, to be chained. *)
Lemma lex_lt_le a b c : lex a b < 0 -> lex b c <= 0 -> lex a c < 0.
Proof. apply ord_lt_le_trans, _. Qed.
Lemma lex_le_lt a b c : lex a b <= 0 -> lex b c < 0 -> lex a c < 0.
Proof. apply ord_le_lt_trans, _. Qed.
Lemma lex_le_or a b : lex a b <= 0 \/ lex b a < 0.
Proof. rewrite (lex_opp a b). lia. Qed.

Section map.
Context {M V : Type} `{Allocator}.
Abbreviation subtree := (netsnmp_subtree M V).
Abbreviation region := (list subtree).
Abbreviation tree := (list (list subtree)).
Abbreviation key := (list Z * Z * list Z)%type.
Implicit Types (s : subtree) (r : region) (t : tree) (o lo hi name : list Z) (k : key) (P : list Z -> key -> Prop).

(** A longer name goes first, then a lower number of the priority. *)
Definition above (x y : key) : Prop :=
  len y.1.1 < len x.1.1 \/ (len x.1.1 = len y.1.1 /\ x.1.2 < y.1.2).

Record region_ok P lo r : Prop := {
  ro_some : r <> [];
  ro_span : Forall (fun s => start_a s = lo /\ end_a s = end_of r /\ fits s) r;
  ro_lt : lex lo (end_of r) < 0;
  ro_lo : name_fits lo;
  ro_hi : name_fits (end_of r);
  ro_order : StronglySorted above (id_of <$> r);
  ro_here : forall o k, lex lo o <= 0 -> lex o (end_of r) < 0 -> k ∈ id_of <$> r <-> P o k
}.

Fixpoint spans P lo t hi : Prop :=
  match t with [] => lo = hi | r :: next => region_ok P lo r /\ spans P (end_of r) next hi end.

Lemma ro_start P lo r : region_ok P lo r -> start_of r = lo.
Proof. intros [Hne Hspan _ _ _ _ _]. destruct r as [|s r]; [done|]. by apply Forall_cons in Hspan as [[? _] _]. Qed.

Lemma spans_app P t1 : forall lo t2 hi, spans P lo (t1 ++ t2) hi <-> exists mid, spans P lo t1 mid /\ spans P mid t2 hi.
Proof.
  induction t1 as [|r t1 IH]; intros lo t2 hi; cbn; [by split; [exists lo|intros (? & -> & ?)]|].
  rewrite IH. split; [intros (? & mid & ? & ?)|intros (mid & [? ?] & ?)]; [by exists mid|split; [done|by exists mid]].
Qed.

Lemma spans_le P t : forall lo hi, spans P lo t hi -> lex lo hi <= 0.
Proof.
  induction t as [|r t IH]; intros lo hi; cbn; [intros ->; by rewrite lex_refl|]. intros [Hr Ht].
  pose proof (ro_lt _ _ _ Hr). apply IH in Ht. pose proof (lex_lt_le lo (end_of r) hi). lia.
Qed.

Lemma region_ext P P' lo r : (forall o k, lex lo o <= 0 -> lex o (end_of r) < 0 -> P o k <-> P' o k) ->
  region_ok P lo r -> region_ok P' lo r.
Proof. intros HP [? ? ? ? ? ? Hh]. constructor; try done. intros o k ? ?. rewrite <- HP by done. by apply Hh. Qed.

Lemma spans_ext P P' t : forall lo hi, (forall o k, lex lo o <= 0 -> lex o hi < 0 -> P o k <-> P' o k) ->
  spans P lo t hi -> spans P' lo t hi.
Proof.
  induction t as [|r t IH]; intros lo hi HP; cbn; [done|]. intros [Hr Ht]. pose proof (spans_le _ _ _ _ Ht) as Hle.
  pose proof (ro_lt _ _ _ Hr) as Hlt. split.
  - eapply region_ext; [|done]. intros o k ? ?. apply HP; [done|]. by eapply lex_lt_le.
  - apply IH; [|done]. intros o k Ho ?. apply HP; [|done]. eapply lex_le_trans; [|exact Ho]. lia.
Qed.

Lemma spans_short P t : forall lo hi, spans P lo t hi -> short_starts t.
Proof.
  induction t as [|r t IH]; intros lo hi; cbn; [constructor|]. intros [Hr Ht]. constructor; [|by eapply IH].
  rewrite (ro_start _ _ _ Hr). apply name_fits_short, Hr.
Qed.

(** ** Looking up a point *)

Lemma not_past_split P t : forall lo hi o, spans P lo t hi -> lex lo o <= 0 -> lex o hi < 0 ->
  exists t1 r t2, t = t1 ++ r :: t2 /\ regions_not_after o t = S (length t1) /\
    spans P lo t1 (start_of r) /\ region_ok P (start_of r) r /\ spans P (end_of r) t2 hi /\
    lex (start_of r) o <= 0 /\ lex o (end_of r) < 0.
Proof.
  induction t as [|r t IH]; intros lo hi o; cbn [spans].
  { intros -> ? ?. pose proof (lex_le_lt hi o hi). rewrite lex_refl in *. lia. }
  intros [Hr Ht] Hlo Hhi. pose proof (ro_start _ _ _ Hr) as Es. cbn [regions_not_after]. rewrite Es.
  replace (lex o lo <? 0) with false by (rewrite (lex_opp lo o); lia).
  destruct (lex_le_or (end_of r) o) as [Hge|Hlt].
  - destruct (IH (end_of r) hi o Ht Hge Hhi) as (t1 & r' & t2 & -> & E & H1 & H2 & H3 & H4 & H5).
    exists (r :: t1), r', t2. cbn [length app spans]. rewrite E. by split_and!.
  - exists [], r, t. cbn [length app spans]. rewrite Es. split_and!; try done. f_equal. destruct t as [|r' t]; [done|].
    destruct Ht as [Hr' _]. cbn. rewrite (ro_start _ _ _ Hr'). by replace (lex o (end_of r) <? 0) with true by lia.
Qed.

Lemma find_spec P t lo hi o : spans P lo t hi -> name_fits o -> lex lo o <= 0 -> lex o hi < 0 ->
  exists t1 r t2, t = t1 ++ r :: t2 /\ find t o = Ret (Some (length t1)) /\
    spans P lo t1 (start_of r) /\ region_ok P (start_of r) r /\ spans P (end_of r) t2 hi /\
    lex (start_of r) o <= 0 /\ lex o (end_of r) < 0.
Proof.
  intros Ht Ho Hlo Hhi. destruct (not_past_split _ _ _ _ _ Ht Hlo Hhi) as (t1 & r & t2 & -> & E & H1 & H2 & H3 & H4 & H5).
  exists t1, r, t2. split_and!; try done. unfold find.
  rewrite find_prev_linear by (by (apply name_fits_short || eapply spans_short)). rewrite E. cbn [before_first]. rewrite bind_ret.
  unfold covers. rewrite list_lookup_middle by done. rewrite compare_lex, bind_ret by (apply name_fits_short; first [done|apply H2]).
  by replace (lex o (end_of r) <? 0) with true by lia.
Qed.

(** What covers a point is in the stack that is found, and on top what comes
    before all the rest. *)
Lemma region_top P lo r o s r' : region_ok P lo r -> lex lo o <= 0 -> lex o (end_of r) < 0 -> r = s :: r' ->
  P o (id_of s) /\ forall k, P o k -> k = id_of s \/ above (id_of s) k.
Proof.
  intros Hr Hlo Hhi ->. split.
  - apply (ro_here _ _ _ Hr); [done..|]. cbn. by left.
  - intros k Hk. apply (ro_here _ _ _ Hr) in Hk; [|done..]. cbn in Hk. apply elem_of_cons in Hk as [->|Hk]; [by left|right].
    pose proof (ro_order _ _ _ Hr) as Hs. cbn in Hs. apply StronglySorted_inv in Hs as [_ Hs]. by eapply Forall_forall in Hs.
Qed.

(** ** Cutting a region *)

Lemma ids_kept (Q : subtree -> subtree -> Prop) r r' : (forall a b, Q a b -> id_of b = id_of a) -> Forall2 Q r r' ->
  id_of <$> r' = id_of <$> r.
Proof. intros HQ. induction 1; [done|]. cbn. f_equal; [by apply HQ|done]. Qed.

Lemma end_of_all r hi : r <> [] -> Forall (fun s => end_a s = hi) r -> end_of r = hi.
Proof. destruct r; [done|]. intros _ [? _]%Forall_cons. done. Qed.

Lemma region_of_ids P lo r r' lo' hi' : region_ok P lo r -> id_of <$> r' = id_of <$> r ->
  Forall (fun s => start_a s = lo' /\ end_a s = hi' /\ fits s) r' -> lex lo lo' <= 0 -> lex hi' (end_of r) <= 0 ->
  lex lo' hi' < 0 -> name_fits lo' -> name_fits hi' -> region_ok P lo' r' /\ end_of r' = hi'.
Proof.
  intros Hr Hids Hall Hlo Hhi Hlt Hfl Hfh. assert (Hne : r' <> []).
  { intros ->. destruct (ro_some _ _ _ Hr). by destruct r. }
  assert (Ee : end_of r' = hi').
  { apply end_of_all; [done|]. eapply Forall_impl; [exact Hall|]. cbn. tauto. }
  split; [|done]. constructor; rewrite ?Ee, ?Hids; try done; [by apply Hr|]. intros o k Ho1 Ho2. apply Hr.
  - by eapply lex_le_trans.
  - by eapply lex_lt_le.
Qed.

Section memory.
Hypothesis memory : forall n, n <= 4096 -> alloc n = true.

Lemma split_region P lo r m : region_ok P lo r -> name_fits m -> lex lo m < 0 -> lex m (end_of r) < 0 ->
  exists first second, netsnmp_subtree_split r m = Ret (first, Some second) /\
    region_ok P lo first /\ end_of first = m /\ region_ok P m second /\ end_of second = end_of r.
Proof.
  intros Hr Hm Hlo Hhi. destruct (split_spec memory m r Hm) as (first & second & E & H1 & H2).
  { eapply Forall_impl; [apply Hr|]. cbn. intros s (-> & -> & ?). split_and!; [done|apply Hr|apply Hr|lia]. }
  exists first, second. pose proof (ro_span _ _ _ Hr) as Hspan.
  destruct (region_of_ids P lo r first lo m) as [??]; try done; try lia.
  { eapply ids_kept; [|exact H1]. cbn. tauto. }
  { eapply Forall2_Forall_r; [exact H1|]. eapply Forall_impl; [exact Hspan|]. cbn. intros ? (? & ? & ?) ? (? & ? & ? & ?).
    split_and!; congruence || done. }
  { rewrite lex_refl. lia. }
  { apply Hr. }
  destruct (region_of_ids P lo r second m (end_of r)) as [??]; try done; try lia.
  { eapply ids_kept; [|exact H2]. cbn. tauto. }
  { eapply Forall2_Forall_r; [exact H2|]. eapply Forall_impl; [exact Hspan|]. cbn. intros ? (? & ? & ?) ? (? & ? & ? & ?).
    split_and!; congruence || done. }
  { rewrite lex_refl. lia. }
  { apply Hr. }
Qed.
End memory.

(** ** Merging a registration into a region *)

(** Two registrations that there is no order between. *)
Definition same_rank (x y : key) : Prop := len x.1.1 = len y.1.1 /\ x.1.2 = y.1.2.

#[local] Instance above_trans : Transitive above.
Proof. unfold above. intros x y z. lia. Qed.

Lemma above_or x y : above x y \/ same_rank x y \/ above y x.
Proof. unfold above, same_rank. lia. Qed.

Lemma longer_spec r n : exists front rest, longer_names r n = (front, rest) /\ r = front ++ rest /\
  Forall (fun s => n < len (name_a s)) front /\ match rest with [] => True | s :: _ => len (name_a s) <= n end.
Proof.
  induction r as [|s r (front & rest & E & -> & Hf & Hr)]; [by exists [], []|]. cbn [longer_names].
  destruct (Z.ltb_spec n (len (name_a s))); [|by exists [], (s :: front ++ rest)].
  rewrite E. exists (s :: front), rest. by split_and!; [| |constructor|].
Qed.

Lemma lower_spec r n p : exists front rest, lower_priorities r n p = (front, rest) /\ r = front ++ rest /\
  Forall (fun s => len (name_a s) = n /\ t_priority s < p) front /\
  match rest with [] => True | s :: _ => ~ (len (name_a s) = n /\ t_priority s < p) end.
Proof.
  induction r as [|s r (front & rest & E & -> & Hf & Hr)]; [by exists [], []|]. cbn [lower_priorities].
  destruct (Z.eqb_spec (len (name_a s)) n), (Z.ltb_spec (t_priority s) p); cbn [andb].
  2-4: exists [], (s :: front ++ rest); split_and!; [done|done|constructor|lia].
  rewrite E. exists (s :: front), rest. by split_and!; [| |constructor|].
Qed.

(** The two walks together stop at the first registration that is not above. *)
Lemma walk_spec (new_sub : subtree) r : StronglySorted above (id_of <$> r) ->
  exists longer rest1 lower rest,
    longer_names r (len (name_a new_sub)) = (longer, rest1) /\
    lower_priorities rest1 (len (name_a new_sub)) (t_priority new_sub) = (lower, rest) /\
    r = (longer ++ lower) ++ rest /\ Forall (fun s => above (id_of s) (id_of new_sub)) (longer ++ lower) /\
    match rest with [] => True | s :: _ => ~ above (id_of s) (id_of new_sub) end.
Proof.
  intros Hs. destruct (longer_spec r (len (name_a new_sub))) as (longer & rest1 & E1 & -> & H1 & H2).
  destruct (lower_spec rest1 (len (name_a new_sub)) (t_priority new_sub)) as (lower & rest & E2 & -> & H3 & H4).
  exists longer, (lower ++ rest), lower, rest. split_and!; [done|done|by rewrite app_assoc| |].
  - apply Forall_app. split; (eapply Forall_impl; [done|]); unfold above; cbn; lia.
  - destruct rest as [|s rest]; [done|]. unfold above. cbn. destruct lower as [|s' lower]; cbn in H2; [lia|].
    apply Forall_cons in H3 as [[E3 _] _]. rewrite fmap_app in Hs. apply StronglySorted_app_1_r in Hs. cbn in Hs.
    apply StronglySorted_inv in Hs as [_ Hs]. rewrite fmap_app in Hs. apply Forall_app in Hs as [_ Hs].
    apply Forall_cons in Hs as [Hs _]. unfold above in Hs. cbn in Hs. lia.
Qed.

(** [new_sub] with the registrations of its region. *)
Definition joined P (new_sub : subtree) : list Z -> key -> Prop :=
  fun o k => P o k \/ (k = id_of new_sub /\ lex (start_a new_sub) o <= 0 /\ lex o (end_a new_sub) < 0).

Lemma sorted_insert (front rest : region) s : StronglySorted above (id_of <$> front ++ rest) ->
  Forall (fun x => above (id_of x) (id_of s)) front -> Forall (fun x => above (id_of s) (id_of x)) rest ->
  StronglySorted above (id_of <$> front ++ s :: rest).
Proof.
  rewrite !fmap_app. cbn. induction front as [|x front IH]; cbn; intros Hs Hf Hr.
  - constructor; [done|]. by apply Forall_fmap.
  - apply Forall_cons in Hf as [Hx Hf]. apply StronglySorted_inv in Hs as [Hs Hall].
    constructor; [by apply IH|]. apply Forall_app in Hall as [? ?]. apply Forall_app. split; [done|]. by constructor.
Qed.

Lemma merge_spec P t (i : nat) new_sub r : region_ok P (start_a new_sub) r -> end_a new_sub = end_of r -> fits new_sub ->
  (exists s, s ∈ r /\ same_rank (id_of s) (id_of new_sub)) /\ merge new_sub t i r = Loaded MIB_DUPLICATE_REGISTRATION false new_sub t
  \/ (forall s, s ∈ r -> ~ same_rank (id_of s) (id_of new_sub)) /\
     (i <> O \/ (exists s, s ∈ r /\ above (id_of s) (id_of new_sub)) ->
      exists r', merge new_sub t i r = Loaded MIB_REGISTERED_OK true new_sub (<[i := r']> t) /\
        region_ok (joined P new_sub) (start_a new_sub) r' /\ end_of r' = end_of r).
Proof.
  intros Hr Ee Hfits. destruct (walk_spec new_sub r) as (longer & rest1 & lower & rest & E1 & E2 & Er & Hf & Hhead); [apply Hr|].
  unfold merge. rewrite E1, E2. pose proof (ro_order _ _ _ Hr) as Hs. rewrite Er in Hs.
  assert (Hrest : forall s, s ∈ rest -> match rest with [] => True | x :: _ => s = x \/ above (id_of x) (id_of s) end).
  { destruct rest as [|x rest]; [done|]. intros s [->|Hin]%elem_of_cons; [by left|right]. rewrite fmap_app in Hs.
    apply StronglySorted_app_1_r in Hs. cbn in Hs. apply StronglySorted_inv in Hs as [_ Hs]. rewrite Forall_fmap in Hs.
    by eapply Forall_forall in Hs. }
  destruct (match rest with [] => false | next :: _ => _ end) eqn:Edup.
  { left. destruct rest as [|next rest]; [done|]. apply andb_true_iff in Edup as [?%Z.eqb_eq ?%Z.eqb_eq]. split; [|done].
    exists next. rewrite Er. split; [rewrite elem_of_app; right; by left|done]. }
  right. assert (Hbelow : Forall (fun x => above (id_of new_sub) (id_of x)) rest).
  { destruct rest as [|x rest]; [constructor|]. assert (Hx : above (id_of new_sub) (id_of x)).
    { destruct (above_or (id_of x) (id_of new_sub)) as [?|[[? ?]|?]]; [done| |done]. exfalso. cbn in *.
      apply andb_false_iff in Edup as [?%Z.eqb_neq|?%Z.eqb_neq]; lia. }
    apply Forall_forall. intros s Hin. destruct (Hrest s) as [->|Hxs]; [done|done|]. by etransitivity. }
  split.
  { intros s Hin Hrank. rewrite Er, elem_of_app in Hin. unfold same_rank in Hrank. unfold above in Hf, Hbelow.
    destruct Hin as [Hin|Hin]; [eapply Forall_forall in Hf|eapply Forall_forall in Hbelow]; try exact Hin; lia. }
  intros Hk. assert (Hlist : match longer ++ lower, i with [], O => False | _, _ => True end).
  { destruct (longer ++ lower) eqn:El, i; try done. destruct Hk as [?|(s & Hin & Habove)]; [done|]. rewrite Er in Hin. cbn in Hin.
    eapply Forall_forall in Hbelow; [|exact Hin]. unfold above in *. lia. }
  exists ((longer ++ lower) ++ new_sub :: rest). split; [by destruct (longer ++ lower), i|].
  assert (Hall : Forall (fun s => start_a s = start_a new_sub /\ end_a s = end_of r /\ fits s) ((longer ++ lower) ++ new_sub :: rest)).
  { assert (Hspan : Forall (fun s => start_a s = start_a new_sub /\ end_a s = end_of r /\ fits s) ((longer ++ lower) ++ rest))
      by (rewrite <- Er; apply Hr).
    apply Forall_app in Hspan as [? ?]. apply Forall_app.
    split; [done|]. by constructor. }
  assert (Eend : end_of ((longer ++ lower) ++ new_sub :: rest) = end_of r).
  { apply end_of_all; [by destruct (longer ++ lower)|]. eapply Forall_impl; [exact Hall|]. cbn. tauto. }
  split; [|done]. constructor; rewrite ?Eend; try (by apply Hr); [by destruct (longer ++ lower)|exact Hall|by apply sorted_insert|].
  intros o k' Ho1 Ho2. unfold joined. rewrite <- (ro_here _ _ _ Hr) by done. rewrite Ee, Er, !fmap_app, !elem_of_app. cbn.
  rewrite elem_of_cons, <- Er. clear - Ho1 Ho2. tauto.
Qed.

(** ** Loading a registration *)

(** What is left of the tree after a region. *)
Definition later o t : nat := length (filter (fun r => lex o (start_of r) < 0) t).

Lemma later_spec P t lo hi o : spans P lo t hi -> lex o lo < 0 -> later o t = length t.
Proof.
  intros Ht Ho. unfold later. f_equal. revert lo Ht Ho. induction t as [|r t IH]; intros lo; cbn [spans]; [done|].
  intros [Hr Ht] Ho. rewrite filter_cons_True by (by rewrite (ro_start _ _ _ Hr)). f_equal. apply (IH (end_of r)); [done|].
  eapply lex_lt_le; [exact Ho|]. pose proof (ro_lt _ _ _ Hr). lia.
Qed.

Lemma earlier_spec P t lo hi o : spans P lo t hi -> lex hi o <= 0 -> later o t = O.
Proof.
  intros Ht Ho. unfold later. assert (E : filter (fun r => lex o (start_of r) < 0) t = []); [|by rewrite E].
  revert lo Ht. induction t as [|r t IH]; intros lo; cbn [spans]; [done|]. intros [Hr Ht].
  pose proof (spans_le _ _ _ _ Ht) as Hle. rewrite filter_cons_False; [by eapply IH|]. rewrite (ro_start _ _ _ Hr), (lex_opp lo o).
  pose proof (ro_lt _ _ _ Hr). assert (lex (end_of r) o <= 0) by (by eapply lex_le_trans). pose proof (lex_lt_le lo (end_of r) o). lia.
Qed.

Lemma later_app o t1 t2 : later o (t1 ++ t2) = (later o t1 + later o t2)%nat.
Proof. unfold later. by rewrite filter_app, length_app. Qed.

Lemma later_around P lo hi o t1 r t2 : spans P lo t1 (start_of r) -> spans P (end_of r) t2 hi ->
  lex (start_of r) o <= 0 -> lex o (end_of r) < 0 -> later o (t1 ++ r :: t2) = length t2.
Proof.
  intros H1 H2 Hlo Hhi. rewrite later_app, (earlier_spec P t1 lo (start_of r)) by done.
  assert (Er : later o (r :: t2) = later o t2) by (unfold later; rewrite filter_cons_False; [done|rewrite (lex_opp (start_of r) o); lia]).
  by rewrite Er, (later_spec P t2 (end_of r) hi).
Qed.

(** Where a name is found, the tree in three. *)
Definition found P t lo hi o t1 r t2 : Prop :=
  t = t1 ++ r :: t2 /\ find t o = Ret (Some (length t1)) /\
  spans P lo t1 (start_of r) /\ region_ok P (start_of r) r /\ spans P (end_of r) t2 hi /\
  lex (start_of r) o <= 0 /\ lex o (end_of r) < 0.

Lemma found_here P lo hi o t1 r t2 : spans P lo t1 (start_of r) -> region_ok P (start_of r) r -> spans P (end_of r) t2 hi ->
  name_fits o -> lex (start_of r) o <= 0 -> lex o (end_of r) < 0 -> found P (t1 ++ r :: t2) lo hi o t1 r t2.
Proof.
  intros H1 Hr H2 Ho Hlo Hhi. split_and!; try done.
  assert (Ht : spans P lo (t1 ++ r :: t2) hi) by (apply spans_app; by exists (start_of r)).
  destruct (find_spec P _ lo hi o Ht Ho) as (u1 & q & u2 & Eu & Efind & G1 & Gr & G2 & Glo & Ghi).
  { exact (lex_le_trans _ _ _ (spans_le _ _ _ _ H1) Hlo). }
  { exact (lex_lt_le _ _ _ Hhi (spans_le _ _ _ _ H2)). }
  rewrite Efind. do 2 f_equal. pose proof (later_around P lo hi o u1 q u2 G1 G2 Glo Ghi) as L1.
  pose proof (later_around P lo hi o t1 r t2 H1 H2 Hlo Hhi) as L2. rewrite Eu in L2.
  apply (f_equal length) in Eu. rewrite !length_app in Eu. cbn in Eu. lia.
Qed.

Definition no_conflict P (new_sub : subtree) : Prop :=
  forall o k, lex (start_a new_sub) o <= 0 -> lex o (end_a new_sub) < 0 -> P o k -> ~ same_rank k (id_of new_sub).

(** Where the list begins something stays on top. *)
Definition not_first P lo (new_sub : subtree) : Prop :=
  lex lo (start_a new_sub) < 0 \/ exists k, P (start_a new_sub) k /\ above k (id_of new_sub).

Lemma insert_here_nat {B} (l1 : list B) x y l2 : <[length l1 := y]> (l1 ++ x :: l2) = l1 ++ y :: l2.
Proof. by rewrite insert_app_r_alt, Nat.sub_diag by done. Qed.

(** The case where the two match, after whatever cutting. *)
Lemma merge_whole P lo hi t1 r t2 new_sub :
  spans P lo t1 (start_a new_sub) -> region_ok P (start_a new_sub) r -> spans P (end_of r) t2 hi ->
  end_a new_sub = end_of r -> fits new_sub -> not_first P lo new_sub ->
  (exists k, P (start_a new_sub) k /\ same_rank k (id_of new_sub)) /\
    merge new_sub (t1 ++ r :: t2) (length t1) r = Loaded MIB_DUPLICATE_REGISTRATION false new_sub (t1 ++ r :: t2)
  \/ no_conflict P new_sub /\ exists r',
    merge new_sub (t1 ++ r :: t2) (length t1) r = Loaded MIB_REGISTERED_OK true new_sub (t1 ++ r' :: t2) /\
    spans (joined P new_sub) lo (t1 ++ r' :: t2) hi /\ region_ok (joined P new_sub) (start_a new_sub) r' /\
    end_of r' = end_of r.
Proof.
  intros H1 Hr H2 Ee Hfits Hfirst. pose proof (ro_lt _ _ _ Hr) as Hlt.
  assert (Hids : forall o k, lex (start_a new_sub) o <= 0 -> lex o (end_of r) < 0 -> P o k <-> exists s, s ∈ r /\ k = id_of s).
  { intros o k ??. rewrite <- (ro_here _ _ _ Hr) by done. rewrite list_elem_of_fmap. split; intros (s & ? & ?); by exists s. }
  assert (Hpoint : forall k, P (start_a new_sub) k <-> exists s, s ∈ r /\ k = id_of s)
    by (intros; apply Hids; [by rewrite lex_refl|done]).
  destruct (merge_spec P (t1 ++ r :: t2) (length t1) new_sub r Hr Ee Hfits) as [[(s & Hs & Hrank) E]|[Hno Hok]].
  { left. split; [|done]. exists (id_of s). split; [apply Hpoint; by exists s|done]. }
  right. split; [intros o k Ho1 Ho2 HP; rewrite Ee in Ho2; apply Hids in HP as (s & ? & ->); [|done..]; by apply Hno|].
  destruct Hok as (r' & E & Hr' & Ee').
  { destruct Hfirst as [Hlo|(k & Hk & Habove)]; [left|right].
    - intros Hnil. destruct t1; [cbn in H1; subst lo; rewrite lex_refl in Hlo; lia|done].
    - apply Hpoint in Hk as (s & ? & ->). by exists s. }
  rewrite insert_here_nat in E. exists r'. split_and!; [done| |done|done]. apply spans_app. exists (start_a new_sub). split.
  - eapply spans_ext; [|exact H1]. intros o k ? Ho. unfold joined. split; [by left|]. intros [?|(_ & Ho' & _)]; [done|].
    pose proof (lex_le_lt _ _ _ Ho' Ho). rewrite lex_refl in *. lia.
  - cbn [spans]. split; [done|]. rewrite Ee'. eapply spans_ext; [|exact H2]. intros o k Ho ?. unfold joined. split; [by left|].
    intros [?|(_ & _ & Ho')]; [done|]. rewrite Ee in Ho'. pose proof (lex_le_lt _ _ _ Ho Ho'). rewrite lex_refl in *. lia.
Qed.

Section loading.
Hypothesis memory : forall n, n <= 4096 -> alloc n = true.

Lemma cut_here t1 r t2 halves : cut (t1 ++ r :: t2) (length t1) halves = t1 ++ halves.1 :: halves.2 :: t2.
Proof.
  unfold cut. rewrite take_app_length. replace (S (length t1)) with (length t1 + 1)%nat by lia. by rewrite drop_app_add.
Qed.

(** The region that begins where [new_sub] does. *)
Lemma start_cut P t lo hi (new_sub : subtree) t1 r t2 : found P t lo hi (start_a new_sub) t1 r t2 -> name_fits (start_a new_sub) ->
  exists t1' r',
    at_start new_sub t (length t1) r
    = Ret (Some (t1' ++ r' :: t2, length t1', r')) /\
    spans P lo t1' (start_a new_sub) /\ region_ok P (start_a new_sub) r' /\ end_of r' = end_of r.
Proof.
  intros (-> & _ & H1 & Hr & H2 & Hlo & Hhi) Hfits. unfold at_start.
  destruct (equals_0 (start_a new_sub) (start_of r)) as (e & -> & Eb); [by apply name_fits_short|apply name_fits_short, Hr|].
  rewrite bind_ret, Eb. case_bool_decide as Es.
  { exists t1, r. rewrite Es. by split_and!. }
  destruct (split_region memory P (start_of r) r (start_a new_sub)) as (first & second & -> & Hf & Ef & Hs & Ese); [done..| |done|].
  { destruct (Z.eq_dec (lex (start_of r) (start_a new_sub)) 0) as [E|]; [|lia]. apply lex_eq in E. congruence. }
  rewrite bind_ret. cbn [mbind option_bind]. exists (t1 ++ [first]), second.
  rewrite cut_here, cons_middle, app_assoc. split_and!; try done.
  - by rewrite length_app, Nat.add_1_r.
  - apply spans_app. exists (start_of r). split; [done|]. cbn [spans]. by rewrite Ef.
Qed.

Lemma later_found P t lo hi o t1 r t2 : found P t lo hi o t1 r t2 -> later o t = length t2.
Proof.
  intros (-> & _ & H1 & Hr & H2 & Hlo & Hhi). by eapply later_around.
Qed.

(** The end of [new_sub] is not after that of its region. *)
Lemma load_inside P lo hi t fuel (new_sub : subtree) t1 r t2 :
  found P t lo hi (start_a new_sub) t1 r t2 -> name_fits (start_a new_sub) -> name_fits (end_a new_sub) -> fits new_sub ->
  lex (start_a new_sub) (end_a new_sub) < 0 -> lex (end_a new_sub) (end_of r) <= 0 -> not_first P lo new_sub ->
  exists t',
    load (S fuel) new_sub t = Ret (Loaded MIB_DUPLICATE_REGISTRATION false new_sub t') /\ spans P lo t' hi /\
      (exists k, P (start_a new_sub) k /\ same_rank k (id_of new_sub))
    \/ exists t1' r' t2',
      load (S fuel) new_sub t = Ret (Loaded MIB_REGISTERED_OK true new_sub t') /\ no_conflict P new_sub /\
      t' = t1' ++ r' :: t2' /\ spans (joined P new_sub) lo t' hi /\
      region_ok (joined P new_sub) (start_a new_sub) r' /\ end_of r' = end_a new_sub /\
      (end_a new_sub = end_of r -> t2' = t2).
Proof.
  intros Hfound Hfs Hfe Hfits Hlt Hle Hfirst. destruct (start_cut P t lo hi new_sub t1 r t2 Hfound Hfs)
    as (t1' & r' & Ecut & H1 & Hr' & Ee). destruct Hfound as (Et & Efind & _ & _ & H2 & _). cbn [load].
  rewrite Efind, bind_ret, Et, list_lookup_middle, <- Et, Ecut, bind_ret by done. cbn match.
  rewrite compare_lex, bind_ret by (apply name_fits_short; first [done|apply Hr']). rewrite Ee.
  destruct (Z.eq_dec (lex (end_a new_sub) (end_of r)) 0) as [E0|E0].
  - rewrite E0. cbn [Z.eqb]. apply lex_eq in E0.
    destruct (merge_whole P lo hi t1' r' t2 new_sub) as [[? ->]|[? (r'' & -> & ? & ? & ?)]]; try done; try congruence.
    + eexists. left. split_and!; [done| |done]. apply spans_app. exists (start_a new_sub). cbn [spans]. by rewrite Ee.
    + eexists. right. exists t1', r'', t2. split_and!; try done. congruence.
  - destruct (lex_range (end_a new_sub) (end_of r)) as [E|[E|E]]; [|lia..]. rewrite E. cbn [Z.eqb].
    destruct (split_region memory P (start_a new_sub) r' (end_a new_sub)) as (first & second & Es & Hf & Ef & Hs & Ese); [done|done|done|rewrite Ee; lia|].
    rewrite Es, bind_ret, cut_here. cbn [fst snd].
    destruct (merge_whole P lo hi t1' first (second :: t2) new_sub) as [[? ->]|[? (r'' & -> & ? & ? & ?)]]; try done; try congruence.
    + cbn [spans]. by rewrite Ef, Ese, Ee.
    + eexists. left. split_and!; [done| |done]. apply spans_app. exists (start_a new_sub). cbn [spans]. by rewrite Ef, Ese, Ee.
    + eexists. right. exists t1', r'', (second :: t2). split_and!; try done; [congruence|]. intros E'. rewrite E', lex_refl in E. lia.
Qed.

(** A conflict anywhere shows at the start already. *)
Definition conflict_at_start P (new_sub : subtree) : Prop :=
  (exists k, P (start_a new_sub) k /\ same_rank k (id_of new_sub)) \/ no_conflict P new_sub.

Definition fits_span (new_sub : subtree) : Prop :=
  fits new_sub /\ name_fits (start_a new_sub) /\ name_fits (end_a new_sub) /\ lex (start_a new_sub) (end_a new_sub) < 0.

(** [new_sub] cut in two where its region ends. *)
Lemma split_new m (new_sub : subtree) : fits_span new_sub -> name_fits m -> lex (start_a new_sub) m < 0 -> lex m (end_a new_sub) < 0 ->
  exists new1 new2, netsnmp_subtree_split [new_sub] m = Ret ([new1], Some [new2]) /\
    id_of new1 = id_of new_sub /\ start_a new1 = start_a new_sub /\ end_a new1 = m /\ fits_span new1 /\
    id_of new2 = id_of new_sub /\ start_a new2 = m /\ end_a new2 = end_a new_sub /\ fits_span new2.
Proof.
  intros (Hf & Hs & He & Hlt) Hm H1 H2. destruct (split_spec memory m [new_sub] Hm) as (first & second & E & F1 & F2).
  { apply Forall_singleton. split_and!; [done..|lia]. }
  inversion F1 as [|? new1 ? ? (? & E1 & ? & ?) F1']; subst. inversion F1'; subst.
  inversion F2 as [|? new2 ? ? (? & E2 & E3 & ?) F2']; subst. inversion F2'; subst.
  exists new1, new2. split_and!; try done; (split_and!; congruence || done || idtac); unfold fits_span; rewrite ?E1, ?E2, ?E3; done.
Qed.

Lemma joined_twice P (new_sub new1 new2 : subtree) m o k : id_of new1 = id_of new_sub -> id_of new2 = id_of new_sub ->
  start_a new1 = start_a new_sub -> end_a new1 = m -> start_a new2 = m -> end_a new2 = end_a new_sub ->
  lex (start_a new_sub) m < 0 -> lex m (end_a new_sub) < 0 ->
  joined (joined P new1) new2 o k <-> joined P new_sub o k.
Proof.
  intros I1 I2 E1 E2 E3 E4 Hlo Hhi. unfold joined. rewrite I1, I2, E1, E2, E3, E4.
  assert (Hiff : (lex (start_a new_sub) o <= 0 /\ lex o m < 0) \/ (lex m o <= 0 /\ lex o (end_a new_sub) < 0)
                 <-> lex (start_a new_sub) o <= 0 /\ lex o (end_a new_sub) < 0).
  { split.
    - intros [[? ?]|[? ?]]; (split; [|]); try done; [eapply lex_lt_le; [done|lia]|].
      pose proof (lex_lt_le (start_a new_sub) m o). lia.
    - intros [? ?]. destruct (lex_le_or m o); [right|left]; done. }
  clear - Hiff. tauto.
Qed.

Lemma load_spec lo hi fuel : forall P t (new_sub : subtree), spans P lo t hi -> fits_span new_sub ->
  lex lo (start_a new_sub) <= 0 -> lex (end_a new_sub) hi <= 0 -> not_first P lo new_sub -> conflict_at_start P new_sub ->
  (2 + later (start_a new_sub) t <= fuel)%nat ->
  exists new' t',
    load fuel new_sub t = Ret (Loaded MIB_DUPLICATE_REGISTRATION false new' t') /\ spans P lo t' hi /\
      (exists k, P (start_a new_sub) k /\ same_rank k (id_of new_sub))
    \/ load fuel new_sub t = Ret (Loaded MIB_REGISTERED_OK true new' t') /\ no_conflict P new_sub /\
      id_of new' = id_of new_sub /\ start_a new' = start_a new_sub /\ spans (joined P new_sub) lo t' hi.
Proof.
  induction fuel as [|fuel IH]; intros P t new_sub Ht Hspan Hlo Hhi Hfirst Hconf Hfuel; [lia|].
  pose proof Hspan as (Hfits & Hfs & Hfe & Hlt).
  destruct (find_spec P t lo hi (start_a new_sub)) as (t1 & r & t2 & Hfound); [done..|by eapply lex_lt_le|].
  assert (Hlater : later (start_a new_sub) t = length t2) by (by eapply later_found).
  destruct (lex_le_or (end_a new_sub) (end_of r)) as [Hle|Hgt].
  { destruct (load_inside P lo hi t fuel new_sub t1 r t2) as (t' & [(? & ? & ?)|(? & ? & ? & ? & ? & _ & ? & _)]); try done.
    - exists new_sub, t'. left. by split_and!.
    - exists new_sub, t'. right. by split_and!. }
  (* the first part fills the region, the rest starts with the next *)
  destruct (start_cut P t lo hi new_sub t1 r t2 Hfound Hfs) as (t1' & r' & Ecut & H1 & Hr' & Ee).
  pose proof Hfound as (Et & Efind & _ & Hr & H2 & _ & Hin).
  destruct (split_new (end_of r) new_sub) as (new1 & new2 & Esplit & I1 & S1 & E1 & F1 & I2 & S2 & E2 & F2); [done|apply Hr|done..|].
  cbn [load]. rewrite Efind, bind_ret, Et, list_lookup_middle, <- Et, Ecut, bind_ret by done. cbn match.
  rewrite compare_lex, bind_ret by (apply name_fits_short; first [done|apply Hr']). rewrite Ee.
  destruct (lex_range (end_a new_sub) (end_of r)) as [E|[E|E]]; rewrite (lex_opp (end_a new_sub)) in Hgt; [lia..|]. rewrite E.
  cbn [Z.eqb]. rewrite Esplit, bind_ret. cbn match.
  assert (Ht' : spans P lo (t1' ++ r' :: t2) hi).
  { apply spans_app. exists (start_a new_sub). cbn [spans]. by rewrite Ee. }
  destruct fuel as [|fuel]; [lia|].
  assert (Es' : start_of r' = start_a new_sub) by (by eapply ro_start).
  assert (Hf1 : found P (t1' ++ r' :: t2) lo hi (start_a new1) t1' r' t2).
  { rewrite S1. apply found_here; rewrite ?Es', ?Ee; try done. rewrite lex_refl. done. }
  assert (Hnf : not_first P lo new1) by (unfold not_first in *; by rewrite S1, I1).
  pose proof F1 as (? & ? & ? & ?).
  destruct (load_inside P lo hi (t1' ++ r' :: t2) fuel new1 t1' r' t2 Hf1) as
    (t' & [(E' & Ht1 & Hk)|(u1 & q & u2 & E' & Hno & Et' & Ht1 & Hq & Eq & Eu)]); try done.
  { rewrite E1, Ee, lex_refl. done. }
  { rewrite E', bind_ret. cbn. exists new1, t'. left. split_and!; [done|done|]. by rewrite S1, I1 in Hk. }
  rewrite E', bind_ret. cbn match. cbn [negb Z.eqb]. rewrite Eu in Et' by congruence. clear Eu u2.
  assert (Hnone : no_conflict P new_sub).
  { destruct Hconf as [(k & HP & Hk)|?]; [|done]. destruct (Hno (start_a new_sub) k); [rewrite S1, lex_refl; done|by rewrite S1 in *|done|].
    by rewrite I1. }
  destruct (IH (joined P new1) t' new2) as (new' & t'' & [(_ & _ & k & HP & Hk)|(E2' & _ & _ & _ & Ht2)]); try done.
  - rewrite S2. eapply lex_le_trans; [exact Hlo|lia].
  - by rewrite E2.
  - left. rewrite S2. by eapply lex_le_lt.
  - right. intros o k Ho1 Ho2 [HP|(_ & _ & HP)] Hk; rewrite S2, ?E2, ?I2 in *.
    + apply (Hnone o k); [|done..]. eapply lex_le_trans; [|exact Ho1]. lia.
    + rewrite E1 in HP. pose proof (lex_le_lt _ _ _ Ho1 HP). rewrite lex_refl in *. lia.
  - rewrite S2. destruct t2 as [|q2 t3].
    { cbn in H2. subst hi. lia. }
    assert (Es2 : start_of q2 = end_of r) by (by eapply ro_start, H2).
    subst t'. rewrite cons_middle, app_assoc in Ht1 |- *. apply spans_app in Ht1 as (mid & G1 & G2 & G3).
    rewrite (later_around (joined P new1) lo hi); [cbn in Hlater; lia|..]; [|done|..]; rewrite ?Es2.
    + rewrite <- (ro_start _ _ _ G2), Es2 in G1. done.
    + rewrite lex_refl. done.
    + rewrite <- Es2, (ro_start _ _ _ G2). apply G2.
  - exfalso. rewrite S2, I2 in *. destruct HP as [HP|(_ & _ & HP)].
    + apply (Hnone (end_of r) k); [lia|rewrite (lex_opp (end_a new_sub)); lia|done..].
    + rewrite E1, lex_refl in HP. lia.
  - rewrite E2', bind_ret. cbn. exists new1, t''. right. split_and!; try done. eapply spans_ext; [|exact Ht2].
    intros o k _ _. eapply joined_twice; try done. rewrite (lex_opp (end_a new_sub)). lia.
Qed.


End loading.
End map.
