(* ===== verification/RegistryTree.v ===== *)
(** * What a tree of the registry holds

    A tree holds the registrations of the list [K] when it spans everything
    below the three roots and every point is covered by those whose name is a prefix of it. *)

From Stdlib Require Import Sorting.Sorted.
From stdpp Require Import list sorting.
From S2P Require Import Prelude Bytes AsnTypes AsnBuild AsnRbuild Oid Vacm Lcd Scapi Users UsmMsg Session Client CString Keytools ReadConfig UserConfig Container ContainersProps AgentHandler Registry RegistryMap SecmodProps.

Section tree.
Context {M V : Type} `{Allocator}.
Abbreviation subtree := (netsnmp_subtree M V).
Abbreviation region := (list subtree).
Abbreviation tree := (list (list subtree)).
Abbreviation key := (list Z * Z * list Z)%type.
Implicit Types (s : subtree) (r : region) (t : tree) (o lo hi name : list Z) (k : key) (K : list key).

Definition covered K : list Z -> key -> Prop := fun o k => k ∈ K /\ k.1.1 `prefix_of` o.

Definition root (x : Z) : key := ([x], 0, []).

(** Names below the roots whose last sub-identifier can be counted up. *)
Definition good_name name : Prop :=
  name_fits name /\ 0 <= hd 0 name <= 2 /\ Forall (fun x => 0 <= x < 2 ^ 64 - 1) name.

Record keys_ok K : Prop := {
  ko_roots : root 0 ∈ K /\ root 1 ∈ K /\ root 2 ∈ K;
  ko_names : Forall (fun k => good_name k.1.1 /\ 0 <= k.1.2) K;
  ko_unique : forall k k', k ∈ K -> k' ∈ K -> k.1 = k'.1 -> k = k'
}.

Definition holds K t : Prop := keys_ok K /\ spans (covered K) [0] t [3].

(** ** Points *)

Lemma good_next name : good_name name -> name_fits (next_name name) /\ lex [0] name <= 0 /\ lex (next_name name) [3] <= 0.
Proof.
  intros (Hf & Hhd & _). unfold name_fits, len in *. split; [by rewrite length_next_name|].
  destruct name as [|x name]; [cbn in Hf; lia|]. cbn [hd] in Hhd. split.
  - cbn. destruct (Z.ltb_spec 0 x), (Z.ltb_spec x 0); try lia. by destruct name.
  - unfold next_name. destruct name as [|y name]; cbn.
    + destruct (Z.ltb_spec (x + 1) 3), (Z.ltb_spec 3 (x + 1)); lia.
    + replace (x <? 3) with true by lia. lia.
Qed.

Lemma point_root o : lex [0] o <= 0 -> lex o [3] < 0 -> exists x o', o = x :: o' /\ (x = 0 \/ x = 1 \/ x = 2).
Proof.
  destruct o as [|x o]; cbn; [lia|]. destruct (Z.ltb_spec 0 x), (Z.ltb_spec x 0), (Z.ltb_spec x 3), (Z.ltb_spec 3 x); try lia.
  all: intros; exists x, o; split; [done|]; try lia. assert (x = 3) as -> by lia. destruct o; cbn in *; lia.
Qed.

Lemma root_covers K o : keys_ok K -> lex [0] o <= 0 -> lex o [3] < 0 -> exists x, covered K o (root x).
Proof.
  intros HK H0 H3. destruct (point_root o H0 H3) as (x & o' & -> & Hx). destruct (ko_roots _ HK) as (R0 & R1 & R2).
  exists x. split; [by destruct Hx as [-> | [-> | ->]]|]. cbn. apply prefix_cons, prefix_nil.
Qed.

(** Two prefixes of a name that are of the same length are the same. *)
Lemma same_prefix (a b o : list Z) : a `prefix_of` o -> b `prefix_of` o -> len a = len b -> a = b.
Proof.
  intros [x ->] [y E] Hl. unfold len in Hl. apply (f_equal (take (length a))) in E.
  rewrite take_app_length in E. by rewrite take_app_length' in E by lia.
Qed.

(** ** Registering *)

Definition key_of (new_sub : subtree) : key := id_of new_sub.

Definition whole name (new_sub : subtree) : Prop :=
  name_a new_sub = name /\ start_a new_sub = name /\ end_a new_sub = next_name name /\ fits new_sub.

Lemma whole_span name (new_sub : subtree) : good_name name -> whole name new_sub -> fits_span new_sub.
Proof.
  intros Hn (En & Es & Ee & Hf). destruct (good_next name Hn) as [? _]. unfold fits_span. rewrite Es, Ee.
  split_and!; [done|apply Hn|done|]. apply next_name_after. intros ->. destruct Hn as [[? _] _]. done.
Qed.

Lemma good_nonempty name : good_name name -> name <> [].
Proof. intros [[? _] _] ->. done. Qed.

Lemma joined_covered K name (new_sub : subtree) o k : good_name name -> whole name new_sub ->
  joined (covered K) new_sub o k <-> covered (id_of new_sub :: K) o k.
Proof.
  intros Hn (En & Es & Ee & _). unfold joined, covered. rewrite Es, Ee, <- in_subtree, elem_of_cons by (by apply good_nonempty).
  split.
  - intros [[? ?]|[-> ?]]; [tauto|]. unfold id_of. cbn. rewrite En. tauto.
  - intros [[->|?] Hp]; [right|by left]. unfold id_of in Hp. cbn in Hp. by rewrite En in Hp.
Qed.

Lemma rank_conflict K name (new_sub : subtree) : keys_ok K -> good_name name -> whole name new_sub ->
  conflict_at_start (covered K) new_sub /\
  ((exists k, covered K (start_a new_sub) k /\ same_rank k (id_of new_sub)) <->
   exists label, (name, t_priority new_sub, label) ∈ K).
Proof.
  intros HK Hn (En & Es & Ee & _). unfold conflict_at_start, no_conflict. rewrite Es, Ee. split.
  - destruct (decide (Exists (fun k => k.1 = (name, t_priority new_sub)) K)) as [Hex|Hno].
    + left. apply Exists_exists in Hex as (k & Hk & E). exists k. split; [split; [done|by rewrite E]|].
      unfold same_rank, id_of. cbn. by rewrite E, En.
    + right. intros o k Ho1 Ho2 [Hk Hp] [Hlen Hprio]. apply Hno, Exists_exists. exists k. split; [done|]. destruct k as [[n p] l].
      cbn in *. f_equal; [|done]. apply (same_prefix _ _ o); [done|apply in_subtree; [by apply good_nonempty|done]|by rewrite Hlen, En].
  - split.
    + intros ([[n p] label] & [Hk Hp] & [Hlen Hprio]). exists label. cbn in *. subst p. rewrite En in Hlen.
      by rewrite <- (same_prefix n name name Hp (reflexivity name) Hlen).
    + intros [label Hk]. exists (name, t_priority new_sub, label). split; [by split|]. unfold same_rank, id_of. cbn. by rewrite En.
Qed.

Section memory.
Hypothesis memory : forall n, n <= 4096 -> alloc n = true.

(** Loading a registration into a tree that holds [K]. *)
Lemma load_holds K t name (new_sub : subtree) : holds K t -> good_name name -> 2 <= len name -> whole name new_sub ->
  0 <= t_priority new_sub ->
  exists new' t',
    load (S (S (length t))) new_sub t = Ret (Loaded MIB_DUPLICATE_REGISTRATION false new' t') /\ holds K t' /\
      (exists label, (name, t_priority new_sub, label) ∈ K)
    \/ load (S (S (length t))) new_sub t = Ret (Loaded MIB_REGISTERED_OK true new' t') /\
      (forall label, (name, t_priority new_sub, label) ∉ K) /\ holds (id_of new_sub :: K) t'.
Proof.
  intros [HK Ht] Hn Hlen Hw Hp. pose proof (whole_span _ _ Hn Hw) as Hspan. pose proof Hw as (En & Es & Ee & Hf).
  destruct (rank_conflict K name new_sub HK Hn Hw) as [Hconf Hdup]. destruct (good_next name Hn) as (_ & H0 & H3).
  assert (Hlt : lex [0] (start_a new_sub) < 0).
  { rewrite Es. destruct (Z.eq_dec (lex [0] name) 0) as [E|]; [|lia]. apply lex_eq in E. exfalso.
    rewrite <- E in Hlen. unfold len in Hlen. cbn in Hlen. lia. }
  destruct (load_spec memory [0] [3] (S (S (length t))) (covered K) t new_sub)
    as (new' & t' & [(E & Ht' & Hk)|(E & Hno & _ & _ & Ht')]); try done.
  - by rewrite Es.
  - by rewrite Ee.
  - by left.
  - unfold later. pose proof (length_filter (fun r => lex (start_a new_sub) (start_of r) < 0) t). lia.
  - exists new', t'. left. split_and!; [done|done|by apply Hdup].
  - exists new', t'. right. assert (Hnot : forall label, (name, t_priority new_sub, label) ∉ K).
    { intros label Hin. destruct (proj2 Hdup) as (k & HP & Hk); [by exists label|]. apply (Hno (start_a new_sub) k); try done.
      - by rewrite lex_refl.
      - apply Hspan. }
    split_and!; [done|done|]. split.
    + destruct HK as [(R0 & R1 & R2) HN HU]. constructor.
      * split_and!; by right.
      * constructor; [|done]. unfold id_of. cbn. by rewrite En.
      * intros k k' [->|Hk]%elem_of_cons [->|Hk']%elem_of_cons E1; [done| | |by apply HU]; exfalso.
        -- destruct k' as [[n p] l]. unfold id_of in E1. cbn in E1. injection E1 as <- <-. rewrite En in Hk'. by eapply Hnot.
        -- destruct k as [[n p] l]. unfold id_of in E1. cbn in E1. injection E1 as -> ->. rewrite En in Hk. by eapply Hnot.
    + eapply spans_ext; [|exact Ht']. intros o k _ _. by eapply joined_covered.
Qed.
End memory.

(** ** Looking up *)

Lemma point_in o : name_fits o -> 0 <= hd 0 o <= 2 -> lex [0] o <= 0 /\ lex o [3] < 0.
Proof.
  intros [Hl _] Hhd. destruct o as [|x o]; [unfold len in Hl; cbn in Hl; lia|]. cbn in *.
  destruct (Z.ltb_spec 0 x), (Z.ltb_spec x 0), (Z.ltb_spec x 3), (Z.ltb_spec 3 x); try lia; split; try lia; destruct o; lia.
Qed.

(** On top of the region of [o] is the longest registered prefix of [o], the
    lowest priority among those of one name. *)
Lemma lookup_holds K t o : holds K t -> name_fits o -> 0 <= hd 0 o <= 2 ->
  exists i s r, find t o = Ret (Some i) /\ t !! i = Some (s :: r) /\ id_of s ∈ K /\ name_a s `prefix_of` o /\
    lex (start_a s) o <= 0 /\ lex o (end_a s) < 0 /\ forall k, k ∈ K -> k.1.1 `prefix_of` o -> k = id_of s \/ above (id_of s) k.
Proof.
  intros [HK Ht] Ho Hhd. destruct (point_in o Ho Hhd) as [H0 H3].
  destruct (find_spec (covered K) t [0] [3] o Ht Ho H0 H3) as (t1 & r & t2 & -> & Efind & H1 & Hr & H2 & Hlo & Hhi).
  destruct r as [|s r]; [by destruct (ro_some _ _ _ Hr)|].
  destruct (region_top _ _ _ o s r Hr Hlo Hhi eq_refl) as [[? ?] Htop].
  pose proof (ro_span _ _ _ Hr) as Hspan. apply Forall_cons in Hspan as [(Es & Ee & _) _].
  exists (length t1), s, r. rewrite list_lookup_middle by done. split_and!; try done.
  intros k ? ?. by apply Htop.
Qed.

(** ** Unregistering *)

Definition without name priority K : list key := filter (fun k => k.1 <> (name, priority)) K.

Lemma find_child_spec r name priority : short name -> Forall (fun s => short (name_a s)) r ->
  (exists r1 s r2, r = r1 ++ s :: r2 /\ find_child r name priority = Ret (Some (length r1)) /\
     (id_of s).1 = (name, priority))
  \/ find_child r name priority = Ret None /\ forall s, s ∈ r -> (id_of s).1 <> (name, priority).
Proof.
  intros Hn. induction 1 as [|s r Hs _ IH]; [right; split; [done|by intros s ?%elem_of_nil]|]. cbn [find_child].
  destruct (equals_0 (name_a s) name) as (e & -> & Eb); [done..|]. rewrite bind_ret, Eb.
  destruct (bool_decide_reflect (name_a s = name)) as [En|En], (Z.eqb_spec (t_priority s) priority) as [Ep|Ep]; cbn [andb].
  { left. exists [], s, r. unfold id_of. by rewrite En, Ep. }
  all: destruct IH as [(r1 & x & r2 & -> & -> & Ex)|[-> Hno]]; [left; exists (s :: r1), x, r2; by rewrite bind_ret|right].
  all: split; [done|]; intros x [->|Hx]%elem_of_cons; [unfold id_of; cbn; congruence|by apply Hno].
Qed.

Lemma sorted_remove K1 k K2 : StronglySorted above (K1 ++ k :: K2) ->
  StronglySorted above (K1 ++ K2) /\ Forall (fun x => above x k) K1 /\ Forall (above k) K2.
Proof.
  induction K1 as [|x K1 IH]; cbn; intros [Hs Hx]%StronglySorted_inv; [by split_and!|]. destruct (IH Hs) as (? & ? & ?).
  apply Forall_app in Hx as [? Hx]. apply Forall_cons in Hx as [? ?].
  split_and!; [constructor; [done|by apply Forall_app]|by constructor|done].
Qed.

Lemma region_without P lo r1 s r2 : region_ok P lo (r1 ++ s :: r2) -> r1 ++ r2 <> [] ->
  region_ok (fun o k => P o k /\ k.1 <> (id_of s).1) lo (r1 ++ r2) /\ end_of (r1 ++ r2) = end_of (r1 ++ s :: r2).
Proof.
  intros [? Hspan ? ? ? Hs Hh] Hne. apply Forall_app in Hspan as [? Hspan]. apply Forall_cons in Hspan as [? ?].
  assert (Hall : Forall (fun x => start_a x = lo /\ end_a x = end_of (r1 ++ s :: r2) /\ fits x) (r1 ++ r2))
    by (by apply Forall_app).
  assert (Ee : end_of (r1 ++ r2) = end_of (r1 ++ s :: r2)).
  { apply end_of_all; [done|]. eapply Forall_impl; [exact Hall|]. cbn. tauto. }
  split; [|done]. rewrite fmap_app in Hs. cbn in Hs. apply sorted_remove in Hs as (Hs & Hs1 & Hs2).
  constructor; rewrite ?Ee; try done; [by rewrite fmap_app|].
  intros o k ? ?. rewrite <- (Hh o k) by done. rewrite !fmap_app. cbn. rewrite !elem_of_app, elem_of_cons.
  assert (Hrest : k ∈ id_of <$> r1 \/ k ∈ id_of <$> r2 -> k.1 <> (id_of s).1).
  { intros [Hin|Hin] E; [eapply Forall_forall in Hs1|eapply Forall_forall in Hs2]; try exact Hin;
      unfold above in *; rewrite E in *; lia. }
  clear -Hrest. split; [intros Hk; split; [tauto|by apply Hrest]|]. intros [[?|[->|?]] ?]; [by left|done|by right].
Qed.

Lemma covered_without name priority K o k : covered (without name priority K) o k <-> covered K o k /\ k.1 <> (name, priority).
Proof. unfold covered, without. rewrite list_elem_of_filter. tauto. Qed.

Lemma unload_here t1 r t2 j r' : take j r ++ drop (S j) r = r' -> r' <> [] ->
  unload (t1 ++ r :: t2) (length t1) j = t1 ++ r' :: t2.
Proof.
  intros E Hne. unfold unload. rewrite list_lookup_middle, E by done. destruct r'; [done|]. apply insert_here_nat.
Qed.

Lemma take_drop_at {B} (l1 : list B) x l2 : take (length l1) (l1 ++ x :: l2) ++ drop (S (length l1)) (l1 ++ x :: l2) = l1 ++ l2.
Proof. rewrite take_app_length. replace (S (length l1)) with (length l1 + 1)%nat by lia. by rewrite drop_app_add. Qed.

(** A region loses a registration, and keeps its root. *)
Lemma region_unloaded K lo hi r1 s r2 : keys_ok K -> region_ok (covered K) lo (r1 ++ s :: r2) -> 2 <= len (name_a s) ->
  lex [0] lo <= 0 -> lex (end_of (r1 ++ s :: r2)) hi <= 0 -> lex hi [3] <= 0 ->
  r1 ++ r2 <> [] /\ region_ok (covered (without (name_a s) (t_priority s) K)) lo (r1 ++ r2) /\
    end_of (r1 ++ r2) = end_of (r1 ++ s :: r2).
Proof.
  intros HK Hr Hlen Hlo Hhi H3. pose proof (ro_lt _ _ _ Hr) as Hlt.
  assert (Hne : r1 ++ r2 <> []).
  { destruct (root_covers K lo HK Hlo) as [x Hx].
    { eapply lex_lt_le; [exact (lex_lt_le _ _ _ Hlt Hhi)|done]. }
    apply (ro_here _ _ _ Hr) in Hx; [|by rewrite lex_refl|done]. rewrite fmap_app in Hx. cbn in Hx.
    rewrite elem_of_app, elem_of_cons in Hx. destruct Hx as [Hx|[Hx|Hx]].
    - by destruct r1; [apply elem_of_nil in Hx|].
    - exfalso. apply (f_equal (fun k => len k.1.1)) in Hx. unfold id_of, len in *. cbn in Hx. lia.
    - intros [-> ->]%app_nil. by apply elem_of_nil in Hx. }
  destruct (region_without _ _ _ _ _ Hr Hne) as [? ?]. split_and!; try done.
  eapply region_ext; [|done]. intros o k _ _. symmetry. apply covered_without.
Qed.

Lemma region_names P lo r : region_ok P lo r -> Forall (fun s => short (name_a s)) r.
Proof. intros Hr. eapply Forall_impl; [apply Hr|]. cbn. intros s (_ & _ & Hf & _). by apply name_fits_short. Qed.

(** Past the region of its own name the registration is in the regions that
    follow at once, and in no others. *)
Lemma following_unloaded K label name priority : keys_ok K -> (name, priority, label) ∈ K -> good_name name -> 2 <= len name ->
  forall t lo, spans (covered K) lo t [3] -> lex name lo <= 0 -> lex [0] lo <= 0 ->
  exists next, unload_following t name priority = Ret next /\ spans (covered (without name priority K)) lo next [3].
Proof.
  intros HK Hk Hn Hlen. induction t as [|r t IH]; intros lo; [intros; by exists []|]. cbn [spans]. intros [Hr Ht] Hname H0.
  pose proof (ro_lt _ _ _ Hr) as Hlt. pose proof (spans_le _ _ _ _ Ht) as Hle. cbn [unload_following].
  destruct (find_child_spec r name priority) as [(r1 & s & r2 & -> & -> & Es)|[-> Hno]];
    [by apply name_fits_short, Hn|by eapply region_names|..]; rewrite bind_ret.
  - unfold id_of in Es. cbn in Es. injection Es as En Ep.
    destruct (region_unloaded K lo [3] r1 s r2) as (Hne & Hr' & Ee); try done; [by rewrite En|].
    destruct (IH _ Ht) as (next & -> & Hnext).
    { pose proof (lex_le_lt name lo _ Hname Hlt). lia. }
    { pose proof (lex_le_lt [0] lo _ H0 Hlt). lia. }
    rewrite bind_ret. exists ((r1 ++ r2) :: next). split.
    + f_equal. apply (unload_here [] _ next _ (r1 ++ r2)); [apply take_drop_at|done].
    + cbn [spans]. rewrite Ee. rewrite En, Ep in Hr'. done.
  - exists (r :: t). split; [done|]. eapply (spans_ext (covered K)); [|cbn [spans]; done].
    intros o k Ho _. rewrite covered_without. split; [|tauto]. intros Hc. split; [done|]. intros E.
    assert (Hnot : ~ name `prefix_of` lo).
    { intros Hp. assert (Hin : (name, priority, label) ∈ id_of <$> r).
      { apply (ro_here _ _ _ Hr lo); [by rewrite lex_refl|done|by split]. }
      apply list_elem_of_fmap in Hin as (s & Es & Hs). apply (Hno s Hs). by rewrite <- Es. }
    destruct Hc as [_ Hp]. rewrite E in Hp. cbn in Hp.
    rewrite in_subtree in Hp, Hnot by (by apply good_nonempty). destruct Hp as [_ Hp]. apply Hnot. split; [done|].
    exact (lex_le_lt _ _ _ Ho Hp).
Qed.

Lemma without_keys K name priority : keys_ok K -> 2 <= len name -> keys_ok (without name priority K).
Proof.
  intros [(R0 & R1 & R2) HN HU] Hlen. unfold without. constructor.
  - assert (forall x, root x ∈ K -> root x ∈ filter (fun k => k.1 <> (name, priority)) K).
    { intros x Hx. apply list_elem_of_filter. split; [|done]. cbn. intros E. injection E as <- _. unfold len in Hlen. cbn in Hlen. lia. }
    split_and!; auto.
  - apply Forall_forall. intros k [_ Hk]%list_elem_of_filter. by eapply Forall_forall in HN.
  - intros k k' [_ ?]%list_elem_of_filter [_ ?]%list_elem_of_filter. by apply HU.
Qed.

Lemma unload_holds K t name priority : holds K t -> good_name name -> 2 <= len name ->
  exists i stack, find t name = Ret (Some i) /\ t !! i = Some stack /\
    ((exists label j next, (name, priority, label) ∈ K /\ find_child stack name priority = Ret (Some j) /\
        unload_following (drop (S i) t) name priority = Ret next /\
        holds (without name priority K) (unload (take (S i) t) i j ++ next))
     \/ (forall label, (name, priority, label) ∉ K) /\ find_child stack name priority = Ret None).
Proof.
  intros [HK Ht] Hn Hlen. pose proof Hn as (Hf & Hhd & _). destruct (point_in name Hf Hhd) as [H0 H3].
  destruct (find_spec (covered K) t [0] [3] name Ht Hf H0 H3) as (t1 & r & t2 & -> & Efind & H1 & Hr & H2 & Hlo & Hhi).
  exists (length t1), r. rewrite list_lookup_middle by done. split_and!; [done..|].
  destruct (find_child_spec r name priority) as [(r1 & s & r2 & -> & E & Es)|[E Hno]];
    [by apply name_fits_short|by eapply region_names|left|right].
  - assert (Hs : covered K (start_of (r1 ++ s :: r2)) (id_of s)).
    { apply (ro_here _ _ _ Hr); [by rewrite lex_refl|apply Hr|]. rewrite fmap_app. cbn. rewrite elem_of_app, elem_of_cons. tauto. }
    pose proof Hs as [Hin Hp]. destruct (id_of s) as [np label] eqn:Eid. cbn in Es, Hp. subst np. cbn in Hp.
    injection Eid as En Ep _.
    assert (Est : start_of (r1 ++ s :: r2) = name).
    { apply in_subtree in Hp as [? _]; [|by apply good_nonempty]. apply lex_eq. rewrite (lex_opp name) in Hlo |- *. lia. }
    pose proof (ro_lt _ _ _ Hr) as Hlt. rewrite Est in *. pose proof (spans_le _ _ _ _ H2) as Hle.
    destruct (following_unloaded K label name priority HK Hin Hn Hlen t2 _ H2) as (next & Enext & Hnext).
    { lia. } { pose proof (lex_le_lt _ _ _ H0 Hlt). lia. }
    destruct (region_unloaded K name [3] r1 s r2) as (Hne & Hr' & Ee); try done; [by rewrite En|].
    rewrite En, Ep in Hr'. exists label, (length r1), next.
    replace (S (length t1)) with (length t1 + 1)%nat by lia. rewrite drop_app_add, take_app_add. cbn [drop take].
    rewrite (unload_here t1 _ [] _ (r1 ++ r2)) by (done || apply take_drop_at).
    split_and!; try done. split; [by apply without_keys|]. rewrite <- app_assoc. cbn [app]. apply spans_app.
    exists name. cbn [spans]. rewrite Ee. split_and!; [|done..]. eapply (spans_ext (covered K)); [|exact H1].
    intros o k _ Ho. rewrite covered_without. split; [|tauto]. intros Hc. split; [done|]. intros Ek. destruct Hc as [_ Hc].
    rewrite Ek in Hc. cbn in Hc. apply in_subtree in Hc as [Hc _]; [|by apply good_nonempty].
    pose proof (lex_le_lt _ _ _ Hc Ho). rewrite lex_refl in *. lia.
  - split; [|done]. intros label Hin. assert (Hc : (name, priority, label) ∈ id_of <$> r).
    { apply (ro_here _ _ _ Hr name); [done..|]. by split. }
    apply list_elem_of_fmap in Hc as (s & Es & Hs). apply (Hno s Hs). by rewrite <- Es.
Qed.
End tree.

(** * The contexts of the registry and the lookup cache

    What is written for a context is what is found, and an entry of the cache
    is a place of its list: with the cache or without it the search finds the
    same region. *)

Section registry.
Context {M V : Type} `{Allocator}.
Abbreviation subtree := (netsnmp_subtree M V).
Abbreviation registration := (netsnmp_handler_registration M V).
Abbreviation region := (list subtree).
Abbreviation tree := (list (list subtree)).
Abbreviation key := (list Z * Z * list Z)%type.
Abbreviation registry := (agent_registry (M := M) (V := V)).
Implicit Types (s : subtree) (r : region) (t : tree) (o lo hi name : list Z) (k : key) (K : list key) (g : registry)
  (context : option (list Z)).

(** ** Contexts *)

Abbreviation regions := netsnmp_subtree_find_first.

Lemma find_context_alter name t (cs : list (list Z * tree)) i : find_context cs name = Some i ->
  find_context (alter (fun c => (c.1, t)) i cs) name = Some i /\ snd <$> alter (fun c => (c.1, t)) i cs !! i = Some t.
Proof.
  revert i. induction cs as [|[n u] cs IH]; intros i; [done|]. cbn [find_context]. destruct (strcmp n name =? 0) eqn:E.
  - intros [= <-]. simpl. by rewrite E.
  - intros (j & Ej & ->)%fmap_Some. destruct (IH j Ej) as [E1 E2]. change (alter ?f (S j) (?x :: cs)) with (x :: alter f j cs).
    cbn [find_context]. by rewrite E, E1.
Qed.

Lemma regions_nonempty context g : regions context g <> [] -> is_Some (find_context (context_subtrees g) (context_text context)).
Proof. unfold regions. by destruct (find_context _ _). Qed.

Lemma c_string_twice (n : list Z) : c_string (c_string n) = c_string n.
Proof. induction n as [|c n IH]; [done|]. cbn. destruct (c =? 0) eqn:E; [done|]. cbn. by rewrite E, IH. Qed.

Lemma c_string_len (n : list Z) : len (c_string n) <= len n.
Proof. induction n as [|c n IH]; [done|]. cbn [c_string]. destruct (c =? 0); unfold len in *; cbn [length]; lia. Qed.

Lemma strcmp_own (n : list Z) : (strcmp (c_string n) n =? 0) = true.
Proof. rewrite strcmp_same, c_string_twice. by rewrite bool_decide_true. Qed.

(** The name of a context as it comes from the code. *)
Definition context_fits context : Prop :=
  len (context_text context) <= 4000 /\ c_string (context_text context) = context_text context.

Section memory.
Hypothesis memory : forall n, n <= 4096 -> alloc n = true.

(** What is written for a context is what is found; the caches, their size and the events stay. *)
Lemma replaced context t g : context_fits context ->
  regions context (netsnmp_subtree_replace_first t context g) = t /\
  thecontextcache (netsnmp_subtree_replace_first t context g) = thecontextcache g /\
  lookup_cache_size (netsnmp_subtree_replace_first t context g) = lookup_cache_size g.
Proof.
  intros Hc. unfold regions, netsnmp_subtree_replace_first. destruct (find_context _ _) as [i|] eqn:E.
  - destruct (find_context_alter (context_text context) t _ _ E) as [E1 E2]. cbn [context_subtrees with_contexts].
    rewrite E1. cbn [mbind option_bind]. by rewrite E2.
  - unfold add_subtree. pose proof (c_string_len (context_text context)). unfold context_fits in Hc.
    rewrite !memory by (unfold sizeof_context_cache; lia). cbn [negb context_subtrees with_contexts find_context].
    rewrite strcmp_own. done.
Qed.

(** ** The lookup cache *)

(** An entry that has been written, with a place below [n]. *)
Definition written_below (n : nat) (e : option nat) : Prop := exists p, e = Some p /\ (p < n)%nat.

(** The entries in use are places of the list of regions; until the cache is full they are the first ones. *)
Definition entries_sound (size : Z) (n : nat) (c : lookup_cache_context) : Prop :=
  length (l_cache c) = 32%nat /\ 0 <= thecachecount c <= 32 /\ 0 <= currentpos c < 32 /\
  (thecachecount c < size -> currentpos c = thecachecount c) /\
  Forall (written_below n) (take (Z.to_nat (thecachecount c)) (l_cache c)).

Definition cache_sound context g : Prop :=
  0 <= lookup_cache_size g <= 32 /\
  forall i, find_cache (thecontextcache g) (context_text context) = Some i ->
    exists c, thecontextcache g !! i = Some c /\ entries_sound (lookup_cache_size g) (length (regions context g)) c.

Lemma cache_alter f cs name i : (forall c, l_context (f c) = l_context c) -> find_cache cs name = Some i ->
  find_cache (alter f i cs) name = Some i /\ alter f i cs !! i = f <$> cs !! i.
Proof.
  intros Hf. revert i. induction cs as [|c cs IH]; intros i; [done|]. cbn [find_cache]. destruct (strcmp _ _ =? 0) eqn:E.
  - intros [= <-]. simpl. by rewrite Hf, E.
  - intros (j & Ej & ->)%fmap_Some. destruct (IH j Ej) as [E1 E2]. change (alter f (S j) (?x :: cs)) with (x :: alter f j cs).
    cbn [find_cache]. by rewrite E, E1.
Qed.

Lemma cache_insert c' cs name i c : l_context c' = l_context c -> find_cache cs name = Some i -> cs !! i = Some c ->
  find_cache (<[i := c']> cs) name = Some i.
Proof.
  intros Hc. revert i. induction cs as [|x cs IH]; intros i; [done|]. cbn [find_cache]. destruct (strcmp _ _ =? 0) eqn:E.
  - intros [= <-] [= ->]. cbn. by rewrite Hc, E.
  - intros (j & Ej & ->)%fmap_Some Ec. change (<[S j := c']> (x :: cs)) with (x :: <[j := c']> cs). cbn [find_cache].
    by rewrite E, (IH j Ej Ec).
Qed.

Lemma empty_sound size n c : length (l_cache c) = 32%nat -> thecachecount c = 0 -> currentpos c = 0 -> entries_sound size n c.
Proof. intros ? Ec Ep. unfold entries_sound. rewrite Ec, Ep. split_and!; (lia || done || constructor). Qed.

(** The cache of a context that has regions. *)
Lemma cache_got context g : context_fits context -> cache_sound context g -> regions context g <> [] ->
  exists i c cs, get_context_lookup_cache context g = Ret (Some i, with_caches cs g) /\
    find_cache cs (context_text context) = Some i /\ cs !! i = Some c /\
    entries_sound (lookup_cache_size g) (length (regions context g)) c.
Proof.
  intros Hc [_ Hs] Ht. unfold get_context_lookup_cache. destruct (find_cache _ _) as [i|] eqn:E.
  { destruct (Hs i eq_refl) as (c & ? & ?). exists i, c, (thecontextcache g). by destruct g. }
  destruct (regions context g) as [|r t] eqn:Et; [done|].
  pose proof (c_string_len (context_text context)). unfold context_fits in Hc.
  rewrite !memory by (unfold sizeof_lookup_cache_context; lia). cbn [negb andb]. do 3 eexists. split; [done|].
  cbn [find_cache l_context]. rewrite strcmp_own. split_and!; [done|done|]. by apply empty_sound.
Qed.

Definition only_caches g g' : Prop := exists cs, g' = with_caches cs g.

Lemma invalidated context g : context_fits context -> 0 <= lookup_cache_size g <= 32 -> regions context g <> [] ->
  (forall i, find_cache (thecontextcache g) (context_text context) = Some i ->
     exists c, thecontextcache g !! i = Some c /\ length (l_cache c) = 32%nat) ->
  exists g', invalidate_lookup_cache context g = Ret g' /\ only_caches g g' /\ cache_sound context g'.
Proof.
  intros Hc Hsize Ht Hold. unfold invalidate_lookup_cache, get_context_lookup_cache.
  destruct (find_cache _ _) as [i|] eqn:E.
  - destruct (Hold i eq_refl) as (c & Ec & Hl). rewrite bind_ret. eexists. split; [done|]. split; [by eexists|].
    split; [done|]. cbn [thecontextcache with_caches lookup_cache_size]. intros j Ej.
    match type of Ej with find_cache (alter ?f _ _) _ = _ => edestruct (cache_alter f _ _ _ ltac:(done) E) as [E1 E2] end.
    rewrite E1 in Ej. injection Ej as <-. rewrite E2, Ec. eexists. split; [done|]. by apply empty_sound.
  - destruct (regions context g) as [|r t] eqn:Et; [done|].
    pose proof (c_string_len (context_text context)). unfold context_fits in Hc.
    rewrite !memory by (unfold sizeof_lookup_cache_context; lia). cbn [negb andb]. rewrite bind_ret. eexists. split; [done|].
    split; [by eexists|]. split; [done|]. cbn [thecontextcache with_caches lookup_cache_size find_cache]. intros j.
    match goal with |- find_cache (alter ?f _ _) _ = _ -> _ => change (alter f O (?x :: ?l)) with (f x :: l) end.
    cbn [find_cache l_context]. rewrite strcmp_own. intros [= <-]. eexists. split; [done|]. by apply empty_sound.
Qed.

Lemma replaced_sound context g i c p j : context_fits context -> cache_sound context g ->
  find_cache (thecontextcache g) (context_text context) = Some i -> thecontextcache g !! i = Some c ->
  (p < length (regions context g))%nat -> cache_sound context (lookup_cache_replace i j p g).
Proof.
  intros Hc [Hsize Hs] Ei Ec Hp. split; [done|]. intros i'. unfold lookup_cache_replace. cbn [thecontextcache with_caches].
  match goal with |- find_cache (alter ?f _ _) _ = _ -> _ => edestruct (cache_alter f _ _ _ ltac:(done) Ei) as [-> E2] end.
  intros [= <-]. rewrite E2, Ec. eexists. split; [done|]. destruct (Hs i Ei) as (c' & Ec' & Hl & Hcount & Hpos & Hfull & Hall).
  assert (c' = c) as -> by congruence. unfold entries_sound. cbn [l_cache thecachecount currentpos lookup_cache_size with_caches].
  rewrite length_insert. split_and!; try done; try lia. change (regions context (with_caches _ g)) with (regions context g).
  rewrite take_insert. case_decide; [|done]. apply Forall_insert; [done|by exists p].
Qed.

Lemma added_sound context g p : context_fits context -> cache_sound context g -> (p < length (regions context g))%nat ->
  exists g', lookup_cache_add context p g = Ret g' /\ only_caches g g' /\ cache_sound context g'.
Proof.
  intros Hc Hs Hp. pose proof Hs as [Hsize _].
  destruct (cache_got context g) as (i & c & cs & E & Ei & Ec & Hl & Hcount & Hpos & Hfull & Hall); [done..| |].
  { intros E. rewrite E in Hp. cbn in Hp. lia. }
  unfold lookup_cache_add. rewrite E, bind_ret. cbn [thecontextcache with_caches lookup_cache_size]. rewrite Ec.
  unfold SUBTREE_MAX_CACHE_SIZE. replace ((currentpos c <? 0) || (32 <=? currentpos c)) with false by lia.
  eexists. split; [done|]. split; [by eexists|]. split; [done|]. cbn [thecontextcache with_caches lookup_cache_size].
  intros i' Ei'. match type of Ei' with find_cache (<[_ := ?x]> _) _ = _ => set (c' := x) in * end.
  rewrite (cache_insert c' cs (context_text context) i c) in Ei' by done. injection Ei' as <-. exists c'.
  split; [by rewrite list_lookup_insert_eq by (by eapply lookup_lt_Some)|].
  change (regions context (with_caches _ g)) with (regions context g).
  subst c'. unfold entries_sound. cbn [l_cache thecachecount currentpos].
  rewrite length_insert. split; [done|]. destruct (Z.ltb_spec (thecachecount c) (lookup_cache_size g)) as [Hlt|Hge].
  - rewrite (Hfull Hlt). split_and!; try lia; try (destruct (Z.leb_spec (lookup_cache_size g) (thecachecount c + 1)); lia).
    replace (Z.to_nat (thecachecount c + 1)) with (S (Z.to_nat (thecachecount c))) by lia.
    rewrite (take_S_r _ _ (Some p)) by (apply list_lookup_insert_eq; lia). rewrite take_insert_ge by lia.
    apply Forall_app. split; [done|]. apply Forall_singleton. by exists p.
  - split_and!; try lia; try (destruct (Z.leb_spec (lookup_cache_size g) (currentpos c + 1)); lia).
    rewrite take_insert. case_decide; [|done]. apply Forall_insert; [done|by exists p].
Qed.

(** The regions in the order of their names. *)
Definition ascending t : Prop := StronglySorted (fun r q => lex (start_of r) (start_of q) < 0) t.

Lemma spans_behind P t : forall lo hi o, spans P lo t hi -> lex o lo < 0 -> Forall (fun q => lex o (start_of q) < 0) t.
Proof.
  induction t as [|r t IH]; intros lo hi o; cbn [spans]; [constructor|]. intros [Hr Ht] Ho.
  constructor; [by rewrite (ro_start _ _ _ Hr)|]. eapply IH; [exact Ht|]. pose proof (ro_lt _ _ _ Hr).
  eapply lex_lt_le; [exact Ho|]. lia.
Qed.

Lemma spans_ascending P t : forall lo hi, spans P lo t hi -> ascending t.
Proof.
  induction t as [|r t IH]; intros lo hi; cbn [spans]; [constructor|]. intros [Hr Ht].
  constructor; [by eapply IH|]. eapply spans_behind; [exact Ht|]. rewrite (ro_start _ _ _ Hr). apply Hr.
Qed.

(** Where a region is known not to be too far, counting goes on behind it. *)
Lemma not_after_skip name t p r : ascending t -> t !! p = Some r -> 0 <= lex name (start_of r) ->
  regions_not_after name t = (S p + regions_not_after name (drop (S p) t))%nat.
Proof.
  intros Ht. revert p. induction Ht as [|q t Ht IH Hall]; intros p Hp Hle; [done|]. cbn [regions_not_after].
  destruct p as [|p]; cbn [drop].
  - injection Hp as ->. by replace (lex name (start_of r) <? 0) with false by lia.
  - cbn in Hp. assert (Hq : lex (start_of q) (start_of r) < 0) by (eapply Forall_forall in Hall; [done|by eapply list_elem_of_lookup_2]).
    replace (lex name (start_of q) <? 0) with false; [by rewrite (IH p)|].
    rewrite (lex_opp (start_of r) name) in Hle. pose proof (lex_lt_le (start_of q) (start_of r) name).
    rewrite (lex_opp (start_of q) name). lia.
Qed.

Lemma not_after_le name t : (regions_not_after name t <= length t)%nat.
Proof. induction t as [|r t IH]; cbn; [lia|]. destruct (_ <? 0); lia. Qed.

(** An entry of the cache that is not after the name. *)
Definition entry_hits name t (n : nat) (e : nat * nat * Z) : Prop :=
  exists r, t !! e.1.2 = Some r /\ e.2 = lex name (start_of r) /\ 0 <= e.2 /\ (e.1.1 < n)%nat.

Lemma cache_loop_hits name t entries : short name -> short_starts t -> Forall (written_below (length t)) entries ->
  forall i ret n, (i + length entries <= n)%nat -> (forall e, ret = Some e -> entry_hits name t n e) ->
  exists ret', cache_loop name t entries i ret = Ret ret' /\ forall e, ret' = Some e -> entry_hits name t n e.
Proof.
  intros Hn Hst. induction 1 as [|e entries (p & -> & Hp) _ IH]; intros i ret n Hlen Hret; [by eexists|]. cbn [cache_loop].
  destruct (lookup_lt_is_Some_2 t p Hp) as [r Er]. rewrite Er.
  rewrite compare_lex, bind_ret by (done || (eapply Forall_lookup_1 in Hst; done)). cbn [length] in Hlen.
  apply IH; [lia|]. intros e. destruct (Z.leb_spec 0 (lex name (start_of r))); [|by apply Hret].
  intros [= <-]. exists r. cbn. split_and!; (done || lia).
Qed.

(** Looking in the cache: nothing, or an entry of the cache of the context that is not after the name. *)
Lemma cache_found name context g : context_fits context -> cache_sound context g -> short name -> short_starts (regions context g) ->
  regions context g <> [] ->
  exists hit cs, lookup_cache_find context name g = Ret (hit, with_caches cs g) /\ cache_sound context (with_caches cs g) /\
    forall i e, hit = Some (i, e) -> entry_hits name (regions context g) 32 e /\
      find_cache cs (context_text context) = Some i /\ is_Some (cs !! i).
Proof.
  intros Hc Hs Hn Hst Ht. destruct (cache_got context g Hc Hs Ht) as (i & c & cs & E & Ei & Ec & Hall).
  unfold lookup_cache_find. rewrite E, bind_ret. cbn [thecontextcache with_caches lookup_cache_size]. rewrite Ec.
  change (regions context (with_caches cs g)) with (regions context g). pose proof Hall as (Hl & Hcount & _ & _ & Hentries).
  destruct (cache_loop_hits name (regions context g)
              (take (Z.to_nat (Z.min (thecachecount c) (lookup_cache_size g))) (l_cache c)) Hn Hst) with (i := O) (ret := @None (nat * nat * Z)) (n := 32%nat)
    as (ret & -> & Hret).
  - replace (Z.to_nat (Z.min (thecachecount c) (lookup_cache_size g)))
      with (Nat.min (Z.to_nat (lookup_cache_size g)) (Z.to_nat (thecachecount c))) by (destruct Hs; lia).
    rewrite <- take_take. by apply Forall_take.
  - rewrite length_take. lia.
  - done.
  - rewrite bind_ret. eexists _, cs. split; [done|]. split.
    + split; [apply Hs|]. cbn [thecontextcache with_caches lookup_cache_size]. intros i' Ei'.
      assert (i' = i) as -> by congruence. by exists c.
    + intros i' e. destruct ret as [e'|]; [|done]. intros [= <- <-]. split_and!; [by apply Hret|done|by eexists].
Qed.

(** With or without the cache the region found is that of the linear search. *)
Lemma cached_search name context g : context_fits context -> cache_sound context g -> short name ->
  short_starts (regions context g) -> ascending (regions context g) -> regions context g <> [] ->
  exists g', netsnmp_subtree_find_prev name context g = Ret (before_first (regions_not_after name (regions context g)), g') /\
    only_caches g g' /\ cache_sound context g'.
Proof.
  intros Hc Hs Hn Hst Hasc Hne. unfold netsnmp_subtree_find_prev. destruct (Z.eqb_spec (lookup_cache_size g) 0) as [E0|E0].
  { rewrite find_prev_linear, bind_ret by done. eexists. split_and!; [done|exists (thecontextcache g); by destruct g|done]. }
  destruct (cache_found name context g) as (hit & cs & -> & Hs' & Hhit); [done..|]. rewrite bind_ret.
  set (t := regions context g) in *. pose proof (not_after_le name t) as Hle.
  assert (Hfirst : forall first, short_starts (drop first t)).
  { intros first. by apply Forall_drop. }
  assert (Hplace : forall p, before_first (regions_not_after name t) = Some p -> (p < length t)%nat).
  { intros p. destruct (regions_not_after name t); cbn; [done|]. intros [= <-]. lia. }
  assert (Hdone : forall x : option nat, exists g', Ret (x, with_caches cs g) = Ret (x, g') /\ only_caches g g' /\ cache_sound context g').
  { intros x. exists (with_caches cs g). split_and!; [done|by exists cs|done]. }
  destruct hit as [[i [[j p] cmp]]|].
  - destruct (Hhit _ _ eq_refl) as ((r & Er & Ecmp & Hcmp & _) & Ei & [c Ec]). cbn [fst snd] in *.
    set (first := match drop (S p) t with [] => O | _ => S p end).
    rewrite find_loop_linear, bind_ret by done.
    assert (E : match regions_not_after name (drop first t) with O => Some p | S n => Some (first + n)%nat end
                = before_first (regions_not_after name t)).
    { rewrite (not_after_skip name t p r) by (done || lia). subst first. destruct (drop (S p) t) as [|q u] eqn:Ed.
      - rewrite drop_0, (not_after_skip name t p r) by (done || lia). rewrite Ed. cbn. by rewrite Nat.add_0_r.
      - rewrite Ed. destruct (regions_not_after name (q :: u)); cbn; f_equal; lia. }
    rewrite E. clear E.
    destruct (before_first (regions_not_after name t)) as [p'|] eqn:Ep; [|apply Hdone].
    destruct (_ <? _)%nat; [|apply Hdone]. destruct (cmp =? 0); [apply Hdone|]. eexists. split; [done|]. split; [by eexists|].
    eapply replaced_sound; [done|done|exact Ei|exact Ec|]. by apply Hplace.
  - rewrite drop_0, find_loop_linear, bind_ret by done.
    change (match regions_not_after name t with O => None | S n => Some (0 + n)%nat end)
      with (before_first (regions_not_after name t)).
    destruct (before_first (regions_not_after name t)) as [p'|] eqn:Ep; [|apply Hdone].
    destruct (_ <? _)%nat; [|apply Hdone]. cbn [Z.eqb].
    destruct (added_sound context (with_caches cs g) p') as (g' & -> & [cs' ->] & Hs''); [done|done|by apply Hplace|].
    rewrite bind_ret. eexists. split; [done|]. split; [by eexists|done].
Qed.
End memory.
End registry.
