(* ===== verification/RegistryProps.v ===== *)
(** * Properties of the registry

    A context is a map from names to the registration of their longest
    registered prefix, through every history of registering and unregistering. *)

From Stdlib Require Import Sorting.Sorted.
From stdpp Require Import list sorting.
From S2P Require Import Prelude Bytes AsnTypes AsnBuild AsnRbuild Samples Oid Vacm Lcd Scapi Users UsmMsg SecmodProps Session Client CString Keytools ReadConfig UserConfig Container ContainersProps AgentHandler Registry RegistryMap RegistryTree.

Section registry.
Context {M V : Type} `{Allocator}.
Abbreviation subtree := (netsnmp_subtree M V).
Abbreviation registration := (netsnmp_handler_registration M V).
Abbreviation region := (list subtree).
Abbreviation tree := (list (list subtree)).
Abbreviation key := (list Z * Z * list Z)%type.
Abbreviation registry := (agent_registry (M := M) (V := V)).
Abbreviation regions := netsnmp_subtree_find_first.
Implicit Types (s : subtree) (r : region) (t : tree) (o lo hi name : list Z) (k : key) (K : list key) (g : registry)
  (context : option (list Z)).

(** ** Nodes that change nothing of the map *)

Definition keeps_node (f : subtree -> subtree) : Prop :=
  forall s, id_of (f s) = id_of s /\ start_a (f s) = start_a s /\ end_a (f s) = end_a s /\ t_reginfo (f s) = t_reginfo s.

Lemma spans_map f P t : keeps_node f -> forall lo hi, spans P lo t hi -> spans P lo (map (map f) t) hi.
Proof.
  intros Hf. induction t as [|r t IH]; intros lo hi; [done|]. cbn [spans map]. intros [Hr Ht].
  destruct (region_of_ids P lo r (map f r) lo (end_of r) Hr) as [Hr' Ee]; try apply Hr; try (rewrite lex_refl; lia).
  - clear Hr Ht. induction r as [|s r IHr]; [done|]. cbn. f_equal; [apply Hf|exact IHr].
  - pose proof (ro_span _ _ _ Hr) as Hspan. clear Hr. revert Hspan. generalize (end_of r). intros e Hspan. apply Forall_fmap.
    eapply Forall_impl; [exact Hspan|]. cbn. intros s (E1 & E2 & Hfit). destruct (Hf s) as (Eid & -> & -> & Er). split_and!; [done..|].
    unfold fits, id_of in *. rewrite Er. by injection Eid as -> _ ->.
  - split; [done|]. rewrite Ee. by apply IH.
Qed.

Lemma holds_map f K t : keeps_node f -> holds K t -> holds K (map (map f) t).
Proof. intros Hf [HK Ht]. split; [done|]. by apply spans_map. Qed.

Lemma detach_keeps name priority : keeps_node
  (fun s => if bool_decide (name_a s = name /\ start_a s = name /\ t_priority s = priority) then detach_node s else s).
Proof. intros s. by case_bool_decide. Qed.

Lemma holds_nonempty K t : holds K t -> t <> [].
Proof. intros [_ Ht] ->. cbn in Ht. by injection Ht. Qed.

(** ** A context and what it holds *)

Record registry_ok context K g : Prop := {
  rk_holds : holds K (regions context g);
  rk_cache : cache_sound context g
}.

Section memory.
Hypothesis memory : forall n, n <= 4096 -> alloc n = true.

(** What a new node of a registration without a range is made of. *)
Lemma new_subtree_whole (label name : list Z) priority ubound ss timeout flags (reginfo : registration) :
  good_name name -> len label <= 4000 -> fits_registration reginfo ->
  let s := new_subtree label name priority 0 ubound ss timeout flags reginfo in
  whole name s /\ id_of s = (name, u8 priority, label) /\ 0 <= t_priority s.
Proof.
  intros (Hf & Hhd & Hsub) Hl Hr s. unfold name_fits, len in Hf.
  assert (E8 : Z.to_nat (u8 (len name)) = length name) by (unfold len, u8; rewrite Z.mod_small; lia).
  assert (En : take (length name) name = name) by (by apply take_ge).
  assert (Ee : take (length name) (alter (fun x => u64 (x + 1)) (Z.to_nat (len name - 1)) name) = next_name name).
  { rewrite take_ge by (by rewrite length_alter). unfold next_name, len. replace (Z.to_nat (Z.of_nat (length name) - 1)) with (length name - 1)%nat by lia.
    apply list_eq. intros i. destruct (decide (i = (length name - 1)%nat)) as [->|Hi].
    - rewrite !list_lookup_alter_eq. destruct (name !! _) as [x|] eqn:Ex; [|done]. cbn. f_equal.
      eapply Forall_lookup_1 in Hsub; [|exact Ex]. unfold u64. rewrite Z.mod_small; lia.
    - by rewrite !list_lookup_alter_ne. }
  unfold s, new_subtree, whole, id_of, fits. cbn [name_a start_a end_a label_a t_priority t_reginfo]. rewrite !E8, En, Ee.
  split_and!; try done. unfold u8. apply Z.mod_pos_bound. lia.
Qed.

(** Loading in a context that has its roots. *)
Lemma load_context_holds context K g name (new_sub : subtree) : context_fits context -> holds K (regions context g) -> good_name name -> 2 <= len name ->
  whole name new_sub -> 0 <= t_priority new_sub ->
  exists new' g', thecontextcache g' = thecontextcache g /\ lookup_cache_size g' = lookup_cache_size g /\
    (load_in_context new_sub context g = Ret (Loaded MIB_DUPLICATE_REGISTRATION false new' g') /\ holds K (regions context g') /\
      (exists label, (name, t_priority new_sub, label) ∈ K)
    \/ load_in_context new_sub context g = Ret (Loaded MIB_REGISTERED_OK true new' g') /\
      (forall label, (name, t_priority new_sub, label) ∉ K) /\ holds (id_of new_sub :: K) (regions context g')).
Proof.
  intros Hc Ht Hn Hlen Hw Hp. unfold load_in_context.
  destruct (load_holds memory K (regions context g) name new_sub) as (new' & t' & Hload); [done..|].
  exists new', (netsnmp_subtree_replace_first t' context g).
  destruct (replaced memory context t' g Hc) as (Et & Ecs & Esz). split_and!; [done..|].
  destruct Hload as [(-> & Ht' & Hdup)|(-> & Hno & Ht')]; [left|right]; rewrite bind_ret, Et; (split; [|done]).
  - done.
  - apply holds_nonempty in Ht'. by destruct t'.
Qed.

(** ** Registering a node *)

Lemma map_nodes_id t : map (map id) t = t.
Proof. induction t as [|r t IH]; [done|]. cbn [map]. by rewrite IH, map_id. Qed.

Lemma maybe_detached (detached : bool) name priority context g : context_fits context ->
  exists f, keeps_node f /\
    regions context (if detached then detach name priority context g else g) = map (map f) (regions context g) /\
    thecontextcache (if detached then detach name priority context g else g) = thecontextcache g.
Proof.
  intros Hc. destruct detached.
  - eexists. split; [apply detach_keeps|]. destruct (replaced memory context (map (map (fun s =>
      if bool_decide (name_a s = name /\ start_a s = name /\ t_priority s = priority) then detach_node s else s)) (regions context g)) g Hc)
      as (E1 & E2 & _). split; [exact E1|exact E2].
  - exists id. by rewrite map_nodes_id.
Qed.

Definition cache_shape context g : Prop :=
  forall i, find_cache (thecontextcache g) (context_text context) = Some i ->
    exists c, thecontextcache g !! i = Some c /\ length (l_cache c) = 32%nat.

Lemma sound_shape context g g' : cache_sound context g -> thecontextcache g' = thecontextcache g -> cache_shape context g'.
Proof. intros [_ Hs] E i Ei. rewrite E in Ei |- *. destruct (Hs i Ei) as (c & ? & ? & _). by exists c. Qed.

(** The end of a registration: the size of the cache is what it was, the cache empty. *)
Lemma size_restored context g g1 : context_fits context -> 0 <= lookup_cache_size g <= 32 -> regions context g1 <> [] -> cache_shape context g1 ->
  exists g', invalidate_lookup_cache context (netsnmp_set_lookup_cache_size (netsnmp_get_lookup_cache_size g) g1) = Ret g' /\
    regions context g' = regions context g1 /\ cache_sound context g' /\ lookup_cache_size g' = lookup_cache_size g.
Proof.
  intros Hc Hsize Hne Hshape.
  assert (E : netsnmp_set_lookup_cache_size (netsnmp_get_lookup_cache_size g) g1 = with_size (lookup_cache_size g) g1).
  { unfold netsnmp_set_lookup_cache_size, netsnmp_get_lookup_cache_size, SUBTREE_MAX_CACHE_SIZE.
    destruct (Z.ltb_spec (lookup_cache_size g) 0), (Z.ltb_spec (lookup_cache_size g) 32); try done; try lia.
    by replace (lookup_cache_size g) with 32 by lia. }
  rewrite E. destruct (invalidated memory context (with_size (lookup_cache_size g) g1)) as (g' & -> & [cs ->] & Hs); try done.
  by eexists.
Qed.

(** Around the loading: what the caches and their size are afterwards, and the tree but for flags. *)
Lemma register_mib_spec (ld : subtree -> option (list Z) -> registry -> outcome (loaded registry)) (detached : bool) label name priority ubound ss context timeout flags reginfo
    (callback : bool) g rc linked sub' g1 : context_fits context -> cache_sound context g -> 0 < len name <= 128 -> len label <= 4000 ->
  ld (new_subtree label name priority 0 ubound ss timeout flags reginfo) context (with_size 0 g) = Ret (Loaded rc linked sub' g1) ->
  (rc = MIB_REGISTERED_OK \/ rc <> MIB_REGISTERED_OK /\ linked = false) -> regions context g1 <> [] ->
  cache_shape context g1 ->
  exists f g', netsnmp_register_mib ld detached (Some label) (Some name) priority 0 ubound ss context timeout flags reginfo callback g
      = Ret (Some (rc, g')) /\
    keeps_node f /\ regions context g' = map (map f) (regions context g1) /\ cache_sound context g' /\
    lookup_cache_size g' = lookup_cache_size g.
Proof.
  intros Hc [Hsize _] Hn Hl Hld Hrc Hne Hcaches. unfold netsnmp_register_mib.
  rewrite memory by (unfold sizeof_subtree; lia). cbn [negb]. rewrite !memory by lia. replace (len name =? 0) with false by lia. cbn [negb orb].
  change (netsnmp_set_lookup_cache_size 0 g) with (with_size 0 g). rewrite Hld, bind_ret.
  destruct Hrc as [->|[Hrc ->]].
  - cbn [Z.eqb negb]. rewrite bind_ret.
    destruct (maybe_detached detached (name_a sub') (t_priority sub') context g1 Hc) as (f & Hf & Er & Ecs).
    set (g2 := if detached then _ else _) in *. set (g3 := if callback then _ else _).
    assert (E3 : regions context g3 = regions context g2 /\ thecontextcache g3 = thecontextcache g2) by (subst g3; by destruct callback).
    destruct E3 as [E3 E3'].
    destruct (size_restored context g g3 Hc Hsize) as (g' & -> & Er' & Hs & Esz).
    { rewrite E3, Er. by destruct (regions context g1). }
    { intros i. rewrite E3', Ecs. apply Hcaches. }
    exists f, g'. rewrite bind_ret. split_and!; try done. by rewrite Er', E3.
  - destruct (Z.eqb_spec rc MIB_REGISTERED_OK); [done|]. cbn [negb]. unfold register_failed.
    destruct (size_restored context g g1 Hc Hsize Hne Hcaches) as (g' & -> & Er' & Hs & Esz).
    rewrite !bind_ret. exists id, g'. split_and!; try done. by rewrite map_nodes_id.
Qed.

(** ** Registering a handler *)

Section handlers.
Context (bulk_to_next_helper null_handler : M) (detached : bool).
Abbreviation register := (netsnmp_register_handler bulk_to_next_helper null_handler detached).

(** A registration without a range, for the context. *)
Record good_registration context (reginfo : registration) label : Prop := {
  gr_context : contextName reginfo = context;
  gr_name : good_name (rootoid reginfo);
  gr_length : 2 <= len (rootoid reginfo);
  gr_range : r_range_subid reginfo = 0;
  gr_label : handlerName reginfo = Some label;
  gr_label_fits : len label <= 4000;
  gr_fits : fits_registration reginfo
}.

Definition key_of_registration (reginfo : registration) : key :=
  (rootoid reginfo, u8 (r_priority reginfo), default [] (handlerName reginfo)).

Lemma bulk_handler_fits : exists h, netsnmp_get_bulk_to_next_handler (V := V) bulk_to_next_helper = [h] /\ fits_handler h.
Proof.
  unfold netsnmp_get_bulk_to_next_handler, netsnmp_create_handler. rewrite memory by (unfold sizeof_mib_handler; lia). cbn [negb].
  rewrite strdup_fits by (done || (unfold len; cbn; lia)). cbn [mbind option_bind]. eexists. split; [done|].
  split; [|done]. intros n [= <-]. unfold len. cbn. lia.
Qed.

(** What is put on the chain of the handlers keeps the registration fit. *)
Lemma register_handler_is ld reginfo label context g : contextName reginfo = context -> handlerName reginfo = Some label ->
  r_range_subid reginfo = 0 -> fits_registration reginfo ->
  exists reginfo' flags, fits_registration reginfo' /\
    register_handler bulk_to_next_helper detached ld reginfo g
    = netsnmp_register_mib ld detached (Some label) (Some (rootoid reginfo)) (r_priority reginfo) 0 (r_range_ubound reginfo) None
        context (r_timeout reginfo) flags reginfo' true g.
Proof.
  intros <- Hl Hrange (Hn & Hc & Ho & Hne & Hall). unfold register_handler. set (r1 := if modes reginfo =? 0 then _ else _).
  assert (E1 : fits_registration r1 /\ contextName r1 = contextName reginfo /\ handlerName r1 = Some label /\ r_range_subid r1 = 0 /\
    rootoid r1 = rootoid reginfo /\ r_priority r1 = r_priority reginfo /\ r_range_ubound r1 = r_range_ubound reginfo /\
    r_timeout r1 = r_timeout reginfo) by (subst r1; by destruct (_ =? _)).
  clearbody r1. destruct E1 as (Hf & <- & El & Er & <- & <- & <- & <-). destruct (negb _).
  - destruct bulk_handler_fits as (h & -> & Hh). cbn [netsnmp_inject_handler netsnmp_inject_handler_before]. unfold netsnmp_inject_handler.
    cbn [netsnmp_inject_handler_before]. rewrite bind_ret. cbn [with_handler rootoid handlerName r_range_subid]. rewrite El, Er.
    eexists _, _. split; [|done]. destruct Hf as (? & ? & ? & ? & ?). split_and!; try done. cbn. by constructor.
  - rewrite bind_ret, El, Er. by eexists r1, _.
Qed.

(** Loading into [g1], which has the roots: registered, or refused because the name has that priority already. *)
Lemma registered_in_context (ld : subtree -> option (list Z) -> registry -> outcome (loaded registry)) context K g g1 (reginfo : registration) label :
  context_fits context -> cache_sound context g -> (forall s, ld s context (with_size 0 g) = load_in_context s context g1) ->
  holds K (regions context g1) -> cache_shape context g1 ->
  good_registration context reginfo label ->
  exists g', lookup_cache_size g' = lookup_cache_size g /\
    (register_handler bulk_to_next_helper detached ld reginfo g = Ret (Some (MIB_DUPLICATE_REGISTRATION, g')) /\
       (exists other, (rootoid reginfo, u8 (r_priority reginfo), other) ∈ K) /\ registry_ok context K g'
     \/ register_handler bulk_to_next_helper detached ld reginfo g = Ret (Some (MIB_REGISTERED_OK, g')) /\
       (forall other, (rootoid reginfo, u8 (r_priority reginfo), other) ∉ K) /\
       registry_ok context (key_of_registration reginfo :: K) g').
Proof.
  intros Hc Hs Hld Ht Hshape [Ectx Hname Hlen Hrange Hlabel Hfits Hreg].
  destruct (register_handler_is ld reginfo label context g) as (reginfo' & flags & Hreg' & E); [done..|].
  destruct (new_subtree_whole label (rootoid reginfo) (r_priority reginfo) (r_range_ubound reginfo) None (r_timeout reginfo) flags reginfo')
    as (Hw & Eid & Hp); [done..|].
  set (s := new_subtree _ _ _ _ _ _ _ _ _) in *.
  destruct (load_context_holds context K g1 (rootoid reginfo) s) as (s' & g2 & Ecs & Esz & Hload); [done..|].
  assert (Ek : id_of s = key_of_registration reginfo) by (unfold key_of_registration; by rewrite Eid, Hlabel).
  assert (Ep : t_priority s = u8 (r_priority reginfo)) by (by injection Eid).
  destruct Hname as [Hnf ?]. rewrite E. clear E.
  destruct Hload as [(Eload & Ht1 & Hdup)|(Eload & Hno & Ht1)];
    (edestruct (register_mib_spec ld detached label (rootoid reginfo) (r_priority reginfo)) as (f & g' & -> & Hf & Er & Hs' & Esz');
      [exact Hc|exact Hs|exact Hnf|exact Hfits|rewrite Hld; exact Eload|first [by left|by right]|by eapply holds_nonempty|intros i Ei; rewrite Ecs in Ei |- *; by apply Hshape|]);
    exists g'; (split; [done|]).
  - left. split; [done|]. rewrite <- Ep. split; [done|]. split; [|done]. rewrite Er. by apply holds_map.
  - right. split; [done|]. rewrite <- Ep, <- Ek. split; [done|]. split; [|done]. rewrite Er. by apply holds_map.
Qed.

(** ** The roots *)

Definition root_node (x : Z) (r : region) : Prop :=
  exists s, r = [s] /\ id_of s = root x /\ start_a s = [x] /\ end_a s = [x + 1] /\ fits s.

(** The roots before [x], in order. *)
Definition roots_before (x : nat) t : Prop := Forall2 root_node (Z.of_nat <$> seq 0 x) t.

Lemma root_node_map f x r : keeps_node f -> root_node x r -> root_node x (map f r).
Proof.
  intros Hf (s & -> & Eid & Es & Ee & Hfit). exists (f s). destruct (Hf s) as (E1 & E2 & E3 & E4). split_and!; try congruence; [done|].
  unfold fits, id_of in *. rewrite E4. by injection E1 as -> _ ->.
Qed.

Lemma roots_map f x t : keeps_node f -> roots_before x t -> roots_before x (map (map f) t).
Proof. intros Hf Ht. apply Forall2_fmap_r. eapply Forall2_impl; [exact Ht|]. intros y r. by apply root_node_map. Qed.

Lemma load_root fuel x t (new_sub : subtree) : (x <= 2)%nat -> roots_before x t -> start_a new_sub = [Z.of_nat x] ->
  load (S fuel) new_sub t = Ret (Loaded MIB_REGISTERED_OK true new_sub (t ++ [[new_sub]])).
Proof.
  intros Hx Ht Es. assert (Hcase : x = 0%nat \/ x = 1%nat \/ x = 2%nat) by lia. cbn [load]. rewrite Es. destruct Hcase as [-> | [-> | ->]]; unfold roots_before in Ht; cbn in Ht.
  - inversion Ht; subst. done.
  - inversion Ht as [|? ? ? ? (s0 & -> & _ & E1 & E2 & _) Ht1]; subst. inversion Ht1; subst.
    destruct s0. cbn in E1, E2. subst. done.
  - inversion Ht as [|? ? ? ? (s0 & -> & _ & E1 & E2 & _) Ht1]; subst. inversion Ht1 as [|? ? ? ? (s1 & -> & _ & E3 & E4 & _) Ht2]; subst.
    inversion Ht2; subst. destruct s0, s1. cbn in E1, E2, E3, E4. subst. done.
Qed.

(** The roots [0], [1] and [2] with nothing else hold themselves. *)
Lemma roots_hold t : roots_before 3 t -> holds [root 0; root 1; root 2] t.
Proof.
  intros Ht. assert (HK : keys_ok [root 0; root 1; root 2]).
  { constructor.
    - split_and!; rewrite !elem_of_cons; tauto.
    - repeat (apply Forall_cons; split); [..|done]; (split; [|done]); unfold good_name, name_fits, len; cbn;
        (split_and!; try lia; by apply Forall_singleton).
    - intros k k' Hk Hk'. rewrite !elem_of_cons in Hk, Hk'. unfold root.
      destruct Hk as [-> | [-> | [-> | ?%elem_of_nil]]], Hk' as [-> | [-> | [-> | ?%elem_of_nil]]]; done. }
  split; [done|]. unfold roots_before in Ht. cbn in Ht.
  assert (Hroot : forall x r, (x = 0 \/ x = 1 \/ x = 2) -> root_node x r ->
            region_ok (covered [root 0; root 1; root 2]) [x] r /\ end_of r = [x + 1]).
  { intros x r Hx (s & -> & Eid & Es & Ee & Hfit). cbn [end_of]. split; [|done]. constructor; cbn [end_of]; rewrite ?Ee; try done.
    - by apply Forall_singleton.
    - cbn. by replace (x <? x + 1) with true by lia.
    - repeat constructor.
    - intros o k Ho1 Ho2. change [x + 1] with (next_name [x]) in Ho2. cbn [fmap list_fmap]. rewrite Eid, list_elem_of_singleton. unfold covered.
      assert (Hp : [x] `prefix_of` o) by (by apply in_subtree).
      split; [intros ->; split; [|done]; rewrite !elem_of_cons; destruct Hx as [-> | [-> | ->]]; tauto|].
      rewrite !elem_of_cons. destruct Hp as [o' ->]. unfold root. intros [[-> | [-> | [-> | []%elem_of_nil]]] [o'' Eo]]; cbn in Eo; by injection Eo as <-. }
  inversion Ht as [|? ? ? ? R0 Ht1]; subst. inversion Ht1 as [|? ? ? ? R1 Ht2]; subst. inversion Ht2 as [|? ? ? ? R2 Ht3]; subst.
  inversion Ht3; subst. cbn [spans]. apply Hroot in R0 as [? E0], R1 as [? E1], R2 as [? E2]; [|tauto..].
  change (0 + 1) with 1 in E0. rewrite E0, E1, E2. done.
Qed.

Lemma null_registered (x : nat) context g : (x <= 2)%nat -> context_fits context -> cache_sound context g ->
  roots_before x (regions context g) ->
  exists g', netsnmp_register_null_context bulk_to_next_helper null_handler detached load_in_context [Z.of_nat x] context g
      = Ret (Some (MIB_REGISTERED_OK, g')) /\
    roots_before (S x) (regions context g') /\ cache_sound context g' /\ lookup_cache_size g' = lookup_cache_size g.
Proof.
  intros Hx Hc Hs Ht. unfold netsnmp_register_null_context. rewrite memory by (unfold sizeof_handler_registration; lia). cbn [negb].
  unfold netsnmp_create_handler. rewrite memory by (unfold sizeof_mib_handler; lia). cbn [negb].
  rewrite !strdup_fits by (done || (unfold len; cbn; lia)). cbn [mbind option_bind].
  assert (Ectx : context ≫= (fun c => strdup (c_string c)) = context).
  { destruct Hc as [Hl Hself]. destruct context as [c|]; [|done]. cbn in Hl, Hself |- *. by rewrite Hself, strdup_fits. }
  rewrite Ectx. set (reginfo := {| handlerName := _ |}).
  assert (Hreg : fits_registration reginfo).
  { split_and!; cbn; try done; [by intros n [= <-]| |].
    - intros n ->. apply Hc.
    - apply Forall_singleton. split; [|done]. intros n [= <-]. unfold len. cbn. lia. }
  destruct (register_handler_is load_in_context reginfo [] context g) as (reginfo' & flags & Hreg' & ->); [done..|].
  assert (Hgood : good_name [Z.of_nat x]).
  { unfold good_name, name_fits, len. cbn. split_and!; try lia. apply Forall_singleton. lia. }
  destruct (new_subtree_whole [] [Z.of_nat x] 0 0 None 0 flags reginfo') as ((_ & Es & Ee & Hf) & Eid & _); [done..|].
  set (s := new_subtree _ _ _ _ _ _ _ _ _) in *.
  assert (Eload : exists g1, load_in_context s context (with_size 0 g) = Ret (Loaded MIB_REGISTERED_OK true s g1) /\
            regions context g1 = regions context g ++ [[s]] /\ thecontextcache g1 = thecontextcache g).
  { unfold load_in_context. change (regions context (with_size 0 g)) with (regions context g).
    rewrite (load_root _ x) by done. rewrite bind_ret. destruct (replaced memory context (regions context g ++ [[s]]) (with_size 0 g) Hc) as (E1 & E2 & _).
    rewrite E1. eexists. split; [|done]. by destruct (regions context g). }
  destruct Eload as (g1 & Eload & Er1 & Ecs).
  destruct (register_mib_spec load_in_context detached [] [Z.of_nat x] 0 0 None context 0 flags reginfo' true g
              MIB_REGISTERED_OK true s g1) as (f & g' & E & Hfk & Er & Hs' & Esz); try done.
  { by left. }
  { rewrite Er1. by destruct (regions context g). }
  { by eapply sound_shape. }
  cbn [rootoid reginfo r_priority r_range_ubound r_timeout]. rewrite E. exists g'. split; [done|]. split; [|done]. rewrite Er, Er1.
  apply roots_map; [done|]. unfold roots_before. rewrite seq_S, fmap_app. apply Forall2_app; [done|]. constructor; [|constructor].
  exists s. split_and!; try done.
Qed.

(** The first registration in a context makes its roots. *)
Lemma roots_registered context g : context_fits context -> cache_sound context g -> regions context g = [] ->
  exists g', register_roots bulk_to_next_helper null_handler detached [[0]; [1]; [2]] context g = Ret (Some g') /\
    registry_ok context [root 0; root 1; root 2] g' /\ lookup_cache_size g' = lookup_cache_size g.
Proof.
  intros Hc Hs Ht. cbn [register_roots]. rewrite memory by lia.
  destruct (null_registered 0 context g) as (g0 & E0 & R0 & S0 & Z0); [lia|done|done|rewrite Ht; constructor|].
  change (Z.of_nat 0) with 0 in E0. rewrite E0, bind_ret.
  destruct (null_registered 1 context g0) as (g1 & E1 & R1 & S1 & Z1); [lia|done..|].
  change (Z.of_nat 1) with 1 in E1. rewrite E1, bind_ret.
  destruct (null_registered 2 context g1) as (g2 & E2 & R2 & S2 & Z2); [lia|done..|].
  change (Z.of_nat 2) with 2 in E2. rewrite E2, bind_ret.
  exists g2. split; [done|]. split; [|congruence]. split; [by apply roots_hold|done].
Qed.

(** ** The operations on a context *)

(** What a context stands for: no regions at all, or the registrations. *)
Definition stands_for context K g : Prop :=
  cache_sound context g /\ match K with [] => regions context g = [] | _ => holds K (regions context g) end.

Definition registered K name priority : bool := existsb (fun k => bool_decide (k.1 = (name, priority))) K.

Lemma registered_true K name priority : registered K name priority = true <-> exists label, (name, priority, label) ∈ K.
Proof.
  unfold registered. rewrite existsb_exists. split.
  - intros ([np label] & Hk & E%bool_decide_eq_true). cbn in E. subst np. exists label. by apply list_elem_of_In.
  - intros [label Hk%list_elem_of_In]. eexists. split; [done|]. by apply bool_decide_eq_true.
Qed.

Lemma registered_false K name priority : registered K name priority = false <-> forall label, (name, priority, label) ∉ K.
Proof.
  rewrite <- not_true_iff_false, registered_true. split; [intros Hno label Hk; apply Hno; by exists label|intros Hno [label Hk]; by eapply Hno].
Qed.

Definition with_roots K : list key := match K with [] => [root 0; root 1; root 2] | _ => K end.

Lemma root_not_registered name priority : 2 <= len name -> registered [root 0; root 1; root 2] name priority = false.
Proof.
  intros Hlen. apply registered_false. intros label. rewrite !elem_of_cons. unfold root.
  intros [E | [E | [E | []%elem_of_nil]]]; injection E as -> _ _; unfold len in Hlen; cbn in Hlen; lia.
Qed.

Lemma register_stands_for context K g reginfo label : context_fits context -> stands_for context K g -> good_registration context reginfo label ->
  exists g', lookup_cache_size g' = lookup_cache_size g /\
    if registered (with_roots K) (rootoid reginfo) (u8 (r_priority reginfo))
    then register reginfo g = Ret (Some (MIB_DUPLICATE_REGISTRATION, g')) /\ stands_for context (with_roots K) g'
    else register reginfo g = Ret (Some (MIB_REGISTERED_OK, g')) /\ stands_for context (key_of_registration reginfo :: with_roots K) g'.
Proof.
  intros Hc [Hs Ht] Hgood. unfold netsnmp_register_handler.
  assert (Hg1 : exists g1, (forall s, netsnmp_subtree_load bulk_to_next_helper null_handler detached s context (with_size 0 g) = load_in_context s context g1) /\
            holds (with_roots K) (regions context g1) /\ cache_shape context g1).
  { unfold netsnmp_subtree_load. change (regions context (with_size 0 g)) with (regions context g). destruct K as [|k K].
    - destruct (roots_registered context (with_size 0 g)) as (g1 & E & [? Hs1] & _); [done| |done|].
      { destruct Hs as [Hsize Hs]. split; [cbn; lia|]. intros i Ei. destruct (Hs i Ei) as (c & Ec & Hl & Hcount & Hpos & Hfull & Hall).
        exists c. split; [done|]. split_and!; try done; cbn; lia. }
      exists g1. split_and!; [intros s; by rewrite Ht, E, bind_ret|done|by eapply sound_shape].
    - exists (with_size 0 g). split_and!; [|done|by eapply sound_shape]. intros s. apply holds_nonempty in Ht. by destruct (regions context g). }
  destruct Hg1 as (g1 & Hld & Ht1 & Hshape).
  destruct (registered_in_context _ context (with_roots K) g g1 reginfo label Hc Hs Hld Ht1 Hshape Hgood)
    as (g' & Esz & [(-> & Hdup%registered_true & [? ?])|(-> & Hno%registered_false & [? ?])]); exists g'; (split; [done|]).
  - rewrite Hdup. split; [done|]. split; [done|]. by destruct K.
  - rewrite Hno. split; [done|]. by split.
Qed.

Lemma without_absent K name priority : registered K name priority = false -> without name priority K = K.
Proof.
  intros Hreg. pose proof (proj1 (registered_false _ _ _) Hreg) as Hno. clear Hreg. unfold without. induction K as [|k K IH]; [done|]. rewrite filter_cons_True.
  - f_equal. apply IH. intros label Hin. apply (Hno label). by right.
  - intros E. destruct k as [np label]. cbn in E. subst np. apply (Hno label). by left.
Qed.

(** Writing the regions and emptying the cache. *)
Lemma written context t g : context_fits context -> 0 <= lookup_cache_size g <= 32 -> t <> [] -> cache_shape context g ->
  exists g', invalidate_lookup_cache context (netsnmp_subtree_replace_first t context g) = Ret g' /\
    regions context g' = t /\ cache_sound context g' /\ lookup_cache_size g' = lookup_cache_size g.
Proof.
  intros Hc Hsize Hne Hshape. destruct (replaced memory context t g Hc) as (Er & Ecs & Esz).
  destruct (invalidated memory context (netsnmp_subtree_replace_first t context g)) as (g' & -> & [cs ->] & Hs);
    [done|by rewrite Esz|by rewrite Er|unfold cache_shape in Hshape; by rewrite Ecs|]. by eexists.
Qed.

(** One turn unloads the name from every region it is in. *)
Lemma unregistered_once context K g name priority : context_fits context -> cache_sound context g -> holds K (regions context g) ->
  good_name name -> 2 <= len name ->
  if registered K name priority
  then exists g', unregister_once name priority context g = Ret (Some g') /\ holds (without name priority K) (regions context g') /\
    cache_sound context g' /\ lookup_cache_size g' = lookup_cache_size g
  else unregister_once name priority context g = Ret None.
Proof.
  intros Hc Hs Ht Hn Hlen. unfold unregister_once.
  destruct (unload_holds K (regions context g) name priority Ht Hn Hlen) as
    (i & stack & -> & Estack & [(label & j & next & Hk & Ej & Enext & Hh)|[Hno Ej]]);
    rewrite !bind_ret, Estack, Ej, bind_ret.
  2: { apply registered_false in Hno. by rewrite Hno. }
  replace (registered K name priority) with true by (symmetry; apply registered_true; by exists label).
  set (front := unload _ i j) in *. pose proof (holds_nonempty _ _ Hh) as Hne. pose proof Hs as [Hsize _].
  destruct (written context (front ++ drop (S i) (regions context g)) g Hc Hsize) as (g1 & -> & _ & Hs1 & Esz1); [|by eapply sound_shape|].
  { intros [E1 E2]%app_nil. rewrite E2 in Enext. injection Enext as <-. by rewrite E1 in Hne. }
  rewrite bind_ret, Enext, bind_ret.
  destruct (written context (front ++ next) g1 Hc) as (g2 & -> & Er2 & Hs2 & Esz2); [by rewrite Esz1|done|by eapply sound_shape|].
  rewrite bind_ret. exists g2. split; [done|]. rewrite Er2. split_and!; [done|done|congruence].
Qed.

(** Without a range one turn of the loop is all. *)
Lemma unregister_stands_for context K g name priority ubound : context_fits context -> stands_for context K g -> good_name name -> 2 <= len name ->
  exists g',
    unregister_mib_context name priority 0 ubound context g
    = Ret (if registered K name priority then MIB_UNREGISTERED_OK else MIB_NO_SUCH_REGISTRATION, name, g') /\
    lookup_cache_size g' = (if registered K name priority then lookup_cache_size g else 0) /\
    stands_for context (without name priority K) g'.
Proof.
  intros Hc [Hs Ht] Hn Hlen. unfold unregister_mib_context. cbn [Z.ltb Z.compare andb unregister_loop].
  change (netsnmp_set_lookup_cache_size 0 g) with (with_size 0 g).
  assert (Hs0 : cache_sound context (with_size 0 g)).
  { destruct Hs as [Hsize Hs]. split; [cbn; lia|]. intros i Ei. destruct (Hs i Ei) as (c & Ec & Hl & Hcount & Hpos & Hfull & Hall).
    exists c. split; [done|]. split_and!; try done; cbn; lia. }
  assert (Hgone : registered K name priority = false -> unregister_once name priority context (with_size 0 g) = Ret None ->
    exists g', Ret (MIB_NO_SUCH_REGISTRATION, name, with_size 0 g) = Ret (MIB_NO_SUCH_REGISTRATION, name, g') /\
      lookup_cache_size g' = 0 /\ stands_for context (without name priority K) g').
  { intros Hno _. exists (with_size 0 g). rewrite without_absent by done. by split_and!. }
  destruct K as [|k K].
  { assert (E : unregister_once name priority context (with_size 0 g) = Ret None).
    { unfold unregister_once. change (regions context (with_size 0 g)) with (regions context g). by rewrite Ht. }
    rewrite E, bind_ret, bind_ret. by apply Hgone. }
  pose proof (unregistered_once context (k :: K) (with_size 0 g) name priority Hc Hs0 Ht Hn Hlen) as Honce.
  destruct (registered (k :: K) name priority) eqn:Ereg.
  2: { rewrite Honce, bind_ret, bind_ret. by apply Hgone. }
  destruct Honce as (g1 & -> & Hh & Hs1 & Esz1). rewrite bind_ret. cbn [Z.eqb Pos.eqb]. rewrite bind_ret. cbn [negb MIB_UNREGISTERED_OK Z.eqb].
  set (g2 := notify _ g1). destruct (size_restored context g g2 Hc) as (g' & E & Er & Hs' & Esz).
  { apply Hs. } { by eapply holds_nonempty. } { by eapply sound_shape. }
  rewrite E, bind_ret. exists g'. split_and!; [done|done|]. split; [done|]. change (regions context g2) with (regions context g1) in Er.
  rewrite Er. destruct (without name priority (k :: K)) eqn:Ew; [|done]. exfalso. destruct Hh as [[[Hr _] _ _] _]. by apply elem_of_nil in Hr.
Qed.

Lemma search_in_nothing name context g : cache_sound context g -> regions context g = [] ->
  netsnmp_subtree_find_prev name context g = Ret (None, g).
Proof.
  intros [Hsize Hs] Ht. unfold netsnmp_subtree_find_prev. rewrite Ht. destruct (_ =? 0); [done|].
  unfold lookup_cache_find, get_context_lookup_cache. destruct (find_cache _ _) as [i|]; [|by rewrite Ht].
  rewrite bind_ret. destruct (Hs i eq_refl) as (c & -> & Hl & Hcount & _ & _ & Hall). rewrite Ht in Hall.
  assert (E : take (Z.to_nat (Z.min (thecachecount c) (lookup_cache_size g))) (l_cache c) = []).
  { destruct (decide (thecachecount c = 0)) as [->|Hne]; [replace (Z.to_nat (Z.min 0 _)) with O by lia; by rewrite take_0|].
    exfalso. destruct (l_cache c) as [|x l]; [done|]. destruct (Z.to_nat (thecachecount c)) eqn:E; [lia|]. cbn in Hall.
    apply Forall_cons in Hall as [(q & _ & ?) _]. lia. }
  rewrite Ht, E. done.
Qed.

(** What a lookup finds. *)
Definition longest K o k : Prop := k ∈ K /\ k.1.1 `prefix_of` o /\ forall k', k' ∈ K -> k'.1.1 `prefix_of` o -> k' = k \/ above k k'.

Lemma find_stands_for context K g o : context_fits context -> stands_for context K g -> name_fits o -> 0 <= hd 0 o <= 2 ->
  exists found g', netsnmp_subtree_find o context g = Ret (found, g') /\ lookup_cache_size g' = lookup_cache_size g /\
    regions context g' = regions context g /\ stands_for context K g' /\
    match found with
    | None => K = []
    | Some i => exists s r, regions context g !! i = Some (s :: r) /\ longest K o (id_of s) /\
                  lex (start_a s) o <= 0 /\ lex o (end_a s) < 0
    end.
Proof.
  intros Hc [Hs Ht] Ho Hhd. unfold netsnmp_subtree_find. destruct (decide (K = [])) as [->|HK].
  { rewrite search_in_nothing, bind_ret by done. by exists None, g. }
  assert (Hh : holds K (regions context g)) by (by destruct K). clear Ht.
  pose proof Hh as [_ Hspan]. destruct (lookup_holds K _ o Hh Ho Hhd) as (i & s & r & Efind & Ei & Hin & Hp & Hlo & Hhi & Hmax).
  destruct (cached_search memory o context g) as (g' & -> & [cs ->] & Hs');
    [done|done|by apply name_fits_short|by eapply spans_short|by eapply spans_ascending|by eapply holds_nonempty|]. rewrite bind_ret.
  change (regions context (with_caches cs g)) with (regions context g). unfold find in Efind.
  rewrite find_prev_linear, bind_ret in Efind by (by (apply name_fits_short || eapply spans_short)).
  destruct (before_first _) as [i'|]; [|done]. rewrite Efind, bind_ret. exists (Some i), (with_caches cs g). split_and!; try done.
  - split; [done|]. by destruct K.
  - by exists s, r.
Qed.

(** ** Histories *)

Inductive command : Type :=
  | Register (reginfo : registration)
  | Unregister (name : list Z) (priority : Z)
  | Find (o : list Z).

Inductive answer : Type :=
  | Code (rc : Z)
  | Top (k : option key).

Definition top_of t (i : nat) : option key := r ← t !! i; id_of <$> head r.

Definition perform context (c : command) g : outcome (option (answer * registry)) :=
  match c with
  | Register reginfo => res ← register reginfo g; Ret (option_map (fun '(rc, g) => (Code rc, g)) res)
  | Unregister name priority =>
      '(rc, _, g) ← unregister_mib_context name priority 0 0 context g; Ret (Some (Code rc, g))
  | Find o => '(i, g) ← netsnmp_subtree_find o context g; Ret (Some (Top (i ≫= top_of (regions context g)), g))
  end.

Fixpoint history context (cs : list command) g : outcome (option (list answer * registry)) :=
  match cs with
  | [] => Ret (Some ([], g))
  | c :: cs =>
      res ← perform context c g;
      match res with
      | None => Ret None
      | Some (a, g) => res ← history context cs g; Ret (option_map (fun '(l, g) => (a :: l, g)) res)
      end
  end.

Definition good_command context (c : command) : Prop :=
  match c with
  | Register reginfo => exists label, good_registration context reginfo label
  | Unregister name _ => good_name name /\ 2 <= len name
  | Find o => name_fits o /\ 0 <= hd 0 o <= 2
  end.

(** What the registrations of a context have to answer, and what they are then. *)
Inductive specified : list key -> command -> answer -> list key -> Prop :=
  | Refused_name K reginfo : registered (with_roots K) (rootoid reginfo) (u8 (r_priority reginfo)) = true ->
      specified K (Register reginfo) (Code MIB_DUPLICATE_REGISTRATION) (with_roots K)
  | New_name K reginfo : registered (with_roots K) (rootoid reginfo) (u8 (r_priority reginfo)) = false ->
      specified K (Register reginfo) (Code MIB_REGISTERED_OK) (key_of_registration reginfo :: with_roots K)
  | Gone K name priority : registered K name priority = true ->
      specified K (Unregister name priority) (Code MIB_UNREGISTERED_OK) (without name priority K)
  | Unknown K name priority : registered K name priority = false ->
      specified K (Unregister name priority) (Code MIB_NO_SUCH_REGISTRATION) K
  | Found K o k : longest K o k -> specified K (Find o) (Top (Some k)) K
  | Nothing o : specified [] (Find o) (Top None) [].

Inductive specified_history : list key -> list command -> list answer -> list key -> Prop :=
  | Ended K : specified_history K [] [] K
  | Went_on K c a K1 cs l K2 : specified K c a K1 -> specified_history K1 cs l K2 -> specified_history K (c :: cs) (a :: l) K2.

Lemma performed context K g c : context_fits context -> stands_for context K g -> good_command context c ->
  exists a g' K', perform context c g = Ret (Some (a, g')) /\ specified K c a K' /\ stands_for context K' g'.
Proof.
  intros Hc Hs Hgood. destruct c as [reginfo|name priority|o]; cbn [perform good_command] in *.
  - destruct Hgood as [label Hgood]. destruct (register_stands_for context K g reginfo label Hc Hs Hgood) as (g' & _ & Hreg).
    destruct (registered _ _ _) eqn:E; destruct Hreg as [-> ?]; rewrite bind_ret; eexists _, g', _;
      (split; [done|]); (split; [|done]); by constructor.
  - destruct Hgood as [Hn Hlen]. destruct (unregister_stands_for context K g name priority 0 Hc Hs Hn Hlen) as (g' & -> & _ & Hs').
    rewrite bind_ret. eexists _, g', _. split; [done|]. split; [|done]. destruct (registered _ _ _) eqn:E; [by constructor|].
    rewrite without_absent by done. by constructor.
  - destruct Hgood as [Ho Hhd]. destruct (find_stands_for context K g o Hc Hs Ho Hhd) as (found & g' & -> & _ & Er & Hs' & Hfound).
    rewrite bind_ret, Er. destruct found as [i|].
    + destruct Hfound as (s & r & Ei & Hl & _). exists (Top (Some (id_of s))), g', K. split_and!; [|by constructor|done].
      cbn. unfold top_of. by rewrite Ei.
    + subst K. eexists _, g', _. split; [done|]. split; [constructor|done].
Qed.

Lemma histories context cs : forall K g, context_fits context -> stands_for context K g -> Forall (good_command context) cs ->
  exists l g' K', history context cs g = Ret (Some (l, g')) /\ specified_history K cs l K' /\ stands_for context K' g'.
Proof.
  induction cs as [|c cs IH]; intros K g Hc Hs Hgood; [eexists [], g, K; split_and!; [done|constructor|done]|].
  apply Forall_cons in Hgood as [Hg Hgood]. destruct (performed context K g c Hc Hs Hg) as (a & g1 & K1 & E & Hspec & Hs1).
  destruct (IH K1 g1 Hc Hs1 Hgood) as (l & g2 & K2 & E2 & Hspec2 & Hs2). exists (a :: l), g2, K2. cbn [history].
  rewrite E, bind_ret, E2, bind_ret. split_and!; [done|by econstructor|done].
Qed.
End handlers.
End memory.
End registry.

(** ** Properties *)

(** C25: Every history of registrations, unregistrations and lookups in a
    context of an agent, from a registry without regions on, of names without a
    range, of at least two sub-identifiers and below the three roots, answers as a set
    of names with priorities would (ranges are not taken back as they were made,
    [range_unregistered_as_count], and above the roots regions get lost,
    [following_regions_lost]): a name is refused exactly when it is there
    with that priority, and a lookup finds, on top of its region, the longest
    registered name that is a prefix, the lowest priority of that. *)
Theorem registry_longest_prefix {M V : Type} `{Allocator} (bulk null : M) (detached : bool) (context : option (list Z)) (size : Z)
    (cs : list (command (M := M) (V := V))) :
  (forall n, n <= 4096 -> alloc n = true) -> context_fits context -> 0 <= size <= 32 -> Forall (good_command context) cs ->
  exists answers g K,
    history bulk null detached context cs
      {| context_subtrees := []; thecontextcache := []; lookup_cache_size := size; registry_events := [] |}
    = Ret (Some (answers, g)) /\
    specified_history [] cs answers K /\ stands_for context K g.
Proof. intros memory Hc Hsize Hgood. apply histories; done. Qed.

(** C29: The search for a region, which skips the comparisons that the common
    prefixes of neighbouring regions decide and starts from the lookup cache of
    the context, finds the region that a comparison with every region finds, and leaves
    the cache with places of regions in it. *)
Theorem search_is_linear {M V : Type} `{Allocator} (name : list Z) (context : option (list Z)) (g : agent_registry (M := M) (V := V)) :
  (forall n, n <= 4096 -> alloc n = true) -> context_fits context -> cache_sound context g -> short name ->
  short_starts (netsnmp_subtree_find_first context g) -> ascending (netsnmp_subtree_find_first context g) ->
  netsnmp_subtree_find_first context g <> [] ->
  exists g',
    netsnmp_subtree_find_prev name context g
    = Ret (before_first (regions_not_after name (netsnmp_subtree_find_first context g)), g') /\
    only_caches g g' /\ cache_sound context g'.
Proof. intros. by apply cached_search. Qed.

Section examples.
#[local] Existing Instance small_alloc.

(** A registration [name] of the priority [priority], with one handler. *)
Definition sample (name : list Z) (priority : Z) (label : list Z) : netsnmp_handler_registration Z Z := {|
  handlerName := Some label; contextName := None; rootoid := name;
  handler := [{| handler_name := Some label; myvoid := None; h_flags := 0; access_method := Some 1; data_clone := None |}];
  modes := 0; r_priority := priority; r_range_subid := 0; r_range_ubound := 0; r_timeout := 0; r_global_cacheid := 0;
  my_reg_void := None |}.

Definition no_regions (size : Z) : agent_registry (M := Z) (V := Z) :=
  {| context_subtrees := []; thecontextcache := []; lookup_cache_size := size; registry_events := [] |}.

Definition sample_history : list (command (M := Z) (V := Z)) :=
  [Register (sample [1; 3; 6] 127 [97]); Register (sample [1; 3; 6; 1] 127 [98]); Find [1; 3; 6; 1; 5]; Find [1; 3; 6; 2];
   Register (sample [1; 3; 6; 1] 127 [99]); Register (sample [1; 3; 6; 1] 20 [100]); Find [1; 3; 6; 1]; Find [1; 5];
   Unregister [1; 3; 6] 127; Find [1; 3; 6; 2]; Unregister [1; 3; 6] 127].

Lemma enough_memory n : n <= 4096 -> alloc n = true.
Proof. unfold alloc. cbn. lia. Qed.

Lemma sample_good name priority label : good_name name -> 2 <= len name -> len label <= 4000 ->
  good_registration None (sample name priority label) label.
Proof.
  intros Hn Hlen Hl. constructor; try done. pose proof Hn as [[? ?] _]. split_and!; cbn; try done.
  - by intros n [= <-].
  - apply Forall_singleton. split; [by intros n [= <-]|done].
Qed.

(** Names of the samples. *)
Ltac sample_name := unfold good_name, name_fits, len; cbn; split_and!; try lia; repeat (apply Forall_cons; split); [lia..|done].
Ltac sample_registered := eexists; apply sample_good; [sample_name|unfold len; cbn; lia|unfold len; cbn; lia].

Lemma registry_longest_prefix_witness :
  exists answers g K,
    history 2 3 false None sample_history (no_regions 8) = Ret (Some (answers, g)) /\
    specified_history [] sample_history answers K /\ stands_for None K g.
Proof.
  apply (registry_longest_prefix 2 3 false None 8 sample_history); [exact enough_memory|done|lia|].
  unfold sample_history. repeat (apply Forall_cons; split); [..|done]; cbn [good_command].
  1-2,5-6: sample_registered.
  1-4,6: unfold name_fits, len; cbn; lia.
  all: split; [sample_name|unfold len; cbn; lia].
Defined.

(** What it answers. *)
Lemma sample_answers :
  (res ← history 2 3 false None sample_history (no_regions 8); Ret (option_map fst res))
  = Ret (Some [Code 0; Code 0; Top (Some ([1; 3; 6; 1], 127, [98])); Top (Some ([1; 3; 6], 127, [97])); Code (-1); Code 0;
               Top (Some ([1; 3; 6; 1], 20, [100])); Top (Some ([1], 0, [])); Code 0; Top (Some ([1], 0, [])); Code (-1)]).
Proof. vm_compute. reflexivity. Qed.

Lemma search_is_linear_witness :
  exists g g', netsnmp_register_handler 2 3 false (sample [1; 3; 6] 127 [97]) (no_regions 8) = Ret (Some (0, g)) /\
    netsnmp_subtree_find_prev [1; 3; 6; 5] None g
    = Ret (before_first (regions_not_after [1; 3; 6; 5] (netsnmp_subtree_find_first None g)), g') /\
    only_caches g g' /\ cache_sound None g'.
Proof.
  destruct (register_stands_for enough_memory 2 3 false None [] (no_regions 8) (sample [1; 3; 6] 127 [97]) [97])
    as (g & _ & Hreg); [done|split; [split; [cbn; lia|intros i E; discriminate E]|reflexivity]|apply sample_good; [sample_name|unfold len; cbn; lia..]|].
  cbn [with_roots] in Hreg. rewrite root_not_registered in Hreg by (unfold len; cbn; lia). destruct Hreg as (E & Hs & Ht).
  pose proof Ht as [_ Hspan].
  destruct (search_is_linear [1; 3; 6; 5] None g) as (g' & Hg');
    [exact enough_memory|split; [unfold context_text, len; cbn; lia|reflexivity]|exact Hs|apply name_fits_short; unfold name_fits, len; cbn; lia
    |exact (spans_short _ _ _ _ Hspan)|exact (spans_ascending _ _ _ _ Hspan)|exact (holds_nonempty _ _ Ht)|].
  exists g, g'. split; [exact E|exact Hg'].
Defined.

(** An unregistration that finds nothing leaves the lookup cache turned off. *)
Lemma unknown_turns_cache_off :
  exists g, unregister_mib_context [1; 3; 6] 127 0 0 None (no_regions 8) = Ret (MIB_NO_SUCH_REGISTRATION, [1; 3; 6], g) /\
    lookup_cache_size g = 0.
Proof. eexists. split; [vm_compute; reflexivity|reflexivity]. Qed.

Definition names (g : agent_registry (M := Z) (V := Z)) : list (list (list Z)) :=
  map (map name_a) (netsnmp_subtree_find_first None g).

(** A registration of a range: [range_subid] and [range_ubound]. *)
Definition ranged (name : list Z) (sub bound : Z) : netsnmp_handler_registration Z Z := {|
  handlerName := Some [97]; contextName := None; rootoid := name; handler := handler (sample name 127 [97]); modes := 0;
  r_priority := 127; r_range_subid := sub; r_range_ubound := bound; r_timeout := 0; r_global_cacheid := 0;
  my_reg_void := None |}.

(** The registration of 1.3.6.2 to 1.3.6.3 has two regions; to unregister it
    the bound is taken for a number, and after the two regions are gone 1.3.6.4 is not
    found: an error, with the name of the caller changed and the lookup cache off. *)
Lemma range_unregistered_as_count :
  (res ← netsnmp_register_handler 2 3 false (ranged [1; 3; 6; 2] 4 3) (no_regions 8);
   match res with
   | Some (rc, g) =>
       '(rc', name, g') ← netsnmp_unregister_handler (ranged [1; 3; 6; 2] 4 3) g;
       Ret (Some (rc, names g, rc', name, names g', lookup_cache_size g'))
   | None => Ret None
   end)
  = Ret (Some (MIB_REGISTERED_OK, [[[0]]; [[1]]; [[1; 3; 6; 2]; [1]]; [[1; 3; 6; 3]; [1]]; [[1]]; [[2]]],
               MIB_NO_SUCH_REGISTRATION, [1; 3; 6; 4], [[[0]]; [[1]]; [[1]]; [[1]]; [[1]]; [[2]]], 0)).
Proof. vm_compute. reflexivity. Qed.

(** Above the roots a registration before another one makes that one go. *)
Lemma following_regions_lost :
  (res ← netsnmp_register_handler 2 3 false (sample [5] 127 [97]) (no_regions 8);
   match res with
   | Some (rc, g) =>
       res ← netsnmp_register_handler 2 3 false (sample [4] 127 [97]) g;
       Ret (option_map (fun '(rc', g') => (rc, names g, rc', names g')) res)
   | None => Ret None
   end)
  = Ret (Some (MIB_REGISTERED_OK, [[[0]]; [[1]]; [[2]]; [[5]]], MIB_REGISTERED_OK, [[[0]]; [[1]]; [[2]]; [[4]]])).
Proof. vm_compute. reflexivity. Qed.

(** A cache that is made larger while it is in use counts entries that were never written. *)
Lemma larger_cache_crashes :
  (res ← netsnmp_register_handler 2 3 false (sample [1; 3; 6] 127 [97]) (no_regions 1);
   match res with
   | Some (_, g) =>
       '(_, g) ← netsnmp_subtree_find_prev [1; 3; 7] None g;
       '(_, g) ← netsnmp_subtree_find_prev [0; 3] None (netsnmp_set_lookup_cache_size 4 g);
       '(i, _) ← netsnmp_subtree_find_prev [1; 9] None g; Ret i
   | None => Ret None
   end) = Null.
Proof. vm_compute. reflexivity. Qed.
End examples.
