(* ===== verification/AgentRequest.v ===== *)
(** * Requests in the agent: agent/snmp_agent.c

    The variables of a message are given to the handlers of the regions they
    fall into, in one pass (GET), until all are answered (GETNEXT), or in the
    phases of a SET; the answer is the message that is sent.

    A request, [asp], points to a variable by its place in the message, and to
    a region by its place in the list of its context.  The handlers are a parameter:
    an access method sees the requests with their variables and the state [W] of the
    world, and answers in the fields that are a handler's.  The callbacks for access control
    are a parameter too, with that of vacm_conf.c as an instance: they leave the message as it is,
    since the context of a community is put into it by the check that comes before.
    Requests do not change the registry but for its lookup cache.

    Then the messages that wait: those that are delegated, the queue, and the
    SET that must run alone, with a log of what happened to each that the code does
    not keep.  At the end, a message as it comes from a session.

    GETBULK, the phases of a SET as messages of their own (AgentX), and the
    requests of a session that is closed are not modelled. *)

From stdpp Require Import list.
From S2P Require Import Prelude Bytes AsnTypes AsnParse AsnBuild AsnRbuild VarOp Pdu Oid Vacm Lcd Scapi Users UsmMsg Session Secmod Message Client CString Keytools ReadConfig UserConfig AgentHandler Registry.

Definition SNMP_MSG_INTERNAL_SET_BEGIN : Z := -1.
Definition SNMP_MSG_INTERNAL_SET_RESERVE1 : Z := 0.
Definition SNMP_MSG_INTERNAL_SET_RESERVE2 : Z := 1.
Definition SNMP_MSG_INTERNAL_SET_ACTION : Z := 2.
Definition SNMP_MSG_INTERNAL_SET_COMMIT : Z := 3.
Definition SNMP_MSG_INTERNAL_SET_FREE : Z := 4.
Definition SNMP_MSG_INTERNAL_SET_UNDO : Z := 5.
Definition FINISHED_SUCCESS : Z := 9.
Definition FINISHED_FAILURE : Z := 10.

Definition SNMP_ERR_NOERROR : Z := 0.
Definition SNMP_ERR_NOSUCHNAME : Z := 2.
Definition SNMP_ERR_BADVALUE : Z := 3.
Definition SNMP_ERR_NOACCESS : Z := 6.
Definition SNMP_ERR_WRONGTYPE : Z := 7.
Definition SNMP_ERR_WRONGLENGTH : Z := 8.
Definition SNMP_ERR_WRONGENCODING : Z := 9.
Definition SNMP_ERR_WRONGVALUE : Z := 10.
Definition SNMP_ERR_NOCREATION : Z := 11.
Definition SNMP_ERR_INCONSISTENTVALUE : Z := 12.
Definition SNMP_ERR_RESOURCEUNAVAILABLE : Z := 13.
Definition SNMP_ERR_COMMITFAILED : Z := 14.
Definition SNMP_ERR_UNDOFAILED : Z := 15.
Definition SNMP_ERR_AUTHORIZATIONERROR : Z := 16.
Definition SNMP_ERR_NOTWRITABLE : Z := 17.
Definition SNMP_ERR_INCONSISTENTNAME : Z := 18.

Definition UCD_MSG_FLAG_ALWAYS_IN_VIEW : Z := 0x800.
Definition UCD_MSG_FLAG_ONE_PASS_ONLY : Z := 0x2000.
Definition ASN_PRIV_RETRY : Z := Z.lor ASN_PRIVATE 7.

(** ** Data *)

Record request_info : Type := {
  q_subtree : option nat;
  requestvb : option nat;
  range_end : option (list Z);
  delegated : Z;
  processed : Z;
  inclusive : Z;
  q_status : Z;
  q_index : Z
}.

(** What [calloc] gives. *)
Definition no_request : request_info := {|
  q_subtree := None; requestvb := None; range_end := None; delegated := 0; processed := 0; inclusive := 0; q_status := 0;
  q_index := 0 |}.

Definition with_answer (d p i st : Z) (q : request_info) : request_info := {|
  q_subtree := q_subtree q; requestvb := requestvb q; range_end := range_end q; delegated := d; processed := p; inclusive := i;
  q_status := st; q_index := q_index q |}.

(** A slot: the region, and its requests by their place, in order.  There are
    [treecache_num] + 1 of them in memory for [treecache_len].  What is left out of
    [reqinfo] is the data of handlers. *)
Record tree_cache : Type := { c_subtree : nat; c_requests : list nat }.

Record agent_session : Type := {
  a_mode : Z;
  a_pdu : netsnmp_pdu;
  orig_pdu : option netsnmp_pdu;
  a_status : Z;
  a_index : Z;
  a_oldmode : Z;
  requests : list request_info;
  treecache : list tree_cache;
  treecache_len : Z;
  cache_store : list (Z * nat);
  reqinfo : option Z
}.

Definition with_a_mode (m : Z) (asp : agent_session) : agent_session := {|
  a_mode := m; a_pdu := a_pdu asp; orig_pdu := orig_pdu asp; a_status := a_status asp; a_index := a_index asp;
  a_oldmode := a_oldmode asp; requests := requests asp; treecache := treecache asp;
  treecache_len := treecache_len asp; cache_store := cache_store asp; reqinfo := reqinfo asp |}.
Definition with_a_oldmode (m : Z) (asp : agent_session) : agent_session := {|
  a_mode := a_mode asp; a_pdu := a_pdu asp; orig_pdu := orig_pdu asp; a_status := a_status asp; a_index := a_index asp;
  a_oldmode := m; requests := requests asp; treecache := treecache asp;
  treecache_len := treecache_len asp; cache_store := cache_store asp; reqinfo := reqinfo asp |}.
Definition with_a_pdu (p : netsnmp_pdu) (asp : agent_session) : agent_session := {|
  a_mode := a_mode asp; a_pdu := p; orig_pdu := orig_pdu asp; a_status := a_status asp; a_index := a_index asp;
  a_oldmode := a_oldmode asp; requests := requests asp; treecache := treecache asp;
  treecache_len := treecache_len asp; cache_store := cache_store asp; reqinfo := reqinfo asp |}.
Definition with_error (st i : Z) (asp : agent_session) : agent_session := {|
  a_mode := a_mode asp; a_pdu := a_pdu asp; orig_pdu := orig_pdu asp; a_status := st; a_index := i;
  a_oldmode := a_oldmode asp; requests := requests asp; treecache := treecache asp;
  treecache_len := treecache_len asp; cache_store := cache_store asp; reqinfo := reqinfo asp |}.
Definition with_requests (l : list request_info) (asp : agent_session) : agent_session := {|
  a_mode := a_mode asp; a_pdu := a_pdu asp; orig_pdu := orig_pdu asp; a_status := a_status asp; a_index := a_index asp;
  a_oldmode := a_oldmode asp; requests := l; treecache := treecache asp;
  treecache_len := treecache_len asp; cache_store := cache_store asp; reqinfo := reqinfo asp |}.
Definition with_treecache (c : list tree_cache) (n : Z) (store : list (Z * nat)) (asp : agent_session) : agent_session := {|
  a_mode := a_mode asp; a_pdu := a_pdu asp; orig_pdu := orig_pdu asp; a_status := a_status asp; a_index := a_index asp;
  a_oldmode := a_oldmode asp; requests := requests asp; treecache := c; treecache_len := n; cache_store := store;
  reqinfo := reqinfo asp |}.
Definition with_reqinfo (m : option Z) (asp : agent_session) : agent_session := {|
  a_mode := a_mode asp; a_pdu := a_pdu asp; orig_pdu := orig_pdu asp; a_status := a_status asp; a_index := a_index asp;
  a_oldmode := a_oldmode asp; requests := requests asp; treecache := treecache asp; treecache_len := treecache_len asp;
  cache_store := cache_store asp; reqinfo := m |}.

Definition a_command (asp : agent_session) : Z := command (m_body (a_pdu asp)).
Definition a_variables (asp : agent_session) : list variable_list := variables (m_body (a_pdu asp)).
Definition with_a_variables (l : list variable_list) (asp : agent_session) : agent_session :=
  with_a_pdu (with_m_body (with_variables l (m_body (a_pdu asp))) (a_pdu asp)) asp.
Definition with_status (st : Z) (asp : agent_session) : agent_session := with_error st (a_index asp) asp.

Definition mode_is_set (m : Z) : bool := (m <? 128) || (m =? -1) || (m =? SNMP_MSG_SET).
Definition is_search (asp : agent_session) : bool := (a_command asp =? SNMP_MSG_GETNEXT) || (a_command asp =? SNMP_MSG_GETBULK).

(** A request with its variable, as a handler has it. *)
Definition view : Type := request_info * variable_list.

(** [_request_set_error]. *)
Definition _request_set_error (mode error_value : Z) (r : view) : view :=
  let '(q, vb) := r in
  let failed st := (with_answer 0 1 (inclusive q) st q, vb) in
  if (error_value =? SNMP_NOSUCHOBJECT) || (error_value =? SNMP_NOSUCHINSTANCE) || (error_value =? SNMP_ENDOFMIBVIEW) then
    if (mode =? SNMP_MSG_GET) || (mode =? SNMP_MSG_GETNEXT) || (mode =? SNMP_MSG_GETBULK)
    then (with_answer 0 1 (inclusive q) (q_status q) q, with_type error_value vb)
    else if mode =? SNMP_MSG_INTERNAL_SET_RESERVE1 then failed SNMP_ERR_NOCREATION
    else failed SNMP_ERR_NOSUCHNAME
  else if error_value <? 0 then failed SNMP_ERR_GENERR
  else failed error_value.

Definition netsnmp_set_request_error (mode : Z) (r : view) (error_value : Z) : view := _request_set_error mode error_value r.
Definition netsnmp_request_set_error_all (mode : Z) (rs : list view) (error : Z) : list view := map (_request_set_error mode error) rs.

(** ** Calling handlers: agent_handler.c *)

(** What an access method writes into a request and its variable. *)
Record answer : Type := {
  d_delegated : Z;
  d_processed : Z;
  d_inclusive : Z;
  d_status : Z;
  d_var : variable_list
}.

Definition answered (r : view) (a : option answer) : view :=
  match a with
  | None => r
  | Some a => (with_answer (d_delegated a) (d_processed a) (d_inclusive a) (d_status a) r.1, d_var a)
  end.

Fixpoint all_answered (rs : list view) (l : list answer) : list view :=
  match rs with [] => [] | r :: rs => answered r (head l) :: all_answered rs (tail l) end.

(** ** The callback of the access control: mibII/vacm_conf.c *)

(** The fields of the message the decision looks at. *)
Definition request_of (p : netsnmp_pdu) : request := {|
  r_command := command (m_body p); r_securityModel := m_securityModel p; r_securityLevel := m_securityLevel p;
  r_contextName := m_contextName p; r_contextNameLen := len (default [] (m_contextName p)) |}.

(** [community] is what the transport makes of the address and the community. *)
Definition security_name {St} (known : services St) (community : netsnmp_pdu -> option (list Z)) (p : netsnmp_pdu)
    : option (list Z) :=
  if (m_version p =? SNMP_VERSION_1) || (m_version p =? SNMP_VERSION_2c) then community p
  else match find_sec_mod (m_securityModel p) known with Some _ => m_securityName p | None => None end.

(** The error code that is left, which is 0 before. *)
Definition vacm_in_view_callback {St} (v : vacm) (known : services St) (community : netsnmp_pdu -> option (list Z))
    (p : netsnmp_pdu) (name : option (list Z)) (check_subtree : bool) : outcome Z :=
  vacm_in_view v (security_name known community p) (request_of p) name (len (default [] name)) check_subtree.

Section agent.
Context {M V W : Type} `{Allocator}.
Abbreviation registration := (netsnmp_handler_registration M V).
Abbreviation mib_handler := (netsnmp_mib_handler M V).
Abbreviation registry := (agent_registry (M := M) (V := V)).
Abbreviation tree := (list (list (netsnmp_subtree M V))).

(** An access method: its handler, the registration, the mode, the requests
    and the world give the code, the answers, whether
    [MIB_HANDLER_AUTO_NEXT_OVERRIDE_ONCE] is set in its flags, and the world. *)
Context (access : M -> mib_handler -> registration -> Z -> list view -> W -> Z * list answer * bool * W).

(** The callbacks of SNMPD_CALLBACK_ACM_CHECK, _CHECK_SUBTREE ([check_subtree]) and
    _CHECK_INITIAL (no name): the message and the name; the error code they leave. *)
Context (acm : netsnmp_pdu -> option (list Z) -> bool -> outcome Z).

(** ** Access control: agent_registry.c *)

Definition any_version (pdu : netsnmp_pdu) : bool :=
  (m_version pdu =? SNMP_VERSION_1) || (m_version pdu =? SNMP_VERSION_2c) || (m_version pdu =? SNMP_VERSION_3).
Definition always_in_view (pdu : netsnmp_pdu) : bool := has_bit (flags (m_body pdu)) UCD_MSG_FLAG_ALWAYS_IN_VIEW.

Definition in_a_view (name : list Z) (pdu : netsnmp_pdu) (t : Z) : outcome Z :=
  if always_in_view pdu then Ret VACM_SUCCESS
  else if (m_version pdu =? SNMP_VERSION_1) && (t =? ASN_COUNTER64) then Ret VACM_NOTINVIEW
  else if any_version pdu then acm pdu (Some name) false
  else Ret VACM_NOSECNAME.

Definition check_access (pdu : netsnmp_pdu) : outcome Z :=
  if always_in_view pdu then Ret 0 else if any_version pdu then acm pdu None false else Ret 1.

Definition netsnmp_acm_check_subtree (pdu : netsnmp_pdu) (name : list Z) : outcome Z :=
  if always_in_view pdu then Ret 0 else if any_version pdu then acm pdu (Some name) true else Ret 1.

Fixpoint call_chain (chain : list mib_handler) (reginfo : registration) (mode : Z) (rs : list view) (w : W)
    : Z * list view * W :=
  match chain with
  | [] => (SNMP_ERR_GENERR, rs, w)
  | h :: next =>
      match access_method h, next with
      | None, [] => (SNMP_ERR_NOERROR, rs, w)
      | None, _ => (SNMP_ERR_GENERR, rs, w)
      | Some nh, _ =>
          let '(ret, l, once, w) := access nh h reginfo mode rs w in
          let rs := all_answered rs l in
          match next with
          | [] => (ret, rs, w)
          | _ => if negb (has_bit (h_flags h) MIB_HANDLER_AUTO_NEXT) || (once : bool) then (ret, rs, w)
                 else call_chain next reginfo mode rs w
          end
      end
  end.

Definition netsnmp_call_handler (chain : list mib_handler) (reginfo : registration) (mode : Z) (rs : list view) (w : W)
    : Z * list view * W :=
  match rs with [] => (SNMP_ERR_GENERR, rs, w) | _ => call_chain chain reginfo mode rs w end.

Definition mode_is_get (mode : Z) : bool :=
  (mode =? SNMP_MSG_GET) || (mode =? SNMP_MSG_GETNEXT) || (mode =? SNMP_MSG_GETBULK).
Definition mode_is_set_phase (mode : Z) : bool :=
  (mode =? SNMP_MSG_INTERNAL_SET_RESERVE1) || (mode =? SNMP_MSG_INTERNAL_SET_RESERVE2)
  || (mode =? SNMP_MSG_INTERNAL_SET_ACTION) || (mode =? SNMP_MSG_INTERNAL_SET_COMMIT)
  || (mode =? SNMP_MSG_INTERNAL_SET_FREE) || (mode =? SNMP_MSG_INTERNAL_SET_UNDO).

Definition unprocess (r : view) : view := (with_answer (delegated r.1) 0 (inclusive r.1) (q_status r.1) r.1, r.2).

Definition netsnmp_call_handlers (reginfo : registration) (mode : Z) (rs : list view) (w : W) : Z * list view * W :=
  match rs, handler reginfo with
  | [], _ | _, [] => (SNMP_ERR_GENERR, rs, w)
  | _, _ =>
      let unprocessed := map unprocess rs in
      if mode_is_get mode then
        if negb (has_bit (modes reginfo) HANDLER_CAN_GETANDGETNEXT) then (SNMP_ERR_NOERROR, rs, w)
        else netsnmp_call_handler (handler reginfo) reginfo mode unprocessed w
      else if mode_is_set_phase mode then
        if negb (has_bit (modes reginfo) HANDLER_CAN_SET)
        then (SNMP_ERR_NOERROR, map (fun r => netsnmp_set_request_error mode r SNMP_ERR_NOTWRITABLE) rs, w)
        else netsnmp_call_handler (handler reginfo) reginfo mode unprocessed w
      else (SNMP_ERR_GENERR, rs, w)
  end.

(** ** Requests and their variables *)

Fixpoint views (asp : agent_session) (l : list nat) : outcome (list view) :=
  match l with
  | [] => Ret []
  | i :: l =>
      match q ← requests asp !! i; vb ← requestvb q; vb ← a_variables asp !! vb; Some (q, vb) with
      | None => Null
      | Some r => rest ← views asp l; Ret (r :: rest)
      end
  end.

Definition put_variable (place : option nat) (vb : variable_list) (asp : agent_session) : agent_session :=
  match place with Some p => with_a_variables (<[p := vb]> (a_variables asp)) asp | None => asp end.

Definition put (i : nat) (r : view) (asp : agent_session) : agent_session :=
  put_variable (requestvb r.1) r.2 (with_requests (<[i := r.1]> (requests asp)) asp).

Fixpoint put_all (l : list nat) (rs : list view) (asp : agent_session) : agent_session :=
  match l, rs with i :: l, r :: rs => put_all l rs (put i r asp) | _, _ => asp end.

(** The error that is reported so far, and one more request. *)
Definition check_status (look_for_specific : Z) (e : Z * Z) (q : request_info) : Z * Z :=
  if negb (q_status q =? SNMP_ERR_NOERROR) && ((look_for_specific =? 0) || (q_status q =? look_for_specific))
     && (negb (look_for_specific =? 0) || (e.2 =? 0) || (q_index q <? e.2))
  then (q_status q, q_index q) else e.

Definition netsnmp_check_requests_status (asp : agent_session) (rs : list request_info) (look_for_specific : Z) : agent_session :=
  let e := fold_left (check_status look_for_specific) rs (a_status asp, a_index asp) in with_error e.1 e.2 asp.

Fixpoint slot_requests (asp : agent_session) (l : list nat) : outcome (list request_info) :=
  match l with
  | [] => Ret []
  | i :: l => match requests asp !! i with
              | None => Null
              | Some q => rest ← slot_requests asp l; Ret (q :: rest)
              end
  end.

Fixpoint check_slots (asp : agent_session) (slots : list tree_cache) (look_for_specific : Z) : outcome agent_session :=
  match slots with
  | [] => Ret asp
  | s :: slots => rs ← slot_requests asp (c_requests s);
                  check_slots (netsnmp_check_requests_status asp rs look_for_specific) slots look_for_specific
  end.

Definition netsnmp_check_all_requests_status (asp : agent_session) (look_for_specific : Z) : outcome agent_session :=
  check_slots asp (treecache asp) look_for_specific.

Definition netsnmp_check_all_requests_error (asp : agent_session) (look_for_specific : Z) : Z :=
  match list_find (fun q => negb (q_status q =? SNMP_ERR_NOERROR)
                            && ((look_for_specific =? 0) || (q_status q =? look_for_specific)) = true) (requests asp) with
  | Some (_, q) => q_status q
  | None => SNMP_ERR_NOERROR
  end.

Definition netsnmp_check_requests_error (rs : list request_info) : Z :=
  match list_find (fun q => q_status q <> SNMP_ERR_NOERROR) rs with Some (_, q) => q_status q | None => SNMP_ERR_NOERROR end.

Fixpoint slots_delegated (asp : agent_session) (slots : list tree_cache) : outcome bool :=
  match slots with
  | [] => Ret false
  | s :: slots => rs ← slot_requests asp (c_requests s);
                  if existsb (fun q => negb (delegated q =? 0)) rs then Ret true else slots_delegated asp slots
  end.

Definition netsnmp_check_for_delegated (asp : agent_session) : outcome bool := slots_delegated asp (treecache asp).

(** The errors a phase of a SET looks for. *)
Definition looked_for (mode : Z) : Z :=
  if mode =? SNMP_MSG_INTERNAL_SET_COMMIT then SNMP_ERR_COMMITFAILED
  else if mode =? SNMP_MSG_INTERNAL_SET_UNDO then SNMP_ERR_UNDOFAILED else 0.

Fixpoint call_slots (t : tree) (slots : list tree_cache) (asp : agent_session) (final_status : Z) (w : W)
    : outcome (Z * agent_session * W) :=
  match slots with
  | [] => Ret (final_status, asp, w)
  | s :: slots =>
      match stack ← t !! c_subtree s; head stack with
      | None => Null
      | Some node =>
          rs ← views asp (c_requests s);
          let '(status, rs, w) := netsnmp_call_handlers (t_reginfo node) (a_mode asp) rs w in
          let asp := put_all (c_requests s) rs asp in
          rs ← slot_requests asp (c_requests s);
          let asp := netsnmp_check_requests_status asp rs (looked_for (a_mode asp)) in
          let status := if negb (a_status asp =? SNMP_ERR_NOERROR) then a_status asp else status in
          call_slots t slots asp (if final_status =? SNMP_ERR_NOERROR then status else final_status) w
      end
  end.

Definition handle_var_requests (t : tree) (asp : agent_session) (w : W) : outcome (Z * agent_session * W) :=
  match reqinfo asp with
  | None => Null
  | Some _ => call_slots t (treecache asp) (with_reqinfo (Some (a_mode asp)) asp) SNMP_ERR_NOERROR w
  end.

(** ** Requests into slots *)

Definition top (t : tree) (k : nat) : option (netsnmp_subtree M V) := stack ← t !! k; head stack.

Definition sizeof_request_info : Z := 104.
Definition sizeof_tree_cache : Z := 24.
Definition sizeof_cachemap : Z := 16.
Definition CACHE_GROW_SIZE : Z := 16.

(** Whether the search goes past the region. *)
Definition hidden (pdu : netsnmp_pdu) (s : netsnmp_subtree M V) : outcome bool :=
  prefix_len ← netsnmp_oid_find_prefix (Some (start_a s)) (len (start_a s)) (Some (end_a s)) (len (end_a s));
  if prefix_len <? 1 then Ret true
  else result ← netsnmp_acm_check_subtree pdu (take (Z.to_nat prefix_len) (start_a s)); Ret (result =? VACM_NOTINVIEW).

(** The regions from the place [k] on. *)
Fixpoint skip_hidden (pdu : netsnmp_pdu) (rest : tree) (k : nat) : outcome (option nat) :=
  match rest with
  | [] => Ret None
  | [] :: _ => Null
  | (s :: _) :: next => h ← hidden pdu s; if (h : bool) then skip_hidden pdu next (S k) else Ret (Some k)
  end.

Definition netsnmp_get_local_cachid (store : list (Z * nat)) (globalid : Z) : option nat :=
  snd <$> (snd <$> list_find (fun e => e.1 = globalid) store).

Definition netsnmp_get_or_add_local_cachid (store : list (Z * nat)) (globalid : Z) (localid : nat) : list (Z * nat) :=
  if alloc sizeof_cachemap then (globalid, localid) :: store else store.

(** A new slot.  Without memory for it the slots are NULL, and used. *)
Definition new_slot (k : nat) (asp : agent_session) : outcome agent_session :=
  let cacheid := Z.of_nat (length (treecache asp)) in
  let n := if treecache_len asp <=? cacheid then treecache_len asp + CACHE_GROW_SIZE else treecache_len asp in
  if (treecache_len asp <=? cacheid) && negb (alloc (sizeof_tree_cache * n)) then Null
  else Ret (with_treecache (treecache asp ++ [{| c_subtree := k; c_requests := [] |}]) n (cache_store asp) asp).

(** The slot of a region.  [cacheid] of a subtree is the slot that was made for
    it last, which is looked at only where that is a slot of this message. *)
Definition slot_of (k : nat) (node : netsnmp_subtree M V) (asp : agent_session) : outcome (nat * agent_session) :=
  if negb (t_global_cacheid node =? 0) then
    match netsnmp_get_local_cachid (cache_store asp) (t_global_cacheid node) with
    | Some c => Ret (c, asp)
    | None =>
        let c := length (treecache asp) in
        let store := netsnmp_get_or_add_local_cachid (cache_store asp) (t_global_cacheid node) c in
        asp ← new_slot k (with_treecache (treecache asp) (treecache_len asp) store asp); Ret (c, asp)
    end
  else
    match list_find (fun s => c_subtree s = k) (treecache asp) with
    | Some (c, _) => Ret (c, asp)
    | None => asp ← new_slot k asp; Ret (length (treecache asp) - 1, asp)%nat
    end.

Definition add_to_slot (i : nat) (s : tree_cache) : tree_cache :=
  {| c_subtree := c_subtree s; c_requests := c_requests s ++ [i] |}.

(** The request [i] for the variable at [place]; [tp] is the region, or NULL.
    Without memory [requests] is NULL. *)
Definition netsnmp_add_varbind_to_cache (t : tree) (i place : nat) (tp : option nat) (asp : agent_session)
    : outcome agent_session :=
  match a_variables asp !! place with
  | None => Null
  | Some varbind =>
      tp ← (match tp with
            | Some k => if is_search asp then skip_hidden (a_pdu asp) (drop k t) k else Ret (Some k)
            | None => Ret None
            end);
      match tp with
      | None =>
          if is_search asp then Ret (put_variable (Some place) (with_type SNMP_ENDOFMIBVIEW varbind) asp)
          else if (a_command asp =? SNMP_MSG_SET) || (a_command asp =? SNMP_MSG_GET)
          then Ret (put_variable (Some place) (with_type SNMP_NOSUCHOBJECT varbind) asp)
          else Ret asp
      | Some k =>
          match top t k, requests asp !! i with
          | Some node, Some q =>
              let set := mode_is_set (a_command asp) in
              let q := {|
                q_subtree := Some k; requestvb := Some place;
                range_end := if is_search asp then Some (end_a node) else None;
                delegated := 0; processed := 0;
                inclusive := if negb set && (type varbind =? ASN_PRIV_INCL_RANGE) then 1 else inclusive q;
                q_status := 0; q_index := Z.of_nat i + 1 |} in
              let asp := put i (q, if set then varbind else with_type ASN_NULL varbind) asp in
              '(c, asp) ← slot_of k node asp;
              Ret (with_treecache (alter (add_to_slot i) c (treecache asp)) (treecache_len asp) (cache_store asp) asp)
          | _, _ => Null
          end
      end
  end.

(** A variable without a value. *)
Definition set_null (t : Z) (vb : variable_list) : outcome variable_list :=
  r ← snmp_set_var_typed_value vb t None 0; Ret (default (with_type t vb) r).

Definition change (place : nat) (f : variable_list -> outcome variable_list) (asp : agent_session) : outcome agent_session :=
  match a_variables asp !! place with
  | None => Null
  | Some vb => vb ← f vb; Ret (put_variable (Some place) vb asp)
  end.

(** The requests of all slots, in order. *)
Definition in_slots (asp : agent_session) : list nat := concat (map c_requests (treecache asp)).

(** [check_acm] without repetitions: the number of the variables that are not
    to be seen. *)
Fixpoint check_acm_loop (l : list nat) (t : Z) (asp : agent_session) : outcome (Z * agent_session) :=
  match l with
  | [] => Ret (0, asp)
  | i :: l =>
      match q ← requests asp !! i; place ← requestvb q; vb ← a_variables asp !! place; Some (place, vb) with
      | None => Null
      | Some (place, vb) =>
          if (type vb =? ASN_NULL) || (type vb =? ASN_PRIV_RETRY) then check_acm_loop l t asp
          else
            view ← in_a_view (name vb) (a_pdu asp) (type vb);
            if view =? VACM_SUCCESS then check_acm_loop l t asp
            else
              asp ← change place (set_null t) asp;
              '(ret, asp) ← check_acm_loop l t asp;
              Ret (1 + ret, asp)
      end
  end.

Definition check_acm (t : Z) (asp : agent_session) : outcome (Z * agent_session) := check_acm_loop (in_slots asp) t asp.

(** The variables from [i] on. *)
Fixpoint collect (turns i : nat) (asp : agent_session) (g : registry) : outcome (Z * agent_session * registry) :=
  match turns with
  | O => Ret (SNMP_ERR_NOERROR, asp, g)
  | S turns =>
      match a_variables asp !! i with
      | None => Null
      | Some vb =>
          let context := m_contextName (a_pdu asp) in
          '(tp, g) ← netsnmp_subtree_find (name vb) context g;
          view ← (if (a_command asp =? SNMP_MSG_GET) || (a_command asp =? SNMP_MSG_SET)
                  then in_a_view (name vb) (a_pdu asp) (type vb) else Ret VACM_SUCCESS);
          if view =? VACM_SUCCESS then
            asp ← netsnmp_add_varbind_to_cache (netsnmp_subtree_find_first context g) i i tp asp;
            collect turns (S i) asp g
          else if a_command asp =? SNMP_MSG_SET then Ret (SNMP_ERR_NOACCESS, with_error (a_status asp) (Z.of_nat i + 1) asp, g)
          else asp ← change i (set_null SNMP_NOSUCHOBJECT) asp; collect turns (S i) asp g
      end
  end.

(** For a message other than a GETBULK, that has no slots yet. *)
Definition netsnmp_create_subtree_cache (asp : agent_session) (g : registry) : outcome (Z * agent_session * registry) :=
  let n := Z.max (1 + Z.of_nat (length (a_variables asp)) / 4) 16 in
  if negb (alloc (sizeof_tree_cache * n)) then Ret (SNMP_ERR_GENERR, with_treecache [] n (cache_store asp) asp, g)
  else collect (length (a_variables asp)) O (with_treecache [] n (cache_store asp) asp) g.

Definition next_region (t : tree) (k : nat) : option nat := if bool_decide (S k < length t)%nat then Some (S k) else None.

Definition reassign_one (t : tree) (i : nat) (asp : agent_session) : outcome agent_session :=
  match requests asp !! i with
  | None => Null
  | Some q =>
      match requestvb q with
      | None => Ret asp
      | Some place =>
          match a_variables asp !! place, q_subtree q with
          | Some vb, Some k =>
              if type vb =? ASN_NULL then netsnmp_add_varbind_to_cache t (Z.to_nat (q_index q - 1)) place (next_region t k) asp
              else if type vb =? ASN_PRIV_RETRY
              then netsnmp_add_varbind_to_cache t (Z.to_nat (q_index q - 1)) place (Some k)
                     (put_variable (Some place) (with_type ASN_NULL vb) asp)
              else Ret asp
          | _, _ => Null
          end
      end
  end.

Fixpoint reassign_loop (t : tree) (turns i : nat) (asp : agent_session) : outcome agent_session :=
  match turns with
  | O => Ret asp
  | S turns => asp ← reassign_one t i asp; reassign_loop t turns (S i) asp
  end.

(** Without memory for the new slots they are NULL, and used. *)
Definition netsnmp_reassign_requests (t : tree) (asp : agent_session) : outcome agent_session :=
  if negb (alloc (sizeof_tree_cache * treecache_len asp)) then Null
  else reassign_loop t (length (a_variables asp)) O (with_treecache [] (treecache_len asp) [] asp).

(** ** Answers to a GETNEXT *)

(** A name there is no memory for is NULL. *)
Definition beyond (q : request_info) (vb : variable_list) : outcome view :=
  let range_end := default [] (range_end q) in
  c ← snmp_oid_compare (name vb) (len (name vb)) range_end (len range_end);
  if 0 <=? c then
    match snmp_set_var_objid vb range_end with
    | None => Null
    | Some vb => vb ← set_null ASN_NULL vb; Ret (with_answer (delegated q) (processed q) 2 (q_status q) q, vb)
    end
  else Ret (q, vb).

(** One request; [special] after a GET for the names that are inclusive. *)
Definition check_result (special : bool) (r : view) : outcome view :=
  let '(q, vb) := r in
  vb ← (if special && ((inclusive q =? 0) || (type vb =? ASN_NULL) || (type vb =? SNMP_NOSUCHINSTANCE) || (type vb =? SNMP_NOSUCHOBJECT))
        then set_null ASN_PRIV_RETRY vb else Ret vb);
  '(q, vb) ← beyond q vb;
  Ret (if type vb =? SNMP_ENDOFMIBVIEW
       then (with_answer (delegated q) (processed q) 1 (q_status q) q, with_type ASN_NULL vb) else (q, vb)).

Fixpoint check_results (special : bool) (l : list nat) (asp : agent_session) : outcome (nat * agent_session) :=
  match l with
  | [] => Ret (O, asp)
  | i :: l =>
      match q ← requests asp !! i; place ← requestvb q; vb ← a_variables asp !! place; Some (q, vb) with
      | None => Null
      | Some r =>
          r ← check_result special r;
          '(count, asp) ← check_results special l (put i r asp);
          Ret (if (type r.2 =? ASN_NULL) || (type r.2 =? ASN_PRIV_RETRY) then S count else count, asp)
      end
  end.

Definition check_getnext_results (asp : agent_session) : outcome (nat * agent_session) :=
  let special := a_mode asp =? SNMP_MSG_GET in
  check_results special (in_slots asp) (if special then with_a_mode (a_oldmode asp) asp else asp).

(** [netsnmp_running] stays 1. *)
Fixpoint handle_getnext_loop (fuel : nat) (t : tree) (asp : agent_session) (w : W) : outcome (Z * agent_session * W) :=
  match fuel with
  | O => Spin
  | S fuel =>
      waits ← netsnmp_check_for_delegated asp;
      if (waits : bool) then Ret (SNMP_ERR_NOERROR, asp, w)
      else
        '(_, asp) ← check_acm ASN_PRIV_RETRY asp;
        '(count, asp) ← check_getnext_results asp;
        if bool_decide (count = O) then Ret (SNMP_ERR_NOERROR, asp, w)
        else
          asp ← netsnmp_reassign_requests t asp;
          '(status, asp, w) ← handle_var_requests t asp w;
          if negb (status =? SNMP_ERR_NOERROR) then Ret (status, asp, w) else handle_getnext_loop fuel t asp w
  end.

(** ** The phases of a SET *)

Definition one_pass_only (asp : agent_session) : bool := has_bit (flags (m_body (a_pdu asp))) UCD_MSG_FLAG_ONE_PASS_ONLY.

Definition next_phase (asp : agent_session) : agent_session :=
  let failed := negb (a_status asp =? SNMP_ERR_NOERROR) in
  let m := a_mode asp in
  if m =? SNMP_MSG_INTERNAL_SET_BEGIN then with_status SNMP_ERR_NOERROR (with_a_mode SNMP_MSG_INTERNAL_SET_RESERVE1 asp)
  else if m =? SNMP_MSG_INTERNAL_SET_RESERVE1
  then with_a_mode (if failed then SNMP_MSG_INTERNAL_SET_FREE else SNMP_MSG_INTERNAL_SET_RESERVE2) asp
  else if m =? SNMP_MSG_INTERNAL_SET_RESERVE2
  then with_a_mode (if failed then SNMP_MSG_INTERNAL_SET_FREE else SNMP_MSG_INTERNAL_SET_ACTION) asp
  else if m =? SNMP_MSG_INTERNAL_SET_ACTION
  then with_a_mode (if failed then SNMP_MSG_INTERNAL_SET_UNDO else SNMP_MSG_INTERNAL_SET_COMMIT) asp
  else if m =? SNMP_MSG_INTERNAL_SET_COMMIT then with_a_mode (if failed then FINISHED_FAILURE else FINISHED_SUCCESS) asp
  else if (m =? SNMP_MSG_INTERNAL_SET_UNDO) || (m =? SNMP_MSG_INTERNAL_SET_FREE) then with_a_mode FINISHED_FAILURE asp
  else asp.

Definition finished (asp : agent_session) : bool := (a_mode asp =? FINISHED_SUCCESS) || (a_mode asp =? FINISHED_FAILURE).

(** What [handle_set] makes of the status of a phase. *)
Definition record_status (status : Z) (asp : agent_session) : agent_session :=
  if (negb (status =? SNMP_ERR_NOERROR) && (a_status asp =? SNMP_ERR_NOERROR)) || (status =? SNMP_ERR_COMMITFAILED)
     || (status =? SNMP_ERR_UNDOFAILED)
  then with_status status asp else asp.

Definition handle_set (t : tree) (asp : agent_session) (w : W) : outcome (agent_session * W) :=
  let asp := if one_pass_only asp then asp else next_phase asp in
  if finished asp then Ret (asp, w)
  else
    '(status, asp, w) ← handle_var_requests t asp w;
    Ret (record_status status asp, w).

Fixpoint set_loop (fuel : nat) (t : tree) (asp : agent_session) (w : W) : outcome (Z * agent_session * W) :=
  if finished asp then Ret (a_status asp, asp, w)
  else
    match fuel with
    | O => Spin
    | S fuel =>
        '(asp, w) ← handle_set t asp w;
        waits ← netsnmp_check_for_delegated asp;
        if (waits : bool) then Ret (SNMP_ERR_NOERROR, asp, w)
        else if one_pass_only asp then Ret (a_status asp, asp, w)
        else set_loop fuel t asp w
    end.

(** Five phases at most, and the turn that ends it. *)
Definition handle_set_loop (t : tree) (asp : agent_session) (w : W) : outcome (Z * agent_session * W) := set_loop 6 t asp w.

(** ** A message *)

(** The types of the variables are forgotten, but for those that ask for a
    search that is inclusive, which are counted. *)
Fixpoint forget_values (l : list variable_list) : outcome (nat * list variable_list) :=
  match l with
  | [] => Ret (O, [])
  | v :: l =>
      v' ← (if type v =? ASN_PRIV_INCL_RANGE then Ret v else set_null ASN_NULL v);
      '(n, l) ← forget_values l;
      Ret (if type v =? ASN_PRIV_INCL_RANGE then S n else n, v' :: l)
  end.

Definition is_internal_set (c : Z) : bool := (c =? SNMP_MSG_INTERNAL_SET_BEGIN) || mode_is_set_phase c.

(** The requests of the message; [None] where the message is one of those that
    are not modelled. *)
Definition prepare (asp : agent_session) (g : registry) : outcome (option (nat * Z * agent_session * registry)) :=
  let c := a_command asp in
  if (c =? SNMP_MSG_GETBULK) || is_internal_set c then Ret None
  else
    '(inclusives, vars) ← (if (c =? SNMP_MSG_GET) || (c =? SNMP_MSG_GETNEXT) then forget_values (a_variables asp)
                           else Ret (O, a_variables asp));
    let asp := with_a_variables vars asp in
    let n := length vars in
    let asp := if bool_decide (n = O) then asp
               else with_requests (if alloc (sizeof_request_info * Z.of_nat n) then replicate n no_request else []) asp in
    '(status, asp, g) ← netsnmp_create_subtree_cache asp g;
    Ret (Some (inclusives, status, asp, g)).

(** A message whose requests are made. *)
Definition perform_pdu (fuel inclusives : nat) (t : tree) (asp : agent_session) (w : W) : outcome (Z * agent_session * W) :=
  let m := a_command asp in
  let asp := with_a_mode m asp in
  if m =? SNMP_MSG_GET then
    '(_, asp) ← check_acm SNMP_NOSUCHOBJECT asp;
    '(status, asp, w) ← handle_var_requests t asp w;
    Ret (status,
         if status =? SNMP_ERR_NOERROR
         then with_a_variables (snmp_replace_var_types (a_variables asp) ASN_NULL SNMP_NOSUCHINSTANCE) asp else asp, w)
  else if m =? SNMP_MSG_GETNEXT then
    let asp := if bool_decide (inclusives = O) then asp else with_a_mode SNMP_MSG_GET (with_a_oldmode (a_mode asp) asp) in
    '(status, asp, w) ← handle_var_requests t asp w;
    if negb (status =? SNMP_ERR_NOERROR) && bool_decide (inclusives = O) then Ret (status, asp, w)
    else handle_getnext_loop fuel t (if negb (status =? SNMP_ERR_NOERROR) then with_status SNMP_ERR_NOERROR asp else asp) w
  else if m =? SNMP_MSG_SET then
    '(errors, asp) ← check_acm SNMP_NOSUCHOBJECT asp;
    if negb (errors =? 0) then Ret (SNMP_ERR_NOTWRITABLE, asp, w)
    else handle_set_loop t (with_a_mode SNMP_MSG_INTERNAL_SET_BEGIN asp) w
  else if (m =? SNMP_MSG_RESPONSE) || (m =? SNMP_MSG_TRAP) || (m =? SNMP_MSG_TRAP2) then Ret (SNMP_ERR_NOERROR, asp, w)
  else Ret (SNMPERR_GENERR, asp, w).

Definition handle_pdu (fuel : nat) (asp : agent_session) (g : registry) (w : W)
    : outcome (option (Z * agent_session * registry * W)) :=
  prepared ← prepare asp g;
  match prepared with
  | None => Ret None
  | Some (inclusives, status, asp, g) =>
      if negb (status =? SNMP_ERR_NOERROR) then Ret (Some (status, asp, g, w))
      else
        '(status, asp, w) ← perform_pdu fuel inclusives (netsnmp_subtree_find_first (m_contextName (a_pdu asp)) g) asp w;
        Ret (Some (status, asp, g, w))
  end.

(** ** The answer *)

(** A name there is no memory for is NULL. *)
Fixpoint fix_names (vbs ovbs : list variable_list) : outcome (list variable_list) :=
  match vbs, ovbs with
  | vb :: vbs, ovb :: ovbs =>
      vb ← (if type vb =? SNMP_ENDOFMIBVIEW
            then match snmp_set_var_objid vb (name ovb) with Some vb => Ret vb | None => Null end else Ret vb);
      vbs ← fix_names vbs ovbs;
      Ret (vb :: vbs)
  | _, _ => Ret vbs
  end.

Definition _fix_endofmibview (asp : agent_session) : outcome agent_session :=
  match a_variables asp, orig_pdu asp with
  | [], _ => Ret asp
  | _, None => Null
  | vbs, Some orig => vbs ← fix_names vbs (variables (m_body orig)); Ret (with_a_variables vbs asp)
  end.

(** The errors of SNMPv1 for those of a SET. *)
Definition v1_error (e : Z) : Z :=
  if (e =? SNMP_ERR_WRONGVALUE) || (e =? SNMP_ERR_WRONGENCODING) || (e =? SNMP_ERR_WRONGTYPE) || (e =? SNMP_ERR_WRONGLENGTH)
     || (e =? SNMP_ERR_INCONSISTENTVALUE) then SNMP_ERR_BADVALUE
  else if (e =? SNMP_ERR_NOACCESS) || (e =? SNMP_ERR_NOTWRITABLE) || (e =? SNMP_ERR_NOCREATION)
          || (e =? SNMP_ERR_INCONSISTENTNAME) || (e =? SNMP_ERR_AUTHORIZATIONERROR) then SNMP_ERR_NOSUCHNAME
  else if (e =? SNMP_ERR_RESOURCEUNAVAILABLE) || (e =? SNMP_ERR_COMMITFAILED) || (e =? SNMP_ERR_UNDOFAILED)
  then SNMP_ERR_GENERR
  else e.

Definition not_in_v1 (vb : variable_list) : bool :=
  (type vb =? SNMP_NOSUCHOBJECT) || (type vb =? SNMP_NOSUCHINSTANCE) || (type vb =? SNMP_ENDOFMIBVIEW) || (type vb =? ASN_COUNTER64).

(** The place, from [i] on, of the last variable that SNMPv1 does not have. *)
Fixpoint last_exception (vbs : list variable_list) (i : Z) : option Z :=
  match vbs with
  | [] => None
  | vb :: vbs => match last_exception vbs (i + 1) with
                 | Some k => Some k
                 | None => if not_in_v1 vb then Some i else None
                 end
  end.

Definition v1_answer (status : Z) (asp : agent_session) : Z * agent_session :=
  if negb (m_version (a_pdu asp) =? SNMP_VERSION_1) then (status, asp)
  else if a_command asp =? SNMP_MSG_SET then
    (if v1_error (a_status asp) =? a_status asp then (status, asp) else (v1_error (a_status asp), with_status (v1_error (a_status asp)) asp))
  else match last_exception (a_variables asp) 1 with
       | Some i => (SNMP_ERR_NOSUCHNAME, with_error SNMP_ERR_NOSUCHNAME i asp)
       | None => (status, asp)
       end.

Definition as_response (asp : agent_session) (p : netsnmp_pdu) : netsnmp_pdu :=
  with_m_body (with_errindex (a_index asp) (with_errstat (a_status asp) (with_command SNMP_MSG_RESPONSE (m_body p)))) p.

(** The message that is sent, which is a copy of the one that came where there
    is a [status]; none without memory for the copy. *)
Definition netsnmp_wrap_up_request (asp : agent_session) (status : Z) : outcome (option netsnmp_pdu) :=
  let asp := if negb (status =? 0) && (a_status asp =? 0) then with_status status asp else asp in
  asp ← (if a_command asp =? SNMP_MSG_GETNEXT then _fix_endofmibview asp else Ret asp);
  let '(status, asp) := v1_answer status asp in
  Ret (as_response asp <$> (if status =? SNMP_ERR_NOERROR then Some (a_pdu asp) else orig_pdu asp)).

(** What becomes of a message: it waits for a handler, or it is answered. *)
Inductive resumed : Type :=
  | Delayed (asp : agent_session) (w : W)
  | Answered (response : option netsnmp_pdu) (w : W).

(** [netsnmp_handle_request] from where the message is processed. *)
Definition process_request (fuel : nat) (asp : agent_session) (g : registry) (w : W) : outcome (option (resumed * registry)) :=
  handled ← handle_pdu fuel asp g w;
  match handled with
  | None => Ret None
  | Some (status, asp, g, w) =>
      waits ← netsnmp_check_for_delegated asp;
      if (waits : bool) then Ret (Some (Delayed (with_status status asp) w, g))
      else response ← netsnmp_wrap_up_request asp status; Ret (Some (Answered response w, g))
  end.

(** ** A delegated message that goes on *)

(** The message stays among the delegated ones where it is [Delayed]. *)
Definition check_delayed_request (fuel : nat) (t : tree) (asp : agent_session) (w : W) : outcome resumed :=
  let status := SNMP_ERR_NOERROR in
  let finish asp w :=
    waits ← netsnmp_check_for_delegated asp;
    if (waits : bool) then Ret (Delayed asp w) else r ← netsnmp_wrap_up_request asp status; Ret (Answered r w) in
  let m := a_mode asp in
  if (m =? SNMP_MSG_GETBULK) || (m =? SNMP_MSG_GETNEXT) then
    asp ← netsnmp_check_all_requests_status asp 0;
    '(_, asp, w) ← handle_getnext_loop fuel t asp w;
    finish asp w
  else if (m =? SNMP_MSG_INTERNAL_SET_BEGIN) || mode_is_set_phase m then
    asp ← (if m =? SNMP_MSG_INTERNAL_SET_COMMIT then netsnmp_check_all_requests_status asp SNMP_ERR_COMMITFAILED
           else if m =? SNMP_MSG_INTERNAL_SET_UNDO then netsnmp_check_all_requests_status asp SNMP_ERR_UNDOFAILED
           else Ret asp);
    if one_pass_only asp then finish asp w
    else
      '(_, asp, w) ← handle_set_loop t asp w;
      if finished asp then finish asp w else Ret (Delayed asp w)
  else finish asp w.

(** ** Messages that wait *)

(** What happened to the messages, by their identity; [is_set] is that of a SET,
    and a message is lost that is neither answered nor kept. *)
Inductive event : Type :=
  | Started (i : nat) (is_set : bool)
  | Finished (i : nat) (response : option netsnmp_pdu)
  | Lost (i : nat).

(** [agent_delegated_list], [netsnmp_agent_queued_list] and
    [netsnmp_processing_set]: a message has an identity, its address. *)
Record agent : Type := {
  a_registry : registry;
  delegated_list : list (nat * agent_session);
  queued_list : list (nat * agent_session);
  processing_set : option nat;
  a_log : list event
}.

Definition with_registry (g : registry) (ag : agent) : agent := {|
  a_registry := g; delegated_list := delegated_list ag; queued_list := queued_list ag; processing_set := processing_set ag;
  a_log := a_log ag |}.
Definition with_delegated (l : list (nat * agent_session)) (ag : agent) : agent := {|
  a_registry := a_registry ag; delegated_list := l; queued_list := queued_list ag; processing_set := processing_set ag;
  a_log := a_log ag |}.
Definition with_queued (l : list (nat * agent_session)) (ag : agent) : agent := {|
  a_registry := a_registry ag; delegated_list := delegated_list ag; queued_list := l; processing_set := processing_set ag;
  a_log := a_log ag |}.
Definition with_processing (p : option nat) (ag : agent) : agent := {|
  a_registry := a_registry ag; delegated_list := delegated_list ag; queued_list := queued_list ag; processing_set := p;
  a_log := a_log ag |}.
Definition with_event (e : event) (ag : agent) : agent := {|
  a_registry := a_registry ag; delegated_list := delegated_list ag; queued_list := queued_list ag;
  processing_set := processing_set ag; a_log := a_log ag ++ [e] |}.

Definition chained (i : nat) (l : list (nat * agent_session)) : bool := existsb (fun e => bool_decide (e.1 = i)) l.

Definition netsnmp_check_delegated_chain_for (i : nat) (ag : agent) : bool := chained i (delegated_list ag).
Definition netsnmp_check_queued_chain_for (i : nat) (ag : agent) : bool := chained i (queued_list ag).

(** A message that is in the list is not linked again. *)
Definition link_delegated (i : nat) (asp : agent_session) (ag : agent) : agent :=
  if netsnmp_check_delegated_chain_for i ag
  then with_delegated (map (fun e => if bool_decide (e.1 = i) then (i, asp) else e) (delegated_list ag)) ag
  else with_delegated ((i, asp) :: delegated_list ag) ag.

Fixpoint unlinked (i : nat) (l : list (nat * agent_session)) : list (nat * agent_session) :=
  match l with [] => [] | e :: l => if bool_decide (e.1 = i) then l else e :: unlinked i l end.

Definition netsnmp_remove_from_delegated (i : nat) (ag : agent) : agent := with_delegated (unlinked i (delegated_list ag)) ag.

Definition netsnmp_add_queued (i : nat) (asp : agent_session) (ag : agent) : agent :=
  if netsnmp_check_queued_chain_for i ag then ag else with_queued (queued_list ag ++ [(i, asp)]) ag.

Definition netsnmp_check_transaction_id (transid : Z) (ag : agent) : bool :=
  existsb (fun e => m_transid (a_pdu e.2) =? transid) (delegated_list ag).

(** The rest of [netsnmp_wrap_up_request]: a message whose answer there was no
    message for is not freed. *)
Definition wrapped_up (i : nat) (response : option netsnmp_pdu) (ag : agent) : agent :=
  let ag := if bool_decide (processing_set ag = Some i) then with_processing None ag else ag in
  let ag := with_event (Finished i response) ag in
  match response with Some _ => netsnmp_remove_from_delegated i ag | None => ag end.

(** A message, new or from the queue; [None] where it is one of those that are
    not modelled. *)
Definition netsnmp_handle_request (fuel i : nat) (asp : agent_session) (ag : agent) (w : W) : outcome (option (agent * W)) :=
  let fresh := negb (netsnmp_check_delegated_chain_for i ag) && negb (bool_decide (processing_set ag = Some i)) in
  let sets := a_command asp =? SNMP_MSG_SET in
  if fresh && bool_decide (is_Some (processing_set ag)) then Ret (Some (netsnmp_add_queued i asp ag, w))
  else
    let ag := if fresh && sets then with_processing (Some i) ag else ag in
    if fresh && sets && negb (bool_decide (delegated_list ag = [])) then Ret (Some (netsnmp_add_queued i asp ag, w))
    else
      r ← process_request fuel asp (a_registry ag) w;
      let ag := with_event (Started i sets) ag in
      Ret (match r with
           | None => None
           | Some (Delayed asp w, g) => Some (link_delegated i asp (with_registry g ag), w)
           | Some (Answered response w, g) => Some (wrapped_up i response (with_registry g ag), w)
           end).

(** The delegated messages, from [rest] on. *)
Fixpoint check_delegated (fuel : nat) (rest : list (nat * agent_session)) (ag : agent) (w : W) : outcome (agent * W) :=
  match rest with
  | [] => Ret (ag, w)
  | (i, asp) :: rest =>
      waits ← netsnmp_check_for_delegated asp;
      if (waits : bool) then check_delegated fuel rest ag w
      else
        let ag := netsnmp_remove_from_delegated i ag in
        asp ← netsnmp_check_all_requests_status asp 0;
        r ← check_delayed_request fuel (netsnmp_subtree_find_first (m_contextName (a_pdu asp)) (a_registry ag)) asp w;
        match r with
        | Delayed asp' w =>
            let search := (a_mode asp =? SNMP_MSG_GETBULK) || (a_mode asp =? SNMP_MSG_GETNEXT) in
            check_delegated fuel rest
              (if search && netsnmp_check_transaction_id (m_transid (a_pdu asp')) ag then with_event (Lost i) ag
               else link_delegated i asp' ag) w
        | Answered response w => check_delegated fuel rest (wrapped_up i response ag) w
        end
  end.

Fixpoint process_queued (turns fuel : nat) (ag : agent) (w : W) : outcome (option (agent * W)) :=
  match queued_list ag with
  | [] => Ret (Some (ag, w))
  | (i, asp) :: rest =>
      match turns with
      | O => Spin
      | S turns =>
          if (a_command asp =? SNMP_MSG_SET) && negb (bool_decide (delegated_list ag = []))
          then Ret (Some (with_processing (Some i) ag, w))
          else
            r ← netsnmp_handle_request fuel i asp (with_queued rest ag) w;
            match r with
            | None => Ret None
            | Some (ag, w) => if bool_decide (is_Some (processing_set ag)) then Ret (Some (ag, w)) else process_queued turns fuel ag w
            end
      end
  end.

(** A turn takes a message from the queue. *)
Definition netsnmp_check_outstanding_agent_requests (fuel : nat) (ag : agent) (w : W) : outcome (option (agent * W)) :=
  '(ag, w) ← check_delegated fuel (delegated_list ag) ag w;
  if bool_decide (is_Some (processing_set ag)) && negb (bool_decide (delegated_list ag = [])) then Ret (Some (ag, w))
  else process_queued (length (queued_list ag)) fuel ag w.

(** ** A message from a session *)

Definition NETSNMP_CALLBACK_OP_RECEIVED_MESSAGE : Z := 1.
Definition sizeof_agent_session : Z := 120.
Definition sizeof_agent_request_info : Z := 24.

(** Without memory for the session there is none; the copies are NULL without
    memory for them. *)
Definition init_agent_snmp_session (pdu : netsnmp_pdu) : outcome (option (option netsnmp_pdu * (netsnmp_pdu -> agent_session))) :=
  if negb (alloc sizeof_agent_session) then Ret None
  else
    copy ← snmp_clone_pdu pdu;
    orig ← snmp_clone_pdu pdu;
    Ret (Some (copy, fun pdu => {|
      a_mode := SNMP_MSG_INTERNAL_SET_RESERVE1; a_pdu := pdu; orig_pdu := orig; a_status := SNMP_ERR_NOERROR; a_index := 0;
      a_oldmode := 0; requests := []; treecache := []; treecache_len := 0; cache_store := [];
      reqinfo := if alloc sizeof_agent_request_info then Some 0 else None |})).

(** What becomes of a packet: nothing but a count or a trap, an answer that
    says that the sender is not known, or its processing. *)
Inductive packet : Type :=
  | Ignored
  | Unknown_context
  | Unauthorized (response : option netsnmp_pdu)
  | Handled (ag : agent) (w : W).

(** [errno] is the error of the session; the message is no longer one that
    waited, [magic] being NULL. *)
Definition handle_snmp_packet (fuel i : nat) (op errno : Z) (pdu : netsnmp_pdu) (ag : agent) (w : W)
    : outcome (option packet) :=
  let c := command (m_body pdu) in
  if negb (op =? NETSNMP_CALLBACK_OP_RECEIVED_MESSAGE) then Ret (Some Ignored)
  else if (c =? SNMP_MSG_TRAP) || (c =? SNMP_MSG_INFORM) || (c =? SNMP_MSG_TRAP2) then Ret (Some Ignored)
  else if (m_version pdu =? SNMP_VERSION_3) && (errno =? SNMPERR_USM_AUTHENTICATIONFAILURE) then Ret (Some Ignored)
  else
    session ← init_agent_snmp_session pdu;
    match session with
    | None | Some (None, _) => Null
    | Some (Some copy, make) =>
        let asp := make copy in
        refused ← check_access (a_pdu asp);
        if refused =? 0 then
          r ← netsnmp_handle_request fuel i asp ag w;
          Ret (match r with Some (ag, w) => Some (Handled ag w) | None => None end)
        else if refused =? VACM_NOSUCHCONTEXT then Ret (Some Unknown_context)
        else if (m_version (a_pdu asp) =? SNMP_VERSION_1) || (m_version (a_pdu asp) =? SNMP_VERSION_2c)
        then Ret (Some (Unauthorized None))
        else Ret (Some (Unauthorized (Some
               (with_m_body (with_command SNMP_MSG_RESPONSE (with_errstat SNMP_ERR_AUTHORIZATIONERROR (m_body (a_pdu asp))))
                  (a_pdu asp)))))
    end.
End agent.
