(* ===== verification/AgentRequestProps.v ===== *)
(** * Properties of requests: GET and SET

    What the operations on requests do to each of them, for any handlers; the
    phases of a SET; the answers of a GET; the messages that wait, as steps of
    the agent with their invariant. *)

From stdpp Require Import list.
From S2P Require Import Prelude RegistryMap RegistryTree RegistryProps Bytes AsnTypes AsnParse AsnBuild AsnRbuild VarOp Pdu Oid Vacm Lcd Scapi Users UsmMsg Session Secmod Message Client CString Keytools ReadConfig UserConfig AgentHandler Registry AgentRequest.

(** ** Cells *)

(** A request with the variable at its own place. *)
Definition cell (asp : agent_session) (i : nat) : option view :=
  q ← requests asp !! i; vb ← a_variables asp !! i; Some (q, vb).

(** All but the requests, the variables and the errors. *)
Definition shell (asp : agent_session) : agent_session := with_error 0 0 (with_a_variables [] (with_requests [] asp)).

Definition errors (asp : agent_session) : Z * Z := (a_status asp, a_index asp).

Definition own_place (i : nat) (r : view) : Prop := requestvb r.1 = Some i.

Lemma cell_some asp i q vb : cell asp i = Some (q, vb) <-> requests asp !! i = Some q /\ a_variables asp !! i = Some vb.
Proof.
  unfold cell. destruct (requests asp !! i) as [q'|]; [|naive_solver]. destruct (a_variables asp !! i) as [vb'|]; naive_solver.
Qed.

Lemma put_requests i r asp : requests (put i r asp) = <[i := r.1]> (requests asp).
Proof. unfold put, put_variable. by destruct (requestvb r.1). Qed.

Lemma put_variables i r asp : own_place i r -> a_variables (put i r asp) = <[i := r.2]> (a_variables asp).
Proof. unfold put, put_variable. by intros ->. Qed.

Lemma put_shell i r asp : own_place i r -> shell (put i r asp) = shell asp.
Proof. unfold put, put_variable. by intros ->. Qed.

Lemma put_errors i r asp : errors (put i r asp) = errors asp.
Proof. unfold put, put_variable. by destruct (requestvb r.1). Qed.

Lemma put_cell i r asp j : own_place i r -> is_Some (cell asp i) -> cell (put i r asp) j = if decide (i = j) then Some r else cell asp j.
Proof.
  intros Hr [[q vb] [Hq Hvb]%cell_some]. unfold cell. rewrite put_requests, put_variables by done.
  apply lookup_lt_Some in Hq, Hvb. destruct (decide (i = j)) as [<-|Hne].
  - rewrite !list_lookup_insert_eq by done. by destruct r.
  - by rewrite !list_lookup_insert_ne.
Qed.

(** [asp'] is [asp] but for the requests [l] and their variables, which are
    changed by [R]. *)
Record changed (l : list nat) (R : nat -> view -> view -> Prop) (asp asp' : agent_session) : Prop := {
  ch_shell : shell asp' = shell asp;
  ch_same : forall i, i ∉ l -> cell asp' i = cell asp i;
  ch_changed : forall i, i ∈ l -> exists r r', cell asp i = Some r /\ cell asp' i = Some r' /\ R i r r' /\ own_place i r';
  ch_requests : length (requests asp') = length (requests asp);
  ch_variables : length (a_variables asp') = length (a_variables asp)
}.

(** The requests [l] are for their own variables. *)
Definition own (asp : agent_session) (l : list nat) : Prop := Forall (fun i => exists r, cell asp i = Some r /\ own_place i r) l.

Lemma changed_nil R asp : changed [] R asp asp.
Proof. constructor; try done. intros i Hi. by apply elem_of_nil in Hi. Qed.

Lemma changed_one i r r' R asp : cell asp i = Some r -> R i r r' -> own_place i r' -> changed [i] R asp (put i r' asp).
Proof.
  intros Hi HR Hr'. constructor.
  - by apply put_shell.
  - intros j Hj%not_elem_of_cons. rewrite put_cell by (by rewrite ?Hi). by rewrite decide_False by naive_solver.
  - intros j ->%list_elem_of_singleton. exists r, r'. rewrite put_cell by (by rewrite ?Hi). by rewrite decide_True.
  - by rewrite put_requests, length_insert.
  - by rewrite put_variables, length_insert.
Qed.

Lemma changed_app l1 l2 R asp1 asp2 asp3 : (forall i, i ∈ l1 -> i ∉ l2) -> changed l1 R asp1 asp2 -> changed l2 R asp2 asp3 ->
  changed (l1 ++ l2) R asp1 asp3.
Proof.
  intros Hd H1 H2. constructor.
  - by rewrite (ch_shell _ _ _ _ H2), (ch_shell _ _ _ _ H1).
  - intros i [Hi1 Hi2]%not_elem_of_app. by rewrite (ch_same _ _ _ _ H2), (ch_same _ _ _ _ H1).
  - intros i [Hi|Hi]%elem_of_app.
    + destruct (ch_changed _ _ _ _ H1 i Hi) as (r & r' & ? & E & ? & ?). exists r, r'.
      rewrite (ch_same _ _ _ _ H2) by (by apply Hd). done.
    + destruct (ch_changed _ _ _ _ H2 i Hi) as (r & r' & E & ? & ? & ?). exists r, r'.
      rewrite <- (ch_same _ _ _ _ H1) by (intros Hi1; by apply (Hd i)). done.
  - by rewrite (ch_requests _ _ _ _ H2), (ch_requests _ _ _ _ H1).
  - by rewrite (ch_variables _ _ _ _ H2), (ch_variables _ _ _ _ H1).
Qed.

Lemma changed_impl l (R R' : nat -> view -> view -> Prop) asp asp' :
  (forall i r r', i ∈ l -> cell asp i = Some r -> cell asp' i = Some r' -> R i r r' -> R' i r r') -> changed l R asp asp' -> changed l R' asp asp'.
Proof.
  intros HR H. constructor; try apply H. intros i Hi. destruct (ch_changed _ _ _ _ H i Hi) as (r & r' & ? & ? & ? & ?). naive_solver.
Qed.

(** Twice, the same requests. *)
Lemma changed_trans l (R1 R2 : nat -> view -> view -> Prop) asp1 asp2 asp3 : changed l R1 asp1 asp2 -> changed l R2 asp2 asp3 ->
  changed l (fun i r r' => exists r1, R1 i r r1 /\ R2 i r1 r') asp1 asp3.
Proof.
  intros H1 H2. constructor.
  - by rewrite (ch_shell _ _ _ _ H2), (ch_shell _ _ _ _ H1).
  - intros i Hi. by rewrite (ch_same _ _ _ _ H2), (ch_same _ _ _ _ H1).
  - intros i Hi. destruct (ch_changed _ _ _ _ H1 i Hi) as (r & r1 & ? & E1 & ? & ?).
    destruct (ch_changed _ _ _ _ H2 i Hi) as (r1' & r' & E1' & ? & ? & ?). rewrite E1 in E1'. injection E1' as <-. exists r, r'. eauto 6.
  - by rewrite (ch_requests _ _ _ _ H2), (ch_requests _ _ _ _ H1).
  - by rewrite (ch_variables _ _ _ _ H2), (ch_variables _ _ _ _ H1).
Qed.

Lemma changed_own l l' R asp asp' : own asp l' -> changed l R asp asp' -> own asp' l'.
Proof.
  intros Ho H. apply Forall_forall. intros i Hi. destruct (decide (i ∈ l)) as [Hin|Hout].
  - destruct (ch_changed _ _ _ _ H i Hin) as (r & r' & ? & ? & ? & ?). eauto.
  - rewrite (ch_same _ _ _ _ H i Hout). unfold own in Ho. rewrite Forall_forall in Ho. by apply Ho.
Qed.

(** Fields outside the cells. *)
Lemma shell_fields asp asp' : shell asp' = shell asp ->
  treecache asp' = treecache asp /\ treecache_len asp' = treecache_len asp /\ cache_store asp' = cache_store asp /\
  a_mode asp' = a_mode asp /\ a_oldmode asp' = a_oldmode asp /\ orig_pdu asp' = orig_pdu asp /\ reqinfo asp' = reqinfo asp /\
  a_command asp' = a_command asp /\ exists vs, a_pdu asp' = with_m_body (with_variables vs (m_body (a_pdu asp))) (a_pdu asp).
Proof.
  intros E. pose proof (f_equal a_pdu E) as Ep. unfold shell, with_a_variables in Ep. cbn in Ep.
  split_and!; try exact (f_equal treecache E) || exact (f_equal treecache_len E) || exact (f_equal cache_store E)
    || exact (f_equal a_mode E) || exact (f_equal a_oldmode E) || exact (f_equal orig_pdu E) || exact (f_equal reqinfo E).
  - exact (f_equal a_command E).
  - exists (a_variables asp'). unfold a_variables. revert Ep. generalize (a_pdu asp), (a_pdu asp'). intros [[]] [[]]. cbn. intros Ep.
    injection Ep. intros. by subst.
Qed.

(** ** Handlers *)

Lemma Forall2_within {A B} (P Q : A -> B -> Prop) l k : (forall x y, x ∈ l -> P x y -> Q x y) -> Forall2 P l k -> Forall2 Q l k.
Proof.
  intros HPQ. induction 1 as [|x y l k Hxy _ IH]; constructor; [apply HPQ; [left|done]|]. apply IH. intros x' y' Hx'. apply HPQ. by right.
Qed.

(** What a handler does not write into a request. *)
Definition kept (r r' : view) : Prop :=
  q_subtree r'.1 = q_subtree r.1 /\ requestvb r'.1 = requestvb r.1 /\ range_end r'.1 = range_end r.1 /\ q_index r'.1 = q_index r.1.

Lemma kept_own i r r' : kept r r' -> own_place i r -> own_place i r'.
Proof. intros (_ & E & _) H. unfold own_place. by rewrite E. Qed.

Lemma views_own asp l : own asp l -> exists rs, views asp l = Ret rs /\ Forall2 (fun i r => cell asp i = Some r /\ own_place i r) l rs.
Proof.
  induction 1 as [|i l ([q vb] & Hc & Ho) _ (rs & E & Hrs)]; [by exists []|]. cbn [views].
  pose proof Hc as [Hq Hvb]%cell_some. rewrite Hq. cbn. unfold own_place in Ho. cbn in Ho. rewrite Ho. cbn. rewrite Hvb. cbn. rewrite E.
  eexists. split; [done|]. by constructor.
Qed.

Lemma slot_requests_own asp l rs : Forall2 (fun i r => cell asp i = Some r) l rs -> slot_requests asp l = Ret (map fst rs).
Proof.
  induction 1 as [|i [q vb] l rs [Hq _]%cell_some _ IH]; [done|]. cbn [slot_requests]. by rewrite Hq, IH.
Qed.

Lemma put_all_changed (R : view -> view -> Prop) l : forall rs rs' asp, NoDup l ->
  Forall2 (fun i r => cell asp i = Some r /\ own_place i r) l rs -> Forall2 R rs rs' -> Forall2 kept rs rs' ->
  changed l (fun _ => R) asp (put_all l rs' asp) /\ errors (put_all l rs' asp) = errors asp
  /\ Forall2 (fun i r => cell (put_all l rs' asp) i = Some r) l rs'.
Proof.
  induction l as [|i l IH]; intros rs rs' asp Hnd Hrs HR Hk.
  - inversion Hrs; subst. inversion HR; subst. split_and!; [apply changed_nil|done|constructor].
  - apply Forall2_cons_inv_l in Hrs as (r & rs1 & [Hc Ho] & Hrs & ->). apply Forall2_cons_inv_l in HR as (r' & rs1' & Hr & HR & ->).
    apply Forall2_cons in Hk as [Hk1 Hk]. apply NoDup_cons in Hnd as [Hi Hnd]. pose proof (kept_own _ _ _ Hk1 Ho) as Ho'. cbn [put_all].
    assert (Hput : forall j, cell (put i r' asp) j = if decide (i = j) then Some r' else cell asp j) by (intros j; apply put_cell; [done|by rewrite Hc]).
    destruct (IH rs1 rs1' (put i r' asp)) as (H1 & H2 & H3); [done| |done|done|].
    + revert Hrs. apply Forall2_within. intros j r0 Hj [E ?]. by rewrite Hput, decide_False by (by intros ->).
    + split_and!.
      * apply (changed_app [i] l _ _ (put i r' asp)); [by intros j ->%list_elem_of_singleton|by eapply changed_one|done].
      * by rewrite H2, put_errors.
      * constructor; [|done]. rewrite (ch_same _ _ _ _ H1) by done. by rewrite Hput, decide_True.
Qed.

Lemma kept_refl r : kept r r.
Proof. done. Qed.

Lemma kept_trans r1 r2 r3 : kept r1 r2 -> kept r2 r3 -> kept r1 r3.
Proof. intros (? & ? & ? & ?) (? & ? & ? & ?). repeat split; congruence. Qed.

Lemma answered_kept rs : forall l, Forall2 kept rs (all_answered rs l).
Proof. induction rs as [|r rs IH]; intros l; constructor; [by destruct l as [|a l]|apply IH]. Qed.

Lemma error_kept mode e r : kept r (_request_set_error mode e r).
Proof. destruct r as [q vb]. unfold _request_set_error. by repeat case_match. Qed.

Section requests.
Context {M V W : Type} `{Allocator}.
Abbreviation registration := (netsnmp_handler_registration M V).
Abbreviation registry := (agent_registry (M := M) (V := V)).
Abbreviation tree := (list (list (netsnmp_subtree M V))).
Context (access : M -> netsnmp_mib_handler M V -> registration -> Z -> list view -> W -> Z * list answer * bool * W).
Context (acm : netsnmp_pdu -> option (list Z) -> bool -> outcome Z).
Implicit Types (t : tree) (asp : agent_session) (w : W) (r : view) (rs : list view).

(** What every step towards the answer of a handler respects, so does its answer. *)
Section respects.
Context (Q : view -> view -> Prop) (Qrefl : forall r, Q r r) (Qtrans : forall r1 r2 r3, Q r1 r2 -> Q r2 r3 -> Q r1 r3).
Context (Qun : forall r, Q r (unprocess r)) (Qerr : forall mode e r, Q r (_request_set_error mode e r)).
Context (Qanswer : forall nh h reginfo mode rs w ret l once w', access nh h reginfo mode rs w = (ret, l, once, w') -> Forall2 Q rs (all_answered rs l)).

Lemma respects_all rs : Forall2 Q rs rs.
Proof. induction rs; by constructor. Qed.

Lemma respects_trans rs1 rs2 : Forall2 Q rs1 rs2 -> forall rs3, Forall2 Q rs2 rs3 -> Forall2 Q rs1 rs3.
Proof. induction 1 as [|r1 r2 rs1 rs2 H1 _ IH]; intros rs3 H3; inversion H3; subst; constructor; [by eapply Qtrans|by apply IH]. Qed.

Lemma respects_map (f : view -> view) rs : (forall r, Q r (f r)) -> Forall2 Q rs (map f rs).
Proof. intros Hf. induction rs; by constructor. Qed.

Lemma chain_respects chain (reginfo : registration) mode : forall rs w st rs' w',
  call_chain access chain reginfo mode rs w = (st, rs', w') -> Forall2 Q rs rs'.
Proof.
  induction chain as [|h chain IH]; intros rs w st rs' w'; cbn [call_chain].
  - intros [= <- <- <-]. apply respects_all.
  - destruct (access_method h) as [nh|].
    + destruct (access nh h reginfo mode rs w) as [[[ret l] once] w1] eqn:E. pose proof (Qanswer _ _ _ _ _ _ _ _ _ _ E) as Hl.
      destruct chain as [|h' chain]; [by intros [= <- <- <-]|]. case_match; [by intros [= <- <- <-]|].
      intros E'%IH. by eapply respects_trans.
    + destruct chain; intros [= <- <- <-]; apply respects_all.
Qed.

Lemma handlers_respect (reginfo : registration) mode rs w st rs' w' :
  netsnmp_call_handlers access reginfo mode rs w = (st, rs', w') -> Forall2 Q rs rs'.
Proof.
  unfold netsnmp_call_handlers, netsnmp_call_handler. intros E.
  destruct rs as [|r rs]; [injection E as <- <- <-; constructor|]. destruct (handler reginfo) as [|h chain]; [injection E as <- <- <-; apply respects_all|].
  pose proof (respects_map unprocess (r :: rs) Qun) as Hun.
  assert (Hchain : call_chain access (h :: chain) reginfo mode (map unprocess (r :: rs)) w = (st, rs', w') -> Forall2 Q (r :: rs) rs')
    by (intros E'%chain_respects; exact (respects_trans _ _ Hun _ E')).
  destruct (mode_is_get mode).
  - case_match; [injection E as <- <- <-; apply respects_all|by apply Hchain].
  - destruct (mode_is_set_phase mode); [|injection E as <- <- <-; apply respects_all].
    case_match; [|by apply Hchain]. injection E as <- <- <-.
    apply (respects_map (fun r => netsnmp_set_request_error mode r SNMP_ERR_NOTWRITABLE) (r :: rs)). intros ?. apply Qerr.
Qed.
End respects.

Lemma handlers_kept (reginfo : registration) mode rs w st rs' w' :
  netsnmp_call_handlers access reginfo mode rs w = (st, rs', w') -> Forall2 kept rs rs'.
Proof.
  apply handlers_respect; [apply kept_refl|apply kept_trans|by unfold kept|apply error_kept|]. intros. apply answered_kept.
Qed.

(** ** One pass over the slots *)

Lemma fold_check_zero (rs : list request_info) spec e : Forall (fun q => q_status q = 0) rs -> fold_left (check_status spec) rs e = e.
Proof.
  intros Hrs. revert e. induction Hrs as [|q rs Hq _ IH]; intros e; [done|]. cbn. rewrite IH. unfold check_status. by rewrite Hq.
Qed.

Lemma fold_check_nonzero (rs : list request_info) spec : forall e, e.1 <> 0 -> (fold_left (check_status spec) rs e).1 <> 0.
Proof.
  induction rs as [|q rs IH]; intros e He; [done|]. cbn. apply IH. unfold check_status.
  destruct (Z.eqb_spec (q_status q) SNMP_ERR_NOERROR); cbn [negb andb]; [done|]. by case_match.
Qed.

Lemma fold_check_clean (rs : list request_info) : (fold_left (check_status 0) rs (0, 0)).1 = 0 ->
  fold_left (check_status 0) rs (0, 0) = (0, 0) /\ Forall (fun q => q_status q = 0) rs.
Proof.
  induction rs as [|q rs IH]; intros He; [done|]. cbn in *. destruct (Z.eqb_spec (q_status q) 0) as [E|E].
  - assert (check_status 0 (0, 0) q = (0, 0)) as E0 by (unfold check_status; by rewrite E). rewrite E0 in *. destruct (IH He). by split; [|constructor].
  - exfalso. revert He. apply fold_check_nonzero. unfold check_status, SNMP_ERR_NOERROR. apply Z.eqb_neq in E. rewrite E. cbn. by apply Z.eqb_neq.
Qed.

Lemma cell_with_error e asp i : cell (with_error e.1 e.2 asp) i = cell asp i.
Proof. done. Qed.

(** The slots of a message: regions that are there, and requests of their own,
    each in one slot. *)
Record slots_ok t (slots : list tree_cache) asp : Prop := {
  so_regions : Forall (fun s => is_Some (top t (c_subtree s))) slots;
  so_once : NoDup (concat (map c_requests slots));
  so_own : own asp (concat (map c_requests slots))
}.

(** Handlers that change requests as [R] says; [good] when they report no error. *)
Definition slots_answer t (R : view -> view -> Prop) (good : bool) asp (slots : list tree_cache) : Prop :=
  forall s node rs w, s ∈ slots -> top t (c_subtree s) = Some node -> Forall2 (fun i r => cell asp i = Some r) (c_requests s) rs ->
    exists st rs' w', netsnmp_call_handlers access (t_reginfo node) (a_mode asp) rs w = (st, rs', w') /\ Forall2 R rs rs' /\
      (good = true -> st = 0 /\ Forall (fun r => q_status r.1 = 0) rs').

Lemma own_app asp l1 l2 : own asp (l1 ++ l2) <-> own asp l1 /\ own asp l2.
Proof. apply Forall_app. Qed.

Lemma call_slots_spec t R (good : bool) slots : forall asp final w, slots_ok t slots asp -> slots_answer t R good asp slots ->
  exists st asp' w', call_slots access t slots asp final w = Ret (st, asp', w') /\
    changed (concat (map c_requests slots)) (fun _ => R) asp asp' /\
    (good = true -> a_status asp = 0 -> final = 0 -> st = 0 /\ errors asp' = errors asp) /\
    (a_status asp <> 0 -> a_status asp' <> 0) /\
    (looked_for (a_mode asp) = 0 -> errors asp = (0, 0) -> a_status asp' = 0 -> errors asp' = (0, 0) /\
      forall i, i ∈ concat (map c_requests slots) -> exists r, cell asp' i = Some r /\ q_status r.1 = 0).
Proof.
  induction slots as [|s slots IH]; intros asp final w [Hreg Hnd Hown] Hans; cbn [call_slots map concat].
  { exists final, asp, w. split_and!; [done|apply changed_nil|done|done|]. intros _ E _. split; [done|]. intros i Hi. by apply elem_of_nil in Hi. }
  cbn [map concat] in Hnd, Hown. apply NoDup_app in Hnd as (Hnd1 & Hd & Hnd2). apply own_app in Hown as [Ho1 Ho2].
  apply Forall_cons in Hreg as [[node Hnode] Hreg]. unfold top in Hnode. rewrite Hnode.
  destruct (views_own _ _ Ho1) as (rs & -> & Hrs). rewrite bind_ret.
  assert (Hcells : Forall2 (fun i r => cell asp i = Some r) (c_requests s) rs) by (eapply Forall2_impl; [exact Hrs|by intros ?? []]).
  destruct (Hans s node rs w) as (st & rs' & w' & E & HR & Hgood); [left|done|done|]. rewrite E. apply handlers_kept in E.
  destruct (put_all_changed R _ rs rs' asp Hnd1 Hrs HR E) as (Hch & Herr & Hcells').
  rewrite (slot_requests_own _ _ _ Hcells'), bind_ret. set (asp1 := put_all _ _ _) in *.
  assert (Emode : a_mode asp1 = a_mode asp) by apply (shell_fields _ _ (ch_shell _ _ _ _ Hch)).
  unfold netsnmp_check_requests_status. set (e := fold_left _ _ _).
  destruct (IH (with_error e.1 e.2 asp1) (if final =? SNMP_ERR_NOERROR then
      (if negb (a_status (with_error e.1 e.2 asp1) =? SNMP_ERR_NOERROR) then a_status (with_error e.1 e.2 asp1) else st) else final) w')
    as (st2 & asp2 & w2 & E2 & Hch2 & Hgood2 & Hbad2 & Hclean2).
  - constructor; [done|done|]. by apply (changed_own _ _ _ _ _ Ho2 Hch).
  - intros s' node' rs0 w0 Hs' Hnode' Hrs0. change (a_mode (with_error e.1 e.2 asp1)) with (a_mode asp1).
    rewrite Emode. apply (Hans s'); [by right|done|]. revert Hrs0. apply Forall2_within. intros i r Hi <-. symmetry. apply (ch_same _ _ _ _ Hch).
    intros Hi1. apply (Hd i Hi1). apply list_elem_of_In, in_concat. exists (c_requests s'). split; [|by apply list_elem_of_In].
    apply in_map. by apply list_elem_of_In.
  - exists st2, asp2, w2. split_and!; [exact E2|..].
    + apply (changed_app _ _ _ _ asp1 _ Hd Hch). destruct Hch2. by constructor.
    + intros Hg Hst Hfin. destruct (Hgood Hg) as [-> Hz].
      assert (Ee : e = errors asp).
      { unfold e. rewrite fold_check_zero by (apply Forall_map; exact Hz). exact Herr. }
      destruct Hgood2 as [-> E3]; [done|by rewrite Ee| |].
      * rewrite Ee, Hfin. cbn. by rewrite Hst.
      * split; [done|]. rewrite E3. by rewrite Ee.
    + intros Hbad. apply Hbad2. apply (fold_check_nonzero _ _ (a_status asp1, a_index asp1)). by injection Herr as -> _.
    + intros Hl E0 Hz. assert (E1 : (a_status asp1, a_index asp1) = (0, 0)) by (by rewrite <- E0, <- Herr).
      unfold e in Hbad2, Hclean2. rewrite Emode, Hl, E1 in Hbad2, Hclean2.
      destruct (decide ((fold_left (check_status 0) (map fst rs') (0, 0)).1 = 0)) as [Ez|Ez]; [|by destruct (Hbad2 Ez)].
      destruct (fold_check_clean _ Ez) as [Ef Hzero]. rewrite Ef in Hclean2. destruct Hclean2 as [E2' Hrest]; [by rewrite <- Hl, <- Emode|done|done|].
      split; [done|]. intros i [Hi|Hi]%elem_of_app; [|by apply Hrest]. rewrite (ch_same _ _ _ _ Hch2) by (by apply Hd). rewrite cell_with_error.
      apply list_elem_of_lookup in Hi as [j Hj]. destruct (Forall2_lookup_l _ _ _ _ _ Hcells' Hj) as (r & Hr & Hc). exists r. split; [done|].
      apply Forall_map in Hzero. by eapply Forall_lookup_1 in Hzero.
Qed.

(** [handle_var_requests]. *)
Lemma pass_spec t R (good : bool) asp w : is_Some (reqinfo asp) -> slots_ok t (treecache asp) asp -> slots_answer t R good asp (treecache asp) ->
  exists st asp' w', handle_var_requests access t asp w = Ret (st, asp', w') /\
    changed (in_slots asp) (fun _ => R) (with_reqinfo (Some (a_mode asp)) asp) asp' /\
    (good = true -> a_status asp = 0 -> st = 0 /\ errors asp' = errors asp) /\
    (a_status asp <> 0 -> a_status asp' <> 0) /\
    (looked_for (a_mode asp) = 0 -> errors asp = (0, 0) -> a_status asp' = 0 -> errors asp' = (0, 0) /\
      forall i, i ∈ in_slots asp -> exists r, cell asp' i = Some r /\ q_status r.1 = 0).
Proof.
  intros [m Hm] [Hr Hnd Ho] Hans. unfold handle_var_requests. rewrite Hm.
  destruct (call_slots_spec t R good (treecache asp) (with_reqinfo (Some (a_mode asp)) asp) SNMP_ERR_NOERROR w)
    as (st & asp' & w' & -> & Hch & Hg & Hb & Hc); [by constructor|exact Hans|].
  exists st, asp', w'. split_and!; try done. intros. by apply Hg.
Qed.

(** ** Slots are made *)

(** Where the requests of one slot belong. *)
Definition one_slot t (k c : nat) : Prop :=
  k = c \/ exists node node', top t k = Some node /\ top t c = Some node' /\ t_global_cacheid node <> 0 /\
    t_global_cacheid node' = t_global_cacheid node.

Definition request_in t asp (c : nat) (i : nat) : Prop :=
  exists q vb k, cell asp i = Some (q, vb) /\ own_place i (q, vb) /\ q_subtree q = Some k /\ is_Some (top t k) /\ one_slot t k c.

Definition store_ok t (slots : list tree_cache) (store : list (Z * nat)) : Prop :=
  Forall (fun e => e.1 <> 0 /\ exists s node, slots !! e.2 = Some s /\ top t (c_subtree s) = Some node /\ t_global_cacheid node = e.1) store.

Record cache_ok t asp : Prop := {
  ca_slots : Forall (fun s => is_Some (top t (c_subtree s)) /\ c_requests s <> [] /\ Forall (request_in t asp (c_subtree s)) (c_requests s)) (treecache asp);
  ca_once : NoDup (in_slots asp);
  ca_store : store_ok t (treecache asp) (cache_store asp);
  ca_len : length (requests asp) = length (a_variables asp);
  ca_room : treecache_len asp <= Z.of_nat (length (a_variables asp)) + 32
}.

Lemma cache_slots_ok t asp : cache_ok t asp -> slots_ok t (treecache asp) asp.
Proof.
  intros [Hs Hnd _ _ _]. constructor; [by eapply Forall_impl; [exact Hs|by intros ? []]|done|].
  unfold own. apply Forall_concat, Forall_map. eapply Forall_impl; [exact Hs|]. intros s (_ & _ & Hr). eapply Forall_impl; [exact Hr|].
  intros i (q & vb & k & ? & ? & _). eauto.
Qed.

Lemma in_slots_below t asp : cache_ok t asp -> Forall (fun i => i < length (a_variables asp))%nat (in_slots asp).
Proof.
  intros [Hs _ _ _ _]. apply Forall_concat, Forall_map. eapply Forall_impl; [exact Hs|]. intros s (_ & _ & Hr).
  eapply Forall_impl; [exact Hr|]. intros i (q & vb & k & [_ E]%cell_some & _). by apply lookup_lt_Some in E.
Qed.

Lemma slots_few t asp : cache_ok t asp -> (length (treecache asp) <= length (in_slots asp) <= length (a_variables asp))%nat.
Proof.
  intros Hc. pose proof (in_slots_below _ _ Hc) as Hb. destruct Hc as [Hs Hnd _ _ _]. split.
  - unfold in_slots. clear -Hs. induction Hs as [|s l (_ & Hne & _) _ IH]; [done|]. cbn. rewrite length_app.
    destruct (c_requests s); [done|]. cbn. lia.
  - rewrite <- (length_seq (length (a_variables asp)) 0). apply submseteq_length, NoDup_submseteq; [done|].
    intros i Hi. rewrite Forall_forall in Hb. apply elem_of_seq. split; [lia|]. by apply Hb.
Qed.

Lemma in_slots_add c i s (l : list tree_cache) : l !! c = Some s ->
  concat (map c_requests (alter (add_to_slot i) c l)) ≡ₚ i :: concat (map c_requests l).
Proof.
  revert c. induction l as [|s' l IH]; intros [|c]; [done|done| |]; cbn.
  - intros [= ->]. rewrite <- app_assoc. cbn. symmetry. apply Permutation_middle.
  - intros E. rewrite (IH c E). symmetry. apply Permutation_middle.
Qed.

Lemma store_ok_app t slots more store : store_ok t slots store -> store_ok t (slots ++ more) store.
Proof.
  intros H0. eapply Forall_impl; [exact H0|]. intros e (? & s & node & E & ? & ?). split; [done|]. exists s, node.
  split_and!; [|done..]. by apply lookup_app_l_Some.
Qed.

Lemma one_slot_refl t k : one_slot t k k.
Proof. by left. Qed.

Section memory.
(** Memory for the messages of [n] variables. *)
Context (n : nat) (memory : forall size, size <= 128 * (Z.of_nat n + 64) -> alloc size = true).

Lemma new_slot_spec k asp : Z.of_nat (length (treecache asp)) <= Z.of_nat n -> treecache_len asp <= Z.of_nat n + 32 ->
  exists room, new_slot k asp = Ret (with_treecache (treecache asp ++ [{| c_subtree := k; c_requests := [] |}]) room (cache_store asp) asp)
    /\ room <= Z.of_nat n + 32.
Proof.
  intros Hl Hr. unfold new_slot. destruct (Z.leb_spec (treecache_len asp) (Z.of_nat (length (treecache asp)))) as [Hle|Hlt]; cbn [andb].
  - rewrite memory by (unfold sizeof_tree_cache, CACHE_GROW_SIZE; lia). eexists. split; [done|]. unfold CACHE_GROW_SIZE. lia.
  - eexists. split; [done|]. lia.
Qed.

Lemma slot_of_spec t k node asp : cache_ok t asp -> top t k = Some node -> length (a_variables asp) = n ->
  exists c slots room store s, slot_of k node asp = Ret (c, with_treecache slots room store asp) /\ slots !! c = Some s /\
    one_slot t k (c_subtree s) /\ store_ok t slots store /\ room <= Z.of_nat n + 32 /\
    (slots = treecache asp \/ slots = treecache asp ++ [{| c_subtree := k; c_requests := [] |}] /\ c = length (treecache asp)).
Proof.
  intros Hc Hk Hn. pose proof (slots_few _ _ Hc) as Hfew. pose proof Hc as [Hslots _ Hstore _ Hroom]. rewrite Hn in *.
  assert (Esame : forall slots, slots = treecache asp -> with_treecache slots (treecache_len asp) (cache_store asp) asp = asp)
    by (intros ? ->; by destruct asp).
  unfold slot_of. destruct (Z.eqb_spec (t_global_cacheid node) 0) as [Hg|Hg]; cbn [negb].
  - destruct (list_find _ _) as [[c s]|] eqn:E.
    + apply list_find_Some in E as (Es & <- & _). exists c, (treecache asp), (treecache_len asp), (cache_store asp), s.
      rewrite Esame by done. split_and!; try done; [apply one_slot_refl|by left].
    + destruct (new_slot_spec k asp) as (room & -> & Hr); [lia|lia|]. rewrite bind_ret.
      eexists _, _, room, _, _. split_and!; [reflexivity|..].
      * cbn. rewrite length_app. cbn. apply list_lookup_middle. lia.
      * apply one_slot_refl.
      * by apply store_ok_app.
      * done.
      * right. split; [done|]. cbn. rewrite length_app. cbn. lia.
  - unfold netsnmp_get_local_cachid. destruct (list_find _ _) as [[j e]|] eqn:E; cbn.
    + apply list_find_Some in E as (Ee & Eg & _). pose proof Hstore as Hst. unfold store_ok in Hst. rewrite Forall_forall in Hst.
      destruct (Hst e) as (_ & s & node' & Es & Ht & E'); [by eapply list_elem_of_lookup_2|].
      exists e.2, (treecache asp), (treecache_len asp), (cache_store asp), s. rewrite Esame by done.
      split_and!; try done; [|by left]. right. exists node, node'. by rewrite E', Eg.
    + destruct (new_slot_spec k (with_treecache (treecache asp) (treecache_len asp)
        (netsnmp_get_or_add_local_cachid (cache_store asp) (t_global_cacheid node) (length (treecache asp))) asp)) as (room & -> & Hr); [cbn; lia|cbn; lia|].
      rewrite bind_ret. eexists _, _, room, _, _. split_and!; [reflexivity|..].
      * cbn. apply list_lookup_middle. done.
      * apply one_slot_refl.
      * cbn. unfold netsnmp_get_or_add_local_cachid. destruct (alloc _); [|by apply store_ok_app].
        constructor; [|by apply store_ok_app]. split; [done|]. eexists _, node. cbn.
        split_and!; [apply list_lookup_middle; done|done|done].
      * done.
      * right. by cbn.
Qed.

Definition outer asp : agent_session := with_treecache [] 0 [] (shell asp).

(** The request that is made for the region [k], with its variable. *)
Definition made asp (i k : nat) (node : netsnmp_subtree M V) (r : view) : view :=
  let set := mode_is_set (a_command asp) in
  ({| q_subtree := Some k; requestvb := Some i; range_end := if is_search asp then Some (end_a node) else None;
      delegated := 0; processed := 0;
      inclusive := if negb set && (type r.2 =? ASN_PRIV_INCL_RANGE) then 1 else inclusive r.1;
      q_status := 0; q_index := Z.of_nat i + 1 |},
   if set then r.2 else with_type ASN_NULL r.2).

(** [asp'] is [asp] with the cell [i] changed to [r]. *)
Record cell_set (i : nat) (r : view) asp asp' : Prop := {
  cs_cell : forall j, cell asp' j = if decide (i = j) then Some r else cell asp j;
  cs_outer : outer asp' = outer asp;
  cs_errors : errors asp' = errors asp;
  cs_length : length (a_variables asp') = length (a_variables asp)
}.

Lemma cell_set_put i r r0 asp : cell asp i = Some r0 -> own_place i r -> cell_set i r asp (put i r asp).
Proof.
  intros Hc Hr. constructor.
  - intros j. apply put_cell; [done|by rewrite Hc].
  - unfold outer. by rewrite put_shell.
  - apply put_errors.
  - by rewrite put_variables, length_insert.
Qed.

Lemma add_request t asp i k0 k node r : cache_ok t asp -> length (a_variables asp) = n -> cell asp i = Some r -> i ∉ in_slots asp ->
  top t k = Some node -> (if is_search asp then skip_hidden acm (a_pdu asp) (drop k0 t) k0 = Ret (Some k) else k0 = k) ->
  exists asp', netsnmp_add_varbind_to_cache acm t i i (Some k0) asp = Ret asp' /\ cache_ok t asp' /\
    in_slots asp' ≡ₚ i :: in_slots asp /\ cell_set i (made asp i k node r) asp asp'.
Proof.
  intros Hc Hn Hcell Hi Hk Hskip. destruct r as [q vb]. pose proof Hcell as [Hq Hvb]%cell_some.
  unfold netsnmp_add_varbind_to_cache. rewrite Hvb.
  assert ((if is_search asp then skip_hidden acm (a_pdu asp) (drop k0 t) k0 else Ret (Some k0)) = Ret (Some k)) as ->
    by (destruct (is_search asp); [exact Hskip|by rewrite Hskip]).
  rewrite bind_ret, Hk, Hq.
  match goal with |- context [slot_of k node (put i ?r' asp)] => change r' with (made asp i k node (q, vb)) end.
  set (r := made asp i k node (q, vb)). assert (Ho : own_place i r) by done.
  pose proof (cell_set_put i r _ asp Hcell Ho) as Hput. set (asp1 := put i r asp) in *. destruct Hput as [P1 P2 P3 P4].
  assert (Eslots : in_slots asp1 = in_slots asp /\ treecache asp1 = treecache asp /\ cache_store asp1 = cache_store asp /\ treecache_len asp1 = treecache_len asp).
  { destruct (shell_fields asp asp1) as (E1 & E2 & E3 & _); [by apply put_shell|]. unfold in_slots. by rewrite E1. }
  destruct Eslots as (Es & Et & Est & El).
  assert (Hin : forall c j, j ∈ in_slots asp -> request_in t asp c j -> request_in t asp1 c j).
  { intros c j Hj. unfold request_in. rewrite P1, decide_False by (by intros ->). done. }
  assert (Hc1 : cache_ok t asp1).
  { destruct Hc as [Hs Hnd Hst Hlen Hroom]. constructor; rewrite ?Es, ?Et, ?Est, ?El, ?P4; try done.
    - rewrite Forall_forall in *. intros s Hin'. destruct (Hs s Hin') as (? & ? & Hr). split_and!; [done..|]. rewrite Forall_forall in *.
      intros j Hj. apply Hin; [|by apply Hr]. apply list_elem_of_In, in_concat. exists (c_requests s). split; [apply in_map|]; by apply list_elem_of_In.
    - unfold asp1. rewrite put_requests, length_insert. done. }
  destruct (slot_of_spec t k node asp1 Hc1 Hk) as (c & slots & room & store & s & -> & Hs & Hone & Hst & Hroom & Hslots); [by rewrite P4|].
  rewrite bind_ret. set (asp2 := with_treecache slots room store asp1).
  change (treecache asp2) with slots. change (treecache_len asp2) with room. change (cache_store asp2) with store.
  set (asp3 := with_treecache _ room store asp2).
  assert (Hcell3 : forall j, cell asp3 j = cell asp1 j) by done.
  assert (Hperm : in_slots asp3 ≡ₚ i :: in_slots asp).
  { unfold in_slots, asp3. cbn [treecache with_treecache]. rewrite (in_slots_add c i s slots Hs). constructor.
    destruct Hslots as [->|[-> _]]; rewrite Et; [done|]. rewrite map_app, concat_app. cbn. by rewrite app_nil_r. }
  exists asp3. split; [done|]. split_and!; [|done|].
  - pose proof Hc1 as [Hs1 Hnd1 _ Hlen1 _]. constructor.
    + unfold asp3. cbn [treecache with_treecache].
      assert (Hi3 : request_in t asp3 (c_subtree s) i).
      { unfold request_in. rewrite Hcell3, P1, decide_True by done. exists r.1, r.2, k. split_and!; [done..|by rewrite Hk|done]. }
      assert (Hall : Forall (fun s => is_Some (top t (c_subtree s)) /\ Forall (request_in t asp3 (c_subtree s)) (c_requests s)) slots).
      { destruct Hslots as [->|[-> _]]; [|apply Forall_app; split; [|by repeat constructor; eauto]].
        all: eapply Forall_impl; [exact Hs1|]; intros s' (? & _ & ?); done. }
      apply Forall_lookup. intros c' s'. destruct (decide (c = c')) as [<-|Hne].
      * rewrite list_lookup_alter_eq, Hs. cbn. intros [= <-]. eapply Forall_lookup_1 in Hall as [H1 H2]; [|exact Hs]. cbn.
        split_and!; [done|by destruct (c_requests s)|]. apply Forall_app. split; [done|]. by constructor.
      * rewrite list_lookup_alter_ne by done. intros Hs'. destruct Hslots as [->|[-> Hc']].
        -- eapply Forall_lookup_1 in Hs1 as (? & ? & ?); [|exact Hs']. done.
        -- apply lookup_app_Some in Hs' as [Hs'|[Hge Hs']].
           ++ eapply Forall_lookup_1 in Hs1 as (? & ? & ?); [|exact Hs']. done.
           ++ apply list_lookup_singleton_Some in Hs' as [Hz _]. lia.
    + rewrite Hperm. constructor; [done|]. rewrite <- Es. apply Hnd1.
    + unfold asp3. cbn [treecache cache_store with_treecache]. eapply Forall_impl; [exact Hst|]. intros e (Hz & s' & node' & Hs' & ? & ?).
      split; [done|]. destruct (decide (c = e.2)) as [E|Hne].
      * rewrite <- E in *. exists (add_to_slot i s'), node'. by rewrite list_lookup_alter_eq, Hs'.
      * exists s', node'. by rewrite list_lookup_alter_ne.
    + exact Hlen1.
    + change (room <= Z.of_nat (length (a_variables asp1)) + 32). rewrite P4, Hn. done.
  - constructor; [intros j; rewrite Hcell3; apply P1|by rewrite <- P2|exact P3|exact P4].
Qed.

(** ** What is in view *)

Section view.
(** What the callbacks decide, which the variables of the message do not change. *)
Context (decides : netsnmp_pdu -> option (list Z) -> bool -> Z).
Definition header (p : netsnmp_pdu) : netsnmp_pdu := with_m_body (with_variables [] (m_body p)) p.
Context (Hacm : forall p o b, acm p o b = Ret (decides (header p) o b)).

(** [in_a_view]. *)
Definition sees (p : netsnmp_pdu) (o : list Z) (t : Z) : Z :=
  if always_in_view p then VACM_SUCCESS
  else if (m_version p =? SNMP_VERSION_1) && (t =? ASN_COUNTER64) then VACM_NOTINVIEW
  else if any_version p then decides (header p) (Some o) false
  else VACM_NOSECNAME.

Lemma in_a_view_sees o p ty : in_a_view acm o p ty = Ret (sees p o ty).
Proof. unfold in_a_view, sees. by repeat case_match. Qed.

Lemma sees_header p p' o ty : header p = header p' -> sees p o ty = sees p' o ty.
Proof.
  intros E. assert (Ef : flags (m_body p) = flags (m_body p')) by exact (f_equal (fun p => flags (m_body p)) E).
  assert (Ev : m_version p = m_version p') by exact (f_equal m_version E).
  unfold sees, always_in_view, any_version. by rewrite Ef, Ev, E.
Qed.

(** [netsnmp_acm_check_subtree] and the search for a region with something in view. *)
Definition hides (p : netsnmp_pdu) (s : netsnmp_subtree M V) : bool :=
  bool_decide (common (start_a s) (end_a s) = O)
  || ((if always_in_view p then 0
       else if any_version p then decides (header p) (Some (take (common (start_a s) (end_a s)) (start_a s))) true else 1)
      =? VACM_NOTINVIEW).

Fixpoint next_shown (p : netsnmp_pdu) (rest : tree) (k : nat) : option nat :=
  match rest with
  | (s :: _) :: next => if hides p s then next_shown p next (S k) else Some k
  | _ => None
  end.

Definition spans_fit (s : netsnmp_subtree M V) : Prop := name_fits (start_a s) /\ name_fits (end_a s).

Lemma hidden_hides p s : spans_fit s -> hidden acm p s = Ret (hides p s).
Proof.
  intros [Hs He]. unfold hidden, hides. pose proof (netsnmp_oid_find_prefix_spec (start_a s) [] (end_a s) []) as E. rewrite !app_nil_r in E.
  rewrite E, bind_ret by first [by apply name_fits_short|by intros E0; rewrite E0 in *; unfold name_fits, len in *; cbn in *; lia].
  rewrite Nat2Z.id. destruct (Z.ltb_spec (Z.of_nat (common (start_a s) (end_a s))) 1); [by rewrite bool_decide_eq_true_2 by lia|].
  rewrite bool_decide_eq_false_2 by lia. cbn [orb]. unfold netsnmp_acm_check_subtree.
  destruct (always_in_view p); [done|]. destruct (any_version p); [|done]. by rewrite Hacm, bind_ret.
Qed.

Lemma skip_next_shown p rest : Forall (fun stack => exists s l, stack = s :: l /\ spans_fit s) rest ->
  forall k, skip_hidden acm p rest k = Ret (next_shown p rest k).
Proof.
  induction 1 as [|stack rest (s & l & -> & Hs) _ IH]; intros k; [done|]. cbn [skip_hidden next_shown].
  rewrite hidden_hides, bind_ret by done. destruct (hides p s); [apply IH|done].
Qed.

Lemma next_shown_header p p' rest : header p = header p' -> forall k, next_shown p rest k = next_shown p' rest k.
Proof.
  intros E. assert (Ef : flags (m_body p) = flags (m_body p')) by exact (f_equal (fun p => flags (m_body p)) E).
  assert (Ev : m_version p = m_version p') by exact (f_equal m_version E).
  induction rest as [|[|s l] rest IH]; intros k; [done..|]. cbn [next_shown]. rewrite IH. unfold hides, always_in_view, any_version.
  by rewrite Ef, Ev, E.
Qed.

(** ** The requests of a message *)

Definition at_region t (o : list Z) (k : nat) : Prop :=
  exists node, top t k = Some node /\ lex (start_a node) o <= 0 /\ lex o (end_a node) < 0.

Definition good_variable (vb : variable_list) : Prop := name_fits (name vb) /\ 0 <= hd 0 (name vb) <= 2.

Definition asks (asp : agent_session) : bool := (a_command asp =? SNMP_MSG_GET) || (a_command asp =? SNMP_MSG_SET).

(** What becomes of the variable [i] and its request, which is in a slot as [b] says. *)
Definition placed t asp (i : nat) (r r' : view) (b : bool) : Prop :=
  if asks asp && negb (sees (a_pdu asp) (name r.2) (type r.2) =? VACM_SUCCESS)
  then b = false /\ a_command asp = SNMP_MSG_GET /\ r' = (r.1, with_val (Some [0]) 0 (with_type SNMP_NOSUCHOBJECT r.2))
  else exists k0, at_region t (name r.2) k0 /\
    match (if is_search asp then next_shown (a_pdu asp) (drop k0 t) k0 else Some k0) with
    | Some k => b = true /\ exists node, top t k = Some node /\ r' = made asp i k node r
    | None => b = false /\ r' = (r.1, with_type SNMP_ENDOFMIBVIEW r.2)
    end.

Lemma outer_fields asp asp' : outer asp' = outer asp -> header (a_pdu asp') = header (a_pdu asp) /\ a_command asp' = a_command asp /\
  m_contextName (a_pdu asp') = m_contextName (a_pdu asp) /\ reqinfo asp' = reqinfo asp /\ orig_pdu asp' = orig_pdu asp /\ a_mode asp' = a_mode asp
  /\ a_oldmode asp' = a_oldmode asp.
Proof.
  intros E. split_and!; [exact (f_equal a_pdu E)|exact (f_equal a_command E)|exact (f_equal (fun a => m_contextName (a_pdu a)) E)
    |exact (f_equal reqinfo E)|exact (f_equal orig_pdu E)|exact (f_equal a_mode E)|exact (f_equal a_oldmode E)].
Qed.

Lemma made_outer asp asp' i k node r : a_command asp' = a_command asp -> made asp' i k node r = made asp i k node r.
Proof. intros E. unfold made, is_search. by rewrite E. Qed.

Lemma placed_outer t asp asp' i r r' b : outer asp' = outer asp -> placed t asp' i r r' b -> placed t asp i r r' b.
Proof.
  intros (Eh & Ec & _)%outer_fields. unfold placed, asks, is_search. rewrite Ec, (sees_header _ _ _ _ Eh).
  destruct (_ && _); [done|]. intros (k0 & Hk & Hr). exists k0. split; [done|]. rewrite <- (next_shown_header _ _ _ Eh).
  assert (Hmade : forall k, (b = true /\ exists node, top t k = Some node /\ r' = made asp' i k node r) ->
    b = true /\ exists node, top t k = Some node /\ r' = made asp i k node r).
  { intros k (-> & node & ? & ->). split; [done|]. exists node. split; [done|]. by apply made_outer. }
  destruct (_ || _); [destruct (next_shown _ _ _)|]; by auto.
Qed.

Lemma set_null_is ty vb : set_null ty vb = Ret (with_val (Some [0]) 0 (with_type ty vb)).
Proof. done. Qed.

(** A variable changed at its place, its request not made. *)
Lemma change_variable t asp i q vb vb' : cache_ok t asp -> cell asp i = Some (q, vb) -> i ∉ in_slots asp ->
  let asp' := put_variable (Some i) vb' asp in
  cache_ok t asp' /\ in_slots asp' = in_slots asp /\ cell_set i (q, vb') asp asp'.
Proof.
  intros Hc Hcell Hi asp'. pose proof Hcell as [Hq Hvb]%cell_some.
  assert (Ev : a_variables asp' = <[i := vb']> (a_variables asp)) by done.
  assert (Hcells : forall j, cell asp' j = if decide (i = j) then Some (q, vb') else cell asp j).
  { intros j. unfold cell. rewrite Ev. change (requests asp') with (requests asp). destruct (decide (i = j)) as [<-|Hne].
    - rewrite Hq, list_lookup_insert_eq by (by eapply lookup_lt_Some). done.
    - by rewrite list_lookup_insert_ne. }
  split_and!; [|done|].
  - destruct Hc as [Hs Hnd Hst Hlen Hroom]. constructor; try done.
    + rewrite Forall_forall in *. intros s Hin. destruct (Hs s Hin) as (? & ? & Hr). split_and!; [done..|]. rewrite Forall_forall in *.
      intros j Hj. destruct (Hr j Hj) as (q' & vb'' & k & ? & ?). unfold request_in. rewrite Hcells, decide_False; [by eauto 6|].
      intros ->. apply Hi. apply list_elem_of_In, in_concat. exists (c_requests s). split; [apply in_map|]; by apply list_elem_of_In.
    + change (requests asp') with (requests asp). by rewrite Ev, length_insert.
    + change (treecache_len asp') with (treecache_len asp). by rewrite Ev, length_insert.
  - constructor; [done|done|done|]. by rewrite Ev, length_insert.
Qed.

Definition regions_fit t : Prop := Forall (fun stack => exists s l, stack = s :: l /\ spans_fit s) t.

Lemma spans_regions_fit P t : forall lo hi, spans P lo t hi -> regions_fit t.
Proof.
  induction t as [|stack t IH]; intros lo hi; [constructor|]. cbn [spans]. intros [Hr Ht]. constructor; [|by eapply IH].
  destruct stack as [|s l]; [by destruct (ro_some _ _ _ Hr)|]. pose proof (ro_span _ _ _ Hr) as Hs. apply Forall_cons in Hs as [(E1 & E2 & _) _].
  exists s, l. split; [done|]. split; [rewrite E1; apply Hr|rewrite E2; apply Hr].
Qed.

Lemma next_shown_top t p : regions_fit t -> forall k k', next_shown p (drop k t) k = Some k' -> is_Some (top t k').
Proof.
  intros Ht. assert (H0 : forall rest k k', (forall j, top rest j = top t (k + j)) -> regions_fit rest -> next_shown p rest k = Some k' -> is_Some (top t k')).
  { induction rest as [|stack rest IH]; intros k k' Hsame Hf; [done|]. apply Forall_cons in Hf as [(s & l & -> & _) Hf]. cbn [next_shown].
    destruct (hides p s).
    - apply IH; [|done]. intros j. replace (S k + j)%nat with (k + S j)%nat by lia. by rewrite <- Hsame.
    - intros [= <-]. rewrite <- (Nat.add_0_r k), <- Hsame. by eexists. }
  intros k k'. apply H0; [|by apply Forall_drop]. intros j. unfold top. by rewrite lookup_drop.
Qed.

Lemma add_spec t asp i k0 r : cache_ok t asp -> length (a_variables asp) = n -> cell asp i = Some r -> i ∉ in_slots asp -> regions_fit t ->
  at_region t (name r.2) k0 -> (asks asp = true -> sees (a_pdu asp) (name r.2) (type r.2) = VACM_SUCCESS) ->
  exists asp' r' b, netsnmp_add_varbind_to_cache acm t i i (Some k0) asp = Ret asp' /\ cache_ok t asp' /\ cell_set i r' asp asp' /\
    placed t asp i r r' b /\ in_slots asp' ≡ₚ (if b then [i] else []) ++ in_slots asp.
Proof.
  intros Hc Hn Hcell Hi Hfit Hk0 Hsees. unfold placed.
  assert (asks asp && negb (sees (a_pdu asp) (name r.2) (type r.2) =? VACM_SUCCESS) = false) as ->.
  { destruct (asks asp); [|done]. by rewrite Hsees. }
  assert (Hskip : skip_hidden acm (a_pdu asp) (drop k0 t) k0 = Ret (next_shown (a_pdu asp) (drop k0 t) k0))
    by (by apply skip_next_shown, Forall_drop).
  destruct (is_search asp) eqn:Es; [destruct (next_shown (a_pdu asp) (drop k0 t) k0) as [k|] eqn:En|].
  - destruct (next_shown_top _ _ Hfit _ _ En) as [node Hnode].
    destruct (add_request t asp i k0 k node r) as (asp' & E & Hc' & Hperm & Hset); [done..|by rewrite Es|].
    exists asp', (made asp i k node r), true. split_and!; try done. exists k0. rewrite En. split_and!; try done. by exists node.
  - destruct r as [q vb]. pose proof Hcell as [Hq Hvb]%cell_some.
    destruct (change_variable t asp i q vb (with_type SNMP_ENDOFMIBVIEW vb)) as (Hc' & Hin & Hset); [done..|].
    eexists _, _, false. unfold netsnmp_add_varbind_to_cache. rewrite Hvb, Es, Hskip, bind_ret.
    split_and!; [reflexivity|done|exact Hset| |by rewrite Hin]. exists k0. by rewrite En.
  - pose proof Hk0 as (node & Hnode & _).
    destruct (add_request t asp i k0 k0 node r) as (asp' & E & Hc' & Hperm & Hset); [done..|by rewrite Es|].
    exists asp', (made asp i k0 node r), true. split_and!; try done. exists k0. split_and!; try done. by exists node.
Qed.

(** ** All variables *)

(** The variables [from], ..., [n - 1] of [asp] as [asp'] has them. *)
Definition all_placed t (from : nat) asp asp' : Prop :=
  forall j, (from <= j < n)%nat -> exists r r' b, cell asp j = Some r /\ cell asp' j = Some r' /\ placed t asp j r r' b /\
    (j ∈ in_slots asp' <-> b = true).

Definition refused (from : nat) asp asp' : Prop :=
  a_command asp = SNMP_MSG_SET /\ exists j r, (from <= j < n)%nat /\ cell asp j = Some r /\
    sees (a_pdu asp) (name r.2) (type r.2) <> VACM_SUCCESS /\ errors asp' = (a_status asp, Z.of_nat j + 1).

Definition untouched (from : nat) asp asp' : Prop :=
  forall j, (j < from)%nat -> cell asp' j = cell asp j /\ (j ∈ in_slots asp' <-> j ∈ in_slots asp).

(** The result of collecting the variables from [i] on. *)
Definition collected t (K : list (list Z * Z * list Z)) (i : nat) asp (res : outcome (Z * agent_session * registry)) : Prop :=
  exists st asp' g', res = Ret (st, asp', g') /\
    netsnmp_subtree_find_first (m_contextName (a_pdu asp)) g' = t /\ stands_for (m_contextName (a_pdu asp)) K g' /\
    outer asp' = outer asp /\ length (a_variables asp') = length (a_variables asp) /\ cache_ok t asp' /\
    (st = SNMP_ERR_NOERROR /\ errors asp' = errors asp /\ all_placed t i asp asp' /\ untouched i asp asp' \/
     st = SNMP_ERR_NOACCESS /\ refused i asp asp').

(** One variable, then the others. *)
Lemma collected_step t K i asp asp1 r r' b res : cell asp i = Some r -> cell_set i r' asp asp1 -> placed t asp i r r' b ->
  in_slots asp1 ≡ₚ (if b then [i] else []) ++ in_slots asp -> (forall j, j ∈ in_slots asp -> (j < i)%nat) ->
  (forall j, j ∈ in_slots asp1 -> (j < S i)%nat) /\ (collected t K (S i) asp1 res -> collected t K i asp res).
Proof.
  intros Hcell [S1 S2 S3 S4] Hp Hperm Hlow.
  assert (Hin : forall j, j ∈ in_slots asp1 <-> (j = i /\ b = true) \/ j ∈ in_slots asp).
  { intros j. rewrite Hperm, elem_of_app. destruct b; [rewrite list_elem_of_singleton|rewrite elem_of_nil]; naive_solver. }
  assert (Hni : i ∉ in_slots asp) by (intros Hi; specialize (Hlow i Hi); lia).
  pose proof (outer_fields _ _ S2) as (Eh & Ec & Ectx & _). injection S3 as Es Ei.
  split; [intros j [[-> _]|Hj]%Hin; [lia|]; specialize (Hlow j Hj); lia|].
  intros (st & asp' & g' & -> & Ht & Hg & Ho & Hl & Hc & Hres). rewrite Ectx in *. exists st, asp', g'.
  split_and!; try done; [by rewrite Ho|by rewrite Hl|]. destruct Hres as [(-> & He & Hall & Hun)|[-> Href]]; [left|right].
  - split_and!; [done|rewrite He; unfold errors; congruence| |].
    + intros j Hj. destruct (decide (j = i)) as [->|Hne].
      * exists r, r', b. destruct (Hun i) as [-> ->]; [lia|]. rewrite S1, decide_True by done. split_and!; try done.
        rewrite Hin. naive_solver.
      * destruct (Hall j) as (rj & rj' & bj & Hcj & ? & Hpj & ?); [lia|]. rewrite S1, decide_False in Hcj by lia.
        exists rj, rj', bj. split_and!; try done. by eapply placed_outer.
    + intros j Hj. destruct (Hun j) as [-> ->]; [lia|]. rewrite S1, decide_False, Hin by lia. split; [done|].
      split; [intros [[-> _]|]; [lia|done]|by right].
  - destruct Href as [Hset (j & rj & Hj & Hcj & Hs & E)]. split; [done|]. split; [by rewrite <- Ec|]. exists j, rj.
    rewrite S1, decide_False in Hcj by lia. rewrite (sees_header _ _ _ _ Eh) in Hs. rewrite <- Es. split_and!; [lia|lia|done..].
Qed.

Section collected.
Context (memory4096 : forall size, size <= 4096 -> alloc size = true).

Lemma collect_spec t K turns : forall i asp (g : registry), context_fits (m_contextName (a_pdu asp)) ->
  stands_for (m_contextName (a_pdu asp)) K g -> netsnmp_subtree_find_first (m_contextName (a_pdu asp)) g = t -> K <> [] ->
  cache_ok t asp -> length (a_variables asp) = n -> (i + turns = n)%nat -> (forall j, j ∈ in_slots asp -> (j < i)%nat) ->
  (forall j r, (i <= j)%nat -> cell asp j = Some r -> good_variable r.2) ->
  collected t K i asp (collect acm turns i asp g).
Proof.
  induction turns as [|turns IH]; intros i asp g Hctx Hg Ht HK Hc Hn Hi Hlow Hgood; cbn [collect].
  { exists SNMP_ERR_NOERROR, asp, g. split_and!; try done. left. split_and!; try done. intros j Hj. lia. }
  destruct (lookup_lt_is_Some_2 (a_variables asp) i) as [vb Hvb]; [lia|].
  destruct (lookup_lt_is_Some_2 (requests asp) i) as [q Hq]; [rewrite (ca_len _ _ Hc); lia|].
  assert (Hcell : cell asp i = Some (q, vb)) by (by apply cell_some).
  pose proof (Hgood i _ (le_n i) Hcell) as Hvgood. cbn in Hvgood.
  rewrite Hvb. set (context := m_contextName (a_pdu asp)) in *.
  destruct (find_stands_for memory4096 context K g (name vb) Hctx Hg) as (found & g1 & -> & _ & Er & Hg1 & Hfound); [apply Hvgood..|].
  destruct found as [k0|]; [|done]. destruct Hfound as (s & l & Hk0 & _ & Hlo & Hhi). rewrite bind_ret. rewrite Ht in *.
  assert (Hat : at_region t (name vb) k0) by (exists s; split_and!; [by unfold top; rewrite Hk0|done..]).
  assert (Hfit : regions_fit t).
  { destruct Hg as [_ Hh]. rewrite Ht in Hh. destruct K as [|? K]; [done|]. destruct Hh as [_ Hs]. by eapply spans_regions_fit. }
  assert (Hni : i ∉ in_slots asp) by (intros Hin; specialize (Hlow i Hin); lia).
  assert ((if (a_command asp =? SNMP_MSG_GET) || (a_command asp =? SNMP_MSG_SET) then in_a_view acm (name vb) (a_pdu asp) (type vb)
           else Ret VACM_SUCCESS) = Ret (if asks asp then sees (a_pdu asp) (name vb) (type vb) else VACM_SUCCESS)) as ->.
  { unfold asks. destruct (_ || _); [by rewrite in_a_view_sees|done]. }
  rewrite bind_ret, Er.
  assert (Hrest : forall asp1 r' b, cache_ok t asp1 -> cell_set i r' asp asp1 -> placed t asp i (q, vb) r' b ->
    in_slots asp1 ≡ₚ (if b then [i] else []) ++ in_slots asp -> collected t K i asp (collect acm turns (S i) asp1 g1)).
  { intros asp1 r' b Hc1 Hset Hp Hperm. pose proof (outer_fields _ _ (cs_outer _ _ _ _ Hset)) as (_ & _ & Ectx & _).
    destruct (collected_step t K i asp asp1 (q, vb) r' b (collect acm turns (S i) asp1 g1) Hcell Hset Hp Hperm Hlow) as [Hlow1 Hstep].
    apply Hstep, IH; rewrite ?Ectx; try done; [by rewrite (cs_length _ _ _ _ Hset)|lia|].
    intros j r Hj. rewrite (cs_cell _ _ _ _ Hset), decide_False by lia. apply Hgood. lia. }
  destruct (asks asp) eqn:Ea; [destruct (Z.eqb_spec (sees (a_pdu asp) (name vb) (type vb)) VACM_SUCCESS) as [Es|Es]|].
  - destruct (add_spec t asp i k0 (q, vb)) as (asp1 & r' & b & -> & Hc1 & Hset & Hp & Hperm); [done..|]. rewrite bind_ret. by eapply Hrest.
  - unfold asks in Ea. destruct (Z.eqb_spec (a_command asp) SNMP_MSG_SET) as [Eset|Eset].
    + eexists _, _, g1. split_and!; [reflexivity|done..|by destruct Hc; constructor|right]. split; [done|]. split; [done|]. exists i, (q, vb). split_and!; [lia|lia|done..].
    + rewrite orb_false_r in Ea. apply Z.eqb_eq in Ea. unfold change. rewrite Hvb, set_null_is, !bind_ret.
      destruct (change_variable t asp i q vb (with_val (Some [0]) 0 (with_type SNMP_NOSUCHOBJECT vb))) as (Hc1 & Hin & Hset); [done..|].
      apply (Hrest _ _ false Hc1 Hset); [|by rewrite Hin]. unfold placed, asks. rewrite Ea. cbn. by apply Z.eqb_neq in Es as ->.
  - destruct (add_spec t asp i k0 (q, vb)) as (asp1 & r' & b & -> & Hc1 & Hset & Hp & Hperm); [done..|by rewrite Ea|].
    rewrite bind_ret. by eapply Hrest.
Qed.

(** ** A new message *)

Definition forget (v : variable_list) : variable_list :=
  if type v =? ASN_PRIV_INCL_RANGE then v else with_val (Some [0]) 0 (with_type ASN_NULL v).

Lemma forget_values_is l : exists k, forget_values l = Ret (k, map forget l) /\
  (Forall (fun v => type v <> ASN_PRIV_INCL_RANGE) l -> k = O).
Proof.
  induction l as [|v l (k & E & Hk)]; [by exists O|]. cbn [forget_values map]. unfold forget at 1.
  destruct (Z.eqb_spec (type v) ASN_PRIV_INCL_RANGE) as [Ev|Ev].
  - rewrite bind_ret, E, bind_ret. eexists. split; [done|]. intros [? _]%Forall_cons. done.
  - rewrite set_null_is, bind_ret, E, bind_ret. eexists. split; [done|]. by intros [_ ?]%Forall_cons; apply Hk.
Qed.

(** As [init_agent_snmp_session] leaves it. *)
Record fresh asp : Prop := {
  fr_errors : errors asp = (0, 0);
  fr_requests : requests asp = [];
  fr_treecache : treecache asp = [];
  fr_store : cache_store asp = [];
  fr_reqinfo : is_Some (reqinfo asp)
}.

(** The message with its variables, before its requests are made. *)
Definition unplaced (vars : list variable_list) asp : agent_session :=
  with_treecache [] (Z.max (1 + Z.of_nat (length vars) / 4) 16) (cache_store asp)
    (with_requests (replicate (length vars) no_request) (with_a_variables vars asp)).

Definition asked (asp : agent_session) : list variable_list :=
  if (a_command asp =? SNMP_MSG_GET) || (a_command asp =? SNMP_MSG_GETNEXT) then map forget (a_variables asp) else a_variables asp.

Lemma unplaced_cell vars asp j r : cell (unplaced vars asp) j = Some r <-> r.1 = no_request /\ vars !! j = Some r.2.
Proof.
  destruct r as [q vb]. rewrite cell_some. change (requests (unplaced vars asp)) with (replicate (length vars) no_request).
  change (a_variables (unplaced vars asp)) with vars. cbn. rewrite lookup_replicate.
  split; [intros [[-> _] ?]|intros [-> Hv]; split; [split; [done|by eapply lookup_lt_Some]|done]]; done.
Qed.

Lemma unplaced_ok t vars asp : fresh asp -> cache_ok t (unplaced vars asp).
Proof.
  intros [_ _ _ Hst _]. constructor; cbn.
  - constructor.
  - constructor.
  - rewrite Hst. constructor.
  - by rewrite length_replicate.
  - change (Z.max (1 + Z.of_nat (length vars) / 4) 16 <= Z.of_nat (length vars) + 32). Z.to_euclidean_division_equations. lia.
Qed.

Lemma prepare_spec K asp (g : registry) : fresh asp -> length (a_variables asp) = n ->
  context_fits (m_contextName (a_pdu asp)) -> stands_for (m_contextName (a_pdu asp)) K g -> K <> [] ->
  Forall good_variable (a_variables asp) ->
  a_command asp = SNMP_MSG_GET \/ a_command asp = SNMP_MSG_GETNEXT \/ a_command asp = SNMP_MSG_SET ->
  exists k res, prepare acm asp g = ('(st, asp, g) ← res; Ret (Some (k, st, asp, g))) /\
    collected (netsnmp_subtree_find_first (m_contextName (a_pdu asp)) g) K 0 (unplaced (asked asp) asp) res /\
    (Forall (fun v => type v <> ASN_PRIV_INCL_RANGE) (a_variables asp) -> k = O).
Proof.
  intros Hf Hn Hctx Hg HK Hgood Hcmd. unfold prepare.
  assert (Ei : (a_command asp =? SNMP_MSG_GETBULK) || is_internal_set (a_command asp) = false) by (by destruct Hcmd as [->|[->| ->]]).
  rewrite Ei. clear Ei.
  assert (exists k, (if (a_command asp =? SNMP_MSG_GET) || (a_command asp =? SNMP_MSG_GETNEXT) then forget_values (a_variables asp)
           else Ret (O, a_variables asp)) = Ret (k, asked asp) /\ (Forall (fun v => type v <> ASN_PRIV_INCL_RANGE) (a_variables asp) -> k = O)) as (k & -> & Hk).
  { unfold asked. destruct (_ || _); [by apply forget_values_is|by exists O]. }
  rewrite bind_ret. assert (Hlen : length (asked asp) = n) by (unfold asked; case_match; by rewrite ?length_map).
  assert (Hvars : Forall good_variable (asked asp)).
  { unfold asked. case_match; [|done]. apply Forall_map. eapply Forall_impl; [exact Hgood|]. intros v. unfold forget, good_variable. by case_match. }
  assert (Ereq : (if bool_decide (length (asked asp) = O) then with_a_variables (asked asp) asp
            else with_requests (if alloc (sizeof_request_info * Z.of_nat (length (asked asp))) then replicate (length (asked asp)) no_request else [])
                   (with_a_variables (asked asp) asp))
          = with_requests (replicate (length (asked asp)) no_request) (with_a_variables (asked asp) asp)).
  { case_bool_decide as E0.
    - rewrite E0. cbn. pose proof (fr_requests _ Hf) as E. unfold with_requests, with_a_variables, with_a_pdu. cbn. by rewrite E.
    - rewrite Hlen, memory by (unfold sizeof_request_info; lia). done. }
  rewrite Ereq. unfold netsnmp_create_subtree_cache.
  set (asp1 := with_requests _ _). change (a_variables asp1) with (asked asp).
  rewrite memory by (unfold sizeof_tree_cache; rewrite Hlen; Z.to_euclidean_division_equations; lia). cbn [negb].
  change (with_treecache [] _ (cache_store asp1) asp1) with (unplaced (asked asp) asp).
  exists k. eexists. split; [reflexivity|]. split; [|done]. apply collect_spec; try done.
  - by apply unplaced_ok.
  - intros j Hj. by apply elem_of_nil in Hj.
  - intros j r _ [_ Hj]%unplaced_cell. by eapply Forall_lookup_1 in Hvars.
Qed.
End collected.
End view.
End memory.

(** What the properties suppose of a message: memory, access control that does
    not look at the variables, a registry that holds [K], and names that can be
    sent. *)
Record good_message (decides : netsnmp_pdu -> option (list Z) -> bool -> Z) (K : list (list Z * Z * list Z)) asp (g : registry) : Prop := {
  gm_memory : forall size, size <= 128 * (Z.of_nat (length (a_variables asp)) + 64) -> alloc size = true;
  gm_acm : forall p o b, acm p o b = Ret (decides (header p) o b);
  gm_fresh : fresh asp;
  gm_context : context_fits (m_contextName (a_pdu asp));
  gm_registry : stands_for (m_contextName (a_pdu asp)) K g;
  gm_some : K <> [];
  gm_names : Forall good_variable (a_variables asp)
}.

(** The regions of the context of the message. *)
Definition tree_of asp (g : registry) : tree := netsnmp_subtree_find_first (m_contextName (a_pdu asp)) g.

Lemma message_prepared decides K asp g : good_message decides K asp g ->
  a_command asp = SNMP_MSG_GET \/ a_command asp = SNMP_MSG_GETNEXT \/ a_command asp = SNMP_MSG_SET ->
  exists k st asp' g', prepare acm asp g = Ret (Some (k, st, asp', g')) /\
    collected (length (a_variables asp)) decides (tree_of asp g) K 0 (unplaced (asked asp) asp) (Ret (st, asp', g')) /\
    (Forall (fun v => type v <> ASN_PRIV_INCL_RANGE) (a_variables asp) -> k = O).
Proof.
  intros [Hmem Hacm Hf Hctx Hg HK Hn] Hcmd.
  destruct (prepare_spec (length (a_variables asp)) Hmem decides Hacm (fun size Hs => Hmem size ltac:(lia)) K asp g Hf eq_refl Hctx Hg HK Hn Hcmd)
    as (k & res & -> & Hres & Hk).
  pose proof Hres as (st & asp' & g' & -> & _). exists k, st, asp', g'. rewrite bind_ret. done.
Qed.

Lemma message_regions decides K asp g : good_message decides K asp g -> holds K (tree_of asp g).
Proof. intros [_ _ _ _ [_ Hg] HK _]. by destruct K. Qed.
End requests.

(** ** Messages that wait *)

Section queue.
Context {M V W : Type} `{Allocator}.
Abbreviation agent := (AgentRequest.agent (M := M) (V := V)).
Context (access : M -> netsnmp_mib_handler M V -> netsnmp_handler_registration M V -> Z -> list view -> W -> Z * list answer * bool * W).
Context (acm : netsnmp_pdu -> option (list Z) -> bool -> outcome Z).
Implicit Types (ag : agent) (asp : agent_session) (w : W) (e : event) (log : list event) (ids : list nat).

(** The messages that arrived, the agent and the world. *)
Definition moment : Type := list nat * agent * W.

(** A message arrives; a handler goes on with a message that waits for it; the
    agent looks at the messages that wait. *)
Inductive step : moment -> moment -> Prop :=
  | step_arrives fuel i asp ids ag w ag' w' : i ∉ ids ->
      netsnmp_handle_request access acm fuel i asp ag w = Ret (Some (ag', w')) -> step (ids, ag, w) (ids ++ [i], ag', w')
  | step_completes k i asp asp' ids ag w w' : delegated_list ag !! k = Some (i, asp) ->
      step (ids, ag, w) (ids, with_delegated (<[k := (i, asp')]> (delegated_list ag)) ag, w')
  | step_checks fuel ids ag w ag' w' :
      netsnmp_check_outstanding_agent_requests access acm fuel ag w = Ret (Some (ag', w')) -> step (ids, ag, w) (ids, ag', w').

(** An agent without messages. *)
Definition at_rest ag : Prop := delegated_list ag = [] /\ queued_list ag = [] /\ processing_set ag = None /\ a_log ag = [].

Inductive reachable : moment -> Prop :=
  | reachable_rest ag w : at_rest ag -> reachable ([], ag, w)
  | reachable_step m m' : reachable m -> step m m' -> reachable m'.

Definition begun log : list nat := omap (fun e => match e with Started i _ => Some i | _ => None end) log.
Definition concluded log : list nat := omap (fun e => match e with Started _ _ => None | Finished i _ | Lost i => Some i end) log.

(** When a SET starts nothing else is in progress, and nothing starts before it
    is answered. *)
Definition sets_alone log : Prop := forall l i l', log = l ++ Started i true :: l' ->
  begun l ≡ₚ concluded l /\ (l' = [] \/ exists r l'', l' = Finished i r :: l'').

(** The SET that is in progress, by the log. *)
Definition sets_now log : option nat := match last log with Some (Started i true) => Some i | _ => None end.

Definition delayed ag : list nat := (delegated_list ag).*1.
Definition queued ag : list nat := (queued_list ag).*1.

Record queue_ok ids ag : Prop := {
  ok_ids : NoDup ids;
  ok_order : begun (a_log ag) ++ queued ag = ids;
  ok_once : begun (a_log ag) ≡ₚ concluded (a_log ag) ++ delayed ag;
  ok_alone : sets_alone (a_log ag);
  ok_now : forall i, sets_now (a_log ag) = Some i -> processing_set ag = Some i /\ delayed ag = [i];
  ok_set : forall i, processing_set ag = Some i ->
    sets_now (a_log ag) = Some i \/
    exists asp q, queued_list ag = (i, asp) :: q /\ a_command asp = SNMP_MSG_SET
}.

(** Nothing is queued without a reason. *)
Definition calm ag : Prop :=
  (processing_set ag = None -> queued_list ag = []) /\
  (forall i, processing_set ag = Some i -> delayed ag <> []).

Lemma sets_alone_snoc log e : sets_alone log ->
  (forall i, sets_now log = Some i -> exists r, e = Finished i r) ->
  (forall i, e = Started i true -> begun log ≡ₚ concluded log) -> sets_alone (log ++ [e]).
Proof.
  intros Ha Hnow Hnew l i l' Heq. destruct l' as [|e' l' _] using rev_ind.
  - apply app_inj_tail in Heq as [-> ->]. split; [by eapply Hnew|by left].
  - assert (log ++ [e] = (l ++ Started i true :: l') ++ [e']) as [Hl ->]%app_inj_tail by by rewrite Heq, <-app_assoc.
    destruct (Ha l i l' Hl) as [Hs Hl']. split; [done|]. right. destruct Hl' as [->|(r & l'' & ->)]; [|by eexists r, _].
    destruct (Hnow i) as [r ->]; [|by exists r, []]. unfold sets_now. by rewrite Hl, last_snoc.
Qed.

Lemma begun_app l l' : begun (l ++ l') = begun l ++ begun l'.
Proof. apply omap_app. Qed.

Lemma concluded_app l l' : concluded (l ++ l') = concluded l ++ concluded l'.
Proof. apply omap_app. Qed.

Lemma sets_now_snoc log e : sets_now (log ++ [e]) = match e with Started i true => Some i | _ => None end.
Proof. unfold sets_now. rewrite last_snoc. by destruct e as [? []| |]. Qed.

Lemma chained_spec i (l : list (nat * agent_session)) : chained i l = bool_decide (i ∈ l.*1).
Proof.
  apply eq_true_iff_eq. unfold chained. rewrite existsb_exists, bool_decide_eq_true, list_elem_of_fmap. split.
  - intros ([j a] & Hin & <-%bool_decide_eq_true). eexists. by rewrite list_elem_of_In.
  - intros ([j a] & -> & Hin). eexists. rewrite <-list_elem_of_In. split; [done|]. by apply bool_decide_eq_true.
Qed.

Lemma unlinked_ids i (l : list (nat * agent_session)) : i ∈ l.*1 -> l.*1 ≡ₚ i :: (unlinked i l).*1.
Proof.
  induction l as [|[j a] l IH]; cbn; [by intros ?%not_elem_of_nil|]. intros Hin. case_bool_decide as Hj; cbn in *; [by subst|].
  rewrite (IH ltac:(by apply elem_of_cons in Hin as [?|?])). apply Permutation_swap.
Qed.

Lemma unlinked_same i (l : list (nat * agent_session)) : i ∉ l.*1 -> unlinked i l = l.
Proof.
  induction l as [|[j a] l IH]; cbn; [done|]. intros [Hj Hl]%not_elem_of_cons. rewrite bool_decide_false by done. by rewrite IH.
Qed.

Lemma link_new i asp ag : i ∉ delayed ag -> link_delegated i asp ag = with_delegated ((i, asp) :: delegated_list ag) ag.
Proof.
  intros Hi. unfold link_delegated, netsnmp_check_delegated_chain_for. by rewrite chained_spec, bool_decide_false.
Qed.

Lemma removed_ids i ag : i ∈ delayed ag -> delayed ag ≡ₚ i :: delayed (netsnmp_remove_from_delegated i ag).
Proof. apply unlinked_ids. Qed.

Lemma not_delayed l ag i : NoDup (begun (a_log ag) ++ l) -> i ∈ l -> begun (a_log ag) ≡ₚ concluded (a_log ag) ++ delayed ag -> i ∉ delayed ag.
Proof.
  intros Hnd Hl Hp Hi. apply NoDup_app in Hnd as (_ & Hd & _). apply (Hd i); [|done]. rewrite Hp. apply elem_of_app. by right.
Qed.

(** A message that is answered: it is no longer the SET in progress. *)
Lemma wrapped_ok i response ag : i ∉ delayed ag ->
  wrapped_up i response ag =
  with_event (Finished i response) (if bool_decide (processing_set ag = Some i) then with_processing None ag else ag).
Proof.
  intros Hi. unfold wrapped_up. set (ag1 := if bool_decide _ then _ else _).
  assert (Hd : delegated_list ag1 = delegated_list ag) by (unfold ag1; by case_bool_decide).
  destruct response; [|done]. unfold netsnmp_remove_from_delegated. cbn. rewrite Hd, unlinked_same by done. by rewrite <-Hd; destruct ag1.
Qed.

(** A message that is processed, from [netsnmp_handle_request] on. *)
Definition proceeds (i : nat) (sets : bool) (r : option (resumed (W := W) * agent_registry (M := M) (V := V))) ag : option (agent * W) :=
  let ag := with_event (Started i sets) ag in
  match r with
  | None => None
  | Some (Delayed asp w, g) => Some (link_delegated i asp (with_registry g ag), w)
  | Some (Answered response w, g) => Some (wrapped_up i response (with_registry g ag), w)
  end.

Lemma proceeds_ok ids i (sets : bool) r ag ag' w' : NoDup ids -> begun (a_log ag) ++ i :: queued ag = ids ->
  begun (a_log ag) ≡ₚ concluded (a_log ag) ++ delayed ag -> sets_alone (a_log ag) -> sets_now (a_log ag) = None ->
  processing_set ag = (if sets then Some i else None) -> (sets = true -> delayed ag = []) ->
  proceeds i sets r ag = Some (ag', w') ->
  queue_ok ids ag' /\ queued_list ag' = queued_list ag /\ forall j, processing_set ag' = Some j -> delayed ag' <> [].
Proof.
  intros Hnd Ho Hp Ha Hnow Hset Hw. subst ids. pose proof (not_delayed _ _ i Hnd ltac:(by left) Hp) as Hi. unfold proceeds.
  assert (Hal : sets_alone (a_log ag ++ [Started i sets])).
  { apply sets_alone_snoc; [done|by rewrite Hnow|]. intros j [= <- ->]. rewrite Hp, Hw by done. by rewrite app_nil_r. }
  destruct r as [[[asp w|response w] g]|]; [..|done]; intros [= <- <-].
  - rewrite link_new by done. cbn. split; [|split; [done|by destruct sets]]. split; cbn; [done|..].
    + by rewrite begun_app, <-app_assoc.
    + rewrite begun_app, concluded_app, Hp. cbn. rewrite app_nil_r. solve_Permutation.
    + done.
    + rewrite sets_now_snoc. destruct sets; [|done]. intros j [= <-]. unfold delayed in *. cbn. rewrite Hset. by rewrite Hw.
    + rewrite sets_now_snoc, Hset. destruct sets; [|done]. intros j [= <-]. by left.
  - rewrite wrapped_ok by done.
    set (ag1 := if bool_decide _ then _ else _).
    assert (Hag : ag1 = with_processing None (with_registry g (with_event (Started i sets) ag))).
    { unfold ag1. cbn. rewrite Hset. destruct sets; [by rewrite bool_decide_true|]. rewrite bool_decide_false by done.
      unfold with_processing, with_registry, with_event. cbn. by rewrite Hset. }
    rewrite Hag. cbn. split; [|done]. split; cbn; [done|..].
    + by rewrite !begun_app, <-!app_assoc.
    + rewrite !begun_app, !concluded_app, Hp. cbn. rewrite !app_nil_r. solve_Permutation.
    + apply sets_alone_snoc; [done|rewrite sets_now_snoc|done]. destruct sets; [|done]. intros j [= <-]. by eexists.
    + by rewrite sets_now_snoc.
    + done.
Qed.

(** A message that is put into the queue, [p] being the SET that is waited for. *)
Lemma enqueued_ok ids i asp p ag : i ∉ ids -> queue_ok ids ag ->
  p = processing_set ag \/ (processing_set ag = None /\ p = Some i /\ a_command asp = SNMP_MSG_SET /\ queued_list ag = []) ->
  queue_ok (ids ++ [i]) (netsnmp_add_queued i asp (with_processing p ag)).
Proof.
  intros Hi [Hnd Ho Hp Ha Hnow Hset] Hcase.
  assert (Hiq : i ∉ queued ag). { intros Hin. apply Hi. rewrite <-Ho. apply elem_of_app. by right. }
  unfold netsnmp_add_queued, netsnmp_check_queued_chain_for. rewrite chained_spec, bool_decide_false by done.
  split; cbn; [|..]; try done.
  - apply NoDup_app. split; [done|]. split; [by intros j Hj ->%list_elem_of_singleton|apply NoDup_singleton].
  - rewrite <-Ho. unfold queued. cbn. by rewrite fmap_app, app_assoc.
  - intros j Hj. destruct (Hnow j Hj) as [Hpj Hw]. split; [|done]. destruct Hcase as [->|(Hn & _)]; [done|congruence].
  - intros j ->. destruct Hcase as [Hj|(_ & [= <-] & Hc & ->)]; [|by right; eexists asp, []].
    destruct (Hset j (eq_sym Hj)) as [?|(a & q & -> & Hc)]; [by left|right]. by eexists a, _.
Qed.

(** The message that is next is not in progress. *)
Lemma quiet ids ag : queue_ok ids ag -> processing_set ag = None \/ delayed ag = [] -> sets_now (a_log ag) = None.
Proof.
  intros Hok Hcase. destruct (sets_now (a_log ag)) as [i|] eqn:Hi; [|done]. destruct (ok_now _ _ Hok i Hi). destruct Hcase; congruence.
Qed.

(** A message that comes. *)
Lemma arrives_ok fuel ids i asp ag w ag' w' : queue_ok ids ag -> calm ag -> i ∉ ids ->
  netsnmp_handle_request access acm fuel i asp ag w = Ret (Some (ag', w')) -> queue_ok (ids ++ [i]) ag' /\ calm ag'.
Proof.
  intros Hok [Hs1 Hs2] Hi. pose proof Hok as [Hnd Ho Hp Ha Hnow Hset].
  assert (Hnd' : NoDup (ids ++ [i])). { apply NoDup_app. split; [done|]. split; [by intros j Hj ->%list_elem_of_singleton|apply NoDup_singleton]. }
  assert (Hiw : i ∉ delayed ag). { intros Hin. apply Hi. rewrite <-Ho. apply elem_of_app. left. rewrite Hp. apply elem_of_app. by right. }
  unfold netsnmp_handle_request. unfold netsnmp_check_delegated_chain_for. rewrite chained_spec, bool_decide_false by done.
  destruct (processing_set ag) as [j|] eqn:Hj.
  - assert (Hij : j <> i).
    { intros ->. destruct (Hset i eq_refl) as [Hn|(a & q & Hq & _)]; [by destruct (Hnow _ Hn) as [_ Hw]; apply Hiw; rewrite Hw; left|].
      apply Hi. rewrite <-Ho. unfold queued. rewrite Hq. apply elem_of_app. right. by left. }
    rewrite (bool_decide_false (Some j = Some i)) by congruence. cbn. intros [= <- <-].
    assert (Hag : ag = with_processing (processing_set ag) ag) by by destruct ag.
    rewrite Hag. split; [apply enqueued_ok; [done|done|by left]|]. rewrite <-Hag. unfold netsnmp_add_queued. 
    case_match; split; cbn; try congruence; by rewrite Hj.
  - rewrite (bool_decide_false (None = Some i)) by done. cbn. specialize (Hs1 eq_refl).
    pose proof (quiet _ _ Hok (or_introl Hj)) as Hq.
    assert (Hgo : forall (sets : bool) r (ag1 : agent), delayed ag1 = delayed ag -> queued_list ag1 = queued_list ag -> a_log ag1 = a_log ag -> processing_set ag1 = (if sets then Some i else None) ->
      (sets = true -> delayed ag = []) ->
      proceeds i sets r ag1 = Some (ag', w') -> queue_ok (ids ++ [i]) ag' /\ calm ag').
    { intros sets r ag1 Hw1 Hq1 Hl1 Hp1 Hsw Hr. destruct (proceeds_ok (ids ++ [i]) i sets r ag1 ag' w') as (Hok' & Hq' & Hb); rewrite ?Hl1, ?Hw1; try done.
      - unfold queued in *. rewrite Hq1, <-Ho, Hs1. cbn. by rewrite app_nil_r.
      - split; [done|]. split; [|done]. intros _. by rewrite Hq', Hq1. }
    destruct (a_command asp =? SNMP_MSG_SET) eqn:Hc; cbn.
    + destruct (bool_decide_reflect (delegated_list ag = [])) as [Hd|Hd]; cbn.
      * intros (r & Hr & [= Hag'])%bind_Ret_inv. apply (Hgo true r (with_processing (Some i) ag)); try done. intros _. unfold delayed. by rewrite Hd.
      * intros [= <- <-]. split; [apply enqueued_ok; [done|done|right]; split_and!; [done|done|by apply Z.eqb_eq|done]|]. unfold netsnmp_add_queued.
        case_match; split; cbn; try done; intros ? _; unfold delayed; cbn; by destruct (delegated_list ag).
    + intros (r & Hr & [= Hag'])%bind_Ret_inv. by apply (Hgo false r ag).
Qed.

(** A delegated message goes on: [ag] without it. *)
Section turn.
Context (ids : list nat) (i : nat) ag (Hok : queue_ok ids ag) (Hi : i ∈ delayed ag).
Local Abbreviation ag1 := (netsnmp_remove_from_delegated i ag).

Lemma turn_new : i ∉ delayed ag1.
Proof.
  intros Hin. pose proof (ok_ids _ _ Hok) as Hnd. rewrite <-(ok_order _ _ Hok), (ok_once _ _ Hok), (removed_ids i ag Hi) in Hnd.
  apply NoDup_app in Hnd as [(_ & _ & Hnd)%NoDup_app _]. by apply NoDup_cons in Hnd as [? _].
Qed.

Lemma turn_alone j : sets_now (a_log ag) = Some j -> j = i /\ delayed ag1 = [].
Proof.
  intros [_ Hw]%(ok_now _ _ Hok). pose proof (removed_ids i ag Hi) as Hp. rewrite Hw in Hp, Hi.
  apply list_elem_of_singleton in Hi as ->. split; [done|]. by apply (inj (cons j)) in Hp; apply Permutation_nil_l in Hp.
Qed.

Lemma relinked_ok asp : queue_ok ids (link_delegated i asp ag1) /\ delayed (link_delegated i asp ag1) = i :: delayed ag1.
Proof.
  rewrite (link_new i asp ag1 turn_new). split; [|done]. destruct Hok as [Hnd Ho Hp Ha Hnow Hset].
  split; try done; unfold delayed in *; cbn in *.
  - by rewrite Hp, (removed_ids i ag Hi).
  - intros j Hj. destruct (turn_alone j Hj) as [-> Hw]. split; [by apply Hnow|]. unfold delayed in Hw. cbn in Hw. by rewrite Hw.
Qed.

Lemma lost_ok : delayed ag1 <> [] -> queue_ok ids (with_event (Lost i) ag1).
Proof.
  intros Hne. assert (Hq : sets_now (a_log ag) = None).
  { destruct (sets_now (a_log ag)) as [j|] eqn:Hj; [|done]. by destruct (turn_alone j Hj). }
  destruct Hok as [Hnd Ho Hp Ha Hnow Hset]. split; cbn; [done|..].
  - by rewrite begun_app, app_nil_r.
  - rewrite begun_app, concluded_app, app_nil_r, Hp, (removed_ids i ag Hi). cbn. by rewrite <-app_assoc.
  - apply sets_alone_snoc; [done|by rewrite Hq|done].
  - by rewrite sets_now_snoc.
  - rewrite sets_now_snoc. intros j Hj. right. destruct (Hset j Hj) as [?|?]; [congruence|done].
Qed.

Lemma finished_ok response : queue_ok ids (wrapped_up i response ag1) /\ delayed (wrapped_up i response ag1) = delayed ag1.
Proof.
  rewrite (wrapped_ok i response ag1 turn_new). split; [|by case_bool_decide]. destruct Hok as [Hnd Ho Hp Ha Hnow Hset].
  set (ag2 := if bool_decide _ then _ else _).
  assert (Hf : a_log ag2 = a_log ag /\ queued_list ag2 = queued_list ag /\ delayed ag2 = delayed ag1 /\
    processing_set ag2 = if bool_decide (processing_set ag = Some i) then None else processing_set ag)
    by (unfold ag2; cbn; by case_bool_decide).
  clearbody ag2. destruct Hf as (Hl & Hq & Hw & Hps). split; cbn; rewrite ?Hl, ?Hq; [done|..].
  - by rewrite begun_app, app_nil_r.
  - rewrite begun_app, concluded_app, app_nil_r, Hp, (removed_ids i ag Hi), <-Hw. cbn. by rewrite <-app_assoc.
  - apply sets_alone_snoc; [done| |done]. intros j Hj. destruct (turn_alone j Hj) as [-> _]. by eexists.
  - by rewrite sets_now_snoc.
  - rewrite sets_now_snoc, Hps. intros j. case_bool_decide as Hpi; [done|]. intros Hj. right.
    destruct (Hset j Hj) as [Hn|?]; [|done]. destruct (turn_alone j Hn) as [-> _]. done.
Qed.
End turn.

Lemma delegated_ok fuel rest : forall ids ag w ag' w', queue_ok ids ag -> NoDup rest.*1 -> rest.*1 ⊆ delayed ag ->
  check_delegated access acm fuel rest ag w = Ret (ag', w') -> queue_ok ids ag'.
Proof.
  induction rest as [|[i asp] rest IH]; intros ids ag w ag' w' Hok Hnd Hin; [by intros [= <- <-]|]. cbn.
  apply NoDup_cons in Hnd as [Hi Hnd]. cbn in Hi.
  assert (Hiw : i ∈ delayed ag) by (apply Hin; by left).
  assert (Hrest : rest.*1 ⊆ delayed (netsnmp_remove_from_delegated i ag)).
  { intros j Hj. assert (j ∈ delayed ag) as Hjw by (apply Hin; by right). rewrite (removed_ids i ag Hiw) in Hjw.
    by apply elem_of_cons in Hjw as [->|?]. }
  intros (b & _ & H1)%bind_Ret_inv. destruct b; [apply (IH ids) in H1; [done..|]; intros j Hj; apply Hin; by right|].
  apply bind_Ret_inv in H1 as (asp1 & _ & H1). apply bind_Ret_inv in H1 as (r & _ & H1).
  destruct r as [asp2 w2|response w2].
  - case_match eqn:Hlost.
    + apply (IH ids) in H1; [done| |done|done]. apply lost_ok; [done|done|].
      apply andb_true_iff in Hlost as [_ Hlost]. unfold netsnmp_check_transaction_id in Hlost.
      intros Hn%fmap_nil_inv. cbn in Hn, Hlost. by rewrite Hn in Hlost.
    + destruct (relinked_ok ids i ag Hok Hiw asp2) as [Hok' Hw]. apply (IH ids) in H1; [done..|]. rewrite Hw. intros j Hj. right. by apply Hrest.
  - destruct (finished_ok ids i ag Hok Hiw response) as [Hok' Hw]. apply (IH ids) in H1; [done..|]. by rewrite Hw.
Qed.

(** The first message of the queue is the SET that is waited for, where there
    is one. *)
Lemma popped i asp q ids ag : queue_ok ids ag -> queued_list ag = (i, asp) :: q ->
  (forall i, processing_set ag = Some i -> sets_now (a_log ag) <> Some i) ->
  processing_set ag = None \/ (processing_set ag = Some i /\ a_command asp = SNMP_MSG_SET).
Proof.
  intros Hok Hq Hnot. destruct (processing_set ag) as [j|] eqn:Hj; [right|by left].
  destruct (ok_set _ _ Hok j Hj) as [?|(a & q' & Hq' & Hc)]; [by destruct (Hnot j)|]. rewrite Hq in Hq'. by injection Hq' as <- <- <-.
Qed.

Lemma popped_proceeds fuel i asp q ag w : i ∉ delayed ag ->
  processing_set ag = None \/ (processing_set ag = Some i /\ a_command asp = SNMP_MSG_SET) ->
  (a_command asp = SNMP_MSG_SET -> delegated_list ag = []) ->
  netsnmp_handle_request access acm fuel i asp (with_queued q ag) w =
  (r ← process_request access acm fuel asp (a_registry ag) w;
   Ret (proceeds i (a_command asp =? SNMP_MSG_SET) r
     (with_processing (if a_command asp =? SNMP_MSG_SET then Some i else None) (with_queued q ag)))).
Proof.
  intros Hi Hp Hd. unfold netsnmp_handle_request, netsnmp_check_delegated_chain_for. rewrite chained_spec.
  change (delegated_list (with_queued q ag)) with (delegated_list ag). rewrite bool_decide_false by done. cbn.
  destruct Hp as [Hp|[Hp Hc]]; rewrite Hp.
  - rewrite (bool_decide_false (None = Some i)) by done. cbn.
    destruct (Z.eqb_spec (a_command asp) SNMP_MSG_SET) as [Hc|Hc]; cbn; [by rewrite Hd|]. unfold proceeds, with_processing, with_queued. cbn. by rewrite Hp.
  - rewrite (bool_decide_true (Some i = Some i)) by done. rewrite Hc. cbn. unfold proceeds, with_processing, with_queued. cbn. by rewrite Hp.
Qed.

Lemma emptied ids ag : queue_ok ids ag -> queued_list ag = [] ->
  (forall i, processing_set ag = Some i -> sets_now (a_log ag) <> Some i) -> calm ag.
Proof.
  intros Hok Hq Hnot. split; [done|]. intros i Hi.
  destruct (ok_set _ _ Hok i Hi) as [?|(? & ? & Hc & _)]; [by destruct (Hnot i)|congruence].
Qed.

(** A turn of the queue with its first message. *)
Lemma popped_ok i asp q ids ag r ag' w' : queue_ok ids ag -> queued_list ag = (i, asp) :: q ->
  sets_now (a_log ag) = None -> (a_command asp = SNMP_MSG_SET -> delegated_list ag = []) ->
  proceeds i (a_command asp =? SNMP_MSG_SET) r
     (with_processing (if a_command asp =? SNMP_MSG_SET then Some i else None) (with_queued q ag)) = Some (ag', w') ->
  queue_ok ids ag' /\ forall j, processing_set ag' = Some j -> delayed ag' <> [].
Proof.
  intros [Hnd Ho Hp Ha Hnow Hset] Hq Hquiet Hd Hr. unfold queued in Ho. rewrite Hq in Ho.
  destruct (proceeds_ok ids i (a_command asp =? SNMP_MSG_SET) r
    (with_processing (if a_command asp =? SNMP_MSG_SET then Some i else None) (with_queued q ag)) ag' w') as (Hok' & _ & Hb); try done.
  intros Hc%Z.eqb_eq. unfold delayed. cbn. by rewrite Hd.
Qed.

Lemma queued_ok fuel turns : forall ids ag w ag' w', queue_ok ids ag -> processing_set ag = None \/ delayed ag = [] ->
  process_queued access acm turns fuel ag w = Ret (Some (ag', w')) -> queue_ok ids ag' /\ calm ag'.
Proof.
  induction turns as [|turns IH]; intros ids ag w ag' w' Hok Hfree Hrun; cbn in Hrun.
  all: pose proof (quiet _ _ Hok Hfree) as Hquiet.
  all: destruct (queued_list ag) as [|[i asp] q] eqn:Hq; [injection Hrun as <- <-; split; [done|]; apply (emptied ids); [done..|intros ? _; by rewrite Hquiet]|].
  { done. }
  assert (Hi : i ∉ delayed ag).
  { apply (not_delayed (queued ag)); [|unfold queued; rewrite Hq; by left|apply Hok]. rewrite (ok_order _ _ Hok). apply Hok. }
  pose proof (popped i asp q ids ag Hok Hq ltac:(intros ? _; by rewrite Hquiet)) as Hpop.
  destruct ((a_command asp =? SNMP_MSG_SET) && negb (bool_decide (delegated_list ag = []))) eqn:Hc.
  - injection Hrun as <- <-. apply andb_true_iff in Hc as [Hc%Z.eqb_eq Hd%negb_true_iff%bool_decide_eq_false].
    assert (Hw : delayed ag <> []) by by intros ?%fmap_nil_inv.
    split; [|by split]. destruct Hok as [Hnd Ho Hp Ha Hnow Hset]. split; cbn; try done.
    + by rewrite Hquiet.
    + intros j [= <-]. right. by eexists asp, q.
  - assert (Hd : a_command asp = SNMP_MSG_SET -> delegated_list ag = []).
    { intros Hset. rewrite Hset, Z.eqb_refl in Hc. by apply negb_false_iff, bool_decide_eq_true in Hc. }
    rewrite (popped_proceeds fuel i asp q ag w Hi Hpop Hd) in Hrun. rewrite bind_assoc in Hrun.
    apply bind_Ret_inv in Hrun as (r & _ & Hrun). cbn in Hrun.
    destruct (proceeds _ _ _ _) as [[ag1 w1]|] eqn:Hr; [|done].
    destruct (popped_ok i asp q ids ag r ag1 w1 Hok Hq Hquiet Hd Hr) as [Hok1 Hb].
    destruct (processing_set ag1) as [j|] eqn:Hj; cbn in Hrun.
    + injection Hrun as <- <-. split; [done|]. split; [by rewrite Hj|]. intros k _. by apply (Hb j).
    + apply (IH ids) in Hrun; [done..|by left].
Qed.

Lemma checks_ok fuel ids ag w ag' w' : queue_ok ids ag ->
  netsnmp_check_outstanding_agent_requests access acm fuel ag w = Ret (Some (ag', w')) -> queue_ok ids ag' /\ calm ag'.
Proof.
  intros Hok. unfold netsnmp_check_outstanding_agent_requests. intros ([ag1 w1] & H1 & H2)%bind_Ret_inv.
  apply (delegated_ok _ _ ids) in H1; [|done| |done].
  2:{ pose proof (ok_ids _ _ Hok) as Hnd. rewrite <-(ok_order _ _ Hok), (ok_once _ _ Hok) in Hnd.
      by apply NoDup_app in Hnd as [(_ & _ & Hnd)%NoDup_app _]. }
  destruct (processing_set ag1) as [i|] eqn:Hp; cbn in H2; [|apply (queued_ok _ _ ids) in H2; [done..|by left]].
  destruct (bool_decide_reflect (delegated_list ag1 = [])) as [Hd|Hd]; cbn in H2.
  - apply (queued_ok _ _ ids) in H2; [done..|]. right. unfold delayed. by rewrite Hd.
  - injection H2 as <- <-. split; [done|]. split; [by rewrite Hp|]. by intros j _ ?%fmap_nil_inv.
Qed.

Lemma completes_ok k i asp asp' ids ag : delegated_list ag !! k = Some (i, asp) -> queue_ok ids ag -> calm ag ->
  queue_ok ids (with_delegated (<[k := (i, asp')]> (delegated_list ag)) ag) /\ calm (with_delegated (<[k := (i, asp')]> (delegated_list ag)) ag).
Proof.
  intros Hk [Hnd Ho Hp Ha Hnow Hset] [Hs1 Hs2].
  assert (Hw : delayed (with_delegated (<[k := (i, asp')]> (delegated_list ag)) ag) = delayed ag).
  { unfold delayed. cbn. rewrite list_fmap_insert. apply list_insert_id. cbn. by rewrite list_lookup_fmap, Hk. }
  split; [split; rewrite ?Hw; try done|]. by split; rewrite ?Hw.
Qed.

Lemma reachable_ok m : reachable m -> queue_ok m.1.1 m.1.2 /\ calm m.1.2.
Proof.
  induction 1 as [ag w (Hd & Hq & Hp & Hl)|m m' _ [Hok Hs] Hstep].
  - cbn. unfold calm. rewrite Hq, Hp. split; [|done].
    split; unfold queued, delayed; rewrite ?Hd, ?Hq, ?Hl, ?Hp; try done; [apply NoDup_nil_2|]. by intros [|??] i l'.
  - destruct Hstep as [fuel i asp ids ag w ag' w' Hi Hrun|k i asp asp' ids ag w w' Hk|fuel ids ag w ag' w' Hrun]; cbn in *.
    + by apply (arrives_ok fuel ids i asp ag w ag' w').
    + by apply (completes_ok k i asp).
    + by apply (checks_ok fuel ids ag w ag' w').
Qed.

(** The turns for the queue are enough: a message that stays in it ends them. *)
Lemma handled_queue fuel i asp ag w ag' w' : netsnmp_handle_request access acm fuel i asp ag w = Ret (Some (ag', w')) ->
  processing_set ag' = None -> queued_list ag' = queued_list ag.
Proof.
  unfold netsnmp_handle_request. cbv zeta. set (fresh := negb _ && negb _).
  assert (Hq : forall ag1, processing_set (netsnmp_add_queued i asp ag1) = processing_set ag1) by (intros; unfold netsnmp_add_queued; by case_match).
  case_match eqn:H1.
  { apply andb_true_iff in H1 as [_ H1%bool_decide_eq_true]. intros [= <- <-]. rewrite Hq. intros Hn. rewrite Hn in H1. by apply is_Some_None in H1. }
  set (ag1 := if fresh && _ then _ else ag). assert (Hq1 : queued_list ag1 = queued_list ag) by (unfold ag1; by case_match).
  case_match eqn:H2.
  { apply andb_true_iff in H2 as [H2 _]. intros [= <- <-]. rewrite Hq. unfold ag1. by rewrite H2. }
  intros (r & _ & [= Hr])%bind_Ret_inv _. destruct r as [[[asp1 w1|response w1] g]|]; [..|done]; injection Hr as <- <-.
  - unfold link_delegated. by case_match.
  - unfold wrapped_up. repeat case_match; done.
Qed.

Lemma turns_enough fuel turns : forall ag w, (length (queued_list ag) <= turns)%nat ->
  process_queued access acm turns fuel ag w = process_queued access acm (length (queued_list ag)) fuel ag w.
Proof.
  induction turns as [|turns IH]; intros ag w Hn; [by destruct (queued_list ag); [|cbn in Hn; lia]|].
  destruct (queued_list ag) as [|[i asp] q] eqn:Hq; [cbn; by rewrite Hq|]. cbn. rewrite Hq. case_match; [done|].
  destruct (netsnmp_handle_request _ _ _ _ _ _) as [[[ag1 w1]|]| | |] eqn:Hrun; try done. cbn.
  destruct (processing_set ag1) eqn:Hp; cbn; [done|]. pose proof (handled_queue _ _ _ _ _ _ _ Hrun Hp) as Hq1. cbn in Hq1, Hn.
  rewrite IH; rewrite Hq1; [done|lia].
Qed.
End queue.
