(* ===== verification/AgentGetSet.v ===== *)
(** * The phases of a SET, and the answers of a GET: agent/snmp_agent.c

    A SET runs as a two-phase commit over all the regions it touches. *)

From stdpp Require Import list.
From S2P Require Import Prelude RegistryMap RegistryTree RegistryProps Bytes AsnTypes AsnParse AsnBuild AsnRbuild Samples VarOp Pdu PduProps Oid Vacm Lcd Scapi Users UsmMsg Session Secmod Message MessageProps Client CString Keytools ReadConfig UserConfig AgentHandler Registry AgentRequest AgentRequestProps.

(** * What one pass does *)

(** The specification of a pass, in terms of the calls of access methods alone. *)
Section sweep.
Context {M V W : Type} `{Allocator}.
Abbreviation registration := (netsnmp_handler_registration M V).
Abbreviation tree := (list (list (netsnmp_subtree M V))).
Context (access : M -> netsnmp_mib_handler M V -> registration -> Z -> list view -> W -> Z * list answer * bool * W).
Implicit Types (t : tree) (asp : agent_session) (w : W) (r : view) (rs : list view).

(** A call of an access method. *)
Record call : Type := { k_handler : netsnmp_mib_handler M V; k_reginfo : registration; k_mode : Z; k_views : list view }.

(** The handlers of a registration: one after the other while they are marked
    to be followed by the next. *)
Inductive chain_calls (reginfo : registration) (m : Z) : list (netsnmp_mib_handler M V) -> list view -> W -> list call -> Z -> list view -> W -> Prop :=
  | Chain_ends h nh next rs w ret l once w' : access_method h = Some nh -> access nh h reginfo m rs w = (ret, l, once, w') ->
      next = [] \/ has_bit (h_flags h) MIB_HANDLER_AUTO_NEXT = false \/ once = true ->
      chain_calls reginfo m (h :: next) rs w [{| k_handler := h; k_reginfo := reginfo; k_mode := m; k_views := rs |}] ret (all_answered rs l) w'
  | Chain_goes_on h nh next rs w ret l w1 calls ret' rs' w' : access_method h = Some nh -> access nh h reginfo m rs w = (ret, l, false, w1) ->
      next <> [] -> has_bit (h_flags h) MIB_HANDLER_AUTO_NEXT = true ->
      chain_calls reginfo m next (all_answered rs l) w1 calls ret' rs' w' ->
      chain_calls reginfo m (h :: next) rs w ({| k_handler := h; k_reginfo := reginfo; k_mode := m; k_views := rs |} :: calls) ret' rs' w'
  | Chain_no_method h rs w : access_method h = None -> chain_calls reginfo m [h] rs w [] 0 rs w
  | Chain_broken h next rs w : access_method h = None -> next <> [] -> chain_calls reginfo m (h :: next) rs w [] SNMP_ERR_GENERR rs w.

(** What a registration must be able to do. *)
Definition needed (m : Z) : Z := if m =? SNMP_MSG_GET then HANDLER_CAN_GETANDGETNEXT else HANDLER_CAN_SET.

Definition refused r : view := (with_answer 0 1 (inclusive r.1) SNMP_ERR_NOTWRITABLE r.1, r.2).

(** A registration and the requests for it. *)
Inductive region_calls (reginfo : registration) (m : Z) rs w : list call -> Z -> list view -> W -> Prop :=
  | Region_called calls ret rs' w' : rs <> [] -> handler reginfo <> [] -> has_bit (modes reginfo) (needed m) = true ->
      chain_calls reginfo m (handler reginfo) (map unprocess rs) w calls ret rs' w' -> region_calls reginfo m rs w calls ret rs' w'
  | Region_unable : rs <> [] -> handler reginfo <> [] -> has_bit (modes reginfo) (needed m) = false ->
      region_calls reginfo m rs w [] 0 (if m =? SNMP_MSG_GET then rs else map refused rs) w
  | Region_without : rs = [] \/ handler reginfo = [] -> region_calls reginfo m rs w [] SNMP_ERR_GENERR rs w.

(** What a pass comes to: the codes the registrations return, the statuses
    that are left in their requests, and the calls. *)
Record report : Type := { p_codes : list Z; p_statuses : list Z; p_calls : list call }.

(** A pass in mode [m]: every slot in turn, its requests as the pass finds
    them, which become what the handlers make of them. *)
Inductive swept t (m : Z) : list tree_cache -> (nat -> option view) -> W -> report -> (nat -> option view) -> W -> Prop :=
  | Swept_all s s' w : (forall i, s' i = s i) -> swept t m [] s w {| p_codes := []; p_statuses := []; p_calls := [] |} s' w
  | Swept_slot c slots s w node rs calls ret rs' w1 s1 p s' w' : top t (c_subtree c) = Some node ->
      Forall2 (fun i r => s i = Some r) (c_requests c) rs ->
      region_calls (t_reginfo node) m rs w calls ret rs' w1 ->
      Forall2 (fun i r => s1 i = Some r) (c_requests c) rs' -> (forall i, i ∉ c_requests c -> s1 i = s i) ->
      swept t m slots s1 w1 p s' w' ->
      swept t m (c :: slots) s w {| p_codes := ret :: p_codes p; p_statuses := map (fun r => q_status r.1) rs' ++ p_statuses p;
                                    p_calls := calls ++ p_calls p |} s' w'.

(** A status that is an error: the last phases report one of their own only. *)
Definition counts (m st : Z) : Prop :=
  st <> 0 /\ (m = SNMP_MSG_INTERNAL_SET_COMMIT -> st = SNMP_ERR_COMMITFAILED) /\ (m = SNMP_MSG_INTERNAL_SET_UNDO -> st = SNMP_ERR_UNDOFAILED).

(** No error at all, and an error of the pass. *)
Definition clean (m : Z) (p : report) : Prop := Forall (fun st => st = 0) (p_codes p) /\ Forall (fun st => ~ counts m st) (p_statuses p).
Definition blames (m : Z) (p : report) (st : Z) : Prop := st <> 0 /\ (st ∈ p_codes p \/ st ∈ p_statuses p /\ counts m st).

(** ** The code does just that *)

Definition phase_mode (m : Z) : Prop :=
  m = SNMP_MSG_INTERNAL_SET_RESERVE1 \/ m = SNMP_MSG_INTERNAL_SET_RESERVE2 \/ m = SNMP_MSG_INTERNAL_SET_ACTION \/
  m = SNMP_MSG_INTERNAL_SET_COMMIT \/ m = SNMP_MSG_INTERNAL_SET_FREE \/ m = SNMP_MSG_INTERNAL_SET_UNDO.

Lemma chain_called reginfo m chain : forall rs w st rs' w', chain <> [] -> call_chain access chain reginfo m rs w = (st, rs', w') ->
  exists calls, chain_calls reginfo m chain rs w calls st rs' w'.
Proof.
  induction chain as [|h next IH]; intros rs w st rs' w' Hne E; [done|]. cbn [call_chain] in E.
  destruct (access_method h) as [nh|] eqn:Em.
  - destruct (access nh h reginfo m rs w) as [[[ret l] once] w1] eqn:Ea. destruct next as [|h' next].
    + injection E as <- <- <-. eexists. eapply Chain_ends; [done|done|by left].
    + destruct (has_bit (h_flags h) MIB_HANDLER_AUTO_NEXT) eqn:Eb; [destruct once|]; cbn [negb orb] in E.
      * injection E as <- <- <-. eexists. eapply Chain_ends; [done|done|by right; right].
      * apply IH in E as [calls Hc]; [|done]. eexists. by eapply Chain_goes_on.
      * injection E as <- <- <-. eexists. eapply Chain_ends; [done|done|by right; left].
  - destruct next as [|h' next]; injection E as <- <- <-; exists []; [by apply Chain_no_method|by apply Chain_broken].
Qed.

Lemma refuse_all m rs : map (fun r => netsnmp_set_request_error m r SNMP_ERR_NOTWRITABLE) rs = map refused rs.
Proof. apply map_ext. by intros [q vb]. Qed.

Lemma region_called reginfo m rs w st rs' w' : m = SNMP_MSG_GET \/ phase_mode m ->
  netsnmp_call_handlers access reginfo m rs w = (st, rs', w') -> exists calls, region_calls reginfo m rs w calls st rs' w'.
Proof.
  intros Hm E. unfold netsnmp_call_handlers in E. destruct rs as [|r rs]; [injection E as <- <- <-; exists []; apply Region_without; by left|].
  destruct (handler reginfo) as [|h next] eqn:Eh; [injection E as <- <- <-; exists []; apply Region_without; by right|].
  assert (Hn : forall b, has_bit (modes reginfo) (needed m) = b -> has_bit (modes reginfo) (if mode_is_get m then HANDLER_CAN_GETANDGETNEXT else HANDLER_CAN_SET) = b
    /\ (m =? SNMP_MSG_GET) = mode_is_get m /\ (mode_is_get m = false -> mode_is_set_phase m = true)).
  { intros b <-. by destruct Hm as [->|[->|[->|[->|[->|[->| ->]]]]]]. }
  unfold netsnmp_call_handler in E. destruct (has_bit (modes reginfo) (needed m)) eqn:Eb; destruct (Hn _ eq_refl) as (Hb & Hget & Hset).
  - assert (call_chain access (h :: next) reginfo m (map unprocess (r :: rs)) w = (st, rs', w')) as [calls Hc]%chain_called.
    { destruct (mode_is_get m) eqn:Eg; [|rewrite (Hset eq_refl) in E]; rewrite Hb in E; exact E. }
    2: done. exists calls. apply Region_called; rewrite ?Eh; done.
  - exists []. destruct (mode_is_get m) eqn:Eg; [|rewrite (Hset eq_refl) in E]; rewrite Hb in E; cbn [negb] in E; injection E as <- <- <-.
    + pose proof (Region_unable reginfo m (r :: rs) w) as Hu. rewrite Hget in Hu. apply Hu; by rewrite ?Eh.
    + pose proof (Region_unable reginfo m (r :: rs) w) as Hu. rewrite Hget, Eh in Hu.
      change (_ :: map _ rs) with (map (fun r => netsnmp_set_request_error m r SNMP_ERR_NOTWRITABLE) (r :: rs)). rewrite refuse_all. by apply Hu.
Qed.

(** The handlers see the requests of the slot, but for what a handler before
    them wrote. *)
Lemma chain_views reginfo m chain rs w calls st rs' w' : chain_calls reginfo m chain rs w calls st rs' w' ->
  Forall (fun k => k_mode k = m /\ k_reginfo k = reginfo /\ Forall2 kept rs (k_views k)) calls.
Proof.
  induction 1 as [h nh next rs w ret l once w'|h nh next rs w ret l w1 calls ret' rs' w' _ _ _ _ _ IH| |];
    [constructor; [|constructor]|constructor|constructor..].
  - split_and!; [done..|]. cbn. clear. induction rs; by constructor.
  - split_and!; [done..|]. cbn. clear. induction rs; by constructor.
  - eapply Forall_impl; [exact IH|]. intros k (? & ? & Hk). split_and!; [done..|].
    clear -Hk. pose proof (answered_kept rs l) as Ha. revert Hk. generalize (k_views k). induction Ha as [|r r1 rs l1 Hr _ IH]; intros vs Hk.
    + inversion Hk. constructor.
    + apply Forall2_cons_inv_l in Hk as (v & vs' & Hv & Hk & ->). constructor; [by eapply kept_trans|by apply IH].
Qed.

Lemma region_views reginfo m rs w calls st rs' w' : region_calls reginfo m rs w calls st rs' w' ->
  Forall (fun k => k_mode k = m /\ k_reginfo k = reginfo /\ Forall2 kept rs (k_views k)) calls.
Proof.
  intros [calls' ret rs1 w1 _ _ _ Hc%chain_views| |]; [|constructor..]. eapply Forall_impl; [exact Hc|]. intros k (? & ? & Hk).
  split_and!; [done..|]. change (map unprocess rs) with (unprocess <$> rs) in Hk. rewrite Forall2_fmap_l in Hk. exact Hk.
Qed.

Lemma swept_views t m slots s w p s' w' : swept t m slots s w p s' w' ->
  NoDup (concat (map c_requests slots)) ->
  Forall (fun k => k_mode k = m /\ Forall (fun v => exists i r, i ∈ concat (map c_requests slots) /\ s i = Some r /\ kept r v) (k_views k)) (p_calls p).
Proof.
  induction 1 as [|c slots s w node rs calls ret rs' w1 s1 p s' w' _ Hrs Hc _ Hsame _ IH]; intros Hnd; [constructor|].
  cbn [map concat p_calls] in *. apply NoDup_app in Hnd as (_ & Hd & Hnd). apply Forall_app. split.
  - apply region_views in Hc. eapply Forall_impl; [exact Hc|]. intros k (? & _ & Hk). split; [done|]. apply Forall_lookup. intros j v Hv.
    destruct (Forall2_lookup_r _ _ _ _ _ Hk Hv) as (r & Hr & Hkept). destruct (Forall2_lookup_r _ _ _ _ _ Hrs Hr) as (i & Hi & Hs).
    exists i, r. split_and!; [|done..]. apply elem_of_app. left. by eapply list_elem_of_lookup_2.
  - eapply Forall_impl; [by apply IH|]. intros k (? & Hk). split; [done|]. eapply Forall_impl; [exact Hk|]. intros v (i & r & Hi & Hs & ?).
    exists i, r. split_and!; [by apply elem_of_app; right| |done]. rewrite <- Hsame; [done|]. intros Hi1. by apply (Hd i).
Qed.

(** ** The errors of a pass *)

(** A list of statuses that is looked through. *)
Lemma fold_check m (rs : list request_info) : forall e,
  let e' := fold_left (check_status (looked_for m)) rs e in
  (e'.1 = e.1 \/ e'.1 ∈ map q_status rs /\ counts m e'.1) /\ (e.1 <> 0 -> e'.1 <> 0) /\
  (e = (0, 0) -> (e'.1 = 0 <-> Forall (fun st => ~ counts m st) (map q_status rs)) /\ (e'.1 = 0 -> e' = (0, 0))).
Proof.
  induction rs as [|q rs IH]; intros e; [cbn; split_and!; [by left|done|]; intros ->; split_and!; [split; [constructor|done]|done]|]. cbn [fold_left map].
  assert (Hq : check_status (looked_for m) e q = e /\ (e = (0, 0) -> ~ counts m (q_status q)) \/
    check_status (looked_for m) e q = (q_status q, q_index q) /\ counts m (q_status q)).
  { unfold check_status, looked_for, counts, SNMP_ERR_NOERROR, SNMP_MSG_INTERNAL_SET_COMMIT, SNMP_MSG_INTERNAL_SET_UNDO, SNMP_ERR_COMMITFAILED, SNMP_ERR_UNDOFAILED.
    destruct (Z.eqb_spec m 3); [|destruct (Z.eqb_spec m 5)]; cbn [Z.eqb negb andb orb]; destruct (Z.eqb_spec (q_status q) 0); cbn [negb andb orb];
      try (left; split; [done|]; lia).
    - destruct (Z.eqb_spec (q_status q) 14); [right|left]; (split; [done|]); lia.
    - destruct (Z.eqb_spec (q_status q) 15); [right|left]; (split; [done|]); lia.
    - case_match eqn:Ec; [right|left]; (split; [done|]); [lia|]. intros ->. by cbn in Ec. }
  destruct (IH (check_status (looked_for m) e q)) as (I1 & I2 & I3). destruct Hq as [[Eq Hn]|[Eq Hc]]; rewrite Eq in *; cbn [fst] in *.
  - split_and!; [|done|].
    + destruct I1 as [?|[? ?]]; [by left|]. right. split; [by right|done].
    + intros E. destruct (I3 E) as [I4 I5]. split; [|done]. rewrite I4, Forall_cons. split; [|tauto]. intros ?. split; [by apply Hn|done].
  - assert (Hne : q_status q <> 0) by apply Hc. split_and!.
    + destruct I1 as [E|[? ?]]; right; [rewrite E; split; [by left|done]|split; [by right|done]].
    + intros _. by apply I2.
    + intros _. split; [|intros E; by apply I2 in E]. split; [intros E; by apply I2 in E|]. rewrite Forall_cons. tauto.
Qed.

(** The slots, from the state that is left by those before. *)
Lemma slots_swept t slots : forall asp final w st asp' w', slots_ok t slots asp -> a_mode asp = SNMP_MSG_GET \/ phase_mode (a_mode asp) ->
  call_slots access t slots asp final w = Ret (st, asp', w') ->
  exists p, swept t (a_mode asp) slots (cell asp) w p (cell asp') w' /\
    (a_status asp' = a_status asp \/ blames (a_mode asp) p (a_status asp')) /\ (a_status asp <> 0 -> a_status asp' <> 0) /\
    (st = final \/ st = a_status asp /\ a_status asp <> 0 \/ blames (a_mode asp) p st) /\ (final <> 0 -> st = final) /\
    (errors asp = (0, 0) -> a_status asp' = 0 -> errors asp' = (0, 0)) /\
    (errors asp = (0, 0) -> final = 0 -> (a_status asp' = 0 /\ st = 0 <-> clean (a_mode asp) p)).
Proof.
  induction slots as [|c slots IH]; intros asp final w st asp' w' [Hreg Hnd Hown] Hm E; cbn [call_slots map concat] in *.
  { injection E as <- <- <-. eexists. split; [by apply Swept_all|]. split_and!; [by left|done|by left|done|done|]. intros [Es _]%pair_equal_spec ->.
    split; [split; constructor|done]. }
  apply NoDup_app in Hnd as (Hnd1 & Hd & Hnd2). apply own_app in Hown as [Ho1 Ho2].
  apply Forall_cons in Hreg as [[node Hnode] Hreg]. pose proof Hnode as Hnode'. unfold top in Hnode'. rewrite Hnode' in E.
  destruct (views_own _ _ Ho1) as (rs & Ev & Hrs). rewrite Ev, bind_ret in E.
  destruct (netsnmp_call_handlers access (t_reginfo node) (a_mode asp) rs w) as [[ret rs'] w1] eqn:Ec.
  pose proof (handlers_kept _ _ _ _ _ _ _ _ Ec) as Hkept.
  destruct (put_all_changed kept _ rs rs' asp Hnd1 Hrs Hkept Hkept) as (Hch & Herr & Hcells). set (asp1 := put_all _ _ _) in *.
  rewrite (slot_requests_own _ _ _ Hcells), bind_ret in E. unfold netsnmp_check_requests_status in E.
  assert (Emode : a_mode asp1 = a_mode asp) by apply (shell_fields _ _ (ch_shell _ _ _ _ Hch)). rewrite Emode in E.
  set (e := fold_left _ _ _) in E. destruct (fold_check (a_mode asp) (map fst rs') (a_status asp1, a_index asp1)) as (F1 & F2 & F3). fold e in F1, F2, F3.
  change (a_status (with_error e.1 e.2 asp1)) with e.1 in E.
  apply IH in E as (p & Hsw & I1 & I2 & I3 & I4 & I6 & I5).
  2: { constructor; [done|done|]. by apply (changed_own _ _ _ _ _ Ho2 Hch). }
  2: { change (a_mode (with_error e.1 e.2 asp1)) with (a_mode asp1). by rewrite Emode. }
  change (a_mode (with_error e.1 e.2 asp1)) with (a_mode asp1) in *. rewrite Emode in *.
  change (a_status (with_error e.1 e.2 asp1)) with e.1 in *. change (errors (with_error e.1 e.2 asp1)) with (e.1, e.2) in *.
  destruct (region_called _ _ _ _ _ _ _ Hm Ec) as [calls Hcalls]. rewrite map_map in F1, F3.
  pose proof Herr as [Es Ei]%pair_equal_spec. rewrite Es in F1, F2, F3. cbn [fst] in F1, F2, F3.
  eexists. split; [|clear Hsw].
  { eapply Swept_slot; [exact Hnode|eapply Forall2_impl; [exact Hrs|by intros ?? []]|exact Hcalls|exact Hcells|apply (ch_same _ _ _ _ Hch)|exact Hsw]. }
  set (q := {| p_codes := _ |}).
  assert (B1 : forall x, blames (a_mode asp) p x -> blames (a_mode asp) q x).
  { intros x [? [?|[? ?]]]; (split; [done|]); [left; by right|right; split; [|done]; apply elem_of_app; by right]. }
  assert (B2 : forall x, x ∈ map (fun r => q_status r.1) rs' -> counts (a_mode asp) x -> blames (a_mode asp) q x).
  { intros x Hx Hc. split; [apply Hc|right; split; [|done]]. apply elem_of_app. by left. }
  assert (B3 : e.1 = a_status asp \/ blames (a_mode asp) q e.1) by (destruct F1 as [?|[? ?]]; [by left|right; by apply B2]).
  assert (B4 : ret <> 0 -> blames (a_mode asp) q ret) by (intros ?; split; [done|]; left; left).
  change SNMP_ERR_NOERROR with 0 in *. split_and!.
  - destruct I1 as [->|?]; [done|right; by apply B1].
  - intros Hb. by apply I2, F2.
  - destruct (Z.eqb_spec final 0) as [->|Hf]; [|left; by apply I4]. destruct (Z.eqb_spec e.1 0) as [E0|E0]; cbn [negb] in *.
    + destruct I3 as [->|[[_ ?]|?]]; [|done|right; right; by apply B1]. destruct (decide (ret = 0)) as [->|?]; [by left|right; right; by apply B4].
    + rewrite (I4 E0). destruct B3 as [E1|?]; [|by right; right]. right. left. split; [done|]. by rewrite <- E1.
  - intros Hf. destruct (Z.eqb_spec final 0) as [?|_]; [done|]. by apply I4.
  - intros [E1 E2]%pair_equal_spec Ea. destruct F3 as [_ F4]; [by rewrite E1, Ei, E2|]. apply I6; [|done].
    destruct (decide (e.1 = 0)) as [Ez|Ez]; [by rewrite <- (F4 Ez), <- surjective_pairing|by destruct (I2 Ez)].
  - intros [E1 E2]%pair_equal_spec ->. destruct F3 as [F3 F4]; [by rewrite E1, Ei, E2|]. cbn [Z.eqb] in *.
    unfold clean. cbn [p_codes p_statuses q]. rewrite Forall_cons, Forall_app, <- F3.
    destruct (Z.eqb_spec e.1 0) as [Ez|Ez]; cbn [negb] in *; [|split; [intros [Ea _]; by destruct (I2 Ez)|tauto]].
    destruct (decide (ret = 0)) as [->|Hr]; [|rewrite (I4 Hr); tauto].
    rewrite I5; [unfold clean; tauto|by rewrite <- (F4 Ez), <- surjective_pairing|done].
Qed.

(** The state after the status of a pass is recorded. *)
Lemma recorded st asp : let asp' := record_status st asp in
  (a_status asp' = 0 <-> a_status asp = 0 /\ st = 0) /\ (a_status asp' = a_status asp \/ a_status asp' = st /\ st <> 0) /\ a_index asp' = a_index asp.
Proof.
  unfold record_status, SNMP_ERR_NOERROR, SNMP_ERR_COMMITFAILED, SNMP_ERR_UNDOFAILED.
  destruct (Z.eqb_spec st 0), (Z.eqb_spec (a_status asp) 0), (Z.eqb_spec st 14), (Z.eqb_spec st 15); cbn; split_and!; try lia; tauto.
Qed.
End sweep.

Section set.
Context {M V W : Type} `{Allocator}.
Abbreviation registration := (netsnmp_handler_registration M V).
Abbreviation registry := (agent_registry (M := M) (V := V)).
Abbreviation tree := (list (list (netsnmp_subtree M V))).
Context (access : M -> netsnmp_mib_handler M V -> registration -> Z -> list view -> W -> Z * list answer * bool * W).
Context (acm : netsnmp_pdu -> option (list Z) -> bool -> outcome Z).
Implicit Types (t : tree) (asp : agent_session) (w : W) (r : view) (rs : list view).

Abbreviation RESERVE1 := SNMP_MSG_INTERNAL_SET_RESERVE1.
Abbreviation RESERVE2 := SNMP_MSG_INTERNAL_SET_RESERVE2.
Abbreviation ACTION := SNMP_MSG_INTERNAL_SET_ACTION.
Abbreviation COMMIT := SNMP_MSG_INTERNAL_SET_COMMIT.
Abbreviation FREE := SNMP_MSG_INTERNAL_SET_FREE.
Abbreviation UNDO := SNMP_MSG_INTERNAL_SET_UNDO.

(** The specification: the phases are passes over all slots; a phase is
    followed by the next if it left no error, and by the undoing of what was
    done if it did.  The error reported is one of those passes. *)
Inductive two_phase t slots (s : nat -> option view) w (st : Z) (s' : nat -> option view) (w' : W) : Prop :=
  | Freed1 p1 s1 w1 p : swept access t RESERVE1 slots s w p1 s1 w1 -> ~ clean RESERVE1 p1 ->
      swept access t FREE slots s1 w1 p s' w' -> blames RESERVE1 p1 st \/ blames FREE p st -> two_phase t slots s w st s' w'
  | Freed2 p1 s1 w1 p2 s2 w2 p : swept access t RESERVE1 slots s w p1 s1 w1 -> clean RESERVE1 p1 ->
      swept access t RESERVE2 slots s1 w1 p2 s2 w2 -> ~ clean RESERVE2 p2 ->
      swept access t FREE slots s2 w2 p s' w' -> blames RESERVE2 p2 st \/ blames FREE p st -> two_phase t slots s w st s' w'
  | Undone p1 s1 w1 p2 s2 w2 p3 s3 w3 p : swept access t RESERVE1 slots s w p1 s1 w1 -> clean RESERVE1 p1 ->
      swept access t RESERVE2 slots s1 w1 p2 s2 w2 -> clean RESERVE2 p2 ->
      swept access t ACTION slots s2 w2 p3 s3 w3 -> ~ clean ACTION p3 ->
      swept access t UNDO slots s3 w3 p s' w' -> blames ACTION p3 st \/ blames UNDO p st -> two_phase t slots s w st s' w'
  | Committed p1 s1 w1 p2 s2 w2 p3 s3 w3 p : swept access t RESERVE1 slots s w p1 s1 w1 -> clean RESERVE1 p1 ->
      swept access t RESERVE2 slots s1 w1 p2 s2 w2 -> clean RESERVE2 p2 ->
      swept access t ACTION slots s2 w2 p3 s3 w3 -> clean ACTION p3 ->
      swept access t COMMIT slots s3 w3 p s' w' -> clean COMMIT p /\ st = 0 \/ ~ clean COMMIT p /\ blames COMMIT p st ->
      two_phase t slots s w st s' w'.

(** ** Handlers that answer at once *)

Definition answers_at_once : Prop := forall nh h reginfo mode rs w ret l once w',
  access nh h reginfo mode rs w = (ret, l, once, w') -> Forall (fun a => d_delegated a = 0) l.

Definition stays_undelegated r r' : Prop := delegated r.1 = 0 -> delegated r'.1 = 0.

Lemma handlers_at_once (reginfo : registration) mode rs w st rs' w' : answers_at_once ->
  netsnmp_call_handlers access reginfo mode rs w = (st, rs', w') -> Forall2 stays_undelegated rs rs'.
Proof.
  intros Hat. apply handlers_respect; unfold stays_undelegated; [done|by auto|done| |].
  - intros m e [q vb]. unfold _request_set_error. by repeat case_match.
  - intros nh h reg m rs0 w0 ret l once w1 E. apply Hat in E. clear -E. revert l E.
    induction rs0 as [|r rs0 IH]; intros l Hl; constructor.
    + destruct Hl; [done|]. cbn. done.
    + apply IH. by destruct Hl.
Qed.

Record ready t asp : Prop := {
  re_slots : slots_ok t (treecache asp) asp;
  re_reqinfo : is_Some (reqinfo asp);
  re_passes : one_pass_only asp = false;
  re_undelegated : forall i r, i ∈ in_slots asp -> cell asp i = Some r -> delegated r.1 = 0
}.

Lemma none_delegated asp : own asp (in_slots asp) -> (forall i r, i ∈ in_slots asp -> cell asp i = Some r -> delegated r.1 = 0) ->
  netsnmp_check_for_delegated asp = Ret false.
Proof.
  intros Ho Hu. unfold netsnmp_check_for_delegated. unfold in_slots in *. induction (treecache asp) as [|s slots IH]; [done|].
  cbn [slots_delegated]. cbn [map concat] in *. apply Forall_app in Ho as [Ho1 Ho2]. destruct (views_own _ _ Ho1) as (rs & _ & Hrs).
  rewrite (slot_requests_own asp _ rs), bind_ret by (eapply Forall2_impl; [exact Hrs|by intros ?? []]).
  destruct (existsb _ _) eqn:E; [|apply IH; [done|]; intros i r Hi; apply Hu, elem_of_app; by right].
  exfalso. apply existsb_exists in E as (q & Hq & Hd). apply in_map_iff in Hq as (r & <- & Hr). apply list_elem_of_In in Hr.
  apply list_elem_of_lookup in Hr as [j Hj]. destruct (Forall2_lookup_r _ _ _ _ _ Hrs Hj) as (i & Hi & Hc & _).
  rewrite (Hu i r) in Hd; [done| |done]. apply elem_of_app. left. by eapply list_elem_of_lookup_2.
Qed.

Lemma not_delegated t asp : ready t asp -> netsnmp_check_for_delegated asp = Ret false.
Proof. intros [[_ _ Ho] _ _ Hu]. by apply none_delegated. Qed.

(** ** One phase *)

(** What a phase leaves: the error it reports, if there was none before. *)
Record passed (m : Z) t asp w p asp' w' : Prop := {
  pa_swept : swept access t m (treecache asp) (cell asp) w p (cell asp') w';
  pa_slots : treecache asp' = treecache asp;
  pa_mode : a_mode asp' = m;
  pa_ready : ready t asp';
  pa_error : a_status asp' = a_status asp \/ blames m p (a_status asp');
  pa_stays : a_status asp <> 0 -> a_status asp' <> 0;
  pa_clean : errors asp = (0, 0) -> a_status asp' = 0 <-> clean m p;
  pa_index : errors asp = (0, 0) -> a_status asp' = 0 -> errors asp' = (0, 0)
}.

(** A turn of the loop that is a phase, and the last turn. *)
Lemma phase_turn fuel t m asp w : answers_at_once -> phase_mode m -> ready t asp -> finished asp = false -> next_phase asp = with_a_mode m asp ->
  exists p asp' w', set_loop access (S fuel) t asp w = set_loop access fuel t asp' w' /\ passed m t asp w p asp' w'.
Proof.
  intros Hat Hm [Hs Hq Hp Hu] Hf Hn.
  destruct (pass_spec access t stays_undelegated false (with_a_mode m asp) w) as (st & asp1 & w1 & E & Hch & _); [exact Hq|by destruct Hs; constructor| |].
  { intros s node rs w0 Hin Hnode Hrs. destruct (netsnmp_call_handlers _ _ _ _ _) as [[st rs'] w'] eqn:E.
    exists st, rs', w'. split_and!; [done| |done]. by eapply handlers_at_once. }
  pose proof E as Es. unfold handle_var_requests in Es. destruct (reqinfo (with_a_mode m asp)) as [mode|]; [|done].
  apply slots_swept in Es as (p & Hsw & I1 & I2 & I3 & _ & I5 & I4); [|by destruct Hs; constructor|by right].
  change (a_mode (with_reqinfo _ (with_a_mode m asp))) with m in *. change (a_status (with_reqinfo _ (with_a_mode m asp))) with (a_status asp) in *.
  change (errors (with_reqinfo _ (with_a_mode m asp))) with (errors asp) in *. change (treecache (with_a_mode m asp)) with (treecache asp) in *.
  pose proof (shell_fields _ _ (ch_shell _ _ _ _ Hch)) as (Et & _ & _ & Em & _ & _ & Er & _ & vs & Ep).
  destruct (recorded st asp1) as (R1 & R2 & R3). set (asp2 := record_status st asp1) in *.
  assert (Hsame : forall P : agent_session -> Prop, (forall e, P (with_error e (a_index asp1) asp1)) -> P asp1 -> P asp2).
  { intros P HP H0. unfold asp2, record_status. case_match; [by apply HP|done]. }
  assert (Hready : ready t asp2).
  { apply Hsame; [intros e|]; constructor.
    1, 5: change (treecache (with_error _ _ asp1)) with (treecache asp1); rewrite ?Et; destruct Hs as [H1 H2 H3]; constructor;
      [done..|by apply (changed_own _ _ _ (with_reqinfo (Some m) (with_a_mode m asp)) _ H3 Hch)].
    1, 4: change (reqinfo (with_error _ _ asp1)) with (reqinfo asp1); rewrite Er; by eexists.
    1, 3: unfold one_pass_only; change (a_pdu (with_error _ _ asp1)) with (a_pdu asp1); by rewrite Ep.
    all: unfold in_slots; change (treecache (with_error _ _ asp1)) with (treecache asp1); rewrite Et; intros i r' Hi Hc';
      destruct (ch_changed _ _ _ _ Hch i Hi) as (r & r1 & Hc & Hc1 & HR & _); change (cell asp1 i = Some r') in Hc';
      rewrite Hc' in Hc1; injection Hc1 as <-; apply HR; by apply (Hu i). }
  exists p, asp2, w1. split.
  { cbn [set_loop]. rewrite Hf. unfold handle_set. rewrite Hp, Hn.
    assert (Hfm : finished (with_a_mode m asp) = false) by (by destruct Hm as [->|[->|[->|[->|[->| ->]]]]]).
    rewrite Hfm, E, !bind_ret. fold asp2. by rewrite (not_delegated _ _ Hready), bind_ret, (re_passes _ _ Hready). }
  constructor; [by apply Hsame|by apply Hsame|by apply Hsame|done|..].
  - destruct R2 as [->|[-> Hst]]; [exact I1|]. destruct I3 as [->|[[-> _]|?]]; [done|by left|by right].
  - intros Hb Hz. apply R1 in Hz as [Hz _]. by apply I2 in Hb.
  - intros E0. rewrite R1. by apply I4.
  - intros E0 Hz. unfold errors. rewrite Hz, R3. apply R1 in Hz as [Hz _]. pose proof (I5 E0 Hz) as [_ Ei]%pair_equal_spec. by rewrite Ei.
Qed.

Lemma last_turn fuel t m asp w : ready t asp -> finished asp = false -> next_phase asp = with_a_mode m asp -> finished (with_a_mode m asp) = true ->
  set_loop access (S fuel) t asp w = Ret (a_status asp, with_a_mode m asp, w).
Proof.
  intros Hr Hf Hn Hm. cbn [set_loop]. rewrite Hf. unfold handle_set. rewrite (re_passes _ _ Hr), Hn, Hm, bind_ret.
  assert (Hr' : ready t (with_a_mode m asp)) by (destruct Hr as [[] ? ? ?]; by repeat constructor).
  rewrite (not_delegated _ _ Hr'), bind_ret, (re_passes _ _ Hr'). destruct fuel; cbn [set_loop]; by rewrite Hm.
Qed.

(** ** All phases *)

(** The loop returns, and has gone through the phases as specified. *)
Definition ends t asp0 w0 (res : outcome (Z * agent_session * W)) : Prop :=
  exists asp' w', res = Ret (a_status asp', asp', w') /\ two_phase t (treecache asp0) (cell asp0) w0 (a_status asp') (cell asp') w'.

(** A phase that follows one without error. *)
Lemma next_turn fuel t m asp w : answers_at_once -> ready t asp -> errors asp = (0, 0) -> phase_mode m -> finished asp = false ->
  next_phase asp = with_a_mode m asp ->
  exists p asp' w', set_loop access (S fuel) t asp w = set_loop access fuel t asp' w' /\ treecache asp' = treecache asp /\ a_mode asp' = m /\ ready t asp' /\
    swept access t m (treecache asp) (cell asp) w p (cell asp') w' /\
    (clean m p /\ errors asp' = (0, 0) \/ ~ clean m p /\ a_status asp' <> 0 /\ blames m p (a_status asp')).
Proof.
  intros Hat Hr E0 Hm Hf Hn. destruct (phase_turn fuel t m asp w Hat Hm Hr Hf Hn) as (p & asp' & w' & E & [Hsw Hs Hmode Hr' He _ Hc Hi]).
  exists p, asp', w'. split_and!; [done..|]. destruct (decide (a_status asp' = 0)) as [Ez|Ez]; [left; split; [by apply Hc|by apply Hi]|].
  right. rewrite <- Hc by done. split_and!; [done..|]. destruct He as [Ea|?]; [|done]. injection E0 as Es _. congruence.
Qed.

(** After an error: the undoing, and the end. *)
Lemma undo_turns fuel t m m' asp w : answers_at_once -> ready t asp -> a_status asp <> 0 -> a_mode asp = m ->
  (m = RESERVE1 \/ m = RESERVE2) /\ m' = FREE \/ m = ACTION /\ m' = UNDO ->
  exists p asp' w', set_loop access (S (S fuel)) t asp w = Ret (a_status asp', asp', w') /\ swept access t m' (treecache asp) (cell asp) w p (cell asp') w' /\
    (a_status asp' = a_status asp \/ blames m' p (a_status asp')).
Proof.
  intros Hat Hr Hb Hmode Hm. pose proof Hb as Hb'. apply Z.eqb_neq in Hb'.
  assert (Hm' : m' = FREE \/ m' = UNDO) by tauto.
  destruct (phase_turn (S fuel) t m' asp w Hat) as (p & asp1 & w1 & -> & [Hsw Hs Hmode1 Hr1 He Hst _ _]); [unfold phase_mode; tauto|done|..].
  { unfold finished. rewrite Hmode. by destruct Hm as [[[->| ->] _]|[-> _]]. }
  { unfold next_phase, SNMP_ERR_NOERROR. rewrite Hmode, Hb'. by destruct Hm as [[[->| ->] ->]|[-> ->]]. }
  exists p, (with_a_mode FINISHED_FAILURE asp1), w1. split_and!; [|done..]. apply (last_turn fuel t FINISHED_FAILURE asp1 w1); [done|..|done].
  - unfold finished. rewrite Hmode1. by destruct Hm' as [->| ->].
  - unfold next_phase. rewrite Hmode1. by destruct Hm' as [->| ->].
Qed.

Ltac next_mode Hmode Hst := unfold next_phase, finished, SNMP_ERR_NOERROR; rewrite Hmode, ?Hst; reflexivity.

Lemma loop_two_phase t asp w : answers_at_once -> ready t asp -> errors asp = (0, 0) -> a_mode asp = SNMP_MSG_INTERNAL_SET_BEGIN ->
  ends t asp w (handle_set_loop access t asp w).
Proof.
  intros Hat Hr E0 Hmode. pose proof E0 as [S0 _]%pair_equal_spec. unfold handle_set_loop, ends.
  destruct (next_turn 5 t RESERVE1 asp w Hat Hr E0) as (p1 & asp1 & w1 & -> & T1 & M1 & R1 & W1 & [[C1 E1]|(C1 & S1 & B1)]); [by left|next_mode Hmode S0| |..].
  { unfold next_phase. rewrite Hmode. unfold with_status, with_a_mode, with_error. cbn. by rewrite S0. }
  2: { destruct (undo_turns 3 t RESERVE1 FREE asp1 w1) as (p & asp' & w' & -> & Wp & Bp); [tauto..|]. rewrite T1 in Wp. exists asp', w'. split; [done|].
       eapply Freed1; [done..|]. destruct Bp as [->|?]; tauto. }
  pose proof E1 as [S1 _]%pair_equal_spec.
  destruct (next_turn 4 t RESERVE2 asp1 w1 Hat R1 E1) as (p2 & asp2 & w2 & -> & T2 & M2 & R2 & W2 & [[C2 E2]|(C2 & S2 & B2)]);
    [by right; left|next_mode M1 S1|next_mode M1 S1|..].
  2: { destruct (undo_turns 2 t RESERVE2 FREE asp2 w2) as (p & asp' & w' & -> & Wp & Bp); [tauto..|]. rewrite T2, T1 in Wp. rewrite T1 in W2. exists asp', w'. split; [done|].
       eapply Freed2; [done..|]. destruct Bp as [->|?]; tauto. }
  pose proof E2 as [S2 _]%pair_equal_spec.
  destruct (next_turn 3 t ACTION asp2 w2 Hat R2 E2) as (p3 & asp3 & w3 & -> & T3 & M3 & R3 & W3 & [[C3 E3]|(C3 & S3 & B3)]);
    [by right; right; left|next_mode M2 S2|next_mode M2 S2|..].
  2: { destruct (undo_turns 1 t ACTION UNDO asp3 w3) as (p & asp' & w' & -> & Wp & Bp); [tauto..|]. rewrite T3, T2, T1 in Wp. rewrite T2, T1 in W3. rewrite T1 in W2. exists asp', w'. split; [done|].
       eapply Undone; [done..|]. destruct Bp as [->|?]; tauto. }
  pose proof E3 as [S3 _]%pair_equal_spec.
  destruct (next_turn 2 t COMMIT asp3 w3 Hat R3 E3) as (p4 & asp4 & w4 & -> & T4 & M4 & R4 & W4 & H4);
    [by right; right; right; left|next_mode M3 S3|next_mode M3 S3|].
  rewrite (last_turn 1 t (if a_status asp4 =? 0 then FINISHED_SUCCESS else FINISHED_FAILURE) asp4); [|done|next_mode M4 S3| |by case_match].
  2: { unfold next_phase, SNMP_ERR_NOERROR. rewrite M4. by destruct (a_status asp4 =? 0). }
  rewrite T3, T2, T1 in W4. rewrite T2, T1 in W3. rewrite T1 in W2.
  exists (with_a_mode (if a_status asp4 =? 0 then FINISHED_SUCCESS else FINISHED_FAILURE) asp4), w4. split; [done|]. eapply Committed; [done..|].
  destruct H4 as [[? E4]|(? & ? & ?)]; [left|by right]. split; [done|]. by pose proof E4 as [? _]%pair_equal_spec.
Qed.

(** ** A SET from the message on *)

(** Each variable has a request of its own, in the slot of its region or of one
    that shares its slot, and in no other. *)
Definition requested t asp asp0 : Prop := NoDup (in_slots asp0) /\ Forall (fun c => c_requests c <> []) (treecache asp0) /\
  forall j vb, a_variables asp !! j = Some vb ->
    exists k node c, at_region t (name vb) k /\ top t k = Some node /\ cell asp0 j = Some (made asp j k node (no_request, vb)) /\
      c ∈ treecache asp0 /\ j ∈ c_requests c /\ one_slot t k (c_subtree c).

Lemma slot_of_request t asp i r k : cache_ok t asp -> i ∈ in_slots asp -> cell asp i = Some r -> q_subtree r.1 = Some k ->
  exists c, c ∈ treecache asp /\ i ∈ c_requests c /\ one_slot t k (c_subtree c).
Proof.
  intros Hc Hi Hr Hk. apply list_elem_of_In, in_concat in Hi as (l & Hl & Hi). apply in_map_iff in Hl as (c & <- & Hin).
  apply list_elem_of_In in Hin. apply list_elem_of_In in Hi. exists c. split_and!; [done..|]. pose proof (ca_slots _ _ Hc) as Hs.
  rewrite Forall_forall in Hs. destruct (Hs c Hin) as (_ & _ & Hreq). rewrite Forall_forall in Hreq.
  destruct (Hreq i Hi) as (q & vb & k' & Hcell & _ & Hk' & _ & Hone). rewrite Hr in Hcell. injection Hcell as ->. cbn in Hk. congruence.
Qed.

Lemma check_acm_seen decides ty l : (forall p o b, acm p o b = Ret (decides (header p) o b)) -> forall asp, own asp l ->
  (forall i r, i ∈ l -> cell asp i = Some r -> type r.2 = ASN_NULL \/ sees decides (a_pdu asp) (name r.2) (type r.2) = VACM_SUCCESS) ->
  check_acm_loop acm l ty asp = Ret (0, asp).
Proof.
  intros Hacm asp Ho. induction Ho as [|i l ([q vb] & Hc & Hp) _ IH]; intros Hs; [done|]. cbn [check_acm_loop].
  pose proof Hc as [Hq Hv]%cell_some. unfold own_place in Hp. cbn in Hp. rewrite Hq. cbn. rewrite Hp. cbn. rewrite Hv. cbn.
  assert (IH' : check_acm_loop acm l ty asp = Ret (0, asp)) by (apply IH; intros j r Hj; apply Hs; by right).
  destruct (Hs i (q, vb)) as [E|E]; [by left|done| |]; cbn in E.
  - rewrite E. cbn. exact IH'.
  - case_match; [exact IH'|]. rewrite (in_a_view_sees acm decides Hacm), bind_ret, E. exact IH'.
Qed.

Lemma unplaced_requested t decides asp asp' : a_command asp = SNMP_MSG_SET ->
  all_placed (length (a_variables asp)) decides t 0 (unplaced (a_variables asp) asp) asp' -> cache_ok t asp' ->
  requested t asp asp' /\ (forall vb, vb ∈ a_variables asp -> sees decides (a_pdu asp) (name vb) (type vb) = VACM_SUCCESS).
Proof.
  intros Hcmd Hall Hc. set (asp0 := unplaced (a_variables asp) asp) in *.
  assert (Hone : forall j vb, a_variables asp !! j = Some vb -> sees decides (a_pdu asp) (name vb) (type vb) = VACM_SUCCESS /\
    exists k node c, at_region t (name vb) k /\ top t k = Some node /\ cell asp' j = Some (made asp j k node (no_request, vb)) /\
      c ∈ treecache asp' /\ j ∈ c_requests c /\ one_slot t k (c_subtree c)).
  { intros j vb Hvb. destruct (Hall j) as (r & r' & b & Hc0 & Hc' & Hp & Hin); [apply lookup_lt_Some in Hvb; lia|].
    assert (r = (no_request, vb)) as ->.
    { apply unplaced_cell in Hc0 as [E1 E2]. destruct r as [q v]. cbn in *. rewrite Hvb in E2. by simplify_eq. }
    unfold placed in Hp. assert (Ea : a_command asp0 = SNMP_MSG_SET) by exact Hcmd. unfold asks, is_search in Hp. rewrite Ea in Hp. cbn in Hp.
    rewrite (sees_header decides (a_pdu asp0) (a_pdu asp) _ _ eq_refl) in Hp.
    destruct (Z.eqb_spec (sees decides (a_pdu asp) (name vb) (type vb)) VACM_SUCCESS) as [Es|Es]; cbn in Hp; [|by destruct Hp as (_ & E & _)].
    split; [done|]. destruct Hp as (k & Hk & -> & node & Hnode & ->). destruct (slot_of_request t asp' j _ k Hc (proj2 Hin eq_refl) Hc' eq_refl) as (c & ? & ? & ?).
    by exists k, node, c. }
  split; [split_and!; [by apply Hc| |intros j vb Hvb; by apply Hone]|].
  { eapply Forall_impl; [apply Hc|]. by intros c (_ & ? & _). }
  intros vb [j Hj]%list_elem_of_lookup. by eapply Hone.
Qed.

Lemma requested_ready t asp asp' asp0 : a_command asp = SNMP_MSG_SET -> requested t asp asp' -> one_pass_only asp = false -> is_Some (reqinfo asp) ->
  outer asp' = outer asp0 -> header (a_pdu asp0) = header (a_pdu asp) -> reqinfo asp0 = reqinfo asp ->
  length (a_variables asp') = length (a_variables asp) -> cache_ok t asp' -> ready t asp'.
Proof.
  intros Hcmd Hreq Hp Hq (Eh & _ & _ & Er & _)%outer_fields Eh0 Er0 Hl Hc. pose proof (in_slots_below _ _ Hc) as Hb. rewrite Forall_forall in Hb.
  assert (Hcell : forall j r, j ∈ in_slots asp' -> cell asp' j = Some r -> delegated r.1 = 0).
  { intros j r Hj Hr. specialize (Hb j Hj). rewrite Hl in Hb. apply lookup_lt_is_Some in Hb as [vb Hvb].
    destruct Hreq as (_ & _ & Hreq). destruct (Hreq j vb Hvb) as (k & node & c & _ & _ & Hc' & _). rewrite Hr in Hc'. by injection Hc' as ->. }
  constructor; [by apply cache_slots_ok|by rewrite Er, Er0| |exact Hcell].
  unfold one_pass_only in *. assert (Ef : flags (m_body (a_pdu asp')) = flags (m_body (a_pdu asp)));
      [exact (f_equal (fun p => flags (m_body p)) (eq_trans Eh Eh0))|by rewrite Ef].
Qed.
End set.

(** C10: A SET is a two-phase commit over all the regions its variables fall
    into, for handlers that answer at once and do anything else.  If a variable is not in
    view no handler is called and the error points to it.  Otherwise each
    variable has a request in the slot of the region that covers its name.  A
    phase calls, for every slot in turn, the handlers of its registration with the
    requests as they are then.  RESERVE1, RESERVE2, ACTION and COMMIT follow
    each other when every registration returned 0 and no request has an error
    status; otherwise FREE, or UNDO after ACTION, is the last phase, and the error
    reported is one that a handler returned or left in a request in these two
    passes.  No error is reported exactly when COMMIT was a pass without any
    (there only [commitFailed] counts as a status). *)
Theorem set_two_phase {M V W} `{Allocator}
    (access : M -> netsnmp_mib_handler M V -> netsnmp_handler_registration M V -> Z -> list view -> W -> Z * list answer * bool * W)
    acm decides K fuel asp (g : agent_registry (M := M) (V := V)) (w : W) :
  good_message acm decides K asp g -> answers_at_once access -> a_command asp = SNMP_MSG_SET -> one_pass_only asp = false ->
  exists st asp' g' w', handle_pdu access acm fuel asp g w = Ret (Some (st, asp', g', w')) /\
    ((exists j vb, a_variables asp !! j = Some vb /\ sees decides (a_pdu asp) (name vb) (type vb) <> VACM_SUCCESS /\
        st = SNMP_ERR_NOACCESS /\ errors asp' = (0, Z.of_nat j + 1) /\ w' = w) \/
     (forall vb, vb ∈ a_variables asp -> sees decides (a_pdu asp) (name vb) (type vb) = VACM_SUCCESS) /\
     exists asp0, requested (tree_of asp g) asp asp0 /\
       two_phase access (tree_of asp g) (treecache asp0) (cell asp0) w st (cell asp') w').
Proof.
  intros Hm Hat Hcmd Hp. unfold handle_pdu.
  destruct (message_prepared acm decides K asp g Hm) as (k & st & asp1 & g1 & -> & Hcol & _); [tauto|]. rewrite bind_ret.
  assert (Ea : asked asp = a_variables asp) by (unfold asked; by rewrite Hcmd). rewrite Ea in Hcol.
  destruct Hcol as (st' & asp1' & g1' & [= <- <- <-] & Ht & _ & Ho & Hl & Hc & Hres). set (t := tree_of asp g) in *.
  assert (E0 : errors (unplaced (a_variables asp) asp) = (0, 0)) by apply (fr_errors _ (gm_fresh _ _ _ _ _ Hm)).
  destruct Hres as [(-> & He & Hall & _)|[-> (_ & j & r & Hj & Hr & Hs & He)]].
  2: { eexists _, _, _, _. split; [reflexivity|]. left. apply unplaced_cell in Hr as [_ Hr]. exists j, r.2.
       rewrite (sees_header decides _ (a_pdu asp)) in Hs by done. split_and!; try done. rewrite He. f_equal. by injection E0. }
  destruct (unplaced_requested t decides asp asp1 Hcmd Hall Hc) as [Hreq Hsees]. rewrite E0 in He.
  pose proof (requested_ready t asp asp1 _ Hcmd Hreq Hp (fr_reqinfo _ (gm_fresh _ _ _ _ _ Hm)) Ho eq_refl eq_refl Hl Hc) as Hready.
  pose proof (outer_fields _ _ Ho) as (Eh & Ec & Ectx & _). change (negb (SNMP_ERR_NOERROR =? SNMP_ERR_NOERROR)) with false.
  change (m_contextName (a_pdu (unplaced (a_variables asp) asp))) with (m_contextName (a_pdu asp)) in *. cbv iota. rewrite Ectx, Ht.
  assert (Ec1 : a_command asp1 = SNMP_MSG_SET) by (rewrite Ec; exact Hcmd).
  unfold perform_pdu. rewrite Ec1. change (SNMP_MSG_SET =? SNMP_MSG_GET) with false. change (SNMP_MSG_SET =? SNMP_MSG_GETNEXT) with false.
  change (SNMP_MSG_SET =? SNMP_MSG_SET) with true. cbv iota. unfold check_acm.
  rewrite (check_acm_seen acm decides _ _ (gm_acm _ _ _ _ _ Hm)); [|by apply (cache_slots_ok _ _ Hc)|].
  2: { intros i r Hi Hr. right. change (cell asp1 i = Some r) in Hr. change (a_pdu (with_a_mode _ asp1)) with (a_pdu asp1).
       pose proof (in_slots_below _ _ Hc) as Hb. rewrite Forall_forall in Hb. specialize (Hb i Hi). rewrite Hl in Hb.
       apply lookup_lt_is_Some in Hb as [vb Hvb]. change (a_variables asp !! i = Some vb) in Hvb.
       destruct Hreq as (_ & _ & Hreq). destruct (Hreq i vb Hvb) as (k0 & node & c & _ & _ & Hc' & _). rewrite Hr in Hc'. injection Hc' as ->. unfold made. rewrite Hcmd. cbn.
       rewrite (sees_header decides _ (a_pdu asp)) by (rewrite Eh; done). apply Hsees. by eapply list_elem_of_lookup_2. }
  rewrite bind_ret. change (negb (0 =? 0)) with false. cbv iota. change (with_a_mode SNMP_MSG_INTERNAL_SET_BEGIN (with_a_mode SNMP_MSG_SET asp1))
    with (with_a_mode SNMP_MSG_INTERNAL_SET_BEGIN asp1).
  destruct (loop_two_phase access t (with_a_mode SNMP_MSG_INTERNAL_SET_BEGIN asp1) w Hat) as (asp' & w' & -> & Htwo);
    [destruct Hready as [[] ? ? ?]; by repeat constructor|exact He|done|].
  rewrite bind_ret. eexists _, _, _, _. split; [reflexivity|]. right. split; [done|].
  by exists (with_a_mode SNMP_MSG_INTERNAL_SET_BEGIN asp1).
Qed.

(** ** What is sent *)

(** The answer to the message [p], that is not a SET, when its variables have
    become [vars]: they are sent, but for what SNMPv1 does not have. *)
Inductive answers (p : netsnmp_pdu) (vars : list variable_list) (resp : netsnmp_pdu) : Prop :=
  | Values : (m_version p = SNMP_VERSION_1 -> Forall (fun vb => not_in_v1 vb = false) vars) ->
      m_body resp = with_errindex 0 (with_errstat 0 (with_command SNMP_MSG_RESPONSE (with_variables vars (m_body p)))) -> answers p vars resp
  | No_such_name i vb : m_version p = SNMP_VERSION_1 -> vars !! i = Some vb -> not_in_v1 vb = true ->
      m_body resp = with_errindex (Z.of_nat i + 1) (with_errstat SNMP_ERR_NOSUCHNAME (with_command SNMP_MSG_RESPONSE (m_body p))) ->
      answers p vars resp.

Lemma last_exception_spec vars : forall i,
  match last_exception vars i with
  | None => Forall (fun vb => not_in_v1 vb = false) vars
  | Some k => exists j vb, vars !! j = Some vb /\ not_in_v1 vb = true /\ k = i + Z.of_nat j
  end.
Proof.
  induction vars as [|vb vars IH]; intros i; cbn [last_exception]; [constructor|]. specialize (IH (i + 1)).
  destruct (last_exception vars (i + 1)) as [k|].
  - destruct IH as (j & vb' & ? & ? & ->). exists (S j), vb'. split_and!; [done..|lia].
  - destruct (not_in_v1 vb) eqn:E; [|by constructor]. exists O, vb. split_and!; [done..|lia].
Qed.

Lemma sent `{Allocator} asp0 asp p : (if a_command asp0 =? SNMP_MSG_GETNEXT then _fix_endofmibview asp0 else Ret asp0) = Ret asp ->
  errors asp = (0, 0) -> a_command asp <> SNMP_MSG_SET -> orig_pdu asp = Some p -> header (a_pdu asp) = header p ->
  exists resp, netsnmp_wrap_up_request asp0 0 = Ret (Some resp) /\ answers p (a_variables asp) resp.
Proof.
  intros Hfix He Hs Hp Hh. unfold netsnmp_wrap_up_request. cbn [negb Z.eqb andb]. apply Z.eqb_neq in Hs. rewrite Hfix, bind_ret. clear Hfix.
  assert (Ev : m_version (a_pdu asp) = m_version p) by exact (f_equal m_version Hh). unfold v1_answer. rewrite Hs, Ev.
  assert (Hbody : m_body (a_pdu asp) = with_variables (a_variables asp) (m_body p)).
  { pose proof (f_equal m_body Hh) as E. unfold header in E. cbn in E. unfold a_variables. destruct (m_body (a_pdu asp)), (m_body p).
    unfold with_variables in *. cbn in *. injection E. intros. by subst. }
  assert (Hvals : m_body (as_response asp (a_pdu asp))
    = with_errindex 0 (with_errstat 0 (with_command SNMP_MSG_RESPONSE (with_variables (a_variables asp) (m_body p))))).
  { unfold as_response. injection He as -> ->. rewrite Hbody. done. }
  destruct (Z.eqb_spec (m_version p) SNMP_VERSION_1) as [E1|E1]; cbn [negb].
  - pose proof (last_exception_spec (a_variables asp) 1) as Hl. destruct (last_exception _ _) as [k|].
    + destruct Hl as (j & vb & Hj & Hvb & ->). cbn [SNMP_ERR_NOSUCHNAME SNMP_ERR_NOERROR Z.eqb]. change (orig_pdu (with_error _ _ asp)) with (orig_pdu asp).
      rewrite Hp. eexists. split; [done|]. eapply No_such_name; [done|done|done|]. by replace (Z.of_nat j + 1) with (1 + Z.of_nat j) by lia.
    + cbn [SNMP_ERR_NOERROR Z.eqb]. eexists. split; [done|]. by apply Values.
  - cbn [SNMP_ERR_NOERROR Z.eqb]. eexists. split; [done|]. by apply Values.
Qed.

(** ** Handlers that serve tables *)

Section tables.
Context {M V W : Type} `{Allocator}.
Abbreviation registration := (netsnmp_handler_registration M V).
Abbreviation tree := (list (list (netsnmp_subtree M V))).
Context (access : M -> netsnmp_mib_handler M V -> registration -> Z -> list view -> W -> Z * list answer * bool * W).
(** The instances behind a registration. *)
Context (table : registration -> list variable_list).
Implicit Types (t : tree) (asp : agent_session) (w : W) (r : view) (rs : list view).

Definition table_at t (k : nat) : list variable_list := match top t k with Some node => table (t_reginfo node) | None => [] end.

(** Registrations that share a slot serve the same instances. *)
Definition shared_tables t : Prop := forall k k' node node', top t k = Some node -> top t k' = Some node' ->
  t_global_cacheid node <> 0 -> t_global_cacheid node' = t_global_cacheid node -> table (t_reginfo node') = table (t_reginfo node).

Lemma one_slot_table t k c : shared_tables t -> one_slot t k c -> table_at t k = table_at t c.
Proof.
  intros Hs [->|(node & node' & E & E' & Hg & Hg')]; [done|]. unfold table_at. rewrite E, E'. symmetry. by eapply Hs.
Qed.

Definition find_name (T : list variable_list) (o : list Z) : option variable_list := snd <$> list_find (fun v => name v = o) T.

Definition no_instance (vb vb' : variable_list) : Prop :=
  name vb' = name vb /\ (type vb' = ASN_NULL \/ type vb' = SNMP_NOSUCHINSTANCE \/ type vb' = SNMP_NOSUCHOBJECT).

(** The answer to a request of a GET. *)
Definition got (T : list variable_list) r r' : Prop :=
  delegated r'.1 = 0 /\ q_status r'.1 = 0 /\
  match find_name T (name r.2) with Some v => r'.2 = v | None => no_instance r.2 r'.2 end.

Definition new_view r : Prop := delegated r.1 = 0 /\ q_status r.1 = 0 /\ type r.2 = ASN_NULL.

Definition serves_get t : Prop := forall k node rs w, top t k = Some node -> rs <> [] -> Forall new_view rs ->
  exists rs' w', netsnmp_call_handlers access (t_reginfo node) SNMP_MSG_GET rs w = (0, rs', w') /\ Forall2 (got (table (t_reginfo node))) rs rs'.

(** All slots, where the tables are those of the requests' own regions. *)
Definition by_table t (R : list variable_list -> view -> view -> Prop) r r' : Prop :=
  exists k, q_subtree r.1 = Some k /\ R (table_at t k) r r'.

Lemma slots_serve t mode (R : list variable_list -> view -> view -> Prop) asp : shared_tables t -> cache_ok t asp -> a_mode asp = mode ->
  (forall i r, i ∈ in_slots asp -> cell asp i = Some r -> new_view r) ->
  (forall T r r', R T r r' -> q_status r'.1 = 0) ->
  (forall k node rs w, top t k = Some node -> rs <> [] -> Forall new_view rs ->
    exists rs' w', netsnmp_call_handlers access (t_reginfo node) mode rs w = (0, rs', w') /\ Forall2 (R (table (t_reginfo node))) rs rs') ->
  slots_answer access t (by_table t R) true asp (treecache asp).
Proof.
  intros Hsh Hc Hmode Hnew HR Hserve s node rs w Hs Hnode Hrs. rewrite Hmode. pose proof (ca_slots _ _ Hc) as Hslots.
  rewrite Forall_forall in Hslots. destruct (Hslots s Hs) as (_ & Hne & Hin). rewrite Forall_forall in Hin.
  assert (Hmem : forall i, i ∈ c_requests s -> i ∈ in_slots asp).
  { intros i Hi. apply list_elem_of_In, in_concat. exists (c_requests s). split; [apply in_map|]; by apply list_elem_of_In. }
  destruct (Hserve (c_subtree s) node rs w Hnode) as (rs' & w' & E & Hgot).
  - intros ->. by inversion Hrs as [E|]; rewrite <- E in Hne.
  - apply Forall_lookup. intros j r Hj. destruct (Forall2_lookup_r _ _ _ _ _ Hrs Hj) as (i & Hi & Hc'). apply (Hnew i r); [|done].
    apply Hmem. by eapply list_elem_of_lookup_2.
  - exists 0, rs', w'. split_and!; [done| |intros _; split; [done|]].
    + assert (Hown : Forall (fun r => exists k, q_subtree r.1 = Some k /\ table_at t k = table (t_reginfo node)) rs).
      { apply Forall_lookup. intros j r Hj. destruct (Forall2_lookup_r _ _ _ _ _ Hrs Hj) as (i & Hi & Hci).
        destruct (Hin i) as (q & vb & k & Hci' & _ & Hk & _ & Hone); [by eapply list_elem_of_lookup_2|]. rewrite Hci in Hci'.
        injection Hci' as ->. exists k. split; [done|]. rewrite (one_slot_table t k (c_subtree s)) by done. unfold table_at. by rewrite Hnode. }
      clear -Hgot Hown. revert Hown. induction Hgot as [|r r' rs rs' Hr _ IH]; intros Hown; constructor; apply Forall_cons in Hown as [(k & Hk & Ek) Hown].
      * exists k. by rewrite Ek.
      * by apply IH.
    + clear -Hgot HR. induction Hgot; constructor; eauto.
Qed.

(** ** A GET from the message on *)

(** What a variable of a GET becomes. *)
Definition get_answer t decides (p : netsnmp_pdu) (vb vb' : variable_list) : Prop :=
  if sees decides p (name vb) ASN_NULL =? VACM_SUCCESS then
    exists k, at_region t (name vb) k /\
      match find_name (table_at t k) (name vb) with
      | Some v => vb' = v
      | None => name vb' = name vb /\ (type vb' = SNMP_NOSUCHINSTANCE \/ type vb' = SNMP_NOSUCHOBJECT)
      end
  else vb' = with_val (Some [0]) 0 (with_type SNMP_NOSUCHOBJECT vb).

Definition holds_values : Prop := forall reginfo, Forall (fun v => type v <> ASN_NULL) (table reginfo).

Lemma find_name_in T o v : find_name T o = Some v -> v ∈ T /\ name v = o.
Proof.
  unfold find_name. destruct (list_find _ _) as [[i v']|] eqn:E; [|done]. intros [= <-]. apply list_find_Some in E as (Hv & <- & _).
  split; [by eapply list_elem_of_lookup_2|done].
Qed.

Lemma sees_null decides p o vb : sees decides p o (type (forget vb)) = sees decides p o ASN_NULL.
Proof.
  unfold forget. destruct (Z.eqb_spec (type vb) ASN_PRIV_INCL_RANGE) as [E|E]; [|done]. rewrite E. unfold sees.
  by destruct (m_version p =? SNMP_VERSION_1).
Qed.

Definition replaced vb : variable_list := if type vb =? ASN_NULL then with_val (Some [0]) 0 (with_type SNMP_NOSUCHINSTANCE vb) else vb.

Lemma get_cell t decides asp asp1 asp2 j vb r r2 b : holds_values -> a_command asp = SNMP_MSG_GET -> r = (no_request, forget vb) ->
  header (a_pdu asp1) = header (a_pdu asp) -> a_command asp1 = SNMP_MSG_GET ->
  placed decides t asp1 j r r2 b ->
  (b = true -> exists r3, by_table t got r2 r3 /\ cell asp2 j = Some r3) -> (b = false -> cell asp2 j = Some r2) ->
  exists q vb', cell asp2 j = Some (q, vb') /\ get_answer t decides (a_pdu asp) vb (replaced vb').
Proof.
  intros Hval Hcmd -> Hh Hcmd1 Hp Ht Hf. unfold placed, asks, is_search in Hp. rewrite Hcmd1 in Hp. cbn in Hp.
  rewrite (sees_header decides _ _ _ _ Hh), sees_null in Hp.
  assert (En : name (forget vb) = name vb) by (unfold forget; by destruct (type vb =? ASN_PRIV_INCL_RANGE)). rewrite En in Hp. unfold get_answer.
  destruct (sees decides (a_pdu asp) (name vb) ASN_NULL =? VACM_SUCCESS); cbn in Hp.
  - destruct Hp as (k & Hk & -> & node & Hnode & ->). destruct (Ht eq_refl) as ([q vb'] & (k' & Hk' & _ & _ & Hgot) & Hc).
    cbn in Hk'. injection Hk' as <-. exists q, vb'. split; [done|]. exists k. split; [done|].
    assert (Hn : name (made asp1 j k node (no_request, forget vb)).2 = name vb) by (unfold made; rewrite Hcmd1; exact En).
    rewrite Hn in Hgot. destruct (find_name _ _) as [v|] eqn:Ev.
    + cbn in Hgot. subst vb'. unfold replaced. apply find_name_in in Ev as [Hin _]. unfold table_at in Hin. rewrite Hnode in Hin.
      specialize (Hval (t_reginfo node)). rewrite Forall_forall in Hval. by rewrite (proj2 (Z.eqb_neq _ _) (Hval v Hin)).
    + destruct Hgot as [Hname Hty]. rewrite Hn in Hname. cbn in Hname, Hty. unfold replaced. destruct Hty as [E|[E|E]]; rewrite E;
      (split; [exact Hname|]); first [left; reflexivity|left; exact E|right; exact E].
  - destruct Hp as (-> & _ & ->). eexists _, _. split; [by apply Hf|]. unfold replaced, forget. by destruct (type vb =? ASN_PRIV_INCL_RANGE).
Qed.
End tables.

Lemma cell_map (f : variable_list -> variable_list) asp j q vb : cell asp j = Some (q, vb) ->
  cell (with_a_variables (map f (a_variables asp)) asp) j = Some (q, f vb).
Proof.
  intros [Hq Hv]%cell_some. apply cell_some. split; [done|]. change (a_variables _) with (map f (a_variables asp)).
  by rewrite list_lookup_fmap, Hv.
Qed.

Section placed_get.
Context {M V : Type} `{Allocator} (t : list (list (netsnmp_subtree M V))) (decides : netsnmp_pdu -> option (list Z) -> bool -> Z).
Context (asp asp1 : agent_session) (Hcmd : a_command asp = SNMP_MSG_GET).
Let asp0 := unplaced (map forget (a_variables asp)) asp.
Context (Hall : all_placed (length (a_variables asp)) decides t 0 asp0 asp1).

(** The requests of a GET are made with the type ASN_NULL. *)
Lemma placed_new : cache_ok t asp1 -> length (a_variables asp1) = length (a_variables asp0) ->
  forall i r, i ∈ in_slots asp1 -> cell asp1 i = Some r -> new_view r.
Proof using Hall Hcmd.
  intros Hc Hl i r Hi Hr. pose proof (in_slots_below _ _ Hc) as Hb. rewrite Forall_forall in Hb. specialize (Hb i Hi). rewrite Hl in Hb.
  change (a_variables asp0) with (map forget (a_variables asp)) in Hb. rewrite length_map in Hb.
  destruct (Hall i) as (r0 & r' & b & _ & Hc' & Hpl & Hb'); [lia|]. rewrite Hr in Hc'. injection Hc' as <-. apply Hb' in Hi as ->.
  unfold placed in Hpl. destruct (_ && _); [by destruct Hpl|]. destruct Hpl as (k0 & _ & Hpl).
  change (is_search asp0) with ((a_command asp =? SNMP_MSG_GETNEXT) || (a_command asp =? SNMP_MSG_GETBULK)) in Hpl. rewrite Hcmd in Hpl. cbn in Hpl.
  destruct Hpl as (_ & node & _ & ->). unfold made. change (a_command asp0) with (a_command asp). by rewrite Hcmd.
Qed.

(** The requests are for variables in view. *)
Lemma placed_shown : cache_ok t asp1 -> length (a_variables asp1) = length (a_variables asp0) ->
  forall i r v, i ∈ in_slots asp1 -> cell asp1 i = Some r -> kept r v ->
  exists j vb, a_variables asp !! j = Some vb /\ requestvb v.1 = Some j /\ sees decides (a_pdu asp) (name vb) ASN_NULL = VACM_SUCCESS.
Proof using Hall Hcmd.
  intros Hc Hl i r v Hi Hr (_ & Hkept & _). pose proof (in_slots_below _ _ Hc) as Hb. rewrite Forall_forall in Hb. specialize (Hb i Hi). rewrite Hl in Hb.
  change (a_variables asp0) with (map forget (a_variables asp)) in Hb. rewrite length_map in Hb.
  destruct (Hall i) as (r0 & r' & b & Hr0 & Hc' & Hpl & Hb'); [lia|]. rewrite Hr in Hc'. injection Hc' as <-. apply Hb' in Hi as ->.
  apply unplaced_cell in Hr0 as [_ E2]. rewrite list_lookup_fmap in E2. destruct (a_variables asp !! i) as [vb|] eqn:Evb; [|done]. cbn in E2. injection E2 as E2.
  exists i, vb. split; [done|].
  unfold placed in Hpl. rewrite (sees_header decides (a_pdu asp0) (a_pdu asp)) in Hpl by done.
  assert (Easks : asks asp0 = true) by (unfold asks; change (a_command asp0) with (a_command asp); by rewrite Hcmd). rewrite Easks, andb_true_l in Hpl.
  destruct (Z.eqb_spec (sees decides (a_pdu asp) (name r0.2) (type r0.2)) VACM_SUCCESS) as [Es|Es]; [|by destruct Hpl]. destruct Hpl as (k0 & _ & Hpl).
  assert (Esearch : is_search asp0 = false) by (unfold is_search; change (a_command asp0) with (a_command asp); by rewrite Hcmd).
  rewrite Esearch in Hpl. destruct Hpl as (_ & node & _ & ->). split; [rewrite Hkept; done|]. rewrite <- Es, <- E2, sees_null.
  f_equal. unfold forget. by destruct (type vb =? ASN_PRIV_INCL_RANGE).
Qed.

(** What the pass makes of each variable. *)
Lemma placed_got table asp1' asp2 : holds_values (M := M) (V := V) table -> (forall j, cell asp1' j = cell asp1 j) ->
  changed (in_slots asp1) (fun _ => by_table table t got) asp1' asp2 ->
  forall j vb, a_variables asp !! j = Some vb -> exists q vb', cell asp2 j = Some (q, vb') /\ get_answer table t decides (a_pdu asp) vb (replaced vb').
Proof using Hall Hcmd.
  intros Hval Hsame Hch j vb Hvb. destruct (Hall j) as (r & r' & b & Hr & Hr' & Hpl & Hb); [apply lookup_lt_Some in Hvb; lia|].
  assert (r = (no_request, forget vb)) as ->.
  { apply unplaced_cell in Hr as [E1 E2]. rewrite list_lookup_fmap, Hvb in E2. destruct r as [q v]. cbn in *. by simplify_eq. }
  apply (get_cell table t decides asp asp0 asp2 j vb (no_request, forget vb) r' b); try done.
  - intros Eb. destruct (ch_changed _ _ _ _ Hch j) as (r1 & r2 & Hr1 & Hr2 & HR & _); [by apply Hb|].
    rewrite Hsame, Hr' in Hr1. injection Hr1 as <-. by exists r2.
  - intros Eb. rewrite (ch_same _ _ _ _ Hch), Hsame; [exact Hr'|]. intros Hin. apply Hb in Hin. congruence.
Qed.
End placed_get.

(** A call whose requests are for variables in view. *)
Definition shown_only {M V} decides (p : netsnmp_pdu) (vars : list variable_list) (k : call (M := M) (V := V)) : Prop :=
  Forall (fun v => exists j vb, vars !! j = Some vb /\ requestvb v.1 = Some j /\ sees decides p (name vb) ASN_NULL = VACM_SUCCESS) (k_views k).

(** C15: A GET of handlers that serve tables is answered, each variable for
    itself: with the instance of its name that the registration of its region
    has, with [noSuchInstance] or [noSuchObject] when there is none, and with [noSuchObject]
    when the name is not in view.  The handlers are called in one pass over the
    slots, and no call has a request for a variable that is not in view.  To SNMPv1 an answer without a
    value is the error [noSuchName] that points to such a variable. *)
Theorem get_exact {M V W} `{Allocator}
    (access : M -> netsnmp_mib_handler M V -> netsnmp_handler_registration M V -> Z -> list view -> W -> Z * list answer * bool * W)
    acm decides K table fuel asp (g : agent_registry (M := M) (V := V)) (w : W) :
  good_message acm decides K asp g -> a_command asp = SNMP_MSG_GET -> orig_pdu asp = Some (a_pdu asp) ->
  serves_get access table (tree_of asp g) -> shared_tables table (tree_of asp g) -> holds_values table ->
  exists resp g' w' vars, process_request access acm fuel asp g w = Ret (Some (Answered (Some resp) w', g')) /\
    Forall2 (get_answer table (tree_of asp g) decides (a_pdu asp)) (a_variables asp) vars /\ answers (a_pdu asp) vars resp /\
    exists slots s p s', swept access (tree_of asp g) SNMP_MSG_GET slots s w p s' w' /\
      Forall (shown_only decides (a_pdu asp) (a_variables asp)) (p_calls p).
Proof.
  intros Hm Hcmd Hp Hserve Hsh Hval. unfold process_request, handle_pdu.
  destruct (message_prepared acm decides K asp g Hm) as (k & st & asp1 & g1 & -> & Hcol & _); [tauto|]. rewrite bind_ret.
  assert (Ea : asked asp = map forget (a_variables asp)) by (unfold asked; by rewrite Hcmd). rewrite Ea in Hcol.
  set (asp0 := unplaced (map forget (a_variables asp)) asp) in *.
  destruct Hcol as (st' & asp1' & g1' & [= <- <- <-] & Ht & _ & Ho & Hl & Hc & Hres). set (t := tree_of asp g) in *.
  assert (E0 : errors asp0 = (0, 0)) by apply (fr_errors _ (gm_fresh _ _ _ _ _ Hm)).
  destruct Hres as [(-> & He & Hall & _)|[_ (E & _)]]; [|change (a_command asp0) with (a_command asp) in E; by rewrite Hcmd in E].
  pose proof (outer_fields _ _ Ho) as (Eh & Ec & Ectx & Eri & Eop & _).
  assert (Ec1 : a_command asp1 = SNMP_MSG_GET) by (rewrite Ec; exact Hcmd).
  change (negb (SNMP_ERR_NOERROR =? SNMP_ERR_NOERROR)) with false. cbv iota.
  change (m_contextName (a_pdu asp0)) with (m_contextName (a_pdu asp)) in *. rewrite Ectx, Ht.
  unfold perform_pdu. rewrite Ec1. change (SNMP_MSG_GET =? SNMP_MSG_GET) with true. cbv iota. unfold check_acm.
  assert (Hnew : forall i r, i ∈ in_slots asp1 -> cell asp1 i = Some r -> new_view r) by exact (placed_new t decides asp asp1 Hcmd Hall Hc Hl).
  rewrite (check_acm_seen acm decides _ _ (gm_acm _ _ _ _ _ Hm)); [|by apply (cache_slots_ok _ _ Hc)|intros i r Hi Hr; left; by eapply Hnew].
  rewrite bind_ret. set (asp1g := with_a_mode SNMP_MSG_GET asp1). assert (Hc1 : cache_ok t asp1g) by (destruct Hc; by constructor).
  destruct (pass_spec access t (by_table table t got) true asp1g w) as (st & asp2 & w2 & Epass & Hch & Hgood & _ & _).
  { change (reqinfo asp1g) with (reqinfo asp1). rewrite Eri. apply (gm_fresh _ _ _ _ _ Hm). }
  { by apply cache_slots_ok. }
  { apply (slots_serve access table t SNMP_MSG_GET got); [done|done|done|exact Hnew|by intros ??? (_ & ? & _)|exact Hserve]. }
  rewrite E0 in He. destruct (Hgood eq_refl) as [-> Herr]; [by injection He|]. rewrite Epass, !bind_ret.
  assert (Hcalls : exists p s', swept access t SNMP_MSG_GET (treecache asp1) (cell asp1) w p s' w2 /\
      Forall (shown_only decides (a_pdu asp) (a_variables asp)) (p_calls p)).
  { unfold handle_var_requests in Epass. destruct (reqinfo asp1g); [|done].
    apply slots_swept in Epass as (p & Hsw & _); [|by destruct (cache_slots_ok _ _ Hc); constructor|by left]. exists p, (cell asp2). split; [exact Hsw|].
    apply swept_views in Hsw; [|exact (ca_once _ _ Hc)]. eapply Forall_impl; [exact Hsw|]. intros k' (_ & Hk). eapply Forall_impl; [exact Hk|].
    intros v (i & r & Hi & Hr & Hkept). exact (placed_shown t decides asp asp1 Hcmd Hall Hc Hl i r v Hi Hr Hkept). }
  change (0 =? SNMP_ERR_NOERROR) with true. cbv iota. change (snmp_replace_var_types (a_variables asp2) ASN_NULL SNMP_NOSUCHINSTANCE)
    with (map replaced (a_variables asp2)). set (asp3 := with_a_variables _ asp2).
  pose proof (shell_fields _ _ (ch_shell _ _ _ _ Hch)) as (Etc & _ & _ & _ & _ & Eop2 & _ & Ec2 & vs & Ep2).
  assert (Hcells : forall j vb, a_variables asp !! j = Some vb -> exists q vb', cell asp2 j = Some (q, vb') /\ get_answer table t decides (a_pdu asp) vb (replaced vb'))
    by exact (placed_got t decides asp asp1 Hcmd Hall table (with_reqinfo (Some (a_mode asp1g)) asp1g) asp2 Hval (fun _ => eq_refl) Hch).
  rewrite (none_delegated asp3).
  2: { change (in_slots asp3) with (in_slots asp2). unfold in_slots at 1. rewrite Etc. unfold own. apply Forall_forall. intros i Hi.
       destruct (ch_changed _ _ _ _ Hch i Hi) as (r1 & [q vb] & _ & Hr2 & _ & Hown). exists (q, replaced vb). split; [by apply cell_map|exact Hown]. }
  2: { change (in_slots asp3) with (in_slots asp2). unfold in_slots at 1. rewrite Etc. intros i r Hi Hr.
       destruct (ch_changed _ _ _ _ Hch i Hi) as (r1 & [q vb] & _ & Hr2 & (k1 & _ & Hd & _) & _). apply (cell_map replaced) in Hr2.
       change (cell asp3 i = Some (q, replaced vb)) in Hr2. rewrite Hr in Hr2. by injection Hr2 as ->. }
  rewrite bind_ret.
  assert (Ec3 : a_command asp3 = SNMP_MSG_GET) by (change (a_command asp3) with (a_command asp2); rewrite Ec2; exact Ec1).
  destruct (sent asp3 asp3 (a_pdu asp)) as (resp & -> & Hresp).
  { by rewrite Ec3. }
  { change (errors asp3) with (errors asp2). by rewrite Herr. }
  { by rewrite Ec3. }
  { change (orig_pdu asp3) with (orig_pdu asp2). rewrite Eop2. change (orig_pdu _) with (orig_pdu asp1). by rewrite Eop. }
  { change (header (a_pdu asp3)) with (header (a_pdu asp2)). transitivity (header (a_pdu asp1)); [by rewrite Ep2|exact Eh]. }
  rewrite bind_ret. exists resp, g1, w2, (a_variables asp3). split_and!; [done| |done|by eexists _, _].
  change (a_variables asp3) with (map replaced (a_variables asp2)). apply Forall2_same_length_lookup_2.
  - rewrite length_map. rewrite (ch_variables _ _ _ _ Hch). change (a_variables asp0) with (map forget (a_variables asp)) in Hl.
    rewrite length_map in Hl. symmetry. exact Hl.
  - intros j vb vb' Hvb Hvb'. destruct (Hcells j vb Hvb) as (q & vb2 & [_ Hv]%cell_some & Hans). rewrite list_lookup_fmap, Hv in Hvb'.
    by injection Hvb' as <-.
Qed.

(** ** Messages that wait *)

(** C14: whatever the handlers do, and however messages arrive, are completed
    later and are looked at again: every message starts once, in the order of
    arrival; it is answered at most once (or lost), and waits for a handler
    otherwise; when a SET starts no other message is in progress, and none
    starts before it is answered; and without a message that waits for a handler
    the queue is empty. *)
Theorem messages_in_order {M V W} `{Allocator} access acm ids (ag : AgentRequest.agent (M := M) (V := V)) (w : W) :
  reachable access acm (ids, ag, w) ->
  NoDup ids /\
  begun (a_log ag) ++ queued ag = ids /\
  begun (a_log ag) ≡ₚ concluded (a_log ag) ++ delayed ag /\
  sets_alone (a_log ag) /\
  (delayed ag = [] -> queued ag = []).
Proof.
  intros Hr. destruct (reachable_ok access acm _ Hr) as [[Hnd Ho Hp Ha _ _] [Hs1 Hs2]]. cbn in *. split_and!; [done..|].
  intros Hw. unfold queued. destruct (processing_set ag) as [i|]; [by destruct (Hs2 i)|]. by rewrite Hs1.
Qed.

(** ** A registry with one table *)

Section samples.
#[local] Existing Instance small_alloc.

Definition instance_of (x : Z) : variable_list := {| name := [1; 3; 6; 1; x]; type := ASN_INTEGER; val := Some [x]; val_len := 4 |}.

Definition sample_table (reginfo : netsnmp_handler_registration Z Z) : list variable_list :=
  if bool_decide (handlerName reginfo = Some [97]) then [instance_of 1; instance_of 2; instance_of 4] else [].

(** The instance of the name, or the next one. *)
Definition wanted (mode : Z) (r : view) (v : variable_list) : bool :=
  if mode =? SNMP_MSG_GET then bool_decide (name v = name r.2)
  else bool_decide (lex (name r.2) (name v) < 0 \/ inclusive r.1 <> 0 /\ name v = name r.2).

Definition serve (mode : Z) reginfo (r : view) : answer := {|
  d_delegated := 0; d_processed := 1; d_inclusive := inclusive r.1; d_status := 0;
  d_var := match list_find (fun v => wanted mode r v = true) (sample_table reginfo) with Some (_, v) => v | None => r.2 end |}.

(** The method 1 serves the table, and notes the phases of a SET. *)
Definition sample_access (nh : Z) (h : netsnmp_mib_handler Z Z) reginfo (mode : Z) (rs : list view) (w : list Z)
    : Z * list answer * bool * list Z :=
  if negb (nh =? 1) then (0, [], false, w)
  else if mode_is_get mode then (0, map (serve mode reginfo) rs, false, w) else (0, [], false, w ++ [mode]).

Definition sample_registration : netsnmp_handler_registration Z Z :=
  with_modes (Z.lor HANDLER_CAN_GETANDGETNEXT HANDLER_CAN_SET) (sample [1; 3; 6; 1] 127 [97]).

Definition sample_registry : agent_registry (M := Z) (V := Z) :=
  match netsnmp_register_handler 2 3 false sample_registration (no_regions 8) with Ret (Some (_, g)) => g | _ => no_regions 8 end.

(** The instance 1.3.6.1.2 is not in view. *)
Definition sample_decides (_ : netsnmp_pdu) (o : option (list Z)) (check_subtree : bool) : Z :=
  if negb check_subtree && bool_decide (o = Some [1; 3; 6; 1; 2]) then VACM_NOTINVIEW else VACM_SUCCESS.

Definition sample_acm p o b : outcome Z := Ret (sample_decides p o b).

Definition sample_message (c : Z) (vars : list variable_list) : agent_session :=
  let p := plain_message SNMP_VERSION_2c (with_variables vars (with_command c sample_pdu)) in {|
  a_mode := c; a_pdu := p; orig_pdu := Some p; a_status := 0; a_index := 0; a_oldmode := 0; requests := []; treecache := [];
  treecache_len := 0; cache_store := []; reqinfo := Some c |}.

Definition asks_for (o : list Z) : variable_list := {| name := o; type := ASN_NULL; val := None; val_len := 0 |}.

Abbreviation sample_tree := (netsnmp_subtree_find_first None sample_registry).

Lemma sample_root_good : good_name [1; 3; 6; 1].
Proof. unfold good_name, name_fits, len. cbn. split_and!; try lia. repeat (apply Forall_cons; split); [lia..|done]. Qed.

Abbreviation sample_keys := [key_of_registration sample_registration; root 0; root 1; root 2].

Lemma sample_good_message acm decides asp : (forall p o b, acm p o b = Ret (decides (header p) o b)) -> fresh asp ->
  m_contextName (a_pdu asp) = None -> Forall good_variable (a_variables asp) -> Z.of_nat (length (a_variables asp)) <= 8000 ->
  good_message acm decides sample_keys asp sample_registry.
Proof.
  intros Hacm Hf Hctx Hvars Hlen. constructor; rewrite ?Hctx; [|exact Hacm|exact Hf| | |done|exact Hvars].
  - intros size Hs. apply Z.ltb_lt. lia.
  - split; [unfold context_text, len; cbn; lia|done].
  - destruct (register_stands_for enough_memory 2 3 false None [] (no_regions 8) sample_registration [97]) as (g & _ & Hreg);
      [split; [unfold context_text, len; cbn; lia|done]|split; [split; [cbn; lia|intros i E; discriminate E]|reflexivity]|
       destruct (sample_good [1; 3; 6; 1] 127 [97]) as [? ? ? ? ? ? ?]; [exact sample_root_good|unfold len; cbn; lia..|]; by constructor|].
    cbn [with_roots] in Hreg. rewrite root_not_registered in Hreg by (unfold len; cbn; lia). destruct Hreg as (E & Hs).
    unfold sample_registry. rewrite E. exact Hs.
Qed.

Lemma sample_message_good c vars : Forall good_variable vars -> Z.of_nat (length vars) <= 8000 ->
  good_message sample_acm sample_decides sample_keys (sample_message c vars) sample_registry.
Proof. intros Hvars Hlen. apply sample_good_message; [done|by constructor|done|exact Hvars|exact Hlen]. Qed.

Ltac sample_node k E := destruct k as [|[|[|[|[|k]]]]]; vm_compute in E; [injection E as <- ..|discriminate E].

Lemma sample_table_at k : table_at sample_table sample_tree k = if bool_decide (k = 2)%nat then [instance_of 1; instance_of 2; instance_of 4] else [].
Proof. destruct k as [|[|[|[|[|k]]]]]; reflexivity. Qed.

Lemma sample_shared : shared_tables sample_table sample_tree.
Proof. intros k k' node node' E _ Hn. by sample_node k E. Qed.

Lemma not_answered l : all_answered l [] = l.
Proof. induction l as [|r l IH]; [done|]. cbn. by f_equal. Qed.

Lemma all_served mode reginfo l : all_answered l (map (serve mode reginfo) l) = map (fun r => answered r (Some (serve mode reginfo r))) l.
Proof. induction l as [|r l IH]; [done|]. cbn [map all_answered head tail]. by f_equal. Qed.

Lemma null_calls reginfo h mode rs w : handler reginfo = [h] -> access_method h = Some 3 ->
  has_bit (modes reginfo) HANDLER_CAN_GETANDGETNEXT = true -> mode_is_get mode = true -> rs <> [] ->
  netsnmp_call_handlers sample_access reginfo mode rs w = (0, map unprocess rs, w).
Proof.
  intros Eh Em Emodes Emode Hrs. unfold netsnmp_call_handlers, netsnmp_call_handler. destruct rs as [|r rs]; [done|]. rewrite Eh, Emode, Emodes.
  cbn [negb map call_chain]. rewrite Em. unfold sample_access. change (negb (3 =? 1)) with true. cbv iota beta. by rewrite not_answered.
Qed.

Lemma table_calls reginfo b h mode rs w : handler reginfo = [b; h] -> access_method b = Some 2 -> has_bit (h_flags b) MIB_HANDLER_AUTO_NEXT = true ->
  access_method h = Some 1 -> has_bit (modes reginfo) HANDLER_CAN_GETANDGETNEXT = true -> mode_is_get mode = true -> rs <> [] ->
  netsnmp_call_handlers sample_access reginfo mode rs w
  = (0, map (fun r => answered (unprocess r) (Some (serve mode reginfo (unprocess r)))) rs, w).
Proof.
  intros Eh Eb Ea Em Emodes Emode Hrs. unfold netsnmp_call_handlers, netsnmp_call_handler. destruct rs as [|r rs]; [done|]. rewrite Eh, Emode, Emodes.
  cbn [negb map call_chain]. rewrite Eb. unfold sample_access at 1. change (negb (2 =? 1)) with true. cbv iota beta. rewrite Ea, not_answered. cbn [negb orb].
  rewrite Em. unfold sample_access. change (negb (1 =? 1)) with false. cbv iota beta. rewrite Emode.
  change (unprocess r :: map unprocess rs) with (map unprocess (r :: rs)). rewrite all_served, map_map. done.
Qed.

(** All regions of the samples answer in the same way. *)
Lemma sample_calls k node mode rs (w : list Z) : top sample_tree k = Some node -> rs <> [] -> mode_is_get mode = true ->
  netsnmp_call_handlers sample_access (t_reginfo node) mode rs w
  = (0, if bool_decide (k = 2)%nat then map (fun r => answered (unprocess r) (Some (serve mode (t_reginfo node) (unprocess r)))) rs else map unprocess rs, w).
Proof.
  intros E Hne Hm. sample_node k E; cbn [bool_decide decide_rel]; change (bool_decide _) with false || change (bool_decide _) with true; cbv iota;
    by first [eapply null_calls|eapply table_calls].
Qed.

Lemma sample_serves mode (R : list variable_list -> view -> view -> Prop) k node rs (w : list Z) : mode_is_get mode = true ->
  (forall r, new_view r -> R [] r (unprocess r)) ->
  (forall r reginfo, new_view r -> sample_table reginfo = [instance_of 1; instance_of 2; instance_of 4] ->
    R (sample_table reginfo) r (answered (unprocess r) (Some (serve mode reginfo (unprocess r))))) ->
  top sample_tree k = Some node -> rs <> [] -> Forall new_view rs ->
  exists rs' w', netsnmp_call_handlers sample_access (t_reginfo node) mode rs w = (0, rs', w') /\ Forall2 (R (sample_table (t_reginfo node))) rs rs'.
Proof.
  intros Hm Hnull Htable E Hne Hnew. eexists _, _. split; [by apply sample_calls|]. pose proof (sample_table_at k) as Ht. unfold table_at in Ht. rewrite E in Ht.
  case_bool_decide; (induction Hnew as [|r rs Hr _ IH]; [constructor|]; cbn [map]; constructor; [|by destruct rs; [constructor|apply IH]]).
  - by apply Htable.
  - rewrite Ht. by apply Hnull.
Qed.

Definition sample_get : agent_session :=
  sample_message SNMP_MSG_GET [asks_for [1; 3; 6; 1; 1]; asks_for [1; 3; 6; 1; 2]; asks_for [1; 3; 6; 1; 3]; asks_for [1; 4]].

Lemma get_exact_witness : exists resp g' w' vars,
  process_request sample_access sample_acm 1 sample_get sample_registry [] = Ret (Some (Answered (Some resp) w', g')) /\
  Forall2 (get_answer sample_table (tree_of sample_get sample_registry) sample_decides (a_pdu sample_get)) (a_variables sample_get) vars /\
  answers (a_pdu sample_get) vars resp /\
  exists slots s p s', swept sample_access (tree_of sample_get sample_registry) SNMP_MSG_GET slots s [] p s' w' /\
    Forall (shown_only sample_decides (a_pdu sample_get) (a_variables sample_get)) (p_calls p).
Proof.
  apply (get_exact sample_access sample_acm sample_decides sample_keys).
  - apply sample_message_good; [|cbn; lia]. repeat constructor; unfold name_fits, len; cbn; lia.
  - reflexivity.
  - reflexivity.
  - intros k node rs w. apply (sample_serves SNMP_MSG_GET got); [reflexivity|..].
    + intros r (H1 & H2 & H3). split_and!; [done|done|]. split; [done|by left].
    + intros r reginfo (H1 & H2 & H3) Et. split_and!; [done|done|]. unfold find_name, serve. cbn [answered snd d_var]. rewrite Et.
      change (wanted SNMP_MSG_GET (unprocess r)) with (fun v => bool_decide (name v = name r.2)).
      assert (Ef : forall l i, list_find (fun v => bool_decide (name v = name r.2) = true) l = Some i <-> list_find (fun v => name v = name r.2) l = Some i).
      { intros l [i v]. rewrite !list_find_Some. setoid_rewrite bool_decide_eq_true. done. }
      destruct (list_find (fun v => name v = name r.2) _) as [[i v]|] eqn:El.
      * apply Ef in El. by rewrite El.
      * destruct (list_find (fun v => bool_decide _ = true) _) as [[i v]|] eqn:El'; [apply Ef in El'; congruence|]. split; [done|by left].
  - exact sample_shared.
  - intros reginfo. unfold sample_table. case_bool_decide; repeat constructor; done.
Defined.

(** What it answers. *)
Lemma sample_got : (r ← process_request sample_access sample_acm 1 sample_get sample_registry [];
    match r with Some (Answered (Some resp) _, _) => Ret (map (fun v => (name v, type v)) (variables (m_body resp))) | _ => Null end)
  = Ret [([1; 3; 6; 1; 1], ASN_INTEGER); ([1; 3; 6; 1; 2], SNMP_NOSUCHOBJECT); ([1; 3; 6; 1; 3], SNMP_NOSUCHINSTANCE);
         ([1; 4], SNMP_NOSUCHINSTANCE)].
Proof. vm_compute. reflexivity. Qed.

Definition sample_set (x : Z) : agent_session := sample_message SNMP_MSG_SET [instance_of 1; instance_of x].

Lemma set_two_phase_witness : exists st asp' g' w',
  handle_pdu sample_access sample_acm 0 (sample_set 4) sample_registry [] = Ret (Some (st, asp', g', w')) /\
  ((exists j vb, a_variables (sample_set 4) !! j = Some vb /\
      sees sample_decides (a_pdu (sample_set 4)) (name vb) (type vb) <> VACM_SUCCESS /\
      st = SNMP_ERR_NOACCESS /\ errors asp' = (0, Z.of_nat j + 1) /\ w' = []) \/
   (forall vb, vb ∈ a_variables (sample_set 4) -> sees sample_decides (a_pdu (sample_set 4)) (name vb) (type vb) = VACM_SUCCESS) /\
   exists asp0, requested (tree_of (sample_set 4) sample_registry) (sample_set 4) asp0 /\
     two_phase sample_access (tree_of (sample_set 4) sample_registry) (treecache asp0) (cell asp0) [] st (cell asp') w').
Proof.
  apply (set_two_phase sample_access sample_acm sample_decides sample_keys).
  - apply sample_message_good; [|cbn; lia]. repeat constructor; unfold name_fits, len; cbn; lia.
  - intros nh h reginfo mode rs w ret l once w'. unfold sample_access. case_match; [by intros [= <- <- <- <-]|].
    case_match; intros [= <- <- <- <-]; [|done]. apply Forall_map. by apply Forall_true.
  - reflexivity.
  - reflexivity.
Defined.

(** The phases the handler saw; none where a variable is not in view. *)
Lemma sample_phases :
  let seen x := (r ← handle_pdu sample_access sample_acm 0 (sample_set x) sample_registry [];
                 match r with Some (st, asp, _, w) => Ret (st, a_index asp, w) | None => Null end) in
  seen 4 = Ret (0, 0, [0; 1; 2; 3]) /\ seen 2 = Ret (SNMP_ERR_NOACCESS, 2, []).
Proof. split; vm_compute; reflexivity. Qed.

(** The method answers a GET later. *)
Definition slow_access (nh : Z) (h : netsnmp_mib_handler Z Z) (reginfo : netsnmp_handler_registration Z Z) (mode : Z) (rs : list view) (w : list Z)
    : Z * list answer * bool * list Z :=
  if (nh =? 1) && (mode =? SNMP_MSG_GET) then
    (0, map (fun r => {| d_delegated := 1; d_processed := 0; d_inclusive := 0; d_status := 0; d_var := r.2 |}) rs, false, w)
  else sample_access nh h reginfo mode rs w.

Definition idle_agent : agent (M := Z) (V := Z) := {|
  a_registry := sample_registry; delegated_list := []; queued_list := []; processing_set := None; a_log := [] |}.

Definition after (r : outcome (option (agent (M := Z) (V := Z) * list Z))) : agent (M := Z) (V := Z) * list Z :=
  match r with Ret (Some m) => m | _ => (idle_agent, []) end.

Definition one_get : agent_session := sample_message SNMP_MSG_GET [asks_for [1; 3; 6; 1; 1]].

(** A GET waits for its handler; a SET and another GET are queued. *)
Definition first_get := after (netsnmp_handle_request slow_access sample_acm 1 0 one_get idle_agent []).
Definition then_set := after (netsnmp_handle_request slow_access sample_acm 1 1 (sample_set 4) first_get.1 first_get.2).
Definition then_get := after (netsnmp_handle_request slow_access sample_acm 1 2 one_get then_set.1 then_set.2).

(** The handler has answered. *)
Definition completed (asp : agent_session) : agent_session :=
  with_a_variables [instance_of 1] (with_requests (map (with_answer 0 1 0 0) (requests asp)) asp).

Definition then_completed : agent (M := Z) (V := Z) :=
  with_delegated (<[0%nat := (0%nat, completed (default one_get (snd <$> head (delegated_list then_get.1))))]> (delegated_list then_get.1)) then_get.1.

Definition then_checked := after (netsnmp_check_outstanding_agent_requests slow_access sample_acm 1 then_completed then_get.2).

Lemma after_ret (r : outcome (option (agent (M := Z) (V := Z) * list Z))) : (match r with Ret (Some _) => true | _ => false end) = true ->
  r = Ret (Some ((after r).1, (after r).2)).
Proof. by destruct r as [[[? ?]|]| | |]. Qed.

Lemma first_arrives : netsnmp_handle_request slow_access sample_acm 1 0 one_get idle_agent [] = Ret (Some (first_get.1, first_get.2)).
Proof. apply after_ret. vm_compute. reflexivity. Qed.

Lemma set_arrives : netsnmp_handle_request slow_access sample_acm 1 1 (sample_set 4) first_get.1 first_get.2 = Ret (Some (then_set.1, then_set.2)).
Proof. apply after_ret. vm_compute. reflexivity. Qed.

Lemma get_arrives : netsnmp_handle_request slow_access sample_acm 1 2 one_get then_set.1 then_set.2 = Ret (Some (then_get.1, then_get.2)).
Proof. apply after_ret. vm_compute. reflexivity. Qed.

Lemma get_checked : netsnmp_check_outstanding_agent_requests slow_access sample_acm 1 then_completed then_get.2 =
  Ret (Some (then_checked.1, then_checked.2)).
Proof. apply after_ret. vm_compute. reflexivity. Qed.

Lemma sample_waits : exists asp, delegated_list then_get.1 !! 0%nat = Some (0%nat, asp) /\
  then_completed = with_delegated (<[0%nat := (0%nat, completed asp)]> (delegated_list then_get.1)) then_get.1.
Proof. eexists. split; [vm_compute; reflexivity|]. vm_compute. reflexivity. Qed.

Lemma sample_reached : reachable slow_access sample_acm ([0; 1; 2]%nat, then_checked.1, then_checked.2).
Proof.
  pose proof (reachable_rest slow_access sample_acm idle_agent [] ltac:(done)) as Hr.
  assert (H0 : 0%nat ∉ ([] : list nat)) by by intros ?%not_elem_of_nil.
  assert (H1 : 1%nat ∉ [0%nat]) by by intros ?%list_elem_of_singleton.
  assert (H2 : 2%nat ∉ [0; 1]%nat) by by intros [?|?%list_elem_of_singleton]%elem_of_cons.
  pose proof (reachable_step _ _ _ _ Hr (step_arrives _ _ 1 0 one_get [] _ _ _ _ H0 first_arrives)) as Hr0.
  pose proof (reachable_step _ _ _ _ Hr0 (step_arrives _ _ 1 1 (sample_set 4) [0%nat] _ _ _ _ H1 set_arrives)) as Hr1.
  pose proof (reachable_step _ _ _ _ Hr1 (step_arrives _ _ 1 2 one_get [0; 1]%nat _ _ _ _ H2 get_arrives)) as Hr2.
  destruct sample_waits as (asp & Hd & Hc).
  pose proof (reachable_step _ _ _ _ Hr2 (step_completes _ _ 0 0 asp (completed asp) [0; 1; 2]%nat _ _ then_get.2 Hd)) as Hr3.
  rewrite <-Hc in Hr3. exact (reachable_step _ _ _ _ Hr3 (step_checks _ _ 1 [0; 1; 2]%nat _ _ _ _ get_checked)).
Qed.

Lemma messages_in_order_witness : exists ids ag w,
  (reachable slow_access sample_acm (ids, ag, w) /\ ids = [0; 1; 2]%nat /\ concluded (a_log ag) = [0; 1]%nat) /\
  NoDup ids /\
  begun (a_log ag) ++ queued ag = ids /\
  begun (a_log ag) ≡ₚ concluded (a_log ag) ++ delayed ag /\
  sets_alone (a_log ag) /\
  (delayed ag = [] -> queued ag = []).
Proof.
  exists [0; 1; 2]%nat, then_checked.1, then_checked.2.
  split; [split_and!; [exact sample_reached|reflexivity|vm_compute; reflexivity]|].
  exact (messages_in_order slow_access sample_acm _ _ _ sample_reached).
Defined.

(** What happened, in order; the last GET waits for its handler. *)
Lemma sample_log : map (fun e => match e with Started i s => (i, Some s) | Finished i _ | Lost i => (i, None) end) (a_log then_checked.1) =
    [(0, Some false); (0, None); (1, Some true); (1, None); (2, Some false)]%nat /\
  delayed then_get.1 = [0]%nat /\ queued then_get.1 = [1; 2]%nat /\ delayed then_checked.1 = [2]%nat /\ then_checked.2 = [0; 1; 2; 3].
Proof. vm_compute. done. Qed.
End samples.
