(* ===== verification/AgentNext.v ===== *)
(** * The search for the next instances: a GETNEXT in agent/snmp_agent.c

    The loop over the regions gives each variable the next instance in view of
    the whole registry, and ends. *)

From Stdlib Require Import Sorting.Sorted.
From stdpp Require Import list.
From S2P Require Import Prelude RegistryMap RegistryTree RegistryProps Bytes AsnTypes AsnParse AsnBuild AsnRbuild Samples VarOp Pdu PduProps Oid Vacm VacmSpec VacmProps Lcd Scapi Users UsmMsg Session Secmod Message MessageProps Client CString Keytools ReadConfig UserConfig AgentHandler Registry AgentRequest AgentRequestProps AgentGetSet.

(** ** Requests for the next pass *)

Section reassign.
Context {M V : Type} `{Allocator}.
Abbreviation tree := (list (list (netsnmp_subtree M V))).
Context (acm : netsnmp_pdu -> option (list Z) -> bool -> outcome Z).
Context (t : tree) (p : netsnmp_pdu) (n : nat) (memory : forall size, size <= 128 * (Z.of_nat n + 64) -> alloc size = true).
Context (errors_ok : Z * Z -> Prop).
Implicit Types (asp : agent_session) (r : view).

(** What the loop leaves of the message [p] of [n] variables, [errors_ok] being what is
    known of its errors. *)
Record message_ok asp : Prop := {
  mo_command : a_command asp = SNMP_MSG_GETNEXT;
  mo_mode : a_mode asp = SNMP_MSG_GETNEXT;
  mo_header : header (a_pdu asp) = header p;
  mo_length : length (a_variables asp) = n;
  mo_errors : errors_ok (errors asp);
  mo_reqinfo : is_Some (reqinfo asp);
  mo_orig : orig_pdu asp = Some p
}.

Lemma message_ok_outer asp asp' : outer asp' = outer asp -> errors asp' = errors asp -> length (a_variables asp') = length (a_variables asp) ->
  message_ok asp -> message_ok asp'.
Proof.
  intros (Eh & Ec & _ & Eri & Eo & Em & _)%outer_fields Ee El [H1 H2 H3 H4 H5 H6 H7]. constructor; by congruence || rewrite Ee.
Qed.

Lemma cell_some_lt asp i r : cell asp i = Some r -> (i < length (a_variables asp))%nat.
Proof. destruct r as [q vb]. intros [_ Hv]%cell_some. by apply lookup_lt_Some in Hv. Qed.

(** Whether the search goes on for a request. *)
Definition still r : bool := (type r.2 =? ASN_NULL) || (type r.2 =? ASN_PRIV_RETRY).

Lemma reassign_still asp i r : cell asp i = Some r -> still r = false -> requestvb r.1 = None \/ own_place i r /\ is_Some (q_subtree r.1) ->
  reassign_one acm t i asp = Ret asp.
Proof.
  destruct r as [q vb]. intros [Hq Hv]%cell_some Hst Hreq. unfold still in Hst. cbn in Hst. apply orb_false_iff in Hst as [E1 E2].
  unfold reassign_one. rewrite Hq. destruct Hreq as [E|[E [k Ek]]]; cbn in E; [by rewrite E|]. unfold own_place in E. cbn in E, Ek. by rewrite E, Hv, Ek, E1, E2.
Qed.

(** The request [i] is put into a slot, as [serves] says, or left out, as [rests] does. *)
Definition reassigned_one (serves rests : view -> Prop) (i : nat) asp asp' : Prop :=
  cache_ok t asp' /\ exists r', cell_set i r' asp asp' /\
    (in_slots asp' ≡ₚ i :: in_slots asp /\ serves r' \/ in_slots asp' = in_slots asp /\ rests r').

Context (serves rests waits : nat -> view -> Prop).

Definition served_or_rests asp (i : nat) : Prop :=
  exists r, cell asp i = Some r /\ (i ∈ in_slots asp /\ serves i r \/ (i ∉ in_slots asp) /\ rests i r).

Record all_served asp : Prop := {
  as_cache : cache_ok t asp;
  as_message : message_ok asp;
  as_cells : forall i, (i < n)%nat -> served_or_rests asp i
}.

Record all_waits asp : Prop := {
  aw_cache : cache_ok t asp;
  aw_message : message_ok asp;
  aw_cells : forall i, (i < n)%nat -> exists r, cell asp i = Some r /\ waits i r
}.

Context (Hone : forall asp i r, message_ok asp -> cache_ok t asp -> cell asp i = Some r -> i ∉ in_slots asp -> waits i r ->
  exists asp', reassign_one acm t i asp = Ret asp' /\ reassigned_one (serves i) (rests i) i asp asp').

Lemma reassign_loop_spec turns : forall i asp, (i + turns = n)%nat -> cache_ok t asp -> message_ok asp ->
  (forall j, j ∈ in_slots asp -> (j < i)%nat) -> (forall j, (j < i)%nat -> served_or_rests asp j) ->
  (forall j, (i <= j < n)%nat -> exists r, cell asp j = Some r /\ waits j r) ->
  exists asp', reassign_loop acm t turns i asp = Ret asp' /\ all_served asp'.
Proof.
  induction turns as [|turns IH]; intros i asp Hi Hc Hm Hlow Hdone Hwait; cbn [reassign_loop].
  { exists asp. split; [done|]. constructor; [done|done|]. intros j Hj. apply Hdone. lia. }
  destruct (Hwait i) as (r & Hr & Hw); [lia|].
  assert (Hni : i ∉ in_slots asp) by (intros Hin; specialize (Hlow i Hin); lia).
  destruct (Hone asp i r Hm Hc Hr Hni Hw) as (asp1 & -> & Hc1 & r1 & Hset & Hres). rewrite bind_ret.
  assert (Hin1 : forall j, j <> i -> j ∈ in_slots asp1 <-> j ∈ in_slots asp).
  { intros j Hj. destruct Hres as [[Hp _]|[E _]]; [|by rewrite E]. rewrite Hp, elem_of_cons. split; [by intros [?|?]|by right]. }
  assert (Hin : i ∈ in_slots asp1 /\ serves i r1 \/ (i ∉ in_slots asp1) /\ rests i r1).
  { destruct Hres as [[Hp Ha]|[E Hs]]; [left|right]; (split; [|done]); [rewrite Hp; by left|by rewrite E]. }
  apply IH; [lia|done|by apply (message_ok_outer asp); [apply Hset..|]| | |].
  - intros j Hj. destruct (decide (j = i)) as [->|Hne]; [lia|]. apply Hin1 in Hj; [|done]. specialize (Hlow j Hj). lia.
  - intros j Hj. unfold served_or_rests. rewrite (cs_cell _ _ _ _ Hset). destruct (decide (i = j)) as [<-|Hne]; [by exists r1|].
    destruct (Hdone j) as (rj & ? & Hrj); [lia|]. exists rj. split; [done|]. by rewrite Hin1 by done.
  - intros j Hj. rewrite (cs_cell _ _ _ _ Hset), decide_False by lia. apply Hwait. lia.
Qed.

Lemma reassign_spec asp : all_waits asp -> exists asp', netsnmp_reassign_requests acm t asp = Ret asp' /\ all_served asp'.
Proof.
  intros [Hc Hm Hw]. unfold netsnmp_reassign_requests. pose proof (ca_room _ _ Hc) as Hroom. pose proof (mo_length _ Hm) as Hl. rewrite Hl in *.
  rewrite memory by (unfold sizeof_tree_cache; lia). cbn [negb]. apply reassign_loop_spec; [done| | | |by lia|].
  - destruct Hc as [_ _ _ H4 _]. constructor; [constructor|constructor|constructor|done|].
    change (treecache_len asp <= Z.of_nat (length (a_variables asp)) + 32). by rewrite Hl.
  - by destruct Hm.
  - intros j Hj. by apply elem_of_nil in Hj.
  - intros j Hj. apply Hw. lia.
Qed.
End reassign.

(** Whether the errors are known to be none. *)
Definition no_errors (e : Z * Z) : Prop := e = (0, 0).
Definition any_errors (e : Z * Z) : Prop := True.

Section next.
Context {M V W : Type} `{Allocator}.
Abbreviation registration := (netsnmp_handler_registration M V).
Abbreviation tree := (list (list (netsnmp_subtree M V))).
Implicit Types (o : list Z) (v vb : variable_list) (r : view) (rs : list view).

(** ** Regions in order *)

(** The regions of a tree follow each other. *)
Record sorted_regions (t : tree) : Prop := {
  sr_fit : regions_fit t;
  sr_span : forall k node, top t k = Some node -> lex (start_a node) (end_a node) < 0;
  sr_order : forall k k' node node', (k < k')%nat -> top t k = Some node -> top t k' = Some node' -> lex (end_a node) (start_a node') <= 0
}.

Lemma spans_sorted P (t : tree) : forall lo hi, spans P lo t hi -> sorted_regions t /\
  (forall k node, top t k = Some node -> lex lo (start_a node) <= 0).
Proof.
  induction t as [|stack t IH]; intros lo hi Hs; [by repeat constructor|]. pose proof (spans_regions_fit _ _ _ _ Hs) as Hfit.
  cbn [spans] in Hs. destruct Hs as [Hr Hs]. destruct (IH _ _ Hs) as [[_ H1 H2] H3].
  destruct stack as [|s l]; [by destruct (ro_some _ _ _ Hr)|]. pose proof (ro_span _ _ _ Hr) as Hspan. apply Forall_cons in Hspan as [(Es & Ee & _) _].
  pose proof (ro_lt _ _ _ Hr) as Hlt. cbn [end_of] in Hlt, Ee, H3.
  split; [constructor; [done| |]|].
  - intros [|k] node E; [injection E as <-; by rewrite Es|]. by apply (H1 k).
  - intros [|k] [|k'] node node' Hk E E'; [lia| |lia|apply (H2 k k'); [lia|done..]]. injection E as <-. by apply (H3 k').
  - intros [|k] node E; [injection E as <-; rewrite Es, lex_refl; lia|]. specialize (H3 k node E). pose proof (lex_lt_le _ _ _ Hlt H3). lia.
Qed.

(** ** Instances *)

Context (table : registration -> list variable_list) (t : tree) (Ht : sorted_regions t).
Context (decides : netsnmp_pdu -> option (list Z) -> bool -> Z) (p : netsnmp_pdu).

(** An instance that a registration serves in its own region. *)
Definition visible v : Prop := exists k, at_region t (name v) k /\ v ∈ table_at table t k.

Definition in_view v : Prop := sees decides p (name v) (type v) = VACM_SUCCESS.

(** What a search from [o] may find. *)
Definition sought o v : Prop := visible v /\ in_view v /\ lex o (name v) < 0.

(** The answer to the name [o]: the first of them. *)
Definition next_answer o vb : Prop :=
  sought o vb /\ (forall v, sought o v -> lex (name vb) (name v) <= 0) \/
  type vb = SNMP_ENDOFMIBVIEW /\ name vb = o /\ (forall v, ~ sought o v).

(** [v] is after the name of the request, or is it where the search is inclusive. *)
Definition after r v : Prop := lex (name r.2) (name v) < 0 \/ inclusive r.1 <> 0 /\ name v = name r.2.

(** The answer of a handler: the first instance of its table that is. *)
Definition nexted (T : list variable_list) r r' : Prop :=
  delegated r'.1 = 0 /\ q_status r'.1 = 0 /\ inclusive r'.1 = inclusive r.1 /\
  (r'.2 ∈ T /\ after r r'.2 /\ (forall v, v ∈ T -> after r v -> lex (name r'.2) (name v) <= 0) \/
   type r'.2 = ASN_NULL /\ name r'.2 = name r.2 /\ (forall v, v ∈ T -> ~ after r v)).

(** What is supposed of the tables: instances have their own names and values,
    those of a registration are not hidden by others, a region that is passed over
    shows none, and, unless all is in view, no region's handler gives instances beyond its end. *)
Record good_tables : Prop := {
  gt_shared : shared_tables table t;
  gt_values : forall k v, v ∈ table_at table t k -> name_fits (name v) /\
    type v <> ASN_NULL /\ type v <> ASN_PRIV_RETRY /\ type v <> SNMP_ENDOFMIBVIEW;
  gt_names : forall k v v', v ∈ table_at table t k -> v' ∈ table_at table t k -> name v = name v' -> v = v';
  gt_visible : forall k v, v ∈ table_at table t k -> visible v;
  gt_hidden : forall k node v, top t k = Some node -> hides decides p node = true -> v ∈ table_at table t k -> at_region t (name v) k -> ~ in_view v;
  gt_within : (forall v, visible v -> in_view v) \/
    (forall k node v, top t k = Some node -> v ∈ table_at table t k -> lex (name v) (end_a node) < 0)
}.
Context (Hg : good_tables).

Lemma at_region_unique o k k' : at_region t o k -> at_region t o k' -> k = k'.
Proof.
  intros (n1 & E1 & L1 & H1) (n2 & E2 & L2 & H2). destruct (lt_eq_lt_dec k k') as [[Hlt|]|Hlt]; [|done|].
  - pose proof (sr_order _ Ht _ _ _ _ Hlt E1 E2) as Ho. pose proof (lex_lt_le _ _ _ H1 (lex_le_trans _ _ _ Ho L2)) as Hx. rewrite lex_refl in Hx. lia.
  - pose proof (sr_order _ Ht _ _ _ _ Hlt E2 E1) as Ho. pose proof (lex_lt_le _ _ _ H2 (lex_le_trans _ _ _ Ho L1)) as Hx. rewrite lex_refl in Hx. lia.
Qed.

(** ** A request on its way *)

(** A request that is about to be given to the handler of the region [k]: nothing
    that is sought was passed over. *)
Record pending o r (k : nat) (node : netsnmp_subtree M V) : Prop := {
  pe_region : q_subtree r.1 = Some k;
  pe_top : top t k = Some node;
  pe_shown : hides decides p node = false;
  pe_end : range_end r.1 = Some (end_a node);
  pe_from : lex o (name r.2) <= 0;
  pe_strict : inclusive r.1 <> 0 -> lex o (name r.2) < 0;
  pe_before : lex (name r.2) (end_a node) < 0;
  pe_after : forall v, sought o v -> after r v;
  pe_start : forall v, sought o v -> lex (start_a node) (name v) <= 0;
  pe_view : inclusive r.1 = 0 \/ (forall v, visible v -> in_view v);
  pe_name : name_fits (name r.2)
}.

(** A request the region [k] has nothing for. *)
Record exhausted o r (k : nat) (node : netsnmp_subtree M V) : Prop := {
  ex_region : q_subtree r.1 = Some k;
  ex_top : top t k = Some node;
  ex_from : lex o (name r.2) <= 0;
  ex_strict : inclusive r.1 <> 0 -> lex o (name r.2) < 0;
  ex_before : lex (name r.2) (end_a node) <= 0;
  ex_after : forall v, sought o v -> after r v;
  ex_end : forall v, sought o v -> lex (end_a node) (name v) <= 0;
  ex_view : inclusive r.1 = 0 \/ (forall v, visible v -> in_view v);
  ex_name : name_fits (name r.2);
  ex_type : type r.2 = ASN_NULL
}.

(** Where a sought instance is, seen from a region. *)
Lemma sought_where o k node v : top t k = Some node -> sought o v -> lex (start_a node) (name v) <= 0 ->
  v ∈ table_at table t k /\ lex (name v) (end_a node) < 0 \/ lex (end_a node) (name v) <= 0.
Proof.
  intros Hk [(k' & Hat & Hin) _] Hs. pose proof Hat as (node' & Hk' & H1 & H2). destruct (lt_eq_lt_dec k k') as [[Hlt| ->]|Hlt].
  - right. pose proof (sr_order _ Ht _ _ _ _ Hlt Hk Hk'). by eapply lex_le_trans.
  - left. split; [done|]. rewrite Hk in Hk'. by injection Hk' as ->.
  - exfalso. pose proof (sr_order _ Ht _ _ _ _ Hlt Hk' Hk) as Ho. pose proof (lex_lt_le _ _ _ H2 (lex_le_trans _ _ _ Ho Hs)) as Hx. rewrite lex_refl in Hx. lia.
Qed.

Lemma visible_in_table k v : v ∈ table_at table t k -> visible v.
Proof. apply (gt_visible Hg). Qed.

(** ** The checks of an answer *)

(** [check_acm] with ASN_PRIV_RETRY, of one request. *)
Definition acm_step (ty : Z) r : view :=
  if (type r.2 =? ASN_NULL) || (type r.2 =? ASN_PRIV_RETRY) then r
  else if sees decides p (name r.2) (type r.2) =? VACM_SUCCESS then r
  else (r.1, with_val (Some [0]) 0 (with_type ty r.2)).

Definition answered_now o r : Prop := sought o r.2 /\ (forall v, sought o v -> lex (name r.2) (name v) <= 0).

Lemma found_judged o r r' k node : pending o r k node -> kept r r' -> inclusive r'.1 = inclusive r.1 -> r'.2 ∈ table_at table t k -> after r r'.2 ->
  (forall v, v ∈ table_at table t k -> after r v -> lex (name r'.2) (name v) <= 0) -> in_view r'.2 -> lex (name r'.2) (end_a node) < 0 ->
  answered_now o r'.
Proof.
  intros Hp _ _ Hin Haf Hmin Hv Hlt. split.
  - split_and!; [by eapply visible_in_table|done|]. destruct Haf as [Haf|[Hi ->]]; [|by apply (pe_strict _ _ _ _ Hp)].
    by eapply lex_le_lt, Haf; apply Hp.
  - intros v Hs. pose proof (pe_start _ _ _ _ Hp v Hs) as Hst. destruct (sought_where o k node v (pe_top _ _ _ _ Hp) Hs Hst) as [[Hin' _]|He].
    + apply Hmin; [done|]. by apply (pe_after _ _ _ _ Hp).
    + pose proof (lex_lt_le _ _ _ Hlt He). lia.
Qed.

(** [check_getnext_results], of one request whose region ends at [end_]. *)
Definition result_step (end_ : list Z) r : view :=
  let '(q, vb) := if 0 <=? lex (name r.2) end_
                  then (with_answer (delegated r.1) (processed r.1) 2 (q_status r.1) r.1, with_val (Some [0]) 0 (with_type ASN_NULL (with_name end_ r.2)))
                  else r in
  if type vb =? SNMP_ENDOFMIBVIEW then (with_answer (delegated q) (processed q) 1 (q_status q) q, with_type ASN_NULL vb) else (q, vb).

Lemma check_result_step r end_ : range_end r.1 = Some end_ -> name_fits (name r.2) -> name_fits end_ ->
  check_result false r = Ret (result_step end_ r).
Proof.
  intros He Hn Hf. destruct r as [q vb]. cbn in He, Hn. unfold check_result, beyond, result_step. cbn [andb]. rewrite bind_ret, He. change (default [] (Some end_)) with end_. cbn [fst snd].
  change (snmp_oid_compare (name vb) (len (name vb)) end_ (len end_)) with (Registry.compare (name vb) end_).
  rewrite compare_lex, bind_ret by (by apply name_fits_short). destruct (0 <=? lex (name vb) end_).
  - unfold snmp_set_var_objid. assert (Es : (sizeof_oid * len end_ <=? sizeof_name_loc) = true).
    { unfold name_fits, sizeof_oid, sizeof_name_loc, MAX_OID_LEN in *. apply Z.leb_le. unfold sizeof_oid. lia. }
    rewrite Es. cbn [orb]. by rewrite set_null_is, !bind_ret.
  - by rewrite bind_ret.
Qed.

(** What is left to find in the table of the region. *)
Definition left_in (k : nat) vb : nat := length (filter (fun v => lex (name vb) (name v) < 0) (table_at table t k)).

Lemma left_decreases k vb v : v ∈ table_at table t k -> lex (name vb) (name v) < 0 -> (left_in k v < left_in k vb)%nat.
Proof.
  intros Hin Hlt. unfold left_in. apply list_elem_of_split in Hin as (l1 & l2 & ->). rewrite !filter_app, !length_app, !filter_cons.
  rewrite decide_False by (rewrite lex_refl; lia). rewrite decide_True by done.
  assert (Hle : forall l, (length (filter (fun v' => (lex (name v) (name v') < 0)%Z) l) <= length (filter (fun v' => (lex (name vb) (name v') < 0)%Z) l))%nat).
  { induction l as [|x l IH]; [done|]. rewrite !filter_cons. destruct (decide (lex (name v) (name x) < 0)) as [Hx|Hx].
    - rewrite decide_True; [cbn; lia|]. eapply lex_lt_le; [exact Hlt|lia].
    - destruct (decide _); cbn; lia. }
  pose proof (Hle l1). pose proof (Hle l2). cbn. lia.
Qed.

Lemma end_fits k node : top t k = Some node -> name_fits (end_a node).
Proof.
  intros E. pose proof (sr_fit _ Ht) as Hfit. unfold top in E. destruct (t !! k) as [stack|] eqn:Ek; [|done]. unfold regions_fit in Hfit. rewrite Forall_forall in Hfit.
  destruct (Hfit stack) as (s & l & -> & _ & He); [by eapply list_elem_of_lookup_2|]. by injection E as <-.
Qed.

(** What is sought is past a region whose first instance that is after, if any, is beyond it. *)
Lemma past_end o r k node : pending o r k node -> (forall v, v ∈ table_at table t k -> after r v -> lex (end_a node) (name v) <= 0) ->
  forall v, sought o v -> lex (end_a node) (name v) <= 0.
Proof.
  intros Hp Hmin v Hs. destruct (sought_where o k node v (pe_top _ _ _ _ Hp) Hs (pe_start _ _ _ _ Hp v Hs)) as [[Hin _]|Hv]; [|done].
  apply Hmin; [done|]. by apply (pe_after _ _ _ _ Hp).
Qed.

(** Nothing was found. *)
Lemma none_exhausted o r r' k node : pending o r k node -> kept r r' -> inclusive r'.1 = inclusive r.1 -> type r'.2 = ASN_NULL -> name r'.2 = name r.2 ->
  (forall v, v ∈ table_at table t k -> ~ after r v) -> exhausted o r' k node.
Proof.
  intros Hp (K1 & _) Hi Hty Hn Hnone. pose proof (past_end o r k node Hp ltac:(intros v Hin Ha; by destruct (Hnone v Hin))) as Hpast.
  destruct Hp as [P1 P2 P3 P4 P5 P6 P7 P8 P9 P10 P11]. constructor; rewrite ?K1, ?Hi, ?Hn; try done; [lia|].
  intros v Hs. destruct (P8 v Hs) as [Hv|[Hv1 Hv2]]; [left; by rewrite Hn|right; by rewrite Hn, Hi].
Qed.

(** What was found is beyond the region: the search goes on at its end. *)
Lemma beyond_exhausted o r q vb k node : pending o r k node -> q_subtree q = Some k -> inclusive q <> 0 -> (forall v, visible v -> in_view v) ->
  name vb = end_a node -> type vb = ASN_NULL -> (forall v, sought o v -> lex (end_a node) (name v) <= 0) -> exhausted o (q, vb) k node.
Proof.
  intros Hp Hq Hi Hall Hn Hty Hpast. pose proof Hp as [P1 P2 P3 P4 P5 P6 P7 P8 P9 P10 P11]. pose proof (lex_le_lt _ _ _ P5 P7) as Hlt.
  constructor; cbn [fst snd]; rewrite ?Hn; try done; [lia|rewrite lex_refl; lia| |by right|by eapply end_fits].
  intros v Hs. unfold after. cbn [fst snd]. rewrite Hn. specialize (Hpast v Hs).
  destruct (Z.eq_dec (lex (end_a node) (name v)) 0) as [E|E]; [right; split; [done|]; symmetry; by apply lex_eq|left; lia].
Qed.

(** What was found is not in view: the search goes on from there. *)
Lemma hidden_pending o r r2 v k node : pending o r k node -> q_subtree r2.1 = Some k -> range_end r2.1 = Some (end_a node) ->
  inclusive r2.1 = inclusive r.1 -> inclusive r.1 = 0 -> name r2.2 = name v -> v ∈ table_at table t k -> lex (name r.2) (name v) < 0 ->
  lex (name v) (end_a node) < 0 -> ~ in_view v -> (forall v', v' ∈ table_at table t k -> after r v' -> lex (name v) (name v') <= 0) ->
  pending o r2 k node.
Proof.
  intros [P1 P2 P3 P4 P5 P6 P7 P8 P9 P10 P11] Hq He Hi H0 Hn Hin Hlt Hend Hv Hmin. pose proof (lex_le_lt _ _ _ P5 Hlt) as Hfrom.
  constructor; rewrite ?Hn; try done; [lia| |left; congruence|by apply (gt_values Hg _ _ Hin)].
  intros v' Hs. left. rewrite Hn. destruct (sought_where o k node v' P2 Hs (P9 v' Hs)) as [[Hin' _]|Hge]; [|by eapply lex_lt_le].
  pose proof (Hmin v' Hin' (P8 v' Hs)) as Hle. destruct (Z.eq_dec (lex (name v) (name v')) 0) as [E|E]; [|lia]. exfalso.
  apply lex_eq in E. apply Hv. rewrite (gt_names Hg k v v' Hin Hin' E). by destruct Hs as (_ & ? & _).
Qed.

(** What a request is after its answer was checked: it is answered, or the same
    region, which has less left, is searched on, or the region is done. *)
Definition judged o r (k : nat) node r2 : Prop :=
  answered_now o r2 /\ still r2 = false \/
  type r2.2 = ASN_PRIV_RETRY /\ pending o r2 k node /\ (left_in k r2.2 < left_in k r.2)%nat \/
  exhausted o r2 k node.

Lemma judge_seen o r r' k node : pending o r k node -> kept r r' -> inclusive r'.1 = inclusive r.1 -> r'.2 ∈ table_at table t k -> after r r'.2 ->
  (forall v, v ∈ table_at table t k -> after r v -> lex (name r'.2) (name v) <= 0) -> in_view r'.2 -> judged o r k node (result_step (end_a node) r').
Proof.
  intros Hp Hk Hi Hin Haf Hmin Hv. destruct (gt_values Hg _ _ Hin) as (Hf & Hn1 & Hn2 & Hn3). unfold result_step.
  destruct (Z.leb_spec 0 (lex (name r'.2) (end_a node))) as [Hge|Hlt].
  - cbn [type with_val with_type]. change (ASN_NULL =? SNMP_ENDOFMIBVIEW) with false. cbv iota. right. right.
    destruct (gt_within Hg) as [Hall|Hw]; [|specialize (Hw k node r'.2 (pe_top _ _ _ _ Hp) Hin); lia].
    apply (beyond_exhausted o r); try done; [cbn; destruct Hk as (-> & _); apply Hp|].
    apply (past_end o r k node Hp). intros v Hin' Ha. pose proof (Hmin v Hin' Ha) as Hle. pose proof (lex_opp (name r'.2) (end_a node)).
    eapply lex_le_trans; [|exact Hle]. lia.
  - destruct r' as [q' vb']. cbn [fst snd] in *. rewrite (proj2 (Z.eqb_neq _ _) Hn3). left. split.
    + by apply (found_judged o r (q', vb') k node).
    + unfold still. cbn. by rewrite (proj2 (Z.eqb_neq _ _) Hn1), (proj2 (Z.eqb_neq _ _) Hn2).
Qed.

Lemma judge_hidden o r r' k node : pending o r k node -> kept r r' -> inclusive r'.1 = inclusive r.1 -> r'.2 ∈ table_at table t k -> after r r'.2 ->
  (forall v, v ∈ table_at table t k -> after r v -> lex (name r'.2) (name v) <= 0) -> ~ in_view r'.2 ->
  judged o r k node (result_step (end_a node) (r'.1, with_val (Some [0]) 0 (with_type ASN_PRIV_RETRY r'.2))).
Proof.
  intros Hp Hk Hi Hin Haf Hmin Hv. destruct (gt_within Hg) as [Hall|Hw]; [by destruct (Hv (Hall _ (visible_in_table _ _ Hin)))|].
  specialize (Hw k node _ (pe_top _ _ _ _ Hp) Hin). destruct (pe_view _ _ _ _ Hp) as [Hinc|Hall]; [|by destruct (Hv (Hall _ (visible_in_table _ _ Hin)))].
  assert (Hlt : lex (name r.2) (name r'.2) < 0) by (destruct Haf as [?|[? _]]; done).
  unfold result_step. cbn [fst snd name with_val with_type type]. rewrite (proj2 (Z.leb_gt _ _) Hw). cbv iota. cbn [type with_val with_type].
  change (ASN_PRIV_RETRY =? SNMP_ENDOFMIBVIEW) with false. cbv iota. right. left. split; [done|]. split; [|exact (left_decreases k r.2 r'.2 Hin Hlt)].
  destruct Hk as (K1 & _ & K3 & _). eapply (hidden_pending o r _ r'.2); try done; cbn [fst]; rewrite ?K1, ?K3; by apply Hp.
Qed.

Lemma judge o r r' k node : pending o r k node -> kept r r' -> nexted (table_at table t k) r r' ->
  exists r2, check_result false (acm_step ASN_PRIV_RETRY r') = Ret r2 /\ kept r r2 /\ judged o r k node r2.
Proof.
  intros Hp Hk (_ & _ & Hi & Hans). pose proof (end_fits _ _ (pe_top _ _ _ _ Hp)) as Hend. pose proof (pe_end _ _ _ _ Hp) as Hre.
  assert (Hkept : forall r1, kept r r1 -> kept r (result_step (end_a node) r1)).
  { intros r1 H1. eapply kept_trans; [exact H1|]. unfold result_step. by repeat case_match; simplify_eq. }
  destruct Hans as [(Hin & Haf & Hmin)|(Hnull & Hname & Hnone)].
  - destruct (gt_values Hg _ _ Hin) as (Hf & Hn1 & Hn2 & Hn3). unfold acm_step.
    rewrite (proj2 (Z.eqb_neq _ _) Hn1), (proj2 (Z.eqb_neq _ _) Hn2). cbn [orb].
    destruct (Z.eqb_spec (sees decides p (name r'.2) (type r'.2)) VACM_SUCCESS) as [Es|Es];
      (rewrite (check_result_step _ (end_a node)) by (cbn; first [done|by destruct Hk as (_ & _ & -> & _)]); eexists; split; [reflexivity|];
       split; [by apply Hkept|]); [by apply judge_seen|by apply judge_hidden].
  - assert (Ea : acm_step ASN_PRIV_RETRY r' = r') by (unfold acm_step; by rewrite Hnull). rewrite Ea.
    rewrite (check_result_step _ (end_a node)); [|by destruct Hk as (_ & _ & -> & _)|rewrite Hname; apply Hp|done]. eexists. split; [reflexivity|].
    split; [by apply Hkept|]. unfold result_step. rewrite Hname, (proj2 (Z.leb_gt _ _) (pe_before _ _ _ _ Hp)). destruct r' as [q' vb']. cbn [fst snd] in *.
    rewrite Hnull. change (ASN_NULL =? SNMP_ENDOFMIBVIEW) with false. cbv iota. right. right. by apply (none_exhausted o r).
Qed.

(** ** All requests of a pass *)

Context (access : M -> netsnmp_mib_handler M V -> registration -> Z -> list view -> W -> Z * list answer * bool * W).
Context (acm : netsnmp_pdu -> option (list Z) -> bool -> outcome Z) (Hacm : forall p n b, acm p n b = Ret (decides (header p) n b)).
Implicit Types (asp : agent_session) (w : W).

Lemma own_cons asp i l : own asp (i :: l) <-> (exists q vb, requests asp !! i = Some q /\ requestvb q = Some i /\ a_variables asp !! i = Some vb /\
  cell asp i = Some (q, vb)) /\ own asp l.
Proof.
  unfold own. rewrite Forall_cons. split; (intros [H1 H2]; split; [|exact H2]).
  - destruct H1 as ([q vb] & Hc & Ho). pose proof Hc as [? ?]%cell_some. exists q, vb. done.
  - destruct H1 as (q & vb & ? & ? & ? & Hc). by exists (q, vb).
Qed.

Lemma acm_pass l : forall asp ty, NoDup l -> own asp l -> header (a_pdu asp) = header p ->
  exists c asp', check_acm_loop acm l ty asp = Ret (c, asp') /\ changed l (fun _ r r' => r' = acm_step ty r) asp asp' /\ errors asp' = errors asp.
Proof.
  induction l as [|i l IH]; intros asp ty Hnd Ho Hh; [exists 0, asp; split_and!; [done|apply changed_nil|done]|].
  apply own_cons in Ho as ((q & vb & Hq & Hown & Hv & Hc) & Ho). apply NoDup_cons in Hnd as [Hi Hnd]. cbn [check_acm_loop].
  rewrite Hq. cbn. rewrite Hown. cbn. rewrite Hv. cbn.
  assert (Hskip : acm_step ty (q, vb) = (q, vb) -> exists c asp', check_acm_loop acm l ty asp = Ret (c, asp') /\
    changed (i :: l) (fun _ r r' => r' = acm_step ty r) asp asp' /\ errors asp' = errors asp).
  { intros E. destruct (IH asp ty Hnd Ho Hh) as (c & asp' & -> & Hch & He). exists c, asp'. split_and!; [done| |done].
    constructor; try apply Hch.
    - intros j [_ Hj]%not_elem_of_cons. by apply (ch_same _ _ _ _ Hch).
    - intros j [->|Hj]%elem_of_cons; [|by apply (ch_changed _ _ _ _ Hch)]. exists (q, vb), (q, vb). rewrite (ch_same _ _ _ _ Hch) by done.
      by rewrite E. }
  unfold acm_step in Hskip. cbn in Hskip. destruct ((type vb =? ASN_NULL) || (type vb =? ASN_PRIV_RETRY)) eqn:Es; [by apply Hskip|].
  rewrite (in_a_view_sees acm decides Hacm), bind_ret, (sees_header decides _ _ _ _ Hh).
  destruct (sees decides p (name vb) (type vb) =? VACM_SUCCESS) eqn:Ev; [by apply Hskip|]. clear Hskip.
  unfold change. rewrite Hv, set_null_is, !bind_ret. set (r' := (q, with_val (Some [0]) 0 (with_type ty vb))).
  assert (Eput : put_variable (Some i) r'.2 asp = put i r' asp).
  { unfold put. change (requestvb r'.1) with (requestvb q). rewrite Hown. change r'.1 with q. unfold with_requests, put_variable, with_a_variables, with_a_pdu. cbn. by rewrite (list_insert_id (requests asp) i q Hq). }
  change (with_val (Some [0]) 0 (with_type ty vb)) with r'.2. rewrite Eput.
  assert (H1 : changed [i] (fun _ r r' => r' = acm_step ty r) asp (put i r' asp)).
  { apply changed_one with (r := (q, vb)); [done| |exact Hown]. unfold acm_step. cbn. by rewrite Es, Ev. }
  destruct (IH (put i r' asp) ty Hnd) as (c & asp' & -> & Hch & He).
  - by apply (changed_own _ _ _ _ _ Ho H1).
  - rewrite <- Hh. destruct (shell_fields _ _ (ch_shell _ _ _ _ H1)) as (_ & _ & _ & _ & _ & _ & _ & _ & vs & ->). done.
  - rewrite bind_ret. eexists _, asp'. split_and!; [reflexivity| |by rewrite He, put_errors].
    apply (changed_app [i] l _ _ (put i r' asp)); [by intros j ->%list_elem_of_singleton|done|done].
Qed.

(** The requests that go on are counted. *)
Lemma results_pass (F : nat -> view -> view -> Prop) l : forall asp, NoDup l -> own asp l ->
  (forall i r, i ∈ l -> cell asp i = Some r -> exists r', check_result false r = Ret r' /\ kept r r' /\ F i r r') ->
  exists count asp', check_results false l asp = Ret (count, asp') /\ changed l F asp asp' /\ errors asp' = errors asp /\
    (count = O <-> forall i r, i ∈ l -> cell asp' i = Some r -> still r = false).
Proof.
  induction l as [|i l IH]; intros asp Hnd Ho HF.
  { exists O, asp. split_and!; [done|apply changed_nil|done|]. split; [intros _ i r Hi; by apply elem_of_nil in Hi|done]. }
  apply own_cons in Ho as ((q & vb & Hq & Hown & Hv & Hc) & Ho). apply NoDup_cons in Hnd as [Hi Hnd]. cbn [check_results].
  match goal with |- context [match ?x with Some r => _ | None => Null end] =>
    assert (x = Some (q, vb)) as -> by (rewrite Hq; cbn; rewrite Hown; cbn; by rewrite Hv) end.
  destruct (HF i (q, vb)) as (r' & -> & Hk & Hr'); [by left|done|]. rewrite bind_ret.
  pose proof (kept_own _ _ _ Hk (Hown : own_place i (q, vb))) as Hown'.
  assert (H1 : changed [i] F asp (put i r' asp)) by (by eapply changed_one).
  destruct (IH (put i r' asp) Hnd) as (count & asp' & -> & Hch & He & Hcount).
  - by apply (changed_own _ _ _ _ _ Ho H1).
  - intros j r Hj. rewrite (ch_same _ _ _ _ H1) by (by intros ->%list_elem_of_singleton). apply HF. by right.
  - rewrite bind_ret. eexists _, asp'. split_and!; [reflexivity| |by rewrite He, put_errors|].
    + apply (changed_app [i] l _ _ (put i r' asp)); [by intros j ->%list_elem_of_singleton|done|done].
    + assert (Hi' : cell asp' i = Some r').
      { rewrite (ch_same _ _ _ _ Hch) by done. rewrite put_cell by (by rewrite ?Hc). by rewrite decide_True. }
      fold (still r'). destruct (still r') eqn:E.
      * split; [done|]. intros Hall. specialize (Hall i r' (list_elem_of_here _ _) Hi'). congruence.
      * rewrite Hcount. split; intros Hall j r.
        -- intros [->|Hj]%elem_of_cons; [|by apply Hall]. rewrite Hi'. by intros [= <-].
        -- intros Hj. apply Hall. by right.
Qed.

(** ** On to the next region *)

Definition hidden_at (k : nat) : Prop := forall node, top t k = Some node -> hides decides p node = true.

Lemma next_shown_spec k0 :
  match next_shown decides p (drop k0 t) k0 with
  | Some k => (k0 <= k)%nat /\ (exists node, top t k = Some node /\ hides decides p node = false) /\
                (forall k', (k0 <= k' < k)%nat -> hidden_at k')
  | None => forall k', (k0 <= k')%nat -> hidden_at k'
  end.
Proof.
  remember (drop k0 t) as rest eqn:Er. revert k0 Er. induction rest as [|stack rest IH]; intros k0 Er; cbn [next_shown].
  - intros k' Hk' node Hn. unfold top in Hn. assert (Hge : (length t <= k0)%nat).
    { apply (f_equal length) in Er. rewrite length_drop in Er. cbn in Er. lia. }
    by rewrite lookup_ge_None_2 in Hn by lia.
  - assert (Hk : t !! k0 = Some stack) by (rewrite <- (Nat.add_0_r k0), <- lookup_drop, <- Er; done).
    assert (Er' : rest = drop (S k0) t).
    { rewrite <- (Nat.add_1_r k0), <- drop_drop, <- Er. done. }
    pose proof (sr_fit _ Ht) as Hfit. unfold regions_fit in Hfit. rewrite Forall_forall in Hfit.
    destruct (Hfit stack) as (s & l & -> & _); [by eapply list_elem_of_lookup_2|].
    assert (Hhere : top t k0 = Some s) by (unfold top; by rewrite Hk). specialize (IH (S k0) Er').
    destruct (hides decides p s) eqn:Eh.
    + assert (H0 : hidden_at k0) by (intros node Hn; rewrite Hhere in Hn; by injection Hn as <-).
      destruct (next_shown decides p rest (S k0)) as [k|].
      * destruct IH as (Hle & Hnode & Hbetween). split_and!; [lia|done|]. intros k' Hk'. destruct (decide (k' = k0)) as [->|]; [done|]. apply Hbetween. lia.
      * intros k' Hk'. destruct (decide (k' = k0)) as [->|]; [done|]. apply IH. lia.
    + split_and!; [done|by exists s|]. intros k' Hk'. lia.
Qed.

Lemma sought_not_hidden o v k : sought o v -> at_region t (name v) k -> hidden_at k -> False.
Proof.
  intros ((k' & Hat & Hin) & Hv & _) Hk Hhid. rewrite (at_region_unique _ _ _ Hat Hk) in Hin. pose proof Hk as (node & Hn & _).
  exact (gt_hidden Hg k node v Hn (Hhid node Hn) Hin Hk Hv).
Qed.

(** Past the region that is done, and the hidden ones: nothing is left, or the
    request is on its way in the next one that is shown. *)
Lemma advance o r k node : exhausted o r k node ->
  match next_shown decides p (drop (S k) t) (S k) with
  | Some k2 => exists node2, (k < k2)%nat /\ top t k2 = Some node2 /\
      forall r2, q_subtree r2.1 = Some k2 -> range_end r2.1 = Some (end_a node2) -> inclusive r2.1 = inclusive r.1 -> name r2.2 = name r.2 ->
        pending o r2 k2 node2
  | None => forall v, ~ sought o v
  end.
Proof.
  intros [E1 E2 E3 E4 E5 E6 E7 E8 E9 _]. pose proof (next_shown_spec (S k)) as Hn.
  assert (Hpast : forall v, sought o v -> exists k', at_region t (name v) k' /\ (k < k')%nat).
  { intros v Hs. pose proof Hs as [(k' & Hat & _) _]. exists k'. split; [done|]. pose proof Hat as (node' & Hk' & _ & Hlt).
    destruct (Nat.lt_ge_cases k k') as [|Hle]; [done|]. exfalso. pose proof (E7 v Hs) as He.
    destruct (decide (k' = k)) as [->|Hne].
    - rewrite E2 in Hk'. injection Hk' as <-. pose proof (lex_lt_le _ _ _ Hlt He) as Hx. rewrite lex_refl in Hx. lia.
    - pose proof (sr_order _ Ht k' k _ _ ltac:(lia) Hk' E2) as Ho. pose proof (sr_span _ Ht _ _ E2) as Hsp.
      pose proof (lex_lt_le _ _ _ (lex_lt_le _ _ _ Hlt Ho) (lex_le_trans _ _ _ (Z.lt_le_incl _ _ Hsp) He)) as Hx. rewrite lex_refl in Hx. lia. }
  destruct (next_shown decides p (drop (S k) t) (S k)) as [k2|].
  - destruct Hn as (Hle & (node2 & Hk2 & Hsh) & Hbetween). exists node2. split_and!; [lia|done|]. intros r2 R1 R2 R3 R4.
    pose proof (sr_order _ Ht k k2 _ _ ltac:(lia) E2 Hk2) as Ho. pose proof (sr_span _ Ht _ _ Hk2) as Hsp.
    constructor; rewrite ?R3, ?R4; try done.
    + exact (lex_le_lt _ _ _ (lex_le_trans _ _ _ E5 Ho) Hsp).
    + intros v Hs. unfold after. rewrite R3, R4. by apply E6.
    + intros v Hs. destruct (Hpast v Hs) as (k' & Hat & Hlt). pose proof Hat as (node' & Hk' & Hst & _).
      destruct (lt_eq_lt_dec k' k2) as [[Hx| ->]|Hx].
      * destruct (sought_not_hidden o v k' Hs Hat). apply Hbetween. lia.
      * rewrite Hk2 in Hk'. by injection Hk' as <-.
      * pose proof (sr_order _ Ht _ _ _ _ Hx Hk2 Hk') as Ho'. exact (lex_le_trans _ _ _ (Z.lt_le_incl _ _ Hsp) (lex_le_trans _ _ _ Ho' Hst)).
  - intros v Hs. destruct (Hpast v Hs) as (k' & Hat & Hlt). apply (sought_not_hidden o v k' Hs Hat). apply Hn. lia.
Qed.

(** ** Requests for the next pass *)

Context (n : nat) (memory : forall size, size <= 128 * (Z.of_nat n + 64) -> alloc size = true).
Context (size : nat) (Hsize : forall k, (length (table_at table t k) <= size)%nat).
Context (names : list (list Z)) (Hnames : length names = n).

(** The turns that are left at most for a request in the region [k]. *)
Definition rank (k : nat) vb : nat := (length t - k) * S size + left_in k vb.

Lemma left_size k vb : (left_in k vb <= size)%nat.
Proof. clear -Hsize. unfold left_in. pose proof (length_filter (fun v => lex (name vb) (name v) < 0) (table_at table t k)). pose proof (Hsize k). lia. Qed.

Definition final o r : Prop :=
  still r = false /\ (answered_now o r \/ type r.2 = SNMP_ENDOFMIBVIEW /\ (forall v, ~ sought o v)).

Definition linked i r : Prop := own_place i r /\ q_index r.1 = Z.of_nat i + 1.

(** A request in a slot, to be given to its handler, that is answered in less
    than [f] passes. *)
Definition asked_for (f i : nat) o r : Prop :=
  linked i r /\ new_view r /\ exists k node, pending o r k node /\ (rank k r.2 < f)%nat.

(** A request after the checks. *)
Definition waiting (f i : nat) o r : Prop :=
  final o r /\ (requestvb r.1 = None \/ own_place i r /\ is_Some (q_subtree r.1)) \/
  linked i r /\ (type r.2 = ASN_PRIV_RETRY /\ (exists k node, pending o r k node /\ (rank k r.2 < f)%nat) \/
                 (exists k node, exhausted o r k node /\ (k < length t)%nat /\ ((length t - k) * S size <= f)%nat)).

Definition settled (i : nat) o r : Prop := final o r /\ (requestvb r.1 = None \/ own_place i r /\ is_Some (q_subtree r.1)).

Lemma add_search asp i tp r : is_search asp = true -> cache_ok t asp -> length (a_variables asp) = n -> cell asp i = Some r -> i ∉ in_slots asp ->
  exists asp', netsnmp_add_varbind_to_cache acm t i i tp asp = Ret asp' /\ cache_ok t asp' /\
    match (match tp with Some k0 => next_shown decides (a_pdu asp) (drop k0 t) k0 | None => None end) with
    | Some k => exists node, top t k = Some node /\ cell_set i (made asp i k node r) asp asp' /\ in_slots asp' ≡ₚ i :: in_slots asp
    | None => cell_set i (r.1, with_type SNMP_ENDOFMIBVIEW r.2) asp asp' /\ in_slots asp' = in_slots asp
    end.
Proof.
  intros Hs Hc Hn Hcell Hi. pose proof (sr_fit _ Ht) as Hfit. destruct r as [q vb]. pose proof Hcell as [Hq Hv]%cell_some.
  assert (Hskip : forall k0, skip_hidden acm (a_pdu asp) (drop k0 t) k0 = Ret (next_shown decides (a_pdu asp) (drop k0 t) k0))
    by (intros k0; by apply (skip_next_shown acm decides Hacm), Forall_drop).
  assert (Hend : (match tp with Some k0 => next_shown decides (a_pdu asp) (drop k0 t) k0 | None => None end) = None ->
    exists asp', netsnmp_add_varbind_to_cache acm t i i tp asp = Ret asp' /\ cache_ok t asp' /\
      cell_set i (q, with_type SNMP_ENDOFMIBVIEW vb) asp asp' /\ in_slots asp' = in_slots asp).
  { intros En. destruct (change_variable t asp i q vb (with_type SNMP_ENDOFMIBVIEW vb)) as (Hc' & Hin & Hset); [done..|].
    exists (put_variable (Some i) (with_type SNMP_ENDOFMIBVIEW vb) asp). split_and!; try done.
    unfold netsnmp_add_varbind_to_cache. rewrite Hv, Hs. destruct tp as [k0|]; [|by rewrite bind_ret]. by rewrite Hskip, En, bind_ret. }
  destruct tp as [k0|]; [|by apply Hend]. destruct (next_shown decides (a_pdu asp) (drop k0 t) k0) as [k|] eqn:En; [|by apply Hend].
  destruct (next_shown_top decides t (a_pdu asp) Hfit k0 k En) as [node Hnode].
  destruct (add_request acm n memory t asp i k0 k node (q, vb)) as (asp' & E & Hc' & Hperm & Hset); [done..|by rewrite Hs, Hskip, En|].
  exists asp'. split_and!; [done..|]. by exists node.
Qed.

Lemma made_asked f asp i k node o r : a_command asp = SNMP_MSG_GETNEXT -> type r.2 = ASN_NULL ->
  pending o (made asp i k node r) k node -> (rank k r.2 < f)%nat -> asked_for f i o (made asp i k node r).
Proof.
  intros Hcmd Hty Hp Hr. unfold asked_for, linked, own_place, new_view, made in *. rewrite Hcmd in *. cbn in *. split_and!; try done.
  exists k, node. split; [done|]. exact Hr.
Qed.

Lemma cell_set_same asp i r : cell asp i = Some r -> cell_set i r asp asp.
Proof. intros Hc. constructor; try done. intros j. by destruct (decide (i = j)) as [<-|]. Qed.

Lemma cell_set_trans i r1 r2 asp1 asp2 asp3 : cell_set i r1 asp1 asp2 -> cell_set i r2 asp2 asp3 -> cell_set i r2 asp1 asp3.
Proof.
  intros [A1 A2 A3 A4] [B1 B2 B3 B4]. constructor; try congruence. intros j. rewrite B1, A1. by destruct (decide (i = j)).
Qed.

Definition reassigned (f i : nat) o : agent_session -> agent_session -> Prop := reassigned_one t (asked_for f i o) (settled i o) i.

Lemma reassign_exhausted f asp i o r k node : a_command asp = SNMP_MSG_GETNEXT -> header (a_pdu asp) = header p -> cache_ok t asp ->
  length (a_variables asp) = n -> cell asp i = Some r -> i ∉ in_slots asp -> linked i r -> exhausted o r k node -> (k < length t)%nat ->
  ((length t - k) * S size <= f)%nat -> exists asp', reassign_one acm t i asp = Ret asp' /\ reassigned f i o asp asp'.
Proof.
  intros Hcmd Hh Hc Hn Hcell Hi [Hown Hidx] He Hk Hf. destruct r as [q vb]. pose proof Hcell as [Hq Hv]%cell_some. unfold own_place in Hown. cbn in Hown, Hidx.
  assert (Hs : is_search asp = true) by (unfold is_search; by rewrite Hcmd).
  unfold reassign_one. rewrite Hq, Hown, Hv. pose proof (ex_region _ _ _ _ He) as Hsub. pose proof (ex_type _ _ _ _ He) as Hty. cbn in Hsub, Hty.
  rewrite Hsub, Hty, Hidx. change (ASN_NULL =? ASN_NULL) with true. cbv iota. replace (Z.to_nat (Z.of_nat i + 1 - 1)) with i by lia.
  destruct (add_search asp i (next_region t k) (q, vb) Hs Hc Hn Hcell Hi) as (asp' & -> & Hc' & Hres). exists asp'. split; [done|]. split; [done|].
  assert (Enext : match next_region t k with Some k0 => next_shown decides (a_pdu asp) (drop k0 t) k0 | None => None end
    = next_shown decides p (drop (S k) t) (S k)).
  { unfold next_region. case_bool_decide; [by apply next_shown_header|]. by rewrite drop_ge by lia. }
  rewrite Enext in Hres. pose proof (advance _ _ _ _ He) as Hadv. destruct (next_shown decides p (drop (S k) t) (S k)) as [k2|].
  - destruct Hres as (node' & Hk2 & Hset & Hperm). destruct Hadv as (node2 & Hlt & Hk2' & Hpend). rewrite Hk2 in Hk2'. injection Hk2' as <-.
    eexists. split; [exact Hset|]. left. split; [done|]. apply made_asked; [done|done| |].
    + apply Hpend; try done; unfold made; rewrite ?Hcmd, ?Hs; cbn; by rewrite ?Hty.
    + unfold rank. pose proof (left_size k2 vb). cbn [snd]. assert (Hl : (length t - k2 < length t - k)%nat) by lia.
      assert (((length t - k2) * S size + S size <= (length t - k) * S size)%nat) by nia. lia.
  - destruct Hres as [Hset Hin]. eexists. split; [exact Hset|]. right. split; [done|]. split.
    + split; [done|]. by right.
    + right. split; [exact Hown|]. by eexists.
Qed.

Lemma reassign_waiting f asp i o r : a_command asp = SNMP_MSG_GETNEXT -> header (a_pdu asp) = header p -> cache_ok t asp ->
  length (a_variables asp) = n -> cell asp i = Some r -> i ∉ in_slots asp -> waiting f i o r ->
  exists asp', reassign_one acm t i asp = Ret asp' /\ reassigned f i o asp asp'.
Proof.
  intros Hcmd Hh Hc Hn Hcell Hi [[Hfin Hreq]|[Hlink [[Hty (k & node & Hp & Hr)]|(k & node & He & Hk & Hf)]]].
  - exists asp. split; [|split; [done|]; exists r; split; [by apply cell_set_same|right; done]].
    destruct Hfin as [Hst _]. by apply (reassign_still acm t asp i r).
  - destruct r as [q vb]. destruct Hlink as [Hown Hidx]. pose proof Hcell as [Hq Hv]%cell_some. unfold own_place in Hown. cbn in Hown, Hidx, Hty.
    unfold reassign_one. pose proof (pe_region _ _ _ _ Hp) as Hsub. cbn in Hsub. rewrite Hq, Hown, Hv, Hsub, Hty, Hidx.
    change (ASN_PRIV_RETRY =? ASN_NULL) with false. change (ASN_PRIV_RETRY =? ASN_PRIV_RETRY) with true. cbv iota.
    replace (Z.to_nat (Z.of_nat i + 1 - 1)) with i by lia.
    destruct (change_variable t asp i q vb (with_type ASN_NULL vb)) as (Hc1 & Hin1 & Hset1); [done..|].
    set (asp1 := put_variable (Some i) (with_type ASN_NULL vb) asp) in *. pose proof (outer_fields _ _ (cs_outer _ _ _ _ Hset1)) as (Eh1 & Ec1 & _).
    assert (Hs1 : is_search asp1 = true) by (unfold is_search; by rewrite Ec1, Hcmd).
    assert (Hcell1 : cell asp1 i = Some (q, with_type ASN_NULL vb)) by (by rewrite (cs_cell _ _ _ _ Hset1), decide_True).
    destruct (add_search asp1 i (Some k) (q, with_type ASN_NULL vb)) as (asp' & -> & Hc' & Hres); [done|done|by rewrite (cs_length _ _ _ _ Hset1)|done|by rewrite Hin1|].
    exists asp'. split; [done|]. split; [done|].
    assert (Ek : next_shown decides (a_pdu asp1) (drop k t) k = Some k).
    { rewrite (next_shown_header decides _ p) by (by rewrite Eh1). pose proof (pe_top _ _ _ _ Hp) as Htop. unfold top in Htop.
      destruct (t !! k) as [stack|] eqn:Est; [|done]. rewrite (drop_S _ _ _ Est). destruct stack as [|s l]; [done|]. cbn in Htop. injection Htop as ->.
      cbn [next_shown]. by rewrite (pe_shown _ _ _ _ Hp). }
    rewrite Ek in Hres. destruct Hres as (node' & Hnode' & Hset & Hperm). rewrite (pe_top _ _ _ _ Hp) in Hnode'. injection Hnode' as <-.
    eexists. split; [by eapply cell_set_trans|]. left. split; [by rewrite Hperm, Hin1|]. apply made_asked; [by rewrite Ec1|done| |exact Hr].
    destruct Hp as [P1 P2 P3 P4 P5 P6 P7 P8 P9 P10 P11]. unfold made. rewrite Hs1, Ec1, Hcmd. cbn. constructor; done.
  - by eapply reassign_exhausted.
Qed.

(** ** The state of the loop *)

(** Every variable is in the hands of a handler, or has its answer. *)
Definition all_asked (f : nat) : agent_session -> Prop :=
  all_served t p n no_errors (fun i r => forall o, names !! i = Some o -> asked_for f i o r) (fun i r => forall o, names !! i = Some o -> settled i o r).

(** The answers were checked. *)
Definition all_waiting (f : nat) : agent_session -> Prop := all_waits t p n no_errors (fun i r => forall o, names !! i = Some o -> waiting f i o r).

Lemma reassign_all f asp : all_waiting f asp -> exists asp', netsnmp_reassign_requests acm t asp = Ret asp' /\ all_asked f asp'.
Proof.
  apply reassign_spec; [exact memory|]. intros asp1 i r [Hcmd _ Hh Hl _ _ _] Hc Hr Hi Hw.
  destruct (lookup_lt_is_Some_2 names i) as [o Ho].
  { apply cell_some_lt in Hr. lia. }
  destruct (reassign_waiting f asp1 i o r Hcmd Hh Hc Hl Hr Hi (Hw o Ho)) as (asp2 & -> & Hc2 & r2 & Hset & Hres). exists asp2. split; [done|]. split; [done|].
  exists r2. split; [done|]. destruct Hres as [[? ?]|[? ?]]; [left|right]; (split; [done|]); intros o' Ho'; rewrite Ho in Ho'; by injection Ho' as <-.
Qed.

(** ** A turn of the loop *)

Lemma kept_joined r r1 r2 : kept r r1 -> kept r r2 -> kept r1 r2.
Proof. intros (A1 & A2 & A3 & A4) (B1 & B2 & B3 & B4). repeat split; congruence. Qed.

Lemma acm_step_first ty r : (acm_step ty r).1 = r.1.
Proof. unfold acm_step. by repeat case_match. Qed.

Lemma acm_step_kept ty r : kept r (acm_step ty r).
Proof. unfold acm_step. by repeat case_match. Qed.

Lemma check_result_delegated r r' : check_result false r = Ret r' -> delegated r'.1 = delegated r.1.
Proof.
  destruct r as [q vb]. unfold check_result, beyond. cbn [andb]. rewrite bind_ret.
  destruct (snmp_oid_compare _ _ _ _) as [c| | |]; [|done..]. rewrite bind_ret. destruct (0 <=? c).
  - destruct (snmp_set_var_objid _ _) as [vb1|]; [|done]. rewrite set_null_is, !bind_ret. by case_match; intros [= <-].
  - rewrite bind_ret. by case_match; intros [= <-].
Qed.

Lemma cache_ok_kept l asp asp' : cache_ok t asp -> changed l (fun _ => kept) asp asp' -> cache_ok t asp'.
Proof.
  intros [C1 C2 C3 C4 C5] Hch. pose proof (shell_fields _ _ (ch_shell _ _ _ _ Hch)) as (E1 & E2 & E3 & _).
  pose proof (ch_requests _ _ _ _ Hch) as Lr. pose proof (ch_variables _ _ _ _ Hch) as Lv. constructor; unfold in_slots; rewrite ?E1, ?E2, ?E3; [|done|done|congruence|by rewrite Lv].
  eapply Forall_impl; [exact C1|]. intros s (? & ? & Hr). split_and!; [done..|]. eapply Forall_impl; [exact Hr|].
  intros i (q & vb & k & Hc & Ho & Hk & Htop & Hone). destruct (decide (i ∈ l)) as [Hi|Hi].
  - destruct (ch_changed _ _ _ _ Hch i Hi) as (r & [q' vb'] & Hc1 & Hc2 & (K1 & _) & Ho'). rewrite Hc in Hc1. injection Hc1 as <-.
    exists q', vb', k. split_and!; try done. cbn in K1. by rewrite K1.
  - exists q, vb, k. by rewrite (ch_same _ _ _ _ Hch).
Qed.

Lemma message_ok_changed l R asp asp' : message_ok p n no_errors asp -> changed l R asp asp' -> errors asp' = errors asp -> message_ok p n no_errors asp'.
Proof.
  intros [M1 M2 M3 M4 M5 M6 M7] Hch He. pose proof (shell_fields _ _ (ch_shell _ _ _ _ Hch)) as (_ & _ & _ & E4 & _ & E6 & E7 & E8 & vs & E9).
  pose proof (ch_variables _ _ _ _ Hch) as Lv. constructor; try congruence. rewrite E9. exact M3.
Qed.

(** The handlers of the regions serve a GETNEXT. *)
Definition serves_getnext : Prop := forall k node rs w, top t k = Some node -> rs <> [] -> Forall new_view rs ->
  exists rs' w', netsnmp_call_handlers access (t_reginfo node) SNMP_MSG_GETNEXT rs w = (0, rs', w') /\ Forall2 (nexted (table (t_reginfo node))) rs rs'.
Context (Hserve : serves_getnext).

Lemma slots_kept R good asp slots : slots_answer access t R good asp slots -> slots_answer access t (fun r r' => kept r r' /\ R r r') good asp slots.
Proof.
  intros Hans s node rs w Hs Hnode Hrs. destruct (Hans s node rs w Hs Hnode Hrs) as (st & rs' & w' & E & HR & Hgood).
  exists st, rs', w'. split_and!; try done. apply handlers_kept in E. clear -E HR. induction E; inversion HR; subst; constructor; auto.
Qed.

(** The handlers' answers to all that is asked for. *)
Lemma handed f asp w : all_asked f asp -> exists asp1 w1, handle_var_requests access t asp w = Ret (0, asp1, w1) /\
  changed (in_slots asp) (fun _ r r' => kept r r' /\ by_table table t nexted r r') (with_reqinfo (Some (a_mode asp)) asp) asp1 /\ errors asp1 = errors asp.
Proof.
  intros [Hc Hm Hcells]. pose proof Hm as [Hcmd Hmode Hh Hl He Hri Hor].
  assert (Hnew : forall i r, i ∈ in_slots asp -> cell asp i = Some r -> new_view r).
  { intros i r Hi Hr. pose proof (in_slots_below _ _ Hc) as Hb. rewrite Forall_forall in Hb. specialize (Hb i Hi).
    destruct (lookup_lt_is_Some_2 names i) as [o Ho]; [lia|]. destruct (Hcells i) as (r0 & Hr0 & [[_ Ha]|[Hni _]]); [lia| |done].
    rewrite Hr in Hr0. injection Hr0 as <-. by destruct (Ha o Ho) as (_ & Hn & _). }
  destruct (pass_spec access t (fun r r' => kept r r' /\ by_table table t nexted r r') true asp w) as (st & asp1 & w1 & -> & Hch & Hgood & _); [done|by apply cache_slots_ok| |].
  { apply slots_kept. apply (slots_serve access table t SNMP_MSG_GETNEXT nexted); try done; [apply (gt_shared Hg)|by intros ??? (_ & ? & _)]. }
  destruct (Hgood eq_refl) as [-> Herr]; [by injection He|]. by exists asp1, w1.
Qed.

(** What the checks make of one of them. *)
Definition checked (f i : nat) r2 : Prop :=
  delegated r2.1 = 0 /\ forall o, names !! i = Some o -> linked i r2 /\ is_Some (q_subtree r2.1) /\
    (answered_now o r2 /\ still r2 = false \/ exists f', f = S f' /\ waiting f' i o r2).

Lemma checked_one f i o r r1 : names !! i = Some o -> asked_for f i o r -> kept r r1 -> by_table table t nexted r r1 ->
  exists r2, check_result false (acm_step ASN_PRIV_RETRY r1) = Ret r2 /\ kept (acm_step ASN_PRIV_RETRY r1) r2 /\ checked f i r2.
Proof.
  intros Ho ([Hown Hidx] & _ & k & node & Hp & Hr) Hk (k' & Hk' & Hn). pose proof (pe_region _ _ _ _ Hp) as Hreg. rewrite Hreg in Hk'. injection Hk' as <-.
  destruct (judge o r r1 k node Hp Hk Hn) as (r2 & E & Hk2 & Hj). exists r2. split; [done|].
  pose proof (kept_trans _ _ _ Hk (acm_step_kept ASN_PRIV_RETRY r1)) as Hka. split; [by eapply kept_joined|].
  assert (Hl2 : linked i r2) by (split; [by eapply kept_own|]; destruct Hk2 as (_ & _ & _ & ->); done).
  split.
  - rewrite (check_result_delegated _ _ E). destruct Hn as [Hd _]. unfold acm_step. by repeat case_match.
  - intros o' Ho'. rewrite Ho in Ho'. injection Ho' as <-. split; [done|]. split; [destruct Hk2 as (-> & _); by rewrite Hreg|].
    destruct Hj as [Hj|[(Hty & Hp2 & Hleft)|Hex]]; [by left|right..].
    + destruct f as [|f']; [lia|]. exists f'. split; [done|]. right. split; [done|]. left. split; [done|]. exists k, node. split; [done|].
      unfold rank in *. lia.
    + destruct f as [|f']; [lia|]. exists f'. split; [done|]. right. split; [done|]. right. exists k, node. unfold rank in Hr.
      pose proof (pe_top _ _ _ _ Hp) as Htop. unfold top in Htop. split_and!; [done| |lia].
      destruct (t !! k) as [stack|] eqn:Es; [|done]. by eapply lookup_lt_Some.
Qed.

Lemma settled_when_still f i o r : still r = false -> linked i r /\ is_Some (q_subtree r.1) /\
    (answered_now o r /\ still r = false \/ exists f', f = S f' /\ waiting f' i o r) -> final o r.
Proof.
  intros Hst (_ & _ & [[Ha _]|(f' & _ & [[Hf _]|[_ [[Hty _]|(k & node & He & _)]]])]); [by split; [|left]|done|exfalso..].
  - unfold still in Hst. rewrite Hty in Hst. done.
  - unfold still in Hst. rewrite (ex_type _ _ _ _ He) in Hst. done.
Qed.

(** All variables have their answers. *)
Record all_final asp : Prop := {
  af_message : message_ok p n no_errors asp;
  af_delegated : netsnmp_check_for_delegated asp = Ret false;
  af_cells : forall i o, names !! i = Some o -> exists r, cell asp i = Some r /\ final o r
}.

Lemma turn f asp w : all_asked f asp -> exists asp1 w1 c asp2 count asp3, handle_var_requests access t asp w = Ret (0, asp1, w1) /\
  netsnmp_check_for_delegated asp1 = Ret false /\ check_acm acm ASN_PRIV_RETRY asp1 = Ret (c, asp2) /\
  check_getnext_results asp2 = Ret (count, asp3) /\
  (count = O /\ all_final asp3 \/ count <> O /\ exists f', f = S f' /\ all_waiting f' asp3).
Proof.
  intros Ha. destruct (handed f asp w Ha) as (asp1 & w1 & E1 & Hch1 & He1). pose proof Ha as [Hc Hm Hcells].
  set (l := in_slots asp) in *. assert (Ho0 : own asp l) by apply (cache_slots_ok _ _ Hc).
  assert (Hslots : forall a b, treecache a = treecache b -> in_slots a = in_slots b) by (intros a b E; unfold in_slots; by rewrite E).
  pose proof (shell_fields _ _ (ch_shell _ _ _ _ Hch1)) as (T1 & _). assert (L1 : in_slots asp1 = l) by (by apply Hslots).
  assert (Hm0 : message_ok p n no_errors (with_reqinfo (Some (a_mode asp)) asp)) by (destruct Hm; by constructor).
  pose proof (message_ok_changed _ _ _ _ Hm0 Hch1 He1) as Hm1. pose proof (changed_own _ _ _ _ _ (Ho0 : own (with_reqinfo (Some (a_mode asp)) asp) l) Hch1) as Ho1.
  assert (Hin : forall i, i ∈ l -> exists o r r1, names !! i = Some o /\ asked_for f i o r /\ cell asp i = Some r /\ cell asp1 i = Some r1 /\
    kept r r1 /\ by_table table t nexted r r1).
  { intros i Hi. pose proof (in_slots_below _ _ Hc) as Hb. rewrite Forall_forall in Hb. specialize (Hb i Hi).
    destruct (lookup_lt_is_Some_2 names i) as [o Ho]; [pose proof (mo_length _ _ _ _ Hm); lia|]. destruct (Hcells i) as (r & Hr & [[_ Hask]|[Hni _]]); [pose proof (mo_length _ _ _ _ Hm); lia| |done]. specialize (Hask o Ho).
    destruct (ch_changed _ _ _ _ Hch1 i Hi) as (r' & r1 & Hr' & Hr1 & [Hk Hn] & _). change (cell asp i = Some r') in Hr'. rewrite Hr in Hr'. injection Hr' as <-. eauto 10. }
  destruct (acm_pass l asp1 ASN_PRIV_RETRY (ca_once _ _ Hc) Ho1 (mo_header _ _ _ _ Hm1)) as (c & asp2 & E2 & Hch2 & He2).
  pose proof (message_ok_changed _ _ _ _ Hm1 Hch2 He2) as Hm2. pose proof (changed_own _ _ _ _ _ Ho1 Hch2) as Ho2.
  pose proof (shell_fields _ _ (ch_shell _ _ _ _ Hch2)) as (T2 & _). assert (L2 : in_slots asp2 = l) by (rewrite <- L1; by apply Hslots).
  destruct (results_pass (fun i r r' => kept r r' /\ checked f i r') l asp2 (ca_once _ _ Hc) Ho2) as (count & asp3 & E3 & Hch3 & He3 & Hcount).
  { intros i r2 Hi Hr2. destruct (Hin i Hi) as (o & r & r1 & Ho & Hask & _ & Hr1 & Hk & Hn).
    destruct (ch_changed _ _ _ _ Hch2 i Hi) as (r1' & r2' & Hr1' & Hr2' & -> & _). rewrite Hr1 in Hr1'. injection Hr1' as <-. rewrite Hr2 in Hr2'. injection Hr2' as ->.
    destruct (checked_one f i o r r1) as (r3 & E & Hk3 & Hc3); [done..|]. by exists r3. }
  pose proof (message_ok_changed _ _ _ _ Hm2 Hch3 He3) as Hm3. pose proof (changed_own _ _ _ _ _ Ho2 Hch3) as Ho3.
  pose proof (shell_fields _ _ (ch_shell _ _ _ _ Hch3)) as (T3 & _). assert (L3 : in_slots asp3 = l) by (rewrite <- L2; by apply Hslots).
  exists asp1, w1, c, asp2, count, asp3. split_and!; [done| |by unfold check_acm; rewrite L1| |].
  - apply none_delegated; rewrite L1; [done|]. intros i r1 Hi Hr1. destruct (Hin i Hi) as (o & r & r1' & _ & _ & _ & Hr1' & _ & k & _ & Hd & _).
    rewrite Hr1 in Hr1'. by injection Hr1' as <-.
  - unfold check_getnext_results. rewrite L2. pose proof (mo_mode _ _ _ _ Hm2) as ->. exact E3.
  - assert (Hslot : forall i r3, i ∈ l -> cell asp3 i = Some r3 -> checked f i r3).
    { intros i r3 Hi Hr3. destruct (ch_changed _ _ _ _ Hch3 i Hi) as (r2 & r3' & _ & Hr3' & [_ Hc3] & _). rewrite Hr3 in Hr3'. by injection Hr3' as <-. }
    assert (Hrest : forall i, i ∉ l -> cell asp3 i = cell asp i).
    { intros i Hi. by rewrite (ch_same _ _ _ _ Hch3), (ch_same _ _ _ _ Hch2), (ch_same _ _ _ _ Hch1). }
    assert (Hcache : cache_ok t asp3).
    { apply (cache_ok_kept l asp2); [|by eapply changed_impl, Hch3; intros ???? _ _ [? _]].
      apply (cache_ok_kept l asp1); [|eapply changed_impl, Hch2; intros ???? _ _ ->; apply acm_step_kept].
      apply (cache_ok_kept l (with_reqinfo (Some (a_mode asp)) asp)); [destruct Hc; by constructor|by eapply changed_impl, Hch1; intros ???? _ _ [? _]]. }
    assert (Hwhere : forall i o, names !! i = Some o -> exists r3, cell asp3 i = Some r3 /\ (i ∈ l /\ checked f i r3 \/ settled i o r3)).
    { intros i o Ho. destruct (Hcells i) as (r & Hr & [[Hi _]|[Hi Hs]]); [apply lookup_lt_Some in Ho; lia|..].
      - destruct (ch_changed _ _ _ _ Hch3 i Hi) as (r2 & r3 & _ & Hr3 & _). exists r3. split; [done|]. left. split; [done|]. by apply Hslot.
      - exists r. rewrite Hrest by done. split; [done|]. right. by apply Hs. }
    clear -Hcount Hm3 Ho3 L3 Hslot Hcache Hwhere Hnames. destruct (decide (count = O)) as [Ec|Ec].
    + left. split; [done|]. constructor; [done|apply none_delegated; rewrite L3; [done|]|].
      * intros i r Hi Hr. by apply (Hslot i r).
      * intros i o Ho. destruct (Hwhere i o Ho) as (r & Hr & [[Hi [_ Hck]]|[Hs _]]); [|by exists r]. exists r. split; [done|].
        exact (settled_when_still f i o r (proj1 Hcount Ec i r Hi Hr) (Hck o Ho)).
    + right. split; [done|]. destruct f as [|f'].
      { exfalso. apply Ec, Hcount. intros i r Hi Hr. destruct (Hslot i r Hi Hr) as [_ Hck]. pose proof (in_slots_below _ _ Hcache) as Hb.
        rewrite Forall_forall, L3 in Hb. specialize (Hb i Hi). destruct (lookup_lt_is_Some_2 names i) as [o Ho]; [pose proof (mo_length _ _ _ _ Hm3); lia|].
        destruct (Hck o Ho) as (_ & _ & [[_ ?]|(? & ? & _)]); done. }
      exists f'. split; [done|]. constructor; [done|done|]. intros i Hi0. destruct (lookup_lt_is_Some_2 names i) as [o Ho]; [lia|]. destruct (Hwhere i o Ho) as (r & Hr & [[Hi [_ Hck]]|Hs]);
        exists r; (split; [done|]); intros o' Ho'; rewrite Ho in Ho'; injection Ho' as <-; [|by left].
      destruct (Hck o Ho) as (Hl & Hsub & [[Hn Hst]|(f2 & [= <-] & Hw)]); [|done]. left. split; [by split; [|left]|]. right. by split; [apply Hl|].
Qed.

(** The loop ends, with the answers. *)
Lemma loop_final f : forall fuel asp asp1 w w1, (f < fuel)%nat -> all_asked f asp -> handle_var_requests access t asp w = Ret (0, asp1, w1) ->
  exists asp' w', handle_getnext_loop access acm fuel t asp1 w1 = Ret (0, asp', w') /\ all_final asp'.
Proof.
  induction f as [f IH] using lt_wf_ind; intros fuel asp asp1 w w1 Hf Ha E. destruct fuel as [|fuel]; [lia|].
  destruct (turn f asp w Ha) as (asp1' & w1' & c & asp2 & count & asp3 & E1 & Ed & E2 & E3 & Hres). rewrite E in E1. injection E1 as <- <-.
  cbn [handle_getnext_loop]. rewrite Ed, bind_ret. cbv iota. rewrite E2, bind_ret. cbv beta iota. rewrite E3, bind_ret. cbv beta iota.
  destruct Hres as [[-> Hfin]|(Hc & f' & -> & Hw)].
  - exists asp3, w1. done.
  - rewrite bool_decide_false by done. destruct (reassign_all f' asp3 Hw) as (asp4 & -> & Ha4). rewrite bind_ret.
    destruct (handed f' asp4 w1 Ha4) as (asp5 & w5 & E5 & _). rewrite E5, bind_ret. cbn [negb Z.eqb SNMP_ERR_NOERROR].
    by apply (IH f' ltac:(lia) fuel asp4 asp5 w1 w5); [lia|..].
Qed.
End next.

(** ** Whatever the handlers do *)

Section any.
Context {M V W : Type} `{Allocator}.
Abbreviation registration := (netsnmp_handler_registration M V).
Abbreviation tree := (list (list (netsnmp_subtree M V))).
Context (access : M -> netsnmp_mib_handler M V -> registration -> Z -> list view -> W -> Z * list answer * bool * W).
Context (acm : netsnmp_pdu -> option (list Z) -> bool -> outcome Z) (decides : netsnmp_pdu -> option (list Z) -> bool -> Z).
Context (Hacm : forall p o b, acm p o b = Ret (decides (header p) o b)).
Context (t : tree) (Ht : sorted_regions t) (p : netsnmp_pdu).
Context (n : nat) (memory : forall size, size <= 128 * (Z.of_nat n + 64) -> alloc size = true).
Implicit Types (asp : agent_session) (w : W) (r : view).

(** What may be sent. *)
Definition shown (vb : variable_list) : Prop := type vb = SNMP_ENDOFMIBVIEW \/ sees decides p (name vb) (type vb) = VACM_SUCCESS.

Definition rested i r : Prop := still r = false /\ shown r.2 /\ (requestvb r.1 = None \/ own_place i r /\ is_Some (q_subtree r.1)).

(** A request for which the search goes on. *)
Definition goes_on i r : Prop := linked i r /\ still r = true /\ is_Some (q_subtree r.1).

Lemma add_any asp i tp r : is_search asp = true -> cache_ok t asp -> length (a_variables asp) = n -> cell asp i = Some r -> i ∉ in_slots asp ->
  own_place i r -> is_Some (q_subtree r.1) ->
  exists asp', netsnmp_add_varbind_to_cache acm t i i tp asp = Ret asp' /\ reassigned_one t (linked i) (rested i) i asp asp'.
Proof.
  intros Hs Hc Hn Hcell Hi Ho Hsub. destruct (add_search t Ht decides acm Hacm n memory asp i tp r Hs Hc Hn Hcell Hi) as (asp' & -> & Hc' & Hres).
  exists asp'. split; [done|]. split; [done|]. destruct (match tp with Some _ => _ | None => _ end) as [k|].
  - destruct Hres as (node & _ & Hset & Hperm). eexists. split; [exact Hset|]. left. split; [done|]. unfold made, linked, own_place. by destruct (mode_is_set _).
  - destruct Hres as [Hset Hin]. eexists. split; [exact Hset|]. right. split; [done|]. split; [done|]. split; [by left|by right].
Qed.

Lemma reassign_any asp i r : message_ok p n any_errors asp -> cache_ok t asp -> cell asp i = Some r -> i ∉ in_slots asp -> rested i r \/ goes_on i r ->
  exists asp', reassign_one acm t i asp = Ret asp' /\ reassigned_one t (linked i) (rested i) i asp asp'.
Proof.
  intros Hm Hc Hcell Hi [Hr|Hr].
  - exists asp. split; [|split; [done|]; exists r; split; [by apply cell_set_same|by right]].
    destruct Hr as (Hst & _ & Hreq). by apply (reassign_still acm t asp i r).
  - destruct r as [q vb]. destruct Hr as ([Hown Hidx] & Hst & [k Hk]). pose proof Hcell as [Hq Hv]%cell_some. unfold own_place in Hown. cbn in Hown, Hidx, Hk.
    assert (Hs : is_search asp = true) by (unfold is_search; by rewrite (mo_command _ _ _ _ Hm)).
    unfold reassign_one. rewrite Hq, Hown, Hv, Hk, Hidx. replace (Z.to_nat (Z.of_nat i + 1 - 1)) with i by lia.
    unfold still in Hst. cbn in Hst. destruct (Z.eqb_spec (type vb) ASN_NULL) as [E|E].
    { apply (add_any asp i (next_region t k) (q, vb)); try done; by apply Hm. }
    cbn in Hst. rewrite Hst. destruct (change_variable t asp i q vb (with_type ASN_NULL vb)) as (Hc1 & Hin1 & Hset1); [done..|].
    set (asp1 := put_variable (Some i) (with_type ASN_NULL vb) asp) in *. pose proof (outer_fields _ _ (cs_outer _ _ _ _ Hset1)) as (_ & Ec1 & _).
    assert (Hs1 : is_search asp1 = true) by (unfold is_search; by rewrite Ec1, (mo_command _ _ _ _ Hm)).
    assert (Hcell1 : cell asp1 i = Some (q, with_type ASN_NULL vb)) by (by rewrite (cs_cell _ _ _ _ Hset1), decide_True).
    destruct (add_any asp1 i (Some k) (q, with_type ASN_NULL vb)) as (asp' & -> & Hc' & r' & Hset & Hres);
      [done|done|by rewrite (cs_length _ _ _ _ Hset1); apply Hm|done|by rewrite Hin1|done|by exists k|].
    exists asp'. split; [done|]. split; [done|]. exists r'. split; [by eapply cell_set_trans|]. by rewrite Hin1 in Hres.
Qed.

Lemma message_ok_any l R asp asp' : message_ok p n any_errors asp -> changed l R asp asp' -> message_ok p n any_errors asp'.
Proof.
  intros [M1 M2 M3 M4 M5 M6 M7] Hch. pose proof (shell_fields _ _ (ch_shell _ _ _ _ Hch)) as (_ & _ & _ & E4 & _ & E6 & E7 & E8 & vs & E9).
  pose proof (ch_variables _ _ _ _ Hch) as Lv. constructor; try congruence; try done. rewrite E9. exact M3.
Qed.

(** The message after a pass, whatever the handlers wrote into its requests. *)
Definition passed asp1 : Prop := exists asp, all_served t p n any_errors linked rested asp /\
  changed (in_slots asp) (fun _ => kept) (with_reqinfo (Some (a_mode asp)) asp) asp1.

Lemma changed_kept_trans l asp1 asp2 asp3 : changed l (fun _ => kept) asp1 asp2 -> changed l (fun _ => kept) asp2 asp3 ->
  changed l (fun _ => kept) asp1 asp3.
Proof. intros H1 H2. eapply changed_impl, changed_trans; [|exact H1|exact H2]. intros i r r' _ _ _ (r1 & ? & ?). by eapply kept_trans. Qed.

Lemma passed_slots asp1 : passed asp1 -> exists asp, all_served t p n any_errors linked rested asp /\
  changed (in_slots asp) (fun _ => kept) (with_reqinfo (Some (a_mode asp)) asp) asp1 /\ in_slots asp1 = in_slots asp.
Proof.
  intros (asp & Ha & Hch). exists asp. split_and!; [done..|]. pose proof (shell_fields _ _ (ch_shell _ _ _ _ Hch)) as (T1 & _).
  unfold in_slots. by rewrite T1.
Qed.

Lemma passed_message asp : passed asp -> message_ok p n any_errors asp.
Proof. intros (asp0 & [_ Hm _] & Hch). eapply message_ok_any, Hch. destruct Hm. by constructor. Qed.

Lemma passed_own asp : passed asp -> own asp (in_slots asp).
Proof.
  intros (asp0 & [Hc _ _] & Hch & El)%passed_slots. rewrite El.
  exact (changed_own _ _ _ _ _ (so_own _ _ _ (cache_slots_ok _ _ Hc) : own (with_reqinfo (Some (a_mode asp0)) asp0) _) Hch).
Qed.

Lemma passed_error st i asp : passed asp -> passed (with_error st i asp).
Proof. intros (asp0 & Ha & [C1 C2 C3 C4 C5]). exists asp0. split; [done|]. by constructor. Qed.

(** A handler writes its answer to a request later. *)
Lemma passed_written asp i r a : passed asp -> i ∈ in_slots asp -> cell asp i = Some r -> passed (put i (answered r (Some a)) asp).
Proof.
  intros (asp0 & Ha & Hch & El)%passed_slots Hi Hr. rewrite El in Hi. exists asp0. split; [done|].
  destruct (ch_changed _ _ _ _ Hch i Hi) as (r0 & r' & Hr0 & Hr' & Hk & Ho). rewrite Hr in Hr'. injection Hr' as <-.
  assert (Hka : kept r (answered r (Some a))) by by destruct r. assert (Hoa : own_place i (answered r (Some a))) by by eapply kept_own.
  constructor.
  - rewrite put_shell by done. apply Hch.
  - intros j Hj. rewrite put_cell by (by rewrite ?Hr). rewrite decide_False by naive_solver. by apply Hch.
  - intros j Hj. rewrite put_cell by (by rewrite ?Hr). destruct (decide (i = j)) as [<-|Hne]; [|by apply Hch].
    exists r0, (answered r (Some a)). split_and!; [done..| |done]. by eapply kept_trans.
  - rewrite put_requests, length_insert. apply Hch.
  - rewrite put_variables by done. rewrite length_insert. apply Hch.
Qed.

(** One pass. *)
Lemma pass_any asp w st asp1 w1 : all_served t p n any_errors linked rested asp -> handle_var_requests access t asp w = Ret (st, asp1, w1) ->
  passed asp1.
Proof.
  intros Ha E. exists asp. split; [done|]. destruct Ha as [Hc [_ _ _ _ _ Hri _] _].
  destruct (pass_spec access t kept false asp w Hri (cache_slots_ok _ _ Hc)) as (st' & asp' & w' & E' & Hch & _).
  { intros s node rs w0 _ _ _. destruct (netsnmp_call_handlers _ _ _ _ _) as [[st0 rs0] w2] eqn:E0. exists st0, rs0, w2. split_and!; [done| |done].
    by apply handlers_kept in E0. }
  rewrite E in E'. by injection E' as <- <- <-.
Qed.

(** The status of the requests is only looked at. *)
Lemma checked_errors asp look asp' : netsnmp_check_all_requests_status asp look = Ret asp' -> exists st i, asp' = with_error st i asp.
Proof.
  unfold netsnmp_check_all_requests_status. generalize (treecache asp) as slots. intros slots. revert asp.
  induction slots as [|s slots IH]; intros asp E; cbn [check_slots] in E; [injection E as <-; exists (a_status asp), (a_index asp); by destruct asp|].
  apply bind_Ret_inv in E as (rs & _ & E). apply IH in E as (st & i & ->). by exists st, i.
Qed.

Lemma delegated_none asp : own asp (in_slots asp) -> netsnmp_check_for_delegated asp = Ret false ->
  forall i r, i ∈ in_slots asp -> cell asp i = Some r -> delegated r.1 = 0.
Proof.
  intros Ho. unfold netsnmp_check_for_delegated, in_slots in *. induction (treecache asp) as [|s slots IH]; intros E i r Hi; [by apply elem_of_nil in Hi|].
  cbn [slots_delegated map concat] in *. apply Forall_app in Ho as [Ho1 Ho2]. destruct (views_own _ _ Ho1) as (rs & _ & Hrs).
  rewrite (slot_requests_own asp _ rs), bind_ret in E by (eapply Forall2_impl; [exact Hrs|by intros ?? []]).
  destruct (existsb _ _) eqn:Ex; [done|]. apply elem_of_app in Hi as [Hi|Hi]; [|by apply IH]. intros Hr.
  apply list_elem_of_lookup in Hi as [j Hj]. destruct (Forall2_lookup_l _ _ _ _ _ Hrs Hj) as (r' & Hr' & Hc & _). rewrite Hr in Hc. injection Hc as <-.
  destruct (Z.eq_dec (delegated r.1) 0) as [|Hd]; [done|]. exfalso. assert (existsb (fun q => negb (delegated q =? 0)) (map fst rs) = true); [|congruence].
  apply existsb_exists. exists r.1. split; [|by apply negb_true_iff, Z.eqb_neq]. apply in_map_iff. exists r. split; [done|]. apply list_elem_of_In. by eapply list_elem_of_lookup_2.
Qed.

Lemma check_result_cases r r' : check_result false r = Ret r' -> kept r r' /\ (type r'.2 = ASN_NULL \/ r' = r /\ type r.2 <> SNMP_ENDOFMIBVIEW).
Proof.
  destruct r as [q vb]. unfold check_result, beyond. cbn [andb]. rewrite bind_ret.
  destruct (snmp_oid_compare _ _ _ _) as [c| | |]; [|done..]. rewrite bind_ret. destruct (0 <=? c).
  - destruct (snmp_set_var_objid _ _) as [vb1|]; [|done]. rewrite set_null_is, !bind_ret. change (type (with_val (Some [0]) 0 (with_type ASN_NULL vb1))) with ASN_NULL.
    change (ASN_NULL =? SNMP_ENDOFMIBVIEW) with false. intros [= <-]. by split; [|left].
  - rewrite bind_ret. destruct (Z.eqb_spec (type vb) SNMP_ENDOFMIBVIEW); intros [= <-]; (split; [done|]); [by left|by right].
Qed.

(** After both checks: it goes on, or may be sent. *)
Lemma checked_shown r r' : check_result false (acm_step decides p ASN_PRIV_RETRY r) = Ret r' -> kept r r' /\ (still r' = false -> shown r'.2).
Proof.
  intros [Hk Hcase]%check_result_cases. split; [by eapply kept_trans; [apply acm_step_kept|]|]. unfold still. intros Hst. apply orb_false_iff in Hst as [E1%Z.eqb_neq E2%Z.eqb_neq].
  destruct Hcase as [E|[-> _]]; [done|]. unfold acm_step in *. destruct ((type r.2 =? ASN_NULL) || (type r.2 =? ASN_PRIV_RETRY)) eqn:Es.
  - apply orb_true_iff in Es as [E%Z.eqb_eq|E%Z.eqb_eq]; done.
  - destruct (Z.eqb_spec (sees decides p (name r.2) (type r.2)) VACM_SUCCESS) as [Ev|Ev]; [by right|done].
Qed.

Lemma results_each l : forall asp x, NoDup l -> own asp l -> check_results false l asp = Ret x ->
  forall i r, i ∈ l -> cell asp i = Some r -> exists r', check_result false r = Ret r'.
Proof.
  induction l as [|i l IH]; intros asp x Hnd Ho E j r Hj Hr; [by apply elem_of_nil in Hj|].
  apply own_cons in Ho as ((q & vb & Hq & Hown & Hv & Hc) & Ho). apply NoDup_cons in Hnd as [Hi Hnd]. cbn [check_results] in E. revert E.
  match goal with |- context [match ?x with Some r => _ | None => Null end] =>
    assert (x = Some (q, vb)) as -> by (rewrite Hq; cbn; rewrite Hown; cbn; by rewrite Hv) end.
  destruct (check_result false (q, vb)) as [r1| | |] eqn:E1; [|done..]. rewrite bind_ret.
  destruct (check_results false l (put i r1 asp)) as [[c asp2]| | |] eqn:E2; [|done..]. intros _.
  apply elem_of_cons in Hj as [->|Hj]; [rewrite Hc in Hr; injection Hr as <-; by exists r1|].
  assert (H1 : changed [i] (fun _ _ _ => True) asp (put i r1 asp)).
  { eapply changed_one; [exact Hc|done|]. eapply kept_own; [|exact (Hown : own_place i (q, vb))]. by apply check_result_cases in E1 as [? _]. }
  apply (IH _ _ Hnd (changed_own _ _ _ _ _ Ho H1) E2 j r Hj). rewrite (ch_same _ _ _ _ H1); [done|]. by intros ->%list_elem_of_singleton.
Qed.

(** All variables may be sent. *)
Definition all_shown asp : Prop := forall vb, vb ∈ a_variables asp -> shown vb.

Lemma turn_any asp1 c asp2 count asp3 : passed asp1 -> netsnmp_check_for_delegated asp1 = Ret false ->
  check_acm acm ASN_PRIV_RETRY asp1 = Ret (c, asp2) -> check_getnext_results asp2 = Ret (count, asp3) ->
  message_ok p n any_errors asp3 /\ netsnmp_check_for_delegated asp3 = Ret false /\ (count = O -> all_shown asp3) /\
  all_waits t p n any_errors (fun i r => rested i r \/ goes_on i r) asp3.
Proof.
  intros Hp Hd E2 E3. pose proof (passed_message _ Hp) as Hm1. pose proof (passed_own _ Hp) as Ho1. pose proof (delegated_none _ Ho1 Hd) as Hnd.
  destruct (passed_slots _ Hp) as (asp & [Hc Hm Hcells] & Hch1 & L1).
  set (l := in_slots asp) in *. rewrite L1 in Ho1, Hnd.
  assert (Hslots : forall a b, treecache a = treecache b -> in_slots a = in_slots b) by (intros a b E; unfold in_slots; by rewrite E).
  unfold check_acm in E2. rewrite L1 in E2.
  destruct (acm_pass decides p acm Hacm l asp1 ASN_PRIV_RETRY (ca_once _ _ Hc) Ho1 (mo_header _ _ _ _ Hm1)) as (c' & asp2' & E2' & Hch2 & He2).
  rewrite E2 in E2'. injection E2' as <- <-. pose proof (message_ok_any _ _ _ _ Hm1 Hch2) as Hm2.
  pose proof (changed_own _ _ _ _ _ Ho1 Hch2) as Ho2. pose proof (shell_fields _ _ (ch_shell _ _ _ _ Hch2)) as (T2 & _).
  assert (L2 : in_slots asp2 = l) by (rewrite <- L1; by apply Hslots). unfold check_getnext_results in E3. rewrite L2, (mo_mode _ _ _ _ Hm2) in E3.
  change (SNMP_MSG_GETNEXT =? SNMP_MSG_GET) with false in E3. cbv iota in E3.
  destruct (results_pass (fun _ r r' => check_result false r = Ret r') l asp2 (ca_once _ _ Hc) Ho2) as (count' & asp3' & E3' & Hch3 & He3 & Hcount).
  { intros i r Hi Hr. destruct (results_each l asp2 _ (ca_once _ _ Hc) Ho2 E3 i r Hi Hr) as [r' E]. exists r'. split_and!; [done| |done].
    by apply check_result_cases in E as [? _]. }
  rewrite E3 in E3'. injection E3' as <- <-. pose proof (message_ok_any _ _ _ _ Hm2 Hch3) as Hm3. split; [done|].
  pose proof (changed_own _ _ _ _ _ Ho2 Hch3) as Ho3. pose proof (shell_fields _ _ (ch_shell _ _ _ _ Hch3)) as (T3 & _).
  assert (L3 : in_slots asp3 = l) by (rewrite <- L2; by apply Hslots). split.
  { apply none_delegated; rewrite L3; [done|]. intros i r3 Hi Hr3. destruct (ch_changed _ _ _ _ Hch3 i Hi) as (r2 & r3' & Hr2 & Hr3' & E & _).
    rewrite Hr3 in Hr3'. injection Hr3' as <-. rewrite (check_result_delegated _ _ E).
    destruct (ch_changed _ _ _ _ Hch2 i Hi) as (r1 & r2' & Hr1 & Hr2' & -> & _). rewrite Hr2 in Hr2'. injection Hr2' as ->.
    rewrite acm_step_first. by apply (Hnd i). }
  assert (Hcell : forall i, (i < n)%nat -> exists r, cell asp3 i = Some r /\ (rested i r \/ goes_on i r) /\ (i ∈ l \/ rested i r)).
  { intros i Hi. destruct (Hcells i Hi) as (r & Hr & [[Hin Hlink]|[Hni Hrest]]).
    - destruct (ch_changed _ _ _ _ Hch1 i Hin) as (r0 & r1 & Hr0 & Hr1 & Hk & _). change (cell asp i = Some r0) in Hr0. rewrite Hr in Hr0. injection Hr0 as <-.
      destruct (ch_changed _ _ _ _ Hch2 i Hin) as (r1' & r2 & Hr1' & Hr2 & -> & _). rewrite Hr1 in Hr1'. injection Hr1' as <-.
      destruct (ch_changed _ _ _ _ Hch3 i Hin) as (r2' & r3 & Hr2' & Hr3 & E & Hown). rewrite Hr2 in Hr2'. injection Hr2' as <-.
      apply checked_shown in E as [Hk3 Hsh]. exists r3. split; [done|]. split; [|by left]. pose proof (kept_trans _ _ _ Hk Hk3) as (Ks & _ & _ & Ki).
      assert (Hsub : is_Some (q_subtree r3.1)).
      { rewrite Ks. pose proof (ca_slots _ _ Hc) as Hs. rewrite Forall_forall in Hs. apply list_elem_of_In, in_concat in Hin as (rs & [s [<- Hsin]]%in_map_iff & Hin).
        destruct (Hs s) as (_ & _ & Hreq); [by apply list_elem_of_In|]. rewrite Forall_forall in Hreq.
        destruct (Hreq i) as (q & vb & k & Hq & _ & Hk' & _); [by apply list_elem_of_In|]. rewrite Hr in Hq. injection Hq as ->. by exists k. }
      assert (Hlink3 : linked i r3) by (split; [done|rewrite Ki; apply Hlink]).
      destruct (still r3) eqn:Est; [by right|]. left. split_and!; [done|by apply Hsh|by right].
    - exists r. rewrite (ch_same _ _ _ _ Hch3), (ch_same _ _ _ _ Hch2), (ch_same _ _ _ _ Hch1) by done. change (cell _ i) with (cell asp i). split; [done|]. split; [by left|by right]. }
  split.
  - intros Hz vb [i Hvb]%list_elem_of_lookup. pose proof Hvb as Hi%lookup_lt_Some. rewrite (mo_length _ _ _ _ Hm3) in Hi.
    destruct (Hcell i Hi) as ([q vb'] & Hr & Hor & Hin). pose proof Hr as [_ Hv]%cell_some. rewrite Hvb in Hv. injection Hv as <-.
    destruct Hor as [(_ & ? & _)|(_ & Hst & _)]; [done|]. destruct Hin as [Hin|(_ & ? & _)]; [|done].
    pose proof (proj1 Hcount Hz i (q, vb) Hin Hr) as Hst'. congruence.
  - constructor; [|done|intros i Hi; destruct (Hcell i Hi) as (r & ? & ? & _); by exists r].
    apply (cache_ok_kept t l asp2); [|by eapply changed_impl, Hch3; intros i r r' _ _ _ [? _]%check_result_cases].
    apply (cache_ok_kept t l asp1); [|eapply changed_impl, Hch2; intros i r r' _ _ _ ->; apply acm_step_kept].
    apply (cache_ok_kept t l (with_reqinfo (Some (a_mode asp)) asp)); [destruct Hc; by constructor|done].
Qed.

(** What the loop leaves: a message that may be sent, or one that waits for
    a handler or that a handler failed for. *)
Lemma loop_any fuel : forall asp1 w1 st asp' w', passed asp1 -> handle_getnext_loop access acm fuel t asp1 w1 = Ret (st, asp', w') ->
  st = 0 /\ message_ok p n any_errors asp' /\ netsnmp_check_for_delegated asp' = Ret false /\ all_shown asp' \/
  passed asp' /\ (st = 0 -> netsnmp_check_for_delegated asp' = Ret true).
Proof.
  induction fuel as [|fuel IH]; intros asp1 w1 st asp' w' Hp E; [done|]. cbn [handle_getnext_loop] in E.
  destruct (netsnmp_check_for_delegated asp1) as [d| | |] eqn:Ed; [|done..]. rewrite bind_ret in E.
  destruct d; [injection E as <- <- <-; by right|].
  destruct (check_acm acm ASN_PRIV_RETRY asp1) as [[c asp2]| | |] eqn:E2; [|done..]. rewrite bind_ret in E.
  destruct (check_getnext_results asp2) as [[count asp3]| | |] eqn:E3; [|done..]. rewrite bind_ret in E.
  destruct (turn_any _ _ _ _ _ Hp Ed E2 E3) as (Hm3 & Hd3 & Hsh & Hw). case_bool_decide as Hz.
  { injection E as <- <- <-. left. split_and!; [done..|by apply Hsh]. }
  destruct (reassign_spec acm t p n memory any_errors linked rested _ reassign_any asp3 Hw) as (asp4 & E4 & Ha4). rewrite E4, bind_ret in E.
  destruct (handle_var_requests access t asp4 w1) as [[[st5 asp5] w5]| | |] eqn:E5; [|done..]. rewrite bind_ret in E.
  pose proof (pass_any _ _ _ _ _ Ha4 E5) as Hp5. destruct (Z.eqb_spec st5 SNMP_ERR_NOERROR) as [->|Hne]; cbn [negb] in E.
  - by apply (IH asp5 w5 st asp' w').
  - injection E as <- <- <-. right. split; [done|]. intros ->. by destruct Hne.
Qed.
End any.

(** ** The start of the search *)

(** The requests of the message [asp] are made in [asp1]. *)
Record starts {M V} (t : list (list (netsnmp_subtree M V))) decides (p : netsnmp_pdu) (asp asp1 : agent_session) : Prop := {
  sa_header : header (a_pdu asp) = header p;
  sa_command : a_command asp = SNMP_MSG_GETNEXT;
  sa_fresh : fresh asp;
  sa_orig : orig_pdu asp = Some p;
  sa_names : Forall good_variable (a_variables asp);
  sa_types : Forall (fun v => type v <> ASN_PRIV_INCL_RANGE) (a_variables asp);
  sa_cache : cache_ok t asp1;
  sa_outer : outer asp1 = outer (unplaced (map forget (a_variables asp)) asp);
  sa_errors : errors asp1 = (0, 0);
  sa_length : length (a_variables asp1) = length (a_variables asp);
  sa_placed : all_placed (length (a_variables asp)) decides t 0 (unplaced (map forget (a_variables asp)) asp) asp1
}.

Lemma start_message {M V} (t : list (list (netsnmp_subtree M V))) decides p asp asp1 : starts t decides p asp asp1 ->
  message_ok p (length (a_variables asp)) no_errors (with_a_mode SNMP_MSG_GETNEXT asp1).
Proof.
  intros [Hp Hcmd Hf Hor _ _ _ Ho He Hl _]. pose proof (outer_fields _ _ Ho) as (Eh & Ec & _ & Eri & Eop & _).
  constructor; [by etransitivity|done|etransitivity; [exact Eh|exact Hp]|done|done|change (is_Some (reqinfo asp1)); rewrite Eri; apply Hf|by etransitivity].
Qed.

(** Where each variable starts: at the first region, from its own on, that is shown. *)
Lemma started {M V} (t : list (list (netsnmp_subtree M V))) decides p asp asp1 : starts t decides p asp asp1 ->
  forall j vb, a_variables asp !! j = Some vb -> let r0 := (no_request, with_val (Some [0]) 0 (with_type ASN_NULL vb)) in
  exists r k0, cell asp1 j = Some r /\ name_fits (name vb) /\ at_region t (name vb) k0 /\
    match next_shown decides p (drop k0 t) k0 with
    | Some k => j ∈ in_slots asp1 /\ exists node, top t k = Some node /\ r = made (unplaced (map forget (a_variables asp)) asp) j k node r0
    | None => (j ∉ in_slots asp1) /\ r = (no_request, with_type SNMP_ENDOFMIBVIEW r0.2)
    end.
Proof.
  intros [Hp Hcmd _ _ Hgood Hinc _ _ _ _ Hall] j vb Hvb. set (asp0 := unplaced _ asp) in *.
  destruct (Hall j) as (r & r' & b & Hr & Hr' & Hpl & Hb); [apply lookup_lt_Some in Hvb; lia|].
  assert (r = (no_request, forget vb)) as ->.
  { apply unplaced_cell in Hr as [E1 E2]. rewrite list_lookup_fmap, Hvb in E2. destruct r as [q v]. cbn in *. by simplify_eq. }
  assert (Efor : forget vb = with_val (Some [0]) 0 (with_type ASN_NULL vb)).
  { unfold forget. rewrite Forall_lookup in Hinc. by rewrite (proj2 (Z.eqb_neq _ _) (Hinc _ _ Hvb)). }
  rewrite Forall_lookup in Hgood. destruct (Hgood _ _ Hvb) as [Hfit _].
  assert (Hs0 : is_search asp0 = true) by (unfold is_search; change (a_command asp0) with (a_command asp); by rewrite Hcmd).
  unfold placed, asks in Hpl. change (a_command asp0) with (a_command asp) in Hpl. rewrite Hs0, Hcmd in Hpl. cbn in Hpl. rewrite Efor in Hpl.
  destruct Hpl as (k0 & Hat & Hpl). rewrite (next_shown_header decides _ p) in Hpl by exact Hp.
  exists r', k0. split_and!; [exact Hr'|exact Hfit|exact Hat|]. destruct (next_shown decides p (drop k0 t) k0) as [k|].
  - destruct Hpl as (-> & node & Hnode & ->). split; [by apply Hb|]. by exists node.
  - destruct Hpl as [-> ->]. split; [|done]. intros Hin. apply Hb in Hin. done.
Qed.

Section start.
Context {M V W : Type} `{Allocator}.
Abbreviation registration := (netsnmp_handler_registration M V).
Abbreviation tree := (list (list (netsnmp_subtree M V))).
Context (table : registration -> list variable_list) (t : tree) (Ht : sorted_regions t).
Context (decides : netsnmp_pdu -> option (list Z) -> bool -> Z) (p : netsnmp_pdu) (Hg : good_tables table t decides p).

(** Past the hidden regions: a search starts, or there is nothing to find. *)
Lemma start_region o k0 : at_region t o k0 ->
  match next_shown decides p (drop k0 t) k0 with
  | Some k => exists node, top t k = Some node /\
      forall r, q_subtree r.1 = Some k -> range_end r.1 = Some (end_a node) -> inclusive r.1 = 0 -> name r.2 = o -> name_fits o ->
        pending table t decides p o r k node
  | None => forall v, ~ sought table t decides p o v
  end.
Proof.
  intros (n0 & E0 & Hlo & Hhi). pose proof (next_shown_spec t Ht decides p k0) as Hn.
  assert (Hpast : forall v, sought table t decides p o v -> exists k', at_region t (name v) k' /\ (k0 <= k')%nat).
  { intros v Hs. pose proof Hs as [(k' & Hat & _) [_ Hlt]]. exists k'. split; [done|]. pose proof Hat as (node' & Hk' & _ & Hv).
    destruct (Nat.le_gt_cases k0 k') as [|Hk]; [done|]. exfalso. pose proof (sr_order _ Ht _ _ _ _ Hk Hk' E0) as Ho.
    pose proof (lex_lt_le _ _ _ Hv (lex_le_trans _ _ _ Ho (lex_le_trans _ _ _ Hlo (Z.lt_le_incl _ _ Hlt)))) as Hx. rewrite lex_refl in Hx. lia. }
  destruct (next_shown decides p (drop k0 t) k0) as [k|].
  - destruct Hn as (Hle & (node & Hk & Hsh) & Hbetween). exists node. split; [done|]. intros r R1 R2 R3 R4 Hf.
    constructor; rewrite ?R4; try done.
    + rewrite lex_refl. lia.
    + destruct (decide (k0 = k)) as [<-|Hne]; [rewrite E0 in Hk; by injection Hk as <-|].
      pose proof (sr_order _ Ht k0 k _ _ ltac:(lia) E0 Hk) as Ho. exact (lex_lt_le _ _ _ Hhi (lex_le_trans _ _ _ Ho (Z.lt_le_incl _ _ (sr_span _ Ht _ _ Hk)))).
    + intros v (_ & _ & Hlt). left. by rewrite R4.
    + intros v Hs. destruct (Hpast v Hs) as (k' & Hat & Hk'). pose proof Hat as (node' & Hn' & Hst & _).
      destruct (lt_eq_lt_dec k' k) as [[Hx| ->]|Hx].
      * destruct (sought_not_hidden table t Ht decides p Hg o v k' Hs Hat). apply Hbetween. lia.
      * rewrite Hk in Hn'. by injection Hn' as <-.
      * pose proof (sr_order _ Ht _ _ _ _ Hx Hk Hn') as Ho. exact (lex_le_trans _ _ _ (Z.lt_le_incl _ _ (sr_span _ Ht _ _ Hk)) (lex_le_trans _ _ _ Ho Hst)).
    + by left.
  - intros v Hs. destruct (Hpast v Hs) as (k' & Hat & Hk'). apply (sought_not_hidden table t Ht decides p Hg o v k' Hs Hat). by apply Hn.
Qed.

Context (n size : nat) (Hsize : forall k, (length (table_at table t k) <= size)%nat).
Implicit Types (asp : agent_session).

Definition passes : nat := (length t + 1) * S size.

Lemma started_asked asp asp1 : starts t decides p asp asp1 -> n = length (a_variables asp) ->
  all_asked table t decides p n size (map name (a_variables asp)) passes (with_a_mode SNMP_MSG_GETNEXT asp1).
Proof.
  intros Hst ->. constructor.
  - destruct (sa_cache _ _ _ _ _ Hst). by constructor.
  - by eapply start_message.
  - intros j Hj. apply lookup_lt_is_Some in Hj as [vb Hvb]. destruct (started _ _ _ _ _ Hst j vb Hvb) as (r & k0 & Hr & Hfit & Hat & Hpl).
    exists r. split; [exact Hr|]. pose proof (start_region (name vb) k0 Hat) as Hreg. destruct (next_shown decides p (drop k0 t) k0) as [k|].
    + destruct Hpl as (Hin & node & Hnode & ->). left. split; [exact Hin|]. intros o Ho. rewrite list_lookup_fmap, Hvb in Ho. injection Ho as <-.
      destruct Hreg as (node' & Hnode' & Hpend). rewrite Hnode in Hnode'. injection Hnode' as <-. pose proof (sa_command _ _ _ _ _ Hst) as Hcmd.
      apply made_asked; [exact Hcmd|done| |].
      * apply Hpend; try done; unfold made, is_search; change (a_command (unplaced _ asp)) with (a_command asp); by rewrite Hcmd.
      * unfold rank, passes. match goal with |- context [left_in _ _ k ?v] => assert (left_in table t k v <= size)%nat by (apply left_size; exact Hsize) end. nia.
    + destruct Hpl as [Hni ->]. right. split; [exact Hni|]. intros o Ho. rewrite list_lookup_fmap, Hvb in Ho. injection Ho as <-.
      split; [split; [done|]; by right|by left].
Qed.
End start.

(** ** The answer *)

(** The name of the request, where the view ends. *)
Definition end_named (vb ovb : variable_list) : variable_list := if type vb =? SNMP_ENDOFMIBVIEW then with_name (name ovb) vb else vb.

Lemma fix_names_spec `{Allocator} ovbs : forall vbs, length vbs = length ovbs -> Forall (fun v => name_fits (name v)) ovbs ->
  fix_names vbs ovbs = Ret (zip_with end_named vbs ovbs).
Proof.
  induction ovbs as [|ovb ovbs IH]; intros [|vb vbs] Hl Hf; [done..|]. apply Forall_cons in Hf as [Hf1 Hf]. cbn [fix_names zip_with]. unfold end_named at 1.
  assert (Es : snmp_set_var_objid vb (name ovb) = Some (with_name (name ovb) vb)).
  { unfold snmp_set_var_objid. assert (Es : (sizeof_oid * len (name ovb) <=? sizeof_name_loc) = true); [|by rewrite Es].
    unfold name_fits, sizeof_oid, sizeof_name_loc, MAX_OID_LEN in *. apply Z.leb_le. unfold sizeof_oid. lia. }
  rewrite Es. injection Hl as Hl. case_match; by rewrite bind_ret, (IH vbs Hl Hf), bind_ret.
Qed.

Lemma fixed `{Allocator} asp p : orig_pdu asp = Some p -> length (a_variables asp) = length (variables (m_body p)) ->
  Forall (fun v => name_fits (name v)) (variables (m_body p)) ->
  exists asp', _fix_endofmibview asp = Ret asp' /\ a_variables asp' = zip_with end_named (a_variables asp) (variables (m_body p)) /\
    outer asp' = outer asp /\ errors asp' = errors asp.
Proof.
  intros Hor Hl Hf. unfold _fix_endofmibview. rewrite Hor. destruct (a_variables asp) as [|vb vbs] eqn:Ev.
  - exists asp. split_and!; [done|by rewrite Ev|done..].
  - rewrite fix_names_spec, bind_ret by done. eexists. done.
Qed.

Lemma end_named_answer {M V} table (t : list (list (netsnmp_subtree M V))) decides p o r ovb : good_tables table t decides p ->
  final table t decides p o r -> name ovb = o -> next_answer table t decides p o (end_named r.2 ovb).
Proof.
  intros Hg [_ [[Hs Hmin]|[Hty Hnone]]] Ho; unfold end_named.
  - pose proof Hs as [(k & _ & Hin) _]. destruct (gt_values _ _ _ _ Hg k r.2 Hin) as (_ & _ & _ & Hne). rewrite (proj2 (Z.eqb_neq _ _) Hne). by left.
  - right. rewrite Hty. cbn. done.
Qed.

Lemma search_sent `{Allocator} p asp : message_ok p (length (variables (m_body p))) no_errors asp -> Forall good_variable (variables (m_body p)) ->
  exists resp, netsnmp_wrap_up_request asp 0 = Ret (Some resp) /\ answers p (zip_with end_named (a_variables asp) (variables (m_body p))) resp.
Proof.
  intros [H1 H2 H3 H4 H5 H6 H7] Hf. destruct (fixed asp p) as (asp1 & Hfix & Hvars & Ho & He); [done..|by eapply Forall_impl; [exact Hf|intros ? []]|].
  pose proof (outer_fields _ _ Ho) as (Eh & Ec & _ & _ & Eo & _). destruct (sent asp asp1 p) as (resp & Es & Hresp).
  - by rewrite H1.
  - by rewrite He.
  - by rewrite Ec, H1.
  - by rewrite Eo.
  - by rewrite Eh.
  - exists resp. by rewrite <- Hvars.
Qed.

(** A message that starts a search. *)
Section search.
Context {M V W : Type} `{Allocator}.
Context (access : M -> netsnmp_mib_handler M V -> netsnmp_handler_registration M V -> Z -> list view -> W -> Z * list answer * bool * W).
Context acm decides K asp (g : agent_registry (M := M) (V := V)) (Hm : good_message acm decides K asp g).
Context (Hcmd : a_command asp = SNMP_MSG_GETNEXT) (Hor : orig_pdu asp = Some (a_pdu asp)).
Context (Hinc : Forall (fun v => type v <> ASN_PRIV_INCL_RANGE) (a_variables asp)).

Lemma search_in_order : sorted_regions (tree_of asp g).
Proof using Hm. destruct (message_regions acm decides K asp g Hm) as [_ Hs]. by apply spans_sorted in Hs as [? _]. Qed.

Lemma search_starts : exists asp1 g1, starts (tree_of asp g) decides (a_pdu asp) asp asp1 /\ forall fuel w,
  handle_pdu access acm fuel asp g w
  = ('(st, a, w) ← ('(st, a, w) ← handle_var_requests access (tree_of asp g) (with_a_mode SNMP_MSG_GETNEXT asp1) w;
                    if negb (st =? 0) then Ret (st, a, w) else handle_getnext_loop access acm fuel (tree_of asp g) a w);
     Ret (Some (st, a, g1, w))).
Proof using Hm Hcmd Hor Hinc.
  unfold handle_pdu.
  destruct (message_prepared acm decides K asp g Hm) as (k & st & asp1 & g1 & -> & Hcol & Hk); [tauto|]. specialize (Hk Hinc) as ->.
  assert (Ea : asked asp = map forget (a_variables asp)) by (unfold asked; by rewrite Hcmd). rewrite Ea in Hcol.
  destruct Hcol as (st' & asp1' & g1' & [= <- <- <-] & Ht & _ & Ho & Hl & Hc & Hres). set (t := tree_of asp g) in *.
  set (asp0 := unplaced (map forget (a_variables asp)) asp) in *.
  assert (E0 : errors asp0 = (0, 0)) by apply (fr_errors _ (gm_fresh _ _ _ _ _ Hm)).
  destruct Hres as [(-> & He & Hall & _)|[_ (E & _)]]; [|change (a_command asp0) with (a_command asp) in E; by rewrite Hcmd in E].
  pose proof (outer_fields _ _ Ho) as (_ & Ec & Ectx & _). change (m_contextName (a_pdu asp0)) with (m_contextName (a_pdu asp)) in *.
  assert (Hl1 : length (a_variables asp1) = length (a_variables asp)) by (rewrite Hl; apply length_map).
  exists asp1, g1. split; [by constructor; try done; [apply Hm|apply Hm|rewrite He]|]. intros fuel w. rewrite bind_ret.
  change (negb (SNMP_ERR_NOERROR =? SNMP_ERR_NOERROR)) with false. cbv iota. rewrite Ectx, Ht. unfold perform_pdu. rewrite Ec.
  change (a_command asp0) with (a_command asp). rewrite Hcmd.
  change (SNMP_MSG_GETNEXT =? SNMP_MSG_GET) with false. change (SNMP_MSG_GETNEXT =? SNMP_MSG_GETNEXT) with true. cbv iota. rewrite bool_decide_true by done.
  destruct (handle_var_requests _ _ _ _) as [[[st a] w']| | |]; [|done..]. rewrite !bind_ret. rewrite andb_true_r.
  change (st =? SNMP_ERR_NOERROR) with (st =? 0). by destruct (negb (st =? 0)).
Qed.
End search.

(** C12: A GETNEXT of handlers that serve tables ends and is answered, each
    variable for itself: with the first instance after its name, in the order of names,
    among those of all regions of the registry that are in view, or with
    [endOfMibView] and its own name when there is none.  Each region is asked
    again while its answers are not in view, and left when it has none: the turns
    that takes are bounded by the regions and the instances of each.  To SNMPv1 an end of the view
    is the error [noSuchName] that points to such a variable. *)
Theorem getnext_next {M V W} `{Allocator}
    (access : M -> netsnmp_mib_handler M V -> netsnmp_handler_registration M V -> Z -> list view -> W -> Z * list answer * bool * W)
    acm decides K table size fuel asp (g : agent_registry (M := M) (V := V)) (w : W) :
  good_message acm decides K asp g -> a_command asp = SNMP_MSG_GETNEXT -> orig_pdu asp = Some (a_pdu asp) ->
  Forall (fun v => type v <> ASN_PRIV_INCL_RANGE) (a_variables asp) ->
  good_tables table (tree_of asp g) decides (a_pdu asp) -> serves_getnext table (tree_of asp g) access ->
  (forall k, (length (table_at table (tree_of asp g) k) <= size)%nat) -> (passes (tree_of asp g) size < fuel)%nat ->
  exists resp g' w' vars, process_request access acm fuel asp g w = Ret (Some (Answered (Some resp) w', g')) /\
    Forall2 (fun vb => next_answer table (tree_of asp g) decides (a_pdu asp) (name vb)) (a_variables asp) vars /\ answers (a_pdu asp) vars resp.
Proof.
  intros Hm Hcmd Hor Hinc Htab Hserve Hsize Hfuel. pose proof (search_in_order acm decides K asp g Hm) as Hsorted.
  destruct (search_starts access acm decides K asp g Hm Hcmd Hor Hinc) as (asp1 & g1 & Hst & Ehandle). unfold process_request. rewrite Ehandle. clear Ehandle.
  set (t := tree_of asp g) in *. assert (Hnames : length (map name (a_variables asp)) = length (a_variables asp)) by apply length_map.
  pose proof (started_asked table t Hsorted decides (a_pdu asp) Htab _ size Hsize asp asp1 Hst eq_refl) as Hasked.
  destruct (handed table t decides (a_pdu asp) Htab access _ size _ Hnames Hserve _ _ w Hasked) as (asp2 & w2 & E2 & _).
  rewrite E2, bind_ret. cbn [negb Z.eqb].
  edestruct (loop_final (M := M) (V := V) (W := W)) as (asp3 & w3 & -> & [Hok Hdel Hcells]).
  all: try (exact Hsorted || exact Htab || exact Hsize || exact Hnames || exact Hserve || exact Hfuel || exact Hasked || exact E2 || apply Hm).
  rewrite !bind_ret. rewrite Hdel, bind_ret. cbv iota. destruct (search_sent (a_pdu asp) asp3 Hok (gm_names _ _ _ _ _ Hm)) as (resp & -> & Hresp).
  rewrite bind_ret. eexists resp, g1, w3, _. split_and!; [done| |exact Hresp]. change (variables (m_body (a_pdu asp))) with (a_variables asp).
  apply Forall2_same_length_lookup_2; [rewrite length_zip_with, (mo_length _ _ _ _ Hok); lia|].
  intros j vb vb' Hvb Hvb'. destruct (Hcells j (name vb)) as ([q v] & [_ Hv]%cell_some & Hfin); [by rewrite list_lookup_fmap, Hvb|].
  rewrite lookup_zip_with, Hv, Hvb in Hvb'. injection Hvb' as <-. by apply (end_named_answer table t decides (a_pdu asp) _ (q, v)).
Qed.

(** ** What a GETNEXT discloses *)

(** An answer is a copy of the message, or has the variables as they are. *)
Lemma sent_any `{Allocator} asp st p resp : orig_pdu asp = Some p -> a_command asp = SNMP_MSG_GETNEXT ->
  length (a_variables asp) = length (variables (m_body p)) -> Forall good_variable (variables (m_body p)) ->
  netsnmp_wrap_up_request asp st = Ret (Some resp) ->
  variables (m_body resp) = variables (m_body p) \/
  st = 0 /\ variables (m_body resp) = zip_with end_named (a_variables asp) (variables (m_body p)).
Proof.
  intros Hor Hcmd Hl Hgood. unfold netsnmp_wrap_up_request. set (asp1 := if negb (st =? 0) && _ then _ else asp).
  assert (H1 : orig_pdu asp1 = Some p /\ a_command asp1 = SNMP_MSG_GETNEXT /\ a_variables asp1 = a_variables asp) by (unfold asp1; by case_match).
  destruct H1 as (Hor1 & Hcmd1 & Hv1). rewrite Hcmd1. change (SNMP_MSG_GETNEXT =? SNMP_MSG_GETNEXT) with true. cbv iota.
  destruct (fixed asp1 p) as (asp2 & -> & Hvars & Ho & _); [done|by rewrite Hv1|by eapply Forall_impl; [exact Hgood|intros ? []]|].
  rewrite bind_ret. apply outer_fields in Ho as (_ & Hc2 & _ & _ & Hor2 & _). rewrite Hor1 in Hor2. rewrite Hcmd1 in Hc2.
  unfold v1_answer. rewrite Hc2. change (SNMP_MSG_GETNEXT =? SNMP_MSG_SET) with false. cbv iota.
  destruct (negb (m_version (a_pdu asp2) =? _)); [|destruct (last_exception _ _)].
  2: { cbn [SNMP_ERR_NOSUCHNAME SNMP_ERR_NOERROR Z.eqb]. change (orig_pdu (with_error _ _ asp2)) with (orig_pdu asp2). rewrite Hor2. intros [= <-]. by left. }
  all: destruct (Z.eqb_spec st SNMP_ERR_NOERROR) as [->|Hne]; [intros [= <-]; right; split; [done|]|rewrite Hor2; intros [= <-]; by left].
  all: by rewrite <- Hv1, <- Hvars.
Qed.

Lemma started_served {M V} (t : list (list (netsnmp_subtree M V))) decides p asp asp1 : starts t decides p asp asp1 ->
  all_served t p (length (a_variables asp)) any_errors linked (rested decides p) (with_a_mode SNMP_MSG_GETNEXT asp1).
Proof.
  intros Hst. constructor; [destruct (sa_cache _ _ _ _ _ Hst); by constructor|destruct (start_message _ _ _ _ _ Hst); by constructor|]. intros i Hi.
  apply lookup_lt_is_Some in Hi as [vb Hvb]. destruct (started _ _ _ _ _ Hst i vb Hvb) as (r & k0 & Hr & _ & _ & Hpl).
  exists r. split; [exact Hr|]. destruct (next_shown decides p (drop k0 t) k0) as [k|].
  - destruct Hpl as (Hin & node & _ & ->). left. split; [exact Hin|]. unfold made, linked, own_place. by destruct (mode_is_set _).
  - destruct Hpl as [Hni ->]. right. split; [exact Hni|]. split; [done|]. split; [by left|by left].
Qed.

Lemma end_named_shown decides p vb ovb : shown decides p vb -> shown decides p (end_named vb ovb).
Proof. unfold shown, end_named. intros Hs. destruct (Z.eqb_spec (type vb) SNMP_ENDOFMIBVIEW) as [E|E]; [by left|done]. Qed.

(** *** A GETNEXT that is delayed *)

Section held.
Context {M V W : Type} `{Allocator}.
Context (access : M -> netsnmp_mib_handler M V -> netsnmp_handler_registration M V -> Z -> list view -> W -> Z * list answer * bool * W).
Context (acm : netsnmp_pdu -> option (list Z) -> bool -> outcome Z) (asp : agent_session) (g : agent_registry (M := M) (V := V)) (w : W).

(** What [netsnmp_check_outstanding_agent_requests] does with a message no
    handler works on any more. *)
Definition resume (fuel : nat) (asp : agent_session) (w : W) : outcome (resumed (W := W)) :=
  asp ← netsnmp_check_all_requests_status asp 0; check_delayed_request access acm fuel (tree_of asp g) asp w.

(** The status that the loop returns meanwhile. *)
Definition resumed_status (fuel : nat) (asp : agent_session) (w : W) : outcome Z :=
  asp ← netsnmp_check_all_requests_status asp 0;
  asp ← netsnmp_check_all_requests_status asp 0;
  '(st, _, _) ← handle_getnext_loop access acm fuel (tree_of asp g) asp w; Ret st.

(** The message [asp] while it is delegated: handlers write any answers into
    its requests, at any time, and it goes on and is delegated again. *)
Inductive held : agent_session -> W -> Prop :=
  | held_first fuel asp1 w1 g1 : process_request access acm fuel asp g w = Ret (Some (Delayed asp1 w1, g1)) -> held asp1 w1
  | held_written asp1 w1 i r a w2 : held asp1 w1 -> i ∈ in_slots asp1 -> cell asp1 i = Some r -> held (put i (answered r (Some a)) asp1) w2
  | held_again fuel asp1 w1 asp2 w2 : held asp1 w1 -> resume fuel asp1 w1 = Ret (Delayed asp2 w2) -> held asp2 w2.

(** The answer, at once or after delays; [no_failure] says that no handler
    failed in the last pass after a delay. *)
Inductive answered_with (resp : netsnmp_pdu) : Prop :=
  | answered_at_once fuel g' w' : process_request access acm fuel asp g w = Ret (Some (Answered (Some resp) w', g')) -> answered_with resp
  | answered_later fuel asp1 w1 w' : held asp1 w1 -> resumed_status fuel asp1 w1 = Ret 0 ->
      resume fuel asp1 w1 = Ret (Answered (Some resp) w') -> answered_with resp.

Context decides K (Hm : good_message acm decides K asp g) (Hcmd : a_command asp = SNMP_MSG_GETNEXT) (Hor : orig_pdu asp = Some (a_pdu asp)).
Context (Hinc : Forall (fun v => type v <> ASN_PRIV_INCL_RANGE) (a_variables asp)).
Local Abbreviation passed := (passed decides (tree_of asp g) (a_pdu asp) (length (a_variables asp))).
Local Abbreviation loop_any := (loop_any access acm decides (gm_acm _ _ _ _ _ Hm) (tree_of asp g) (search_in_order acm decides K asp g Hm)
  (a_pdu asp) _ (gm_memory _ _ _ _ _ Hm)).

(** The regions are found by the context, which stays. *)
Lemma passed_tree asp1 : passed asp1 -> tree_of asp1 g = tree_of asp g.
Proof. intros Hp%passed_message. unfold tree_of.
  by change (m_contextName (a_pdu asp1)) with (m_contextName (header (a_pdu asp1))); rewrite (mo_header _ _ _ _ Hp). Qed.

Lemma shown_sent st asp1 resp : message_ok (a_pdu asp) (length (a_variables asp)) any_errors asp1 -> (st = 0 -> all_shown decides (a_pdu asp) asp1) ->
  netsnmp_wrap_up_request asp1 st = Ret (Some resp) ->
  variables (m_body resp) = a_variables asp \/ Forall (shown decides (a_pdu asp)) (variables (m_body resp)).
Proof using Hm.
  intros [H1 _ _ H4 _ _ H7] Hsh E. apply (sent_any _ _ (a_pdu asp)) in E as [E|[-> E]]; [by left|right|done|done|done|apply Hm].
  rewrite E. apply Forall_lookup. intros j vb Hj. rewrite lookup_zip_with in Hj. destruct (a_variables asp1 !! j) as [v|] eqn:Ev; [|done].
  destruct (variables (m_body (a_pdu asp)) !! j); [|done]. injection Hj as <-. apply end_named_shown, Hsh; [done|]. by eapply list_elem_of_lookup_2.
Qed.

(** A message that goes on: its loop, and what becomes of it. *)
Lemma resume_inv fuel asp1 w1 x : passed asp1 -> resume fuel asp1 w1 = Ret x ->
  exists asp2 st asp3 w3, passed asp2 /\ handle_getnext_loop access acm fuel (tree_of asp g) asp2 w1 = Ret (st, asp3, w3) /\
    resumed_status fuel asp1 w1 = Ret st /\
    (netsnmp_check_for_delegated asp3 = Ret true /\ x = Delayed asp3 w3 \/
     netsnmp_check_for_delegated asp3 = Ret false /\ exists resp, netsnmp_wrap_up_request asp3 0 = Ret resp /\ x = Answered resp w3).
Proof using Type.
  intros Hp E. unfold resume, resumed_status in *. apply bind_Ret_inv in E as (asp1' & E1 & E). rewrite E1, bind_ret.
  pose proof E1 as (st1 & i1 & ->)%checked_errors. pose proof (passed_error _ _ _ _ st1 i1 _ Hp) as Hp1.
  unfold check_delayed_request in E. rewrite (mo_mode _ _ _ _ (passed_message _ _ _ _ _ Hp1)) in E.
  change ((SNMP_MSG_GETNEXT =? SNMP_MSG_GETBULK) || (SNMP_MSG_GETNEXT =? SNMP_MSG_GETNEXT)) with true in E. cbv iota in E.
  apply bind_Ret_inv in E as (asp2 & E2 & E). rewrite E2, bind_ret. pose proof E2 as (st2 & i2 & ->)%checked_errors.
  pose proof (passed_error _ _ _ _ st2 i2 _ Hp1) as Hp2. rewrite (passed_tree _ Hp1) in E. rewrite (passed_tree _ Hp2).
  apply bind_Ret_inv in E as ([[st asp3] w3] & E3 & E). rewrite E3, bind_ret. apply bind_Ret_inv in E as (d & Ed & E).
  eexists _, st, asp3, w3. split_and!; [exact Hp2|exact E3|done|]. destruct d; [left; by injection E as <-|right].
  apply bind_Ret_inv in E as (resp & Ew & E). injection E as <-. split; [done|]. by exists resp.
Qed.

(** The first pass, and the loop. *)
Lemma first_inv fuel x g1 : process_request access acm fuel asp g w = Ret (Some (x, g1)) ->
  exists st asp3 w3, (st = 0 /\ message_ok (a_pdu asp) (length (a_variables asp)) any_errors asp3 /\
      netsnmp_check_for_delegated asp3 = Ret false /\ all_shown decides (a_pdu asp) asp3 \/
      passed asp3 /\ (st = 0 -> netsnmp_check_for_delegated asp3 = Ret true)) /\
    (netsnmp_check_for_delegated asp3 = Ret true /\ x = Delayed (with_status st asp3) w3 \/
     netsnmp_check_for_delegated asp3 = Ret false /\ exists resp, netsnmp_wrap_up_request asp3 st = Ret resp /\ x = Answered resp w3).
Proof using Hm Hcmd Hor Hinc.
  destruct (search_starts access acm decides K asp g Hm Hcmd Hor Hinc) as (asp1 & g2 & Hst & Ehandle). unfold process_request. rewrite Ehandle.
  pose proof (started_served _ _ _ _ _ Hst) as Ha. intros E. apply bind_Ret_inv in E as (y & Ey & E).
  apply bind_Ret_inv in Ey as ([[st asp3] w3] & E2 & Ey). injection Ey as <-. cbv beta iota in E. apply bind_Ret_inv in E as (d & Ed & E).
  exists st, asp3, w3. split.
  - apply bind_Ret_inv in E2 as ([[st2 asp2] w2] & Eh & E2). eapply pass_any in Eh; [|exact Ha].
    destruct (Z.eqb_spec st2 0) as [->|Hne]; cbn [negb] in E2; [exact (loop_any fuel asp2 w2 st asp3 w3 Eh E2)|].
    injection E2 as <- <- <-. right. split; [exact Eh|done].
  - destruct d; [left; by injection E as <-|right]. apply bind_Ret_inv in E as (resp & Ew & E). injection E as <- <-. split; [done|]. by exists resp.
Qed.

(** What waits for a handler has been through a pass. *)
Lemma held_passed asp1 w1 : held asp1 w1 -> passed asp1.
Proof using Hm Hcmd Hor Hinc.
  induction 1 as [fuel asp1 w1 g1 E|asp1 w1 i r a w2 _ IH Hi Hr|fuel asp1 w1 asp2 w2 _ IH E].
  - apply first_inv in E as (st & asp3 & w3 & Hst & [[Hd E]|[_ (resp & _ & E)]]); [|done]. injection E as -> ->.
    apply passed_error. destruct Hst as [(_ & _ & Hd' & _)|[Hp _]]; [congruence|done].
  - by apply passed_written.
  - apply (resume_inv _ _ _ _ IH) in E as (asp0 & st & asp3 & w3 & Hp & El & _ & [[Hd E]|[_ (resp & _ & E)]]); [|done]. injection E as -> ->.
    apply loop_any in El as [(_ & _ & Hd' & _)|[Hp3 _]]; [congruence|done|done].
Qed.

(** Whatever the handlers do: an answer repeats the message, or has only what is in view. *)
Lemma getnext_shown resp : answered_with resp ->
  variables (m_body resp) = a_variables asp \/ Forall (shown decides (a_pdu asp)) (variables (m_body resp)).
Proof using Hm Hcmd Hor Hinc.
  intros [fuel g' w' E|fuel asp1 w1 w' Hh Hst E].
  - apply first_inv in E as (st & asp3 & w3 & Hst & [[_ E]|[Hd (r & Ew & E)]]); [done|]. injection E as <- <-.
    destruct Hst as [(-> & Hmsg & _ & Hsh)|[Hp Hw]].
    + by apply (shown_sent 0 asp3).
    + apply (shown_sent st asp3); [by apply passed_message in Hp| |done]. intros ->. specialize (Hw eq_refl). congruence.
  - apply held_passed in Hh. apply (resume_inv _ _ _ _ Hh) in E as (asp2 & st & asp3 & w3 & Hp & El & Est & [[_ E]|[Hd (r & Ew & E)]]); [done|].
    injection E as <- <-. rewrite Hst in Est. injection Est as <-. apply loop_any in El as [(_ & Hmsg & _ & Hsh)|[_ Hw]]; [|specialize (Hw eq_refl); congruence|done].
    by apply (shown_sent 0 asp3).
Qed.
End held.


(** ** The table of the samples *)

Section next_samples.
#[local] Existing Instance small_alloc.
Abbreviation sample_tree := (netsnmp_subtree_find_first None sample_registry).

Abbreviation sample_keys := [key_of_registration sample_registration; root 0; root 1; root 2].

Definition sample_getnext : agent_session :=
  sample_message SNMP_MSG_GETNEXT [asks_for [1; 3; 6]; asks_for [1; 3; 6; 1; 1]; asks_for [1; 3; 6; 1; 4]].

(** The first instance that is after, of a table in order. *)
Lemma first_after T r : StronglySorted (fun v v' => lex (name v) (name v') < 0) T ->
  match list_find (fun v => wanted SNMP_MSG_GETNEXT r v = true) T with
  | Some (_, v) => v ∈ T /\ after r v /\ (forall v', v' ∈ T -> after r v' -> lex (name v) (name v') <= 0)
  | None => forall v, v ∈ T -> ~ after r v
  end.
Proof.
  assert (Hw : forall v, wanted SNMP_MSG_GETNEXT r v = true <-> after r v).
  { intros v. unfold wanted. change (SNMP_MSG_GETNEXT =? SNMP_MSG_GET) with false. cbv iota. apply bool_decide_eq_true. }
  induction 1 as [|v T _ IH Hmin]; cbn [list_find]; [intros v Hv; by apply elem_of_nil in Hv|].
  destruct (decide (wanted SNMP_MSG_GETNEXT r v = true)) as [Hv|Hv].
  - split_and!; [by left|by apply Hw|]. intros v' [->|Hv']%elem_of_cons _; [rewrite lex_refl; lia|].
    rewrite Forall_forall in Hmin. specialize (Hmin v' Hv'). lia.
  - rewrite Hw in Hv. destruct (list_find _ T) as [[i v1]|]; cbn.
    + destruct IH as (? & ? & Hfirst). split_and!; [by right|done|]. intros v' [->|Hv']%elem_of_cons; [done|by apply Hfirst].
    + intros v' [->|Hv']%elem_of_cons; [done|by apply IH].
Qed.

Lemma sample_in_table k v : v ∈ table_at sample_table sample_tree k -> k = 2%nat /\ v ∈ [instance_of 1; instance_of 2; instance_of 4].
Proof. rewrite sample_table_at. case_bool_decide; [done|]. by intros ?%elem_of_nil. Qed.

(** One of the three instances. *)
Ltac sample_instance Hv := repeat (apply elem_of_cons in Hv as [->|Hv]); [| | |by apply elem_of_nil in Hv].

Lemma sample_next_tables : good_tables sample_table (tree_of sample_getnext sample_registry) sample_decides (a_pdu sample_getnext).
Proof.
  constructor.
  - exact sample_shared.
  - intros k v [_ Hv]%sample_in_table. by sample_instance Hv.
  - intros k v v' [_ Hv]%sample_in_table [_ Hv']%sample_in_table. sample_instance Hv; by sample_instance Hv'.
  - intros k v Hv. destruct (sample_in_table k v Hv) as [-> Hv']. exists 2%nat. split; [|done]. eexists. split; [vm_compute; reflexivity|]. by sample_instance Hv'.
  - intros k node v E Hh [-> _]%sample_in_table. vm_compute in E. injection E as <-. by vm_compute in Hh.
  - right. intros k node v E [-> Hv]%sample_in_table. vm_compute in E. injection E as <-. by sample_instance Hv.
Qed.

Lemma getnext_next_witness : exists resp g' w' vars,
  process_request sample_access sample_acm 25 sample_getnext sample_registry [] = Ret (Some (Answered (Some resp) w', g')) /\
  Forall2 (fun vb => next_answer sample_table (tree_of sample_getnext sample_registry) sample_decides (a_pdu sample_getnext) (name vb))
    (a_variables sample_getnext) vars /\
  answers (a_pdu sample_getnext) vars resp.
Proof.
  apply (getnext_next sample_access sample_acm sample_decides sample_keys sample_table 3).
  - apply sample_message_good; [|cbn; lia]. repeat constructor; unfold name_fits, len; cbn; lia.
  - reflexivity.
  - reflexivity.
  - repeat constructor; done.
  - exact sample_next_tables.
  - intros k node rs w. apply (sample_serves SNMP_MSG_GETNEXT nexted); [reflexivity|..].
    + intros r (H1 & H2 & H3). split_and!; [done..|]. right. split_and!; [done|done|]. intros v Hv. by apply elem_of_nil in Hv.
    + intros r reginfo (H1 & H2 & H3) Et. split_and!; [done|done|done|]. unfold serve. cbn [answered snd d_var]. rewrite Et.
      pose proof (first_after [instance_of 1; instance_of 2; instance_of 4] r ltac:(repeat constructor; done)) as Hf.
      change (wanted SNMP_MSG_GETNEXT (unprocess r)) with (wanted SNMP_MSG_GETNEXT r).
      destruct (list_find _ _) as [[i v]|]; [by left|]. by right.
  - intros k. change (tree_of sample_getnext sample_registry) with sample_tree. rewrite sample_table_at. case_bool_decide; cbn; lia.
  - vm_compute. lia.
Defined.

(** What it answers: the instance that is not in view is passed over. *)
Lemma sample_nexted : (r ← process_request sample_access sample_acm 25 sample_getnext sample_registry [];
    match r with Some (Answered (Some resp) _, _) => Ret (map (fun v => (name v, type v)) (variables (m_body resp))) | _ => Null end)
  = Ret [([1; 3; 6; 1; 1], ASN_INTEGER); ([1; 3; 6; 1; 4], ASN_INTEGER); ([1; 3; 6; 1; 4], SNMP_ENDOFMIBVIEW)].
Proof. vm_compute. reflexivity. Qed.

(** The same under the tables of vacm.c: the view of a user includes 1.3.6.1
    but for 1.3.6.1.2. *)
Definition sample_tables : vacm := {|
  viewList := [family sample_name [1; 3; 6; 1] [] SNMP_VIEW_INCLUDED; family sample_name [1; 3; 6; 1; 2] [] SNMP_VIEW_EXCLUDED];
  accessList := [VacmProps.sample_access [] 3 1 CONTEXT_MATCH_EXACT]; groupList := [sample_group 3];
  Vacm.context_subtrees := [(Some [], true)] |}.

Lemma sample_tables_ok : vacm_ok sample_tables.
Proof.
  destruct sample_vacm_ok as [_ Hg Ha]. constructor; [|exact Hg|exact Ha].
  repeat constructor; apply new_entry_ok; (exact sample_name_ok || by vm_compute).
Qed.

Definition nobody (_ : netsnmp_pdu) : option (list Z) := None.
Abbreviation sample_callback := (vacm_in_view_callback sample_tables usm_services nobody).

Definition table_decides (p : netsnmp_pdu) (o : option (list Z)) (check_subtree : bool) : Z :=
  match sample_callback p o check_subtree with Ret z => z | _ => VACM_NOACCESS end.

Lemma callback_decides p o b : sample_callback p o b = Ret (table_decides (header p) o b).
Proof.
  unfold table_decides. change (sample_callback (header p) o b) with (sample_callback p o b). unfold vacm_in_view_callback, vacm_in_view.
  destruct (vacm_check_view_returns sample_tables (security_name usm_services nobody p) (request_of p) o b
    (if (r_command (request_of p) =? SNMP_MSG_GET) || (r_command (request_of p) =? SNMP_MSG_GETNEXT) || (r_command (request_of p) =? SNMP_MSG_GETBULK)
     then VACM_VIEW_READ else if r_command (request_of p) =? SNMP_MSG_SET then VACM_VIEW_WRITE
     else if (r_command (request_of p) =? SNMP_MSG_TRAP) || (r_command (request_of p) =? SNMP_MSG_TRAP2)
             || (r_command (request_of p) =? SNMP_MSG_INFORM) then VACM_VIEW_NOTIFY else VACM_VIEW_READ) sample_tables_ok) as [z E].
  by rewrite E.
Qed.

Definition secure_getnext : agent_session :=
  let p := {|
    m_body := m_body (a_pdu sample_getnext); m_version := SNMP_VERSION_3; m_msgid := 41; m_transid := 0; m_community := [];
    m_securityModel := 3; m_securityLevel := 2; m_contextEngineID := []; m_contextName := None; m_securityEngineID := [];
    m_securityName := Some sample_name; m_securityStateRef := None |} in {|
  a_mode := SNMP_MSG_GETNEXT; a_pdu := p; orig_pdu := Some p; a_status := 0; a_index := 0; a_oldmode := 0; requests := []; treecache := [];
  treecache_len := 0; cache_store := []; reqinfo := Some 0 |}.

(** A GETNEXT for one variable, whose handler answers later. *)
Definition secure_one : agent_session :=
  let p := with_m_body (with_variables [asks_for [1; 3; 6; 1; 1]] (m_body (a_pdu secure_getnext))) (a_pdu secure_getnext) in
  {| a_mode := SNMP_MSG_GETNEXT; a_pdu := p; orig_pdu := Some p; a_status := 0; a_index := 0; a_oldmode := 0; requests := []; treecache := [];
     treecache_len := 0; cache_store := []; reqinfo := Some 0 |}.

(** The answer to any request, delegated or with an instance. *)
Definition says (d x : Z) (vb : variable_list) : answer :=
  {| d_delegated := d; d_processed := 1 - d; d_inclusive := 0; d_status := 0; d_var := if d =? 1 then vb else instance_of x |}.

(** It delegates at first, and then does as [next] does. *)
Definition later_access (next : Z -> netsnmp_mib_handler Z Z -> netsnmp_handler_registration Z Z -> Z -> list view -> list Z -> Z * list answer * bool * list Z)
    (nh : Z) (h : netsnmp_mib_handler Z Z) (reginfo : netsnmp_handler_registration Z Z) (mode : Z) (rs : list view) (w : list Z)
    : Z * list answer * bool * list Z :=
  if (nh =? 1) && bool_decide (w = []) then (0, map (fun r => says 1 0 r.2) rs, false, [1]) else next nh h reginfo mode rs w.

(** It fails, with an instance that is not in view. *)
Definition failing_access (nh : Z) (h : netsnmp_mib_handler Z Z) (reginfo : netsnmp_handler_registration Z Z) (mode : Z) (rs : list view) (w : list Z)
    : Z * list answer * bool * list Z :=
  if nh =? 1 then (SNMP_ERR_GENERR, map (fun r => says 0 2 r.2) rs, false, w) else sample_access nh h reginfo mode rs w.

Section later.
Context (next : Z -> netsnmp_mib_handler Z Z -> netsnmp_handler_registration Z Z -> Z -> list view -> list Z -> Z * list answer * bool * list Z).

(** Delegated, and with the answer that comes later: 1.3.6.1.2, which is not in view. *)
Definition secure_held : agent_session :=
  match process_request (later_access next) sample_callback 25 secure_one sample_registry [] with
  | Ret (Some (Delayed asp _, _)) => asp
  | _ => secure_one
  end.

Definition secure_written : agent_session :=
  match cell secure_held 0 with Some r => put 0 (answered r (Some (says 0 2 r.2))) secure_held | None => secure_held end.

Definition secure_answer : option netsnmp_pdu :=
  match resume (later_access next) sample_callback sample_registry 25 secure_written [1] with Ret (Answered resp _) => resp | _ => None end.
End later.

Lemma held_put access acm asp (g : agent_registry (M := Z) (V := Z)) (w : list Z) fuel x : process_request access acm fuel asp g w = x ->
  match x with
  | Ret (Some (Delayed asp _, _)) => match cell asp 0 with Some _ => existsb (Nat.eqb 0) (in_slots asp) | None => false end
  | _ => false
  end = true ->
  let asp1 := match x with Ret (Some (Delayed asp _, _)) => asp | _ => asp end in
  held access acm asp g w (match cell asp1 0 with Some r => put 0 (answered r (Some (says 0 2 r.2))) asp1 | None => asp1 end) [1].
Proof.
  intros E. destruct x as [[[[asp1 w1|resp w1] g1]|]| | |]; try discriminate.
  destruct (cell asp1 0) as [r|] eqn:Hr; [|discriminate]. intros (k & Hk & <-%Nat.eqb_eq)%existsb_exists. apply list_elem_of_In in Hk. cbv zeta.
  rewrite Hr. exact (held_written _ _ _ _ _ asp1 w1 0 r _ [1] (held_first _ _ _ _ _ _ _ _ _ E) Hk Hr).
Qed.

Lemma later_held : held (later_access sample_access) sample_callback secure_one sample_registry [] (secure_written sample_access) [1].
Proof. refine (held_put _ _ _ _ _ 25 _ eq_refl _). vm_compute. reflexivity. Qed.

Lemma failing_held : held (later_access failing_access) sample_callback secure_one sample_registry [] (secure_written failing_access) [1].
Proof. refine (held_put _ _ _ _ _ 25 _ eq_refl _). vm_compute. reflexivity. Qed.
Definition later_answer : netsnmp_pdu := default (a_pdu secure_one) (secure_answer sample_access).
Definition failing_answer : netsnmp_pdu := default (a_pdu secure_one) (secure_answer failing_access).

Lemma later_resumed : resumed_status (later_access sample_access) sample_callback sample_registry 25 (secure_written sample_access) [1] = Ret 0 /\
  resume (later_access sample_access) sample_callback sample_registry 25 (secure_written sample_access) [1] = Ret (Answered (Some later_answer) [1]).
Proof. split; vm_compute; reflexivity. Qed.


(** The answer passes over the instance that is not in view. *)
Lemma later_answered : map (fun v => (name v, type v)) (variables (m_body later_answer)) = [([1; 3; 6; 1; 4], ASN_INTEGER)].
Proof. vm_compute. reflexivity. Qed.

(** After a delay the error of a handler is lost: the answer says that there is
    none, and has the instance that is not in view. *)
Lemma delayed_failure_discloses :
  held (later_access failing_access) sample_callback secure_one sample_registry [] (secure_written failing_access) [1] /\
  resumed_status (later_access failing_access) sample_callback sample_registry 25 (secure_written failing_access) [1] = Ret SNMP_ERR_GENERR /\
  resume (later_access failing_access) sample_callback sample_registry 25 (secure_written failing_access) [1] = Ret (Answered (Some failing_answer) [1]) /\
  variables (m_body failing_answer) = [instance_of 2] /\ errstat (m_body failing_answer) = SNMP_ERR_NOERROR /\
  sample_callback (a_pdu secure_one) (Some [1; 3; 6; 1; 2]) false = Ret VACM_NOTINVIEW.
Proof. split; [exact failing_held|]. split_and!; vm_compute; reflexivity. Qed.

(** What it answers. *)
Lemma secure_nexted : (r ← process_request sample_access sample_callback 25 secure_getnext sample_registry [];
    match r with Some (Answered (Some resp) _, _) => Ret (map (fun v => (name v, type v)) (variables (m_body resp))) | _ => Null end)
  = Ret [([1; 3; 6; 1; 1], ASN_INTEGER); ([1; 3; 6; 1; 4], ASN_INTEGER); ([1; 3; 6; 1; 4], SNMP_ENDOFMIBVIEW)].
Proof. vm_compute. reflexivity. Qed.

(** ** A search that does not end *)

(** A turn of the loop that is followed by another. *)
Definition one_turn (t : list (list (netsnmp_subtree Z Z))) (asp : agent_session) (w : list Z) : outcome (option (agent_session * list Z)) :=
  waits ← netsnmp_check_for_delegated asp;
  if (waits : bool) then Ret None
  else
    '(_, asp) ← check_acm sample_acm ASN_PRIV_RETRY asp;
    '(count, asp) ← check_getnext_results asp;
    if bool_decide (count = O) then Ret None
    else
      asp ← netsnmp_reassign_requests sample_acm t asp;
      '(status, asp, w) ← handle_var_requests sample_access t asp w;
      if negb (status =? SNMP_ERR_NOERROR) then Ret None else Ret (Some (asp, w)).

Lemma loop_turn fuel t asp w asp' w' : one_turn t asp w = Ret (Some (asp', w')) ->
  handle_getnext_loop sample_access sample_acm (S fuel) t asp w = handle_getnext_loop sample_access sample_acm fuel t asp' w'.
Proof.
  unfold one_turn. cbn [handle_getnext_loop]. destruct (netsnmp_check_for_delegated asp) as [[]| | |]; [done| |done..]. rewrite !bind_ret.
  destruct (check_acm _ _ _) as [[c asp1]| | |]; [|done..]. rewrite !bind_ret.
  destruct (check_getnext_results asp1) as [[count asp2]| | |]; [|done..]. rewrite !bind_ret. case_bool_decide; [done|].
  destruct (netsnmp_reassign_requests _ _ _) as [asp3| | |]; [|done..]. rewrite !bind_ret.
  destruct (handle_var_requests _ _ _ _) as [[[st asp4] w4]| | |]; [|done..]. rewrite !bind_ret. destruct (negb _); [done|]. by intros [= -> ->].
Qed.

(** The handler is also registered for the instance that is not in view: its
    first region ends there. *)
Definition split_registry : agent_registry (M := Z) (V := Z) :=
  match netsnmp_register_handler 2 3 false (with_rootoid [1; 3; 6; 1; 2] sample_registration) sample_registry with
  | Ret (Some (_, g)) => g
  | _ => sample_registry
  end.

Abbreviation split_tree := (netsnmp_subtree_find_first None split_registry).

Definition split_getnext : agent_session := sample_message SNMP_MSG_GETNEXT [asks_for [1; 3; 6; 1; 1]].

Definition split_prepared : agent_session * agent_registry :=
  match prepare sample_acm split_getnext split_registry with Ret (Some (_, _, asp, g)) => (asp, g) | _ => (split_getnext, split_registry) end.

Definition split_handled : agent_session :=
  match handle_var_requests sample_access split_tree (with_a_mode SNMP_MSG_GETNEXT split_prepared.1) [] with Ret (_, asp, _) => asp | _ => split_getnext end.

Definition split_turned : agent_session := match one_turn split_tree split_handled [] with Ret (Some (asp, _)) => asp | _ => split_getnext end.

Lemma split_turns fuel : handle_getnext_loop sample_access sample_acm fuel split_tree split_turned [] = Spin.
Proof.
  assert (E : one_turn split_tree split_turned [] = Ret (Some (split_turned, []))) by (vm_compute; reflexivity).
  induction fuel as [|fuel IH]; [done|]. by rewrite (loop_turn _ _ _ _ _ _ E).
Qed.

(** Once an answer was beyond the region, the request stays inclusive: a
    handler that gives the instance of the name itself, when it is not in view, is asked for it
    forever. *)
Lemma inclusive_retry_spins fuel : process_request sample_access sample_acm fuel split_getnext split_registry [] = Spin.
Proof.
  assert (Ep : prepare sample_acm split_getnext split_registry = Ret (Some (O, 0, split_prepared.1, split_prepared.2))) by (vm_compute; reflexivity).
  assert (Ec : a_command split_prepared.1 = SNMP_MSG_GETNEXT) by (vm_compute; reflexivity).
  assert (Et : netsnmp_subtree_find_first (m_contextName (a_pdu split_prepared.1)) split_prepared.2 = split_tree) by (vm_compute; reflexivity).
  assert (Eh : handle_var_requests sample_access split_tree (with_a_mode SNMP_MSG_GETNEXT split_prepared.1) [] = Ret (0, split_handled, []))
    by (vm_compute; reflexivity).
  assert (E1 : one_turn split_tree split_handled [] = Ret (Some (split_turned, []))) by (vm_compute; reflexivity).
  unfold process_request, handle_pdu. rewrite Ep, bind_ret. cbn [negb Z.eqb SNMP_ERR_NOERROR]. rewrite Et. unfold perform_pdu. rewrite Ec.
  change (SNMP_MSG_GETNEXT =? SNMP_MSG_GET) with false. change (SNMP_MSG_GETNEXT =? SNMP_MSG_GETNEXT) with true. cbv iota.
  rewrite bool_decide_true by done. rewrite Eh, bind_ret. cbn [negb Z.eqb andb SNMP_ERR_NOERROR].
  destruct fuel as [|fuel]; [done|]. by rewrite (loop_turn _ _ _ _ _ _ E1), split_turns.
Qed.
End next_samples.
